(* ===== verification/_CoqProject ===== *)
-Q . S2P
Prelude.v
PyBytes.v
Sha256.v
PyVal.v
World.v
Instrumentation.v
PyList.v
PyNum.v
Aggregate.v
Tradeoff.v
PaperStats.v
PaperStatsProps.v
PaperCells.v
Dominance.v
NetemProxy.v
Aead.v
Backends.v
OqsAdapter.v
KatVectors.v
NistKat.v
Base.v
Configs.v
SignatureModel.v
ConfigsLaws.v
Toy.v
ConfigsProps.v
Legacy.v
Conformance.v
Streaming.v
StreamingMessages.v
Http.v
Profiles.v
PrimitiveBench.v
PrimitiveBenchProps.v
HandshakeAuth.v
SecureApp.v
SecureClient.v
StreamingClient.v
Replay.v
Campaign.v
KeySubstitution.v
Mitm.v
Hndl.v
SweepCell.v
SweepCellProps.v
Orchestrator.v
OrchestratorProps.v
StreamingRunner.v
AppServer.v
ControlServer.v
StreamingClientSteps.v
StreamingIntegrity.v
ChainIntegrity.v
StreamingHonest.v
HndlProps.v
TradeoffProps.v
SignatureModelProps.v
ReplayProps.v
CampaignProps.v
ChainReplay.v
StreamingRun.v
StreamingTransaction.v
StreamingVerdict.v
SecureLaws.v
KeySubProps.v
SecureProps.v
AppProps.v
ClientProps.v
StreamingWitness.v
SecureWitness.v
VerdictWitness.v
AttackWitness.v
PaperRuns.v
PaperRunsProps.v
ValidationWitness.v
SweepWitness.v
LiveDemo.v
LiveDemoProps.v
Dashboard.v
PaperTables.v
