(* ===== verification/Prelude.v ===== *)
(** * PQ-Shield: a verification development for the streaming-signature
    benchmark of post-quantum protected AI APIs

    The repository protects an inference API at the application layer: a
    handshake (classical, hybrid or post-quantum key exchange), AES-256-GCM
    envelopes, and signatures over whole responses or over streams, and it
    measures and attacks what it built.  This development models that code as
    executable definitions and proves what they guarantee.

    ** The program and its model

    The files under [src/] and the files here that model them:
    - [crypto/aead.py]: [Aead]; [crypto/oqs_adapter.py]: [OqsAdapter];
      [crypto/instrumentation.py]: [Instrumentation];
    - [crypto/base.py]: the two halves of a configuration as the classes
      [ServerCryptoConfig] and [ClientCryptoConfig] of [Base], with the
      contract [ConfigLaws]; [crypto/classical.py], [classical_ecdhe.py],
      [hybrid.py], [hybrid_kex.py], [full_pqc.py], [hybrid_kex_pq.py] and
      [registry.py]: the Modules of [Configs]; [ConfigsLaws] proves that each
      of the six implements the contract;
    - [crypto/handshake_auth.py]: [HandshakeAuth];
    - [crypto/streaming.py]: [Streaming] (the three strategies as instances of
      [StreamSigningStrategy], and the client's verification functions);
    - [api/secure_app.py], [schemas.py], [async_bridge.py]: [SecureApp], and
      [AppServer] for its routes as a [Transport];
    - [api/secure_client.py]: [Http] and [SecureClient];
      [api/secure_streaming_client.py]: [StreamingClient];
    - [threats/streaming_mitm_experiment.py]: [Replay];
      [streaming_attack_campaign.py]: [Campaign]; [key_substitution.py]:
      [KeySubstitution]; [mitm_harness.py] and [mitm_experiment.py]: [Mitm];
      [hndl_capture.py] and [streaming_hndl_experiment.py]: [Hndl];
    - [bench/netem_proxy.py]: [NetemProxy]; [bench/runner.py]: [SweepCell];
      [bench/orchestrator.py]: [Orchestrator]; [bench/streaming_runner.py]:
      [StreamingRunner]; [bench/paper_runs.py], the pass over all of them:
      [PaperRuns];
    - [webapp/demo_transaction.py]: [LiveDemo];
    - [analysis/streaming_model_validation.py]: [SignatureModel];
      [analysis/aggregate.py]: [Aggregate]; [tradeoff_matrix.py],
      [streaming_analysis.py] and [security_validation.py]: [Tradeoff];
      [analysis/paper_figures.py]: [PaperStats], [PaperTables], and
      [Dominance] for its decision summary; [webapp/data_loader.py] and
      [webapp/findings.py]: [Dashboard];
    - [model/streaming_backends/]: [Backends]; [model/profiles/] and
      [api/model_service.py]: [Profiles]; [api/server.py]: [ControlServer];
    - [validation/kat_vectors.py]: [KatVectors]; [nist_kat.py]: [NistKat];
      [reference_data.py] and [spec_conformance.py]: [Conformance];
      [primitive_bench.py] and [contention_check.py]: [PrimitiveBench];
    - the first demonstration stack ([crypto/channel.py],
      [config_a_classical.py], [config_b_hybrid.py], [config_c_full_pqc.py],
      [oqs_kem.py], [oqs_sig.py]): [Legacy].

    [PyBytes], [PyVal], [PyNum] and [PyList] model what the code uses of
    Python: bytes and text encodings, base64, insertion-ordered dictionaries,
    numbers, lists, statistics.  [Sha256] is the hash itself, executable.
    Stateful code is a function in the state-and-exception monad [M] of this
    file; a component that runs inside another's state is lifted with
    [on_fst] and [on_snd].  Server sessions are finite maps, one per
    configuration.  Concurrency -- a cell's workers, the emulator's
    connections -- is a step relation with reachability.  What a sweep does
    to processes and files is a log of events.

    How they interact: the application keeps a configuration's session table
    and a cache of session keys; its generator drives a strategy, the client's
    loop reads the generator's lines through a [Transport], and the attackers
    are transports around a transport ([Mitm], [KeySubstitution]) or lines
    changed between a capture and the client's loop ([Replay]).  The client
    theorems are stated against [ConfigLaws] and hold for every registered
    configuration.

    ** What the theorems show

    - Streams: an honest stream ends verified with the tokens' text
      ([StreamingTransaction]); a verified one carries the server's chunks
      whoever sent its lines ([StreamingIntegrity] for signed chunks,
      [ChainIntegrity] for hash chains), and [StreamingVerdict] states what
      the verdict does not cover; the signed messages are unambiguous
      ([StreamingMessages]).
    - Handshakes and requests: agreement and signing for every configuration
      ([ConfigsProps]), authentication of the handshake ([HandshakeAuth],
      [ClientProps]), rejections, the key cache, session resumption and expiry
      ([AppProps], [SecureProps]).
    - Attacks: key substitution with and without pinning ([KeySubProps]),
      detection by per-chunk signatures and by checkpoints ([CampaignProps],
      [ChainReplay]), the tampering proxy ([Mitm]), the harvest's cost
      ([HndlProps]).
    - Measurements: the emulated link is one bottleneck and delivers in order
      ([NetemProxy]); a cell answers every request index once
      under every interleaving and ends ([SweepCellProps]); sweeps stop what
      they start, run and write every cell to its own file and wait for a
      bounded time ([OrchestratorProps], [StreamingRunner]); a pass over the
      paper's experiments lists as failed exactly the steps that raised, as
      completed the others, and calls the stop of all it starts
      ([PaperRunsProps]); the signature-cost model counts what the strategies
      sign
      ([SignatureModelProps]); trimming, the significance table and the
      trade-off matrix ([Aggregate], [TradeoffProps]).
    - The paper's statistics: which rows they come from, the cell table and
      the failures ([PaperCells]), comparisons with bootstrap intervals and
      Holm's correction ([PaperStatsProps]), the decision summary
      ([Dominance]), when the pooled means of the campaign are exact and that
      the checkpoint frontier's model goes through its points, and which samples
      the resource table is over ([PaperTables]).
    - The dashboard: scoping to a run commutes with trimming and loses no row,
      the merged run list, the page's agreement with the paper and its
      signature frontier ([Dashboard]).
    - The live page: a rearranged stream never ends verified, and what a
      tampered prediction is reported as ([LiveDemoProps]).
    - Services: every payload profile and the unprotected server
      ([Profiles]); a stream of the synthetic backend ([StreamingTransaction]).
    - Validation: the known-answer report decides what it claims
      ([NistKat], with the round trip of its files), the conformance report
      ([Conformance]), the statistics of the micro-benchmark and the
      contention rows ([PrimitiveBenchProps]).
    - The first demonstration stack: the exchange over each of its three
      channels ([Legacy]).

    The witnesses instantiate the parameters with the concrete world of [Toy]
    and run the definitions.

    ** Parameters and hypotheses

    The operating system's entropy and clocks ([Env]) and the functions of
    [cryptography] and liboqs ([Prims]) are arguments; [EnvLaws] and
    [PrimLaws] state the documented behaviour theorems rely on (sizes, key
    agreement, a signature verifies under its key, an envelope opens under its
    key).  Unforgeability is never assumed of them: where a theorem needs it,
    it is a hypothesis on the messages and envelopes of the stream at hand
    ([signatures_are_servers], [envelopes_are_servers]).  [Json] is the JSON
    codec with its round-trip law, [Random] the random generator, [Transport]
    the network.  The inference model and the token source are arguments of
    the server; a source delivers tokens and may fail after them.  The Beta quantile of SciPy, the square root of [stdev] and
    the seeded shuffle of a sweep are arguments as well.  For the paper's
    statistics NumPy's generator ([Generator]) and [argsort] and SciPy's
    Mann-Whitney test ([Scipy]) are classes with laws: what a draw ranges over,
    that [argsort] sorts, what U counts and that a p-value is a probability.

    ** Bounds and fuel

    Chunk indices are 32-bit big-endian in the signed messages; the theorems
    on honest streams ask for fewer than [2^32] chunks, and encoding a larger
    index raises [OverflowError] as in Python.  Floats are rationals: rounding
    is not modelled, NaN and infinity only in [PyNum].  [attack_loop] gets five
    tries per trial, which is the code's own bound.  [_wait_healthy] gets 68
    polls, more than fit into its 20 s when they are 0.3 s apart
    ([wait_healthy_decides]).  Every other loop is structural.

    ** Not modelled

    Command-line parsers, progress lines (except where formatting one can
    raise) and the CSV and JSON files themselves; of the dashboard the
    pages themselves ([views/]), the servers they start, run labels and caches, the figures and plots
    ([analysis/figures.py], [plot_metrics.py]); of [analysis/paper_figures.py]
    plotting, LaTeX, and the amortisation, timing, primitive and environment
    tables; training and the model artifacts, and
    with them the forward pass of the convolutional network; the libraries
    behind the two real token backends, which are arguments; subprocesses,
    file reading and threads of [validation/]. *)
From stdpp Require Export base tactics list strings.
From Stdlib Require Export ZArith QArith Lia.
#[global] Set Default Goal Selector "!".
Open Scope Z_scope.

(** ** Exceptions and fallible results *)

(** The Python exceptions the modelled code raises or catches.  The string is
    [str(exc)] where the code formats it; [HTTPException] carries the status
    and detail FastAPI turns into the response. *)
Inductive exn :=
  | KeyError (key : string)
  | ValueError (msg : string)
  | TypeError (msg : string)
  | AttributeError (msg : string)
  | IndexError (msg : string)
  | OverflowError (msg : string)
  | AssertionError (msg : string)
  | ZeroDivisionError
  | UnicodeError
  | BinasciiError (msg : string)
  | JSONDecodeError
  | AEADError
  | InvalidTag
  | OQSAdapterError (msg : string)
  | LibraryError (msg : string)
  | RuntimeError (msg : string)
  | StatisticsError (msg : string)
  | SystemExit (msg : string)
  | HTTPException (status : Z) (detail : string).

(** [str(exc)]. *)
Definition exn_str (e : exn) : string :=
  match e with
  | KeyError s => "'" +:+ s +:+ "'"
  | ValueError s | TypeError s | AttributeError s | IndexError s
  | OverflowError s | AssertionError s | BinasciiError s
  | OQSAdapterError s | LibraryError s | RuntimeError s | StatisticsError s
  | SystemExit s => s
  | ZeroDivisionError => "division by zero"
  | UnicodeError => "codec can't encode character"
  | JSONDecodeError => "Expecting value"
  | AEADError => "AES-GCM authentication failed (payload tampered or wrong key)"
  | InvalidTag => ""
  | HTTPException _ d => d
  end.

(** [type(exc).__name__]; library exceptions carry their own name in front. *)
Definition exn_name (e : exn) : string :=
  match e with
  | KeyError _ => "KeyError" | ValueError _ => "ValueError" | TypeError _ => "TypeError"
  | AttributeError _ => "AttributeError" | IndexError _ => "IndexError"
  | OverflowError _ => "OverflowError" | AssertionError _ => "AssertionError"
  | ZeroDivisionError => "ZeroDivisionError" | UnicodeError => "UnicodeEncodeError"
  | BinasciiError _ => "Error" | JSONDecodeError => "JSONDecodeError"
  | AEADError => "AEADError" | InvalidTag => "InvalidTag"
  | OQSAdapterError _ => "OQSAdapterError" | LibraryError _ => "LibraryError"
  | RuntimeError _ => "RuntimeError" | StatisticsError _ => "StatisticsError"
  | SystemExit _ => "SystemExit"
  | HTTPException _ _ => "HTTPException"
  end.

(** [f"{type(exc).__name__}: {exc}"]. *)
Definition describe_exn (e : exn) : string := exn_name e +:+ ": " +:+ exn_str e.

Inductive result (A : Type) :=
  | Ok (a : A)
  | Raise (e : exn).
Arguments Ok {A} a.
Arguments Raise {A} e.

Definition rbind {A B} (m : result A) (k : A -> result B) : result B :=
  match m with Ok a => k a | Raise e => Raise e end.

(** ** The state-and-exception monad

    [M Σ A] is Python code that reads and mutates objects gathered in [Σ] and
    returns or raises.  The state is returned with an exception too: what was
    mutated before the [raise] stays mutated. *)
Definition M (Σ A : Type) : Type := Σ -> result A * Σ.

Definition ret {Σ A} (a : A) : M Σ A := fun σ => (Ok a, σ).
Definition raise {Σ A} (e : exn) : M Σ A := fun σ => (Raise e, σ).
Definition bind {Σ A B} (m : M Σ A) (k : A -> M Σ B) : M Σ B :=
  fun σ => match m σ with
           | (Ok a, σ') => k a σ'
           | (Raise e, σ') => (Raise e, σ')
           end.
Definition get {Σ} : M Σ Σ := fun σ => (Ok σ, σ).
Definition put {Σ} (σ' : Σ) : M Σ unit := fun _ => (Ok tt, σ').
Definition modify {Σ} (f : Σ -> Σ) : M Σ unit := fun σ => (Ok tt, f σ).
Definition of_result {Σ A} (r : result A) : M Σ A := fun σ => (r, σ).
(** [try: m except e: h e] -- the handler may re-raise. *)
Definition try_catch {Σ A} (m : M Σ A) (h : exn -> M Σ A) : M Σ A :=
  fun σ => match m σ with
           | (Ok a, σ') => (Ok a, σ')
           | (Raise e, σ') => h e σ'
           end.
(** Run code that only touches one half of the state. *)
Definition on_fst {Σ T A} (m : M Σ A) : M (Σ * T) A :=
  fun '(σ, t) => let '(r, σ') := m σ in (r, (σ', t)).
Definition on_snd {Σ T A} (m : M T A) : M (Σ * T) A :=
  fun '(σ, t) => let '(r, t') := m t in (r, (σ, t')).

#[global] Arguments bind : simpl never.
#[global] Arguments try_catch : simpl never.
#[global] Arguments on_fst : simpl never.
#[global] Arguments on_snd : simpl never.

Declare Scope py_scope.
Delimit Scope py_scope with py.
Notation "'let*' x ':=' m 'in' k" := (bind m (fun x => k))
  (at level 10, x binder, k at level 200,
   format "'[v' 'let*'  x  ':='  m  'in' '/' k ']'") : py_scope.
Notation "m ;;; k" := (bind m (fun _ => k))
  (at level 199, right associativity) : py_scope.
Notation "'let?' x ':=' m 'in' k" := (rbind m (fun x => k))
  (at level 10, x binder, k at level 200,
   format "'[v' 'let?'  x  ':='  m  'in' '/' k ']'") : py_scope.
#[global] Open Scope py_scope.

(** [for x in l: body x], stopping at the first exception. *)
Fixpoint for_each {Σ A} (l : list A) (body : A -> M Σ unit) : M Σ unit :=
  match l with
  | [] => ret tt
  | a :: l' => body a ;;; for_each l' body
  end.

(** [try: body finally: cleanup]: the exception of the body goes on. *)
Definition try_finally {Σ A} (body : M Σ A) (cleanup : M Σ unit) : M Σ A :=
  fun σ => match body σ with
           | (Ok a, σ') => (cleanup ;;; ret a) σ'
           | (Raise e, σ') => (cleanup ;;; raise e) σ'
           end.

(** [[f(a) for a in l]] in the monad. *)
Fixpoint mmap {Σ A B} (f : A -> M Σ B) (l : list A) : M Σ (list B) :=
  match l with
  | [] => ret []
  | a :: r => let* b := f a in let* bs := mmap f r in ret (b :: bs)
  end.

(** ** Monad lemmas *)
Section MonadLemmas.
Context {Σ : Type}.

Lemma bind_ret_l {A B} (a : A) (k : A -> M Σ B) σ : bind (ret a) k σ = k a σ.
Proof. reflexivity. Qed.

Lemma bind_Ok {A B} (m : M Σ A) (k : A -> M Σ B) σ a σ' :
  m σ = (Ok a, σ') -> bind m k σ = k a σ'.
Proof. unfold bind. by intros ->. Qed.

Lemma bind_Raise {A B} (m : M Σ A) (k : A -> M Σ B) σ e σ' :
  m σ = (Raise e, σ') -> bind m k σ = (Raise e, σ').
Proof. unfold bind. by intros ->. Qed.

Lemma bind_assoc {A B C} (m : M Σ A) (f : A -> M Σ B) (g : B -> M Σ C) σ :
  bind (bind m f) g σ = bind m (fun a => bind (f a) g) σ.
Proof. unfold bind. by destruct (m σ) as [[a|e] σ']. Qed.

Lemma bind_inv_Ok {A B} (m : M Σ A) (k : A -> M Σ B) σ b σ2 :
  bind m k σ = (Ok b, σ2) ->
  exists a σ1, m σ = (Ok a, σ1) /\ k a σ1 = (Ok b, σ2).
Proof.
  unfold bind. destruct (m σ) as [[a|e] σ1]; intros H; [eauto|discriminate].
Qed.

Lemma on_fst_run {T A} (m : M Σ A) σ (t : T) :
  on_fst m (σ, t) = let '(r, σ') := m σ in (r, (σ', t)).
Proof. reflexivity. Qed.

Lemma on_fst_Ok {T A} (m : M Σ A) σ (t : T) a σ' :
  m σ = (Ok a, σ') -> on_fst m (σ, t) = (Ok a, (σ', t)).
Proof. unfold on_fst. by intros ->. Qed.

Lemma on_fst_inv_Ok {T A} (m : M Σ A) σ (t : T) a σt :
  on_fst m (σ, t) = (Ok a, σt) ->
  exists σ', m σ = (Ok a, σ') /\ σt = (σ', t).
Proof.
  unfold on_fst. destruct (m σ) as [r σ'].
  intros [= -> <-]. eauto.
Qed.
End MonadLemmas.

Section Mmap.
Context {Σ : Type}.

Lemma mmap_Forall2 {A B} (f : A -> M Σ B) (R : A -> B -> Prop) l s bs s' :
  (forall a s b s', f a s = (Ok b, s') -> R a b) -> mmap f l s = (Ok bs, s') -> Forall2 R l bs.
Proof.
  intros Hf. revert s bs. induction l as [|a l IH]; intros s bs H; cbn [mmap] in H.
  { injection H as <- _. constructor. }
  apply bind_inv_Ok in H as (b & s1 & H1 & H). apply bind_inv_Ok in H as (bs' & s2 & H2 & H).
  injection H as <- ->. constructor; [by eapply Hf|by eapply IH].
Qed.

(** Nested loops whose results are joined. *)
Lemma mmap_concat {A B C} (f : A -> M Σ (list C)) (g : A -> list B) (R : B -> C -> Prop) l s ls s' :
  (forall a s cs s', f a s = (Ok cs, s') -> Forall2 R (g a) cs) ->
  mmap f l s = (Ok ls, s') -> Forall2 R (concat (map g l)) (concat ls).
Proof.
  intros Hf H. apply (mmap_Forall2 f (fun a cs => Forall2 R (g a) cs)) in H; [|exact Hf].
  induction H as [|a cs l ls Ha _ IH]; simpl; [constructor|by apply Forall2_app].
Qed.
End Mmap.

Lemma try_finally_snd {Σ A} (body : M Σ A) (cleanup : M Σ unit) σ :
  snd (try_finally body cleanup σ) = snd (cleanup (snd (body σ))).
Proof.
  unfold try_finally, bind, ret, raise. destruct (body σ) as [[a|e] σ1]; simpl;
    by destruct (cleanup σ1) as [[[]|e'] σ2].
Qed.

Lemma try_finally_inv_Ok {Σ A} (body : M Σ A) (cleanup : M Σ unit) σ a σ' :
  try_finally body cleanup σ = (Ok a, σ') ->
  exists σ1, body σ = (Ok a, σ1) /\ cleanup σ1 = (Ok tt, σ').
Proof.
  unfold try_finally. destruct (body σ) as [[x|e] σ1]; intros H.
  - apply bind_inv_Ok in H as ([] & σ2 & Hc & [= -> ->]). by exists σ1.
  - apply bind_inv_Ok in H as ([] & σ2 & _ & H). done.
Qed.

(** ** What every run keeps

    [respects R m]: the states before and after any run of [m], also one that
    raises, are related by the preorder [R]. *)
Definition respects {Σ A} (R : relation Σ) (m : M Σ A) : Prop := forall σ, R σ (snd (m σ)).

Section Respects.
Context {Σ : Type} (R : relation Σ) `{!PreOrder R}.

Lemma respects_still {A} (m : M Σ A) : (forall σ, snd (m σ) = σ) -> respects R m.
Proof. intros H σ. by rewrite H. Qed.
Lemma respects_ret {A} (a : A) : respects R (ret a).
Proof. by apply respects_still. Qed.
Lemma respects_raise {A} e : respects R (raise (A := A) e).
Proof. by apply respects_still. Qed.
Lemma respects_of_result {A} (r : result A) : respects R (of_result r).
Proof. by apply respects_still. Qed.
Lemma respects_bind {A B} (m : M Σ A) (k : A -> M Σ B) :
  respects R m -> (forall a, respects R (k a)) -> respects R (bind m k).
Proof.
  intros Hm Hk σ. unfold bind. specialize (Hm σ).
  destruct (m σ) as [[a|e] σ1]; [|done]. etrans; [exact Hm|apply Hk].
Qed.
Lemma respects_if {A} (b : bool) (m1 m2 : M Σ A) :
  respects R m1 -> respects R m2 -> respects R (if b then m1 else m2).
Proof. by destruct b. Qed.
Lemma respects_for_each {A} (l : list A) (body : A -> M Σ unit) :
  (forall a, respects R (body a)) -> respects R (for_each l body).
Proof.
  intros Hb. induction l as [|a l IH]; [apply respects_ret|]. apply respects_bind; [apply Hb|done].
Qed.
Lemma respects_mmap {A B} (f : A -> M Σ B) (l : list A) :
  (forall a, respects R (f a)) -> respects R (mmap f l).
Proof.
  intros Hf. induction l as [|a l IH]; [apply respects_ret|].
  apply respects_bind; [apply Hf|]. intros b. apply respects_bind; [exact IH|]. intros bs. apply respects_ret.
Qed.
Lemma respects_try_finally {A} (body : M Σ A) (cleanup : M Σ unit) :
  respects R body -> respects R cleanup -> respects R (try_finally body cleanup).
Proof. intros Hb Hc σ. rewrite try_finally_snd. etrans; [apply Hb|apply Hc]. Qed.
End Respects.

(** Decompose a program into its steps; the database holds its leaves. *)
Create HintDb respects.
#[export] Hint Resolve respects_ret respects_raise respects_of_result : respects.
#[export] Hint Extern 0 (PreOrder _) => typeclasses eauto : respects.
Ltac respects_tac :=
  repeat match goal with
  | |- PreOrder _ => exact _
  | |- forall _, respects _ _ => intros ?
  | |- respects _ _ => first
      [ solve [auto 2 with respects] | apply respects_bind | apply respects_for_each
      | apply respects_mmap | apply respects_try_finally | apply respects_if ]
  | |- respects _ (match ?x with _ => _ end) => destruct x
  end.

(** ** Automation *)

(** Split a successful run of a sequence of binds into its steps. *)
Ltac inv_bind :=
  repeat match goal with
  | H : bind _ _ _ = (Ok _, _) |- _ =>
      let a := fresh "a" in let s := fresh "σ" in
      let H1 := fresh "Hrun" in let H2 := fresh "Hk" in
      apply bind_inv_Ok in H as (a & s & H1 & H2); cbv beta in H2
  | H : ret _ _ = (Ok _, _) |- _ =>
      injection H as H; subst
  | H : on_fst _ _ = (Ok _, _) |- _ =>
      let s := fresh "σ" in let H1 := fresh "Hrun" in
      apply on_fst_inv_Ok in H as (s & H1 & ?); subst
  | H : (_, _) = (_, _) |- _ => injection H as H; subst
  end.

(** Case analysis on the scrutinee of the first match in the goal. *)
Ltac case_match_goal :=
  match goal with
  | |- context [ match ?x with _ => _ end ] => destruct x eqn:?
  end.

Create HintDb pq.
Create Rewrite HintDb pq.

(** ** Lists *)
Lemma app_inv_length {A} (l1 l2 k1 k2 : list A) :
  length l1 = length k1 -> l1 ++ l2 = k1 ++ k2 -> l1 = k1 /\ l2 = k2.
Proof. intros ? ?. by apply app_inj_1. Qed.

Lemma nth_error_lookup_total {A} (l : list A) n : nth_error l n = l !! n.
Proof. revert n; induction l; destruct n; simpl; auto. Qed.
