(* ===== verification/PyBytes.v ===== *)
(** * Python [bytes]: big-endian integers, base64, ASCII and UTF-8 text

    [bytes] is a list of [Byte.byte]; a Python [str] is carried as its UTF-8
    bytes in a [String.string], so [.encode()] is [list_byte_of_string].
    Base64 follows CPython's [binascii.b2a_base64]/[a2b_base64] (the lenient
    decoder [base64.b64decode] uses by default and the strict one). *)
From Stdlib Require Import Strings.Byte Strings.String.
From S2P Require Import Prelude.

Abbreviation bytes := (list Byte.byte).

#[global] Instance byte_eq_dec : EqDecision Byte.byte := Byte.byte_eq_dec.

Definition bytes_eqb (x y : bytes) : bool := bool_decide (x = y).

(** [str.encode()] (UTF-8). *)
Definition encode (s : string) : bytes := String.list_byte_of_string s.
Definition decode (b : bytes) : string := String.string_of_list_byte b.

#[global] Arguments encode : simpl never.
#[global] Arguments decode : simpl never.

Lemma encode_decode b : encode (decode b) = b.
Proof. apply list_byte_of_string_of_list_byte. Qed.
Lemma decode_encode s : decode (encode s) = s.
Proof. apply string_of_list_byte_of_string. Qed.
Lemma encode_inj s t : encode s = encode t -> s = t.
Proof. intros H. by rewrite <- (decode_encode s), H, decode_encode. Qed.

(** ** Bytes as integers *)
Definition Z_of_byte (b : byte) : Z := Z.of_N (Byte.to_N b).
Definition byte_of_Z (z : Z) : byte :=
  match Byte.of_N (Z.to_N (z mod 256)) with Some b => b | None => x00 end.

Lemma Z_of_byte_range b : 0 <= Z_of_byte b < 256.
Proof. unfold Z_of_byte. pose proof (Byte.to_N_bounded b). lia. Qed.

Lemma byte_of_Z_of_byte b : byte_of_Z (Z_of_byte b) = b.
Proof.
  unfold byte_of_Z. rewrite Z.mod_small by apply Z_of_byte_range.
  unfold Z_of_byte. rewrite N2Z.id, Byte.of_to_N. done.
Qed.

Lemma Z_of_byte_of_Z z : Z_of_byte (byte_of_Z z) = z mod 256.
Proof.
  unfold byte_of_Z. pose proof (Z.mod_pos_bound z 256 ltac:(lia)) as B.
  destruct (Byte.of_N (Z.to_N (z mod 256))) as [b|] eqn:E.
  - apply Byte.to_of_N_iff in E. unfold Z_of_byte. rewrite E. lia.
  - apply Byte.of_N_None_iff in E. lia.
Qed.

Lemma byte_of_Z_inj x y :
  0 <= x < 256 -> 0 <= y < 256 -> byte_of_Z x = byte_of_Z y -> x = y.
Proof.
  intros Hx Hy H. apply (f_equal Z_of_byte) in H.
  rewrite !Z_of_byte_of_Z, !Z.mod_small in H by lia. done.
Qed.

(** [n] big-endian bytes of [z] (modulo [256^n]). *)
Fixpoint be_bytes (n : nat) (z : Z) : bytes :=
  match n with
  | O => []
  | S n' => be_bytes n' (z / 256) ++ [byte_of_Z z]
  end.

Lemma be_bytes_length n z : length (be_bytes n z) = n.
Proof. revert z; induction n; intros z; simpl; [done|]. rewrite length_app, IHn. simpl. lia. Qed.

Lemma be_bytes_inj n x y :
  0 <= x < 256 ^ Z.of_nat n -> 0 <= y < 256 ^ Z.of_nat n ->
  be_bytes n x = be_bytes n y -> x = y.
Proof.
  revert x y; induction n as [|n IH]; intros x y Hx Hy H.
  - change (Z.of_nat 0) with 0 in *. rewrite Z.pow_0_r in *. lia.
  - rewrite Nat2Z.inj_succ, Z.pow_succ_r in Hx, Hy by lia.
    simpl in H. apply app_inj_2 in H as [Hhi Hlo]; [|done].
    injection Hlo as Hlo. apply (f_equal Z_of_byte) in Hlo.
    rewrite !Z_of_byte_of_Z in Hlo.
    apply IH in Hhi.
    + rewrite (Z.div_mod x 256), (Z.div_mod y 256) by lia. congruence.
    + split; [apply Z.div_pos; lia | apply Z.div_lt_upper_bound; lia].
    + split; [apply Z.div_pos; lia | apply Z.div_lt_upper_bound; lia].
Qed.

(** [int.to_bytes(n, "big")]: unsigned, [OverflowError] out of range. *)
Definition to_bytes (n : nat) (z : Z) : result bytes :=
  if z <? 0 then Raise (OverflowError "can't convert negative int to unsigned")
  else if z <? 256 ^ Z.of_nat n then Ok (be_bytes n z)
  else Raise (OverflowError "int too big to convert").

Lemma to_bytes_Ok n z bs :
  to_bytes n z = Ok bs <-> 0 <= z < 256 ^ Z.of_nat n /\ bs = be_bytes n z.
Proof.
  unfold to_bytes. destruct (Z.ltb_spec z 0); [split; [done|intros [? _]; lia]|].
  destruct (Z.ltb_spec z (256 ^ Z.of_nat n)); [|split; [done|intros [? _]; lia]].
  split; [intros [= <-]; done|]. by intros [_ ->].
Qed.

Lemma to_bytes_length n z bs : to_bytes n z = Ok bs -> length bs = n.
Proof. intros [_ ->]%to_bytes_Ok. apply be_bytes_length. Qed.

Lemma to_bytes_inj n x y bs :
  to_bytes n x = Ok bs -> to_bytes n y = Ok bs -> x = y.
Proof.
  intros [Hx ->]%to_bytes_Ok [Hy H]%to_bytes_Ok. by eapply be_bytes_inj.
Qed.

(** [struct.pack(">I", n)] has the range of [to_bytes 4]. *)
Definition pack_u32 (z : Z) : result bytes :=
  if (z <? 0) || (2 ^ 32 <=? z)
  then Raise (LibraryError "struct.error: argument out of range")
  else Ok (be_bytes 4 z).

Lemma pack_u32_Ok z bs :
  pack_u32 z = Ok bs <-> 0 <= z < 2 ^ 32 /\ bs = be_bytes 4 z.
Proof.
  unfold pack_u32. destruct (Z.ltb_spec z 0), (Z.leb_spec (2 ^ 32) z); simpl;
    split; try done; try lia; [by intros [= <-]|by intros [_ ->]].
Qed.

(** ** [bytes.decode(errors="replace")] *)

(** [lo <= b <= hi]. *)
Definition byte_in (lo hi : Z) (b : byte) : bool := (lo <=? Z_of_byte b) && (Z_of_byte b <=? hi).
Definition is_continuation : byte -> bool := byte_in 128 191.

(** What may follow a lead byte: the range of the second byte and the number
    of continuation bytes after it. *)
Definition utf8_lead (b : byte) : option (Z * Z * nat) :=
  let z := Z_of_byte b in
  if byte_in 194 223 b then Some (128, 191, 0%nat)
  else if z =? 224 then Some (160, 191, 1%nat)
  else if z =? 237 then Some (128, 159, 1%nat)
  else if byte_in 225 239 b then Some (128, 191, 1%nat)
  else if z =? 240 then Some (144, 191, 2%nat)
  else if z =? 244 then Some (128, 143, 2%nat)
  else if byte_in 241 243 b then Some (128, 191, 2%nat)
  else None.

(** The continuation bytes at the head of [bs], [n] at most. *)
Fixpoint take_continuations (n : nat) (bs : bytes) : bytes :=
  match n, bs with
  | S n', b :: bs' => if is_continuation b then b :: take_continuations n' bs' else []
  | _, _ => []
  end.

(** The first character or ill-formed sequence of a text: its bytes after the
    first one, and whether they make a character. *)
Definition utf8_first (b : byte) (bs : bytes) : bytes * bool :=
  if byte_in 0 127 b then ([], true)
  else match utf8_lead b, bs with
       | Some (lo, hi, n), c :: bs' =>
           if byte_in lo hi c then
             let t := take_continuations n bs' in (c :: t, Nat.eqb (length t) n)
           else ([], false)
       | _, _ => ([], false)
       end.

(** U+FFFD. *)
Definition replacement : bytes := [xef; xbf; xbd].

Fixpoint decode_replace_fuel (fuel : nat) (bs : bytes) : bytes :=
  match fuel, bs with
  | S fuel', b :: bs' =>
      let '(t, ok) := utf8_first b bs' in
      (if ok then b :: t else replacement) ++ decode_replace_fuel fuel' (skipn (length t) bs')
  | _, _ => []
  end.
Definition decode_replace (bs : bytes) : string := decode (decode_replace_fuel (length bs) bs).

Example decode_replace_mixed :
  encode (decode_replace [x61; xc3; xa9; xe2; x82; x28; xe2; x82; xac; xed; xa0; x80; xf0; x9f])
  = [x61; xc3; xa9] ++ replacement ++ [x28; xe2; x82; xac] ++ replacement ++ replacement
    ++ replacement ++ replacement.
Proof. reflexivity. Qed.

(** ASCII text is decoded to itself. *)
Lemma decode_replace_ascii bs : forallb (byte_in 0 127) bs = true -> decode_replace bs = decode bs.
Proof.
  intros H. unfold decode_replace. f_equal.
  induction bs as [|b bs IH]; [done|]. simpl in H. apply andb_true_iff in H as [Hb H].
  cbn [length decode_replace_fuel]. unfold utf8_first. rewrite Hb.
  change (b :: decode_replace_fuel (length bs) bs = b :: bs). by rewrite IH.
Qed.

(** ** Bitwise operations on bytes *)
Definition byte_xor (x y : byte) : byte :=
  byte_of_Z (Z.lxor (Z_of_byte x) (Z_of_byte y)).

(** ** Base64 *)
Definition b64_char (v : Z) : byte :=
  let z := if v <? 26 then 65 + v
           else if v <? 52 then 97 + (v - 26)
           else if v <? 62 then 48 + (v - 52)
           else if v =? 62 then 43 else 47 in
  byte_of_Z z.

(** [table_a2b_base64]: the 6-bit value of an alphabet character. *)
Definition b64_value (c : byte) : option Z :=
  let z := Z_of_byte c in
  if (65 <=? z) && (z <=? 90) then Some (z - 65)
  else if (97 <=? z) && (z <=? 122) then Some (z - 97 + 26)
  else if (48 <=? z) && (z <=? 57) then Some (z - 48 + 52)
  else if z =? 43 then Some 62
  else if z =? 47 then Some 63
  else None.

Definition b64_pad : byte := x3d.

(** [base64.b64encode]. *)
Fixpoint b64encode (bs : bytes) : bytes :=
  match bs with
  | [] => []
  | [a] =>
      let x := Z_of_byte a in
      [b64_char (x / 4); b64_char ((x mod 4) * 16); b64_pad; b64_pad]
  | [a; b] =>
      let x := Z_of_byte a in let y := Z_of_byte b in
      [b64_char (x / 4); b64_char ((x mod 4) * 16 + y / 16);
       b64_char ((y mod 16) * 4); b64_pad]
  | a :: b :: c :: rest =>
      let x := Z_of_byte a in let y := Z_of_byte b in let z := Z_of_byte c in
      b64_char (x / 4) :: b64_char ((x mod 4) * 16 + y / 16)
      :: b64_char ((y mod 16) * 4 + z / 64) :: b64_char (z mod 64)
      :: b64encode rest
  end.

(** [binascii.a2b_base64], lenient mode: the scanner's state is the position
    in the current quad, the bits left over and the pads seen in a row. *)
Fixpoint a2b_loop (input : bytes) (quad_pos leftchar pads : Z) : result bytes :=
  match input with
  | [] =>
      if quad_pos =? 0 then Ok []
      else if quad_pos =? 1 then Raise (BinasciiError "number of data characters cannot be 1 more than a multiple of 4")
      else Raise (BinasciiError "Incorrect padding")
  | c :: rest =>
      if decide (c = b64_pad) then
        if (2 <=? quad_pos) && (4 <=? quad_pos + (pads + 1)) then Ok []
        else a2b_loop rest quad_pos leftchar (if 2 <=? quad_pos then pads + 1 else pads)
      else
        match b64_value c with
        | None => a2b_loop rest quad_pos leftchar pads
        | Some v =>
            if quad_pos =? 0 then a2b_loop rest 1 v 0
            else if quad_pos =? 1 then
              let? out := a2b_loop rest 2 (v mod 16) 0 in
              Ok (byte_of_Z (leftchar * 4 + v / 16) :: out)
            else if quad_pos =? 2 then
              let? out := a2b_loop rest 3 (v mod 4) 0 in
              Ok (byte_of_Z (leftchar * 16 + v / 4) :: out)
            else
              let? out := a2b_loop rest 0 0 0 in
              Ok (byte_of_Z (leftchar * 64 + v) :: out)
        end
  end.

(** [base64.b64decode(bs)]. *)
Definition b64decode (bs : bytes) : result bytes := a2b_loop bs 0 0 0.

(** ASCII: [str.encode("ascii")] and [bytes.decode("ascii")]. *)
Definition is_ascii (b : byte) : bool := Z_of_byte b <? 128.
Definition encode_ascii (s : string) : result bytes :=
  if forallb is_ascii (encode s) then Ok (encode s) else Raise UnicodeError.
Definition decode_ascii (b : bytes) : result string :=
  if forallb is_ascii b then Ok (decode b) else Raise UnicodeError.

(** ** Base64 round trip *)
Lemma b64_value_char v : 0 <= v < 64 -> b64_value (b64_char v) = Some v.
Proof.
  intros H.
  assert (Hall : forallb (fun k => bool_decide (b64_value (b64_char (Z.of_nat k)) = Some (Z.of_nat k)))
                   (seq 0 64) = true) by (vm_compute; reflexivity).
  rewrite forallb_forall in Hall. specialize (Hall (Z.to_nat v)).
  rewrite Z2Nat.id in Hall by lia. apply bool_decide_eq_true in Hall; [done|].
  apply in_seq. lia.
Qed.

Lemma b64_char_not_pad v : 0 <= v < 64 -> b64_char v <> b64_pad.
Proof. intros H E. pose proof (b64_value_char v H) as Hv. rewrite E in Hv. vm_compute in Hv. done. Qed.

Lemma b64_char_ascii v : 0 <= v < 64 -> is_ascii (b64_char v) = true.
Proof.
  intros H.
  assert (Hall : forallb (fun k => is_ascii (b64_char (Z.of_nat k))) (seq 0 64) = true)
    by (vm_compute; reflexivity).
  rewrite forallb_forall in Hall. specialize (Hall (Z.to_nat v)).
  rewrite Z2Nat.id in Hall by lia. apply Hall, in_seq. lia.
Qed.

(** One data character at each position of the quad. *)
Lemma a2b_step0 v rest lc p :
  0 <= v < 64 -> a2b_loop (b64_char v :: rest) 0 lc p = a2b_loop rest 1 v 0.
Proof.
  intros H. simpl. rewrite decide_False by by apply b64_char_not_pad.
  by rewrite b64_value_char.
Qed.
Lemma a2b_step1 v rest lc p :
  0 <= v < 64 ->
  a2b_loop (b64_char v :: rest) 1 lc p =
    (let? out := a2b_loop rest 2 (v mod 16) 0 in Ok (byte_of_Z (lc * 4 + v / 16) :: out)).
Proof.
  intros H. simpl. rewrite decide_False by by apply b64_char_not_pad.
  by rewrite b64_value_char.
Qed.
Lemma a2b_step2 v rest lc p :
  0 <= v < 64 ->
  a2b_loop (b64_char v :: rest) 2 lc p =
    (let? out := a2b_loop rest 3 (v mod 4) 0 in Ok (byte_of_Z (lc * 16 + v / 4) :: out)).
Proof.
  intros H. simpl. rewrite decide_False by by apply b64_char_not_pad.
  by rewrite b64_value_char.
Qed.
Lemma a2b_step3 v rest lc p :
  0 <= v < 64 ->
  a2b_loop (b64_char v :: rest) 3 lc p =
    (let? out := a2b_loop rest 0 0 0 in Ok (byte_of_Z (lc * 64 + v) :: out)).
Proof.
  intros H. simpl. rewrite decide_False by by apply b64_char_not_pad.
  by rewrite b64_value_char.
Qed.

Lemma b64_sextets x y z :
  0 <= x < 256 -> 0 <= y < 256 -> 0 <= z < 256 ->
  (0 <= x / 4 < 64) /\ (0 <= (x mod 4) * 16 + y / 16 < 64)
  /\ (0 <= (y mod 16) * 4 + z / 64 < 64) /\ (0 <= z mod 64 < 64)
  /\ (x / 4) * 4 + ((x mod 4) * 16 + y / 16) / 16 = x
  /\ (((x mod 4) * 16 + y / 16) mod 16) * 16 + ((y mod 16) * 4 + z / 64) / 4 = y
  /\ (((y mod 16) * 4 + z / 64) mod 4) * 64 + z mod 64 = z.
Proof. intros. Z.to_euclidean_division_equations. lia. Qed.

Lemma list_ind3 {A} (P : list A -> Prop) :
  P [] -> (forall a, P [a]) -> (forall a b, P [a; b]) ->
  (forall a b c l, P l -> P (a :: b :: c :: l)) -> forall l, P l.
Proof.
  intros H0 H1 H2 H3. fix IH 1. intros [|a [|b [|c l]]]; [done|done|done|]. apply H3, IH.
Qed.

Lemma a2b_loop_b64encode bs lc p : a2b_loop (b64encode bs) 0 lc p = Ok bs.
Proof.
  revert lc p. induction bs as [|a|a b|a b c l IH] using list_ind3; intros lc p.
  - done.
  - destruct (b64_sextets (Z_of_byte a) 0 0) as (H1 & H2 & _ & _ & E1 & _);
      [apply Z_of_byte_range|lia|lia|].
    replace (0 / 16) with 0 in * by done. rewrite Z.add_0_r in *.
    cbn [b64encode]. rewrite a2b_step0, a2b_step1 by done. simpl.
    rewrite E1, byte_of_Z_of_byte. done.
  - destruct (b64_sextets (Z_of_byte a) (Z_of_byte b) 0) as (H1 & H2 & H3 & _ & E1 & E2 & _);
      [apply Z_of_byte_range|apply Z_of_byte_range|lia|].
    replace (0 / 64) with 0 in * by done. rewrite Z.add_0_r in *.
    cbn [b64encode]. rewrite a2b_step0, a2b_step1, a2b_step2 by done. simpl.
    rewrite E1, E2, !byte_of_Z_of_byte. done.
  - destruct (b64_sextets (Z_of_byte a) (Z_of_byte b) (Z_of_byte c))
      as (H1 & H2 & H3 & H4 & E1 & E2 & E3); try apply Z_of_byte_range.
    cbn [b64encode]. rewrite a2b_step0, a2b_step1, a2b_step2, a2b_step3 by done.
    rewrite IH. simpl. rewrite E1, E2, E3, !byte_of_Z_of_byte. done.
Qed.

Lemma b64decode_encode bs : b64decode (b64encode bs) = Ok bs.
Proof. apply a2b_loop_b64encode. Qed.

Lemma b64encode_ascii bs : forallb is_ascii (b64encode bs) = true.
Proof.
  induction bs as [|a|a b|a b c l IH] using list_ind3; [done| | |].
  - destruct (b64_sextets (Z_of_byte a) 0 0) as (H1 & H2 & _);
      [apply Z_of_byte_range|lia|lia|].
    replace (0 / 16) with 0 in * by done. rewrite Z.add_0_r in *.
    cbn [b64encode forallb]. rewrite !b64_char_ascii by done. done.
  - destruct (b64_sextets (Z_of_byte a) (Z_of_byte b) 0) as (H1 & H2 & H3 & _);
      [apply Z_of_byte_range|apply Z_of_byte_range|lia|].
    replace (0 / 64) with 0 in * by done. rewrite Z.add_0_r in *.
    cbn [b64encode forallb]. rewrite !b64_char_ascii by done. done.
  - destruct (b64_sextets (Z_of_byte a) (Z_of_byte b) (Z_of_byte c))
      as (H1 & H2 & H3 & H4 & _); try apply Z_of_byte_range.
    cbn [b64encode forallb]. rewrite !b64_char_ascii by done. done.
Qed.

(** Byte strings that are used as text prefixes never interfere: two
    encodings with equal-length prefixes split apart. *)
Lemma app_prefix_inj (p q x y : bytes) :
  length p = length q -> p ++ x = q ++ y -> p = q /\ x = y.
Proof. apply app_inv_length. Qed.

#[export] Hint Rewrite b64decode_encode b64encode_ascii encode_decode decode_encode
  byte_of_Z_of_byte : pq.
#[export] Hint Resolve be_bytes_length Z_of_byte_range : pq.
