(* ===== verification/Sha256.v ===== *)
(** * SHA-256 ([hashlib.sha256(m).digest()])

    An executable model of FIPS 180-4 SHA-256 on byte lists, 32-bit words kept
    in [Z] with the wrap-around written out.  The code uses only
    [hashlib.sha256(m).digest()]; the theorems use its digest length and state
    every integrity result up to an explicit collision. *)
From Stdlib Require Import Strings.Byte.
From S2P Require Import Prelude PyBytes.

Definition w32 (z : Z) : Z := z mod 2 ^ 32.
Definition add32 (x y : Z) : Z := w32 (x + y).
Definition rotr (n x : Z) : Z :=
  Z.lor (Z.shiftr x n) (w32 (Z.shiftl x (32 - n))).
Definition not32 (x : Z) : Z := 2 ^ 32 - 1 - x.

Definition Ch x y z := Z.lxor (Z.land x y) (Z.land (not32 x) z).
Definition Maj x y z := Z.lxor (Z.lxor (Z.land x y) (Z.land x z)) (Z.land y z).
Definition Sigma0 x := Z.lxor (Z.lxor (rotr 2 x) (rotr 13 x)) (rotr 22 x).
Definition Sigma1 x := Z.lxor (Z.lxor (rotr 6 x) (rotr 11 x)) (rotr 25 x).
Definition sigma0 x := Z.lxor (Z.lxor (rotr 7 x) (rotr 18 x)) (Z.shiftr x 3).
Definition sigma1 x := Z.lxor (Z.lxor (rotr 17 x) (rotr 19 x)) (Z.shiftr x 10).

(** The constants, from their definition in FIPS 180-4: the first 32 bits of
    the fractional parts of the cube roots of the first 64 primes, and of the
    square roots of the first 8. *)
Definition has_divisor (n : nat) : bool :=
  existsb (fun d => Nat.eqb (n mod d) 0) (seq 2 (n - 2)).
Definition primes_below (n : nat) : list Z :=
  map Z.of_nat (filter (fun p => has_divisor p = false) (seq 2 (n - 2))).

(** The largest [r] below [2 ^ bits] with [r ^ 3 <= n], bit by bit. *)
Fixpoint cube_root (bits : nat) (acc n : Z) : Z :=
  match bits with
  | O => acc
  | S b =>
      let r := acc + 2 ^ Z.of_nat b in
      cube_root b (if r ^ 3 <=? n then r else acc) n
  end.

Definition K256 : list Z :=
  Eval vm_compute in map (fun p => w32 (cube_root 36 0 (p * 2 ^ 96))) (primes_below 312).

Definition H0 : list Z :=
  Eval vm_compute in map (fun p => w32 (Z.sqrt (p * 2 ^ 64))) (firstn 8 (primes_below 312)).

(** Padding: 0x80, zeros, and the 64-bit bit length. *)
Definition pad (m : bytes) : bytes :=
  let len := length m in
  let zeros := ((55 + 64 - len mod 64) mod 64)%nat in
  m ++ [Byte.x80] ++ replicate zeros Byte.x00 ++ be_bytes 8 (8 * Z.of_nat len).

Definition be_word (b : bytes) : Z :=
  fold_left (fun acc x => acc * 256 + Z_of_byte x) b 0.

(** The 16 words of a 64-byte block. *)
Fixpoint block_words (n : nat) (b : bytes) : list Z :=
  match n with
  | O => []
  | S n' => be_word (firstn 4 b) :: block_words n' (skipn 4 b)
  end.

(** The message schedule, most recent word first. *)
Fixpoint schedule (n : nat) (w : list Z) : list Z :=
  match n with
  | O => w
  | S n' =>
      let t i := nth i w 0 in
      schedule n' (add32 (add32 (sigma1 (t 1%nat)) (t 6%nat))
                         (add32 (sigma0 (t 14%nat)) (t 15%nat)) :: w)
  end.

Definition round (s : list Z) (kw : Z * Z) : list Z :=
  match s with
  | [a; b; c; d; e; f; g; h] =>
      let t1 := add32 (add32 (add32 h (Sigma1 e)) (add32 (Ch e f g) (fst kw))) (snd kw) in
      let t2 := add32 (Sigma0 a) (Maj a b c) in
      [add32 t1 t2; a; b; c; add32 d t1; e; f; g]
  | _ => s
  end.

Definition compress (h : list Z) (block : bytes) : list Z :=
  let w := rev (schedule 48 (rev (block_words 16 block))) in
  zip_with add32 h (fold_left round (combine K256 w) h).

Fixpoint sha_blocks (n : nat) (m : bytes) (h : list Z) : list Z :=
  match n with
  | O => h
  | S n' => sha_blocks n' (skipn 64 m) (compress h (firstn 64 m))
  end.

Definition sha256 (m : bytes) : bytes :=
  let p := pad m in
  concat (map (be_bytes 4) (sha_blocks (length p / 64)%nat p H0)).

Definition hex_digit (z : Z) : byte := byte_of_Z (if z <? 10 then 48 + z else 87 + z).
Definition hexdigest (b : bytes) : string :=
  decode (concat (map (fun x => [hex_digit (Z_of_byte x / 16); hex_digit (Z_of_byte x mod 16)]) b)).

Example sha256_empty :
  hexdigest (sha256 []) = "e3b0c44298fc1c149afbf4c8996fb92427ae41e4649b934ca495991b7852b855".
Proof. vm_compute. reflexivity. Qed.
Example sha256_abc :
  hexdigest (sha256 (encode "abc")) = "ba7816bf8f01cfea414140de5dae2223b00361a396177a9cb410ff61f20015ad".
Proof. vm_compute. reflexivity. Qed.
Example sha256_two_blocks :
  hexdigest (sha256 (encode "abcdbcdecdefdefgefghfghighijhijkijkljklmklmnlmnomnopnopq"))
  = "248d6a61d20638b8e5c026930c3e6039a33ce45964ff2167f6ecedd419db06c1".
Proof. vm_compute. reflexivity. Qed.

(** ** Digest length *)
Lemma round_length s kw : length s = 8%nat -> length (round s kw) = 8%nat.
Proof. do 9 (destruct s as [|? s]; try done). Qed.

Lemma rounds_length l s : length s = 8%nat -> length (fold_left round l s) = 8%nat.
Proof. revert s; induction l; intros s H; simpl; auto using round_length. Qed.

Lemma compress_length h b : length h = 8%nat -> length (compress h b) = 8%nat.
Proof.
  intros H. unfold compress. rewrite length_zip_with, rounds_length by done. lia.
Qed.

Lemma sha_blocks_length n m h : length h = 8%nat -> length (sha_blocks n m h) = 8%nat.
Proof. revert m h; induction n; intros m h H; simpl; auto using compress_length. Qed.

Lemma concat_words_length ws : length (concat (map (be_bytes 4) ws)) = (4 * length ws)%nat.
Proof.
  induction ws as [|w ws IH]; [done|].
  cbn [map concat]. rewrite length_app, be_bytes_length, IH. simpl. lia.
Qed.

Lemma sha256_length m : length (sha256 m) = 32%nat.
Proof. unfold sha256. rewrite concat_words_length, sha_blocks_length; done. Qed.
#[export] Hint Resolve sha256_length : pq.
#[export] Hint Rewrite sha256_length : pq.

(** Two different inputs with the same digest, both among [inputs]: the event
    every integrity theorem excludes. *)
Definition collision_in (xs ys : list bytes) : Prop :=
  exists x y, x ∈ xs /\ y ∈ ys /\ x <> y /\ sha256 x = sha256 y.

#[global] Opaque sha256.
