(* ===== verification/PyVal.v ===== *)
(** * Python values: dictionaries, numbers and JSON

    [val] is the part of Python's dynamic values that crosses the program's
    dictionaries and its JSON wire.  A [dict] keeps insertion order, as
    Python's does.  Floats are rationals: rounding, NaN and infinities are not
    modelled.  [Json] is the codec interface ([json.dumps]/[json.loads]). *)
From S2P Require Import Prelude PyBytes.

Inductive val :=
  | VNone
  | VBool (b : bool)
  | VInt (z : Z)
  | VFloat (q : Q)
  | VStr (s : string)
  | VBytes (b : bytes)
  | VList (l : list val)
  | VDict (d : list (string * val)).
Abbreviation dict := (list (string * val)).

(** ** Dictionaries *)

(** [d.get(k)] as an option. *)
Fixpoint dget (k : string) {A} (d : list (string * A)) : option A :=
  match d with
  | [] => None
  | (k', v) :: d' => if String.eqb k k' then Some v else dget k d'
  end.

(** [d[k]]. *)
Definition getitem {A} (k : string) (d : list (string * A)) : result A :=
  match dget k d with Some v => Ok v | None => Raise (KeyError k) end.

(** [d[k] = v]: in place when the key is present, at the end otherwise. *)
Fixpoint dset {A} (k : string) (v : A) (d : list (string * A)) : list (string * A) :=
  match d with
  | [] => [(k, v)]
  | (k', v') :: d' => if String.eqb k k' then (k, v) :: d' else (k', v') :: dset k v d'
  end.

(** [d.pop(k, None)]. *)
Fixpoint ddel {A} (k : string) (d : list (string * A)) : list (string * A) :=
  match d with
  | [] => []
  | (k', v') :: d' => if String.eqb k k' then d' else (k', v') :: ddel k d'
  end.

Definition dmem {A} (k : string) (d : list (string * A)) : bool :=
  match dget k d with Some _ => true | None => false end.

Definition keys {A} (d : list (string * A)) : list string := map fst d.

Section DictLemmas.
Context {A : Type}.
Implicit Types (d : list (string * A)) (k : string).

Lemma dget_dset_eq k v d : dget k (dset k v d) = Some v.
Proof.
  induction d as [|[k' v'] d IH]; simpl; [by rewrite String.eqb_refl|].
  destruct (String.eqb k k') eqn:E; simpl; rewrite ?String.eqb_refl, ?E; done.
Qed.

Lemma dget_dset_ne k k' v d : k <> k' -> dget k (dset k' v d) = dget k d.
Proof.
  intros Hne. induction d as [|[j w] d IH]; simpl.
  - by apply String.eqb_neq in Hne as ->.
  - destruct (String.eqb k' j) eqn:E; simpl.
    + apply String.eqb_eq in E as ->. by apply String.eqb_neq in Hne as ->.
    + destruct (String.eqb k j); done.
Qed.

Lemma dget_Some_in k v d : dget k d = Some v -> (k, v) ∈ d.
Proof.
  induction d as [|[j w] d IH]; simpl; [done|].
  destruct (String.eqb_spec k j) as [->|]; [intros [= ->]; left|].
  intros H. right. by apply IH.
Qed.

Lemma dget_app k d1 d2 :
  dget k (d1 ++ d2) = match dget k d1 with Some v => Some v | None => dget k d2 end.
Proof. induction d1 as [|[j w] d IH]; simpl; [done|]. by destruct (String.eqb k j). Qed.
End DictLemmas.
#[export] Hint Rewrite @dget_dset_eq : pq.

(** ** Dynamic typing *)

(** [bool(v)]. *)
Definition truthy (v : val) : bool :=
  match v with
  | VNone => false
  | VBool b => b
  | VInt z => negb (z =? 0)
  | VFloat q => negb (Qeq_bool q 0)
  | VStr s => negb (String.eqb s "")
  | VBytes b => match b with [] => false | _ => true end
  | VList l => match l with [] => false | _ => true end
  | VDict d => match d with [] => false | _ => true end
  end.

(** An int where the code needs one ([bool] is a subclass of [int]). *)
Definition as_int (v : val) : result Z :=
  match v with
  | VInt z => Ok z
  | VBool b => Ok (if b then 1 else 0)
  | _ => Raise (AttributeError "object has no attribute 'to_bytes'")
  end.

(** A number where the code adds one. *)
Definition as_num (v : val) : result Q :=
  match v with
  | VInt z => Ok (inject_Z z)
  | VFloat q => Ok q
  | VBool b => Ok (if b then 1%Q else 0%Q)
  | _ => Raise (TypeError "unsupported operand type(s)")
  end.

Definition as_str (v : val) : result string :=
  match v with
  | VStr s => Ok s
  | _ => Raise (AttributeError "object has no attribute 'encode'")
  end.

Definition as_dict (v : val) : result dict :=
  match v with
  | VDict d => Ok d
  | _ => Raise (AttributeError "object has no attribute 'get'")
  end.

(** Bytes where the code concatenates them. *)
Definition as_bytes (v : val) : result bytes :=
  match v with
  | VBytes b => Ok b
  | _ => Raise (TypeError "can't concat to bytes")
  end.

(** [v[k]] for a str [k], [v[i]] for a position [i >= 0], and [for x in v]
    (texts by their ASCII characters). *)
Definition vitem (k : string) (v : val) : result val :=
  match v with
  | VDict d => getitem k d
  | VList _ => Raise (TypeError "list indices must be integers or slices, not str")
  | VStr _ => Raise (TypeError "string indices must be integers, not 'str'")
  | VBytes _ => Raise (TypeError "byte indices must be integers or slices, not str")
  | _ => Raise (TypeError "object is not subscriptable")
  end.

Fixpoint chars (s : string) : list string :=
  match s with EmptyString => [] | String c s' => String c EmptyString :: chars s' end.

Definition viter (v : val) : result (list val) :=
  match v with
  | VList l => Ok l
  | VDict d => Ok (map (fun kv => VStr (fst kv)) d)
  | VStr s => Ok (map VStr (chars s))
  | VBytes b => Ok (map (fun x => VInt (Z_of_byte x)) b)
  | _ => Raise (TypeError "object is not iterable")
  end.

Definition vindex (i : nat) (v : val) : result val :=
  match v with
  | VDict _ => Raise (KeyError "")
  | VNone | VBool _ | VInt _ | VFloat _ => Raise (TypeError "object is not subscriptable")
  | _ => let? l := viter v in
         match l !! i with Some x => Ok x | None => Raise (IndexError "index out of range") end
  end.

(** [n >= v] for an int [n]. *)
Definition int_ge_val (n : Z) (v : val) : result bool :=
  match v with
  | VInt z => Ok (z <=? n)
  | VBool b => Ok ((if b then 1 else 0) <=? n)
  | VFloat q => Ok (Qle_bool q (inject_Z n))
  | _ => Raise (TypeError "'>=' not supported between instances")
  end.

(** [v == z] for an int [z]. *)
Definition val_eq_int (v : val) (z : Z) : bool :=
  match v with
  | VInt x => x =? z
  | VBool b => (if b then 1 else 0) =? z
  | VFloat q => Qeq_bool q (inject_Z z)
  | _ => false
  end.

(** [v == s] for a str [s]. *)
Definition val_eq_str (v : val) (s : string) : bool :=
  match v with VStr x => String.eqb x s | _ => false end.

(** [d.get(k, default)]. *)
Definition dget_or {A} (k : string) (default : A) (d : list (string * A)) : A :=
  match dget k d with Some v => v | None => default end.

(** [a or b]. *)
Definition py_or (a b : val) : val := if truthy a then a else b.

(** [s in t] of two strs, and [s in v] for a str [s]. *)
Definition str_has (s t : string) : bool :=
  match String.index 0 s t with Some _ => true | None => false end.
Definition str_in (s : string) (v : val) : result bool :=
  match v with
  | VStr t => Ok (str_has s t)
  | VList l => Ok (existsb (fun x => val_eq_str x s) l)
  | VDict d => Ok (dmem s d)
  | _ => Raise (TypeError "argument is not iterable")
  end.

Definition val_of_opt {A} (f : A -> val) (o : option A) : val :=
  match o with Some a => f a | None => VNone end.

Lemma val_eq_int_VInt x z : val_eq_int (VInt x) z = true <-> x = z.
Proof. simpl. apply Z.eqb_eq. Qed.

(** ** Text *)
Fixpoint drop_string (n : nat) (s : string) : string :=
  match n, s with
  | O, _ => s
  | S n', String _ s' => drop_string n' s'
  | S _, EmptyString => EmptyString
  end.

(** [str.strip()]'s whitespace, ASCII part. *)
Definition is_space (c : Ascii.ascii) : bool :=
  let n := Ascii.N_of_ascii c in
  ((9 <=? n) && (n <=? 13) || (28 <=? n) && (n <=? 32))%N.

Fixpoint lstrip (s : string) : string :=
  match s with
  | EmptyString => EmptyString
  | String c s' => if is_space c then lstrip s' else s
  end.

Fixpoint rstrip (s : string) : string :=
  match s with
  | EmptyString => EmptyString
  | String c s' =>
      match rstrip s' with
      | EmptyString => if is_space c then EmptyString else String c EmptyString
      | t => String c t
      end
  end.

Definition strip (s : string) : string := rstrip (lstrip s).

(** ** JSON *)

(** Values [json.dumps] serializes faithfully: no bytes, no repeated keys. *)
Fixpoint jsonable (v : val) : bool :=
  match v with
  | VBytes _ => false
  | VList l => forallb jsonable l
  | VDict d => bool_decide (NoDup (map fst d)) && forallb (fun kv => jsonable (snd kv)) d
  | _ => true
  end.

Lemma keys_dset {A} k (v : A) d :
  map fst (dset k v d) = if dmem k d then map fst d else map fst d ++ [k].
Proof.
  unfold dmem. induction d as [|[k' v'] d IH]; simpl; [done|].
  destruct (String.eqb_spec k k') as [->|Hne]; [done|]. simpl. rewrite IH.
  by destruct (dget k d).
Qed.

Lemma dget_None_keys {A} k (d : list (string * A)) : dget k d = None -> k ∉ map fst d.
Proof.
  induction d as [|[k' v'] d IH]; simpl; [by intros _ ?%elem_of_nil|].
  destruct (String.eqb_spec k k') as [->|Hne]; [done|]. intros H. rewrite elem_of_cons.
  intros [->|Hin]; [done|]. by apply IH.
Qed.

(** Setting a key keeps a dictionary serializable. *)
Lemma jsonable_dset k v d :
  jsonable (VDict d) = true -> jsonable v = true -> jsonable (VDict (dset k v d)) = true.
Proof.
  simpl. intros [Hn Hd]%andb_true_iff Hv. apply andb_true_iff. split.
  - apply bool_decide_eq_true in Hn. apply bool_decide_eq_true. rewrite keys_dset. unfold dmem.
    destruct (dget k d) eqn:Hk; [done|]. apply NoDup_app. split; [done|]. split.
    + intros x Hx. rewrite list_elem_of_singleton. intros ->. by apply dget_None_keys in Hk.
    + apply NoDup_singleton.
  - clear Hn. induction d as [|[k' v'] d IH]; simpl in *; [by rewrite Hv|].
    apply andb_true_iff in Hd as [H1 H2]. destruct (String.eqb k k'); simpl.
    + by rewrite Hv, H2.
    + by rewrite H1, IH.
Qed.

(** A value that holds bytes somewhere: [json.dumps] raises [TypeError]. *)
Fixpoint has_bytes (v : val) : bool :=
  match v with
  | VBytes _ => true
  | VList l => existsb has_bytes l
  | VDict d => existsb (fun kv => has_bytes (snd kv)) d
  | _ => false
  end.

(** Python's [json] module, whose float formatting is not modelled: a text
    form of values and its parser. *)
Class Json := {
  json_text : val -> string;
  json_loads : bytes -> result val;
}.

(** No line feed in a text. *)
Fixpoint one_line (s : string) : bool :=
  match s with
  | EmptyString => true
  | String c s' => negb (Ascii.eqb c (Ascii.ascii_of_nat 10)) && one_line s'
  end.

(** What [json.dumps] with its default arguments guarantees: its text parses
    back, on one line, with no white space at either end. *)
Class JsonLaws (J : Json) := {
  json_roundtrip v : jsonable v = true -> json_loads (encode (json_text v)) = Ok v;
  json_one_line v : one_line (json_text v) = true;
  json_stripped v : strip (json_text v) = json_text v;
}.

Definition json_dumps {J : Json} (v : val) : result string :=
  if has_bytes v then Raise (TypeError "Object of type bytes is not JSON serializable")
  else Ok (json_text v).

Section ValInd.
Variable P : val -> Prop.
Hypothesis HNone : P VNone.
Hypothesis HBool : forall b, P (VBool b).
Hypothesis HInt : forall z, P (VInt z).
Hypothesis HFloat : forall q, P (VFloat q).
Hypothesis HStr : forall s, P (VStr s).
Hypothesis HBytes : forall b, P (VBytes b).
Hypothesis HList : forall l, Forall P l -> P (VList l).
Hypothesis HDict : forall d, Forall (fun kv => P (snd kv)) d -> P (VDict d).

(** Induction through the nested lists. *)
Fixpoint val_nested_ind (v : val) : P v :=
  match v with
  | VNone => HNone
  | VBool b => HBool b
  | VInt z => HInt z
  | VFloat q => HFloat q
  | VStr s => HStr s
  | VBytes b => HBytes b
  | VList l =>
      HList l ((fix go l : Forall P l :=
        match l with
        | [] => Forall_nil_2 _
        | x :: l' => Forall_cons_2 _ _ _ (val_nested_ind x) (go l')
        end) l)
  | VDict d =>
      HDict d ((fix go d : Forall (fun kv => P (snd kv)) d :=
        match d with
        | [] => Forall_nil_2 _
        | kv :: d' => Forall_cons_2 _ _ _ (val_nested_ind (snd kv)) (go d')
        end) d)
  end.
End ValInd.

Lemma jsonable_no_bytes v : jsonable v = true -> has_bytes v = false.
Proof.
  induction v using val_nested_ind; simpl; try done.
  - intros Hl. apply not_true_is_false. intros He.
    apply existsb_exists in He as (x & Hx & Hb).
    rewrite forallb_forall in Hl. rewrite Forall_forall in H.
    apply list_elem_of_In in Hx as Hx'.
    rewrite (H x Hx' (Hl x Hx)) in Hb. done.
  - intros [_ Hl]%andb_true_iff. apply not_true_is_false. intros He.
    apply existsb_exists in He as (x & Hx & Hb).
    rewrite forallb_forall in Hl. rewrite Forall_forall in H.
    apply list_elem_of_In in Hx as Hx'.
    rewrite (H x Hx' (Hl x Hx)) in Hb. done.
Qed.

Lemma json_dumps_jsonable {J : Json} v :
  jsonable v = true -> json_dumps v = Ok (json_text v).
Proof. intros H. unfold json_dumps. by rewrite jsonable_no_bytes. Qed.
