(* ===== verification/World.v ===== *)
(** * The outside world: operating-system effects and third-party cryptography

    Code outside the repository is a parameter here: the operating system's
    entropy and clocks ([Env]), and the functions of [cryptography] and of
    liboqs the repository calls ([Prims]), with the documented behaviour the
    theorems rely on ([EnvLaws], [PrimLaws]).  The world carries one counter:
    every effect reads the environment at the current tick and advances it. *)
From S2P Require Import Prelude PyBytes.

(** ** Operating system *)
Class Env := {
  (** [os.urandom(n)] at a tick; also liboqs's system source. *)
  env_urandom : nat -> nat -> bytes;
  env_perf_counter : nat -> Q;
  env_thread_time : nat -> Q;
  env_uuid4 : nat -> string;
}.

Class EnvLaws (E : Env) := {
  urandom_length t n : length (env_urandom t n) = n;
  perf_counter_mono s t : (s <= t)%nat -> (env_perf_counter s <= env_perf_counter t)%Q;
  thread_time_mono s t : (s <= t)%nat -> (env_thread_time s <= env_thread_time t)%Q;
  uuid4_nonempty t : env_uuid4 t <> "";
}.

(** Where [OQS_randombytes] draws from ([OQS_randombytes_switch_algorithm] /
    [OQS_randombytes_custom_algorithm]): the system source, or the callback of
    [crypto/oqs_adapter.py]'s [fixed_randomness] with its data and the sizes
    requested so far. *)
Inductive rng_mode :=
  | SystemRng
  | CustomRng (data : bytes) (requested : list nat).

Record world := mkWorld { tick : nat; oqs_rng : rng_mode }.
Definition world0 : world := mkWorld 0 SystemRng.

Definition advance (w : world) : world := mkWorld (S (tick w)) (oqs_rng w).
Definition set_rng (r : rng_mode) (w : world) : world := mkWorld (tick w) r.

Section Effects.
Context {E : Env}.

Definition at_tick {A} (f : nat -> A) : M world A :=
  fun w => (Ok (f (tick w)), advance w).

Definition os_urandom (n : nat) : M world bytes := at_tick (fun t => env_urandom t n).
Definition perf_counter : M world Q := at_tick env_perf_counter.
Definition thread_time : M world Q := at_tick env_thread_time.
Definition uuid4 : M world string := at_tick env_uuid4.
End Effects.

(** ** Third-party cryptography *)

(** What [serialization.load_der_public_key] returns. *)
Inductive pubkey (RSA EC : Type) :=
  | RSAPublicKey (k : RSA)
  | ECPublicKey (k : EC)
  | OtherPublicKey (der : bytes).
Arguments RSAPublicKey {RSA EC} k.
Arguments ECPublicKey {RSA EC} k.
Arguments OtherPublicKey {RSA EC} der.

Class Prims := {
  (** cryptography: AESGCM, HKDF-SHA256 *)
  AESGCM : Type;
  aesgcm_new : bytes -> result AESGCM;
  aesgcm_encrypt : AESGCM -> bytes -> bytes -> option bytes -> result bytes;
  aesgcm_decrypt : AESGCM -> bytes -> bytes -> option bytes -> result bytes;
  hkdf_sha256 : nat -> option bytes -> bytes -> bytes -> result bytes;
  (** cryptography: RSA-OAEP(SHA-256) and ECDSA-P256-SHA256; a key pair is
      generated from the tick at which it is asked for *)
  rsa_private : Type;
  rsa_public : Type;
  rsa_generate : nat -> rsa_private;
  rsa_public_key : rsa_private -> rsa_public;
  rsa_oaep_encrypt : nat -> rsa_public -> bytes -> result bytes;
  rsa_oaep_decrypt : rsa_private -> bytes -> result bytes;
  ec_private : Type;
  ec_public : Type;
  ec_generate : nat -> ec_private;
  ec_public_key : ec_private -> ec_public;
  ecdsa_sign : nat -> ec_private -> bytes -> bytes;
  ecdsa_verify : ec_public -> bytes -> bytes -> result unit;
  public_bytes_der : pubkey rsa_public ec_public -> bytes;
  load_der_public_key : bytes -> result (pubkey rsa_public ec_public);
  (** cryptography: X25519 *)
  x25519_private : Type;
  x25519_public : Type;
  x25519_generate : nat -> x25519_private;
  x25519_public_key : x25519_private -> x25519_public;
  x25519_public_raw : x25519_public -> bytes;
  x25519_from_public_bytes : bytes -> result x25519_public;
  x25519_exchange : x25519_private -> x25519_public -> result bytes;
  (** liboqs: the sizes each call asks of OQS_randombytes, and its C function
      of the bytes it got -- the status code and the output buffers *)
  kem_keypair_draws : list nat;
  oqs_kem_keypair : bytes -> Z * (bytes * bytes);
  kem_encaps_draws : list nat;
  oqs_kem_encaps : bytes -> bytes -> Z * (bytes * bytes);
  oqs_kem_decaps : bytes -> bytes -> Z * bytes;
  oqs_kem_keypair_derand : bytes -> Z * (bytes * bytes);
  oqs_kem_encaps_derand : bytes -> bytes -> Z * (bytes * bytes);
  sig_keypair_draws : list nat;
  oqs_sig_keypair : bytes -> Z * (bytes * bytes);
  sig_sign_draws : list nat;
  (** the signature buffer and the written length *)
  oqs_sig_sign : bytes -> bytes -> bytes -> Z * (bytes * nat);
  oqs_sig_verify : bytes -> bytes -> bytes -> Z;
  oqs_sig_sign_with_ctx : bytes -> bytes -> bytes -> bytes -> Z * (bytes * nat);
  oqs_sig_verify_with_ctx : bytes -> bytes -> bytes -> bytes -> Z;
}.

Definition sum_nat (l : list nat) : nat := fold_right plus 0%nat l.

(** The documented behaviour of those libraries on well-formed inputs. *)
Class PrimLaws (P : Prims) := {
  aesgcm_key_sizes k :
    length k = 32%nat -> exists a, aesgcm_new k = Ok a;
  aesgcm_encrypt_ok a n pt aad :
    length n = 12%nat -> exists ct, aesgcm_encrypt a n pt aad = Ok ct;
  aesgcm_encrypt_length a n pt aad ct :
    aesgcm_encrypt a n pt aad = Ok ct -> length ct = (length pt + 16)%nat;
  aesgcm_decrypt_encrypt a n pt aad ct :
    aesgcm_encrypt a n pt aad = Ok ct -> aesgcm_decrypt a n ct aad = Ok pt;
  hkdf_ok n salt info ikm :
    (n <= 255 * 32)%nat -> exists k, hkdf_sha256 n salt info ikm = Ok k;
  hkdf_length n salt info ikm k :
    hkdf_sha256 n salt info ikm = Ok k -> length k = n;
  (** RSA-2048 with OAEP/SHA-256 carries up to 190 bytes in 256 *)
  rsa_encrypt_ok t pk m :
    (length m <= 190)%nat -> exists c, rsa_oaep_encrypt t pk m = Ok c /\ length c = 256%nat;
  rsa_decrypt_encrypt t sk m c :
    rsa_oaep_encrypt t (rsa_public_key sk) m = Ok c -> rsa_oaep_decrypt sk c = Ok m;
  load_der_public_bytes k : load_der_public_key (public_bytes_der k) = Ok k;
  ecdsa_verify_sign t sk m :
    ecdsa_verify (ec_public_key sk) (ecdsa_sign t sk m) m = Ok tt;
  ecdsa_sign_nonempty t sk m : ecdsa_sign t sk m <> [];
  x25519_raw_length p : length (x25519_public_raw p) = 32%nat;
  x25519_from_raw p : x25519_from_public_bytes (x25519_public_raw p) = Ok p;
  x25519_exchange_ok i j :
    exists ss, x25519_exchange (x25519_generate i) (x25519_public_key (x25519_generate j)) = Ok ss
               /\ length ss = 32%nat;
  x25519_exchange_comm a b :
    x25519_exchange a (x25519_public_key b) = x25519_exchange b (x25519_public_key a);
  oqs_kem_keypair_ok coins :
    length coins = sum_nat kem_keypair_draws ->
    exists pk sk, oqs_kem_keypair coins = (0, (pk, sk))
                  /\ length pk = 1184%nat /\ length sk = 2400%nat;
  oqs_kem_encaps_ok coins kc pk sk :
    length coins = sum_nat kem_encaps_draws ->
    oqs_kem_keypair kc = (0, (pk, sk)) ->
    exists ct ss, oqs_kem_encaps coins pk = (0, (ct, ss))
                  /\ length ct = 1088%nat /\ length ss = 32%nat
                  /\ oqs_kem_decaps ct sk = (0, ss);
  oqs_sig_keypair_ok coins :
    length coins = sum_nat sig_keypair_draws ->
    exists pk sk, oqs_sig_keypair coins = (0, (pk, sk))
                  /\ length pk = 1952%nat /\ length sk = 4032%nat;
  oqs_sig_sign_ok coins kc m pk sk :
    length coins = sum_nat sig_sign_draws ->
    oqs_sig_keypair kc = (0, (pk, sk)) ->
    exists buf n, oqs_sig_sign coins m sk = (0, (buf, n))
                  /\ length buf = 3309%nat /\ (0 < n <= 3309)%nat
                  /\ oqs_sig_verify m (firstn n buf) pk = 0;
}.
