(* ===== verification/Instrumentation.v ===== *)
(** * Timing and resource sampling ([crypto/instrumentation.py]) *)
From S2P Require Import Prelude PyBytes PyVal World.

Section Timing.
Context {E : Env}.

(** The fields a [Timer] holds once its block is left. *)
Record Timer := mkTimer { elapsed_ms : Q; cpu_ms : Q }.

Definition Timer_enter : M world (Q * Q) :=
  let* c0 := thread_time in
  let* t0 := perf_counter in
  ret (c0, t0).

Definition Timer_exit (start : Q * Q) : M world Timer :=
  let '(c0, t0) := start in
  let* t1 := perf_counter in
  let* c1 := thread_time in
  ret (mkTimer ((t1 - t0) * 1000) ((c1 - c0) * 1000)).

(** [with Timer() as t: body] -- [__exit__] also runs when the body raises. *)
Definition timed {A} (body : M world A) : M world (A * Timer) :=
  let* start := Timer_enter in
  fun w => match body w with
           | (Ok a, w') => (let* t := Timer_exit start in ret (a, t)) w'
           | (Raise e, w') => (let* t := Timer_exit start in raise e) w'
           end.

#[global] Arguments timed : simpl never.

Lemma timed_Ok {A} (body : M world A) w a w' :
  body (advance (advance w)) = (Ok a, w') ->
  exists t, timed body w = (Ok (a, t), advance (advance w')).
Proof. intros H. unfold timed, Timer_enter, Timer_exit, bind. cbn. rewrite H. eexists. reflexivity. Qed.

Lemma timed_inv_Ok {A} (body : M world A) w a t w' :
  timed body w = (Ok (a, t), w') ->
  exists w1, body (advance (advance w)) = (Ok a, w1) /\ w' = advance (advance w1).
Proof.
  unfold timed, Timer_enter, Timer_exit, bind. cbn.
  destruct (body (advance (advance w))) as [[a1|e] w1]; [|done].
  cbn. intros [= -> _ <-]. eauto.
Qed.

Lemma timed_Raise {A} (body : M world A) w e w' :
  body (advance (advance w)) = (Raise e, w') ->
  timed body w = (Raise e, advance (advance w')).
Proof. intros H. unfold timed, Timer_enter, Timer_exit, bind. cbn. rewrite H. reflexivity. Qed.
End Timing.

(** ** ResourceSampler *)
Record ResourceSample := mkSample { timestamp : Q; cpu_percent : Q; rss_mb : Q }.

Definition Qsum (l : list Q) : Q := fold_left Qplus l 0%Q.
Definition Qmax (x y : Q) : Q := if Qle_bool x y then y else x.
Definition Qmean (l : list Q) : Q := (Qsum l / inject_Z (Z.of_nat (length l)))%Q.

(** [max(...)] of a non-empty list. *)
Definition Qmaximum (x : Q) (l : list Q) : Q := fold_left Qmax l x.

(** [ResourceSampler.summary()]. *)
Definition summary (samples : list ResourceSample) : dict :=
  match samples with
  | [] =>
      [("cpu_percent_mean", VNone); ("cpu_percent_max", VNone);
       ("rss_mb_mean", VNone); ("rss_mb_max", VNone); ("n_samples", VInt 0)]
  | s :: rest =>
      [("cpu_percent_mean", VFloat (Qmean (map cpu_percent samples)));
       ("cpu_percent_max", VFloat (Qmaximum (cpu_percent s) (map cpu_percent rest)));
       ("rss_mb_mean", VFloat (Qmean (map rss_mb samples)));
       ("rss_mb_max", VFloat (Qmaximum (rss_mb s) (map rss_mb rest)));
       ("n_samples", VInt (Z.of_nat (length samples)))]
  end.

(** The sampling thread [_run]: [psutil] answers one reading per turn until
    the stop event is set or the process is gone ([None]). *)
Record ResourceSampler := mkSampler {
  pid : Z;
  samples : list ResourceSample;
  stop_event : bool;
  running : bool;
}.

Definition new_sampler (p : Z) : ResourceSampler := mkSampler p [] false false.

(** [start()]: [alive] is whether [psutil.Process(pid)] succeeds. *)
Definition sampler_start (alive : bool) (s : ResourceSampler) : ResourceSampler :=
  if alive then mkSampler (pid s) (samples s) (stop_event s) true else s.

(** One turn of the loop of [_run]. *)
Definition sampler_turn (ev : option ResourceSample) (s : ResourceSampler) : ResourceSampler :=
  if running s then
    if stop_event s then mkSampler (pid s) (samples s) (stop_event s) false
    else match ev with
         | Some r => mkSampler (pid s) (samples s ++ [r]) (stop_event s) true
         | None => mkSampler (pid s) (samples s) (stop_event s) false
         end
  else s.

Definition sampler_stop (s : ResourceSampler) : ResourceSampler :=
  mkSampler (pid s) (samples s) true (running s).
