(* ===== verification/PyList.v ===== *)
(** * Python lists and statistics

    Indexing with Python's errors, [random], and the summary statistics the
    experiments report, over rationals.  [statistics.stdev] is a square root,
    which is a parameter. *)
From stdpp Require Import sorting.
From S2P Require Import Prelude PyVal Instrumentation.

(** ** Indexing *)
Section Lists.
Context {A : Type}.
Implicit Types l : list A.

Definition py_len l : Z := Z.of_nat (length l).

(** [l[i]]; a negative index counts from the end. *)
Definition getitem_at (l : list A) (i : Z) : result A :=
  let j := if i <? 0 then i + py_len l else i in
  if j <? 0 then Raise (IndexError "list index out of range")
  else match l !! Z.to_nat j with
       | Some a => Ok a
       | None => Raise (IndexError "list index out of range")
       end.

(** [l[i] = a] for [i >= 0]. *)
Definition setitem_at (l : list A) (i : nat) (a : A) : result (list A) :=
  if Nat.ltb i (length l) then Ok (<[i := a]> l)
  else Raise (IndexError "list assignment index out of range").

(** [del l[i]] for [i >= 0]. *)
Definition del_at (l : list A) (i : nat) : result (list A) :=
  if Nat.ltb i (length l) then Ok (firstn i l ++ skipn (S i) l)
  else Raise (IndexError "list assignment index out of range").

(** [l.insert(i, a)] for [i >= 0]. *)
Definition insert_at (l : list A) (i : nat) (a : A) : list A := firstn i l ++ a :: skipn i l.

(** [l[i], l[j] = l[j], l[i]]. *)
Definition swap_at (l : list A) (i j : nat) : result (list A) :=
  let? b := getitem_at l (Z.of_nat j) in
  let? a := getitem_at l (Z.of_nat i) in
  let? l' := setitem_at l i b in
  setitem_at l' j a.

Lemma getitem_at_Some l (i : nat) a : l !! i = Some a -> getitem_at l (Z.of_nat i) = Ok a.
Proof.
  intros H. unfold getitem_at. cbv zeta.
  rewrite !(proj2 (Z.ltb_ge (Z.of_nat i) 0)) by lia. by rewrite Nat2Z.id, H.
Qed.

(** Swapping neighbours. *)
Lemma swap_at_middle pre x y post :
  swap_at (pre ++ x :: y :: post) (length pre) (S (length pre)) = Ok (pre ++ y :: x :: post).
Proof.
  unfold swap_at. set (l := pre ++ x :: y :: post).
  rewrite (getitem_at_Some l (S (length pre)) y).
  2: { unfold l. rewrite lookup_app_r by lia. by replace (S (length pre) - length pre)%nat with 1%nat by lia. }
  cbn [rbind]. rewrite (getitem_at_Some l (length pre) x).
  2: { unfold l. rewrite lookup_app_r by lia. by rewrite Nat.sub_diag. }
  cbn [rbind]. unfold setitem_at, l.
  rewrite (proj2 (Nat.ltb_lt _ _)) by (rewrite length_app; simpl; lia). cbn [rbind].
  rewrite length_insert, (proj2 (Nat.ltb_lt _ _)) by (rewrite length_app; simpl; lia).
  rewrite insert_app_r_alt by lia. rewrite Nat.sub_diag. simpl.
  rewrite insert_app_r_alt by lia. by replace (S (length pre) - length pre)%nat with 1%nat by lia.
Qed.

Lemma del_at_middle pre x post : del_at (pre ++ x :: post) (length pre) = Ok (pre ++ post).
Proof.
  unfold del_at. rewrite (proj2 (Nat.ltb_lt _ _)) by (rewrite length_app; simpl; lia).
  rewrite take_app_length. f_equal. f_equal.
  rewrite drop_app_ge by lia. by replace (S (length pre) - length pre)%nat with 1%nat by lia.
Qed.

(** A list is what is before a position, the element there and the rest. *)
Lemma split_at l (i : nat) :
  (i < length l)%nat -> exists x, l = firstn i l ++ x :: skipn (S i) l /\ length (firstn i l) = i.
Proof.
  intros Hi. destruct (lookup_lt_is_Some_2 l i Hi) as [x Hx]. exists x. split.
  - symmetry. by apply take_drop_middle.
  - rewrite length_take. lia.
Qed.
End Lists.

(** [[f(a) for a in l]] and [[a for a in l if f(a)]] where [f] can raise. *)
Fixpoint rmap {A B} (f : A -> result B) (l : list A) : result (list B) :=
  match l with
  | [] => Ok []
  | a :: r => let? b := f a in let? bs := rmap f r in Ok (b :: bs)
  end.

Fixpoint rfilter {A} (f : A -> result bool) (l : list A) : result (list A) :=
  match l with
  | [] => Ok []
  | a :: r => let? b := f a in let? bs := rfilter f r in Ok (if b : bool then a :: bs else bs)
  end.

Lemma rmap_Ok {A B} (f : A -> result B) l bs :
  rmap f l = Ok bs -> Forall2 (fun a b => f a = Ok b) l bs.
Proof.
  revert bs; induction l as [|a l IH]; simpl; intros bs H; [by injection H as <-|].
  destruct (f a) as [b|] eqn:Hf; simpl in H; [|done].
  destruct (rmap f l) as [bs'|]; simpl in H; [|done]. injection H as <-. constructor; auto.
Qed.
Lemma rfilter_Ok {A} (f : A -> result bool) l bs :
  rfilter f l = Ok bs ->
  Permutation l (bs ++ List.filter (fun a => match f a with Ok false => true | _ => false end) l)
  /\ Forall (fun a => f a = Ok true) bs.
Proof.
  revert bs; induction l as [|a l IH]; simpl; intros bs H; [by injection H as <-|].
  destruct (f a) as [b|] eqn:Hf; simpl in H; [|done].
  destruct (rfilter f l) as [bs'|]; simpl in H; [|done]. injection H as <-.
  destruct (IH _ eq_refl) as [Hp Hall]. destruct b; simpl.
  - split; [by constructor|by constructor].
  - split; [|done]. rewrite <- Permutation_middle. by constructor.
Qed.

Lemma rmap_total {A B} (f : A -> result B) l :
  (forall a, a ∈ l -> exists b, f a = Ok b) -> exists bs, rmap f l = Ok bs.
Proof.
  induction l as [|a l IH]; intros H; [by exists []|]. cbn [rmap].
  destruct (H a) as (b & ->); [left|]. cbn [rbind].
  destruct IH as (bs & ->); [intros x Hx; apply H; by right|]. by eexists.
Qed.


Lemma rmap_app {A B} (f : A -> result B) l1 l2 bs1 bs2 :
  rmap f l1 = Ok bs1 -> rmap f l2 = Ok bs2 -> rmap f (l1 ++ l2) = Ok (bs1 ++ bs2).
Proof.
  revert bs1; induction l1 as [|a l1 IH]; simpl; intros bs1 H1 H2; [by injection H1 as <-|].
  destruct (f a) as [b|]; simpl in *; [|done]. destruct (rmap f l1) as [r|]; simpl in *; [|done].
  injection H1 as <-. by rewrite (IH _ eq_refl H2).
Qed.

Lemma rfilter_total {A} (f : A -> result bool) l :
  (forall a, a ∈ l -> exists b, f a = Ok b) ->
  exists bs, rfilter f l = Ok bs /\ forall x, x ∈ bs -> x ∈ l.
Proof.
  induction l as [|a l IH]; intros H; [by exists []|]. cbn [rfilter].
  destruct (H a) as (b & ->); [left|]. cbn [rbind].
  destruct IH as (bs & -> & Hs); [intros x Hx; apply H; by right|]. cbn [rbind].
  eexists. split; [reflexivity|]. intros x. destruct b; [|intros Hx; right; by apply Hs].
  intros [->|Hx]%elem_of_cons; [left|right; by apply Hs].
Qed.

(** ** Numbers *)
Definition Qmin (x y : Q) : Q := if Qle_bool x y then x else y.
Definition Qminimum (x : Q) (l : list Q) : Q := fold_left Qmin l x.
Definition Zsum (l : list Z) : Z := fold_left Z.add l 0.
Definition Zmaximum (x : Z) (l : list Z) : Z := fold_left Z.max l x.

(** [a / b] of ints. *)
Definition true_div (a b : Z) : result Q :=
  if b =? 0 then Raise ZeroDivisionError else Ok (inject_Z a / inject_Z b)%Q.

(** [sum(l) / len(l) if l else None], [max(l) if l else None] and the like. *)
Definition mean_or_none (l : list Q) : option Q := match l with [] => None | _ => Some (Qmean l) end.
Definition max_or_none (l : list Q) : option Q :=
  match l with [] => None | x :: r => Some (Qmaximum x r) end.
Definition min_or_none (l : list Q) : option Q :=
  match l with [] => None | x :: r => Some (Qminimum x r) end.
Definition Zmax_or_none (l : list Z) : option Z :=
  match l with [] => None | x :: r => Some (Zmaximum x r) end.
Definition opt_float (o : option Q) : val := val_of_opt VFloat o.
Definition opt_int (o : option Z) : val := val_of_opt VInt o.

(** [sorted(l)] and [statistics.median(l)]. *)
#[export] Instance Qle_decision : RelDecision Qle.
Proof.
  intros x y. destruct (Qle_bool x y) eqn:H.
  - left. by apply Qle_bool_iff.
  - right. intros Hle. apply Qle_bool_iff in Hle. congruence.
Defined.
#[export] Instance Qle_total : Total Qle.
Proof. intros x y. destruct (Qlt_le_dec x y) as [H|H]; [left; by apply Qlt_le_weak|by right]. Qed.
#[export] Instance Qle_transitive : Transitive Qle := Qle_trans.

Definition Qsorted (l : list Q) : list Q := merge_sort Qle l.

Definition median (l : list Q) : result Q :=
  let s := Qsorted l in
  let n := length s in
  match n with
  | O => Raise (StatisticsError "no median for empty data")
  | _ =>
      if Nat.odd n then Ok (nth (Nat.div n 2) s 0%Q)
      else Ok ((nth (Nat.div n 2 - 1) s 0 + nth (Nat.div n 2) s 0) / 2)%Q
  end.

Lemma Qsorted_sorted l : Sorted Qle (Qsorted l).
Proof. apply Sorted_merge_sort. apply _. Qed.
Lemma Qsorted_perm l : Permutation (Qsorted l) l.
Proof. apply merge_sort_Permutation. Qed.

Lemma HdRel_elem {A} (R : relation A) x l : (forall y, y ∈ l -> R x y) -> HdRel R x l.
Proof. destruct l; constructor. apply H. left. Qed.

(** ** Sums and extrema *)
Lemma fold_Zadd_acc l a : fold_left Z.add l a = a + Zsum l.
Proof.
  unfold Zsum. revert a; induction l as [|x l IH]; intros a; cbn [fold_left]; [lia|].
  rewrite (IH (a + x)), (IH (0 + x)). lia.
Qed.
Lemma Zsum_cons x l : Zsum (x :: l) = x + Zsum l.
Proof. change (Zsum (x :: l)) with (fold_left Z.add l (0 + x)). rewrite fold_Zadd_acc. lia. Qed.
Lemma Zsum_app l1 l2 : Zsum (l1 ++ l2) = Zsum l1 + Zsum l2.
Proof.
  change (Zsum (l1 ++ l2)) with (fold_left Z.add (l1 ++ l2) 0).
  rewrite fold_left_app, fold_Zadd_acc. done.
Qed.

Lemma fold_Qplus_acc l a : (fold_left Qplus l a == a + fold_left Qplus l 0)%Q.
Proof.
  revert a; induction l as [|x l IH]; intros a; simpl; [ring|].
  rewrite IH, (IH (0 + x)%Q). ring.
Qed.
Lemma Qsum_cons x l : (Qsum (x :: l) == x + Qsum l)%Q.
Proof. unfold Qsum. simpl. rewrite fold_Qplus_acc. ring. Qed.

Lemma Qsum_bounds lo hi l :
  Forall (fun x => lo <= x <= hi)%Q l ->
  (lo * inject_Z (Z.of_nat (length l)) <= Qsum l
   /\ Qsum l <= hi * inject_Z (Z.of_nat (length l)))%Q.
Proof.
  induction 1 as [|x l [H1 H2] _ [IH1 IH2]].
  - unfold Qsum. simpl. split; rewrite Qmult_0_r; apply Qle_refl.
  - rewrite Qsum_cons. simpl length. rewrite Nat2Z.inj_succ, <- Z.add_1_l, inject_Z_plus.
    split; rewrite Qmult_plus_distr_r, Qmult_1_r; by apply Qplus_le_compat.
Qed.

(** The mean lies between the bounds of the data. *)
Lemma Qmean_bounds lo hi l :
  l <> [] -> Forall (fun x => lo <= x <= hi)%Q l -> (lo <= Qmean l <= hi)%Q.
Proof.
  intros Hne H. destruct (Qsum_bounds lo hi l H) as [H1 H2]. unfold Qmean.
  assert (0 < inject_Z (Z.of_nat (length l)))%Q as Hpos.
  { unfold Qlt. simpl. destruct l; [done|simpl; lia]. }
  split; [by apply Qle_shift_div_l|by apply Qle_shift_div_r].
Qed.

(** ** [random.Random]

    [randrange] raises on an empty range, [choice] on an empty list,
    [sample(range(n), 2)] when there are fewer than two. *)
Class Random (R : Type) := {
  randrange : Z -> Z -> M R Z;
  sample2 : Z -> M R (Z * Z);
  random_unit : M R Q;   (* [random.random()] *)
}.
Class RandomLaws {R} (RND : Random R) := {
  randrange_range lo hi r : lo < hi ->
    exists x r', randrange lo hi r = (Ok x, r') /\ lo <= x < hi;
  randrange_empty lo hi r : hi <= lo ->
    exists r', randrange lo hi r = (Raise (ValueError "empty range for randrange()"), r');
  sample2_range n r : 2 <= n ->
    exists a b r', sample2 n r = (Ok (a, b), r') /\ 0 <= a < n /\ 0 <= b < n /\ a <> b;
  sample2_small n r : n < 2 ->
    exists r', sample2 n r
      = (Raise (ValueError "Sample larger than population or is negative"), r');
  random_unit_range r :
    exists x r', random_unit r = (Ok x, r') /\ (0 <= x)%Q /\ (x < 1)%Q;
}.
Definition choice {R} {RND : Random R} {A} (l : list A) : M R A :=
  match l with
  | [] => raise (IndexError "Cannot choose from an empty sequence")
  | _ => let* i := randrange 0 (py_len l) in of_result (getitem_at l i)
  end.
