(* ===== verification/PyNum.v ===== *)
(** * Numbers read from tables: [int()], [float()] and missing cells

    A cell of a table read by pandas is a value or the NaN of a missing one.
    Where the code computes with NaN or [float("inf")], [xfloat] adds the two
    to the rationals, with Python's comparisons and [min]/[max]. *)
From Stdlib Require Import Ascii.
From S2P Require Import Prelude PyVal PyList.

Inductive cell := NaN | Cell (v : val).
Abbreviation csv_row := (list (string * cell)).

Inductive xfloat := XFin (q : Q) | XInf | XNaN.

Definition Qltb (x y : Q) : bool := negb (Qle_bool y x).

(** [a <= b] and [a < b]: false when either is NaN. *)
Definition xle (a b : xfloat) : bool :=
  match a, b with
  | XNaN, _ | _, XNaN => false
  | _, XInf => true
  | XInf, XFin _ => false
  | XFin x, XFin y => Qle_bool x y
  end.
Definition xlt (a b : xfloat) : bool :=
  match a, b with
  | XNaN, _ | _, XNaN | XInf, _ => false
  | XFin _, XInf => true
  | XFin x, XFin y => Qltb x y
  end.

(** [min(l)] and [max(l)] keep the first of the elements they cannot tell
    apart. *)
Definition xmin (x : xfloat) (l : list xfloat) : xfloat :=
  fold_left (fun m y => if xlt y m then y else m) l x.
Definition xmax (x : xfloat) (l : list xfloat) : xfloat :=
  fold_left (fun m y => if xlt m y then y else m) l x.

(** ** Literals *)
Definition digit (c : ascii) : option Z :=
  let n := Z.of_N (N_of_ascii c) in
  if (48 <=? n) && (n <=? 57) then Some (n - 48) else None.

(** The digits from here: the number, how many there were, and what follows.
    [seen] is whether the last character was a digit; an underscore may stand
    between two digits. *)
Fixpoint digits (s : string) (acc : Z) (count : nat) (seen : bool) : option (Z * nat * string) :=
  match s with
  | "" => if seen || Nat.eqb count 0 then Some (acc, count, "") else None
  | String c s' =>
      match digit c with
      | Some d => digits s' (acc * 10 + d) (S count) true
      | None =>
          if Ascii.eqb c "_" then if seen then digits s' acc count false else None
          else if seen || Nat.eqb count 0 then Some (acc, count, s) else None
      end
  end.

Definition is_space (c : ascii) : bool :=
  let n := Z.of_N (N_of_ascii c) in (n =? 32) || ((9 <=? n) && (n <=? 13)).
Fixpoint lstrip (s : string) : string :=
  match s with String c s' => if is_space c then lstrip s' else s | "" => "" end.
Definition sign (s : string) : Z * string :=
  match s with
  | String c s' => if Ascii.eqb c "-" then (-1, s') else if Ascii.eqb c "+" then (1, s') else (1, s)
  | "" => (1, "")
  end.

Definition bad_int (s : string) : exn :=
  ValueError ("invalid literal for int() with base 10: '" +:+ s +:+ "'").
Definition bad_float (s : string) : exn :=
  ValueError ("could not convert string to float: '" +:+ s +:+ "'").

(** [int(s)] of an ASCII string. *)
Definition int_of_str (s : string) : result Z :=
  let '(sg, s1) := sign (lstrip s) in
  match digits s1 0 0 false with
  | Some (n, S _, rest) => if String.eqb (lstrip rest) "" then Ok (sg * n) else Raise (bad_int s)
  | _ => Raise (bad_int s)
  end.

(** [float(s)] of an ASCII decimal literal. *)
Definition float_of_str (s : string) : result Q :=
  let '(sg, s1) := sign (lstrip s) in
  let bad := Raise (bad_float s) in
  match digits s1 0 0 false with
  | None => bad
  | Some (whole, nw, r1) =>
      let frac := match r1 with
                  | String "." r => digits r 0 0 false
                  | _ => Some (0, 0%nat, r1)
                  end in
      match frac with
      | None => bad
      | Some (f, nf, r2) =>
          let expo := match r2 with
                      | String c r =>
                          if Ascii.eqb c "e" || Ascii.eqb c "E" then
                            let '(es, r3) := sign r in
                            match digits r3 0 0 false with
                            | Some (e, S _, r4) => Some (es * e, r4)
                            | _ => None
                            end
                          else Some (0, r2)
                      | "" => Some (0, "")
                      end in
          match expo with
          | None => bad
          | Some (e, rest) =>
              if Nat.eqb (nw + nf) 0 || negb (String.eqb (lstrip rest) "") then bad
              else
                let mantissa := (inject_Z (whole * 10 ^ Z.of_nat nf + f)
                                 / inject_Z (10 ^ Z.of_nat nf))%Q in
                Ok (inject_Z sg * mantissa * Qpower 10 e)%Q
          end
      end
  end.

(** [int(v)]; a float is truncated. *)
Definition py_int (v : val) : result Z :=
  match v with
  | VInt z => Ok z
  | VBool b => Ok (if b then 1 else 0)
  | VFloat q => Ok (Z.quot (Qnum q) (Zpos (Qden q)))
  | VStr s => int_of_str s
  | _ => Raise (TypeError "int() argument must be a string, a bytes-like object or a real number")
  end.

Definition py_float (v : val) : result Q :=
  match v with
  | VStr s => float_of_str s
  | VInt _ | VFloat _ | VBool _ => as_num v
  | _ => Raise (TypeError "float() argument must be a string or a real number")
  end.

Definition cell_int (c : cell) : result Z :=
  match c with
  | NaN => Raise (ValueError "cannot convert float NaN to integer")
  | Cell v => py_int v
  end.
Definition cell_float (c : cell) : result xfloat :=
  match c with
  | NaN => Ok XNaN
  | Cell v => let? q := py_float v in Ok (XFin q)
  end.

Example int_of_str_ex : map int_of_str ["12"; " -7 "; "1_0"; "x"; "1_"; ""]
  = [Ok 12; Ok (-7); Ok 10; Raise (bad_int "x"); Raise (bad_int "1_"); Raise (bad_int "")].
Proof. reflexivity. Qed.
Example float_of_str_ex :
  match float_of_str "-1.25e1", float_of_str ".5", float_of_str "." with
  | Ok a, Ok b, Raise _ => Qeq_bool a (-25 # 2) && Qeq_bool b (1 # 2)
  | _, _, _ => false
  end = true.
Proof. vm_compute. reflexivity. Qed.
