(* ===== verification/Aggregate.v ===== *)
(** * Aggregating the raw rows ([analysis/aggregate.py])

    A table is a list of typed rows; a missing value is [None].  What the code
    asks of pandas -- sort by columns, group by columns, drop missing values --
    is written out over lists.  The square root of the standard deviation and
    SciPy's Mann-Whitney test are parameters. *)
From stdpp Require Import sorting.
From Stdlib Require Import Ascii.
From S2P Require Import Prelude PyBytes PyVal PyList PyNum Instrumentation.

(** ** [groupby] and [sort_values] *)
Section Group.
Context {A K : Type} `{EqDecision K} (le : relation K) `{!RelDecision le}.

(** [df.groupby(key)]: the groups in the order of their keys, each with its
    rows in the order of the table. *)
Definition groupby (key : A -> K) (rows : list A) : list (K * list A) :=
  map (fun k => (k, List.filter (fun r => bool_decide (key r = k)) rows))
    (merge_sort le (remove_dups (map key rows))).
End Group.

Section SortBy.
Context {A K : Type} (le : relation K) `{!RelDecision le}.
Definition by_key (key : A -> K) (x y : A) : Prop := le (key x) (key y).
#[export] Instance by_key_dec key : RelDecision (by_key key) := fun x y => decide (le (key x) (key y)).

(** [df.sort_values(key)]. *)
Definition sort_by (key : A -> K) (rows : list A) : list A := merge_sort (by_key key) rows.
End SortBy.

(** Lexicographic orders of the keys. *)
Definition str_le (a b : string) : Prop := String.leb a b = true.
#[export] Instance str_le_dec : RelDecision str_le := fun a b => decide (_ = true).
Section Lex.
Context {A B : Type} `{EqDecision A} (la : relation A) (lb : relation B)
        `{!RelDecision la} `{!RelDecision lb}.
Definition lex_le (x y : A * B) : Prop :=
  (fst x <> fst y /\ la (fst x) (fst y)) \/ (fst x = fst y /\ lb (snd x) (snd y)).
#[export] Instance lex_le_dec : RelDecision lex_le := fun x y => decide (_ \/ _).
End Lex.
(** Missing values sort last. *)
Definition opt_le {A} (la : relation A) (x y : option A) : Prop :=
  match x, y with Some a, Some b => la a b | None, Some _ => False | _, None => True end.
#[export] Instance opt_le_dec {A} (la : relation A) `{!RelDecision la} : RelDecision (opt_le la).
Proof. intros [a|] [b|]; simpl; apply _. Defined.

(** ** The rows *)
Record request_row := mkRequestRow {
  rq_run_id : option string; rq_config : string; rq_concurrency : Z; rq_repetition : Z;
  rq_index : Z; rq_error : option string; rq_metrics : list (string * option Q) }.

Definition METRIC_COLUMNS : list string :=
  ["rtt_ms"; "handshake_ms"; "total_ms"; "server_decapsulate_ms"; "server_inference_ms";
   "server_sign_ms"; "server_crypto_ms"; "server_total_ms"; "verify_ms"].

(** [df["error"].notna() & (df["error"] != "")]. *)
Definition is_err (r : request_row) : bool :=
  match rq_error r with Some e => negb (String.eqb e "") | None => false end.

(** ** [discard_warmup] *)

(** A cell: run, configuration, concurrency and repetition; without a
    [run_id] column every row has none. *)
Abbreviation cell_key := (option string * (string * (Z * Z)))%type.
Definition cell_of (r : request_row) : cell_key :=
  (rq_run_id r, (rq_config r, (rq_concurrency r, rq_repetition r))).
Definition cell_le : relation cell_key := lex_le (opt_le str_le) (lex_le str_le (lex_le Z.le Z.le)).
#[export] Instance cell_le_dec : RelDecision cell_le := _.
Definition row_key (r : request_row) : cell_key * Z := (cell_of r, rq_index r).
Definition row_key_le : relation (cell_key * Z) := lex_le cell_le Z.le.
#[export] Instance row_key_le_dec : RelDecision row_key_le := _.

(** How many rows [index[:int(n * fraction)]] names. *)
Definition n_dropped (warmup_fraction : Q) (n : Z) : Z :=
  if n <? 20 then 0
  else
    let q := (inject_Z n * warmup_fraction)%Q in
    let cutoff := Z.quot (Qnum q) (Zpos (Qden q)) in
    if cutoff <? 0 then Z.max 0 (n + cutoff) else Z.min n cutoff.

(** The rows of a sorted table whose place in their cell is past what is
    dropped; [before] are the rows already seen. *)
Fixpoint keep_rows (dropped : cell_key -> Z) (before rows : list request_row) : list request_row :=
  match rows with
  | [] => []
  | r :: rest =>
      let place := py_len (List.filter (fun x => bool_decide (cell_of x = cell_of r)) before) in
      let tail := keep_rows dropped (before ++ [r]) rest in
      if dropped (cell_of r) <=? place then r :: tail else tail
  end.

Definition cell_size (rows : list request_row) (k : cell_key) : Z :=
  py_len (List.filter (fun x => bool_decide (cell_of x = k)) rows).

Definition discard_warmup (df : list request_row) (warmup_fraction : Q) : list request_row :=
  let df := sort_by row_key_le row_key df in
  keep_rows (fun k => n_dropped warmup_fraction (cell_size df k)) [] df.

(** ** [summarize] *)
Section Stats.
(** [np.sqrt]. *)
Variable sqrt : Q -> Q.

(** [np.quantile(vals, q)] of a non-empty list -- also pandas' [quantile] --
    with linear interpolation, and [np.percentile(vals, p)]. *)
Definition quantile (q : Q) (vals : list Q) : Q :=
  let s := Qsorted vals in
  let pos := (inject_Z (py_len vals - 1) * q)%Q in
  let lo := Qnum pos / Zpos (Qden pos) in
  let at_ i := nth (Z.to_nat i) s (nth (length s - 1) s 0%Q) in
  (at_ lo + (pos - inject_Z lo) * (at_ (lo + 1)%Z - at_ lo))%Q.
Definition percentile (p : Z) : list Q -> Q := quantile (inject_Z p / 100)%Q.

(** [np.std(vals, ddof=1)] of two values or more. *)
Definition sample_std (vals : list Q) : Q :=
  let m := Qmean vals in
  sqrt (Qsum (map (fun x => (x - m) * (x - m)) vals) / inject_Z (py_len vals - 1))%Q.

Record metric_stats := mkStats {
  st_mean : Q; st_median : Q; st_std : Q; st_p95 : Q; st_p99 : Q }.

(** [group[col].dropna().values]. *)
Definition values_of (col : string) (group : list request_row) : list Q :=
  omap (fun r => match dget col (rq_metrics r) with Some (Some q) => Some q | _ => None end) group.

Definition stats_of (vals : list Q) : result metric_stats :=
  let? m := median vals in
  Ok (mkStats (Qmean vals) m (if 1 <? py_len vals then sample_std vals else 0%Q)
        (percentile 95 vals) (percentile 99 vals)).

Record summary_row := mkSummaryRow {
  sm_config : string; sm_concurrency : Z; sm_n_requests : Z; sm_n_repetitions : Z;
  sm_n_attempted : Z; sm_n_errors : Z; sm_error_rate : Q;
  sm_metrics : list (string * metric_stats) }.

Definition metric_entries (group : list request_row) : result (list (string * metric_stats)) :=
  let? entries := rmap (fun col =>
    match values_of col group with
    | [] => Ok []
    | vals => let? s := stats_of vals in Ok [(col, s)]
    end) METRIC_COLUMNS in
  Ok (concat entries).

Definition summarize_group (kg : (string * Z) * list request_row) : result summary_row :=
  let '((config, concurrency), attempted) := kg in
  let group := List.filter (fun r => negb (is_err r)) attempted in
  let n_errors := py_len (List.filter is_err attempted) in
  let? metrics := metric_entries group in
  Ok (mkSummaryRow config concurrency (py_len group)
        (py_len (remove_dups (map rq_repetition attempted))) (py_len attempted) n_errors
        (inject_Z n_errors / inject_Z (py_len attempted))%Q metrics).

Definition config_concurrency (r : request_row) : string * Z := (rq_config r, rq_concurrency r).
Definition group_le : relation (string * Z) := lex_le str_le Z.le.
#[export] Instance group_le_dec : RelDecision group_le := _.
Definition table_key (s : summary_row) : Z * string := (sm_concurrency s, sm_config s).
Definition table_le : relation (Z * string) := lex_le Z.le str_le.
#[export] Instance table_le_dec : RelDecision table_le := _.

(** Sorting a table without rows, which has no columns, raises. *)
Definition summarize (df : list request_row) : result (list summary_row) :=
  let? rows := rmap summarize_group (groupby group_le config_concurrency df) in
  match rows with
  | [] => Raise (KeyError "concurrency")
  | _ => Ok (sort_by table_le table_key rows)
  end.
End Stats.

(** ** The baseline and the significance test *)
Definition resolve_baseline_config (available_configs : list string) (baseline_config : option string)
    : string :=
  match baseline_config with
  | Some b => b
  | None => if existsb (String.eqb "control") available_configs then "control" else "classical"
  end.

(** Over any table: how a row gives its configuration, group, metric and
    whether it has an error. *)
Section MannWhitney.
Context {A K : Type} `{EqDecision K} (key_le : relation K) `{!RelDecision key_le}.
Variables (config_of : A -> string) (key_of : A -> K) (metric_of : A -> option Q) (err_of : A -> bool).
(** [stats.mannwhitneyu(x, y, alternative="two-sided")]: statistic and p-value. *)
Variable mannwhitneyu : list Q -> list Q -> Q * Q.

Record significance_row := mkSignificance {
  sg_key : K; sg_config : string; sg_baseline_config : string; sg_n_control : Z; sg_n_treatment : Z;
  sg_median_control : Q; sg_median_treatment : Q; sg_overhead_pct_vs_control : option Q;
  sg_u_statistic : Q; sg_p_value : Q; sg_significant : bool }.

(** [df["config"].unique()]: in the order they first appear. *)
Fixpoint unique (l : list string) : list string :=
  match l with
  | [] => []
  | x :: r => x :: List.filter (fun y => negb (String.eqb x y)) (unique r)
  end.

(** [group[group["config"] == config][metric].dropna().values]. *)
Definition config_values (config : string) (group : list A) : list Q :=
  omap metric_of (List.filter (fun r => String.eqb (config_of r) config) group).

Definition compare_config (key : K) (group : list A) (baseline : string) (control_vals : list Q)
    (config : string) : result (list significance_row) :=
  if String.eqb config baseline then Ok []
  else
    let treatment_vals := config_values config group in
    if py_len treatment_vals <? 2 then Ok []
    else
      let '(u, p) := mannwhitneyu treatment_vals control_vals in
      let? mc := median control_vals in
      let? mt := median treatment_vals in
      Ok [mkSignificance key config baseline (py_len control_vals) (py_len treatment_vals) mc mt
            (if Qltb 0 mc then Some ((mt - mc) / mc * 100)%Q else None) u p (Qltb p (5 # 100))].

Definition compare_group (baseline : string) (kg : K * list A) : result (list significance_row) :=
  let '(key, group) := kg in
  let control_vals := config_values baseline group in
  if py_len control_vals <? 2 then Ok []
  else
    let? rows := rmap (compare_config key group baseline control_vals)
                   (unique (map config_of group)) in
    Ok (concat rows).

Definition significance_key (r : significance_row) : K * string := (sg_key r, sg_config r).
Definition significance_le : relation (K * string) := lex_le key_le str_le.
#[export] Instance significance_le_dec : RelDecision significance_le := _.

Definition mann_whitney_vs_control (df : list A) (baseline_config : option string)
    : result (list significance_row) :=
  let ok := List.filter (fun r => negb (err_of r)) df in
  let baseline := resolve_baseline_config (unique (map config_of ok)) baseline_config in
  let? rows := rmap (compare_group baseline) (groupby key_le key_of ok) in
  Ok (sort_by significance_le significance_key (concat rows)).
End MannWhitney.

(** ** What the aggregation keeps

    Trimming drops the first rows of every large cell and no others; the
    summary has a row for every cell that was attempted. *)

(** ** The orders *)
#[export] Instance str_le_total : Total str_le.
Proof. intros a b. unfold str_le. destruct (String.leb_total a b); auto. Qed.

#[export] Instance str_le_trans : Transitive str_le.
Proof.
  unfold str_le. intros x. induction x as [|a x IH]; intros [|b y] [|c z]; try done.
  unfold String.leb in *. simpl. unfold Ascii.compare.
  destruct (N.compare_spec (N_of_ascii a) (N_of_ascii b)), (N.compare_spec (N_of_ascii b) (N_of_ascii c)),
    (N.compare_spec (N_of_ascii a) (N_of_ascii c)); try lia; try done. apply IH.
Qed.

Section LexOrder.
Context {A B : Type} `{EqDecision A} (la : relation A) (lb : relation B).

#[export] Instance lex_le_total `{!Total la, !Total lb} : Total (lex_le la lb).
Proof.
  intros [a b] [c d]. unfold lex_le. simpl. destruct (decide (a = c)) as [->|Hne].
  - destruct (total lb b d); [left|right]; by right.
  - destruct (total la a c); [left|right]; left; (split; [congruence|done]).
Qed.
#[export] Instance lex_le_trans `{!Transitive la, !AntiSymm (=) la, !Transitive lb} :
  Transitive (lex_le la lb).
Proof.
  intros [a b] [c d] [e f]. unfold lex_le. simpl.
  intros [[H1 H2]|[-> H2]] [[H3 H4]|[-> H4]].
  - left. split; [|by trans c]. intros ->. apply H1. by apply (anti_symm la).
  - by left.
  - by left.
  - right. split; [done|by trans d].
Qed.
#[export] Instance lex_le_antisymm `{!AntiSymm (=) la, !AntiSymm (=) lb} : AntiSymm (=) (lex_le la lb).
Proof.
  intros [a b] [c d]. unfold lex_le. simpl. intros [[H1 H2]|[-> H2]] [[H3 H4]|[H3 H4]]; try done.
  - exfalso. apply H1. by apply (anti_symm la).
  - by apply (anti_symm lb) in H2 as ->.
Qed.
End LexOrder.

#[export] Instance str_le_antisymm : AntiSymm (=) str_le.
Proof. intros a b. apply String.leb_antisym. Qed.

Section OptOrder.
Context {A : Type} (la : relation A).
#[export] Instance opt_le_total `{!Total la} : Total (opt_le la).
Proof. intros [a|] [b|]; simpl; auto. Qed.
#[export] Instance opt_le_trans `{!Transitive la} : Transitive (opt_le la).
Proof. intros [a|] [b|] [c|]; simpl; try done. apply transitivity. Qed.
#[export] Instance opt_le_antisymm `{!AntiSymm (=) la} : AntiSymm (=) (opt_le la).
Proof. intros [a|] [b|]; simpl; try done. intros H1 H2. f_equal. by apply (anti_symm la). Qed.
End OptOrder.

#[export] Instance Zle_total : Total Z.le.
Proof. intros a b. lia. Qed.
#[export] Instance Zle_trans : Transitive Z.le.
Proof. intros a b c. lia. Qed.
#[export] Instance Zle_antisymm : AntiSymm (=) Z.le.
Proof. intros a b. lia. Qed.

#[export] Instance row_key_le_total : Total row_key_le.
Proof. unfold row_key_le, cell_le. apply _. Qed.
#[export] Instance row_key_le_trans : Transitive row_key_le.
Proof. unfold row_key_le, cell_le. apply _. Qed.

Section SortBy.
Context {A K : Type} (le : relation K) `{!RelDecision le}.
#[export] Instance by_key_total (key : A -> K) `{!Total le} : Total (by_key le key).
Proof. intros x y. unfold by_key. apply (total le). Qed.
#[export] Instance by_key_trans (key : A -> K) `{!Transitive le} : Transitive (by_key le key).
Proof. intros x y z. unfold by_key. apply transitivity. Qed.

Lemma sort_by_perm (key : A -> K) l : Permutation (sort_by le key l) l.
Proof. apply merge_sort_Permutation. Qed.
Lemma sort_by_sorted (key : A -> K) `{!Total le, !Transitive le} l :
  StronglySorted (by_key le key) (sort_by le key l).
Proof. apply Sorted_StronglySorted; [apply _|]. apply Sorted_merge_sort. apply _. Qed.
End SortBy.

Lemma filter_Permutation {A} (f : A -> bool) l l' :
  Permutation l l' -> Permutation (List.filter f l) (List.filter f l').
Proof.
  induction 1; simpl; [done| | |by etrans].
  - destruct (f x); [by constructor|done].
  - destruct (f x), (f y); try reflexivity. constructor.
Qed.
Lemma StronglySorted_List_filter {A} (R : relation A) (f : A -> bool) l :
  StronglySorted R l -> StronglySorted R (List.filter f l).
Proof.
  induction 1 as [|x l H IH Hx]; simpl; [constructor|]. destruct (f x); [|done].
  constructor; [done|]. rewrite Forall_forall in *. intros y Hy%list_elem_of_In%filter_In.
  apply Hx. apply list_elem_of_In, Hy.
Qed.

(** ** Trimming *)
Definition in_cell (k : cell_key) (r : request_row) : bool := bool_decide (cell_of r = k).

Lemma keep_rows_cell dropped k before rows :
  List.filter (in_cell k) (keep_rows dropped before rows)
  = drop (Z.to_nat (dropped k - py_len (List.filter (in_cell k) before)))
      (List.filter (in_cell k) rows).
Proof.
  revert before; induction rows as [|r rest IH]; intros before; cbn [keep_rows].
  { simpl. by rewrite drop_nil. }
  cbv zeta. change (fun x => bool_decide (cell_of x = cell_of r)) with (in_cell (cell_of r)).
  specialize (IH (before ++ [r])). rewrite List.filter_app in IH. cbn [List.filter] in IH |- *.
  destruct (in_cell k r) eqn:Hin.
  - assert (cell_of r = k) as -> by by apply bool_decide_eq_true in Hin.
    unfold py_len in *. rewrite length_app in IH. cbn [length] in IH.
    set (n := length (List.filter (in_cell k) before)) in *.
    destruct (Z.leb_spec (dropped k) (Z.of_nat n)).
    + cbn [List.filter]. rewrite Hin, IH.
      replace (Z.to_nat (dropped k - Z.of_nat n)) with 0%nat by lia.
      by replace (Z.to_nat (dropped k - Z.of_nat (n + 1))) with 0%nat by lia.
    + rewrite IH. by replace (Z.to_nat (dropped k - Z.of_nat n))
        with (S (Z.to_nat (dropped k - Z.of_nat (n + 1)))) by lia.
  - rewrite app_nil_r in IH. rewrite <- IH. destruct (_ <=? _); [|done]. cbn [List.filter].
    by rewrite Hin.
Qed.

Lemma n_dropped_bounds f n : 0 <= n -> 0 <= n_dropped f n <= n.
Proof. intros Hn. unfold n_dropped. destruct (n <? 20); [lia|]. cbv zeta.
  generalize (Z.quot (Qnum (inject_Z n * f)) (Zpos (Qden (inject_Z n * f)))). intros c.
  destruct (Z.ltb_spec c 0); lia.
Qed.

(** With a fraction of the rows, the whole part of it. *)
Lemma n_dropped_fraction f n :
  (0 <= f <= 1)%Q -> 20 <= n ->
  (inject_Z (n_dropped f n) <= inject_Z n * f /\ inject_Z n * f < inject_Z (n_dropped f n + 1))%Q.
Proof.
  intros [Hf0 Hf1] Hn. unfold n_dropped. rewrite (proj2 (Z.ltb_ge _ _)) by lia. cbv zeta.
  destruct f as [p q]. unfold Qle, Qlt, Qmult in *. simpl in *.
  rewrite Z.quot_div_nonneg by nia.
  pose proof (Z.mul_div_le (n * p) (Zpos q) ltac:(lia)).
  pose proof (Z.mul_succ_div_gt (n * p) (Zpos q) ltac:(lia)).
  assert (0 <= n * p / Zpos q) by (apply Z.div_pos; nia).
  assert (n * p / Zpos q <= n) by (apply Z.div_le_upper_bound; nia).
  rewrite Pos.mul_1_l, (proj2 (Z.ltb_ge _ _)), Z.min_r by lia. split; nia.
Qed.

Lemma StronglySorted_app_forall {A} (R : relation A) l1 l2 :
  StronglySorted R (l1 ++ l2) -> Forall (fun x => Forall (R x) l2) l1.
Proof.
  induction l1 as [|x l1 IH]; simpl; [constructor|]. inversion 1 as [|? ? H1 H2]; subst.
  constructor; [by apply Forall_app in H2 as [_ H2]|by apply IH].
Qed.

(** Within a cell the sorted table is in request order. *)
Lemma cell_sorted df k :
  StronglySorted (fun x y => rq_index x <= rq_index y)
    (List.filter (in_cell k) (sort_by row_key_le row_key df)).
Proof.
  pose proof (StronglySorted_List_filter _ (in_cell k) _ (sort_by_sorted row_key_le row_key df)) as H.
  assert (Forall (fun r => cell_of r = k)
            (List.filter (in_cell k) (sort_by row_key_le row_key df))) as Hk.
  { apply Forall_forall. intros r Hr%list_elem_of_In%filter_In. destruct Hr as [_ Hr]. by apply bool_decide_eq_true in Hr. }
  revert H Hk. generalize (List.filter (in_cell k) (sort_by row_key_le row_key df)).
  induction 1 as [|r l H IH Hr]; intros Hk; [constructor|]. apply Forall_cons_1 in Hk as [Hk1 Hk].
  constructor; [by apply IH|]. rewrite Forall_forall in *. intros y Hy.
  destruct (Hr y Hy) as [[Hne _]|[_ Hle]]; [|exact Hle].
  exfalso. apply Hne. simpl. by rewrite Hk1, (Hk y Hy).
Qed.

(** Trimming drops the start of every large cell and nothing else: for
    every cell -- run, configuration, concurrency and repetition -- its rows
    are the dropped ones and the kept ones, with no kept row before a dropped
    one in request order; none are dropped of fewer than 20 rows, and
    otherwise [int(n * warmup_fraction)] when the fraction is between 0 and 1. *)
Theorem discard_trims_each_cell (df : list request_row) (f : Q) (k : cell_key) :
  let cell := List.filter (in_cell k) in
  exists dropped,
    Permutation (cell df) (dropped ++ cell (discard_warmup df f))
    /\ py_len dropped = n_dropped f (py_len (cell df))
    /\ Forall (fun d => Forall (fun r => rq_index d <= rq_index r) (cell (discard_warmup df f))) dropped
    /\ (py_len (cell df) < 20 -> dropped = [])
    /\ ((0 <= f <= 1)%Q -> 20 <= py_len (cell df) ->
        (inject_Z (py_len dropped) <= inject_Z (py_len (cell df)) * f)%Q
        /\ (inject_Z (py_len (cell df)) * f < inject_Z (py_len dropped + 1))%Q).
Proof.
  intros cell. unfold discard_warmup. set (s := sort_by row_key_le row_key df).
  assert (Permutation s df) as Hs by apply sort_by_perm.
  assert (Permutation (cell s) (cell df)) as Hc by by apply filter_Permutation.
  assert (cell_size s k = py_len (cell df)) as Hsize.
  { unfold cell_size, py_len. f_equal. by apply Permutation_length. }
  assert (cell (keep_rows (fun k => n_dropped f (cell_size s k)) [] s)
          = drop (Z.to_nat (n_dropped f (py_len (cell df)))) (cell s)) as Hk.
  { unfold cell. rewrite keep_rows_cell, Hsize.
    change (py_len (List.filter (in_cell k) [])) with 0. by rewrite Z.sub_0_r. }
  rewrite Hk. set (n := n_dropped f (py_len (cell df))).
  assert (0 <= n <= py_len (cell df)) as Hn by (apply n_dropped_bounds; unfold py_len; lia).
  assert (length (cell s) = length (cell df)) as Hlen by by apply Permutation_length.
  exists (take (Z.to_nat n) (cell s)).
  assert (py_len (take (Z.to_nat n) (cell s)) = n) as Htake.
  { unfold py_len in *. rewrite length_take, Hlen. lia. }
  split_and!.
  - by rewrite take_drop.
  - exact Htake.
  - assert (StronglySorted (fun x y => rq_index x <= rq_index y) (cell s)) as Hss.
    { apply (cell_sorted df k). }
    rewrite <- (take_drop (Z.to_nat n) (cell s)) in Hss. by apply StronglySorted_app_forall in Hss.
  - intros Hlt. assert (n = 0) as ->; [|done].
    unfold n, n_dropped. by rewrite (proj2 (Z.ltb_lt _ _) Hlt).
  - intros [Hf0 Hf1] Hge. rewrite Htake. by apply n_dropped_fraction.
Qed.

(** ** Groups *)
Section Groups.
Context {A K : Type} `{EqDecision K} (le : relation K) `{!RelDecision le}.
Variable key : A -> K.

Lemma groupby_keys rows : map fst (groupby le key rows) = merge_sort le (remove_dups (map key rows)).
Proof. unfold groupby. rewrite map_map. apply map_id. Qed.

Lemma groupby_keys_perm rows :
  Permutation (map fst (groupby le key rows)) (remove_dups (map key rows)).
Proof. rewrite groupby_keys. apply merge_sort_Permutation. Qed.

Lemma groupby_NoDup rows : NoDup (map fst (groupby le key rows)).
Proof. rewrite groupby_keys_perm. apply NoDup_remove_dups. Qed.

Lemma groupby_elem rows k g :
  (k, g) ∈ groupby le key rows ->
  g = List.filter (fun r => bool_decide (key r = k)) rows /\ g <> [].
Proof.
  unfold groupby. intros (k' & Heq & Hk)%list_elem_of_In%in_map_iff. injection Heq as -> <-.
  split; [done|].
  apply list_elem_of_In in Hk. rewrite merge_sort_Permutation, elem_of_remove_dups in Hk.
  apply list_elem_of_In, in_map_iff in Hk as (r & Hr & Hin).
  assert (In r (List.filter (fun r => bool_decide (key r = k)) rows)) as Hf.
  { apply filter_In. split; [done|]. by apply bool_decide_eq_true. }
  intros Hn. by rewrite Hn in Hf.
Qed.

Lemma groupby_elem_key rows k :
  k ∈ map fst (groupby le key rows) <-> exists r, r ∈ rows /\ key r = k.
Proof.
  rewrite groupby_keys_perm, elem_of_remove_dups, list_elem_of_In, in_map_iff.
  split; intros (r & H1 & H2); exists r.
  - by rewrite list_elem_of_In.
  - by rewrite <- list_elem_of_In.
Qed.
End Groups.

(** ** The summary *)
Section Summary.
Variable sqrt : Q -> Q.

Lemma median_nonempty l : l <> [] -> exists m, median l = Ok m.
Proof.
  intros Hl. unfold median. destruct (length (Qsorted l)) eqn:Hn.
  - exfalso. apply Hl. apply length_zero_iff_nil. rewrite <- Hn. symmetry.
    apply Permutation_length, Qsorted_perm.
  - destruct (Nat.odd _); by eexists.
Qed.

Lemma metric_entries_total group : exists ms, metric_entries sqrt group = Ok ms.
Proof.
  unfold metric_entries.
  destruct (rmap_total (fun col => match values_of col group with
      | [] => Ok [] | vals => let? s := stats_of sqrt vals in Ok [(col, s)] end) METRIC_COLUMNS)
    as (es & ->); [|by eexists].
  intros col _. destruct (values_of col group) as [|v vs]; [by eexists|].
  unfold stats_of. destruct (median_nonempty (v :: vs)) as (m & ->); [done|]. by eexists.
Qed.

Lemma filter_split_length {A} (f : A -> bool) l :
  py_len (List.filter (fun r => negb (f r)) l) + py_len (List.filter f l) = py_len l.
Proof. unfold py_len. induction l as [|a l IH]; simpl; [done|]. destruct (f a); simpl; lia. Qed.

(** A share of a positive number. *)
Lemma share_range a n : 0 <= a <= n -> 0 < n -> (0 <= inject_Z a / inject_Z n <= 1)%Q.
Proof.
  intros Ha Hn. split.
  - apply Qle_shift_div_l; unfold Qlt, Qle; simpl; lia.
  - apply Qle_shift_div_r; unfold Qlt, Qle; simpl; lia.
Qed.
Lemma share_all n : 0 < n -> (inject_Z n / inject_Z n == 1)%Q.
Proof. intros Hn. apply Qmult_inv_r. unfold Qeq. simpl. lia. Qed.

(** What a row says of its group. *)
Definition row_counts (df : list request_row) (s : summary_row) : Prop :=
  let attempted := List.filter
    (fun r => bool_decide (config_concurrency r = (sm_config s, sm_concurrency s))) df in
  sm_n_attempted s = py_len attempted /\ 0 < sm_n_attempted s
  /\ sm_n_errors s = py_len (List.filter is_err attempted)
  /\ sm_n_requests s + sm_n_errors s = sm_n_attempted s
  /\ (sm_error_rate s == inject_Z (sm_n_errors s) / inject_Z (sm_n_attempted s))%Q
  /\ (0 <= sm_error_rate s <= 1)%Q.

Lemma summarize_group_row df k g s :
  (k, g) ∈ groupby group_le config_concurrency df -> summarize_group sqrt (k, g) = Ok s ->
  k = (sm_config s, sm_concurrency s) /\ row_counts df s.
Proof.
  intros Hg Hs. apply groupby_elem in Hg as [Hg Hne]. destruct k as [c n]. unfold summarize_group in Hs.
  destruct (metric_entries _ _) as [ms|]; [|done]. injection Hs as <-. split; [done|].
  unfold row_counts. cbn [sm_n_attempted sm_n_errors sm_n_requests sm_error_rate sm_config sm_concurrency].
  rewrite <- Hg. pose proof (filter_split_length is_err g) as Hsum.
  assert (0 < py_len g) by (destruct g; unfold py_len; simpl; [done|lia]).
  assert (0 <= py_len (List.filter is_err g)) by (unfold py_len; lia).
  assert (0 <= py_len (List.filter (fun r => negb (is_err r)) g)) by (unfold py_len; lia).
  split_and!; try done; apply share_range; lia.
Qed.
End Summary.

(** No cell vanishes from the summary: a table with at least one row is
    always summarised, with exactly one row for each configuration and
    concurrency level that was attempted -- also where every request failed --
    sorted by level and configuration, and each row's counts add up: requests
    and errors are the attempts and the error rate is their share. *)
Theorem summary_covers_cells (sqrt : Q -> Q) (df : list request_row) (Hdf : df <> []) :
  exists rows, summarize sqrt df = Ok rows
    /\ NoDup (map table_key rows)
    /\ (forall config concurrency, (concurrency, config) ∈ map table_key rows <->
          exists r, r ∈ df /\ config_concurrency r = (config, concurrency))
    /\ StronglySorted table_le (map table_key rows)
    /\ Forall (row_counts df) rows.
Proof.
  unfold summarize. set (groups := groupby group_le config_concurrency df).
  destruct (rmap_total (summarize_group sqrt) groups) as (rows & Hrows).
  { intros [[c n] g] _. unfold summarize_group.
    destruct (metric_entries_total sqrt (List.filter (fun r => negb (is_err r)) g)) as (ms & ->).
    by eexists. }
  rewrite Hrows. cbn [rbind]. apply rmap_Ok in Hrows.
  assert (Forall2 (fun kg s => fst kg = (sm_config s, sm_concurrency s) /\ row_counts df s) groups rows)
    as Hall.
  { assert (forall gs rs, (forall kg, kg ∈ gs -> kg ∈ groups) ->
      Forall2 (fun a b => summarize_group sqrt a = Ok b) gs rs ->
      Forall2 (fun kg s => fst kg = (sm_config s, sm_concurrency s) /\ row_counts df s) gs rs) as Hgo.
    { intros gs rs Hin H. induction H as [|[k g] s gs rs Hs _ IH]; constructor.
      - eapply summarize_group_row; [|exact Hs]. apply Hin. left.
      - apply IH. intros kg Hkg. apply Hin. by right. }
    by apply Hgo. }
  assert (map fst groups = map (fun s => (sm_config s, sm_concurrency s)) rows) as Hkeys.
  { clear Hrows. induction Hall as [|kg s gs rows' [Hk _] _ IH]; [done|]. simpl. by rewrite Hk, IH. }
  assert (rows <> []) as Hne.
  { intros ->. inversion Hrows as [Hg|]. destruct df as [|r df']; [done|].
    assert (config_concurrency r ∈ map fst groups) as Hr.
    { apply groupby_elem_key. exists r. split; [left|done]. }
    rewrite <- Hg in Hr. by apply elem_of_nil in Hr. }
  exists (sort_by table_le table_key rows). split; [by destruct rows|].
  assert (Permutation (sort_by table_le table_key rows) rows) as Hp by apply sort_by_perm.
  assert (map table_key rows = map (fun k => (snd k, fst k)) (map fst groups)) as Htk.
  { rewrite Hkeys, map_map. done. }
  split_and!.
  - rewrite Hp, Htk. apply NoDup_fmap_2_strong; [|apply groupby_NoDup].
    intros [a b] [c d] _ _. simpl. congruence.
  - intros config conc. rewrite Hp, Htk. rewrite <- (groupby_elem_key group_le). fold groups.
    rewrite !list_elem_of_In, in_map_iff. split.
    + intros ([a b] & [= -> ->] & H). done.
    + intros H. by exists (config, conc).
  - pose proof (sort_by_sorted table_le table_key rows) as Hs. revert Hs.
    generalize (sort_by table_le table_key rows). induction 1 as [|x l H IH Hx]; simpl; constructor; [done|].
    rewrite Forall_fmap. exact Hx.
  - rewrite Hp. clear -Hall. induction Hall as [|kg s gs rows' [_ Hk] _ IH]; by constructor.
Qed.
