(* ===== verification/Tradeoff.v ===== *)
(** * Scores and their ground truth ([analysis/tradeoff_matrix.py],
    [analysis/security_validation.py], [analysis/streaming_analysis.py])

    The composite score of a configuration at a scale, the streaming security
    score, the cross-checks of the assumed scores against the threat
    experiments, and the streaming summary.  A median of no values is NaN. *)
From stdpp Require Import sorting.
From S2P Require Import Prelude PyBytes PyVal PyList PyNum Instrumentation Aggregate.

(** ** Security scores *)
Definition SECURITY_SCORES : list (string * option Q) :=
  [("control", None); ("control_2rt", None); ("classical", Some 0%Q); ("classical_ecdhe", Some 0%Q);
   ("hybrid", Some (8 # 10)%Q); ("hybrid_kex", Some (8 # 10)%Q); ("full_pqc", Some 1%Q);
   ("hybrid_kex_pq", Some 1%Q)].
Definition DEFAULT_EXPOSURE_SHARE : Q := 3 # 10.

(** [d.get(key) == s]. *)
Definition field_is (key s : string) (d : dict) : bool := val_eq_str (dget_or key VNone d) s.

(** The fractions of the summaries of that configuration and strategy that
    have one. *)
Fixpoint fractions_of (summaries : list dict) (config strategy : string) : result (list Q) :=
  match summaries with
  | [] => Ok []
  | s :: rest =>
      if field_is "config" config s && field_is "strategy" strategy s then
        match dget_or "fraction_delivered_before_detection_mean" VNone s with
        | VNone => fractions_of rest config strategy
        | v => let? q := as_num v in
               let? qs := fractions_of rest config strategy in Ok (q :: qs)
        end
      else fractions_of rest config strategy
  end.

Definition sequence_integrity_resistance (summaries : list dict) (config strategy : string)
    : result (option Q) :=
  if String.eqb strategy "buffer_and_sign" then Ok (Some 1%Q)
  else
    let? fractions := fractions_of summaries config strategy in
    Ok (match fractions with [] => None | _ => Some (1 - Qmean fractions)%Q end).

Definition streaming_security_score (config strategy : string) (summaries : list dict)
    (exposure_share : Q) : result (option Q) :=
  match dget config SECURITY_SCORES with
  | Some (Some sec_score) =>
      let? r := sequence_integrity_resistance summaries config strategy in
      Ok (match r with
          | Some resistance =>
              Some ((1 - exposure_share) * sec_score + exposure_share * resistance)%Q
          | None => None
          end)
  | _ => Ok None
  end.

(** ** The matrix *)
Definition WEIGHTINGS : list (string * (Q * Q)) :=
  [("security_priority", (8 # 10, 2 # 10)%Q); ("balanced", (1 # 2, 1 # 2)%Q);
   ("performance_priority", (2 # 10, 8 # 10)%Q)].

(** NaN is contagious. *)
Definition xmap2 (f : Q -> Q -> Q) (a b : xfloat) : xfloat :=
  match a, b with XFin x, XFin y => XFin (f x y) | _, _ => XNaN end.

Record matrix_row := mkMatrixRow {
  mx_config : string; mx_scale : Z; mx_baseline_config : string; mx_w_sec : Q; mx_w_perf : Q;
  mx_security_score : Q; mx_median : option xfloat; mx_baseline_median : xfloat;
  mx_overhead : option xfloat; mx_composite : option xfloat; mx_error_rate : Q; mx_available : bool }.

Section Matrix.
Context {A : Type}.
Variables (config_of : A -> string) (scale_of : A -> Z) (metric_of : A -> option Q) (err_of : A -> bool).

Definition at_cell (config : string) (scale : Z) (rows : list A) : list A :=
  List.filter (fun r => String.eqb (config_of r) config && (scale_of r =? scale)) rows.

(** [median_metric[(config, scale)]]: [None] is the [KeyError]. *)
Definition median_at (ok : list A) (config : string) (scale : Z) : option xfloat :=
  match at_cell config scale ok with
  | [] => None
  | group => Some (match median (omap metric_of group) with Ok m => XFin m | Raise _ => XNaN end)
  end.

(** [error_rate[(config, scale)]], if it was attempted. *)
Definition error_rate_at (df : list A) (config : string) (scale : Z) : option Q :=
  match at_cell config scale df with
  | [] => None
  | group => Some (inject_Z (py_len (List.filter err_of group)) / inject_Z (py_len group))%Q
  end.

(** [(config_val - baseline_val) / baseline_val if baseline_val > 0 else None]. *)
Definition overhead_of (config_val baseline_val : xfloat) : option xfloat :=
  if xlt (XFin 0) baseline_val
  then Some (xmap2 Qdiv (xmap2 Qminus config_val baseline_val) baseline_val)
  else None.

(** [w_sec * sec_score - w_perf * (overhead_pct or 0.0)]. *)
Definition composite_score (w_sec w_perf sec_score : Q) (overhead : option xfloat) : xfloat :=
  match overhead with
  | None => XFin (w_sec * sec_score - w_perf * 0)%Q
  | Some (XFin o) => XFin (w_sec * sec_score - w_perf * o)%Q
  | Some x => XNaN
  end.

Definition matrix_entry (df ok : list A) (w_sec w_perf : Q) (baseline_config : string)
    (scale : Z) (baseline_val : xfloat) (cs : string * Q) : list matrix_row :=
  let '(config, sec_score) := cs in
  match error_rate_at df config scale with
  | None => []
  | Some rate =>
      match median_at ok config scale with
      | None => [mkMatrixRow config scale baseline_config w_sec w_perf sec_score None baseline_val
                   None None rate false]
      | Some config_val =>
          let overhead := overhead_of config_val baseline_val in
          [mkMatrixRow config scale baseline_config w_sec w_perf sec_score (Some config_val)
             baseline_val overhead (Some (composite_score w_sec w_perf sec_score overhead)) rate true]
      end
  end.

(** The configurations with a score that the table has, in the order of the
    scores. *)
Definition scored_configs (scores : list (string * option Q)) (df : list A) : list (string * Q) :=
  omap (fun cs => match snd cs with
                  | Some s => if existsb (String.eqb (fst cs)) (map config_of df)
                              then Some (fst cs, s) else None
                  | None => None
                  end) scores.

Definition build_matrix_at (df : list A) (w_sec w_perf : Q) (baseline_config : option string)
    (security_scores : option (list (string * option Q))) : list matrix_row :=
  let ok := List.filter (fun r => negb (err_of r)) df in
  let baseline := resolve_baseline_config (map config_of ok) baseline_config in
  let scores := match security_scores with Some s => s | None => SECURITY_SCORES end in
  let scored := scored_configs scores df in
  concat (map (fun scale =>
      match median_at ok baseline scale with
      | None => []
      | Some baseline_val =>
          concat (map (matrix_entry df ok w_sec w_perf baseline scale baseline_val) scored)
      end) (merge_sort Z.le (remove_dups (map scale_of ok)))).

(** The three standard weightings; the name is the [weighting] column, put
    third: a matrix without rows has no columns. *)
Definition build_matrix (df : list A) (baseline_config : option string) : result (list (string * matrix_row)) :=
  let? frames := rmap (fun nw =>
    match build_matrix_at df (fst (snd nw)) (snd (snd nw)) baseline_config None with
    | [] => Raise (IndexError "index 2 is out of bounds for axis 0 with size 0")
    | rows => Ok (map (pair (fst nw)) rows)
    end) WEIGHTINGS in
  Ok (concat frames).
End Matrix.

(** ** Cross-checks *)
Definition EXPECTED_KEX_DECRYPTABLE : list (string * bool) :=
  [("classical", true); ("classical_ecdhe", true); ("hybrid", false); ("hybrid_kex", false);
   ("full_pqc", false); ("hybrid_kex_pq", false)].
Definition NEAR_100PCT_THRESHOLD : Q := 99 # 100.

(** What a summary is warned about. *)
Inductive kex_warning :=
  | NoField (config : string)
  | Mismatch (config : string) (measured : val) (expected : bool)
  | MissingConfigs (configs : list string).

(** [measured != expected] for a [bool]. *)
Definition val_eq_bool (v : val) (b : bool) : bool := val_eq_int v (if b then 1 else 0).

Fixpoint check_summaries (summaries : list dict) (seen : list string)
    : result (list kex_warning * list string) :=
  match summaries with
  | [] => Ok ([], seen)
  | s :: rest =>
      match dget_or "config" VNone s with
      | VList _ | VDict _ => Raise (TypeError "unhashable type")
      | VStr config =>
          match dget config EXPECTED_KEX_DECRYPTABLE with
          | None => check_summaries rest seen
          | Some expected =>
              let measured := dget_or "kex_decryptable_under_future_crqc" VNone s in
              let here := match measured with
                          | VNone => [NoField config]
                          | _ => if val_eq_bool measured expected then []
                                 else [Mismatch config measured expected]
                          end in
              let? out := check_summaries rest (config :: seen) in
              Ok (here ++ fst out, snd out)
          end
      | _ => check_summaries rest seen
      end
  end.

Definition validate_confidentiality_axis (hndl_summaries : list dict) : result (list kex_warning) :=
  let? out := check_summaries hndl_summaries [] in
  let missing := List.filter (fun c => negb (existsb (String.eqb c) (snd out)))
                   (keys EXPECTED_KEX_DECRYPTABLE) in
  Ok (fst out ++ match missing with [] => [] | _ => [MissingConfigs (merge_sort str_le missing)] end).

Inductive authenticity_note := AllHigh | NotUniformlyHigh | NoResults.

(** [{s["config"]: s.get("detection_rate") ... if ...}]: the last wins. *)
Fixpoint detection_rates (summaries : list dict) (acc : list (string * val))
    : result (list (string * val)) :=
  match summaries with
  | [] => Ok acc
  | s :: rest =>
      if field_is "tamper_target" "signature" s then
        match dget_or "config" VNone s with
        | VStr config =>
            if dmem config SECURITY_SCORES
            then detection_rates rest (dset config (dget_or "detection_rate" VNone s) acc)
            else detection_rates rest acc
        | VList _ | VDict _ => Raise (TypeError "unhashable type")
        | _ => detection_rates rest acc
        end
      else detection_rates rest acc
  end.

Definition validate_authenticity_near_term (mitm_summaries : list dict)
    : result (list (string * val) * bool * authenticity_note) :=
  let? per_config := detection_rates mitm_summaries [] in
  let? rates := rmap (fun kv => as_num (snd kv))
                  (List.filter (fun kv => match snd kv with VNone => false | _ => true end) per_config) in
  let all_high := match rates with
                  | [] => false
                  | r :: rs => Qle_bool NEAR_100PCT_THRESHOLD (Qminimum r rs)
                  end in
  Ok (per_config, all_high,
      if all_high then AllHigh else match rates with [] => NoResults | _ => NotUniformlyHigh end).

(** ** The streaming summary *)
Record stream_row := mkStreamRow {
  sr_config : string; sr_strategy : string; sr_max_tokens : Z; sr_chunk_size_tokens : Z;
  sr_error : option string; sr_ttft_ms : option Q; sr_total_ms : option Q; sr_n_chunks : Z;
  sr_total_signature_bytes : Q; sr_total_signing_ms : Q; sr_total_verify_ms : Q;
  sr_stream_fully_verified : cell }.

Record stream_summary_row := mkStreamSummary {
  ss_config : string; ss_strategy : string; ss_max_tokens : Z; ss_chunk_size_tokens : Z;
  ss_n_repetitions : Z; ss_ttft_ms_mean : xfloat; ss_ttft_ms_median : xfloat;
  ss_total_ms_mean : xfloat; ss_n_chunks_mean : Q; ss_total_signature_bytes_mean : Q;
  ss_total_signing_ms_mean : Q; ss_total_verify_ms_mean : Q; ss_all_stream_fully_verified : bool }.

Abbreviation stream_key := (string * (string * (Z * Z)))%type.
Definition stream_key_of (r : stream_row) : stream_key :=
  (sr_config r, (sr_strategy r, (sr_max_tokens r, sr_chunk_size_tokens r))).
Definition stream_key_le : relation stream_key := lex_le str_le (lex_le str_le (lex_le Z.le Z.le)).
#[export] Instance stream_key_le_dec : RelDecision stream_key_le := _.

(** [series.mean()] and [series.median()] skip missing values. *)
Definition xmean (l : list Q) : xfloat := match l with [] => XNaN | _ => XFin (Qmean l) end.
Definition xmedian (l : list Q) : xfloat := match median l with Ok m => XFin m | Raise _ => XNaN end.

(** [bool(x)] of a cell: NaN is true. *)
Definition cell_truthy (c : cell) : bool := match c with NaN => true | Cell v => truthy v end.

Definition stream_ok (r : stream_row) : bool :=
  match sr_error r with Some e => String.eqb e "" | None => true end.

Definition summarize_stream_group (kg : stream_key * list stream_row) : stream_summary_row :=
  let '((config, (strategy, (max_tokens, chunk_size))), g) := kg in
  mkStreamSummary config strategy max_tokens chunk_size (py_len g)
    (xmean (omap sr_ttft_ms g)) (xmedian (omap sr_ttft_ms g)) (xmean (omap sr_total_ms g))
    (Qmean (map (fun r => inject_Z (sr_n_chunks r)) g)) (Qmean (map sr_total_signature_bytes g))
    (Qmean (map sr_total_signing_ms g)) (Qmean (map sr_total_verify_ms g))
    (forallb (fun r => cell_truthy (sr_stream_fully_verified r)) g).

Definition stream_table_key (s : stream_summary_row) : string * (Z * (Z * string)) :=
  (ss_config s, (ss_max_tokens s, (ss_chunk_size_tokens s, ss_strategy s))).
Definition stream_table_le : relation (string * (Z * (Z * string))) :=
  lex_le str_le (lex_le Z.le (lex_le Z.le str_le)).
#[export] Instance stream_table_le_dec : RelDecision stream_table_le := _.

Definition summarize_streaming (df : list stream_row) : result (list stream_summary_row) :=
  match map summarize_stream_group (groupby stream_key_le stream_key_of (List.filter stream_ok df)) with
  | [] => Raise (KeyError "config")
  | rows => Ok (sort_by stream_table_le stream_table_key rows)
  end.

Record comparison_row := mkComparison {
  cp_strategy : string; cp_ttft_ms_mean : xfloat; cp_ttft_speedup : option xfloat;
  cp_signature_bytes : Q; cp_bytes_reduction : option xfloat; cp_all_verified : bool }.

(** [sub[sub["strategy"] == s][col].iloc[0]], if there is one. *)
Definition first_of (strategy : string) (sub : list stream_summary_row) : option stream_summary_row :=
  match List.filter (fun s => String.eqb (ss_strategy s) strategy) sub with
  | s :: _ => Some s | [] => None end.

(** [a / b] of a series: division by zero gives infinity or NaN. *)
Definition series_div (a b : xfloat) : xfloat :=
  match a, b with
  | XFin x, XFin y => if Qeq_bool y 0 then if Qltb 0 x then XInf else XNaN else XFin (x / y)%Q
  | _, _ => XNaN
  end.

Definition strategy_comparison_at (df : list stream_row) (config : string)
    (max_tokens chunk_size_tokens : Z) : result (list comparison_row) :=
  let? summary := summarize_streaming df in
  let sub := List.filter (fun s => String.eqb (ss_config s) config && (ss_max_tokens s =? max_tokens)
                                   && (ss_chunk_size_tokens s =? chunk_size_tokens)) summary in
  let baseline := match first_of "buffer_and_sign" sub with
                  | Some s => match ss_ttft_ms_mean s with
                              | XFin q => if Qeq_bool q 0 then None else Some (XFin q)
                              | x => Some x
                              end
                  | None => None
                  end in
  let per_chunk := match first_of "per_chunk" sub with
                   | Some s => if Qeq_bool (ss_total_signature_bytes_mean s) 0 then None
                               else Some (ss_total_signature_bytes_mean s)
                   | None => None
                   end in
  Ok (map (fun s => mkComparison (ss_strategy s) (ss_ttft_ms_mean s)
                      (match baseline with Some b => Some (series_div b (ss_ttft_ms_mean s)) | None => None end)
                      (ss_total_signature_bytes_mean s)
                      (match per_chunk with
                       | Some p => Some (XFin (1 - ss_total_signature_bytes_mean s / p)%Q)
                       | None => None
                       end) (ss_all_stream_fully_verified s)) sub).
