(* ===== verification/PaperStats.v ===== *)
(** * The statistics of the paper ([analysis/paper_figures.py])

    Which rows the tables are computed from, the statistics of a cell, the
    comparison of two configurations with its bootstrap intervals and its
    corrected significance, and the sensitivity of the medians to failed
    requests.  A float is a number or NaN, [None]; where the code
    can divide by zero it is an [nfloat].  NumPy's [argsort] and generator and
    SciPy's tests are parameters; plotting and LaTeX are left out. *)
From stdpp Require Import sorting pretty.
From S2P Require Import Prelude PyBytes PyVal PyList PyNum Instrumentation Aggregate.

Abbreviation float := (option Q).

Definition CONFIGS : list string :=
  ["control"; "control_2rt"; "classical"; "classical_ecdhe"; "hybrid"; "hybrid_kex"; "full_pqc";
   "hybrid_kex_pq"].
Definition PROTECTED : list string :=
  ["classical"; "classical_ecdhe"; "hybrid"; "hybrid_kex"; "full_pqc"; "hybrid_kex_pq"].

(** ** Numbers *)
Inductive nfloat := NFin (q : Q) | NPosInf | NNegInf | NNaN.

(** [a / b] of two NumPy floats. *)
Definition ndiv (a b : float) : nfloat :=
  match a, b with
  | Some x, Some y =>
      if Qeq_bool y 0
      then if Qeq_bool x 0 then NNaN else if Qle_bool x 0 then NNegInf else NPosInf
      else NFin (x / y)%Q
  | _, _ => NNaN
  end.
(** [x < q] and [q < x]. *)
Definition nlt (x : nfloat) (q : Q) : bool :=
  match x with NFin y => Qltb y q | NNegInf => true | _ => false end.
Definition ngt (q : Q) (x : nfloat) : bool :=
  match x with NFin y => Qltb q y | NPosInf => true | _ => false end.

Definition flift (f : Q -> Q -> Q) (a b : float) : float :=
  match a, b with Some x, Some y => Some (f x y) | _, _ => None end.
Definition fsub : float -> float -> float := flift Qminus.
Definition fadd : float -> float -> float := flift Qplus.
Definition fneg (a : float) : float := option_map Qopp a.
Definition fscale (c : Q) (a : float) : float := option_map (Qmult c) a.

(** [np.median] of values: NaN of none. *)
Definition np_median (vals : list Q) : float :=
  match median vals with Ok m => Some m | Raise _ => None end.
(** [series.quantile(q)] and [series.min()], [series.max()], which skip NaN. *)
Definition series_quantile (q : Q) (vals : list Q) : float :=
  match vals with [] => None | _ => Some (quantile q vals) end.
Definition series_min (l : list float) : float := min_or_none (omap id l).
Definition series_max (l : list float) : float := max_or_none (omap id l).
(** [np.percentile(array, 100 * q)]: NaN when the array holds one. *)
Definition np_quantile (q : Q) (l : list float) : float :=
  match mapM id l with Some vals => Some (quantile q vals) | None => None end.

(** [sorted(series.unique())]. *)
Definition sorted_unique {A} `{EqDecision A} (le : relation A) `{!RelDecision le} (l : list A) : list A :=
  merge_sort le (remove_dups l).

(** ** Selecting rows *)
Definition _ok (df : list request_row) : list request_row := List.filter (fun r => negb (is_err r)) df.

(** A row of the raw table with the columns that name its settings. *)
Record paper_row := mkPaperRow {
  pp_row : request_row; pp_payload : option string; pp_network : option string;
  pp_per_handshake : option Z }.
(** The columns the table has, and its rows; a missing column is missing in
    every row. *)
Record table := mkTable { tb_columns : list string; tb_rows : list paper_row }.
Definition has_column (t : table) (c : string) : bool := existsb (String.eqb c) (tb_columns t).
Definition run_of (r : paper_row) : option string := rq_run_id (pp_row r).

Definition SETTING_COLUMNS : list string := ["payload_profile"; "network_profile"; "requests_per_handshake"].

(** [df[c].fillna(defaults[c])] of the columns there are. *)
Definition fill_defaults (t : table) (r : paper_row) : paper_row :=
  let fill {A} (c : string) (v : option A) (d : A) : option A :=
    if has_column t c then Some (default d v) else v in
  mkPaperRow (pp_row r) (fill "payload_profile" (pp_payload r) "tabular_small")
    (fill "network_profile" (pp_network r) "localhost")
    (fill "requests_per_handshake" (pp_per_handshake r) 1).

Definition setting_str (c : string) (r : paper_row) : string :=
  default "-" (if String.eqb c "payload_profile" then pp_payload r
               else if String.eqb c "network_profile" then pp_network r
               else option_map pretty (pp_per_handshake r)).
(** The values of the keys, joined. *)
Definition setting_key (t : table) (r : paper_row) : string :=
  String.concat "|" (rq_config (pp_row r) ::
    map (fun c => setting_str c r) (List.filter (has_column t) SETTING_COLUMNS)).

(** [max] of strings. *)
Definition str_max (l : list string) : option string :=
  match l with [] => None | x :: r => Some (fold_left (fun m y => if String.leb m y then y else m) r x) end.

(** The last run among the rows with the key. *)
Definition latest_run (key : paper_row -> string) (rows : list paper_row) (k : string) : option string :=
  str_max (omap run_of (List.filter (fun r => String.eqb (key r) k) rows)).

Definition _latest_run_per_cell (t : table) : table :=
  if negb (has_column t "run_id") || forallb (fun r => negb (bool_decide (is_Some (run_of r)))) (tb_rows t)
  then t
  else
    let rows := map (fill_defaults t) (tb_rows t) in
    mkTable (tb_columns t)
      (List.filter (fun r => bool_decide (is_Some (run_of r))
                             && bool_decide (latest_run (setting_key t) rows (setting_key t r) = run_of r))
         rows).

(** The key of the cells that are looked at for 404s. *)
Definition cell_404 (r : request_row) : cell_key :=
  (Some (default "-" (rq_run_id r)), (rq_config r, (rq_concurrency r, rq_repetition r))).
Definition is_404 (r : request_row) : bool := str_has "404" (default "" (rq_error r)).
(** Drop the cells where every request was answered 404. *)
Definition drop_all_404 (rows : list request_row) : list request_row :=
  List.filter (fun r => negb (forallb is_404
    (List.filter (fun x => bool_decide (cell_404 x = cell_404 r)) rows))) rows.

(** [raw[raw["run_id"].astype(str).isin(run_ids)]]. *)
Definition in_runs (run_ids : list string) (r : paper_row) : bool :=
  match run_of r with Some s => existsb (String.eqb s) run_ids | None => false end.

(** The rows, whether they are provisional, and the label. *)
Definition load_concurrency (raw : table) (run_ids : list string) (warmup : Q)
    : result (list request_row * bool * string) :=
  let? sel := match run_ids with
    | _ :: _ =>
        if has_column raw "run_id" then
          Ok (_latest_run_per_cell (mkTable (tb_columns raw) (List.filter (in_runs run_ids) (tb_rows raw))),
              false, String.concat ", " run_ids)
        else Raise (KeyError "run_id")
    | [] =>
        Ok (if has_column raw "run_id"
            then mkTable (tb_columns raw)
                   (List.filter (fun r => negb (bool_decide (is_Some (run_of r)))) (tb_rows raw))
            else raw, true,
            "legacy (pre-run_id) rows -- original 2026-08-22 sweep, partially overwritten")
    end in
  let '(df, provisional, label) := sel in
  match tb_rows df with
  | [] => Raise (SystemExit "No concurrency rows selected.")
  | rows => Ok (discard_warmup (drop_all_404 (map pp_row rows)) warmup, provisional, label)
  end.

(** ** The statistics of a cell *)
Record cell_stats := mkCellStats {
  pc_config : string; pc_concurrency : Z; pc_n_attempted : Z; pc_n_ok : Z; pc_n_reps : Z;
  pc_error_rate : Q; pc_median : float; pc_q25 : float; pc_q75 : float; pc_p95 : float; pc_p99 : float;
  pc_rep_min : float; pc_rep_max : float }.

Definition total_ms : list request_row -> list Q := values_of "total_ms".
(** The rows of every repetition. *)
Definition repetitions (rows : list request_row) : list (Z * list request_row) :=
  groupby Z.le rq_repetition rows.

Definition concurrency_cell (kg : (string * Z) * list request_row) : cell_stats :=
  let '((cfg, conc), g) := kg in
  let okg := _ok g in
  let ok := total_ms okg in
  let rep_med := map (fun r => np_median (total_ms (snd r))) (repetitions okg) in
  mkCellStats cfg conc (py_len g) (py_len ok) (py_len (remove_dups (map rq_repetition g)))
    (inject_Z (py_len (List.filter is_err g)) / inject_Z (py_len g))%Q
    (np_median ok) (series_quantile (1 # 4) ok) (series_quantile (3 # 4) ok)
    (series_quantile (95 # 100) ok) (series_quantile (99 # 100) ok)
    (series_min rep_med) (series_max rep_med).

Definition concurrency_stats (df : list request_row) : list cell_stats :=
  map concurrency_cell (groupby group_le config_concurrency df).

(** ** Comparing configurations *)

(** NumPy's generator: [rng.integers(0, high, size)] and [rng.choice(a, size)]. *)
Class Generator (G : Type) := {
  integers : Z -> Z -> M G (list Z);
  choices : list Q -> Z -> M G (list Q);
  default_rng : Z -> G;
}.
Class GeneratorLaws {G} (GEN : Generator G) := {
  integers_range high size g : 0 < high -> 0 <= size ->
    exists l g', integers high size g = (Ok l, g') /\ py_len l = size /\ Forall (fun i => 0 <= i < high) l;
  choices_of a size g : a <> [] -> 0 <= size ->
    exists l g', choices a size g = (Ok l, g') /\ py_len l = size /\ Forall (fun x => x ∈ a) l;
}.

(** SciPy's tests and NumPy's [argsort]: the U statistic, the exact two-sided
    p-value of two samples, and the positions of the values in order. *)
Class Scipy := {
  mannwhitneyu_statistic : list Q -> list Q -> float;
  mannwhitneyu_exact : list float -> list float -> float;
  argsort : list float -> list nat;
}.
(** U counts the pairs where the first sample is larger, a tie one half. *)
Definition beats (a b : Q) : Q := if Qltb b a then 1%Q else if Qltb a b then 0%Q else (1 # 2)%Q.
Definition U_statistic (x y : list Q) : Q := Qsum (map (fun a => Qsum (map (beats a) y)) x).
Class ScipyLaws (SC : Scipy) := {
  statistic_U x y : x <> [] -> y <> [] ->
    exists u, mannwhitneyu_statistic x y = Some u /\ (u == U_statistic x y)%Q;
  exact_range x y : x <> [] -> y <> [] ->
    exists p, mannwhitneyu_exact (map Some x) (map Some y) = Some p /\ (0 <= p <= 1)%Q;
  argsort_perm l : Permutation (argsort l) (seq 0 (length l));
  argsort_sorted l :
    StronglySorted (opt_le Qle) (map (fun i => nth i l None) (argsort l));
}.

Definition BOOT_B : nat := 1000.
Definition BOOT_CAP : Z := 3000.

Section Compare.
Context {G : Type} {GEN : Generator G} {SC : Scipy}.

Definition _rep_arrays (ok : list request_row) (cfg : string) (conc : Z) : list (list Q) :=
  let g := List.filter (fun r => String.eqb (rq_config r) cfg && (rq_concurrency r =? conc)) ok in
  map (fun r => total_ms (snd r)) (repetitions g).

(** Resample the repetitions, then the requests of each. *)
Definition draw (reps : list (list Q)) : M G (list Q) :=
  let* picks := integers (py_len reps) (py_len reps) in
  let* parts := mmap (fun k =>
    let* a := of_result (getitem_at reps k) in choices a (Z.min (py_len a) BOOT_CAP)) picks in
  ret (concat parts).
Definition boot_draw (a b : list (list Q)) : M G float :=
  let* x := draw a in
  let* y := draw b in
  ret (fsub (np_median x) (np_median y)).
Definition _hboot_diff (a b : list (list Q)) : M G (list float) := mmap (fun _ => boot_draw a b) (seq 0 BOOT_B).

Definition _cliffs_delta (x y : list Q) : float :=
  match mannwhitneyu_statistic x y with
  | Some u => Some (2 * u / (inject_Z (py_len x) * inject_Z (py_len y)) - 1)%Q
  | None => None
  end.

(** [max(running, p)]: a NaN never replaces the value. *)
Definition running_max (running : Q) (p : float) : Q :=
  match p with Some x => if Qltb running x then x else running | None => running end.
(** [min(1.0, x)]. *)
Definition at_most_one (x : Q) : Q := if Qltb x 1 then x else 1%Q.

(** The loop of [_holm] over the rest of the order. *)
Fixpoint holm_loop (pvals : list float) (m rank : Z) (order : list nat) (running : Q) (adj : list Q) : list Q :=
  match order with
  | [] => adj
  | idx :: rest =>
      let running := running_max running (fscale (inject_Z (m - rank)) (nth idx pvals None)) in
      holm_loop pvals m (rank + 1) rest running (<[idx := at_most_one running]> adj)
  end.
Definition _holm (pvals : list float) : list Q :=
  holm_loop pvals (py_len pvals) 0 (argsort pvals) 0 (repeat 0%Q (length pvals)).

Record comparison := mkComparison {
  cm_concurrency : Z; cm_config : string; cm_reference : string; cm_diff_ms : float;
  cm_ci95_lo : float; cm_ci95_hi : float; cm_ci90_lo : float; cm_ci90_hi : float;
  cm_ref_median : float; cm_diff_pct : nfloat; cm_p_rep : float; cm_cliffs_delta : float;
  cm_n_reps : Z * Z }.

(** No row when either side has fewer than two repetitions. *)
Definition compare_pair (ok : list request_row) (conc : Z) (pair : string * string) : M G (list comparison) :=
  let '(cfg, ref) := pair in
  let a := _rep_arrays ok cfg conc in
  let b := _rep_arrays ok ref conc in
  if (py_len a <? 2) || (py_len b <? 2) then ret []
  else
    let ref_med := np_median (concat b) in
    let diff := fsub (np_median (concat a)) ref_med in
    let* boot := _hboot_diff a b in
    ret [mkComparison conc cfg ref diff (np_quantile (25 # 1000) boot) (np_quantile (975 # 1000) boot)
           (np_quantile (5 # 100) boot) (np_quantile (95 # 100) boot) ref_med
           (ndiv (fscale 100 diff) ref_med)
           (mannwhitneyu_exact (map np_median a) (map np_median b))
           (_cliffs_delta (concat a) (concat b)) (py_len a, py_len b)].

Definition comparison_rows (df : list request_row) (pairs : list (string * string))
    : M G (list comparison) :=
  let ok := _ok df in
  let* rows := mmap (fun conc => mmap (compare_pair ok conc) pairs)
                 (sorted_unique Z.le (map rq_concurrency ok)) in
  ret (concat (concat rows)).

(** The Holm family of a row, and its adjusted p-value: the place of the row
    in its family is the number of earlier rows of the family. *)
Definition family (r : comparison) : Z * string := (cm_concurrency r, cm_reference r).
Definition family_of (rows : list comparison) (r : comparison) : list comparison :=
  List.filter (fun x => bool_decide (family x = family r)) rows.
Fixpoint holm_column (all before rows : list comparison) : list (comparison * Q) :=
  match rows with
  | [] => []
  | r :: rest =>
      (r, nth (length (family_of before r)) (_holm (map cm_p_rep (family_of all r))) 0%Q)
      :: holm_column all (before ++ [r]) rest
  end.

Definition comparison_stats (df : list request_row) (pairs : list (string * string)) (seed : Z)
    : result (list (comparison * Q)) :=
  let? rows := fst (comparison_rows df pairs (default_rng seed)) in
  Ok (holm_column rows [] rows).

(** ** Equivalence *)
Definition EQUIV_MARGIN_PCT : Q := 5.

(** The interval as a percentage of the reference. *)
Definition ci90_pct (r : comparison) : nfloat * nfloat :=
  (ndiv (fscale 100 (cm_ci90_lo r)) (cm_ref_median r), ndiv (fscale 100 (cm_ci90_hi r)) (cm_ref_median r)).
Definition _equiv (r : comparison) (margin : Q) : bool :=
  let '(lo, hi) := ci90_pct r in ngt (- margin)%Q lo && nlt hi margin.

(** The rows of [table_equivalence]: a verdict only at the lowest level.  A
    table of no comparisons has no columns. *)
Record equivalence_row := mkEquivalenceRow {
  eq_row : comparison; eq_lo : nfloat; eq_hi : nfloat; eq_ok : bool; eq_verdict : string }.
Definition equivalence_verdict (verdict_level : Z) (r : comparison) : equivalence_row :=
  let '(lo, hi) := ci90_pct r in
  let ok_ := ngt (- EQUIV_MARGIN_PCT)%Q lo && nlt hi EQUIV_MARGIN_PCT in
  mkEquivalenceRow r lo hi ok_
    (if cm_concurrency r =? verdict_level then if ok_ then "yes" else "no" else "n/i").
Definition table_equivalence (cmp : list (comparison * Q)) : result (list equivalence_row) :=
  match cmp with
  | [] => Raise (KeyError "reference")
  | _ =>
      let eq := List.filter (fun r => String.eqb (cm_reference r) "classical_ecdhe") (map fst cmp) in
      let levels := sorted_unique Z.le (map cm_concurrency eq) in
      match levels with
      | [] => Ok []
      | verdict_level :: _ =>
          Ok (concat (map (fun conc => map (equivalence_verdict verdict_level)
            (List.filter (fun r => cm_concurrency r =? conc) eq)) levels))
      end
  end.

(** The pairs the paper compares. *)
Definition comparison_pairs (present : list string) : list (string * string) :=
  let has c := existsb (String.eqb c) present in
  map (fun c => (c, "control")) (List.filter (fun c => negb (String.eqb c "control") && has c) CONFIGS)
  ++ (if has "control_2rt" then map (fun c => (c, "control_2rt")) (List.filter has PROTECTED) else [])
  ++ (if has "classical_ecdhe"
      then map (fun c => (c, "classical_ecdhe"))
             (List.filter has ["hybrid"; "hybrid_kex"; "full_pqc"; "hybrid_kex_pq"]) else []).

(** ** Failed requests *)
Definition CLIENT_TIMEOUT_MS : Q := 30000.

Definition _err_kind (e : string) : string :=
  match find (fun kk => str_has (fst kk) e)
          [("Timeout", "timeout"); ("ReadError", "reset"); ("RemoteProtocolError", "reset");
           ("ConnectError", "refused"); ("HTTP 5", "HTTP 5xx"); ("HTTP 4", "HTTP 4xx")] with
  | Some (_, kind) => kind
  | None => "other"
  end.

Definition handshake_failed (r : request_row) : bool :=
  match dget "handshake_ms" (rq_metrics r) with Some (Some _) => false | _ => true end.

(** A failed request counted at the client's timeout. *)
Definition impute (r : request_row) : request_row :=
  if is_err r
  then mkRequestRow (rq_run_id r) (rq_config r) (rq_concurrency r) (rq_repetition r) (rq_index r) None
         (dset "total_ms" (Some CLIENT_TIMEOUT_MS) (rq_metrics r))
  else r.

(** The levels where some configuration lost at least 0.5% of its requests. *)
Definition failing_levels (df : list request_row) : list Z :=
  sorted_unique Z.le (omap (fun '((_, c), g) =>
    if Qle_bool (5 # 1000) (inject_Z (py_len (List.filter is_err g)) / inject_Z (py_len g))
    then Some c else None) (groupby group_le config_concurrency df)).

Record failure_row := mkFailureRow {
  fr_concurrency : Z; fr_config : string; fr_n : Z; fr_failed : Z; fr_at_handshake : Z;
  fr_at_request : Z; fr_median : float; fr_median_imputed : float }.

Definition failure_cell (df : list request_row) (conc : Z) (cfg : string) : list failure_row :=
  let cell := List.filter (fun r => String.eqb (rq_config r) cfg && (rq_concurrency r =? conc)) in
  match cell df with
  | [] => []
  | g =>
      let ge := List.filter is_err g in
      let n_hs := if String.eqb cfg "control" then 0 else py_len (List.filter handshake_failed ge) in
      [mkFailureRow conc cfg (py_len g) (py_len ge) n_hs (py_len ge - n_hs)
         (np_median (total_ms (_ok g)))
         (np_median (total_ms (cell (map impute df))))]
  end.

(** The rows of [table_failures], and its two sets of comparisons. *)
Definition table_failures (df : list request_row)
    : result (list failure_row * list (comparison * Q) * list (comparison * Q)) :=
  match failing_levels df with
  | [] => Ok ([], [], [])
  | levels =>
      let at_levels := List.filter (fun r => existsb (Z.eqb (rq_concurrency r)) levels) df in
      let imp := map impute at_levels in
      let present := map rq_config imp in
      let pairs := map (fun c => (c, "classical_ecdhe"))
        (List.filter (fun c => existsb (String.eqb c) present && negb (String.eqb c "classical_ecdhe")) PROTECTED) in
      let? cmp0 := comparison_stats at_levels pairs 11 in
      let? cmp1 := comparison_stats imp pairs 11 in
      let rows := concat (map (fun conc => concat (map (failure_cell df conc) CONFIGS)) levels) in
      match rows, cmp0, cmp1 with
      | _ :: _, [], _ | _ :: _, _, [] => Raise (KeyError "config")
      | _, _, _ => Ok (rows, cmp0, cmp1)
      end
  end.
End Compare.

Definition clopper_pearson_ci (beta_ppf : Q -> Z -> Z -> Q) (k n : Z) (alpha : Q) : Q * Q :=
  (if k =? 0 then 0%Q else beta_ppf (alpha / 2)%Q k (n - k + 1),
   if k =? n then 1%Q else beta_ppf (1 - alpha / 2)%Q (k + 1) (n - k)).
