(* ===== verification/PaperStatsProps.v ===== *)
(** * What the paper's statistics guarantee

    The correction for multiple comparisons, the intervals of a comparison,
    the statistics of a cell and its sensitivity to failures, and which runs
    the tables are computed from. *)
From stdpp Require Import sorting.
From Stdlib Require Import Lqa Qround.
From S2P Require Import Prelude PyBytes PyVal PyList PyNum Instrumentation Aggregate PaperStats.

(** ** Order statistics *)
Section Sorted.
Open Scope Q_scope.

(** How many values are at least [q]. *)
Definition count_ge (l : list Q) (q : Q) : nat := length (List.filter (fun x => Qle_bool q x) l).

Lemma count_ge_le l q : (count_ge l q <= length l)%nat.
Proof. unfold count_ge. induction l as [|x l IH]; simpl; [done|]. destruct (Qle_bool q x); simpl; lia. Qed.
Lemma count_ge_all l q : Forall (Qle q) l -> count_ge l q = length l.
Proof.
  unfold count_ge. induction 1 as [|x l Hx _ IH]; [done|]. simpl.
  apply Qle_bool_iff in Hx. rewrite Hx. simpl. by rewrite IH.
Qed.
Lemma count_ge_perm l l' q : Permutation l l' -> count_ge l q = count_ge l' q.
Proof. intros H. unfold count_ge. by apply Permutation_length, filter_Permutation. Qed.

(** In a sorted list the values of at least [q] are the last ones. *)
Lemma sorted_ge_position s q (k : nat) x :
  StronglySorted Qle s -> s !! k = Some x -> q <= x <-> (length s - count_ge s q <= k)%nat.
Proof.
  intros Hs; revert k; induction Hs as [|y s Hs IH Hy]; intros k Hk; [done|].
  pose proof (count_ge_le s q). unfold count_ge in *. simpl. destruct (Qle_bool q y) eqn:Hq.
  - apply Qle_bool_iff in Hq. assert (q <= x) as Hx.
    { destruct k as [|k]; [by injection Hk as <-|]. apply (Qle_trans _ y); [done|].
      by apply (Forall_lookup_1 _ _ _ _ Hy Hk). }
    pose proof (count_ge_all s q ltac:(eapply Forall_impl; [exact Hy|intros z Hz; by apply (Qle_trans _ y)])) as Hall.
    unfold count_ge in Hall. simpl. split; [lia|done].
  - assert (~ q <= y) as Hn by (intros Hle; apply Qle_bool_iff in Hle; congruence).
    destruct k as [|k].
    + injection Hk as <-. split; [done|lia].
    + rewrite (IH k Hk). lia.
Qed.

Lemma Qsorted_ssorted l : StronglySorted Qle (Qsorted l).
Proof. apply Sorted_StronglySorted; [apply _|apply Qsorted_sorted]. Qed.
Lemma Qsorted_length l : length (Qsorted l) = length l.
Proof. apply Permutation_length, Qsorted_perm. Qed.

Lemma ssorted_lookup s (i j : nat) x y :
  StronglySorted Qle s -> s !! i = Some x -> s !! j = Some y -> (i <= j)%nat -> x <= y.
Proof.
  intros Hs Hi Hj Hij. apply (sorted_ge_position s x j y Hs Hj).
  pose proof (proj1 (sorted_ge_position s x i x Hs Hi) (Qle_refl x)). lia.
Qed.
End Sorted.

Lemma map_nth_seq {A} (l : list A) d : map (fun i => nth i l d) (seq 0 (length l)) = l.
Proof.
  induction l as [|x l IH]; [done|]. simpl. f_equal. rewrite <- seq_shift, map_map. exact IH.
Qed.
Lemma py_len_map {A B} (f : A -> B) l : py_len (map f l) = py_len l.
Proof. unfold py_len. by rewrite length_map. Qed.

(** *** Interpolation *)
Section Quantile.
Open Scope Q_scope.

(** The value at a place, the last one past the end, and between places. *)
Definition at_place (s : list Q) (i : Z) : Q := nth (Z.to_nat i) s (nth (length s - 1) s 0).
Definition interp (s : list Q) (x : Q) : Q :=
  at_place s (Qfloor x) + (x - inject_Z (Qfloor x)) * (at_place s (Qfloor x + 1) - at_place s (Qfloor x)).

Lemma quantile_interp q l : quantile q l = interp (Qsorted l) (inject_Z (py_len l - 1) * q).
Proof. reflexivity. Qed.

Lemma at_place_lookup s (i : Z) :
  s <> [] -> exists k, s !! k = Some (at_place s i) /\ k = Nat.min (Z.to_nat i) (length s - 1).
Proof.
  intros Hs. assert (0 < length s)%nat by (destruct s; [done|simpl; lia]). unfold at_place.
  destruct (Nat.le_gt_cases (length s) (Z.to_nat i)) as [Hle|Hlt].
  - exists (length s - 1)%nat. split; [|lia]. rewrite nth_overflow by done.
    destruct (lookup_lt_is_Some_2 s (length s - 1) ltac:(lia)) as [x Hx]. rewrite Hx. f_equal.
    symmetry. by apply nth_lookup_Some.
  - exists (Z.to_nat i). split; [|lia].
    destruct (lookup_lt_is_Some_2 s (Z.to_nat i) Hlt) as [x Hx]. rewrite Hx. f_equal. symmetry.
    by apply nth_lookup_Some.
Qed.

Lemma at_place_mono s i j :
  StronglySorted Qle s -> s <> [] -> (i <= j)%Z -> at_place s i <= at_place s j.
Proof.
  intros Hs Hne Hij. destruct (at_place_lookup s i Hne) as (a & Ha & Hai).
  destruct (at_place_lookup s j Hne) as (b & Hb & Hbj).
  apply (ssorted_lookup s a b _ _ Hs Ha Hb). lia.
Qed.

Lemma fraction_range x : 0 <= x - inject_Z (Qfloor x) <= 1.
Proof.
  pose proof (Qfloor_le x). pose proof (Qlt_floor x) as H1. rewrite inject_Z_plus in H1.
  change (inject_Z 1) with 1 in H1. split; lra.
Qed.

(** Between two neighbours. *)
Lemma interp_between s x :
  StronglySorted Qle s -> s <> [] ->
  at_place s (Qfloor x) <= interp s x <= at_place s (Qfloor x + 1).
Proof.
  intros Hs Hne. pose proof (fraction_range x) as Hf.
  pose proof (at_place_mono s (Qfloor x) (Qfloor x + 1) Hs Hne ltac:(lia)) as Hm.
  unfold interp. set (t := x - inject_Z (Qfloor x)) in *. set (a := at_place s _) in *.
  set (b := at_place s (Qfloor x + 1)) in *. split; nra.
Qed.

Lemma interp_mono s x y : StronglySorted Qle s -> s <> [] -> x <= y -> interp s x <= interp s y.
Proof.
  intros Hs Hne Hxy. pose proof (Qfloor_resp_le x y Hxy) as Hf.
  destruct (Z.eq_dec (Qfloor x) (Qfloor y)) as [He|Hneq].
  - pose proof (at_place_mono s (Qfloor x) (Qfloor x + 1) Hs Hne ltac:(lia)) as Hm.
    unfold interp. rewrite <- He. set (a := at_place s (Qfloor x)) in *.
    set (b := at_place s (Qfloor x + 1)) in *. nra.
  - pose proof (interp_between s x Hs Hne) as [_ H1]. pose proof (interp_between s y Hs Hne) as [H2 _].
    pose proof (at_place_mono s (Qfloor x + 1) (Qfloor y) Hs Hne ltac:(lia)). lra.
Qed.

Lemma interp_bounds s x lo hi :
  StronglySorted Qle s -> s <> [] -> Forall (fun v => lo <= v <= hi) s -> lo <= interp s x <= hi.
Proof.
  intros Hs Hne Hb. pose proof (interp_between s x Hs Hne) as [H1 H2].
  destruct (at_place_lookup s (Qfloor x) Hne) as (a & Ha & _).
  destruct (at_place_lookup s (Qfloor x + 1) Hne) as (b & Hbb & _).
  pose proof (Forall_lookup_1 _ _ _ _ Hb Ha) as [Hl _]. pose proof (Forall_lookup_1 _ _ _ _ Hb Hbb) as [_ Hh].
  cbv beta in *. lra.
Qed.

Lemma interp_pointwise s s' x :
  StronglySorted Qle s -> s <> [] -> StronglySorted Qle s' -> s' <> [] ->
  (forall i, at_place s i <= at_place s' i) -> interp s x <= interp s' x.
Proof.
  intros Hs Hne Hs' Hne' H. pose proof (H (Qfloor x)) as Ha. pose proof (H (Qfloor x + 1)%Z) as Hb.
  pose proof (fraction_range x) as Hf. unfold interp.
  set (t := x - inject_Z (Qfloor x)) in *. nra.
Qed.

Lemma Qsorted_nonempty l : l <> [] -> Qsorted l <> [].
Proof. intros Hl Hs. apply Hl, length_zero_iff_nil. by rewrite <- Qsorted_length, Hs. Qed.

Lemma quantile_mono p q l : l <> [] -> p <= q -> quantile p l <= quantile q l.
Proof.
  intros Hl Hpq. rewrite !quantile_interp. apply interp_mono; [apply Qsorted_ssorted|by apply Qsorted_nonempty|].
  rewrite !(Qmult_comm (inject_Z _)). apply Qmult_le_compat_r; [done|].
  destruct l; [done|]. unfold py_len. change 0 with (inject_Z 0). rewrite <- Zle_Qle. simpl length. lia.
Qed.
Lemma quantile_bounds q l lo hi :
  l <> [] -> Forall (fun v => lo <= v <= hi) l -> lo <= quantile q l <= hi.
Proof.
  intros Hl H. rewrite quantile_interp.
  apply interp_bounds; [apply Qsorted_ssorted|by apply Qsorted_nonempty|]. by rewrite Qsorted_perm.
Qed.

(** The median is the middle quantile. *)
Lemma median_quantile l : l <> [] -> exists m, np_median l = Some m /\ m == quantile (1 # 2) l.
Proof.
  intros Hl. unfold np_median. destruct (median_nonempty l Hl) as (m & Hm). rewrite Hm. exists m. split; [done|].
  rewrite quantile_interp. revert Hm. unfold median, interp.
  pose proof (Qsorted_length l) as Hlen. pose proof (Qsorted_nonempty l Hl) as Hne. revert Hlen Hne.
  unfold py_len. generalize (Qsorted l). intros s Hlen Hne. rewrite <- Hlen. clear Hl Hlen l.
  assert (Qfloor (inject_Z (Z.of_nat (length s) - 1) * (1 # 2)) = Z.div (Z.of_nat (length s) - 1) 2) as ->.
  { unfold Qfloor, inject_Z, Qmult. simpl. by rewrite Z.mul_1_r. }
  assert (0 < length s)%nat as Hpos by (destruct s; [done|simpl; lia]).
  assert (forall i, (i < length s)%nat -> at_place s (Z.of_nat i) = nth i s 0) as Hat.
  { intros i Hi. unfold at_place. rewrite Nat2Z.id. by apply nth_indep. }
  destruct (length s) as [|n] eqn:Hn; [lia|]. remember (S n / 2)%nat as h eqn:Hh.
  destruct (Nat.odd (S n)) eqn:Hodd.
  - apply Nat.odd_spec in Hodd as [k Hk]. intros [= <-]. assert (n = (2 * k)%nat) as -> by lia.
    replace (Z.of_nat (S (2 * k)) - 1)%Z with (Z.of_nat k * 2)%Z by lia. rewrite Z.div_mul by done.
    assert (h = k) as -> by (rewrite Hh, <- (Nat.div_unique (S (2 * k)) 2 k 1); lia).
    rewrite (Hat k) by lia. rewrite inject_Z_mult. change (inject_Z 2) with 2. ring.
  - assert (Nat.even (S n) = true) as Heven by (rewrite <- Nat.negb_odd; by rewrite Hodd).
    apply Nat.even_spec in Heven as [k Hk]. destruct k as [|k]; [lia|]. intros [= <-].
    assert (n = (2 * k + 1)%nat) as -> by lia.
    replace (Z.of_nat (S (2 * k + 1)) - 1)%Z with (1 + Z.of_nat k * 2)%Z by lia.
    rewrite Z.div_add by done. change (1 / 2)%Z with 0%Z. rewrite Z.add_0_l.
    assert (h = S k) as -> by (rewrite Hh, <- (Nat.div_unique (S (2 * k + 1)) 2 (S k) 0); lia).
    replace (S k - 1)%nat with k by lia. rewrite (Hat k) by lia.
    replace (Z.of_nat k + 1)%Z with (Z.of_nat (S k)) by lia. rewrite (Hat (S k)) by lia.
    rewrite inject_Z_plus, inject_Z_mult. change (inject_Z 2) with 2. change (inject_Z 1) with 1. field.
Qed.
End Quantile.

(** ** Holm's correction *)
Section Holm.
Context {SC : Scipy} {SL : ScipyLaws SC}.
Open Scope Q_scope.

Lemma Qltb_lt a b : Qltb a b = true <-> a < b.
Proof.
  unfold Qltb. rewrite negb_true_iff. split; intros H.
  - apply Qnot_le_lt. intros Hle. apply Qle_bool_iff in Hle. congruence.
  - destruct (Qle_bool b a) eqn:E; [|done]. apply Qle_bool_iff in E. exfalso. by apply (Qlt_not_le a b).
Qed.
Lemma Qltb_ge a b : Qltb a b = false <-> b <= a.
Proof. unfold Qltb. rewrite negb_false_iff. apply Qle_bool_iff. Qed.

Lemma running_max_le r p alpha : running_max r (Some p) <= alpha <-> r <= alpha /\ p <= alpha.
Proof.
  unfold running_max. destruct (Qltb r p) eqn:E.
  - apply Qltb_lt in E. split; [intros; split; lra|tauto].
  - apply Qltb_ge in E. split; [intros; split; lra|tauto].
Qed.
Lemma at_most_one_le x alpha : alpha < 1 -> at_most_one x <= alpha <-> x <= alpha.
Proof.
  intros Ha. unfold at_most_one. destruct (Qltb x 1) eqn:E; [done|]. apply Qltb_ge in E.
  split; intros; lra.
Qed.
Lemma at_most_one_max x : at_most_one x <= 1.
Proof. unfold at_most_one. destruct (Qltb x 1) eqn:E; [apply Qltb_lt in E; lra|lra]. Qed.

Lemma holm_loop_length pvals m rank order running adj :
  length (holm_loop pvals m rank order running adj) = length adj.
Proof.
  revert rank running adj; induction order as [|i order IH]; intros rank running adj; cbn [holm_loop]; [done|].
  by rewrite IH, length_insert.
Qed.
Lemma holm_loop_other pvals m rank order running adj i :
  i ∉ order -> holm_loop pvals m rank order running adj !! i = adj !! i.
Proof.
  revert rank running adj; induction order as [|j order IH]; intros rank running adj Hi; cbn [holm_loop]; [done|].
  apply not_elem_of_cons in Hi as [Hne Hi]. by rewrite (IH _ _ _ Hi), list_lookup_insert_ne.
Qed.

(** The value given at place [t] of the order is at most [alpha] when every
    multiple up to there is. *)
Lemma holm_loop_le (ps : list Q) m rank order running adj t i :
  NoDup order -> Forall (fun j => (j < length adj)%nat /\ (j < length ps)%nat) order -> order !! t = Some i ->
  exists v, holm_loop (map Some ps) m rank order running adj !! i = Some v /\ v <= 1
    /\ forall alpha, alpha < 1 ->
       v <= alpha <-> running <= alpha
         /\ forall k j, (k <= t)%nat -> order !! k = Some j ->
              inject_Z (m - (rank + Z.of_nat k)) * nth j ps 0 <= alpha.
Proof.
  revert rank running adj t; induction order as [|j order IH]; intros rank running adj t Hnd Hb Ht; [done|].
  apply NoDup_cons in Hnd as [Hj Hnd]. apply Forall_cons in Hb as [[Hja Hjp] Hb]. cbn [holm_loop].
  assert (nth j (map Some ps) None = Some (nth j ps 0)) as Hp.
  { rewrite (nth_indep _ _ (Some 0)) by (by rewrite length_map). apply (map_nth Some). }
  rewrite Hp. cbn [fscale option_map]. set (x := inject_Z (m - rank) * nth j ps 0).
  set (r' := running_max running (Some x)). destruct t as [|t].
  - injection Ht as <-. exists (at_most_one r').
    rewrite (holm_loop_other _ _ _ _ _ _ _ Hj), list_lookup_insert_eq by lia.
    split; [done|]. split; [apply at_most_one_max|]. intros alpha Ha.
    rewrite (at_most_one_le _ _ Ha). unfold r'. rewrite running_max_le. split.
    + intros [H1 H2]. split; [done|]. intros [|k] j' Hk Hl; [|lia]. injection Hl as <-.
      by rewrite Z.add_0_r.
    + intros [H1 H2]. split; [done|]. specialize (H2 0%nat j ltac:(lia) eq_refl). by rewrite Z.add_0_r in H2.
  - destruct (IH (rank + 1)%Z r' (<[j := at_most_one r']> adj) t Hnd) as (v & Hv & H1 & Hle); [|done|].
    { eapply Forall_impl; [exact Hb|]. intros k. by rewrite length_insert. }
    exists v. split; [done|]. split; [done|]. intros alpha Ha. rewrite (Hle alpha Ha). unfold r'.
    rewrite running_max_le. split.
    + intros [[H2 H3] H4]. split; [done|]. intros [|k] j' Hk Hl.
      * injection Hl as <-. by rewrite Z.add_0_r.
      * specialize (H4 k j' ltac:(lia) Hl). by replace (rank + Z.of_nat (S k))%Z with (rank + 1 + Z.of_nat k)%Z by lia.
    + intros [H2 H3]. split; [split; [done|]|].
      * specialize (H3 0%nat j ltac:(lia) eq_refl). by rewrite Z.add_0_r in H3.
      * intros k j' Hk Hl. specialize (H3 (S k) j' ltac:(lia) Hl).
        by replace (rank + Z.of_nat (S k))%Z with (rank + 1 + Z.of_nat k)%Z in H3 by lia.
Qed.

Lemma holm_length l : length (_holm l) = length l.
Proof. unfold _holm. by rewrite holm_loop_length, repeat_length. Qed.

(** At least as many values as there are places in a set that holds only
    values of at least [q]. *)
Lemma count_ge_places ps q (N : list nat) :
  NoDup N -> (forall i, i ∈ N -> exists p, ps !! i = Some p /\ q <= p) -> (length N <= count_ge ps q)%nat.
Proof.
  intros Hnd HN. unfold count_ge.
  assert (length (List.filter (fun x => Qle_bool q x) ps)
          = length (List.filter (fun i => Qle_bool q (nth i ps 0)) (seq 0 (length ps)))) as ->.
  { rewrite <- (map_nth_seq ps 0) at 1. generalize (seq 0 (length ps)). intros l.
    induction l as [|i l IH]; [done|]. simpl. destruct (Qle_bool q (nth i ps 0)); simpl; by rewrite IH. }
  apply (NoDup_incl_length (l := N)); [by apply NoDup_ListNoDup|]. intros i Hi%list_elem_of_In.
  destruct (HN i Hi) as (p & Hp & Hq). apply filter_In. split.
  - apply in_seq. apply lookup_lt_Some in Hp. lia.
  - apply Qle_bool_iff. by rewrite (nth_lookup_Some _ _ _ _ Hp).
Qed.

(** The smallest of some places. *)
Lemma smallest_place ps (N : list nat) i :
  i ∈ N -> exists j, j ∈ N /\ forall k, k ∈ N -> nth j ps 0 <= nth k ps 0.
Proof.
  revert i; induction N as [|n N IH]; intros i Hi; [by apply elem_of_nil in Hi|].
  destruct N as [|n' N].
  - exists n. split; [by left|]. intros k [->|Hk]%elem_of_cons; [apply Qle_refl|by apply elem_of_nil in Hk].
  - destruct (IH n' ltac:(left)) as (j & Hj & Hmin).
    destruct (Qlt_le_dec (nth n ps 0) (nth j ps 0)) as [Hlt|Hle].
    + exists n. split; [by left|]. intros k [->|Hk]%elem_of_cons; [apply Qle_refl|].
      specialize (Hmin k Hk). lra.
    + exists j. split; [by right|]. intros k [->|Hk]%elem_of_cons; [done|by apply Hmin].
Qed.

Section Family.
Variable ps : list Q.
Hypothesis Hps : Forall (fun p => 0 <= p <= 1) ps.
Abbreviation adj := (_holm (map Some ps)).

Lemma ps_bounds i : 0 <= nth i ps 0 <= 1.
Proof.
  destruct (nth_in_or_default i ps 0) as [H|H]; [|rewrite H; split; discriminate].
  rewrite Forall_forall in Hps. apply Hps. by apply list_elem_of_In.
Qed.

(** The values in the order of [argsort]. *)
Abbreviation order := (argsort (map Some ps)).
Definition sorted_ps : list Q := map (fun i => nth i ps 0) order.

Lemma order_perm : Permutation order (seq 0 (length ps)).
Proof. pose proof (argsort_perm (map Some ps)) as H. by rewrite length_map in H. Qed.
Lemma order_elem i : i ∈ order <-> (i < length ps)%nat.
Proof. rewrite order_perm, elem_of_seq. lia. Qed.
Lemma sorted_ps_perm : Permutation sorted_ps ps.
Proof. unfold sorted_ps. rewrite order_perm. by rewrite map_nth_seq. Qed.
Lemma sorted_ps_sorted : StronglySorted Qle sorted_ps.
Proof.
  pose proof (argsort_sorted (map Some ps)) as H. unfold sorted_ps.
  assert (Forall (fun i => nth i (map Some ps) None = Some (nth i ps 0)) order) as Hn.
  { apply Forall_forall. intros i Hi%order_elem.
    rewrite (nth_indep _ _ (Some 0)) by (by rewrite length_map). apply (map_nth Some). }
  revert H Hn. generalize order. intros l. induction l as [|i l IH]; intros H Hn; [constructor|].
  apply Forall_cons in Hn as [Hi Hn]. inversion H as [|? ? H1 H2]; subst. constructor; [by apply IH|].
  clear -H2 Hn Hi. rewrite Hi in H2. induction Hn as [|j l Hj _ IHl]; [constructor|].
  apply Forall_cons in H2 as [Hle H2]. rewrite Hj in Hle. constructor; [exact Hle|by apply IHl].
Qed.
Lemma sorted_ps_length : length sorted_ps = length ps.
Proof. apply Permutation_length, sorted_ps_perm. Qed.

(** Rejecting at a level: every value not above this one passes Bonferroni's
    bound for the number of values from it on. *)
Lemma holm_le i p :
  ps !! i = Some p ->
  exists v, adj !! i = Some v /\ 0 <= v <= 1
    /\ forall alpha, 0 <= alpha -> alpha < 1 ->
       v <= alpha <-> forall q, q ∈ ps -> q <= p -> inject_Z (Z.of_nat (count_ge ps q)) * q <= alpha.
Proof.
  intros Hi. assert (i ∈ order) as Ho by (apply order_elem; by apply lookup_lt_Some in Hi).
  apply list_elem_of_lookup in Ho as [t Ht].
  destruct (holm_loop_le ps (py_len ps) 0 order 0 (repeat 0 (length (map Some ps))) t i) as (v & Hv & H1 & Hle).
  { rewrite order_perm. apply NoDup_seq. }
  { apply Forall_forall. intros j Hj%order_elem. rewrite repeat_length, length_map. done. }
  { exact Ht. }
  exists v. unfold _holm. rewrite py_len_map. split; [done|]. split.
  { split; [|done]. destruct (Qlt_le_dec v 0) as [Hneg|]; [|done].
    by destruct (proj1 (Hle v ltac:(lra)) (Qle_refl v)). }
  intros alpha Ha0 Ha1. rewrite (Hle alpha Ha1). clear Hle Hv H1.
  assert (forall k j, order !! k = Some j -> sorted_ps !! k = Some (nth j ps 0)) as Hs.
  { intros k j Hkj. unfold sorted_ps. by rewrite list_lookup_fmap, Hkj. }
  assert (sorted_ps !! t = Some p) as Hpt.
  { rewrite (Hs t i Ht). f_equal. by apply nth_lookup_Some. }
  split.
  - intros [_ H] q Hq Hqp.
    assert (q ∈ sorted_ps) as Hqs by (by rewrite sorted_ps_perm).
    apply list_elem_of_lookup in Hqs as [k Hkq].
    pose proof (proj1 (sorted_ge_position _ q k q sorted_ps_sorted Hkq) (Qle_refl q)) as Hk0.
    pose proof (proj1 (sorted_ge_position _ q t p sorted_ps_sorted Hpt) Hqp) as Ht0.
    rewrite (count_ge_perm _ _ q sorted_ps_perm), sorted_ps_length in Hk0, Ht0.
    pose proof (count_ge_le ps q) as Hc.
    set (k0 := (length ps - count_ge ps q)%nat) in *.
    assert (exists j0, order !! k0 = Some j0) as [j0 Hj0].
    { apply lookup_lt_is_Some. apply lookup_lt_Some in Ht. lia. }
    specialize (H k0 j0 ltac:(lia) Hj0).
    assert (q <= nth j0 ps 0) as Hq0.
    { apply (sorted_ge_position _ _ _ _ sorted_ps_sorted (Hs _ _ Hj0)).
      rewrite (count_ge_perm _ _ q sorted_ps_perm), sorted_ps_length. lia. }
    replace (py_len ps - (0 + Z.of_nat k0))%Z with (Z.of_nat (count_ge ps q)) in H by (unfold py_len, k0; lia).
    apply (Qle_trans _ (inject_Z (Z.of_nat (count_ge ps q)) * nth j0 ps 0)); [|done].
    rewrite !(Qmult_comm (inject_Z _)). apply Qmult_le_compat_r; [done|]. unfold Qle; simpl; lia.
  - intros H. split; [done|]. intros k j Hkt Hj. pose proof (Hs k j Hj) as Hkj.
    assert (nth j ps 0 <= p) as Hjp.
    { by apply (ssorted_lookup sorted_ps k t _ _ sorted_ps_sorted Hkj Hpt). }
    assert (nth j ps 0 ∈ ps) as Hin.
    { apply list_elem_of_In, (Permutation_in _ sorted_ps_perm), list_elem_of_In.
      by apply list_elem_of_lookup_2 in Hkj. }
    apply (Qle_trans _ (inject_Z (Z.of_nat (count_ge ps (nth j ps 0))) * nth j ps 0)); [|by apply H].
    apply Qmult_le_compat_r; [|apply ps_bounds].
    pose proof (proj1 (sorted_ge_position _ _ k _ sorted_ps_sorted Hkj) (Qle_refl _)) as Hc.
    rewrite (count_ge_perm _ _ _ sorted_ps_perm), sorted_ps_length in Hc. unfold py_len.
    rewrite <- Zle_Qle. lia.
Qed.
End Family.

(** An adjusted value is at least its p-value. *)
Lemma holm_ge ps i p :
  Forall (fun p => 0 <= p <= 1) ps -> ps !! i = Some p ->
  exists v, _holm (map Some ps) !! i = Some v /\ p <= v <= 1.
Proof.
  intros Hps Hi. destruct (holm_le ps Hps i p Hi) as (v & Hv & [Hv0 H1] & Hle). exists v. split; [done|].
  assert (0 <= p <= 1) as Hp by (by apply (Forall_lookup_1 _ _ _ _ Hps Hi)).
  split; [|done]. destruct (Qlt_le_dec v 1) as [Hlt|Hge]; [|lra].
  pose proof (proj1 (Hle v Hv0 Hlt) (Qle_refl v) p ltac:(by apply list_elem_of_lookup_2 in Hi) (Qle_refl p)) as H.
  apply (Qle_trans _ (inject_Z (Z.of_nat (count_ge ps p)) * p)); [|done].
  rewrite <- (Qmult_1_l p) at 1. apply Qmult_le_compat_r; [|tauto].
  change 1 with (inject_Z 1). rewrite <- Zle_Qle.
  pose proof (count_ge_places ps p [i] ltac:(apply NoDup_singleton)) as Hc. simpl in Hc.
  enough (1 <= count_ge ps p)%nat by lia. apply Hc. intros j ->%list_elem_of_singleton.
  exists p. split; [done|apply Qle_refl].
Qed.

(** C34: Holm's correction as computed is the step-down procedure and controls
    the family-wise error.  For any p-values and any order [argsort] may give
    ties: an adjusted value is at least its p-value and at most 1; at a level
    below 1 it rejects exactly when every p-value not above this one passes
    Bonferroni's bound for the number of p-values from it on; and if the true
    null hypotheses, however many there are, all miss Bonferroni's bound for
    their own number, none of them is rejected. *)
Theorem holm_steps_down (ps : list Q) (Hps : Forall (fun p => 0 <= p <= 1) ps) :
  length (_holm (map Some ps)) = length ps
  /\ (forall i p, ps !! i = Some p -> exists v, _holm (map Some ps) !! i = Some v /\ p <= v <= 1
       /\ forall alpha, 0 <= alpha < 1 -> v <= alpha <->
            forall q, q ∈ ps -> q <= p -> inject_Z (Z.of_nat (count_ge ps q)) * q <= alpha)
  /\ (forall alpha (nulls : list nat), 0 <= alpha < 1 -> NoDup nulls ->
       (forall i, i ∈ nulls -> exists p, ps !! i = Some p
                               /\ alpha < inject_Z (Z.of_nat (length nulls)) * p) ->
       forall i v, i ∈ nulls -> _holm (map Some ps) !! i = Some v -> alpha < v).
Proof.
  split_and!.
  - by rewrite holm_length, length_map.
  - intros i p Hi. destruct (holm_le ps Hps i p Hi) as (v & Hv & _ & Hle). exists v. split; [done|].
    destruct (holm_ge ps i p Hps Hi) as (v' & Hv' & Hb). assert (v' = v) as -> by congruence.
    split; [done|]. intros alpha [Ha0 Ha1]. by apply Hle.
  - intros alpha nulls [Ha0 Ha1] Hnd HN i v Hi Hv.
    destruct (smallest_place ps nulls i Hi) as (j & Hj & Hmin).
    destruct (HN j Hj) as (q & Hq & Hbig). destruct (HN i Hi) as (p & Hp & _).
    destruct (holm_le ps Hps i p Hp) as (v' & Hv' & _ & Hle). assert (v' = v) as -> by congruence.
    destruct (Qlt_le_dec alpha v) as [|Hbad]; [done|]. exfalso.
    pose proof (Hmin i Hi) as Hqp. rewrite (nth_lookup_Some _ _ _ _ Hq), (nth_lookup_Some _ _ _ _ Hp) in Hqp.
    pose proof (proj1 (Hle alpha Ha0 Ha1) Hbad q ltac:(by apply list_elem_of_lookup_2 in Hq) Hqp) as H.
    apply (Qlt_not_le _ _ Hbig). apply (Qle_trans _ (inject_Z (Z.of_nat (count_ge ps q)) * q)); [|done].
    apply Qmult_le_compat_r; [|by apply (Forall_lookup_1 _ _ _ _ Hps Hq)]. rewrite <- Zle_Qle.
    apply inj_le, count_ge_places; [done|]. intros k Hk. destruct (HN k Hk) as (r & Hr & _).
    exists r. split; [done|]. pose proof (Hmin k Hk) as H'.
    by rewrite (nth_lookup_Some _ _ _ _ Hq), (nth_lookup_Some _ _ _ _ Hr) in H'.
Qed.
End Holm.

(** ** Comparisons *)

(** [m] returns, with a result that satisfies [Q]. *)
Definition yields {Σ A} (m : M Σ A) (Q : A -> Prop) : Prop :=
  forall s, exists a s', m s = (Ok a, s') /\ Q a.
Lemma yields_ret {Σ A} (a : A) (Q : A -> Prop) : Q a -> yields (Σ := Σ) (ret a) Q.
Proof. intros H s. by exists a, s. Qed.
Lemma yields_bind {Σ A B} (m : M Σ A) (k : A -> M Σ B) (Q : A -> Prop) (R : B -> Prop) :
  yields m Q -> (forall a, Q a -> yields (k a) R) -> yields (bind m k) R.
Proof.
  intros Hm Hk s. destruct (Hm s) as (a & s1 & Ha & Hq). destruct (Hk a Hq s1) as (b & s2 & Hb & Hr).
  exists b, s2. split; [|done]. by rewrite (bind_Ok _ _ _ _ _ Ha).
Qed.
Lemma yields_mmap {Σ A B} (f : A -> M Σ B) (R : A -> B -> Prop) l :
  (forall a, a ∈ l -> yields (f a) (R a)) -> yields (mmap f l) (Forall2 R l).
Proof.
  induction l as [|a l IH]; intros H; [by apply yields_ret|]. cbn [mmap].
  eapply yields_bind; [apply H; left|]. intros b Hb.
  eapply yields_bind; [apply IH; intros x Hx; apply H; by right|]. intros bs Hbs. apply yields_ret. by constructor.
Qed.

Section Compare.
Context {G : Type} {GEN : Generator G} {GL : GeneratorLaws GEN} {SC : Scipy} {SL : ScipyLaws SC}.

(** The row has an end-to-end latency. *)
Definition measured (r : request_row) : Prop := exists q, dget "total_ms" (rq_metrics r) = Some (Some q).

Lemma total_ms_nonempty g : g <> [] -> Forall measured g -> total_ms g <> [].
Proof. destruct g as [|r g]; [done|]. intros _ [[q Hq] _]%Forall_cons. unfold total_ms, values_of. simpl. by rewrite Hq. Qed.

Lemma rep_arrays_nonempty ok cfg conc :
  Forall measured ok -> Forall (fun a => a <> []) (_rep_arrays ok cfg conc).
Proof.
  intros Hm. unfold _rep_arrays. apply Forall_forall. intros a Ha%list_elem_of_In.
  apply in_map_iff in Ha as ([k g] & <- & Hin%list_elem_of_In). apply groupby_elem in Hin as [-> Hne].
  apply total_ms_nonempty; [done|]. rewrite Forall_forall in Hm |- *. intros r Hr%list_elem_of_In.
  apply filter_In in Hr as [Hr _]. apply filter_In in Hr as [Hr _]. by apply Hm, list_elem_of_In.
Qed.

(** A draw holds requests of the repetitions, at least one. *)
Lemma draw_yields reps :
  reps <> [] -> Forall (fun a => a <> []) reps ->
  yields (draw reps) (fun l => l <> [] /\ Forall (fun x => x ∈ concat reps) l).
Proof.
  intros Hne Hall. assert (0 < py_len reps) as Hpos by (unfold py_len; destruct reps; [done|simpl; lia]).
  unfold draw. eapply yields_bind.
  { intros g. destruct (integers_range (py_len reps) (py_len reps) g Hpos ltac:(lia)) as (l & g' & Hl & Hlen & Hr).
    exists l, g'. split; [exact Hl|]. exact (conj Hlen Hr). }
  intros picks [Hlen Hpicks]. eapply yields_bind.
  { apply (yields_mmap _ (fun _ part => part <> [] /\ Forall (fun x => x ∈ concat reps) part)).
    intros k Hk. rewrite Forall_forall in Hpicks. specialize (Hpicks k Hk).
    destruct (lookup_lt_is_Some_2 reps (Z.to_nat k)) as [a Ha]; [unfold py_len in *; lia|].
    pose proof (getitem_at_Some reps (Z.to_nat k) a Ha) as Hget. rewrite Z2Nat.id in Hget by lia. rewrite Hget.
    pose proof (Forall_lookup_1 _ _ _ _ Hall Ha) as Hane. cbv beta in Hane.
    assert (0 < py_len a) by (unfold py_len; destruct a; [done|simpl; lia]).
    intros g. destruct (choices_of a (Z.min (py_len a) BOOT_CAP) g Hane) as (l & g' & Hl & Hll & Hin).
    { unfold BOOT_CAP. lia. }
    exists l, g'. split; [exact Hl|]. split.
    - intros ->. unfold py_len, BOOT_CAP in *. simpl in Hll. lia.
    - eapply Forall_impl; [exact Hin|]. intros x Hx. apply list_elem_of_In, in_concat. exists a.
      split; [|by apply list_elem_of_In]. apply list_elem_of_In. by apply list_elem_of_lookup_2 in Ha. }
  intros parts Hparts. apply yields_ret. cbv beta. destruct picks as [|k picks].
  { unfold py_len in *. simpl in Hlen. lia. }
  apply Forall2_cons_inv_l in Hparts as (part & parts' & [Hne1 Hin1] & Hrest & ->). simpl. split.
  - by destruct part.
  - apply Forall_app. split; [done|]. clear -Hrest. induction Hrest as [|? ? ? ? [_ H] _ IH]; [constructor|].
    simpl. by apply Forall_app.
Qed.

Open Scope Q_scope.

Lemma np_median_between l lo hi :
  l <> [] -> Forall (fun x => lo <= x <= hi) l -> exists m, np_median l = Some m /\ lo <= m <= hi.
Proof.
  intros Hne Hb. destruct (median_quantile l Hne) as (m & Hm & Hq). exists m. split; [done|].
  pose proof (quantile_bounds (1 # 2) l lo hi Hne Hb). lra.
Qed.

(** The bounds that every value of two samples gives their difference. *)
Definition within (a b : list Q) (d : Q) : Prop :=
  forall la ha lb hb, Forall (fun x => la <= x <= ha) a -> Forall (fun x => lb <= x <= hb) b ->
    la - hb <= d <= ha - lb.

Lemma median_difference a b x y :
  x <> [] -> y <> [] -> Forall (fun v => v ∈ a) x -> Forall (fun v => v ∈ b) y ->
  exists d, fsub (np_median x) (np_median y) = Some d /\ within a b d.
Proof.
  intros Hx Hy Hxa Hyb. destruct (median_quantile x Hx) as (mx & Hmx & _).
  destruct (median_quantile y Hy) as (my & Hmy & _). exists (mx - my). rewrite Hmx, Hmy. split; [done|].
  intros la ha lb hb Ha Hb.
  assert (forall c l (P : Q -> Prop), Forall (fun v => v ∈ c) l -> Forall P c -> Forall P l) as Hsub.
  { intros c l P Hl Hc. rewrite Forall_forall in Hl, Hc |- *. intros v Hv. apply Hc, Hl, Hv. }
  destruct (np_median_between x la ha Hx (Hsub _ _ _ Hxa Ha)) as (m1 & H1 & B1).
  destruct (np_median_between y lb hb Hy (Hsub _ _ _ Hyb Hb)) as (m2 & H2 & B2).
  assert (m1 = mx /\ m2 = my) as [-> ->] by (split; congruence). lra.
Qed.

Lemma boot_yields a b :
  a <> [] -> b <> [] -> Forall (fun r => r <> []) a -> Forall (fun r => r <> []) b ->
  yields (_hboot_diff a b) (fun boot => exists ds, boot = map Some ds /\ ds <> []
    /\ Forall (within (concat a) (concat b)) ds).
Proof.
  intros Ha Hb Hra Hrb. unfold _hboot_diff.
  assert (yields (mmap (fun _ => boot_draw a b) (seq 0 BOOT_B))
    (Forall2 (fun _ o => exists d, o = Some d /\ within (concat a) (concat b) d) (seq 0 BOOT_B))) as H.
  { apply yields_mmap. intros _ _. unfold boot_draw.
    eapply yields_bind; [by apply draw_yields|]. intros x [Hx Hxa].
    eapply yields_bind; [by apply draw_yields|]. intros y [Hy Hyb].
    apply yields_ret. destruct (median_difference _ _ x y Hx Hy Hxa Hyb) as (d & -> & Hd). by exists d. }
  intros s. destruct (H s) as (boot & s' & Hrun & Hall). exists boot, s'. split; [exact Hrun|].
  assert (length (seq 0 BOOT_B) <> 0%nat) as Hlen by (by rewrite length_seq).
  revert Hall Hlen. clear. generalize (seq 0 BOOT_B). intros l Hall Hlen.
  assert (exists ds, boot = map Some ds /\ Forall (within (concat a) (concat b)) ds) as (ds & -> & Hds).
  { clear Hlen. induction Hall as [|n o l boot (d & -> & Hd) _ (ds & -> & Hds)]; [by exists []|].
    exists (d :: ds). split; [done|]. by constructor. }
  exists ds. split_and!; [done| |done]. intros ->. apply Forall2_length in Hall. simpl in Hall. lia.
Qed.

Lemma np_quantile_Some q ds : np_quantile q (map Some ds) = Some (quantile q ds).
Proof.
  unfold np_quantile. enough (mapM id (map Some ds) = Some ds) as -> by done.
  apply mapM_Some. induction ds as [|d ds IH]; simpl; by constructor.
Qed.

(** A row of the comparison: its intervals are nested, the bootstrap and the
    difference stay within what the samples allow, and there is a p-value. *)
Definition sound_row (ok : list request_row) (r : comparison) : Prop :=
  let a := _rep_arrays ok (cm_config r) (cm_concurrency r) in
  let b := _rep_arrays ok (cm_reference r) (cm_concurrency r) in
  (2 <= py_len a)%Z /\ (2 <= py_len b)%Z
  /\ (exists lo95 lo90 hi90 hi95,
        cm_ci95_lo r = Some lo95 /\ cm_ci90_lo r = Some lo90 /\ cm_ci90_hi r = Some hi90
        /\ cm_ci95_hi r = Some hi95 /\ lo95 <= lo90 <= hi90 /\ hi90 <= hi95
        /\ within (concat a) (concat b) lo95 /\ within (concat a) (concat b) hi95)
  /\ cm_ref_median r = np_median (concat b)
  /\ cm_diff_ms r = fsub (np_median (concat a)) (np_median (concat b))
  /\ (exists d, cm_diff_ms r = Some d /\ within (concat a) (concat b) d)
  /\ (exists p, cm_p_rep r = Some p /\ 0 <= p <= 1).

Definition row_name (r : comparison) : Z * (string * string) :=
  (cm_concurrency r, (cm_config r, cm_reference r)).
(** The comparisons that have two repetitions on both sides. *)
Definition planned_pair (ok : list request_row) (conc : Z) (pair : string * string)
    : list (Z * (string * string)) :=
  let n c := py_len (_rep_arrays ok c conc) in
  if (n (fst pair) <? 2)%Z || (n (snd pair) <? 2)%Z then [] else [(conc, pair)].
Definition planned (ok : list request_row) (pairs : list (string * string)) : list (Z * (string * string)) :=
  concat (map (fun conc => concat (map (planned_pair ok conc) pairs))
            (sorted_unique Z.le (map rq_concurrency ok))).

Lemma within_quantile a b ds q : ds <> [] -> Forall (within a b) ds -> within a b (quantile q ds).
Proof.
  intros Hne H la ha lb hb Ha Hb. apply quantile_bounds; [done|].
  eapply Forall_impl; [exact H|]. intros d Hd. by apply Hd.
Qed.

Lemma concat_nonempty {A} (l : list (list A)) : l <> [] -> Forall (fun r => r <> []) l -> concat l <> [].
Proof. destruct l as [|[|x r] l]; [done| |done]. intros _ H. by apply Forall_cons in H as [? _]. Qed.

Lemma rep_medians reps :
  Forall (fun r => r <> []) reps -> exists ms, map np_median reps = map Some ms /\ length ms = length reps.
Proof.
  induction 1 as [|r reps Hr _ (ms & IH & Hl)]; [by exists []|].
  destruct (median_quantile r Hr) as (m & Hm & _). exists (m :: ms). simpl. by rewrite Hm, IH, Hl.
Qed.

Lemma compare_pair_yields ok conc pair :
  Forall measured ok ->
  yields (compare_pair ok conc pair)
    (fun rows => map row_name rows = planned_pair ok conc pair /\ Forall (sound_row ok) rows).
Proof.
  intros Hm. destruct pair as [cfg ref]. unfold compare_pair, planned_pair. cbn [fst snd].
  pose proof (rep_arrays_nonempty ok cfg conc Hm) as Hra. pose proof (rep_arrays_nonempty ok ref conc Hm) as Hrb.
  destruct (_ || _) eqn:Hen; [by apply yields_ret|].
  apply orb_false_iff in Hen as [Hla%Z.ltb_ge Hlb%Z.ltb_ge].
  set (a := _rep_arrays ok cfg conc) in *. set (b := _rep_arrays ok ref conc) in *.
  assert (a <> [] /\ b <> []) as [Ha Hb] by (split; intros Hn; rewrite Hn in *; unfold py_len in *; simpl in *; lia).
  eapply yields_bind; [by apply boot_yields|]. intros boot (ds & -> & Hds & Hin). apply yields_ret.
  split; [done|]. apply Forall_singleton. unfold sound_row. cbn. fold a b.
  split; [exact Hla|]. split; [exact Hlb|].
  pose proof (quantile_mono (25 # 1000) (5 # 100) ds Hds ltac:(done)).
  pose proof (quantile_mono (5 # 100) (95 # 100) ds Hds ltac:(done)).
  pose proof (quantile_mono (95 # 100) (975 # 1000) ds Hds ltac:(done)).
  rewrite !np_quantile_Some. split_and!.
  - exists (quantile (25 # 1000) ds), (quantile (5 # 100) ds), (quantile (95 # 100) ds), (quantile (975 # 1000) ds).
    split_and!; try done; by apply within_quantile.
  - done.
  - done.
  - apply median_difference; try (by apply concat_nonempty); apply Forall_forall; done.
  - destruct (rep_medians a Hra) as (ma & -> & Hma). destruct (rep_medians b Hrb) as (mb & -> & Hmb).
    apply exact_range; intros ->; simpl in *; [by destruct a|by destruct b].
Qed.

Lemma concat_planned {A B C} (name : B -> C) (plan : A -> list C) (P : B -> Prop) l rows :
  Forall2 (fun x row => map name row = plan x /\ Forall P row) l rows ->
  map name (concat rows) = concat (map plan l) /\ Forall P (concat rows).
Proof.
  induction 1 as [|x row l rows [H1 H2] _ [IH1 IH2]]; simpl; [done|].
  rewrite map_app, H1, IH1. split; [done|]. by apply Forall_app.
Qed.

Lemma comparison_rows_yields df pairs :
  Forall measured (_ok df) ->
  yields (comparison_rows df pairs)
    (fun rows => map row_name rows = planned (_ok df) pairs /\ Forall (sound_row (_ok df)) rows).
Proof.
  intros Hm. unfold comparison_rows. eapply yields_bind.
  { apply (yields_mmap _ (fun conc rows =>
      map row_name (concat rows) = concat (map (planned_pair (_ok df) conc) pairs)
      /\ Forall (sound_row (_ok df)) (concat rows))).
    intros conc _. pose proof (yields_mmap (compare_pair (_ok df) conc) _ pairs
      (fun pair _ => compare_pair_yields (_ok df) conc pair Hm)) as H.
    intros s. destruct (H s) as (rows & s' & Hrun & Hall). exists rows, s'. split; [exact Hrun|].
    by apply concat_planned. }
  intros rows Hrows. apply yields_ret. unfold planned. revert Hrows.
  generalize (sorted_unique Z.le (map rq_concurrency (_ok df))). intros levels.
  induction 1 as [|conc r levels rows [H1 H2] _ [IH1 IH2]]; simpl; [done|].
  rewrite concat_app, map_app, H1, IH1. split; [done|]. by apply Forall_app.
Qed.

(** A row keeps its place in its family. *)
Lemma holm_column_rows all before rows : map fst (holm_column all before rows) = rows.
Proof. revert before; induction rows as [|r rows IH]; intros before; cbn [holm_column map]; [done|]. by rewrite IH. Qed.

Lemma holm_column_ge (all before rows : list comparison) :
  all = before ++ rows -> Forall (fun r => exists p, cm_p_rep r = Some p /\ 0 <= p <= 1) all ->
  Forall (fun rq => exists p, cm_p_rep (fst rq) = Some p /\ p <= snd rq <= 1) (holm_column all before rows).
Proof.
  intros Hall Hp. revert before Hall; induction rows as [|r rows IH]; intros before Hall; cbn [holm_column]; [constructor|].
  constructor; [|by apply IH; rewrite <- app_assoc].
  cbn [fst snd]. set (k := length (family_of before r)).
  assert (family_of all r !! k = Some r) as Hk.
  { unfold family_of at 1. rewrite Hall, List.filter_app. cbn [List.filter]. rewrite bool_decide_eq_true_2 by done.
    by rewrite lookup_app_r, Nat.sub_diag by done. }
  assert (exists ps, map cm_p_rep (family_of all r) = map Some ps
            /\ Forall2 (fun x p => cm_p_rep x = Some p) (family_of all r) ps
            /\ Forall (fun p => 0 <= p <= 1) ps) as (ps & Hps & Hf2 & Hb).
  { assert (Forall (fun r => exists p, cm_p_rep r = Some p /\ 0 <= p <= 1) (family_of all r)) as Hf.
    { rewrite Forall_forall in Hp |- *. intros x Hx%list_elem_of_In. apply filter_In in Hx as [Hx _].
      by apply Hp, list_elem_of_In. }
    clear -Hf. induction Hf as [|x l (p & Hxp & Hpb) _ (ps & H1 & H2 & H3)]; [exists []; by repeat constructor|].
    exists (p :: ps). simpl. rewrite Hxp, H1. split; [done|]. split; by constructor. }
  destruct (Forall2_lookup_l _ _ _ _ _ Hf2 Hk) as (p & Hpk & Hrp).
  destruct (holm_ge ps k p Hb Hpk) as (v & Hv & Hge). exists p. split; [exact Hrp|].
  rewrite Hps, (nth_lookup_Some _ _ _ _ Hv). exact Hge.
Qed.

Lemma comparison_stats_returns df pairs seed :
  Forall measured (_ok df) ->
  exists rows, comparison_stats df pairs seed = Ok rows
    /\ map row_name (map fst rows) = planned (_ok df) pairs
    /\ Forall (sound_row (_ok df)) (map fst rows)
    /\ Forall (fun rq => exists p, cm_p_rep (fst rq) = Some p /\ p <= snd rq <= 1) rows.
Proof.
  intros Hm. unfold comparison_stats.
  destruct (comparison_rows_yields df pairs Hm (default_rng seed)) as (rows & s' & -> & Hname & Hrows).
  cbn [fst rbind]. exists (holm_column rows [] rows). rewrite holm_column_rows. split_and!; try done.
  apply holm_column_ge; [done|]. eapply Forall_impl; [exact Hrows|]; intros r H; apply H.
Qed.

(** C33: A comparison always returns and its numbers fit together.  When every
    successful request has a latency, [comparison_stats] returns exactly one
    row per concurrency level and pair with two repetitions on both sides, in
    order; in every row the 90% bootstrap interval lies within the 95% one,
    both and the difference of the medians stay between what the smallest and
    largest requests of the two sides allow, and the corrected p-value is at
    least the raw one and at most 1. *)
Theorem comparison_stats_sound (df : list request_row) (pairs : list (string * string)) (seed : Z)
    (Hmeasured : Forall measured (_ok df)) :
  exists rows, comparison_stats df pairs seed = Ok rows
    /\ map (fun rq => row_name (fst rq)) rows = planned (_ok df) pairs
    /\ Forall (fun rq => sound_row (_ok df) (fst rq)
         /\ exists p, cm_p_rep (fst rq) = Some p /\ p <= snd rq <= 1) rows.
Proof.
  destruct (comparison_stats_returns df pairs seed Hmeasured) as (rows & Hrun & Hname & Hrows & Hp).
  exists rows. split; [exact Hrun|]. rewrite map_map in Hname. split; [exact Hname|].
  apply Forall_and. split; [|exact Hp]. exact (proj1 (List.Forall_map _ _ _) Hrows).
Qed.
End Compare.
