(* ===== verification/PaperCells.v ===== *)
(** * The cells of the paper's tables

    The statistics of a cell against its repetitions, what counting failures
    at the timeout does to a median, the effect size, and the runs the rows
    come from. *)
From stdpp Require Import sorting.
From Stdlib Require Import Lqa Qround.
From S2P Require Import Prelude PyBytes PyVal PyList PyNum Instrumentation Aggregate PaperStats PaperStatsProps.

(** ** The rows of the groups are the rows *)
Section Groups.
Context {A K : Type} `{EqDecision K}.
Variables (key : A -> K).

Lemma filter_keys_perm (ks : list K) rows :
  NoDup ks ->
  Permutation (concat (map (fun k => List.filter (fun r => bool_decide (key r = k)) rows) ks))
    (List.filter (fun r => bool_decide (key r ∈ ks)) rows).
Proof.
  induction 1 as [|k ks Hk _ IH]; cbn [map concat].
  { induction rows as [|r rows IHr]; [done|]. cbn [List.filter].
    rewrite bool_decide_eq_false_2; [done|]. apply not_elem_of_nil. }
  rewrite IH. clear IH. induction rows as [|r rows IHr]; [done|]. cbn [List.filter].
  destruct (decide (key r = k)) as [He|Hne].
  - rewrite (bool_decide_eq_true_2 (key r = k)) by done.
    rewrite (bool_decide_eq_false_2 (key r ∈ ks)) by congruence.
    rewrite (bool_decide_eq_true_2 (key r ∈ k :: ks)) by (rewrite He; left).
    simpl. by rewrite IHr.
  - rewrite (bool_decide_eq_false_2 (key r = k)) by done. destruct (decide (key r ∈ ks)) as [Hin|Hout].
    + rewrite (bool_decide_eq_true_2 (key r ∈ ks)) by done.
      rewrite (bool_decide_eq_true_2 (key r ∈ k :: ks)) by (by right). rewrite <- IHr.
      by rewrite <- Permutation_middle.
    + rewrite (bool_decide_eq_false_2 (key r ∈ ks)) by done.
      rewrite (bool_decide_eq_false_2 (key r ∈ k :: ks)); [exact IHr|]. by intros [?|?]%elem_of_cons.
Qed.

Lemma groupby_perm (le : relation K) `{!RelDecision le} rows :
  Permutation (concat (map snd (groupby le key rows))) rows.
Proof.
  pose proof (groupby_NoDup le key rows) as Hnd. rewrite groupby_keys in Hnd.
  unfold groupby. rewrite map_map. cbn [snd]. rewrite (filter_keys_perm _ _ Hnd).
  rewrite forallb_filter_id; [done|]. apply forallb_forall. intros r Hr.
  apply bool_decide_eq_true. rewrite merge_sort_Permutation, elem_of_remove_dups.
  apply list_elem_of_In. by apply in_map.
Qed.
End Groups.

(** ** Medians *)
Section Medians.
Open Scope Q_scope.

(** How many values are at most [q]. *)
Definition count_le (l : list Q) (q : Q) : nat := length (List.filter (fun x => Qle_bool x q) l).

Lemma count_le_app l l' q : count_le (l ++ l') q = (count_le l q + count_le l' q)%nat.
Proof. unfold count_le. by rewrite List.filter_app, length_app. Qed.
Lemma count_ge_app l l' q : count_ge (l ++ l') q = (count_ge l q + count_ge l' q)%nat.
Proof. unfold count_ge. by rewrite List.filter_app, length_app. Qed.
Lemma count_le_perm l l' q : Permutation l l' -> count_le l q = count_le l' q.
Proof. intros H. unfold count_le. by apply Permutation_length, filter_Permutation. Qed.
Lemma count_le_bound l q : (count_le l q <= length l)%nat.
Proof. unfold count_le. induction l as [|x l IH]; simpl; [done|]. destruct (Qle_bool x q); simpl; lia. Qed.
Lemma count_le_mono l p q : p <= q -> (count_le l p <= count_le l q)%nat.
Proof.
  intros Hpq. unfold count_le. induction l as [|x l IH]; simpl; [done|].
  destruct (Qle_bool x p) eqn:Hp, (Qle_bool x q) eqn:Hq; simpl; try lia.
  apply Qle_bool_iff in Hp. assert (x <= q) as H by lra. apply Qle_bool_iff in H. congruence.
Qed.
Lemma count_ge_mono l p q : p <= q -> (count_ge l q <= count_ge l p)%nat.
Proof.
  intros Hpq. unfold count_ge. induction l as [|x l IH]; simpl; [done|].
  destruct (Qle_bool q x) eqn:Hq, (Qle_bool p x) eqn:Hp; simpl; try lia.
  apply Qle_bool_iff in Hq. assert (p <= x) as H by lra. apply Qle_bool_iff in H. congruence.
Qed.

Lemma sorted_le_position s q (k : nat) x :
  StronglySorted Qle s -> s !! k = Some x -> x <= q <-> (k < count_le s q)%nat.
Proof.
  intros Hs; revert k; induction Hs as [|y s Hs IH Hy]; intros k Hk; [done|].
  unfold count_le in *. simpl. destruct (Qle_bool y q) eqn:Hq.
  - apply Qle_bool_iff in Hq. destruct k as [|k]; simpl.
    + injection Hk as <-. split; [lia|done].
    + rewrite (IH k Hk). lia.
  - assert (~ y <= q) as Hn by (intros Hle; apply Qle_bool_iff in Hle; congruence).
    assert (q < y) as Hlt by (by apply Qnot_le_lt).
    assert (List.filter (fun x => Qle_bool x q) s = []) as ->.
    { clear -Hy Hlt. induction Hy as [|z s Hz _ IH]; [done|]. simpl.
      destruct (Qle_bool z q) eqn:E; [|done]. apply Qle_bool_iff in E. lra. }
    simpl. split; [|lia]. intros Hx. exfalso. destruct k as [|k]; [injection Hk as <-; lra|].
    pose proof (Forall_lookup_1 _ _ _ _ Hy Hk). lra.
Qed.

(** The two middle values, one of them for an odd number. *)
Lemma median_middles l :
  l <> [] -> exists a b m, Qsorted l !! ((length l - 1) / 2)%nat = Some a
    /\ Qsorted l !! (length l / 2)%nat = Some b /\ np_median l = Some m /\ m + m == a + b.
Proof.
  intros Hl. unfold np_median, median. pose proof (Qsorted_length l) as Hlen.
  assert (0 < length l)%nat as Hpos by (destruct l; [done|simpl; lia]).
  set (s := Qsorted l) in *. clearbody s. rewrite Hlen. set (n := length l) in *. clearbody n.
  assert (forall k, (k < n)%nat -> s !! k = Some (nth k s 0)) as Hs.
  { intros k Hk. destruct (lookup_lt_is_Some_2 s k ltac:(lia)) as [x Hx]. rewrite Hx. f_equal.
    symmetry. by apply nth_lookup_Some. }
  exists (nth ((n - 1) / 2) s 0), (nth (n / 2) s 0).
  pose proof (Nat.Div0.div_lt_upper_bound n 2 n ltac:(lia)). pose proof (Nat.Div0.div_lt_upper_bound (n - 1) 2 n ltac:(lia)).
  destruct n as [|n]; [lia|]. destruct (Nat.odd (S n)) eqn:Hodd.
  - apply Nat.odd_spec in Hodd as [k Hk]. exists (nth (S n / 2) s 0).
    assert ((S n - 1) / 2 = S n / 2)%nat as ->.
    { rewrite Hk. replace (2 * k + 1 - 1)%nat with (k * 2)%nat by lia.
      replace (2 * k + 1)%nat with (1 + k * 2)%nat by lia. by rewrite Nat.div_mul, Nat.div_add by lia. }
    split_and!; [by apply Hs|by apply Hs|done|reflexivity].
  - exists ((nth (S n / 2 - 1) s 0 + nth (S n / 2) s 0) / 2).
    assert (Nat.even (S n) = true) as Heven by (rewrite <- Nat.negb_odd; by rewrite Hodd).
    apply Nat.even_spec in Heven as [k Hk].
    assert ((S n - 1) / 2 = S n / 2 - 1)%nat as ->.
    { rewrite Hk. replace (2 * k - 1)%nat with (1 + (k - 1) * 2)%nat by lia.
      replace (2 * k)%nat with (k * 2)%nat by lia. rewrite Nat.div_mul, Nat.div_add by lia. simpl. lia. }
    split_and!; [apply Hs; lia|by apply Hs|done|field].
Qed.

(** What the two middle values say of the counts. *)
Section Middles.
Context (l : list Q) (a b : Q).
Hypothesis Ha : Qsorted l !! ((length l - 1) / 2)%nat = Some a.
Hypothesis Hb : Qsorted l !! (length l / 2)%nat = Some b.

Lemma middles_nonempty : (0 < length l)%nat.
Proof. destruct l; [done|simpl; lia]. Qed.

Lemma count_le_at t (k : nat) x :
  Qsorted l !! k = Some x -> x <= t <-> (k < count_le l t)%nat.
Proof.
  intros Hk. rewrite <- (count_le_perm _ _ t (Qsorted_perm l)).
  exact (sorted_le_position _ t k x (Qsorted_ssorted l) Hk).
Qed.
Lemma count_ge_at t (k : nat) x :
  Qsorted l !! k = Some x -> t <= x <-> (length l - count_ge l t <= k)%nat.
Proof.
  intros Hk. rewrite <- (count_ge_perm _ _ t (Qsorted_perm l)), <- (Qsorted_length l) at 1.
  exact (sorted_ge_position _ t k x (Qsorted_ssorted l) Hk).
Qed.

Ltac halves := pose proof middles_nonempty; pose proof (Nat.div_mod_eq (length l) 2);
  pose proof (Nat.mod_upper_bound (length l) 2 ltac:(lia)); pose proof (Nat.div_mod_eq (length l - 1) 2);
  pose proof (Nat.mod_upper_bound (length l - 1) 2 ltac:(lia)).

Lemma below_upper t : t < b -> (2 * count_le l t <= length l)%nat.
Proof. intros Ht. pose proof (fun H => Qlt_not_le _ _ Ht (proj2 (count_le_at t _ b Hb) H)). halves. lia. Qed.
Lemma below_lower t : t < a -> (2 * count_le l t < length l)%nat.
Proof. intros Ht. pose proof (fun H => Qlt_not_le _ _ Ht (proj2 (count_le_at t _ a Ha) H)). halves. lia. Qed.
Lemma at_lower : (length l <= 2 * count_le l a)%nat.
Proof. pose proof (proj1 (count_le_at a _ a Ha) (Qle_refl a)). halves. lia. Qed.
Lemma at_upper : (length l < 2 * count_le l b)%nat.
Proof. pose proof (proj1 (count_le_at b _ b Hb) (Qle_refl b)). halves. lia. Qed.

Lemma above_lower t : a < t -> (2 * count_ge l t <= length l)%nat.
Proof. intros Ht. pose proof (fun H => Qlt_not_le _ _ Ht (proj2 (count_ge_at t _ a Ha) H)). pose proof (count_ge_le l t). halves. lia. Qed.
Lemma above_upper t : b < t -> (2 * count_ge l t < length l)%nat.
Proof. intros Ht. pose proof (fun H => Qlt_not_le _ _ Ht (proj2 (count_ge_at t _ b Hb) H)). pose proof (count_ge_le l t). halves. lia. Qed.
Lemma from_upper : (length l <= 2 * count_ge l b)%nat.
Proof. pose proof (proj1 (count_ge_at b _ b Hb) (Qle_refl b)). pose proof (count_ge_le l b). halves. lia. Qed.
Lemma from_lower : (length l < 2 * count_ge l a)%nat.
Proof. pose proof (proj1 (count_ge_at a _ a Ha) (Qle_refl a)). pose proof (count_ge_le l a). halves. lia. Qed.

Lemma middles_order : a <= b.
Proof. apply (ssorted_lookup _ _ _ _ _ (Qsorted_ssorted l) Ha Hb). halves. lia. Qed.
End Middles.

(** *** The median of pooled groups lies between the groups' medians *)
Section Pooled.
Variable gs : list (list Q).

(** Counts add up over the groups. *)
Lemma half_counts (f : list Q -> nat) :
  (forall l l', f (l ++ l') = f l + f l')%nat -> f [] = 0%nat ->
  Forall (fun g => (2 * f g <= length g)%nat) gs ->
  (2 * f (concat gs) <= length (concat gs))%nat
  /\ (Exists (fun g => (2 * f g < length g)%nat) gs -> (2 * f (concat gs) < length (concat gs))%nat).
Proof.
  intros Happ Hnil. induction 1 as [|g gs' Hg _ [IH1 IH2]]; simpl.
  - rewrite Hnil. split; [done|]. by intros ?%Exists_nil.
  - rewrite Happ, length_app. split; [lia|]. intros [H|H]%Exists_cons; [lia|]. specialize (IH2 H). lia.
Qed.

Lemma pooled_counts (fa fb : list Q -> nat) :
  (forall l l', fa (l ++ l') = fa l + fa l')%nat -> fa [] = 0%nat ->
  (forall l l', fb (l ++ l') = fb l + fb l')%nat -> fb [] = 0%nat ->
  (forall l, fa l <= fb l)%nat ->
  Forall (fun g => (2 * fb g <= length g)%nat \/ (2 * fa g < length g)%nat) gs ->
  (length (concat gs) <= 2 * fa (concat gs))%nat -> ~ (length (concat gs) < 2 * fb (concat gs))%nat.
Proof.
  intros Ha Ha0 Hb Hb0 Hab Hg Hpa Hpb.
  destruct (decide (Forall (fun g => (2 * fb g <= length g)%nat) gs)) as [H1|H2].
  - destruct (half_counts fb Hb Hb0 H1) as [Hsum _]. lia.
  - apply not_Forall_Exists in H2; [|exact _].
    assert (Forall (fun g => (2 * fa g <= length g)%nat) gs) as Hall.
    { eapply Forall_impl; [exact Hg|]. intros g [?|?]; [|lia]. specialize (Hab g). lia. }
    destruct (half_counts fa Ha Ha0 Hall) as [_ Hsum].
    enough (2 * fa (concat gs) < length (concat gs))%nat by lia. apply Hsum. clear -H2 Hg.
    induction H2 as [g gs Hn|g gs _ IH]; apply Forall_cons in Hg as [Hc Hg]; [left; by destruct Hc|right; by apply IH].
Qed.

Lemma pooled_median_ge lo m :
  np_median (concat gs) = Some m ->
  Forall (fun g => forall mg, np_median g = Some mg -> lo <= mg) gs -> lo <= m.
Proof.
  intros Hm Hgs. assert (concat gs <> []) as Hne by (intros Hn; by rewrite Hn in Hm).
  destruct (median_middles _ Hne) as (a & b & m' & Ha & Hb & Hm' & Hab).
  assert (m' = m) as -> by congruence. destruct (Qlt_le_dec m lo) as [Hlt|]; [|done]. exfalso.
  apply (pooled_counts (fun l => count_le l a) (fun l => count_le l b)); try done;
    [intros; apply count_le_app|intros; apply count_le_app| | |apply (at_lower _ _ _ Ha Hb)|apply (at_upper _ _ _ Ha Hb)].
  - intros l. apply count_le_mono. apply (middles_order _ _ _ Ha Hb).
  - eapply Forall_impl; [exact Hgs|]. intros g Hg. destruct g as [|x g]; [by left|].
    destruct (median_middles (x :: g) ltac:(done)) as (ag & bg & mg & Hag & Hbg & Hmg & Hs).
    specialize (Hg mg Hmg). destruct (Qlt_le_dec b bg); [left; by apply (below_upper _ _ _ Hag Hbg)|right].
    apply (below_lower _ _ _ Hag Hbg). lra.
Qed.

Lemma pooled_median_le hi m :
  np_median (concat gs) = Some m ->
  Forall (fun g => forall mg, np_median g = Some mg -> mg <= hi) gs -> m <= hi.
Proof.
  intros Hm Hgs. assert (concat gs <> []) as Hne by (intros Hn; by rewrite Hn in Hm).
  destruct (median_middles _ Hne) as (a & b & m' & Ha & Hb & Hm' & Hab).
  assert (m' = m) as -> by congruence. destruct (Qlt_le_dec hi m) as [Hlt|]; [|done]. exfalso.
  apply (pooled_counts (fun l => count_ge l b) (fun l => count_ge l a)); try done;
    [intros; apply count_ge_app|intros; apply count_ge_app| | |apply (from_upper _ _ _ Ha Hb)|apply (from_lower _ _ _ Ha Hb)].
  - intros l. apply count_ge_mono. apply (middles_order _ _ _ Ha Hb).
  - eapply Forall_impl; [exact Hgs|]. intros g Hg. destruct g as [|x g]; [by left|].
    destruct (median_middles (x :: g) ltac:(done)) as (ag & bg & mg & Hag & Hbg & Hmg & Hs).
    specialize (Hg mg Hmg). destruct (Qlt_le_dec ag a); [left; by apply (above_lower _ _ _ Hag Hbg)|right].
    apply (above_upper _ _ _ Hag Hbg). lra.
Qed.
End Pooled.
End Medians.

(** ** The statistics of a cell *)
Section Cells.
Open Scope Q_scope.

Lemma Qmin_spec x y : Qmin x y <= x /\ Qmin x y <= y.
Proof.
  unfold Qmin. destruct (Qle_bool x y) eqn:H; [apply Qle_bool_iff in H; split; lra|].
  assert (~ x <= y) as Hn by (intros Hle; apply Qle_bool_iff in Hle; congruence).
  apply Qnot_le_lt in Hn. split; lra.
Qed.
Lemma Qmax_spec x y : x <= Qmax x y /\ y <= Qmax x y.
Proof.
  unfold Qmax. destruct (Qle_bool x y) eqn:H; [apply Qle_bool_iff in H; split; lra|].
  assert (~ x <= y) as Hn by (intros Hle; apply Qle_bool_iff in Hle; congruence).
  apply Qnot_le_lt in Hn. split; lra.
Qed.

Lemma fold_min_le l x : fold_left Qmin l x <= x /\ Forall (Qle (fold_left Qmin l x)) l.
Proof.
  revert x; induction l as [|y l IH]; intros x; simpl; [split; [apply Qle_refl|constructor]|].
  destruct (IH (Qmin x y)) as [H1 H2]. destruct (Qmin_spec x y). split; [lra|]. constructor; [lra|done].
Qed.
Lemma fold_max_ge l x : x <= fold_left Qmax l x /\ Forall (fun v => v <= fold_left Qmax l x) l.
Proof.
  revert x; induction l as [|y l IH]; intros x; simpl; [split; [apply Qle_refl|constructor]|].
  destruct (IH (Qmax x y)) as [H1 H2]. destruct (Qmax_spec x y). split; [lra|]. constructor; [lra|done].
Qed.

Lemma min_max_range l :
  l <> [] -> exists lo hi, min_or_none l = Some lo /\ max_or_none l = Some hi
    /\ Forall (fun v => lo <= v <= hi) l.
Proof.
  destruct l as [|x l]; [done|]. intros _. exists (fold_left Qmin l x), (fold_left Qmax l x).
  split; [done|]. split; [done|]. destruct (fold_min_le l x) as [H1 H2]. destruct (fold_max_ge l x) as [H3 H4].
  constructor; [done|]. apply Forall_and. by split.
Qed.

Lemma total_ms_perm l l' : Permutation l l' -> Permutation (total_ms l) (total_ms l').
Proof. intros H. unfold total_ms, values_of. by rewrite H. Qed.
Lemma total_ms_concat ls : total_ms (concat ls) = concat (map total_ms ls).
Proof.
  unfold total_ms, values_of. induction ls as [|l ls IH]; [done|]. simpl. by rewrite omap_app, IH.
Qed.

(** The repetitions' values make up the cell's. *)
Lemma repetitions_perm rows :
  Permutation (concat (map (fun r => total_ms (snd r)) (repetitions rows))) (total_ms rows).
Proof.
  rewrite <- (map_map snd total_ms), <- total_ms_concat. apply total_ms_perm. apply groupby_perm.
Qed.

Lemma same_place l l' (k : nat) x x' :
  Permutation l l' -> Qsorted l !! k = Some x -> Qsorted l' !! k = Some x' -> x == x'.
Proof.
  intros Hp Hx Hx'. apply Qle_antisym.
  - apply (count_le_at l x' k x Hx). rewrite (count_le_perm _ _ _ Hp).
    by apply (count_le_at l' x' k x' Hx'), Qle_refl.
  - apply (count_le_at l' x k x' Hx'). rewrite <- (count_le_perm _ _ _ Hp).
    by apply (count_le_at l x k x Hx), Qle_refl.
Qed.
Lemma median_perm l l' m :
  Permutation l l' -> np_median l = Some m -> exists m', np_median l' = Some m' /\ m' == m.
Proof.
  intros Hp Hm. assert (l <> []) as Hne by (intros ->; discriminate).
  assert (l' <> []) as Hne' by (intros ->; by apply Permutation_sym, Permutation_nil in Hp).
  destruct (median_middles l Hne) as (a & b & m1 & Ha & Hb & Hm1 & Hs).
  destruct (median_middles l' Hne') as (a' & b' & m2 & Ha' & Hb' & Hm2 & Hs').
  exists m2. split; [done|]. assert (m1 = m) as -> by congruence.
  rewrite <- (Permutation_length Hp) in Ha', Hb'.
  pose proof (same_place _ _ _ _ _ Hp Ha Ha'). pose proof (same_place _ _ _ _ _ Hp Hb Hb'). lra.
Qed.

(** What a row of the table says of its cell. *)
Definition cell_sound (df : list request_row) (s : cell_stats) : Prop :=
  let g := List.filter (fun r => bool_decide (config_concurrency r = (pc_config s, pc_concurrency s))) df in
  pc_n_attempted s = py_len g /\ (0 < pc_n_attempted s)%Z
  /\ pc_n_ok s = py_len (total_ms (_ok g))
  /\ pc_error_rate s == inject_Z (py_len (List.filter is_err g)) / inject_Z (pc_n_attempted s)
  /\ 0 <= pc_error_rate s <= 1
  /\ ((pc_n_ok s = 0%Z /\ pc_median s = None /\ pc_q25 s = None /\ pc_q75 s = None /\ pc_p95 s = None
        /\ pc_p99 s = None /\ pc_rep_min s = None /\ pc_rep_max s = None)
      \/ (exists q25 med q75 p95 p99 lo hi,
            pc_q25 s = Some q25 /\ pc_median s = Some med /\ pc_q75 s = Some q75 /\ pc_p95 s = Some p95
            /\ pc_p99 s = Some p99 /\ pc_rep_min s = Some lo /\ pc_rep_max s = Some hi
            /\ q25 <= med /\ med <= q75 /\ q75 <= p95 /\ p95 <= p99 /\ lo <= med <= hi)).

(** The repetitions' medians, without the repetitions that have no value. *)
Lemma repetition_medians okg med :
  np_median (total_ms okg) = Some med ->
  exists lo hi, series_min (map (fun r => np_median (total_ms (snd r))) (repetitions okg)) = Some lo
    /\ series_max (map (fun r => np_median (total_ms (snd r))) (repetitions okg)) = Some hi
    /\ lo <= med <= hi.
Proof.
  intros Hmed. set (gs := map (fun r => total_ms (snd r)) (repetitions okg)).
  assert (map (fun r => np_median (total_ms (snd r))) (repetitions okg) = map np_median gs) as ->
    by (unfold gs; by rewrite map_map).
  destruct (median_perm _ _ _ (Permutation_sym (repetitions_perm okg)) Hmed) as (m & Hm & Hmm). fold gs in Hm.
  unfold series_min, series_max. set (ms := omap id (map np_median gs)).
  assert (forall g mg, g ∈ gs -> np_median g = Some mg -> mg ∈ ms) as Hin.
  { intros g mg Hg Hmg. apply list_elem_of_omap. exists (Some mg). split; [|done].
    apply list_elem_of_In, in_map_iff. exists g. split; [done|]. by apply list_elem_of_In. }
  assert (ms <> []) as Hne.
  { intros Hnil. assert (exists g, g ∈ gs /\ g <> []) as (g & Hg & Hgne).
    { assert (concat gs <> []) as Hc by (intros Hc; by rewrite Hc in Hm).
      destruct (concat gs) as [|x c] eqn:Hcc; [done|].
      assert (In x (concat gs)) as Hx by (rewrite Hcc; by left). apply in_concat in Hx as (g & Hg & Hx).
      exists g. split; [by apply list_elem_of_In|by intros ->]. }
    destruct (median_quantile g Hgne) as (mg & Hmg & _). specialize (Hin g mg Hg Hmg).
    rewrite Hnil in Hin. by apply elem_of_nil in Hin. }
  destruct (min_max_range ms Hne) as (lo & hi & -> & -> & Hr). exists lo, hi. split; [done|]. split; [done|].
  rewrite Forall_forall in Hr.
  pose proof (pooled_median_ge gs lo m Hm) as H1. pose proof (pooled_median_le gs hi m Hm) as H2.
  assert (lo <= m) by (apply H1, Forall_forall; intros g Hg mg Hmg; by apply Hr, (Hin g)).
  assert (m <= hi) by (apply H2, Forall_forall; intros g Hg mg Hmg; by apply Hr, (Hin g)). lra.
Qed.

Lemma concurrency_cell_sound df k g :
  (k, g) ∈ groupby group_le config_concurrency df ->
  (pc_config (concurrency_cell (k, g)), pc_concurrency (concurrency_cell (k, g))) = k
  /\ cell_sound df (concurrency_cell (k, g)).
Proof.
  intros Hg. apply groupby_elem in Hg as [Hg Hne]. destruct k as [cfg conc]. split; [done|].
  unfold cell_sound, concurrency_cell. cbn. rewrite <- Hg.
  assert (0 < py_len g)%Z as Hpos by (unfold py_len; destruct g; [done|simpl; lia]).
  pose proof (filter_split_length is_err g) as Hsum.
  assert (0 <= py_len (List.filter (fun r => negb (is_err r)) g))%Z by (unfold py_len; lia).
  split; [done|]. split; [exact Hpos|]. split; [done|]. split; [reflexivity|].
  split; [apply share_range; unfold py_len in *; lia|].
  destruct (total_ms (_ok g)) as [|x vals] eqn:Hv.
  - left. unfold series_min, series_max.
    assert (omap id (map (fun r => np_median (total_ms (snd r))) (repetitions (_ok g))) = []) as ->; [|done].
    pose proof (repetitions_perm (_ok g)) as Hp. rewrite Hv in Hp. apply Permutation_sym, Permutation_nil in Hp.
    revert Hp. generalize (repetitions (_ok g)). intros l. induction l as [|r l IH]; [done|]. simpl.
    intros [Hr Hl]%app_eq_nil. rewrite Hr. simpl. by apply IH.
  - right. assert (x :: vals <> []) as Hvne by done.
    destruct (median_quantile (x :: vals) Hvne) as (med & Hmed & Hmq).
    pose proof Hmed as Hmed'. rewrite <- Hv in Hmed'.
    destruct (repetition_medians (_ok g) med Hmed') as (lo & hi & Hlo & Hhi & Hb).
    pose proof (quantile_mono (1 # 4) (1 # 2) _ Hvne ltac:(done)). pose proof (quantile_mono (1 # 2) (3 # 4) _ Hvne ltac:(done)).
    pose proof (quantile_mono (3 # 4) (95 # 100) _ Hvne ltac:(done)).
    pose proof (quantile_mono (95 # 100) (99 # 100) _ Hvne ltac:(done)).
    exists (quantile (1 # 4) (x :: vals)), med, (quantile (3 # 4) (x :: vals)), (quantile (95 # 100) (x :: vals)),
      (quantile (99 # 100) (x :: vals)), lo, hi.
    split_and!; try done; try (by rewrite Hmed); lra.
Qed.

(** C36: The latency table has one row per attempted cell and its numbers are
    ordered.  For any rows whatever: each configuration and level that was
    attempted has exactly one row, whose counts and error rate are the cell's;
    a cell without a successful latency has no statistics, and in every other
    the quartiles, the median and the tail percentiles are in order and the
    median over all requests lies between the smallest and the largest median
    of a repetition. *)
Theorem cell_statistics_ordered (df : list request_row) :
  NoDup (map (fun s => (pc_config s, pc_concurrency s)) (concurrency_stats df))
  /\ (forall config concurrency,
        (config, concurrency) ∈ map (fun s => (pc_config s, pc_concurrency s)) (concurrency_stats df)
        <-> exists r, r ∈ df /\ config_concurrency r = (config, concurrency))
  /\ Forall (cell_sound df) (concurrency_stats df).
Proof.
  unfold concurrency_stats. rewrite map_map.
  assert (map (fun kg => (pc_config (concurrency_cell kg), pc_concurrency (concurrency_cell kg)))
            (groupby group_le config_concurrency df)
          = map fst (groupby group_le config_concurrency df)) as ->.
  { apply map_ext. by intros [[]]. }
  split; [apply groupby_NoDup|]. split; [intros; apply groupby_elem_key|].
  apply Forall_map, Forall_forall. intros [k g] Hg. by apply concurrency_cell_sound.
Qed.
End Cells.

(** ** Failures counted at the timeout *)
Section Failures.
Open Scope Q_scope.

Definition in_level (cfg : string) (conc : Z) (r : request_row) : bool :=
  String.eqb (rq_config r) cfg && (rq_concurrency r =? conc)%Z.

Lemma total_ms_cons r l :
  total_ms (r :: l) = match dget "total_ms" (rq_metrics r) with Some (Some q) => [q] | _ => [] end ++ total_ms l.
Proof. unfold total_ms, values_of. simpl. by destruct (dget "total_ms" (rq_metrics r)) as [[q|]|]. Qed.

(** With its failures counted at the timeout a level holds its successful
    latencies and the timeout once per failure. *)
Lemma imputed_values (cfg : string) (conc : Z) df :
  Permutation (total_ms (List.filter (in_level cfg conc) (map impute df)))
    (total_ms (_ok (List.filter (in_level cfg conc) df))
     ++ replicate (length (List.filter is_err (List.filter (in_level cfg conc) df))) CLIENT_TIMEOUT_MS).
Proof.
  induction df as [|r df IH]; [done|]. cbn [map List.filter].
  assert (in_level cfg conc (impute r) = in_level cfg conc r) as -> by (unfold impute; by destruct (is_err r)).
  destruct (in_level cfg conc r); [|exact IH]. unfold _ok. cbn [List.filter].
  rewrite total_ms_cons. unfold impute at 1. destruct (is_err r); cbn [negb length replicate].
  - cbn [rq_metrics]. rewrite dget_dset_eq, IH. cbn [app]. apply Permutation_middle.
  - rewrite total_ms_cons, <- app_assoc. by rewrite IH.
Qed.

Lemma replicate_median n x : (0 < n)%nat -> exists m, np_median (replicate n x) = Some m /\ m == x.
Proof.
  intros Hn. destruct (np_median_between (replicate n x) x x) as (m & Hm & Hb).
  - by destruct n; [lia|].
  - apply Forall_replicate. split; apply Qle_refl.
  - exists m. split; [done|]. lra.
Qed.

(** Values that are at most the timeout, with more timeouts among them. *)
Lemma padded_median vals n l :
  vals <> [] -> Forall (fun x => x <= CLIENT_TIMEOUT_MS) vals ->
  Permutation l (vals ++ replicate n CLIENT_TIMEOUT_MS) ->
  exists m0 m1, np_median vals = Some m0 /\ np_median l = Some m1 /\ m0 <= m1 <= CLIENT_TIMEOUT_MS.
Proof.
  intros Hvals Hle Hperm. destruct (median_quantile _ Hvals) as (m0 & Hm0 & _).
  destruct (min_max_range _ Hvals) as (lo & hi & _ & _ & Hlo).
  destruct (np_median_between vals lo CLIENT_TIMEOUT_MS Hvals) as (m0' & Hm0' & Hb0).
  { apply Forall_and. split; [|done]. eapply Forall_impl; [exact Hlo|]. intros x Hx; apply Hx. }
  assert (m0' = m0) as -> by congruence. set (gs := [vals; replicate n CLIENT_TIMEOUT_MS]).
  assert (concat gs = vals ++ replicate n CLIENT_TIMEOUT_MS) as Hgs by (unfold gs; simpl; by rewrite app_nil_r).
  destruct (median_quantile (concat gs)) as (m & Hmc & _); [rewrite Hgs; by destruct vals|].
  rewrite <- Hgs in Hperm. destruct (median_perm _ _ _ (Permutation_sym Hperm) Hmc) as (m1 & Hm1 & Heq).
  exists m0, m1. split; [done|]. split; [done|].
  assert (forall mg, np_median (replicate n CLIENT_TIMEOUT_MS) = Some mg -> mg == CLIENT_TIMEOUT_MS) as Hrep.
  { intros mg Hmg. destruct n as [|n]; [discriminate|].
    destruct (replicate_median (S n) CLIENT_TIMEOUT_MS ltac:(lia)) as (m' & Hm' & He). congruence. }
  assert (m0 <= m).
  { apply (pooled_median_ge gs m0 m Hmc). apply Forall_cons. split; [|apply Forall_singleton].
    - intros mg Hmg. assert (mg = m0) as -> by congruence. apply Qle_refl.
    - intros mg Hmg. rewrite (Hrep mg Hmg). tauto. }
  assert (m <= CLIENT_TIMEOUT_MS).
  { apply (pooled_median_le gs CLIENT_TIMEOUT_MS m Hmc). apply Forall_cons. split; [|apply Forall_singleton].
    - intros mg Hmg. assert (mg = m0) as -> by congruence. tauto.
    - intros mg Hmg. rewrite (Hrep mg Hmg). apply Qle_refl. }
  lra.
Qed.

(** C37: Counting failures at the client's timeout never flatters a
    configuration.  For a level with rows whose successes all have a latency
    of at most the timeout: its failures split into those at the handshake and
    those at the request, none at the handshake of the unprotected server;
    with a success the median over successes is at most the median that counts
    every failure at 30 s, which is at most 30 s; without one there is no
    median, and the second is the timeout. *)
Theorem failures_never_flatter (df : list request_row) (conc : Z) (cfg : string)
    (Hrows : Exists (fun r => in_level cfg conc r = true) df)
    (Hok : Forall (fun r => in_level cfg conc r = true ->
       exists q, dget "total_ms" (rq_metrics r) = Some (Some q) /\ q <= CLIENT_TIMEOUT_MS) (_ok df)) :
  exists row, failure_cell df conc cfg = [row]
    /\ fr_failed row = (fr_at_handshake row + fr_at_request row)%Z
    /\ (0 <= fr_at_handshake row <= fr_failed row)%Z /\ (fr_failed row <= fr_n row)%Z
    /\ (cfg = "control" -> fr_at_handshake row = 0%Z)
    /\ ((fr_failed row < fr_n row)%Z ->
         exists m0 m1, fr_median row = Some m0 /\ fr_median_imputed row = Some m1
           /\ m0 <= m1 <= CLIENT_TIMEOUT_MS)
    /\ (fr_failed row = fr_n row ->
         fr_median row = None
         /\ exists m1, fr_median_imputed row = Some m1 /\ m1 == CLIENT_TIMEOUT_MS).
Proof.
  set (g := List.filter (in_level cfg conc) df).
  assert (g <> []) as Hg.
  { apply Exists_exists in Hrows as (r & Hr & Hin). intros Hn.
    assert (In r g) as H by (apply filter_In; split; [by apply list_elem_of_In|done]). by rewrite Hn in H. }
  pose proof (filter_split_length is_err g) as Hsum. change (List.filter (fun r => negb (is_err r)) g) with (_ok g) in Hsum.
  assert (Forall (fun r => exists q, dget "total_ms" (rq_metrics r) = Some (Some q) /\ q <= CLIENT_TIMEOUT_MS) (_ok g)) as Hokg.
  { rewrite Forall_forall in Hok |- *. intros r Hr%list_elem_of_In. apply filter_In in Hr as [Hr He].
    apply filter_In in Hr as [Hr Hl]. apply Hok; [|done]. apply list_elem_of_In, filter_In. by split. }
  assert (Forall measured (_ok g)) as Hm
    by (eapply Forall_impl; [exact Hokg|]; intros r (q & Hq & _); by exists q).
  assert (Forall (fun x => x <= CLIENT_TIMEOUT_MS) (total_ms (_ok g))) as Hle.
  { clear -Hokg. induction Hokg as [|r l (q & Hq & Hle) _ IH]; [constructor|].
    rewrite total_ms_cons, Hq. by constructor. }
  pose proof (imputed_values cfg conc df) as Hperm. fold g in Hperm.
  set (n_hs := if String.eqb cfg "control" then 0%Z else py_len (List.filter handshake_failed (List.filter is_err g))).
  set (ge := List.filter is_err g) in *.
  assert (0 <= n_hs <= py_len ge)%Z as Hhs.
  { unfold n_hs, py_len. destruct (String.eqb cfg "control"); [lia|].
    pose proof (filter_split_length handshake_failed ge) as H. unfold py_len in H. lia. }
  exists (mkFailureRow conc cfg (py_len g) (py_len ge) n_hs (py_len ge - n_hs)
    (np_median (total_ms (_ok g))) (np_median (total_ms (List.filter (in_level cfg conc) (map impute df))))).
  cbn. split.
  { unfold failure_cell. change (fun r => String.eqb (rq_config r) cfg && (rq_concurrency r =? conc)%Z) with (in_level cfg conc).
    fold g. fold ge. clear -Hg. by destruct g. }
  split; [lia|]. split; [exact Hhs|]. split; [unfold py_len in *; lia|]. split.
  { intros ->. done. }
  split.
  - intros Hlt. assert (_ok g <> []) as Hone by (intros Hn; rewrite Hn in Hsum; unfold py_len in *; simpl in *; lia).
    pose proof (total_ms_nonempty _ Hone Hm) as Hvals.
    by apply (padded_median _ (length ge)).
  - intros Heq. assert (_ok g = []) as Hn by (destruct (_ok g); [done|unfold py_len in *; simpl in *; lia]).
    rewrite Hn in Hperm |- *. split; [done|]. cbn [app] in Hperm.
    destruct (replicate_median (length ge) CLIENT_TIMEOUT_MS) as (m' & Hm' & He).
    { unfold py_len in Heq. destruct g; [done|]. simpl in Heq. lia. }
    destruct (median_perm _ _ _ (Permutation_sym Hperm) Hm') as (m1 & Hm1 & He1). exists m1. split; [done|].
    by rewrite He1.
Qed.
End Failures.

(** ** The effect size *)
Section Cliff.
Context {SC : Scipy} {SL : ScipyLaws SC}.
Open Scope Q_scope.

(** Which of two requests is the slower one. *)
Definition slower (a b : Q) : Z := if Qltb b a then 1 else if Qltb a b then -1 else 0.
Definition slower_sum (x y : list Q) : Z := Zsum (map (fun a => Zsum (map (slower a) y)) x).

Lemma slower_sym a b : slower b a = (- slower a b)%Z.
Proof.
  unfold slower. destruct (Qltb a b) eqn:H1, (Qltb b a) eqn:H2; try done.
  apply Qltb_lt in H1. apply Qltb_lt in H2. lra.
Qed.
Lemma slower_bound a b : (-1 <= slower a b <= 1)%Z.
Proof. unfold slower. destruct (Qltb b a), (Qltb a b); lia. Qed.
Lemma beats_slower a b : 2 * beats a b == 1 + inject_Z (slower a b).
Proof. unfold beats, slower. destruct (Qltb b a); [reflexivity|]. by destruct (Qltb a b). Qed.

Lemma Zsum_bound l k : Forall (fun z => (- k <= z <= k)%Z) l -> (- (k * py_len l) <= Zsum l <= k * py_len l)%Z.
Proof.
  unfold py_len. induction 1 as [|z l Hz _ IH]; [unfold Zsum; simpl; lia|]. rewrite Zsum_cons. simpl length. lia.
Qed.
Lemma slower_sum_bound x y : (Z.abs (slower_sum x y) <= py_len x * py_len y)%Z.
Proof.
  unfold slower_sum. pose proof (Zsum_bound (map (fun a => Zsum (map (slower a) y)) x) (py_len y)) as H.
  rewrite py_len_map in H. enough (Forall (fun z => (- py_len y <= z <= py_len y)%Z)
    (map (fun a => Zsum (map (slower a) y)) x)) by (specialize (H ltac:(done)); lia).
  apply Forall_map, Forall_forall. intros a _. pose proof (Zsum_bound (map (slower a) y) 1) as H1.
  rewrite py_len_map in H1. assert (Forall (fun z => (-(1) <= z <= 1)%Z) (map (slower a) y)) as Hf.
  { apply Forall_map, Forall_forall. intros b _. pose proof (slower_bound a b). lia. }
  specialize (H1 Hf). lia.
Qed.

Lemma Zsum_opp l : Zsum (map Z.opp l) = (- Zsum l)%Z.
Proof. induction l as [|z l IH]; [done|]. simpl map. rewrite !Zsum_cons, IH. lia. Qed.
Lemma Zsum_add {A} (f g : A -> Z) l :
  Zsum (map (fun a => f a + g a)%Z l) = (Zsum (map f l) + Zsum (map g l))%Z.
Proof. induction l as [|a l IH]; [done|]. simpl map. rewrite !Zsum_cons, IH. lia. Qed.
Lemma slower_sum_sym x y : slower_sum y x = (- slower_sum x y)%Z.
Proof.
  unfold slower_sum. induction y as [|b y IH].
  - assert (Zsum (map (fun a => Zsum (map (slower a) [])) x) = 0%Z) as ->; [|done].
    induction x as [|a x IHx]; [done|]. simpl map. rewrite Zsum_cons. exact IHx.
  - simpl map at 1. rewrite Zsum_cons, IH.
    rewrite (map_ext (fun a => Zsum (map (slower a) (b :: y))) (fun a => slower a b + Zsum (map (slower a) y))%Z)
      by (intros a; simpl map; apply Zsum_cons).
    rewrite Zsum_add.
    assert (Zsum (map (slower b) x) = - Zsum (map (fun a => slower a b) x))%Z as ->; [|lia].
    rewrite <- Zsum_opp, map_map. f_equal. apply map_ext. intros a. apply slower_sym.
Qed.

Lemma Qsum_beats a y :
  2 * Qsum (map (beats a) y) == inject_Z (py_len y) + inject_Z (Zsum (map (slower a) y)).
Proof.
  unfold py_len. induction y as [|b y IH]; [reflexivity|]. simpl map.
  rewrite Qsum_cons, Zsum_cons, Qmult_plus_distr_r, IH, beats_slower. simpl length.
  rewrite Nat2Z.inj_succ, <- Z.add_1_l, !inject_Z_plus. ring.
Qed.
Lemma U_slower x y :
  2 * U_statistic x y == inject_Z (py_len x) * inject_Z (py_len y) + inject_Z (slower_sum x y).
Proof.
  unfold U_statistic, slower_sum. unfold py_len at 1. induction x as [|a x IH]; [simpl; ring_simplify; reflexivity|].
  simpl map. rewrite Qsum_cons, Zsum_cons, Qmult_plus_distr_r, IH, Qsum_beats. simpl length.
  rewrite Nat2Z.inj_succ, <- Z.add_1_l, !inject_Z_plus. ring.
Qed.

(** Cliff's delta as computed is the share of pairs where the first
    configuration is slower minus the share where it is faster.  For two
    samples with requests and the documented U statistic it is a number
    between -1 and 1, and exchanging the samples changes its sign. *)
Theorem cliffs_delta_counts_pairs (x y : list Q) (Hx : x <> []) (Hy : y <> []) :
  exists d d', _cliffs_delta x y = Some d /\ _cliffs_delta y x = Some d'
    /\ d == inject_Z (slower_sum x y) / (inject_Z (py_len x) * inject_Z (py_len y))
    /\ -(1) <= d <= 1 /\ d' == - d.
Proof.
  unfold _cliffs_delta. destruct (statistic_U x y Hx Hy) as (u & -> & Hu).
  destruct (statistic_U y x Hy Hx) as (u' & -> & Hu').
  set (nx := py_len x). set (ny := py_len y).
  assert (0 < nx)%Z as Hnx by (unfold nx, py_len; destruct x; [done|simpl; lia]).
  assert (0 < ny)%Z as Hny by (unfold ny, py_len; destruct y; [done|simpl; lia]).
  assert (0 < inject_Z nx) as Hqx by (change 0 with (inject_Z 0); by rewrite <- Zlt_Qlt).
  assert (0 < inject_Z ny) as Hqy by (change 0 with (inject_Z 0); by rewrite <- Zlt_Qlt).
  pose proof (slower_sum_bound x y) as Hb. fold nx ny in Hb.
  pose proof (U_slower x y) as Hs. pose proof (U_slower y x) as Hs'. rewrite slower_sum_sym, inject_Z_opp in Hs'.
  rewrite <- Hu in Hs. rewrite <- Hu' in Hs'. fold nx ny in Hs, Hs'.
  set (S := inject_Z (slower_sum x y)) in *.
  assert (2 * u / (inject_Z nx * inject_Z ny) - 1 == S / (inject_Z nx * inject_Z ny)) as Hd.
  { rewrite Hs. field. split; lra. }
  eexists _, _. split; [reflexivity|]. split; [reflexivity|]. split; [exact Hd|].
  assert (0 < inject_Z nx * inject_Z ny) as Hn by (by apply Qmult_lt_0_compat). split.
  - rewrite Hd. assert (- (inject_Z nx * inject_Z ny) <= S <= inject_Z nx * inject_Z ny) as [H1 H2].
    { unfold S. rewrite <- inject_Z_mult, <- inject_Z_opp, <- !Zle_Qle. lia. }
    split; [apply Qle_shift_div_l; [done|lra]|apply Qle_shift_div_r; [done|lra]].
  - rewrite Hd, Hs'. field. split; lra.
Qed.
End Cliff.

(** ** The rows the tables are computed from *)
Section Runs.

Lemma fold_str_max l x :
  let m := fold_left (fun m y => if String.leb m y then y else m) l x in
  (m = x \/ m ∈ l) /\ str_le x m /\ Forall (fun y => str_le y m) l.
Proof.
  revert x; induction l as [|y l IH]; intros x; simpl.
  { split; [by left|]. split; [|constructor]. by destruct (total str_le x x). }
  set (x' := if String.leb x y then y else x).
  assert (str_le x x' /\ str_le y x') as [Hx Hy].
  { unfold x'. destruct (String.leb x y) eqn:E; [split; [done|by destruct (total str_le y y)]|].
    split; [by destruct (total str_le x x)|]. destruct (total str_le x y) as [H|H]; [unfold str_le in H; congruence|done]. }
  destruct (IH x') as (Hin & Hle & Hall). split.
  - destruct Hin as [->|Hin]; [|right; by right]. unfold x'. destruct (String.leb x y); [right; left|by left].
  - split; [by trans x'|]. constructor; [by trans x'|done].
Qed.
Lemma str_max_spec l m : str_max l = Some m -> m ∈ l /\ Forall (fun y => str_le y m) l.
Proof.
  destruct l as [|x l]; [done|]. intros [= <-]. destruct (fold_str_max l x) as (Hin & Hle & Hall).
  split; [|by constructor]. destruct Hin as [->|Hin]; [left|by right].
Qed.

Lemma latest_run_le key rows k m r s :
  latest_run key rows k = Some m -> r ∈ rows -> key r = k -> run_of r = Some s -> str_le s m.
Proof.
  unfold latest_run. intros [_ Hall]%str_max_spec Hr Hk Hs. rewrite Forall_forall in Hall. apply Hall.
  apply list_elem_of_omap. exists r. split; [|done]. apply list_elem_of_In, filter_In.
  split; [by apply list_elem_of_In|]. by apply String.eqb_eq.
Qed.

(** The same configuration under the same settings, a missing one being the
    default. *)
Definition same_setting (p p' : paper_row) : Prop :=
  rq_config (pp_row p) = rq_config (pp_row p')
  /\ default "tabular_small" (pp_payload p) = default "tabular_small" (pp_payload p')
  /\ default "localhost" (pp_network p) = default "localhost" (pp_network p')
  /\ default 1 (pp_per_handshake p) = default 1 (pp_per_handshake p').

Lemma same_setting_key t p p' :
  same_setting p p' -> setting_key t (fill_defaults t p) = setting_key t (fill_defaults t p').
Proof.
  intros (Hc & Hp & Hn & Hh). unfold setting_key, SETTING_COLUMNS. cbn [fill_defaults pp_row].
  rewrite Hc. do 2 f_equal. cbn [List.filter].
  destruct (has_column t "payload_profile") eqn:E1, (has_column t "network_profile") eqn:E2,
    (has_column t "requests_per_handshake") eqn:E3;
    cbn [map]; unfold setting_str, fill_defaults; cbn [String.eqb Ascii.eqb Bool.eqb pp_payload pp_network pp_per_handshake];
    by rewrite ?E1, ?E2, ?E3, ?Hp, ?Hn, ?Hh.
Qed.

(** A row kept when superseded runs are dropped is of the last run of its
    setting. *)
Lemma latest_run_rows t r :
  has_column t "run_id" = true -> Forall (fun p => is_Some (run_of p)) (tb_rows t) ->
  r ∈ tb_rows (_latest_run_per_cell t) ->
  exists p s, p ∈ tb_rows t /\ pp_row p = pp_row r /\ run_of p = Some s
    /\ forall p' s', p' ∈ tb_rows t -> same_setting p p' -> run_of p' = Some s' -> str_le s' s.
Proof.
  intros Hcol Hruns Hr. unfold _latest_run_per_cell in Hr. rewrite Hcol in Hr. cbn [negb orb] in Hr.
  destruct (forallb _ (tb_rows t)) eqn:Hall.
  { exfalso. rewrite forallb_forall in Hall. rewrite Forall_forall in Hruns.
    specialize (Hall r (proj1 (list_elem_of_In _ _) Hr)). apply negb_true_iff, bool_decide_eq_false in Hall.
    by apply Hall, Hruns. }
  cbn [tb_rows] in Hr. apply list_elem_of_In, filter_In in Hr as [Hr [Hs Hl]%andb_true_iff].
  apply in_map_iff in Hr as (p & <- & Hp). apply bool_decide_eq_true in Hs as [s Hs].
  apply bool_decide_eq_true in Hl. rewrite Hs in Hl. exists p, s. split; [by apply list_elem_of_In|].
  split; [done|]. split; [exact Hs|]. intros p' s' Hp' Hsame Hs'.
  apply (latest_run_le _ _ _ _ (fill_defaults t p') s' Hl); [|by rewrite (same_setting_key t p p')|done].
  apply list_elem_of_In, in_map. by apply list_elem_of_In.
Qed.

(** Some row is kept when there is a row. *)
Lemma latest_run_kept t p s :
  has_column t "run_id" = true -> p ∈ tb_rows t -> run_of p = Some s -> tb_rows (_latest_run_per_cell t) <> [].
Proof.
  intros Hcol Hp Hs. unfold _latest_run_per_cell. rewrite Hcol. cbn [negb orb].
  destruct (forallb _ (tb_rows t)) eqn:Hall; [intros Hn; rewrite Hn in Hp; by apply elem_of_nil in Hp|].
  cbn [tb_rows]. set (rows := map (fill_defaults t) (tb_rows t)).
  assert (fill_defaults t p ∈ rows) as Hpr by (apply list_elem_of_In, in_map; by apply list_elem_of_In).
  set (k := setting_key t (fill_defaults t p)).
  set (group := List.filter (fun r => String.eqb (setting_key t r) k) rows).
  assert (fill_defaults t p ∈ group) as Hpg.
  { apply list_elem_of_In, filter_In. split; [by apply list_elem_of_In|apply String.eqb_refl]. }
  assert (s ∈ omap run_of group) as Hsg by (apply list_elem_of_omap; by exists (fill_defaults t p)).
  destruct (str_max (omap run_of group)) as [m|] eqn:Hm; [|destruct (omap run_of group); [by apply elem_of_nil in Hsg|done]].
  destruct (str_max_spec _ _ Hm) as [Hin _]. apply list_elem_of_omap in Hin as (r & Hr & Hrun).
  apply list_elem_of_In, filter_In in Hr as [Hr Hk%String.eqb_eq]. intros Hn.
  assert (In r []) as []. rewrite <- Hn. apply filter_In. split; [done|].
  rewrite Hrun, bool_decide_eq_true_2 by done. simpl. apply bool_decide_eq_true. rewrite Hk. exact Hm.
Qed.

Lemma forallb_false_exists {A} (f : A -> bool) l : forallb f l = false -> exists x, In x l /\ f x = false.
Proof.
  induction l as [|x l IH]; [done|]. simpl. destruct (f x) eqn:E; [|exists x; by split; [left|]].
  intros (y & Hy & Hf)%IH. exists y. split; [by right|done].
Qed.

Lemma discard_warmup_sub df f r : r ∈ discard_warmup df f -> r ∈ df.
Proof.
  unfold discard_warmup. intros Hr. apply list_elem_of_In.
  apply (Permutation_in _ (sort_by_perm row_key_le row_key df)). revert Hr.
  generalize (sort_by row_key_le row_key df) at 2 3. intros l. generalize (@nil request_row).
  induction l as [|x l IH]; intros before; cbn [keep_rows]; [by intros ?%elem_of_nil|].
  destruct (_ <=? _); [intros [->|H]%elem_of_cons|intros H]; [by left|right; by eapply IH|right; by eapply IH].
Qed.

Lemma in_runs_spec ids p : in_runs ids p = true <-> exists s, run_of p = Some s /\ s ∈ ids.
Proof.
  unfold in_runs. destruct (run_of p) as [s|]; [|split; [done|by intros (? & ? & _)]].
  rewrite existsb_exists. split.
  - intros (x & Hx & ->%String.eqb_eq). exists x. split; [done|by apply list_elem_of_In].
  - intros (x & [= <-] & Hx). exists s. split; [by apply list_elem_of_In|apply String.eqb_refl].
Qed.

(** C35: A corrective re-run supersedes what it repeats.  Given run ids, the
    concurrency tables come from rows of those runs only, and from no row for
    which one of them has a later run of the same configuration under the same
    settings; nor from a cell whose every request was answered 404.  Loading
    fails exactly with [KeyError] on data that predates run ids, and by
    [SystemExit] when no row belongs to a named run. *)
Theorem load_concurrency_latest (raw : table) (id : string) (ids : list string) (warmup : Q) :
  match load_concurrency raw (id :: ids) warmup with
  | Ok (rows, provisional, _) => provisional = false
      /\ Forall (fun r => exists p s, p ∈ tb_rows raw /\ pp_row p = r /\ run_of p = Some s /\ s ∈ id :: ids
           /\ (forall p' s', p' ∈ tb_rows raw -> same_setting p p' -> run_of p' = Some s' -> s' ∈ id :: ids ->
                 str_le s' s)
           /\ exists p', p' ∈ tb_rows raw /\ cell_404 (pp_row p') = cell_404 r /\ is_404 (pp_row p') = false) rows
  | Raise e => (e = KeyError "run_id" /\ has_column raw "run_id" = false)
      \/ (e = SystemExit "No concurrency rows selected."
          /\ forall p s, p ∈ tb_rows raw -> run_of p = Some s -> s ∉ id :: ids)
  end.
Proof.
  unfold load_concurrency. destruct (has_column raw "run_id") eqn:Hcol; [|by left].
  cbn [rbind]. set (sel := mkTable (tb_columns raw) (List.filter (in_runs (id :: ids)) (tb_rows raw))).
  assert (forall p, p ∈ tb_rows sel <-> p ∈ tb_rows raw /\ exists s, run_of p = Some s /\ s ∈ id :: ids) as Hsel.
  { intros p. unfold sel. cbn [tb_rows]. rewrite !list_elem_of_In, filter_In, in_runs_spec. done. }
  assert (Forall (fun p => is_Some (run_of p)) (tb_rows sel)) as Hruns.
  { apply Forall_forall. intros p (_ & s & Hs & _)%Hsel. by exists s. }
  assert (has_column sel "run_id" = true) as Hcs by done.
  destruct (tb_rows (_latest_run_per_cell sel)) as [|k0 kept0] eqn:Hkept.
  - right. split; [done|]. intros p s Hp Hs Hin.
    assert (p ∈ tb_rows sel) as Hps by (apply Hsel; split; [done|by exists s]).
    by apply (latest_run_kept sel p s Hcs Hps Hs).
  - split; [done|]. rewrite <- Hkept. clear k0 kept0 Hkept. apply Forall_forall. intros r Hr%discard_warmup_sub.
    unfold drop_all_404 in Hr. apply list_elem_of_In, filter_In in Hr as [Hr H404].
    apply in_map_iff in Hr as (q & <- & Hq).
    destruct (latest_run_rows sel q Hcs Hruns ltac:(by apply list_elem_of_In)) as (p & s & Hp & Hpq & Hs & Hlast).
    apply Hsel in Hp as (Hpraw & s' & Hs' & Hin). assert (s' = s) as -> by congruence.
    exists p, s. split_and!; try done.
    + intros p' s' Hp' Hsame Hrun Hmem. apply (Hlast p' s'); [|done|done]. apply Hsel. split; [done|by exists s'].
    + apply negb_true_iff in H404. destruct (forallb_false_exists _ _ H404) as (x & Hx & Hx404).
      apply filter_In in Hx as [Hx Hc]. apply in_map_iff in Hx as (q' & <- & Hq'). apply bool_decide_eq_true in Hc.
      destruct (latest_run_rows sel q' Hcs Hruns ltac:(by apply list_elem_of_In)) as (p' & s1 & Hp' & Hpq' & _).
      exists p'. rewrite Hpq'. split; [by apply Hsel in Hp' as [? _]|]. by split.
Qed.
End Runs.
