(* ===== verification/Dominance.v ===== *)
(** * The decision summary without weights ([analysis/paper_figures.py])

    [dominance_frame]: which configuration dominates which, by the security
    properties of the constructions, the latency at ten connections and the
    bytes of a workload. *)
From stdpp Require Import sorting.
From Stdlib Require Import Lqa.
From S2P Require Import Prelude PyBytes PyVal PyList PyNum Instrumentation Aggregate PaperStats PaperStatsProps PaperCells.

Definition SEC_AXES : list (string * list (string * Z)) :=
  [("KEX vs.\ CRQC", [("classical", 0); ("classical_ecdhe", 0); ("hybrid", 1); ("hybrid_kex", 1);
      ("full_pqc", 1); ("hybrid_kex_pq", 1)]);
   ("KEX if ML-KEM breaks", [("classical", 1); ("classical_ecdhe", 1); ("hybrid", 0); ("hybrid_kex", 1);
      ("full_pqc", 0); ("hybrid_kex_pq", 1)]);
   ("Sig.\ vs.\ CRQC", [("classical", 0); ("classical_ecdhe", 0); ("hybrid", 0); ("hybrid_kex", 0);
      ("full_pqc", 1); ("hybrid_kex_pq", 1)])].

(** What [threats.hndl_capture] writes of a configuration, and a row of the
    streaming sweep. *)
Record hndl_summary := mkHndlSummary {
  hs_config : string; hs_kex_bytes : Q; hs_signature_bytes : Q }.
Record stream_row := mkStreamRow {
  sr_config : string; sr_strategy : string; sr_max_tokens : Z; sr_signature_bytes : float }.

(** [a <= b] and [a < b] of floats: false with a NaN. *)
Definition fle (a b : float) : bool := match a, b with Some x, Some y => Qle_bool x y | _, _ => false end.
Definition flt (a b : float) : bool := match a, b with Some x, Some y => Qltb x y | _, _ => false end.

Section Frame.
Context {G : Type} {GEN : Generator G} {SC : Scipy}.

Definition is_pair (a b : string) (conc : Z) (r : comparison) : bool :=
  (cm_concurrency r =? conc)
  && ((String.eqb (cm_config r) a && String.eqb (cm_reference r) b)
      || (String.eqb (cm_config r) b && String.eqb (cm_reference r) a)).

(** Whether [a] is not worse than [b], and whether it is better.  A table of
    no comparisons has no columns. *)
Definition lat_not_worse (pw : list comparison) (a b : string) (conc : Z) : result (bool * bool) :=
  match pw with
  | [] => Raise (KeyError "concurrency")
  | _ =>
      match find (is_pair a b conc) pw with
      | None => Ok (true, false)
      | Some r =>
          let '(hi, ref) :=
            if String.eqb (cm_config r) a then (cm_ci90_hi r, cm_ref_median r)
            else (fneg (cm_ci90_lo r), fadd (cm_ref_median r) (cm_diff_ms r)) in
          let pct := ndiv (fscale 100 hi) ref in
          Ok (nlt pct EQUIV_MARGIN_PCT, nlt pct (- EQUIV_MARGIN_PCT)%Q)
      end
  end.

Definition axis (ax : list (string * Z)) (c : string) : result Z := getitem c ax.

(** The security of [a] against that of [b]: at least, and more somewhere. *)
Definition sec_compare (a b : string) : result (bool * bool) :=
  let? axes := rmap (fun ax => let? x := axis (snd ax) a in let? y := axis (snd ax) b in Ok (x, y)) SEC_AXES in
  Ok (forallb (fun '(x, y) => y <=? x) axes, existsb (fun '(x, y) => y <? x) axes).

Abbreviation byte_map := (list (string * float)).

Definition dominates (pw : list comparison) (levels : list Z) (a b : string) (bytes : byte_map) : result bool :=
  let? sec := sec_compare a b in
  let '(sec_ge, sec_gt) := sec in
  let? lat := rmap (lat_not_worse pw a b) levels in
  let lat_ok := forallb fst lat in
  let lat_better := existsb snd lat in
  let '(by_ok, by_better) :=
    match dget a bytes, dget b bytes with
    | Some x, Some y => (fle x y, flt x y)
    | _, _ => (true, false)
    end in
  Ok (sec_ge && lat_ok && by_ok && (sec_gt || lat_better || by_better)).

(** Key-establishment blob and one signature of a transaction. *)
Definition hs_bytes_of (present : list string) (summaries : list hndl_summary) : byte_map :=
  let hndl := fold_left (fun d s => dset (hs_config s) (hs_kex_bytes s + hs_signature_bytes s)%Q d) summaries [] in
  omap (fun c => option_map (fun n => (c, Some n)) (dget c hndl)) present.

(** The signatures of the longest per-chunk streams, and their handshake. *)
Definition pc_bytes_of (present : list string) (hs_bytes : byte_map) (sdf : list stream_row) : byte_map :=
  match map sr_max_tokens sdf with
  | [] => []
  | n :: ns =>
      let n_max := Zmaximum n ns in
      omap (fun c =>
        match List.filter (fun r => String.eqb (sr_config r) c && String.eqb (sr_strategy r) "per_chunk"
                                    && (sr_max_tokens r =? n_max)) sdf with
        | [] => None
        | v => Some (c, fadd (np_median (omap sr_signature_bytes v)) (dget_or c (Some 0%Q) hs_bytes))
        end) present
  end.

(** [pairs]: every two configurations once. *)
Fixpoint unordered_pairs (l : list string) : list (string * string) :=
  match l with
  | [] => []
  | a :: r => map (pair a) r ++ unordered_pairs r
  end.

(** The others that dominate each configuration. *)
Definition dominated_by (pw : list comparison) (levels : list Z) (present : list string) (bytes : byte_map)
    : result (list (string * list string)) :=
  rmap (fun c =>
    let? os := rfilter (fun o => if String.eqb o c then Ok false else dominates pw levels o c bytes) present in
    Ok (c, os)) present.

Record dominance := mkDominance {
  dm_present : list string; dm_levels : list Z; dm_overhead : list comparison; dm_pairwise : list comparison;
  dm_hs_bytes : byte_map; dm_pc_bytes : byte_map;
  dm_api : list (string * list string); dm_per_chunk : list (string * list string) }.

Definition dominance_frame (df : list request_row) (sdf : list stream_row) (summaries : list hndl_summary)
    : result dominance :=
  let configs := map rq_config df in
  let present := List.filter (fun c => existsb (String.eqb c) configs) PROTECTED in
  let levels := List.filter (fun c => existsb (Z.eqb c) (map rq_concurrency df)) [10] in
  let at_levels := List.filter (fun r => existsb (Z.eqb (rq_concurrency r)) levels) df in
  let? pw := comparison_stats at_levels (unordered_pairs present) 13 in
  let? ov := if existsb (String.eqb "control_2rt") configs
             then comparison_stats at_levels (map (fun c => (c, "control_2rt")) present) 17
             else Ok [] in
  let hs_bytes := hs_bytes_of present summaries in
  let pc_bytes := pc_bytes_of present hs_bytes sdf in
  let pw := map fst pw in
  let? api := dominated_by pw levels present hs_bytes in
  let? per_chunk := dominated_by pw levels present pc_bytes in
  Ok (mkDominance present levels (map fst ov) pw hs_bytes pc_bytes api per_chunk).
End Frame.

(** ** What dominance means *)

(** The configurations whose construction allows them to dominate one. *)
Definition stronger (c : string) : list string :=
  List.filter (fun o => negb (String.eqb o c)
    && match sec_compare o c with Ok (true, _) => true | _ => false end) PROTECTED.

Lemma protected_cases (P : string -> Prop) :
  Forall P PROTECTED -> forall c, c ∈ PROTECTED -> P c.
Proof. intros H c Hc. apply (proj1 (List.Forall_forall _ _) H). by apply list_elem_of_In. Qed.

Lemma sec_compare_total a b : a ∈ PROTECTED -> b ∈ PROTECTED -> exists ge gt, sec_compare a b = Ok (ge, gt).
Proof.
  intros Ha. revert b. apply protected_cases. revert a Ha. apply protected_cases.
  repeat constructor; eexists _, _; reflexivity.
Qed.
(** No configuration is above one that is at least as secure. *)
Lemma sec_compare_asym a b gt gt' :
  a ∈ PROTECTED -> b ∈ PROTECTED -> sec_compare a b = Ok (true, gt) -> sec_compare b a = Ok (true, gt') ->
  gt = false.
Proof.
  set (P := fun a b => forall gt gt', sec_compare a b = Ok (true, gt) -> sec_compare b a = Ok (true, gt') -> gt = false).
  assert (Forall (fun a => Forall (P a) PROTECTED) PROTECTED) as H.
  { repeat constructor; intros gt1 gt2; vm_compute; congruence. }
  intros Ha Hb. exact (protected_cases _ (protected_cases _ H a Ha) b Hb gt gt').
Qed.

Section Props.
Context {G : Type} {GEN : Generator G} {GL : GeneratorLaws GEN} {SC : Scipy} {SL : ScipyLaws SC}.

Lemma rfilter_sub {A} (f : A -> result bool) l bs :
  rfilter f l = Ok bs -> forall x, x ∈ bs <-> x ∈ l /\ f x = Ok true.
Proof.
  revert bs; induction l as [|y l IH]; intros bs H; cbn [rfilter] in H.
  { injection H as <-. intros x. split; [intros ?%elem_of_nil|intros [?%elem_of_nil _]]; done. }
  destruct (f y) as [b|] eqn:Hf; [|done]. cbn [rbind] in H. destruct (rfilter f l) as [bs'|]; [|done].
  specialize (IH bs' eq_refl). injection H as <-. intros x. destruct b; rewrite ?elem_of_cons, IH.
  - split; [intros [->|[? ?]]; split; auto|intros [[->|?] ?]; auto].
  - split; [intros [? ?]; split; auto|intros [[->|?] ?]; [congruence|auto]].
Qed.

(** The entry of a configuration in a decision column. *)
Lemma dominated_by_entries pw levels present bytes w :
  dominated_by pw levels present bytes = Ok w ->
  map fst w = present
  /\ forall c os, (c, os) ∈ w -> forall o, o ∈ os <-> o ∈ present /\ o <> c /\ dominates pw levels o c bytes = Ok true.
Proof.
  unfold dominated_by. intros H%rmap_Ok. revert H. 
  set (f := fun c => rfilter (fun o => if String.eqb o c then Ok false else dominates pw levels o c bytes) present).
  assert (forall c os, f c = Ok os ->
    forall o, o ∈ os <-> o ∈ present /\ o <> c /\ dominates pw levels o c bytes = Ok true) as Hspec.
  { intros c os Hf o. rewrite (rfilter_sub _ _ _ Hf o). destruct (String.eqb o c) eqn:He.
    - apply String.eqb_eq in He as ->. split; [by intros [_ ?]|by intros (_ & ? & _)].
    - apply String.eqb_neq in He. tauto. }
  assert (forall todo w, Forall2 (fun c e => (let? os := f c in Ok (c, os)) = Ok e) todo w ->
    map fst w = todo /\ forall c os, (c, os) ∈ w -> f c = Ok os) as Haux.
  { clear. clearbody f. intros todo w. induction 1 as [|c e todo w Hc _ [IH1 IH2]].
    { split; [done|]. by intros c os ?%elem_of_nil. }
    destruct (f c) as [os|] eqn:Hf; [|done]. injection Hc as <-. simpl. rewrite IH1. split; [done|].
    intros c' os' [[= -> ->]|Hin]%elem_of_cons; [done|by apply IH2]. }
  intros [H1 H2]%Haux. split; [exact H1|]. intros c os Hin. by apply Hspec, H2.
Qed.

Definition bytes_le (bytes : list (string * float)) (a b : string) : bool :=
  match dget a bytes, dget b bytes with Some x, Some y => fle x y | _, _ => true end.
Definition bytes_lt (bytes : list (string * float)) (a b : string) : bool :=
  match dget a bytes, dget b bytes with Some x, Some y => flt x y | _, _ => false end.

(** What dominating takes. *)
Lemma dominates_parts pw levels a b bytes :
  dominates pw levels a b bytes = Ok true ->
  exists gt lat, sec_compare a b = Ok (true, gt) /\ rmap (lat_not_worse pw a b) levels = Ok lat
    /\ bytes_le bytes a b = true /\ (gt || existsb snd lat || bytes_lt bytes a b) = true.
Proof.
  unfold dominates. destruct (sec_compare a b) as [[ge gt]|]; [|done]. cbn [rbind].
  destruct (rmap _ levels) as [lat|]; [|done]. cbn [rbind]. cbv zeta. intros H. exists gt, lat.
  unfold bytes_le, bytes_lt.
  destruct (dget a bytes), (dget b bytes); injection H as H; apply andb_true_iff in H as [H H4];
    apply andb_true_iff in H as [H H3]; apply andb_true_iff in H as [-> _]; by rewrite H4.
Qed.

Lemma dominates_stronger pw levels o c bytes :
  o ∈ PROTECTED -> o <> c -> dominates pw levels o c bytes = Ok true -> o ∈ stronger c.
Proof.
  intros Ho Hne (gt & lat & Hs & _)%dominates_parts. apply list_elem_of_In, filter_In.
  split; [by apply list_elem_of_In|]. by rewrite Hs, (proj2 (String.eqb_neq _ _) Hne).
Qed.

Lemma present_protected df c :
  c ∈ List.filter (fun c => existsb (String.eqb c) (map rq_config df)) PROTECTED -> c ∈ PROTECTED.
Proof. intros [H _]%list_elem_of_In%filter_In. by apply list_elem_of_In. Qed.

(** Security alone decides who can dominate whom. *)
Example stronger_than :
  map (fun c => (c, stronger c)) PROTECTED
  = [("classical", ["classical_ecdhe"; "hybrid_kex"; "hybrid_kex_pq"]);
     ("classical_ecdhe", ["classical"; "hybrid_kex"; "hybrid_kex_pq"]);
     ("hybrid", ["hybrid_kex"; "full_pqc"; "hybrid_kex_pq"]);
     ("hybrid_kex", ["hybrid_kex_pq"]); ("full_pqc", ["hybrid_kex_pq"]); ("hybrid_kex_pq", [])].
Proof. reflexivity. Qed.

(** *** Latency *)
Open Scope Q_scope.

(** A row compares positive medians within an ordered interval. *)
Definition latency_row (r : comparison) : Prop :=
  exists lo hi ref d, cm_ci90_lo r = Some lo /\ cm_ci90_hi r = Some hi /\ lo <= hi
    /\ cm_ref_median r = Some ref /\ 0 < ref /\ cm_diff_ms r = Some d /\ 0 < ref + d.

Lemma is_pair_sym a b conc r : is_pair a b conc r = is_pair b a conc r.
Proof. unfold is_pair. by rewrite orb_comm. Qed.

Lemma better_negative hi ref : 0 < ref -> nlt (ndiv (fscale 100 (Some hi)) (Some ref)) (- EQUIV_MARGIN_PCT) = true -> hi < 0.
Proof.
  intros Hr. unfold ndiv, fscale, nlt. cbn [option_map].
  destruct (Qeq_bool ref 0) eqn:E; [apply Qeq_bool_iff in E; lra|]. intros H%Qltb_lt. unfold EQUIV_MARGIN_PCT in H.
  apply Qnot_le_lt. intros Hhi. assert (0 <= 100 * hi / ref); [|lra]. apply Qle_shift_div_l; [done|lra].
Qed.

(** No configuration is better than one that is better than it. *)
Lemma better_asym pw a b conc ok ok' :
  Forall latency_row pw -> a <> b ->
  lat_not_worse pw a b conc = Ok (ok, true) -> lat_not_worse pw b a conc = Ok (ok', true) -> False.
Proof.
  intros Hpw Hne. unfold lat_not_worse. destruct pw as [|r0 pw0]; [done|]. set (pw := r0 :: pw0) in *.
  assert (find (is_pair b a conc) pw = find (is_pair a b conc) pw) as ->.
  { clear. induction pw as [|r pw IH]; [done|]. simpl. by rewrite is_pair_sym, IH. }
  destruct (find (is_pair a b conc) pw) as [r|] eqn:Hf; [|done]. apply find_some in Hf as [Hin Hp].
  apply (proj1 (List.Forall_forall _ _) Hpw) in Hin as (lo & hi & ref & d & Hlo & Hhi & Hle & Href & Hr0 & Hd & Hrd).
  unfold is_pair in Hp. apply andb_true_iff in Hp as [_ Hp]. rewrite Hlo, Hhi, Href, Hd.
  assert (forall x y, String.eqb (cm_config r) x = true -> x <> y -> String.eqb (cm_config r) y = false) as Hother.
  { intros x y ->%String.eqb_eq Hxy. by apply String.eqb_neq. }
  cbv zeta. apply orb_true_iff in Hp as [[H1 _]%andb_true_iff|[H1 _]%andb_true_iff]; rewrite H1, (Hother _ _ H1) by done;
    intros [= _ Hx%better_negative] [= _ Hy%better_negative]; try done; cbn in *; lra.
Qed.

Lemma values_positive ok cfg conc :
  Forall (fun x => 0 < x) (total_ms ok) -> Forall (fun x => 0 < x) (concat (_rep_arrays ok cfg conc)).
Proof.
  intros H. apply List.Forall_forall. intros x (a & Ha & Hx)%in_concat.
  apply in_map_iff in Ha as ([k g] & <- & Hin%list_elem_of_In). apply groupby_elem in Hin as [-> _].
  apply (proj1 (List.Forall_forall _ _) H). cbn [snd] in Hx. unfold total_ms, values_of in *.
  apply list_elem_of_In, list_elem_of_omap in Hx as (r & Hr & Hq). apply list_elem_of_In, list_elem_of_omap.
  exists r. split; [|done]. apply list_elem_of_In in Hr. apply filter_In in Hr as [Hr _]. apply filter_In in Hr as [Hr _].
  by apply list_elem_of_In.
Qed.

Lemma median_positive l m : Forall (fun x => 0 < x) l -> np_median l = Some m -> 0 < m.
Proof.
  intros Hl Hm. assert (l <> []) as Hne by (intros ->; discriminate).
  destruct (median_middles l Hne) as (a & b & m' & Ha & Hb & Hm' & Hs). assert (m' = m) as -> by congruence.
  assert (forall k x, Qsorted l !! k = Some x -> 0 < x) as Hpos.
  { intros k x Hx%list_elem_of_lookup_2. apply (proj1 (List.Forall_forall _ _) Hl).
    apply (Permutation_in _ (Qsorted_perm l)). by apply list_elem_of_In. }
  pose proof (Hpos _ _ Ha). pose proof (Hpos _ _ Hb). lra.
Qed.

Lemma sound_latency ok r :
  Forall (fun x => 0 < x) (total_ms ok) -> sound_row ok r -> latency_row r.
Proof.
  intros Hpos (_ & _ & (lo95 & lo & hi & hi95 & _ & Hlo & Hhi & _ & [_ Hle] & _) & Href & Hdiff & (d & Hd & _) & _).
  rewrite Hd in Hdiff. destruct (np_median (concat (_rep_arrays ok (cm_config r) _))) as [ma|] eqn:Hma; [|done].
  destruct (np_median (concat (_rep_arrays ok (cm_reference r) _))) as [mb|] eqn:Hmb; [|done].
  injection Hdiff as ->. pose proof (median_positive _ _ (values_positive ok _ _ Hpos) Hma).
  pose proof (median_positive _ _ (values_positive ok _ _ Hpos) Hmb).
  exists lo, hi, mb, (ma - mb). split_and!; try done. lra.
Qed.

(** *** The frame *)
Lemma rmap_Raise {A B} (f : A -> result B) l e : rmap f l = Raise e -> exists x, x ∈ l /\ f x = Raise e.
Proof.
  induction l as [|x l IH]; [done|]. cbn [rmap]. destruct (f x) as [b|e'] eqn:Hf; cbn [rbind].
  - destruct (rmap f l) as [bs|e'']; [done|]. intros [= ->]. destruct IH as (y & Hy & Hfy); [done|].
    exists y. split; [by right|done].
  - intros [= ->]. exists x. split; [left|done].
Qed.
Lemma rfilter_Raise {A} (f : A -> result bool) l e : rfilter f l = Raise e -> exists x, x ∈ l /\ f x = Raise e.
Proof.
  induction l as [|x l IH]; [done|]. cbn [rfilter]. destruct (f x) as [b|e'] eqn:Hf; cbn [rbind].
  - destruct (rfilter f l) as [bs|e'']; [done|]. intros [= ->]. destruct IH as (y & Hy & Hfy); [done|].
    exists y. split; [by right|done].
  - intros [= ->]. exists x. split; [left|done].
Qed.

Lemma dominated_by_Raise pw levels present bytes e :
  Forall (fun c => c ∈ PROTECTED) present -> dominated_by pw levels present bytes = Raise e ->
  e = KeyError "concurrency" /\ pw = [].
Proof.
  intros Hp (c & Hc & H)%rmap_Raise. destruct (rfilter _ present) as [|e'] eqn:Hf; [done|].
  injection H as ->. apply rfilter_Raise in Hf as (o & Ho & H). destruct (String.eqb o c); [done|].
  apply (proj1 (List.Forall_forall _ _)) with (x := c) in Hp as Hcp; [|by apply list_elem_of_In].
  apply (proj1 (List.Forall_forall _ _)) with (x := o) in Hp as Hop; [|by apply list_elem_of_In].
  unfold dominates in H. destruct (sec_compare_total o c Hop Hcp) as (ge & gt & Hs). rewrite Hs in H. cbn [rbind] in H.
  destruct (rmap _ levels) as [lat|e'] eqn:Hl; cbn [rbind] in H.
  { cbv zeta in H. destruct (dget o bytes), (dget c bytes); discriminate. }
  injection H as ->. apply rmap_Raise in Hl as (l & _ & Hl). unfold lat_not_worse in Hl.
  destruct pw; [by injection Hl as <-|]. destruct (find _ _); [|done]. cbv zeta in Hl.
  by destruct (if String.eqb (cm_config _) o then _ else _).
Qed.

(** Two configurations never dominate each other: on security and bytes they
    would be equal, and each would have to be the faster one at a level; there
    is one level. *)
Lemma dominates_asym pw levels a b bytes :
  Forall latency_row pw -> a ∈ PROTECTED -> b ∈ PROTECTED -> a <> b -> (length levels <= 1)%nat ->
  dominates pw levels a b bytes = Ok true -> dominates pw levels b a bytes = Ok true -> False.
Proof.
  intros Hpw Ha Hb Hne Hone (gt & lat & Hs & Hlat & Hby & Hmore)%dominates_parts
    (gt' & lat' & Hs' & Hlat' & Hby' & Hmore')%dominates_parts.
  rewrite (sec_compare_asym a b gt gt' Ha Hb Hs Hs') in Hmore.
  rewrite (sec_compare_asym b a gt' gt Hb Ha Hs' Hs) in Hmore'. rewrite !orb_false_l in Hmore, Hmore'.
  assert (bytes_lt bytes a b = false /\ bytes_lt bytes b a = false) as [E1 E2].
  { unfold bytes_le, bytes_lt in *. destruct (dget a bytes) as [[x|]|], (dget b bytes) as [[y|]|]; try done.
    cbn in *. apply Qle_bool_iff in Hby. apply Qle_bool_iff in Hby'. split; by apply Qltb_ge. }
  rewrite E1 in Hmore. rewrite E2 in Hmore'. rewrite orb_false_r in Hmore, Hmore'.
  destruct levels as [|conc [|? ?]]; [by injection Hlat as <-| |simpl in Hone; lia].
  cbn [rmap] in Hlat, Hlat'.
  destruct (lat_not_worse pw a b conc) as [[ok1 more1]|] eqn:L1; [|done].
  destruct (lat_not_worse pw b a conc) as [[ok2 more2]|] eqn:L2; [|done].
  injection Hlat as <-. injection Hlat' as <-. destruct more1, more2; try done.
  by apply (better_asym pw a b conc ok1 ok2).
Qed.

(** The rows at the levels used are those at ten connections. *)
Lemma at_ten df :
  List.filter (fun r => existsb (Z.eqb (rq_concurrency r))
    (List.filter (fun c => existsb (Z.eqb c) (map rq_concurrency df)) [10%Z])) df
  = List.filter (fun r => (rq_concurrency r =? 10)%Z) df.
Proof.
  apply filter_ext_in. intros r Hr. cbn [List.filter]. destruct (Z.eqb_spec (rq_concurrency r) 10) as [He|Hne].
  - assert (existsb (Z.eqb 10) (map rq_concurrency df) = true) as ->; [|by rewrite He].
    apply existsb_exists. exists (rq_concurrency r). split; [by apply in_map|]. by rewrite He.
  - destruct (existsb (Z.eqb 10) _); [|done]. cbn [existsb]. by rewrite (proj2 (Z.eqb_neq _ _) Hne).
Qed.

Lemma dominance_frame_present df sdf summaries d :
  dominance_frame df sdf summaries = Ok d ->
  dm_present d = List.filter (fun c => existsb (String.eqb c) (map rq_config df)) PROTECTED.
Proof.
  unfold dominance_frame. intros H.
  destruct (comparison_stats _ (unordered_pairs _) 13) as [pw|]; [|done]. cbn [rbind] in H.
  destruct (if existsb _ _ then _ else _) as [ov|]; [|done]. cbn [rbind] in H. cbv zeta in H.
  destruct (dominated_by _ _ _ (hs_bytes_of _ _)) as [api|]; [|done]. cbn [rbind] in H.
  destruct (dominated_by _ _ _ (pc_bytes_of _ _ _)) as [pc|]; [|done]. by injection H as <-.
Qed.

(** C38: The decision summary is sound.  When every successful request has a
    positive latency, each of its two columns has an entry for every protected
    configuration present; a configuration is only said to be dominated by one
    whose construction is at least as secure on every axis -- so Hybrid-KEX-PQ
    by none -- and never by one that it dominates itself.  The summary fails
    only where no two of the configurations have two repetitions at ten
    connections, with [KeyError]. *)
Theorem dominance_sound (df : list request_row) (sdf : list stream_row) (summaries : list hndl_summary)
    (Hlat : Forall (fun r => exists q, dget "total_ms" (rq_metrics r) = Some (Some q) /\ 0 < q) (_ok df)) :
  match dominance_frame df sdf summaries with
  | Ok d => forall w, w = dm_api d \/ w = dm_per_chunk d ->
      map fst w = dm_present d
      /\ forall c os o, (c, os) ∈ w -> o ∈ os ->
           o ∈ stronger c /\ forall os', (o, os') ∈ w -> c ∉ os'
  | Raise e => e = KeyError "concurrency"
      /\ planned (_ok (List.filter (fun r => (rq_concurrency r =? 10)%Z) df))
           (unordered_pairs (List.filter (fun c => existsb (String.eqb c) (map rq_config df)) PROTECTED)) = []
  end.
Proof.
  unfold dominance_frame. set (present := List.filter _ PROTECTED). set (levels := List.filter _ [10%Z]).
  set (at_levels := List.filter (fun r => existsb (Z.eqb (rq_concurrency r)) levels) df).
  assert (Forall (fun c => c ∈ PROTECTED) present) as Hpresent.
  { apply List.Forall_forall. intros c Hc. apply (present_protected df). by apply list_elem_of_In. }
  assert (at_levels = List.filter (fun r => (rq_concurrency r =? 10)%Z) df) as Hat by apply at_ten.
  assert (Forall (fun r => exists q, dget "total_ms" (rq_metrics r) = Some (Some q) /\ 0 < q) (_ok at_levels)) as Hok.
  { apply List.Forall_forall. intros r [Hr He]%filter_In. apply filter_In in Hr as [Hr _].
    apply (proj1 (List.Forall_forall _ _) Hlat), filter_In. by split. }
  assert (Forall measured (_ok at_levels)) as Hm by (eapply Forall_impl; [exact Hok|]; intros r (q & Hq & _); by exists q).
  assert (Forall (fun x => 0 < x) (total_ms (_ok at_levels))) as Hpos.
  { clear -Hok. induction Hok as [|r l (q & Hq & Hp) _ IH]; [constructor|]. rewrite total_ms_cons, Hq. by constructor. }
  destruct (comparison_stats_returns at_levels (unordered_pairs present) 13 Hm) as (pw & Hpw & Hname & Hrows & _).
  rewrite Hpw. cbn [rbind].
  destruct (comparison_stats_returns at_levels (map (fun c => (c, "control_2rt")) present) 17 Hm) as (ov & Hov & _).
  assert (exists ov', (if existsb (String.eqb "control_2rt") (map rq_config df)
             then comparison_stats at_levels (map (fun c => (c, "control_2rt")) present) 17 else Ok []) = Ok ov')
    as (ov' & ->) by (destruct (existsb _ _); by eexists).
  cbn [rbind]. cbv zeta.
  assert (Forall latency_row (map fst pw)) as Hlr.
  { eapply Forall_impl; [exact Hrows|]. intros r. by apply sound_latency. }
  assert (map fst pw = [] -> planned (_ok at_levels) (unordered_pairs present) = []) as Hempty.
  { intros Hn. by rewrite <- Hname, Hn. }
  assert (length levels <= 1)%nat as Hone by (unfold levels; simpl; destruct (existsb _ _); simpl; lia).
  assert (forall bytes w, dominated_by (map fst pw) levels present bytes = Ok w ->
    map fst w = present /\ forall c os o, (c, os) ∈ w -> o ∈ os -> o ∈ stronger c /\ forall os', (o, os') ∈ w -> c ∉ os')
    as Hcol.
  { intros bytes w [Hfst Hent]%dominated_by_entries. split; [exact Hfst|]. intros c os o Hc Ho.
    apply (Hent c os Hc) in Ho as (Hop & Hne & Hd).
    assert (c ∈ present) as Hcp by (rewrite <- Hfst; apply list_elem_of_In; exact (in_map fst _ _ (proj1 (list_elem_of_In _ _) Hc))).
    assert (forall x, x ∈ present -> x ∈ PROTECTED) as Hprot
      by (intros x Hx; apply (proj1 (List.Forall_forall _ _) Hpresent); by apply list_elem_of_In).
    split; [apply (dominates_stronger (map fst pw) levels o c bytes); auto|].
    intros os' Hos' Hin. apply (Hent o os' Hos') in Hin as (_ & _ & Hd').
    apply (dominates_asym (map fst pw) levels o c bytes); auto. }
  destruct (dominated_by (map fst pw) levels present (hs_bytes_of present summaries)) as [api|e] eqn:Hapi; cbn [rbind].
  2:{ apply dominated_by_Raise in Hapi as [-> Hn]; [|done]. split; [done|]. rewrite <- Hat. by apply Hempty. }
  destruct (dominated_by (map fst pw) levels present (pc_bytes_of present _ sdf)) as [pc|e] eqn:Hpc; cbn [rbind].
  2:{ apply dominated_by_Raise in Hpc as [-> Hn]; [|done]. split; [done|]. rewrite <- Hat. by apply Hempty. }
  cbn. intros w [-> | ->]; by eapply Hcol.
Qed.
End Props.

(** ** Instances at which the theorems apply *)

(** A generator that always picks the first. *)
#[local] Instance first_generator : Generator unit := {
  integers _ size := ret (repeat 0%Z (Z.to_nat size));
  choices a size := ret (repeat (hd 0%Q a) (Z.to_nat size));
  default_rng _ := tt;
}.
#[local] Instance first_generator_laws : GeneratorLaws first_generator.
Proof.
  split.
  - intros high size g Hh Hs. eexists _, g. split; [reflexivity|]. unfold py_len. rewrite repeat_length.
    split; [lia|]. apply List.Forall_forall. intros i ->%repeat_spec. lia.
  - intros a size g Ha Hs. eexists _, g. split; [reflexivity|]. unfold py_len. rewrite repeat_length.
    split; [lia|]. apply List.Forall_forall. intros i ->%repeat_spec. destruct a; [done|]. left.
Qed.

(** Positions in the order of their values; a test that rejects nothing. *)
Definition placed_le (a b : float * nat) : Prop := opt_le Qle (fst a) (fst b).
#[local] Instance placed_le_dec : RelDecision placed_le.
Proof. intros a b. unfold placed_le. apply _. Defined.
#[local] Instance placed_le_total : Total placed_le.
Proof. intros a b. unfold placed_le. apply (total (opt_le Qle)). Qed.
#[local] Instance placed_le_trans : Transitive placed_le.
Proof. intros a b c. unfold placed_le. apply (transitivity (R := opt_le Qle)). Qed.

#[local] Instance plain_scipy : Scipy := {
  mannwhitneyu_statistic x y := Some (U_statistic x y);
  mannwhitneyu_exact _ _ := Some 1%Q;
  argsort l := map snd (merge_sort placed_le (zip l (seq 0 (length l))));
}.
Lemma zip_nth (l : list float) i x : (x, i) ∈ zip l (seq 0 (length l)) -> nth i l None = x.
Proof.
  intros (k & Hk)%list_elem_of_lookup_1. apply lookup_zip_with_Some in Hk as (y & j & [= <- <-] & Hy & Hj).
  apply lookup_seq in Hj as [-> _]. by apply nth_lookup_Some.
Qed.
#[local] Instance plain_scipy_laws : ScipyLaws plain_scipy.
Proof.
  split.
  - intros x y _ _. eexists. by split.
  - intros x y _ _. exists 1%Q. split; [done|lra].
  - intros l. cbn. rewrite merge_sort_Permutation, snd_zip by (by rewrite length_seq). done.
  - intros l. cbn. pose proof (StronglySorted_merge_sort placed_le (zip l (seq 0 (length l)))) as Hs.
    assert (Forall (fun e => nth (snd e) l None = fst e) (merge_sort placed_le (zip l (seq 0 (length l))))) as Hf.
    { rewrite merge_sort_Permutation. apply List.Forall_forall. intros [x i] Hin. by apply zip_nth, list_elem_of_In. }
    induction Hs as [|e s _ IH Hall]; [constructor|]. apply Forall_cons in Hf as [He Hf].
    cbn [map]. constructor; [by apply IH|]. rewrite !Forall_map. rewrite He.
    apply List.Forall_forall. intros e' Hin. cbn. rewrite (proj1 (List.Forall_forall _ _) Hf e' Hin).
    exact (proj1 (List.Forall_forall _ _) Hall e' Hin).
Qed.

Definition sweep_row (config : string) (repetition : Z) (error : option string) (handshake total : option Q) :=
  mkRequestRow (Some "run-1") config 10 repetition 0 error
    [("handshake_ms", handshake); ("total_ms", total)].
Definition sweep_rows : list request_row :=
  [sweep_row "classical_ecdhe" 1 None (Some 3) (Some 20); sweep_row "classical_ecdhe" 2 None (Some 3) (Some 22);
   sweep_row "hybrid_kex_pq" 1 None (Some 4) (Some 21); sweep_row "hybrid_kex_pq" 2 None (Some 4) (Some 21);
   sweep_row "hybrid_kex_pq" 2 (Some "ReadTimeout: ") None None]%Q.

Lemma holm_steps_down_witness : exists v, _holm [Some (1 # 100); Some (4 # 100)]%Q !! 0%nat = Some v /\ (1 # 100 <= v <= 1)%Q.
Proof.
  destruct (holm_steps_down [1 # 100; 4 # 100]%Q) as (_ & H & _).
  { repeat constructor; lra. }
  destruct (H 0%nat (1 # 100)%Q eq_refl) as (v & Hv & Hr & _). exists v. split; [exact Hv|exact Hr].
Defined.

Lemma comparison_stats_sound_witness :
  exists rows, comparison_stats sweep_rows [("hybrid_kex_pq", "classical_ecdhe")] 13 = Ok rows
    /\ map (fun rq => row_name (fst rq)) rows = [(10, ("hybrid_kex_pq", "classical_ecdhe"))].
Proof.
  destruct (comparison_stats_sound sweep_rows [("hybrid_kex_pq", "classical_ecdhe")] 13) as (rows & H & Hn & _).
  { vm_compute. repeat (constructor; [eexists; reflexivity|]). constructor. }
  exists rows. split; [exact H|rewrite Hn; reflexivity].
Defined.

Lemma failures_never_flatter_witness :
  exists row, failure_cell sweep_rows 10 "hybrid_kex_pq" = [row] /\ fr_failed row = 1 /\ fr_n row = 3.
Proof.
  destruct (failures_never_flatter sweep_rows 10 "hybrid_kex_pq") as (row & H & _).
  { right; right; left. reflexivity. }
  { change (_ok sweep_rows) with (firstn 4 sweep_rows).
    repeat (constructor; [intros _; eexists; split; [reflexivity|by apply Qle_bool_iff]|]). constructor. }
  exists row. split; [exact H|]. revert H. vm_compute. intros [= <-]. by split.
Defined.

Lemma cliffs_delta_counts_pairs_witness : exists d, _cliffs_delta [21; 21]%Q [20; 22]%Q = Some d /\ (d == 0)%Q.
Proof.
  destruct (cliffs_delta_counts_pairs [21; 21]%Q [20; 22]%Q) as (d & _ & Hd & _ & He & _); [done..|].
  exists d. split; [exact Hd|]. rewrite He. reflexivity.
Defined.

Lemma dominance_sound_witness :
  exists d, dominance_frame sweep_rows [] [mkHndlSummary "hybrid_kex_pq" 1200 3309] = Ok d
    /\ map fst (dm_api d) = ["classical_ecdhe"; "hybrid_kex_pq"].
Proof.
  pose proof (dominance_sound sweep_rows [] [mkHndlSummary "hybrid_kex_pq" 1200 3309]) as H.
  destruct (dominance_frame _ _ _) as [d|e] eqn:Hd.
  - exists d. split; [reflexivity|].
    apply dominance_frame_present in Hd as Hp. change (dm_present d = ["classical_ecdhe"; "hybrid_kex_pq"]) in Hp.
    rewrite <- Hp. apply H; [|by left]. change (_ok sweep_rows) with (firstn 4 sweep_rows);
    repeat (constructor; [eexists; split; [reflexivity|by vm_compute]|]); constructor.
  - exfalso. destruct H as [_ H]; [|discriminate]. change (_ok sweep_rows) with (firstn 4 sweep_rows);
    repeat (constructor; [eexists; split; [reflexivity|by vm_compute]|]); constructor.
Defined.
