(* ===== verification/NetemProxy.v ===== *)
(** * The network emulator ([bench/netem_proxy.py])

    A link holds the time its bottleneck is next idle, shared by every
    connection in that direction.  A pump reads chunks, stamps them with the
    link's release time and queues them; its deliverer writes a chunk no
    earlier than its stamp.  Readers, deliverers and the clock interleave as
    steps of one system. *)
From Stdlib Require Import Lqa.
From stdpp Require Import gmap sorting.
From stdpp Require Import gmap.
From S2P Require Import Prelude PyBytes PyVal Instrumentation PyList.

Definition NETWORK_PROFILES : list (string * option (Z * Z)) :=
  [("localhost", None); ("metro", Some (10, 100)); ("wan", Some (50, 20)); ("mobile", Some (100, 5))].

Record Link := mkLink { delay : Q; bw : Q; tx_free : Q }.
Definition new_link (one_way_delay_s bandwidth_bps : Q) : Link :=
  mkLink one_way_delay_s bandwidth_bps 0.

(** [nbytes * 8 / self.bw if self.bw > 0 else 0.0]. *)
Definition serialization (l : Link) (nbytes : Z) : Q :=
  if Qle_bool (bw l) 0 then 0%Q else (inject_Z (nbytes * 8) / bw l)%Q.

(** [release_time] at the monotonic time [now]. *)
Definition release_time (l : Link) (now : Q) (nbytes : Z) : Q * Link :=
  let start := Qmax now (tx_free l) in
  let tx := (start + serialization l nbytes)%Q in
  ((tx + delay l)%Q, mkLink (delay l) (bw l) tx).

(** ** [_pump]

    The queue holds stamped chunks and the final [None]; [p_read] and
    [p_written] record what was read and written, and when. *)
Record pump := mkPump {
  p_reading : bool; p_queue : list (option (Q * bytes)); p_delivering : bool; p_closed : bool;
  p_read : list (Q * bytes); p_written : list (Q * bytes) }.
Definition new_pump : pump := mkPump true [] true false [] [].

(** [queue.put_nowait((link.release_time(len(data)), data))]. *)
Definition on_read (now : Q) (data : bytes) (l : Link) (p : pump) : Link * pump :=
  let '(at_, l') := release_time l now (py_len data) in
  (l', mkPump (p_reading p) (p_queue p ++ [Some (at_, data)]) (p_delivering p) (p_closed p)
         (p_read p ++ [(now, data)]) (p_written p)).

(** The end of the stream or a connection error: [queue.put_nowait(None)]. *)
Definition on_eof (p : pump) : pump :=
  mkPump false (p_queue p ++ [None]) (p_delivering p) (p_closed p) (p_read p) (p_written p).

(** One turn of [deliver()]: it sleeps until the stamp of the head has
    passed ([None]), writes, or ends at the marker; [ok] is whether the write
    goes through. *)
Definition on_deliver (now : Q) (ok : bool) (p : pump) : option pump :=
  match p_queue p with
  | [] => None
  | None :: q => Some (mkPump (p_reading p) q false true (p_read p) (p_written p))
  | Some (at_, data) :: q =>
      if negb (Qle_bool at_ now) then None
      else if ok then
        Some (mkPump (p_reading p) q true (p_closed p) (p_read p) (p_written p ++ [(now, data)]))
      else Some (mkPump (p_reading p) q false true (p_read p) (p_written p))
  end.

(** ** All connections over one direction of the path *)
Record path := mkPath { clock : Q; link : Link; pumps : gmap nat pump }.

(** [serve]: one link per direction. *)
Definition one_way (rtt_ms : Q) : Q := (rtt_ms / 2000)%Q.
Definition bandwidth_bps (bandwidth_mbps : Q) : Q := (bandwidth_mbps * inject_Z (10 ^ 6))%Q.
Definition path_init (t0 rtt_ms bandwidth_mbps : Q) : path :=
  mkPath t0 (new_link (one_way rtt_ms) (bandwidth_bps bandwidth_mbps)) ∅.

Inductive path_step : path -> path -> Prop :=
  | step_time s t : (clock s <= t)%Q -> path_step s (mkPath t (link s) (pumps s))
  | step_connect s c : pumps s !! c = None ->
      path_step s (mkPath (clock s) (link s) (<[c := new_pump]> (pumps s)))
  | step_read s c p data l' p' : pumps s !! c = Some p -> p_reading p = true -> data <> [] ->
      on_read (clock s) data (link s) p = (l', p') ->
      path_step s (mkPath (clock s) l' (<[c := p']> (pumps s)))
  | step_eof s c p : pumps s !! c = Some p -> p_reading p = true ->
      path_step s (mkPath (clock s) (link s) (<[c := on_eof p]> (pumps s)))
  | step_deliver s c p ok p' : pumps s !! c = Some p -> p_delivering p = true ->
      on_deliver (clock s) ok p = Some p' ->
      path_step s (mkPath (clock s) (link s) (<[c := p']> (pumps s))).

Inductive path_reachable (s0 : path) : path -> Prop :=
  | path_start : path_reachable s0 s0
  | path_next s s' : path_reachable s0 s -> path_step s s' -> path_reachable s0 s'.

(** ** The link alone *)
Fixpoint releases (l : Link) (requests : list (Q * Z)) : list Q :=
  match requests with
  | [] => []
  | (now, n) :: rest => let '(at_, l') := release_time l now n in at_ :: releases l' rest
  end.

(** The bits whose release time is at most [T]. *)
Definition bits_released (T : Q) (requests : list (Q * Z)) (times : list Q) : Z :=
  Zsum (zip_with (fun rq t => if Qle_bool t T then 8 * snd rq else 0) requests times).

Lemma Qmax_l x y : (x <= Qmax x y)%Q.
Proof. unfold Qmax. destruct (Qle_bool x y) eqn:H; [by apply Qle_bool_iff|apply Qle_refl]. Qed.
Lemma Qmax_r x y : (y <= Qmax x y)%Q.
Proof.
  unfold Qmax. destruct (Qle_bool x y) eqn:H; [apply Qle_refl|].
  destruct (Qlt_le_dec y x) as [Hlt|Hle]; [by apply Qlt_le_weak|].
  apply Qle_bool_iff in Hle. congruence.
Qed.

Lemma bw_positive l : Qle_bool (bw l) 0 = false -> (0 < bw l)%Q.
Proof. intros Hb. apply Qnot_le_lt. intros H%Qle_bool_iff. congruence. Qed.

Lemma serialization_bits l n : (0 < bw l)%Q -> (bw l * serialization l n == inject_Z (8 * n))%Q.
Proof.
  intros Hb. unfold serialization. destruct (Qle_bool (bw l) 0) eqn:H.
  - apply Qle_bool_iff in H. lra.
  - rewrite Z.mul_comm. field. lra.
Qed.

Lemma serialization_pos l n : 0 <= n -> (0 <= serialization l n)%Q.
Proof.
  intros Hn. unfold serialization. destruct (Qle_bool (bw l) 0) eqn:Hb; [lra|].
  apply Qle_shift_div_l; [by apply bw_positive|]. rewrite Qmult_0_l. unfold Qle. simpl. lia.
Qed.

Lemma releases_later l requests t :
  Forall (fun rq => 0 <= snd rq) requests -> t ∈ releases l requests ->
  (tx_free l + delay l <= t)%Q.
Proof.
  revert l; induction requests as [|[now n] rest IH]; intros l Hn Ht; simpl in Ht;
    [by apply elem_of_nil in Ht|].
  inversion Hn as [|? ? Hn0 Hrest]; subst. simpl in Hn0.
  pose proof (serialization_pos l n Hn0) as Hs. pose proof (Qmax_r now (tx_free l)) as Hm.
  apply elem_of_cons in Ht as [->|Ht]; [lra|].
  apply (IH _ Hrest) in Ht. simpl in Ht. lra.
Qed.

Lemma bits_released_none T requests times :
  Forall (fun t => ~ (t <= T)%Q) times -> bits_released T requests times = 0.
Proof.
  unfold bits_released. revert times; induction requests as [|rq rest IH]; intros times H; [done|].
  destruct times as [|t times]; [done|]. inversion H as [|? ? Ht Hts]; subst.
  cbn [zip_with]. rewrite Zsum_cons, (IH _ Hts). destruct (Qle_bool t T) eqn:Hb; [|done].
  by apply Qle_bool_iff in Hb.
Qed.

(** What a link lets through by a time is bounded by its rate. *)
Lemma link_rate l T requests :
  (0 < bw l)%Q -> Forall (fun rq => 0 <= snd rq) requests -> (tx_free l + delay l <= T)%Q ->
  (inject_Z (bits_released T requests (releases l requests))
   <= bw l * (T - delay l - tx_free l))%Q.
Proof.
  revert l; induction requests as [|[now n] rest IH]; intros l Hb Hn HT.
  - change (bits_released T [] (releases l [])) with 0. apply Qmult_le_0_compat; lra.
  - inversion Hn as [|? ? Hn0 Hrest]; subst. simpl in Hn0.
    set (tx := (Qmax now (tx_free l) + serialization l n)%Q).
    set (l' := mkLink (delay l) (bw l) tx).
    change (releases l ((now, n) :: rest)) with ((tx + delay l)%Q :: releases l' rest).
    pose proof (Qmax_r now (tx_free l)) as Hm.
    pose proof (serialization_bits l n Hb) as Hbits.
    destruct (Qlt_le_dec T (tx + delay l)) as [Hlate|Hearly].
    + rewrite bits_released_none; [apply Qmult_le_0_compat; lra|].
      constructor; [lra|]. apply Forall_forall. intros t Ht%(releases_later l' rest t Hrest).
      simpl in Ht. lra.
    + specialize (IH l' Hb Hrest Hearly). unfold bits_released in *. cbn [zip_with snd].
      rewrite Zsum_cons, (proj2 (Qle_bool_iff _ _) Hearly), inject_Z_plus.
      cbn [delay bw tx_free l'] in IH.
      assert (0 <= bw l * (tx - tx_free l - serialization l n))%Q as Hp
        by (apply Qmult_le_0_compat; unfold tx; lra).
      lra.
Qed.

(** C20: The bottleneck is one: over any requests to a link, in any order of
    arrival and by any number of connections, the release times never
    decrease, none comes before its arrival plus its serialization time plus
    the one-way delay, and the bits released by any time are at most what the
    bandwidth carries in that time; a request that finds the link idle is
    released exactly at that earliest moment. *)
Theorem link_is_a_bottleneck (l : Link) (requests : list (Q * Z)) (T : Q)
    (Hb : (0 < bw l)%Q) (Hn : Forall (fun rq => 0 <= snd rq) requests)
    (HT : (tx_free l + delay l <= T)%Q) :
  Sorted Qle (releases l requests)
  /\ Forall2 (fun rq t => fst rq + serialization l (snd rq) + delay l <= t)%Q
       requests (releases l requests)
  /\ (inject_Z (bits_released T requests (releases l requests))
      <= bw l * (T - delay l - tx_free l))%Q
  /\ forall now n, (tx_free l <= now)%Q ->
      (fst (release_time l now n) == now + serialization l n + delay l)%Q.
Proof.
  split_and!.
  - clear HT. revert l Hb; induction requests as [|[now n] rest IH]; intros l Hb; [constructor|].
    inversion Hn as [|? ? Hn0 Hrest]; subst. cbn [releases release_time].
    constructor; [by apply IH|]. apply HdRel_elem. intros t Ht%releases_later; [exact Ht|done].
  - clear HT. revert l Hb; induction requests as [|[now n] rest IH]; intros l Hb; [constructor|].
    inversion Hn as [|? ? Hn0 Hrest]; subst. cbn [releases release_time]. constructor.
    + simpl. pose proof (Qmax_l now (tx_free l)). lra.
    + apply (IH Hrest (mkLink (delay l) (bw l) _) Hb).
  - by apply link_rate.
  - intros now n Hidle. simpl. assert (Qmax now (tx_free l) == now)%Q as ->; [|lra].
    unfold Qmax. destruct (Qle_bool now (tx_free l)) eqn:H; [|lra]. apply Qle_bool_iff in H. lra.
Qed.

(** ** The emulator delivers what it reads

    Invariants of every reachable state of a path, by induction on its steps,
    and that a connection whose source has ended can always be drained. *)

(** A chunk read at a time and the same chunk stamped or written later. *)
Definition stamped (l : Link) (rd x : Q * bytes) : Prop :=
  snd rd = snd x /\ (fst rd + serialization l (py_len (snd rd)) + delay l <= fst x)%Q.

Definition chunks (q : list (option (Q * bytes))) : list (Q * bytes) := omap id q.

(** A queue of chunks, ended by one marker once the reader is done. *)
Definition queue_shape (p : pump) : Prop :=
  exists xs, p_queue p = map Some xs ++ (if p_reading p then [] else [None]).

Definition pump_ok (l : Link) (p : pump) : Prop :=
  exists done rest, p_read p = done ++ rest /\ Forall2 (stamped l) done (p_written p)
    /\ (p_delivering p = true -> Forall2 (stamped l) rest (chunks (p_queue p)) /\ queue_shape p).

Definition path_ok (l0 : Link) (s : path) : Prop :=
  delay (link s) = delay l0 /\ bw (link s) = bw l0
  /\ forall c p, pumps s !! c = Some p -> pump_ok l0 p.

Lemma chunks_app q1 q2 : chunks (q1 ++ q2) = chunks q1 ++ chunks q2.
Proof. apply omap_app. Qed.
Lemma chunks_some xs : chunks (map Some xs) = xs.
Proof. unfold chunks. induction xs as [|x xs IH]; simpl; [done|by f_equal]. Qed.

Lemma new_pump_ok l : pump_ok l new_pump.
Proof. exists [], []. split_and!; [done|constructor|]. intros _. split; [constructor|by exists []]. Qed.

Lemma on_read_ok l0 l now data l' p p' :
  delay l = delay l0 -> bw l = bw l0 -> p_reading p = true ->
  on_read now data l p = (l', p') -> pump_ok l0 p ->
  delay l' = delay l0 /\ bw l' = bw l0 /\ pump_ok l0 p'.
Proof.
  intros Hd Hb Hreading. unfold on_read, release_time. intros [= <- <-] (dn & rest & Hr & Hw & Hq).
  split_and!; [done|done|]. exists dn, (rest ++ [(now, data)]). simpl.
  split; [by rewrite Hr, app_assoc|]. split; [done|]. intros Hdel.
  destruct (Hq Hdel) as [Hf (xs & Hs)]. split.
  - rewrite chunks_app. apply Forall2_app; [done|]. constructor; [|constructor].
    split; [done|]. simpl. assert (serialization l0 (py_len data) = serialization l (py_len data)) as ->
      by (unfold serialization; by rewrite Hb).
    pose proof (Qmax_l now (tx_free l)). rewrite Hd. lra.
  - exists (xs ++ [((Qmax now (tx_free l) + serialization l (py_len data) + delay l)%Q, data)]).
    simpl. rewrite Hs, Hreading, map_app. simpl. by rewrite !app_nil_r.
Qed.

Lemma on_eof_ok l p : p_reading p = true -> pump_ok l p -> pump_ok l (on_eof p).
Proof.
  intros Hreading (dn & rest & Hr & Hw & Hq). exists dn, rest. split_and!; [done|done|].
  intros Hdel. destruct (Hq Hdel) as [Hf (xs & Hs)]. split.
  - simpl. rewrite chunks_app. simpl. by rewrite app_nil_r.
  - exists xs. simpl. rewrite Hs, Hreading. by rewrite app_nil_r.
Qed.

Lemma queue_shape_tail p at_ data q :
  queue_shape p -> p_queue p = Some (at_, data) :: q ->
  exists xs, q = map Some xs ++ (if p_reading p then [] else [None]).
Proof.
  intros (xs & Hs) Hq. rewrite Hq in Hs. destruct xs as [|x xs]; simpl in Hs.
  - by destruct (p_reading p).
  - injection Hs as _ ->. by exists xs.
Qed.

Lemma on_deliver_ok l now ok p p' :
  p_delivering p = true -> on_deliver now ok p = Some p' -> pump_ok l p -> pump_ok l p'.
Proof.
  unfold on_deliver. intros Hdel Hd (dn & rest & Hr & Hw & Hq).
  destruct (Hq Hdel) as [Hf Hs]. destruct (p_queue p) as [|[[at_ data]|] q] eqn:Hpq; [done| |].
  - destruct (Qle_bool at_ now) eqn:Hat; [|done]. simpl in Hd. apply Qle_bool_iff in Hat.
    destruct ok; injection Hd as <-; [|by exists dn, rest].
    simpl in Hf. apply Forall2_cons_inv_r in Hf as (rd & rest' & [Hsnd Htime] & Hf & ->).
    exists (dn ++ [rd]), rest'. simpl. split; [by rewrite Hr, <- app_assoc|]. split.
    + apply Forall2_app; [done|]. constructor; [|constructor]. split; [done|]. simpl in *. lra.
    + intros _. split; [done|]. by apply (queue_shape_tail p at_ data).
  - injection Hd as <-. by exists dn, rest.
Qed.

Lemma path_reachable_ok s0 s :
  pumps s0 = ∅ -> path_reachable s0 s -> path_ok (link s0) s.
Proof.
  intros H0. induction 1 as [|s s' _ (Hd & Hb & IH) Hstep].
  { split_and!; [done|done|]. intros c p. by rewrite H0, lookup_empty. }
  assert (forall c p' l', delay l' = delay (link s0) -> bw l' = bw (link s0) -> pump_ok (link s0) p' ->
    path_ok (link s0) (mkPath (clock s) l' (<[c := p']> (pumps s)))) as Hupd.
  { intros c p' l' Hd' Hb' Hp'. split_and!; [done|done|]. simpl. intros c1 p1.
    destruct (decide (c1 = c)) as [->|Hne].
    - rewrite lookup_insert_eq. by intros [= <-].
    - rewrite lookup_insert_ne by done. apply IH. }
  destruct Hstep as [s t|s c Hc|s c p data l' p' Hc Hreading Hne Hread|s c p Hc Hreading
                    |s c p ok p' Hc Hdel Hdeliver]; simpl in *.
  - by split_and!.
  - by apply Hupd; [..|apply new_pump_ok].
  - destruct (on_read_ok (link s0) _ _ _ _ _ _ Hd Hb Hreading Hread (IH _ _ Hc)) as (? & ? & ?).
    by apply Hupd.
  - apply Hupd; [done|done|]. apply on_eof_ok; [done|by eapply IH].
  - apply Hupd; [done|done|]. eapply on_deliver_ok; [done|done|by eapply IH].
Qed.

(** C21: Whatever the interleaving of readers, deliverers, new connections and
    the clock, a connection's writer gets the chunks its reader took, in that
    order and unchanged, each no earlier than its arrival plus serialization
    plus the one-way delay; and when the deliverer meets the end marker every
    chunk that was read has been written. *)
Theorem pump_delivers_in_order (t0 rtt_ms bandwidth_mbps : Q) (s : path) (c : nat) (p : pump)
    (Hs : path_reachable (path_init t0 rtt_ms bandwidth_mbps) s) (Hp : pumps s !! c = Some p) :
  let l := link (path_init t0 rtt_ms bandwidth_mbps) in
  (exists sent pending, p_read p = sent ++ pending /\ Forall2 (stamped l) sent (p_written p))
  /\ (p_delivering p = true -> head (p_queue p) = Some None ->
      Forall2 (stamped l) (p_read p) (p_written p)).
Proof.
  intros l. destruct (path_reachable_ok (path_init t0 rtt_ms bandwidth_mbps) s eq_refl Hs) as (_ & _ & Hok).
  destruct (Hok c p Hp) as (dn & rest & Hr & Hw & Hq). split; [by exists dn, rest|].
  intros Hdel Hhead. destruct (Hq Hdel) as [Hf (xs & Hx)].
  destruct xs as [|x xs]; rewrite Hx in Hhead; [|done].
  destruct (p_reading p); [done|]. rewrite Hx in Hf. simpl in Hf. inversion Hf; subst.
  by rewrite Hr, app_nil_r.
Qed.

Lemma path_reachable_trans s0 s1 s2 :
  path_reachable s0 s1 -> path_reachable s1 s2 -> path_reachable s0 s2.
Proof. intros H1. induction 1; [done|by eapply path_next]. Qed.

(** Taking the head of a queue: wait for its stamp, then write it. *)
Lemma deliver_head s c p at_ data q :
  pumps s !! c = Some p -> p_delivering p = true -> p_queue p = Some (at_, data) :: q ->
  exists s', path_reachable s s' /\ pumps s' !! c
    = Some (mkPump (p_reading p) q true (p_closed p) (p_read p)
              (p_written p ++ [(clock s', data)])).
Proof.
  intros Hc Hdel Hq. set (t := Qmax at_ (clock s)).
  set (s1 := mkPath t (link s) (pumps s)).
  set (p' := mkPump (p_reading p) q true (p_closed p) (p_read p) (p_written p ++ [(t, data)])).
  exists (mkPath t (link s) (<[c := p']> (pumps s))). split.
  - eapply path_next; [eapply path_next; [apply path_start|apply (step_time s t), Qmax_r]|].
    apply (step_deliver s1 c p true p' Hc Hdel). unfold on_deliver. rewrite Hq.
    by rewrite (proj2 (Qle_bool_iff at_ (clock s1)) (Qmax_l at_ (clock s))).
  - simpl. by rewrite lookup_insert_eq.
Qed.

(** C22: A connection whose source has ended and whose destination keeps
    accepting can always be drained: from every reachable state there is a
    way on to one where the deliverer is done, the writer closed, and the
    bytes written are the bytes read. *)
Theorem pump_drains (t0 rtt_ms bandwidth_mbps : Q) (s : path) (c : nat) (p : pump)
    (Hs : path_reachable (path_init t0 rtt_ms bandwidth_mbps) s) (Hp : pumps s !! c = Some p)
    (Heof : p_reading p = false) (Hdel : p_delivering p = true) :
  exists s' p', path_reachable s s' /\ pumps s' !! c = Some p'
    /\ p_delivering p' = false /\ p_closed p' = true
    /\ map snd (p_written p') = map snd (p_read p).
Proof.
  destruct (path_reachable_ok (path_init t0 rtt_ms bandwidth_mbps) s eq_refl Hs) as (_ & _ & Hok).
  destruct (Hok c p Hp) as (dn & rest & Hr & Hw & Hq).
  destruct (Hq Hdel) as [Hf (xs & Hx)]. rewrite Heof in Hx.
  assert (map snd (p_written p) ++ map snd xs = map snd (p_read p)) as Hdata.
  { rewrite Hr, map_app. rewrite Hx, chunks_app, chunks_some in Hf. simpl in Hf.
    rewrite app_nil_r in Hf. f_equal.
    - clear -Hw. induction Hw as [|? ? ? ? [H _] _ IH]; simpl; [done|by rewrite H, IH].
    - clear -Hf. induction Hf as [|? ? ? ? [H _] _ IH]; simpl; [done|by rewrite H, IH]. }
  clear Hs Hok dn rest Hr Hw Hq Hf. revert s p Hp Heof Hdel Hx Hdata.
  induction xs as [|[at_ data] xs IH]; intros s p Hp Heof Hdel Hx Hdata.
  - eexists (mkPath (clock s) (link s) _), _. split.
    + eapply path_next; [apply path_start|]. eapply (step_deliver s c p true); [done|done|].
      unfold on_deliver. rewrite Hx. reflexivity.
    + simpl. rewrite lookup_insert_eq. split; [reflexivity|]. simpl in *.
      by rewrite app_nil_r in Hdata.
  - destruct (deliver_head s c p at_ data (map Some xs ++ [None]) Hp Hdel Hx) as (s1 & Hs1 & Hp1).
    destruct (IH s1 _ Hp1 Heof eq_refl eq_refl) as (s2 & p2 & Hs2 & Hp2 & Hd2 & Hc2 & Hw2).
    { simpl. rewrite map_app, <- app_assoc. exact Hdata. }
    exists s2, p2. split_and!; [by eapply path_reachable_trans|done..].
Qed.

(** ** A connection on the metro profile *)
Lemma link_is_a_bottleneck_witness :
  (inject_Z (bits_released 1 [(0%Q, 1000%Z); (0%Q, 500%Z)] (releases (new_link (1 # 100) 8000) [(0%Q, 1000%Z); (0%Q, 500%Z)]))
   <= 8000 * (1 - (1 # 100) - 0))%Q.
Proof.
  exact (proj1 (proj2 (proj2 (link_is_a_bottleneck (new_link (1 # 100) 8000) [(0%Q, 1000%Z); (0%Q, 500%Z)] 1
    ltac:(reflexivity) ltac:(repeat constructor; done) ltac:(done))))).
Defined.

Definition hello : bytes := encode "hello".
Definition metro0 : path := path_init 0 10 100.
Definition pump1 : Link * pump := Eval vm_compute in on_read 0 hello (link metro0) new_pump.
Definition metro1 : path :=
  mkPath 0 (fst pump1) (<[0%nat := on_eof (snd pump1)]> (<[0%nat := snd pump1]> (<[0%nat := new_pump]> ∅))).

Lemma metro1_reachable : path_reachable metro0 metro1.
Proof.
  eapply path_next; [eapply path_next; [eapply path_next; [apply path_start|]|]|].
  - apply (step_connect metro0 0%nat). reflexivity.
  - eapply (step_read _ 0%nat new_pump hello (fst pump1) (snd pump1));
      [apply lookup_insert_eq|done|done|vm_compute; reflexivity].
  - eapply (step_eof (mkPath 0 (fst pump1) _) 0%nat); [apply lookup_insert_eq|done].
Qed.

Lemma pump_delivers_in_order_witness :
  exists sent pending, p_read (on_eof (snd pump1)) = sent ++ pending
    /\ Forall2 (stamped (link metro0)) sent (p_written (on_eof (snd pump1))).
Proof.
  exact (proj1 (pump_delivers_in_order 0 10 100 metro1 0%nat (on_eof (snd pump1)) metro1_reachable
                  (lookup_insert_eq _ _ _))).
Defined.

Lemma pump_drains_witness :
  exists s' p', path_reachable metro1 s' /\ pumps s' !! 0%nat = Some p'
    /\ map snd (p_written p') = [hello].
Proof.
  destruct (pump_drains 0 10 100 metro1 0%nat (on_eof (snd pump1)) metro1_reachable
              (lookup_insert_eq _ _ _) eq_refl eq_refl) as (s' & p' & Hr & Hp & _ & _ & Hw).
  exists s', p'. split; [exact Hr|]. split; [exact Hp|exact Hw].
Defined.
