(* ===== verification/Aead.v ===== *)
(** * AES-256-GCM helpers ([crypto/aead.py]) *)
From S2P Require Import Prelude PyBytes PyVal World.

Definition AES_KEY_BYTES : nat := 32.
Definition GCM_NONCE_BYTES : nat := 12.

Record AEADResult := mkAEAD { nonce : bytes; ciphertext : bytes }.

Section Aead.
Context {E : Env} {P : Prims}.

Definition derive_session_key (shared_secret context : bytes) : result bytes :=
  hkdf_sha256 AES_KEY_BYTES None context shared_secret.

Definition aead_encrypt_ad (key plaintext : bytes) (associated_data : option bytes)
    : M world AEADResult :=
  let* nonce := os_urandom GCM_NONCE_BYTES in
  let* aesgcm := of_result (aesgcm_new key) in
  let* ciphertext := of_result (aesgcm_encrypt aesgcm nonce plaintext associated_data) in
  ret (mkAEAD nonce ciphertext).

Definition aead_encrypt (key plaintext : bytes) : M world AEADResult :=
  aead_encrypt_ad key plaintext None.

(** [AESGCM(key)] is outside the [try]: a bad key length is not an
    [AEADError]. *)
Definition aead_decrypt_ad (key nonce ciphertext : bytes) (associated_data : option bytes)
    : result bytes :=
  let? aesgcm := aesgcm_new key in
  match aesgcm_decrypt aesgcm nonce ciphertext associated_data with
  | Ok pt => Ok pt
  | Raise _ => Raise AEADError
  end.

Definition aead_decrypt (key nonce ciphertext : bytes) : result bytes :=
  aead_decrypt_ad key nonce ciphertext None.

(** ** What the rest of the program relies on *)
Context {EL : EnvLaws E} {PL : PrimLaws P}.

(** The nonce drawn by the next [aead_encrypt]. *)
Definition fresh_nonce (w : world) : bytes := env_urandom (tick w) GCM_NONCE_BYTES.

Definition sealed (key plaintext : bytes) (r : AEADResult) : Prop :=
  length (nonce r) = 12%nat
  /\ length (ciphertext r) = (length plaintext + 16)%nat
  /\ aead_decrypt key (nonce r) (ciphertext r) = Ok plaintext.

Lemma aead_encrypt_run key plaintext w :
  length key = 32%nat ->
  exists r, aead_encrypt key plaintext w = (Ok r, advance w) /\ sealed key plaintext r.
Proof.
  intros Hk. destruct (aesgcm_key_sizes key Hk) as [a Ha].
  destruct (aesgcm_encrypt_ok a (fresh_nonce w) plaintext None) as [ct Hct].
  { apply urandom_length. }
  exists (mkAEAD (fresh_nonce w) ct). split.
  - unfold aead_encrypt, aead_encrypt_ad, os_urandom, at_tick, bind, of_result.
    rewrite Ha. fold (fresh_nonce w). by rewrite Hct.
  - split_and!; simpl.
    + apply urandom_length.
    + by eapply aesgcm_encrypt_length.
    + unfold aead_decrypt, aead_decrypt_ad. rewrite Ha. simpl.
      by rewrite (aesgcm_decrypt_encrypt _ _ _ _ _ Hct).
Qed.

(** A successful encryption is a sealed message, whatever the key length. *)
Lemma aead_encrypt_inv key plaintext w r w' :
  aead_encrypt key plaintext w = (Ok r, w') ->
  w' = advance w /\ sealed key plaintext r.
Proof.
  unfold aead_encrypt, aead_encrypt_ad, os_urandom, at_tick, bind, of_result.
  destruct (aesgcm_new key) as [a|] eqn:Ha; [|done].
  destruct (aesgcm_encrypt a _ plaintext None) as [ct|] eqn:Hct; [|done].
  intros [= <- <-]. split; [done|]. split_and!; simpl.
  - apply urandom_length.
  - by eapply aesgcm_encrypt_length.
  - unfold aead_decrypt, aead_decrypt_ad. rewrite Ha. simpl.
    by rewrite (aesgcm_decrypt_encrypt _ _ _ _ _ Hct).
Qed.

Lemma aead_decrypt_raises key n ct e :
  aead_decrypt key n ct = Raise e -> e = AEADError \/ aesgcm_new key = Raise e.
Proof.
  unfold aead_decrypt, aead_decrypt_ad.
  destruct (aesgcm_new key) as [a|e'] eqn:Ha; simpl; [|intros [= ->]; auto].
  destruct (aesgcm_decrypt a n ct None); [done|]. intros [= <-]. auto.
Qed.

Lemma aead_decrypt_good_key key n ct :
  length key = 32%nat ->
  (exists pt, aead_decrypt key n ct = Ok pt) \/ aead_decrypt key n ct = Raise AEADError.
Proof.
  intros Hk. destruct (aesgcm_key_sizes key Hk) as [a Ha].
  unfold aead_decrypt, aead_decrypt_ad. rewrite Ha. simpl.
  destruct (aesgcm_decrypt a n ct None); eauto.
Qed.

Lemma derive_session_key_ok secret context :
  exists k, derive_session_key secret context = Ok k /\ length k = 32%nat.
Proof.
  destruct (hkdf_ok AES_KEY_BYTES None context secret) as [k Hk].
  { unfold AES_KEY_BYTES. lia. }
  exists k. split; [done|]. by eapply hkdf_length.
Qed.
End Aead.
