(* ===== verification/Backends.v ===== *)
(** * The streaming backends ([model/streaming_backends/])

    Where a stream's tokens come from: the synthetic generator, the two real
    models behind their libraries, and the registry that caches one of them
    per process.  NumPy's generators, llama-cpp-python and transformers are
    parameters. *)
From S2P Require Import Prelude PyBytes Sha256 PyVal World PyList PyNum.

(** ** [numpy.random] *)

(** [default_rng(seed)], [rng.integers(lo, hi)] and [rng.normal(0, 1, size)]. *)
Class NumpyRng (R : Type) := {
  default_rng : Z -> R;
  integers : Z -> Z -> R -> Z * R;
  normal : nat -> R -> list Q * R;
}.
Class NumpyRngLaws {R} (NR : NumpyRng R) := {
  integers_range lo hi r : lo < hi -> lo <= fst (integers lo hi r) < hi;
  normal_length n r : length (fst (normal n r)) = n;
}.

(** [int.from_bytes(hashlib.sha256(prompt.encode()).digest()[:8], "big") % (2**32)]. *)
Definition prompt_seed (prompt : string) : Z :=
  be_word (firstn 8 (sha256 (encode prompt))) mod 2 ^ 32.

(** [_WORD_BANK]. *)
Definition _WORD_BANK : list string :=
  ["quantum"; "lattice"; "cryptography"; "inference"; "latency"; "payload"; "signature";
   "ciphertext"; "handshake"; "concurrency"; "endpoint"; "model"; "classifier"; "response";
   "request"; "overhead"; "encryption"; "authentication"; "verification"; "adversary"; "threat";
   "harvest"; "decrypt"; "resilient"; "scalable"; "throughput"; "benchmark"; "empirical";
   "framework"; "architecture"; "migration"; "deployment"; "stream"; "token"; "chunk";
   "checkpoint"; "hash"; "chain"; "signed"].

(** [name or os.environ.get(var, default)]. *)
Definition or_environ (name : option string) (var default : string)
    (environ : list (string * string)) : string :=
  match name with
  | Some s => if String.eqb s "" then dget_or var default environ else s
  | None => dget_or var default environ
  end.

(** ** [SyntheticStreamingBackend] *)
Record SyntheticStreamingBackend := mkSynthetic { tokens_per_second : Q }.

(** [tokens_per_second or float(os.environ.get(...))]. *)
Definition new_synthetic (rate : option Q) (environ : list (string * string))
    : result SyntheticStreamingBackend :=
  let from_env := (let? q := float_of_str (dget_or "PQ_SHIELD_SYNTHETIC_TOKENS_PER_SEC" "30" environ) in
                   Ok (mkSynthetic q)) in
  match rate with
  | Some q => if Qeq_bool q 0 then from_env else Ok (mkSynthetic q)
  | None => from_env
  end.

Section Synthetic.
Context {R : Type} {NR : NumpyRng R}.

Definition delay_s (b : SyntheticStreamingBackend) : Q :=
  if Qle_bool (tokens_per_second b) 0 then 0%Q else (1 / tokens_per_second b)%Q.

(** [word_bank[int(rng.integers(0, len(word_bank)))]]. *)
Definition pick_word (bank : list string) (r : R) : result string * R :=
  let '(i, r') := integers 0 (py_len bank) r in (getitem_at bank i, r').

Fixpoint synthetic_tokens (n : nat) (r : R) : result (list string) :=
  match n with
  | O => Ok []
  | S n' =>
      let '(w, r') := pick_word _WORD_BANK r in
      let? word := w in
      let? rest := synthetic_tokens n' r' in
      Ok ((word +:+ " ") :: rest)
  end.

(** The pieces a stream yields, each with the pause before it. *)
Definition synthetic_stream (b : SyntheticStreamingBackend) (prompt : val) (max_tokens : Z)
    : result (list (Q * string)) :=
  let? p := as_str prompt in
  let? tokens := synthetic_tokens (Z.to_nat max_tokens) (default_rng (prompt_seed p)) in
  Ok (map (fun t => (delay_s b, t)) tokens).

(** The tokens alone: what the server's generator sees. *)
Definition synthetic_backend (b : SyntheticStreamingBackend) (prompt : val) (max_tokens : Z)
    : result (list string) :=
  let? pieces := synthetic_stream b prompt max_tokens in Ok (map snd pieces).
End Synthetic.

(** ** The real models *)
Class ModelLibs (L H : Type) := {
  (** Whether the packages import. *)
  llama_cpp_installed : bool;
  transformers_installed : bool;
  isfile : string -> bool;
  (** [Llama(model_path, n_ctx, n_threads, n_gpu_layers)]. *)
  Llama : string -> Z -> option Z -> Z -> result L;
  (** The texts of the chunks a completion yields. *)
  llama_texts : L -> string -> Z -> list string;
  (** The tokenizer and the model of that name on that device. *)
  from_pretrained : string -> string -> result H;
  (** What the [TextIteratorStreamer] yields for a prompt. *)
  streamer_texts : H -> string -> Z -> list string;
}.

Definition newline : string := String (Ascii.ascii_of_nat 10) "".

(** [if text: yield text]. *)
Definition nonempty_texts (texts : list string) : list string :=
  List.filter (fun t => negb (String.eqb t "")) texts.

Section Models.
Context {L H : Type} {ML : ModelLibs L H}.

(** [model_path or os.environ.get(...)], which has no default. *)
Definition model_path_of (model_path : option string) (environ : list (string * string)) : string :=
  or_environ model_path "PQ_SHIELD_LLAMA_MODEL_PATH" "" environ.

Definition new_llama_cpp (model_path : option string) (n_ctx : Z) (n_threads n_gpu_layers : option Z)
    (environ : list (string * string)) : result L :=
  if negb llama_cpp_installed then Raise (RuntimeError "llama-cpp-python is not installed.")
  else
    let path := model_path_of model_path environ in
    if String.eqb path "" then Raise (RuntimeError "PQ_SHIELD_LLAMA_MODEL_PATH is not set.")
    else if negb (isfile path) then
      Raise (RuntimeError ("PQ_SHIELD_LLAMA_MODEL_PATH does not point to a file: '" +:+ path +:+ "'"))
    else
      let? layers := (match n_gpu_layers with
                      | Some n => Ok n
                      | None => int_of_str (dget_or "PQ_SHIELD_LLAMA_GPU_LAYERS" "-1" environ)
                      end) in
      Llama path n_ctx n_threads layers.

Definition llama_stream (llm : L) (prompt : string) (max_tokens : Z) : list string :=
  let formatted := "<|user|>" +:+ newline +:+ prompt +:+ newline +:+ "<|assistant|>" +:+ newline in
  nonempty_texts (llama_texts llm formatted max_tokens).

Definition new_transformers (model_name device : option string)
    (environ : list (string * string)) : result H :=
  if negb transformers_installed then Raise (RuntimeError "transformers/torch are not installed.")
  else
    from_pretrained (or_environ model_name "PQ_SHIELD_HF_MODEL" "meta-llama/Llama-3.2-1B-Instruct" environ)
                    (or_environ device "PQ_SHIELD_HF_DEVICE" "cpu" environ).

Definition transformers_stream (hf : H) (prompt : string) (max_tokens : Z) : list string :=
  nonempty_texts (streamer_texts hf prompt max_tokens).

(** ** The registry *)
Inductive StreamingBackend :=
  | Synthetic (b : SyntheticStreamingBackend)
  | LlamaCpp (llm : L)
  | Transformers (hf : H).

Definition real_inference (b : StreamingBackend) : bool :=
  match b with Synthetic _ => false | LlamaCpp _ | Transformers _ => true end.
Definition backend_name (b : StreamingBackend) : string :=
  match b with
  | Synthetic _ => "synthetic" | LlamaCpp _ => "llama_cpp" | Transformers _ => "transformers" end.

Definition BACKEND_NAMES : list string := ["synthetic"; "llama_cpp"; "transformers"].

Definition new_backend (name : string) (environ : list (string * string)) : result StreamingBackend :=
  if String.eqb name "synthetic" then
    let? b := new_synthetic None environ in Ok (Synthetic b)
  else if String.eqb name "llama_cpp" then
    let? llm := new_llama_cpp None 4096 None None environ in Ok (LlamaCpp llm)
  else if String.eqb name "transformers" then
    let? hf := new_transformers None None environ in Ok (Transformers hf)
  else Raise (ValueError ("Unknown PQ_SHIELD_STREAMING_BACKEND='" +:+ name
                          +:+ "'. Valid: ['synthetic', 'llama_cpp', 'transformers']")).

(** The state is the module's [_instance]. *)
Abbreviation instance := (option StreamingBackend).

Definition get_backend (name : option string) (environ : list (string * string))
    : M instance StreamingBackend := fun inst =>
  match inst with
  | Some b => (Ok b, inst)
  | None =>
      match new_backend (or_environ name "PQ_SHIELD_STREAMING_BACKEND" "synthetic" environ) environ with
      | Ok b => (Ok b, Some b)
      | Raise e => (Raise e, None)
      end
  end.

Definition reset_backend_cache : M instance unit := put None.

Context {R : Type} {NR : NumpyRng R}.

(** [backend.stream(prompt, max_tokens)] for a prompt that is a string. *)
Definition stream (b : StreamingBackend) (prompt : string) (max_tokens : Z) : result (list string) :=
  match b with
  | Synthetic s => synthetic_backend s (VStr prompt) max_tokens
  | LlamaCpp llm => Ok (llama_stream llm prompt max_tokens)
  | Transformers hf => Ok (transformers_stream hf prompt max_tokens)
  end.
End Models.
