(* ===== verification/OqsAdapter.v ===== *)
(** * The liboqs adapter ([crypto/oqs_adapter.py])

    Each static method is the adapter's: its length guards, the call of the C
    function with the random bytes it draws, the status check and the buffers
    it returns.  [fixed_randomness] is the context manager that substitutes
    liboqs's random source for the known-answer tests. *)
From stdpp Require Import pretty.
From S2P Require Import Prelude PyBytes PyVal World.

Definition OQS_SUCCESS : Z := 0.

Definition ML_KEM_768_PUBLIC_KEY_BYTES : nat := 1184.
Definition ML_KEM_768_SECRET_KEY_BYTES : nat := 2400.
Definition ML_KEM_768_CIPHERTEXT_BYTES : nat := 1088.
Definition ML_KEM_768_SHARED_SECRET_BYTES : nat := 32.
Definition ML_KEM_768_KEYGEN_COINS_BYTES : nat := 64.
Definition ML_KEM_768_ENCAPS_COINS_BYTES : nat := 32.
Definition ML_DSA_65_PUBLIC_KEY_BYTES : nat := 1952.
Definition ML_DSA_65_SECRET_KEY_BYTES : nat := 4032.
Definition ML_DSA_65_SIGNATURE_MAX_BYTES : nat := 3309.

Record KemKeypair := mkKemKeypair { kem_public_key : bytes; kem_secret_key : bytes }.
Record SigKeypair := mkSigKeypair { sig_public_key : bytes; sig_secret_key : bytes }.

(** [b.ljust(n, b"\x00")]. *)
Definition ljust (n : nat) (b : bytes) : bytes := b ++ replicate (n - length b) Byte.x00.

(** [data[i:j]]. *)
Definition slice (i j : nat) (data : bytes) : bytes := firstn (j - i) (skipn i data).

Section Adapter.
Context {E : Env} {P : Prims}.

(** [OQS_randombytes(buf, n)]: the system source, or
    [fixed_randomness._cb], which records the size and hands out the next
    slice of the data, zero-filled when the data runs out. *)
Definition fixed_randomness_cb (data : bytes) (requested : list nat) (n : nat)
    : bytes * list nat :=
  let requested' := requested ++ [n] in
  let chunk := slice (sum_nat requested) (sum_nat requested') data in
  let chunk := if Nat.eqb (length chunk) n then chunk else ljust n chunk in
  (chunk, requested').

Definition OQS_randombytes (n : nat) : M world bytes := fun w =>
  match oqs_rng w with
  | SystemRng => os_urandom n w
  | CustomRng data requested =>
      let '(chunk, requested') := fixed_randomness_cb data requested n in
      (Ok chunk, set_rng (CustomRng data requested') w)
  end.

Fixpoint draw_all (sizes : list nat) : M world bytes :=
  match sizes with
  | [] => ret []
  | n :: rest =>
      let* c := OQS_randombytes n in
      let* cs := draw_all rest in
      ret (c ++ cs)
  end.

(** *** [MLKEM768] *)
Definition MLKEM768_keypair : M world KemKeypair :=
  let* coins := draw_all kem_keypair_draws in
  let '(rc, (pk, sk)) := oqs_kem_keypair coins in
  if negb (rc =? OQS_SUCCESS)
  then raise (OQSAdapterError "OQS_KEM_ml_kem_768_keypair failed")
  else ret (mkKemKeypair pk sk).

(** Returns (ciphertext, shared_secret). *)
Definition MLKEM768_encaps (public_key : bytes) : M world (bytes * bytes) :=
  if negb (Nat.eqb (length public_key) ML_KEM_768_PUBLIC_KEY_BYTES)
  then raise (OQSAdapterError ("ML-KEM-768 public key must be 1184 bytes, got " +:+ pretty (length public_key)))
  else
    let* coins := draw_all kem_encaps_draws in
    let '(rc, (ct, ss)) := oqs_kem_encaps coins public_key in
    if negb (rc =? OQS_SUCCESS)
    then raise (OQSAdapterError "OQS_KEM_ml_kem_768_encaps failed")
    else ret (ct, ss).

Definition MLKEM768_decaps (ciphertext secret_key : bytes) : result bytes :=
  if negb (Nat.eqb (length ciphertext) ML_KEM_768_CIPHERTEXT_BYTES)
  then Raise (OQSAdapterError ("ML-KEM-768 ciphertext must be 1088 bytes, got " +:+ pretty (length ciphertext)))
  else if negb (Nat.eqb (length secret_key) ML_KEM_768_SECRET_KEY_BYTES)
  then Raise (OQSAdapterError "ML-KEM-768 secret key has unexpected length")
  else
    let '(rc, ss) := oqs_kem_decaps ciphertext secret_key in
    if negb (rc =? OQS_SUCCESS)
    then Raise (OQSAdapterError "OQS_KEM_ml_kem_768_decaps failed")
    else Ok ss.

Definition MLKEM768_keypair_derand (coins : bytes) : result KemKeypair :=
  if negb (Nat.eqb (length coins) ML_KEM_768_KEYGEN_COINS_BYTES)
  then Raise (OQSAdapterError ("ML-KEM-768 keygen coins must be 64 bytes, got " +:+ pretty (length coins)))
  else
    let '(rc, (pk, sk)) := oqs_kem_keypair_derand coins in
    if negb (rc =? OQS_SUCCESS)
    then Raise (OQSAdapterError "OQS_KEM_ml_kem_768_keypair_derand failed")
    else Ok (mkKemKeypair pk sk).

Definition MLKEM768_encaps_derand (public_key coins : bytes) : result (bytes * bytes) :=
  if negb (Nat.eqb (length public_key) ML_KEM_768_PUBLIC_KEY_BYTES)
  then Raise (OQSAdapterError ("ML-KEM-768 public key must be 1184 bytes, got " +:+ pretty (length public_key)))
  else if negb (Nat.eqb (length coins) ML_KEM_768_ENCAPS_COINS_BYTES)
  then Raise (OQSAdapterError ("ML-KEM-768 encaps coins must be 32 bytes, got " +:+ pretty (length coins)))
  else
    let '(rc, (ct, ss)) := oqs_kem_encaps_derand public_key coins in
    if negb (rc =? OQS_SUCCESS)
    then Raise (OQSAdapterError "OQS_KEM_ml_kem_768_encaps_derand failed")
    else Ok (ct, ss).

(** *** [MLDSA65] *)
Definition MLDSA65_keypair : M world SigKeypair :=
  let* coins := draw_all sig_keypair_draws in
  let '(rc, (pk, sk)) := oqs_sig_keypair coins in
  if negb (rc =? OQS_SUCCESS)
  then raise (OQSAdapterError "OQS_SIG_ml_dsa_65_keypair failed")
  else ret (mkSigKeypair pk sk).

Definition MLDSA65_sign (message secret_key : bytes) : M world bytes :=
  if negb (Nat.eqb (length secret_key) ML_DSA_65_SECRET_KEY_BYTES)
  then raise (OQSAdapterError "ML-DSA-65 secret key has unexpected length")
  else
    let* coins := draw_all sig_sign_draws in
    let '(rc, (sig_buf, sig_len)) := oqs_sig_sign coins message secret_key in
    if negb (rc =? OQS_SUCCESS)
    then raise (OQSAdapterError "OQS_SIG_ml_dsa_65_sign failed")
    else ret (firstn sig_len sig_buf).

Definition MLDSA65_verify (message signature public_key : bytes) : result bool :=
  if negb (Nat.eqb (length public_key) ML_DSA_65_PUBLIC_KEY_BYTES)
  then Raise (OQSAdapterError "ML-DSA-65 public key has unexpected length")
  else Ok (oqs_sig_verify message signature public_key =? OQS_SUCCESS).

Definition MLDSA65_sign_with_context (message context secret_key : bytes) : M world bytes :=
  if negb (Nat.eqb (length secret_key) ML_DSA_65_SECRET_KEY_BYTES)
  then raise (OQSAdapterError "ML-DSA-65 secret key has unexpected length")
  else
    let* coins := draw_all sig_sign_draws in
    let '(rc, (sig_buf, sig_len)) := oqs_sig_sign_with_ctx coins message context secret_key in
    if negb (rc =? OQS_SUCCESS)
    then raise (OQSAdapterError "OQS_SIG_ml_dsa_65_sign_with_ctx_str failed")
    else ret (firstn sig_len sig_buf).

Definition MLDSA65_verify_with_context (message signature context public_key : bytes)
    : result bool :=
  if negb (Nat.eqb (length public_key) ML_DSA_65_PUBLIC_KEY_BYTES)
  then Raise (OQSAdapterError "ML-DSA-65 public key has unexpected length")
  else if Nat.ltb 255 (length context)
  then Raise (OQSAdapterError "ML-DSA-65 context string must be <= 255 bytes (FIPS 204)")
  else Ok (oqs_sig_verify_with_ctx message signature context public_key =? OQS_SUCCESS).

(** *** [fixed_randomness] *)

(** [with fixed_randomness(data): body]: [__exit__] restores the system
    source and, when the body did not raise, checks the bytes requested. *)
Definition fixed_randomness {A} (data : bytes) (body : M world A) : M world A := fun w =>
  let '(r, w1) := body (set_rng (CustomRng data []) w) in
  let requested := match oqs_rng w1 with CustomRng _ q => q | SystemRng => [] end in
  let w2 := set_rng SystemRng w1 in
  match r with
  | Raise e => (Raise e, w2)
  | Ok a =>
      if negb (Nat.eqb (sum_nat requested) (length data))
      then (Raise (OQSAdapterError "liboqs drew a different number of random bytes"), w2)
      else (Ok a, w2)
  end.

(** *** [verify_algorithms]: the start-up round-trip self-test *)
Definition verify_algorithms : M world dict :=
  let* kp := MLKEM768_keypair in
  let* cs := MLKEM768_encaps (kem_public_key kp) in
  let '(ct, ss1) := cs in
  let* ss2 := of_result (MLKEM768_decaps ct (kem_secret_key kp)) in
  if negb (bytes_eqb ss1 ss2)
  then raise (OQSAdapterError "ML-KEM-768 self-test failed: shared secrets do not match")
  else
  let* skp := MLDSA65_keypair in
  let msg := encode "pq-shield self-test" in
  let* sig := MLDSA65_sign msg (sig_secret_key skp) in
  let* good := of_result (MLDSA65_verify msg sig (sig_public_key skp)) in
  if negb good
  then raise (OQSAdapterError "ML-DSA-65 self-test failed: valid signature rejected")
  else
  let* bad := of_result (MLDSA65_verify (encode "tampered message") sig (sig_public_key skp)) in
  if bad : bool
  then raise (OQSAdapterError "ML-DSA-65 self-test failed: tampered message accepted")
  else
  ret [("ML-KEM-768", VDict
         [("public_key_bytes", VInt (Z.of_nat ML_KEM_768_PUBLIC_KEY_BYTES));
          ("secret_key_bytes", VInt (Z.of_nat ML_KEM_768_SECRET_KEY_BYTES));
          ("ciphertext_bytes", VInt (Z.of_nat ML_KEM_768_CIPHERTEXT_BYTES));
          ("shared_secret_bytes", VInt (Z.of_nat ML_KEM_768_SHARED_SECRET_BYTES))]);
       ("ML-DSA-65", VDict
         [("public_key_bytes", VInt (Z.of_nat ML_DSA_65_PUBLIC_KEY_BYTES));
          ("secret_key_bytes", VInt (Z.of_nat ML_DSA_65_SECRET_KEY_BYTES));
          ("signature_bytes_observed", VInt (Z.of_nat (length sig)));
          ("signature_bytes_max", VInt (Z.of_nat ML_DSA_65_SIGNATURE_MAX_BYTES))])].
End Adapter.

(** ** Randomness *)
Section Randomness.
Context {E : Env} {EL : EnvLaws E}.

Lemma ljust_length n b : (length b <= n)%nat -> length (ljust n b) = n.
Proof. intros H. unfold ljust. rewrite length_app, length_replicate. lia. Qed.

Lemma sum_nat_app l k : sum_nat (l ++ k) = (sum_nat l + sum_nat k)%nat.
Proof. induction l as [|x l IH]; simpl; [done|]. rewrite IH. lia. Qed.

Lemma slice_length i j (d : bytes) : (length (slice i j d) <= j - i)%nat.
Proof. unfold slice. rewrite length_firstn. lia. Qed.

Lemma fixed_randomness_cb_length data q n c q' :
  fixed_randomness_cb data q n = (c, q') -> length c = n /\ q' = q ++ [n].
Proof.
  unfold fixed_randomness_cb. intros [= <- <-]. split; [|done].
  destruct (Nat.eqb_spec (length (slice (sum_nat q) (sum_nat (q ++ [n])) data)) n); [done|].
  apply ljust_length. pose proof (slice_length (sum_nat q) (sum_nat (q ++ [n])) data) as H.
  rewrite sum_nat_app in H at 2. simpl in H. lia.
Qed.

(** Within the data, the callback hands out exactly the next bytes. *)
Lemma fixed_randomness_cb_within data q n :
  (sum_nat (q ++ [n]) <= length data)%nat ->
  fst (fixed_randomness_cb data q n) = firstn n (skipn (sum_nat q) data).
Proof.
  rewrite sum_nat_app. simpl. intros H. unfold fixed_randomness_cb, slice. simpl.
  rewrite sum_nat_app. simpl.
  replace (sum_nat q + (n + 0) - sum_nat q)%nat with n by lia.
  rewrite (proj2 (Nat.eqb_eq _ _)); [done|].
  rewrite length_firstn, length_skipn. lia.
Qed.

Lemma OQS_randombytes_run n w :
  exists c w', OQS_randombytes n w = (Ok c, w') /\ length c = n.
Proof.
  unfold OQS_randombytes. destruct (oqs_rng w) as [|data q].
  - eexists _, _. split; [reflexivity|]. apply urandom_length.
  - destruct (fixed_randomness_cb data q n) as [c q'] eqn:Hc.
    eexists _, _. split; [done|]. by eapply fixed_randomness_cb_length.
Qed.

Lemma draw_all_run sizes w :
  exists cs w', draw_all sizes w = (Ok cs, w') /\ length cs = sum_nat sizes.
Proof.
  revert w; induction sizes as [|n sizes IH]; intros w; simpl.
  - eexists _, _. split; [reflexivity|done].
  - destruct (OQS_randombytes_run n w) as (c & w1 & Hc & Lc).
    destruct (IH w1) as (cs & w2 & Hcs & Lcs).
    exists (c ++ cs), w2. rewrite (bind_Ok _ _ _ _ _ Hc), (bind_Ok _ _ _ _ _ Hcs).
    split; [reflexivity|]. rewrite length_app. lia.
Qed.

(** Drawing under the callback: the sizes are recorded, and as long as the
    data suffices the bytes are the data's. *)
Lemma draw_all_custom sizes data q w :
  oqs_rng w = CustomRng data q ->
  exists cs w', draw_all sizes w = (Ok cs, w')
    /\ oqs_rng w' = CustomRng data (q ++ sizes)
    /\ ((sum_nat (q ++ sizes) <= length data)%nat ->
        cs = firstn (sum_nat sizes) (skipn (sum_nat q) data)).
Proof.
  revert q w; induction sizes as [|n sizes IH]; intros q w Hw; simpl.
  - exists [], w. rewrite app_nil_r. done.
  - assert (exists c, OQS_randombytes n w = (Ok c, set_rng (CustomRng data (q ++ [n])) w)
              /\ c = fst (fixed_randomness_cb data q n)) as (c & Hc & Ec).
    { unfold OQS_randombytes. rewrite Hw. simpl. eauto. }
    destruct (IH (q ++ [n]) (set_rng (CustomRng data (q ++ [n])) w) eq_refl)
      as (cs & w2 & Hcs & Hr & Hb).
    rewrite (bind_Ok _ _ _ _ _ Hc), (bind_Ok _ _ _ _ _ Hcs).
    exists (c ++ cs), w2. rewrite <- app_assoc in Hr, Hb. simpl in Hr, Hb.
    split_and!; [done|done|]. intros Hle. rewrite Hb by done.
    rewrite sum_nat_app in Hle. simpl in Hle.
    rewrite Ec, fixed_randomness_cb_within by (rewrite sum_nat_app; simpl; lia).
    rewrite sum_nat_app. simpl.
    rewrite <- (firstn_skipn n (firstn (n + sum_nat sizes) (skipn (sum_nat q) data))).
    rewrite firstn_firstn, skipn_firstn_comm, skipn_skipn.
    do 2 f_equal; [lia|lia|f_equal; lia].
Qed.
End Randomness.

(** ** What honest use of the adapter yields *)
Section Honest.
Context {E : Env} {P : Prims} {EL : EnvLaws E} {PL : PrimLaws P}.

(** Keys the adapter produced. *)
Definition kem_pair (pk sk : bytes) : Prop := exists coins, oqs_kem_keypair coins = (0, (pk, sk)).
Definition sig_pair (pk sk : bytes) : Prop := exists coins, oqs_sig_keypair coins = (0, (pk, sk)).

Lemma MLKEM768_keypair_run w :
  exists kp w', MLKEM768_keypair w = (Ok kp, w')
    /\ kem_pair (kem_public_key kp) (kem_secret_key kp)
    /\ length (kem_public_key kp) = ML_KEM_768_PUBLIC_KEY_BYTES
    /\ length (kem_secret_key kp) = ML_KEM_768_SECRET_KEY_BYTES.
Proof.
  destruct (draw_all_run kem_keypair_draws w) as (cs & w' & Hcs & L).
  destruct (oqs_kem_keypair_ok cs L) as (pk & sk & Hk & Lpk & Lsk).
  exists (mkKemKeypair pk sk), w'. unfold MLKEM768_keypair.
  rewrite (bind_Ok _ _ _ _ _ Hcs), Hk. simpl. split_and!; [done|by exists cs|done|done].
Qed.

Lemma MLKEM768_encaps_run pk sk w :
  kem_pair pk sk -> length pk = ML_KEM_768_PUBLIC_KEY_BYTES ->
  length sk = ML_KEM_768_SECRET_KEY_BYTES ->
  exists ct ss w', MLKEM768_encaps pk w = (Ok (ct, ss), w')
    /\ length ct = ML_KEM_768_CIPHERTEXT_BYTES
    /\ length ss = ML_KEM_768_SHARED_SECRET_BYTES
    /\ MLKEM768_decaps ct sk = Ok ss.
Proof.
  intros [kc Hk] Lpk Lsk.
  destruct (draw_all_run kem_encaps_draws w) as (cs & w' & Hcs & L).
  destruct (oqs_kem_encaps_ok cs kc pk sk L Hk) as (ct & ss & He & Lct & Lss & Hd).
  exists ct, ss, w'. unfold MLKEM768_encaps, MLKEM768_decaps.
  rewrite Lpk, Lct, Lsk, !Nat.eqb_refl. cbn [negb].
  rewrite (bind_Ok _ _ _ _ _ Hcs), He, Hd. done.
Qed.

Lemma MLDSA65_keypair_run w :
  exists kp w', MLDSA65_keypair w = (Ok kp, w')
    /\ sig_pair (sig_public_key kp) (sig_secret_key kp)
    /\ length (sig_public_key kp) = ML_DSA_65_PUBLIC_KEY_BYTES
    /\ length (sig_secret_key kp) = ML_DSA_65_SECRET_KEY_BYTES.
Proof.
  destruct (draw_all_run sig_keypair_draws w) as (cs & w' & Hcs & L).
  destruct (oqs_sig_keypair_ok cs L) as (pk & sk & Hk & Lpk & Lsk).
  exists (mkSigKeypair pk sk), w'. unfold MLDSA65_keypair.
  rewrite (bind_Ok _ _ _ _ _ Hcs), Hk. simpl. split_and!; [done|by exists cs|done|done].
Qed.

Lemma MLDSA65_sign_run pk sk m w :
  sig_pair pk sk -> length pk = ML_DSA_65_PUBLIC_KEY_BYTES ->
  length sk = ML_DSA_65_SECRET_KEY_BYTES ->
  exists sig w', MLDSA65_sign m sk w = (Ok sig, w')
    /\ (length sig <= ML_DSA_65_SIGNATURE_MAX_BYTES)%nat /\ sig <> []
    /\ MLDSA65_verify m sig pk = Ok true.
Proof.
  intros [kc Hk] Lpk Lsk.
  destruct (draw_all_run sig_sign_draws w) as (cs & w' & Hcs & L).
  destruct (oqs_sig_sign_ok cs kc m pk sk L Hk) as (buf & n & Hs & Lb & Ln & Hv).
  exists (firstn n buf), w'. unfold MLDSA65_sign, MLDSA65_verify.
  rewrite Lpk, Lsk, !Nat.eqb_refl. cbn [negb].
  rewrite (bind_Ok _ _ _ _ _ Hcs), Hs, Hv. split_and!; [done| | |done].
  - rewrite length_firstn, Lb. apply Nat.min_le_iff. by right.
  - intros Hnil. apply (f_equal length) in Hnil. rewrite length_firstn, Lb in Hnil.
    simpl length in Hnil. lia.
Qed.

(** [fixed_randomness] always leaves the system source installed. *)
Lemma fixed_randomness_restores {A} data (body : M world A) w :
  oqs_rng (snd (fixed_randomness data body w)) = SystemRng.
Proof.
  unfold fixed_randomness. destruct (body _) as [[a|e] w1]; [|done].
  destruct (negb _); done.
Qed.

(** Code that draws once and computes, under [fixed_randomness]: exactly the
    vector's bytes are used, or the call raises. *)
Lemma fixed_randomness_draws {A} data sizes (k : bytes -> result A) w :
  exists r w', oqs_rng w' = SystemRng
    /\ fixed_randomness data (let* coins := draw_all sizes in of_result (k coins)) w = (r, w')
    /\ (sum_nat sizes = length data -> r = k data)
    /\ (sum_nat sizes <> length data -> exists e, r = Raise e).
Proof.
  destruct (draw_all_custom sizes data [] (set_rng (CustomRng data []) w) eq_refl)
    as (cs & w1 & Hcs & Hr & Hb).
  unfold fixed_randomness. rewrite (bind_Ok _ _ _ _ _ Hcs). cbn [of_result].
  rewrite Hr. simpl. eexists (match k cs with
    | Ok a => if negb (sum_nat sizes =? length data)%nat then Raise _ else Ok a
    | Raise e => Raise e end), (set_rng SystemRng w1).
  split_and!; [done| | |].
  - destruct (k cs); [|done]. destruct (negb _); done.
  - intros Heq. assert (cs = data) as ->.
    { rewrite Hb by (simpl; lia). simpl. rewrite Heq. apply firstn_all. }
    rewrite (proj2 (Nat.eqb_eq _ _) Heq). by destruct (k data).
  - intros Hne. rewrite (proj2 (Nat.eqb_neq _ _) Hne). simpl. destruct (k cs); eauto.
Qed.

Lemma fixed_randomness_ext {A} data (f g : M world A) w :
  (forall w', f w' = g w') -> fixed_randomness data f w = fixed_randomness data g w.
Proof. intros H. unfold fixed_randomness. by rewrite H. Qed.

Definition MLDSA65_keypair_of (coins : bytes) : result SigKeypair :=
  let '(rc, (pk, sk)) := oqs_sig_keypair coins in
  if negb (rc =? OQS_SUCCESS)
  then Raise (OQSAdapterError "OQS_SIG_ml_dsa_65_keypair failed")
  else Ok (mkSigKeypair pk sk).

Lemma MLDSA65_keypair_draws w :
  MLDSA65_keypair w
  = (let* coins := draw_all sig_keypair_draws in of_result (MLDSA65_keypair_of coins)) w.
Proof.
  unfold MLDSA65_keypair, MLDSA65_keypair_of, bind.
  destruct (draw_all sig_keypair_draws w) as [[c|e] w']; [|done].
  destruct (oqs_sig_keypair c) as [rc [pk sk]]. by destruct (negb _).
Qed.

Lemma verify_algorithms_runs w
    (Htamper : forall coins kc pk sk buf n,
      oqs_sig_keypair kc = (0, (pk, sk)) ->
      oqs_sig_sign coins (encode "pq-shield self-test") sk = (0, (buf, n)) ->
      oqs_sig_verify (encode "tampered message") (firstn n buf) pk <> 0) :
  exists report w', verify_algorithms w = (Ok report, w')
    /\ keys report = ["ML-KEM-768"; "ML-DSA-65"].
Proof.
  destruct (MLKEM768_keypair_run w) as (kp & w1 & Hkp & Hpair & Lpk & Lsk).
  destruct (MLKEM768_encaps_run _ _ w1 Hpair Lpk Lsk) as (ct & ss & w2 & He & _ & _ & Hd).
  destruct (MLDSA65_keypair_run w2) as (skp & w3 & Hskp & [kc Hkc] & Lspk & Lssk).
  destruct (draw_all_run sig_sign_draws w3) as (cs & w4 & Hcs & L).
  destruct (oqs_sig_sign_ok cs kc (encode "pq-shield self-test") _ _ L Hkc)
    as (buf & n & Hs & Lb & Ln & Hv).
  unfold verify_algorithms.
  rewrite (bind_Ok _ _ _ _ _ Hkp), (bind_Ok _ _ _ _ _ He).
  rewrite Hd. rewrite (bind_Ok _ _ _ _ _ (eq_refl : of_result (Ok ss) w2 = _)).
  unfold bytes_eqb. rewrite bool_decide_eq_true_2 by done. cbn [negb].
  rewrite (bind_Ok _ _ _ _ _ Hskp).
  assert (Hsign : MLDSA65_sign (encode "pq-shield self-test") (sig_secret_key skp) w3
                  = (Ok (firstn n buf), w4)).
  { unfold MLDSA65_sign. rewrite Lssk, Nat.eqb_refl. cbn [negb].
    by rewrite (bind_Ok _ _ _ _ _ Hcs), Hs. }
  rewrite (bind_Ok _ _ _ _ _ Hsign). unfold MLDSA65_verify.
  rewrite Lspk, Nat.eqb_refl. cbn [negb]. rewrite Hv.
  rewrite (bind_Ok _ _ _ _ _ (eq_refl : of_result (Ok true) w4 = _)). cbn [negb].
  change OQS_SUCCESS with 0. rewrite (proj2 (Z.eqb_neq _ _) (Htamper _ _ _ _ _ _ Hkc Hs)).
  rewrite (bind_Ok _ _ _ _ _ (eq_refl : of_result (Ok false) w4 = _)).
  eexists _, _. split; [reflexivity|reflexivity].
Qed.

(** The length guards are exactly the domain of a decapsulation that
    reaches liboqs. *)
Lemma MLKEM768_decaps_Ok ct sk ss :
  MLKEM768_decaps ct sk = Ok ss <->
  length ct = ML_KEM_768_CIPHERTEXT_BYTES /\ length sk = ML_KEM_768_SECRET_KEY_BYTES
  /\ oqs_kem_decaps ct sk = (0, ss).
Proof.
  unfold MLKEM768_decaps.
  destruct (Nat.eqb_spec (length ct) ML_KEM_768_CIPHERTEXT_BYTES); simpl; [|naive_solver].
  destruct (Nat.eqb_spec (length sk) ML_KEM_768_SECRET_KEY_BYTES); simpl; [|naive_solver].
  destruct (oqs_kem_decaps ct sk) as [rc s]. unfold OQS_SUCCESS.
  destruct (Z.eqb_spec rc 0); simpl; naive_solver.
Qed.
End Honest.

(** Under [fixed_randomness], ML-DSA key generation computes liboqs's
    function of exactly the vector's bytes when liboqs draws as many bytes as
    the vector supplies, raises otherwise, and always restores the system
    source. *)
Theorem fixed_randomness_keygen {E : Env} {P : Prims} {EL : EnvLaws E} (seed : bytes) w :
  exists r w', fixed_randomness seed MLDSA65_keypair w = (r, w')
    /\ oqs_rng w' = SystemRng
    /\ (sum_nat sig_keypair_draws = length seed -> r = MLDSA65_keypair_of seed)
    /\ (sum_nat sig_keypair_draws <> length seed -> exists e, r = Raise e).
Proof.
  rewrite (fixed_randomness_ext _ _ _ _ MLDSA65_keypair_draws).
  destruct (fixed_randomness_draws seed sig_keypair_draws MLDSA65_keypair_of w)
    as (r & w' & Hr & Hrun & H1 & H2). eauto 10.
Qed.
