(* ===== verification/KatVectors.v ===== *)
(** * Known-answer vectors ([validation/kat_vectors.py])

    The loaders of the trimmed ACVP files: each reads a JSON document, checks
    the group it belongs to and decodes the hexadecimal fields of every test.
    Reading and parsing a file is the parameter [_load]. *)
From Stdlib Require Import Strings.Byte.
From S2P Require Import Prelude PyBytes Sha256 PyVal PyList.

(** ** [bytes.fromhex] *)
Definition hex_value (c : byte) : option Z :=
  let z := Z_of_byte c in
  if (48 <=? z) && (z <=? 57) then Some (z - 48)
  else if (97 <=? z) && (z <=? 102) then Some (z - 87)
  else if (65 <=? z) && (z <=? 70) then Some (z - 55)
  else None.

Definition hex_space (c : byte) : bool :=
  let z := Z_of_byte c in (z =? 32) || ((9 <=? z) && (z <=? 13)).

(** Pairs of digits, white space allowed between pairs. *)
Fixpoint fromhex (s : bytes) : result bytes :=
  let bad := Raise (ValueError "non-hexadecimal number found in fromhex() arg") in
  match s with
  | [] => Ok []
  | c :: rest =>
      if hex_space c then fromhex rest
      else match hex_value c, rest with
           | Some hi, d :: rest' =>
               match hex_value d with
               | Some lo => let? out := fromhex rest' in Ok (byte_of_Z (hi * 16 + lo) :: out)
               | None => bad
               end
           | _, _ => bad
           end
  end.

Definition _hx (v : val) : result bytes :=
  match v with
  | VStr s => fromhex (encode s)
  | _ => Raise (TypeError "fromhex() argument must be str")
  end.

(** [_hx(t[k])], [t.get(k, default)] and [assert group[k] == s]. *)
Definition hx_field (k : string) (t : val) : result bytes :=
  let? v := vitem k t in _hx v.
Definition vget (k : string) (default : val) (t : val) : result val :=
  let? d := as_dict t in Ok (dget_or k default d).
Definition assert_field (k s : string) (group : val) : result unit :=
  let? v := vitem k group in
  if val_eq_str v s then Ok tt else Raise (AssertionError "").

(** ** Vectors *)
Record KeyGenVector := mkKeyGenVector {
  kg_tc_id : val; kg_d : bytes; kg_z : bytes; kg_ek : bytes; kg_dk : bytes }.
Definition coins (v : KeyGenVector) : bytes := kg_d v ++ kg_z v.

Record EncapsVector := mkEncapsVector {
  en_tc_id : val; en_ek : bytes; en_m : bytes; en_expected_c : bytes; en_expected_k : bytes }.
Record DecapsVector := mkDecapsVector {
  de_tc_id : val; de_dk : bytes; de_c : bytes; de_expected_k : bytes; de_reason : val }.
Record SigVerVector := mkSigVerVector {
  sv_tc_id : val; sv_pk : bytes; sv_message : bytes; sv_context : bytes;
  sv_signature : bytes; sv_expected_valid : bool; sv_reason : val }.
Record DSAKeyGenVector := mkDSAKeyGenVector {
  dk_tc_id : val; dk_seed : bytes; dk_pk : bytes; dk_sk : bytes }.
Record SigGenVector := mkSigGenVector {
  sg_tc_id : val; sg_deterministic : bool; sg_sk : bytes; sg_message : bytes;
  sg_context : bytes; sg_rnd : bytes; sg_signature : bytes }.

(** ** Loaders *)
Section Loaders.
Variable _load : string -> result val.

Definition meta_of (doc : val) : result val :=
  let? source := vitem "_source" doc in
  let? fetched := vitem "_fetched" doc in
  let? note := vitem "_note" doc in
  Ok (VDict [("source", source); ("fetched", fetched); ("note", note)]).

(** [for t in group["tests"]]. *)
Definition tests_of {A} (f : val -> result A) (group : val) : result (list A) :=
  let? tests := vitem "tests" group in
  let? ts := viter tests in
  rmap f ts.

Definition first_group (doc : val) : result val :=
  let? groups := vitem "testGroups" doc in vindex 0 groups.

Definition keygen_vector (t : val) : result KeyGenVector :=
  let? tc_id := vitem "tcId" t in
  let? d := hx_field "d" t in
  let? z := hx_field "z" t in
  let? ek := hx_field "ek" t in
  let? dk := hx_field "dk" t in
  Ok (mkKeyGenVector tc_id d z ek dk).

Definition load_ml_kem_768_keygen_vectors : result (list KeyGenVector * val) :=
  let? doc := _load "ml_kem_768_keygen.json" in
  let? group := first_group doc in
  let? _ := assert_field "parameterSet" "ML-KEM-768" group in
  let? vectors := tests_of keygen_vector group in
  let? meta := meta_of doc in
  Ok (vectors, meta).

(** [{g["function"]: g for g in doc["testGroups"]}]; a [function] that is not
    a text fails the assertion on the keys (or its message), which one error
    stands for. *)
Definition groups_by_function (doc : val) : result (list (string * val)) :=
  let? gs := vitem "testGroups" doc in
  let? gs := viter gs in
  fold_left (fun acc g =>
    let? d := acc in
    let? k := vitem "function" g in
    match k with
    | VStr k => Ok (dset k g d)
    | _ => Raise (AssertionError "")
    end) gs (Ok []).

Definition encaps_vector (t : val) : result EncapsVector :=
  let? tc_id := vitem "tcId" t in
  let? ek := hx_field "ek" t in
  let? m := hx_field "m" t in
  let? c := hx_field "c" t in
  let? k := hx_field "k" t in
  Ok (mkEncapsVector tc_id ek m c k).

Definition decaps_vector (t : val) : result DecapsVector :=
  let? tc_id := vitem "tcId" t in
  let? dk := hx_field "dk" t in
  let? c := hx_field "c" t in
  let? k := hx_field "k" t in
  let? reason := vget "reason" (VStr "") t in
  Ok (mkDecapsVector tc_id dk c k reason).

Definition load_ml_kem_768_encap_decap_vectors
    : result (list EncapsVector * list DecapsVector * val) :=
  let? doc := _load "ml_kem_768_encap_decap.json" in
  let? groups := groups_by_function doc in
  let? _ := if dmem "encapsulation" groups && dmem "decapsulation" groups
               && Nat.eqb (length groups) 2
            then Ok tt else Raise (AssertionError "") in
  let? ge := getitem "encapsulation" groups in
  let? encaps := tests_of encaps_vector ge in
  let? gd := getitem "decapsulation" groups in
  let? decaps := tests_of decaps_vector gd in
  let? meta := meta_of doc in
  Ok (encaps, decaps, meta).

Definition sigver_vector (t : val) : result SigVerVector :=
  let? tc_id := vitem "tcId" t in
  let? pk := hx_field "pk" t in
  let? message := hx_field "message" t in
  let? ctx := vget "context" (VStr "") t in
  let? context := _hx ctx in
  let? signature := hx_field "signature" t in
  let? passed := vitem "testPassed" t in
  let? reason := vget "reason" (VStr "") t in
  Ok (mkSigVerVector tc_id pk message context signature (truthy passed) reason).

Definition load_ml_dsa_65_sigver_vectors : result (list SigVerVector * val) :=
  let? doc := _load "ml_dsa_65_sigver.json" in
  let? group := first_group doc in
  let? _ := assert_field "parameterSet" "ML-DSA-65" group in
  let? _ := assert_field "signatureInterface" "external" group in
  let? _ := assert_field "preHash" "pure" group in
  let? vectors := tests_of sigver_vector group in
  let? meta := meta_of doc in
  Ok (vectors, meta).

Definition dsa_keygen_vector (t : val) : result DSAKeyGenVector :=
  let? tc_id := vitem "tcId" t in
  let? seed := hx_field "seed" t in
  let? pk := hx_field "pk" t in
  let? sk := hx_field "sk" t in
  Ok (mkDSAKeyGenVector tc_id seed pk sk).

Definition load_ml_dsa_65_keygen_vectors : result (list DSAKeyGenVector * val) :=
  let? doc := _load "ml_dsa_65_keygen.json" in
  let? group := first_group doc in
  let? _ := assert_field "parameterSet" "ML-DSA-65" group in
  let? vectors := tests_of dsa_keygen_vector group in
  let? meta := meta_of doc in
  Ok (vectors, meta).

Definition siggen_vector (det : bool) (t : val) : result SigGenVector :=
  let? tc_id := vitem "tcId" t in
  let? sk := hx_field "sk" t in
  let? message := hx_field "message" t in
  let? ctx := vget "context" (VStr "") t in
  let? context := _hx ctx in
  let? rnd := if det then Ok (replicate 32 Byte.x00) else hx_field "rnd" t in
  let? signature := hx_field "signature" t in
  Ok (mkSigGenVector tc_id det sk message context rnd signature).

Definition siggen_group (group : val) : result (list SigGenVector) :=
  let? _ := assert_field "parameterSet" "ML-DSA-65" group in
  let? _ := assert_field "signatureInterface" "external" group in
  let? _ := assert_field "preHash" "pure" group in
  let? det := vitem "deterministic" group in
  tests_of (siggen_vector (truthy det)) group.

Definition load_ml_dsa_65_siggen_vectors : result (list SigGenVector * val) :=
  let? doc := _load "ml_dsa_65_siggen.json" in
  let? groups := vitem "testGroups" doc in
  let? gs := viter groups in
  let? vectors := rmap siggen_group gs in
  let? meta := meta_of doc in
  Ok (concat vectors, meta).
End Loaders.

(** ** Hexadecimal round trip *)
Lemma hex_value_digit z : 0 <= z < 16 -> hex_value (hex_digit z) = Some z /\ hex_space (hex_digit z) = false.
Proof.
  intros H.
  assert (Hall : forallb (fun k => bool_decide (hex_value (hex_digit (Z.of_nat k)) = Some (Z.of_nat k))
                                   && negb (hex_space (hex_digit (Z.of_nat k)))) (seq 0 16) = true)
    by (vm_compute; reflexivity).
  rewrite forallb_forall in Hall. specialize (Hall (Z.to_nat z)).
  rewrite Z2Nat.id in Hall by lia. apply andb_true_iff in Hall as [H1 H2].
  - by apply bool_decide_eq_true in H1; apply negb_true_iff in H2.
  - apply in_seq. lia.
Qed.

(** [bytes.fromhex(b.hex()) == b]. *)
Lemma fromhex_hexdigest b : _hx (VStr (hexdigest b)) = Ok b.
Proof.
  simpl. unfold hexdigest. rewrite encode_decode.
  induction b as [|x b IH]; [done|]. cbn [map concat app fromhex].
  pose proof (Z_of_byte_range x) as Hx.
  destruct (hex_value_digit (Z_of_byte x / 16)) as [H1 H2].
  { split; [apply Z.div_pos; lia|apply Z.div_lt_upper_bound; lia]. }
  destruct (hex_value_digit (Z_of_byte x mod 16)) as [H3 _]; [apply Z.mod_pos_bound; lia|].
  rewrite H2, H1, H3, IH. cbn [rbind]. repeat f_equal.
  rewrite <- (byte_of_Z_of_byte x) at 3. f_equal. rewrite (Z.div_mod (Z_of_byte x) 16) at 3; lia.
Qed.
