(* ===== verification/NistKat.v ===== *)
(** * Known-answer tests ([validation/nist_kat.py])

    Every suite runs its vectors through the liboqs adapter -- the
    derandomized calls for ML-KEM, [fixed_randomness] for ML-DSA -- and reports
    which vectors were reproduced; [run_all] adds the suites up. *)
From S2P Require Import Prelude PyBytes PyVal World PyList OqsAdapter KatVectors.

(** [sum(r["passed"] for r in rows)]. *)
Definition passed_of (r : dict) : result Z := let? v := getitem "passed" r in as_int v.
Definition sum_passed (rows : list dict) : result Z :=
  let? l := rmap passed_of rows in Ok (Zsum l).

(** The dictionary a suite returns. *)
Definition suite (meta : val) (rows : list dict) (passed : Z) : dict :=
  [("provenance", meta); ("results", VList (map VDict rows));
   ("passed", VInt passed); ("total", VInt (py_len rows))].

Section Kat.
Context {E : Env} {P : Prims}.
Variable _load : string -> result val.

Definition keygen_row (v : KeyGenVector) : M world dict :=
  let* kp := of_result (MLKEM768_keypair_derand (coins v)) in
  ret [("tcId", kg_tc_id v);
       ("ek_match", VBool (bytes_eqb (kem_public_key kp) (kg_ek v)));
       ("dk_match", VBool (bytes_eqb (kem_secret_key kp) (kg_dk v)));
       ("passed", VBool (bytes_eqb (kem_public_key kp) (kg_ek v)
                         && bytes_eqb (kem_secret_key kp) (kg_dk v)))].

Definition run_ml_kem_768_keygen : M world dict :=
  let* vm := of_result (load_ml_kem_768_keygen_vectors _load) in
  let '(vectors, meta) := vm in
  let* results := mmap keygen_row vectors in
  let* passed := of_result (sum_passed results) in
  ret (suite meta results passed).

Definition encaps_row (v : EncapsVector) : M world dict :=
  let* cs := of_result (MLKEM768_encaps_derand (en_ek v) (en_m v)) in
  let '(ct, ss) := cs in
  ret [("tcId", en_tc_id v);
       ("c_match", VBool (bytes_eqb ct (en_expected_c v)));
       ("k_match", VBool (bytes_eqb ss (en_expected_k v)));
       ("passed", VBool (bytes_eqb ct (en_expected_c v) && bytes_eqb ss (en_expected_k v)))].

Definition decaps_row (v : DecapsVector) : M world dict :=
  let* ss := of_result (MLKEM768_decaps (de_c v) (de_dk v)) in
  ret [("tcId", de_tc_id v); ("reason", de_reason v);
       ("k_match", VBool (bytes_eqb ss (de_expected_k v)));
       ("passed", VBool (bytes_eqb ss (de_expected_k v)))].

(** [sum(1 for r in decaps_results if "modified" in r["reason"])]. *)
Definition implicit_rejection_cases (rows : list dict) : result Z :=
  let? sel := rfilter (fun r => let? reason := getitem "reason" r in str_in "modified" reason) rows in
  Ok (py_len sel).

Definition run_ml_kem_768_encap_decap : M world dict :=
  let* vm := of_result (load_ml_kem_768_encap_decap_vectors _load) in
  let '(encaps_vectors, decaps_vectors, meta) := vm in
  let* encaps_results := mmap encaps_row encaps_vectors in
  let* decaps_results := mmap decaps_row decaps_vectors in
  let* encaps_passed := of_result (sum_passed encaps_results) in
  let* rejections := of_result (implicit_rejection_cases decaps_results) in
  let* decaps_passed := of_result (sum_passed decaps_results) in
  ret [("provenance", meta);
       ("encapsulation", VDict
          [("results", VList (map VDict encaps_results)); ("passed", VInt encaps_passed);
           ("total", VInt (py_len encaps_results))]);
       ("decapsulation", VDict
          [("results", VList (map VDict decaps_results));
           ("implicit_rejection_cases", VInt rejections); ("passed", VInt decaps_passed);
           ("total", VInt (py_len decaps_results))])].

Definition sigver_row (v : SigVerVector) : M world dict :=
  let* actual_valid := of_result
    (MLDSA65_verify_with_context (sv_message v) (sv_signature v) (sv_context v) (sv_pk v)) in
  ret [("tcId", sv_tc_id v); ("reason", sv_reason v);
       ("context_bytes", VInt (py_len (sv_context v)));
       ("expected_valid", VBool (sv_expected_valid v)); ("actual_valid", VBool actual_valid);
       ("passed", VBool (Bool.eqb actual_valid (sv_expected_valid v)))].

Definition run_ml_dsa_65_sigver : M world dict :=
  let* vm := of_result (load_ml_dsa_65_sigver_vectors _load) in
  let '(vectors, meta) := vm in
  let* results := mmap sigver_row vectors in
  let* passed := of_result (sum_passed results) in
  ret (suite meta results passed).

Definition dsa_keygen_row (v : DSAKeyGenVector) : M world dict :=
  let* kp := fixed_randomness (dk_seed v) MLDSA65_keypair in
  ret [("tcId", dk_tc_id v);
       ("pk_match", VBool (bytes_eqb (sig_public_key kp) (dk_pk v)));
       ("sk_match", VBool (bytes_eqb (sig_secret_key kp) (dk_sk v)));
       ("passed", VBool (bytes_eqb (sig_public_key kp) (dk_pk v)
                         && bytes_eqb (sig_secret_key kp) (dk_sk v)))].

Definition run_ml_dsa_65_keygen : M world dict :=
  let* vm := of_result (load_ml_dsa_65_keygen_vectors _load) in
  let '(vectors, meta) := vm in
  let* results := mmap dsa_keygen_row vectors in
  let* passed := of_result (sum_passed results) in
  ret (suite meta results passed).

Definition siggen_row (v : SigGenVector) : M world dict :=
  let* sig := fixed_randomness (sg_rnd v)
    (MLDSA65_sign_with_context (sg_message v) (sg_context v) (sg_sk v)) in
  ret [("tcId", sg_tc_id v); ("deterministic", VBool (sg_deterministic v));
       ("context_bytes", VInt (py_len (sg_context v)));
       ("passed", VBool (bytes_eqb sig (sg_signature v)))].

(** [sum(r["passed"] for r in results if r["deterministic"] is b)]. *)
Definition sum_passed_where (b : bool) (rows : list dict) : result Z :=
  let? sel := rfilter (fun r => let? d := getitem "deterministic" r in
                                Ok (Bool.eqb (truthy d) b)) rows in
  sum_passed sel.

Definition run_ml_dsa_65_siggen : M world dict :=
  let* vm := of_result (load_ml_dsa_65_siggen_vectors _load) in
  let '(vectors, meta) := vm in
  let* results := mmap siggen_row vectors in
  let* deterministic := of_result (sum_passed_where true results) in
  let* hedged := of_result (sum_passed_where false results) in
  let* passed := of_result (sum_passed results) in
  ret [("provenance", meta); ("results", VList (map VDict results));
       ("deterministic_passed", VInt deterministic); ("hedged_passed", VInt hedged);
       ("passed", VInt passed); ("total", VInt (py_len results))].

(** [d[k]] as an int, [d[k1][k2]] as one. *)
Definition int_at (k : string) (d : dict) : result Z :=
  let? v := getitem k d in as_int v.
Definition int_at2 (k1 k2 : string) (d : dict) : result Z :=
  let? v := getitem k1 d in let? w := vitem k2 v in as_int w.

(** [f(keygen) + ... + f(siggen)] for [f] the ["passed"] or ["total"] of a
    suite. *)
Definition add_suites (k : string) (keygen encap_decap sigver dsa_keygen siggen : dict) : result Z :=
  let? a := int_at k keygen in
  let? b := int_at2 "encapsulation" k encap_decap in
  let? c := int_at2 "decapsulation" k encap_decap in
  let? d := int_at k sigver in
  let? e := int_at k dsa_keygen in
  let? f := int_at k siggen in
  Ok (a + b + c + d + e + f).

Definition run_all : M world dict :=
  let* keygen := run_ml_kem_768_keygen in
  let* encap_decap := run_ml_kem_768_encap_decap in
  let* sigver := run_ml_dsa_65_sigver in
  let* dsa_keygen := run_ml_dsa_65_keygen in
  let* siggen := run_ml_dsa_65_siggen in
  let* total_passed := of_result (add_suites "passed" keygen encap_decap sigver dsa_keygen siggen) in
  let* total := of_result (add_suites "total" keygen encap_decap sigver dsa_keygen siggen) in
  ret [("ml_kem_768_keygen", VDict keygen);
       ("ml_kem_768_encap_decap", VDict encap_decap);
       ("ml_dsa_65_sigver", VDict sigver);
       ("ml_dsa_65_keygen", VDict dsa_keygen);
       ("ml_dsa_65_siggen", VDict siggen);
       ("not_achievable", VDict
          [("ml_kem_768_key_checks", VStr "liboqs exposes no isolated key-validation entrypoint -- see module docstring");
           ("ml_dsa_65_internal_interface", VStr "liboqs implements only the external/pure ML-DSA interface -- see module docstring")]);
       ("summary", VDict
          [("total_checks", VInt total); ("passed", VInt total_passed);
           ("all_passed", VBool (total_passed =? total))])].
End Kat.

(** ** What the known-answer report says

    A suite passes exactly when liboqs reproduces every vector of it; the
    report counts each vector once, and the random source is the system's
    again afterwards. *)

Section Reproduced.
Context {P : Prims}.

(** liboqs's functions give, on the vector's inputs, the vector's outputs. *)
Definition keygen_reproduced (v : KeyGenVector) : Prop :=
  length (coins v) = ML_KEM_768_KEYGEN_COINS_BYTES
  /\ oqs_kem_keypair_derand (coins v) = (0, (kg_ek v, kg_dk v)).
Definition encaps_reproduced (v : EncapsVector) : Prop :=
  length (en_ek v) = ML_KEM_768_PUBLIC_KEY_BYTES /\ length (en_m v) = ML_KEM_768_ENCAPS_COINS_BYTES
  /\ oqs_kem_encaps_derand (en_ek v) (en_m v) = (0, (en_expected_c v, en_expected_k v)).
Definition decaps_reproduced (v : DecapsVector) : Prop :=
  length (de_c v) = ML_KEM_768_CIPHERTEXT_BYTES /\ length (de_dk v) = ML_KEM_768_SECRET_KEY_BYTES
  /\ oqs_kem_decaps (de_c v) (de_dk v) = (0, de_expected_k v).
Definition sigver_reproduced (v : SigVerVector) : Prop :=
  length (sv_pk v) = ML_DSA_65_PUBLIC_KEY_BYTES /\ (length (sv_context v) <= 255)%nat
  /\ (oqs_sig_verify_with_ctx (sv_message v) (sv_signature v) (sv_context v) (sv_pk v) = 0
      <-> sv_expected_valid v = true).
Definition dsa_keygen_reproduced (v : DSAKeyGenVector) : Prop :=
  sum_nat sig_keypair_draws = length (dk_seed v)
  /\ oqs_sig_keypair (dk_seed v) = (0, (dk_pk v, dk_sk v)).
Definition siggen_reproduced (v : SigGenVector) : Prop :=
  length (sg_sk v) = ML_DSA_65_SECRET_KEY_BYTES /\ sum_nat sig_sign_draws = length (sg_rnd v)
  /\ exists buf n,
       oqs_sig_sign_with_ctx (sg_rnd v) (sg_message v) (sg_context v) (sg_sk v) = (0, (buf, n))
       /\ firstn n buf = sg_signature v.
End Reproduced.

Section Rows.
Context {E : Env} {P : Prims} {EL : EnvLaws E}.

(** What running one vector gives, with the system source before and after. *)
Definition row_decides {V} (f : V -> M world dict) (ok : V -> Prop) : Prop :=
  forall v w, oqs_rng w = SystemRng ->
  exists r w', f v w = (r, w') /\ oqs_rng w' = SystemRng
    /\ match r with
       | Ok row => exists b, getitem "passed" row = Ok (VBool b) /\ (b = true <-> ok v)
       | Raise _ => ~ ok v
       end.

Definition suite_decides {V} (ok : V -> Prop) (vs : list V) (r : result (list dict)) : Prop :=
  match r with
  | Ok rows => length rows = length vs
      /\ exists k, sum_passed rows = Ok k /\ k <= py_len vs /\ (k = py_len vs <-> Forall ok vs)
  | Raise _ => ~ Forall ok vs
  end.

Lemma mmap_decides {V} (f : V -> M world dict) ok vs w :
  row_decides f ok -> oqs_rng w = SystemRng ->
  exists r w', mmap f vs w = (r, w') /\ oqs_rng w' = SystemRng /\ suite_decides ok vs r.
Proof.
  intros Hf. revert w; induction vs as [|v vs IH]; intros w Hw; cbn [mmap].
  { eexists _, _. split; [reflexivity|]. split; [done|]. split; [done|]. exists 0.
    split; [done|]. unfold py_len; simpl. split; [lia|]. split; intros; [constructor|done]. }
  destruct (Hf v w Hw) as (r & w1 & Hr & Hw1 & Hrow). destruct r as [row|e].
  2: { rewrite (bind_Raise _ _ _ _ _ Hr). eexists _, _. split; [reflexivity|].
       split; [done|]. by intros [? _]%Forall_cons. }
  rewrite (bind_Ok _ _ _ _ _ Hr). destruct Hrow as (b & Hb & Hok).
  destruct (IH w1 Hw1) as (rs & w2 & Hrs & Hw2 & Hdec). destruct rs as [rows|e]; simpl in Hdec.
  2: { rewrite (bind_Raise _ _ _ _ _ Hrs). eexists _, _. split; [reflexivity|].
       split; [done|]. by intros [_ ?]%Forall_cons. }
  rewrite (bind_Ok _ _ _ _ _ Hrs). eexists _, _. split; [reflexivity|]. split; [done|].
  destruct Hdec as (Hlen & k & Hk & Hle & Hall). split; [simpl; by f_equal|].
  revert Hk. unfold sum_passed. destruct (rmap passed_of rows) as [l|] eqn:Hl; simpl; [|done].
  intros [= <-]. unfold passed_of at 1. rewrite Hb. simpl. rewrite Hl. simpl.
  rewrite Zsum_cons. eexists. split; [reflexivity|]. unfold py_len in *. cbn [length].
  rewrite Nat2Z.inj_succ, Forall_cons, <- Hok, <- Hall. destruct b; split; lia.
Qed.

Ltac decided :=
  eexists _, _; split; [reflexivity|]; split; [done|].
Ltac out_of_range := decided; naive_solver.
Ltac row_known := decided; eexists; split; [reflexivity|].

Lemma bytes_eqb_true x y : bytes_eqb x y = true <-> x = y.
Proof. apply bool_decide_eq_true. Qed.

Lemma keygen_decides : row_decides keygen_row keygen_reproduced.
Proof.
  intros v w Hw. unfold keygen_row, keygen_reproduced, MLKEM768_keypair_derand, of_result, bind.
  destruct (Nat.eqb_spec (length (coins v)) ML_KEM_768_KEYGEN_COINS_BYTES); simpl; [|out_of_range].
  destruct (oqs_kem_keypair_derand (coins v)) as [rc [pk sk]]. unfold OQS_SUCCESS.
  destruct (Z.eqb_spec rc 0); simpl; [|out_of_range]. row_known.
  rewrite andb_true_iff, !bytes_eqb_true. subst rc. naive_solver.
Qed.

Lemma encaps_decides : row_decides encaps_row encaps_reproduced.
Proof.
  intros v w Hw. unfold encaps_row, encaps_reproduced, MLKEM768_encaps_derand, of_result, bind.
  destruct (Nat.eqb_spec (length (en_ek v)) ML_KEM_768_PUBLIC_KEY_BYTES); simpl; [|out_of_range].
  destruct (Nat.eqb_spec (length (en_m v)) ML_KEM_768_ENCAPS_COINS_BYTES); simpl; [|out_of_range].
  destruct (oqs_kem_encaps_derand (en_ek v) (en_m v)) as [rc [ct ss]]. unfold OQS_SUCCESS.
  destruct (Z.eqb_spec rc 0); simpl; [|out_of_range]. row_known.
  rewrite andb_true_iff, !bytes_eqb_true. subst rc. naive_solver.
Qed.

Lemma decaps_decides : row_decides decaps_row decaps_reproduced.
Proof.
  intros v w Hw. unfold decaps_row, decaps_reproduced, MLKEM768_decaps, of_result, bind.
  destruct (Nat.eqb_spec (length (de_c v)) ML_KEM_768_CIPHERTEXT_BYTES); simpl; [|out_of_range].
  destruct (Nat.eqb_spec (length (de_dk v)) ML_KEM_768_SECRET_KEY_BYTES); simpl; [|out_of_range].
  destruct (oqs_kem_decaps (de_c v) (de_dk v)) as [rc ss]. unfold OQS_SUCCESS.
  destruct (Z.eqb_spec rc 0); simpl; [|out_of_range]. row_known.
  rewrite bytes_eqb_true. subst rc. naive_solver.
Qed.

Lemma sigver_decides : row_decides sigver_row sigver_reproduced.
Proof.
  intros v w Hw. unfold sigver_row, sigver_reproduced, MLDSA65_verify_with_context, of_result, bind.
  destruct (Nat.eqb_spec (length (sv_pk v)) ML_DSA_65_PUBLIC_KEY_BYTES); simpl; [|out_of_range].
  destruct (Nat.ltb_spec 255 (length (sv_context v))); simpl.
  { decided. intros (_ & ? & _). lia. }
  row_known. rewrite Bool.eqb_true_iff. unfold OQS_SUCCESS.
  destruct (Z.eqb_spec (oqs_sig_verify_with_ctx (sv_message v) (sv_signature v)
                          (sv_context v) (sv_pk v)) 0); destruct (sv_expected_valid v); naive_solver.
Qed.

Lemma dsa_keygen_decides : row_decides dsa_keygen_row dsa_keygen_reproduced.
Proof.
  intros v w Hw. unfold dsa_keygen_row, dsa_keygen_reproduced, bind.
  rewrite (fixed_randomness_ext _ _ _ _ MLDSA65_keypair_draws).
  destruct (fixed_randomness_draws (dk_seed v) sig_keypair_draws MLDSA65_keypair_of w)
    as (r & w' & Hr & -> & H1 & H2).
  destruct (decide (sum_nat sig_keypair_draws = length (dk_seed v))) as [He|Hne].
  2: { destruct (H2 Hne) as [e ->]. out_of_range. }
  rewrite (H1 He). unfold MLDSA65_keypair_of.
  destruct (oqs_sig_keypair (dk_seed v)) as [rc [pk sk]]. unfold OQS_SUCCESS.
  destruct (Z.eqb_spec rc 0); simpl; [|out_of_range]. row_known.
  rewrite andb_true_iff, !bytes_eqb_true. subst rc. naive_solver.
Qed.

(** Signing under a context draws once and computes. *)
Definition sign_with_context_of (m c sk coins : bytes) : result bytes :=
  let '(rc, (sig_buf, sig_len)) := oqs_sig_sign_with_ctx coins m c sk in
  if negb (rc =? OQS_SUCCESS)
  then Raise (OQSAdapterError "OQS_SIG_ml_dsa_65_sign_with_ctx_str failed")
  else Ok (firstn sig_len sig_buf).

Lemma sign_with_context_draws m c sk w :
  length sk = ML_DSA_65_SECRET_KEY_BYTES ->
  MLDSA65_sign_with_context m c sk w
  = (let* coins := draw_all sig_sign_draws in of_result (sign_with_context_of m c sk coins)) w.
Proof.
  intros Hl. unfold MLDSA65_sign_with_context, sign_with_context_of, bind.
  rewrite Hl, Nat.eqb_refl. cbn [negb].
  destruct (draw_all sig_sign_draws w) as [[cs|e] w']; [|done].
  destruct (oqs_sig_sign_with_ctx cs m c sk) as [rc [buf n]]. by destruct (negb _).
Qed.

Lemma siggen_decides : row_decides siggen_row siggen_reproduced.
Proof.
  intros v w Hw. unfold siggen_row, siggen_reproduced, bind.
  destruct (Nat.eqb_spec (length (sg_sk v)) ML_DSA_65_SECRET_KEY_BYTES) as [Hl|Hl].
  2: { unfold fixed_randomness, MLDSA65_sign_with_context.
       rewrite (proj2 (Nat.eqb_neq _ _) Hl). simpl. out_of_range. }
  rewrite (fixed_randomness_ext (sg_rnd v) (MLDSA65_sign_with_context (sg_message v) (sg_context v) (sg_sk v))
             (let* cs := draw_all sig_sign_draws in
              of_result (sign_with_context_of (sg_message v) (sg_context v) (sg_sk v) cs)) w
             (fun w' => sign_with_context_draws _ _ _ w' Hl)).
  destruct (fixed_randomness_draws (sg_rnd v) sig_sign_draws
              (sign_with_context_of (sg_message v) (sg_context v) (sg_sk v)) w)
    as (r & w' & Hr & -> & H1 & H2).
  destruct (decide (sum_nat sig_sign_draws = length (sg_rnd v))) as [He|Hne].
  2: { destruct (H2 Hne) as [e ->]. out_of_range. }
  rewrite (H1 He). unfold sign_with_context_of.
  destruct (oqs_sig_sign_with_ctx (sg_rnd v) (sg_message v) (sg_context v) (sg_sk v)) as [rc [buf n]].
  unfold OQS_SUCCESS. destruct (Z.eqb_spec rc 0); simpl; [|out_of_range]. row_known.
  rewrite bytes_eqb_true. subst rc. naive_solver.
Qed.
End Rows.

(** A suite that raised: some vector is not reproduced, and there is no report. *)
Ltac failed_with R :=
  rewrite (bind_Raise _ _ _ _ _ R); eexists _, _; split; [reflexivity|]; split; [done|];
  cbv beta iota in *;
  first [ done | tauto | by intros [] | split; [split; [intros; exfalso; tauto | by intros (? & [=] & _)] | by intros ? [=]] ].

Section Report.
Context {E : Env} {P : Prims} {EL : EnvLaws E}.
Variable _load : string -> result val.

(** What the loaders return. *)
Record vectors := mkVectors {
  v_keygen : list KeyGenVector; v_encaps : list EncapsVector; v_decaps : list DecapsVector;
  v_sigver : list SigVerVector; v_dsa_keygen : list DSAKeyGenVector; v_siggen : list SigGenVector }.

Definition loaded (K : vectors) : Prop :=
  (exists m, load_ml_kem_768_keygen_vectors _load = Ok (v_keygen K, m))
  /\ (exists m, load_ml_kem_768_encap_decap_vectors _load = Ok (v_encaps K, v_decaps K, m))
  /\ (exists m, load_ml_dsa_65_sigver_vectors _load = Ok (v_sigver K, m))
  /\ (exists m, load_ml_dsa_65_keygen_vectors _load = Ok (v_dsa_keygen K, m))
  /\ exists m, load_ml_dsa_65_siggen_vectors _load = Ok (v_siggen K, m).

Definition reproduced (K : vectors) : Prop :=
  Forall keygen_reproduced (v_keygen K) /\ Forall encaps_reproduced (v_encaps K)
  /\ Forall decaps_reproduced (v_decaps K) /\ Forall sigver_reproduced (v_sigver K)
  /\ Forall dsa_keygen_reproduced (v_dsa_keygen K) /\ Forall siggen_reproduced (v_siggen K).

Definition n_vectors (K : vectors) : Z :=
  py_len (v_keygen K) + py_len (v_encaps K) + py_len (v_decaps K) + py_len (v_sigver K)
  + py_len (v_dsa_keygen K) + py_len (v_siggen K).

(** [report["summary"][k]]. *)
Definition summary_at (k : string) (report : dict) : result val :=
  let? s := getitem "summary" report in vitem k s.

(** The counts of a suite: how many vectors passed, and that this is all of
    them exactly when all are reproduced. *)
Definition counts {V} (get : string -> dict -> result Z) (ok : V -> Prop) (vs : list V) (d : dict) : Prop :=
  exists k, get "passed" d = Ok k /\ get "total" d = Ok (py_len vs)
    /\ k <= py_len vs /\ (k = py_len vs <-> Forall ok vs).

(** A suite: it leaves the system source, and either returns a dictionary
    with these counts or some vector is not reproduced. *)
Definition counted (m : M world dict) (good : dict -> Prop) (bad : Prop) : Prop :=
  forall w, oqs_rng w = SystemRng ->
  exists r w', m w = (r, w') /\ oqs_rng w' = SystemRng
    /\ match r with Ok d => good d | Raise _ => bad end.

Lemma counted_suite {V} (f : V -> M world dict) ok vs (load : result (list V * val)) :
  row_decides f ok -> (exists m, load = Ok (vs, m)) ->
  counted (let* vm := of_result load in
           let '(vectors, meta) := vm in
           let* results := mmap f vectors in
           let* passed := of_result (sum_passed results) in
           ret (suite meta results passed))
    (counts int_at ok vs) (~ Forall ok vs).
Proof.
  intros Hf [meta ->] w Hw. rewrite (bind_Ok _ _ _ _ _ (eq_refl : of_result (Ok (vs, meta)) w = _)).
  destruct (mmap_decides f ok vs w Hf Hw) as (r & w1 & Hr & Hw1 & Hdec). destruct r as [rows|e].
  2: { rewrite (bind_Raise _ _ _ _ _ Hr). by eexists _, _. }
  rewrite (bind_Ok _ _ _ _ _ Hr). destruct Hdec as (Hlen & k & Hk & Hle & Hall). rewrite Hk.
  eexists _, w1. split; [reflexivity|]. split; [done|]. exists k. split; [done|].
  split; [|done]. unfold int_at, suite, py_len. simpl. by rewrite Hlen.
Qed.

Lemma decaps_rows_reason vs w rows w' :
  mmap decaps_row vs w = (Ok rows, w') ->
  Forall2 (fun v r => getitem "reason" r = Ok (de_reason v)) vs rows.
Proof.
  apply mmap_Forall2. intros v s b s' H. unfold decaps_row in H.
  apply bind_inv_Ok in H as (ss & s1 & _ & H). by injection H as <- _.
Qed.

Lemma siggen_rows_deterministic vs w rows w' :
  mmap siggen_row vs w = (Ok rows, w') ->
  Forall2 (fun v r => getitem "deterministic" r = Ok (VBool (sg_deterministic v))) vs rows.
Proof.
  apply mmap_Forall2. intros v s b s' H. unfold siggen_row in H.
  apply bind_inv_Ok in H as (ss & s1 & _ & H). by injection H as <- _.
Qed.

Lemma encap_decap_counted K :
  loaded K -> Forall (fun v => exists s, de_reason v = VStr s) (v_decaps K) ->
  counted (run_ml_kem_768_encap_decap _load)
    (fun d => counts (int_at2 "encapsulation") encaps_reproduced (v_encaps K) d
              /\ counts (int_at2 "decapsulation") decaps_reproduced (v_decaps K) d)
    (~ (Forall encaps_reproduced (v_encaps K) /\ Forall decaps_reproduced (v_decaps K))).
Proof.
  intros (_ & (meta & Hm) & _) Hreason w Hw. unfold run_ml_kem_768_encap_decap. rewrite Hm.
  rewrite (bind_Ok _ _ _ _ _ (eq_refl : of_result (Ok _) w = _)).
  destruct (mmap_decides _ _ (v_encaps K) w encaps_decides Hw) as (r & w1 & Hr & Hw1 & Hd1).
  destruct r as [rows|e]; [|failed_with Hr].
  rewrite (bind_Ok _ _ _ _ _ Hr).
  destruct (mmap_decides _ _ (v_decaps K) w1 decaps_decides Hw1) as (r & w2 & Hr2 & Hw2 & Hd2).
  destruct r as [rows2|e]; [|failed_with Hr2].
  rewrite (bind_Ok _ _ _ _ _ Hr2).
  destruct Hd1 as (L1 & k1 & Hk1 & Hle1 & Hall1), Hd2 as (L2 & k2 & Hk2 & Hle2 & Hall2).
  destruct (rfilter_total (fun r => let? reason := getitem "reason" r in str_in "modified" reason) rows2)
    as (sel & Hsel & _).
  { intros row Hrow. pose proof (decaps_rows_reason _ _ _ _ Hr2) as HF.
    apply list_elem_of_lookup_1 in Hrow as [i Hi].
    destruct (Forall2_lookup_r _ _ _ _ _ HF Hi) as (v & Hv & ->).
    destruct (proj1 (Forall_lookup _ _) Hreason i v Hv) as [s ->]. simpl. eauto. }
  rewrite Hk1, Hk2. unfold implicit_rejection_cases. rewrite Hsel.
  eexists _, w2. split; [reflexivity|]. split; [done|].
  split; [exists k1|exists k2]; (split; [reflexivity|]; split; [|done]).
  - change (Ok (py_len rows) = Ok (py_len (v_encaps K))). unfold py_len. by rewrite L1.
  - change (Ok (py_len rows2) = Ok (py_len (v_decaps K))). unfold py_len. by rewrite L2.
Qed.

Lemma siggen_counted K :
  loaded K ->
  counted (run_ml_dsa_65_siggen _load)
    (counts int_at siggen_reproduced (v_siggen K)) (~ Forall siggen_reproduced (v_siggen K)).
Proof.
  intros (_ & _ & _ & _ & (meta & Hm)) w Hw. unfold run_ml_dsa_65_siggen. rewrite Hm.
  rewrite (bind_Ok _ _ _ _ _ (eq_refl : of_result (Ok _) w = _)).
  destruct (mmap_decides _ _ (v_siggen K) w siggen_decides Hw) as (r & w1 & Hr & Hw1 & Hd1).
  destruct r as [rows|e]; [|failed_with Hr].
  rewrite (bind_Ok _ _ _ _ _ Hr). destruct Hd1 as (L1 & k1 & Hk1 & Hle1 & Hall1).
  assert (Hwhere : forall b, exists k, sum_passed_where b rows = Ok k).
  { intros b. unfold sum_passed_where.
    destruct (rfilter_total (fun r => let? d := getitem "deterministic" r in
                                      Ok (Bool.eqb (truthy d) b)) rows) as (sel & -> & Hsub).
    { intros row Hrow. pose proof (siggen_rows_deterministic _ _ _ _ Hr) as HF.
      apply list_elem_of_lookup_1 in Hrow as [i Hi].
      destruct (Forall2_lookup_r _ _ _ _ _ HF Hi) as (v & Hv & ->). simpl. eauto. }
    simpl. unfold sum_passed in *. destruct (rmap passed_of rows) as [l|] eqn:Hl; [|done].
    destruct (rmap_total passed_of sel) as (l' & ->); [|simpl; eauto].
    intros row Hrow. apply rmap_Ok in Hl. apply Hsub in Hrow.
    apply list_elem_of_lookup_1 in Hrow as [i Hi].
    destruct (Forall2_lookup_l _ _ _ _ _ Hl Hi) as (x & _ & Hx). eauto. }
  destruct (Hwhere true) as [kd ->], (Hwhere false) as [kh ->]. rewrite Hk1.
  eexists _, w1. split; [reflexivity|]. split; [done|].
  exists k1. split; [reflexivity|]. split; [|done].
  change (Ok (py_len rows) = Ok (py_len (v_siggen K))). unfold py_len. by rewrite L1.
Qed.

(** C28: The known-answer report answers exactly the question it asks.  For
    vector files that load, and whatever liboqs computes, a run leaves liboqs
    drawing from the system's random source; it returns a report that says
    [all_passed] if and only if liboqs's functions reproduce every vector of
    the six suites byte for byte (for the ML-DSA vectors: from exactly the
    bytes the vector supplies); and a report that is returned has counted
    every vector once. *)
Theorem kat_report_decides (K : vectors) (Hload : loaded K)
    (Hreason : Forall (fun v => exists s, de_reason v = VStr s) (v_decaps K))
    (w : world) (Hw : oqs_rng w = SystemRng) :
  exists r w', run_all _load w = (r, w') /\ oqs_rng w' = SystemRng
    /\ (reproduced K <-> exists report, r = Ok report /\ summary_at "all_passed" report = Ok (VBool true))
    /\ forall report, r = Ok report -> summary_at "total_checks" report = Ok (VInt (n_vectors K)).
Proof.
  pose proof Hload as (H1 & H2 & H3 & H4 & H5).
  unfold run_all, reproduced.
  destruct (counted_suite _ _ _ _ keygen_decides H1 w Hw) as (r1 & w1 & R1 & W1 & C1).
  fold (run_ml_kem_768_keygen _load) in R1.
  destruct r1 as [d1|e]; [|failed_with R1].
  rewrite (bind_Ok _ _ _ _ _ R1). 
  destruct (encap_decap_counted K Hload Hreason w1 W1) as (r2 & w2 & R2 & W2 & C2).
  destruct r2 as [d2|e]; [|failed_with R2].
  rewrite (bind_Ok _ _ _ _ _ R2).
  destruct (counted_suite _ _ _ _ sigver_decides H3 w2 W2) as (r3 & w3 & R3 & W3 & C3).
  fold (run_ml_dsa_65_sigver _load) in R3.
  destruct r3 as [d3|e]; [|failed_with R3].
  rewrite (bind_Ok _ _ _ _ _ R3).
  destruct (counted_suite _ _ _ _ dsa_keygen_decides H4 w3 W3) as (r4 & w4 & R4 & W4 & C4).
  fold (run_ml_dsa_65_keygen _load) in R4.
  destruct r4 as [d4|e]; [|failed_with R4].
  rewrite (bind_Ok _ _ _ _ _ R4).
  destruct (siggen_counted K Hload w4 W4) as (r5 & w5 & R5 & W5 & C5).
  destruct r5 as [d5|e]; [|failed_with R5].
  rewrite (bind_Ok _ _ _ _ _ R5).
  destruct C1 as (k1 & P1 & T1 & L1 & A1), C2 as [(k2 & P2 & T2 & L2 & A2) (k3 & P3 & T3 & L3 & A3)].
  destruct C3 as (k4 & P4 & T4 & L4 & A4), C4 as (k5 & P5 & T5 & L5 & A5), C5 as (k6 & P6 & T6 & L6 & A6).
  unfold add_suites. rewrite P1, P2, P3, P4, P5, P6, T1, T2, T3, T4, T5, T6.
  eexists _, w5. split; [reflexivity|]. split; [done|]. split.
  - rewrite <- A1, <- A2, <- A3, <- A4, <- A5, <- A6. split.
    + intros (-> & -> & -> & -> & -> & ->). eexists. split; [reflexivity|].
      unfold summary_at. simpl. by rewrite Z.eqb_refl.
    + intros (report & [= <-] & Hall). unfold summary_at in Hall. simpl in Hall.
      injection Hall as Hall. apply Z.eqb_eq in Hall. lia.
  - by intros report [= <-].
Qed.
End Report.

(** ** Vector files: writing and loading

    The documents a set of vectors is written as, in the layout of the files
    under [validation/vectors/], and the theorem that the loaders read the
    vectors back. *)
From S2P Require Import Sha256.

Definition hex (b : bytes) : val := VStr (hexdigest b).

Definition kat_document (groups : list val) : val :=
  VDict [("_source", VStr "source"); ("_fetched", VStr "date"); ("_note", VStr "note");
         ("testGroups", VList groups)].

Definition keygen_test (v : KeyGenVector) : val :=
  VDict [("tcId", kg_tc_id v); ("z", hex (kg_z v)); ("d", hex (kg_d v));
         ("ek", hex (kg_ek v)); ("dk", hex (kg_dk v))].
Definition encaps_test (v : EncapsVector) : val :=
  VDict [("tcId", en_tc_id v); ("ek", hex (en_ek v)); ("c", hex (en_expected_c v));
         ("k", hex (en_expected_k v)); ("m", hex (en_m v))].
Definition decaps_test (v : DecapsVector) : val :=
  VDict [("tcId", de_tc_id v); ("dk", hex (de_dk v)); ("c", hex (de_c v));
         ("k", hex (de_expected_k v)); ("reason", de_reason v)].
Definition sigver_test (v : SigVerVector) : val :=
  VDict [("tcId", sv_tc_id v); ("testPassed", VBool (sv_expected_valid v)); ("pk", hex (sv_pk v));
         ("message", hex (sv_message v)); ("context", hex (sv_context v));
         ("signature", hex (sv_signature v)); ("reason", sv_reason v)].
Definition dsa_keygen_test (v : DSAKeyGenVector) : val :=
  VDict [("tcId", dk_tc_id v); ("seed", hex (dk_seed v)); ("pk", hex (dk_pk v)); ("sk", hex (dk_sk v))].
Definition siggen_test (v : SigGenVector) : val :=
  VDict ([("tcId", sg_tc_id v); ("message", hex (sg_message v))]
         ++ (if sg_deterministic v then [] else [("rnd", hex (sg_rnd v))])
         ++ [("sk", hex (sg_sk v)); ("context", hex (sg_context v)); ("signature", hex (sg_signature v))]).

Definition tests (ts : list val) : string * val := ("tests", VList ts).
Definition dsa_interface : dict :=
  [("parameterSet", VStr "ML-DSA-65"); ("signatureInterface", VStr "external"); ("preHash", VStr "pure")].

(** The files of a set of vectors; a signing vector makes a group of its own. *)
Definition files (K : vectors) (name : string) : result val :=
  if String.eqb name "ml_kem_768_keygen.json" then Ok (kat_document
    [VDict [("parameterSet", VStr "ML-KEM-768"); tests (map keygen_test (v_keygen K))]])
  else if String.eqb name "ml_kem_768_encap_decap.json" then Ok (kat_document
    [VDict [("function", VStr "encapsulation"); tests (map encaps_test (v_encaps K))];
     VDict [("function", VStr "decapsulation"); tests (map decaps_test (v_decaps K))]])
  else if String.eqb name "ml_dsa_65_sigver.json" then Ok (kat_document
    [VDict (dsa_interface ++ [tests (map sigver_test (v_sigver K))])])
  else if String.eqb name "ml_dsa_65_keygen.json" then Ok (kat_document
    [VDict [("parameterSet", VStr "ML-DSA-65"); tests (map dsa_keygen_test (v_dsa_keygen K))]])
  else if String.eqb name "ml_dsa_65_siggen.json" then Ok (kat_document
    (map (fun v => VDict (dsa_interface ++ [("deterministic", VBool (sg_deterministic v));
                                            tests [siggen_test v]])) (v_siggen K)))
  else Raise (LibraryError "FileNotFoundError").

Lemma rmap_map {A B C} (f : B -> result C) (g : A -> B) (h : A -> C) l :
  Forall (fun a => f (g a) = Ok (h a)) l -> rmap f (map g l) = Ok (map h l).
Proof. induction 1 as [|a l Ha _ IH]; [done|]. simpl. by rewrite Ha, IH. Qed.

Lemma rmap_back {A B} (f : B -> result A) (g : A -> B) l :
  (forall a, f (g a) = Ok a) -> rmap f (map g l) = Ok l.
Proof.
  intros H. rewrite (rmap_map f g id), map_id; [done|]. by apply Forall_forall.
Qed.

(** The document found, [field] read and decoded. *)
Ltac read_back :=
  repeat (unfold hx_field, hex; cbn [vitem getitem dget String.eqb Ascii.eqb Bool.eqb rbind app
            vget as_dict dget_or truthy]; rewrite ?fromhex_hexdigest); try reflexivity.

Section Tests.
Local Arguments hexdigest : simpl never.
Local Arguments _hx : simpl never.

Lemma keygen_test_back v : keygen_vector (keygen_test v) = Ok v.
Proof. destruct v as [a b c d e]. unfold keygen_vector, keygen_test. cbn [kg_tc_id kg_d kg_z kg_ek kg_dk]. read_back. Qed.
Lemma encaps_test_back v : encaps_vector (encaps_test v) = Ok v.
Proof. destruct v as [a b c d e]. unfold encaps_vector, encaps_test.
  cbn [en_tc_id en_ek en_m en_expected_c en_expected_k]. read_back. Qed.
Lemma decaps_test_back v : decaps_vector (decaps_test v) = Ok v.
Proof. destruct v as [a b c d e]. unfold decaps_vector, decaps_test.
  cbn [de_tc_id de_dk de_c de_expected_k de_reason]. read_back. Qed.
Lemma sigver_test_back v : sigver_vector (sigver_test v) = Ok v.
Proof. destruct v as [a b c d e f g]. unfold sigver_vector, sigver_test.
  cbn [sv_tc_id sv_pk sv_message sv_context sv_signature sv_expected_valid sv_reason]. read_back. Qed.
Lemma dsa_keygen_test_back v : dsa_keygen_vector (dsa_keygen_test v) = Ok v.
Proof. destruct v as [a b c d]. unfold dsa_keygen_vector, dsa_keygen_test.
  cbn [dk_tc_id dk_seed dk_pk dk_sk]. read_back. Qed.
Lemma siggen_test_back v :
  (sg_deterministic v = true -> sg_rnd v = replicate 32 Byte.x00) ->
  siggen_vector (sg_deterministic v) (siggen_test v) = Ok v.
Proof.
  destruct v as [tc det sk m c r sg]. unfold siggen_vector, siggen_test.
  cbn [sg_tc_id sg_deterministic sg_sk sg_message sg_context sg_rnd sg_signature]. intros Hdet.
  destruct det; [rewrite Hdet by done|]; read_back.
Qed.
End Tests.

(** C29: Writing a set of vectors as files and loading them gives the set back:
    no loader drops, reorders or alters a field, a missing [rnd] of a
    deterministic signing vector stands for 32 zero bytes, and the vectors of
    all groups are joined in order. *)
Theorem vector_files_roundtrip (K : vectors)
    (Hdet : Forall (fun v => sg_deterministic v = true -> sg_rnd v = replicate 32 Byte.x00)
              (v_siggen K)) :
  loaded (files K) K.
Proof.
  assert (Hfirst : forall {A} (f : val -> result A) (g : A -> val) (d : dict) l,
            (forall a, f (g a) = Ok a) -> dget "tests" d = Some (VList (map g l)) ->
            tests_of f (VDict d) = Ok l).
  { intros A f g d l Hback Hd. unfold tests_of, vitem, getitem. rewrite Hd. simpl.
    by apply rmap_back. }
  split_and!; eexists.
  - unfold load_ml_kem_768_keygen_vectors. cbn -[tests_of].
    erewrite (Hfirst _ _ _ _ _ keygen_test_back) by reflexivity. done.
  - unfold load_ml_kem_768_encap_decap_vectors. cbn -[tests_of].
    erewrite (Hfirst _ _ _ _ _ encaps_test_back) by reflexivity.
    cbn -[tests_of].
    erewrite (Hfirst _ _ _ _ _ decaps_test_back) by reflexivity. done.
  - unfold load_ml_dsa_65_sigver_vectors. cbn -[tests_of].
    erewrite (Hfirst _ _ _ _ _ sigver_test_back) by reflexivity. done.
  - unfold load_ml_dsa_65_keygen_vectors. cbn -[tests_of].
    erewrite (Hfirst _ _ _ _ _ dsa_keygen_test_back) by reflexivity. done.
  - unfold load_ml_dsa_65_siggen_vectors. cbn -[siggen_group].
    rewrite (rmap_map _ _ (fun v => [v])).
    + cbn [rbind]. do 3 f_equal. induction (v_siggen K) as [|v l IH]; [done|]. simpl. f_equal.
      apply IH. by apply Forall_cons in Hdet as [_ ?].
    + eapply Forall_impl; [exact Hdet|]. intros v Hv. unfold siggen_group. cbn -[siggen_vector siggen_test].
      by rewrite siggen_test_back.
Qed.
