(* ===== verification/Base.v ===== *)
(** * The configuration contract ([crypto/base.py])

    [ServerCryptoConfig] and [ClientCryptoConfig] are the abstract base classes
    every configuration implements; the server half keeps its sessions in a
    state [S].  [ConfigLaws] is what the rest of the program relies on, stated
    once: the streaming layer, the secure API and the client are proved against
    it, and every configuration of [Configs] discharges it. *)
From S2P Require Import Prelude PyBytes PyVal World Instrumentation.

Record HandshakeBundle := mkBundle {
  handshake_id : string;
  kex_public_key : bytes;
  hb_sig_public_key : bytes;
  hb_meta : dict;
}.

Record EstablishResult := mkEstablish {
  session_key : bytes;
  kex_blob : bytes;
  est_meta : dict;
}.

(** The server half: operations on the world and the session table. *)
Class ServerCryptoConfig (S : Type) := {
  server_name : string;
  kex_algorithm : string;
  sig_algorithm : string;
  server_init : S;
  new_handshake : option string -> M (world * S) HandshakeBundle;
  accept : string -> bytes -> M (world * S) (bytes * dict);
  sign : string -> bytes -> M (world * S) (bytes * dict);
  forget : string -> M (world * S) unit;
}.

(** The client half, stateless across handshakes. *)
Class ClientCryptoConfig := {
  client_name : string;
  establish : bytes -> M world EstablishResult;
  verify : bytes -> bytes -> bytes -> M world (bool * dict);
}.

(** The timing entries the callers read: numbers. *)
Definition sign_meta_ok (meta : dict) : Prop :=
  (exists q, dget "sign_ms" meta = Some (VFloat q))
  /\ (exists q, dget_or "sign_cpu_ms" (VFloat 0) meta = VFloat q)
  /\ (exists n, dget "signature_bytes" meta = Some (VInt n))
  /\ exists q, dget "sign_cpu_ms" meta = Some (VFloat q).
Definition verify_meta_ok (meta : dict) : Prop :=
  (exists q, dget "verify_ms" meta = Some (VFloat q))
  /\ (exists q, dget_or "verify_cpu_ms" (VFloat 0) meta = VFloat q)
  /\ exists q, dget "verify_cpu_ms" meta = Some (VFloat q).

Definition accept_meta_ok (meta : dict) : Prop :=
  exists q, dget_or "decapsulate_ms" (VFloat 0) meta = VFloat q.

(** The client accepts [sig] on [msg] under [pk]. *)
Definition accepts {C : ClientCryptoConfig} (msg sig pk : bytes) : Prop :=
  forall w, exists meta w', verify msg sig pk w = (Ok (true, meta), w') /\ verify_meta_ok meta.

(** Some run of [verify] returns [true]. *)
Definition may_accept {C : ClientCryptoConfig} (msg sig pk : bytes) : Prop :=
  exists w meta w', verify msg sig pk w = (Ok (true, meta), w').

Class ConfigLaws {S : Type} (Srv : ServerCryptoConfig S) (Cli : ClientCryptoConfig) := {
  (** handshake [hid] is live with these public keys *)
  live : S -> string -> bytes -> bytes -> Prop;
  (** [hid] is in the session table *)
  known : S -> string -> bool;
  live_known s hid kpk spk : live s hid kpk spk -> known s hid = true;
  new_handshake_ok w s o :
    exists b w' s', new_handshake o (w, s) = (Ok b, (w', s'))
      /\ live s' (handshake_id b) (kex_public_key b) (hb_sig_public_key b)
      /\ (forall h, o = Some h -> h <> "" -> handshake_id b = h)
      /\ (forall h k p, h <> handshake_id b -> live s h k p -> live s' h k p);
  new_handshake_known w s o b w' s' h :
    new_handshake o (w, s) = (Ok b, (w', s')) -> h <> handshake_id b -> known s' h = known s h;
  key_agreement s hid kpk spk w :
    live s hid kpk spk ->
    exists est w', establish kpk w = (Ok est, w')
      /\ length (session_key est) = 32%nat /\ kex_blob est <> []
      /\ forall ws, exists meta ws',
           accept hid (kex_blob est) (ws, s) = (Ok (session_key est, meta), (ws', s));
  sign_verifies s hid kpk spk msg w :
    live s hid kpk spk ->
    exists sig meta w', sign hid msg (w, s) = (Ok (sig, meta), (w', s))
      /\ sign_meta_ok meta /\ sig <> [] /\ accepts msg sig spk;
  accept_unknown s hid blob w :
    known s hid = false -> exists w', accept hid blob (w, s) = (Raise (KeyError hid), (w', s));
  accept_state s hid blob w r w' s' :
    accept hid blob (w, s) = (r, (w', s')) -> s' = s;
  sign_unknown s hid msg w :
    known s hid = false -> exists w', sign hid msg (w, s) = (Raise (KeyError hid), (w', s));
  sign_state s hid msg w r w' s' :
    sign hid msg (w, s) = (r, (w', s')) -> s' = s;
  accept_result s hid blob w key meta σ :
    accept hid blob (w, s) = (Ok (key, meta), σ) -> length key = 32%nat /\ accept_meta_ok meta;
  forget_ok w s hid :
    exists s', forget hid (w, s) = (Ok tt, (w, s')) /\ known s' hid = false
      /\ (forall h, h <> hid -> known s' h = known s h)
      /\ (forall h k p, h <> hid -> live s h k p -> live s' h k p);
  init_empty hid : known server_init hid = false;
}.
