(* ===== verification/Configs.v ===== *)
(** * The six configurations ([crypto/classical.py], [classical_ecdhe.py],
    [hybrid.py], [hybrid_kex.py], [full_pqc.py], [hybrid_kex_pq.py]) and their
    registry ([crypto/registry.py])

    One Module per source file.  [_sessions] is a [gmap] from handshake ids to
    the file's [_HandshakeState]; each Module ends with the instance of the
    contract of [Base]. *)
From stdpp Require Import gmap pretty.
From S2P Require Import Prelude PyBytes PyVal World Instrumentation Aead OqsAdapter Base.

Definition ECDSA_P256_SHA256 : string := "ECDSA-P256-SHA256".
Definition MLKEM768_ALGORITHM : string := "ML-KEM-768".
Definition MLDSA65_ALGORITHM : string := "ML-DSA-65".

(** ** Code the files share *)
Section Shared.
Context {E : Env} {P : Prims}.

(** [handshake_id or str(uuid.uuid4())]. *)
Definition handshake_id_or_fresh (o : option string) : M world string :=
  match o with
  | Some h => if String.eqb h "" then uuid4 else ret h
  | None => uuid4
  end.

(** [self._sessions[handshake_id]]. *)
Definition session_state {H} (hid : string) : M (world * gmap string H) H := fun '(w, s) =>
  match s !! hid with
  | Some st => (Ok st, (w, s))
  | None => (Raise (KeyError hid), (w, s))
  end.

(** [self._sessions[handshake_id] = st]. *)
Definition store_session {H} (hid : string) (st : H) : M (world * gmap string H) unit :=
  fun '(w, s) => (Ok tt, (w, <[hid := st]> s)).

(** [self._sessions.pop(handshake_id, None)]. *)
Definition pop_session {H} (hid : string) : M (world * gmap string H) unit :=
  fun '(w, s) => (Ok tt, (w, delete hid s)).

Definition gen_meta (t : Timer) (kex_pub sig_pub : bytes) (kex_alg sig_alg : string) : dict :=
  [("gen_ms", VFloat (elapsed_ms t));
   ("kex_public_key_bytes", VInt (Z.of_nat (length kex_pub)));
   ("sig_public_key_bytes", VInt (Z.of_nat (length sig_pub)));
   ("kex_algorithm", VStr kex_alg);
   ("sig_algorithm", VStr sig_alg)].

Definition accept_meta (t : Timer) (blob : bytes) : dict :=
  [("decapsulate_ms", VFloat (elapsed_ms t)); ("kex_blob_bytes", VInt (Z.of_nat (length blob)))].

Definition sign_meta (t : Timer) (signature : bytes) : dict :=
  [("sign_ms", VFloat (elapsed_ms t)); ("sign_cpu_ms", VFloat (cpu_ms t));
   ("signature_bytes", VInt (Z.of_nat (length signature)))].

Definition establish_meta (t : Timer) (blob : bytes) : dict :=
  [("handshake_encrypt_ms", VFloat (elapsed_ms t)); ("kex_blob_bytes", VInt (Z.of_nat (length blob)))].

Definition verify_meta (t : Timer) : dict :=
  [("verify_ms", VFloat (elapsed_ms t)); ("verify_cpu_ms", VFloat (cpu_ms t))].

(** [_ec_public_der(priv.public_key())]. *)
Definition _ec_public_der (priv : ec_private) : bytes :=
  public_bytes_der (ECPublicKey (ec_public_key priv)).

Definition _x25519_raw (priv : x25519_private) : bytes :=
  x25519_public_raw (x25519_public_key priv).

(** [priv.sign(message, ec.ECDSA(SHA256()))]. *)
Definition ecdsa_sign_now (priv : ec_private) (message : bytes) : M world bytes :=
  at_tick (fun t => ecdsa_sign t priv message).

(** The method call [pub.verify(signature, message, ec.ECDSA(SHA256()))] on
    whatever key object was loaded. *)
Definition pub_verify_ecdsa (pub : pubkey rsa_public ec_public) (signature message : bytes)
    : result unit :=
  match pub with
  | ECPublicKey k => ecdsa_verify k signature message
  | RSAPublicKey _ => Raise (TypeError "verify() missing a required argument")
  | OtherPublicKey _ => Raise (AttributeError "object has no attribute 'verify'")
  end.

(** The server's ECDSA [sign] method body. *)
Definition ecdsa_sign_timed (priv : ec_private) (message : bytes) : M world (bytes * dict) :=
  let* st := timed (ecdsa_sign_now priv message) in
  let '(signature, t) := st in
  ret (signature, sign_meta t signature).

(** The server's ML-DSA [sign] method body. *)
Definition mldsa_sign_timed (secret_key message : bytes) : M world (bytes * dict) :=
  let* st := timed (MLDSA65_sign message secret_key) in
  let '(signature, t) := st in
  ret (signature, sign_meta t signature).

(** The client's ECDSA [verify] method: loading the key may raise, a failed
    verification does not. *)
Definition ecdsa_verify_timed (message signature sig_pk : bytes) : M world (bool * dict) :=
  let* pub := of_result (load_der_public_key sig_pk) in
  let* okt := timed (ret (match pub_verify_ecdsa pub signature message with
                          | Ok _ => true | Raise _ => false end)) in
  let '(ok, t) := okt in
  ret (ok, verify_meta t).

(** The client's ML-DSA [verify] method. *)
Definition mldsa_verify_timed (message signature sig_pk : bytes) : M world (bool * dict) :=
  let* okt := timed (of_result (MLDSA65_verify message signature sig_pk)) in
  let '(ok, t) := okt in
  ret (ok, verify_meta t).
End Shared.

(** ** Configuration A: RSA-2048-OAEP key transport, ECDSA ([classical.py]) *)
Module Classical.
Section Config.
Context {E : Env} {P : Prims}.

Record _HandshakeState := mkState { rsa_private_ : rsa_private; ec_private_ : ec_private }.
Definition sessions : Type := gmap string _HandshakeState.

Definition name : string := "classical".
Definition kex_algorithm : string := "RSA-2048-OAEP".
Definition sig_algorithm : string := ECDSA_P256_SHA256.
Definition context : bytes := encode "pq-shield-classical".

Definition _rsa_public_der (pub : rsa_public) : bytes := public_bytes_der (RSAPublicKey pub).

Definition new_handshake (o : option string) : M (world * sessions) HandshakeBundle :=
  let* hid := on_fst (handshake_id_or_fresh o) in
  let* kt := on_fst (timed (let* rsa := at_tick rsa_generate in
                            let* ec := at_tick ec_generate in
                            ret (rsa, ec))) in
  let '((rsa, ec), t) := kt in
  store_session hid (mkState rsa ec) ;;;
  let rsa_pub_der := _rsa_public_der (rsa_public_key rsa) in
  let ec_pub_der := _ec_public_der ec in
  ret (mkBundle hid rsa_pub_der ec_pub_der
         (gen_meta t rsa_pub_der ec_pub_der kex_algorithm sig_algorithm)).

Definition accept (hid : string) (kex_blob : bytes) : M (world * sessions) (bytes * dict) :=
  let* state := session_state hid in
  on_fst (
    let* kt := timed (of_result (
      let? raw_secret := rsa_oaep_decrypt (rsa_private_ state) kex_blob in
      derive_session_key raw_secret context)) in
    let '(session_key, t) := kt in
    ret (session_key, accept_meta t kex_blob)).

Definition sign (hid : string) (message : bytes) : M (world * sessions) (bytes * dict) :=
  let* state := session_state hid in
  on_fst (ecdsa_sign_timed (ec_private_ state) message).

Definition forget (hid : string) : M (world * sessions) unit := pop_session hid.

Definition establish (kex_public_key : bytes) : M world EstablishResult :=
  let* rsa_pub := of_result (load_der_public_key kex_public_key) in
  let* raw_secret := os_urandom 32 in
  let* session_key := of_result (derive_session_key raw_secret context) in
  let* bt := timed (
    match rsa_pub with
    | RSAPublicKey k => fun w => (rsa_oaep_encrypt (tick w) k raw_secret, advance w)
    | _ => raise (AttributeError "object has no attribute 'encrypt'")
    end) in
  let '(kex_blob, t) := bt in
  ret (mkEstablish session_key kex_blob (establish_meta t kex_blob)).

Definition verify := ecdsa_verify_timed.

#[export] Instance ClassicalServerCrypto : ServerCryptoConfig sessions := {|
  Base.server_name := name; Base.kex_algorithm := kex_algorithm;
  Base.sig_algorithm := sig_algorithm; Base.server_init := (∅ : sessions);
  Base.new_handshake := new_handshake; Base.accept := accept;
  Base.sign := sign; Base.forget := forget |}.
#[export] Instance ClassicalClientCrypto : ClientCryptoConfig := {|
  Base.client_name := name; Base.establish := establish; Base.verify := verify |}.
End Config.
End Classical.

(** ** Configuration A': X25519, ECDSA ([classical_ecdhe.py]) *)
Module ClassicalECDHE.
Section Config.
Context {E : Env} {P : Prims}.

Record _HandshakeState := mkState { x25519_private_ : x25519_private; ec_private_ : ec_private }.
Definition sessions : Type := gmap string _HandshakeState.

Definition X25519_PUBLIC_KEY_BYTES : nat := 32.
Definition name : string := "classical_ecdhe".
Definition kex_algorithm : string := "X25519".
Definition sig_algorithm : string := ECDSA_P256_SHA256.
Definition _HKDF_CONTEXT : bytes := encode "pq-shield-classical-ecdhe".

Definition x25519_raw_checked (priv : x25519_private) : result bytes :=
  let raw := _x25519_raw priv in
  if Nat.eqb (length raw) X25519_PUBLIC_KEY_BYTES then Ok raw else Raise (AssertionError "").

Definition new_handshake (o : option string) : M (world * sessions) HandshakeBundle :=
  let* hid := on_fst (handshake_id_or_fresh o) in
  let* kt := on_fst (timed (let* x := at_tick x25519_generate in
                            let* ec := at_tick ec_generate in
                            ret (x, ec))) in
  let '((x, ec), t) := kt in
  store_session hid (mkState x ec) ;;;
  let* x_pub := of_result (x25519_raw_checked x) in
  let ec_pub_der := _ec_public_der ec in
  ret (mkBundle hid x_pub ec_pub_der
         (gen_meta t x_pub ec_pub_der kex_algorithm sig_algorithm)).

Definition accept (hid : string) (kex_blob : bytes) : M (world * sessions) (bytes * dict) :=
  let* state := session_state hid in
  on_fst (
    if negb (Nat.eqb (length kex_blob) X25519_PUBLIC_KEY_BYTES)
    then raise (ValueError ("X25519 kex blob must be 32 bytes, got " +:+ pretty (length kex_blob)))
    else
    let* kt := timed (of_result (
      let? peer := x25519_from_public_bytes kex_blob in
      let? raw_secret := x25519_exchange (x25519_private_ state) peer in
      derive_session_key raw_secret _HKDF_CONTEXT)) in
    let '(session_key, t) := kt in
    ret (session_key, accept_meta t kex_blob)).

Definition sign (hid : string) (message : bytes) : M (world * sessions) (bytes * dict) :=
  let* state := session_state hid in
  on_fst (ecdsa_sign_timed (ec_private_ state) message).

Definition forget (hid : string) : M (world * sessions) unit := pop_session hid.

Definition establish (kex_public_key : bytes) : M world EstablishResult :=
  if negb (Nat.eqb (length kex_public_key) X25519_PUBLIC_KEY_BYTES)
  then raise (ValueError ("X25519 public key must be 32 bytes, got " +:+ pretty (length kex_public_key)))
  else
  let* kt := timed (
    let* x := at_tick x25519_generate in
    let* peer := of_result (x25519_from_public_bytes kex_public_key) in
    let* raw_secret := of_result (x25519_exchange x peer) in
    let* session_key := of_result (derive_session_key raw_secret _HKDF_CONTEXT) in
    let* kex_blob := of_result (x25519_raw_checked x) in
    ret (session_key, kex_blob)) in
  let '((session_key, kex_blob), t) := kt in
  ret (mkEstablish session_key kex_blob (establish_meta t kex_blob)).

Definition verify := ecdsa_verify_timed.

#[export] Instance ClassicalECDHEServerCrypto : ServerCryptoConfig sessions := {|
  Base.server_name := name; Base.kex_algorithm := kex_algorithm;
  Base.sig_algorithm := sig_algorithm; Base.server_init := (∅ : sessions);
  Base.new_handshake := new_handshake; Base.accept := accept;
  Base.sign := sign; Base.forget := forget |}.
#[export] Instance ClassicalECDHEClientCrypto : ClientCryptoConfig := {|
  Base.client_name := name; Base.establish := establish; Base.verify := verify |}.
End Config.
End ClassicalECDHE.

(** ** Configuration B: ML-KEM-768, ECDSA ([hybrid.py]) *)
Module Hybrid.
Section Config.
Context {E : Env} {P : Prims}.

Record _HandshakeState := mkState { kem_secret_key_ : bytes; ec_private_ : ec_private }.
Definition sessions : Type := gmap string _HandshakeState.

Definition name : string := "hybrid".
Definition kex_algorithm : string := MLKEM768_ALGORITHM.
Definition sig_algorithm : string := ECDSA_P256_SHA256.
Definition context : bytes := encode "pq-shield-hybrid".

Definition new_handshake (o : option string) : M (world * sessions) HandshakeBundle :=
  let* hid := on_fst (handshake_id_or_fresh o) in
  let* kt := on_fst (timed (let* kem_kp := MLKEM768_keypair in
                            let* ec := at_tick ec_generate in
                            ret (kem_kp, ec))) in
  let '((kem_kp, ec), t) := kt in
  store_session hid (mkState (kem_secret_key kem_kp) ec) ;;;
  let ec_pub_der := _ec_public_der ec in
  ret (mkBundle hid (kem_public_key kem_kp) ec_pub_der
         (gen_meta t (kem_public_key kem_kp) ec_pub_der kex_algorithm sig_algorithm)).

Definition accept (hid : string) (kex_blob : bytes) : M (world * sessions) (bytes * dict) :=
  let* state := session_state hid in
  on_fst (
    let* kt := timed (of_result (
      let? raw_secret := MLKEM768_decaps kex_blob (kem_secret_key_ state) in
      derive_session_key raw_secret context)) in
    let '(session_key, t) := kt in
    ret (session_key, accept_meta t kex_blob)).

Definition sign (hid : string) (message : bytes) : M (world * sessions) (bytes * dict) :=
  let* state := session_state hid in
  on_fst (ecdsa_sign_timed (ec_private_ state) message).

Definition forget (hid : string) : M (world * sessions) unit := pop_session hid.

Definition establish (kex_public_key : bytes) : M world EstablishResult :=
  let* kt := timed (
    let* cs := MLKEM768_encaps kex_public_key in
    let '(kex_blob, raw_secret) := cs in
    let* session_key := of_result (derive_session_key raw_secret context) in
    ret (session_key, kex_blob)) in
  let '((session_key, kex_blob), t) := kt in
  ret (mkEstablish session_key kex_blob (establish_meta t kex_blob)).

Definition verify := ecdsa_verify_timed.

#[export] Instance HybridServerCrypto : ServerCryptoConfig sessions := {|
  Base.server_name := name; Base.kex_algorithm := kex_algorithm;
  Base.sig_algorithm := sig_algorithm; Base.server_init := (∅ : sessions);
  Base.new_handshake := new_handshake; Base.accept := accept;
  Base.sign := sign; Base.forget := forget |}.
#[export] Instance HybridClientCrypto : ClientCryptoConfig := {|
  Base.client_name := name; Base.establish := establish; Base.verify := verify |}.
End Config.
End Hybrid.

(** ** Configuration B': X25519MLKEM768, ECDSA ([hybrid_kex.py]) *)

(** What [HybridKEXServerCrypto.accept] reads of a session; [hybrid_kex_pq.py]
    inherits the method with another state class. *)
Class KexKeys (P : Prims) (H : Type) := {
  kex_kem_secret : H -> bytes;
  kex_x25519_private : H -> x25519_private;
}.

Module HybridKEX.
Section Config.
Context {E : Env} {P : Prims}.

Record _HandshakeState := mkState {
  kem_secret_key_ : bytes; x25519_private_ : x25519_private; ec_private_ : ec_private }.
Definition sessions : Type := gmap string _HandshakeState.
#[global] Instance keys : KexKeys P _HandshakeState := {|
  kex_kem_secret := kem_secret_key_; kex_x25519_private := x25519_private_ |}.

Definition X25519_BYTES : nat := 32.
Definition name : string := "hybrid_kex".
Definition kex_algorithm : string := "X25519MLKEM768".
Definition sig_algorithm : string := ECDSA_P256_SHA256.
Definition _HKDF_CONTEXT : bytes := encode "pq-shield-hybrid-kex-x25519mlkem768".

Definition new_handshake (o : option string) : M (world * sessions) HandshakeBundle :=
  let* hid := on_fst (handshake_id_or_fresh o) in
  let* kt := on_fst (timed (let* kem_kp := MLKEM768_keypair in
                            let* x := at_tick x25519_generate in
                            let* ec := at_tick ec_generate in
                            ret (kem_kp, x, ec))) in
  let '((kem_kp, x, ec), t) := kt in
  store_session hid (mkState (kem_secret_key kem_kp) x ec) ;;;
  let kex_pub := kem_public_key kem_kp ++ _x25519_raw x in
  let ec_pub_der := _ec_public_der ec in
  ret (mkBundle hid kex_pub ec_pub_der
         (gen_meta t kex_pub ec_pub_der kex_algorithm sig_algorithm)).

Definition accept {H} {KK : KexKeys P H} (hid : string) (kex_blob : bytes)
    : M (world * gmap string H) (bytes * dict) :=
  let* state := session_state hid in
  on_fst (
    let ct_len := ML_KEM_768_CIPHERTEXT_BYTES in
    if negb (Nat.eqb (length kex_blob) (ct_len + X25519_BYTES))
    then raise (ValueError ("X25519MLKEM768 kex blob must be 1120 bytes, got "
                            +:+ pretty (length kex_blob)))
    else
    let* kt := timed (of_result (
      let? kem_ss := MLKEM768_decaps (firstn ct_len kex_blob) (kex_kem_secret state) in
      let? peer := x25519_from_public_bytes (skipn ct_len kex_blob) in
      let? x_ss := x25519_exchange (kex_x25519_private state) peer in
      derive_session_key (kem_ss ++ x_ss) _HKDF_CONTEXT)) in
    let '(session_key, t) := kt in
    ret (session_key, accept_meta t kex_blob)).

Definition sign (hid : string) (message : bytes) : M (world * sessions) (bytes * dict) :=
  let* state := session_state hid in
  on_fst (ecdsa_sign_timed (ec_private_ state) message).

Definition forget {H} (hid : string) : M (world * gmap string H) unit := pop_session hid.

Definition establish (kex_public_key : bytes) : M world EstablishResult :=
  let pk_len := ML_KEM_768_PUBLIC_KEY_BYTES in
  if negb (Nat.eqb (length kex_public_key) (pk_len + X25519_BYTES))
  then raise (ValueError ("X25519MLKEM768 key share must be 1216 bytes, got "
                          +:+ pretty (length kex_public_key)))
  else
  let* kt := timed (
    let* cs := MLKEM768_encaps (firstn pk_len kex_public_key) in
    let '(kem_ct, kem_ss) := cs in
    let* x := at_tick x25519_generate in
    let* peer := of_result (x25519_from_public_bytes (skipn pk_len kex_public_key)) in
    let* x_ss := of_result (x25519_exchange x peer) in
    let* session_key := of_result (derive_session_key (kem_ss ++ x_ss) _HKDF_CONTEXT) in
    ret (session_key, kem_ct ++ _x25519_raw x)) in
  let '((session_key, kex_blob), t) := kt in
  ret (mkEstablish session_key kex_blob (establish_meta t kex_blob)).

Definition verify := ecdsa_verify_timed.

#[export] Instance HybridKEXServerCrypto : ServerCryptoConfig sessions := {|
  Base.server_name := name; Base.kex_algorithm := kex_algorithm;
  Base.sig_algorithm := sig_algorithm; Base.server_init := (∅ : sessions);
  Base.new_handshake := new_handshake; Base.accept := accept;
  Base.sign := sign; Base.forget := forget |}.
#[export] Instance HybridKEXClientCrypto : ClientCryptoConfig := {|
  Base.client_name := name; Base.establish := establish; Base.verify := verify |}.
End Config.
End HybridKEX.

(** ** Configuration C: ML-KEM-768, ML-DSA-65 ([full_pqc.py]) *)
Module FullPQC.
Section Config.
Context {E : Env} {P : Prims}.

Record _HandshakeState := mkState { kem_secret_key_ : bytes; sig_secret_key_ : bytes }.
Definition sessions : Type := gmap string _HandshakeState.

Definition name : string := "full_pqc".
Definition kex_algorithm : string := MLKEM768_ALGORITHM.
Definition sig_algorithm : string := MLDSA65_ALGORITHM.
Definition context : bytes := encode "pq-shield-full-pqc".

Definition new_handshake (o : option string) : M (world * sessions) HandshakeBundle :=
  let* hid := on_fst (handshake_id_or_fresh o) in
  let* kt := on_fst (timed (let* kem_kp := MLKEM768_keypair in
                            let* sig_kp := MLDSA65_keypair in
                            ret (kem_kp, sig_kp))) in
  let '((kem_kp, sig_kp), t) := kt in
  store_session hid (mkState (kem_secret_key kem_kp) (sig_secret_key sig_kp)) ;;;
  ret (mkBundle hid (kem_public_key kem_kp) (sig_public_key sig_kp)
         (gen_meta t (kem_public_key kem_kp) (sig_public_key sig_kp)
            kex_algorithm sig_algorithm)).

Definition accept (hid : string) (kex_blob : bytes) : M (world * sessions) (bytes * dict) :=
  let* state := session_state hid in
  on_fst (
    let* kt := timed (of_result (
      let? raw_secret := MLKEM768_decaps kex_blob (kem_secret_key_ state) in
      derive_session_key raw_secret context)) in
    let '(session_key, t) := kt in
    ret (session_key, accept_meta t kex_blob)).

Definition sign (hid : string) (message : bytes) : M (world * sessions) (bytes * dict) :=
  let* state := session_state hid in
  on_fst (mldsa_sign_timed (sig_secret_key_ state) message).

Definition forget (hid : string) : M (world * sessions) unit := pop_session hid.

Definition establish (kex_public_key : bytes) : M world EstablishResult :=
  let* kt := timed (
    let* cs := MLKEM768_encaps kex_public_key in
    let '(kex_blob, raw_secret) := cs in
    let* session_key := of_result (derive_session_key raw_secret context) in
    ret (session_key, kex_blob)) in
  let '((session_key, kex_blob), t) := kt in
  ret (mkEstablish session_key kex_blob (establish_meta t kex_blob)).

Definition verify := mldsa_verify_timed.

#[export] Instance FullPQCServerCrypto : ServerCryptoConfig sessions := {|
  Base.server_name := name; Base.kex_algorithm := kex_algorithm;
  Base.sig_algorithm := sig_algorithm; Base.server_init := (∅ : sessions);
  Base.new_handshake := new_handshake; Base.accept := accept;
  Base.sign := sign; Base.forget := forget |}.
#[export] Instance FullPQCClientCrypto : ClientCryptoConfig := {|
  Base.client_name := name; Base.establish := establish; Base.verify := verify |}.
End Config.
End FullPQC.

(** ** Configuration C': X25519MLKEM768, ML-DSA-65 ([hybrid_kex_pq.py]) *)
Module HybridKEXPQ.
Section Config.
Context {E : Env} {P : Prims}.

Record _HandshakeState := mkState {
  kem_secret_key_ : bytes; x25519_private_ : x25519_private; sig_secret_key_ : bytes }.
Definition sessions : Type := gmap string _HandshakeState.
#[global] Instance keys : KexKeys P _HandshakeState := {|
  kex_kem_secret := kem_secret_key_; kex_x25519_private := x25519_private_ |}.

Definition name : string := "hybrid_kex_pq".
Definition kex_algorithm : string := "X25519MLKEM768".
Definition sig_algorithm : string := MLDSA65_ALGORITHM.

Definition new_handshake (o : option string) : M (world * sessions) HandshakeBundle :=
  let* hid := on_fst (handshake_id_or_fresh o) in
  let* kt := on_fst (timed (let* kem_kp := MLKEM768_keypair in
                            let* x := at_tick x25519_generate in
                            let* sig_kp := MLDSA65_keypair in
                            ret (kem_kp, x, sig_kp))) in
  let '((kem_kp, x, sig_kp), t) := kt in
  store_session hid (mkState (kem_secret_key kem_kp) x (sig_secret_key sig_kp)) ;;;
  let kex_pub := kem_public_key kem_kp ++ _x25519_raw x in
  ret (mkBundle hid kex_pub (sig_public_key sig_kp)
         (gen_meta t kex_pub (sig_public_key sig_kp) kex_algorithm sig_algorithm)).

Definition sign (hid : string) (message : bytes) : M (world * sessions) (bytes * dict) :=
  let* state := session_state hid in
  on_fst (mldsa_sign_timed (sig_secret_key_ state) message).

Definition verify := mldsa_verify_timed.

(** [accept], [forget] and [establish] are inherited. *)
#[export] Instance HybridKEXPQServerCrypto : ServerCryptoConfig sessions := {|
  Base.server_name := name; Base.kex_algorithm := kex_algorithm;
  Base.sig_algorithm := sig_algorithm; Base.server_init := (∅ : sessions);
  Base.new_handshake := new_handshake; Base.accept := HybridKEX.accept;
  Base.sign := sign; Base.forget := HybridKEX.forget |}.
#[export] Instance HybridKEXPQClientCrypto : ClientCryptoConfig := {|
  Base.client_name := name; Base.establish := HybridKEX.establish; Base.verify := verify |}.
End Config.
End HybridKEXPQ.

(** ** The registry ([crypto/registry.py]) *)
Section Registry.
Context {E : Env} {P : Prims}.

(** A pair of classes: a server half with its session type, a client half. *)
Record config := mkConfig {
  cfg_state : Type;
  cfg_server : ServerCryptoConfig cfg_state;
  cfg_client : ClientCryptoConfig;
}.

Definition CONFIGS : list (string * config) :=
  [("classical", mkConfig _ Classical.ClassicalServerCrypto Classical.ClassicalClientCrypto);
   ("classical_ecdhe", mkConfig _ ClassicalECDHE.ClassicalECDHEServerCrypto
                         ClassicalECDHE.ClassicalECDHEClientCrypto);
   ("hybrid", mkConfig _ Hybrid.HybridServerCrypto Hybrid.HybridClientCrypto);
   ("hybrid_kex", mkConfig _ HybridKEX.HybridKEXServerCrypto HybridKEX.HybridKEXClientCrypto);
   ("full_pqc", mkConfig _ FullPQC.FullPQCServerCrypto FullPQC.FullPQCClientCrypto);
   ("hybrid_kex_pq", mkConfig _ HybridKEXPQ.HybridKEXPQServerCrypto
                       HybridKEXPQ.HybridKEXPQClientCrypto)].

Definition CONFIG_NAMES : list string := keys CONFIGS.

(** [CONFIGS[config_name]]: the server class or the client class. *)
Definition get_crypto (config_name : string) : result config := getitem config_name CONFIGS.
Definition get_server_crypto (config_name : string) : result config := get_crypto config_name.
Definition get_client_crypto (config_name : string) : result ClientCryptoConfig :=
  let? c := get_crypto config_name in Ok (cfg_client c).
End Registry.
