(* ===== verification/SignatureModel.v ===== *)
(** * The analytical signature-cost model ([analysis/streaming_model_validation.py])

    The signatures and signature bytes a row of the streaming benchmark should
    show, the checks of a row against them and against the measured primitive
    times, and the report over all rows.  Reading the CSV files and printing
    the report are left out; [rows] is the concatenated table. *)
From stdpp Require Import sorting.
From S2P Require Import Prelude PyBytes PyVal World PyList PyNum Base Configs.

Definition ECDSA_P256_DER_MIN_BYTES : Z := 70.
Definition ECDSA_P256_DER_MAX_BYTES : Z := 72.
(** [FIPS_204_ML_DSA_65.signature_bytes]. *)
Definition ML_DSA_65_SIGNATURE_BYTES : Z := 3309.

Definition _SIG_ALGORITHM_TO_BENCH_KEY : list (string * (string * string)) :=
  [("ML-DSA-65", ("ml_dsa_65", "sign")); ("ECDSA-P256-SHA256", ("classical", "ecdsa_p256_sign"))].
Definition _SIG_ALGORITHM_TO_COLD_START_KEY : list (string * string) :=
  [("ML-DSA-65", "ml_dsa_65_sign"); ("ECDSA-P256-SHA256", "ecdsa_p256_sign")].

(** A number of the JSON file, a dictionary of it. *)
Definition num_at (k : string) (d : dict) : result Q := let? v := getitem k d in as_num v.
Definition dict_at (k : string) (d : dict) : result dict := let? v := getitem k d in as_dict v.

Definition Qgtb (x y : Q) : bool := Qltb y x.

(** [a / b] of floats. *)
Definition float_div (a b : Q) : result Q :=
  if Qeq_bool b 0 then Raise ZeroDivisionError else Ok (a / b)%Q.

Definition mean_sign_us_and_tolerance (sig_algorithm : string) (primitive_bench : dict)
    : result (Q * Q) :=
  let? k := getitem sig_algorithm _SIG_ALGORITHM_TO_BENCH_KEY in
  let? group := dict_at (fst k) primitive_bench in
  let? stats := dict_at (snd k) group in
  let? mean_us := num_at "mean_us" stats in
  let? median_us := num_at "median_us" stats in
  let? tolerance_ratio :=
    (if negb (Qeq_bool median_us 0)
     then let? p99 := num_at "p99_us" stats in float_div p99 median_us
     else Ok 3%Q) in
  Ok (mean_us, tolerance_ratio).

Definition cold_start_ms_and_tolerance (sig_algorithm : string) (primitive_bench : dict)
    : result (option (Q * Q)) :=
  let cold := dget_or "cold_start_signing" VNone primitive_bench in
  if negb (truthy cold) then Ok None
  else
    let? key := getitem sig_algorithm _SIG_ALGORITHM_TO_COLD_START_KEY in
    let? cold := as_dict cold in
    if negb (dmem key cold) then Ok None
    else
      let? stats := dict_at key cold in
      let? mean_ms := num_at "mean_ms" stats in
      let? ratio := (if negb (Qeq_bool mean_ms 0)
                     then let? m := num_at "max_ms" stats in float_div m mean_ms
                     else Ok (3 # 2)%Q) in
      (* [max(1.5, ratio)] keeps the first on a tie *)
      Ok (Some (mean_ms, if Qltb (3 # 2) ratio then ratio else (3 # 2)%Q)).

Definition expected_signature_count (strategy : string) (n_chunks : Z)
    (checkpoint_interval : option Z) (protocol_version : option string) : result Z :=
  if String.eqb strategy "buffer_and_sign" then Ok 1
  else if String.eqb strategy "per_chunk" then
    Ok (Z.max 0 n_chunks
        + match protocol_version with Some v => if String.eqb v "v2" then 1 else 0 | None => 0 end)
  else if String.eqb strategy "hash_chain" then
    match checkpoint_interval with
    | Some k => if (k =? 0) || (k <=? 0) then Ok 1 else Ok (n_chunks / k + 1)
    | None => Ok 1
    end
  else Raise (ValueError ("Unknown strategy '" +:+ strategy +:+ "'")).

Definition expected_signature_bytes (sig_algorithm : string) (n_signatures : Z) : result (Z * Z) :=
  if String.eqb sig_algorithm "ML-DSA-65" then
    let total := n_signatures * ML_DSA_65_SIGNATURE_BYTES in Ok (total, total)
  else if String.eqb sig_algorithm "ECDSA-P256-SHA256" then
    Ok (n_signatures * ECDSA_P256_DER_MIN_BYTES, n_signatures * ECDSA_P256_DER_MAX_BYTES)
  else Raise (ValueError ("Unknown signature algorithm '" +:+ sig_algorithm +:+ "'")).

(** ** A row *)
Record validated := mkValidated {
  va_config : string; va_strategy : string; va_max_tokens : option cell;
  va_chunk_size_tokens : option cell; va_repetition : option cell;
  va_n_chunks : Z; va_checkpoint_interval : option Z; va_checkpoint_interval_assumed : bool;
  va_sig_algorithm : string; va_expected_signatures : Z;
  va_expected_bytes_min : Z; va_expected_bytes_max : Z; va_expected_bytes_exact_scheme : bool;
  va_measured_bytes : Z; va_bytes_ok : bool;
  va_mean_sign_us : Q; va_tolerance_ratio : Q; va_predicted_signing_ms : Q;
  va_measured_signing_ms : xfloat; va_timing_ratio : xfloat; va_timing_ok : bool;
  va_predicted_cold : option Q; va_timing_ratio_cold : option xfloat;
  va_timing_ok_cold : option bool; va_tolerance_ratio_cold : option Q }.

(** A string where the code compares or looks one up; any other value is an
    unknown name. *)
Definition cell_name (c : cell) : string :=
  match c with Cell (VStr s) => s | _ => "" end.

Definition checkpoint_of (row : csv_row) : result (option Z) :=
  match dget "checkpoint_interval" row with
  | None | Some NaN | Some (Cell VNone) => Ok None
  | Some (Cell v) =>
      if match v with VStr s => String.eqb s "" || String.eqb s "nan" | _ => false end then Ok None
      else let? k := py_int v in Ok (Some k)
  end.

Definition protocol_of (row : csv_row) : option string :=
  match dget "protocol_version" row with Some (Cell (VStr s)) => Some s | _ => None end.

(** [measured / predicted] for [predicted > 0]. *)
Definition xdiv (m : xfloat) (p : Q) : xfloat :=
  match m with XFin q => XFin (q / p) | XInf => XInf | XNaN => XNaN end.
Definition xzero (m : xfloat) : bool := match m with XFin q => Qeq_bool q 0 | _ => false end.

(** [(1.0 / tol) <= ratio <= tol]. *)
Definition within (tol : Q) (ratio : xfloat) : result bool :=
  let? lo := float_div 1 tol in Ok (xle (XFin lo) ratio && xle ratio (XFin tol)).

Definition timing_check (measured : xfloat) (predicted tol : Q) : result (xfloat * bool) :=
  let ratio := if Qgtb predicted 0 then xdiv measured predicted
               else if xzero measured then XFin 1 else XInf in
  let? ok := (if Qgtb predicted 0 then within tol ratio else Ok (xzero measured)) in
  Ok (ratio, ok).

Definition cold_check (measured : xfloat) (expected_sigs : Z) (cold : option (Q * Q))
    : result (option (Q * xfloat * bool * Q)) :=
  match cold with
  | None => Ok None
  | Some (cold_mean_ms, tol) =>
      let predicted := (inject_Z expected_sigs * cold_mean_ms)%Q in
      let ratio := if Qgtb predicted 0 then xdiv measured predicted else XInf in
      let? ok := within tol ratio in
      Ok (Some (predicted, ratio, ok, tol))
  end.

Section Rows.
Context {E : Env} {P : Prims}.

Definition sig_algorithm_for_config (config_name : string) : result string :=
  let? c := get_server_crypto config_name in
  Ok (sig_algorithm (ServerCryptoConfig := cfg_server c)).

Definition validate_row (row : csv_row) (primitive_bench : dict) : result validated :=
  let? config := getitem "config" row in
  let? strategy := getitem "strategy" row in
  let? nc := getitem "n_chunks" row in
  let? n_chunks := cell_int nc in
  let? checkpoint_interval := checkpoint_of row in
  let? sig_algorithm := sig_algorithm_for_config (cell_name config) in
  let? mb := getitem "total_signature_bytes" row in
  let? measured_bytes := cell_int mb in
  let? ms := getitem "total_signing_ms" row in
  let? measured_signing_ms := cell_float ms in
  let? expected_sigs := expected_signature_count (cell_name strategy) n_chunks
                          checkpoint_interval (protocol_of row) in
  let? range := expected_signature_bytes sig_algorithm expected_sigs in
  let '(bytes_min, bytes_max) := range in
  let? mt := mean_sign_us_and_tolerance sig_algorithm primitive_bench in
  let '(mean_sign_us, tolerance_ratio) := mt in
  let predicted_signing_ms := (inject_Z expected_sigs * mean_sign_us / 1000)%Q in
  let? timing := timing_check measured_signing_ms predicted_signing_ms tolerance_ratio in
  let? cold :=
    (if String.eqb (cell_name strategy) "buffer_and_sign" then
       let? c := cold_start_ms_and_tolerance sig_algorithm primitive_bench in
       cold_check measured_signing_ms expected_sigs c
     else Ok None) in
  Ok (mkValidated (cell_name config) (cell_name strategy) (dget "max_tokens" row)
        (dget "chunk_size_tokens" row) (dget "repetition" row) n_chunks checkpoint_interval
        (negb (dmem "checkpoint_interval" row)) sig_algorithm expected_sigs bytes_min bytes_max
        (String.eqb sig_algorithm "ML-DSA-65") measured_bytes
        ((bytes_min <=? measured_bytes) && (measured_bytes <=? bytes_max))
        mean_sign_us tolerance_ratio predicted_signing_ms measured_signing_ms
        (fst timing) (snd timing)
        (match cold with Some (p, _, _, _) => Some p | None => None end)
        (match cold with Some (_, r, _, _) => Some r | None => None end)
        (match cold with Some (_, _, ok, _) => Some ok | None => None end)
        (match cold with Some (_, _, _, tol) => Some tol | None => None end)).

(** ** The report *)
(** [df["error"].isna() | (df["error"] == "")]. *)
Definition error_free (row : csv_row) : result bool :=
  let? c := getitem "error" row in
  Ok (match c with
      | NaN | Cell VNone => true
      | Cell (VStr s) => String.eqb s ""
      | Cell _ => false
      end).

Definition timing_ok_best (r : validated) : bool :=
  match va_timing_ok_cold r with Some b => b | None => va_timing_ok r end.

Definition count_rows (f : validated -> bool) (rows : list validated) : Z :=
  py_len (List.filter f rows).

Definition group_key (r : validated) : string := va_config r +:+ "/" +:+ va_strategy r.

(** [setdefault(key, []).append(r)]. *)
Definition add_to_group (r : validated) (groups : list (string * list validated))
    : list (string * list validated) :=
  match dget (group_key r) groups with
  | Some g => dset (group_key r) (g ++ [r]) groups
  | None => dset (group_key r) [r] groups
  end.
Definition by_strategy_config (rows : list validated) : list (string * list validated) :=
  fold_left (fun gs r => add_to_group r gs) rows [].

(** [sorted(d.items())]: by key, no two equal. *)
Definition key_le {A} (x y : string * A) : Prop := String.leb (fst x) (fst y) = true.
#[global] Instance key_le_dec {A} : RelDecision (@key_le A) := fun x y => decide (_ = true).
Definition sorted_items {A} (d : list (string * A)) : list (string * A) := merge_sort key_le d.

Record group_report := mkGroup {
  gr_group : string; gr_n_rows : Z; gr_bytes_ok : Z; gr_bytes_exact_scheme : bool;
  gr_timing_ok : Z; gr_timing_ratio_min : xfloat; gr_timing_ratio_max : xfloat;
  gr_tolerance_ratio : Q; gr_timing_ok_best : Z; gr_used_cold_start_baseline : bool }.

Definition report_group (kg : string * list validated) : result group_report :=
  let '(key, group) := kg in
  match group with
  | [] => Raise (IndexError "list index out of range")
  | g :: rest =>
      Ok (mkGroup key (py_len group) (count_rows va_bytes_ok group)
            (va_expected_bytes_exact_scheme g) (count_rows va_timing_ok group)
            (xmin (va_timing_ratio g) (map va_timing_ratio rest))
            (xmax (va_timing_ratio g) (map va_timing_ratio rest)) (va_tolerance_ratio g)
            (count_rows timing_ok_best group)
            (existsb (fun r => match va_timing_ratio_cold r with Some _ => true | None => false end)
               group))
  end.

Record validation_summary := mkSummary {
  su_total_rows : Z; su_excluded_error_rows : Z; su_validated_rows : Z; su_bytes_ok : Z;
  su_bytes_all_ok : bool; su_timing_ok : Z; su_timing_all_ok : bool; su_timing_ok_best : Z;
  su_timing_all_ok_best : bool }.
Record validation := mkValidation {
  vn_rows : list validated; vn_per_group : list group_report; vn_summary : validation_summary }.

(** [run_validation] on the table and the parsed benchmark file. *)
Definition run_validation (df : list csv_row) (primitive_bench : dict) : result validation :=
  let? ok := rfilter error_free df in
  let? rows := rmap (fun r => validate_row r primitive_bench) ok in
  let? per_group := rmap report_group (sorted_items (by_strategy_config rows)) in
  let n := py_len rows in
  let n_bytes_ok := count_rows va_bytes_ok rows in
  let n_timing_ok := count_rows va_timing_ok rows in
  let n_best := count_rows timing_ok_best rows in
  Ok (mkValidation rows per_group
        (mkSummary (py_len df) (py_len df - py_len ok) n n_bytes_ok (n_bytes_ok =? n)
           n_timing_ok (n_timing_ok =? n) n_best (n_best =? n))).
End Rows.
