(* ===== verification/ConfigsLaws.v ===== *)
(** * Every configuration implements the contract of [Base]

    [table_laws] turns facts about one session into the contract on the whole
    session table; each configuration then only proves what its own key
    exchange and signature do. *)
From stdpp Require Import gmap.
From S2P Require Import Prelude PyBytes PyVal World Instrumentation Aead OqsAdapter Base.
From S2P Require Import Configs.

(** ** Running the building blocks *)
Section Runs.
Context {E : Env} {P : Prims} {EL : EnvLaws E} {PL : PrimLaws P}.

Lemma bind_of_result {Σ A B} (a : A) (k : A -> M Σ B) σ : bind (of_result (Ok a)) k σ = k a σ.
Proof. reflexivity. Qed.

Lemma bind_at_tick {A B} (f : nat -> A) (k : A -> M world B) w :
  bind (at_tick f) k w = k (f (tick w)) (advance w).
Proof. reflexivity. Qed.

Lemma handshake_id_or_fresh_run o w :
  exists h w', handshake_id_or_fresh o w = (Ok h, w')
    /\ (forall h0, o = Some h0 -> h0 <> "" -> h = h0).
Proof.
  destruct o as [h|]; simpl.
  - destruct (String.eqb_spec h "") as [->|Hne].
    + eexists _, _. split; [reflexivity|]. by intros ? [= <-].
    + eexists _, _. split; [reflexivity|]. by intros ? [= <-].
  - eexists _, _. split; [reflexivity|done].
Qed.

Lemma bind_on_fst {Σ T A B} (m : M Σ A) (k : A -> M (Σ * T) B) σ t a σ' :
  m σ = (Ok a, σ') -> bind (on_fst m) k (σ, t) = k a (σ', t).
Proof. intros H. apply bind_Ok. by apply on_fst_Ok. Qed.

Lemma bind_timed {A B} (m : M world A) (k : A * Timer -> M world B) w a w' :
  m (advance (advance w)) = (Ok a, w') ->
  exists t, bind (timed m) k w = k (a, t) (advance (advance w')).
Proof. intros H. destruct (timed_Ok _ _ _ _ H) as [t Ht]. exists t. by apply bind_Ok. Qed.

Lemma bind_store_session {H B} hid (st : H) (k : unit -> M (world * gmap string H) B) w s :
  bind (store_session hid st) k (w, s) = k tt (w, <[hid := st]> s).
Proof. reflexivity. Qed.

Lemma session_state_run {H} hid (st : H) w s :
  s !! hid = Some st -> session_state hid (w, s) = (Ok st, (w, s)).
Proof. intros Hs. unfold session_state. by rewrite Hs. Qed.

Lemma session_state_unknown {H} hid w (s : gmap string H) :
  s !! hid = None -> session_state hid (w, s) = (Raise (KeyError hid), (w, s)).
Proof. intros Hs. unfold session_state. by rewrite Hs. Qed.

Lemma ecdsa_sign_timed_run priv msg w :
  exists sig meta w', ecdsa_sign_timed priv msg w = (Ok (sig, meta), w')
    /\ sign_meta_ok meta /\ sig <> []
    /\ (forall wv, exists vmeta wv',
          ecdsa_verify_timed msg sig (_ec_public_der priv) wv = (Ok (true, vmeta), wv')
          /\ verify_meta_ok vmeta).
Proof.
  eexists _, _, _. split; [reflexivity|]. split; [split_and!; eexists; reflexivity|].
  split; [apply ecdsa_sign_nonempty|]. intros wv. unfold ecdsa_verify_timed, _ec_public_der.
  rewrite load_der_public_bytes, bind_of_result.
  unfold pub_verify_ecdsa. rewrite ecdsa_verify_sign.
  eexists _, _. split; [reflexivity|split_and!; eexists; reflexivity].
Qed.

Lemma mldsa_sign_timed_run pk sk msg w :
  sig_pair pk sk -> length pk = ML_DSA_65_PUBLIC_KEY_BYTES ->
  length sk = ML_DSA_65_SECRET_KEY_BYTES ->
  exists sig meta w', mldsa_sign_timed sk msg w = (Ok (sig, meta), w')
    /\ sign_meta_ok meta /\ sig <> []
    /\ (forall wv, exists vmeta wv',
          mldsa_verify_timed msg sig pk wv = (Ok (true, vmeta), wv')
          /\ verify_meta_ok vmeta).
Proof.
  intros Hp Lpk Lsk.
  destruct (MLDSA65_sign_run pk sk msg (advance (advance w)) Hp Lpk Lsk)
    as (sig & w1 & Hs & _ & Hne & Hv).
  destruct (bind_timed _ (fun st => let '(s, t) := st in ret (s, sign_meta t s)) _ _ _ Hs)
    as [t Ht].
  exists sig, (sign_meta t sig), (advance (advance w1)). split; [exact Ht|].
  split; [split_and!; eexists; reflexivity|]. split; [done|]. intros wv. unfold mldsa_verify_timed. rewrite Hv.
  eexists _, _. split; [reflexivity|split_and!; eexists; reflexivity].
Qed.
End Runs.

(** ** From one session to the table *)
Section Table.
Context {H : Type} (Srv : ServerCryptoConfig (gmap string H)) (Cli : ClientCryptoConfig).

(** What a configuration shows: its operations act on one session, and
    [session_ok] relates a session to its public keys. *)
Record TableImpl := {
  session_ok : H -> bytes -> bytes -> Prop;
  accept_in : H -> bytes -> M world (bytes * dict);
  sign_in : H -> bytes -> M world (bytes * dict);
  ti_init : server_init = (∅ : gmap string H);
  ti_new w s o :
    exists b w' st, new_handshake o (w, s) = (Ok b, (w', <[handshake_id b := st]> s))
      /\ session_ok st (kex_public_key b) (hb_sig_public_key b)
      /\ (forall h, o = Some h -> h <> "" -> handshake_id b = h);
  ti_accept hid blob :
    accept hid blob = (let* st := session_state hid in on_fst (accept_in st blob));
  ti_sign hid msg :
    sign hid msg = (let* st := session_state hid in on_fst (sign_in st msg));
  ti_forget hid : forget hid = pop_session hid;
  ti_agree st kpk spk w : session_ok st kpk spk ->
    exists est w', establish kpk w = (Ok est, w')
      /\ length (session_key est) = 32%nat /\ kex_blob est <> []
      /\ forall ws, exists meta ws', accept_in st (kex_blob est) ws
                                     = (Ok (session_key est, meta), ws');
  ti_signs st kpk spk msg w : session_ok st kpk spk ->
    exists sig meta w', sign_in st msg w = (Ok (sig, meta), w')
      /\ sign_meta_ok meta /\ sig <> [] /\ accepts msg sig spk;
  ti_key_length st blob w key meta w' :
    accept_in st blob w = (Ok (key, meta), w') -> length key = 32%nat /\ accept_meta_ok meta;
}.

Definition in_table (s : gmap string H) (hid : string) : bool :=
  match s !! hid with Some _ => true | None => false end.

Lemma in_session_state {A} hid (f : H -> M world A) w s r w' s' :
  (let* st := session_state hid in on_fst (f st)) (w, s) = (r, (w', s')) -> s' = s.
Proof.
  unfold bind, session_state. destruct (s !! hid); [|by intros [= _ _ <-]].
  unfold on_fst. destruct (f h w). by intros [= _ _ <-].
Qed.

Definition table_laws (T : TableImpl) : ConfigLaws Srv Cli.
Proof.
  refine {|
    live s hid kpk spk := exists st, s !! hid = Some st /\ session_ok T st kpk spk;
    known := in_table |}.
  - intros s hid kpk spk (st & Hs & _). unfold in_table. by rewrite Hs.
  - intros w s o. destruct (ti_new T w s o) as (b & w' & st & Hn & Hok & Hid).
    exists b, w', (<[handshake_id b := st]> s). split_and!; [done| |done|].
    + exists st. by rewrite lookup_insert_eq.
    + intros h k p Hne (st' & Hs & Hok'). exists st'. by rewrite lookup_insert_ne.
  - intros w s o b w' s' h Hn Hne. destruct (ti_new T w s o) as (b2 & w2 & st & Hn2 & _).
    rewrite Hn in Hn2. injection Hn2 as <- <- ->. unfold in_table. by rewrite lookup_insert_ne.
  - intros s hid kpk spk w (st & Hs & Hok).
    destruct (ti_agree T st kpk spk w Hok) as (est & w' & He & Hl & Hb & Hacc).
    exists est, w'. split_and!; [done|done|done|]. intros ws.
    destruct (Hacc ws) as (meta & ws' & Ha). exists meta, ws'.
    rewrite (ti_accept T), (bind_Ok _ _ _ _ _ (session_state_run _ _ _ _ Hs)).
    by apply on_fst_Ok.
  - intros s hid kpk spk msg w (st & Hs & Hok).
    destruct (ti_signs T st kpk spk msg w Hok) as (sig & meta & w' & Hr & Hm & Hne & Ha).
    exists sig, meta, w'. split_and!; [|done|done|done].
    rewrite (ti_sign T), (bind_Ok _ _ _ _ _ (session_state_run _ _ _ _ Hs)).
    by apply on_fst_Ok.
  - intros s hid blob w Hk. exists w. rewrite (ti_accept T). unfold in_table in Hk.
    destruct (s !! hid) eqn:Hs; [done|].
    by rewrite (bind_Raise _ _ _ _ _ (session_state_unknown _ _ _ Hs)).
  - intros s hid blob w r w' s'. rewrite (ti_accept T). apply in_session_state.
  - intros s hid msg w Hk. exists w. rewrite (ti_sign T). unfold in_table in Hk.
    destruct (s !! hid) eqn:Hs; [done|].
    by rewrite (bind_Raise _ _ _ _ _ (session_state_unknown _ _ _ Hs)).
  - intros s hid msg w r w' s'. rewrite (ti_sign T). apply in_session_state.
  - intros s hid blob w key meta σ. rewrite (ti_accept T). unfold bind, session_state.
    destruct (s !! hid) as [st|]; [|done]. unfold on_fst.
    destruct (accept_in T st blob w) as [r w'] eqn:Ha. intros [= -> _].
    by eapply (ti_key_length T).
  - intros w s hid. exists (delete hid s). rewrite (ti_forget T).
    split; [done|]. unfold in_table. rewrite lookup_delete_eq. split_and!; [done| |].
    + intros h Hne. by rewrite lookup_delete_ne.
    + intros h k p Hne (st & Hs & Hok). exists st. by rewrite lookup_delete_ne.
  - intros hid. rewrite (ti_init T). unfold in_table. by rewrite lookup_empty.
Defined.
End Table.

(** ** The six instances *)
Section Instances.
Context {E : Env} {P : Prims} {EL : EnvLaws E} {PL : PrimLaws P}.

(** The length of a derived key, through a timed body that ends in HKDF. *)
Lemma timed_key_length (body : M world bytes) w key meta w' (mk : Timer -> dict) :
  (forall t, accept_meta_ok (mk t)) ->
  (forall v k v', body v = (Ok k, v') -> length k = 32%nat) ->
  (let* kt := timed body in let '(k, t) := kt in ret (k, mk t)) w = (Ok (key, meta), w') ->
  length key = 32%nat /\ accept_meta_ok meta.
Proof.
  intros Hmk Hb (kt & w1 & Ht & Hk)%bind_inv_Ok. destruct kt as [k t].
  injection Hk as -> <- _. apply timed_inv_Ok in Ht as (w2 & Ht & _).
  split; [by eapply Hb|apply Hmk].
Qed.

Lemma rbind_derive_length {A} (r : result A) (f : A -> bytes) ctx k :
  (let? x := r in derive_session_key (f x) ctx) = Ok k -> length k = 32%nat.
Proof. destruct r; simpl; [|done]. apply hkdf_length. Qed.

(** Run the timed block at the head of the goal: first its body. *)
Ltac run_timed :=
  match goal with
  | |- context [bind (timed ?m) _ ?w] =>
      let t := fresh "t" in let Ht := fresh "Ht" in
      edestruct (timed_Ok m w) as [t Ht];
        [| rewrite (bind_Ok _ _ _ _ _ Ht); clear Ht; cbv beta iota]
  end.

Ltac by_key_length :=
  let v := fresh in let k := fresh in let v' := fresh in let Hk := fresh in
  eapply timed_key_length; [intros ?; by eexists|]; intros v k v'; unfold of_result; intros [= Hk _];
  revert Hk.

Lemma nonempty_length {A} (l : list A) n : length l = S n -> l <> [].
Proof. by destruct l. Qed.

Definition classical_session (st : Classical._HandshakeState) (kpk spk : bytes) : Prop :=
  kpk = Classical._rsa_public_der (rsa_public_key (Classical.rsa_private_ st))
  /\ spk = _ec_public_der (Classical.ec_private_ st).

Definition classical_impl :
  TableImpl Classical.ClassicalServerCrypto Classical.ClassicalClientCrypto.
Proof.
  unshelve eapply (Build_TableImpl _ _ classical_session);
    [| |done| |intros; reflexivity|intros; reflexivity|done| | |]; cbv beta.
  - intros w s o. destruct (handshake_id_or_fresh_run o w) as (h & w1 & Hh & Hid).
    cbn. unfold Classical.new_handshake. rewrite (bind_on_fst _ _ _ _ _ _ Hh).
    edestruct (timed_Ok (let* rsa := at_tick rsa_generate in
                         let* ec := at_tick ec_generate in ret (rsa, ec)) w1) as [t Ht];
      [reflexivity|].
    rewrite (bind_on_fst _ _ _ _ _ _ Ht), bind_store_session.
    eexists (mkBundle _ _ _ _), _, (Classical.mkState _ _). split; [reflexivity|].
    split; [split; reflexivity|done].
  - intros st kpk spk w [-> ->]. cbn. unfold Classical.establish, Classical._rsa_public_der.
    rewrite load_der_public_bytes.
    set (raw := env_urandom (tick w) 32).
    destruct (derive_session_key_ok raw Classical.context) as (k & Hk & Lk).
    destruct (rsa_encrypt_ok (tick w + 3)%nat (rsa_public_key (Classical.rsa_private_ st)) raw)
      as (c & Hc & Lc).
    { unfold raw. rewrite urandom_length. lia. }
    pose proof (rsa_decrypt_encrypt _ _ _ _ Hc) as Hd.
    rewrite bind_of_result. unfold os_urandom. rewrite bind_at_tick. fold raw.
    rewrite Hk, bind_of_result.
    run_timed.
    { cbn. replace (S (S (S (tick w)))) with (tick w + 3)%nat by lia. rewrite Hc. reflexivity. }
    eexists _, _. split; [reflexivity|]. split_and!; [exact Lk| |].
    + by eapply nonempty_length.
    + intros ws. cbn [Base.kex_blob Base.session_key]. rewrite Hd. simpl. rewrite Hk.
      eexists _, _. reflexivity.
  - intros st kpk spk msg w [-> ->].
    destruct (ecdsa_sign_timed_run (Classical.ec_private_ st) msg w) as (sig & m & w' & H1 & H2 & Hne & H3).
    exists sig, m, w'. split_and!; [exact H1|exact H2|exact Hne|exact H3].
  - intros st blob w key meta w'. by_key_length. apply (rbind_derive_length _ id).
Defined.

(** *** Classical-ECDHE *)
Lemma x25519_raw_checked_ok x : ClassicalECDHE.x25519_raw_checked x = Ok (_x25519_raw x).
Proof. unfold ClassicalECDHE.x25519_raw_checked, _x25519_raw. by rewrite x25519_raw_length. Qed.

(** Both ends of an X25519 exchange derive the same secret. *)
Lemma x25519_agree i j :
  exists ss, length ss = 32%nat
    /\ (let? peer := x25519_from_public_bytes (_x25519_raw (x25519_generate j)) in
        x25519_exchange (x25519_generate i) peer) = Ok ss
    /\ (let? peer := x25519_from_public_bytes (_x25519_raw (x25519_generate i)) in
        x25519_exchange (x25519_generate j) peer) = Ok ss.
Proof.
  destruct (x25519_exchange_ok i j) as (ss & Hss & L). exists ss.
  unfold _x25519_raw. rewrite !x25519_from_raw. simpl.
  by rewrite (x25519_exchange_comm (x25519_generate j)).
Qed.

Definition ecdhe_session (st : ClassicalECDHE._HandshakeState) (kpk spk : bytes) : Prop :=
  (exists i, ClassicalECDHE.x25519_private_ st = x25519_generate i)
  /\ kpk = _x25519_raw (ClassicalECDHE.x25519_private_ st)
  /\ spk = _ec_public_der (ClassicalECDHE.ec_private_ st).

Definition ecdhe_impl :
  TableImpl ClassicalECDHE.ClassicalECDHEServerCrypto ClassicalECDHE.ClassicalECDHEClientCrypto.
Proof.
  unshelve eapply (Build_TableImpl _ _ ecdhe_session);
    [| |done| |intros; reflexivity|intros; reflexivity|done| | |]; cbv beta.
  - intros w s o. destruct (handshake_id_or_fresh_run o w) as (h & w1 & Hh & Hid).
    cbn. unfold ClassicalECDHE.new_handshake. rewrite (bind_on_fst _ _ _ _ _ _ Hh).
    edestruct (timed_Ok (let* x := at_tick x25519_generate in
                         let* ec := at_tick ec_generate in ret (x, ec)) w1) as [t Ht];
      [reflexivity|].
    rewrite (bind_on_fst _ _ _ _ _ _ Ht), bind_store_session.
    rewrite x25519_raw_checked_ok, bind_of_result.
    eexists (mkBundle _ _ _ _), _, (ClassicalECDHE.mkState _ _). split; [reflexivity|].
    split; [split_and!; eauto|done].
  - intros st kpk spk w ((i & Hi) & -> & _). cbn. unfold ClassicalECDHE.establish.
    rewrite Hi.
    rewrite (x25519_raw_length (x25519_public_key (x25519_generate i)) : length (_x25519_raw _) = 32%nat).
    cbn [Nat.eqb negb ClassicalECDHE.X25519_PUBLIC_KEY_BYTES].
    destruct (x25519_agree (tick w + 2) i) as (ss & Lss & H1 & H2).
    destruct (derive_session_key_ok ss ClassicalECDHE._HKDF_CONTEXT) as (k & Hk & Lk).
    run_timed.
    { rewrite bind_at_tick. cbn [advance tick oqs_rng].
      replace (S (S (tick w))) with (tick w + 2)%nat by lia.
      destruct (x25519_from_public_bytes _) as [peer|]; [|done]. simpl in H1.
      rewrite bind_of_result, H1, bind_of_result, Hk, bind_of_result,
        x25519_raw_checked_ok, bind_of_result. reflexivity. }
    eexists _, _. split; [reflexivity|]. cbn [Base.kex_blob Base.session_key].
    split_and!; [exact Lk| |].
    + eapply nonempty_length. apply x25519_raw_length.
    + intros ws.
      rewrite (x25519_raw_length (x25519_public_key (x25519_generate (tick w + 2)))
               : length (_x25519_raw _) = 32%nat).
      unfold ClassicalECDHE.X25519_PUBLIC_KEY_BYTES. cbn [Nat.eqb negb].
      destruct (x25519_from_public_bytes (_x25519_raw (x25519_generate (tick w + 2)))) as [peer|];
        [|done]. simpl in H2.
      run_timed; [cbn [rbind]; rewrite H2; simpl; rewrite Hk; reflexivity|].
      eexists _, _. reflexivity.
  - intros st kpk spk msg w (_ & _ & ->).
    destruct (ecdsa_sign_timed_run (ClassicalECDHE.ec_private_ st) msg w)
      as (sig & m & w' & H1 & H2 & Hne & H3).
    exists sig, m, w'. split_and!; [exact H1|exact H2|exact Hne|exact H3].
  - intros st blob w key meta w'. destruct (negb _); [done|].
    by_key_length. destruct (x25519_from_public_bytes blob); simpl; [|done].
    apply (rbind_derive_length _ id).
Defined.

(** *** ML-KEM-768 key establishment, alone and with X25519 *)
Definition kem_valid (pk sk : bytes) : Prop :=
  kem_pair pk sk /\ length pk = ML_KEM_768_PUBLIC_KEY_BYTES
  /\ length sk = ML_KEM_768_SECRET_KEY_BYTES.
Definition sig_valid (pk sk : bytes) : Prop :=
  sig_pair pk sk /\ length pk = ML_DSA_65_PUBLIC_KEY_BYTES
  /\ length sk = ML_DSA_65_SECRET_KEY_BYTES.

Lemma mlkem_agree pk sk ctx w :
  kem_valid pk sk ->
  exists k ct w',
    (let* cs := MLKEM768_encaps pk in
     let '(kex_blob, raw_secret) := cs in
     let* session_key := of_result (derive_session_key raw_secret ctx) in
     ret (session_key, kex_blob)) w = (Ok (k, ct), w')
    /\ (let? raw_secret := MLKEM768_decaps ct sk in derive_session_key raw_secret ctx) = Ok k
    /\ length k = 32%nat /\ length ct = ML_KEM_768_CIPHERTEXT_BYTES.
Proof.
  intros (Hp & Lpk & Lsk).
  destruct (MLKEM768_encaps_run pk sk w Hp Lpk Lsk) as (ct & ss & w' & He & Lct & _ & Hd).
  destruct (derive_session_key_ok ss ctx) as (k & Hk & Lk).
  exists k, ct, w'. rewrite (bind_Ok _ _ _ _ _ He), Hk, bind_of_result, Hd. done.
Qed.

Lemma x25519mlkem_agree pk sk i w :
  kem_valid pk sk ->
  exists k blob w',
    (let* cs := MLKEM768_encaps (firstn ML_KEM_768_PUBLIC_KEY_BYTES
                                   (pk ++ _x25519_raw (x25519_generate i))) in
     let '(kem_ct, kem_ss) := cs in
     let* x := at_tick x25519_generate in
     let* peer := of_result (x25519_from_public_bytes
                    (skipn ML_KEM_768_PUBLIC_KEY_BYTES
                       (pk ++ _x25519_raw (x25519_generate i)))) in
     let* x_ss := of_result (x25519_exchange x peer) in
     let* session_key := of_result (derive_session_key (kem_ss ++ x_ss) HybridKEX._HKDF_CONTEXT) in
     ret (session_key, kem_ct ++ _x25519_raw x)) w = (Ok (k, blob), w')
    /\ (let? kem_ss := MLKEM768_decaps (firstn ML_KEM_768_CIPHERTEXT_BYTES blob) sk in
        let? peer := x25519_from_public_bytes (skipn ML_KEM_768_CIPHERTEXT_BYTES blob) in
        let? x_ss := x25519_exchange (x25519_generate i) peer in
        derive_session_key (kem_ss ++ x_ss) HybridKEX._HKDF_CONTEXT) = Ok k
    /\ length k = 32%nat
    /\ length blob = (ML_KEM_768_CIPHERTEXT_BYTES + HybridKEX.X25519_BYTES)%nat.
Proof.
  intros (Hp & Lpk & Lsk).
  destruct (MLKEM768_encaps_run pk sk w Hp Lpk Lsk) as (ct & ss & w' & He & Lct & _ & Hd).
  destruct (x25519_agree (tick w') i) as (xss & _ & H1 & H2).
  destruct (derive_session_key_ok (ss ++ xss) HybridKEX._HKDF_CONTEXT) as (k & Hk & Lk).
  exists k, (ct ++ _x25519_raw (x25519_generate (tick w'))), (advance w').
  rewrite <- Lpk, <- Lct, !take_app_length, !drop_app_length.
  rewrite (bind_Ok _ _ _ _ _ He), bind_at_tick, Hd. cbn [rbind].
  destruct (x25519_from_public_bytes (_x25519_raw (x25519_generate i))) as [p1|]; [|done].
  destruct (x25519_from_public_bytes (_x25519_raw (x25519_generate (tick w')))) as [p2|]; [|done].
  cbn [rbind] in *. rewrite bind_of_result, H1, bind_of_result, Hk, bind_of_result, H2.
  split_and!; [done|done|done|].
  rewrite length_app, Lct. unfold _x25519_raw. by rewrite x25519_raw_length.
Qed.

Lemma MLKEM768_keypair_valid w :
  exists kp w', MLKEM768_keypair w = (Ok kp, w')
    /\ kem_valid (kem_public_key kp) (kem_secret_key kp).
Proof.
  destruct (MLKEM768_keypair_run w) as (kp & w' & Hk & Hv). exists kp, w'. done.
Qed.
Lemma MLDSA65_keypair_valid w :
  exists kp w', MLDSA65_keypair w = (Ok kp, w')
    /\ sig_valid (sig_public_key kp) (sig_secret_key kp).
Proof.
  destruct (MLDSA65_keypair_run w) as (kp & w' & Hk & Hv). exists kp, w'. done.
Qed.

Lemma blob_nonempty (b : bytes) n : length b = (1088 + n)%nat -> b <> [].
Proof. destruct b; simpl; [lia|done]. Qed.

(** *** Hybrid *)
Definition hybrid_session (st : Hybrid._HandshakeState) (kpk spk : bytes) : Prop :=
  kem_valid kpk (Hybrid.kem_secret_key_ st) /\ spk = _ec_public_der (Hybrid.ec_private_ st).

Definition hybrid_impl : TableImpl Hybrid.HybridServerCrypto Hybrid.HybridClientCrypto.
Proof.
  unshelve eapply (Build_TableImpl _ _ hybrid_session);
    [| |done| |intros; reflexivity|intros; reflexivity|done| | |]; cbv beta.
  - intros w s o. destruct (handshake_id_or_fresh_run o w) as (h & w1 & Hh & Hid).
    cbn. unfold Hybrid.new_handshake. rewrite (bind_on_fst _ _ _ _ _ _ Hh).
    destruct (MLKEM768_keypair_valid (advance (advance w1))) as (kp & w2 & Hkp & Hv).
    edestruct (timed_Ok (let* kem_kp := MLKEM768_keypair in
                         let* ec := at_tick ec_generate in ret (kem_kp, ec)) w1) as [t Ht];
      [rewrite (bind_Ok _ _ _ _ _ Hkp); reflexivity|].
    rewrite (bind_on_fst _ _ _ _ _ _ Ht), bind_store_session.
    eexists (mkBundle _ _ _ _), _, (Hybrid.mkState _ _). split; [reflexivity|].
    split; [by split|done].
  - intros st kpk spk w [Hv _]. cbn. unfold Hybrid.establish.
    destruct (mlkem_agree _ _ Hybrid.context (advance (advance w)) Hv)
      as (k & ct & w' & He & Hd & Lk & Lct).
    run_timed; [exact He|]. eexists _, _. split; [reflexivity|].
    split_and!; [exact Lk|by apply (blob_nonempty _ 0)|]. cbn [Base.kex_blob Base.session_key].
    intros ws. rewrite Hd. eexists _, _. reflexivity.
  - intros st kpk spk msg w [_ ->].
    destruct (ecdsa_sign_timed_run (Hybrid.ec_private_ st) msg w) as (sig & m & w' & H1 & H2 & Hne & H3).
    exists sig, m, w'. split_and!; [exact H1|exact H2|exact Hne|exact H3].
  - intros st blob w key meta w'. by_key_length. apply (rbind_derive_length _ id).
Defined.

(** *** Full PQC *)
Definition full_pqc_session (st : FullPQC._HandshakeState) (kpk spk : bytes) : Prop :=
  kem_valid kpk (FullPQC.kem_secret_key_ st) /\ sig_valid spk (FullPQC.sig_secret_key_ st).

Definition full_pqc_impl : TableImpl FullPQC.FullPQCServerCrypto FullPQC.FullPQCClientCrypto.
Proof.
  unshelve eapply (Build_TableImpl _ _ full_pqc_session);
    [| |done| |intros; reflexivity|intros; reflexivity|done| | |]; cbv beta.
  - intros w s o. destruct (handshake_id_or_fresh_run o w) as (h & w1 & Hh & Hid).
    cbn. unfold FullPQC.new_handshake. rewrite (bind_on_fst _ _ _ _ _ _ Hh).
    destruct (MLKEM768_keypair_valid (advance (advance w1))) as (kp & w2 & Hkp & Hv).
    destruct (MLDSA65_keypair_valid w2) as (skp & w3 & Hskp & Hsv).
    edestruct (timed_Ok (let* kem_kp := MLKEM768_keypair in
                         let* sig_kp := MLDSA65_keypair in ret (kem_kp, sig_kp)) w1) as [t Ht];
      [rewrite (bind_Ok _ _ _ _ _ Hkp), (bind_Ok _ _ _ _ _ Hskp); reflexivity|].
    rewrite (bind_on_fst _ _ _ _ _ _ Ht), bind_store_session.
    eexists (mkBundle _ _ _ _), _, (FullPQC.mkState _ _). split; [reflexivity|].
    split; [by split|done].
  - intros st kpk spk w [Hv _]. cbn. unfold FullPQC.establish.
    destruct (mlkem_agree _ _ FullPQC.context (advance (advance w)) Hv)
      as (k & ct & w' & He & Hd & Lk & Lct).
    run_timed; [exact He|]. eexists _, _. split; [reflexivity|].
    split_and!; [exact Lk|by apply (blob_nonempty _ 0)|]. cbn [Base.kex_blob Base.session_key].
    intros ws. rewrite Hd. eexists _, _. reflexivity.
  - intros st kpk spk msg w [_ (Hp & L1 & L2)].
    destruct (mldsa_sign_timed_run spk (FullPQC.sig_secret_key_ st) msg w Hp L1 L2)
      as (sig & m & w' & H1 & H2 & Hne & H3).
    exists sig, m, w'. split_and!; [exact H1|exact H2|exact Hne|exact H3].
  - intros st blob w key meta w'. by_key_length. apply (rbind_derive_length _ id).
Defined.

(** *** Hybrid-KEX and Hybrid-KEX-PQ share the key exchange *)
Lemma hybridkex_agree {H} {KK : KexKeys P H} (st : H) kpk w :
  (exists pk i, kem_valid pk (kex_kem_secret st)
     /\ kex_x25519_private st = x25519_generate i
     /\ kpk = pk ++ _x25519_raw (x25519_generate i)) ->
  exists est w', HybridKEX.establish kpk w = (Ok est, w')
    /\ length (session_key est) = 32%nat /\ kex_blob est <> []
    /\ forall ws, exists meta ws',
      (if negb (Nat.eqb (length (kex_blob est)) (ML_KEM_768_CIPHERTEXT_BYTES + HybridKEX.X25519_BYTES))
       then raise (ValueError ("X25519MLKEM768 kex blob must be 1120 bytes, got "
                               +:+ pretty.pretty (length (kex_blob est))))
       else
       let* kt := timed (of_result (
         let? kem_ss := MLKEM768_decaps (firstn ML_KEM_768_CIPHERTEXT_BYTES (kex_blob est))
                          (kex_kem_secret st) in
         let? peer := x25519_from_public_bytes (skipn ML_KEM_768_CIPHERTEXT_BYTES (kex_blob est)) in
         let? x_ss := x25519_exchange (kex_x25519_private st) peer in
         derive_session_key (kem_ss ++ x_ss) HybridKEX._HKDF_CONTEXT)) in
       let '(session_key, t) := kt in
       ret (session_key, accept_meta t (kex_blob est))) ws
      = (Ok (session_key est, meta), ws').
Proof.
  intros (pk & i & Hv & Hx & ->).
  destruct (x25519mlkem_agree pk _ i (advance (advance w)) Hv)
    as (k & blob & w' & He & Hd & Lk & Lb).
  unfold HybridKEX.establish.
  replace (length (pk ++ _x25519_raw (x25519_generate i)))
    with (ML_KEM_768_PUBLIC_KEY_BYTES + HybridKEX.X25519_BYTES)%nat.
  2: { destruct Hv as (_ & Lpk & _). rewrite length_app, Lpk.
       unfold _x25519_raw. by rewrite x25519_raw_length. }
  rewrite Nat.eqb_refl. cbn [negb].
  run_timed; [exact He|]. eexists _, _. split; [reflexivity|].
  cbn [Base.kex_blob Base.session_key].
  split_and!; [exact Lk|by apply (blob_nonempty _ 32)|].
  intros ws. rewrite Lb, Nat.eqb_refl, Hx, Hd. cbn [negb]. eexists _, _. reflexivity.
Qed.

Lemma hybridkex_key_length {H} {KK : KexKeys P H} (st : H) blob w key meta w' :
  (if negb (Nat.eqb (length blob) (ML_KEM_768_CIPHERTEXT_BYTES + HybridKEX.X25519_BYTES))
   then raise (ValueError ("X25519MLKEM768 kex blob must be 1120 bytes, got "
                           +:+ pretty.pretty (length blob)))
   else
   let* kt := timed (of_result (
     let? kem_ss := MLKEM768_decaps (firstn ML_KEM_768_CIPHERTEXT_BYTES blob)
                      (kex_kem_secret st) in
     let? peer := x25519_from_public_bytes (skipn ML_KEM_768_CIPHERTEXT_BYTES blob) in
     let? x_ss := x25519_exchange (kex_x25519_private st) peer in
     derive_session_key (kem_ss ++ x_ss) HybridKEX._HKDF_CONTEXT)) in
   let '(session_key, t) := kt in
   ret (session_key, accept_meta t blob)) w = (Ok (key, meta), w') ->
  length key = 32%nat /\ accept_meta_ok meta.
Proof.
  destruct (negb _); [done|]. by_key_length.
  destruct (MLKEM768_decaps _ _) as [kss|]; [simpl|done].
  destruct (x25519_from_public_bytes _) as [peer|]; [simpl|done].
  apply rbind_derive_length.
Qed.

Definition hybrid_kex_session (st : HybridKEX._HandshakeState) (kpk spk : bytes) : Prop :=
  (exists pk i, kem_valid pk (kex_kem_secret st)
     /\ kex_x25519_private st = x25519_generate i
     /\ kpk = pk ++ _x25519_raw (x25519_generate i))
  /\ spk = _ec_public_der (HybridKEX.ec_private_ st).

Definition hybrid_kex_impl :
  TableImpl HybridKEX.HybridKEXServerCrypto HybridKEX.HybridKEXClientCrypto.
Proof.
  unshelve eapply (Build_TableImpl _ _ hybrid_kex_session);
    [| |done| |intros; reflexivity|intros; reflexivity|done| | |]; cbv beta.
  - intros w s o. destruct (handshake_id_or_fresh_run o w) as (h & w1 & Hh & Hid).
    cbn. unfold HybridKEX.new_handshake. rewrite (bind_on_fst _ _ _ _ _ _ Hh).
    destruct (MLKEM768_keypair_valid (advance (advance w1))) as (kp & w2 & Hkp & Hv).
    edestruct (timed_Ok (let* kem_kp := MLKEM768_keypair in
                         let* x := at_tick x25519_generate in
                         let* ec := at_tick ec_generate in ret (kem_kp, x, ec)) w1) as [t Ht];
      [rewrite (bind_Ok _ _ _ _ _ Hkp); reflexivity|].
    rewrite (bind_on_fst _ _ _ _ _ _ Ht), bind_store_session.
    eexists (mkBundle _ _ _ _), _, (HybridKEX.mkState _ _ _). split; [reflexivity|].
    split; [split; [|done]|done]. eexists _, _. split_and!; [exact Hv|done|done].
  - intros st kpk spk w [Hs _]. apply (hybridkex_agree st kpk w Hs).
  - intros st kpk spk msg w [_ ->].
    destruct (ecdsa_sign_timed_run (HybridKEX.ec_private_ st) msg w)
      as (sig & m & w' & H1 & H2 & Hne & H3).
    exists sig, m, w'. split_and!; [exact H1|exact H2|exact Hne|exact H3].
  - intros st blob w key meta w'. apply (hybridkex_key_length st).
Defined.

Definition hybrid_kex_pq_session (st : HybridKEXPQ._HandshakeState) (kpk spk : bytes) : Prop :=
  (exists pk i, kem_valid pk (kex_kem_secret st)
     /\ kex_x25519_private st = x25519_generate i
     /\ kpk = pk ++ _x25519_raw (x25519_generate i))
  /\ sig_valid spk (HybridKEXPQ.sig_secret_key_ st).

Definition hybrid_kex_pq_impl :
  TableImpl HybridKEXPQ.HybridKEXPQServerCrypto HybridKEXPQ.HybridKEXPQClientCrypto.
Proof.
  unshelve eapply (Build_TableImpl _ _ hybrid_kex_pq_session);
    [| |done| |intros; reflexivity|intros; reflexivity|done| | |]; cbv beta.
  - intros w s o. destruct (handshake_id_or_fresh_run o w) as (h & w1 & Hh & Hid).
    cbn. unfold HybridKEXPQ.new_handshake. rewrite (bind_on_fst _ _ _ _ _ _ Hh).
    destruct (MLKEM768_keypair_valid (advance (advance w1))) as (kp & w2 & Hkp & Hv).
    destruct (MLDSA65_keypair_valid (advance w2)) as (skp & w3 & Hskp & Hsv).
    edestruct (timed_Ok (let* kem_kp := MLKEM768_keypair in
                         let* x := at_tick x25519_generate in
                         let* sig_kp := MLDSA65_keypair in ret (kem_kp, x, sig_kp)) w1) as [t Ht];
      [rewrite (bind_Ok _ _ _ _ _ Hkp), bind_at_tick, (bind_Ok _ _ _ _ _ Hskp); reflexivity|].
    rewrite (bind_on_fst _ _ _ _ _ _ Ht), bind_store_session.
    eexists (mkBundle _ _ _ _), _, (HybridKEXPQ.mkState _ _ _). split; [reflexivity|].
    split; [split; [|done]|done]. eexists _, _. split_and!; [exact Hv|done|done].
  - intros st kpk spk w [Hs _]. apply (hybridkex_agree st kpk w Hs).
  - intros st kpk spk msg w [_ (Hp & L1 & L2)].
    destruct (mldsa_sign_timed_run spk (HybridKEXPQ.sig_secret_key_ st) msg w Hp L1 L2)
      as (sig & m & w' & H1 & H2 & Hne & H3).
    exists sig, m, w'. split_and!; [exact H1|exact H2|exact Hne|exact H3].
  - intros st blob w key meta w'. apply (hybridkex_key_length st).
Defined.

#[export] Instance classical_laws :
  ConfigLaws Classical.ClassicalServerCrypto Classical.ClassicalClientCrypto :=
  table_laws _ _ classical_impl.
#[export] Instance ecdhe_laws :
  ConfigLaws ClassicalECDHE.ClassicalECDHEServerCrypto ClassicalECDHE.ClassicalECDHEClientCrypto :=
  table_laws _ _ ecdhe_impl.
#[export] Instance hybrid_laws :
  ConfigLaws Hybrid.HybridServerCrypto Hybrid.HybridClientCrypto :=
  table_laws _ _ hybrid_impl.
#[export] Instance full_pqc_laws :
  ConfigLaws FullPQC.FullPQCServerCrypto FullPQC.FullPQCClientCrypto :=
  table_laws _ _ full_pqc_impl.
#[export] Instance hybrid_kex_laws :
  ConfigLaws HybridKEX.HybridKEXServerCrypto HybridKEX.HybridKEXClientCrypto :=
  table_laws _ _ hybrid_kex_impl.
#[export] Instance hybrid_kex_pq_laws :
  ConfigLaws HybridKEXPQ.HybridKEXPQServerCrypto HybridKEXPQ.HybridKEXPQClientCrypto :=
  table_laws _ _ hybrid_kex_pq_impl.

(** The registry only holds implementations of the contract. *)
Lemma get_crypto_laws name c :
  get_crypto name = Ok c -> inhabited (ConfigLaws (cfg_server c) (cfg_client c)).
Proof.
  unfold get_crypto, getitem. destruct (dget name CONFIGS) as [c'|] eqn:Hg; [|done].
  intros [= ->]. apply dget_Some_in in Hg. unfold CONFIGS in Hg.
  repeat (apply elem_of_cons in Hg as [[= _ ->]|Hg];
    [constructor; cbn [cfg_server cfg_client]; apply _|]).
  by apply elem_of_nil in Hg.
Qed.
End Instances.
