(* ===== verification/Toy.v ===== *)
(** * A concrete world

    Small concrete functions that satisfy [EnvLaws] and [PrimLaws]: the
    hypotheses of the development hold together, and the witnesses run the
    program on them.  They have the interfaces and the correctness laws of the
    real primitives, and no security. *)
From Stdlib Require Import Strings.Byte.
From stdpp Require Import pretty proof_irrel.
From Stdlib Require Import Ascii.
From stdpp Require Import countable.
From S2P Require Import Prelude PyBytes Sha256 World OqsAdapter.

Definition toy_env : Env := {|
  env_urandom t n := be_bytes n (Z.of_nat t);
  env_perf_counter t := inject_Z (Z.of_nat t);
  env_thread_time t := inject_Z (Z.of_nat t);
  env_uuid4 t := "hs-" +:+ pretty t;
|}.

#[export] Instance toy_env_laws : EnvLaws toy_env.
Proof.
  constructor; simpl; intros.
  - apply be_bytes_length.
  - unfold Qle. simpl. lia.
  - unfold Qle. simpl. lia.
  - done.
Qed.

(** Pad or cut to exactly [n] bytes. *)
Definition fit (n : nat) (b : bytes) : bytes := firstn n (b ++ replicate n Byte.x00).
Lemma fit_length n b : length (fit n b) = n.
Proof. unfold fit. rewrite length_firstn, length_app, length_replicate. lia. Qed.
Lemma firstn_fit m n b : length b = m -> (m <= n)%nat -> firstn m (fit n b) = b.
Proof.
  intros L H. unfold fit. rewrite firstn_firstn, Nat.min_l by done.
  by rewrite <- L, take_app_length.
Qed.

(** Byte strings of exactly 32 bytes. *)
Record b32 := mkB32 { b32_bytes : bytes; b32_ok : Nat.eqb (length b32_bytes) 32 = true }.
Lemma b32_eq x y : b32_bytes x = b32_bytes y -> x = y.
Proof.
  destruct x as [x Hx], y as [y Hy]; simpl; intros ->. f_equal. apply proof_irrel.
Qed.
Definition b32_of (b : bytes) : b32.
Proof. refine (mkB32 (fit 32 b) _). apply Nat.eqb_eq, fit_length. Defined.
Definition b32_check (b : bytes) : result b32 :=
  match decide (Nat.eqb (length b) 32 = true) with
  | left H => Ok (mkB32 b H)
  | right _ => Raise (ValueError "An X25519 public key is 32 bytes long")
  end.
Lemma b32_check_bytes x : b32_check (b32_bytes x) = Ok x.
Proof.
  unfold b32_check. destruct x as [x Hx]. simpl. destruct (decide _) as [H|]; [|done].
  f_equal. by apply b32_eq.
Qed.

Definition be_Z (b : bytes) : Z := fold_left (fun acc x => acc * 256 + Z_of_byte x) b 0.

(** A checksum in [n] bytes. *)
Definition toy_hash (n : nat) (b : bytes) : bytes :=
  be_bytes n (fold_left (fun acc x => (acc * 257 + Z_of_byte x + 1) mod 2305843009213693951) b 7).
Lemma toy_hash_length n b : length (toy_hash n b) = n.
Proof. apply be_bytes_length. Qed.

Definition toy_tag (k n pt : bytes) : bytes := toy_hash 16 (k ++ n ++ pt).
Definition toy_sig (k m : bytes) : bytes := toy_hash 71 (k ++ m).

Definition toy_prims : Prims := {|
  AESGCM := bytes;
  aesgcm_new k := if Nat.eqb (length k) 16 || Nat.eqb (length k) 24 || Nat.eqb (length k) 32
                  then Ok k else Raise (ValueError "AESGCM key must be 128, 192, or 256 bits.");
  aesgcm_encrypt k n pt _ :=
    if Nat.ltb (length n) 8 then Raise (ValueError "Nonce must be between 8 and 128 bytes")
    else Ok (pt ++ toy_tag k n pt);
  aesgcm_decrypt k n ct _ :=
    let pt := firstn (length ct - 16) ct in
    if bool_decide (ct = pt ++ toy_tag k n pt) then Ok pt else Raise InvalidTag;
  hkdf_sha256 n _ info ikm :=
    if Nat.leb n (255 * 32) then Ok (toy_hash n (info ++ ikm))
    else Raise (ValueError "Cannot derive keys larger than 8160 octets.");
  rsa_private := bytes;
  rsa_public := bytes;
  rsa_generate t := be_bytes 8 (Z.of_nat t);
  rsa_public_key k := k;
  rsa_oaep_encrypt _ k m :=
    if Nat.leb (length m) 190 then Ok (fit 256 (byte_of_Z (Z.of_nat (length m)) :: m))
    else Raise (ValueError "Encryption failed");
  rsa_oaep_decrypt _ c :=
    match c with
    | [] => Raise (ValueError "Ciphertext length must be equal to key size.")
    | n :: m => Ok (firstn (Z.to_nat (Z_of_byte n)) m)
    end;
  ec_private := bytes;
  ec_public := bytes;
  ec_generate t := be_bytes 8 (Z.of_nat t);
  ec_public_key k := k;
  ecdsa_sign _ k m := toy_sig k m;
  ecdsa_verify k s m := if bool_decide (s = toy_sig k m) then Ok tt else Raise (LibraryError "");
  public_bytes_der k :=
    match k with RSAPublicKey b => Byte.x01 :: b | ECPublicKey b => Byte.x02 :: b
               | OtherPublicKey b => Byte.x03 :: b end;
  load_der_public_key d :=
    match d with
    | Byte.x01 :: b => Ok (RSAPublicKey b) | Byte.x02 :: b => Ok (ECPublicKey b)
    | Byte.x03 :: b => Ok (OtherPublicKey b)
    | _ => Raise (ValueError "Could not deserialize key data.")
    end;
  x25519_private := b32;
  x25519_public := b32;
  x25519_generate t := b32_of (be_bytes 32 (Z.of_nat t));
  x25519_public_key a := a;
  x25519_public_raw := b32_bytes;
  x25519_from_public_bytes := b32_check;
  x25519_exchange a b := Ok (be_bytes 32 (be_Z (b32_bytes a) + be_Z (b32_bytes b)));
  kem_keypair_draws := [64%nat];
  oqs_kem_keypair c :=
    if Nat.eqb (length c) 64 then (0, (fit 1184 c, fit 2400 c)) else (-1, ([], []));
  kem_encaps_draws := [32%nat];
  oqs_kem_encaps c pk := (0, (fit 1088 c, toy_hash 32 (firstn 64 pk ++ c)));
  oqs_kem_decaps ct sk := (0, toy_hash 32 (firstn 64 sk ++ firstn 32 ct));
  oqs_kem_keypair_derand c :=
    if Nat.eqb (length c) 64 then (0, (fit 1184 c, fit 2400 c)) else (-1, ([], []));
  oqs_kem_encaps_derand pk c := (0, (fit 1088 c, toy_hash 32 (firstn 64 pk ++ c)));
  sig_keypair_draws := [32%nat];
  oqs_sig_keypair c :=
    if Nat.eqb (length c) 32 then (0, (fit 1952 c, fit 4032 c)) else (-1, ([], []));
  sig_sign_draws := [32%nat];
  oqs_sig_sign _ m sk := (0, (fit 3309 (toy_sig (firstn 32 sk) m), 3309%nat));
  oqs_sig_verify m s pk :=
    if bool_decide (s = fit 3309 (toy_sig (firstn 32 pk) m)) then 0 else -1;
  oqs_sig_sign_with_ctx _ m c sk := (0, (fit 3309 (toy_sig (firstn 32 sk) (c ++ m)), 3309%nat));
  oqs_sig_verify_with_ctx m s c pk :=
    if bool_decide (s = fit 3309 (toy_sig (firstn 32 pk) (c ++ m))) then 0 else -1;
|}.

Lemma toy_tag_length k n pt : length (toy_tag k n pt) = 16%nat.
Proof. apply toy_hash_length. Qed.

#[export] Instance toy_prim_laws : PrimLaws toy_prims.
Proof.
  constructor; cbn -[firstn fit toy_hash be_bytes Nat.ltb Nat.leb Nat.eqb].
  - intros k ->. eauto.
  - intros a n pt aad ->. eauto.
  - intros a n pt aad ct. destruct (Nat.ltb _ _); [done|]. intros [= <-].
    by rewrite length_app, toy_tag_length.
  - intros a n pt aad ct. destruct (Nat.ltb _ _); [done|]. intros [= <-].
    rewrite length_app, toy_tag_length, Nat.add_sub, take_app_length.
    by rewrite bool_decide_eq_true_2.
  - intros n _ info ikm H. rewrite (proj2 (Nat.leb_le _ _) H). eauto.
  - intros n _ info ikm k. destruct (Nat.leb _ _); [|done]. intros [= <-]. apply toy_hash_length.
  - intros _ _ m H. rewrite (proj2 (Nat.leb_le _ _) H). eexists. split; [done|apply fit_length].
  - intros _ _ m c. destruct (Nat.leb_spec (length m) 190); [|done]. intros [= <-].
    change (fit 256 ?x) with (firstn 256 (x ++ replicate 256 Byte.x00)).
    cbn [app firstn]. rewrite Z_of_byte_of_Z, Z.mod_small by lia. rewrite Nat2Z.id.
    rewrite firstn_firstn, Nat.min_l by lia. by rewrite take_app_length.
  - by intros [].
  - intros _ k m. by rewrite bool_decide_eq_true_2.
  - intros _ k m Hnil. apply (f_equal length) in Hnil. unfold toy_sig in Hnil.
    by rewrite toy_hash_length in Hnil.
  - intros [p Hp]. simpl. by apply Nat.eqb_eq.
  - apply b32_check_bytes.
  - intros i j. eexists. split; [done|apply be_bytes_length].
  - intros a b. by rewrite Z.add_comm.
  - intros c ->. eexists _, _. split; [done|]. split; apply fit_length.
  - intros c kc pk sk Lc. destruct (Nat.eqb_spec (length kc) 64) as [Lk|]; [|done].
    intros [= <- <-]. eexists _, _. split; [done|]. split_and!.
    + apply fit_length.
    + apply toy_hash_length.
    + rewrite !(firstn_fit 64) by (done || lia). rewrite (firstn_fit 32); [done| |lia].
      rewrite Lc. done.
  - intros c ->. eexists _, _. split; [done|]. split; apply fit_length.
  - intros _ kc m pk sk _. destruct (Nat.eqb_spec (length kc) 32) as [Lk|]; [|done].
    intros [= <- <-]. eexists _, _. split; [done|]. split_and!; [apply fit_length|lia|lia|].
    rewrite !(firstn_fit 32) by (done || lia).
    rewrite bool_decide_eq_true_2; [done|].
    rewrite <- (fit_length 3309 (toy_sig kc m)) at 1. apply firstn_all.
Qed.

(** ** A concrete JSON codec

    An executable text form of values with the laws of [JsonLaws]: values are
    encoded through stdpp's countable trees and written in binary digits. *)
From S2P Require Import PyVal.

Abbreviation leaf := (unit + bool + Z + (Z * positive) + string + string)%type.

Fixpoint val_tree (v : val) : gen_tree leaf :=
  match v with
  | VNone => GenLeaf (inl (inl (inl (inl (inl tt)))))
  | VBool b => GenLeaf (inl (inl (inl (inl (inr b)))))
  | VInt z => GenLeaf (inl (inl (inl (inr z))))
  | VFloat q => GenLeaf (inl (inl (inr (Qnum q, Qden q))))
  | VStr s => GenLeaf (inl (inr s))
  | VBytes b => GenLeaf (inr (decode b))
  | VList l => GenNode 0 (map val_tree l)
  | VDict d => GenNode 1 (map (fun kv => GenNode 2 [GenLeaf (inl (inr (fst kv))); val_tree (snd kv)]) d)
  end.

Definition leaf_val (l : leaf) : val :=
  match l with
  | inl (inl (inl (inl (inl _)))) => VNone
  | inl (inl (inl (inl (inr b)))) => VBool b
  | inl (inl (inl (inr z))) => VInt z
  | inl (inl (inr (n, d))) => VFloat (Qmake n d)
  | inl (inr s) => VStr s
  | inr s => VBytes (encode s)
  end.

Fixpoint tree_val (t : gen_tree leaf) : val :=
  match t with
  | GenLeaf l => leaf_val l
  | GenNode 0 ts => VList (map tree_val ts)
  | GenNode _ ts =>
      VDict (map (fun t => match t with
                           | GenNode _ [GenLeaf (inl (inr k)); t'] => (k, tree_val t')
                           | _ => ("", VNone)
                           end) ts)
  end.

Lemma tree_val_tree v : tree_val (val_tree v) = v.
Proof.
  induction v using val_nested_ind; simpl; try done.
  - by destruct q.
  - by rewrite encode_decode.
  - f_equal. rewrite map_map. induction H; simpl; [done|]. by f_equal.
  - f_equal. rewrite map_map. induction H as [|[k v] d Hv Hd IH]; simpl; [done|].
    simpl in Hv. by rewrite Hv, IH.
Qed.

#[export] Instance val_eq_dec : EqDecision val.
Proof.
  refine (fun x y => cast_if (decide (val_tree x = val_tree y))).
  - rewrite <- (tree_val_tree x), <- (tree_val_tree y). by f_equal.
  - by intros ->.
Defined.
#[export] Instance val_countable : Countable val :=
  inj_countable' val_tree tree_val tree_val_tree.

(** Binary digits. *)
Fixpoint digits (p : positive) : string :=
  match p with
  | xH => "1"
  | xO p => String "0"%char (digits p)
  | xI p => String "1"%char (digits p)
  end.

Fixpoint undigits (s : string) : option positive :=
  match s with
  | EmptyString => None
  | String c EmptyString => if Ascii.eqb c "1"%char then Some xH else None
  | String c s' =>
      match undigits s' with
      | Some p => Some (if Ascii.eqb c "1"%char then xI p else xO p)
      | None => None
      end
  end.

Lemma digits_cons p : exists c s, digits p = String c s /\ (c = "0" \/ c = "1")%char.
Proof. destruct p; simpl; eauto. Qed.

Lemma undigits_digits p : undigits (digits p) = Some p.
Proof.
  induction p; simpl; [| |done].
  - destruct (digits_cons p) as (c & s & Hd & _). rewrite Hd in *. by rewrite IHp.
  - destruct (digits_cons p) as (c & s & Hd & _). rewrite Hd in *. by rewrite IHp.
Qed.

Definition toy_json : Json := {|
  json_text v := digits (countable.encode v);
  json_loads b :=
    match undigits (decode b) with
    | Some p => match countable.decode p with Some v => Ok v | None => Raise JSONDecodeError end
    | None => Raise JSONDecodeError
    end;
|}.

Lemma one_line_digits p : one_line (digits p) = true.
Proof. induction p; simpl; auto. Qed.

Lemma lstrip_digits p : lstrip (digits p) = digits p.
Proof. destruct (digits_cons p) as (c & s & -> & [-> | ->]); done. Qed.

Lemma rstrip_digits p : rstrip (digits p) = digits p.
Proof.
  induction p; simpl; [| |done]; rewrite IHp;
    destruct (digits_cons p) as (c & s & -> & _); done.
Qed.

#[export] Instance toy_json_laws : JsonLaws toy_json.
Proof.
  constructor; simpl.
  - intros v _. by rewrite decode_encode, undigits_digits, countable.decode_encode.
  - intros v. apply one_line_digits.
  - intros v. unfold strip. by rewrite lstrip_digits, rstrip_digits.
Qed.

Example toy_json_runs :
  json_loads (Json := toy_json)
    (encode (json_text (Json := toy_json) (VDict [("k", VInt 3); ("l", VList [VNone])])))
  = Ok (VDict [("k", VInt 3); ("l", VList [VNone])]).
Proof. vm_compute. reflexivity. Qed.
