(* ===== verification/ConfigsProps.v ===== *)
(** * What a registered configuration guarantees

    The properties of the six configurations, proved once from the contract,
    and their witnesses on the concrete world of [Toy]. *)
From stdpp Require Import gmap.
From S2P Require Import Prelude PyBytes Sha256 PyVal World Instrumentation Aead OqsAdapter.
From S2P Require Import Base Configs ConfigsLaws Toy.

(** C6: For each of the six registered configurations: a handshake issues a
    bundle with which the client establishes a 32-byte session key, and the
    server's [accept] of the client's blob recovers exactly that key, leaving
    the session table as it was; under the same bundle every message the
    server signs verifies at the client. *)
Theorem handshake_agrees_and_signs {E : Env} {P : Prims} {EL : EnvLaws E} {PL : PrimLaws P}
    (name : string) (c : config) (w : world) (s : cfg_state c) (o : option string)
    (Hc : get_crypto name = Ok c) :
  let Srv := cfg_server c in let Cli := cfg_client c in
  exists b w1 s1,
    new_handshake o (w, s) = (Ok b, (w1, s1))
    /\ (forall h, o = Some h -> h <> "" -> handshake_id b = h)
    /\ (forall wc, exists est wc',
          establish (kex_public_key b) wc = (Ok est, wc')
          /\ length (session_key est) = 32%nat
          /\ forall ws, exists meta ws',
               accept (handshake_id b) (kex_blob est) (ws, s1)
               = (Ok (session_key est, meta), (ws', s1)))
    /\ (forall msg ws, exists sig meta ws',
          sign (handshake_id b) msg (ws, s1) = (Ok (sig, meta), (ws', s1))
          /\ forall wc, exists vmeta wc',
               verify msg sig (hb_sig_public_key b) wc = (Ok (true, vmeta), wc')).
Proof.
  intros Srv Cli. destruct (get_crypto_laws name c Hc) as [L].
  destruct (new_handshake_ok w s o) as (b & w1 & s1 & Hn & Hl & Hid & _).
  exists b, w1, s1. split_and!; [done|done| |].
  - intros wc. destruct (key_agreement s1 _ _ _ wc Hl) as (est & wc' & He & Lk & _ & Ha).
    eauto 10.
  - intros msg ws.
    destruct (sign_verifies s1 _ _ _ msg ws Hl) as (sig & meta & ws' & Hs & _ & _ & Hv).
    exists sig, meta, ws'. split; [done|]. intros wc.
    destruct (Hv wc) as (vm & wc' & H & _). eauto.
Qed.

(** Forgetting a handshake removes exactly that session: [accept] and
    [sign] on it raise [KeyError] from then on, every other session is as it
    was, and a fresh server knows no session at all. *)
Theorem forget_isolates {E : Env} {P : Prims} {EL : EnvLaws E} {PL : PrimLaws P}
    (name : string) (c : config) (hid : string) (w : world) (s : cfg_state c)
    (Hc : get_crypto name = Ok c) :
  let Srv := cfg_server c in
  exists s',
    forget hid (w, s) = (Ok tt, (w, s'))
    /\ (forall w' blob, exists w2, accept hid blob (w', s') = (Raise (KeyError hid), (w2, s')))
    /\ (forall w' msg, exists w2, sign hid msg (w', s') = (Raise (KeyError hid), (w2, s')))
    /\ (forall hid' w' blob, exists w2,
          accept hid' blob (w', server_init) = (Raise (KeyError hid'), (w2, server_init))).
Proof.
  intros Srv. destruct (get_crypto_laws name c Hc) as [L].
  destruct (@forget_ok _ _ _ L w s hid) as (s' & Hf & Hk & _). exists s'.
  split_and!; [done| | |]; intros.
  - by apply (@accept_unknown _ _ _ L).
  - by apply (@sign_unknown _ _ _ L).
  - apply (@accept_unknown _ _ _ L), (@init_empty _ _ _ L).
Qed.

Definition toy_config : config :=
  @mkConfig _ (@FullPQC.FullPQCServerCrypto toy_env toy_prims)
    (@FullPQC.FullPQCClientCrypto toy_env toy_prims).

Lemma handshake_agrees_and_signs_witness :
  exists b w1 s1, @new_handshake _ (cfg_server toy_config) (Some "session-1") (world0, ∅)
                  = (Ok b, (w1, s1)) /\ handshake_id b = "session-1".
Proof.
  destruct (handshake_agrees_and_signs (E := toy_env) (P := toy_prims) "full_pqc" toy_config
              world0 ∅ (Some "session-1") eq_refl) as (b & w1 & s1 & Hn & Hid & _).
  exists b, w1, s1. split; [exact Hn|]. by apply Hid.
Defined.

Lemma forget_isolates_witness :
  exists s', @forget _ (cfg_server toy_config) "session-1" (world0, ∅) = (Ok tt, (world0, s')).
Proof.
  destruct (forget_isolates (E := toy_env) (P := toy_prims) "full_pqc" toy_config "session-1"
              world0 ∅ eq_refl) as (s' & Hf & _).
  by exists s'.
Defined.
