(* ===== verification/Legacy.v ===== *)
(** * The first demonstration stack ([crypto/channel.py],
    [crypto/config_a_classical.py], [crypto/config_b_hybrid.py],
    [crypto/config_c_full_pqc.py], [crypto/oqs_kem.py], [crypto/oqs_sig.py])

    Three channels that open an encrypted request and sign an encrypted
    response, with their own liboqs binding and the base64 helpers of the
    wire.  Finding liboqs and its [OQS_KEM_new]/[OQS_SIG_new] and the PEM
    encoding are parameters. *)
From stdpp Require Import pretty.
From S2P Require Import Prelude PyBytes PyVal World OqsAdapter Configs.

Definition NONCE_BYTES : nat := 12.

(** ** Base64 on the wire *)

(** [base64.b64decode(bs, validate=True)]: whole quads of the alphabet,
    padding only at the end. *)
Fixpoint b64decode_strict (bs : bytes) : result bytes :=
  match bs with
  | [] => Ok []
  | a :: b :: c :: d :: rest =>
      match b64_value a, b64_value b with
      | Some x, Some y =>
          if decide (d = b64_pad) then
            match rest with
            | _ :: _ => Raise (BinasciiError "Excess data after padding")
            | [] =>
                if decide (c = b64_pad) then Ok [byte_of_Z (x * 4 + y / 16)]
                else match b64_value c with
                     | Some z => Ok [byte_of_Z (x * 4 + y / 16); byte_of_Z ((y mod 16) * 16 + z / 4)]
                     | None => Raise (BinasciiError "Only base64 data is allowed")
                     end
            end
          else match b64_value c, b64_value d with
               | Some z, Some t =>
                   let? out := b64decode_strict rest in
                   Ok (byte_of_Z (x * 4 + y / 16) :: byte_of_Z ((y mod 16) * 16 + z / 4)
                       :: byte_of_Z ((z mod 4) * 64 + t) :: out)
               | _, _ => Raise (BinasciiError "Only base64 data is allowed")
               end
      | _, _ => Raise (BinasciiError "Only base64 data is allowed")
      end
  | _ => Raise (BinasciiError "Incorrect padding")
  end.

Definition b64 (data : bytes) : result string := decode_ascii (b64encode data).
Definition unb64 (data : string) : result bytes :=
  let? bs := encode_ascii data in b64decode_strict bs.

(** ** The liboqs binding *)
Class LegacyLib := {
  oqs_lib_override : option string;        (* [os.environ.get("PQ_SHIELD_OQS_LIB")] *)
  oqs_lib_local : string;                  (* [.../work/oqs-prefix/lib/liboqs{.dylib,.so}] *)
  path_exists : string -> bool;
  oqs_enabled : string -> bool;            (* [OQS_KEM_new]/[OQS_SIG_new] is not NULL *)
}.

Module OqsKem.
Definition ALGORITHM : string := "ML-KEM-768".
Definition PUBLIC_KEY_BYTES : nat := 1184.
Definition SECRET_KEY_BYTES : nat := 2400.
Definition CIPHERTEXT_BYTES : nat := 1088.
Definition SHARED_SECRET_BYTES : nat := 32.

Section Kem.
Context {E : Env} {P : Prims} {LL : LegacyLib}.

Definition _library_path : result string :=
  match oqs_lib_override with
  | Some (String c s) => Ok (String c s)
  | _ => if path_exists oqs_lib_local then Ok oqs_lib_local
         else Raise (RuntimeError "liboqs was not found. Run scripts/install_oqs.sh or set PQ_SHIELD_OQS_LIB to the absolute path of liboqs.")
  end.

(** [__init__] *)
Definition MlKem768 : result unit :=
  let? _ := _library_path in
  if oqs_enabled ALGORITHM then Ok tt
  else Raise (RuntimeError ("liboqs does not have " +:+ ALGORITHM +:+ " enabled")).

Definition _buffer (data : bytes) (expected : nat) : result bytes :=
  if negb (Nat.eqb (length data) expected)
  then Raise (ValueError ("Expected " +:+ pretty expected +:+ " bytes, received " +:+ pretty (length data)))
  else Ok data.

Definition generate_keypair : M world (bytes * bytes) :=
  let* coins := draw_all kem_keypair_draws in
  let '(rc, (public_key, secret_key)) := oqs_kem_keypair coins in
  if negb (rc =? OQS_SUCCESS) then raise (RuntimeError "ML-KEM-768 key generation failed")
  else ret (public_key, secret_key).

Definition encapsulate (public_key : bytes) : M world (bytes * bytes) :=
  let* public := of_result (_buffer public_key PUBLIC_KEY_BYTES) in
  let* coins := draw_all kem_encaps_draws in
  let '(rc, (ciphertext, shared_secret)) := oqs_kem_encaps coins public in
  if negb (rc =? OQS_SUCCESS) then raise (RuntimeError "ML-KEM-768 encapsulation failed")
  else ret (ciphertext, shared_secret).

Definition decapsulate (ciphertext secret_key : bytes) : result bytes :=
  let? cipher := _buffer ciphertext CIPHERTEXT_BYTES in
  let? secret := _buffer secret_key SECRET_KEY_BYTES in
  let '(rc, shared_secret) := oqs_kem_decaps cipher secret in
  if negb (rc =? OQS_SUCCESS) then Raise (RuntimeError "ML-KEM-768 decapsulation failed")
  else Ok shared_secret.
End Kem.
End OqsKem.

Module OqsSig.
Definition ALGORITHM : string := "ML-DSA-65".
Definition PUBLIC_KEY_BYTES : nat := 1952.
Definition SECRET_KEY_BYTES : nat := 4032.
Definition SIGNATURE_BYTES : nat := 3309.

Section Sig.
Context {E : Env} {P : Prims} {LL : LegacyLib}.

Definition MlDsa65 : result unit :=
  let? _ := OqsKem._library_path in
  if oqs_enabled ALGORITHM then Ok tt
  else Raise (RuntimeError ("liboqs does not have " +:+ ALGORITHM +:+ " enabled")).

Definition _buffer (data : bytes) (expected : option nat) : result bytes :=
  match expected with
  | Some n => if negb (Nat.eqb (length data) n)
              then Raise (ValueError ("Expected " +:+ pretty n +:+ " bytes, received " +:+ pretty (length data)))
              else Ok data
  | None => Ok data
  end.

Definition generate_keypair : M world (bytes * bytes) :=
  let* coins := draw_all sig_keypair_draws in
  let '(rc, (public_key, secret_key)) := oqs_sig_keypair coins in
  if negb (rc =? OQS_SUCCESS) then raise (RuntimeError "ML-DSA-65 key generation failed")
  else ret (public_key, secret_key).

Definition sign (message secret_key : bytes) : M world bytes :=
  let* secret := of_result (_buffer secret_key (Some SECRET_KEY_BYTES)) in
  let* signed_message := of_result (_buffer message None) in
  let* coins := draw_all sig_sign_draws in
  let '(rc, (signature, signature_length)) := oqs_sig_sign coins signed_message secret in
  if negb (rc =? OQS_SUCCESS) then raise (RuntimeError "ML-DSA-65 signing failed")
  else ret (firstn signature_length signature).

Definition verify (message signature public_key : bytes) : result bool :=
  let? public := _buffer public_key (Some PUBLIC_KEY_BYTES) in
  let? signed_message := _buffer message None in
  let? signed := _buffer signature None in
  Ok (oqs_sig_verify signed_message signed public =? OQS_SUCCESS).
End Sig.
End OqsSig.

(** ** The channels *)
Section Channels.
Context {E : Env} {P : Prims} {LL : LegacyLib}.

(** [pack_envelope] and [unpack_envelope]. *)
Definition pack_envelope (session_key plaintext : bytes) : M world bytes :=
  let* nonce := os_urandom NONCE_BYTES in
  let* aesgcm := of_result (aesgcm_new session_key) in
  let* ct := of_result (aesgcm_encrypt aesgcm nonce plaintext None) in
  ret (nonce ++ ct).

Definition unpack_envelope (session_key envelope : bytes) : result bytes :=
  let? aesgcm := aesgcm_new session_key in
  aesgcm_decrypt aesgcm (firstn NONCE_BYTES envelope) (skipn NONCE_BYTES envelope) None.

(** What a channel does with a request and with a response; [HandshakeMaterial]
    is the PEM form of the public keys for configuration A. *)
Class CryptoChannel (C : Type) := {
  new_channel : M world C;
  algorithm : string;
  decrypt_request_with_key : C -> bytes -> bytes -> result (bytes * bytes);
  encrypt_and_sign_response : C -> bytes -> bytes -> M world (bytes * bytes);
}.

Record ClassicalChannel := mkClassicalChannel {
  _rsa_private : rsa_private; _signing_private : ec_private }.

(** PEM: [public_bytes(PEM, SubjectPublicKeyInfo).decode()]. *)
Variable public_bytes_pem : pubkey rsa_public ec_public -> string.

Record HandshakeMaterial := mkMaterial {
  key_exchange_public_key : string; signing_public_key : string; hm_algorithm : string }.

Definition new_classical : M world ClassicalChannel :=
  let* rsa := at_tick rsa_generate in
  let* ec := at_tick ec_generate in
  ret (mkClassicalChannel rsa ec).

Definition classical_handshake (c : ClassicalChannel) : HandshakeMaterial :=
  mkMaterial (public_bytes_pem (RSAPublicKey (rsa_public_key (_rsa_private c))))
    (public_bytes_pem (ECPublicKey (ec_public_key (_signing_private c))))
    "RSA-2048/OAEP + ECDSA-P256".

(** [decrypt_request], which checks the length of the key. *)
Definition classical_decrypt_request (c : ClassicalChannel) (encrypted_key envelope : bytes) : result bytes :=
  let? session_key := rsa_oaep_decrypt (_rsa_private c) encrypted_key in
  if negb (Nat.eqb (length session_key) 32) then Raise (ValueError "Invalid AES-256 session key")
  else
    let? aesgcm := aesgcm_new session_key in
    aesgcm_decrypt aesgcm (firstn NONCE_BYTES envelope) (skipn NONCE_BYTES envelope) None.

Definition classical_decrypt_request_with_key (c : ClassicalChannel) (encrypted_key envelope : bytes)
    : result (bytes * bytes) :=
  let? session_key := rsa_oaep_decrypt (_rsa_private c) encrypted_key in
  let? aesgcm := aesgcm_new session_key in
  let? plaintext := aesgcm_decrypt aesgcm (firstn NONCE_BYTES envelope) (skipn NONCE_BYTES envelope) None in
  Ok (plaintext, session_key).

Definition ecdsa_encrypt_and_sign (priv : ec_private) (plaintext session_key : bytes) : M world (bytes * bytes) :=
  let* nonce := os_urandom NONCE_BYTES in
  let* aesgcm := of_result (aesgcm_new session_key) in
  let* ct := of_result (aesgcm_encrypt aesgcm nonce plaintext None) in
  let envelope := nonce ++ ct in
  let* signature := ecdsa_sign_now priv envelope in
  ret (envelope, signature).

Definition classical_encrypt_and_sign_response (c : ClassicalChannel) (plaintext session_key : bytes)
    : M world (bytes * bytes) := ecdsa_encrypt_and_sign (_signing_private c) plaintext session_key.

#[global] Instance classical_channel : CryptoChannel ClassicalChannel := {|
  new_channel := new_classical;
  algorithm := "RSA-2048/OAEP + ECDSA-P256";
  decrypt_request_with_key := classical_decrypt_request_with_key;
  encrypt_and_sign_response := classical_encrypt_and_sign_response |}.

Record HybridChannel := mkHybridChannel {
  hb_kem_public_key : bytes; hb_kem_secret_key : bytes; hb_signing_private : ec_private }.

Definition new_hybrid : M world HybridChannel :=
  let* _ := of_result OqsKem.MlKem768 in
  let* kp := OqsKem.generate_keypair in
  let* ec := at_tick ec_generate in
  ret (mkHybridChannel (fst kp) (snd kp) ec).

Definition hybrid_handshake (c : HybridChannel) : bytes * string :=
  (hb_kem_public_key c, public_bytes_pem (ECPublicKey (ec_public_key (hb_signing_private c)))).

(** [decrypt_request_with_key] of B and C, which keep the secret key. *)
Definition kem_decrypt_request_with_key (secret_key kem_ciphertext envelope : bytes) : result (bytes * bytes) :=
  let? session_key := OqsKem.decapsulate kem_ciphertext secret_key in
  let? aesgcm := aesgcm_new session_key in
  let? plaintext := aesgcm_decrypt aesgcm (firstn NONCE_BYTES envelope) (skipn NONCE_BYTES envelope) None in
  Ok (plaintext, session_key).

Definition hybrid_decrypt_request_with_key (c : HybridChannel) := kem_decrypt_request_with_key (hb_kem_secret_key c).
Definition hybrid_encrypt_and_sign_response (c : HybridChannel) := ecdsa_encrypt_and_sign (hb_signing_private c).

#[global] Instance hybrid_channel : CryptoChannel HybridChannel := {|
  new_channel := new_hybrid;
  algorithm := OqsKem.ALGORITHM +:+ " + ECDSA-P256";
  decrypt_request_with_key := hybrid_decrypt_request_with_key;
  encrypt_and_sign_response := hybrid_encrypt_and_sign_response |}.

Record FullPqcChannel := mkFullPqcChannel {
  fp_kem_public_key : bytes; fp_kem_secret_key : bytes;
  fp_signing_public_key : bytes; fp_signing_secret_key : bytes }.

Definition new_full_pqc : M world FullPqcChannel :=
  let* _ := of_result OqsKem.MlKem768 in
  let* kp := OqsKem.generate_keypair in
  let* _ := of_result OqsSig.MlDsa65 in
  let* skp := OqsSig.generate_keypair in
  ret (mkFullPqcChannel (fst kp) (snd kp) (fst skp) (snd skp)).

Definition full_pqc_handshake (c : FullPqcChannel) : bytes * bytes :=
  (fp_kem_public_key c, fp_signing_public_key c).

Definition full_pqc_decrypt_request_with_key (c : FullPqcChannel) :=
  kem_decrypt_request_with_key (fp_kem_secret_key c).
Definition full_pqc_encrypt_and_sign_response (c : FullPqcChannel) (plaintext session_key : bytes)
    : M world (bytes * bytes) :=
  let* nonce := os_urandom NONCE_BYTES in
  let* aesgcm := of_result (aesgcm_new session_key) in
  let* ct := of_result (aesgcm_encrypt aesgcm nonce plaintext None) in
  let envelope := nonce ++ ct in
  let* signature := OqsSig.sign envelope (fp_signing_secret_key c) in
  ret (envelope, signature).

#[global] Instance full_pqc_channel : CryptoChannel FullPqcChannel := {|
  new_channel := new_full_pqc;
  algorithm := OqsKem.ALGORITHM +:+ " + " +:+ OqsSig.ALGORITHM;
  decrypt_request_with_key := full_pqc_decrypt_request_with_key;
  encrypt_and_sign_response := full_pqc_encrypt_and_sign_response |}.
End Channels.

(** ** An exchange over a channel of the first demonstration stack *)
From S2P Require Import Sha256 Toy.

(** ** The wire *)
Lemma strict_quad v1 v2 v3 v4 rest :
  0 <= v1 < 64 -> 0 <= v2 < 64 -> 0 <= v3 < 64 -> 0 <= v4 < 64 ->
  b64decode_strict (b64_char v1 :: b64_char v2 :: b64_char v3 :: b64_char v4 :: rest)
  = let? out := b64decode_strict rest in
    Ok (byte_of_Z (v1 * 4 + v2 / 16) :: byte_of_Z ((v2 mod 16) * 16 + v3 / 4)
        :: byte_of_Z ((v3 mod 4) * 64 + v4) :: out).
Proof.
  intros H1 H2 H3 H4. cbn [b64decode_strict]. rewrite !b64_value_char by done.
  by rewrite decide_False by by apply b64_char_not_pad.
Qed.

Lemma b64decode_strict_encode bs : b64decode_strict (b64encode bs) = Ok bs.
Proof.
  induction bs as [|a|a b|a b c l IH] using list_ind3; [done| | |].
  - destruct (b64_sextets (Z_of_byte a) 0 0) as (H1 & H2 & _ & _ & E1 & _);
      [apply Z_of_byte_range|lia|lia|].
    replace (0 / 16) with 0 in * by done. rewrite Z.add_0_r in *.
    cbn [b64encode b64decode_strict]. rewrite !b64_value_char by done.
    rewrite !decide_True by done. by rewrite E1, byte_of_Z_of_byte.
  - destruct (b64_sextets (Z_of_byte a) (Z_of_byte b) 0) as (H1 & H2 & H3 & _ & E1 & E2 & _);
      [apply Z_of_byte_range|apply Z_of_byte_range|lia|].
    replace (0 / 64) with 0 in * by done. rewrite Z.add_0_r in *.
    cbn [b64encode b64decode_strict]. rewrite !b64_value_char by done.
    rewrite decide_True by done. rewrite decide_False by by apply b64_char_not_pad.
    by rewrite E1, E2, !byte_of_Z_of_byte.
  - destruct (b64_sextets (Z_of_byte a) (Z_of_byte b) (Z_of_byte c))
      as (H1 & H2 & H3 & H4 & E1 & E2 & E3); try apply Z_of_byte_range.
    cbn [b64encode]. rewrite strict_quad, IH by done. cbn [rbind].
    by rewrite E1, E2, E3, !byte_of_Z_of_byte.
Qed.

Lemma unb64_b64 data : exists s, b64 data = Ok s /\ unb64 s = Ok data.
Proof.
  unfold b64, unb64, decode_ascii, encode_ascii. rewrite b64encode_ascii.
  eexists. split; [reflexivity|]. rewrite encode_decode, b64encode_ascii. apply b64decode_strict_encode.
Qed.

Section Exchange.
Context {E : Env} {P : Prims} {LL : LegacyLib} {EL : EnvLaws E} {PL : PrimLaws P}.

(** An envelope of [pt] under [key]. *)
Definition opens (key env pt : bytes) : Prop :=
  length env = (12 + length pt + 16)%nat /\ unpack_envelope key env = Ok pt.

Lemma seal_run key pt w :
  length key = 32%nat ->
  exists a ct, aesgcm_new key = Ok a
    /\ aesgcm_encrypt a (env_urandom (tick w) NONCE_BYTES) pt None = Ok ct
    /\ opens key (env_urandom (tick w) NONCE_BYTES ++ ct) pt.
Proof.
  intros Hk. destruct (aesgcm_key_sizes key Hk) as [a Ha].
  pose proof (urandom_length (tick w) NONCE_BYTES) as Hn.
  revert Hn. generalize (env_urandom (tick w) NONCE_BYTES). intros n Hn.
  destruct (aesgcm_encrypt_ok a n pt None Hn) as [ct Hct].
  exists a, ct. split_and!; [done|done|]. split.
  - rewrite length_app, Hn, (aesgcm_encrypt_length _ _ _ _ _ Hct). unfold NONCE_BYTES. lia.
  - unfold unpack_envelope. rewrite Ha. cbn [rbind]. rewrite <- Hn.
    rewrite take_app_length, drop_app_length. by eapply aesgcm_decrypt_encrypt.
Qed.

Lemma pack_envelope_run key pt w :
  length key = 32%nat ->
  exists env, pack_envelope key pt w = (Ok env, advance w) /\ opens key env pt.
Proof.
  intros Hk. destruct (seal_run key pt w Hk) as (a & ct & Ha & Hct & Ho).
  eexists. split; [|exact Ho]. unfold pack_envelope, os_urandom, at_tick, bind, of_result.
  by rewrite Ha, Hct.
Qed.

(** An exchange over a channel, for a key the client agreed on by sending
    [blob]: whatever the request, the envelope the client packs is opened by
    the channel's [decrypt_request_with_key] to the request and the key;
    whatever the response, the channel's [encrypt_and_sign_response] returns an
    envelope that opens to it and a signature the client finds valid; and all
    that crosses the wire does so in strict base64 unchanged. *)
Definition exchanges (decrypt : bytes -> bytes -> result (bytes * bytes))
    (respond : bytes -> bytes -> M world (bytes * bytes)) (valid : bytes -> bytes -> Prop)
    (blob key : bytes) : Prop :=
  length key = 32%nat /\ forall request response wc ws,
  exists env wc' renv sig ws',
    pack_envelope key request wc = (Ok env, wc')
    /\ decrypt blob env = Ok (request, key)
    /\ respond response key ws = (Ok (renv, sig), ws')
    /\ unpack_envelope key renv = Ok response
    /\ valid renv sig
    /\ Forall (fun x => exists s, b64 x = Ok s /\ unb64 s = Ok x) [blob; env; renv; sig].

(** The two halves of it. *)
Lemma exchanges_intro decrypt respond (valid : bytes -> bytes -> Prop) blob key :
  length key = 32%nat ->
  (forall env pt, opens key env pt -> decrypt blob env = Ok (pt, key)) ->
  (forall pt w, exists env sig w', respond pt key w = (Ok (env, sig), w')
     /\ opens key env pt /\ valid env sig) ->
  exchanges decrypt respond valid blob key.
Proof.
  intros Hk Hd Hs. split; [exact Hk|]. intros request response wc ws.
  destruct (pack_envelope_run key request wc Hk) as (env & Hp & Ho).
  destruct (Hs response ws) as (renv & sig & ws' & Hr & [_ Hu] & Hv).
  exists env, (advance wc), renv, sig, ws'. split_and!; try done; [by apply Hd|].
  apply Forall_forall. intros x _. apply unb64_b64.
Qed.

Lemma kem_agrees pk sk blob key w w' :
  kem_pair pk sk /\ length pk = 1184%nat /\ length sk = 2400%nat ->
  OqsKem.encapsulate pk w = (Ok (blob, key), w') ->
  length key = 32%nat /\ OqsKem.decapsulate blob sk = Ok key.
Proof.
  intros ([kc Hk] & Lpk & Lsk) He. unfold OqsKem.encapsulate, OqsKem._buffer in He.
  rewrite Lpk in He. cbn [Nat.eqb negb OqsKem.PUBLIC_KEY_BYTES] in He.
  destruct (draw_all_run kem_encaps_draws w) as (cs & w1 & Hcs & L).
  destruct (oqs_kem_encaps_ok cs kc pk sk L Hk) as (ct & ss & Henc & Lct & Lss & Hd).
  rewrite (bind_Ok _ _ _ _ _ (eq_refl : of_result (Ok pk) w = _)), (bind_Ok _ _ _ _ _ Hcs), Henc in He.
  injection He as <- <- _. split; [done|].
  unfold OqsKem.decapsulate, OqsKem._buffer. rewrite Lct, Lsk. cbn. by rewrite Hd.
Qed.

Lemma kem_opens_request pk sk blob key env pt w w' :
  kem_pair pk sk /\ length pk = 1184%nat /\ length sk = 2400%nat ->
  OqsKem.encapsulate pk w = (Ok (blob, key), w') -> opens key env pt ->
  kem_decrypt_request_with_key sk blob env = Ok (pt, key).
Proof.
  intros Hg He [_ Ho]. destruct (kem_agrees _ _ _ _ _ _ Hg He) as [_ Hd].
  unfold kem_decrypt_request_with_key. rewrite Hd. unfold unpack_envelope in Ho. simpl.
  destruct (aesgcm_new key); simpl in *; [|done]. by rewrite Ho.
Qed.

Lemma ecdsa_signs_response priv pt key w :
  length key = 32%nat ->
  exists env sig w', ecdsa_encrypt_and_sign priv pt key w = (Ok (env, sig), w')
    /\ opens key env pt /\ ecdsa_verify (ec_public_key priv) sig env = Ok tt.
Proof.
  intros Hk. destruct (seal_run key pt w Hk) as (a & ct & Ha & Hct & Ho).
  unfold ecdsa_encrypt_and_sign, os_urandom, at_tick, bind, of_result. rewrite Ha, Hct.
  eexists _, _, _. split; [reflexivity|]. split; [exact Ho|]. apply ecdsa_verify_sign.
Qed.

Lemma classical_exchanges (c : ClassicalChannel) t blob key :
  length key = 32%nat -> rsa_oaep_encrypt t (rsa_public_key (_rsa_private c)) key = Ok blob ->
  exchanges (classical_decrypt_request_with_key c) (classical_encrypt_and_sign_response c)
    (fun env sig => ecdsa_verify (ec_public_key (_signing_private c)) sig env = Ok tt) blob key.
Proof.
  intros Hk Ht. apply exchanges_intro; [done| |].
  - intros env pt [_ Ho]. unfold classical_decrypt_request_with_key.
    rewrite (rsa_decrypt_encrypt _ _ _ _ Ht). unfold unpack_envelope in Ho. simpl.
    destruct (aesgcm_new key); simpl in *; [|done]. by rewrite Ho.
  - intros pt w. exact (ecdsa_signs_response _ pt key w Hk).
Qed.

Lemma sig_sign_run pk sk m w :
  sig_pair pk sk -> length pk = 1952%nat -> length sk = 4032%nat ->
  exists sig w', OqsSig.sign m sk w = (Ok sig, w') /\ OqsSig.verify m sig pk = Ok true.
Proof.
  intros [kc Hk] Lpk Lsk. destruct (draw_all_run sig_sign_draws w) as (cs & w1 & Hcs & L).
  destruct (oqs_sig_sign_ok cs kc m pk sk L Hk) as (buf & n & Hs & _ & _ & Hv).
  exists (firstn n buf), w1. unfold OqsSig.sign, OqsSig.verify, OqsSig._buffer, bind, of_result.
  rewrite Lpk, Lsk. cbn [Nat.eqb negb OqsSig.PUBLIC_KEY_BYTES OqsSig.SECRET_KEY_BYTES rbind].
  by rewrite Hcs, Hs, Hv.
Qed.

Lemma full_pqc_responds (c : FullPqcChannel) pt key w :
  sig_pair (fp_signing_public_key c) (fp_signing_secret_key c) ->
  length (fp_signing_public_key c) = 1952%nat -> length (fp_signing_secret_key c) = 4032%nat ->
  length key = 32%nat ->
  exists env sig w', full_pqc_encrypt_and_sign_response c pt key w = (Ok (env, sig), w')
    /\ opens key env pt /\ OqsSig.verify env sig (fp_signing_public_key c) = Ok true.
Proof.
  intros Hp Lpk Lsk Hk. destruct (seal_run key pt w Hk) as (a & ct & Ha & Hct & Ho).
  destruct (sig_sign_run _ _ (env_urandom (tick w) NONCE_BYTES ++ ct) (advance w) Hp Lpk Lsk)
    as (sig & w' & Hs & Hv).
  exists (env_urandom (tick w) NONCE_BYTES ++ ct), sig, w'. split; [|by split].
  unfold full_pqc_encrypt_and_sign_response, os_urandom, at_tick, bind, of_result.
  by rewrite Ha, Hct, Hs.
Qed.

(** A client encapsulates against a KEM key the channel holds. *)
Lemma encapsulate_run pk sk w :
  kem_pair pk sk -> length pk = 1184%nat -> exists blob key w', OqsKem.encapsulate pk w = (Ok (blob, key), w').
Proof.
  intros [kc Hk] Lpk. destruct (draw_all_run kem_encaps_draws w) as (cs & w1 & Hcs & L).
  destruct (oqs_kem_encaps_ok cs kc _ _ L Hk) as (ct & ss & Henc & _).
  exists ct, ss, w1. unfold OqsKem.encapsulate, OqsKem._buffer, bind, of_result. rewrite Lpk.
  cbn [Nat.eqb negb OqsKem.PUBLIC_KEY_BYTES]. by rewrite Hcs, Henc.
Qed.

Lemma kem_exchanges pk sk respond (valid : bytes -> bytes -> Prop) w :
  kem_pair pk sk /\ length pk = 1184%nat /\ length sk = 2400%nat ->
  (forall pt key w, length key = 32%nat -> exists env sig w', respond pt key w = (Ok (env, sig), w')
     /\ opens key env pt /\ valid env sig) ->
  exists blob key w', OqsKem.encapsulate pk w = (Ok (blob, key), w')
    /\ exchanges (kem_decrypt_request_with_key sk) respond valid blob key.
Proof.
  intros Hg Hr. pose proof Hg as (Hp & Lpk & _).
  destruct (encapsulate_run pk sk w Hp Lpk) as (blob & key & w' & He).
  exists blob, key, w'. split; [exact He|]. destruct (kem_agrees _ _ _ _ _ _ Hg He) as [Hk _].
  apply exchanges_intro; [done| |by intros; apply Hr].
  intros env pt Ho. exact (kem_opens_request _ _ _ _ _ _ _ _ Hg He Ho).
Qed.
End Exchange.

(** New key pairs. *)
Section NewChannels.
Context {E : Env} {P : Prims} {LL : LegacyLib} {EL : EnvLaws E} {PL : PrimLaws P}.

Lemma kem_keypair_run w :
  exists pk sk w', OqsKem.generate_keypair w = (Ok (pk, sk), w')
    /\ kem_pair pk sk /\ length pk = 1184%nat /\ length sk = 2400%nat.
Proof.
  destruct (draw_all_run kem_keypair_draws w) as (cs & w1 & Hcs & L).
  destruct (oqs_kem_keypair_ok cs L) as (pk & sk & Hk & Lpk & Lsk).
  exists pk, sk, w1. unfold OqsKem.generate_keypair. rewrite (bind_Ok _ _ _ _ _ Hcs), Hk.
  split_and!; [done|by exists cs|done|done].
Qed.
Lemma sig_keypair_run w :
  exists pk sk w', OqsSig.generate_keypair w = (Ok (pk, sk), w')
    /\ sig_pair pk sk /\ length pk = 1952%nat /\ length sk = 4032%nat.
Proof.
  destruct (draw_all_run sig_keypair_draws w) as (cs & w1 & Hcs & L).
  destruct (oqs_sig_keypair_ok cs L) as (pk & sk & Hk & Lpk & Lsk).
  exists pk, sk, w1. unfold OqsSig.generate_keypair. rewrite (bind_Ok _ _ _ _ _ Hcs), Hk.
  split_and!; [done|by exists cs|done|done].
Qed.

(** A new channel of B holds a KEM pair, one of C a signing pair as well. *)
Lemma new_hybrid_run w path :
  OqsKem._library_path = Ok path -> oqs_enabled "ML-KEM-768" = true ->
  exists c w', new_hybrid w = (Ok c, w') /\ kem_pair (hb_kem_public_key c) (hb_kem_secret_key c)
    /\ length (hb_kem_public_key c) = 1184%nat /\ length (hb_kem_secret_key c) = 2400%nat.
Proof.
  intros Hp Hk. destruct (kem_keypair_run w) as (pk & sk & w1 & H1 & G1).
  eexists (mkHybridChannel pk sk _), _. split; [|exact G1].
  unfold new_hybrid, OqsKem.MlKem768, OqsKem.ALGORITHM. rewrite Hp. cbn [rbind]. rewrite Hk.
  unfold bind at 1, of_result at 1. by rewrite (bind_Ok _ _ _ _ _ H1).
Qed.
Lemma new_full_pqc_run w path :
  OqsKem._library_path = Ok path -> oqs_enabled "ML-KEM-768" = true -> oqs_enabled "ML-DSA-65" = true ->
  exists c w', new_full_pqc w = (Ok c, w')
    /\ (kem_pair (fp_kem_public_key c) (fp_kem_secret_key c)
        /\ length (fp_kem_public_key c) = 1184%nat /\ length (fp_kem_secret_key c) = 2400%nat)
    /\ sig_pair (fp_signing_public_key c) (fp_signing_secret_key c)
    /\ length (fp_signing_public_key c) = 1952%nat /\ length (fp_signing_secret_key c) = 4032%nat.
Proof.
  intros Hp Hk Hs.
  destruct (kem_keypair_run w) as (pk & sk & w1 & H1 & G1).
  destruct (sig_keypair_run w1) as (spk & ssk & w2 & H2 & G2).
  eexists (mkFullPqcChannel pk sk spk ssk), w2. split; [|by split].
  unfold new_full_pqc, OqsKem.MlKem768, OqsSig.MlDsa65, OqsKem.ALGORITHM, OqsSig.ALGORITHM.
  rewrite Hp. cbn [rbind]. rewrite Hk, Hs. unfold bind at 1, of_result at 1.
  rewrite (bind_Ok _ _ _ _ _ H1). unfold bind at 1, of_result at 1.
  by rewrite (bind_Ok _ _ _ _ _ H2).
Qed.
End NewChannels.

(** C30: A protected exchange over each of the three channels of the first
    demonstration stack.  Configuration A is always made, B and C are made
    when liboqs is found with ML-KEM-768 enabled, and for C ML-DSA-65, and
    raise when it is not found.  A client of A encrypts any 32-byte key under
    the channel's RSA key, a client of B or C encapsulates against the KEM key
    of the channel's handshake; then, whatever the request, the envelope the
    client packs is opened by [decrypt_request_with_key] to exactly the request
    and the client's key; whatever the response, the envelope that comes back
    opens to it under that key and its signature is valid -- ECDSA under the
    channel's signing key for A and B, ML-DSA-65 under the key of the handshake
    for C; and both envelopes, the signature and the encrypted key cross the
    wire in strict base64 unchanged. *)
Theorem legacy_exchange {E : Env} {P : Prims} {LL : LegacyLib} {EL : EnvLaws E} {PL : PrimLaws P}
    (pem : pubkey rsa_public ec_public -> string) (w : world) :
  (exists c w', new_classical w = (Ok c, w') /\ forall key t, length key = 32%nat ->
     exists blob, rsa_oaep_encrypt t (rsa_public_key (_rsa_private c)) key = Ok blob
       /\ exchanges (classical_decrypt_request_with_key c) (classical_encrypt_and_sign_response c)
            (fun env sig => ecdsa_verify (ec_public_key (_signing_private c)) sig env = Ok tt) blob key)
  /\ (forall path, OqsKem._library_path = Ok path -> oqs_enabled "ML-KEM-768" = true ->
      (exists c w', new_hybrid w = (Ok c, w') /\ forall wk,
         exists blob key wk', OqsKem.encapsulate (fst (hybrid_handshake pem c)) wk = (Ok (blob, key), wk')
           /\ exchanges (hybrid_decrypt_request_with_key c) (hybrid_encrypt_and_sign_response c)
                (fun env sig => ecdsa_verify (ec_public_key (hb_signing_private c)) sig env = Ok tt) blob key)
      /\ (oqs_enabled "ML-DSA-65" = true ->
          exists c w', new_full_pqc w = (Ok c, w') /\ forall wk,
            exists blob key wk', OqsKem.encapsulate (fst (full_pqc_handshake c)) wk = (Ok (blob, key), wk')
              /\ exchanges (full_pqc_decrypt_request_with_key c) (full_pqc_encrypt_and_sign_response c)
                   (fun env sig => OqsSig.verify env sig (snd (full_pqc_handshake c)) = Ok true) blob key))
  /\ (forall e, OqsKem._library_path = Raise e ->
      fst (new_hybrid w) = Raise e /\ fst (new_full_pqc w) = Raise e).
Proof.
  split_and!.
  - eexists _, _. split; [reflexivity|]. intros key t Hk.
    match goal with |- context [rsa_oaep_encrypt _ ?pk _] =>
      destruct (rsa_encrypt_ok t pk key) as (blob & Hb & _); [lia|] end.
    exists blob. split; [exact Hb|]. by apply (classical_exchanges (mkClassicalChannel _ _) t).
  - intros path Hp Hk. split; [|intros Hs].
    + destruct (new_hybrid_run w path Hp Hk) as (c & w' & Hc & Hg). exists c, w'. split; [exact Hc|].
      intros wk. apply (kem_exchanges _ _ _ _ wk Hg). apply ecdsa_signs_response.
    + destruct (new_full_pqc_run w path Hp Hk Hs) as (c & w' & Hc & Hg & Hsp & Lpk & Lsk).
      exists c, w'. split; [exact Hc|]. intros wk. apply (kem_exchanges _ _ _ _ wk Hg).
      intros pt key w0. by apply full_pqc_responds.
  - intros e He. unfold new_hybrid, new_full_pqc, OqsKem.MlKem768. by rewrite He.
Qed.

(** The method the server calls takes whatever key the client sent: where
    [decrypt_request] answers "Invalid AES-256 session key",
    [decrypt_request_with_key] goes on to AES with a key of another length. *)
Lemma key_length_unchecked {E : Env} {P : Prims} (c : ClassicalChannel) blob env key a pt :
  rsa_oaep_decrypt (_rsa_private c) blob = Ok key -> length key <> 32%nat ->
  aesgcm_new key = Ok a ->
  aesgcm_decrypt a (firstn NONCE_BYTES env) (skipn NONCE_BYTES env) None = Ok pt ->
  classical_decrypt_request c blob env = Raise (ValueError "Invalid AES-256 session key")
  /\ classical_decrypt_request_with_key c blob env = Ok (pt, key).
Proof.
  intros Hr Hl Ha Hd. unfold classical_decrypt_request, classical_decrypt_request_with_key.
  rewrite Hr. cbn [rbind]. rewrite (proj2 (Nat.eqb_neq _ _) Hl), Ha. cbn [negb rbind]. by rewrite Hd.
Qed.

#[local] Existing Instances toy_env toy_prims.
#[export] Instance toy_legacy : LegacyLib := {|
  oqs_lib_override := Some "/opt/liboqs.so"; oqs_lib_local := ""; path_exists _ := false; oqs_enabled _ := true |}.

(** One request and one response over each of the three channels. *)
Definition asked {C} (c : C) (decrypt : C -> bytes -> bytes -> result (bytes * bytes))
    (respond : C -> bytes -> bytes -> M world (bytes * bytes)) : Prop :=
  exists blob key env renv sig w',
    decrypt c blob env = Ok (encode "ask", key)
    /\ respond c (encode "answer") key world0 = (Ok (renv, sig), w')
    /\ unpack_envelope key renv = Ok (encode "answer").

Lemma legacy_exchange_witness :
  exists ca wa cb wb cc wc,
    new_classical world0 = (Ok ca, wa)
    /\ asked ca classical_decrypt_request_with_key classical_encrypt_and_sign_response
    /\ new_hybrid (LL := toy_legacy) world0 = (Ok cb, wb)
    /\ asked cb hybrid_decrypt_request_with_key hybrid_encrypt_and_sign_response
    /\ new_full_pqc (LL := toy_legacy) world0 = (Ok cc, wc)
    /\ asked cc full_pqc_decrypt_request_with_key full_pqc_encrypt_and_sign_response.
Proof.
  destruct (legacy_exchange (LL := toy_legacy) (fun _ => "pem") world0)
    as ((ca & wa & Ha & Xa) & Hbc & _).
  destruct (Hbc "/opt/liboqs.so" eq_refl eq_refl) as ((cb & wb & Hb & Xb) & Hc).
  destruct (Hc eq_refl) as (cc & wc & Hcc & Xc).
  destruct (Xa (repeat Byte.x00 32) 0%nat eq_refl) as (ba & _ & _ & Ya).
  destruct (Xb world0) as (bb & kb & wkb & _ & _ & Yb).
  destruct (Xc world0) as (bc & kc & wkc & _ & _ & Yc).
  destruct (Ya (encode "ask") (encode "answer") world0 world0) as (ea & _ & ra & sa & va & _ & Da & Ra & Ua & _).
  destruct (Yb (encode "ask") (encode "answer") world0 world0) as (eb & _ & rb & sb & vb & _ & Db & Rb & Ub & _).
  destruct (Yc (encode "ask") (encode "answer") world0 world0) as (ec & _ & rc & sc & vc & _ & Dc & Rc & Uc & _).
  exists ca, wa, cb, wb, cc, wc. split; [exact Ha|].
  split; [exists ba, (repeat Byte.x00 32), ea, ra, sa, va; split; [exact Da|split; [exact Ra|exact Ua]]|].
  split; [exact Hb|]. split; [exists bb, kb, eb, rb, sb, vb; split; [exact Db|split; [exact Rb|exact Ub]]|].
  split; [exact Hcc|]. exists bc, kc, ec, rc, sc, vc. split; [exact Dc|split; [exact Rc|exact Uc]].
Defined.
