(* ===== verification/Conformance.v ===== *)
(** * Conformance to the standards ([validation/reference_data.py],
    [validation/spec_conformance.py])

    The published parameter sizes, and the checks that compare them with what
    the adapter and the configurations produce. *)
From stdpp Require Import gmap.
From S2P Require Import Prelude PyBytes PyVal World PyList OqsAdapter Base Configs.

(** ** Reference data *)
Record KEMParameters := mkKEMParameters {
  kp_name : string; kp_security_category : Z; kp_public_key_bytes : Z; kp_secret_key_bytes : Z;
  kp_ciphertext_bytes : Z; kp_shared_secret_bytes : Z; kp_source : string }.
Record SignatureParameters := mkSignatureParameters {
  sp_name : string; sp_security_category : Z; sp_public_key_bytes : Z; sp_secret_key_bytes : Z;
  sp_signature_bytes : Z; sp_source : string }.

Definition FIPS_203_ML_KEM_768 : KEMParameters :=
  mkKEMParameters "ML-KEM-768" 3 1184 2400 1088 32
    "NIST FIPS 203, Module-Lattice-Based Key-Encapsulation Mechanism Standard, August 2024, Table 2 (parameter sets).".
Definition FIPS_204_ML_DSA_65 : SignatureParameters :=
  mkSignatureParameters "ML-DSA-65" 3 1952 4032 3309
    "NIST FIPS 204, Module-Lattice-Based Digital Signature Standard, August 2024, Table 2 (sizes in bytes of keys and signatures of ML-DSA).".
Definition ROUND3_DILITHIUM3_SUPERSEDED : SignatureParameters :=
  mkSignatureParameters "Dilithium3 (superseded, NIST Round 3)" 3 1952 4000 3293
    "CRYSTALS-Dilithium Round 3 specification. Superseded by FIPS 204 (August 2024). Still cited in some post-2024 publications; see docs/DESIGN.md.".
Definition CLASSICAL_REFERENCE : val :=
  VDict
    [("RSA-2048-OAEP", VDict
       [("ciphertext_bytes", VInt 256);
        ("note", VStr "RSA-2048 produces a 256-byte (2048-bit) ciphertext block.");
        ("source", VStr "RFC 8017 (PKCS #1 v2.2), modulus length k = 256 bytes for RSA-2048.")]);
     ("ECDSA-P256", VDict
       [("signature_bytes_raw", VInt 64); ("signature_bytes_der_typical", VInt 70);
        ("note", VStr "Raw (r||s) ECDSA P-256 signatures are 64 bytes. The DER encoding used by the `cryptography` library adds ASN.1 framing, typically yielding 70-72 bytes, which is what PQ-Shield measures on the wire.");
        ("source", VStr "SEC 1 / RFC 3279 ECDSA-Sig-Value DER encoding.")])].

(** ** The checks *)
Definition _check (label : string) (measured expected : Z) (source : string) : dict :=
  [("parameter", VStr label); ("measured_bytes", VInt measured); ("specified_bytes", VInt expected);
   ("conformant", VBool (measured =? expected)); ("source", VStr source)].

(** A check of a behaviour rather than a size. *)
Definition behaviour (label : string) (conformant : bool) (source : string) : dict :=
  [("parameter", VStr label); ("measured_bytes", VNone); ("specified_bytes", VNone);
   ("conformant", VBool conformant); ("source", VStr source)].

Definition conformant_of (c : dict) : result bool :=
  let? v := getitem "conformant" c in Ok (truthy v).

Section Checks.
Context {E : Env} {P : Prims}.

Definition check_ml_kem_768 : M world (list dict) :=
  let spec := FIPS_203_ML_KEM_768 in
  let* kp := MLKEM768_keypair in
  let* cs := MLKEM768_encaps (kem_public_key kp) in
  let '(ct, ss) := cs in
  let* ss2 := of_result (MLKEM768_decaps ct (kem_secret_key kp)) in
  ret [_check "ML-KEM-768 public key" (py_len (kem_public_key kp)) (kp_public_key_bytes spec) (kp_source spec);
       _check "ML-KEM-768 secret key" (py_len (kem_secret_key kp)) (kp_secret_key_bytes spec) (kp_source spec);
       _check "ML-KEM-768 ciphertext" (py_len ct) (kp_ciphertext_bytes spec) (kp_source spec);
       _check "ML-KEM-768 shared secret" (py_len ss) (kp_shared_secret_bytes spec) (kp_source spec);
       behaviour "ML-KEM-768 encaps/decaps shared-secret agreement" (bytes_eqb ss ss2)
         "FIPS 203 correctness property: Decaps(Encaps(pk)) recovers the same shared secret."].

Definition check_ml_dsa_65 : M world (list dict) :=
  let spec := FIPS_204_ML_DSA_65 in
  let* kp := MLDSA65_keypair in
  let message := encode "pq-shield spec conformance probe" in
  let* sig := MLDSA65_sign message (sig_secret_key kp) in
  let* valid := of_result (MLDSA65_verify message sig (sig_public_key kp)) in
  let* tampered := of_result (MLDSA65_verify (encode "a different message") sig (sig_public_key kp)) in
  ret [_check "ML-DSA-65 public key" (py_len (sig_public_key kp)) (sp_public_key_bytes spec) (sp_source spec);
       _check "ML-DSA-65 secret key" (py_len (sig_secret_key kp)) (sp_secret_key_bytes spec) (sp_source spec);
       _check "ML-DSA-65 signature" (py_len sig) (sp_signature_bytes spec) (sp_source spec);
       behaviour "ML-DSA-65 sign/verify round trip" valid
         "FIPS 204 correctness property: Verify(pk, M, Sign(sk, M)) = true.";
       behaviour "ML-DSA-65 rejects tampered message" (negb tampered)
         "FIPS 204 EUF-CMA security property (sanity check, not a proof)."].

(** The sizes of a parameter set, and whether measured ones are these. *)
Definition sizes (p : SignatureParameters) : val :=
  VDict [("secret_key", VInt (sp_secret_key_bytes p)); ("signature", VInt (sp_signature_bytes p))].
Definition matches (p : SignatureParameters) (secret_key signature : Z) : bool :=
  (secret_key =? sp_secret_key_bytes p) && (signature =? sp_signature_bytes p).

Definition check_standard_version_drift : M world dict :=
  let* kp := MLDSA65_keypair in
  let* sig := MLDSA65_sign (encode "probe") (sig_secret_key kp) in
  let secret_key := py_len (sig_secret_key kp) in
  let signature := py_len sig in
  ret [("measured", VDict [("secret_key", VInt secret_key); ("signature", VInt signature)]);
       ("fips_204_final", sizes FIPS_204_ML_DSA_65);
       ("round3_dilithium3_superseded", sizes ROUND3_DILITHIUM3_SUPERSEDED);
       ("matches_fips_204_final", VBool (matches FIPS_204_ML_DSA_65 secret_key signature));
       ("matches_superseded_round3", VBool (matches ROUND3_DILITHIUM3_SUPERSEDED secret_key signature));
       ("note", VStr "Several post-2024 publications still cite the Round 3 values (4000-byte secret key, 3293-byte signature). PQ-Shield tracks FIPS 204 as finalised. State this explicitly in the paper to pre-empt a reviewer flagging the difference as an error.")].

(** One turn of the loop of [check_wire_sizes], with a new server. *)
Definition wire_size_row {S} (server : ServerCryptoConfig S) (name : string) : M world dict := fun w =>
  let '(r, (w', _)) :=
    (let* bundle := new_handshake None in
     let* signed := sign (handshake_id bundle) (encode "envelope probe") in
     let '(signature, sig_meta) := signed in
     let* signature_bytes := of_result (getitem "signature_bytes" sig_meta) in
     let row := [("config", VStr name);
                 ("kex_algorithm", VStr kex_algorithm); ("sig_algorithm", VStr sig_algorithm);
                 ("kex_public_key_bytes", VInt (py_len (kex_public_key bundle)));
                 ("sig_public_key_bytes", VInt (py_len (hb_sig_public_key bundle)));
                 ("signature_bytes", signature_bytes)] in
     forget (handshake_id bundle) ;;;
     ret row) (w, server_init) in
  (r, w').

Definition check_wire_sizes : M world (list dict) :=
  let* a := wire_size_row Classical.ClassicalServerCrypto "classical" in
  let* b := wire_size_row Hybrid.HybridServerCrypto "hybrid" in
  let* c := wire_size_row FullPQC.FullPQCServerCrypto "full_pqc" in
  ret [a; b; c].

Definition summary_of (all_checks : list dict) : result dict :=
  let? flags := rmap conformant_of all_checks in
  Ok [("total_checks", VInt (py_len all_checks));
      ("conformant", VInt (py_len (List.filter id flags)));
      ("all_conformant", VBool (forallb id flags))].

Definition run_all : M world dict :=
  let* kem := check_ml_kem_768 in
  let* sig := check_ml_dsa_65 in
  let all_checks := kem ++ sig in
  let* drift := check_standard_version_drift in
  let* wire := check_wire_sizes in
  let* summary := of_result (summary_of all_checks) in
  ret [("ml_kem_768", VList (map VDict kem)); ("ml_dsa_65", VList (map VDict sig));
       ("standard_version_drift", VDict drift);
       ("wire_sizes_by_configuration", VList (map VDict wire));
       ("classical_reference", CLASSICAL_REFERENCE); ("summary", VDict summary)].
End Checks.

(** ** What the conformance report says *)
From S2P Require Import Sha256 ConfigsLaws Toy.

Section Wire.
Context {E : Env} {P : Prims} {EL : EnvLaws E} {PL : PrimLaws P}.

(** A row of the wire sizes: those of a handshake the configuration served. *)
Lemma wire_size_row_run {S} (Srv : ServerCryptoConfig S) (Cli : ClientCryptoConfig)
    {L : ConfigLaws Srv Cli} name w :
  exists b s n w', wire_size_row Srv name w
    = (Ok [("config", VStr name); ("kex_algorithm", VStr kex_algorithm);
           ("sig_algorithm", VStr sig_algorithm);
           ("kex_public_key_bytes", VInt (py_len (kex_public_key b)));
           ("sig_public_key_bytes", VInt (py_len (hb_sig_public_key b)));
           ("signature_bytes", VInt n)], w')
    /\ live s (handshake_id b) (kex_public_key b) (hb_sig_public_key b).
Proof.
  destruct (new_handshake_ok w server_init None) as (b & w1 & s1 & Hn & Hl & _).
  destruct (sign_verifies s1 _ _ _ (encode "envelope probe") w1 Hl)
    as (sig & meta & w2 & Hs & (_ & _ & [n Hsize] & _) & _ & _).
  destruct (forget_ok w2 s1 (handshake_id b)) as (s2 & Hf & _).
  exists b, s1, n, w2. split; [|done]. unfold wire_size_row.
  rewrite (bind_Ok _ _ _ _ _ Hn), (bind_Ok _ _ _ _ _ Hs). unfold getitem. rewrite Hsize.
  rewrite (bind_Ok _ _ _ _ _ (eq_refl : of_result (Ok (VInt n)) (w2, s1) = _)).
  by rewrite (bind_Ok _ _ _ _ _ Hf).
Qed.

Definition wire_row (name kex sig : string) (kpk spk n : Z) : val :=
  VDict [("config", VStr name); ("kex_algorithm", VStr kex); ("sig_algorithm", VStr sig);
         ("kex_public_key_bytes", VInt kpk); ("sig_public_key_bytes", VInt spk);
         ("signature_bytes", VInt n)].

Lemma check_ml_kem_768_run w :
  exists checks w', check_ml_kem_768 w = (Ok checks, w')
    /\ rmap conformant_of checks = Ok [true; true; true; true; true].
Proof.
  destruct (MLKEM768_keypair_run w) as (kp & w1 & Hk & Hp & Lpk & Lsk).
  destruct (MLKEM768_encaps_run _ _ w1 Hp Lpk Lsk) as (ct & ss & w2 & He & Lct & Lss & Hd).
  unfold check_ml_kem_768. rewrite (bind_Ok _ _ _ _ _ Hk), (bind_Ok _ _ _ _ _ He), Hd.
  eexists _, _. split; [reflexivity|]. unfold py_len. rewrite Lpk, Lsk, Lct, Lss. cbn.
  unfold bytes_eqb. by rewrite bool_decide_eq_true_2.
Qed.

Lemma check_ml_dsa_65_run w :
  exists checks sig pk w', check_ml_dsa_65 w = (Ok checks, w')
    /\ oqs_sig_verify (encode "pq-shield spec conformance probe") sig pk = 0
    /\ rmap conformant_of checks
       = Ok [true; true; py_len sig =? 3309; true;
             negb (oqs_sig_verify (encode "a different message") sig pk =? 0)].
Proof.
  destruct (MLDSA65_keypair_run w) as (kp & w1 & Hk & Hp & Lpk & Lsk).
  destruct (MLDSA65_sign_run _ _ (encode "pq-shield spec conformance probe") w1 Hp Lpk Lsk)
    as (sig & w2 & Hs & _ & _ & Hv).
  unfold check_ml_dsa_65. rewrite (bind_Ok _ _ _ _ _ Hk), (bind_Ok _ _ _ _ _ Hs), Hv.
  unfold MLDSA65_verify in Hv |- *. rewrite Lpk, Nat.eqb_refl in Hv |- *. cbn [negb] in Hv |- *.
  injection Hv as Hv. apply Z.eqb_eq in Hv.
  eexists _, sig, _, _. split; [reflexivity|]. split; [exact Hv|].
  unfold py_len. rewrite Lpk, Lsk. reflexivity.
Qed.

Lemma check_standard_version_drift_run w :
  exists drift sig w', check_standard_version_drift w = (Ok drift, w')
    /\ getitem "matches_fips_204_final" drift = Ok (VBool (py_len (sig : bytes) =? 3309))
    /\ getitem "matches_superseded_round3" drift = Ok (VBool false).
Proof.
  destruct (MLDSA65_keypair_run w) as (kp & w1 & Hk & Hp & Lpk & Lsk).
  destruct (MLDSA65_sign_run _ _ (encode "probe") w1 Hp Lpk Lsk) as (sig & w2 & Hs & _ & _ & _).
  unfold check_standard_version_drift. rewrite (bind_Ok _ _ _ _ _ Hk), (bind_Ok _ _ _ _ _ Hs).
  eexists _, sig, _. split; [reflexivity|]. unfold matches, py_len. rewrite Lsk. done.
Qed.

Lemma check_wire_sizes_run w :
  exists rows w' rsa_pk ec1 ec2 n1 n2 n3, check_wire_sizes w = (Ok rows, w')
    /\ map VDict rows
       = [wire_row "classical" "RSA-2048-OAEP" ECDSA_P256_SHA256 rsa_pk ec1 n1;
          wire_row "hybrid" MLKEM768_ALGORITHM ECDSA_P256_SHA256 1184 ec2 n2;
          wire_row "full_pqc" MLKEM768_ALGORITHM MLDSA65_ALGORITHM 1184 1952 n3].
Proof.
  destruct (wire_size_row_run Classical.ClassicalServerCrypto Classical.ClassicalClientCrypto
              "classical" w) as (b1 & s1 & n1 & w1 & R1 & _).
  destruct (wire_size_row_run Hybrid.HybridServerCrypto Hybrid.HybridClientCrypto "hybrid" w1)
    as (b2 & s2 & n2 & w2 & R2 & (st2 & _ & L2)).
  destruct (wire_size_row_run FullPQC.FullPQCServerCrypto FullPQC.FullPQCClientCrypto "full_pqc" w2)
    as (b3 & s3 & n3 & w3 & R3 & (st3 & _ & L3)).
  unfold check_wire_sizes.
  rewrite (bind_Ok _ _ _ _ _ R1), (bind_Ok _ _ _ _ _ R2), (bind_Ok _ _ _ _ _ R3).
  destruct L2 as [(_ & L2 & _) _], L3 as [(_ & L3 & _) (_ & L4 & _)].
  eexists _, w3, _, _, _, _, _, _. split; [reflexivity|]. unfold py_len. by rewrite L2, L3, L4.
Qed.
End Wire.

(** The conformance report never fails to be made, and says all checks
    conform exactly when the two facts the adapter's contract leaves open hold
    of the probe signature: it is 3309 bytes long and liboqs refuses it on
    another message; the other eight checks hold of every run.  The report
    never matches the superseded parameters, matches the final ones exactly
    when the second probe signature is 3309 bytes, and the key sizes of the
    wire table are the standards'. *)
Theorem conformance_report {E : Env} {P : Prims} {EL : EnvLaws E} {PL : PrimLaws P} (w : world) :
  exists report w' sig sig2 pk rsa_pk ec1 ec2 n1 n2 n3,
    run_all w = (Ok report, w')
    /\ oqs_sig_verify (encode "pq-shield spec conformance probe") sig pk = 0
    /\ (let long := py_len sig =? 3309 in
        let refused := negb (oqs_sig_verify (encode "a different message") sig pk =? 0) in
        dget "summary" report
        = Some (VDict [("total_checks", VInt 10);
                       ("conformant", VInt (8 + (if long then 1 else 0) + (if refused then 1 else 0)));
                       ("all_conformant", VBool (long && refused))]))
    /\ (let? d := getitem "standard_version_drift" report in vitem "matches_superseded_round3" d)
       = Ok (VBool false)
    /\ (let? d := getitem "standard_version_drift" report in vitem "matches_fips_204_final" d)
       = Ok (VBool (py_len (sig2 : bytes) =? 3309))
    /\ dget "wire_sizes_by_configuration" report
       = Some (VList [wire_row "classical" "RSA-2048-OAEP" ECDSA_P256_SHA256 rsa_pk ec1 n1;
                      wire_row "hybrid" MLKEM768_ALGORITHM ECDSA_P256_SHA256 1184 ec2 n2;
                      wire_row "full_pqc" MLKEM768_ALGORITHM MLDSA65_ALGORITHM 1184 1952 n3]).
Proof.
  destruct (check_ml_kem_768_run w) as (kem & w1 & R1 & F1).
  destruct (check_ml_dsa_65_run w1) as (dsa & sig & pk & w2 & R2 & Hsig & F2).
  destruct (check_standard_version_drift_run w2) as (drift & sig2 & w3 & R3 & Hfinal & Hsup).
  destruct (check_wire_sizes_run w3) as (rows & w4 & rsa & ec1 & ec2 & n1 & n2 & n3 & R4 & Hrows).
  unfold run_all.
  rewrite (bind_Ok _ _ _ _ _ R1), (bind_Ok _ _ _ _ _ R2), (bind_Ok _ _ _ _ _ R3), (bind_Ok _ _ _ _ _ R4).
  unfold summary_of. rewrite (rmap_app _ _ _ _ _ F1 F2), Hrows.
  assert (L : py_len (kem ++ dsa) = 10).
  { unfold py_len. rewrite length_app.
    by rewrite (Forall2_length _ _ _ (rmap_Ok _ _ _ F1)), (Forall2_length _ _ _ (rmap_Ok _ _ _ F2)). }
  rewrite L.
  eexists _, w4, sig, sig2, pk, rsa, ec1, ec2, n1, n2, n3. split; [reflexivity|].
  split; [exact Hsig|]. split_and!; [|exact Hsup|exact Hfinal|reflexivity].
  cbv zeta. destruct (py_len sig =? 3309), (oqs_sig_verify (encode "a different message") sig pk =? 0);
    reflexivity.
Qed.
