(* ===== verification/Streaming.v ===== *)
(** * Streaming signature strategies ([crypto/streaming.py])

    The signed messages, the three server strategies and the client-side
    verification functions.  Wire records are Python dicts, built key by key as
    the code builds them.  A strategy object is the second half of the state of
    its methods; the first half is the world and the server's session table. *)
From S2P Require Import Prelude PyBytes Sha256 PyVal World Instrumentation Aead Base.

(** ** Signed messages *)
Definition DOMAIN : bytes := encode "PQ-Shield-stream-v2".
Definition PROTOCOL_VERSION : string := "v2".

Definition _index_bytes (index : Z) : result bytes := to_bytes 4 index.

Definition stream_context (hid : string) : bytes := sha256 (DOMAIN ++ [Byte.x00] ++ encode hid).

Definition genesis_hash (hid : string) : bytes := sha256 (encode "GEN" ++ stream_context hid).

Definition buffered_message (ctx nonce ciphertext : bytes) : bytes :=
  encode "BUF" ++ ctx ++ nonce ++ ciphertext.

Definition chunk_message (ctx : bytes) (index : Z) (nonce ciphertext : bytes) : result bytes :=
  let? i := _index_bytes index in Ok (encode "CHK" ++ ctx ++ i ++ nonce ++ ciphertext).

Definition end_message (ctx : bytes) (n_chunks : Z) : result bytes :=
  let? n := _index_bytes n_chunks in Ok (encode "END" ++ ctx ++ n).

Definition checkpoint_message (ctx : bytes) (index : Z) (chain_hash : bytes) : result bytes :=
  let? i := _index_bytes index in Ok (encode "CKP" ++ ctx ++ i ++ chain_hash).

Definition final_chain_message (ctx : bytes) (n_chunks : Z) (chain_hash : bytes) : result bytes :=
  let? n := _index_bytes n_chunks in Ok (encode "FIN" ++ ctx ++ n ++ chain_hash).

(** One link: [sha256(running_hash + _index_bytes(index) + nonce + ciphertext)]. *)
Definition chain_link (running_hash : bytes) (index : Z) (envelope : bytes) : result bytes :=
  let? i := _index_bytes index in Ok (sha256 (running_hash ++ i ++ envelope)).

(** ** Server side *)
Section Server.
Context {E : Env} {P : Prims} {S : Type} {Srv : ServerCryptoConfig S}.

(** The strategy object's own fields. *)
Definition self {A T} : M (A * T) T := fun '(a, t) => (Ok t, (a, t)).
Definition set_self {A T} (t : T) : M (A * T) unit := fun '(a, _) => (Ok tt, (a, t)).

(** The abstract base class: [None] means nothing goes on the wire yet. *)
Class StreamSigningStrategy (T : Type) := {
  strategy_name : string;
  add_chunk : bytes -> Z -> M ((world * S) * T) (option dict);
  finalize : Z -> M ((world * S) * T) (option dict);
}.

(** The four signature entries of a signed record. *)
Definition signature_entries (signature : bytes) (meta : dict) : result dict :=
  let? sign_ms := getitem "sign_ms" meta in
  Ok [("signature", VBytes signature); ("sign_ms", sign_ms);
      ("sign_cpu_ms", dget_or "sign_cpu_ms" (VFloat 0) meta);
      ("signature_bytes", VInt (Z.of_nat (length signature)))].

(** *** [BufferAndSignStrategy] *)
Record BufferAndSignStrategy := mkBuffer {
  bs_handshake_id : string; bs_session_key : bytes; bs_ctx : bytes; bs_buffer : bytes }.

Definition new_buffer_and_sign (hid : string) (key : bytes) : BufferAndSignStrategy :=
  mkBuffer hid key (stream_context hid) [].

Definition buffer_add_chunk (plaintext : bytes) (_ : Z)
    : M ((world * S) * BufferAndSignStrategy) (option dict) :=
  let* st := self in
  set_self (mkBuffer (bs_handshake_id st) (bs_session_key st) (bs_ctx st)
              (bs_buffer st ++ plaintext)) ;;;
  ret None.

Definition buffer_finalize (_ : Z) : M ((world * S) * BufferAndSignStrategy) (option dict) :=
  let* st := self in
  let* aead := on_fst (on_fst (aead_encrypt (bs_session_key st) (bs_buffer st))) in
  let* sm := on_fst (sign (bs_handshake_id st)
               (buffered_message (bs_ctx st) (nonce aead) (ciphertext aead))) in
  let '(signature, meta) := sm in
  let* entries := of_result (signature_entries signature meta) in
  ret (Some ([("kind", VStr "final_buffered"); ("nonce", VBytes (nonce aead));
              ("ciphertext", VBytes (ciphertext aead))] ++ entries)).

#[export] Instance BufferAndSign : StreamSigningStrategy BufferAndSignStrategy := {|
  strategy_name := "buffer_and_sign"; add_chunk := buffer_add_chunk; finalize := buffer_finalize |}.

(** *** [PerChunkStrategy] *)
Record PerChunkStrategy := mkPerChunk {
  pc_handshake_id : string; pc_session_key : bytes; pc_ctx : bytes }.

Definition new_per_chunk (hid : string) (key : bytes) : PerChunkStrategy :=
  mkPerChunk hid key (stream_context hid).

Definition per_chunk_add_chunk (plaintext : bytes) (index : Z)
    : M ((world * S) * PerChunkStrategy) (option dict) :=
  let* st := self in
  let* aead := on_fst (on_fst (aead_encrypt (pc_session_key st) plaintext)) in
  let* msg := of_result (chunk_message (pc_ctx st) index (nonce aead) (ciphertext aead)) in
  let* sm := on_fst (sign (pc_handshake_id st) msg) in
  let '(signature, meta) := sm in
  let* entries := of_result (signature_entries signature meta) in
  ret (Some ([("kind", VStr "chunk"); ("index", VInt index); ("nonce", VBytes (nonce aead));
              ("ciphertext", VBytes (ciphertext aead))] ++ entries)).

Definition per_chunk_finalize (n_chunks : Z)
    : M ((world * S) * PerChunkStrategy) (option dict) :=
  let* st := self in
  let* msg := of_result (end_message (pc_ctx st) n_chunks) in
  let* sm := on_fst (sign (pc_handshake_id st) msg) in
  let '(signature, meta) := sm in
  let* entries := of_result (signature_entries signature meta) in
  ret (Some ([("kind", VStr "final_per_chunk"); ("n_chunks", VInt n_chunks)] ++ entries)).

#[export] Instance PerChunk : StreamSigningStrategy PerChunkStrategy := {|
  strategy_name := "per_chunk"; add_chunk := per_chunk_add_chunk; finalize := per_chunk_finalize |}.

(** *** [HashChainStrategy] *)
Record HashChainStrategy := mkHashChain {
  hc_handshake_id : string; hc_session_key : bytes; hc_ctx : bytes;
  hc_checkpoint_interval : val; hc_running_hash : bytes; hc_since_checkpoint : Z }.

Definition new_hash_chain (hid : string) (key : bytes) (interval : val) : HashChainStrategy :=
  mkHashChain hid key (stream_context hid) interval (genesis_hash hid) 0.

Definition set_chain (h : bytes) (since : Z) (st : HashChainStrategy) : HashChainStrategy :=
  mkHashChain (hc_handshake_id st) (hc_session_key st) (hc_ctx st)
    (hc_checkpoint_interval st) h since.

(** [self._checkpoint_interval and self._since_checkpoint >= ...]. *)
Definition checkpoint_due (interval : val) (since : Z) : result bool :=
  if truthy interval then int_ge_val since interval else Ok false.

Definition hash_chain_add_chunk (plaintext : bytes) (index : Z)
    : M ((world * S) * HashChainStrategy) (option dict) :=
  let* st := self in
  let* aead := on_fst (on_fst (aead_encrypt (hc_session_key st) plaintext)) in
  let envelope := nonce aead ++ ciphertext aead in
  let* h := of_result (chain_link (hc_running_hash st) index envelope) in
  let since := hc_since_checkpoint st + 1 in
  set_self (set_chain h since st) ;;;
  let row : dict :=
    [("kind", VStr "chunk"); ("index", VInt index); ("nonce", VBytes (nonce aead));
     ("ciphertext", VBytes (ciphertext aead)); ("chain_hash", VBytes h);
     ("signature", VNone); ("sign_ms", VFloat 0); ("sign_cpu_ms", VFloat 0);
     ("signature_bytes", VInt 0)] in
  let* due := of_result (checkpoint_due (hc_checkpoint_interval st) since) in
  if due : bool then
    let* msg := of_result (checkpoint_message (hc_ctx st) index h) in
    let* sm := on_fst (sign (hc_handshake_id st) msg) in
    let '(signature, meta) := sm in
    let* sign_ms := of_result (getitem "sign_ms" meta) in
    let row := dset "signature" (VBytes signature) row in
    let row := dset "sign_ms" sign_ms row in
    let row := dset "sign_cpu_ms" (dget_or "sign_cpu_ms" (VFloat 0) meta) row in
    let row := dset "signature_bytes" (VInt (Z.of_nat (length signature))) row in
    set_self (set_chain h 0 st) ;;;
    ret (Some row)
  else ret (Some row).

Definition hash_chain_finalize (n_chunks : Z)
    : M ((world * S) * HashChainStrategy) (option dict) :=
  let* st := self in
  let* msg := of_result (final_chain_message (hc_ctx st) n_chunks (hc_running_hash st)) in
  let* sm := on_fst (sign (hc_handshake_id st) msg) in
  let '(signature, meta) := sm in
  let* entries := of_result (signature_entries signature meta) in
  ret (Some ([("kind", VStr "final_chain"); ("final_chain_hash", VBytes (hc_running_hash st));
              ("n_chunks", VInt n_chunks)] ++ entries)).

#[export] Instance HashChain : StreamSigningStrategy HashChainStrategy := {|
  strategy_name := "hash_chain"; add_chunk := hash_chain_add_chunk; finalize := hash_chain_finalize |}.

(** *** [get_server_strategy] *)
Record any_strategy := mkAny {
  any_state : Type; any_impl : StreamSigningStrategy any_state; any_object : any_state }.

(** The strategy classes by name; [kwargs] holds [checkpoint_interval] when
    the caller passes it, which only [HashChainStrategy] accepts. *)
Definition SERVER_STRATEGIES
    : list (string * (string -> bytes -> option val -> result any_strategy)) :=
  [("buffer_and_sign", fun hid key kw =>
      match kw with
      | None => Ok (mkAny _ BufferAndSign (new_buffer_and_sign hid key))
      | Some _ => Raise (TypeError "got an unexpected keyword argument 'checkpoint_interval'")
      end);
   ("per_chunk", fun hid key kw =>
      match kw with
      | None => Ok (mkAny _ PerChunk (new_per_chunk hid key))
      | Some _ => Raise (TypeError "got an unexpected keyword argument 'checkpoint_interval'")
      end);
   ("hash_chain", fun hid key kw =>
      Ok (mkAny _ HashChain
            (new_hash_chain hid key (match kw with Some v => v | None => VNone end))))].

Definition STRATEGY_NAMES : list string := keys SERVER_STRATEGIES.

Definition get_server_strategy (name hid : string) (key : bytes) (kwargs : option val)
    : result any_strategy :=
  match dget name SERVER_STRATEGIES with
  | None => Raise (ValueError ("Unknown streaming strategy '" +:+ name
              +:+ "'. Valid: ['buffer_and_sign', 'per_chunk', 'hash_chain']"))
  | Some mk => mk hid key kwargs
  end.
End Server.

(** ** Client side *)
Section Client.
Context {E : Env} {P : Prims} {Cli : ClientCryptoConfig}.

(** [HashChainClientState]. *)
Record HashChainClientState := mkChainState {
  cs_handshake_id : string; cs_checkpoint_interval : option Z;
  cs_running_hash : bytes; cs_ctx : bytes; cs_n_absorbed : Z }.

(** The dataclass constructor with [__post_init__]. *)
Definition new_chain_state (hid : string) (interval : option Z) : HashChainClientState :=
  mkChainState hid interval (genesis_hash hid) (stream_context hid) 0.

(** [absorb]: the state is updated only once the hash is computed. *)
Definition absorb (index : Z) (nonce ciphertext : bytes) (st : HashChainClientState)
    : result (bytes * HashChainClientState) :=
  let? h := chain_link (cs_running_hash st) index (nonce ++ ciphertext) in
  Ok (h, mkChainState (cs_handshake_id st) (cs_checkpoint_interval st) h (cs_ctx st)
           (cs_n_absorbed st + 1)).

(** [_decrypt_into]: the entries [aead_ok] and [plaintext] it leaves. *)
Definition _decrypt_into (key nonce ciphertext : bytes) : result (bool * option bytes) :=
  match aead_decrypt key nonce ciphertext with
  | Ok pt => Ok (true, Some pt)
  | Raise AEADError => Ok (false, None)
  | Raise e => Raise e
  end.

(** [if valid: _decrypt_into(result, ...)]; otherwise both stay [None]. *)
Definition decrypt_if (valid : bool) (key nonce ciphertext : bytes)
    : result (option bool * option bytes) :=
  if valid then
    let? r := _decrypt_into key nonce ciphertext in Ok (Some (fst r), snd r)
  else Ok (None, None).

Definition get_bytes (k : string) (d : dict) : result bytes :=
  let? v := getitem k d in as_bytes v.
Definition get_int (k : string) (d : dict) : result Z :=
  let? v := getitem k d in as_int v.

(** [meta["verify_ms"]] and [meta.get("verify_cpu_ms", 0.0)]. *)
Definition verify_times (meta : dict) : result (val * val) :=
  let? ms := getitem "verify_ms" meta in
  Ok (ms, dget_or "verify_cpu_ms" (VFloat 0) meta).

Record buffered_result := mkBufferedResult {
  br_signature_valid : bool; br_verify_ms : val; br_verify_cpu_ms : val;
  br_aead_ok : option bool; br_plaintext : option bytes }.

Definition verify_buffer_and_sign_final (final_chunk : dict) (key spk : bytes) (hid : string)
    : M world buffered_result :=
  let* n := of_result (get_bytes "nonce" final_chunk) in
  let* c := of_result (get_bytes "ciphertext" final_chunk) in
  let msg := buffered_message (stream_context hid) n c in
  let* s := of_result (get_bytes "signature" final_chunk) in
  let* vm := verify msg s spk in
  let '(valid, meta) := vm in
  let* times := of_result (verify_times meta) in
  let* dec := of_result (decrypt_if valid key n c) in
  ret (mkBufferedResult valid (fst times) (snd times) (fst dec) (snd dec)).

Record per_chunk_result := mkPerChunkResult {
  pr_index : val; pr_signature_valid : bool; pr_verify_ms : val; pr_verify_cpu_ms : val;
  pr_in_order : bool; pr_aead_ok : option bool; pr_plaintext : option bytes }.

Definition verify_per_chunk (chunk : dict) (expected_index : Z) (key spk : bytes) (hid : string)
    : M world per_chunk_result :=
  let* vindex := of_result (getitem "index" chunk) in
  let* n := of_result (get_bytes "nonce" chunk) in
  let* c := of_result (get_bytes "ciphertext" chunk) in
  let* index := of_result (as_int vindex) in
  let* msg := of_result (chunk_message (stream_context hid) index n c) in
  let* s := of_result (get_bytes "signature" chunk) in
  let* vm := verify msg s spk in
  let '(valid, meta) := vm in
  let* times := of_result (verify_times meta) in
  let* dec := of_result (decrypt_if valid key n c) in
  ret (mkPerChunkResult vindex valid (fst times) (snd times)
         (val_eq_int vindex expected_index) (fst dec) (snd dec)).

Record final_result := mkFinalResult {
  fr_signature_valid : bool; fr_count_matches : bool; fr_verify_ms : val;
  fr_verify_cpu_ms : val; fr_stream_fully_verified : bool }.

Definition verify_per_chunk_final (final_record : dict) (n_received : Z) (spk : bytes)
    (hid : string) : M world final_result :=
  let* vn := of_result (getitem "n_chunks" final_record) in
  let* n := of_result (as_int vn) in
  let* msg := of_result (end_message (stream_context hid) n) in
  let* s := of_result (get_bytes "signature" final_record) in
  let* vm := verify msg s spk in
  let '(valid, meta) := vm in
  let count_ok := val_eq_int vn n_received in
  let* times := of_result (verify_times meta) in
  ret (mkFinalResult valid count_ok (fst times) (snd times) (valid && count_ok)).

Record chain_chunk_result := mkChainResult {
  cr_index : val; cr_chain_ok_so_far : bool; cr_aead_ok : option bool;
  cr_plaintext : option bytes; cr_checkpoint : bool; cr_checkpoint_valid : option bool;
  cr_checkpoint_missing : bool; cr_verify_ms : val; cr_verify_cpu_ms : val }.

(** [k and n_absorbed % k == 0] (a [None] or zero interval never is due). *)
Definition checkpoint_expected (k : option Z) (n_absorbed : Z) : bool :=
  match k with
  | None => false
  | Some k => negb (k =? 0) && (n_absorbed mod k =? 0)
  end.

(** [chunk.get("signature")] is there and truthy. *)
Definition signature_present (chunk : dict) : bool :=
  match dget "signature" chunk with Some v => truthy v | None => false end.

(** [v == b] for bytes [b]. *)
Definition val_eq_bytes (v : val) (b : bytes) : bool :=
  match v with VBytes x => bytes_eqb x b | _ => false end.

(** The verification key and configuration are always supplied by the
    streaming client; [keyed = false] is the call without them. *)
Definition verify_hash_chain_chunk (keyed : bool) (chunk : dict) (key spk : bytes)
    : M (world * HashChainClientState) chain_chunk_result :=
  let* vindex := of_result (getitem "index" chunk) in
  let* n := of_result (get_bytes "nonce" chunk) in
  let* c := of_result (get_bytes "ciphertext" chunk) in
  let* index := of_result (as_int vindex) in
  let* st := self in
  let* hst := of_result (absorb index n c st) in
  let '(expected_hash, st') := hst in
  set_self st' ;;;
  let* vhash := of_result (getitem "chain_hash" chunk) in
  let chain_ok := val_eq_bytes vhash expected_hash in
  let missing := checkpoint_expected (cs_checkpoint_interval st') (cs_n_absorbed st')
                 && negb (signature_present chunk) in
  let* chk := (if signature_present chunk && keyed then
      let* msg := of_result (checkpoint_message (cs_ctx st') index expected_hash) in
      let* s := of_result (get_bytes "signature" chunk) in
      let* vm := on_fst (verify msg s spk) in
      let '(valid, meta) := vm in
      let* times := of_result (verify_times meta) in
      ret (true, Some valid, fst times, snd times)
    else ret (false, None, VFloat 0, VFloat 0)) in
  let '(checkpoint, checkpoint_valid, ms, cpu) := chk in
  let* dec := of_result (_decrypt_into key n c) in
  ret (mkChainResult vindex chain_ok (Some (fst dec)) (snd dec) checkpoint checkpoint_valid
         missing ms cpu).

Record chain_final_result := mkChainFinal {
  cf_chain_matches_client_computed : bool; cf_count_matches : bool;
  cf_signature_valid : bool; cf_verify_ms : val; cf_verify_cpu_ms : val;
  cf_stream_fully_verified : bool }.

Definition verify_hash_chain_final (final_chunk : dict) (st : HashChainClientState)
    (spk : bytes) : M world chain_final_result :=
  let* vhash := of_result (getitem "final_chain_hash" final_chunk) in
  let chain_matches := val_eq_bytes vhash (cs_running_hash st) in
  let* vn := of_result (getitem "n_chunks" final_chunk) in
  let count_ok := val_eq_int vn (cs_n_absorbed st) in
  let* msg := of_result (final_chain_message (cs_ctx st) (cs_n_absorbed st) (cs_running_hash st)) in
  let* s := of_result (get_bytes "signature" final_chunk) in
  let* vm := verify msg s spk in
  let '(valid, meta) := vm in
  let* times := of_result (verify_times meta) in
  ret (mkChainFinal chain_matches count_ok valid (fst times) (snd times)
         (chain_matches && count_ok && valid)).
End Client.
