(* ===== verification/StreamingMessages.v ===== *)
(** * The signed messages of [crypto/streaming.py] are unambiguous

    Role labels, context binding and the chain links: what two equal signed
    byte strings say about what was signed, and what two equal chain hashes say
    about the chunks, up to an explicit SHA-256 collision. *)
From S2P Require Import Prelude PyBytes Sha256 PyVal World Base Streaming.

(** Everything the streaming layer ever signs. *)
Inductive signed_message :=
  | MBuffered (ctx nonce ciphertext : bytes)
  | MChunk (ctx : bytes) (index : Z) (nonce ciphertext : bytes)
  | MEnd (ctx : bytes) (n_chunks : Z)
  | MCheckpoint (ctx : bytes) (index : Z) (chain_hash : bytes)
  | MFinal (ctx : bytes) (n_chunks : Z) (chain_hash : bytes).

(** The bytes the code signs for it. *)
Definition signed_bytes (m : signed_message) : result bytes :=
  match m with
  | MBuffered ctx n c => Ok (buffered_message ctx n c)
  | MChunk ctx i n c => chunk_message ctx i n c
  | MEnd ctx n => end_message ctx n
  | MCheckpoint ctx i h => checkpoint_message ctx i h
  | MFinal ctx n h => final_chain_message ctx n h
  end.

Definition message_ctx (m : signed_message) : bytes :=
  match m with
  | MBuffered ctx _ _ | MChunk ctx _ _ _ | MEnd ctx _ | MCheckpoint ctx _ _
  | MFinal ctx _ _ => ctx
  end.

(** Two messages that claim the same thing: same role, context, position and
    contents.  The boundary between nonce and ciphertext is not encoded. *)
Definition same_claim (m m' : signed_message) : Prop :=
  match m, m' with
  | MBuffered x n c, MBuffered x' n' c' => x = x' /\ n ++ c = n' ++ c'
  | MChunk x i n c, MChunk x' i' n' c' => x = x' /\ i = i' /\ n ++ c = n' ++ c'
  | MEnd x n, MEnd x' n' => x = x' /\ n = n'
  | MCheckpoint x i h, MCheckpoint x' i' h' => x = x' /\ i = i' /\ h = h'
  | MFinal x n h, MFinal x' n' h' => x = x' /\ n = n' /\ h = h'
  | _, _ => False
  end.

Lemma index_bytes_Ok i b : _index_bytes i = Ok b -> 0 <= i < 2 ^ 32 /\ length b = 4%nat.
Proof. intros H. split; [by apply to_bytes_Ok in H as [? _]|by eapply to_bytes_length]. Qed.

Lemma index_bytes_inj i j b : _index_bytes i = Ok b -> _index_bytes j = Ok b -> i = j.
Proof. apply to_bytes_inj. Qed.

Lemma rbind_Ok {A B} (r : result A) (k : A -> result B) b :
  (let? a := r in k a) = Ok b -> exists a, r = Ok a /\ k a = Ok b.
Proof. destruct r; [eauto|done]. Qed.

(** The first label, the context and the four index bytes split off a message. *)
Ltac split_message :=
  repeat match goal with
  | H : (let? _ := _ in _) = Ok _ |- _ =>
      let i := fresh "ib" in let Hi := fresh "Hi" in
      apply rbind_Ok in H as (i & Hi & H)
  | H : Ok _ = Ok _ |- _ => injection H as H; subst
  | H : encode _ ++ _ = encode _ ++ _ |- _ =>
      apply app_prefix_inj in H as [? H]; [try discriminate|reflexivity]
  | Hx : length ?x = 32%nat, Hy : length ?y = 32%nat, H : ?x ++ _ = ?y ++ _ |- _ =>
      apply app_prefix_inj in H as [? H]; [subst|congruence]
  | Hi : _index_bytes ?i = Ok ?x, Hj : _index_bytes ?j = Ok ?y, H : ?x ++ _ = ?y ++ _ |- _ =>
      apply app_prefix_inj in H as [? H];
        [subst; pose proof (index_bytes_inj _ _ _ Hi Hj); subst; clear Hj
        |by rewrite (proj2 (index_bytes_Ok _ _ Hi)), (proj2 (index_bytes_Ok _ _ Hj))]
  end.

(** A signed message determines what it claims, for any contexts of a digest's
    length. *)
Lemma messages_separate (m m' : signed_message) (b : bytes)
    (Hctx : length (message_ctx m) = 32%nat) (Hctx' : length (message_ctx m') = 32%nat)
    (Hm : signed_bytes m = Ok b) (Hm' : signed_bytes m' = Ok b) :
  same_claim m m'.
Proof.
  destruct m, m'; simpl in *;
    unfold buffered_message, chunk_message, end_message, checkpoint_message,
      final_chain_message in *;
    split_message; try done.
  all: try (match goal with
    | Hi : _index_bytes ?i = Ok ?x, Hj : _index_bytes ?j = Ok ?x |- _ =>
        pose proof (index_bytes_inj _ _ _ Hi Hj); subst
    end); auto.
Qed.

(** ** Contexts *)
Lemma stream_context_length hid : length (stream_context hid) = 32%nat.
Proof. apply sha256_length. Qed.
Lemma genesis_hash_length hid : length (genesis_hash hid) = 32%nat.
Proof. apply sha256_length. Qed.

Definition context_input (hid : string) : bytes := DOMAIN ++ [Byte.x00] ++ encode hid.

(** Two sessions with one context are one session, or a SHA-256 collision. *)
Lemma stream_context_inj hid hid' :
  stream_context hid = stream_context hid' ->
  hid = hid' \/ collision_in [context_input hid] [context_input hid'].
Proof.
  intros H. destruct (decide (hid = hid')) as [|Hne]; [by left|right].
  exists (context_input hid), (context_input hid').
  split_and!; [by apply list_elem_of_singleton|by apply list_elem_of_singleton| |exact H].
  unfold context_input. intros Heq. apply app_prefix_inj in Heq as [_ Heq]; [|done].
  injection Heq as Heq. by apply encode_inj in Heq.
Qed.

(** C8: A signed streaming message determines what it claims: if messages built
    for two handshakes are signed as the same bytes, they have the same role
    ("BUF", "CHK", "END", "CKP", "FIN"), the same index or count and the same
    contents, and they belong to the same handshake unless SHA-256 collides on
    the two context inputs -- so a signature made for one role, stream or
    position never verifies as another. *)
Theorem signed_messages_separate (m m' : signed_message) (hid hid' : string) (b : bytes)
    (Hctx : message_ctx m = stream_context hid) (Hctx' : message_ctx m' = stream_context hid')
    (Hm : signed_bytes m = Ok b) (Hm' : signed_bytes m' = Ok b) :
  same_claim m m'
  /\ (hid = hid' \/ collision_in [context_input hid] [context_input hid']).
Proof.
  assert (Hsame : same_claim m m').
  { eapply messages_separate; [| |exact Hm|exact Hm']; rewrite ?Hctx, ?Hctx';
      apply stream_context_length. }
  split; [exact Hsame|]. apply stream_context_inj. rewrite <- Hctx, <- Hctx'.
  destruct m, m'; simpl in *; try done; apply Hsame.
Qed.

Lemma signed_messages_separate_witness :
  same_claim (MChunk (stream_context "s") 3 (encode "ab") (encode "c"))
             (MChunk (stream_context "s") 3 (encode "a") (encode "bc"))
  /\ ("s" = "s" \/ collision_in [context_input "s"] [context_input "s"]).
Proof.
  eapply signed_messages_separate; [reflexivity|reflexivity|reflexivity|].
  vm_compute. reflexivity.
Defined.

(** ** Chains *)

(** Running a chain over (index, envelope) pairs. *)
Fixpoint chain_run (h : bytes) (l : list (Z * bytes)) : result bytes :=
  match l with
  | [] => Ok h
  | (i, env) :: l' => let? h' := chain_link h i env in chain_run h' l'
  end.

(** The byte strings a chain run hashes. *)
Fixpoint chain_inputs (h : bytes) (l : list (Z * bytes)) : list bytes :=
  match l with
  | [] => []
  | (i, env) :: l' =>
      match _index_bytes i with
      | Ok ib => (h ++ ib ++ env) :: chain_inputs (sha256 (h ++ ib ++ env)) l'
      | Raise _ => []
      end
  end.

Lemma chain_run_length h l h' : length h = 32%nat -> chain_run h l = Ok h' -> length h' = 32%nat.
Proof.
  revert h; induction l as [|[i env] l IH]; intros h Hh; simpl; [by intros [= <-]|].
  unfold chain_link. destruct (_index_bytes i); simpl; [|done].
  apply IH, sha256_length.
Qed.

Lemma chain_run_app h l1 l2 :
  chain_run h (l1 ++ l2) = (let? h' := chain_run h l1 in chain_run h' l2).
Proof.
  revert h; induction l1 as [|[i env] l1 IH]; intros h; simpl; [done|].
  destruct (chain_link h i env); simpl; auto.
Qed.

Lemma collision_in_cons_l x xs ys : collision_in xs ys -> collision_in (x :: xs) ys.
Proof. intros (a & b & Ha & Hb & H). exists a, b. split_and!; [by right|done|apply H|apply H]. Qed.
Lemma collision_in_cons_r y xs ys : collision_in xs ys -> collision_in xs (y :: ys).
Proof. intros (a & b & Ha & Hb & H). exists a, b. split_and!; [done|by right|apply H|apply H]. Qed.

(** Two chains of the same length from the same start that end in the same
    hash went over the same chunks, or hashed a collision on the way. *)
Lemma chain_run_inj h1 h2 l1 l2 h :
  length l1 = length l2 -> length h1 = 32%nat -> length h2 = 32%nat ->
  chain_run h1 l1 = Ok h -> chain_run h2 l2 = Ok h ->
  (h1 = h2 /\ l1 = l2) \/ collision_in (chain_inputs h1 l1) (chain_inputs h2 l2).
Proof.
  revert h1 h2 l2; induction l1 as [|[i env] l1 IH]; intros h1 h2 [|[j env'] l2] Hl L1 L2;
    simpl; try done.
  { intros [= ->] [= ->]. by left. }
  unfold chain_link. destruct (_index_bytes i) as [ib|] eqn:Hi; simpl; [|done].
  destruct (_index_bytes j) as [jb|] eqn:Hj; simpl; [|done].
  intros H1 H2. simpl in Hl.
  destruct (IH _ _ l2 ltac:(lia) (sha256_length _) (sha256_length _) H1 H2) as [[Hh ->]|Hc].
  - destruct (decide (h1 ++ ib ++ env = h2 ++ jb ++ env')) as [Heq|Hne].
    + left. apply app_prefix_inj in Heq as [-> Heq]; [|congruence].
      apply app_prefix_inj in Heq as [-> ->].
      * by rewrite (index_bytes_inj _ _ _ Hi Hj).
      * by rewrite (proj2 (index_bytes_Ok _ _ Hi)), (proj2 (index_bytes_Ok _ _ Hj)).
    + right. exists (h1 ++ ib ++ env), (h2 ++ jb ++ env').
      split_and!; [left|left|done|done].
  - right. by apply collision_in_cons_l, collision_in_cons_r.
Qed.
