(* ===== verification/Http.v ===== *)
(** * HTTP between the clients and the servers

    httpx and FastAPI are a parameter: a request is answered with a status, a
    JSON body or text, or a list of Server-Sent-Event lines.  The base64 and
    SSE helpers every client shares are here. *)
From Stdlib Require Import Ascii.
From stdpp Require Import pretty.
From S2P Require Import Prelude PyBytes Sha256 PyVal World.

(** [_b64e] / [_b64d] of [api/secure_app.py] and [api/secure_client.py]. *)
Definition _b64e (data : bytes) : string := decode (b64encode data).
Definition _b64d (data : val) : result bytes :=
  let? s := as_str data in
  let? a := encode_ascii s in
  b64decode a.

Lemma b64d_b64e b : _b64d (VStr (_b64e b)) = Ok b.
Proof.
  unfold _b64d, _b64e, as_str, encode_ascii. cbn [rbind].
  rewrite encode_decode, b64encode_ascii. cbn [rbind]. apply b64decode_encode.
Qed.

Lemma b64e_nonempty b : b <> [] -> truthy (VStr (_b64e b)) = true.
Proof.
  intros Hb. simpl. apply negb_true_iff, String.eqb_neq. unfold _b64e. intros H.
  apply (f_equal encode) in H. rewrite encode_decode in H.
  destruct b as [|a [|? [|? ?]]]; done.
Qed.

#[export] Hint Rewrite b64d_b64e : pq.
#[global] Arguments _b64e : simpl never.
#[global] Arguments _b64d : simpl never.

Record response := mkResponse {
  status_code : Z;
  resp_json : result val;   (* [resp.json()] *)
  resp_text : string;       (* [resp.text] *)
  resp_lines : list string; (* [resp.aiter_lines()] *)
  resp_cut : option exn;    (* what ends the iteration over the lines early *)
}.

(** What a client can ask a server; [N] is the server and the network. *)
Class Transport (N : Type) := {
  http_get : string -> M (world * N) response;
  http_post : string -> dict -> list (string * string) -> M (world * N) response;
}.

(** [resp.raise_for_status()]. *)
Definition raise_for_status (r : response) : result unit :=
  if (400 <=? status_code r) && (status_code r <? 600)
  then Raise (LibraryError "HTTPStatusError") else Ok tt.

(** [f"{body}"] of a bytes object: [repr]. *)
Definition repr_char (c : Ascii.ascii) : string :=
  let n := Z.of_N (Ascii.N_of_ascii c) in
  if n =? 92 then String c (String c "")
  else if n =? 39 then String (Ascii.ascii_of_nat 92) (String c "")
  else if n =? 9 then String (Ascii.ascii_of_nat 92) "t"
  else if n =? 10 then String (Ascii.ascii_of_nat 92) "n"
  else if n =? 13 then String (Ascii.ascii_of_nat 92) "r"
  else if (32 <=? n) && (n <? 127) then String c ""
  else String (Ascii.ascii_of_nat 92) ("x" +:+ hexdigest [byte_of_Z n]).

(** With double quotes around only when that saves escaping. *)
Definition bytes_repr (s : string) : string :=
  let has q := existsb (Ascii.eqb q) (String.list_ascii_of_string s) in
  if has (Ascii.ascii_of_nat 39) && negb (has (Ascii.ascii_of_nat 34))
  then "b" +:+ String (Ascii.ascii_of_nat 34) (String.concat "" (map (fun c =>
         if Ascii.eqb c (Ascii.ascii_of_nat 39) then String c "" else repr_char c)
         (String.list_ascii_of_string s)) +:+ String (Ascii.ascii_of_nat 34) "")
  else "b'" +:+ String.concat "" (map repr_char (String.list_ascii_of_string s)) +:+ "'".

Definition take_string (n : nat) (s : string) : string := String.substring 0 n s.

(** [f"HTTP {resp.status_code}: {...}"]. *)
Definition http_error (status : Z) (text : string) : string :=
  "HTTP " +:+ pretty status +:+ ": " +:+ text.

(** ** Server-Sent Events *)
(** [if not line.startswith("data:"): continue] and
    [line[len("data:"):].strip()]. *)
Definition sse_payload (line : string) : option string :=
  if String.prefix "data:" line then Some (strip (drop_string 5 line)) else None.

(** [json.loads] of a data line. *)
Definition sse_data {J : Json} (line : string) : result (option val) :=
  match sse_payload line with
  | None => Ok None
  | Some t => let? v := json_loads (encode t) in Ok (Some v)
  end.

(** [resp.aiter_lines()]: the body split at line feeds. *)
Definition LF : Ascii.ascii := Ascii.ascii_of_nat 10.

Fixpoint split_lines (s : string) : list string :=
  match s with
  | EmptyString => []
  | String c s' =>
      if Ascii.eqb c LF then "" :: split_lines s'
      else match split_lines s' with
           | [] => [String c ""]
           | l :: ls => String c l :: ls
           end
  end.

Definition aiter_lines (events : list string) : list string :=
  split_lines (String.concat "" events).

Lemma string_app_cons x (a b : string) : String x a +:+ b = String x (a +:+ b).
Proof. reflexivity. Qed.
Lemma string_app_nil_l (b : string) : "" +:+ b = b.
Proof. reflexivity. Qed.
Lemma string_app_assoc (a b c : string) : (a +:+ b) +:+ c = a +:+ (b +:+ c).
Proof. induction a as [|x a IH]; [done|]. by rewrite !string_app_cons, IH. Qed.
Lemma string_app_nil_r (a : string) : a +:+ "" = a.
Proof. induction a as [|x a IH]; [done|]. by rewrite string_app_cons, IH. Qed.

Lemma split_lines_app t rest :
  one_line t = true -> split_lines (t +:+ String LF rest) = t :: split_lines rest.
Proof.
  induction t as [|c t IH]; intros H; rewrite ?string_app_nil_l, ?string_app_cons; simpl in *.
  - done.
  - apply andb_true_iff in H as [Hc Ht]. apply negb_true_iff in Hc. unfold LF at 1. rewrite Hc.
    by rewrite IH.
Qed.

Lemma concat_cons (a : string) l : String.concat "" (a :: l) = a +:+ String.concat "" l.
Proof. destruct l; simpl; [by rewrite string_app_nil_r|done]. Qed.

Lemma one_line_app a b : one_line (a +:+ b) = one_line a && one_line b.
Proof.
  induction a as [|c a IH]; rewrite ?string_app_nil_l, ?string_app_cons; simpl; [done|].
  rewrite IH. by rewrite andb_assoc.
Qed.

(** The payload of a data line is the JSON text it was built from. *)
Lemma sse_data_line {J : Json} {JL : JsonLaws J} v :
  jsonable v = true -> sse_data ("data: " +:+ json_text v) = Ok (Some v).
Proof.
  intros Hv. unfold sse_data, sse_payload.
  assert (String.prefix "data:" ("data: " +:+ json_text v) = true) as -> by done.
  change (drop_string 5 ("data: " +:+ json_text v)) with (String " "%char (json_text v)).
  assert (strip (String " "%char (json_text v)) = json_text v) as ->.
  { unfold strip. simpl. apply json_stripped. }
  by rewrite json_roundtrip.
Qed.
