(* ===== verification/Profiles.v ===== *)
(** * Payload profiles and the prediction service ([model/profiles/],
    [api/model_service.py])

    What a request asks for and what the server answers with, per payload
    profile, the registry that keeps one instance of each, and the service the
    servers import.  The random forest, NumPy's array conversion and norm and
    the convolutional network's forward pass are parameters. *)
From Stdlib Require Import Ascii.
From S2P Require Import Prelude PyBytes Sha256 PyVal World PyList PyNum Http Backends.

(** ** [llm_completion] *)
Definition LLM_WORD_BANK : list string :=
  ["quantum"; "lattice"; "cryptography"; "inference"; "latency"; "payload"; "signature";
   "ciphertext"; "handshake"; "concurrency"; "endpoint"; "model"; "classifier"; "response";
   "request"; "overhead"; "encryption"; "authentication"; "verification"; "adversary"; "threat";
   "harvest"; "decrypt"; "resilient"; "scalable"; "throughput"; "benchmark"; "empirical";
   "framework"; "architecture"; "migration"; "deployment"].
Definition DEFAULT_TARGET_CHARS : Z := 4000.
Definition LLM_SAMPLE_PROMPTS : list string :=
  ["Summarize the key risks of migrating a production API to post-quantum cryptography, focusing on latency-sensitive workloads.";
   "Explain the difference between a hybrid and a fully post-quantum key exchange scheme in the context of TLS 1.3.";
   "Write a short incident report describing a suspected harvest-now-decrypt-later data exfiltration attempt against a healthcare API."].

(** [c.upper()] of an ASCII character. *)
Definition upper_char (c : ascii) : ascii :=
  let n := N_of_ascii c in
  if ((97 <=? n) && (n <=? 122))%N then ascii_of_N (n - 32) else c.

(** [text[0].upper() + text[1:] + "."]. *)
Definition sentence (text : string) : result string :=
  match text with
  | "" => Raise (IndexError "string index out of range")
  | String c rest => Ok (String (upper_char c) rest +:+ ".")
  end.

(** The state itself. *)
Definition current {Σ} : M Σ Σ := fun σ => (Ok σ, σ).

Definition str_len (s : string) : Z := Z.of_nat (String.length s).

Section Profiles.
Context {E : Env} {R : Type} {NR : NumpyRng R}.

(** [while length < target_chars]; [None] past the fuel. *)
Fixpoint words_until (fuel : nat) (target length : Z) (r : R) : option (result (list string)) :=
  match fuel with
  | O => None
  | S fuel' =>
      if length <? target then
        let '(w, r') := pick_word LLM_WORD_BANK r in
        match w with
        | Raise e => Some (Raise e)
        | Ok word =>
            match words_until fuel' target (length + str_len word + 1) r' with
            | Some (Ok ws) => Some (Ok (word :: ws))
            | out => out
            end
        end
      else Some (Ok [])
  end.

(** One word adds two characters or more. *)
Definition words_fuel (target : Z) : nat := S (Z.to_nat target).

Definition llm_words (prompt : string) (target : Z) : result (list string) :=
  match words_until (words_fuel target) target 0 (default_rng (prompt_seed prompt)) with
  | Some r => r
  | None => Raise (LibraryError "out of fuel")
  end.

Definition llm_predict (body : dict) : M world dict :=
  let* t0 := perf_counter in
  let* max_tokens := of_result (py_int (dget_or "max_tokens" (VInt (DEFAULT_TARGET_CHARS / 5)) body)) in
  let* prompt := of_result (as_str (dget_or "prompt" (VStr "") body)) in
  let* words := of_result (llm_words prompt (max_tokens * 5)) in
  let* text := of_result (sentence (String.concat " " words)) in
  let* t1 := perf_counter in
  ret [("completion", VStr text); ("tokens_generated", VInt (py_len words));
       ("_inference_ms", VFloat ((t1 - t0) * 1000))].

Definition pick_sample (texts : list string) (r : R) : result string * R := pick_word texts r.

Definition llm_sample_request (r : R) : result dict * R :=
  let '(p, r') := pick_sample LLM_SAMPLE_PROMPTS r in
  ((let? prompt := p in
    Ok [("prompt", VStr prompt); ("max_tokens", VInt (DEFAULT_TARGET_CHARS / 5))]), r').

(** ** [embedding] *)
Definition EMBEDDING_DIM : nat := 768.
Definition EMBEDDING_SAMPLE_TEXTS : list string :=
  ["Patient presents with elevated troponin levels and intermittent chest pain over the past 48 hours, with a family history of coronary artery disease and controlled hypertension on lisinopril.";
   "Quarterly revenue grew 12 percent year over year, driven primarily by expansion in the enterprise segment, while gross margin compressed slightly due to increased cloud infrastructure spend.";
   "The transaction was flagged for review due to an unusual velocity of transfers across newly created accounts within a fifteen minute window, originating from a previously dormant IP range."].

(** What the other profiles use of NumPy and scikit-learn. *)
Class Numerics := {
  linalg_norm : list Q -> Q;
  round6 : Q -> Q;                               (* [round(x, 6)] *)
  np_floats : val -> result (list Q);            (* [np.array(v, dtype=float).reshape(1, -1)] *)
  forest_predict : list Q -> result (Z * list Q); (* [model.predict], [model.predict_proba] *)
  model_file : bool;                             (* [os.path.isfile(MODEL_PATH)] *)
  digits_row : nat -> list Q;                    (* a row of [load_digits()] at random *)
  cnn_forward : bytes -> val -> result (list Q); (* the network's class probabilities *)
  sample_image : R -> bytes * R;
}.
Context {NU : Numerics}.

Definition embed (text : string) : list Q :=
  let '(vec, _) := normal EMBEDDING_DIM (default_rng (prompt_seed text)) in
  map (fun v => round6 (v / linalg_norm vec)) vec.

Definition embedding_predict (body : dict) : M world dict :=
  let* t0 := perf_counter in
  let* text := of_result (as_str (dget_or "text" (VStr "") body)) in
  let* t1 := perf_counter in
  ret [("embedding", VList (map VFloat (embed text))); ("dim", VInt (Z.of_nat EMBEDDING_DIM));
       ("_inference_ms", VFloat ((t1 - t0) * 1000))].

Definition embedding_sample_request (r : R) : result dict * R :=
  let '(t, r') := pick_sample EMBEDDING_SAMPLE_TEXTS r in
  ((let? text := t in Ok [("text", VStr text)]), r').

(** ** [tabular_small] *)

(** [_get_model]: the artifact is looked for until it has been loaded. *)
Definition _get_model (loaded : bool) : result unit :=
  if loaded then Ok tt
  else if model_file then Ok tt
  else Raise (RuntimeError "Model artifact not found. Run `python -m model.train` first.").

Definition tabular_predict (body : dict) : M (world * bool) dict :=
  let* loaded := on_snd current in
  of_result (_get_model loaded) ;;;
  on_snd (put true) ;;;
  let* t0 := on_fst perf_counter in
  let* input := of_result (getitem "input" body) in
  let* x := of_result (np_floats input) in
  let* out := of_result (forest_predict x) in
  let* t1 := on_fst perf_counter in
  ret [("prediction", VInt (fst out)); ("probabilities", VList (map VFloat (snd out)));
       ("_inference_ms", VFloat ((t1 - t0) * 1000))].

Definition tabular_sample_request : M world dict :=
  let* row := at_tick digits_row in ret [("input", VList (map VFloat row))].

(** ** [image_cnn] *)
Definition IMAGE_SHAPE : list Z := [3; 32; 32].

(** [np.argmax]: the first of the largest. *)
Fixpoint argmax_from (best : Q) (at_ i : Z) (l : list Q) : Z :=
  match l with
  | [] => at_
  | x :: r => if Qle_bool x best then argmax_from best at_ (i + 1) r else argmax_from x i (i + 1) r
  end.
Definition argmax (l : list Q) : result Z :=
  match l with
  | [] => Raise (ValueError "attempt to get argmax of an empty sequence")
  | x :: r => Ok (argmax_from x 0 1 r)
  end.

Definition image_predict (body : dict) : M world dict :=
  let* t0 := perf_counter in
  let* encoded := of_result (getitem "image_base64" body) in
  let* raw := of_result (_b64d encoded) in
  let* probs := of_result (cnn_forward raw
                  (dget_or "shape" (VList (map VInt IMAGE_SHAPE)) body)) in
  let* t1 := perf_counter in
  let* best := of_result (argmax probs) in
  ret [("prediction", VInt best); ("probabilities", VList (map VFloat probs));
       ("_inference_ms", VFloat ((t1 - t0) * 1000))].

Definition image_sample_request (r : R) : dict * R :=
  let '(img, r') := sample_image r in
  ([("image_base64", VStr (_b64e img)); ("shape", VList (map VInt IMAGE_SHAPE))], r').

(** ** The registry *)

(** An instance with the state it keeps between calls. *)
Inductive PayloadProfile :=
  | TabularSmallProfile (model_loaded : bool)
  | ImageCNNProfile (rng : R)
  | EmbeddingProfile (rng : R)
  | LLMCompletionProfile (rng : R).

Definition PROFILE_NAMES : list string := ["tabular_small"; "image_cnn"; "embedding"; "llm_completion"].
Definition DEFAULT_PROFILE : string := "tabular_small".

Definition new_profile (name : string) : option PayloadProfile :=
  if String.eqb name "tabular_small" then Some (TabularSmallProfile false)
  else if String.eqb name "image_cnn" then Some (ImageCNNProfile (default_rng 1234))
  else if String.eqb name "embedding" then Some (EmbeddingProfile (default_rng 42))
  else if String.eqb name "llm_completion" then Some (LLMCompletionProfile (default_rng 7))
  else None.

Definition profile_name (p : PayloadProfile) : string :=
  match p with
  | TabularSmallProfile _ => "tabular_small" | ImageCNNProfile _ => "image_cnn"
  | EmbeddingProfile _ => "embedding" | LLMCompletionProfile _ => "llm_completion"
  end.
Definition profile_real_inference (p : PayloadProfile) : bool :=
  match p with
  | TabularSmallProfile _ | ImageCNNProfile _ => true
  | EmbeddingProfile _ | LLMCompletionProfile _ => false
  end.

(** The process: its environment and the instances made so far. *)
Record registry := mkRegistry {
  environ : list (string * string); _instances : list (string * PayloadProfile) }.

(** The name of the profile and its instance, now in the table. *)
Definition get_profile (name : option string) : M registry (string * PayloadProfile) := fun reg =>
  let key := or_environ name "PQ_SHIELD_PAYLOAD_PROFILE" DEFAULT_PROFILE (environ reg) in
  match new_profile key with
  | None => (Raise (ValueError ("Unknown payload profile '" +:+ key
               +:+ "'. Valid options: ['tabular_small', 'image_cnn', 'embedding', 'llm_completion']")), reg)
  | Some fresh =>
      match dget key (_instances reg) with
      | Some p => (Ok (key, p), reg)
      | None => (Ok (key, fresh), mkRegistry (environ reg) (dset key fresh (_instances reg)))
      end
  end.

(** ** The service *)

(** [profile.predict] and [profile.sample_request] on the active instance. *)
Definition profile_predict (body : dict) : M (world * PayloadProfile) dict := fun '(w, p) =>
  let keep (m : M world dict) := let '(r, w') := m w in (r, (w', p)) in
  match p with
  | TabularSmallProfile loaded =>
      let '(r, (w', loaded')) := tabular_predict body (w, loaded) in
      (r, (w', TabularSmallProfile loaded'))
  | ImageCNNProfile _ => keep (image_predict body)
  | EmbeddingProfile _ => keep (embedding_predict body)
  | LLMCompletionProfile _ => keep (llm_predict body)
  end.

Definition profile_sample : M (world * PayloadProfile) dict := fun '(w, p) =>
  match p with
  | TabularSmallProfile _ => let '(r, w') := tabular_sample_request w in (r, (w', p))
  | ImageCNNProfile r => let '(d, r') := image_sample_request r in (Ok d, (w, ImageCNNProfile r'))
  | EmbeddingProfile r => let '(d, r') := embedding_sample_request r in (d, (w, EmbeddingProfile r'))
  | LLMCompletionProfile r => let '(d, r') := llm_sample_request r in (d, (w, LLMCompletionProfile r'))
  end.

Abbreviation service := (world * registry)%type.

(** [get_profile().method(...)]: what the method changes stays in the table. *)
Definition with_active {A} (method : M (world * PayloadProfile) A) : M service A := fun '(w, reg) =>
  match get_profile None reg with
  | (Raise e, reg') => (Raise e, (w, reg'))
  | (Ok (key, p), reg') =>
      let '(r, (w', p')) := method (w, p) in
      (r, (w', mkRegistry (environ reg') (dset key p' (_instances reg'))))
  end.

Definition predict (body : dict) : M service dict := with_active (profile_predict body).
Definition sample_request : M service dict := with_active profile_sample.
Definition warm_up : M service unit :=
  let* body := sample_request in
  let* _ := predict body in
  ret tt.
Definition active_profile_name : M service string :=
  with_active (let* p := on_snd current in ret (profile_name p)).
Definition active_profile_real_inference : M service bool :=
  with_active (let* p := on_snd current in ret (profile_real_inference p)).
End Profiles.

(** ** What the token sources and the payload profiles produce

    The synthetic backend and the completion profile are deterministic in the
    prompt and of the size asked for; the registries keep one instance. *)

(** ** Words *)
Section Words.
Context {R : Type} {NR : NumpyRng R} {NRL : NumpyRngLaws NR}.

Lemma pick_word_ok bank (r : R) :
  bank <> [] -> exists w, fst (pick_word bank r) = Ok w /\ w ∈ bank.
Proof.
  intros Hb. assert (0 < py_len bank) as Hlen by (destruct bank; unfold py_len; simpl; [done|lia]).
  pose proof (integers_range 0 (py_len bank) r Hlen) as Hi. unfold pick_word.
  destruct (integers 0 (py_len bank) r) as [i r']. simpl in *. unfold py_len in Hi.
  destruct (lookup_lt_is_Some_2 bank (Z.to_nat i)) as [w Hw]; [lia|].
  exists w. split; [|by eapply list_elem_of_lookup_2].
  rewrite <- (Z2Nat.id i) by lia. by apply getitem_at_Some.
Qed.

(** *** The synthetic backend *)

(** A token is a word of the bank and a space. *)
Definition bank_token (t : string) : Prop := exists w, w ∈ _WORD_BANK /\ t = w +:+ " ".

Lemma synthetic_tokens_ok n (r : R) :
  exists ts, synthetic_tokens n r = Ok ts /\ length ts = n /\ Forall bank_token ts.
Proof.
  revert r; induction n as [|n IH]; intros r; cbn [synthetic_tokens]; [by exists []|].
  destruct (pick_word_ok _WORD_BANK r) as (w & Hw & Hin); [done|].
  destruct (pick_word _WORD_BANK r) as [o r']. simpl in Hw. subst o. cbn [rbind].
  destruct (IH r') as (ts & -> & Hl & Hf). eexists. split; [reflexivity|].
  split; [by simpl; rewrite Hl|]. constructor; [by exists w|done].
Qed.

Lemma synthetic_tokens_take m n (r : R) ts :
  (m <= n)%nat -> synthetic_tokens n r = Ok ts -> synthetic_tokens m r = Ok (take m ts).
Proof.
  revert n r ts; induction m as [|m IH]; intros n r ts Hm H; [by rewrite take_0|].
  destruct n as [|n]; [lia|]. cbn [synthetic_tokens] in *.
  destruct (pick_word _WORD_BANK r) as [[w|e] r']; cbn [rbind] in *; [|done].
  destruct (synthetic_tokens n r') as [ts'|e] eqn:Hn; cbn [rbind] in H; [|done].
  injection H as <-. rewrite (IH n r' ts'); [done|lia|done].
Qed.

Lemma synthetic_backend_eq b p n :
  synthetic_backend b (VStr p) n = synthetic_tokens (Z.to_nat n) (default_rng (prompt_seed p)).
Proof.
  unfold synthetic_backend, synthetic_stream. cbn [as_str rbind].
  destruct (synthetic_tokens _ _) as [ts|e]; cbn [rbind]; [|done].
  f_equal. rewrite map_map. apply map_id.
Qed.

(** What a stream of [n] tokens for a prompt is, whatever the rate. *)
Lemma synthetic_backend_spec b p n :
  exists ts, synthetic_backend b (VStr p) n = Ok ts
    /\ Z.of_nat (length ts) = Z.max 0 n /\ Forall bank_token ts
    /\ (forall b', synthetic_backend b' (VStr p) n = Ok ts)
    /\ (forall m, m <= n -> synthetic_backend b (VStr p) m = Ok (take (Z.to_nat m) ts)).
Proof.
  destruct (synthetic_tokens_ok (Z.to_nat n) (default_rng (prompt_seed p))) as (ts & H & Hl & Hf).
  exists ts. rewrite synthetic_backend_eq. split_and!; [done|lia|done| |].
  - intros b'. by rewrite synthetic_backend_eq.
  - intros m Hm. rewrite synthetic_backend_eq. eapply synthetic_tokens_take; [|exact H]. lia.
Qed.

(** *** The completion profile *)
Definition words_length (ws : list string) : Z := Zsum (map (fun w => str_len w + 1) ws).

Lemma words_length_cons w ws : words_length (w :: ws) = str_len w + 1 + words_length ws.
Proof. unfold words_length. cbn [map]. by rewrite Zsum_cons. Qed.

Lemma bank_lengths w : w ∈ LLM_WORD_BANK -> 4 <= str_len w <= 14.
Proof.
  intros H. assert (Forall (fun w => 4 <= str_len w <= 14) LLM_WORD_BANK) as Hf.
  { repeat (constructor; [vm_compute; split; discriminate|]). constructor. }
  rewrite Forall_forall in Hf. by apply Hf.
Qed.

Lemma words_until_ok fuel target len (r : R) :
  Z.max 0 (target - len) < Z.of_nat fuel ->
  exists ws, words_until fuel target len r = Some (Ok ws)
    /\ Forall (fun w => w ∈ LLM_WORD_BANK) ws /\ target <= len + words_length ws
    /\ (target <= len -> ws = [])
    /\ (len < target -> ws <> [] /\ len + words_length ws <= target + 14).
Proof.
  revert len r; induction fuel as [|fuel IH]; intros len r Hf; [lia|]. cbn [words_until].
  destruct (Z.ltb_spec len target) as [Hlt|Hge].
  2: { exists []. unfold words_length, Zsum. simpl. split_and!; [done|constructor|lia|done|lia]. }
  destruct (pick_word_ok LLM_WORD_BANK r) as (w & Hw & Hin); [done|].
  destruct (pick_word LLM_WORD_BANK r) as [o r']. simpl in Hw. subst o.
  pose proof (bank_lengths w Hin) as Hb.
  destruct (IH (len + str_len w + 1) r') as (ws & -> & Hall & Ht & Hnil & Hup); [lia|].
  exists (w :: ws). rewrite words_length_cons.
  split_and!; [done|by constructor|lia|lia|]. intros _. split; [done|].
  destruct (Z.lt_ge_cases (len + str_len w + 1) target) as [Hc|Hc].
  - specialize (Hup Hc). lia.
  - rewrite (Hnil Hc). unfold words_length, Zsum. simpl. lia.
Qed.

Lemma llm_words_ok prompt target :
  exists ws, llm_words prompt target = Ok ws /\ Forall (fun w => w ∈ LLM_WORD_BANK) ws
    /\ (target <= 0 -> ws = [])
    /\ (0 < target -> ws <> [] /\ target <= words_length ws <= target + 14).
Proof.
  unfold llm_words.
  destruct (words_until_ok (words_fuel target) target 0 (default_rng (prompt_seed prompt)))
    as (ws & -> & Hall & Hlo & Hnil & Hup); [unfold words_fuel; lia|].
  exists ws. split_and!; [done|done|done|]. intros H. destruct (Hup H). split; [done|]. lia.
Qed.
End Words.

(** *** Text lengths *)
Lemma str_len_app a b : str_len (a +:+ b) = str_len a + str_len b.
Proof.
  unfold str_len. induction a as [|c a IH]; [done|].
  change (String c a +:+ b) with (String c (a +:+ b)). cbn [String.length]. lia.
Qed.

Lemma concat_spaces ws : ws <> [] -> str_len (String.concat " " ws) = words_length ws - 1.
Proof.
  induction ws as [|w [|w' ws] IH]; [done| |]; intros _.
  - unfold words_length, Zsum. simpl. lia.
  - change (String.concat " " (w :: w' :: ws)) with (w +:+ " " +:+ String.concat " " (w' :: ws)).
    rewrite !str_len_app, IH, (words_length_cons w) by done. change (str_len " ") with 1. lia.
Qed.

Lemma sentence_ok s :
  0 < str_len s -> exists t, sentence s = Ok t /\ str_len t = str_len s + 1.
Proof.
  destruct s as [|c s]; [unfold str_len; simpl; lia|]. intros _. eexists. split; [reflexivity|].
  rewrite str_len_app. change (str_len ".") with 1. unfold str_len. simpl. lia.
Qed.

(** A completion always ends and has the size asked for: for a positive
    [max_tokens] the text is a function of the prompt and the limit, its
    length is between [5 * max_tokens] and 14 characters more, and it counts
    as many tokens as it has words; a limit of zero or less makes the profile
    raise [IndexError]. *)
Theorem llm_completion_bounds {E : Env} {R : Type} {NR : NumpyRng R} {NRL : NumpyRngLaws NR}
    (prompt : string) (body : dict) (n : Z)
    (Hp : dget_or "prompt" (VStr "") body = VStr prompt)
    (Hn : py_int (dget_or "max_tokens" (VInt (DEFAULT_TARGET_CHARS / 5)) body) = Ok n) :
  (n <= 0 -> forall w, exists w', llm_predict body w
                                = (Raise (IndexError "string index out of range"), w'))
  /\ (0 < n -> exists text words,
        5 * n <= str_len text <= 5 * n + 14
        /\ Forall (fun w => w ∈ LLM_WORD_BANK) words
        /\ forall w, exists ms w', llm_predict body w
             = (Ok [("completion", VStr text); ("tokens_generated", VInt (py_len words));
                    ("_inference_ms", VFloat ms)], w')).
Proof.
  destruct (llm_words_ok prompt (n * 5)) as (ws & Hw & Hall & Hnil & Hup).
  assert (forall w, llm_predict body w
    = (let* text := of_result (sentence (String.concat " " ws)) in
       let* t1 := perf_counter in
       ret [("completion", VStr text); ("tokens_generated", VInt (py_len ws));
            ("_inference_ms", VFloat ((t1 - env_perf_counter (tick w)) * 1000))]) (advance w)) as Hrun.
  { intros w. unfold llm_predict. rewrite (bind_Ok _ _ w (env_perf_counter (tick w)) (advance w)) by done.
    rewrite Hn, Hp. unfold bind at 1 2 3, of_result at 1 2 3. cbn [as_str]. by rewrite Hw. }
  split.
  - intros Hle w. rewrite Hrun, Hnil by lia. by eexists.
  - intros Hlt. destruct (Hup ltac:(lia)) as [Hne Hlen].
    destruct (sentence_ok (String.concat " " ws)) as (text & Ht & Hl).
    { rewrite concat_spaces by done. lia. }
    rewrite concat_spaces in Hl by done. exists text, ws. split_and!; [lia|lia|done|].
    intros w. rewrite Hrun, Ht. by eexists _, _.
Qed.

(** ** The backend registry *)
Section Registry.
Context {L H : Type} {ML : ModelLibs L H}.

(** One backend per process: the first call that succeeds decides, and
    until the cache is reset every later call returns that same backend,
    whatever name it asks for -- also an unknown one -- while a call that
    fails leaves nothing behind, so that the next one tries again. *)
Theorem backend_registry_caches (environ : list (string * string)) (name : option string)
    (b : StreamingBackend (L := L) (H := H)) (inst inst' : option (StreamingBackend (L := L) (H := H)))
    (Hget : get_backend name environ inst = (Ok b, inst')) :
  inst' = Some b
  /\ (forall name' environ', get_backend name' environ' inst' = (Ok b, inst'))
  /\ (inst = None ->
      exists key, (key = "synthetic" /\ backend_name b = key /\ real_inference b = false
                   \/ key ∈ ["llama_cpp"; "transformers"] /\ backend_name b = key
                      /\ real_inference b = true)
                  /\ or_environ name "PQ_SHIELD_STREAMING_BACKEND" "synthetic" environ = key)
  /\ (forall name' environ' e, fst (get_backend name' environ' None) = Raise e ->
      snd (get_backend name' environ' None) = None)
  /\ snd (reset_backend_cache inst') = None.
Proof.
  unfold get_backend in Hget. destruct inst as [b0|].
  { injection Hget as -> <-. split_and!; try done. intros name' environ' e.
    unfold get_backend. by destruct (new_backend _ _). }
  destruct (new_backend _ environ) as [b1|e] eqn:Hb; [|done]. injection Hget as -> <-.
  split_and!; try done.
  - intros _. unfold new_backend in Hb. eexists. split; [|reflexivity]. revert Hb.
    destruct (String.eqb_spec (or_environ name "PQ_SHIELD_STREAMING_BACKEND" "synthetic" environ)
                "synthetic") as [->|_].
    { destruct (new_synthetic _ _); [|done]. intros [= <-]. by left. }
    destruct (String.eqb_spec (or_environ name "PQ_SHIELD_STREAMING_BACKEND" "synthetic" environ)
                "llama_cpp") as [->|_].
    { destruct (new_llama_cpp _ _ _ _ _); [|done]. intros [= <-]. right. split; [by left|done]. }
    destruct (String.eqb_spec (or_environ name "PQ_SHIELD_STREAMING_BACKEND" "synthetic" environ)
                "transformers") as [->|_]; [|done].
    destruct (new_transformers _ _ _); [|done]. intros [= <-]. right. split; [right; left|done].
  - intros name' environ' e. unfold get_backend. destruct (new_backend (or_environ name' _ _ _) _); simpl; [discriminate|done].
Qed.
End Registry.
