(* ===== verification/PrimitiveBench.v ===== *)
(** * The primitive micro-benchmark ([validation/primitive_bench.py]) and the
    contention check's measuring loop ([validation/contention_check.py])

    Operations of the libraries are timed one by one; the statistics, the
    ordering checks and the calibration are computed from the samples.  The
    square root, the subprocesses of the cold-start measurement and the host
    description are parameters. *)
From Stdlib Require Import Qround.
From S2P Require Import Prelude PyBytes PyVal World PyList PyNum Instrumentation OqsAdapter.
From S2P Require Import Base Configs Aggregate Http.

(** What [_time_op] returns. *)
Record op_stats := mkOpStats {
  iterations : Z; mean_us : Q; median_us : Q; stdev_us : Q; p95_us : Q; p99_us : Q;
  min_us : Q; max_us : Q; ops_per_second : option Q }.

(** [fn] called [n] times. *)
Definition times {Σ A} (n : Z) (fn : M Σ A) : M Σ (list A) := mmap (fun _ => fn) (seqZ 0 n).

(** [statistics.fmean]. *)
Definition fmean (l : list Q) : result Q :=
  match l with [] => Raise (StatisticsError "fmean requires at least one data point") | _ => Ok (Qmean l) end.

Section Stats.
Variable sqrt : Q -> Q.

(** [samples[int(len(samples) * q) - 1]]. *)
Definition quantile_at (q : Q) (samples : list Q) : result Q :=
  getitem_at samples (Qfloor (inject_Z (py_len samples) * q) - 1).

Definition stats_of_samples (n : Z) (samples : list Q) : result op_stats :=
  let samples := Qsorted samples in
  let? mean := fmean samples in
  let? med := median samples in
  let? p95 := quantile_at (95 # 100) samples in
  let? p99 := quantile_at (99 # 100) samples in
  let? lo := getitem_at samples 0 in
  let? hi := getitem_at samples (-1) in
  Ok (mkOpStats n mean med (if 1 <? py_len samples then sample_std sqrt samples else 0%Q) p95 p99 lo hi
        (if Qltb 0 mean then Some (inject_Z 1000000 / mean)%Q else None)).

Context {E : Env}.

Definition timed_call {A} (fn : M world A) : M world Q :=
  let* t0 := perf_counter in
  fn ;;;
  let* t1 := perf_counter in
  ret ((t1 - t0) * inject_Z 1000000)%Q.

Definition _time_op {A} (fn : M world A) (n warmup : Z) : M world op_stats :=
  let* _ := times warmup fn in
  let* samples := times n (timed_call fn) in
  of_result (stats_of_samples n samples).

Context {P : Prims}.
Abbreviation table := (list (string * op_stats)).

Definition MESSAGE : bytes := encode "pq-shield primitive benchmark message".

Definition bench_ml_kem_768 (n : Z) : M world table :=
  let* kp := MLKEM768_keypair in
  let* cs := MLKEM768_encaps (kem_public_key kp) in
  let '(ct, _) := cs in
  let* keygen := _time_op MLKEM768_keypair n 10 in
  let* encaps := _time_op (MLKEM768_encaps (kem_public_key kp)) n 10 in
  let* decaps := _time_op (of_result (MLKEM768_decaps ct (kem_secret_key kp))) n 10 in
  ret [("keygen", keygen); ("encaps", encaps); ("decaps", decaps)].

Definition bench_ml_dsa_65 (n : Z) : M world table :=
  let* kp := MLDSA65_keypair in
  let* sig := MLDSA65_sign MESSAGE (sig_secret_key kp) in
  let* keygen := _time_op MLDSA65_keypair n 10 in
  let* sign := _time_op (MLDSA65_sign MESSAGE (sig_secret_key kp)) n 10 in
  let* verify := _time_op (of_result (MLDSA65_verify MESSAGE sig (sig_public_key kp))) n 10 in
  ret [("keygen", keygen); ("sign", sign); ("verify", verify)].

(** [keygen_iterations or max(50, iterations // 10)]. *)
Definition keygen_iterations_of (keygen_iterations : option Z) (n : Z) : Z :=
  match keygen_iterations with
  | Some k => if k =? 0 then Z.max 50 (n / 10) else k
  | None => Z.max 50 (n / 10)
  end.

(** Library calls that draw at the current tick. *)
Definition rsa_encrypt_now (pk : rsa_public) (m : bytes) : M world bytes :=
  fun w => (rsa_oaep_encrypt (tick w) pk m, advance w).

Definition bench_classical (n : Z) (keygen_iterations : option Z) : M world table :=
  let keygen_n := keygen_iterations_of keygen_iterations n in
  let* rsa_key := at_tick rsa_generate in
  let rsa_pub := rsa_public_key rsa_key in
  let* secret := os_urandom 32 in
  let* rsa_ct := rsa_encrypt_now rsa_pub secret in
  let* x_key := at_tick x25519_generate in
  let* x_peer_key := at_tick x25519_generate in
  let x_peer := x25519_public_key x_peer_key in
  let* ec_key := at_tick ec_generate in
  let ec_pub := ec_public_key ec_key in
  let* ec_sig := ecdsa_sign_now ec_key MESSAGE in
  let _ec_verify := ret (match ecdsa_verify ec_pub ec_sig MESSAGE with Ok _ | Raise _ => tt end) in
  let* rsa2048_keygen := _time_op (at_tick rsa_generate) keygen_n 1 in
  let* rsa2048_oaep_encrypt := _time_op (rsa_encrypt_now rsa_pub secret) n 10 in
  let* rsa2048_oaep_decrypt := _time_op (of_result (rsa_oaep_decrypt rsa_key rsa_ct)) n 10 in
  let* ecdsa_p256_keygen := _time_op (at_tick ec_generate) n 10 in
  let* ecdsa_p256_sign := _time_op (ecdsa_sign_now ec_key MESSAGE) n 10 in
  let* ecdsa_p256_verify := _time_op _ec_verify n 10 in
  let* x25519_keygen := _time_op (at_tick x25519_generate) n 10 in
  let* x25519_exchange_ := _time_op (of_result (x25519_exchange x_key x_peer)) n 10 in
  ret [("rsa2048_keygen", rsa2048_keygen); ("rsa2048_oaep_encrypt", rsa2048_oaep_encrypt);
       ("rsa2048_oaep_decrypt", rsa2048_oaep_decrypt); ("ecdsa_p256_keygen", ecdsa_p256_keygen);
       ("ecdsa_p256_sign", ecdsa_p256_sign); ("ecdsa_p256_verify", ecdsa_p256_verify);
       ("x25519_keygen", x25519_keygen); ("x25519_exchange", x25519_exchange_)].
End Stats.

(** ** Reference data *)
Record PublishedThroughput := mkPublished {
  pub_platform : string; pub_algorithm : string; pub_operation : string;
  pub_ops_per_second : Q; pub_source : string }.

Definition tor_table (platform operation : string) (ops : Q) : PublishedThroughput :=
  mkPublished platform "ML-KEM-768" operation ops
    "Post-Quantum Migration of Tor, arXiv:2503.10238, Table 8 (liboqs).".
Definition PUBLISHED_THROUGHPUT : list PublishedThroughput :=
  [tor_table "Raspberry Pi 4B (ARM Cortex-A72)" "keygen" 2539;
   tor_table "Raspberry Pi 4B (ARM Cortex-A72)" "encaps" 3905;
   tor_table "Raspberry Pi 4B (ARM Cortex-A72)" "decaps" (5143 # 2);
   tor_table "Raspberry Pi 5 (ARM Cortex-A76)" "keygen" (139766 # 10);
   tor_table "Raspberry Pi 5 (ARM Cortex-A76)" "encaps" (119006 # 10);
   tor_table "Raspberry Pi 5 (ARM Cortex-A76)" "decaps" (96143 # 10)].

Record ordering := mkOrdering { or_claim : string; or_rationale : string; or_source : string }.
Definition EXPECTED_QUALITATIVE_ORDERINGS : list ordering :=
  [mkOrdering "ML-DSA-65 verification is faster than ML-DSA-65 signing"
     "ML-DSA signing uses Fiat-Shamir with Aborts: rejection sampling means signing repeats until a norm check passes (expected ~5.1 iterations at security level 3), while verification is single-pass and deterministic."
     "FIPS 204 Sec. 6; Benchmarking ML-KEM/ML-DSA on Cortex-M0+, arXiv:2603.19340, Sec. IV-B (signing variance, deterministic verification).";
   mkOrdering "ML-DSA-65 signatures are roughly 50x larger than ECDSA P-256 signatures"
     "3309 bytes vs 64 bytes raw = 51.7x."
     "FIPS 204 Table 2 vs SEC 1 ECDSA P-256.";
   mkOrdering "ML-KEM-768 key generation is faster than RSA-2048 key generation"
     "RSA keygen requires probabilistic prime search; ML-KEM keygen is deterministic-time polynomial arithmetic. This is the mechanism behind PQ-Shield's availability finding at high concurrency."
     "A Practical Performance Benchmark of Post-Quantum Cryptography Across Heterogeneous Computing Environments, Cryptography 9(1):12, 2025."].

(** ** Checks on the tables *)
(** [a / b if b else None]. *)
Definition ratio (a b : Q) : val := if Qeq_bool b 0 then VNone else VFloat (a / b)%Q.

Definition ordering_row (claim : string) (holds : bool) (evidence : dict) (rationale source : string) : dict :=
  [("claim", VStr claim); ("holds", VBool holds); ("evidence", VDict evidence);
   ("rationale", VStr rationale); ("source", VStr source)].

Definition check_orderings (kem sig classical : list (string * op_stats)) : result (list dict) :=
  let? o0 := getitem_at EXPECTED_QUALITATIVE_ORDERINGS 0 in
  let? verify := getitem "verify" sig in
  let? sign := getitem "sign" sig in
  let? o2 := getitem_at EXPECTED_QUALITATIVE_ORDERINGS 2 in
  let? keygen := getitem "keygen" kem in
  let? rsa := getitem "rsa2048_keygen" classical in
  let? ec_verify := getitem "ecdsa_p256_verify" classical in
  Ok [ordering_row (or_claim o0) (Qltb (mean_us verify) (mean_us sign))
        [("ml_dsa_65_sign_mean_us", VFloat (mean_us sign));
         ("ml_dsa_65_verify_mean_us", VFloat (mean_us verify));
         ("sign_p99_us", VFloat (p99_us sign));
         ("sign_p99_over_median", ratio (p99_us sign) (median_us sign))]
        (or_rationale o0) (or_source o0);
      ordering_row (or_claim o2) (Qltb (mean_us keygen) (mean_us rsa))
        [("ml_kem_768_keygen_mean_us", VFloat (mean_us keygen));
         ("rsa2048_keygen_mean_us", VFloat (mean_us rsa));
         ("speedup_factor", ratio (mean_us rsa) (mean_us keygen));
         ("speedup_factor_median", ratio (median_us rsa) (median_us keygen));
         ("rsa2048_keygen_iterations", VInt (iterations rsa))]
        (or_rationale o2) (or_source o2);
      ordering_row "ML-DSA-65 verification is not slower than ECDSA P-256 verification (H4)"
        (Qle_bool (mean_us verify) (mean_us ec_verify))
        [("ml_dsa_65_verify_mean_us", VFloat (mean_us verify));
         ("ecdsa_p256_verify_mean_us", VFloat (mean_us ec_verify));
         ("ratio_mldsa_over_ecdsa", ratio (mean_us verify) (mean_us ec_verify))]
        "This is PQ-Shield's own H4. It is listed here as a primitive-level check so the application-level result can be corroborated at the algorithm level on the same host."
        "PQ-Shield docs/DESIGN.md H4; cf. Schemitt et al. (2025) on ML-DSA verification speed."].

(** One published figure beside this host's; [None / x] raises. *)
Definition calibration_row (kem : list (string * op_stats)) (pub : PublishedThroughput) : result (list dict) :=
  match dget (pub_operation pub) kem with
  | None => Ok []
  | Some s =>
      let measured := ops_per_second s in
      let? relative :=
        if Qeq_bool (pub_ops_per_second pub) 0 then Ok VNone
        else match measured with
             | Some m => Ok (VFloat (m / pub_ops_per_second pub)%Q)
             | None => Raise (TypeError "unsupported operand type(s) for /: 'NoneType' and 'float'")
             end in
      Ok [[("algorithm", VStr (pub_algorithm pub)); ("operation", VStr (pub_operation pub));
           ("this_host_ops_per_second", opt_float measured);
           ("published_platform", VStr (pub_platform pub));
           ("published_ops_per_second", VFloat (pub_ops_per_second pub));
           ("this_host_relative_speed", relative); ("source", VStr (pub_source pub))]]
  end.

Definition calibration_vs_published (kem : list (string * op_stats)) : result (list dict) :=
  let? rows := rmap (calibration_row kem) PUBLISHED_THROUGHPUT in Ok (concat rows).

(** ** Cold starts *)
Record completed := mkCompleted { returncode : Z; stdout : string; stderr : string }.

Definition _COLD_START_ECDSA_SCRIPT (message_bytes : Z) : string :=
  let nl := String (Ascii.ascii_of_nat 10) "" in
  nl +:+ "import os, time" +:+ nl
  +:+ "from cryptography.hazmat.primitives.asymmetric import ec" +:+ nl
  +:+ "from cryptography.hazmat.primitives import hashes" +:+ nl
  +:+ "key = ec.generate_private_key(ec.SECP256R1())" +:+ nl
  +:+ "msg = os.urandom(" +:+ pretty.pretty message_bytes +:+ ")" +:+ nl
  +:+ "t0 = time.perf_counter()" +:+ nl
  +:+ "key.sign(msg, ec.ECDSA(hashes.SHA256()))" +:+ nl
  +:+ "print((time.perf_counter() - t0) * 1e3)" +:+ nl.

(** [oqs_lib] with [repr] already applied. *)
Definition _COLD_START_ML_DSA_SCRIPT (message_bytes : Z) (oqs_lib : string) : string :=
  let nl := String (Ascii.ascii_of_nat 10) "" in
  let quote := String (Ascii.ascii_of_nat 34) "" in
  nl +:+ "import os, time" +:+ nl
  +:+ "os.environ.setdefault(" +:+ quote +:+ "PQ_SHIELD_OQS_LIB" +:+ quote +:+ ", " +:+ oqs_lib +:+ ")" +:+ nl
  +:+ "from crypto.oqs_adapter import MLDSA65" +:+ nl
  +:+ "kp = MLDSA65.keypair()" +:+ nl
  +:+ "msg = os.urandom(" +:+ pretty.pretty message_bytes +:+ ")" +:+ nl
  +:+ "t0 = time.perf_counter()" +:+ nl
  +:+ "MLDSA65.sign(msg, kp.secret_key)" +:+ nl
  +:+ "print((time.perf_counter() - t0) * 1e3)" +:+ nl.

Record cold_stats := mkColdStats {
  n_processes : Z; cold_message_bytes : Z; cold_mean_ms : Q; cold_median_ms : Q;
  cold_min_ms : Q; cold_max_ms : Q; samples_ms : list Q }.

Section ColdStart.
Context {S : Type}.
(** [subprocess.run([sys.executable, "-c", script], ...)], the environment and
    the file system. *)
Variable run_script : string -> M S completed.
Variables (environ : list (string * string)) (isfile : string -> bool) (repo : string).
Variable py_repr : string -> string.

Definition _locate_oqs_lib_for_subprocess : string :=
  match dget "PQ_SHIELD_OQS_LIB" environ with
  | Some (String c s) => String c s
  | _ =>
      let path candidate := repo +:+ "/oqs-prefix/lib/" +:+ candidate in
      match List.find isfile (map path ["liboqs.so"; "liboqs.dylib"]) with
      | Some p => p
      | None => ""
      end
  end.

(** One process of [_run]. *)
Definition cold_sample (script : string) : M S Q :=
  let* result := run_script script in
  if negb (returncode result =? 0)
  then raise (RuntimeError ("Cold-start subprocess failed: " +:+ stderr result))
  else of_result (float_of_str (PyVal.strip (stdout result))).

Definition cold_run (script : string) (n : Z) : M S (list Q) := times n (cold_sample script).

Definition cold_stats_of (message_bytes : Z) (samples : list Q) : result cold_stats :=
  let? mean := fmean samples in
  let? med := median samples in
  match samples with
  | [] => Raise (ValueError "min() arg is an empty sequence")
  | x :: r => Ok (mkColdStats (py_len samples) message_bytes mean med (Qminimum x r) (Qmaximum x r) samples)
  end.

Definition bench_cold_start_signing (n message_bytes : Z) : M S (list (string * cold_stats)) :=
  let oqs_lib := _locate_oqs_lib_for_subprocess in
  let* ecdsa_samples := cold_run (_COLD_START_ECDSA_SCRIPT message_bytes) n in
  let* ml_dsa_samples := cold_run (_COLD_START_ML_DSA_SCRIPT message_bytes (py_repr oqs_lib)) n in
  let* e := of_result (cold_stats_of message_bytes ecdsa_samples) in
  let* m := of_result (cold_stats_of message_bytes ml_dsa_samples) in
  ret [("ecdsa_p256_sign", e); ("ml_dsa_65_sign", m)].
End ColdStart.

(** ** [run_all] *)
Record bench_report := mkBenchReport {
  br_iterations : Z; br_host : dict; br_ml_kem_768 : list (string * op_stats);
  br_ml_dsa_65 : list (string * op_stats); br_classical : list (string * op_stats);
  br_orderings : list dict; br_calibration : list dict;
  br_cold_start : option (list (string * cold_stats)) }.

Section RunAll.
Context {E : Env} {P : Prims}.
Variables (sqrt : Q -> Q) (host : dict) (run_script : string -> M world completed).
Variables (environ : list (string * string)) (isfile : string -> bool) (repo : string).
Variable py_repr : string -> string.

Definition run_all (n cold_start_processes : Z) (rsa_keygen_iterations : option Z) : M world bench_report :=
  let* kem := bench_ml_kem_768 sqrt n in
  let* sig := bench_ml_dsa_65 sqrt n in
  let* classical := bench_classical sqrt n rsa_keygen_iterations in
  let* orderings := of_result (check_orderings kem sig classical) in
  let* calibration := of_result (calibration_vs_published kem) in
  let* cold := if 0 <? cold_start_processes
               then let* c := bench_cold_start_signing run_script environ isfile repo py_repr
                                cold_start_processes 2500 in ret (Some c)
               else ret None in
  ret (mkBenchReport n host kem sig classical orderings calibration cold).
End RunAll.

(** ** The contention check's [_measure] *)
Section Contention.
Context {E : Env} {P : Prims}.

Definition CONTENTION_MESSAGE : bytes := replicate 64 Byte.x78.
Definition SCHEMES : list (string * string) := [("ECDSA-P256", "hybrid"); ("ML-DSA-65", "full_pqc")].

Record contention_row := mkContentionRow {
  ct_phase : string; ct_config : string; ct_i : Z; sign_wall_ms : val; sign_cpu_ms : val;
  verify_wall_ms : val; verify_cpu_ms : val }.

Context {S : Type} {Srv : ServerCryptoConfig S} {Cli : ClientCryptoConfig}.
(** [_busy_wait(gap_s)] or [time.sleep(gap_s)]. *)
Variable wait_gap : M world unit.

(** One turn of the loop: a row once the 20 warm-up calls are over. *)
Definition measure_turn (config phase : string) (gap : bool) (bundle : HandshakeBundle) (i : Z)
    : M (world * S) (list contention_row) :=
  (if gap && (20 <=? i) then on_fst wait_gap else ret tt) ;;;
  let* signed := sign (handshake_id bundle) CONTENTION_MESSAGE in
  let '(sig, smeta) := signed in
  let* checked := on_fst (verify CONTENTION_MESSAGE sig (hb_sig_public_key bundle)) in
  let '(ok, vmeta) := checked in
  if negb ok then raise (AssertionError "")
  else if i <? 20 then ret []
  else
    let* sw := of_result (getitem "sign_ms" smeta) in
    let* sc := of_result (getitem "sign_cpu_ms" smeta) in
    let* vw := of_result (getitem "verify_ms" vmeta) in
    let* vc := of_result (getitem "verify_cpu_ms" vmeta) in
    ret [mkContentionRow phase config (i - 20) sw sc vw vc].

Definition measure_with (config : string) (n : Z) (phase : string) (gap : bool)
    : M (world * S) (list contention_row) :=
  let* bundle := new_handshake None in
  let* rows := mmap (measure_turn config phase gap bundle) (seqZ 0 (n + 20)) in
  forget (handshake_id bundle) ;;;
  ret (concat rows).
End Contention.

(** [get_server_crypto(config)] makes a new server, [get_client_crypto(config)]
    its client half. *)
Definition _measure {E : Env} {P : Prims} (wait_gap : M world unit)
    (config : string) (n : Z) (phase : string) (gap : bool) : M world (list contention_row) := fun w =>
  match get_crypto config with
  | Raise e => (Raise e, w)
  | Ok c =>
      let '(r, (w', _)) := measure_with (Srv := cfg_server c) (Cli := cfg_client c) wait_gap
                             config n phase gap (w, server_init (ServerCryptoConfig := cfg_server c)) in
      (r, w')
  end.
