(* ===== verification/PrimitiveBenchProps.v ===== *)
(** * What the micro-benchmark's numbers mean *)
From stdpp Require Import sorting.
From Stdlib Require Import Qround Lqa.
From S2P Require Import Prelude PyBytes PyVal World PyList PyNum Instrumentation OqsAdapter.
From S2P Require Import Base Configs ConfigsLaws Aggregate PrimitiveBench.

(** ** Positions in a sorted list *)
Lemma sorted_le (l : list Q) i j x y :
  Sorted Qle l -> (i <= j)%nat -> l !! i = Some x -> l !! j = Some y -> (x <= y)%Q.
Proof.
  intros Hs. apply Sorted_StronglySorted in Hs; [|exact Qle_transitive]. revert i j.
  induction Hs as [|a l Hs IH Ha]; intros i j Hij Hi Hj; [done|].
  destruct i as [|i], j as [|j]; simpl in *; try lia.
  - rewrite Hi in Hj. injection Hj as ->. apply Qle_refl.
  - injection Hi as ->. rewrite Forall_lookup in Ha. by eapply Ha.
  - apply (IH i j); [lia|done|done].
Qed.

(** Two sorted arrangements agree position by position. *)
Lemma sorted_perm_le (s s' : list Q) k x y :
  Sorted Qle s -> Sorted Qle s' -> Permutation s s' ->
  s !! k = Some x -> s' !! k = Some y -> (y <= x)%Q.
Proof.
  intros Hs Hs' Hp Hx Hy. destruct (Qlt_le_dec x y) as [Hlt|Hle]; [|done]. exfalso.
  set (small := fun q => Qle_bool q x).
  assert (H1 : List.filter small (take (S k) s) = take (S k) s).
  { apply forallb_filter_id, forallb_forall. intros q Hq. apply list_elem_of_In in Hq.
    apply elem_of_take in Hq as (i & Hi & Hik). apply Qle_bool_iff.
    apply (sorted_le s i k); [done|lia|done|done]. }
  assert (H2 : List.filter small (drop k s') = []).
  { destruct (List.filter small (drop k s')) as [|q r] eqn:Hf; [done|].
    assert (Hq : In q (List.filter small (drop k s'))) by (rewrite Hf; by left).
    apply filter_In in Hq as [Hin Hle]. apply list_elem_of_In in Hin.
    apply list_elem_of_lookup_1 in Hin as [i Hi]. rewrite lookup_drop in Hi.
    apply Qle_bool_iff in Hle. pose proof (sorted_le s' k (k + i) y q Hs' ltac:(lia) Hy Hi). lra. }
  pose proof (Permutation_length (filter_Permutation small _ _ Hp)) as Hl.
  rewrite <- (take_drop (S k) s), <- (take_drop k s'), !List.filter_app, H1, H2, app_nil_r in Hl.
  pose proof (filter_length_le small (take k s')) as Hle.
  rewrite length_app, !length_take in *. apply lookup_lt_Some in Hx, Hy. lia.
Qed.

Lemma Qfloor_part n p q : Qfloor (inject_Z n * (p # q)) = n * p / Zpos q.
Proof. reflexivity. Qed.

Lemma getitem_at_lookup {A} (l : list A) (i : Z) x :
  0 <= i -> getitem_at l i = Ok x -> l !! Z.to_nat i = Some x.
Proof.
  unfold getitem_at. cbv zeta. intros Hi. rewrite !(proj2 (Z.ltb_ge i 0)) by lia.
  destruct (l !! Z.to_nat i); [|done]. by intros [= ->].
Qed.
Lemma getitem_at_last {A} (l : list A) (i : Z) x :
  i = -1 -> getitem_at l i = Ok x -> l !! (length l - 1)%nat = Some x.
Proof.
  intros -> H. unfold getitem_at, py_len in H. destruct l as [|a l]; [done|].
  cbn [Z.ltb Z.compare] in H. cbv zeta in H.
  rewrite (proj2 (Z.ltb_ge (-1 + Z.of_nat (length (a :: l))) 0)) in H by (simpl; lia).
  replace (Z.to_nat (-1 + Z.of_nat (length (a :: l)))) with (length (a :: l) - 1)%nat in H by lia.
  destruct ((a :: l) !! _); [|done]. by injection H as ->.
Qed.

(** The position of a quantile: the last one for a single sample. *)
Lemma quantile_at_lookup q s x :
  quantile_at q s = Ok x ->
  let i := Qfloor (inject_Z (py_len s) * q) - 1 in
  (0 <= i -> s !! Z.to_nat i = Some x) /\ (i = -1 -> s !! (length s - 1)%nat = Some x).
Proof.
  intros H i. split; intros Hi; [by apply getitem_at_lookup|by eapply getitem_at_last].
Qed.

(** The median lies between the first and the upper middle sample. *)
Lemma median_between s m lo hi :
  Sorted Qle s -> median s = Ok m -> s !! 0%nat = Some lo -> s !! (length s / 2)%nat = Some hi ->
  (lo <= m <= hi)%Q.
Proof.
  intros Hs Hm Hlo Hhi. pose proof (Qsorted_perm s) as Hp. pose proof (Qsorted_sorted s) as Hs'.
  pose proof (Permutation_length Hp) as Hl.
  assert (Hat : forall k, (k < length s)%nat -> exists y, Qsorted s !! k = Some y
                  /\ nth k (Qsorted s) 0%Q = y /\ (lo <= y)%Q).
  { intros k Hk. destruct (lookup_lt_is_Some_2 (Qsorted s) k) as [y Hy]; [lia|]. exists y.
    split; [done|]. split; [by apply nth_lookup_Some|].
    assert (Hin : y ∈ s) by (rewrite <- Hp; by eapply list_elem_of_lookup_2).
    apply list_elem_of_lookup_1 in Hin as [i Hi]. apply (sorted_le s 0 i); [done|lia|done|done]. }
  assert (Hpos : (0 < length s)%nat) by (by apply lookup_lt_Some in Hlo).
  assert (Hmid : (length s / 2 < length s)%nat) by (apply Nat.div_lt; lia).
  destruct (Hat _ Hmid) as (y & Hy & Ny & Ly).
  pose proof (sorted_perm_le _ _ _ _ _ Hs Hs' (Permutation_sym Hp) Hhi Hy) as Hyh.
  unfold median in Hm. rewrite Hl in Hm. destruct (length s) as [|n] eqn:Hn; [lia|].
  destruct (Nat.odd (S n)) eqn:Hodd.
  - rewrite Ny in Hm. injection Hm as <-. done.
  - destruct (Hat (S n / 2 - 1)%nat) as (z & Hz & Nz & Lz); [lia|].
    pose proof (sorted_le _ (S n / 2 - 1) (S n / 2) _ _ Hs' ltac:(lia) Hz Hy) as Hzy.
    rewrite Ny, Nz in Hm. injection Hm as <-. split.
    + apply Qle_shift_div_l; [done|]. lra.
    + apply Qle_shift_div_r; [done|]. lra.
Qed.

(** [fmean] of sorted samples. *)
Lemma fmean_between s m lo hi :
  Sorted Qle s -> fmean s = Ok m -> s !! 0%nat = Some lo -> s !! (length s - 1)%nat = Some hi ->
  (lo <= m <= hi)%Q.
Proof.
  intros Hs Hm Hlo Hhi. destruct s as [|x r]; [done|]. injection Hm as <-.
  apply Qmean_bounds; [done|]. apply Forall_lookup. intros i y Hy. pose proof (lookup_lt_Some _ _ _ Hy).
  split; [by apply (sorted_le (x :: r) 0 i); [|lia|..]|].
  by apply (sorted_le (x :: r) i (length (x :: r) - 1)); [|simpl in *; lia|..].
Qed.

Section TimeOp.
Context {E : Env} {EL : EnvLaws E}.
Variable sqrt : Q -> Q.

(** The statistics of [n] samples, none negative. *)
Definition ordered_stats (n : Z) (st : op_stats) : Prop :=
  (0 <= min_us st)%Q /\ (min_us st <= mean_us st <= max_us st)%Q
  /\ (min_us st <= median_us st <= max_us st)%Q
  /\ (n <> 2 -> (median_us st <= p95_us st)%Q /\ (p95_us st <= p99_us st)%Q /\ (p99_us st <= max_us st)%Q)
  /\ (n = 2 -> p95_us st = min_us st /\ p99_us st = min_us st)
  /\ forall ops, ops_per_second st = Some ops -> (0 < mean_us st)%Q /\ (ops * mean_us st == 1000000)%Q.

Lemma stats_of_samples_ordered n samples st :
  n = py_len samples -> Forall (fun x => 0 <= x)%Q samples ->
  stats_of_samples sqrt n samples = Ok st -> ordered_stats n st.
Proof.
  intros Hn Hpos. unfold stats_of_samples.
  pose proof (Qsorted_sorted samples) as Hs. pose proof (Qsorted_perm samples) as Hp.
  assert (Hlen : py_len (Qsorted samples) = n) by (unfold py_len in *; by rewrite Hp).
  assert (Hpos' : Forall (fun x => 0 <= x)%Q (Qsorted samples)) by (by rewrite Hp).
  revert Hs Hlen Hpos'. generalize (Qsorted samples) as s. clear Hp Hpos Hn samples.
  intros s Hs Hlen Hpos.
  destruct (fmean s) as [mean|] eqn:Hmean; [|done]. destruct (median s) as [med|] eqn:Hmed; [|done].
  destruct (quantile_at (95 # 100) s) as [p95|] eqn:H95; [|done].
  destruct (quantile_at (99 # 100) s) as [p99|] eqn:H99; [|done].
  destruct (getitem_at s 0) as [lo|] eqn:Hlo; [|done].
  destruct (getitem_at s (-1)) as [hi|] eqn:Hhi; [|done]. cbn [rbind]. intros H. injection H as <-.
  apply getitem_at_lookup in Hlo; [|done]. change (Z.to_nat 0) with 0%nat in Hlo.
  apply getitem_at_last in Hhi; [|done].
  pose proof (lookup_lt_Some _ _ _ Hlo) as Hne. unfold py_len in Hlen.
  destruct (lookup_lt_is_Some_2 s (length s / 2)) as [mid Hmid]; [apply Nat.div_lt; lia|].
  pose proof (median_between _ _ _ _ Hs Hmed Hlo Hmid) as [Hml Hmm].
  apply quantile_at_lookup in H95, H99. rewrite !Qfloor_part in H95, H99. unfold py_len in H95, H99.
  assert (Hz2 : Z.of_nat (length s / 2) = n / 2) by (rewrite Nat2Z.inj_div, Hlen; reflexivity).
  assert (Hhalf : (length s / 2 <= length s - 1)%nat)
    by (pose proof (Nat.div_lt (length s) 2 ltac:(lia) ltac:(lia)); lia).
  pose proof (sorted_le _ _ _ _ _ Hs Hhalf Hmid Hhi) as Hmh.
  unfold ordered_stats; cbn [min_us mean_us max_us median_us p95_us p99_us ops_per_second].
  split_and!.
  - rewrite Forall_lookup in Hpos. by eapply Hpos.
  - by apply (fmean_between s mean lo hi).
  - by apply (fmean_between s mean lo hi).
  - done.
  - lra.
  - intros Hn. assert (n = 1 \/ 3 <= n) as [->|Hn3] by lia.
    + assert (length s = 1)%nat as L by lia. rewrite L in *. destruct H95 as [_ H95], H99 as [_ H99].
      specialize (H95 eq_refl). specialize (H99 eq_refl). simpl in *. rewrite Hlo in *.
      injection Hhi as ->. injection H95 as ->. injection H99 as ->. injection Hmid as ->.
      split_and!; try apply Qle_refl; done.
    + destruct H95 as [H95 _], H99 as [H99 _]. rewrite Hlen in H95, H99.
      assert (0 <= n * 95 / 100 - 1 /\ n * 95 / 100 <= n * 99 / 100 /\ n * 99 / 100 <= n
              /\ n / 2 <= n * 95 / 100 - 1) as (B1 & B2 & B3 & B4) by (Z.to_euclidean_division_equations; lia).
      specialize (H95 B1). specialize (H99 ltac:(lia)). split_and!.
      * transitivity mid; [done|]. eapply sorted_le; [exact Hs| |exact Hmid|exact H95]. lia.
      * eapply sorted_le; [exact Hs| |exact H95|exact H99]. lia.
      * eapply sorted_le; [exact Hs| |exact H99|exact Hhi]. lia.
  - intros ->. destruct H95 as [H95 _], H99 as [H99 _]. rewrite Hlen in H95, H99.
    change (2 * 95 / 100 - 1) with 0 in H95. change (2 * 99 / 100 - 1) with 0 in H99.
    specialize (H95 ltac:(lia)). specialize (H99 ltac:(lia)). change (Z.to_nat 0) with 0%nat in *.
    rewrite Hlo in *. injection H95 as ->. by injection H99 as ->.
  - intros ops. unfold Qltb. destruct (Qle_bool mean 0) eqn:Hm; [done|]. intros [= <-].
    assert (0 < mean)%Q as Hp. { apply Qnot_le_lt. intros Hc. apply Qle_bool_iff in Hc. congruence. }
    split; [done|]. field. intros Hz. rewrite Hz in Hp. by apply Qlt_irrefl in Hp.
Qed.

Lemma rbind_inv {B C} (m : result B) (k : B -> result C) c :
  rbind m k = Ok c -> exists b, m = Ok b /\ k b = Ok c.
Proof. destruct m as [b|]; simpl; [eauto|done]. Qed.

Lemma stats_of_samples_n n samples st : stats_of_samples sqrt n samples = Ok st -> iterations st = n.
Proof.
  unfold stats_of_samples. do 6 (intros (? & _ & H)%rbind_inv; revert H). by intros [= <-].
Qed.

(** Some positions a list always answers. *)
Lemma getitem_at_in {A} (l : list A) i :
  l <> [] -> -1 <= i < py_len l -> exists x, getitem_at l i = Ok x.
Proof.
  intros Hne Hi. unfold getitem_at, py_len in *. assert (0 < length l)%nat by (destruct l; [done|simpl; lia]).
  set (j := if i <? 0 then _ else i). assert (Hj : 0 <= j < Z.of_nat (length l)).
  { unfold j. destruct (Z.ltb_spec i 0); lia. }
  rewrite (proj2 (Z.ltb_ge j 0)) by lia.
  destruct (lookup_lt_is_Some_2 l (Z.to_nat j)) as [x ->]; [lia|eauto].
Qed.

Lemma stats_of_samples_total n samples :
  samples <> [] -> exists st, stats_of_samples sqrt n samples = Ok st.
Proof.
  intros Hne. unfold stats_of_samples.
  assert (Hs : Qsorted samples <> []).
  { intros H. pose proof (Qsorted_perm samples) as Hp. rewrite H in Hp.
    by apply Permutation_nil_l in Hp. }
  revert Hs. generalize (Qsorted samples) as s. intros s Hs.
  assert (Hpos : 1 <= py_len s) by (unfold py_len; destruct s; [done|simpl; lia]).
  assert (Hq : forall p, (p <= 100)%positive -> exists x, quantile_at (Zpos p # 100) s = Ok x).
  { intros p Hp. unfold quantile_at. apply getitem_at_in; [done|]. rewrite Qfloor_part.
    split; [|]; Z.to_euclidean_division_equations; nia. }
  destruct (median_nonempty s Hs) as [m Hm].
  destruct (Hq 95%positive) as [p95 H95]; [done|]. destruct (Hq 99%positive) as [p99 H99]; [done|].
  destruct (getitem_at_in s 0 Hs) as [lo Hlo]; [lia|].
  destruct (getitem_at_in s (-1) Hs) as [hi Hhi]; [lia|].
  assert (Hf : fmean s = Ok (Qmean s)) by (by destruct s).
  rewrite Hf, Hm, H95, H99, Hlo, Hhi. cbn [rbind]. eauto.
Qed.

Section Sampled.
Context {A : Type} (fn : M world A).
(** [fn] does not turn the clock back. *)
Hypothesis Hfwd : forall w r w', fn w = (r, w') -> (tick w <= tick w')%nat.

Lemma timed_call_sample w x w' :
  timed_call fn w = (Ok x, w') -> (0 <= x)%Q.
Proof.
  unfold timed_call. intros H. apply bind_inv_Ok in H as (t0 & w1 & H0 & H).
  apply bind_inv_Ok in H as (a & w2 & H1 & H). apply bind_inv_Ok in H as (t1 & w3 & H2 & H).
  injection H as <- _. injection H0 as <- <-. injection H2 as <- _. apply Hfwd in H1.
  apply Qmult_le_0_compat; [|done]. apply (Qle_minus_iff (env_perf_counter (tick w)) _).
  apply perf_counter_mono. simpl in H1. lia.
Qed.

Lemma times_samples n w xs w' :
  times n (timed_call fn) w = (Ok xs, w') -> length xs = Z.to_nat n /\ Forall (fun x => 0 <= x)%Q xs.
Proof.
  intros H. apply (mmap_Forall2 _ (fun _ x => 0 <= x)%Q) in H.
  - split; [by rewrite <- (Forall2_length _ _ _ H), length_seqZ|].
    induction H as [|i x l xs Hx _ IH]; by constructor.
  - intros _ s b s' Hb. by eapply timed_call_sample.
Qed.

Hypothesis Hok : forall w, exists a w', fn w = (Ok a, w').

Lemma times_total {B} (g : M world B) n w :
  (forall w, exists a w', g w = (Ok a, w')) -> exists xs w', times n g w = (Ok xs, w').
Proof.
  intros Hg. unfold times. revert w. induction (seqZ 0 n) as [|i l IH]; intros w; [by eexists _, _|].
  destruct (Hg w) as (a & w1 & H1). destruct (IH w1) as (xs & w2 & H2). cbn [mmap].
  rewrite (bind_Ok _ _ _ _ _ H1), (bind_Ok _ _ _ _ _ H2). by eexists _, _.
Qed.
End Sampled.
End TimeOp.

(** C31: What the statistics of a timed operation mean.  An operation that
    never fails is measured for every positive number of iterations, and for
    none the measurement raises [StatisticsError].  The numbers returned
    satisfy 0 <= min <= mean, median <= max, and median <= p95 <= p99 <= max
    -- except for exactly two iterations, where both percentiles are the
    minimum -- and a throughput is given only for a positive mean, whose
    inverse it is. *)
Theorem time_op_statistics {E : Env} {EL : EnvLaws E} (sqrt : Q -> Q) {A} (fn : M world A)
    (n warmup : Z) (w : world)
    (Hfwd : forall w r w', fn w = (r, w') -> (tick w <= tick w')%nat)
    (Hok : forall w, exists a w', fn w = (Ok a, w')) :
  (n <= 0 -> exists w', _time_op sqrt fn n warmup w
     = (Raise (StatisticsError "fmean requires at least one data point"), w'))
  /\ (0 < n -> exists st w', _time_op sqrt fn n warmup w = (Ok st, w')
        /\ iterations st = n /\ ordered_stats n st).
Proof.
  destruct (times_total fn warmup w Hok) as (ws & w1 & H1).
  assert (Htc : forall w, exists a w', timed_call fn w = (Ok a, w')).
  { intros w0. destruct (Hok (advance w0)) as (a & w2 & H2). unfold timed_call, bind. simpl.
    rewrite H2. by eexists _, _. }
  destruct (times_total (timed_call fn) n w1 Htc) as (xs & w2 & H2).
  destruct (times_samples fn Hfwd n w1 xs w2 H2) as [Hlen Hpos].
  unfold _time_op. rewrite (bind_Ok _ _ _ _ _ H1), (bind_Ok _ _ _ _ _ H2). split; intros Hn.
  - assert (xs = []) as -> by (destruct xs; [done|simpl in Hlen; lia]). by eexists.
  - assert (Hxs : xs <> []) by (intros ->; simpl in Hlen; lia).
    destruct (stats_of_samples_total sqrt n xs Hxs) as [st Hst]. exists st, w2. unfold of_result.
    rewrite Hst. split; [done|]. split.
    + by eapply stats_of_samples_n.
    + apply (stats_of_samples_ordered sqrt n xs); [unfold py_len; lia|done|done].
Qed.

(** ** The contention check *)
Section Contention.
Context {E : Env} {P : Prims} {EL : EnvLaws E} {PL : PrimLaws P}.
Context {S : Type} {Srv : ServerCryptoConfig S} {Cli : ClientCryptoConfig} {L : ConfigLaws Srv Cli}.
Variables (wait_gap : M world unit) (config phase : string) (gap : bool).
Hypothesis Hwait : forall w, exists w', wait_gap w = (Ok tt, w').

(** A row of the measurement: numbers, under the phase it was asked for. *)
Definition measured (i : Z) (r : contention_row) : Prop :=
  ct_i r = i - 20 /\ ct_phase r = phase /\ ct_config r = config
  /\ exists sw sc vw vc, sign_wall_ms r = VFloat sw /\ sign_cpu_ms r = VFloat sc
       /\ verify_wall_ms r = VFloat vw /\ verify_cpu_ms r = VFloat vc.

Lemma measure_turn_run b s i w :
  live s (handshake_id b) (kex_public_key b) (hb_sig_public_key b) ->
  exists rows w', measure_turn wait_gap config phase gap b i (w, s) = (Ok rows, (w', s))
    /\ if i <? 20 then rows = [] else exists r, rows = [r] /\ measured i r.
Proof.
  intros Hl.
  assert (exists w1, (if gap && (20 <=? i) then on_fst wait_gap else ret tt) (w, s)
                            = (Ok tt, (w1, s))) as [w1 H1].
  { destruct (gap && (20 <=? i)); [|by eexists]. destruct (Hwait w) as [w1 H1].
    exists w1. by apply on_fst_Ok. }
  destruct (sign_verifies s _ _ _ CONTENTION_MESSAGE w1 Hl)
    as (sig & smeta & w2 & Hs & ([sw Hsw] & _ & _ & [sc Hsc]) & _ & Ha).
  destruct (Ha w2) as (vmeta & w3 & Hv & [vw Hvw] & _ & [vc Hvc]).
  unfold measure_turn. rewrite (bind_Ok _ _ _ _ _ H1), (bind_Ok _ _ _ _ _ Hs).
  rewrite (bind_Ok _ _ _ _ _ (on_fst_Ok _ _ s _ _ Hv)). cbn [negb].
  destruct (Z.ltb_spec i 20); [by eexists _, _|].
  unfold bind, of_result, getitem. rewrite Hsw, Hsc, Hvw, Hvc. eexists _, w3.
  split; [reflexivity|]. eexists. split; [reflexivity|]. split; [done|]. eauto 10.
Qed.

Lemma measure_turns b s l w :
  live s (handshake_id b) (kex_public_key b) (hb_sig_public_key b) ->
  exists rows w', mmap (measure_turn wait_gap config phase gap b) l (w, s) = (Ok rows, (w', s))
    /\ Forall2 measured (List.filter (fun i => negb (i <? 20)) l) (concat rows).
Proof.
  intros Hl. revert w. induction l as [|i l IH]; intros w; [by exists [], w|]. cbn [mmap List.filter].
  destruct (measure_turn_run b s i w Hl) as (rs & w1 & H1 & Hrs).
  destruct (IH w1) as (rows & w2 & H2 & HF).
  rewrite (bind_Ok _ _ _ _ _ H1), (bind_Ok _ _ _ _ _ H2). eexists _, w2. split; [reflexivity|].
  destruct (i <? 20); cbn [negb concat].
  - by rewrite Hrs.
  - destruct Hrs as (r & -> & Hr). by constructor.
Qed.
End Contention.

(** The positions after the warm-up. *)
Lemma after_warm_up n :
  List.filter (fun i => negb (i <? 20)) (seqZ 0 (n + 20)) = map (Z.add 20) (seqZ 0 n).
Proof.
  destruct (Z_lt_le_dec n 0) as [Hn|Hn].
  - rewrite (seqZ_nil 0 n) by lia. simpl.
    destruct (List.filter _ _) as [|i r] eqn:Hf; [done|].
    assert (Hi : In i (i :: r)) by (by left). rewrite <- Hf in Hi. apply filter_In in Hi as [Hi Hneg].
    apply list_elem_of_In, elem_of_seqZ in Hi. destruct (Z.ltb_spec i 20); [done|lia].
  - rewrite (Z.add_comm n 20), seqZ_app, List.filter_app by lia.
    change (List.filter _ (seqZ 0 20)) with (@nil Z). cbn [app]. rewrite fmap_add_seqZ.
    apply forallb_filter_id, forallb_forall. intros i Hi. apply list_elem_of_In, elem_of_seqZ in Hi.
    destruct (Z.ltb_spec i 20); [lia|done].
Qed.

(** The contention check measures exactly what it was asked to: for every
    registered configuration, [_measure] with [n] samples never fails, signs
    20 times more than it reports, and returns one row for each of the
    indexes 0, ..., n-1 in order -- none for a negative [n] -- each with the
    phase and the configuration asked for and four numbers; every signature
    it took verified. *)
Theorem contention_rows {E : Env} {P : Prims} {EL : EnvLaws E} {PL : PrimLaws P}
    (wait_gap : M world unit) (config phase : string) (c : Configs.config) (n : Z) (gap : bool) (w : world)
    (Hc : get_crypto config = Ok c)
    (Hwait : forall w, exists w', wait_gap w = (Ok tt, w')) :
  exists rows w', _measure wait_gap config n phase gap w = (Ok rows, w')
    /\ Forall2 (fun i r => measured config phase (20 + i) r) (seqZ 0 n) rows
    /\ map ct_i rows = seqZ 0 n.
Proof.
  destruct (get_crypto_laws config c Hc) as [L]. unfold _measure. rewrite Hc.
  unfold measure_with.
  destruct (@new_handshake_ok _ _ _ L w (server_init (ServerCryptoConfig := cfg_server c)) None)
    as (b & w1 & s1 & Hn & Hl & _).
  destruct (measure_turns (L := L) wait_gap config phase gap Hwait b s1 (seqZ 0 (n + 20)) w1 Hl)
    as (rows & w2 & Hr & HF).
  destruct (@forget_ok _ _ _ L w2 s1 (handshake_id b)) as (s2 & Hf & _).
  rewrite (bind_Ok _ _ _ _ _ Hn), (bind_Ok _ _ _ _ _ Hr), (bind_Ok _ _ _ _ _ Hf).
  eexists _, w2. split; [reflexivity|]. rewrite after_warm_up in HF.
  change (map (Z.add 20)) with (fmap (M := list) (Z.add 20)) in HF. rewrite Forall2_fmap_l in HF.
  split; [exact HF|]. clear -HF. induction HF as [|i r l rs [Hi _] _ IH]; [done|].
  simpl. rewrite IH, Hi. f_equal. lia.
Qed.
