(* ===== verification/HandshakeAuth.v ===== *)
(** * Handshake authentication ([crypto/handshake_auth.py])

    The optional long-term identity key that signs each handshake transcript,
    and the client's check of a handshake against a pinned identity. *)
From S2P Require Import Prelude PyBytes Sha256 PyVal World Instrumentation OqsAdapter Base.
From S2P Require Import Configs Http.

Definition DOMAIN : bytes := encode "PQ-Shield-handshake-v1".
Definition ECDSA : string := "ECDSA-P256-SHA256".

(** [struct.pack(">I", len(b)) + b]. *)
Definition _field (b : bytes) : result bytes :=
  let? n := pack_u32 (Z.of_nat (length b)) in Ok (n ++ b).

(** What [transcript] hashes. *)
Definition transcript_input (hid kex_alg sig_alg : string) (kex_pk sig_pk : bytes)
    : result bytes :=
  let? f1 := _field (encode hid) in
  let? f2 := _field (encode kex_alg) in
  let? f3 := _field (encode sig_alg) in
  let? f4 := _field kex_pk in
  let? f5 := _field sig_pk in
  Ok (DOMAIN ++ [Byte.x00] ++ f1 ++ f2 ++ f3 ++ f4 ++ f5).

Definition transcript (hid kex_alg sig_alg : string) (kex_pk sig_pk : bytes) : result bytes :=
  let? b := transcript_input hid kex_alg sig_alg kex_pk sig_pk in Ok (sha256 b).

Definition identity_algorithm_for (sig_alg : string) : string :=
  if String.eqb sig_alg MLDSA65_ALGORITHM then MLDSA65_ALGORITHM else ECDSA.

Section Auth.
Context {E : Env} {P : Prims}.

(** The [_secret] attribute: raw ML-DSA bytes or an EC key object. *)
Inductive identity_secret := MLDSASecret (sk : bytes) | ECSecret (priv : ec_private).

Record IdentityKey := mkIdentity {
  id_algorithm : string; id_public_key : bytes; _secret : identity_secret }.

Definition IdentityKey_generate (algorithm : string) : M world IdentityKey :=
  if String.eqb algorithm MLDSA65_ALGORITHM then
    let* kp := MLDSA65_keypair in
    ret (mkIdentity algorithm (sig_public_key kp) (MLDSASecret (sig_secret_key kp)))
  else
    let* priv := at_tick ec_generate in
    ret (mkIdentity ECDSA (_ec_public_der priv) (ECSecret priv)).

Definition IdentityKey_sign (k : IdentityKey) (message : bytes) : M world (bytes * dict) :=
  let* st := timed (
    if String.eqb (id_algorithm k) MLDSA65_ALGORITHM then
      match _secret k with
      | MLDSASecret sk => MLDSA65_sign message sk
      | ECSecret _ => raise (TypeError "object of type 'ECPrivateKey' has no len()")
      end
    else
      match _secret k with
      | ECSecret priv => ecdsa_sign_now priv message
      | MLDSASecret _ => raise (AttributeError "'bytes' object has no attribute 'sign'")
      end) in
  let '(sig, t) := st in
  ret (sig, [("sign_ms", VFloat (elapsed_ms t)); ("sign_cpu_ms", VFloat (cpu_ms t))]).

Definition verify_identity (algorithm : string) (public_key message signature : bytes)
    : M world (bool * dict) :=
  let* okt := timed (of_result (
    if String.eqb algorithm MLDSA65_ALGORITHM then MLDSA65_verify message signature public_key
    else
      match (let? pub := load_der_public_key public_key in
             pub_verify_ecdsa pub signature message) with
      | Ok _ => Ok true
      | Raise _ => Ok false
      end)) in
  let '(ok, t) := okt in
  ret (ok, verify_meta t).

Definition str_field (k : string) (d : dict) : result string :=
  let? v := getitem k d in as_str v.

(** The transcript a client computes from a handshake response. *)
Definition handshake_transcript (hs : dict) : result bytes :=
  let? hid := str_field "handshake_id" hs in
  let? ka := str_field "kex_algorithm" hs in
  let? sa := str_field "sig_algorithm" hs in
  let? kpk := (let? v := getitem "kex_public_key" hs in _b64d v) in
  let? spk := (let? v := getitem "sig_public_key" hs in _b64d v) in
  transcript hid ka sa kpk spk.

(** [verify_handshake(handshake_json, pinned, b64decode)]; [pinned] is the
    algorithm and the public key. *)
Definition verify_handshake (hs : dict) (pinned : string * bytes) : M world (bool * dict) :=
  let sig_b64 := dget_or "transcript_signature" VNone hs in
  if negb (truthy sig_b64) then
    ret (false, [("verify_ms", VFloat 0); ("reason", VStr "no transcript signature")])
  else
    let* msg := of_result (handshake_transcript hs) in
    let* signature := of_result (_b64d sig_b64) in
    verify_identity (fst pinned) (snd pinned) msg signature.

(** ** Transcripts are unambiguous *)
Lemma field_split a b x y fa fb :
  _field a = Ok fa -> _field b = Ok fb -> fa ++ x = fb ++ y -> a = b /\ x = y.
Proof.
  unfold _field. intros Ha Hb.
  destruct (pack_u32 (Z.of_nat (length a))) as [na|] eqn:Hna; [injection Ha as <-|done].
  destruct (pack_u32 (Z.of_nat (length b))) as [nb|] eqn:Hnb; [injection Hb as <-|done].
  apply pack_u32_Ok in Hna as [Ra ->]. apply pack_u32_Ok in Hnb as [Rb ->].
  rewrite <- !app_assoc. intros H.
  apply app_prefix_inj in H as [Hn H]; [|by rewrite !be_bytes_length].
  apply be_bytes_inj in Hn; [|exact Ra|exact Rb].
  apply app_prefix_inj; [lia|exact H].
Qed.

Lemma transcript_input_inj h1 k1 s1 kp1 sp1 h2 k2 s2 kp2 sp2 b :
  transcript_input h1 k1 s1 kp1 sp1 = Ok b ->
  transcript_input h2 k2 s2 kp2 sp2 = Ok b ->
  h1 = h2 /\ k1 = k2 /\ s1 = s2 /\ kp1 = kp2 /\ sp1 = sp2.
Proof.
  unfold transcript_input.
  destruct (_field (encode h1)) as [a1|] eqn:A1; [cbn [rbind]|done].
  destruct (_field (encode k1)) as [a2|] eqn:A2; [cbn [rbind]|done].
  destruct (_field (encode s1)) as [a3|] eqn:A3; [cbn [rbind]|done].
  destruct (_field kp1) as [a4|] eqn:A4; [cbn [rbind]|done].
  destruct (_field sp1) as [a5|] eqn:A5; [cbn [rbind]|done]. intros [= <-].
  destruct (_field (encode h2)) as [b1|] eqn:B1; [cbn [rbind]|done].
  destruct (_field (encode k2)) as [b2|] eqn:B2; [cbn [rbind]|done].
  destruct (_field (encode s2)) as [b3|] eqn:B3; [cbn [rbind]|done].
  destruct (_field kp2) as [b4|] eqn:B4; [cbn [rbind]|done].
  destruct (_field sp2) as [b5|] eqn:B5; [cbn [rbind]|done]. intros [= H].
  destruct (field_split _ _ _ _ _ _ B1 A1 H) as [->%encode_inj H2].
  destruct (field_split _ _ _ _ _ _ B2 A2 H2) as [->%encode_inj H3].
  destruct (field_split _ _ _ _ _ _ B3 A3 H3) as [->%encode_inj H4].
  destruct (field_split _ _ _ _ _ _ B4 A4 H4) as [-> H5].
  rewrite <- (app_nil_r b5), <- (app_nil_r a5) in H5.
  by destruct (field_split _ _ _ _ _ _ B5 A5 H5) as [-> _].
Qed.
End Auth.

(** C9: A transcript pins everything the client relies on: two handshakes with
    the same transcript have the same handshake id, algorithm names and public
    keys, or they exhibit a SHA-256 collision between the two transcript
    encodings. *)
Theorem transcript_binds_handshake
    (h1 k1 s1 h2 k2 s2 : string) (kp1 sp1 kp2 sp2 t : bytes)
    (H1 : transcript h1 k1 s1 kp1 sp1 = Ok t) (H2 : transcript h2 k2 s2 kp2 sp2 = Ok t) :
  (h1 = h2 /\ k1 = k2 /\ s1 = s2 /\ kp1 = kp2 /\ sp1 = sp2)
  \/ exists b1 b2, transcript_input h1 k1 s1 kp1 sp1 = Ok b1
       /\ transcript_input h2 k2 s2 kp2 sp2 = Ok b2 /\ b1 <> b2 /\ sha256 b1 = sha256 b2.
Proof.
  unfold transcript in *.
  destruct (transcript_input h1 k1 s1 kp1 sp1) as [b1|] eqn:B1; [|done].
  destruct (transcript_input h2 k2 s2 kp2 sp2) as [b2|] eqn:B2; [|done].
  injection H1 as <-. injection H2 as H2.
  destruct (decide (b1 = b2)) as [->|Hne].
  - left. by eapply transcript_input_inj.
  - right. by exists b1, b2.
Qed.

Lemma transcript_binds_handshake_witness :
  ("a" = "a" /\ "X" = "X" /\ "E" = "E" /\ encode "k" = encode "k" /\ encode "s" = encode "s")
  \/ exists b1 b2, transcript_input "a" "X" "E" (encode "k") (encode "s") = Ok b1
       /\ transcript_input "a" "X" "E" (encode "k") (encode "s") = Ok b2
       /\ b1 <> b2 /\ sha256 b1 = sha256 b2.
Proof.
  eapply transcript_binds_handshake; vm_compute; reflexivity.
Defined.

(** C4: A client with a pinned identity only accepts a handshake that carries
    a signature, and only when that signature verifies, under the pinned key,
    on the transcript of exactly the fields it is about to use; a response
    without one is rejected before any verification. *)
Theorem verify_handshake_sound {E : Env} {P : Prims} (hs : dict) (pinned : string * bytes)
    (w w' : world) (ok : bool) (meta : dict)
    (Hrun : verify_handshake hs pinned w = (Ok (ok, meta), w')) :
  (truthy (dget_or "transcript_signature" VNone hs) = false -> ok = false /\ w' = w)
  /\ (ok = true -> exists msg sig,
        handshake_transcript hs = Ok msg
        /\ _b64d (dget_or "transcript_signature" VNone hs) = Ok sig
        /\ (if String.eqb (fst pinned) MLDSA65_ALGORITHM
            then MLDSA65_verify msg sig (snd pinned) = Ok true
            else exists pub, load_der_public_key (snd pinned) = Ok pub
                 /\ pub_verify_ecdsa pub sig msg = Ok tt)).
Proof.
  unfold verify_handshake in Hrun.
  destruct (truthy (dget_or "transcript_signature" VNone hs)); cbn [negb] in Hrun.
  2: { injection Hrun as <- <- <-. by split. }
  split; [done|]. intros ->.
  apply bind_inv_Ok in Hrun as (msg & w1 & Hm & Hrun).
  apply bind_inv_Ok in Hrun as (sig & w2 & Hs & Hrun).
  injection Hm as Hm <-. injection Hs as Hs <-. exists msg, sig. split_and!; [done|done|].
  unfold verify_identity in Hrun. apply bind_inv_Ok in Hrun as ([ok t] & w3 & Ht & Hret).
  injection Hret as -> _ _. apply timed_inv_Ok in Ht as (w4 & Hb & _). injection Hb as Hb _.
  destruct (String.eqb (fst pinned) MLDSA65_ALGORITHM); [done|].
  destruct (load_der_public_key (snd pinned)) as [pub|]; [|done]. simpl in Hb.
  destruct (pub_verify_ecdsa pub sig msg) as [[]|] eqn:Hv; [eauto|done].
Qed.

