(* ===== verification/SecureApp.v ===== *)
(** * The protected server ([api/secure_app.py])

    [build_app]'s closure state is the server's session table and the
    [session_keys] cache; each endpoint is one handler over the world and that
    state, with its HTTP errors as [HTTPException] values.  The prediction
    service and the streaming backend are parameters here ([Profiles] and
    [Backends] hold the repository's own). *)
From Stdlib Require Import Ascii.
From stdpp Require Import gmap.
From S2P Require Import Prelude PyBytes Sha256 PyVal World Instrumentation PyNum Aead OqsAdapter.
From S2P Require Import Base Configs Streaming Http HandshakeAuth.

(** [SecurePredictRequest] ([api/schemas.py]), as FastAPI hands it over. *)
Record SecurePredictRequest := mkRequest {
  req_handshake_id : string;
  req_kex_blob : string;
  req_nonce : string;
  req_ciphertext : string;
  req_keep_session : bool;
}.

(** [HandshakeResponse] and [SecurePredictResponse], serialized. *)
Definition HandshakeResponse (hid kpk spk ka sa : string) (meta : dict)
    (transcript_signature : val) : dict :=
  [("handshake_id", VStr hid); ("kex_public_key", VStr kpk); ("sig_public_key", VStr spk);
   ("kex_algorithm", VStr ka); ("sig_algorithm", VStr sa); ("meta", VDict meta);
   ("transcript_signature", transcript_signature)].

Definition SecurePredictResponse (nonce ciphertext signature : string) (timing : dict)
    (debug : val) : dict :=
  [("nonce", VStr nonce); ("ciphertext", VStr ciphertext); ("signature", VStr signature);
   ("server_timing_ms", VDict timing); ("debug", debug)].

(** [aiter_sync_generator] ([api/async_bridge.py]): [next(it, _SENTINEL)] until
    the sentinel, one thread-pool call at a time. *)
Definition next_or_sentinel {A} (it : list A) : option A * list A :=
  match it with [] => (None, []) | x :: it' => (Some x, it') end.

Fixpoint aiter_sync_generator {A} (fuel : nat) (it : list A) : list A :=
  match fuel with
  | O => []
  | S fuel' =>
      match next_or_sentinel it with
      | (None, _) => []
      | (Some item, it') => item :: aiter_sync_generator fuel' it'
      end
  end.

(** [_encode_for_wire]: bytes become base64 text. *)
Definition encode_value (v : val) : val := match v with VBytes b => VStr (_b64e b) | _ => v end.
Definition _encode_for_wire (d : dict) : dict := map (fun kv => (fst kv, encode_value (snd kv))) d.

Definition newlines : string := String (Ascii.ascii_of_nat 10) (String (Ascii.ascii_of_nat 10) "").
Definition sse_event (text : string) : string := "data: " +:+ text +:+ newlines.
Definition sse_done (text : string) : string :=
  "event: done" +:+ String (Ascii.ascii_of_nat 10) "" +:+ "data: " +:+ text +:+ newlines.

(** What iterating a backend's [stream(prompt, max_tokens)] gives: the tokens it
    delivers and, if it fails, the exception it ends with. *)
Definition token_source : Type := val -> Z -> list string * option exn.
(** A stream that fails before its first token, if it fails. *)
Definition delivers (r : result (list string)) : list string * option exn :=
  match r with Ok tokens => (tokens, None) | Raise e => ([], Some e) end.

Section App.
Context {E : Env} {P : Prims} {J : Json} {T : Type} {Srv : ServerCryptoConfig T}.
(** The prediction service and what [get_backend()] returns, behind the endpoints. *)
Context (model_predict : val -> M world dict).
Context (backend_stream : result token_source).
(** The identity key, when [PQ_SHIELD_AUTH_HANDSHAKE] is set. *)
Context (identity : option IdentityKey).

(** The closure's state: the world and the sessions, and [session_keys]. *)
Abbreviation app_state := ((world * T) * gmap string bytes)%type.

Definition io {A} (m : M world A) : M app_state A := on_fst (on_fst m).
Definition crypto {A} (m : M (world * T) A) : M app_state A := on_fst m.

(** *** GET /secure/identity *)
Definition identity_key : M app_state dict :=
  match identity with
  | None => raise (HTTPException 404 "Handshake authentication is not enabled")
  | Some id => ret [("algorithm", VStr (id_algorithm id));
                    ("public_key", VStr (_b64e (id_public_key id)))]
  end.

(** *** GET /secure/handshake *)
Definition handshake : M app_state dict :=
  let* bundle := crypto (new_handshake None) in
  let meta := hb_meta bundle in
  let* signed := (
    match identity with
    | None => ret (VNone, meta)
    | Some id =>
        let* t := of_result (transcript (handshake_id bundle) kex_algorithm sig_algorithm
                               (kex_public_key bundle) (hb_sig_public_key bundle)) in
        let* sm := io (IdentityKey_sign id t) in
        let '(sig, sign_meta) := sm in
        let* sign_ms := of_result (getitem "sign_ms" sign_meta) in
        ret (VStr (_b64e sig), dset "transcript_sign_ms" sign_ms meta)
    end) in
  let '(transcript_signature, meta) := signed in
  ret (HandshakeResponse (handshake_id bundle) (_b64e (kex_public_key bundle))
         (_b64e (hb_sig_public_key bundle)) kex_algorithm sig_algorithm meta
         transcript_signature).

(** [except Exception: raise HTTPException(400, ...)]. *)
Definition decode_or_400 (s : string) : result bytes :=
  match _b64d (VStr s) with
  | Ok b => Ok b
  | Raise _ => Raise (HTTPException 400 "Malformed base64 in request")
  end.

(** [server_crypto.accept] with the endpoint's exception mapping. *)
Definition accept_or_http (hid : string) (blob : bytes) : M app_state (bytes * dict) :=
  try_catch (crypto (accept hid blob)) (fun e =>
    match e with
    | KeyError _ => raise (HTTPException 404 "Unknown or expired handshake_id")
    | e => raise (HTTPException 400 ("Key establishment failed: " +:+ exn_str e))
    end).

Definition decrypt_or_400 (key nonce ciphertext : bytes) : result bytes :=
  match aead_decrypt key nonce ciphertext with
  | Raise AEADError => Raise (HTTPException 400 "Request payload failed authentication")
  | r => r
  end.

Definition keys_of : M app_state (gmap string bytes) := fun σ => (Ok (snd σ), σ).
Definition set_key (hid : string) (key : bytes) : M app_state unit :=
  fun '(σ, ks) => (Ok tt, (σ, <[hid := key]> ks)).
Definition pop_key (hid : string) : M app_state unit :=
  fun '(σ, ks) => (Ok tt, (σ, delete hid ks)).

(** The session key of a request: by key establishment, or from the cache
    when the blob is empty. *)
Definition request_session_key (req : SecurePredictRequest) (kex_blob : bytes)
    : M app_state (bytes * dict) :=
  match kex_blob with
  | _ :: _ =>
      let* km := accept_or_http (req_handshake_id req) kex_blob in
      let '(session_key, accept_meta) := km in
      (if req_keep_session req then set_key (req_handshake_id req) session_key else ret tt) ;;;
      ret (session_key, accept_meta)
  | [] =>
      let* ks := keys_of in
      match ks !! req_handshake_id req with
      | None => raise (HTTPException 404 "Unknown or expired session")
      | Some key => ret (key, [("decapsulate_ms", VFloat 0); ("kex_blob_bytes", VInt 0)])
      end
  end.

(** *** POST /secure/predict; [debug_wanted] is the [X-Debug-Metrics] header *)
Definition secure_predict (req : SecurePredictRequest) (debug_wanted : bool)
    : M app_state dict :=
  let* t_total_start := io perf_counter in
  let* kex_blob := of_result (decode_or_400 (req_kex_blob req)) in
  let* r_nonce := of_result (decode_or_400 (req_nonce req)) in
  let* r_ciphertext := of_result (decode_or_400 (req_ciphertext req)) in
  let* km := request_session_key req kex_blob in
  let '(session_key, accept_meta) := km in
  let* plaintext := of_result (decrypt_or_400 session_key r_nonce r_ciphertext) in
  let* body := of_result (json_loads plaintext) in
  let* result := io (model_predict body) in
  let* inference_ms := of_result (getitem "_inference_ms" result) in
  let result := ddel "_inference_ms" result in
  let* response_text := of_result (json_dumps (VDict result)) in
  let* t_encrypt := io perf_counter in
  let* resp_aead := io (aead_encrypt session_key (encode response_text)) in
  let* t_encrypt' := io perf_counter in
  let encrypt_ms := ((t_encrypt' - t_encrypt) * 1000)%Q in
  let envelope := nonce resp_aead ++ ciphertext resp_aead in
  let* sm := crypto (sign (req_handshake_id req) envelope) in
  let '(signature, sign_meta) := sm in
  (if negb (req_keep_session req) then
     pop_key (req_handshake_id req) ;;; crypto (forget (req_handshake_id req))
   else ret tt) ;;;
  let* t_total := io perf_counter in
  let total_ms := ((t_total - t_total_start) * 1000)%Q in
  let decapsulate_ms := dget_or "decapsulate_ms" (VFloat 0) accept_meta in
  let sign_ms := dget_or "sign_ms" (VFloat 0) sign_meta in
  let* d := of_result (as_num decapsulate_ms) in
  let* s := of_result (as_num sign_ms) in
  let timing : dict :=
    [("decapsulate_ms", decapsulate_ms); ("inference_ms", inference_ms);
     ("encrypt_ms", VFloat encrypt_ms); ("sign_ms", sign_ms);
     ("server_crypto_ms", VFloat (d + encrypt_ms + s)); ("server_total_ms", VFloat total_ms)] in
  let debug :=
    if debug_wanted then
      VDict [("kex_blob_bytes", dget_or "kex_blob_bytes" VNone accept_meta);
             ("response_ciphertext_bytes", VInt (Z.of_nat (length (ciphertext resp_aead))));
             ("signature_bytes", dget_or "signature_bytes" VNone sign_meta);
             ("kex_algorithm", VStr kex_algorithm); ("sig_algorithm", VStr sig_algorithm)]
    else VNone in
  ret (SecurePredictResponse (_b64e (nonce resp_aead)) (_b64e (ciphertext resp_aead))
         (_b64e signature) timing debug).

(** *** POST /secure/predict/stream *)

(** The generator's local variables, and what it has yielded so far. *)
Record generator := mkGen { g_index : Z; g_token_buffer : list string; g_yielded : list string }.

Section Generator.
Context {K : Type} {Strat : StreamSigningStrategy (S := T) K}.
Abbreviation gen_state := (((world * T) * K) * generator)%type.

Definition yield_event (s : string) : M gen_state unit := fun '(σ, g) =>
  (Ok tt, (σ, mkGen (g_index g) (g_token_buffer g) (g_yielded g ++ [s]))).

(** [flush_buffer()]: one wire chunk for the buffered tokens. *)
Definition flush_buffer : M gen_state (option string) :=
  let* g := self in
  match g_token_buffer g with
  | [] => ret None
  | _ :: _ =>
      let text := String.concat "" (g_token_buffer g) in
      set_self (mkGen (g_index g) [] (g_yielded g)) ;;;
      let* wire_chunk := on_fst (add_chunk (encode text) (g_index g)) in
      set_self (mkGen (g_index g + 1) [] (g_yielded g)) ;;;
      match wire_chunk with
      | None => ret None
      | Some row =>
          let* t := of_result (json_dumps (VDict (_encode_for_wire row))) in
          ret (Some (sse_event t))
      end
  end.

Definition yield_some (line : option string) : M gen_state unit :=
  match line with Some s => yield_event s | None => ret tt end.

(** One token of the backend. *)
Definition on_token (chunk_size_tokens : Z) (token : string) : M gen_state unit :=
  let* g := self in
  let buffer := g_token_buffer g ++ [token] in
  set_self (mkGen (g_index g) buffer (g_yielded g)) ;;;
  if chunk_size_tokens <=? Z.of_nat (length buffer) then
    let* sse_line := flush_buffer in yield_some sse_line
  else ret tt.

(** [event_generator()]: the tokens the backend delivers are handled as they
    come, also when the backend fails after them. *)
Definition event_generator (hid : string) (chunk_size_tokens : Z)
    (tokens : list string * option exn) : M gen_state unit :=
  let* t_start := on_fst (on_fst (on_fst perf_counter)) in
  for_each (aiter_sync_generator (S (length (fst tokens))) (fst tokens))
    (on_token chunk_size_tokens) ;;;
  (match snd tokens with Some e => raise e | None => ret tt end) ;;;
  let* trailing := flush_buffer in
  yield_some trailing ;;;
  let* g := self in
  let* final := on_fst (finalize (g_index g)) in
  (match final with
   | None => ret tt
   | Some row =>
       let* t := of_result (json_dumps (VDict (_encode_for_wire row))) in
       yield_event (sse_event t)
   end) ;;;
  let* t_end := on_fst (on_fst (on_fst perf_counter)) in
  let* t := of_result (json_dumps (VDict
              [("n_chunks", VInt (g_index g));
               ("total_ms", VFloat ((t_end - t_start) * 1000))])) in
  yield_event (sse_done t) ;;;
  on_fst (on_fst (forget hid)).
End Generator.

(** [strategy_name == "hash_chain"] and the table lookup, for whatever JSON
    value the request names. *)
Definition strategy_key (v : val) : result string :=
  match v with
  | VStr s => Ok s
  | VList _ | VDict _ => Raise (TypeError "unhashable type")
  | _ => Raise (ValueError "Unknown streaming strategy")
  end.

(** The handler up to the streaming response: the strategy object and the
    generator's parameters. *)
Definition stream_setup (req : SecurePredictRequest)
    : M app_state (any_strategy (S := T) * (Z * (list string * option exn))) :=
  let* kex_blob := of_result (decode_or_400 (req_kex_blob req)) in
  let* r_nonce := of_result (decode_or_400 (req_nonce req)) in
  let* r_ciphertext := of_result (decode_or_400 (req_ciphertext req)) in
  let* km := accept_or_http (req_handshake_id req) kex_blob in
  let session_key := fst km in
  let* plaintext := of_result (decrypt_or_400 session_key r_nonce r_ciphertext) in
  let* vbody := of_result (json_loads plaintext) in
  let* body := of_result (as_dict vbody) in
  let prompt := dget_or "prompt" (VStr "") body in
  let strategy_name := dget_or "strategy" (VStr "buffer_and_sign") body in
  let* size := of_result (py_int (dget_or "chunk_size_tokens" (VInt 5) body)) in
  let chunk_size_tokens := Z.max 1 size in
  let* tokens := of_result (py_int (dget_or "max_tokens" (VInt 200) body)) in
  let max_tokens := Z.max 1 tokens in
  let checkpoint_interval := dget_or "checkpoint_interval" VNone body in
  let kwargs := if val_eq_str strategy_name "hash_chain" then Some checkpoint_interval else None in
  let* strategy := of_result (
    match (let? name := strategy_key strategy_name in
           get_server_strategy name (req_handshake_id req) session_key kwargs) with
    | Raise (ValueError msg) => Raise (HTTPException 400 msg)
    | r => r
    end) in
  let* stream := of_result backend_stream in
  ret (strategy, (chunk_size_tokens, stream prompt max_tokens)).

(** The endpoint: an HTTP error, or the events sent and the exception that
    cut the stream short, if one did. *)
Definition secure_predict_stream (req : SecurePredictRequest)
    : M app_state (list string * option exn) :=
  let* setup := stream_setup req in
  let '(strategy, (chunk_size_tokens, tokens)) := setup in
  fun '(σ, ks) =>
    let '(r, ((σ', _), g)) :=
      event_generator (Strat := any_impl strategy) (req_handshake_id req) chunk_size_tokens tokens
        ((σ, any_object strategy), mkGen 0 [] []) in
    (Ok (g_yielded g, match r with Ok _ => None | Raise e => Some e end), (σ', ks)).
End App.

Lemma aiter_sync_generator_all {A} (l : list A) n :
  (length l <= n)%nat -> aiter_sync_generator (S n) l = l.
Proof.
  revert n; induction l as [|x l IH]; intros n H; simpl in *; [done|].
  destruct n as [|n]; [lia|]. f_equal. apply IH. lia.
Qed.
