(* ===== verification/SecureClient.v ===== *)
(** * The client ([api/secure_client.py])

    [do_handshake], [fetch_identity] and [secure_predict_transaction] over a
    [Transport]; a client session is a mutable object the transaction reads
    and writes, and the row it returns keeps what was set before an exception. *)
From S2P Require Import Prelude PyBytes PyVal World Instrumentation Aead Base Configs Http.
From S2P Require Import HandshakeAuth.

Record ClientSession := mkSession {
  requests_left : Z;
  sess_handshake_json : option dict;
  sess_session_key : option bytes;
}.

Section Client.
Context {E : Env} {P : Prims} {J : Json} {N : Type} {TR : Transport N}.

Definition do_handshake (base_url : string) : M (world * N) (dict * Q) :=
  let* t0 := on_fst perf_counter in
  let* resp := http_get (base_url +:+ "/secure/handshake") in
  of_result (raise_for_status resp) ;;;
  let* t1 := on_fst perf_counter in
  let* v := of_result (resp_json resp) in
  let* j := of_result (as_dict v) in
  ret (j, ((t1 - t0) * 1000)%Q).

Definition fetch_identity (base_url : string) : M (world * N) (string * bytes) :=
  let* resp := http_get (base_url +:+ "/secure/identity") in
  of_result (raise_for_status resp) ;;;
  let* v := of_result (resp_json resp) in
  let* j := of_result (as_dict v) in
  let* algorithm := of_result (str_field "algorithm" j) in
  let* public_key := of_result (let? v := getitem "public_key" j in _b64d v) in
  ret (algorithm, public_key).

(** The transaction's state: the world and the network, the session object and
    the row built so far. *)
Abbreviation tx_state := (((world * N) * option ClientSession) * dict)%type.

Definition wio {A} (m : M world A) : M tx_state A := on_fst (on_fst (on_fst m)).
Definition net {A} (m : M (world * N) A) : M tx_state A := on_fst (on_fst m).
Definition get_session : M tx_state (option ClientSession) := fun σ => (Ok (snd (fst σ)), σ).
Definition put_session (s : ClientSession) : M tx_state unit :=
  fun '((wn, _), row) => (Ok tt, ((wn, Some s), row)).
Definition set_row (k : string) (v : val) : M tx_state unit :=
  fun '(σ, row) => (Ok tt, (σ, dset k v row)).

(** [session is not None and session.session_key is not None]. *)
Definition is_resumed (s : option ClientSession) : bool :=
  match s with
  | Some s => match sess_session_key s with Some _ => true | None => false end
  | None => false
  end.

(** The handshake leg: the response and the time it took. *)
Definition obtain_handshake (base_url : string) (cached_handshake : option dict)
    (session : option ClientSession) : M tx_state (option dict * Q) :=
  if is_resumed session then
    ret (match session with Some s => sess_handshake_json s | None => None end, 0%Q)
  else match cached_handshake with
       | Some j => ret (Some j, 0%Q)
       | None => let* jq := net (do_handshake base_url) in ret (Some (fst jq), snd jq)
       end.

(** [handshake_json[...]], which is [None] only in a session object built so. *)
Definition subscriptable (j : option dict) : result dict :=
  match j with
  | Some j => Ok j
  | None => Raise (TypeError "'NoneType' object is not subscriptable")
  end.

(** Checking a pinned identity: [None] when the transaction ends here. *)
Definition authenticate (pinned_identity : option (string * bytes)) (resumed : bool)
    (handshake_json : dict) (handshake_ms : Q) : M tx_state (option Q) :=
  match pinned_identity with
  | Some pinned =>
      if resumed then ret (Some handshake_ms)
      else
        let* om := wio (verify_handshake handshake_json pinned) in
        let '(ok, auth_meta) := om in
        let* verify_ms := of_result (getitem "verify_ms" auth_meta) in
        let* q := of_result (as_num verify_ms) in
        set_row "handshake_auth_verify_ms" verify_ms ;;;
        if ok : bool then ret (Some (handshake_ms + q)%Q)
        else
          set_row "handshake_ms" (VFloat (handshake_ms + q)) ;;;
          set_row "error"
            (VStr "handshake authentication failed (transcript signature invalid)") ;;;
          ret None
  | None => ret (Some handshake_ms)
  end.

(** The session key and the key-establishment blob of this request. *)
Definition request_key (Cli : ClientCryptoConfig) (session : option ClientSession)
    (handshake_json : dict) : M tx_state (bytes * bytes) :=
  match session with
  | Some {| sess_session_key := Some key |} =>
      set_row "client_establish_ms" (VFloat 0) ;;; ret (key, [])
  | _ =>
      let* kpk := of_result (let? v := getitem "kex_public_key" handshake_json in _b64d v) in
      let* est := wio (establish kpk) in
      set_row "client_establish_ms" (dget_or "handshake_encrypt_ms" (VFloat 0) (est_meta est)) ;;;
      (match session with
       | Some s => put_session (mkSession (requests_left s) (Some handshake_json)
                                  (Some (session_key est)))
       | None => ret tt
       end) ;;;
      ret (session_key est, kex_blob est)
  end.

(** [keep_session], and the countdown of the session's requests. *)
Definition use_session : M tx_state bool :=
  let* session := get_session in
  match session with
  | None => ret false
  | Some s =>
      put_session (mkSession (requests_left s - 1) (sess_handshake_json s) (sess_session_key s)) ;;;
      ret (1 <? requests_left s)
  end.

(** The response: AEAD first, then the signature. *)
Definition read_response (Cli : ClientCryptoConfig) (key spk : bytes) (j : dict)
    : M tx_state unit :=
  let* resp_nonce := of_result (let? v := getitem "nonce" j in _b64d v) in
  let* resp_ciphertext := of_result (let? v := getitem "ciphertext" j in _b64d v) in
  let* signature := of_result (let? v := getitem "signature" j in _b64d v) in
  let envelope := resp_nonce ++ resp_ciphertext in
  set_row "signature_bytes" (VInt (Z.of_nat (length signature))) ;;;
  let* t0 := wio perf_counter in
  match aead_decrypt key resp_nonce resp_ciphertext with
  | Raise AEADError =>
      let* t1 := wio perf_counter in
      set_row "aead_decrypt_ms" (VFloat ((t1 - t0) * 1000)) ;;;
      set_row "error" (VStr "response AEAD authentication failed (tampered response)")
  | Raise e => raise e
  | Ok plaintext =>
      let* t1 := wio perf_counter in
      set_row "aead_decrypt_ms" (VFloat ((t1 - t0) * 1000)) ;;;
      let* vm := wio (verify envelope signature spk) in
      let '(valid, verify_meta) := vm in
      set_row "valid_signature" (VBool valid) ;;;
      set_row "verify_ms" (dget_or "verify_ms" (VFloat 0) verify_meta) ;;;
      let* v := of_result (json_loads plaintext) in
      let* result := of_result (as_dict v) in
      set_row "prediction" (dget_or "prediction" VNone result) ;;;
      set_row "response_plaintext_bytes" (VInt (Z.of_nat (length plaintext)))
  end.

(** The request and its answer, once the session key is there. *)
Definition exchange (Cli : ClientCryptoConfig) (base_url : string) (request_body : dict)
    (debug_metrics : bool) (handshake_ms : Q) (hid : val) (spk key blob : bytes)
    (keep_session : bool) : M tx_state unit :=
  let* text := of_result (json_dumps (VDict request_body)) in
  let request_plaintext := encode text in
  set_row "request_plaintext_bytes" (VInt (Z.of_nat (length request_plaintext))) ;;;
  let* req_aead := wio (aead_encrypt key request_plaintext) in
  let payload : dict :=
    [("handshake_id", hid); ("keep_session", VBool keep_session);
     ("kex_blob", VStr (_b64e blob)); ("nonce", VStr (_b64e (nonce req_aead)));
     ("ciphertext", VStr (_b64e (ciphertext req_aead)))] in
  let headers := if debug_metrics then [("X-Debug-Metrics", "true")] else [] in
  let* t0 := wio perf_counter in
  let* resp := net (http_post (base_url +:+ "/secure/predict") payload headers) in
  let* t1 := wio perf_counter in
  let rtt_ms := ((t1 - t0) * 1000)%Q in
  set_row "rtt_ms" (VFloat rtt_ms) ;;;
  set_row "total_ms" (VFloat (handshake_ms + rtt_ms)) ;;;
  if negb (status_code resp =? 200) then
    set_row "error" (VStr (http_error (status_code resp) (take_string 200 (resp_text resp))))
  else
    let* v := of_result (resp_json resp) in
    let* j := of_result (as_dict v) in
    set_row "server_timing_ms" (dget_or "server_timing_ms" (VDict []) j) ;;;
    (if debug_metrics then set_row "debug" (dget_or "debug" VNone j) else ret tt) ;;;
    read_response Cli key spk j.

(** The body of the [try]. *)
Definition transaction (Cli : ClientCryptoConfig) (base_url : string) (request_body : dict)
    (debug_metrics : bool) (cached_handshake : option dict)
    (pinned_identity : option (string * bytes)) : M tx_state unit :=
  let* session := get_session in
  let resumed := is_resumed session in
  let* hm := obtain_handshake base_url cached_handshake session in
  let '(json, handshake_ms) := hm in
  set_row "resumed" (VBool resumed) ;;;
  let* auth := (match json with
                | Some j => authenticate pinned_identity resumed j handshake_ms
                | None => ret (Some handshake_ms)
                end) in
  match auth with
  | None => ret tt
  | Some handshake_ms =>
      set_row "handshake_ms" (VFloat handshake_ms) ;;;
      let* handshake_json := of_result (subscriptable json) in
      let* spk := of_result (let? v := getitem "sig_public_key" handshake_json in _b64d v) in
      let* hid := of_result (getitem "handshake_id" handshake_json) in
      let* kb := request_key Cli session handshake_json in
      let '(key, blob) := kb in
      set_row "kex_blob_bytes" (VInt (Z.of_nat (length blob))) ;;;
      let* keep_session := use_session in
      exchange Cli base_url request_body debug_metrics handshake_ms hid spk key blob keep_session
  end.

Definition secure_predict_transaction (base_url config_name : string) (request_body : dict)
    (debug_metrics : bool) (cached_handshake : option dict)
    (pinned_identity : option (string * bytes))
    : M ((world * N) * option ClientSession) dict :=
  let* client_crypto := of_result (get_client_crypto config_name) in
  let row : dict :=
    [("config", VStr config_name); ("error", VNone); ("valid_signature", VNone)] in
  fun σ =>
    let '(r, (σ', row)) :=
      transaction client_crypto base_url request_body debug_metrics cached_handshake
        pinned_identity (σ, row) in
    (Ok (match r with
         | Ok _ => row
         | Raise e => dset "error" (VStr (describe_exn e)) row
         end), σ').
End Client.
