(* ===== verification/StreamingClient.v ===== *)
(** * The streaming client ([api/secure_streaming_client.py])

    The consumption loop of [run_streaming_transaction], branch by branch, over
    the state its local variables make up, and the transaction around it. *)
From S2P Require Import Prelude PyBytes Sha256 PyVal World Instrumentation Aead Base Configs.
From S2P Require Import Streaming Http SecureClient.

Record metrics := mkMetrics {
  m_error : option string;
  m_handshake_ms : option Q;
  m_ttft_ms : option Q;
  m_total_ms : option Q;
  m_n_chunks : Z;
  m_total_signature_bytes : Q;
  m_total_signing_ms : Q;
  m_total_verify_ms : Q;
  m_total_signing_cpu_ms : Q;
  m_total_verify_cpu_ms : Q;
  m_all_signatures_valid : bool;
  m_all_aead_ok : bool;
  m_all_in_order : bool;
  m_stream_fully_verified : option bool;
  m_reconstructed_bytes : Z;
  m_n_signatures : Z;
  m_max_unverified_chunks : Z;
  m_max_verification_lag_ms : Q;
}.

Definition metrics0 : metrics :=
  mkMetrics None None None None 0 0 0 0 0 0 true true true None 0 0 0 0.

(** The local variables of the transaction. *)
Record client_state := mkClient {
  c_metrics : metrics;
  c_pending : list Q;
  c_chain : option HashChainClientState;
  c_terminal_seen : bool;
  c_expected_index : Z;
  c_reconstructed : bytes;
}.

(** *** Assignments to one entry *)
Definition on_metrics (f : metrics -> metrics) (c : client_state) : client_state :=
  mkClient (f (c_metrics c)) (c_pending c) (c_chain c) (c_terminal_seen c)
    (c_expected_index c) (c_reconstructed c).

Definition set_error (e : option string) (m : metrics) : metrics :=
  let 'mkMetrics _ h tf to n sb sg ve sgc vec sv ao io fv rb ns mu ml := m in
  mkMetrics e h tf to n sb sg ve sgc vec sv ao io fv rb ns mu ml.
Definition set_handshake_ms (x : option Q) (m : metrics) : metrics :=
  let 'mkMetrics e _ tf to n sb sg ve sgc vec sv ao io fv rb ns mu ml := m in
  mkMetrics e x tf to n sb sg ve sgc vec sv ao io fv rb ns mu ml.
Definition set_ttft (x : option Q) (m : metrics) : metrics :=
  let 'mkMetrics e h _ to n sb sg ve sgc vec sv ao io fv rb ns mu ml := m in
  mkMetrics e h x to n sb sg ve sgc vec sv ao io fv rb ns mu ml.
Definition set_total (x : option Q) (m : metrics) : metrics :=
  let 'mkMetrics e h tf _ n sb sg ve sgc vec sv ao io fv rb ns mu ml := m in
  mkMetrics e h tf x n sb sg ve sgc vec sv ao io fv rb ns mu ml.
Definition add_chunk_count (m : metrics) : metrics :=
  let 'mkMetrics e h tf to n sb sg ve sgc vec sv ao io fv rb ns mu ml := m in
  mkMetrics e h tf to (n + 1) sb sg ve sgc vec sv ao io fv rb ns mu ml.
Definition add_signature_bytes (x : Q) (m : metrics) : metrics :=
  let 'mkMetrics e h tf to n sb sg ve sgc vec sv ao io fv rb ns mu ml := m in
  mkMetrics e h tf to n (sb + x) sg ve sgc vec sv ao io fv rb ns mu ml.
Definition add_signing_ms (x : Q) (m : metrics) : metrics :=
  let 'mkMetrics e h tf to n sb sg ve sgc vec sv ao io fv rb ns mu ml := m in
  mkMetrics e h tf to n sb (sg + x) ve sgc vec sv ao io fv rb ns mu ml.
Definition add_verify_ms (x : Q) (m : metrics) : metrics :=
  let 'mkMetrics e h tf to n sb sg ve sgc vec sv ao io fv rb ns mu ml := m in
  mkMetrics e h tf to n sb sg (ve + x) sgc vec sv ao io fv rb ns mu ml.
Definition add_signing_cpu (x : Q) (m : metrics) : metrics :=
  let 'mkMetrics e h tf to n sb sg ve sgc vec sv ao io fv rb ns mu ml := m in
  mkMetrics e h tf to n sb sg ve (sgc + x) vec sv ao io fv rb ns mu ml.
Definition add_verify_cpu (x : Q) (m : metrics) : metrics :=
  let 'mkMetrics e h tf to n sb sg ve sgc vec sv ao io fv rb ns mu ml := m in
  mkMetrics e h tf to n sb sg ve sgc (vec + x) sv ao io fv rb ns mu ml.
Definition and_signatures (b : bool) (m : metrics) : metrics :=
  let 'mkMetrics e h tf to n sb sg ve sgc vec sv ao io fv rb ns mu ml := m in
  mkMetrics e h tf to n sb sg ve sgc vec (sv && b) ao io fv rb ns mu ml.
Definition and_aead (b : bool) (m : metrics) : metrics :=
  let 'mkMetrics e h tf to n sb sg ve sgc vec sv ao io fv rb ns mu ml := m in
  mkMetrics e h tf to n sb sg ve sgc vec sv (ao && b) io fv rb ns mu ml.
Definition and_order (b : bool) (m : metrics) : metrics :=
  let 'mkMetrics e h tf to n sb sg ve sgc vec sv ao io fv rb ns mu ml := m in
  mkMetrics e h tf to n sb sg ve sgc vec sv ao (io && b) fv rb ns mu ml.
Definition set_verified (x : option bool) (m : metrics) : metrics :=
  let 'mkMetrics e h tf to n sb sg ve sgc vec sv ao io _ rb ns mu ml := m in
  mkMetrics e h tf to n sb sg ve sgc vec sv ao io x rb ns mu ml.
Definition set_reconstructed_bytes (x : Z) (m : metrics) : metrics :=
  let 'mkMetrics e h tf to n sb sg ve sgc vec sv ao io fv _ ns mu ml := m in
  mkMetrics e h tf to n sb sg ve sgc vec sv ao io fv x ns mu ml.
Definition add_signature_count (m : metrics) : metrics :=
  let 'mkMetrics e h tf to n sb sg ve sgc vec sv ao io fv rb ns mu ml := m in
  mkMetrics e h tf to n sb sg ve sgc vec sv ao io fv rb (ns + 1) mu ml.
Definition raise_backlog (u : Z) (lag : Q) (m : metrics) : metrics :=
  let 'mkMetrics e h tf to n sb sg ve sgc vec sv ao io fv rb ns mu ml := m in
  mkMetrics e h tf to n sb sg ve sgc vec sv ao io fv rb ns (Z.max mu u) (Qmax ml lag).

(** [_cover_pending(now)]. *)
Definition _cover_pending (now : Q) (c : client_state) : client_state :=
  match c_pending c with
  | [] => c
  | t0 :: _ =>
      let c' := on_metrics (raise_backlog (Z.of_nat (length (c_pending c)))
                              ((now - t0) * 1000)) c in
      mkClient (c_metrics c') [] (c_chain c') (c_terminal_seen c') (c_expected_index c')
        (c_reconstructed c')
  end.

Definition push_pending (now : Q) (c : client_state) : client_state :=
  mkClient (c_metrics c) (c_pending c ++ [now]) (c_chain c) (c_terminal_seen c)
    (c_expected_index c) (c_reconstructed c).
Definition set_chain_state (st : HashChainClientState) (c : client_state) : client_state :=
  mkClient (c_metrics c) (c_pending c) (Some st) (c_terminal_seen c) (c_expected_index c)
    (c_reconstructed c).
Definition see_terminal (c : client_state) : client_state :=
  mkClient (c_metrics c) (c_pending c) (c_chain c) true (c_expected_index c) (c_reconstructed c).
Definition next_index (c : client_state) : client_state :=
  mkClient (c_metrics c) (c_pending c) (c_chain c) (c_terminal_seen c) (c_expected_index c + 1)
    (c_reconstructed c).
(** [if result["plaintext"]: reconstructed.extend(result["plaintext"])]. *)
Definition extend_reconstructed (pt : option bytes) (c : client_state) : client_state :=
  mkClient (c_metrics c) (c_pending c) (c_chain c) (c_terminal_seen c) (c_expected_index c)
    (c_reconstructed c ++ match pt with Some b => b | None => [] end).

(** [bool(result["aead_ok"])]. *)
Definition aead_flag (o : option bool) : bool := match o with Some true => true | _ => false end.

Section Loop.
Context {E : Env} {P : Prims} {J : Json} {Cli : ClientCryptoConfig}.
(** The transaction's constants: the strategy asked for, the session key,
    the server's signing key and the handshake id. *)
Variables (strategy : string) (key spk : bytes) (hid : string).

Definition upd (f : client_state -> client_state) : M (world * client_state) unit :=
  fun '(w, c) => (Ok tt, (w, f c)).
Definition upd_m (f : metrics -> metrics) : M (world * client_state) unit := upd (on_metrics f).
Definition now : M (world * client_state) Q := on_fst perf_counter.

(** [metrics[...] += data.get(k, 0)] and the like. *)
Definition add_num (f : Q -> metrics -> metrics) (v : val) : M (world * client_state) unit :=
  let* q := of_result (as_num v) in upd_m (f q).

(** [kind == "chunk" and strategy == "per_chunk"]. *)
Definition on_per_chunk (data : dict) : M (world * client_state) unit :=
  let* index := of_result (getitem "index" data) in
  let* n := of_result (let? v := getitem "nonce" data in _b64d v) in
  let* c := of_result (let? v := getitem "ciphertext" data in _b64d v) in
  let* s := of_result (let? v := getitem "signature" data in _b64d v) in
  let chunk : dict := [("index", index); ("nonce", VBytes n); ("ciphertext", VBytes c);
                       ("signature", VBytes s)] in
  let* cl := self in
  let* result := on_fst (verify_per_chunk chunk (c_expected_index cl) key spk hid) in
  upd_m (and_signatures (pr_signature_valid result)) ;;;
  upd_m (and_aead (aead_flag (pr_aead_ok result))) ;;;
  upd_m (and_order (pr_in_order result)) ;;;
  add_num add_signature_bytes (dget_or "signature_bytes" (VInt 0) data) ;;;
  add_num add_verify_ms (pr_verify_ms result) ;;;
  add_num add_verify_cpu (pr_verify_cpu_ms result) ;;;
  add_num add_signing_ms (dget_or "sign_ms" (VFloat 0) data) ;;;
  add_num add_signing_cpu (dget_or "sign_cpu_ms" (VFloat 0) data) ;;;
  upd_m add_chunk_count ;;;
  upd_m add_signature_count ;;;
  upd next_index ;;;
  upd (extend_reconstructed (pr_plaintext result)) ;;;
  let* t := now in
  upd (push_pending t) ;;;
  if pr_signature_valid result && pr_in_order result then upd (_cover_pending t) else ret tt.

(** [verify_hash_chain_chunk(chunk, chain_state, ...)]: it mutates
    [chain_state], also when it raises after absorbing the chunk. *)
Definition run_chain_chunk (chunk : dict) (st : HashChainClientState)
    : M (world * client_state) chain_chunk_result := fun '(w, cl) =>
  let '(r, (w', st')) := verify_hash_chain_chunk true chunk key spk (w, st) in
  (r, (w', set_chain_state st' cl)).

(** [kind == "chunk" and strategy == "hash_chain"]. *)
Definition on_chain_chunk (data : dict) : M (world * client_state) unit :=
  let* index := of_result (getitem "index" data) in
  let* n := of_result (let? v := getitem "nonce" data in _b64d v) in
  let* c := of_result (let? v := getitem "ciphertext" data in _b64d v) in
  let* h := of_result (let? v := getitem "chain_hash" data in _b64d v) in
  let* s := of_result (match dget "signature" data with
                       | Some v => if truthy v then let? b := _b64d v in Ok (VBytes b)
                                   else Ok VNone
                       | None => Ok VNone
                       end) in
  let chunk : dict := [("index", index); ("nonce", VBytes n); ("ciphertext", VBytes c);
                       ("chain_hash", VBytes h); ("signature", s)] in
  let* cl := self in
  match c_chain cl with
  | None => raise (AttributeError "'NoneType' object has no attribute 'absorb'")
  | Some st =>
      let* result := run_chain_chunk chunk st in
      upd_m (and_aead (aead_flag (cr_aead_ok result))) ;;;
      add_num add_signature_bytes (dget_or "signature_bytes" (VInt 0) data) ;;;
      add_num add_signing_ms (dget_or "sign_ms" (VFloat 0) data) ;;;
      add_num add_signing_cpu (dget_or "sign_cpu_ms" (VFloat 0) data) ;;;
      add_num add_verify_ms (cr_verify_ms result) ;;;
      add_num add_verify_cpu (cr_verify_cpu_ms result) ;;;
      upd_m add_chunk_count ;;;
      upd (extend_reconstructed (cr_plaintext result)) ;;;
      let* t := now in
      upd (push_pending t) ;;;
      (if cr_checkpoint_missing result then upd_m (and_signatures false) else ret tt) ;;;
      if cr_checkpoint result then
        upd_m add_signature_count ;;;
        let valid := match cr_checkpoint_valid result with Some b => b | None => false end in
        upd_m (and_signatures valid) ;;;
        if valid then upd (_cover_pending t) else ret tt
      else ret tt
  end.

(** [kind == "final_buffered"]. *)
Definition on_final_buffered (data : dict) : M (world * client_state) unit :=
  let* n := of_result (let? v := getitem "nonce" data in _b64d v) in
  let* c := of_result (let? v := getitem "ciphertext" data in _b64d v) in
  let* s := of_result (let? v := getitem "signature" data in _b64d v) in
  let final_chunk : dict := [("nonce", VBytes n); ("ciphertext", VBytes c);
                             ("signature", VBytes s)] in
  let* result := on_fst (verify_buffer_and_sign_final final_chunk key spk hid) in
  upd see_terminal ;;;
  upd_m (and_signatures (br_signature_valid result)) ;;;
  upd_m (and_aead (aead_flag (br_aead_ok result))) ;;;
  add_num add_signature_bytes (dget_or "signature_bytes" (VInt 0) data) ;;;
  add_num add_verify_ms (br_verify_ms result) ;;;
  add_num add_verify_cpu (br_verify_cpu_ms result) ;;;
  add_num add_signing_ms (dget_or "sign_ms" (VFloat 0) data) ;;;
  add_num add_signing_cpu (dget_or "sign_cpu_ms" (VFloat 0) data) ;;;
  upd_m add_signature_count ;;;
  upd (extend_reconstructed (br_plaintext result)).

(** [kind == "final_per_chunk"]. *)
Definition on_final_per_chunk (data : dict) : M (world * client_state) unit :=
  let* vn := of_result (getitem "n_chunks" data) in
  let* s := of_result (let? v := getitem "signature" data in _b64d v) in
  let* cl := self in
  let* result := on_fst (verify_per_chunk_final
                   [("n_chunks", vn); ("signature", VBytes s)]
                   (c_expected_index cl) spk hid) in
  add_num add_signature_bytes (dget_or "signature_bytes" (VInt 0) data) ;;;
  add_num add_verify_ms (fr_verify_ms result) ;;;
  add_num add_verify_cpu (fr_verify_cpu_ms result) ;;;
  add_num add_signing_ms (dget_or "sign_ms" (VFloat 0) data) ;;;
  add_num add_signing_cpu (dget_or "sign_cpu_ms" (VFloat 0) data) ;;;
  upd_m add_signature_count ;;;
  upd_m (fun m => set_verified (Some (fr_stream_fully_verified result
           && m_all_signatures_valid m && m_all_aead_ok m && m_all_in_order m)) m) ;;;
  upd see_terminal.

(** [kind == "final_chain"]. *)
Definition on_final_chain (data : dict) : M (world * client_state) unit :=
  let* h := of_result (let? v := getitem "final_chain_hash" data in _b64d v) in
  let* vn := of_result (getitem "n_chunks" data) in
  let* s := of_result (let? v := getitem "signature" data in _b64d v) in
  let final_chunk : dict := [("final_chain_hash", VBytes h); ("n_chunks", vn);
                             ("signature", VBytes s)] in
  let* cl := self in
  match c_chain cl with
  | None => raise (AttributeError "'NoneType' object has no attribute 'running_hash'")
  | Some st =>
      let* result := on_fst (verify_hash_chain_final final_chunk st spk) in
      upd_m (set_verified (Some (cf_stream_fully_verified result))) ;;;
      upd see_terminal ;;;
      add_num add_signature_bytes (dget_or "signature_bytes" (VInt 0) data) ;;;
      add_num add_verify_ms (cf_verify_ms result) ;;;
      add_num add_verify_cpu (cf_verify_cpu_ms result) ;;;
      add_num add_signing_ms (dget_or "sign_ms" (VFloat 0) data) ;;;
      add_num add_signing_cpu (dget_or "sign_cpu_ms" (VFloat 0) data) ;;;
      upd_m add_signature_count ;;;
      if cf_stream_fully_verified result then
        let* t := now in upd (_cover_pending t)
      else ret tt
  end.

(** [kind = data.get("kind")] against a name. *)
Definition kind_is (name : string) (data : dict) : bool :=
  match dget "kind" data with Some v => val_eq_str v name | None => false end.

(** The [if]/[elif] dispatch; records of any other kind are ignored. *)
Definition dispatch (data : dict) : M (world * client_state) unit :=
  if kind_is "chunk" data && String.eqb strategy "per_chunk" then on_per_chunk data
  else if kind_is "chunk" data && String.eqb strategy "hash_chain" then on_chain_chunk data
  else if kind_is "final_buffered" data then on_final_buffered data
  else if kind_is "final_per_chunk" data then on_final_per_chunk data
  else if kind_is "final_chain" data then on_final_chain data
  else ret tt.

(** One JSON record of the stream. *)
Definition on_data (t_start : Q) (v : val) : M (world * client_state) unit :=
  let* cl := self in
  (match m_ttft_ms (c_metrics cl) with
   | None => let* t := now in upd_m (set_ttft (Some ((t - t_start) * 1000)%Q))
   | Some _ => ret tt
   end) ;;;
  let* data := of_result (as_dict v) in
  dispatch data.

(** One line of the response. *)
Definition on_line (t_start : Q) (line : string) : M (world * client_state) unit :=
  let* d := of_result (sse_data line) in
  match d with
  | None => ret tt
  | Some v => on_data t_start v
  end.

(** After the stream: totals and the terminal-record rule. *)
Definition conclude (t_start : Q) : M (world * client_state) unit :=
  let* t := now in
  upd_m (set_total (Some ((t - t_start) * 1000)%Q)) ;;;
  upd (fun c => on_metrics
         (set_reconstructed_bytes (Z.of_nat (length (c_reconstructed c)))) c) ;;;
  let* cl := self in
  if negb (c_terminal_seen cl) then upd_m (set_verified (Some false))
  else match m_stream_fully_verified (c_metrics cl) with
       | None => upd_m (fun m => set_verified
                   (Some (m_all_signatures_valid m && m_all_aead_ok m)) m)
       | Some _ => ret tt
       end.

(** The loop over the response and what follows it. *)
Definition consume (t_start : Q) (lines : list string) : M (world * client_state) unit :=
  for_each lines (on_line t_start) ;;; conclude t_start.
End Loop.

(** ** [run_streaming_transaction] *)
Section Transaction.
Context {E : Env} {P : Prims} {J : Json} {N : Type} {TR : Transport N}.

(** The transaction's state: the world and the network, and the local
    variables with the metrics. *)
Abbreviation stx_state := ((world * N) * client_state)%type.

(** Run the consumption loop's code, which does not touch the network. *)
Definition local_step {A} (m : M (world * client_state) A) : M stx_state A :=
  fun '((w, n), c) => let '(r, (w', c')) := m (w, c) in (r, ((w', n), c')).
Definition set_metric (f : metrics -> metrics) : M stx_state unit :=
  fun '(σ, c) => (Ok tt, (σ, on_metrics f c)).
Definition set_chain_var (o : option HashChainClientState) : M stx_state unit :=
  fun '(σ, c) => (Ok tt, (σ, mkClient (c_metrics c) (c_pending c) o (c_terminal_seen c)
                               (c_expected_index c) (c_reconstructed c))).

(** The plaintext of the request. *)
Definition stream_request_body (prompt strategy : string) (chunk_size_tokens max_tokens : Z)
    (checkpoint_interval : option Z) : dict :=
  [("prompt", VStr prompt); ("strategy", VStr strategy);
   ("chunk_size_tokens", VInt chunk_size_tokens); ("max_tokens", VInt max_tokens)]
  ++ match checkpoint_interval with
     | Some k => [("checkpoint_interval", VInt k)]
     | None => []
     end.

(** The lines of the response, and the exception that cuts it short. *)
Definition consume_response (Cli : ClientCryptoConfig) (strategy : string) (key spk : bytes)
    (hid : string) (t_start : Q) (resp : response) : M (world * client_state) unit :=
  for_each (resp_lines resp) (on_line strategy key spk hid t_start) ;;;
  match resp_cut resp with
  | Some e => raise e
  | None => conclude t_start
  end.

(** The body of the [try].  A handshake id that is no [str] fails here, where
    the code would fail at the first [handshake_id.encode()]. *)
Definition streaming_transaction (Cli : ClientCryptoConfig)
    (base_url prompt strategy : string) (chunk_size_tokens max_tokens : Z)
    (checkpoint_interval : option Z) : M stx_state unit :=
  let* hm := on_fst (do_handshake base_url) in
  let '(handshake_json, handshake_ms) := hm in
  set_metric (set_handshake_ms (Some handshake_ms)) ;;;
  let* kpk := of_result (let? v := getitem "kex_public_key" handshake_json in _b64d v) in
  let* spk := of_result (let? v := getitem "sig_public_key" handshake_json in _b64d v) in
  let* vhid := of_result (getitem "handshake_id" handshake_json) in
  let* est := on_fst (on_fst (establish kpk)) in
  let* text := of_result (json_dumps (VDict
    (stream_request_body prompt strategy chunk_size_tokens max_tokens checkpoint_interval))) in
  let* req_aead := on_fst (on_fst (aead_encrypt (session_key est) (encode text))) in
  let payload : dict :=
    [("handshake_id", vhid); ("kex_blob", VStr (_b64e (kex_blob est)));
     ("nonce", VStr (_b64e (nonce req_aead)));
     ("ciphertext", VStr (_b64e (ciphertext req_aead)))] in
  let* t_start := on_fst (on_fst perf_counter) in
  let* hid := of_result (as_str vhid) in
  set_chain_var (if String.eqb strategy "hash_chain"
                 then Some (new_chain_state hid checkpoint_interval) else None) ;;;
  let* resp := on_fst (http_post (base_url +:+ "/secure/predict/stream") payload []) in
  if negb (status_code resp =? 200) then
    set_metric (set_error (Some (http_error (status_code resp)
                  (bytes_repr (take_string 200 (resp_text resp))))))
  else local_step (consume_response Cli strategy (session_key est) spk hid t_start resp).

Definition client_state0 : client_state := mkClient metrics0 [] None false 0 [].

Definition run_streaming_transaction (base_url config_name prompt strategy : string)
    (chunk_size_tokens max_tokens : Z) (checkpoint_interval : option Z)
    : M (world * N) metrics :=
  let* client_crypto := of_result (get_client_crypto config_name) in
  fun σ =>
    let '(r, (σ', c)) :=
      streaming_transaction client_crypto base_url prompt strategy chunk_size_tokens max_tokens
        checkpoint_interval (σ, client_state0) in
    (Ok (match r with
         | Ok _ => c_metrics c
         | Raise e => set_error (Some (describe_exn e)) (c_metrics c)
         end), σ').
End Transaction.
