(* ===== verification/Replay.v ===== *)
(** * Sequence attacks on captured streams

    [threats/streaming_mitm_experiment.py] and
    [threats/streaming_attack_campaign.py]: a protected stream is captured, its
    records are dropped, reordered, duplicated, replayed or cut off without
    forging any, and the result is put through the client's incremental
    verification. *)
From stdpp Require Import gmap.
From S2P Require Import Prelude PyBytes PyVal World Instrumentation PyList Aead Base Configs.
From S2P Require Import Streaming Http SecureClient StreamingClient.

(** ** A captured stream *)
Record capture := mkCapture {
  cap_handshake_id : string;
  cap_session_key : bytes;
  cap_sig_public_key : bytes;
  cap_client_crypto : ClientCryptoConfig;
  cap_chunks : list dict;
  cap_final : option dict;
}.

Section Replay.
Context {E : Env} {P : Prims}.

(** *** [_mutate] of the single-position experiment *)
Definition unknown_attack (attack : string) : exn :=
  ValueError ("Unknown attack '" +:+ attack
    +:+ "'. Valid: ['drop', 'reorder', 'duplicate', 'replay', 'truncate']").

Definition mutate_middle (chunks : list dict) (final : option dict) (attack : string)
    (foreign : option (list dict)) : result (list dict * option dict) :=
  let mid := Nat.div (length chunks) 2 in
  if String.eqb attack "drop" then
    let? l := del_at chunks mid in Ok (l, final)
  else if String.eqb attack "reorder" then
    let? l := swap_at chunks mid (S mid) in Ok (l, final)
  else if String.eqb attack "duplicate" then
    let? c := getitem_at chunks (Z.of_nat mid) in Ok (insert_at chunks (S mid) c, final)
  else if String.eqb attack "replay" then
    match foreign with
    | None => Raise (TypeError "object of type 'NoneType' has no len()")
    | Some f =>
        let? c := getitem_at f (Z.min (Z.of_nat mid) (py_len f - 1)) in
        let? l := setitem_at chunks mid c in Ok (l, final)
    end
  else if String.eqb attack "truncate" then
    Ok (firstn (Nat.max 1 (Nat.div (2 * length chunks) 3)) chunks, None)
  else Raise (unknown_attack attack).

(** *** [replay_through_client] *)

(** The chunk dictionaries the verification functions read. *)
Definition per_chunk_record (data : dict) : result dict :=
  let? index := getitem "index" data in
  let? n := (let? v := getitem "nonce" data in _b64d v) in
  let? c := (let? v := getitem "ciphertext" data in _b64d v) in
  let? s := (let? v := getitem "signature" data in _b64d v) in
  Ok [("index", index); ("nonce", VBytes n); ("ciphertext", VBytes c); ("signature", VBytes s)].

Definition chain_record (data : dict) : result dict :=
  let? index := getitem "index" data in
  let? n := (let? v := getitem "nonce" data in _b64d v) in
  let? c := (let? v := getitem "ciphertext" data in _b64d v) in
  let? h := (let? v := getitem "chain_hash" data in _b64d v) in
  let? s := (match dget "signature" data with
             | Some v => if truthy v then let? b := _b64d v in Ok (VBytes b) else Ok VNone
             | None => Ok VNone
             end) in
  Ok [("index", index); ("nonce", VBytes n); ("ciphertext", VBytes c);
      ("chain_hash", VBytes h); ("signature", s)].

(** The per-chunk loop: where it rejects, or the index expected next. *)
Fixpoint replay_per_chunk (Cli : ClientCryptoConfig) (key pk : bytes) (hid : string)
    (mutated : list dict) (pos expected_index : Z) : M world (option Z * Z) :=
  match mutated with
  | [] => ret (None, expected_index)
  | data :: rest =>
      let* chunk := of_result (per_chunk_record data) in
      let* r := verify_per_chunk chunk expected_index key pk hid in
      if negb (pr_in_order r) || negb (pr_signature_valid r) || negb (aead_flag (pr_aead_ok r))
      then ret (Some pos, expected_index + 1)
      else replay_per_chunk Cli key pk hid rest (pos + 1) (expected_index + 1)
  end.

(** The hash-chain loop: where it rejects, and the chunks covered so far. *)
Fixpoint replay_hash_chain (Cli : ClientCryptoConfig) (key pk : bytes) (mutated : list dict)
    (pos covered : Z) : M (world * HashChainClientState) (option Z * Z) :=
  match mutated with
  | [] => ret (None, covered)
  | data :: rest =>
      let* chunk := of_result (chain_record data) in
      let* r := verify_hash_chain_chunk true chunk key pk in
      let valid := match cr_checkpoint_valid r with Some b => b | None => false end in
      if negb (aead_flag (cr_aead_ok r)) || cr_checkpoint_missing r
         || (cr_checkpoint r && negb valid)
      then ret (Some pos, covered)
      else replay_hash_chain Cli key pk rest (pos + 1)
             (if cr_checkpoint r then pos + 1 else covered)
  end.

(** The position and the chunks covered, as with [details=True]; without it
    the caller takes the first component. *)
Definition replay_through_client (cap : capture) (mutated : list dict) (final : option dict)
    (strategy : string) (checkpoint_interval : option Z) (enforce_schedule : bool)
    : M world (option Z * Z) :=
  let hid := cap_handshake_id cap in
  let key := cap_session_key cap in
  let pk := cap_sig_public_key cap in
  let Cli := cap_client_crypto cap in
  let n := py_len mutated in
  if String.eqb strategy "per_chunk" then
    let* res := replay_per_chunk Cli key pk hid mutated 0 0 in
    match res with
    | (Some pos, _) => ret (Some pos, pos)
    | (None, expected_index) =>
        let* ok := (match final with
                    | None => ret false
                    | Some final =>
                        let* vn := of_result (getitem "n_chunks" final) in
                        let* s := of_result (let? v := getitem "signature" final in _b64d v) in
                        let* r := verify_per_chunk_final
                                    [("n_chunks", vn); ("signature", VBytes s)]
                                    expected_index pk hid in
                        ret (fr_stream_fully_verified r)
                    end) in
        ret ((if ok then None else Some n), n)
    end
  else if String.eqb strategy "hash_chain" then
    fun w =>
      let st0 := new_chain_state hid (if enforce_schedule then checkpoint_interval else None) in
      let '(r, (w1, st)) := replay_hash_chain Cli key pk mutated 0 0 (w, st0) in
      match r with
      | Raise e => (Raise e, w1)
      | Ok (Some pos, covered) => (Ok (Some pos, covered), w1)
      | Ok (None, covered) =>
          (let* ok := (match final with
                       | None => ret false
                       | Some final =>
                           let* h := of_result
                                (let? v := getitem "final_chain_hash" final in _b64d v) in
                           let* vn := of_result (getitem "n_chunks" final) in
                           let* s := of_result (let? v := getitem "signature" final in _b64d v) in
                           let* r := verify_hash_chain_final
                                       [("final_chain_hash", VBytes h); ("n_chunks", vn);
                                        ("signature", VBytes s)] st pk in
                           ret (cf_stream_fully_verified r)
                       end) in
           ret ((if ok then None else Some n), if ok then n else covered)) w1
      end
  else raise (ValueError ("no intermediate chunks to replay for strategy '"
                          +:+ strategy +:+ "'")).

(** ** [_collect_stream] *)
Section Collect.
Context {J : Json} {N : Type} {TR : Transport N}.

(** One line of the response: chunks are appended, a terminal record kept. *)
Definition collect_line (line : string) : M ((world * N) * (list dict * option dict)) unit :=
  let* d := of_result (sse_data line) in
  match d with
  | None => ret tt
  | Some v =>
      let* data := of_result (as_dict v) in
      if kind_is "chunk" data then
        fun '(σ, (chunks, final)) => (Ok tt, (σ, (chunks ++ [data], final)))
      else if kind_is "final_buffered" data || kind_is "final_chain" data
              || kind_is "final_per_chunk" data then
        fun '(σ, (chunks, _)) => (Ok tt, (σ, (chunks, Some data)))
      else ret tt
  end.

Definition collect_lines (resp : response) : M (world * N) (list dict * option dict) := fun σ =>
  let '(r, (σ', cf)) := (for_each (resp_lines resp) collect_line ;;;
                         match resp_cut resp with Some e => raise e | None => ret tt end)
                        (σ, ([], None)) in
  (let? _ := r in Ok cf, σ').

Definition _collect_stream (base_url config_name strategy prompt : string)
    (max_tokens chunk_size_tokens : Z) (checkpoint_interval : option Z)
    : M (world * N) capture :=
  let* client_crypto := of_result (get_client_crypto config_name) in
  let* hm := do_handshake base_url in
  let handshake_json := fst hm in
  let* kpk := of_result (let? v := getitem "kex_public_key" handshake_json in _b64d v) in
  let* est := on_fst (establish kpk) in
  let* text := of_result (json_dumps (VDict
    (stream_request_body prompt strategy chunk_size_tokens max_tokens checkpoint_interval))) in
  let* req_aead := on_fst (aead_encrypt (session_key est) (encode text)) in
  let* vhid := of_result (getitem "handshake_id" handshake_json) in
  let payload : dict :=
    [("handshake_id", vhid); ("kex_blob", VStr (_b64e (kex_blob est)));
     ("nonce", VStr (_b64e (nonce req_aead)));
     ("ciphertext", VStr (_b64e (ciphertext req_aead)))] in
  let* resp := http_post (base_url +:+ "/secure/predict/stream") payload [] in
  if negb (status_code resp =? 200) then
    raise (RuntimeError ("HTTP " +:+ pretty.pretty (status_code resp)))
  else
    let* cf := collect_lines resp in
    let* spk := of_result (let? v := getitem "sig_public_key" handshake_json in _b64d v) in
    let* hid := of_result (as_str vhid) in
    ret (mkCapture hid (session_key est) spk client_crypto (fst cf) (snd cf)).

(** ** [run_trial]: the row, and the chunks handed to the next trial *)
Definition ATTACKABLE_STRATEGIES : list string := ["per_chunk"; "hash_chain"].
Definition ATTACKS : list string := ["drop"; "reorder"; "duplicate"; "replay"; "truncate"].

Definition trial_row (config_name strategy attack : string) (checkpoint_interval : option Z) : dict :=
  [("config", VStr config_name); ("strategy", VStr strategy); ("attack", VStr attack);
   ("error", VNone); ("n_chunks", VNone); ("detected", VNone); ("detected_mid_stream", VNone);
   ("chunks_before_detection", VNone); ("fraction_delivered_before_detection", VNone);
   ("checkpoint_interval", opt_int checkpoint_interval)].

(** The trial's state: the row and the chunks to hand on. *)
Abbreviation trial_state := ((world * N) * (dict * option (list dict)))%type.
Definition put_row (k : string) (v : val) : M trial_state unit :=
  fun '(σ, (row, f)) => (Ok tt, (σ, (dset k v row, f))).

Definition trial_body (base_url config_name strategy attack prompt : string)
    (max_tokens chunk_size_tokens : Z) (checkpoint_interval : option Z)
    (foreign_chunks : option (list dict)) : M trial_state unit :=
  let collect := on_fst (_collect_stream base_url config_name strategy prompt max_tokens
                           chunk_size_tokens checkpoint_interval) in
  let* cap := collect in
  let empty := match foreign_chunks with Some (_ :: _) => false | _ => true end in
  let* foreign := (if String.eqb attack "replay" && empty
                   then let* donor := collect in ret (Some (cap_chunks donor))
                   else ret foreign_chunks) in
  (fun '(σ, (row, _)) => (Ok tt, (σ, (row, Some (cap_chunks cap))))) ;;;
  put_row "n_chunks" (VInt (py_len (cap_chunks cap))) ;;;
  if py_len (cap_chunks cap) <? 3 then
    put_row "error" (VStr ("stream too short to attack ("
      +:+ pretty.pretty (py_len (cap_chunks cap)) +:+ " chunks, need >=3)"))
  else
    let* mf := of_result (mutate_middle (cap_chunks cap) (cap_final cap) attack foreign) in
    let '(mutated, final) := mf in
    let* pc := on_fst (on_fst (replay_through_client cap mutated final strategy
                                 checkpoint_interval true)) in
    let detected_at := fst pc in
    let n := py_len mutated in
    let before := match detected_at with Some p => p | None => n end in
    put_row "detected"
      (VBool (match detected_at with Some _ => true | None => false end)) ;;;
    put_row "detected_mid_stream"
      (VBool (match detected_at with Some p => p <? n | None => false end)) ;;;
    put_row "chunks_before_detection" (VInt before) ;;;
    let* fraction := of_result (true_div before n) in
    put_row "fraction_delivered_before_detection" (VFloat fraction).

Definition run_trial (base_url config_name strategy attack prompt : string)
    (max_tokens chunk_size_tokens : Z) (checkpoint_interval : option Z)
    (foreign_chunks : option (list dict)) : M (world * N) (dict * option (list dict)) := fun σ =>
  let row := trial_row config_name strategy attack checkpoint_interval in
  if negb (bool_decide (strategy ∈ ATTACKABLE_STRATEGIES)) then
    (Ok (dset "error" (VStr ("not applicable -- buffer_and_sign has no intermediate chunks to attack; "
           +:+ "it never delivers anything before the end regardless")) row, None), σ)
  else
    let '(r, (σ', (row, f))) :=
      trial_body base_url config_name strategy attack prompt max_tokens chunk_size_tokens
        checkpoint_interval foreign_chunks (σ, (row, None)) in
    (Ok (match r with
         | Ok _ => row
         | Raise e => dset "error" (VStr (describe_exn e)) row
         end, f), σ').

(** ** [run_experiment] *)
Definition run_trials (base_url config_name strategy attack prompt : string)
    (max_tokens chunk_size_tokens : Z) (checkpoint_interval : option Z)
    : nat -> option (list dict) -> M (world * N) (list dict) :=
  fix go (n : nat) (foreign : option (list dict)) : M (world * N) (list dict) :=
    match n with
    | O => ret []
    | S n =>
        let* rf := run_trial base_url config_name strategy attack prompt max_tokens
                     chunk_size_tokens checkpoint_interval foreign in
        let foreign := match snd rf with Some (x :: l) => Some (x :: l) | _ => foreign end in
        let* rows := go n foreign in
        ret (fst rf :: rows)
    end.
End Collect.

(** ** [summarize] *)
Definition is_none (v : option val) : bool :=
  match v with None => true | Some VNone => true | _ => false end.
Definition get_truthy (k : string) (d : dict) : bool :=
  match dget k d with Some v => truthy v | None => false end.
Definition count_true {A} (f : A -> bool) (l : list A) : Z := py_len (List.filter f l).
Definition ratio (a b : Z) : Q := (inject_Z a / inject_Z b)%Q.
Definition float_values (k : string) (rows : list dict) : list Q :=
  omap (fun r => match dget k r with
                 | Some v => match as_num v with Ok q => Some q | Raise _ => None end
                 | None => None
                 end) rows.

Definition trial_summary (rows : list dict) (config strategy attack : string) : dict :=
  let valid := List.filter (fun r => is_none (dget "error" r)) rows in
  let n_valid := py_len valid in
  let per n := if n_valid =? 0 then VNone else VFloat (ratio n n_valid) in
  [("config", VStr config); ("strategy", VStr strategy); ("attack", VStr attack);
   ("checkpoint_interval", match rows with
                           | r :: _ => dget_or "checkpoint_interval" VNone r
                           | [] => VNone
                           end);
   ("n_trials", VInt (py_len rows)); ("n_valid_trials", VInt n_valid);
   ("detection_rate", per (count_true (get_truthy "detected") valid));
   ("mid_stream_detection_rate", per (count_true (get_truthy "detected_mid_stream") valid));
   ("fraction_delivered_before_detection_mean",
    opt_float (mean_or_none (float_values "fraction_delivered_before_detection" valid)))].

(** The attacks and repetitions of a strategy. *)
Definition combo_attacks (strategy : string) (attacks : list string) : result (list string) :=
  if bool_decide (strategy ∈ ATTACKABLE_STRATEGIES) then Ok attacks
  else let? a := getitem_at attacks 0 in Ok [a].

Section Experiment.
Context {J : Json} {N : Type} {TR : Transport N}.
Variables (base_url prompt : string) (trials max_tokens chunk_size_tokens : Z)
          (checkpoint_interval : option Z).

(** The trials of one combination, appended to the rows and summaries. *)
Definition run_combo (config strategy attack : string)
    : M ((world * N) * (list dict * list dict)) unit := fun '(σ, (raw, sums)) =>
  let n := if bool_decide (strategy ∈ ATTACKABLE_STRATEGIES) then Z.to_nat trials else 1%nat in
  let '(r, σ') := run_trials base_url config strategy attack prompt max_tokens
                    chunk_size_tokens checkpoint_interval n None σ in
  match r with
  | Ok rows => (Ok tt, (σ', (raw ++ rows, sums ++ [trial_summary rows config strategy attack])))
  | Raise e => (Raise e, (σ', (raw, sums)))
  end.

Definition run_experiment (configs strategies attacks : list string)
    : M (world * N) (list dict * list dict) := fun σ =>
  let '(r, (σ', out)) :=
    for_each configs (fun config =>
      for_each strategies (fun strategy =>
        let* l := of_result (combo_attacks strategy attacks) in
        for_each l (fun attack => run_combo config strategy attack))) (σ, ([], [])) in
  (let? _ := r in Ok out, σ').
End Experiment.
End Replay.
