(* ===== verification/Campaign.v ===== *)
(** * The attack campaign ([threats/streaming_attack_campaign.py])

    Static and adaptive sequence attacks at random positions over a pool of
    captured streams, and the statistics of a cell.  SciPy's beta quantile is
    a parameter. *)
From stdpp Require Import gmap.
From S2P Require Import Prelude PyBytes PyVal World Instrumentation PyList Aead Base Configs.
From S2P Require Import Streaming Http StreamingClient Replay.

Definition STATIC : list string :=
  ["drop"; "reorder"; "duplicate"; "replay"; "truncate"; "session_replay"].
Definition ADAPTIVE : list string :=
  ["checkpoint_strip"; "checkpoint_strip_v2client"; "checkpoint_move";
   "drop_before_ckpt"; "drop_after_ckpt"; "reorder_across"].

(** [clopper_pearson] of [threats/key_substitution.py]. *)
Definition clopper_pearson (beta_ppf : Q -> Z -> Z -> Q) (k n : Z) : Q * Q :=
  let alpha := (5 # 100)%Q in
  (if k =? 0 then 0%Q else beta_ppf (alpha / 2)%Q k (n - k + 1),
   if k =? n then 1%Q else beta_ppf (1 - alpha / 2)%Q (k + 1) (n - k)).

(** Positions of the chunks that carry a signature. *)
Definition _ckpt_positions (chunks : list dict) : list Z :=
  omap id (imap (fun i c => if signature_present c then Some (Z.of_nat i) else None) chunks).

Section Campaign.
Context {R : Type} {RND : Random R}.

(** The mutated chunks, the terminal record and the first affected position. *)
Abbreviation mutation := ((list dict * option dict) * Z)%type.

Definition strip_checkpoint (c : dict) : dict :=
  if signature_present c then dset "signature_bytes" (VInt 0) (dset "signature" VNone c) else c.

Definition drop_slice (chunks : list dict) (i : Z) : list dict :=
  firstn (Z.to_nat i) chunks ++ skipn (S (Z.to_nat i)) chunks.

Definition mutate_static (cap donor : capture) (attack : string) : M R (option mutation) :=
  let chunks := cap_chunks cap in
  let final := cap_final cap in
  let n := py_len chunks in
  if String.eqb attack "drop" then
    let* i := randrange 0 n in ret (Some ((drop_slice chunks i, final), i))
  else if String.eqb attack "reorder" then
    let* i := randrange 0 (n - 1) in
    let* l := of_result (swap_at chunks (Z.to_nat i) (S (Z.to_nat i))) in
    ret (Some ((l, final), i))
  else if String.eqb attack "duplicate" then
    let* i := randrange 0 n in
    let* c := of_result (getitem_at chunks i) in
    ret (Some ((firstn (S (Z.to_nat i)) chunks ++ [c] ++ skipn (S (Z.to_nat i)) chunks, final),
               i + 1))
  else if String.eqb attack "replay" then
    let* i := randrange 0 (Z.min n (py_len (cap_chunks donor))) in
    let* c := of_result (getitem_at (cap_chunks donor) i) in
    let* l := of_result (setitem_at chunks (Z.to_nat i) c) in
    ret (Some ((l, final), i))
  else if String.eqb attack "truncate" then
    let* cut := randrange 1 (n + 1) in
    ret (Some ((firstn (Z.to_nat cut) chunks, None), cut))
  else ret (Some ((cap_chunks donor, cap_final donor), 0)).

Definition checkpoint_move (chunks : list dict) (j : nat) : result (list dict) :=
  let? next := getitem_at chunks (Z.of_nat (S j)) in
  let? c := getitem_at chunks (Z.of_nat j) in
  let? sg := getitem "signature" c in
  let? l := setitem_at chunks (S j) (dset "signature" sg next) in
  setitem_at l j (dset "signature" VNone c).

Definition mutate_adaptive (cap : capture) (attack strategy : string) : M R (option mutation) :=
  let chunks := cap_chunks cap in
  let final := cap_final cap in
  let n := py_len chunks in
  match _ckpt_positions chunks with
  | [] => ret None
  | ck0 :: _ =>
    if negb (String.eqb strategy "hash_chain") then ret None
    else if String.eqb attack "checkpoint_strip" || String.eqb attack "checkpoint_strip_v2client"
    then ret (Some ((map strip_checkpoint chunks, final), ck0))
    else
      let* j := choice (_ckpt_positions chunks) in
      let jn := Z.to_nat j in
      if String.eqb attack "checkpoint_move" then
        if n <=? j + 1 then ret None
        else let* l := of_result (checkpoint_move chunks jn) in ret (Some ((l, final), j))
      else if String.eqb attack "drop_before_ckpt" then
        if j =? 0 then ret None
        else ret (Some ((firstn (jn - 1) chunks ++ skipn jn chunks, final), j - 1))
      else if String.eqb attack "drop_after_ckpt" then
        if n <=? j + 1 then ret None
        else ret (Some ((firstn (S jn) chunks ++ skipn (S (S jn)) chunks, final), j + 1))
      else if String.eqb attack "reorder_across" then
        if n <=? j + 1 then ret None
        else let* l := of_result (swap_at chunks jn (S jn)) in ret (Some ((l, final), j))
      else raise (ValueError attack)
  end.

Definition _mutate (cap donor : capture) (attack strategy : string) : M R (option mutation) :=
  if bool_decide (attack ∈ STATIC) then mutate_static cap donor attack
  else mutate_adaptive cap attack strategy.

(** ** [run_cell] *)
Context {E : Env} {P : Prims}.
Variable beta_ppf : Q -> Z -> Z -> Q.

Record tally := mkTally {
  t_n : Z; t_det : Z; t_mid : Z; t_tries : Z;
  t_exposures : list Z; t_unverified : list Z }.
Definition tally0 : tally := mkTally 0 0 0 0 [] [].

Definition record_trial (attack : string) (mutated : list dict) (first : Z)
    (pc : option Z * Z) (t : tally) : tally :=
  match pc with
  | (Some pos, covered) =>
      mkTally (t_n t + 1) (t_det t + 1) (t_mid t + (if pos <? py_len mutated then 1 else 0))
        (t_tries t) (t_exposures t ++ [Z.max 0 (pos - first)])
        (t_unverified t ++ [pos - covered])
  | (None, _) =>
      mkTally (t_n t + 1) (t_det t) (t_mid t) (t_tries t) (t_exposures t)
        (if String.eqb attack "checkpoint_strip_v2client"
         then t_unverified t ++ [py_len mutated] else t_unverified t)
  end.

Definition count_try (t : tally) : tally :=
  mkTally (t_n t) (t_det t) (t_mid t) (t_tries t + 1) (t_exposures t) (t_unverified t).

Definition one_try (pool : list capture) (strategy : string) (k : option Z) (attack : string)
    (t : tally) : M (world * R) tally :=
  let t := count_try t in
  let* ab := on_snd (sample2 (py_len pool)) in
  let* cap := of_result (getitem_at pool (fst ab)) in
  let* donor := of_result (getitem_at pool (snd ab)) in
  let* m := on_snd (_mutate cap donor attack strategy) in
  match m with
  | None => ret t
  | Some ((mutated, final), first) =>
      let* pc := on_fst (replay_through_client cap mutated final strategy k
                           (negb (String.eqb attack "checkpoint_strip_v2client"))) in
      ret (record_trial attack mutated first pc t)
  end.

(** [while n < trials and tries < trials * 5]: at most [5 * trials] turns. *)
Fixpoint attack_loop (fuel : nat) (pool : list capture) (strategy : string) (k : option Z)
    (attack : string) (trials : Z) (t : tally) : M (world * R) tally :=
  if (t_n t <? trials) && (t_tries t <? trials * 5) then
    match fuel with
    | O => ret t
    | S fuel =>
        let* t := one_try pool strategy k attack t in
        attack_loop fuel pool strategy k attack trials t
    end
  else ret t.

Definition n_chunks_mean (pool : list capture) : result Q :=
  true_div (Zsum (map (fun c => py_len (cap_chunks c)) pool)) (py_len pool).

Definition ci_val (k n : Z) : val :=
  let '(lo, hi) := clopper_pearson beta_ppf k n in VList [VFloat lo; VFloat hi].

Definition Zmean_or_none (l : list Z) : option Q := mean_or_none (map inject_Z l).

(** The row of one attack. *)
Definition attack_row (cfg strategy : string) (k : option Z) (attack : string) (t : tally)
    (mean : Q) : dict :=
  [("config", VStr cfg); ("strategy", VStr strategy); ("checkpoint_interval", opt_int k);
   ("attack", VStr attack); ("n", VInt (t_n t)); ("detected", VInt (t_det t));
   ("detected_ci95", if t_n t =? 0 then VNone else ci_val (t_det t) (t_n t));
   ("mid_stream", VInt (t_mid t));
   ("exposure_chunks_mean", opt_float (Zmean_or_none (t_exposures t)));
   ("exposure_chunks_max", opt_int (Zmax_or_none (t_exposures t)));
   ("unverified_at_detection_mean", opt_float (Zmean_or_none (t_unverified t)));
   ("unverified_at_detection_max", opt_int (Zmax_or_none (t_unverified t)));
   ("n_chunks_mean", VFloat mean)].

(** The false-rejection baseline: genuine streams the client rejects. *)
Fixpoint count_rejected (pool : list capture) (strategy : string) (k : option Z) : M world Z :=
  match pool with
  | [] => ret 0
  | c :: rest =>
      let* pc := replay_through_client c (cap_chunks c) (cap_final c) strategy k true in
      let* n := count_rejected rest strategy k in
      ret ((match fst pc with Some _ => 1 | None => 0 end) + n)
  end.

Definition benign_row (cfg strategy : string) (k : option Z) (rejected n : Z) (mean : Q) : dict :=
  [("config", VStr cfg); ("strategy", VStr strategy); ("checkpoint_interval", opt_int k);
   ("attack", VStr "benign"); ("n", VInt n); ("detected", VInt rejected);
   ("detected_ci95", ci_val rejected n); ("mid_stream", VNone);
   ("exposure_chunks_mean", VNone); ("exposure_chunks_max", VNone);
   ("unverified_at_detection_mean", VNone); ("unverified_at_detection_max", VNone);
   ("n_chunks_mean", VFloat mean)].

Definition cell_attacks (strategy : string) (k : option Z) : list string :=
  STATIC ++ (if String.eqb strategy "hash_chain"
                && match k with Some k => negb (k =? 0) | None => false end
             then ADAPTIVE else []).

Definition attack_rows (pool : list capture) (cfg strategy : string) (k : option Z)
    (trials : Z) : list string -> M (world * R) (list dict) :=
  fix go attacks :=
    match attacks with
    | [] => ret []
    | attack :: rest =>
        let* t := attack_loop (Z.to_nat (trials * 5)) pool strategy k attack trials tally0 in
        let* mean := of_result (n_chunks_mean pool) in
        let* rows := go rest in
        ret (attack_row cfg strategy k attack t mean :: rows)
    end.

Definition run_cell (pool : list capture) (cfg strategy : string) (k : option Z) (trials : Z)
    : M (world * R) (list dict) :=
  let* rejected := on_fst (count_rejected pool strategy k) in
  let* mean := of_result (n_chunks_mean pool) in
  let row := benign_row cfg strategy k rejected (py_len pool) mean in
  let* rows := attack_rows pool cfg strategy k trials (cell_attacks strategy k) in
  ret (row :: rows).
End Campaign.
