(* ===== verification/KeySubstitution.v ===== *)
(** * Key substitution ([threats/key_substitution.py])

    The man in the middle that replaces the server's key shares: one trial
    with the client in the program's own steps, the attacker's two legs, and
    the summaries.  The attacker is a server object of its own. *)
From Stdlib Require Import Strings.Byte.
From stdpp Require Import gmap.
From S2P Require Import Prelude PyBytes PyVal World Instrumentation PyList Aead Base Configs.
From S2P Require Import Http HandshakeAuth SecureClient Replay Campaign.

(** [v == w] of decoded JSON: numbers by value, dictionaries in any order. *)
Fixpoint py_eqb (v w : val) : bool :=
  match v, w with
  | VNone, VNone => true
  | VStr a, VStr b => String.eqb a b
  | VBytes a, VBytes b => bytes_eqb a b
  | VList l, VList m =>
      (fix go l m := match l, m with
                     | [], [] => true
                     | x :: l, y :: m => py_eqb x y && go l m
                     | _, _ => false
                     end) l m
  | VDict d, VDict e =>
      Nat.eqb (length d) (length e)
      && (fix go d := match d with
                      | [] => true
                      | (k, x) :: d => match dget k e with
                                       | Some y => py_eqb x y && go d
                                       | None => false
                                       end
                      end) d
  | _, _ => match as_num v, as_num w with Ok a, Ok b => Qeq_bool a b | _, _ => false end
  end.

Definition VARIANTS : list string := ["benign"; "substitute"; "substitute_resign"; "relay_tamper"].
Definition MODES : list string := ["unauthenticated"; "pinned"].
Definition FORGED_PREDICTION : string := "attacker-chosen".

Definition xor_byte (x : Z) (b : Byte.byte) : Byte.byte := byte_of_Z (Z.lxor (Z_of_byte b) x).

(** [resp_ct[:-1] + bytes([resp_ct[-1] ^ 0x01])]. *)
Definition flip_last (b : bytes) : result bytes :=
  match rev b with
  | [] => Raise (IndexError "index out of range")
  | x :: r => Ok (rev r ++ [xor_byte 1 x])
  end.

Section Trial.
Context {E : Env} {P : Prims} {J : Json} {N : Type} {TR : Transport N}.

(** The attacker's own server object, a local variable of the trial. *)
Definition with_server {T A} (s : T) (m : M (world * T) A) : M (world * N) (A * T) :=
  fun '(w, n) => let '(r, (w', s')) := m (w, s) in (let? a := r in Ok (a, s'), (w', n)).

Definition trial_out (cfg variant mode : string) (error : val) : dict :=
  [("config", VStr cfg); ("variant", VStr variant); ("mode", VStr mode); ("error", error);
   ("client_accepted", VBool false); ("rejected_at", VNone);
   ("attacker_read_request", VBool false); ("forged_response_accepted", VBool false)].

(** 1. What the client receives for the handshake. *)
Definition intercept (c : config) (variant : string) (attacker_identity : IdentityKey)
    (real_hs : dict) : M (world * N) (dict * option (cfg_state c)) :=
  if String.eqb variant "substitute" || String.eqb variant "substitute_resign" then
    let* hid := of_result (str_field "handshake_id" real_hs) in
    let* bs := with_server (server_init (ServerCryptoConfig := cfg_server c))
                 (new_handshake (ServerCryptoConfig := cfg_server c) (Some hid)) in
    let '(bundle, atk) := bs in
    let hs := dset "sig_public_key" (VStr (_b64e (hb_sig_public_key bundle)))
                (dset "kex_public_key" (VStr (_b64e (kex_public_key bundle))) real_hs) in
    if String.eqb variant "substitute_resign" then
      let* ka := of_result (str_field "kex_algorithm" hs) in
      let* sa := of_result (str_field "sig_algorithm" hs) in
      let* t := of_result (transcript hid ka sa (kex_public_key bundle) (hb_sig_public_key bundle)) in
      let* sm := on_fst (IdentityKey_sign attacker_identity t) in
      ret (dset "transcript_signature" (VStr (_b64e (fst sm))) hs, Some atk)
    else ret (hs, Some atk)
  else ret (real_hs, None).

Definition get_b64 (k : string) (j : dict) : result bytes := let? v := getitem k j in _b64d v.

Definition predict_payload (hid : val) (kex_blob nonce ciphertext : bytes) : dict :=
  [("handshake_id", hid); ("kex_blob", VStr (_b64e kex_blob)); ("nonce", VStr (_b64e nonce));
   ("ciphertext", VStr (_b64e ciphertext))].

(** [r.raise_for_status(); rj = r.json()]. *)
Definition post_predict (base_url : string) (payload : dict) : M (world * N) dict :=
  let* r := http_post (base_url +:+ "/secure/predict") payload [] in
  of_result (raise_for_status r) ;;;
  let* v := of_result (resp_json r) in
  of_result (as_dict v).

(** The plaintext response and what the attacker forges from it. *)
Definition forge (plaintext : bytes) : result dict :=
  let? v := json_loads plaintext in
  let? genuine := as_dict v in
  Ok (dset "prediction" (VStr FORGED_PREDICTION) genuine).

(** 4a. The attacker as the client's server, and its own session upstream. *)
Definition attacker_leg (c : config) (base_url : string) (real_hs hs : dict) (request : dict)
    (est : EstablishResult) (req : AEADResult) (atk : cfg_state c)
    : M (world * N) (bool * (bytes * bytes * bytes)) :=
  let* hid := of_result (str_field "handshake_id" hs) in
  let* ka := with_server atk (accept (ServerCryptoConfig := cfg_server c) hid (kex_blob est)) in
  let '((atk_key, _), atk) := ka in
  let* plaintext := of_result (aead_decrypt atk_key (nonce req) (ciphertext req)) in
  let* seen := of_result (json_loads plaintext) in
  let read := py_eqb seen (VDict request) in
  let* up_kpk := of_result (get_b64 "kex_public_key" real_hs) in
  let* up_est := on_fst (establish (ClientCryptoConfig := cfg_client c) up_kpk) in
  let* up_req := on_fst (aead_encrypt (session_key up_est) plaintext) in
  let* real_hid := of_result (getitem "handshake_id" real_hs) in
  let* rj := post_predict base_url
               (predict_payload real_hid (kex_blob up_est) (nonce up_req) (ciphertext up_req)) in
  let* rn := of_result (get_b64 "nonce" rj) in
  let* rc := of_result (get_b64 "ciphertext" rj) in
  let* opened := of_result (aead_decrypt (session_key up_est) rn rc) in
  let* forged := of_result (forge opened) in
  let* text := of_result (json_dumps (VDict forged)) in
  let* resp := on_fst (aead_encrypt atk_key (encode text)) in
  let* ss := with_server atk (sign (ServerCryptoConfig := cfg_server c) hid
                                (nonce resp ++ ciphertext resp)) in
  let '((signature, _), atk) := ss in
  let* _ := with_server atk (forget (ServerCryptoConfig := cfg_server c) hid) in
  ret (read, (nonce resp, ciphertext resp, signature)).

(** 4b. The attacker that relays, and flips a byte on the way back. *)
Definition relay_leg (variant base_url : string) (hid : val) (est : EstablishResult)
    (req : AEADResult) : M (world * N) (bool * (bytes * bytes * bytes)) :=
  let tamper := String.eqb variant "relay_tamper" in
  let* read := (if tamper then
                  let* guess := on_fst (os_urandom 32) in
                  match aead_decrypt guess (nonce req) (ciphertext req) with
                  | Ok _ => ret true
                  | Raise AEADError => ret false
                  | Raise e => raise e
                  end
                else ret false) in
  let* rj := post_predict base_url
               (predict_payload hid (kex_blob est) (nonce req) (ciphertext req)) in
  let* n := of_result (get_b64 "nonce" rj) in
  let* c := of_result (get_b64 "ciphertext" rj) in
  let* s := of_result (get_b64 "signature" rj) in
  let* c := of_result (if tamper then flip_last c else Ok c) in
  ret (read, (n, c, s)).

(** 5. The client on the response. *)
Definition judge (c : config) (key : bytes) (hs : dict) (n ct s : bytes) (out : dict)
    : M (world * N) dict :=
  match aead_decrypt key n ct with
  | Raise AEADError => ret (dset "rejected_at" (VStr "aead") out)
  | Raise e => raise e
  | Ok pt =>
      let* v := of_result (json_loads pt) in
      let* spk := of_result (get_b64 "sig_public_key" hs) in
      let* vm := on_fst (verify (ClientCryptoConfig := cfg_client c) (n ++ ct) s spk) in
      if negb (fst vm) then ret (dset "rejected_at" (VStr "signature") out)
      else
        let* body := of_result (as_dict v) in
        ret (dset "forged_response_accepted"
               (VBool (val_eq_str (dget_or "prediction" VNone body) FORGED_PREDICTION))
               (dset "client_accepted" (VBool true) out))
  end.

Definition _trial (base_url cfg variant mode : string) (pinned : string * bytes)
    (attacker_identity : IdentityKey) (request : dict) : M (world * N) dict :=
  let out := trial_out cfg variant mode VNone in
  let* c := of_result (get_crypto cfg) in
  let* hm := do_handshake base_url in
  let real_hs := fst hm in
  let* ha := intercept c variant attacker_identity real_hs in
  let '(hs, atk) := ha in
  let* ok := (if String.eqb mode "pinned"
              then let* om := on_fst (verify_handshake hs pinned) in ret (fst om)
              else ret true) in
  if negb ok then ret (dset "rejected_at" (VStr "handshake") out)
  else
    let* kpk := of_result (get_b64 "kex_public_key" hs) in
    let* est := on_fst (establish (ClientCryptoConfig := cfg_client c) kpk) in
    let* text := of_result (json_dumps (VDict request)) in
    let* req := on_fst (aead_encrypt (session_key est) (encode text)) in
    let* hid := of_result (getitem "handshake_id" hs) in
    let* leg := (match atk with
                 | Some atk => attacker_leg c base_url real_hs hs request est req atk
                 | None => relay_leg variant base_url hid est req
                 end) in
    let '(read, (n, ct, s)) := leg in
    judge c (session_key est) hs n ct s (dset "attacker_read_request" (VBool read) out).

(** A trial with its exceptions caught, as [run_config] runs it. *)
Definition caught_trial (base_url cfg variant mode : string) (pinned : string * bytes)
    (attacker_identity : IdentityKey) (request : dict) : M (world * N) dict :=
  try_catch (_trial base_url cfg variant mode pinned attacker_identity request)
    (fun e => ret (trial_out cfg variant mode (VStr (describe_exn e)))).

(** ** Summaries *)
Variable beta_ppf : Q -> Z -> Z -> Q.

Definition count_rejections (rows : list dict) : dict :=
  fold_left (fun at_ r => match dget "rejected_at" r with
                          | Some (VStr s) =>
                              if truthy (VStr s) then
                                dset s (VInt (match dget s at_ with
                                              | Some (VInt z) => z + 1
                                              | _ => 1
                                              end)) at_
                              else at_
                          | _ => at_
                          end) rows [].

Definition keysub_summary (rows : list dict) : result dict :=
  let valid := List.filter (fun r => is_none (dget "error" r)) rows in
  let nv := py_len valid in
  let k_acc := count_true (get_truthy "client_accepted") valid in
  let k_read := count_true (get_truthy "attacker_read_request") valid in
  let k_forged := count_true (get_truthy "forged_response_accepted") valid in
  let ci k := if nv =? 0 then VNone
              else let '(lo, hi) := clopper_pearson beta_ppf k nv in VList [VFloat lo; VFloat hi] in
  let? first := getitem_at rows 0 in
  let? config := getitem "config" first in
  let? variant := getitem "variant" first in
  let? mode := getitem "mode" first in
  Ok [("config", config); ("variant", variant); ("mode", mode); ("n_trials", VInt (py_len rows));
      ("n_valid", VInt nv); ("accepted", VInt k_acc); ("accepted_ci95", ci k_acc);
      ("attacker_read_request", VInt k_read); ("forged_response_accepted", VInt k_forged);
      ("forged_ci95", ci k_forged); ("rejected_at", VDict (count_rejections valid))].

Fixpoint repeat_trial (n : nat) (trial : M (world * N) dict) : M (world * N) (list dict) :=
  match n with
  | O => ret []
  | S n => let* r := trial in let* rs := repeat_trial n trial in ret (r :: rs)
  end.

(** All modes and variants against one server. *)
Definition run_config (base_url cfg : string) (trials : nat) (request : dict)
    : M (world * N) (list dict) :=
  let* pinned := fetch_identity base_url in
  let* attacker_identity := on_fst (IdentityKey_generate (fst pinned)) in
  let combos := flat_map (fun mode => map (fun variant => (mode, variant)) VARIANTS) MODES in
  fun σ =>
    let '(r, (σ', out)) :=
      for_each combos (fun mv => fun '(σ, out) =>
        let '(r, σ') := (let* rows := repeat_trial trials
                            (caught_trial base_url cfg (snd mv) (fst mv) pinned attacker_identity
                               request) in
                         of_result (keysub_summary rows)) σ in
        match r with
        | Ok s => (Ok tt, (σ', out ++ [s]))
        | Raise e => (Raise e, (σ', out))
        end) (σ, []) in
    (let? _ := r in Ok out, σ').
End Trial.
