(* ===== verification/Mitm.v ===== *)
(** * The tampering proxy ([threats/mitm_harness.py], [threats/mitm_experiment.py])

    A proxy between client and server, as a transport made from a transport:
    it flips one byte of a prediction's ciphertext or signature.  The
    experiment classifies at which layer the client noticed. *)
From Stdlib Require Import Strings.Byte.
From S2P Require Import Prelude PyBytes PyVal World Instrumentation PyList Aead Base Configs.
From S2P Require Import Http SecureClient Replay KeySubstitution.

(** ** [_tamper_response_body] *)

(** [sub in s]. *)
Fixpoint str_contains (sub s : string) : bool :=
  String.prefix sub s || match s with EmptyString => false | String _ s' => str_contains sub s' end.

(** [field not in payload or not payload[field]]: the field to decode. *)
Definition tamper_field (payload : val) (field : string) : result (option (dict * val)) :=
  let not_subscriptable := Raise (TypeError "indices must be integers or slices, not str") in
  match payload with
  | VDict d => match dget field d with
               | Some v => Ok (if truthy v then Some (d, v) else None)
               | None => Ok None
               end
  | VList l => if existsb (fun v => val_eq_str v field) l then not_subscriptable else Ok None
  | VStr s => if str_contains field s then not_subscriptable else Ok None
  | _ => Raise (TypeError "argument is not iterable")
  end.

(** [raw[len(raw) // 2] ^= 0xFF]. *)
Definition flip_middle (raw : bytes) : bytes := alter (xor_byte 255) (Nat.div (length raw) 2) raw.

Section Harness.
Context {J : Json}.

Definition tamper_target_field (tamper_target : string) : string :=
  if String.eqb tamper_target "ciphertext" then "ciphertext" else "signature".

(** The tampered payload; [None] when the body is passed on as it is. *)
Definition tamper_payload (payload : val) (tamper_target : string) : result (option dict) :=
  let field := tamper_target_field tamper_target in
  let? f := tamper_field payload field in
  match f with
  | None => Ok None
  | Some (d, v) =>
      let? raw := _b64d v in
      match raw with
      | [] => Ok None
      | _ => Ok (Some (dset "_mitm_tampered" (VStr tamper_target)
                         (dset field (VStr (_b64e (flip_middle raw))) d)))
      end
  end.

Definition _tamper_response_body (body : bytes) (tamper_target : string) : result bytes :=
  match json_loads body with
  | Raise _ => Ok body
  | Ok payload =>
      let? t := tamper_payload payload tamper_target in
      match t with
      | None => Ok body
      | Some d => let? text := json_dumps (VDict d) in Ok (encode text)
      end
  end.

(** ** [build_proxy_app]: the proxy as a transport *)
Context {N R : Type} {TR : Transport N} {RND : Random R}.
Variables (upstream listen tamper_target : string) (tamper_probability : Q).

(** The path of a request to the proxy. *)
Definition proxy_path (url : string) : result string :=
  if String.prefix listen url then Ok (drop_string (String.length listen) url)
  else Raise (LibraryError "ConnectError").

(** [s.endswith(suffix)]. *)
Definition ends_with (suffix s : string) : bool :=
  Nat.leb (String.length suffix) (String.length s)
  && String.eqb (drop_string (String.length s - String.length suffix) s) suffix.

Definition lift_net {A} (m : M (world * N) A) : M (world * (N * R)) A :=
  fun '(w, (n, r)) => let '(x, (w', n')) := m (w, n) in (x, (w', (n', r))).
Definition lift_random {A} (m : M R A) : M (world * (N * R)) A :=
  fun '(w, (n, r)) => let '(x, r') := m r in (x, (w, (n, r'))).

(** An unhandled exception in the proxy's handler. *)
Definition proxy_failure : response :=
  mkResponse 500 (Raise JSONDecodeError) "500 Internal Server Error" [] None.

Definition forward_tampered (resp : response) : response :=
  match _tamper_response_body (encode (resp_text resp)) tamper_target with
  | Ok body => mkResponse (status_code resp) (json_loads body) (decode body) (resp_lines resp)
                 (resp_cut resp)
  | Raise _ => proxy_failure
  end.

Definition proxy_get (url : string) : M (world * (N * R)) response :=
  let* path := of_result (proxy_path url) in lift_net (http_get (upstream +:+ path)).

Definition proxy_post (url : string) (payload : dict) (headers : list (string * string))
    : M (world * (N * R)) response :=
  let* path := of_result (proxy_path url) in
  let* resp := lift_net (http_post (upstream +:+ path) payload headers) in
  if ends_with "/secure/predict" path && (status_code resp =? 200) then
    let* x := lift_random random_unit in
    ret (if negb (Qle_bool tamper_probability x) then forward_tampered resp else resp)
  else ret resp.

#[export] Instance proxy_transport : Transport (N * R) := {|
  http_get := proxy_get; http_post := proxy_post |}.
End Harness.

(** ** The experiment *)
Definition contains_val (sub : string) (v : option val) : bool :=
  match v with Some (VStr s) => str_contains sub s | _ => false end.

(** [detected], [detection_layer] and [detection_ms] of a transaction's row. *)
Definition classify (row : dict) : bool * val * val :=
  let error := match dget "error" row with Some v => truthy v | None => false end in
  if error && contains_val "AEAD authentication failed" (dget "error" row) then
    (true, VStr "aead_ciphertext", dget_or "aead_decrypt_ms" VNone row)
  else if match dget "valid_signature" row with Some (VBool false) => true | _ => false end then
    (true, VStr "signature", dget_or "verify_ms" VNone row)
  else if error then (false, VStr "transport_error", VNone)
  else (false, VNone, VNone).

Definition experiment_row (i : Z) (config_name tamper_target : string) (row : dict) : dict :=
  let '(detected, layer, ms) := classify row in
  [("request_id", VInt i); ("config", VStr config_name); ("tamper_target", VStr tamper_target);
   ("tampered_by_proxy", VBool true); ("detected", VBool detected); ("detection_layer", layer);
   ("detection_ms", ms); ("rtt_ms", dget_or "rtt_ms" VNone row);
   ("verify_ms", dget_or "verify_ms" VNone row);
   ("aead_decrypt_ms", dget_or "aead_decrypt_ms" VNone row);
   ("valid_signature", dget_or "valid_signature" VNone row);
   ("error", dget_or "error" VNone row)].

Section Experiment.
Context {E : Env} {P : Prims} {J : Json} {N : Type} {TR : Transport N}.

(** [get_profile().sample_request()] is drawn anew for each request. *)
Fixpoint mitm_run (requests : list dict) (i : Z) (config_name proxy_url tamper_target : string)
    : M ((world * N) * option ClientSession) (list dict) :=
  match requests with
  | [] => ret []
  | body :: rest =>
      let* row := secure_predict_transaction proxy_url config_name body true None None in
      let* rows := mitm_run rest (i + 1) config_name proxy_url tamper_target in
      ret (experiment_row i config_name tamper_target row :: rows)
  end.

(** [statistics.stdev] needs a square root. *)
Variable fsqrt : Q -> Q.
Definition stdev (l : list Q) : Q :=
  let m := Qmean l in
  fsqrt (Qsum (map (fun x => (x - m) * (x - m))%Q l) / inject_Z (py_len l - 1))%Q.

Definition mitm_summary (rows : list dict) (config_name tamper_target : string) : result dict :=
  let n := py_len rows in
  let n_detected := count_true (get_truthy "detected") rows in
  let detect_times := float_values "detection_ms" rows in
  let? med := (match detect_times with [] => Ok None
               | _ => let? m := median detect_times in Ok (Some m) end) in
  Ok [("config", VStr config_name); ("tamper_target", VStr tamper_target);
      ("n_requests", VInt n); ("n_detected", VInt n_detected);
      ("detection_rate", if n =? 0 then VNone else VFloat (ratio n_detected n));
      ("detection_ms_mean", opt_float (mean_or_none detect_times));
      ("detection_ms_median", opt_float med);
      ("detection_ms_std", if 1 <? py_len detect_times then VFloat (stdev detect_times) else VNone);
      ("detection_ms_min", opt_float (min_or_none detect_times));
      ("detection_ms_max", opt_float (max_or_none detect_times));
      ("verdict", VStr (if (n_detected =? n) && (0 <? n) then "ALL TAMPERED RESPONSES REJECTED"
                        else "GAP DETECTED -- INVESTIGATE"))].
End Experiment.

(** ** What the proxy changes and what the client notices *)
From S2P Require Import SecureApp.

(** ** The flipped byte *)
Lemma xor_byte_255 b : Z_of_byte (xor_byte 255 b) = Z.lxor (Z_of_byte b) 255.
Proof. destruct b; reflexivity. Qed.
Lemma xor_byte_involutive b : xor_byte 255 (xor_byte 255 b) = b.
Proof. destruct b; reflexivity. Qed.
Lemma xor_byte_differs b : xor_byte 255 b <> b.
Proof. destruct b; discriminate. Qed.

Lemma flip_middle_length raw : length (flip_middle raw) = length raw.
Proof. apply length_alter. Qed.
Lemma flip_middle_involutive raw : flip_middle (flip_middle raw) = raw.
Proof.
  unfold flip_middle at 1. rewrite flip_middle_length. unfold flip_middle.
  apply list_eq. intros i. rewrite !list_lookup_alter.
  destruct (decide _) as [Hi|Hi]; [|done]. rewrite decide_True by done. subst i.
  destruct (raw !! _) as [b|]; [|done]. cbn. f_equal. apply xor_byte_involutive.
Qed.
Lemma flip_middle_differs raw : raw <> [] -> flip_middle raw <> raw.
Proof.
  intros Hne Heq. destruct (lookup_lt_is_Some_2 raw (Nat.div (length raw) 2)) as [b Hb].
  { apply Nat.div_lt; [destruct raw; [done|simpl; lia]|lia]. }
  apply (f_equal (fun l => l !! Nat.div (length raw) 2)) in Heq. unfold flip_middle in Heq.
  rewrite list_lookup_alter_eq, Hb in Heq. simpl in Heq. injection Heq as Heq.
  by apply xor_byte_differs in Heq.
Qed.

(** ** The tampered body *)
Section Tamper.
Context {J : Json} {JL : JsonLaws J}.

Definition tampered (field target : string) (raw : bytes) (d : dict) : dict :=
  dset "_mitm_tampered" (VStr target) (dset field (VStr (_b64e (flip_middle raw))) d).

Lemma tamper_run field target raw d :
  tamper_target_field target = field -> jsonable (VDict d) = true ->
  dget field d = Some (VStr (_b64e raw)) -> raw <> [] ->
  _tamper_response_body (encode (json_text (VDict d))) target
  = Ok (encode (json_text (VDict (tampered field target raw d))))
  /\ jsonable (VDict (tampered field target raw d)) = true.
Proof.
  intros Hf Hj Hg Hne.
  assert (Hj' : jsonable (VDict (tampered field target raw d)) = true)
    by (by apply jsonable_dset; [apply jsonable_dset|]).
  split; [|exact Hj']. unfold _tamper_response_body. rewrite json_roundtrip by done.
  unfold tamper_payload, tamper_field. rewrite Hf, Hg, b64e_nonempty by done. cbn [rbind].
  rewrite b64d_b64e. cbn [rbind]. destruct raw as [|x raw]; [done|]. cbn [rbind].
  fold (tampered field target (x :: raw) d). by rewrite json_dumps_jsonable by done.
Qed.
End Tamper.

Ltac row_get := rewrite ?dget_dset_eq; repeat (rewrite dget_dset_ne by done); rewrite ?dget_dset_eq.

(** C18: One flipped byte, and where it is noticed: on a JSON response the proxy
    changes exactly one byte in the middle of the chosen field -- the length
    stays, flipping again restores it -- and adds its marker.  A client that
    reads the tampered response reports a ciphertext that does not open as
    detected by the AEAD, with the signature never checked, and a signature
    that does not verify as detected by the signature; the only other outcome
    is that the altered ciphertext opens or the altered signature verifies. *)
Theorem tampered_response_detected {E : Env} {P : Prims} {J : Json} {JL : JsonLaws J} {N : Type}
    (Cli : ClientCryptoConfig) (key spk n ct sg pt : bytes) (timing d : dict) (debug : val)
    (w w' : world) (net : N) (sess : option ClientSession) (row meta : dict) (ms : val)
    (Hct : ct <> []) (Hsg : sg <> [])
    (Hj : jsonable (VDict (SecurePredictResponse (_b64e n) (_b64e ct) (_b64e sg) timing debug)) = true)
    (Hrow : dget "error" row = Some VNone /\ dget "valid_signature" row = Some VNone)
    (Hopen : aead_decrypt key n ct = Ok pt) (Hpt : json_loads pt = Ok (VDict d))
    (Hms : dget "verify_ms" meta = Some ms) :
  let j := SecurePredictResponse (_b64e n) (_b64e ct) (_b64e sg) timing debug in
  let body := encode (json_text (VDict j)) in
  let read j := read_response Cli key spk j (((w, net), sess), row) in
  (exists j', _tamper_response_body body "ciphertext" = Ok (encode (json_text (VDict j')))
     /\ dget "ciphertext" j' = Some (VStr (_b64e (flip_middle ct)))
     /\ (forall k, k <> "ciphertext" -> k <> "_mitm_tampered" -> dget k j' = dget k j)
     /\ (aead_decrypt key n (flip_middle ct) = Raise AEADError ->
         exists row' σ' t, read j' = (Ok tt, (σ', row'))
           /\ classify row' = (true, VStr "aead_ciphertext", VFloat t)
           /\ dget "valid_signature" row' = Some VNone))
  /\ (exists j', _tamper_response_body body "signature" = Ok (encode (json_text (VDict j')))
     /\ dget "signature" j' = Some (VStr (_b64e (flip_middle sg)))
     /\ (forall k, k <> "signature" -> k <> "_mitm_tampered" -> dget k j' = dget k j)
     /\ (verify (n ++ ct) (flip_middle sg) spk (advance (advance w)) = (Ok (false, meta), w') ->
         exists row' σ', read j' = (Ok tt, (σ', row'))
           /\ classify row' = (true, VStr "signature", ms)))
  /\ flip_middle ct <> ct /\ flip_middle sg <> sg
  /\ flip_middle (flip_middle ct) = ct /\ length (flip_middle ct) = length ct.
Proof.
  intros j body read.
  split_and!; [| |by apply flip_middle_differs|by apply flip_middle_differs
              |apply flip_middle_involutive|apply flip_middle_length].
  - destruct (tamper_run "ciphertext" "ciphertext" ct j eq_refl Hj eq_refl Hct) as [Ht _].
    exists (tampered "ciphertext" "ciphertext" ct j). split; [exact Ht|]. unfold tampered.
    split; [by row_get|]. split; [by intros k H1 H2; rewrite !dget_dset_ne by done|].
    intros Hrej. unfold read, read_response, getitem. row_get.
    cbn [j SecurePredictResponse dget String.eqb Ascii.eqb Bool.eqb rbind]. rewrite !b64d_b64e.
    unfold bind, of_result, set_row, wio, on_fst. rewrite Hrej. cbn. rewrite ?b64d_b64e. cbn.
    eexists _, _, _. split; [reflexivity|]. destruct Hrow as [_ Hv]. split; [|by row_get].
    unfold classify, dget_or. row_get. reflexivity.
  - destruct (tamper_run "signature" "signature" sg j eq_refl Hj eq_refl Hsg) as [Ht _].
    exists (tampered "signature" "signature" sg j). split; [exact Ht|]. unfold tampered.
    split; [by row_get|]. split; [by intros k H1 H2; rewrite !dget_dset_ne by done|].
    intros Hver. unfold read, read_response, getitem. row_get.
    cbn [j SecurePredictResponse dget String.eqb Ascii.eqb Bool.eqb rbind]. rewrite !b64d_b64e.
    unfold bind, of_result, set_row, wio, on_fst. rewrite Hopen. cbv beta iota.
    change (perf_counter w) with (Ok (env_perf_counter (tick w)), advance w). cbv beta iota.
    change (perf_counter (advance w))
      with (Ok (env_perf_counter (tick (advance w))), advance (advance w)). cbv beta iota.
    rewrite Hver. cbv beta iota. rewrite Hpt. cbn [as_dict]. cbv beta iota. eexists _, _. split; [reflexivity|]. destruct Hrow as [He _].
    unfold classify.
    match goal with |- context [dget "error" ?R] =>
      assert (dget "error" R = Some VNone) as -> by (row_get; exact He);
      assert (dget "valid_signature" R = Some (VBool false)) as -> by (row_get; reflexivity);
      assert (dget_or "verify_ms" VNone R = ms) as ->
        by (unfold dget_or; row_get; rewrite Hms; reflexivity)
    end.
    reflexivity.
Qed.

(** A proxy that never tampers is transparent: with tampering probability
    0, every request through it is answered with what the upstream server
    answers, and leaves the same server state. *)
Theorem idle_proxy_is_transparent {J : Json} {N R : Type} {TR : Transport N} {RND : Random R}
    {RL : RandomLaws RND} (upstream listen target path : string) (payload : dict)
    (headers : list (string * string)) (w : world) (n : N) (r : R) :
  let proxied {A} (x : Prelude.result A * (world * (N * R))) (y : Prelude.result A * (world * N)) :=
    fst x = fst y /\ fst (snd x) = fst (snd y) /\ fst (snd (snd x)) = snd (snd y) in
  proxied (proxy_post upstream listen target 0 (listen +:+ path) payload headers (w, (n, r)))
          (http_post (upstream +:+ path) payload headers (w, n))
  /\ proxied (proxy_get upstream listen (listen +:+ path) (w, (n, r)))
             (http_get (upstream +:+ path) (w, n)).
Proof.
  intros proxied.
  assert (Hpath : proxy_path listen (listen +:+ path) = Ok path).
  { unfold proxy_path. assert (String.prefix listen (listen +:+ path) = true) as ->.
    { induction listen as [|c l IH]; [by destruct path|]. rewrite string_app_cons. simpl.
      by destruct (Ascii.ascii_dec c c). }
    f_equal. induction listen as [|c l IH]; [done|]. by rewrite string_app_cons. }
  unfold proxy_post, proxy_get, proxied. rewrite Hpath. unfold bind, of_result, lift_net, ret.
  split.
  - destruct (http_post _ _ _ (w, n)) as [[resp|e] [w' n']]; [|done].
    destruct (ends_with _ _ && _); [|done]. unfold lift_random.
    destruct (random_unit_range r) as (x & r' & -> & H0 & _).
    apply Qle_bool_iff in H0. rewrite H0. done.
  - destruct (http_get _ (w, n)) as [[resp|e] [w' n']]; done.
Qed.
