(* ===== verification/Hndl.v ===== *)
(** * Harvest now, decrypt later ([threats/hndl_capture.py],
    [threats/streaming_hndl_experiment.py])

    What a passive adversary stores of a prediction or of a stream, split into
    the bytes confidentiality depends on and the integrity bytes. *)
From stdpp Require Import gmap.
From S2P Require Import Prelude PyBytes PyVal World Instrumentation PyList Aead Base Configs.
From S2P Require Import Streaming Http SecureClient StreamingClient Replay.

Definition KEX_DECRYPTABLE_UNDER_CRQC : list (string * bool) :=
  [("classical", true); ("classical_ecdhe", true); ("hybrid", false); ("hybrid_kex_pq", false);
   ("hybrid_kex", false); ("full_pqc", false)].
Definition PAYLOAD_DECRYPTABLE_UNDER_CRQC : bool := false.

Definition kex_decryptable (config_name : string) : val :=
  val_of_opt VBool (dget config_name KEX_DECRYPTABLE_UNDER_CRQC).

(** An int operand of [+]. *)
Definition as_summand (v : val) : result Z :=
  match v with
  | VInt z => Ok z
  | VBool b => Ok (if b then 1 else 0)
  | _ => Raise (TypeError "unsupported operand type(s) for +")
  end.

(** ** The single-shot capture *)
Definition capture_row (i : Z) (config_name : string) (row : dict) : result dict :=
  let? debug := as_dict (py_or (dget_or "debug" VNone row) (VDict [])) in
  let field k d := dget_or k VNone d in
  let kex := py_or (py_or (field "kex_blob_bytes" debug) (field "kex_blob_bytes" row)) (VInt 0) in
  let payload := py_or (field "response_ciphertext_bytes" debug) (VInt 0) in
  let sig := py_or (py_or (field "signature_bytes" debug) (field "signature_bytes" row)) (VInt 0) in
  let? k := as_summand kex in
  let? p := as_summand payload in
  let? s := as_summand sig in
  Ok [("request_id", VInt i); ("config", VStr config_name);
      ("kex_algorithm", field "kex_algorithm" debug);
      ("sig_algorithm", field "sig_algorithm" debug); ("kex_blob_bytes", kex);
      ("response_ciphertext_bytes", payload); ("signature_bytes", sig);
      ("total_bytes_stored", VInt (k + p + s));
      ("kex_decryptable_under_future_crqc", kex_decryptable config_name);
      ("payload_decryptable_under_future_crqc", VBool PAYLOAD_DECRYPTABLE_UNDER_CRQC);
      ("error", field "error" row)].

Definition int_values (k : string) (rows : list dict) : list Z :=
  omap (fun r => match dget k r with Some (VInt z) => Some z | _ => None end) rows.

(** [ok_rows[0][k] if ok_rows else None]. *)
Definition first_entry (k : string) (rows : list dict) : val :=
  match rows with r :: _ => dget_or k VNone r | [] => VNone end.

Definition hndl_summary (rows : list dict) (config_name : string) : dict :=
  let ok_rows := List.filter (fun r => negb (get_truthy "error" r)) rows in
  let total := Zsum (int_values "total_bytes_stored" ok_rows) in
  let n := py_len ok_rows in
  [("config", VStr config_name); ("n_requests", VInt (py_len rows)); ("n_ok", VInt n);
   ("total_bytes_stored", VInt total);
   ("bytes_per_request_mean", if n =? 0 then VNone else VFloat (ratio total n));
   ("kex_bytes_per_request", first_entry "kex_blob_bytes" ok_rows);
   ("signature_bytes_per_request", first_entry "signature_bytes" ok_rows);
   ("kex_decryptable_under_future_crqc", kex_decryptable config_name);
   ("projected_bytes_per_1000_requests",
    if n =? 0 then VNone else VFloat (ratio total n * 1000))].

Section Capture.
Context {E : Env} {P : Prims} {J : Json} {N : Type} {TR : Transport N}.

Fixpoint hndl_capture (requests : list dict) (i : Z) (config_name base_url : string)
    : M ((world * N) * option ClientSession) (list dict) :=
  match requests with
  | [] => ret []
  | body :: rest =>
      let* row := secure_predict_transaction base_url config_name body true None None in
      let* r := of_result (capture_row i config_name row) in
      let* rows := hndl_capture rest (i + 1) config_name base_url in
      ret (r :: rows)
  end.
End Capture.

(** ** The streaming capture *)
Record harvest := mkHarvest {
  hv_error : option string; hv_kex : option Z; hv_ciphertext : Z; hv_integrity : Z;
  hv_chunks : Z; hv_sizes : list Z; hv_harvestable : option Z; hv_decryptable : option Z;
  hv_min : option Z; hv_max : option Z; hv_mean : option Q }.
Definition harvest0 : harvest := mkHarvest None None 0 0 0 [] None None None None None.

Definition add_ciphertext (n : Z) (h : harvest) : harvest :=
  mkHarvest (hv_error h) (hv_kex h) (hv_ciphertext h + n) (hv_integrity h) (hv_chunks h)
    (hv_sizes h) (hv_harvestable h) (hv_decryptable h) (hv_min h) (hv_max h) (hv_mean h).
Definition add_integrity (n : Z) (h : harvest) : harvest :=
  mkHarvest (hv_error h) (hv_kex h) (hv_ciphertext h) (hv_integrity h + n) (hv_chunks h)
    (hv_sizes h) (hv_harvestable h) (hv_decryptable h) (hv_min h) (hv_max h) (hv_mean h).
Definition add_event (chunk : bool) (size : Z) (h : harvest) : harvest :=
  mkHarvest (hv_error h) (hv_kex h) (hv_ciphertext h) (hv_integrity h)
    (hv_chunks h + if chunk then 1 else 0) (hv_sizes h ++ [size]) (hv_harvestable h)
    (hv_decryptable h) (hv_min h) (hv_max h) (hv_mean h).
Definition set_kex (n : Z) (h : harvest) : harvest :=
  mkHarvest (hv_error h) (Some n) (hv_ciphertext h) (hv_integrity h) (hv_chunks h) (hv_sizes h)
    (hv_harvestable h) (hv_decryptable h) (hv_min h) (hv_max h) (hv_mean h).
Definition set_harvest_error (e : string) (h : harvest) : harvest :=
  mkHarvest (Some e) (hv_kex h) (hv_ciphertext h) (hv_integrity h) (hv_chunks h) (hv_sizes h)
    (hv_harvestable h) (hv_decryptable h) (hv_min h) (hv_max h) (hv_mean h).

(** The totals after the stream. *)
Definition conclude_harvest (config_name : string) (h : harvest) : harvest :=
  let sizes := hv_sizes h in
  mkHarvest (hv_error h) (hv_kex h) (hv_ciphertext h) (hv_integrity h) (hv_chunks h) sizes
    (match hv_kex h with Some k => Some (k + hv_ciphertext h) | None => None end)
    (Some (if truthy (kex_decryptable config_name) then hv_ciphertext h else 0))
    (match sizes with [] => None | x :: r => Some (fold_left Z.min r x) end)
    (Zmax_or_none sizes) (mean_or_none (map inject_Z sizes)).

Section Harvest.
Context {E : Env} {P : Prims} {J : Json}.

(** [len(_b64d(data[k]))]. *)
Definition b64_len (k : string) (data : dict) : result Z :=
  let? v := getitem k data in let? b := _b64d v in Ok (Z.of_nat (length b)).
(** [if data.get(k): integrity_bytes += len(_b64d(data[k]))]. *)
Definition integrity_len (k : string) (data : dict) : result Z :=
  if get_truthy k data then b64_len k data else Ok 0.

Definition ciphertext_len (data : dict) : result Z :=
  if dmem "nonce" data && dmem "ciphertext" data then
    let? a := b64_len "nonce" data in let? b := b64_len "ciphertext" data in Ok (a + b)
  else Ok 0.

(** One record as the adversary sees it. *)
Definition harvest_record (data : dict) : M harvest unit :=
  if is_none (dget "kind" data) then ret tt
  else
    let* c := of_result (ciphertext_len data) in
    modify (add_ciphertext c) ;;;
    let* s := of_result (integrity_len "signature" data) in
    let* h := of_result (integrity_len "chain_hash" data) in
    let* f := of_result (integrity_len "final_chain_hash" data) in
    modify (add_integrity (s + h + f)) ;;;
    modify (add_event (kind_is "chunk" data) (c + (s + h + f))).

Definition harvest_line (line : string) : M harvest unit :=
  let* d := of_result (sse_data line) in
  match d with
  | None => ret tt
  | Some v => let* data := of_result (as_dict v) in harvest_record data
  end.

Context {N : Type} {TR : Transport N}.

Definition capture_body (base_url config_name strategy prompt : string)
    (max_tokens chunk_size_tokens : Z) (Cli : ClientCryptoConfig)
    : M ((world * N) * harvest) unit :=
  let* hm := on_fst (do_handshake base_url) in
  let handshake_json := fst hm in
  let* kpk := of_result (let? v := getitem "kex_public_key" handshake_json in _b64d v) in
  let* hid := of_result (getitem "handshake_id" handshake_json) in
  let* est := on_fst (on_fst (establish kpk)) in
  on_snd (modify (set_kex (Z.of_nat (length (kex_blob est))))) ;;;
  let* text := of_result (json_dumps (VDict
    (stream_request_body prompt strategy chunk_size_tokens max_tokens None))) in
  let* req_aead := on_fst (on_fst (aead_encrypt (session_key est) (encode text))) in
  let payload : dict :=
    [("handshake_id", hid); ("kex_blob", VStr (_b64e (kex_blob est)));
     ("nonce", VStr (_b64e (nonce req_aead)));
     ("ciphertext", VStr (_b64e (ciphertext req_aead)))] in
  let* resp := on_fst (http_post (base_url +:+ "/secure/predict/stream") payload []) in
  if negb (status_code resp =? 200) then
    on_snd (modify (set_harvest_error ("HTTP " +:+ pretty.pretty (status_code resp))))
  else
    on_snd (for_each (resp_lines resp) harvest_line) ;;;
    match resp_cut resp with
    | Some e => raise e
    | None => on_snd (modify (conclude_harvest config_name))
    end.

Definition capture_transaction (base_url config_name strategy prompt : string)
    (max_tokens chunk_size_tokens : Z) : M (world * N) harvest :=
  let* client_crypto := of_result (get_client_crypto config_name) in
  fun σ =>
    let '(r, (σ', h)) := capture_body base_url config_name strategy prompt max_tokens
                           chunk_size_tokens client_crypto (σ, harvest0) in
    (Ok (match r with
         | Ok _ => h
         | Raise e => set_harvest_error (describe_exn e) h
         end), σ').

Fixpoint run_length_sweep (base_url config_name strategy prompt : string)
    (max_tokens_values : list Z) (chunk_size_tokens : Z) : M (world * N) (list (Z * harvest)) :=
  match max_tokens_values with
  | [] => ret []
  | mt :: rest =>
      let* h := capture_transaction base_url config_name strategy prompt mt chunk_size_tokens in
      let* hs := run_length_sweep base_url config_name strategy prompt rest chunk_size_tokens in
      ret ((mt, h) :: hs)
  end.

(** ** [run_strategy_independence_check] *)
Definition harvested (rows : list (string * harvest)) : list (string * harvest) :=
  List.filter (fun sh => match hv_error (snd sh) with None => true | Some _ => false end) rows.

Definition all_equal (l : list (option Z)) : bool :=
  match l with [] => false | x :: r => forallb (fun y => bool_decide (y = x)) r end.

Definition overhead_per_extra_envelope : Z := Z.of_nat GCM_NONCE_BYTES + 16.

(** Expected and actual deltas against [buffer_and_sign]. *)
Definition expected_deltas (rows : list (string * harvest)) : list (string * Z) :=
  match dget "buffer_and_sign" (harvested rows) with
  | None => []
  | Some base =>
      flat_map (fun s => match dget s (harvested rows) with
                         | Some h =>
                             [(s, (hv_chunks h - 1) * overhead_per_extra_envelope);
                              (s +:+ "_actual_delta", hv_ciphertext h - hv_ciphertext base)]
                         | None => []
                         end) ["per_chunk"; "hash_chain"]
  end.

Record independence := mkIndependence {
  in_harvestable : list (string * option Z);
  in_exact_match : bool;
  in_deltas : list (string * Z);
  in_rows : list (string * harvest) }.

Fixpoint capture_strategies (base_url config_name prompt : string) (max_tokens size : Z)
    (strategies : list string) : M (world * N) (list (string * harvest)) :=
  match strategies with
  | [] => ret []
  | s :: rest =>
      let* h := capture_transaction base_url config_name s prompt max_tokens size in
      let* hs := capture_strategies base_url config_name prompt max_tokens size rest in
      ret ((s, h) :: hs)
  end.

Definition independence_of (rows : list (string * harvest)) : independence :=
  let by_strategy := map (fun sh => (fst sh, hv_harvestable (snd sh))) (harvested rows) in
  mkIndependence by_strategy (all_equal (map snd by_strategy)) (expected_deltas rows) rows.

Definition run_strategy_independence_check (base_url config_name prompt : string)
    (max_tokens size : Z) : M (world * N) independence :=
  let* rows := capture_strategies base_url config_name prompt max_tokens size
                 ["buffer_and_sign"; "per_chunk"; "hash_chain"] in
  ret (independence_of rows).

(** ** [summarize_length_sweep] *)
Record sweep_summary := mkSweep {
  sw_lengths : list Z; sw_harvestable : list (option Z); sw_decryptable : list (option Z);
  sw_monotonic : bool; sw_fraction : Q }.

(** [all(h[i] <= h[i + 1])]; comparing with [None] raises. *)
Fixpoint nondecreasing (l : list (option Z)) : result bool :=
  match l with
  | [] | [_] => Ok true
  | a :: ((b :: _) as r) =>
      match a, b with
      | Some x, Some y => if x <=? y then nondecreasing r else Ok false
      | _, _ => Raise (TypeError "'<=' not supported between instances")
      end
  end.

Definition summarize_length_sweep (rows : list (Z * harvest)) (config_name : string)
    : result sweep_summary :=
  let ok_rows := List.filter (fun r => match hv_error (snd r) with None => true | Some _ => false end)
                   rows in
  let h := map (fun r => hv_harvestable (snd r)) ok_rows in
  let? m := nondecreasing h in
  Ok (mkSweep (map fst ok_rows) h (map (fun r => hv_decryptable (snd r)) ok_rows) m
        (if truthy (kex_decryptable config_name) then 1 else 0)).
End Harvest.
