(* ===== verification/SweepCell.v ===== *)
(** * A cell of the concurrency sweep ([bench/runner.py])

    [run_sweep_cell] starts [concurrency] workers that claim request indices
    from a shared counter, take a permit of a shared semaphore and run one
    transaction each time.  The workers' steps interleave; a transaction is
    one step here.  The request bodies are a parameter ([_sample_request]). *)
From S2P Require Import Prelude PyBytes PyVal World Instrumentation PyList Base Configs Http.
From S2P Require Import SecureClient Replay Hndl.

Definition CONFIG_TO_MODULE_NAME : list (string * string) :=
  [("control", "control"); ("control-2rt", "control_2rt"); ("classical", "classical");
   ("classical-ecdhe", "classical_ecdhe"); ("hybrid", "hybrid"); ("hybrid-kex", "hybrid_kex");
   ("hybrid-kex-pq", "hybrid_kex_pq"); ("full-pqc", "full_pqc")].

Definition CSV_FIELDS : list string :=
  ["run_id"; "config"; "payload_profile"; "network_profile"; "requests_per_handshake"; "resumed";
   "auth_handshake"; "concurrency"; "repetition"; "request_index"; "rtt_ms"; "handshake_ms";
   "total_ms"; "handshake_auth_verify_ms"; "client_establish_ms"; "verify_ms"; "valid_signature";
   "kex_blob_bytes"; "signature_bytes"; "request_plaintext_bytes"; "response_plaintext_bytes";
   "response_ciphertext_bytes"; "server_decapsulate_ms"; "server_inference_ms";
   "server_encrypt_ms"; "server_sign_ms"; "server_crypto_ms"; "server_total_ms"; "prediction";
   "error"].

(** [config_name in ("control", "control_2rt")]. *)
Definition is_control (config_name : string) : bool :=
  String.eqb config_name "control" || String.eqb config_name "control_2rt".

(** [_flatten]; [timing] and [debug] are the nested dictionaries or [{}]. *)
Definition flatten_with (row timing debug : dict) (profile config_name run_id : string)
    (concurrency repetition idx : Z) : dict :=
  let get k := (k, dget_or k VNone row) in
  let sub (k k' : string) (d : dict) := (k, dget_or k' VNone d) in
  [("run_id", VStr run_id); ("config", VStr config_name); ("payload_profile", VStr profile);
   ("network_profile", VStr "localhost");
   ("requests_per_handshake", dget_or "requests_per_handshake" (VInt 1) row);
   ("resumed", dget_or "resumed" (VBool false) row);
   ("auth_handshake", dget_or "auth_handshake" (VBool false) row);
   ("concurrency", VInt concurrency); ("repetition", VInt repetition);
   ("request_index", VInt idx); get "rtt_ms"; get "handshake_ms"; get "total_ms";
   get "handshake_auth_verify_ms"; get "client_establish_ms"; get "verify_ms";
   get "valid_signature"; get "kex_blob_bytes"; get "signature_bytes";
   get "request_plaintext_bytes"; get "response_plaintext_bytes";
   sub "response_ciphertext_bytes" "response_ciphertext_bytes" debug;
   sub "server_decapsulate_ms" "decapsulate_ms" timing;
   sub "server_inference_ms" "inference_ms" timing; sub "server_encrypt_ms" "encrypt_ms" timing;
   sub "server_sign_ms" "sign_ms" timing; sub "server_crypto_ms" "server_crypto_ms" timing;
   sub "server_total_ms" "server_total_ms" timing; get "prediction"; get "error"].

Definition _flatten (profile : string) (row : dict) (config_name : string)
    (concurrency repetition idx : Z) (run_id : string) : result dict :=
  let? timing := as_dict (py_or (dget_or "server_timing_ms" (VDict []) row) (VDict [])) in
  let? debug := as_dict (py_or (dget_or "debug" VNone row) (VDict [])) in
  Ok (flatten_with row timing debug profile config_name run_id concurrency repetition idx).

Section Cell.
Context {E : Env} {P : Prims} {J : Json} {N : Type} {TR : Transport N}.

(** What one cell is asked for. *)
Record cell := mkCell {
  ce_base_url : string; ce_config_name : string; ce_concurrency : Z; ce_n_requests : Z;
  ce_repetition : Z; ce_reuse_handshake : bool; ce_run_id : string;
  ce_requests_per_handshake : Z; ce_auth_handshake : bool; ce_profile : string;
  ce_sample_request : M world dict }.
Variable c : cell.

(** *** [_control_transaction] *)
Definition set_ctl (k : string) (v : val) : M ((world * N) * dict) unit :=
  on_snd (modify (dset k v)).

Definition control_body (base_url : string) (two_round_trips : bool) (body : dict)
    (request_bytes : Z) : M ((world * N) * dict) unit :=
  let* leg := (if two_round_trips then
      let* t_h := on_fst (on_fst perf_counter) in
      let* hs := on_fst (http_get (base_url +:+ "/handshake")) in
      let* t1 := on_fst (on_fst perf_counter) in
      if negb (status_code hs =? 200) then
        set_ctl "error" (VStr ("HTTP " +:+ pretty.pretty (status_code hs) +:+ " (handshake)")) ;;;
        ret None
      else ret (Some ((t1 - t_h) * 1000)%Q)
    else ret (Some 0%Q)) in
  match leg with
  | None => ret tt
  | Some handshake_ms =>
      let* t0 := on_fst (on_fst perf_counter) in
      let* resp := on_fst (http_post (base_url +:+ "/predict") body []) in
      let* t1 := on_fst (on_fst perf_counter) in
      let rtt_ms := ((t1 - t0) * 1000)%Q in
      set_ctl "rtt_ms" (VFloat rtt_ms) ;;;
      set_ctl "total_ms" (VFloat (handshake_ms + rtt_ms)) ;;;
      set_ctl "handshake_ms" (VFloat handshake_ms) ;;;
      set_ctl "request_plaintext_bytes" (VInt request_bytes) ;;;
      if status_code resp =? 200 then
        set_ctl "response_plaintext_bytes" (VInt (Z.of_nat (length (encode (resp_text resp))))) ;;;
        let* v := of_result (resp_json resp) in
        let* j := of_result (as_dict v) in
        set_ctl "prediction" (dget_or "prediction" VNone j)
      else set_ctl "error" (VStr ("HTTP " +:+ pretty.pretty (status_code resp)))
  end.

Definition _control_transaction (base_url : string) (two_round_trips : bool)
    : M (world * N) dict :=
  let* body := on_fst (ce_sample_request c) in
  let* text := of_result (json_dumps (VDict body)) in
  let request_bytes := Z.of_nat (length (encode text)) in
  let row : dict :=
    [("config", VStr (if two_round_trips then "control_2rt" else "control")); ("error", VNone)] in
  fun σ =>
    let '(r, (σ', row)) := control_body base_url two_round_trips body request_bytes (σ, row) in
    (Ok (match r with
         | Ok _ => row
         | Raise e => dset "error" (VStr (describe_exn e)) row
         end), σ').

(** *** One request of a worker *)

(** What the cell fetched before its workers started. *)
Record prepared := mkPrepared {
  pr_cached_handshake : option dict; pr_pinned_identity : option (string * bytes) }.

Definition prepare : M (world * N) prepared :=
  let protected := negb (is_control (ce_config_name c)) in
  let* pinned := (if ce_auth_handshake c && protected
                  then let* i := fetch_identity (ce_base_url c) in ret (Some i) else ret None) in
  let* cached := (if ce_reuse_handshake c && protected
                  then let* h := do_handshake (ce_base_url c) in ret (Some (fst h)) else ret None) in
  ret (mkPrepared cached pinned).

(** The session the next request takes part in: a fresh one when there is
    none or it is used up. *)
Definition next_session (session : option ClientSession) : option ClientSession :=
  if 1 <? ce_requests_per_handshake c then
    match session with
    | Some s => if requests_left s <=? 0
                then Some (mkSession (ce_requests_per_handshake c) None None) else Some s
    | None => Some (mkSession (ce_requests_per_handshake c) None None)
    end
  else session.

(** The row of a request and the session the worker keeps. *)
Definition run_request (p : prepared) (session : option ClientSession)
    : M (world * N) (dict * option ClientSession) :=
  if is_control (ce_config_name c) then
    let* row := _control_transaction (ce_base_url c)
                  (String.eqb (ce_config_name c) "control_2rt") in
    ret (row, session)
  else
    let session := next_session session in
    let passed := if 1 <? ce_requests_per_handshake c then session else None in
    let* body := on_fst (ce_sample_request c) in
    fun σ =>
      match secure_predict_transaction (ce_base_url c) (ce_config_name c) body true
              (pr_cached_handshake p) (pr_pinned_identity p) (σ, passed) with
      | (Ok row, (σ', passed')) =>
          let session' := if 1 <? ce_requests_per_handshake c then passed' else session in
          (Ok (row, if get_truthy "error" row then None else session'), σ')
      | (Raise e, (σ', _)) => (Raise e, σ')
      end.

(** The row as it is appended to [results]. *)
Definition finished_row (p : prepared) (row : dict) (idx : Z) : result dict :=
  let row := dset "requests_per_handshake" (VInt (ce_requests_per_handshake c)) row in
  let row := dset "auth_handshake"
               (VBool (match pr_pinned_identity p with Some _ => true | None => false end)) row in
  _flatten (ce_profile c) row (ce_config_name c) (ce_concurrency c) (ce_repetition c) idx
    (ce_run_id c).

(** *** The workers *)
Inductive worker :=
  | Idle (session : option ClientSession)              (* before the counter *)
  | Claimed (idx : Z) (session : option ClientSession) (* before the semaphore *)
  | Running (idx : Z) (session : option ClientSession) (* holding a permit *)
  | Done
  | Failed (e : exn).

Record cell_state := mkCellState {
  cs_env : world * N; cs_counter : Z; cs_permits : Z; cs_workers : list worker;
  cs_results : list dict }.

(** [workers = [asyncio.create_task(worker()) for _ in range(concurrency)]]. *)
Definition cell_init (env : world * N) : cell_state :=
  mkCellState env 0 (ce_concurrency c) (replicate (Z.to_nat (ce_concurrency c)) (Idle None)) [].

(** A step of worker [i]; [None] when it cannot move. *)
Definition worker_step (p : prepared) (i : nat) (s : cell_state) : option cell_state :=
  let move w n permits := mkCellState (cs_env s) n permits (<[i := w]> (cs_workers s)) (cs_results s) in
  match cs_workers s !! i with
  | Some (Idle session) =>
      if ce_n_requests c <=? cs_counter s then Some (move Done (cs_counter s) (cs_permits s))
      else Some (move (Claimed (cs_counter s) session) (cs_counter s + 1) (cs_permits s))
  | Some (Claimed idx session) =>
      if cs_permits s <=? 0 then None
      else Some (move (Running idx session) (cs_counter s) (cs_permits s - 1))
  | Some (Running idx session) =>
      let '(r, env') := run_request p session (cs_env s) in
      let leave w results :=
        mkCellState env' (cs_counter s) (cs_permits s + 1) (<[i := w]> (cs_workers s)) results in
      match r with
      | Raise e => Some (leave (Failed e) (cs_results s))
      | Ok (row, session') =>
          match finished_row p row idx with
          | Raise e => Some (leave (Failed e) (cs_results s))
          | Ok out => Some (leave (Idle session') (cs_results s ++ [out]))
          end
      end
  | Some Done | Some (Failed _) | None => None
  end.

Inductive cell_step (p : prepared) : cell_state -> cell_state -> Prop :=
  | cell_step_worker i s s' : worker_step p i s = Some s' -> cell_step p s s'.

Inductive cell_reachable (p : prepared) (s0 : cell_state) : cell_state -> Prop :=
  | cell_start : cell_reachable p s0 s0
  | cell_next s s' : cell_reachable p s0 s -> cell_step p s s' -> cell_reachable p s0 s'.

(** [await asyncio.gather( *workers)] came back: every worker returned. *)
Definition gathered (s : cell_state) : Prop := Forall (eq Done) (cs_workers s).

(** [run_sweep_cell]: a way the cell can run, from the network's state to the
    rows. *)
Definition run_sweep_cell (env : world * N) (results : list dict) (env' : world * N) : Prop :=
  exists p env1 s, prepare env = (Ok p, env1) /\ cell_reachable p (cell_init env1) s
    /\ gathered s /\ cs_results s = results /\ cs_env s = env'.
End Cell.

(** ** [main]: the cell's summary *)
Definition n_warmup (n : Z) (warmup_fraction : Q) : Z :=
  if 20 <? n then
    let q := (inject_Z n * warmup_fraction)%Q in
    Z.max 1 (Z.quot (Qnum q) (Zpos (Qden q)))
  else 0.

Definition runner_summary (configuration output : string) (concurrency requests repetition : Z)
    (rows : list dict) (wall_s warmup_fraction : Q) (resource_summary : dict) : dict :=
  [("configuration", VStr configuration); ("concurrency", VInt concurrency);
   ("requests", VInt requests); ("repetition", VInt repetition); ("wall_seconds", VFloat wall_s);
   ("throughput_rps", if Qle_bool wall_s 0 then VNone
                      else VFloat (inject_Z (py_len rows) / wall_s)%Q);
   ("n_errors", VInt (count_true (get_truthy "error") rows));
   ("n_warmup_discarded_downstream", VInt (n_warmup (py_len rows) warmup_fraction));
   ("output", VStr output); ("resource_summary", VDict resource_summary)].
