(* ===== verification/SweepCellProps.v ===== *)
(** * Every interleaving of a cell's workers does the whole cell

    An invariant of the reachable states of a cell -- the indices handed out,
    held and recorded, and the permits -- and a measure every step decreases. *)
From S2P Require Import Prelude PyBytes PyVal World PyList Base Configs Http SecureClient.
From S2P Require Import Replay SweepCell.

(** ** Indices *)
Definition held (w : worker) : list Z :=
  match w with Claimed i _ | Running i _ => [i] | _ => [] end.
Definition all_held (ws : list worker) : list Z := concat (map held ws).
Definition index_of (row : dict) : Z :=
  match dget "request_index" row with Some (VInt i) => i | _ => -1 end.
Definition is_running (w : worker) : bool := match w with Running _ _ => true | _ => false end.
Definition is_failed (w : worker) : bool := match w with Failed _ => true | _ => false end.
Definition n_running (ws : list worker) : Z := py_len (List.filter is_running ws).
(** The steps a worker still has before it claims again or ends. *)
Definition weight (w : worker) : Z :=
  match w with Idle _ => 1 | Claimed _ _ => 3 | Running _ _ => 2 | Done | Failed _ => 0 end.
Definition weights (ws : list worker) : Z := Zsum (map weight ws).

Lemma replace_worker (ws : list worker) i w :
  ws !! i = Some w -> exists l r, ws = l ++ w :: r /\ forall w', <[i := w']> ws = l ++ w' :: r.
Proof.
  intros H. exists (take i ws), (drop (S i) ws). split; [symmetry; by apply take_drop_middle|].
  intros w'. apply insert_take_drop. by eapply lookup_lt_Some.
Qed.

Lemma all_held_middle l w r : Permutation (all_held (l ++ w :: r)) (held w ++ all_held (l ++ r)).
Proof.
  unfold all_held. rewrite !map_app, !concat_app. simpl. rewrite !app_assoc.
  apply Permutation_app_tail, Permutation_app_comm.
Qed.
Lemma n_running_middle l w r :
  n_running (l ++ w :: r) = (if is_running w then 1 else 0) + n_running (l ++ r).
Proof.
  unfold n_running, py_len. rewrite !List.filter_app, !length_app. simpl.
  destruct (is_running w); simpl; lia.
Qed.
Lemma weights_middle l w r : weights (l ++ w :: r) = weight w + weights (l ++ r).
Proof. unfold weights. rewrite !map_app. cbn [map]. rewrite !Zsum_app, Zsum_cons. lia. Qed.
Lemma failed_middle l w r : existsb is_failed (l ++ w :: r) = is_failed w || existsb is_failed (l ++ r).
Proof. rewrite !existsb_app. simpl. destruct (existsb is_failed l), (is_failed w); done. Qed.

Lemma n_running_nonneg ws : 0 <= n_running ws.
Proof. unfold n_running, py_len. lia. Qed.
Lemma weights_nonneg ws : 0 <= weights ws.
Proof.
  unfold weights. induction ws as [|w ws IH]; [done|]. cbn [map]. rewrite Zsum_cons.
  destruct w; simpl weight; lia.
Qed.

Section Invariant.
Context {E : Env} {P : Prims} {J : Json} {N : Type} {TR : Transport N}.
Variable c : cell.
Variable p : prepared.
Let n := ce_n_requests c.

(** The columns the cell itself sets. *)
Definition row_ok (row : dict) : Prop :=
  exists idx, dget "request_index" row = Some (VInt idx)
    /\ dget "run_id" row = Some (VStr (ce_run_id c))
    /\ dget "config" row = Some (VStr (ce_config_name c))
    /\ dget "concurrency" row = Some (VInt (ce_concurrency c))
    /\ dget "repetition" row = Some (VInt (ce_repetition c))
    /\ keys row = CSV_FIELDS.

Record cell_inv (s : cell_state (N := N)) : Prop := {
  inv_counter : 0 <= cs_counter s <= Z.max 0 n;
  inv_permits : 0 <= cs_permits s /\ cs_permits s + n_running (cs_workers s) = ce_concurrency c;
  inv_indices : existsb is_failed (cs_workers s) = false ->
    Permutation (map index_of (cs_results s) ++ all_held (cs_workers s)) (seqZ 0 (cs_counter s));
  inv_rows : Forall row_ok (cs_results s);
  inv_done : Done ∈ cs_workers s -> n <= cs_counter s }.

Lemma init_inv env : 0 <= ce_concurrency c -> cell_inv (cell_init c env).
Proof.
  intros Hc. assert (forall k, n_running (replicate k (Idle None)) = 0
    /\ all_held (replicate k (Idle None)) = []) as Hr.
  { induction k as [|k [IH1 IH2]]; [done|]. by split. }
  destruct (Hr (Z.to_nat (ce_concurrency c))) as [H1 H2]. constructor; simpl.
  - lia.
  - rewrite H1. lia.
  - intros _. rewrite H2. done.
  - constructor.
  - intros Hd%elem_of_replicate. by destruct Hd.
Qed.

Lemma finished_row_ok row idx out :
  finished_row c p row idx = Ok out -> row_ok out /\ index_of out = idx.
Proof.
  unfold finished_row, _flatten.
  destruct (as_dict _) as [timing|]; cbn [rbind]; [|done].
  destruct (as_dict _) as [debug|]; cbn [rbind]; [|done].
  intros [= <-]. split; [|done]. exists idx. split_and!; done.
Qed.

Lemma step_inv i s s' : worker_step c p i s = Some s' -> cell_inv s ->
  cell_inv s' /\ 3 * (Z.max 0 n - cs_counter s') + weights (cs_workers s')
                 < 3 * (Z.max 0 n - cs_counter s) + weights (cs_workers s).
Proof.
  unfold worker_step. intros Hstep [Hct [Hp Hpr] Hix Hrows Hdone].
  destruct (cs_workers s !! i) as [w|] eqn:Hw; [|done].
  destruct (replace_worker _ _ _ Hw) as (l & r & Hws & Hins).
  assert (Done ∈ l ++ r -> n <= cs_counter s) as Hdone'.
  { intros Hd. apply Hdone. rewrite Hws. apply elem_of_app in Hd as [?|?]; apply elem_of_app; [by left|].
    right. by apply elem_of_cons; right. }
  assert (forall w', w' <> Done -> Done ∈ l ++ w' :: r -> n <= cs_counter s) as Hdone2.
  { intros w' Hne Hd. apply Hdone'. apply elem_of_app in Hd as [?|Hd]; apply elem_of_app; [by left|].
    apply elem_of_cons in Hd as [<-|?]; [done|by right]. }
  rewrite Hws in Hix, Hpr. rewrite n_running_middle in Hpr. rewrite failed_middle in Hix.
  rewrite Hws, weights_middle.
  destruct w as [session|idx session|idx session| |]; try done; cbn [weight is_running is_failed] in *.
  - destruct (Z.leb_spec (ce_n_requests c) (cs_counter s)) as [Hfull|Hleft];
      injection Hstep as <-; (split; [|cbn [cs_counter cs_workers]; rewrite Hins, weights_middle;
        cbn [weight]; unfold n in *; lia]).
    + constructor; cbn [cs_counter cs_workers cs_results cs_permits]; rewrite ?Hins; try done.
      * by rewrite n_running_middle.
      * rewrite failed_middle. intros Hf. specialize (Hix Hf). rewrite all_held_middle in Hix |- *.
        done.
    + constructor; cbn [cs_counter cs_workers cs_results cs_permits]; rewrite ?Hins.
      * unfold n in *. lia.
      * by rewrite n_running_middle.
      * rewrite failed_middle. intros Hf. specialize (Hix Hf). rewrite all_held_middle in Hix |- *.
        simpl in *. rewrite Permutation_app_comm. simpl. rewrite Permutation_app_comm, Hix.
        rewrite seqZ_app by lia. simpl. replace (0 + cs_counter s) with (cs_counter s) by lia.
        apply Permutation_cons_append.
      * done.
      * intros Hd%Hdone2; [|done]. lia.
  - destruct (Z.leb_spec (cs_permits s) 0) as [|Hpos]; [done|]. injection Hstep as <-.
    split; [|cbn [cs_counter cs_workers]; rewrite Hins, weights_middle; cbn [weight]; lia].
    constructor; cbn [cs_counter cs_workers cs_results cs_permits]; rewrite ?Hins; try done.
    + rewrite n_running_middle. simpl. lia.
    + rewrite failed_middle. intros Hf. specialize (Hix Hf). by rewrite all_held_middle in Hix |- *.
    + by apply Hdone2.
  - destruct (run_request c p session (cs_env s)) as [[[row session']|e] env'].
    + destruct (finished_row c p row idx) as [out|e] eqn:Hout; injection Hstep as <-;
        (split; [|cbn [cs_counter cs_workers]; rewrite Hins, weights_middle; cbn [weight]; lia]);
        constructor; cbn [cs_counter cs_workers cs_results cs_permits]; rewrite ?Hins; try done;
        try (rewrite n_running_middle; simpl; lia); try (by apply Hdone2).
      * rewrite failed_middle. intros Hf. specialize (Hix Hf).
        destruct (finished_row_ok _ _ _ Hout) as [_ Hidx].
        rewrite all_held_middle in Hix |- *. rewrite map_app. simpl in *. rewrite Hidx.
        by rewrite <- app_assoc.
      * apply Forall_app. split; [done|]. constructor; [|constructor].
        by destruct (finished_row_ok _ _ _ Hout).
      * rewrite failed_middle. done.
    + injection Hstep as <-.
      split; [|cbn [cs_counter cs_workers]; rewrite Hins, weights_middle; cbn [weight]; lia].
      constructor; cbn [cs_counter cs_workers cs_results cs_permits]; rewrite ?Hins; try done.
      * rewrite n_running_middle; simpl; lia.
      * by rewrite failed_middle.
      * by apply Hdone2.
Qed.

Lemma reachable_inv env s :
  0 <= ce_concurrency c -> cell_reachable c p (cell_init c env) s -> cell_inv s.
Proof.
  intros Hc. induction 1 as [|s s' _ IH Hst]; [by apply init_inv|].
  inversion Hst as [i ? ? Hstep]; subst. by destruct (step_inv i s s' Hstep IH).
Qed.

(** A state in which no worker can move: all have ended. *)
Lemma stuck_ended s :
  0 < ce_concurrency c -> cell_inv s -> (forall i, worker_step c p i s = None) ->
  Forall (fun w => w = Done \/ is_failed w = true) (cs_workers s).
Proof.
  intros Hc [_ [Hp Hpr] _ _ _] Hstuck. apply Forall_lookup. intros i w Hw.
  destruct w as [session|idx session|idx session| |]; [| | |by left|by right]; exfalso;
    pose proof (Hstuck i) as Hi; unfold worker_step in Hi; rewrite Hw in Hi.
  - by destruct (_ <=? _) in Hi.
  - destruct (Z.leb_spec (cs_permits s) 0) as [Hle|]; [|done].
    assert (exists j idx' session', cs_workers s !! j = Some (Running idx' session'))
      as (j & idx' & session' & Hj).
    { assert (0 < n_running (cs_workers s)) as Hpos by lia. clear -Hpos.
      unfold n_running, py_len in Hpos. induction (cs_workers s) as [|w ws IH]; simpl in Hpos; [lia|].
      destruct (is_running w) eqn:Hr.
      - destruct w; try done. by exists 0%nat; eexists _, _.
      - destruct (IH Hpos) as (j & a & b & Hj). by exists (S j), a, b. }
    pose proof (Hstuck j) as Hjs. unfold worker_step in Hjs. rewrite Hj in Hjs.
    destruct (run_request _ _ _ _) as [[[row s']|e] env']; [|done].
    by destruct (finished_row _ _ _ _).
  - destruct (run_request _ _ _ _) as [[[row s']|e] env']; [|done].
    by destruct (finished_row _ _ _ _).
Qed.

(** [k] steps from a state. *)
Inductive cell_steps : nat -> cell_state (N := N) -> cell_state (N := N) -> Prop :=
  | steps_none s : cell_steps 0 s s
  | steps_more k s s' s'' : cell_step c p s s' -> cell_steps k s' s'' -> cell_steps (S k) s s''.

Lemma steps_bounded k s s' :
  cell_inv s -> cell_steps k s s' ->
  cell_inv s' /\ Z.of_nat k + 3 * (Z.max 0 n - cs_counter s') + weights (cs_workers s')
                 <= 3 * (Z.max 0 n - cs_counter s) + weights (cs_workers s).
Proof.
  intros Hinv Hsteps. induction Hsteps as [s|k s s1 s2 Hst _ IH]; [split; [done|lia]|].
  inversion Hst as [i ? ? Hstep]; subst. destruct (step_inv i _ _ Hstep Hinv) as [Hinv' Hlt].
  destruct (IH Hinv') as [H1 H2]. split; [done|lia].
Qed.
End Invariant.

(** C23: However the workers of a cell interleave, a cell whose tasks all
    return has run each request index from 0 to [n_requests - 1] exactly once:
    one row per index, each with exactly the CSV columns and the cell's run
    id, configuration, concurrency and repetition. *)
Theorem sweep_cell_rows {E : Env} {P : Prims} {J : Json} {N : Type} {TR : Transport N}
    (c : cell) (env env' : world * N) (results : list dict)
    (Hc : 0 < ce_concurrency c) (Hn : 0 <= ce_n_requests c)
    (Hrun : run_sweep_cell c env results env') :
  Permutation (map index_of results) (seqZ 0 (ce_n_requests c))
  /\ Forall (row_ok c) results.
Proof.
  destruct Hrun as (p & env1 & s & _ & Hreach & Hall & <- & _).
  destruct (reachable_inv c p env1 s ltac:(lia) Hreach) as [Hct _ Hix Hrows Hdone].
  split; [|done]. unfold gathered in Hall.
  assert (existsb is_failed (cs_workers s) = false /\ all_held (cs_workers s) = []) as [Hf Hh].
  { clear -Hall. induction Hall as [|w ws <- _ [IH1 IH2]]; [done|]. by split. }
  specialize (Hix Hf). rewrite Hh, app_nil_r in Hix.
  assert (cs_counter s = ce_n_requests c) as <-; [|done].
  assert (Done ∈ cs_workers s) as Hd.
  { assert (length (cs_workers s) = Z.to_nat (ce_concurrency c)) as Hl.
    { clear -Hreach. induction Hreach as [|s s' _ IH Hst]; [by apply length_replicate|].
      rewrite <- IH. clear IH. inversion Hst as [i ? ? Hstep]; subst. unfold worker_step in Hstep.
      repeat (case_match; try done; simplify_eq); simpl; by rewrite length_insert. }
    destruct (cs_workers s) as [|w ws]; [simpl in Hl; lia|].
    inversion Hall; subst. left. }
  specialize (Hdone Hd). lia.
Qed.

(** C24: A cell ends: no run of it takes more than three steps per request and
    one per worker, at most [concurrency] transactions are in flight at any
    time, and a state in which no worker can move -- none waits for a permit
    forever -- is one where every worker has returned or failed. *)
Theorem sweep_cell_ends {E : Env} {P : Prims} {J : Json} {N : Type} {TR : Transport N}
    (c : cell) (p : prepared) (env : world * N) (k : nat) (s : cell_state)
    (Hc : 0 < ce_concurrency c) (Hsteps : cell_steps c p k (cell_init c env) s) :
  Z.of_nat k <= 3 * Z.max 0 (ce_n_requests c) + ce_concurrency c
  /\ n_running (cs_workers s) <= ce_concurrency c
  /\ ((forall s', ~ cell_step c p s s') ->
      Forall (fun w => w = Done \/ is_failed w = true) (cs_workers s)).
Proof.
  pose proof (init_inv c env ltac:(lia)) as Hinit.
  destruct (steps_bounded c p k _ _ Hinit Hsteps) as [Hinv Hle]. split_and!.
  - pose proof (weights_nonneg (cs_workers s)). destruct Hinv as [Hct _ _ _ _].
    assert (weights (cs_workers (cell_init c env)) = ce_concurrency c) as Hw; [|cbn [cell_init cs_counter cs_workers] in Hle, Hw; rewrite Hw in Hle;  lia].
    simpl. assert (forall m, weights (replicate m (Idle None)) = Z.of_nat m) as Hm.
    { induction m as [|m IH]; [done|]. unfold weights in *. cbn [replicate map].
      rewrite Zsum_cons, IH. simpl weight. lia. }
    rewrite Hm. lia.
  - destruct Hinv as [_ [Hp Hpr] _ _ _]. lia.
  - intros Hstuck. apply (stuck_ended c p s Hc Hinv). intros i.
    destruct (worker_step c p i s) eqn:Hw; [|done]. exfalso. by eapply Hstuck, cell_step_worker.
Qed.
