(* ===== verification/Orchestrator.v ===== *)
(** * The concurrency sweep ([bench/orchestrator.py])

    A sweep starts a server per configuration, runs its cells and stops it, in
    a [try]/[finally].  What the sweeps do to the outside -- processes and
    files -- is a log of events.  The operating system's answers, the clock
    and the cells' rows are parameters. *)
From S2P Require Import Prelude PyBytes PyVal World Instrumentation PyList Streaming Replay.
From S2P Require Import SweepCell NetemProxy.

Definition SERVER_MODULES : list (string * string) :=
  [("control", "api.server:app"); ("control-2rt", "api.server:app");
   ("classical", "api.server_config_a:app"); ("classical-ecdhe", "api.server_config_ecdhe:app");
   ("hybrid", "api.server_config_b:app"); ("hybrid-kex", "api.server_config_hybridkex:app");
   ("hybrid-kex-pq", "api.server_config_hybridkexpq:app"); ("full-pqc", "api.server_config_c:app")].

(** ** Waiting for a server, and stopping it *)

(** [_wait_healthy]: the polls are what the clock shows and what the request
    gives, in turn; [None] past the fuel. *)
Definition last_error (last_err : option exn) : string :=
  match last_err with Some e => exn_str e | None => "None" end.

Fixpoint poll_healthy (fuel : nat) (poll : nat -> Q * result Z) (k : nat) (deadline : Q)
    (base_url : string) (last_err : option exn) : option (result unit) :=
  match fuel with
  | O => None
  | S fuel' =>
      let '(now, resp) := poll k in
      if negb (Qle_bool deadline now) then
        match resp with
        | Ok status =>
            if status =? 200 then Some (Ok tt)
            else poll_healthy fuel' poll (S k) deadline base_url last_err
        | Raise e => poll_healthy fuel' poll (S k) deadline base_url (Some e)
        end
      else Some (Raise (RuntimeError ("Server at " +:+ base_url +:+ " did not become healthy: "
                                      +:+ last_error last_err)))
  end.
Definition poll_interval : Q := 3 # 10.
Definition health_timeout : Q := 20.
(** 20 s of polls 0.3 s apart. *)
Definition health_fuel : nat := 68.
Definition _wait_healthy (base_url : string) (poll : nat -> Q * result Z) (start : Q)
    : option (result unit) :=
  poll_healthy health_fuel poll 0 (start + health_timeout)%Q base_url None.

Inductive kill_signal := SIGTERM | SIGKILL.

(** [_stop_server]: the signals sent.  [found] is whether the process group
    is still there, [exits] whether the process is gone within the five
    seconds that follow. *)
Definition _stop_server (found exits : kill_signal -> bool) : result unit * list kill_signal :=
  let term := if found SIGTERM then [SIGTERM] else [] in
  if exits SIGTERM then (Ok tt, term)
  else
    let kill := if found SIGKILL then [SIGKILL] else [] in
    (if exits SIGKILL then Ok tt else Raise (LibraryError "TimeoutExpired"), term ++ kill).

(** ** The log

    [StopProxy] and [StopServer] are the calls of [_stop_server]: whether the
    process outlives even [SIGKILL] is in the call's result. *)
Inductive event :=
  | ServerStarted (config_key : string)
  | ProxyStarted (config_key : string)
  | StopProxy (config_key : string)
  | StopServer (config_key : string)
  | FileWritten (path : string).
Abbreviation log := (list event).

Definition say (e : event) : M log unit := fun l => (Ok tt, l ++ [e]).

(** [range(1, repetitions + 1)]. *)
Definition repetitions_of (repetitions : Z) : list Z := seqZ 1 repetitions.

(** ** [run_full_sweep] *)
Record sweep := mkSweep {
  sw_configs : list string; sw_concurrency_levels : list Z; sw_repetitions : Z;
  sw_requests_per_concurrency : Z; sw_min_requests : Z; sw_raw_dir : string;
  sw_summary_dir : string; sw_payload_profile : string; sw_network_profile : string;
  sw_requests_per_handshake : Z; sw_auth_handshake : bool; sw_run_id : string; sw_port : Z }.

(** What a sweep meets: per configuration, when the waiting starts and what
    the clock and the health checks of the server and of its proxy give, how
    their process groups take the signals; the rows of a cell, how long it
    took and the sampler's summary. *)
Record surroundings := mkSurroundings {
  su_server_polls : string -> Q * (nat -> Q * result Z);
  su_proxy_polls : string -> Q * (nat -> Q * result Z);
  su_cell : string -> Z -> Z -> Z -> result (list dict * Q * dict);
  su_server_group : string -> (kill_signal -> bool) * (kill_signal -> bool);
  su_proxy_group : string -> (kill_signal -> bool) * (kill_signal -> bool);
  su_host_info : dict }.

Definition wait_for (base_url : string) (polls : Q * (nat -> Q * result Z)) : result unit :=
  match _wait_healthy base_url (snd polls) (fst polls) with
  | Some r => r
  | None => Raise (LibraryError "still polling")
  end.
Definition stop_group (group : (kill_signal -> bool) * (kill_signal -> bool)) : result unit :=
  fst (_stop_server (fst group) (snd group)).

Definition _crypto_name (config_key : string) : result string :=
  getitem config_key CONFIG_TO_MODULE_NAME.

Section Sweep.
Variables (sw : sweep) (su : surroundings).

Definition server_url : string := "http://127.0.0.1:" +:+ pretty.pretty (sw_port sw).
Definition proxy_url : string := "http://127.0.0.1:" +:+ pretty.pretty (sw_port sw + 1000).
Definition server_healthy (config_key : string) : result unit :=
  wait_for server_url (su_server_polls su config_key).
Definition proxy_healthy (config_key : string) : result unit :=
  wait_for proxy_url (su_proxy_polls su config_key).
Definition stop_server (config_key : string) : result unit :=
  stop_group (su_server_group su config_key).
Definition stop_proxy (config_key : string) : result unit :=
  stop_group (su_proxy_group su config_key).

Definition net_tag : string :=
  if String.eqb (sw_network_profile sw) "localhost" then "" else "-net_" +:+ sw_network_profile sw.
Definition rph_tag : string :=
  (if sw_requests_per_handshake sw =? 1 then ""
   else "-rph" +:+ pretty.pretty (sw_requests_per_handshake sw))
  +:+ (if sw_auth_handshake sw then "-auth" else "").
Definition cell_file (config_key : string) (concurrency repetition : Z) : string :=
  config_key +:+ "-" +:+ sw_payload_profile sw +:+ net_tag +:+ rph_tag
  +:+ "-c" +:+ pretty.pretty concurrency +:+ "-r" +:+ pretty.pretty repetition
  +:+ "-" +:+ sw_run_id sw +:+ ".csv".
Definition out_path (config_key : string) (concurrency repetition : Z) : string :=
  sw_raw_dir sw +:+ "/" +:+ cell_file config_key concurrency repetition.

Definition n_requests_of (concurrency : Z) : Z :=
  Z.max (sw_min_requests sw) (concurrency * sw_requests_per_concurrency sw).

(** [netem = NETWORK_PROFILES[network_profile]]. *)
Definition netem : result (option (Z * Z)) := getitem (sw_network_profile sw) NETWORK_PROFILES.

(** [{**a, **b}]. *)
Definition dict_update (d e : dict) : dict := fold_left (fun d kv => dset (fst kv) (snd kv) d) e d.

Definition cell_summary (nm : option (Z * Z)) (config_key : string)
    (concurrency repetition : Z) (rows : list dict) (wall_s : Q) (resource_summary : dict) : dict :=
  let d := dict_update
    [("run_id", VStr (sw_run_id sw)); ("run_type", VStr "concurrency"); ("config", VStr config_key);
     ("payload_profile", VStr (sw_payload_profile sw));
     ("network_profile", VStr (sw_network_profile sw));
     ("requests_per_handshake", VInt (sw_requests_per_handshake sw));
     ("auth_handshake", VBool (sw_auth_handshake sw))]
    (match nm with
     | Some (rtt, bw) => [("net_rtt_ms", VInt rtt); ("net_bandwidth_mbps", VInt bw)]
     | None => []
     end) in
  let d := dict_update d [("concurrency", VInt concurrency); ("repetition", VInt repetition);
                          ("requests", VInt (n_requests_of concurrency))] in
  let d := dict_update d (su_host_info su) in
  let d := dict_update d
    [("wall_seconds", VFloat wall_s);
     ("throughput_rps", if Qle_bool wall_s 0 then VNone
                        else VFloat (inject_Z (py_len rows) / wall_s)%Q);
     ("n_errors", VInt (count_true (get_truthy "error") rows));
     ("output", VStr (out_path config_key concurrency repetition))] in
  dict_update d resource_summary.

Definition sweep_cell (nm : option (Z * Z)) (config_key : string) (concurrency repetition : Z)
    : M log dict :=
  let* crypto_name := of_result (_crypto_name config_key) in
  let* out := of_result (su_cell su crypto_name concurrency (n_requests_of concurrency) repetition) in
  let '(rows, wall_s, resource_summary) := out in
  let rows := map (dset "network_profile" (VStr (sw_network_profile sw))) rows in
  say (FileWritten (out_path config_key concurrency repetition)) ;;;
  let summary := cell_summary nm config_key concurrency repetition rows wall_s resource_summary in
  (* the progress line formats the throughput *)
  match dget "throughput_rps" summary with
  | Some (VFloat _) => ret summary
  | _ => raise (TypeError "unsupported format string passed to NoneType.__format__")
  end.

(** The [try] block of one configuration; the flag records the proxy. *)
Definition config_body (nm : option (Z * Z)) (config_key : string) : M (log * bool) (list dict) :=
  on_fst (of_result (server_healthy config_key)) ;;;
  (match nm with
   | Some _ =>
       on_fst (say (ProxyStarted config_key)) ;;;
       on_snd (put true) ;;;
       on_fst (of_result (proxy_healthy config_key))
   | None => ret tt
   end) ;;;
  let* summaries := on_fst (mmap (fun concurrency =>
    mmap (sweep_cell nm config_key concurrency) (repetitions_of (sw_repetitions sw)))
    (sw_concurrency_levels sw)) in
  ret (concat summaries).

(** The [finally] block. *)
Definition config_cleanup (config_key : string) : M (log * bool) unit :=
  fun '(l, proxy) =>
    (on_fst ((if proxy : bool then
                say (StopProxy config_key) ;;; of_result (stop_proxy config_key)
              else ret tt) ;;;
             say (StopServer config_key) ;;;
             of_result (stop_server config_key))) (l, proxy).

Definition run_config (nm : option (Z * Z)) (config_key : string) : M log (list dict) :=
  let* _ := of_result (getitem config_key SERVER_MODULES) in
  say (ServerStarted config_key) ;;;
  fun l =>
    let '(r, (l', _)) := try_finally (config_body nm config_key) (config_cleanup config_key) (l, false) in
    (r, l').

Definition summary_path : string := sw_summary_dir sw +:+ "/" +:+ sw_run_id sw +:+ ".json".

Definition run_full_sweep : M log (list dict) :=
  let* nm := of_result netem in
  let* summaries := mmap (run_config nm) (sw_configs sw) in
  let all := concat summaries in
  (match all with [] => ret tt | _ => say (FileWritten summary_path) end) ;;;
  ret all.
End Sweep.
