(* ===== verification/OrchestratorProps.v ===== *)
(** * Sweeps stop what they start and do not overwrite their cells

    The log of a sweep brackets every server, whatever raises inside; the
    cells of a sweep are all there, in order, each in a file of its own. *)
From Stdlib Require Import Ascii.
From stdpp Require Import pretty.
From S2P Require Import Prelude PyBytes PyVal World PyList Replay SweepCell NetemProxy Orchestrator.

(** ** Brackets *)

(** The server that is running, and whether its proxy is: [None] when the
    log starts or stops something out of turn. *)
Abbreviation running_server := (option (string * bool)).
Definition after_event (cur : running_server) (e : event) : option running_server :=
  match e, cur with
  | ServerStarted k, None => Some (Some (k, false))
  | ProxyStarted k, Some (k', false) => if String.eqb k k' then Some (Some (k, true)) else None
  | StopProxy k, Some (k', true) => if String.eqb k k' then Some (Some (k, false)) else None
  | StopServer k, Some (k', false) => if String.eqb k k' then Some None else None
  | FileWritten _, _ => Some cur
  | _, _ => None
  end.
Fixpoint after_log (cur : running_server) (l : log) : option running_server :=
  match l with
  | [] => Some cur
  | e :: l' => match after_event cur e with Some cur' => after_log cur' l' | None => None end
  end.

Lemma after_log_app cur l1 l2 cur' :
  after_log cur l1 = Some cur' -> after_log cur (l1 ++ l2) = after_log cur' l2.
Proof.
  revert cur; induction l1 as [|e l1 IH]; intros cur H; simpl in *; [by injection H as ->|].
  destruct (after_event cur e); [by apply IH|done].
Qed.

(** Code that starts and stops nothing, whether it returns or raises. *)
Definition neutral {A} (m : M log A) : Prop :=
  forall l, exists d, snd (m l) = l ++ d /\ forall cur, after_log cur d = Some cur.

Lemma neutral_result {A} (r : result A) : neutral (of_result r).
Proof. intros l. exists []. by rewrite app_nil_r. Qed.
Lemma neutral_ret {A} (a : A) : neutral (ret a).
Proof. apply (neutral_result (Ok a)). Qed.
Lemma neutral_raise {A} e : neutral (@raise log A e).
Proof. apply (neutral_result (Raise e)). Qed.
Lemma neutral_file p : neutral (say (FileWritten p)).
Proof. intros l. exists [FileWritten p]. by split. Qed.
Lemma neutral_bind {A B} (m : M log A) (k : A -> M log B) :
  neutral m -> (forall a, neutral (k a)) -> neutral (let* x := m in k x).
Proof.
  intros Hm Hk l. unfold bind. destruct (Hm l) as (d & Hd & Hc).
  destruct (m l) as [[a|e] l1]; simpl in Hd; subst l1; [|by exists d].
  destruct (Hk a (l ++ d)) as (d2 & Hd2 & Hc2). exists (d ++ d2).
  rewrite Hd2, app_assoc. split; [done|]. intros cur. by rewrite (after_log_app _ _ _ _ (Hc cur)).
Qed.
Lemma neutral_mmap {A B} (f : A -> M log B) l : (forall a, neutral (f a)) -> neutral (mmap f l).
Proof.
  intros Hf. induction l as [|a l IH]; cbn [mmap]; [apply neutral_ret|].
  apply neutral_bind; [apply Hf|]. intros b. apply neutral_bind; [exact IH|]. intros bs. apply neutral_ret.
Qed.
#[local] Hint Resolve neutral_result neutral_ret neutral_raise neutral_file neutral_bind neutral_mmap : pq.

Section Sweep.
Variables (sw : sweep) (su : surroundings).

Lemma neutral_cell nm k c r : neutral (sweep_cell sw su nm k c r).
Proof.
  unfold sweep_cell. apply neutral_bind; [auto with pq|]. intros name.
  apply neutral_bind; [auto with pq|]. intros [[rows wall] res].
  apply neutral_bind; [auto with pq|]. intros [].
  destruct (dget _ _) as [[]|]; auto with pq.
Qed.

(** The [try] block: the server stays up, and the flag follows the proxy. *)
Lemma config_body_log nm k l r l' proxy :
  config_body sw su nm k (l, false) = (r, (l', proxy)) ->
  exists d, l' = l ++ d /\ after_log (Some (k, false)) d = Some (Some (k, proxy)).
Proof.
  unfold config_body. destruct (server_healthy sw su k) as [[]|e].
  2: { unfold bind, on_fst, of_result. intros [= _ <- <-]. exists []. by rewrite app_nil_r. }
  rewrite (bind_Ok _ _ _ tt (l, false)) by reflexivity.
  set (cells := mmap (fun concurrency => _) _).
  assert (neutral cells) as Hcells.
  { apply neutral_mmap. intros c. apply neutral_mmap. intros rep. apply neutral_cell. }
  destruct nm as [nm|].
  - destruct (proxy_healthy sw su k) as [[]|e].
    + rewrite (bind_Ok _ _ _ tt (l ++ [ProxyStarted k], true)) by reflexivity.
      destruct (Hcells (l ++ [ProxyStarted k])) as (d & Hd & Hc).
      unfold bind, on_fst. destruct (cells (l ++ [ProxyStarted k])) as [[x|e] l1];
        simpl in Hd; subst l1; intros [= _ <- <-]; exists (ProxyStarted k :: d);
        (split; [by rewrite <- app_assoc|]); simpl; rewrite String.eqb_refl; apply Hc.
    + unfold bind, on_fst, on_snd, put, say, of_result. simpl. intros [= _ <- <-].
      exists [ProxyStarted k]. split; [done|]. simpl. by rewrite String.eqb_refl.
  - rewrite (bind_Ok _ _ _ tt (l, false)) by reflexivity.
    destruct (Hcells l) as (d & Hd & Hc).
    unfold bind, on_fst. destruct (cells l) as [[x|e] l1]; simpl in Hd; subst l1;
      intros [= _ <- <-]; exists d; (split; [done|]); apply Hc.
Qed.

Hypothesis Hproxy : forall k, stop_proxy su k = Ok tt.

Lemma config_cleanup_log k l proxy :
  exists d, snd (config_cleanup su k (l, proxy)) = (l ++ d, proxy)
    /\ after_log (Some (k, proxy)) d = Some None.
Proof.
  unfold config_cleanup. destruct proxy.
  - exists [StopProxy k; StopServer k]. simpl. rewrite !String.eqb_refl.
    unfold on_fst, bind, say, of_result. rewrite Hproxy. simpl. by rewrite <- app_assoc.
  - exists [StopServer k]. simpl. rewrite String.eqb_refl. done.
Qed.

Lemma run_config_log nm k l :
  exists d, snd (run_config sw su nm k l) = l ++ d /\ after_log None d = Some None.
Proof.
  unfold run_config. destruct (getitem k SERVER_MODULES) as [m|e].
  2: { exists []. by rewrite app_nil_r. }
  unfold bind, of_result, say.
  pose proof (try_finally_snd (config_body sw su nm k) (config_cleanup su k)
                (l ++ [ServerStarted k], false)) as Hs.
  destruct (try_finally _ _ _) as [r [l' px]]. cbn [snd] in Hs |- *.
  destruct (config_body sw su nm k (l ++ [ServerStarted k], false)) as [rb [lb pb]] eqn:Hb.
  apply config_body_log in Hb as (d & -> & Hd). cbn [snd] in Hs.
  destruct (config_cleanup_log k ((l ++ [ServerStarted k]) ++ d) pb) as (d2 & Hc & Hd2).
  rewrite Hc in Hs. injection Hs as -> _. exists (ServerStarted k :: d ++ d2).
  split; [by rewrite <- !app_assoc|]. simpl. by rewrite (after_log_app _ _ _ _ Hd).
Qed.

Lemma run_configs_log nm ks l :
  exists d, snd (mmap (run_config sw su nm) ks l) = l ++ d /\ after_log None d = Some None.
Proof.
  revert l; induction ks as [|k ks IH]; intros l; cbn [mmap].
  { exists []. by rewrite app_nil_r. }
  unfold bind at 1. destruct (run_config_log nm k l) as (d & Hd & Ha).
  destruct (run_config sw su nm k l) as [[s|e] l1]; simpl in Hd; subst l1; [|by exists d].
  unfold bind. destruct (IH (l ++ d)) as (d2 & Hd2 & Ha2).
  destruct (mmap (run_config sw su nm) ks (l ++ d)) as [[ss|e] l2]; simpl in Hd2; subst l2;
    exists (d ++ d2); (split; [by rewrite app_assoc|]); by rewrite (after_log_app _ _ _ _ Ha).
Qed.

Lemma run_full_sweep_log l :
  exists d, snd (run_full_sweep sw su l) = l ++ d /\ after_log None d = Some None.
Proof.
  unfold run_full_sweep. destruct (netem sw) as [nm|e]; [|by exists []; rewrite app_nil_r].
  unfold bind at 1. cbn [of_result].
  unfold bind at 1. destruct (run_configs_log nm (sw_configs sw) l) as (d & Hd & Ha).
  destruct (mmap (run_config sw su nm) (sw_configs sw) l) as [[ss|e] l1]; simpl in Hd; subst l1;
    [|by exists d].
  unfold bind. destruct (concat ss); simpl; [by exists d|].
  exists (d ++ [FileWritten (summary_path sw)]). split; [by rewrite app_assoc|].
  by rewrite (after_log_app _ _ _ _ Ha).
Qed.

(** A sweep stops every server and proxy it starts, and runs at most one
    of each at a time: whatever fails -- a server that never becomes healthy,
    a cell that raises, an unknown configuration -- the log of starts and
    stops is properly bracketed, provided a proxy that is killed does stop. *)
Theorem sweep_stops_servers :
  after_log None (snd (run_full_sweep sw su [])) = Some None.
Proof. by destruct (run_full_sweep_log []) as (d & -> & Hd). Qed.
End Sweep.

(** ** File names *)
Abbreviation chars := String.list_ascii_of_string.

Lemma chars_app a b : chars (a +:+ b) = chars a ++ chars b.
Proof.
  induction a as [|c a IH]; [done|].
  change (chars (String c a +:+ b)) with (c :: chars (a +:+ b)). by rewrite IH.
Qed.
Lemma chars_inj a b : chars a = chars b -> a = b.
Proof.
  intros H. rewrite <- (String.string_of_list_ascii_of_string a), H.
  apply String.string_of_list_ascii_of_string.
Qed.

(** A decimal number holds none of the letters around it. *)
Definition no_letter (c : Ascii.ascii) : bool :=
  negb (Ascii.eqb c "c"%char) && negb (Ascii.eqb c "r"%char).

Lemma pretty_go_digits x s :
  forallb no_letter (chars s) = true -> forallb no_letter (chars (pretty_N_go x s)) = true.
Proof.
  revert s. induction (N.lt_wf_0 x) as [x _ IH]; intros s Hs.
  destruct (decide (x = 0%N)) as [->|Hx]; [by rewrite pretty_N_go_0|].
  rewrite pretty_N_go_step by lia. apply IH; [apply N.div_lt; lia|].
  cbn [String.list_ascii_of_string forallb]. apply andb_true_iff. split; [|exact Hs].
  unfold pretty_N_char. by repeat case_match.
Qed.

Lemma pretty_no_letter (z : Z) a :
  no_letter a = false -> a ∉ chars (pretty z).
Proof.
  intros Ha Hin. assert (forallb no_letter (chars (pretty z)) = true) as Hd.
  { assert (forall n : N, forallb no_letter (chars (pretty n)) = true) as Hn.
    { intros n. unfold pretty, pretty_N. case_decide; [done|]. by apply pretty_go_digits. }
    destruct z as [|q|q]; [done|apply (Hn (Npos q))|].
    change (pretty (Zneg q)) with ("-" +:+ pretty (Npos q)). rewrite chars_app, forallb_app, Hn.
    done. }
  rewrite forallb_forall in Hd. apply list_elem_of_In in Hin. specialize (Hd _ Hin). congruence.
Qed.

Lemma elem_of_rev_stdlib {A} (a : A) l : a ∈ rev l <-> a ∈ l.
Proof. rewrite !list_elem_of_In. symmetry. apply in_rev. Qed.

Lemma split_last {A} (c : A) x y d1 d2 :
  c ∉ d1 -> c ∉ d2 -> x ++ c :: d1 = y ++ c :: d2 -> x = y /\ d1 = d2.
Proof.
  intros H1 H2 H. apply (f_equal (@rev A)) in H. rewrite !rev_app_distr in H. simpl in H.
  rewrite <- !app_assoc in H. simpl in H.
  assert (rev d1 = rev d2 /\ rev x = rev y) as [Hd Hx].
  { rewrite <- elem_of_rev_stdlib in H1. rewrite <- elem_of_rev_stdlib in H2.
    revert H H1 H2. generalize (rev d2). induction (rev d1) as [|a l IH]; intros [|b k] H H1 H2;
      simpl in H; injection H; intros; subst; try done.
    - exfalso. apply H2. left.
    - exfalso. apply H1. left.
    - destruct (IH k) as [-> ?]; [done| | |done]; intros ?; [apply H1|apply H2]; by right. }
  split; [rewrite <- (rev_involutive x), Hx|rewrite <- (rev_involutive d1), Hd]; apply rev_involutive.
Qed.

Section Files.
Variable sw : sweep.

Lemma out_path_inj k c r k' c' r' :
  out_path sw k c r = out_path sw k' c' r' -> k = k' /\ c = c' /\ r = r'.
Proof.
  unfold out_path, cell_file. intros H. apply (f_equal chars) in H.
  rewrite !chars_app in H. apply app_inv_head in H. rewrite !app_assoc in H.
  do 3 apply app_inv_tail in H. rewrite <- !app_assoc in H.
  change (chars "-r") with (["-"%char] ++ ["r"%char]) in H.
  change (chars "-c") with (["-"%char] ++ ["c"%char]) in H.
  rewrite !app_assoc in H.
  rewrite <- (app_assoc _ ["r"%char] (chars (pretty r))), <- (app_assoc _ ["r"%char] (chars (pretty r'))) in H.
  apply split_last in H as [H Hr]; [|by apply pretty_no_letter..].
  apply app_inv_tail in H.
  rewrite <- (app_assoc _ ["c"%char] (chars (pretty c))), <- (app_assoc _ ["c"%char] (chars (pretty c'))) in H.
  apply split_last in H as [H Hc]; [|by apply pretty_no_letter..].
  do 5 apply app_inv_tail in H. apply app_inv_head in H.
  split_and!; [by apply chars_inj|by apply (inj pretty), chars_inj|by apply (inj pretty), chars_inj].
Qed.

(** The cells of a sweep, in the order they run. *)
Definition sweep_cells : list (string * Z * Z) :=
  concat (map (fun k => concat (map (fun c => map (fun r => (k, c, r)) (repetitions_of (sw_repetitions sw)))
                               (sw_concurrency_levels sw))) (sw_configs sw)).
Definition cell_path (x : string * Z * Z) : string := let '(k, c, r) := x in out_path sw k c r.

(** The files a log writes. *)
Definition files (l : log) : list string :=
  omap (fun e => match e with FileWritten p => Some p | _ => None end) l.

Lemma files_app l1 l2 : files (l1 ++ l2) = files l1 ++ files l2.
Proof. apply omap_app. Qed.

(** A computation that, when it returns, has written these files and gives
    as many summaries. *)
Definition writes {A} (m : M log (list A)) (ps : list string) : Prop :=
  forall l xs l', m l = (Ok xs, l') -> files l' = files l ++ ps /\ length xs = length ps.

Lemma writes_concat {A B} (f : A -> M log (list B)) (g : A -> list string) l :
  (forall a, writes (f a) (g a)) ->
  forall s0 xs s1, mmap f l s0 = (Ok xs, s1) ->
  files s1 = files s0 ++ concat (map g l) /\ length (concat xs) = length (concat (map g l)).
Proof.
  intros Hf. induction l as [|a l IH]; intros s0 xs s1 H; cbn [mmap] in H.
  { injection H as <- <-. simpl. by rewrite app_nil_r. }
  apply bind_inv_Ok in H as (b & s2 & H1 & H). apply bind_inv_Ok in H as (bs & s3 & H2 & H).
  injection H as <- <-. destruct (Hf a _ _ _ H1) as [Hf1 Hl1]. destruct (IH _ _ _ H2) as [Hf2 Hl2].
  simpl. rewrite Hf2, Hf1, !length_app, Hl1, Hl2, app_assoc. done.
Qed.

Lemma writes_each {A B} (f : A -> M log B) (g : A -> string) l :
  (forall a s0 b s1, f a s0 = (Ok b, s1) -> files s1 = files s0 ++ [g a]) ->
  writes (mmap f l) (map g l).
Proof.
  intros Hf. induction l as [|a l IH]; intros s0 xs s1 H; cbn [mmap] in H.
  { injection H as <- <-. simpl. by rewrite app_nil_r. }
  apply bind_inv_Ok in H as (b & s2 & H1 & H). apply bind_inv_Ok in H as (bs & s3 & H2 & H).
  injection H as <- <-. destruct (IH _ _ _ H2) as [Hf2 Hl2].
  simpl. rewrite Hf2, (Hf _ _ _ _ H1), Hl2, <- app_assoc. done.
Qed.

Variable su : surroundings.

Lemma sweep_cell_files nm k c r l d l' :
  sweep_cell sw su nm k c r l = (Ok d, l') -> files l' = files l ++ [out_path sw k c r].
Proof.
  unfold sweep_cell. intros H. apply bind_inv_Ok in H as (name & l1 & H1 & H).
  injection H1 as _ <-. apply bind_inv_Ok in H as ([[rows wall] res] & l2 & H2 & H).
  injection H2 as _ <-. apply bind_inv_Ok in H as ([] & l3 & H3 & H). injection H3 as <-.
  destruct (dget _ _) as [[]|]; try done. injection H as _ <-. by rewrite files_app.
Qed.

Lemma on_fst_result_state {Σ1 Σ2 A} (r : result A) (s : Σ1 * Σ2) a s' :
  on_fst (of_result r) s = (Ok a, s') -> s' = s.
Proof. destruct s as [x y], r; unfold on_fst, of_result; by intros [= _ <-]. Qed.

Definition config_cells (k : string) : list string :=
  concat (map (fun c => map (out_path sw k c) (repetitions_of (sw_repetitions sw)))
            (sw_concurrency_levels sw)).

Lemma config_cleanup_files k l px l' px' :
  config_cleanup su k (l, px) = (Ok tt, (l', px')) -> files l' = files l.
Proof.
  unfold config_cleanup. generalize (stop_proxy su k), (stop_server su k).
  intros rp rs. unfold on_fst, bind, say, of_result. destruct px, rp, rs; simpl; intros Hx;
    try done; inversion Hx; subst; by rewrite ?files_app, ?app_nil_r.
Qed.

Lemma config_body_files nm k l px xs l' px' :
  config_body sw su nm k (l, px) = (Ok xs, (l', px')) ->
  files l' = files l ++ config_cells k /\ length xs = length (config_cells k).
Proof.
  unfold config_body. generalize (server_healthy sw su k), (proxy_healthy sw su k).
  intros rs rp Hb. apply bind_inv_Ok in Hb as ([] & s1 & ->%on_fst_result_state & Hb).
  apply bind_inv_Ok in Hb as ([] & [l5 p5] & Hp & Hb).
  assert (files l5 = files l) as Hl5.
  { destruct nm as [[rtt b]|]; [|by injection Hp as <- _].
    apply bind_inv_Ok in Hp as ([] & s1 & [= <-] & Hp).
    apply bind_inv_Ok in Hp as ([] & s2 & [= <-] & Hp).
    apply on_fst_result_state in Hp as [= -> _]. by rewrite files_app, app_nil_r. }
  apply bind_inv_Ok in Hb as (zs & [l6 p6] & Hcells & Hb). injection Hb as <- <- _.
  apply on_fst_inv_Ok in Hcells as (l7 & Hcells & [= <- _]).
  destruct (writes_concat _ (fun c => map (out_path sw k c) (repetitions_of (sw_repetitions sw))) _
              (fun c => writes_each _ (out_path sw k c) _
                 (fun r s0 b s1 => sweep_cell_files nm k c r s0 b s1)) _ _ _ Hcells) as [Hf Hl].
  by rewrite Hf, Hl5.
Qed.

Lemma run_config_inv nm k l xs l' :
  run_config sw su nm k l = (Ok xs, l') ->
  exists px, try_finally (config_body sw su nm k) (config_cleanup su k)
               (l ++ [ServerStarted k], false) = (Ok xs, (l', px)).
Proof.
  unfold run_config. generalize (config_body sw su nm k), (config_cleanup su k).
  intros body cleanup H. apply bind_inv_Ok in H as (m & l1 & [= _ <-] & H).
  apply bind_inv_Ok in H as ([] & l2 & [= <-] & H).
  destruct (try_finally body cleanup _) as [res [l3 px]]. injection H as -> <-. by exists px.
Qed.

Lemma run_config_files nm k : writes (run_config sw su nm k) (config_cells k).
Proof.
  intros l xs l' H. apply run_config_inv in H as (px & H).
  apply try_finally_inv_Ok in H as ([lb pb] & Hb & Hc).
  apply config_cleanup_files in Hc as ->. apply config_body_files in Hb.
  by rewrite files_app, app_nil_r in Hb.
Qed.

Lemma map_concat {A B} (f : A -> B) (ls : list (list A)) : map f (concat ls) = concat (map (map f) ls).
Proof. induction ls; simpl; [done|]. rewrite map_app. by f_equal. Qed.

Lemma config_cells_eq : concat (map config_cells (sw_configs sw)) = map cell_path sweep_cells.
Proof.
  unfold sweep_cells, config_cells. rewrite map_concat, map_map. f_equal. apply map_ext. intros k.
  rewrite map_concat, map_map. f_equal. apply map_ext. intros c. by rewrite map_map.
Qed.

Lemma NoDup_concat {A B} (f : A -> list B) l :
  NoDup l -> (forall a, NoDup (f a)) -> (forall a a' b, b ∈ f a -> b ∈ f a' -> a = a') ->
  NoDup (concat (map f l)).
Proof.
  intros Hl Hf Hinj. induction Hl as [|a l Ha Hl IH]; simpl; [constructor|].
  apply NoDup_app. split_and!; [done| |done]. intros b Hb Hc.
  apply list_elem_of_In, in_concat in Hc as (ys & Hys & Hc%list_elem_of_In).
  apply in_map_iff in Hys as (a' & <- & Ha'%list_elem_of_In).
  by rewrite (Hinj a a' b Hb Hc) in Ha.
Qed.

(** C27: A sweep that returns has run every cell -- every configuration at every
    concurrency level for every repetition, in that order -- with one summary
    each, and written each to a file of its own: with distinct configurations
    and levels no two cells of a sweep share an output path, so none
    overwrites another. *)
Theorem sweep_writes_every_cell (all : list dict) (l : log)
    (Hrun : run_full_sweep sw su [] = (Ok all, l)) :
  files l = map cell_path sweep_cells ++ match all with [] => [] | _ => [summary_path sw] end
  /\ length all = length sweep_cells
  /\ (NoDup (sw_configs sw) -> NoDup (sw_concurrency_levels sw) ->
      NoDup (map cell_path sweep_cells)).
Proof.
  unfold run_full_sweep in Hrun. apply bind_inv_Ok in Hrun as (nm & l1 & H1 & Hrun).
  injection H1 as _ <-. apply bind_inv_Ok in Hrun as (ss & l2 & H2 & Hrun).
  apply bind_inv_Ok in Hrun as ([] & l3 & H3 & Hrun). injection Hrun as <- <-.
  destruct (writes_concat _ config_cells _ (run_config_files nm) _ _ _ H2) as [Hf Hl].
  rewrite config_cells_eq in Hf, Hl. rewrite length_map in Hl. simpl in Hf. split_and!.
  - destruct (concat ss); injection H3 as <-; [by rewrite Hf, app_nil_r|].
    by rewrite files_app, Hf.
  - exact Hl.
  - intros Hks Hcs. rewrite <- config_cells_eq.
    assert (forall k c r x, x ∈ map (out_path sw k c) r -> exists y, x = out_path sw k c y) as Hin.
    { intros k c r x Hx. apply list_elem_of_In, in_map_iff in Hx as (y & <- & _). by exists y. }
    apply NoDup_concat; [done| |].
    + intros k. apply NoDup_concat; [done| |].
      * intros c. apply NoDup_fmap_2_strong; [|apply NoDup_seqZ].
        intros x y _ _ Hxy. by apply out_path_inj in Hxy as (_ & _ & ->).
      * intros c c' x (y & ->)%Hin (y' & Hy)%Hin. by apply out_path_inj in Hy as (_ & -> & _).
    + assert (forall k x, x ∈ config_cells k -> exists c y, x = out_path sw k c y) as Hk.
      { intros k x Hx. apply list_elem_of_In, in_concat in Hx as (ys & Hys & Hx%list_elem_of_In).
        apply in_map_iff in Hys as (c & <- & _). apply Hin in Hx as (y & ->). by exists c, y. }
      intros k k' x (c & y & ->)%Hk (c' & y' & Hy)%Hk. by apply out_path_inj in Hy as (-> & _).
Qed.
End Files.

(** ** Waiting for a server *)

Section Wait.
Variables (poll : nat -> Q * result Z) (base_url : string).

(** Poll [j] is made before the deadline. *)
Definition in_time (deadline : Q) (j : nat) : Prop := (fst (poll j) < deadline)%Q.

(** A poll in time that is answered 200, after polls in time that were not
    the last. *)
Definition healthy_at (deadline : Q) (k j : nat) : Prop :=
  (k <= j)%nat /\ (forall i, (k <= i <= j)%nat -> in_time deadline i) /\ snd (poll j) = Ok 200.

Lemma healthy_at_later deadline k j :
  in_time deadline k -> snd (poll k) <> Ok 200 ->
  healthy_at deadline k j <-> healthy_at deadline (S k) j.
Proof.
  intros Hk Hn. split; intros (Hle & Ht & H).
  - assert (k <> j) by (intros ->; done).
    split_and!; [lia| |done]. intros i Hi. apply Ht. lia.
  - split_and!; [lia| |done]. intros i Hi. destruct (decide (i = k)) as [->|]; [done|]. apply Ht. lia.
Qed.

Lemma poll_healthy_spec fuel k deadline last_err :
  (exists j, (k <= j < k + fuel)%nat /\ ~ in_time deadline j) ->
  exists r, poll_healthy fuel poll k deadline base_url last_err = Some r
    /\ (r = Ok tt <-> exists j, healthy_at deadline k j)
    /\ (r <> Ok tt -> exists e, r = Raise (RuntimeError
         ("Server at " +:+ base_url +:+ " did not become healthy: " +:+ last_error e))).
Proof.
  revert k last_err; induction fuel as [|fuel IH]; intros k le (j & Hj & Hl); [lia|].
  cbn [poll_healthy]. destruct (poll k) as [now resp] eqn:Hk.
  destruct (Qle_bool deadline now) eqn:Hd; cbn [negb].
  - eexists. split; [done|]. split; [|by exists le]. split; [done|].
    intros (i & Hle & Ht & _). exfalso. specialize (Ht k ltac:(lia)). unfold in_time in Ht.
    rewrite Hk in Ht. simpl in Ht. apply Qle_bool_iff in Hd. by apply (Qlt_not_le _ _ Ht).
  - assert (in_time deadline k) as Hin.
    { unfold in_time. rewrite Hk. simpl. apply Qnot_le_lt. intros Hc.
      apply Qle_bool_iff in Hc. congruence. }
    assert (exists j, (S k <= j < S k + fuel)%nat /\ ~ in_time deadline j) as Hmore.
    { exists j. assert (j <> k) by (intros ->; done). split; [lia|done]. }
    assert (snd (poll k) = resp) as Hr by by rewrite Hk.
    assert (resp = Ok 200 \/ resp <> Ok 200) as [->|Hn].
    { destruct resp as [st|e]; [|by right]. destruct (decide (st = 200)) as [->|]; [by left|right; congruence]. }
    { eexists. split; [done|]. split; [|done]. split; [|done]. intros _. exists k.
      split_and!; [lia| |done]. intros i Hi. by replace i with k by lia. }
    rewrite <- Hr in Hn. assert (forall e, exists r,
        poll_healthy fuel poll (S k) deadline base_url e = Some r
        /\ (r = Ok tt <-> exists j, healthy_at deadline k j)
        /\ (r <> Ok tt -> exists e, r = Raise (RuntimeError
             ("Server at " +:+ base_url +:+ " did not become healthy: " +:+ last_error e)))) as Hgo.
    { intros e. destruct (IH (S k) e Hmore) as (r & Hr1 & Hr2 & Hr3). exists r.
      split; [done|]. split; [|done]. rewrite Hr2. split; intros (i & Hi); exists i;
        by apply (healthy_at_later deadline k i Hin Hn). }
    destruct resp as [st|e]; [|apply Hgo]. destruct (Z.eqb_spec st 200) as [->|_]; [done|apply Hgo].
Qed.

(** Waiting for a server always ends: with the polls at least 0.3 s apart
    it decides within the 20 s allowed.  It returns exactly when a poll in
    time is answered 200, and otherwise raises [RuntimeError] naming the URL. *)
Theorem wait_healthy_decides (start : Q)
    (Hclock : forall k, (start + inject_Z (Z.of_nat k) * poll_interval <= fst (poll k))%Q) :
  exists r, _wait_healthy base_url poll start = Some r
    /\ (r = Ok tt <-> exists j, healthy_at (start + health_timeout) 0 j)
    /\ (r <> Ok tt -> exists e, r = Raise (RuntimeError
         ("Server at " +:+ base_url +:+ " did not become healthy: " +:+ last_error e))).
Proof.
  apply poll_healthy_spec. exists 67%nat. split; [unfold health_fuel; lia|].
  unfold in_time. apply Qle_not_lt. eapply Qle_trans; [|apply Hclock].
  apply Qplus_le_r. done.
Qed.
End Wait.
