(* ===== verification/StreamingRunner.v ===== *)
(** * The streaming sweep ([bench/streaming_runner.py])

    One transaction at a time: per configuration a server, discarded warm-up
    transactions, then every combination of strategy, length, chunk size and
    checkpoint interval for every repetition, each of them
    [run_streaming_transaction].  The log of the sweep is that of
    [Orchestrator]; what starting a server does to the network, the seeded
    shuffle and the sampler's summaries are parameters. *)
From S2P Require Import Prelude PyBytes PyVal World Instrumentation PyList Base Configs.
From S2P Require Import Streaming Http StreamingClient Replay Orchestrator.

Definition DEFAULT_PROMPT : string :=
  "Summarize the key risks of migrating a production API to post-quantum cryptography, focusing on latency-sensitive workloads.".

Definition CONFIG_TO_CRYPTO_NAME : list (string * string) :=
  [("classical", "classical"); ("classical-ecdhe", "classical_ecdhe"); ("hybrid", "hybrid");
   ("hybrid-kex", "hybrid_kex"); ("full-pqc", "full_pqc"); ("hybrid-kex-pq", "hybrid_kex_pq")].

Definition CSV_FIELDS : list string :=
  ["run_id"; "backend"; "config"; "strategy"; "max_tokens"; "chunk_size_tokens"; "repetition";
   "handshake_ms"; "ttft_ms"; "total_ms"; "n_chunks"; "total_signature_bytes"; "total_signing_ms";
   "total_verify_ms"; "total_signing_cpu_ms"; "total_verify_cpu_ms"; "all_signatures_valid";
   "all_aead_ok"; "all_in_order"; "stream_fully_verified"; "reconstructed_bytes";
   "checkpoint_interval"; "n_signatures"; "max_unverified_chunks"; "max_verification_lag_ms";
   "protocol_version"; "error"].

(** [os.environ.get("PQ_SHIELD_STREAMING_BACKEND", "synthetic")]. *)
Definition _current_backend (environ : list (string * string)) : string :=
  dget_or "PQ_SHIELD_STREAMING_BACKEND" "synthetic" environ.

(** The dictionary [run_streaming_transaction] returns; sums of the numbers
    in the records are [VFloat] here. *)
Definition metrics_dict (config_name strategy : string) (chunk_size_tokens max_tokens : Z)
    (checkpoint_interval : option Z) (m : metrics) : dict :=
  [("config", VStr config_name); ("strategy", VStr strategy);
   ("chunk_size_tokens", VInt chunk_size_tokens); ("max_tokens", VInt max_tokens);
   ("error", val_of_opt VStr (m_error m)); ("ttft_ms", opt_float (m_ttft_ms m));
   ("total_ms", opt_float (m_total_ms m)); ("n_chunks", VInt (m_n_chunks m));
   ("total_signature_bytes", VFloat (m_total_signature_bytes m));
   ("total_signing_ms", VFloat (m_total_signing_ms m));
   ("total_verify_ms", VFloat (m_total_verify_ms m));
   ("total_signing_cpu_ms", VFloat (m_total_signing_cpu_ms m));
   ("total_verify_cpu_ms", VFloat (m_total_verify_cpu_ms m));
   ("all_signatures_valid", VBool (m_all_signatures_valid m));
   ("all_aead_ok", VBool (m_all_aead_ok m)); ("all_in_order", VBool (m_all_in_order m));
   ("stream_fully_verified", val_of_opt VBool (m_stream_fully_verified m));
   ("reconstructed_bytes", VInt (m_reconstructed_bytes m));
   ("checkpoint_interval", opt_int checkpoint_interval);
   ("n_signatures", VInt (m_n_signatures m));
   ("max_unverified_chunks", VInt (m_max_unverified_chunks m));
   ("max_verification_lag_ms", VFloat (m_max_verification_lag_ms m))]
  ++ match m_handshake_ms m with Some ms => [("handshake_ms", VFloat ms)] | None => [] end.

(** [{k: metrics.get(k) for k in CSV_FIELDS}]. *)
Definition project (fields : list string) (d : dict) : dict :=
  map (fun k => (k, dget_or k VNone d)) fields.

(** A combination: strategy, length, chunk size and checkpoint interval. *)
Abbreviation combo := (string * Z * Z * option Z)%type.

Definition combos_of (strategies : list string) (max_tokens_values chunk_size_values : list Z)
    (checkpoint_intervals : list (option Z)) : list combo :=
  concat (map (fun s => concat (map (fun mt => concat (map (fun cs =>
    map (fun k => (s, mt, cs, k)) (if String.eqb s "hash_chain" then checkpoint_intervals else [None]))
    chunk_size_values)) max_tokens_values)) strategies).

(** [min(l)]. *)
Definition list_min (l : list Z) : result Z :=
  match l with
  | [] => Raise (ValueError "min() iterable argument is empty")
  | x :: r => Ok (fold_left Z.min r x)
  end.

Section Runner.
Context {E : Env} {P : Prims} {J : Json} {N : Type} {TR : Transport N}.

Definition _run_one (base_url config_key strategy : string)
    (max_tokens chunk_size_tokens repetition : Z) (run_id backend : string)
    (checkpoint_interval : option Z) : M (world * N) dict :=
  let* crypto_name := of_result (getitem config_key CONFIG_TO_CRYPTO_NAME) in
  let* m := run_streaming_transaction base_url crypto_name DEFAULT_PROMPT strategy
              chunk_size_tokens max_tokens checkpoint_interval in
  let d := metrics_dict crypto_name strategy chunk_size_tokens max_tokens checkpoint_interval m in
  let d := dset "max_tokens" (VInt max_tokens) d in
  let d := dset "chunk_size_tokens" (VInt chunk_size_tokens) d in
  let d := dset "repetition" (VInt repetition) d in
  let d := dset "run_id" (VStr run_id) d in
  let d := dset "backend" (VStr backend) d in
  let d := dset "protocol_version" (VStr PROTOCOL_VERSION) d in
  ret (project CSV_FIELDS d).

Record stream_sweep := mkStreamSweep {
  ss_configs : list string; ss_strategies : list string; ss_max_tokens_values : list Z;
  ss_chunk_size_values : list Z; ss_repetitions : Z; ss_port : Z; ss_output_dir : string;
  ss_summary_dir : string; ss_warmup_transactions : Z; ss_shuffle_seed : option Z;
  ss_checkpoint_intervals : option (list (option Z)); ss_run_id : string; ss_backend : string }.

(** What the sweep meets. *)
Record stream_surroundings := mkStreamSurroundings {
  sx_boot : string -> world * N -> world * N;
  sx_polls : string -> Q * (nat -> Q * result Z);
  sx_group : string -> (kill_signal -> bool) * (kill_signal -> bool);
  sx_shuffled : Z -> string -> list combo -> list combo;
  sx_resources : string -> combo -> Z -> dict }.

Section Sweep.
Variables (ss : stream_sweep) (sx : stream_surroundings).
Abbreviation sr_state := (log * (world * N))%type.

Definition base_url : string := "http://127.0.0.1:" +:+ pretty.pretty (ss_port ss).

(** [checkpoint_intervals or [None]]. *)
Definition intervals : list (option Z) :=
  match ss_checkpoint_intervals ss with
  | Some (k :: r) => k :: r
  | _ => [None]
  end.
Definition combos : list combo :=
  combos_of (ss_strategies ss) (ss_max_tokens_values ss) (ss_chunk_size_values ss) intervals.
Definition order (config_key : string) : list combo :=
  match ss_shuffle_seed ss with
  | Some seed => sx_shuffled sx seed config_key combos
  | None => combos
  end.

(** A discarded transaction. *)
Definition warmup (config_key : string) : M sr_state unit :=
  let* strategy := of_result (getitem_at (ss_strategies ss) 0) in
  let* max_tokens := of_result (list_min (ss_max_tokens_values ss)) in
  let* chunk_size := of_result (getitem_at (ss_chunk_size_values ss) 0) in
  on_snd (_run_one base_url config_key strategy max_tokens chunk_size 0 (ss_run_id ss) "" None) ;;;
  ret tt.

Definition stream_summary (config_key : string) (x : combo) (rep : Z) (row resource_summary : dict)
    : dict :=
  let '(strategy, max_tokens, chunk_size, k) := x in
  dict_update
    [("run_id", VStr (ss_run_id ss)); ("run_type", VStr "streaming"); ("backend", VStr (ss_backend ss));
     ("config", VStr config_key); ("strategy", VStr strategy); ("max_tokens", VInt max_tokens);
     ("chunk_size_tokens", VInt chunk_size); ("checkpoint_interval", opt_int k);
     ("repetition", VInt rep); ("n_errors", VInt (if get_truthy "error" row then 1 else 0))]
    resource_summary.

(** One cell: its row and its summary; the progress line formats the time to
    the first token of a row without an error. *)
Definition stream_cell (config_key : string) (x : combo) (rep : Z) : M sr_state (dict * dict) :=
  let '(strategy, max_tokens, chunk_size, k) := x in
  let* row := on_snd (_run_one base_url config_key strategy max_tokens chunk_size rep
                        (ss_run_id ss) (ss_backend ss) k) in
  let summary := stream_summary config_key x rep row (sx_resources sx config_key x rep) in
  if get_truthy "error" row then ret (row, summary)
  else match dget "ttft_ms" row with
       | Some (VFloat _) => ret (row, summary)
       | _ => raise (TypeError "unsupported format string passed to NoneType.__format__")
       end.

Definition csv_path (config_key : string) : string :=
  ss_output_dir ss +:+ "/" +:+ config_key +:+ "-streaming-" +:+ ss_run_id ss +:+ ".csv".

(** The [try] block of one configuration. *)
Definition stream_body (config_key : string) : M sr_state (list (dict * dict)) :=
  of_result (wait_for base_url (sx_polls sx config_key)) ;;;
  for_each (seqZ 0 (ss_warmup_transactions ss)) (fun _ => warmup config_key) ;;;
  let* cells := mmap (fun x => mmap (stream_cell config_key x) (repetitions_of (ss_repetitions ss)))
                  (order config_key) in
  on_fst (say (FileWritten (csv_path config_key))) ;;;
  ret (concat cells).

(** The [finally] block. *)
Definition stream_cleanup (config_key : string) : M sr_state unit :=
  on_fst (say (StopServer config_key)) ;;;
  of_result (stop_group (sx_group sx config_key)).

Definition stream_config (config_key : string) : M sr_state (list (dict * dict)) :=
  let* _ := of_result (getitem config_key SERVER_MODULES) in
  on_fst (say (ServerStarted config_key)) ;;;
  on_snd (modify (sx_boot sx config_key)) ;;;
  try_finally (stream_body config_key) (stream_cleanup config_key).

Definition summaries_path : string := ss_summary_dir ss +:+ "/" +:+ ss_run_id ss +:+ ".json".

(** The rows; the summaries go to the file. *)
Definition run_sweep : M sr_state (list dict) :=
  let* cells := mmap stream_config (ss_configs ss) in
  let all := concat cells in
  (match all with [] => ret tt | _ => on_fst (say (FileWritten summaries_path)) end) ;;;
  ret (map fst all).
End Sweep.
End Runner.

(** ** The rows of a streaming sweep

    A sweep that returns gives one row per planned transaction, in the order
    they ran, with what was asked for in its columns; warm-ups give none. *)

Lemma dget_project k fields d :
  k ∈ fields -> dget k (project fields d) = Some (dget_or k VNone d).
Proof.
  unfold project. induction fields as [|x r IH]; [by intros ?%elem_of_nil|]. simpl.
  destruct (String.eqb_spec k x) as [->|Hne]; [done|]. intros [->|H]%elem_of_cons; [done|by apply IH].
Qed.

Section Rows.
Context {E : Env} {P : Prims} {J : Json} {N : Type} {TR : Transport N}.
Variables (ss : stream_sweep) (sx : stream_surroundings (N := N)).

(** A planned transaction. *)
Abbreviation planned := (string * combo * Z)%type.

Definition plan_with (order : string -> list combo) : list planned :=
  concat (map (fun key => concat (map (fun x => map (fun rep => (key, x, rep))
                                         (repetitions_of (ss_repetitions ss))) (order key)))
            (ss_configs ss)).

(** The row of a planned transaction: its columns are those of the CSV file,
    they say what was asked for, and without an error the time to the first
    token is there. *)
Definition row_describes (p : planned) (row : dict) : Prop :=
  let '(key, (strategy, max_tokens, chunk_size, k), rep) := p in
  map fst row = CSV_FIELDS
  /\ (exists crypto_name, getitem key CONFIG_TO_CRYPTO_NAME = Ok crypto_name
      /\ dget "config" row = Some (VStr crypto_name))
  /\ dget "strategy" row = Some (VStr strategy) /\ dget "max_tokens" row = Some (VInt max_tokens)
  /\ dget "chunk_size_tokens" row = Some (VInt chunk_size)
  /\ dget "checkpoint_interval" row = Some (opt_int k) /\ dget "repetition" row = Some (VInt rep)
  /\ dget "run_id" row = Some (VStr (ss_run_id ss))
  /\ dget "backend" row = Some (VStr (ss_backend ss))
  /\ (get_truthy "error" row = false -> exists ms, dget "ttft_ms" row = Some (VFloat ms)).

Lemma run_one_row key strategy max_tokens chunk_size rep k σ row σ' :
  _run_one (base_url ss) key strategy max_tokens chunk_size rep (ss_run_id ss) (ss_backend ss) k σ
    = (Ok row, σ') ->
  (get_truthy "error" row = false -> exists ms, dget "ttft_ms" row = Some (VFloat ms)) ->
  row_describes (key, (strategy, max_tokens, chunk_size, k), rep) row.
Proof.
  unfold _run_one. intros H Htt. apply bind_inv_Ok in H as (name & s1 & Hname & H).
  apply bind_inv_Ok in H as (m & s2 & _ & H). injection Hname as Hname _.
  set (d := dset _ _ _) in H. injection H as <- _.
  assert (forall k v, k ∈ CSV_FIELDS -> dget_or k VNone d = v ->
                      dget k (project CSV_FIELDS d) = Some v) as Hget.
  { intros k' v Hk <-. by apply dget_project. }
  unfold row_describes. split; [reflexivity|].
  split; [exists name; split; [exact Hname|]|];
    split_and?; try exact Htt; apply Hget; try (by apply (bool_decide_unpack _); vm_compute);
    unfold d, metrics_dict; destruct (m_handshake_ms m); reflexivity.
Qed.

Lemma stream_cell_row key x rep s row summary s' :
  stream_cell ss sx key x rep s = (Ok (row, summary), s') -> row_describes (key, x, rep) row.
Proof.
  destruct x as [[[strategy mt] cs] k]. unfold stream_cell. intros H.
  apply bind_inv_Ok in H as (row' & s1 & H1 & H). destruct s as [l σ].
  unfold on_snd in H1. destruct (_run_one _ _ _ _ _ _ _ _ _ σ) as [r σ1] eqn:Hrun.
  injection H1 as -> <-. cbv zeta in H.
  destruct (get_truthy "error" row') eqn:He.
  - injection H as <- _ _. apply (run_one_row _ _ _ _ _ _ _ _ _ Hrun). congruence.
  - destruct (dget "ttft_ms" row') as [[]|] eqn:Ht; try done. injection H as <- _ _.
    apply (run_one_row _ _ _ _ _ _ _ _ _ Hrun). intros _. eauto.
Qed.

Definition cell_describes (p : planned) (cell : dict * dict) : Prop := row_describes p (fst cell).

Lemma stream_body_rows key s cells s' :
  stream_body ss sx key s = (Ok cells, s') ->
  Forall2 cell_describes
    (concat (map (fun x => map (fun rep => (key, x, rep)) (repetitions_of (ss_repetitions ss)))
               (order ss sx key))) cells.
Proof.
  unfold stream_body. intros H. apply bind_inv_Ok in H as ([] & s1 & _ & H).
  apply bind_inv_Ok in H as ([] & s2 & _ & H). apply bind_inv_Ok in H as (ls & s3 & Hls & H).
  apply bind_inv_Ok in H as ([] & s4 & _ & H). injection H as <- _.
  eapply mmap_concat; [|exact Hls]. intros x s0 cs s0' Hx. apply Forall2_fmap_l.
  eapply mmap_Forall2; [|exact Hx]. intros rep s5 [row sum] s5' Hc. by eapply stream_cell_row.
Qed.

Lemma run_sweep_rows s rows s' :
  run_sweep ss sx s = (Ok rows, s') -> Forall2 row_describes (plan_with (order ss sx)) rows.
Proof.
  unfold run_sweep. intros H. apply bind_inv_Ok in H as (ls & s1 & Hls & H).
  apply bind_inv_Ok in H as ([] & s2 & _ & H). injection H as <- _. apply Forall2_fmap_r.
  eapply mmap_concat; [|exact Hls]. intros key s0 cells s0' Hk. unfold stream_config in Hk.
  apply bind_inv_Ok in Hk as (module & s3 & _ & Hk). apply bind_inv_Ok in Hk as ([] & s4 & _ & Hk).
  apply bind_inv_Ok in Hk as ([] & s5 & _ & Hk).
  apply try_finally_inv_Ok in Hk as (s6 & Hk & _). by eapply stream_body_rows.
Qed.

Lemma concat_map_Permutation {A B} (f g : A -> list B) l :
  (forall a, Permutation (f a) (g a)) -> Permutation (concat (map f l)) (concat (map g l)).
Proof. intros H. induction l as [|a l IH]; simpl; [done|by apply Permutation_app]. Qed.

Lemma concat_map_perm {A B} (f : A -> list B) l l' :
  Permutation l l' -> Permutation (concat (map f l)) (concat (map f l')).
Proof.
  induction 1; simpl; [done|by apply Permutation_app_head| |by etrans].
  rewrite !app_assoc. apply Permutation_app_tail, Permutation_app_comm.
Qed.

(** Checkpoint intervals are swept for hash chains only. *)
Lemma combos_intervals strategy mt cs k :
  (strategy, mt, cs, k) ∈ combos ss -> k = None \/ (strategy = "hash_chain" /\ k ∈ intervals ss).
Proof.
  unfold combos, combos_of.
  assert (forall {A B} (f : A -> list B) l b, b ∈ concat (map f l) -> exists a, b ∈ f a) as Hin.
  { intros A B f l b H. apply list_elem_of_In, in_concat in H as (ys & Hys & H).
    apply in_map_iff in Hys as (a & <- & _). exists a. by apply list_elem_of_In. }
  intros (s & (m & (c & H)%Hin)%Hin)%Hin. apply list_elem_of_fmap in H as (k' & [= <- <- <- <-] & Hk).
  destruct (String.eqb_spec strategy "hash_chain") as [->|_]; [by right|].
  apply list_elem_of_singleton in Hk. by left.
Qed.

(** A streaming sweep that returns has one row per planned transaction --
    every combination for every repetition under every configuration, in the
    order they ran, whatever the server answered -- whose columns are the
    CSV's and say what was asked for; the warm-ups leave no row.  A seeded
    shuffle changes the order only, and only hash chains get checkpoints. *)
Theorem stream_sweep_rows (s : log * (world * N)) (rows : list dict) (s' : log * (world * N))
    (Hshuffle : forall seed key l, Permutation (sx_shuffled sx seed key l) l)
    (Hrun : run_sweep ss sx s = (Ok rows, s')) :
  Forall2 row_describes (plan_with (order ss sx)) rows
  /\ Permutation (plan_with (order ss sx)) (plan_with (fun _ => combos ss))
  /\ (forall strategy mt cs k, (strategy, mt, cs, k) ∈ combos ss ->
      k = None \/ (strategy = "hash_chain" /\ k ∈ intervals ss)).
Proof.
  split_and!; [by eapply run_sweep_rows| |apply combos_intervals].
  unfold plan_with. apply concat_map_Permutation. intros key. apply concat_map_perm.
  unfold order. destruct (ss_shuffle_seed ss); [apply Hshuffle|done].
Qed.
End Rows.
