(* ===== verification/AppServer.v ===== *)
(** * The server behind a transport

    The routes of [build_app] ([api/secure_app.py]) as a [Transport]: a request
    body becomes a [SecurePredictRequest], a handler's value or exception
    becomes the response FastAPI makes of it, and a streaming response carries
    the lines its generator produced. *)
From Stdlib Require Import Ascii.
From stdpp Require Import gmap pretty.
From S2P Require Import Prelude PyBytes PyVal World Aead Base Configs Streaming Http.
From S2P Require Import HandshakeAuth SecureApp.

Definition json_response {J : Json} (j : dict) : response :=
  mkResponse 200 (Ok (VDict j)) (json_text (VDict j)) [] None.

(** [HTTPException] and everything else. *)
Definition error_response {J : Json} (e : exn) : response :=
  match e with
  | HTTPException status detail =>
      let body := VDict [("detail", VStr detail)] in
      mkResponse status (Ok body) (json_text body) [] None
  | _ => mkResponse 500 (Raise JSONDecodeError) "Internal Server Error" [] None
  end.

Definition stream_response (events : list string * option exn) : response :=
  mkResponse 200 (Raise JSONDecodeError) "" (aiter_lines (fst events)) (snd events).

(** The fields of the request model, for the bodies the clients build. *)
Definition parse_request (payload : dict) : result SecurePredictRequest :=
  let str k := match dget k payload with Some (VStr s) => Ok s
               | _ => Raise (HTTPException 422 "Unprocessable Entity") end in
  let? hid := str "handshake_id" in
  let? blob := (match dget "kex_blob" payload with None => Ok "" | Some _ => str "kex_blob" end) in
  let? n := str "nonce" in
  let? c := str "ciphertext" in
  let? keep := (match dget "keep_session" payload with
                | None => Ok false
                | Some (VBool b) => Ok b
                | Some _ => Raise (HTTPException 422 "Unprocessable Entity")
                end) in
  Ok (mkRequest hid blob n c keep).

(** [str.lower] on the ASCII letters, the only ones whose lower case can be
    a letter of the word [true]. *)
Definition lower_ascii (a : ascii) : ascii :=
  let n := Ascii.nat_of_ascii a in
  if ((65 <=? n) && (n <=? 90))%nat then Ascii.ascii_of_nat (n + 32) else a.
Fixpoint lower (s : string) : string :=
  match s with EmptyString => EmptyString | String a r => String (lower_ascii a) (lower r) end.

(** [(x_debug_metrics or "").lower() == "true"]. *)
Definition debug_header (headers : list (string * string)) : bool :=
  String.eqb (lower (dget_or "X-Debug-Metrics" "" headers)) "true".
(** The headers the clients send ask for the metrics they want. *)
Lemma debug_header_sent (debug : bool) :
  debug_header (if debug then [("X-Debug-Metrics", "true")] else []) = debug.
Proof. by destruct debug. Qed.

Section Serve.
Context {E : Env} {P : Prims} {J : Json} {T : Type} {Srv : ServerCryptoConfig T}.
Variables (model_predict : val -> M world dict)
          (backend_stream : result token_source)
          (identity : option IdentityKey) (base_url : string).

Abbreviation net_state := (world * (T * gmap string bytes))%type.

(** A handler's outcome as a response. *)
Definition serve {A} (handler : M ((world * T) * gmap string bytes) A) (ok : A -> response)
    : M net_state response := fun '(w, (s, ks)) =>
  let '(r, ((w', s'), ks')) := handler ((w, s), ks) in
  (Ok (match r with Ok a => ok a | Raise e => error_response e end), (w', (s', ks'))).

Definition app_get (url : string) : M net_state response :=
  if String.eqb url (base_url +:+ "/secure/handshake") then serve (handshake identity) json_response
  else if String.eqb url (base_url +:+ "/secure/identity")
  then serve (identity_key identity) json_response
  else ret (error_response (HTTPException 404 "Not Found")).

Definition app_post (url : string) (payload : dict) (headers : list (string * string))
    : M net_state response :=
  if String.eqb url (base_url +:+ "/secure/predict") then
    serve (let* req := of_result (parse_request payload) in
           secure_predict model_predict req (debug_header headers)) json_response
  else if String.eqb url (base_url +:+ "/secure/predict/stream") then
    serve (let* req := of_result (parse_request payload) in
           secure_predict_stream backend_stream req) stream_response
  else ret (error_response (HTTPException 404 "Not Found")).

#[export] Instance app_transport : Transport (T * gmap string bytes) := {|
  http_get := app_get; http_post := app_post |}.

Definition app_init : T * gmap string bytes := (server_init, ∅).
End Serve.
