(* ===== verification/ControlServer.v ===== *)
(** * The unprotected server ([api/server.py])

    The baseline of every comparison: the same prediction service without any
    cryptography, and the extra round trip of the matched control. *)
From S2P Require Import Prelude PyBytes PyVal World PyList Http Base Configs AppServer.
From S2P Require Import Backends Profiles SweepCell.

Section Control.
Context {E : Env} {J : Json} {R : Type} {NR : NumpyRng R} {NU : Numerics (R := R)}.
Abbreviation control_state := (world * registry (R := R))%type.

Definition healthz : M control_state dict :=
  let* name := active_profile_name in
  ret [("status", VStr "ok"); ("config", VStr "control"); ("payload_profile", VStr name)].

Definition control_handshake : M control_state dict :=
  let* id := on_fst uuid4 in ret [("handshake_id", VStr id)].

(** [result.pop("_inference_ms", None)]. *)
Definition control_predict (body : dict) : M control_state dict :=
  let* result := predict body in
  ret (ddel "_inference_ms" result).

(** A handler's value or exception as FastAPI's response. *)
Definition respond (handler : M control_state dict) : M control_state response := fun σ =>
  let '(r, σ') := handler σ in
  (Ok (match r with Ok d => json_response d | Raise e => error_response e end), σ').

Variable base_url : string.

Definition control_get (url : string) : M control_state response :=
  if String.eqb url (base_url +:+ "/healthz") then respond healthz
  else if String.eqb url (base_url +:+ "/handshake") then respond control_handshake
  else ret (error_response (HTTPException 404 "Not Found")).

Definition control_post (url : string) (body : dict) (headers : list (string * string))
    : M control_state response :=
  if String.eqb url (base_url +:+ "/predict") then respond (control_predict body)
  else ret (error_response (HTTPException 404 "Not Found")).

#[export] Instance control_transport : Transport (registry (R := R)) := {|
  http_get := control_get; http_post := control_post |}.
End Control.

(** ** A control transaction against it *)
Section Transaction.
Context {E : Env} {P : Prims} {J : Json} {R : Type} {NR : NumpyRng R} {NU : Numerics (R := R)}.
Variables (base_url : string) (body answer : dict).

(** What a served request leaves in the row. *)
Definition served_row (two_round_trips : bool) (row : dict) : Prop :=
  dget "config" row = Some (VStr (if two_round_trips then "control_2rt" else "control"))
  /\ dget "error" row = Some VNone
  /\ dget "prediction" row = Some (dget_or "prediction" VNone answer)
  /\ dget "request_plaintext_bytes" row
     = Some (VInt (Z.of_nat (length (encode (json_text (VDict body))))))
  /\ dget "response_plaintext_bytes" row
     = Some (VInt (Z.of_nat (length (encode (resp_text (json_response answer)))))).

Lemma url_eqb suffix1 suffix2 :
  String.eqb (base_url +:+ suffix1) (base_url +:+ suffix2) = String.eqb suffix1 suffix2.
Proof. induction base_url as [|x u IH]; [done|]. simpl. by rewrite Ascii.eqb_refl. Qed.

Lemma ddel_last k v (d : dict) : dmem k d = false -> ddel k (d ++ [(k, v)]) = d.
Proof.
  unfold dmem. induction d as [|[k' v'] d IH]; simpl; [by rewrite String.eqb_refl|].
  destruct (String.eqb_spec k k') as [->|Hne]; [done|]. intros H. by rewrite IH.
Qed.

Variables (reg reg' : registry (R := R)).
(** The service answers the request, whenever it comes. *)
Hypothesis Hpredict : forall w, exists ms w',
  predict body (w, reg) = (Ok (answer ++ [("_inference_ms", VFloat ms)]), (w', reg')).
Hypothesis Hanswer : dmem "_inference_ms" answer = false.

Lemma control_predict_run w : exists w',
  http_post (Transport := control_transport base_url) (base_url +:+ "/predict") body [] (w, reg)
  = (Ok (json_response answer), (w', reg')).
Proof.
  destruct (Hpredict w) as (ms & w' & H). exists w'. cbn [http_post control_transport].
  unfold control_post. rewrite url_eqb. cbn [String.eqb Ascii.eqb Bool.eqb].
  unfold respond, control_predict. rewrite (bind_Ok _ _ _ _ _ H). unfold ret.
  by rewrite ddel_last.
Qed.

Lemma control_handshake_run w : exists d w',
  http_get (Transport := control_transport base_url) (base_url +:+ "/handshake") (w, reg)
  = (Ok (json_response d), (w', reg)).
Proof.
  eexists _, _. cbn [http_get control_transport]. unfold control_get. rewrite !url_eqb.
  reflexivity.
Qed.

Lemma control_body_run two w row : exists q1 q2 q3 w',
  control_body (TR := control_transport base_url) base_url two body
    (Z.of_nat (length (encode (json_text (VDict body))))) ((w, reg), row)
  = (Ok tt, ((w', reg'),
      dset "prediction" (dget_or "prediction" VNone answer)
        (dset "response_plaintext_bytes"
           (VInt (Z.of_nat (length (encode (resp_text (json_response answer))))))
        (dset "request_plaintext_bytes"
           (VInt (Z.of_nat (length (encode (json_text (VDict body))))))
        (dset "handshake_ms" (VFloat q1) (dset "total_ms" (VFloat q2)
        (dset "rtt_ms" (VFloat q3) row))))))).
Proof.
  unfold control_body.
  assert (exists q w1, (if two
      then let* t_h := on_fst (on_fst perf_counter) in
           let* hs := on_fst (http_get (Transport := control_transport base_url) (base_url +:+ "/handshake")) in
           let* t1 := on_fst (on_fst perf_counter) in
           if negb (status_code hs =? 200)
           then set_ctl "error" (VStr ("HTTP " +:+ pretty.pretty (status_code hs) +:+ " (handshake)")) ;;;
                ret None
           else ret (Some ((t1 - t_h) * 1000)%Q)
      else ret (Some 0%Q)) ((w, reg), row) = (Ok (Some q), ((w1, reg), row))) as (q & w1 & Hleg).
  { destruct two; [|by eexists _, _].
    destruct (control_handshake_run (advance w)) as (d & w1 & Hh). eexists _, _.
    rewrite (bind_Ok _ _ _ (env_perf_counter (tick w)) (((advance w), reg), row)) by reflexivity.
    rewrite (bind_Ok _ _ _ _ _ (on_fst_Ok _ _ row _ _ Hh)).
    rewrite (bind_Ok _ _ _ (env_perf_counter (tick w1)) (((advance w1), reg), row)) by reflexivity.
    reflexivity. }
  rewrite (bind_Ok _ _ _ _ _ Hleg). destruct (control_predict_run (advance w1)) as (w2 & Hp).
  exists q. eexists _, _, (advance w2).
  rewrite (bind_Ok _ _ _ (env_perf_counter (tick w1)) (((advance w1), reg), row)) by reflexivity.
  rewrite (bind_Ok _ _ _ _ _ (on_fst_Ok _ _ row _ _ Hp)).
  rewrite (bind_Ok _ _ _ (env_perf_counter (tick w2)) (((advance w2), reg'), row)) by reflexivity.
  reflexivity.
Qed.

(** The baseline measures what it serves: against the control server, with
    one round trip or two, a request the prediction service answers gives a
    row without an error, with that prediction and the sizes of the request
    and of the response as sent -- without the timing field the server drops
    -- and leaves the service as the prediction left it. *)
Theorem control_transaction_served (c : cell) (two : bool) (w w1 : world)
    (Hsample : ce_sample_request c w = (Ok body, w1))
    (Hbody : has_bytes (VDict body) = false) :
  exists row w',
    _control_transaction (TR := control_transport base_url) c base_url two (w, reg)
    = (Ok row, (w', reg')) /\ served_row two row.
Proof.
  unfold _control_transaction. rewrite (bind_Ok _ _ _ _ _ (on_fst_Ok _ _ reg _ _ Hsample)).
  unfold json_dumps. rewrite Hbody. unfold bind, of_result.
  edestruct (control_body_run two w1) as (q1 & q2 & q3 & w' & Hrun). rewrite Hrun.
  eexists _, w'. split; [reflexivity|]. unfold served_row. destruct two; by split_and!.
Qed.
End Transaction.
