(* ===== verification/StreamingClientSteps.v ===== *)
(** * What each branch of the streaming client's loop does to its state

    Inversion lemmas for [StreamingClient]: the part of the state the verdict
    depends on ([view]), as a function of the record and of the signature and
    AEAD checks made on it. *)
From S2P Require Import Prelude PyBytes Sha256 PyVal World Instrumentation Aead Base Streaming.
From S2P Require Import StreamingMessages Http StreamingClient.

(** The state the verdict depends on. *)
Record cview := mkView {
  v_sigs : bool; v_aead : bool; v_order : bool; v_verified : option bool;
  v_chain : option HashChainClientState; v_terminal : bool; v_index : Z; v_recon : bytes }.

Definition view (c : client_state) : cview :=
  mkView (m_all_signatures_valid (c_metrics c)) (m_all_aead_ok (c_metrics c))
    (m_all_in_order (c_metrics c)) (m_stream_fully_verified (c_metrics c))
    (c_chain c) (c_terminal_seen c) (c_expected_index c) (c_reconstructed c).

Definition opt_bytes (pt : option bytes) : bytes := match pt with Some b => b | None => [] end.

(** The decoded fields of the records, as the client reads them. *)
Definition b64_field (k : string) (data : dict) : result bytes :=
  let? v := getitem k data in _b64d v.

Definition chunk_fields (data : dict) : result (val * bytes * bytes * bytes) :=
  let? i := getitem "index" data in
  let? n := b64_field "nonce" data in
  let? c := b64_field "ciphertext" data in
  let? s := b64_field "signature" data in
  Ok (i, n, c, s).

Lemma of_result_inv {Σ A} (r : result A) (σ : Σ) a σ' :
  of_result r σ = (Ok a, σ') -> r = Ok a /\ σ' = σ.
Proof. unfold of_result. by intros [= -> ->]. Qed.

Lemma self_inv {A T} (a : A) (t : T) t' σ' :
  self (a, t) = (Ok t', σ') -> t' = t /\ σ' = (a, t).
Proof. by intros [= -> <-]. Qed.

Lemma upd_inv f w c u σ' : upd f (w, c) = (Ok u, σ') -> σ' = (w, f c).
Proof. by intros [= _ <-]. Qed.

Lemma add_num_inv f v w c u σ' :
  add_num f v (w, c) = (Ok u, σ') -> exists q, σ' = (w, on_metrics (f q) c).
Proof.
  unfold add_num. intros (q & s & H & Hk)%bind_inv_Ok.
  apply of_result_inv in H as [_ ->]. apply upd_inv in Hk as ->. eauto.
Qed.

Lemma now_inv {E : Env} w c t σ' : now (w, c) = (Ok t, σ') -> σ' = (advance w, c).
Proof. by intros [= _ <-]. Qed.

(** Take a run of the loop apart, one statement at a time. *)
Ltac inv_steps :=
  repeat match goal with
  | H : bind _ _ _ = (Ok _, _) |- _ =>
      let a := fresh "r" in let s := fresh "s" in let H1 := fresh "Hs" in
      apply bind_inv_Ok in H as (a & s & H1 & H); cbv beta in H
  | H : of_result _ _ = (Ok _, _) |- _ =>
      let Hr := fresh "Hr" in apply of_result_inv in H as [Hr ->]
  | H : self _ = (Ok _, _) |- _ => apply self_inv in H as [-> ->]
  | H : upd_m _ _ = (Ok _, _) |- _ => apply upd_inv in H; try (injection H as H); subst
  | H : upd _ _ = (Ok _, _) |- _ => apply upd_inv in H; try (injection H as H); subst
  | H : set_self _ _ = (Ok _, _) |- _ => injection H as _ <-
  | H : add_num _ _ _ = (Ok _, _) |- _ =>
      let q := fresh "q" in apply add_num_inv in H as [q H]; try (injection H as H); subst
  | H : now _ = (Ok _, _) |- _ => apply now_inv in H; try (injection H as H); subst
  | H : on_fst _ _ = (Ok _, _) |- _ =>
      let s := fresh "s" in let H1 := fresh "Hs" in
      apply on_fst_inv_Ok in H as (s & H1 & H); try (injection H as H); subst
  | H : ret _ _ = (Ok _, _) |- _ => injection H as H; subst
  | H : context [let '(_, _) := ?p in _] |- _ => destruct p
  | H : (_, _) = (_, _) |- _ => injection H as H; subst
  end.

Ltac split_pairs := repeat match goal with p : (_ * _)%type |- _ => destruct p end.

Section Steps.
Context {E : Env} {P : Prims} {J : Json} {Cli : ClientCryptoConfig}.
Variables (strategy : string) (key spk : bytes) (hid : string).

Lemma verify_inv msg s w valid meta w' :
  verify msg s spk w = (Ok (valid, meta), w') -> valid = true -> may_accept msg s spk.
Proof. intros H ->. by exists w, meta, w'. Qed.

Lemma verify_per_chunk_inv chunk expected w r w' :
  verify_per_chunk chunk expected key spk hid w = (Ok r, w') ->
  exists vi i n c s msg,
    getitem "index" chunk = Ok vi /\ as_int vi = Ok i /\ get_bytes "nonce" chunk = Ok n
    /\ get_bytes "ciphertext" chunk = Ok c /\ get_bytes "signature" chunk = Ok s
    /\ chunk_message (stream_context hid) i n c = Ok msg
    /\ (pr_signature_valid r = true -> may_accept msg s spk)
    /\ pr_in_order r = val_eq_int vi expected
    /\ decrypt_if (pr_signature_valid r) key n c = Ok (pr_aead_ok r, pr_plaintext r).
Proof.
  unfold verify_per_chunk. intros H. inv_steps.
  eexists _, _, _, _, _, _. split_and!; eauto.
  - intros Hv. by eapply verify_inv.
  - simpl. match goal with H : decrypt_if _ _ _ _ = Ok ?p |- _ => by destruct p end.
Qed.

(** A per-chunk record. *)
Lemma on_per_chunk_inv data w c w' c' :
  on_per_chunk key spk hid data (w, c) = (Ok tt, (w', c')) ->
  exists vi i n ct s msg valid aead pt,
    chunk_fields data = Ok (vi, n, ct, s) /\ as_int vi = Ok i
    /\ chunk_message (stream_context hid) i n ct = Ok msg
    /\ (valid = true -> may_accept msg s spk)
    /\ decrypt_if valid key n ct = Ok (aead, pt)
    /\ view c' = mkView (v_sigs (view c) && valid) (v_aead (view c) && aead_flag aead)
                   (v_order (view c) && val_eq_int vi (c_expected_index c))
                   (v_verified (view c)) (v_chain (view c)) (v_terminal (view c))
                   (v_index (view c) + 1) (v_recon (view c) ++ opt_bytes pt).
Proof.
  unfold on_per_chunk. intros H. inv_steps.
  match goal with H : verify_per_chunk _ _ _ _ _ _ = _ |- _ =>
    apply verify_per_chunk_inv in H as (vi & i & n & ct & sg & msg & H1 & H2 & H3 & H4 & H5
      & H6 & H7 & H8 & H9) end.
  cbn in H1, H3, H4, H5. injection H1 as <-. injection H3 as <-. injection H4 as <-.
  injection H5 as <-.
  eexists _, _, _, _, _, _, _, _, _. split_and!; [|exact H2|exact H6|exact H7|exact H9|].
  { unfold chunk_fields, b64_field. by rewrite Hr, Hr0, Hr1, Hr2. }
  rewrite H8 in H. unfold view.
  destruct c as [m p ch te ei re]; destruct m.
  destruct (pr_signature_valid _ && _) in H; inv_steps; simpl; destruct p; reflexivity.
Qed.

(** The buffered envelope. *)
Lemma on_final_buffered_inv data w c w' c' :
  on_final_buffered key spk hid data (w, c) = (Ok tt, (w', c')) ->
  exists n ct sg valid aead pt,
    b64_field "nonce" data = Ok n /\ b64_field "ciphertext" data = Ok ct
    /\ b64_field "signature" data = Ok sg
    /\ (valid = true -> may_accept (buffered_message (stream_context hid) n ct) sg spk)
    /\ decrypt_if valid key n ct = Ok (aead, pt)
    /\ view c' = mkView (v_sigs (view c) && valid) (v_aead (view c) && aead_flag aead)
                   (v_order (view c)) (v_verified (view c)) (v_chain (view c)) true
                   (v_index (view c)) (v_recon (view c) ++ opt_bytes pt).
Proof.
  unfold on_final_buffered, verify_buffer_and_sign_final. intros H. inv_steps. split_pairs.
  repeat match goal with H : get_bytes _ _ = Ok _ |- _ => cbn in H; injection H as H; subst end.
  eexists _, _, _, _, _, _. split_and!;
    [done|done|done|intros Hv; by eapply verify_inv|eassumption|].
  unfold view. destruct c as [m p ch te ei re]; destruct m. reflexivity.
Qed.

(** The end record of a per-chunk stream. *)
Lemma on_final_per_chunk_inv data w c w' c' :
  on_final_per_chunk spk hid data (w, c) = (Ok tt, (w', c')) ->
  exists vn n sg msg valid,
    getitem "n_chunks" data = Ok vn /\ as_int vn = Ok n
    /\ b64_field "signature" data = Ok sg
    /\ end_message (stream_context hid) n = Ok msg
    /\ (valid = true -> may_accept msg sg spk)
    /\ view c' = mkView (v_sigs (view c)) (v_aead (view c)) (v_order (view c))
                   (Some (valid && val_eq_int vn (v_index (view c)) && v_sigs (view c)
                          && v_aead (view c) && v_order (view c)))
                   (v_chain (view c)) true (v_index (view c)) (v_recon (view c)).
Proof.
  unfold on_final_per_chunk, verify_per_chunk_final. intros H. inv_steps.
  repeat match goal with
  | H : get_bytes _ _ = Ok _ |- _ => cbn in H; injection H as H; subst
  | H : getitem _ [_; _] = Ok _ |- _ => cbn in H; injection H as H; subst end.
  eexists _, _, _, _, _. split_and!;
    [done|eassumption|done|eassumption|intros Hv; by eapply verify_inv|].
  unfold view. destruct c as [m p ch te ei re]; destruct m. reflexivity.
Qed.

(** The signature entry of a hash-chain chunk: bytes, or [None]. *)
Definition chain_signature (data : dict) : result val :=
  match dget "signature" data with
  | Some v => if truthy v then let? b := _b64d v in Ok (VBytes b) else Ok VNone
  | None => Ok VNone
  end.

Lemma verify_hash_chain_chunk_inv vi n ct h sgv w st r w' st' :
  verify_hash_chain_chunk true
    [("index", vi); ("nonce", VBytes n); ("ciphertext", VBytes ct);
     ("chain_hash", VBytes h); ("signature", sgv)] key spk (w, st) = (Ok r, (w', st')) ->
  exists i hash,
    as_int vi = Ok i /\ absorb i n ct st = Ok (hash, st')
    /\ cr_chain_ok_so_far r = bytes_eqb h hash
    /\ (exists ok, cr_aead_ok r = Some ok /\ _decrypt_into key n ct = Ok (ok, cr_plaintext r))
    /\ cr_checkpoint r = truthy sgv
    /\ cr_checkpoint_missing r
       = checkpoint_expected (cs_checkpoint_interval st') (cs_n_absorbed st')
         && negb (truthy sgv)
    /\ (truthy sgv = true -> exists msg sg valid,
         checkpoint_message (cs_ctx st') i hash = Ok msg /\ as_bytes sgv = Ok sg
         /\ cr_checkpoint_valid r = Some valid /\ (valid = true -> may_accept msg sg spk)).
Proof.
  unfold verify_hash_chain_chunk. intros H. inv_steps.
  repeat match goal with
  | H : get_bytes _ (_ :: _) = Ok _ |- _ => cbn in H; first [injection H as H; subst | fail 1]
  | H : getitem _ (_ :: _) = Ok _ |- _ => cbn in H; injection H as H; subst
  end.
  unfold signature_present in *. cbn [dget String.eqb Ascii.eqb Bool.eqb] in *.
  destruct (truthy sgv) eqn:Ht; cbn [andb negb] in *; inv_steps; split_pairs; subst.
  - match goal with H : get_bytes _ _ = Ok _ |- _ => cbn in H end.
    do 2 eexists. split_and!; [eassumption|eassumption|done|eexists; split; [reflexivity|]
      |done|done|]; [eassumption|].
    intros _. do 3 eexists. split_and!; [eassumption|eassumption|reflexivity|].
    intros ->. by eapply verify_inv.
  - do 2 eexists. split_and!; [eassumption|eassumption|done|eexists; split; [reflexivity|]
      |done|done|done]. eassumption.
Qed.

Lemma run_chain_chunk_inv chunk st w c r σ' :
  run_chain_chunk key spk chunk st (w, c) = (Ok r, σ') ->
  exists w' st', verify_hash_chain_chunk true chunk key spk (w, st) = (Ok r, (w', st'))
    /\ σ' = (w', set_chain_state st' c).
Proof.
  unfold run_chain_chunk. destruct (verify_hash_chain_chunk _ _ _ _ _) as [r0 [w1 st1]].
  intros [= -> <-]. eauto.
Qed.

(** What a hash-chain chunk does to the signature flag. *)
Definition checkpoint_flag (st' : HashChainClientState) (present valid : bool) : bool :=
  negb (checkpoint_expected (cs_checkpoint_interval st') (cs_n_absorbed st') && negb present)
  && (if present then valid else true).

(** A hash-chain record. *)
Lemma on_chain_chunk_inv data w c w' c' :
  on_chain_chunk key spk data (w, c) = (Ok tt, (w', c')) ->
  exists vi i n ct sgv st hash st' aead pt valid,
    getitem "index" data = Ok vi /\ as_int vi = Ok i
    /\ b64_field "nonce" data = Ok n /\ b64_field "ciphertext" data = Ok ct
    /\ chain_signature data = Ok sgv
    /\ c_chain c = Some st /\ absorb i n ct st = Ok (hash, st')
    /\ _decrypt_into key n ct = Ok (aead, pt)
    /\ (truthy sgv = true -> valid = true -> exists msg sg,
         checkpoint_message (cs_ctx st') i hash = Ok msg /\ as_bytes sgv = Ok sg
         /\ may_accept msg sg spk)
    /\ view c' = mkView (v_sigs (view c) && checkpoint_flag st' (truthy sgv) valid)
                   (v_aead (view c) && aead) (v_order (view c)) (v_verified (view c))
                   (Some st') (v_terminal (view c)) (v_index (view c))
                   (v_recon (view c) ++ opt_bytes pt).
Proof.
  unfold on_chain_chunk. intros H. inv_steps. rename r into vi.
  destruct (c_chain c) as [st|] eqn:Hch; [|done].
  apply bind_inv_Ok in H as (res & s0 & Hres & H). cbv beta in H.
  apply run_chain_chunk_inv in Hres as (w1 & st1 & Hres & ->).
  inv_steps.
  apply verify_hash_chain_chunk_inv in Hres
    as (i & hash & Hi & Habs & _ & (aead & Ha & Hdec) & Hcp & Hmiss & Hval).
  exists vi, i, r0, r1, r3, st, hash, st1, aead, (cr_plaintext res),
    (match cr_checkpoint_valid res with Some b => b | None => false end).
  split_and!; [done|done|done|done|done|done|done|done| |].
  - intros Hp Hv. destruct (Hval Hp) as (msg & sg & valid & Hm & Hs & Hcv & Hacc).
    rewrite Hcv in Hv. eauto 10.
  - rewrite Hcp in H. match goal with Hs : (if cr_checkpoint_missing _ then _ else _) _ = _ |- _ =>
      rewrite Hmiss in Hs end. rewrite Ha in *. unfold checkpoint_flag, view.
    destruct c as [m p ch te ei re]; destruct m. clear Hval Hdec.
    destruct (checkpoint_expected _ _), (truthy r3); cbn [negb andb] in *;
      try destruct (cr_checkpoint_valid res) as [[]|]; inv_steps; simpl;
      destruct p, aead; simpl; rewrite ?andb_true_r, ?andb_false_r; try reflexivity.
Qed.

(** The terminal record of a hash chain. *)
Lemma on_final_chain_inv data w c w' c' :
  on_final_chain spk data (w, c) = (Ok tt, (w', c')) ->
  exists st vn sg msg valid matches,
    c_chain c = Some st /\ getitem "n_chunks" data = Ok vn
    /\ b64_field "signature" data = Ok sg
    /\ final_chain_message (cs_ctx st) (cs_n_absorbed st) (cs_running_hash st) = Ok msg
    /\ (valid = true -> may_accept msg sg spk)
    /\ view c' = mkView (v_sigs (view c)) (v_aead (view c)) (v_order (view c))
                   (Some (matches && val_eq_int vn (cs_n_absorbed st) && valid))
                   (v_chain (view c)) true (v_index (view c)) (v_recon (view c)).
Proof.
  unfold on_final_chain, verify_hash_chain_final. intros H. inv_steps.
  destruct (c_chain c) as [st|] eqn:Hch; [|done]. inv_steps. split_pairs.
  repeat match goal with
  | H : get_bytes _ (_ :: _) = Ok _ |- _ => cbn in H; injection H as H; subst
  | H : getitem _ (_ :: _) = Ok _ |- _ => cbn in H; injection H as H; subst end.
  do 6 eexists. split_and!;
    [done|eassumption|eassumption|eassumption|intros Hv; by eapply verify_inv|].
  unfold view. destruct c as [m p ch te ei re]; destruct m. cbn in Hch. subst.
  cbn in H. destruct (_ && _) eqn:Hb in H; inv_steps; simpl; rewrite Hb;
    try destruct p; reflexivity.
Qed.

(** One line of the response: nothing the verdict depends on, or one of the
    branches from a state with the same view. *)
Lemma on_line_inv t0 line w c w' c' :
  on_line strategy key spk hid t0 line (w, c) = (Ok tt, (w', c')) ->
  (sse_data line = Ok None /\ view c' = view c) \/
  exists data w1 c1,
    sse_data line = Ok (Some (VDict data)) /\ view c1 = view c
    /\ dispatch strategy key spk hid data (w1, c1) = (Ok tt, (w', c')).
Proof.
  unfold on_line. intros H. inv_steps. destruct r as [v|]; [|inv_steps; by left].
  unfold on_data in H. inv_steps. right.
  match goal with H : as_dict v = Ok ?d |- _ => destruct v; try done; injection H as -> end.
  match goal with Hd : dispatch _ _ _ _ ?d ?s = _, Ht : _ = (Ok _, ?s) |- _ =>
    destruct s as [w1 c1]; exists d, w1, c1; split_and!; [done| |done] end.
  destruct (m_ttft_ms (c_metrics c)); inv_steps; [done|].
  destruct c as [m p ch te ei re]; destruct m; reflexivity.
Qed.

(** The branch a dispatched record takes. *)
Lemma dispatch_inv data σ σ' :
  dispatch strategy key spk hid data σ = (Ok tt, σ') ->
  (kind_is "chunk" data = true /\ strategy = "per_chunk" /\ on_per_chunk key spk hid data σ = (Ok tt, σ'))
  \/ (kind_is "chunk" data = true /\ strategy = "hash_chain" /\ on_chain_chunk key spk data σ = (Ok tt, σ'))
  \/ (kind_is "final_buffered" data = true /\ on_final_buffered key spk hid data σ = (Ok tt, σ'))
  \/ (kind_is "final_per_chunk" data = true /\ on_final_per_chunk spk hid data σ = (Ok tt, σ'))
  \/ (kind_is "final_chain" data = true /\ on_final_chain spk data σ = (Ok tt, σ'))
  \/ σ' = σ.
Proof.
  unfold dispatch.
  destruct (kind_is "chunk" data), (String.eqb_spec strategy "per_chunk"),
    (String.eqb_spec strategy "hash_chain"); cbn [andb]; auto 10;
  (destruct (kind_is "final_buffered" data); [auto 10|]);
  (destruct (kind_is "final_per_chunk" data); [auto 10|]);
  (destruct (kind_is "final_chain" data); [auto 10|]);
  intros [= ->]; auto 10.
Qed.
End Steps.

(** ** The loop, by invariant on the lines consumed *)
Lemma for_each_inv {Σ A} (body : A -> M Σ unit) (Inv : list A -> Σ -> Prop) :
  (forall pre a σ σ', Inv pre σ -> body a σ = (Ok tt, σ') -> Inv (pre ++ [a]) σ') ->
  forall l pre σ σ', Inv pre σ -> for_each l body σ = (Ok tt, σ') -> Inv (pre ++ l) σ'.
Proof.
  intros Hstep. induction l as [|a l IH]; intros pre σ σ' Hi H; simpl in H.
  - injection H as <-. by rewrite app_nil_r.
  - apply bind_inv_Ok in H as ([] & σ1 & H1 & H2).
    change (a :: l) with ([a] ++ l). rewrite app_assoc. eauto.
Qed.

(** ** The loop never touches the error entry

    Compositional: a statement keeps the entry if its parts do, whatever it
    returns or raises. *)
Section KeepsError.
Context {E : Env} {P : Prims} {J : Json} {Cli : ClientCryptoConfig}.

Definition keeps_error {A} (m : M (world * client_state) A) : Prop :=
  forall σ, m_error (c_metrics (snd (snd (m σ)))) = m_error (c_metrics (snd σ)).

Lemma keeps_bind {A B} (m : M (world * client_state) A) (k : A -> M _ B) :
  keeps_error m -> (forall a, keeps_error (k a)) -> keeps_error (bind m k).
Proof.
  intros Hm Hk σ. unfold bind. specialize (Hm σ). destruct (m σ) as [[a|e] σ1]; simpl in *.
  - by rewrite Hk.
  - done.
Qed.

Lemma keeps_ret {A} (a : A) : keeps_error (ret a).
Proof. by intros σ. Qed.
Lemma keeps_raise {A} e : keeps_error (raise (A := A) e).
Proof. by intros σ. Qed.
Lemma keeps_of_result {A} (r : result A) : keeps_error (of_result r).
Proof. by intros σ. Qed.
Lemma keeps_on_fst {A} (m : M world A) : keeps_error (on_fst m).
Proof. intros [w c]. unfold on_fst. by destruct (m w). Qed.
Lemma keeps_self : keeps_error self.
Proof. by intros [w c]. Qed.
Lemma keeps_upd f :
  (forall c, m_error (c_metrics (f c)) = m_error (c_metrics c)) -> keeps_error (upd f).
Proof. intros H [w c]. apply H. Qed.
Lemma keeps_upd_m f : (forall m, m_error (f m) = m_error m) -> keeps_error (upd_m f).
Proof. intros H. apply keeps_upd. intros [m p ch te ei re]. apply H. Qed.
Lemma keeps_add_num f v : (forall q m, m_error (f q m) = m_error m) -> keeps_error (add_num f v).
Proof.
  intros H. apply keeps_bind; [apply keeps_of_result|]. intros q. apply keeps_upd_m, H.
Qed.
Lemma keeps_run_chain key spk chunk st : keeps_error (run_chain_chunk key spk chunk st).
Proof.
  intros [w [m p ch te ei re]]. unfold run_chain_chunk.
  by destruct (verify_hash_chain_chunk _ _ _ _ _) as [r [w' st']].
Qed.
Lemma keeps_for_each {A} (l : list A) body :
  (forall a, keeps_error (body a)) -> keeps_error (for_each l body).
Proof.
  intros H. induction l as [|a l IH]; [apply keeps_ret|]. by apply keeps_bind.
Qed.

Ltac keeps :=
  repeat first
    [ apply keeps_bind; [|intros ?] | apply keeps_ret | apply keeps_raise
    | apply keeps_of_result | apply keeps_on_fst | apply keeps_self | apply keeps_run_chain
    | apply keeps_upd_m; by intros [] | apply keeps_add_num; by intros ? []
    | apply keeps_upd; by intros [[] [] ? ? ? ?]
    | match goal with |- context [match ?x with _ => _ end] => destruct x end ].

Lemma consume_keeps_error strategy key spk hid t0 lines :
  keeps_error (consume strategy key spk hid t0 lines).
Proof.
  apply keeps_bind.
  - apply keeps_for_each. intros line. unfold on_line, on_data, dispatch, on_per_chunk,
      on_chain_chunk, on_final_buffered, on_final_per_chunk, on_final_chain, now.
    keeps.
  - intros _. unfold conclude, now. keeps.
Qed.
End KeepsError.
