(* ===== verification/StreamingIntegrity.v ===== *)
(** * What a verified stream means

    The streaming client's verdict [stream_fully_verified] against an arbitrary
    peer: whatever lines arrive, if the signatures the client checked are the
    server's and the AEAD envelopes it opened are the server's, a [True] verdict
    means the server's plaintext, complete and in order. *)
From S2P Require Import Prelude PyBytes Sha256 PyVal World Instrumentation Aead Base Streaming.
From S2P Require Import StreamingMessages Http StreamingClient StreamingClientSteps.

(** ** What the client checks on a line *)
Section Checked.
Context {J : Json}.

(** The dictionary a line carries. *)
Definition line_dict (line : string) : option dict :=
  match sse_data line with Ok (Some (VDict d)) => Some d | _ => None end.

(** The nonce and ciphertext of a record. *)
Definition record_envelope (data : dict) : option (bytes * bytes) :=
  match b64_field "nonce" data, b64_field "ciphertext" data with
  | Ok n, Ok c => Some (n, c)
  | _, _ => None
  end.

Definition line_envelope (line : string) : option (bytes * bytes) :=
  match line_dict line with Some d => record_envelope d | None => None end.

Definition ok_opt {A} (r : result A) : option A := match r with Ok a => Some a | _ => None end.

(** The message a per-chunk or buffered client checks a record's signature
    on, and that signature. *)
Definition record_claim (hid : string) (data : dict) : option (bytes * bytes) :=
  ok_opt (
    let? s := b64_field "signature" data in
    let? msg :=
      (if kind_is "chunk" data then
         let? vi := getitem "index" data in
         let? i := as_int vi in
         let? n := b64_field "nonce" data in
         let? c := b64_field "ciphertext" data in
         chunk_message (stream_context hid) i n c
       else if kind_is "final_buffered" data then
         let? n := b64_field "nonce" data in
         let? c := b64_field "ciphertext" data in
         Ok (buffered_message (stream_context hid) n c)
       else
         let? vn := getitem "n_chunks" data in
         let? n := as_int vn in
         end_message (stream_context hid) n) in
    Ok (msg, s)).

Definition line_claim (hid : string) (line : string) : option (bytes * bytes) :=
  match line_dict line with Some d => record_claim hid d | None => None end.
End Checked.

Lemma val_eq_int_as_int v i z : as_int v = Ok i -> val_eq_int v z = true -> i = z.
Proof. destruct v; simpl; try done; intros [= <-] H; by apply Z.eqb_eq in H. Qed.

Lemma kind_is_fun a b d : a <> b -> kind_is a d = true -> kind_is b d = false.
Proof.
  unfold kind_is. destruct (dget "kind" d) as [v|]; [|done]. destruct v; simpl; try done.
  intros Hne <-%String.eqb_eq. by apply String.eqb_neq.
Qed.

Lemma decrypt_if_true key n c aead pt :
  forall {E : Env} {P : Prims}, decrypt_if true key n c = Ok (aead, pt) -> aead_flag aead = true ->
  exists p, pt = Some p /\ aead_decrypt key n c = Ok p.
Proof.
  intros E P. unfold decrypt_if, _decrypt_into. destruct (aead_decrypt key n c) as [p|[]];
    simpl; try done; intros [= <- <-]; [eauto|done].
Qed.

Definition start_state (m : metrics) (chain : option HashChainClientState) : client_state :=
  mkClient m [] chain false 0 [].

Lemma nth_concat_take (pts : list bytes) k p :
  pts !! k = Some p -> concat (firstn (S k) pts) = concat (firstn k pts) ++ p.
Proof.
  intros H. rewrite (take_S_r _ _ _ H), concat_app. simpl. by rewrite app_nil_r.
Qed.

Section PerChunk.
Context {E : Env} {P : Prims} {J : Json} {Cli : ClientCryptoConfig}.
Variables (key spk : bytes) (hid : string).
(** The envelopes the server emitted in this stream and their plaintexts. *)
Variables (emitted : list (bytes * bytes)) (pts : list bytes).
Let ctx := stream_context hid.
Let N := Z.of_nat (length emitted).

(** What the server signed: each chunk at its position, and the end record. *)
Definition per_chunk_signed (m : bytes) : Prop :=
  (exists k n c, emitted !! k = Some (n, c)
     /\ chunk_message (stream_context hid) (Z.of_nat k) n c = Ok m)
  \/ end_message (stream_context hid) (Z.of_nat (length emitted)) = Ok m.

Hypothesis Hdec :
  Forall2 (fun nc pt => aead_decrypt key (fst nc) (snd nc) = Ok pt) emitted pts.
Hypothesis Hnonce : Forall (fun nc => length (fst nc) = 12%nat) emitted.

Lemma ctx_length : length (stream_context hid) = 32%nat.
Proof. apply stream_context_length. Qed.

(** An accepted chunk message is the server's chunk of that index. *)
Lemma signed_chunk i n c m :
  chunk_message ctx i n c = Ok m -> per_chunk_signed m ->
  exists n' c', emitted !! Z.to_nat i = Some (n', c') /\ 0 <= i < N /\ n ++ c = n' ++ c'.
Proof.
  intros Hm [(k & n' & c' & Hk & Hm')|Hend].
  - pose proof (messages_separate (MChunk ctx i n c) (MChunk ctx (Z.of_nat k) n' c') m
      ctx_length ctx_length Hm Hm') as (_ & -> & Henv).
    exists n', c'. rewrite Nat2Z.id. split_and!; [done|lia| |done].
    apply lookup_lt_Some in Hk. unfold N. lia.
  - by destruct (messages_separate (MChunk ctx i n c) (MEnd ctx N) m
      ctx_length ctx_length Hm Hend).
Qed.

Lemma signed_end n m : end_message ctx n = Ok m -> per_chunk_signed m -> n = N.
Proof.
  intros Hm [(k & n' & c' & Hk & Hm')|Hend].
  - by destruct (messages_separate (MEnd ctx n) (MChunk ctx (Z.of_nat k) n' c') m
      ctx_length ctx_length Hm Hm').
  - by destruct (messages_separate (MEnd ctx n) (MEnd ctx N) m
      ctx_length ctx_length Hm Hend).
Qed.

Lemma signed_not_buffered n c : ~ per_chunk_signed (buffered_message ctx n c).
Proof.
  intros [(k & n' & c' & Hk & Hm')|Hend].
  - by destruct (messages_separate (MBuffered ctx n c) (MChunk ctx (Z.of_nat k) n' c') _
      ctx_length ctx_length eq_refl Hm').
  - by destruct (messages_separate (MBuffered ctx n c) (MEnd ctx N) _
      ctx_length ctx_length eq_refl Hend).
Qed.

(** An emitted envelope is determined by its bytes: nonces have 12. *)
Lemma emitted_envelope k n c n' c' :
  (n, c) ∈ emitted -> emitted !! k = Some (n', c') -> n ++ c = n' ++ c' ->
  emitted !! k = Some (n, c).
Proof.
  intros Hin Hk Henv. rewrite Forall_forall in Hnonce.
  assert (length n = 12%nat) by by apply (Hnonce (n, c)).
  assert (length n' = 12%nat) by
    (apply (Hnonce (n', c')); by eapply list_elem_of_lookup_2).
  apply app_prefix_inj in Henv as [-> ->]; [done|congruence].
Qed.

(** The hypotheses on the lines consumed. *)
Definition signatures_are_servers (lines : list string) : Prop :=
  Forall (fun line => forall m s, line_claim hid line = Some (m, s) ->
                      may_accept m s spk -> per_chunk_signed m) lines.
Definition envelopes_are_servers (lines : list string) : Prop :=
  Forall (fun line => forall n c pt, line_envelope line = Some (n, c) ->
                      aead_decrypt key n c = Ok pt -> (n, c) ∈ emitted) lines.

Definition flags (v : cview) : bool := v_sigs v && v_aead v && v_order v.

(** The loop invariant. *)
Record pc_inv (v : cview) : Prop := {
  pi_index : 0 <= v_index v;
  pi_prefix : flags v = true ->
    v_index v <= N /\ v_recon v = concat (firstn (Z.to_nat (v_index v)) pts);
  pi_verified : v_verified v = Some true ->
    N <= v_index v /\ exists suffix, v_recon v = concat pts ++ suffix;
  pi_chain : v_chain v = None;
  pi_terminal : v_terminal v = true -> v_verified v = None -> v_sigs v = false;
}.

Lemma pts_length : length pts = length emitted.
Proof. symmetry. by eapply Forall2_length. Qed.

Lemma concat_all_pts k : (Z.to_nat N <= k)%nat -> concat (firstn k pts) = concat pts.
Proof. intros H. rewrite firstn_all2; [done|]. rewrite pts_length. unfold N in H. lia. Qed.

Lemma grow_verified (v : cview) extra :
  pc_inv v -> v_verified v = Some true ->
  exists suffix, v_recon v ++ extra = concat pts ++ suffix.
Proof.
  intros Hv Hs. destruct (pi_verified _ Hv Hs) as [_ [suf ->]].
  exists (suf ++ extra). by rewrite app_assoc.
Qed.

Ltac flags_tac := unfold flags in *; simpl in *;
  rewrite ?andb_true_iff in *; destruct_and?; simpl in * .

(** A chunk record keeps the invariant. *)
Lemma pc_chunk_step data w c w' c' :
  kind_is "chunk" data = true ->
  (forall m s, record_claim hid data = Some (m, s) -> may_accept m s spk ->
     per_chunk_signed m) ->
  (forall n ct pt, record_envelope data = Some (n, ct) ->
     aead_decrypt key n ct = Ok pt -> (n, ct) ∈ emitted) ->
  on_per_chunk key spk hid data (w, c) = (Ok tt, (w', c')) ->
  pc_inv (view c) -> pc_inv (view c').
Proof.
  intros Hk Hsig Haead H Hi.
  apply on_per_chunk_inv in H as (vi & i & n & ct & s & msg & valid & aead & pt
    & Hf & Hvi & Hmsg & Hacc & Hd & Hview).
  assert (record_claim hid data = Some (msg, s)
                   /\ record_envelope data = Some (n, ct)) as [Hclaim Henv].
  { unfold record_claim, record_envelope. rewrite Hk. unfold chunk_fields in Hf.
    destruct (getitem "index" data); [simpl in *|done].
    destruct (b64_field "nonce" data); [simpl in *|done].
    destruct (b64_field "ciphertext" data); [simpl in *|done].
    destruct (b64_field "signature" data); [simpl in *|done].
    injection Hf as <- <- <- <-. rewrite Hvi. simpl. by rewrite Hmsg. }
  rewrite Hview. constructor; simpl.
  - pose proof (pi_index _ Hi). simpl in *. lia.
  - intros Hfl. flags_tac. subst valid.
    destruct (pi_prefix _ Hi) as [Hle Hrec]; [unfold flags; simpl; rewrite !andb_true_iff; done|].
    destruct (signed_chunk i n ct msg Hmsg (Hsig _ _ Hclaim (Hacc eq_refl)))
      as (n' & c'' & Hk' & Hr & Henv').
    assert (i = c_expected_index c) as -> by by eapply val_eq_int_as_int.
    destruct (decrypt_if_true _ _ _ _ _ Hd ltac:(done)) as (p & -> & Hp).
    pose proof (emitted_envelope _ _ _ _ _ (Haead _ _ _ Henv Hp) Hk' Henv') as Hem.
    destruct (Forall2_lookup_l _ _ _ _ _ Hdec Hem) as (p' & Hpl & Hp'). simpl in Hp'.
    assert (p' = p) as -> by congruence.
    simpl in Hrec. split; [lia|]. rewrite Hrec.
    replace (Z.to_nat (c_expected_index c + 1)) with (S (Z.to_nat (c_expected_index c))) by lia.
    by rewrite (nth_concat_take _ _ _ Hpl).
  - intros Hv. destruct (pi_verified _ Hi Hv) as [Hle _]. simpl in Hle.
    split; [lia|]. by apply (grow_verified (view c)).
  - apply (pi_chain _ Hi).
  - intros Ht Hn. pose proof (pi_terminal _ Hi Ht Hn) as Hf0. simpl in Hf0. by rewrite Hf0.
Qed.

(** A buffered envelope is never accepted in this stream. *)
Lemma pc_buffered_step data w c w' c' :
  kind_is "final_buffered" data = true ->
  (forall m s, record_claim hid data = Some (m, s) -> may_accept m s spk ->
     per_chunk_signed m) ->
  on_final_buffered key spk hid data (w, c) = (Ok tt, (w', c')) ->
  pc_inv (view c) -> pc_inv (view c').
Proof.
  intros Hk Hsig H Hi.
  apply on_final_buffered_inv in H as (n & ct & s & valid & aead & pt & Hn & Hc & Hs & Hacc
    & Hd & Hview).
  assert (valid = false) as ->.
  { destruct valid; [|done]. exfalso. eapply (signed_not_buffered n ct), Hsig, Hacc; [|done].
    unfold record_claim. rewrite (kind_is_fun "final_buffered" "chunk" data) by done.
    rewrite Hk, Hn, Hc, Hs. reflexivity. }
  rewrite Hview. constructor; simpl.
  - apply (pi_index _ Hi).
  - intros Hfl. flags_tac. done.
  - intros Hv. destruct (pi_verified _ Hi Hv) as [Hle _]. split; [done|].
    by apply (grow_verified (view c)).
  - apply (pi_chain _ Hi).
  - intros _ _. apply andb_false_r.
Qed.

(** The end record sets the verdict. *)
Lemma pc_final_step data w c w' c' :
  kind_is "final_per_chunk" data = true ->
  (forall m s, record_claim hid data = Some (m, s) -> may_accept m s spk ->
     per_chunk_signed m) ->
  on_final_per_chunk spk hid data (w, c) = (Ok tt, (w', c')) ->
  pc_inv (view c) -> pc_inv (view c').
Proof.
  intros Hk Hsig H Hi.
  apply on_final_per_chunk_inv in H as (vn & n & s & msg & valid & Hvn & Hn & Hs & Hm & Hacc
    & Hview).
  rewrite Hview. constructor; simpl.
  - apply (pi_index _ Hi).
  - apply (pi_prefix _ Hi).
  - intros [= Hv]. flags_tac. subst valid.
    assert (n = N) as ->.
    { eapply signed_end; [exact Hm|]. eapply Hsig, Hacc; [|done].
      unfold record_claim. rewrite (kind_is_fun "final_per_chunk" "chunk" data),
        (kind_is_fun "final_per_chunk" "final_buffered" data) by done.
      rewrite Hs, Hvn. simpl. rewrite Hn. simpl. by rewrite Hm. }
    assert (N = c_expected_index c) as HN by by eapply val_eq_int_as_int.
    destruct (pi_prefix _ Hi) as [_ Hrec];
      [unfold flags; simpl; rewrite !andb_true_iff; done|].
    simpl in Hrec. split; [lia|]. exists []. rewrite Hrec, app_nil_r.
    apply concat_all_pts. lia.
  - apply (pi_chain _ Hi).
  - done.
Qed.

Lemma pc_line_step t0 line w c w' c' :
  signatures_are_servers [line] -> envelopes_are_servers [line] ->
  on_line "per_chunk" key spk hid t0 line (w, c) = (Ok tt, (w', c')) ->
  pc_inv (view c) -> pc_inv (view c').
Proof.
  unfold signatures_are_servers, envelopes_are_servers. rewrite !Forall_singleton.
  intros Hs He H Hi.
  apply on_line_inv in H as [[_ ->]|(data & w1 & c1 & Hd & Hview & H)]; [done|].
  rewrite <- Hview in Hi.
  assert (Hline : line_dict line = Some data) by (unfold line_dict; by rewrite Hd).
  unfold line_claim in Hs. unfold line_envelope in He. rewrite Hline in Hs, He.
  apply dispatch_inv in H as [(Hk & _ & H)|[(_ & ? & _)|[(Hk & H)|[(Hk & H)|[(_ & H)|H]]]]].
  - by eapply pc_chunk_step.
  - done.
  - by eapply pc_buffered_step.
  - by eapply pc_final_step.
  - exfalso. apply on_final_chain_inv in H as (st & _ & _ & _ & _ & _ & Hch & _).
    pose proof (pi_chain _ Hi) as Hnone. simpl in Hnone. congruence.
  - by injection H as -> ->.
Qed.

Lemma pc_loop t0 lines w c w' c' :
  signatures_are_servers lines -> envelopes_are_servers lines ->
  for_each lines (on_line "per_chunk" key spk hid t0) (w, c) = (Ok tt, (w', c')) ->
  pc_inv (view c) -> pc_inv (view c').
Proof.
  revert w c; induction lines as [|line lines IH]; intros w c Hs He H Hi.
  - by injection H as -> ->.
  - apply Forall_cons in Hs as [Hs1 Hs2]. apply Forall_cons in He as [He1 He2].
    apply bind_inv_Ok in H as ([] & [w1 c1] & H1 & H2).
    eapply (IH w1 c1); [done|done|done|].
    eapply pc_line_step; [by constructor|by constructor|exact H1|done].
Qed.

(** The verdict after the loop. *)
Lemma conclude_view t0 w c w' c' :
  conclude t0 (w, c) = (Ok tt, (w', c')) ->
  view c' = mkView (v_sigs (view c)) (v_aead (view c)) (v_order (view c))
              (if v_terminal (view c) then
                 match v_verified (view c) with
                 | None => Some (v_sigs (view c) && v_aead (view c))
                 | Some b => Some b
                 end
               else Some false)
              (v_chain (view c)) (v_terminal (view c)) (v_index (view c)) (v_recon (view c)).
Proof.
  unfold conclude. intros H. inv_steps. destruct c as [m p ch te ei re]; destruct m.
  simpl in *. destruct te; simpl in *; [|inv_steps; reflexivity].
  destruct m_stream_fully_verified; inv_steps; reflexivity.
Qed.
End PerChunk.

(** C1: A per-chunk stream that the client reports as fully verified is the
    server's: whatever lines arrived, provided every signature that verified
    was the server's for this stream and every envelope that opened was
    emitted by the server, the reconstructed text is the server's complete
    plaintext, in order, from the first byte -- and nothing else when the
    per-record flags stayed true to the end. *)
Theorem verified_per_chunk_stream_is_servers
    {E : Env} {P : Prims} {J : Json} {Cli : ClientCryptoConfig}
    (key spk : bytes) (hid : string) (emitted : list (bytes * bytes)) (pts : list bytes)
    (lines : list string) (t0 : Q) (w w' : world) (m : metrics) (c' : client_state)
    (Hdec : Forall2 (fun nc pt => aead_decrypt key (fst nc) (snd nc) = Ok pt) emitted pts)
    (Hnonce : Forall (fun nc => length (fst nc) = 12%nat) emitted)
    (Hsig : signatures_are_servers spk hid emitted lines)
    (Haead : envelopes_are_servers key emitted lines)
    (Hm : m_stream_fully_verified m = None)
    (Hrun : consume "per_chunk" key spk hid t0 lines (w, start_state m None) = (Ok tt, (w', c')))
    (Hverified : m_stream_fully_verified (c_metrics c') = Some true) :
  exists suffix, c_reconstructed c' = concat pts ++ suffix
    /\ (m_all_signatures_valid (c_metrics c') && m_all_aead_ok (c_metrics c')
        && m_all_in_order (c_metrics c') = true -> suffix = []).
Proof.
  unfold consume in Hrun. apply bind_inv_Ok in Hrun as ([] & [w1 c1] & Hloop & Hend).
  assert (Hi : pc_inv emitted pts (view c1)).
  { eapply (pc_loop key spk hid emitted pts Hdec Hnonce); [exact Hsig|exact Haead|exact Hloop|].
    constructor; simpl; rewrite ?Hm; try done. intros _. split; [lia|done]. }
  apply conclude_view in Hend.
  change (m_stream_fully_verified (c_metrics c')) with (v_verified (view c')) in Hverified.
  change (c_reconstructed c') with (v_recon (view c')).
  change (_ && _ && _) with (flags (view c')).
  rewrite Hend in *. simpl in *.
  destruct (c_terminal_seen c1) eqn:Ht; [|done].
  destruct (m_stream_fully_verified (c_metrics c1)) as [b|] eqn:Hv.
  - injection Hverified as ->. destruct (pi_verified _ _ _ Hi Hv) as [Hle [suf Hsuf]].
    exists suf. split; [exact Hsuf|]. intros Hf.
    destruct (pi_prefix _ _ _ Hi Hf) as [_ Hrec]. simpl in *.
    rewrite (concat_all_pts key emitted pts Hdec) in Hrec by lia.
    rewrite Hrec in Hsuf. rewrite <- (app_nil_r (concat pts)) in Hsuf at 1.
    by apply app_inv_head in Hsuf.
  - pose proof (pi_terminal _ _ _ Hi Ht Hv) as Hsf. simpl in Hsf. by rewrite Hsf in Hverified.
Qed.
