(* ===== verification/ChainIntegrity.v ===== *)
(** * What a verified hash-chain stream means

    The counterpart of [StreamingIntegrity] for the hash-chain strategy: a
    [True] verdict pins every chunk envelope to the server's, up to an explicit
    SHA-256 collision among the links the two sides hashed. *)
From S2P Require Import Prelude PyBytes Sha256 PyVal World Instrumentation Aead Base Streaming.
From S2P Require Import StreamingMessages Http StreamingClient StreamingClientSteps.
From S2P Require Import StreamingIntegrity.

(** The server's chunks with their indices: what its chain runs over. *)
Definition indexed (l : list (bytes * bytes)) : list (Z * bytes) :=
  zip_with (fun k nc => (Z.of_nat k, fst nc ++ snd nc)) (seq 0 (length l)) l.

Lemma indexed_length l : length (indexed l) = length l.
Proof. unfold indexed. rewrite length_zip_with, length_seq. lia. Qed.

Lemma indexed_lookup l k nc :
  l !! k = Some nc -> indexed l !! k = Some (Z.of_nat k, fst nc ++ snd nc).
Proof.
  intros H. unfold indexed. rewrite lookup_zip_with, H, lookup_seq_lt.
  - done.
  - by apply lookup_lt_Some in H.
Qed.

Section Received.
Context {J : Json}.

(** The chunk a line delivers: index, nonce and ciphertext. *)
Definition line_chunk (line : string) : option (Z * bytes * bytes) :=
  match line_dict line with
  | Some d =>
      if kind_is "chunk" d then
        ok_opt (let? vi := getitem "index" d in
                let? i := as_int vi in
                let? n := b64_field "nonce" d in
                let? c := b64_field "ciphertext" d in
                Ok (i, n, c))
      else None
  | None => None
  end.

Definition received (lines : list string) : list (Z * bytes * bytes) := omap line_chunk lines.

#[global] Arguments received : simpl never.

Definition envelope_of (x : Z * bytes * bytes) : Z * bytes :=
  let '(i, n, c) := x in (i, n ++ c).

(** The message the hash-chain client checks on a terminal record, after the
    lines [pre], and the record's signature. *)
Definition chain_claim (hid : string) (pre : list string) (line : string)
    : option (bytes * bytes) :=
  match line_dict line with
  | Some d =>
      if kind_is "final_chain" d then
        ok_opt (let? s := b64_field "signature" d in
                let? h := chain_run (genesis_hash hid) (map envelope_of (received pre)) in
                let? m := final_chain_message (stream_context hid)
                            (Z.of_nat (length (received pre))) h in
                Ok (m, s))
      else if kind_is "chunk" d then None
      else record_claim hid d
  | None => None
  end.
End Received.

Section HashChain.
Context {E : Env} {P : Prims} {J : Json} {Cli : ClientCryptoConfig}.
Variables (key spk : bytes) (hid : string).
Variables (emitted : list (bytes * bytes)) (pts : list bytes) (final_hash : bytes).
Let ctx := stream_context hid.
Let N := Z.of_nat (length emitted).

(** What the server signed in this stream: checkpoints, and the terminal
    record of its chain. *)
Definition chain_signed (m : bytes) : Prop :=
  (exists i h, checkpoint_message (stream_context hid) i h = Ok m)
  \/ final_chain_message (stream_context hid) (Z.of_nat (length emitted)) final_hash = Ok m.

Hypothesis Hchain : chain_run (genesis_hash hid) (indexed emitted) = Ok final_hash.

Lemma signed_final n h m :
  final_chain_message ctx n h = Ok m -> chain_signed m -> n = N /\ h = final_hash.
Proof.
  pose proof (stream_context_length hid) as L. intros Hm [(i & h' & Hm')|Hend].
  - by destruct (messages_separate (MFinal ctx n h) (MCheckpoint ctx i h') m L L Hm Hm').
  - by destruct (messages_separate (MFinal ctx n h) (MFinal ctx N final_hash) m L L Hm Hend)
      as (_ & -> & ->).
Qed.

Lemma chain_signed_not_end n m : end_message ctx n = Ok m -> ~ chain_signed m.
Proof.
  pose proof (stream_context_length hid) as L. intros Hm [(i & h' & Hm')|Hend].
  - by destruct (messages_separate (MEnd ctx n) (MCheckpoint ctx i h') m L L Hm Hm').
  - by destruct (messages_separate (MEnd ctx n) (MFinal ctx N final_hash) m L L Hm Hend).
Qed.

Lemma chain_signed_not_buffered n c : ~ chain_signed (buffered_message ctx n c).
Proof.
  pose proof (stream_context_length hid) as L. intros [(i & h' & Hm')|Hend].
  - by destruct (messages_separate (MBuffered ctx n c) (MCheckpoint ctx i h') _
      L L eq_refl Hm').
  - by destruct (messages_separate (MBuffered ctx n c) (MFinal ctx N final_hash) _
      L L eq_refl Hend).
Qed.

Definition chain_signatures_are_servers (lines : list string) : Prop :=
  forall pre line post m s, lines = pre ++ line :: post ->
    chain_claim hid pre line = Some (m, s) -> may_accept m s spk -> chain_signed m.

(** Every envelope of the server's stream was received, from the first on;
    or the two chains hashed a collision. *)
Definition pinned (rcv : list (Z * bytes)) : Prop :=
  (exists suffix, rcv = indexed emitted ++ suffix)
  \/ (exists l suffix, rcv = l ++ suffix
      /\ collision_in (chain_inputs (genesis_hash hid) l)
                      (chain_inputs (genesis_hash hid) (indexed emitted))).

Lemma pinned_app rcv extra : pinned rcv -> pinned (rcv ++ extra).
Proof.
  intros [[s ->]|(l & s & -> & Hc)]; [left|right].
  - exists (s ++ extra). by rewrite app_assoc.
  - exists l, (s ++ extra). by rewrite app_assoc.
Qed.

Definition decrypts (x : Z * bytes * bytes) (pt : bytes) : Prop :=
  let '(i, n, c) := x in aead_decrypt key n c = Ok pt.

Record hc_inv (pre : list string) (v : cview) : Prop := {
  hi_chain : exists st, v_chain v = Some st /\ cs_ctx st = stream_context hid
    /\ cs_n_absorbed st = Z.of_nat (length (received pre))
    /\ chain_run (genesis_hash hid) (map envelope_of (received pre)) = Ok (cs_running_hash st);
  hi_recon : v_aead v = true ->
    exists ps, Forall2 decrypts (received pre) ps /\ v_recon v = concat ps;
  hi_verified : v_verified v = Some true -> pinned (map envelope_of (received pre));
  hi_terminal : v_terminal v = true -> v_verified v = None -> v_aead v = false;
}.

Lemma received_snoc pre line :
  received (pre ++ [line])
  = received pre ++ match line_chunk line with Some x => [x] | None => [] end.
Proof.
  unfold received. rewrite omap_app. f_equal.
Qed.

Lemma received_other pre line :
  line_chunk line = None -> received (pre ++ [line]) = received pre.
Proof. intros H. by rewrite received_snoc, H, app_nil_r. Qed.

(** A line that is not a chunk and leaves the chain alone. *)
Lemma hc_keep pre line v v' :
  line_chunk line = None -> hc_inv pre v ->
  v_chain v' = v_chain v ->
  (v_aead v' = true -> v_aead v = true /\ v_recon v' = v_recon v) ->
  (v_verified v' = Some true -> v_verified v = Some true \/ pinned (map envelope_of (received pre))) ->
  (v_terminal v' = true -> v_verified v' = None -> v_aead v' = false) ->
  hc_inv (pre ++ [line]) v'.
Proof.
  intros Hl Hi Hc Ha Hv Ht. constructor; rewrite ?(received_other _ _ Hl).
  - rewrite Hc. apply (hi_chain _ _ Hi).
  - intros H. destruct (Ha H) as [H' ->]. by apply (hi_recon _ _ Hi).
  - intros H. destruct (Hv H) as [H'|H']; [by apply (hi_verified _ _ Hi)|done].
  - done.
Qed.

(** A chunk extends the chain and the received list together. *)
Lemma hc_chunk_step pre line data w c w' c' :
  line_dict line = Some data -> kind_is "chunk" data = true ->
  on_chain_chunk key spk data (w, c) = (Ok tt, (w', c')) ->
  hc_inv pre (view c) -> hc_inv (pre ++ [line]) (view c').
Proof.
  intros Hl Hk H Hi.
  apply on_chain_chunk_inv in H as (vi & i & n & ct & sgv & st & hash & st' & aead & pt & valid
    & Hvi & Hint & Hn & Hc & _ & Hch & Habs & Hd & _ & Hview).
  assert (Hlc : line_chunk line = Some (i, n, ct)).
  { unfold line_chunk. rewrite Hl, Hk, Hvi. simpl. rewrite Hint. simpl. by rewrite Hn, Hc. }
  pose proof (received_snoc pre line) as Hrcv. rewrite Hlc in Hrcv.
  destruct (hi_chain _ _ Hi) as (st0 & Hst0 & Hctx & Hna & Hrun). simpl in Hst0.
  assert (st0 = st) as -> by congruence.
  unfold absorb in Habs. apply rbind_Ok in Habs as (h & Hlink & [= -> <-]).
  rewrite Hview. constructor; rewrite ?Hrcv; simpl.
  - eexists. split; [reflexivity|]. simpl. split_and!; [done| |].
    + rewrite Hna, length_app. simpl. lia.
    + rewrite map_app, chain_run_app, Hrun. simpl. by rewrite Hlink.
  - intros [Ha ->]%andb_true_iff. destruct (hi_recon _ _ Hi Ha) as (ps & Hps & Hrec).
    unfold _decrypt_into in Hd. destruct (aead_decrypt key n ct) as [p|[]] eqn:Hdec;
      try done. injection Hd as <-.
    exists (ps ++ [p]). split; [apply Forall2_app; [done|by constructor]|].
    simpl in Hrec. rewrite Hrec, concat_app. simpl. by rewrite app_nil_r.
  - intros Hv. rewrite map_app. by apply pinned_app, (hi_verified _ _ Hi).
  - intros Ht Hv. pose proof (hi_terminal _ _ Hi Ht Hv) as Hf. simpl in Hf. by rewrite Hf.
Qed.

Lemma not_chunk_line line data name :
  line_dict line = Some data -> kind_is name data = true -> name <> "chunk" ->
  line_chunk line = None.
Proof.
  intros Hl Hk Hne. unfold line_chunk. by rewrite Hl, (kind_is_fun name "chunk" data).
Qed.

(** The terminal record pins what was received. *)
Lemma hc_final_step pre line data w c w' c' :
  line_dict line = Some data -> kind_is "final_chain" data = true ->
  (forall m s, chain_claim hid pre line = Some (m, s) -> may_accept m s spk -> chain_signed m) ->
  on_final_chain spk data (w, c) = (Ok tt, (w', c')) ->
  hc_inv pre (view c) -> hc_inv (pre ++ [line]) (view c').
Proof.
  intros Hl Hk Hsig H Hi.
  apply on_final_chain_inv in H as (st & vn & s & msg & valid & matches & Hch & _ & Hs & Hm
    & Hacc & Hview).
  destruct (hi_chain _ _ Hi) as (st0 & Hst0 & Hctx & Hna & Hrun). simpl in Hst0.
  assert (st0 = st) as -> by congruence. clear Hst0.
  rewrite Hview. eapply hc_keep; [by eapply not_chunk_line|exact Hi|done|done| |done].
  simpl. intros [= Hv]. right. apply andb_true_iff in Hv as [_ ->].
  rewrite Hctx, Hna in Hm.
  assert (Hclaim : chain_claim hid pre line = Some (msg, s)).
  { unfold chain_claim. rewrite Hl, Hk, Hs. simpl. rewrite Hrun. simpl. by rewrite Hm. }
  destruct (signed_final _ _ _ Hm (Hsig _ _ Hclaim (Hacc eq_refl))) as [Hlen Hhash].
  rewrite Hhash in Hrun.
  destruct (chain_run_inj (genesis_hash hid) (genesis_hash hid)
              (map envelope_of (received pre)) (indexed emitted) final_hash)
    as [[_ Heq]|Hcol]; try done; try apply genesis_hash_length.
  - rewrite length_map, indexed_length. unfold N in Hlen. lia.
  - left. exists []. by rewrite Heq, app_nil_r.
  - right. exists (map envelope_of (received pre)), []. by rewrite app_nil_r.
Qed.

(** Buffered and per-chunk terminals are not the server's here. *)
Lemma hc_buffered_step pre line data w c w' c' :
  line_dict line = Some data -> kind_is "final_buffered" data = true ->
  (forall m s, chain_claim hid pre line = Some (m, s) -> may_accept m s spk -> chain_signed m) ->
  on_final_buffered key spk hid data (w, c) = (Ok tt, (w', c')) ->
  hc_inv pre (view c) -> hc_inv (pre ++ [line]) (view c').
Proof.
  intros Hl Hk Hsig H Hi.
  apply on_final_buffered_inv in H as (n & ct & s & valid & aead & pt & Hn & Hc & Hs & Hacc
    & Hd & Hview).
  assert (valid = false) as ->.
  { destruct valid; [|done]. exfalso. eapply (chain_signed_not_buffered n ct), Hsig, Hacc; [|done].
    unfold chain_claim, record_claim.
    rewrite Hl, (kind_is_fun "final_buffered" "final_chain" data),
      (kind_is_fun "final_buffered" "chunk" data) by done.
    rewrite Hk, Hn, Hc, Hs. reflexivity. }
  cbn in Hd. injection Hd as <- <-.
  rewrite Hview. eapply hc_keep; [by eapply not_chunk_line|exact Hi|done| | |]; simpl.
  - by rewrite andb_false_r.
  - by left.
  - by rewrite andb_false_r.
Qed.

Lemma hc_end_step pre line data w c w' c' :
  line_dict line = Some data -> kind_is "final_per_chunk" data = true ->
  (forall m s, chain_claim hid pre line = Some (m, s) -> may_accept m s spk -> chain_signed m) ->
  on_final_per_chunk spk hid data (w, c) = (Ok tt, (w', c')) ->
  hc_inv pre (view c) -> hc_inv (pre ++ [line]) (view c').
Proof.
  intros Hl Hk Hsig H Hi.
  apply on_final_per_chunk_inv in H as (vn & n & s & msg & valid & Hvn & Hn & Hs & Hm & Hacc
    & Hview).
  assert (valid = false) as ->.
  { destruct valid; [|done]. exfalso. eapply chain_signed_not_end, Hsig, Hacc; [exact Hm| |done].
    unfold chain_claim, record_claim.
    rewrite Hl, (kind_is_fun "final_per_chunk" "final_chain" data),
      (kind_is_fun "final_per_chunk" "chunk" data),
      (kind_is_fun "final_per_chunk" "final_buffered" data) by done.
    rewrite Hs, Hvn. simpl. rewrite Hn. simpl. by rewrite Hm. }
  rewrite Hview.
  eapply hc_keep; [by eapply not_chunk_line|exact Hi|done|done|done|done].
Qed.

(** A line the dispatch leaves alone delivers no chunk. *)
Lemma dispatch_chunk_active data w c :
  kind_is "chunk" data = true ->
  dispatch "hash_chain" key spk hid data (w, c) = on_chain_chunk key spk data (w, c).
Proof. intros Hk. unfold dispatch. by rewrite Hk. Qed.

Lemma hc_line_step t0 pre line w c w' c' :
  (forall m s, chain_claim hid pre line = Some (m, s) -> may_accept m s spk -> chain_signed m) ->
  on_line "hash_chain" key spk hid t0 line (w, c) = (Ok tt, (w', c')) ->
  hc_inv pre (view c) -> hc_inv (pre ++ [line]) (view c').
Proof.
  intros Hsig H Hi.
  apply on_line_inv in H as [[Hnd Heq]|(data & w1 & c1 & Hd & Hview & H)].
  - eapply hc_keep; rewrite ?Heq; eauto.
    + unfold line_chunk, line_dict. by rewrite Hnd.
    + apply (hi_terminal _ _ Hi).
  - rewrite <- Hview in Hi.
    assert (Hline : line_dict line = Some data) by (unfold line_dict; by rewrite Hd).
    destruct (kind_is "chunk" data) eqn:Hk.
    { rewrite dispatch_chunk_active in H by done. by eapply hc_chunk_step. }
    apply dispatch_inv in H as [(? & _)|[(? & _)|[(Hk' & H)|[(Hk' & H)|[(Hk' & H)|H]]]]];
      try congruence.
    + by eapply hc_buffered_step.
    + by eapply hc_end_step.
    + by eapply hc_final_step.
    + injection H as -> ->. eapply hc_keep; eauto.
      * unfold line_chunk. by rewrite Hline, Hk.
      * apply (hi_terminal _ _ Hi).
Qed.

Lemma hc_loop t0 lines pre w c w' c' :
  chain_signatures_are_servers (pre ++ lines) ->
  for_each lines (on_line "hash_chain" key spk hid t0) (w, c) = (Ok tt, (w', c')) ->
  hc_inv pre (view c) -> hc_inv (pre ++ lines) (view c').
Proof.
  revert pre w c; induction lines as [|line lines IH]; intros pre w c Hs H Hi.
  - injection H as -> ->. by rewrite app_nil_r.
  - apply bind_inv_Ok in H as ([] & [w1 c1] & H1 & H2).
    replace (pre ++ line :: lines) with ((pre ++ [line]) ++ lines) in * by by rewrite <- app_assoc.
    eapply (IH (pre ++ [line]) w1 c1); [done|done|].
    eapply hc_line_step; [|exact H1|done].
    intros m s. apply (Hs pre line lines). by rewrite <- app_assoc.
Qed.
End HashChain.

Section Plaintext.
Context {E : Env} {P : Prims} {J : Json}.
Variables (key : bytes) (emitted : list (bytes * bytes)) (pts : list bytes).
Hypothesis Hdec :
  Forall2 (fun nc pt => aead_decrypt key (fst nc) (snd nc) = Ok pt) emitted pts.
Hypothesis Hnonce : Forall (fun nc => length (fst nc) = 12%nat) emitted.

(** Chunks with the server's envelopes decrypt to the server's plaintext. *)
Lemma pinned_plaintext rcv ps suffix :
  map envelope_of rcv = indexed emitted ++ suffix ->
  Forall2 (decrypts key) rcv ps ->
  (forall i n c pt, (i, n, c) ∈ rcv -> aead_decrypt key n c = Ok pt -> (n, c) ∈ emitted) ->
  exists rest, ps = pts ++ rest /\ length rest = length suffix.
Proof.
  intros Henv Hps Hin.
  pose proof (Forall2_length _ _ _ Hdec) as Lp. pose proof (Forall2_length _ _ _ Hps) as Lr.
  assert (Ltot : length rcv = (length emitted + length suffix)%nat).
  { rewrite <- (length_map envelope_of), Henv, length_app, indexed_length. done. }
  exists (skipn (length pts) ps). split; [|rewrite length_skipn; lia].
  rewrite <- (firstn_skipn (length pts) ps) at 1. f_equal.
  apply list_eq_same_length with (length pts); [lia|rewrite length_firstn; lia|].
  intros k x y Hk Hx Hy. rewrite lookup_take_lt in Hx by done.
  destruct (Forall2_lookup_r _ _ _ _ _ Hps Hx) as ([[i n] c] & Hr & Hd).
  destruct (Forall2_lookup_r _ _ _ _ _ Hdec Hy) as ([n' c'] & He & Hd'). simpl in Hd'.
  assert (Hk' : map envelope_of rcv !! k = Some (i, n ++ c)).
  { rewrite list_lookup_fmap, Hr. done. }
  rewrite Henv, lookup_app_l in Hk' by (rewrite indexed_length; lia).
  rewrite (indexed_lookup _ _ _ He) in Hk'. injection Hk' as <- Heq. simpl in Heq.
  assert (Hin' : (n, c) ∈ emitted).
  { eapply Hin; [by eapply list_elem_of_lookup_2|exact Hd]. }
  pose proof (emitted_envelope emitted Hnonce k n c n' c' Hin' He (eq_sym Heq)) as He'.
  rewrite He in He'. injection He' as -> ->. simpl in Hd. congruence.
Qed.
End Plaintext.

(** C2: A hash-chain stream that the client reports as fully verified carries
    the server's chunks: whatever lines arrived, provided every terminal
    signature that verified was the server's for this stream and every
    envelope that opened was emitted by the server, the chunks received start
    with exactly the server's chunks, indices and envelopes in order (or the
    two chains exhibit a SHA-256 collision among their inputs); and when every
    received chunk also decrypted, the reconstructed text starts with the
    server's complete plaintext, with nothing after it when no further chunk
    arrived. *)
Theorem verified_hash_chain_stream_is_servers
    {E : Env} {P : Prims} {J : Json} {Cli : ClientCryptoConfig}
    (key spk : bytes) (hid : string) (emitted : list (bytes * bytes)) (pts : list bytes)
    (final_hash : bytes) (interval : option Z)
    (lines : list string) (t0 : Q) (w w' : world) (m : metrics) (c' : client_state)
    (Hchain : chain_run (genesis_hash hid) (indexed emitted) = Ok final_hash)
    (Hdec : Forall2 (fun nc pt => aead_decrypt key (fst nc) (snd nc) = Ok pt) emitted pts)
    (Hnonce : Forall (fun nc => length (fst nc) = 12%nat) emitted)
    (Hsig : chain_signatures_are_servers spk hid emitted final_hash lines)
    (Haead : envelopes_are_servers key emitted lines)
    (Hm : m_stream_fully_verified m = None)
    (Hrun : consume "hash_chain" key spk hid t0 lines
              (w, start_state m (Some (new_chain_state hid interval))) = (Ok tt, (w', c')))
    (Hverified : m_stream_fully_verified (c_metrics c') = Some true) :
  (exists l suffix, map envelope_of (received lines) = l ++ suffix
     /\ collision_in (chain_inputs (genesis_hash hid) l)
                     (chain_inputs (genesis_hash hid) (indexed emitted)))
  \/ (exists suffix, map envelope_of (received lines) = indexed emitted ++ suffix
     /\ (m_all_aead_ok (c_metrics c') = true ->
         exists rest, c_reconstructed c' = concat pts ++ rest
           /\ (suffix = [] -> rest = []))).
Proof.
  unfold consume in Hrun. apply bind_inv_Ok in Hrun as ([] & [w1 c1] & Hloop & Hend).
  assert (Hi : hc_inv key hid emitted ([] ++ lines) (view c1)).
  { eapply (hc_loop key spk hid emitted final_hash Hchain); [exact Hsig|exact Hloop|].
    constructor; simpl; rewrite ?Hm; try done.
    - eexists. split; [reflexivity|done].
    - intros _. exists []. by split; [constructor|]. }
  apply (conclude_view t0) in Hend. simpl in Hi.
  change (m_stream_fully_verified (c_metrics c')) with (v_verified (view c')) in Hverified.
  change (c_reconstructed c') with (v_recon (view c')).
  change (m_all_aead_ok (c_metrics c')) with (v_aead (view c')).
  rewrite Hend in *. simpl in *.
  destruct (c_terminal_seen c1) eqn:Ht; [|done].
  destruct (m_stream_fully_verified (c_metrics c1)) as [b|] eqn:Hv.
  2: { pose proof (hi_terminal _ _ _ _ _ Hi Ht Hv) as Hf. simpl in Hf.
       rewrite Hf, andb_false_r in Hverified. done. }
  injection Hverified as ->.
  destruct (hi_verified _ _ _ _ _ Hi Hv) as [[suf Hsuf]|Hcol]; [right|by left].
  exists suf. split; [done|]. intros Ha.
  destruct (hi_recon _ _ _ _ _ Hi Ha) as (ps & Hps & Hrec). simpl in Hrec.
  destruct (pinned_plaintext key emitted pts Hdec Hnonce (received lines) ps suf Hsuf Hps)
    as (rest & -> & Lrest).
  - intros i n c pt Hin Hd.
    apply list_elem_of_omap in Hin as (line & Hline & Hlc).
    unfold envelopes_are_servers in Haead. rewrite Forall_forall in Haead.
    eapply (Haead line); [exact Hline| |exact Hd].
    unfold line_chunk in Hlc. unfold line_envelope, record_envelope.
    destruct (line_dict line) as [d|]; [|done]. destruct (kind_is "chunk" d); [|done].
    destruct (getitem "index" d); [simpl in Hlc|done]. destruct (as_int a); [simpl in Hlc|done].
    destruct (b64_field "nonce" d); [simpl in Hlc|done].
    destruct (b64_field "ciphertext" d); [simpl in Hlc|done]. by injection Hlc as _ -> ->.
  - exists (concat rest). rewrite Hrec, concat_app. split; [done|]. intros ->.
    by destruct rest.
Qed.
