(* ===== verification/StreamingHonest.v ===== *)
(** * Honest streams, strategy by strategy

    For each strategy, a relation between the server's strategy object after
    some chunks and the client's view after the records sent so far, and that
    every server step followed by the client's step on the record keeps it. *)
From stdpp Require Import gmap.
From S2P Require Import Prelude PyBytes Sha256 PyVal World Instrumentation Aead Base Configs.
From S2P Require Import ConfigsLaws Streaming StreamingMessages Http SecureApp StreamingClient.
From S2P Require Import StreamingClientSteps.

Definition texts_bytes (texts : list string) : bytes := concat (map encode texts).

Lemma texts_bytes_snoc texts t : texts_bytes (texts ++ [t]) = texts_bytes texts ++ encode t.
Proof. unfold texts_bytes. rewrite map_app, concat_app. simpl. by rewrite app_nil_r. Qed.

Lemma index_bytes_ok n :
  Z.of_nat n < 2 ^ 32 -> exists ib, _index_bytes (Z.of_nat n) = Ok ib.
Proof. intros H. eexists. apply to_bytes_Ok. split; [|reflexivity]. lia. Qed.

Section Honest.
Context {E : Env} {P : Prims} {EL : EnvLaws E} {PL : PrimLaws P} {J : Json}.
Context {T : Type} {Srv : ServerCryptoConfig T} {Cli : ClientCryptoConfig}
        {L : ConfigLaws Srv Cli}.
Variables (s : T) (hid : string) (kpk spk key : bytes).
Hypothesis Hlive : live s hid kpk spk.
Hypothesis Hkey : length key = 32%nat.

(** What one strategy shows. *)
Class HonestStrategy (strategy : string) (K : Type) (Strat : StreamSigningStrategy (S := T) K) := {
  hs_rel : list string -> K -> cview -> Prop;
  hs_chunk texts t k cv w :
    hs_rel texts k cv -> Z.of_nat (length texts) < 2 ^ 32 ->
    exists o w' k',
      add_chunk (encode t) (Z.of_nat (length texts)) ((w, s), k) = (Ok o, ((w', s), k'))
      /\ match o with
         | None => hs_rel (texts ++ [t]) k' cv
         | Some row =>
             jsonable (VDict (_encode_for_wire row)) = true
             /\ forall wc c, view c = cv -> exists wc' c',
                  dispatch strategy key spk hid (_encode_for_wire row) (wc, c)
                  = (Ok tt, (wc', c'))
                  /\ hs_rel (texts ++ [t]) k' (view c')
         end;
  hs_final texts k cv w :
    hs_rel texts k cv -> Z.of_nat (length texts) < 2 ^ 32 ->
    exists row w' k',
      finalize (Z.of_nat (length texts)) ((w, s), k) = (Ok (Some row), ((w', s), k'))
      /\ jsonable (VDict (_encode_for_wire row)) = true
      /\ forall wc c, view c = cv -> exists wc' c',
           dispatch strategy key spk hid (_encode_for_wire row) (wc, c) = (Ok tt, (wc', c'))
           /\ v_terminal (view c') = true /\ v_recon (view c') = texts_bytes texts
           /\ v_sigs (view c') = true /\ v_aead (view c') = true /\ v_order (view c') = true
           /\ (v_verified (view c') = None \/ v_verified (view c') = Some true);
}.

(** Signing and encrypting in the live session. *)
Lemma sign_run msg w :
  exists sg meta ms cpu w', sign hid msg (w, s) = (Ok (sg, meta), (w', s))
    /\ signature_entries sg meta
       = Ok [("signature", VBytes sg); ("sign_ms", VFloat ms); ("sign_cpu_ms", VFloat cpu);
             ("signature_bytes", VInt (Z.of_nat (length sg)))]
    /\ sg <> []
    /\ getitem "sign_ms" meta = Ok (VFloat ms)
    /\ dget_or "sign_cpu_ms" (VFloat 0) meta = VFloat cpu
    /\ accepts msg sg spk.
Proof.
  destruct (sign_verifies s hid kpk spk msg w Hlive)
    as (sg & meta & w' & Hs & [[ms Hms] [[cpu Hcpu] _]] & Hne & Ha).
  exists sg, meta, ms, cpu, w'. unfold signature_entries, getitem. rewrite Hms, Hcpu. done.
Qed.

Lemma verify_run msg sg w :
  accepts msg sg spk ->
  exists meta ms cpu w', verify msg sg spk w = (Ok (true, meta), w')
    /\ verify_times meta = Ok (VFloat ms, VFloat cpu).
Proof.
  intros Ha. destruct (Ha w) as (meta & w' & Hv & [[ms Hms] [[cpu Hcpu] _]]).
  exists meta, ms, cpu, w'. unfold verify_times, getitem. by rewrite Hms, Hcpu.
Qed.

Ltac run_server Hrun := rewrite (bind_Ok _ _ _ _ _ Hrun); cbv beta iota.

(** Read the fields of a wire record that was just encoded. *)
Ltac open_run :=
  unfold bind, of_result, on_fst, self, upd_m, upd, now, ret, set_self;
  cbn [getitem dget dget_or String.eqb Ascii.eqb Bool.eqb rbind];
  rewrite ?b64d_b64e; cbn.

(** *** per_chunk *)
Definition pc_wire (i : Z) (n c sg : bytes) (ms cpu : Q) : dict :=
  [("kind", VStr "chunk"); ("index", VInt i); ("nonce", VStr (_b64e n));
   ("ciphertext", VStr (_b64e c)); ("signature", VStr (_b64e sg)); ("sign_ms", VFloat ms);
   ("sign_cpu_ms", VFloat cpu); ("signature_bytes", VInt (Z.of_nat (length sg)))].

Lemma on_per_chunk_honest i n c sg ms cpu pt msg wc cl :
  chunk_message (stream_context hid) i n c = Ok msg -> accepts msg sg spk ->
  aead_decrypt key n c = Ok pt -> c_expected_index cl = i ->
  exists wc' cl', on_per_chunk key spk hid (pc_wire i n c sg ms cpu) (wc, cl) = (Ok tt, (wc', cl'))
    /\ view cl' = mkView (v_sigs (view cl)) (v_aead (view cl)) (v_order (view cl))
                   (v_verified (view cl)) (v_chain (view cl)) (v_terminal (view cl))
                   (v_index (view cl) + 1) (v_recon (view cl) ++ pt).
Proof.
  intros Hm Ha Hd Hi. destruct (verify_run _ _ wc Ha) as (meta & vms & vcpu & w' & Hv & Ht).
  unfold on_per_chunk, pc_wire, verify_per_chunk, get_bytes, add_num, decrypt_if, _decrypt_into.
  open_run. rewrite Hm. cbn. rewrite Hv, Ht, Hd. cbn. rewrite Hi, Z.eqb_refl. cbn.
  eexists _, _. split; [reflexivity|]. unfold view.
  destruct cl as [m p ch te ei re]; destruct m. simpl in *. subst ei.
  destruct p; simpl; rewrite !andb_true_r; reflexivity.
Qed.

Definition pc_final_wire (n : Z) (sg : bytes) (ms cpu : Q) : dict :=
  [("kind", VStr "final_per_chunk"); ("n_chunks", VInt n); ("signature", VStr (_b64e sg));
   ("sign_ms", VFloat ms); ("sign_cpu_ms", VFloat cpu);
   ("signature_bytes", VInt (Z.of_nat (length sg)))].

Lemma on_final_per_chunk_honest n sg ms cpu msg wc cl :
  end_message (stream_context hid) n = Ok msg -> accepts msg sg spk ->
  c_expected_index cl = n ->
  exists wc' cl', on_final_per_chunk spk hid (pc_final_wire n sg ms cpu) (wc, cl)
                  = (Ok tt, (wc', cl'))
    /\ view cl' = mkView (v_sigs (view cl)) (v_aead (view cl)) (v_order (view cl))
                   (Some (v_sigs (view cl) && v_aead (view cl) && v_order (view cl)))
                   (v_chain (view cl)) true (v_index (view cl)) (v_recon (view cl)).
Proof.
  intros Hm Ha Hi. destruct (verify_run _ _ wc Ha) as (meta & vms & vcpu & w' & Hv & Ht).
  unfold on_final_per_chunk, pc_final_wire, verify_per_chunk_final, get_bytes, add_num.
  open_run. rewrite Hm. cbn. rewrite Hv, Ht. cbn. rewrite Hi, Z.eqb_refl. cbn.
  eexists _, _. split; [reflexivity|]. unfold view.
  destruct cl as [m p ch te ei re]; destruct m. simpl in *. by subst ei.
Qed.

Definition pc_view (texts : list string) : cview :=
  mkView true true true None None false (Z.of_nat (length texts)) (texts_bytes texts).

Lemma wire_jsonable (d : dict) :
  forallb (fun kv => jsonable (snd kv)) d = true -> bool_decide (NoDup (map fst d)) = true ->
  jsonable (VDict d) = true.
Proof. intros H1 H2. cbn [jsonable]. by rewrite H1, H2. Qed.

#[export] Instance honest_per_chunk : HonestStrategy "per_chunk" PerChunkStrategy PerChunk.
Proof.
  refine {| hs_rel texts k cv := k = new_per_chunk hid key /\ cv = pc_view texts |}.
  - intros texts t k cv w [-> ->] Hlen.
    destruct (index_bytes_ok _ Hlen) as [ib Hib].
    destruct (aead_encrypt_run key (encode t) w Hkey) as (r & Hr & Ln & _ & Hd).
    assert (Hm : chunk_message (stream_context hid) (Z.of_nat (length texts)) (nonce r) (ciphertext r)
                 = Ok (encode "CHK" ++ stream_context hid ++ ib ++ nonce r ++ ciphertext r))
      by (unfold chunk_message; by rewrite Hib).
    destruct (sign_run (encode "CHK" ++ stream_context hid ++ ib ++ nonce r ++ ciphertext r) (advance w))
      as (sg & meta & ms & cpu & w' & Hs & He & _ & _ & _ & Ha).
    exists (Some ([("kind", VStr "chunk"); ("index", VInt (Z.of_nat (length texts)));
              ("nonce", VBytes (nonce r)); ("ciphertext", VBytes (ciphertext r))]
              ++ [("signature", VBytes sg); ("sign_ms", VFloat ms); ("sign_cpu_ms", VFloat cpu);
                  ("signature_bytes", VInt (Z.of_nat (length sg)))])), w', (new_per_chunk hid key).
    split.
    + unfold add_chunk, PerChunk, per_chunk_add_chunk, bind, self, on_fst, of_result.
      cbn [pc_session_key pc_ctx pc_handshake_id new_per_chunk].
      rewrite Hr, Hm, Hs, He. reflexivity.
    + split; [apply wire_jsonable; reflexivity|]. intros wc c Hv.
      destruct (on_per_chunk_honest (Z.of_nat (length texts)) _ _ sg ms cpu _ _ wc c Hm Ha Hd)
        as (wc' & c' & Hrun & Hv').
      { change (c_expected_index c) with (v_index (view c)). by rewrite Hv. }
      exists wc', c'. split; [exact Hrun|]. split; [done|]. rewrite Hv', Hv.
      unfold pc_view. simpl. rewrite length_app, texts_bytes_snoc. f_equal. simpl. lia.
  - intros texts k cv w [-> ->] Hlen.
    destruct (index_bytes_ok _ Hlen) as [ib Hib].
    assert (Hm : end_message (stream_context hid) (Z.of_nat (length texts))
                 = Ok (encode "END" ++ stream_context hid ++ ib))
      by (unfold end_message; by rewrite Hib).
    destruct (sign_run (encode "END" ++ stream_context hid ++ ib) w)
      as (sg & meta & ms & cpu & w' & Hs & He & _ & _ & _ & Ha).
    exists ([("kind", VStr "final_per_chunk"); ("n_chunks", VInt (Z.of_nat (length texts)))]
            ++ [("signature", VBytes sg); ("sign_ms", VFloat ms); ("sign_cpu_ms", VFloat cpu);
                ("signature_bytes", VInt (Z.of_nat (length sg)))]), w', (new_per_chunk hid key).
    split; [|split].
    + unfold finalize, PerChunk, per_chunk_finalize, bind, self, on_fst, of_result.
      cbn [pc_ctx pc_handshake_id new_per_chunk]. rewrite Hm, Hs, He. reflexivity.
    + apply wire_jsonable; reflexivity.
    + intros wc c Hv.
      destruct (on_final_per_chunk_honest (Z.of_nat (length texts)) sg ms cpu _ wc c Hm Ha)
        as (wc' & c' & Hrun & Hv').
      { change (c_expected_index c) with (v_index (view c)). by rewrite Hv. }
      exists wc', c'. split; [exact Hrun|]. rewrite Hv', Hv. split_and!; auto.
Defined.

(** *** buffer_and_sign *)
Definition buffered_wire (n c sg : bytes) (ms cpu : Q) : dict :=
  [("kind", VStr "final_buffered"); ("nonce", VStr (_b64e n)); ("ciphertext", VStr (_b64e c));
   ("signature", VStr (_b64e sg)); ("sign_ms", VFloat ms); ("sign_cpu_ms", VFloat cpu);
   ("signature_bytes", VInt (Z.of_nat (length sg)))].

Lemma on_final_buffered_honest n c sg ms cpu pt wc cl :
  accepts (buffered_message (stream_context hid) n c) sg spk ->
  aead_decrypt key n c = Ok pt ->
  exists wc' cl', on_final_buffered key spk hid (buffered_wire n c sg ms cpu) (wc, cl)
                  = (Ok tt, (wc', cl'))
    /\ view cl' = mkView (v_sigs (view cl)) (v_aead (view cl)) (v_order (view cl))
                   (v_verified (view cl)) (v_chain (view cl)) true
                   (v_index (view cl)) (v_recon (view cl) ++ pt).
Proof.
  intros Ha Hd. destruct (verify_run _ _ wc Ha) as (meta & vms & vcpu & w' & Hv & Ht).
  unfold on_final_buffered, buffered_wire, verify_buffer_and_sign_final, get_bytes, add_num,
    decrypt_if, _decrypt_into.
  open_run. rewrite Hv, Ht, Hd. cbn.
  eexists _, _. split; [reflexivity|]. unfold view.
  destruct cl as [m p ch te ei re]; destruct m. simpl. by rewrite !andb_true_r.
Qed.

Definition buffered_view : cview := mkView true true true None None false 0 [].

#[export] Instance honest_buffered :
  HonestStrategy "buffer_and_sign" BufferAndSignStrategy BufferAndSign.
Proof.
  refine {| hs_rel texts k cv :=
    k = mkBuffer hid key (stream_context hid) (texts_bytes texts) /\ cv = buffered_view |}.
  - intros texts t k cv w [-> ->] _.
    exists None, w, (mkBuffer hid key (stream_context hid) (texts_bytes (texts ++ [t]))).
    split; [by rewrite texts_bytes_snoc|done].
  - intros texts k cv w [-> ->] _.
    destruct (aead_encrypt_run key (texts_bytes texts) w Hkey) as (r & Hr & _ & _ & Hd).
    destruct (sign_run (buffered_message (stream_context hid) (nonce r) (ciphertext r)) (advance w))
      as (sg & meta & ms & cpu & w' & Hs & He & _ & _ & _ & Ha).
    exists ([("kind", VStr "final_buffered"); ("nonce", VBytes (nonce r));
             ("ciphertext", VBytes (ciphertext r))]
            ++ [("signature", VBytes sg); ("sign_ms", VFloat ms); ("sign_cpu_ms", VFloat cpu);
                ("signature_bytes", VInt (Z.of_nat (length sg)))]), w',
           (mkBuffer hid key (stream_context hid) (texts_bytes texts)).
    split; [|split].
    + unfold finalize, BufferAndSign, buffer_finalize, bind, self, on_fst, of_result.
      cbn [bs_session_key bs_ctx bs_handshake_id bs_buffer]. rewrite Hr, Hs, He. reflexivity.
    + apply wire_jsonable; reflexivity.
    + intros wc c Hv.
      destruct (on_final_buffered_honest _ _ sg ms cpu _ wc c Ha Hd) as (wc' & c' & Hrun & Hv').
      exists wc', c'. split; [exact Hrun|]. rewrite Hv', Hv. split_and!; auto.
Defined.

(** *** hash_chain *)
Definition hc_wire (i : Z) (n c h : bytes) (sgv : val) (ms cpu : Q) (sb : Z) : dict :=
  [("kind", VStr "chunk"); ("index", VInt i); ("nonce", VStr (_b64e n));
   ("ciphertext", VStr (_b64e c)); ("chain_hash", VStr (_b64e h)); ("signature", sgv);
   ("sign_ms", VFloat ms); ("sign_cpu_ms", VFloat cpu); ("signature_bytes", VInt sb)].

Definition advance_chain (st : HashChainClientState) (h : bytes) : HashChainClientState :=
  mkChainState (cs_handshake_id st) (cs_checkpoint_interval st) h (cs_ctx st)
    (cs_n_absorbed st + 1).

(** A chunk without a checkpoint, when none is due. *)
Lemma on_chain_chunk_plain i n c h pt st wc cl ms cpu sb :
  c_chain cl = Some st ->
  chain_link (cs_running_hash st) i (n ++ c) = Ok h ->
  checkpoint_expected (cs_checkpoint_interval st) (cs_n_absorbed st + 1) = false ->
  aead_decrypt key n c = Ok pt ->
  exists wc' cl', on_chain_chunk key spk (hc_wire i n c h VNone ms cpu sb) (wc, cl)
                  = (Ok tt, (wc', cl'))
    /\ view cl' = mkView (v_sigs (view cl)) (v_aead (view cl)) (v_order (view cl))
                   (v_verified (view cl)) (Some (advance_chain st h)) (v_terminal (view cl))
                   (v_index (view cl)) (v_recon (view cl) ++ pt).
Proof.
  intros Hst Hl Hcp Hd.
  unfold on_chain_chunk, run_chain_chunk, hc_wire, verify_hash_chain_chunk, absorb,
    signature_present, get_bytes, add_num, _decrypt_into.
  open_run. rewrite Hst. cbn. rewrite Hl. cbn. rewrite Hd, Hcp. cbn.
  eexists _, _. split; [reflexivity|]. unfold view.
  destruct cl as [m p ch te ei re]; destruct m. simpl. by rewrite !andb_true_r.
Qed.

(** A chunk with a checkpoint signature. *)
Lemma on_chain_chunk_checkpoint i n c h sg msg pt st wc cl ms cpu sb :
  c_chain cl = Some st -> sg <> [] ->
  chain_link (cs_running_hash st) i (n ++ c) = Ok h ->
  checkpoint_message (cs_ctx st) i h = Ok msg -> accepts msg sg spk ->
  aead_decrypt key n c = Ok pt ->
  exists wc' cl', on_chain_chunk key spk (hc_wire i n c h (VStr (_b64e sg)) ms cpu sb) (wc, cl)
                  = (Ok tt, (wc', cl'))
    /\ view cl' = mkView (v_sigs (view cl)) (v_aead (view cl)) (v_order (view cl))
                   (v_verified (view cl)) (Some (advance_chain st h)) (v_terminal (view cl))
                   (v_index (view cl)) (v_recon (view cl) ++ pt).
Proof.
  intros Hst Hne Hl Hm Ha Hd.
  destruct (verify_run _ _ wc Ha) as (meta & vms & vcpu & w' & Hv & Ht).
  assert (Htr : truthy (VBytes sg) = true) by (destruct sg; done).
  unfold on_chain_chunk, run_chain_chunk, hc_wire, verify_hash_chain_chunk, absorb,
    signature_present, get_bytes, add_num, _decrypt_into.
  unfold bind, of_result, on_fst, self, upd_m, upd, now, ret, set_self.
  cbn [getitem dget dget_or String.eqb Ascii.eqb Bool.eqb rbind].
  rewrite ?b64d_b64e, b64e_nonempty by done. cbn -[truthy]. rewrite Hst. cbn -[truthy].
  rewrite Hl. cbn -[truthy]. rewrite Htr. cbn -[truthy].
  rewrite Hm. cbn -[truthy]. rewrite Hv, Ht, Hd. cbn -[truthy].
  rewrite andb_false_r. cbn.
  eexists _, _. split; [reflexivity|]. unfold view.
  destruct cl as [m p ch te ei re]; destruct m. simpl.
  destruct p; simpl; by rewrite !andb_true_r.
Qed.

Definition chain_final_wire (n : Z) (h sg : bytes) (ms cpu : Q) : dict :=
  [("kind", VStr "final_chain"); ("final_chain_hash", VStr (_b64e h)); ("n_chunks", VInt n);
   ("signature", VStr (_b64e sg)); ("sign_ms", VFloat ms); ("sign_cpu_ms", VFloat cpu);
   ("signature_bytes", VInt (Z.of_nat (length sg)))].

Lemma on_final_chain_honest sg msg st wc cl ms cpu :
  c_chain cl = Some st ->
  final_chain_message (cs_ctx st) (cs_n_absorbed st) (cs_running_hash st) = Ok msg ->
  accepts msg sg spk ->
  exists wc' cl', on_final_chain spk
      (chain_final_wire (cs_n_absorbed st) (cs_running_hash st) sg ms cpu) (wc, cl)
      = (Ok tt, (wc', cl'))
    /\ view cl' = mkView (v_sigs (view cl)) (v_aead (view cl)) (v_order (view cl)) (Some true)
                   (v_chain (view cl)) true (v_index (view cl)) (v_recon (view cl)).
Proof.
  intros Hst Hm Ha.
  destruct (verify_run _ _ wc Ha) as (meta & vms & vcpu & w' & Hv & Ht).
  unfold on_final_chain, chain_final_wire, verify_hash_chain_final, get_bytes, add_num.
  open_run. rewrite Hst. cbn. rewrite Hm. cbn. rewrite Hv, Ht. cbn.
  unfold bytes_eqb. rewrite bool_decide_eq_true_2 by done. rewrite Z.eqb_refl. cbn.
  eexists _, _. split; [reflexivity|]. unfold view.
  destruct cl as [m p ch te ei re]; destruct m. simpl in *. subst ch. by destruct p.
Qed.

(** The checkpoint schedule: chunks since the last signature, against the
    count the client expects a checkpoint at. *)
Definition sched (interval : option Z) (n since : Z) : Prop :=
  0 <= since /\ match interval with Some z => 0 < z -> since = n mod z | None => True end.

Definition interval_val (interval : option Z) : val :=
  match interval with Some z => VInt z | None => VNone end.

Lemma sched_step interval n since :
  0 <= n -> sched interval n since ->
  exists due, checkpoint_due (interval_val interval) (since + 1) = Ok due
    /\ (due = false -> checkpoint_expected interval (n + 1) = false)
    /\ sched interval (n + 1) (if due then 0 else since + 1).
Proof using.
  clear Hkey.
  intros Hn [Hs Hz]. destruct interval as [z|]; simpl.
  2: { exists false. unfold checkpoint_due. simpl. split_and!; [done|done|split; [lia|done]]. }
  unfold checkpoint_due. simpl. destruct (Z.eqb_spec z 0) as [->|Hz0]; simpl.
  { exists false. split_and!; [done|done|split; [lia|intros; lia]]. }
  exists (z <=? since + 1). split; [done|].
  destruct (Z.leb_spec z (since + 1)) as [Hle|Hlt].
  - split; [done|]. split; [lia|]. intros Hp. specialize (Hz Hp).
    symmetry. apply Z.mod_divide; [lia|].
    pose proof (Z.mod_pos_bound n z Hp). exists (n / z + 1).
    pose proof (Z.div_mod n z). lia.
  - assert (0 < z) as Hp by lia. specialize (Hz Hp).
    assert ((n + 1) mod z = since + 1) as Hm.
    { symmetry. apply Z.mod_unique with (n / z); [lia|]. pose proof (Z.div_mod n z). lia. }
    split; [intros _; rewrite Hm; apply Z.eqb_neq; lia|]. split; [lia|]. intros _. by rewrite Hm.
Qed.

Definition chain_view (interval : option Z) (texts : list string) (h : bytes) : cview :=
  mkView true true true None
    (Some (mkChainState hid interval h (stream_context hid) (Z.of_nat (length texts))))
    false 0 (texts_bytes texts).

Definition chain_rel (interval : option Z) (texts : list string) (k : HashChainStrategy)
    (cv : cview) : Prop :=
  exists h since,
    k = mkHashChain hid key (stream_context hid) (interval_val interval) h since
    /\ sched interval (Z.of_nat (length texts)) since
    /\ cv = chain_view interval texts h.

Lemma chain_view_step interval texts t h h' :
  mkView true true true None (Some (advance_chain (mkChainState hid interval h
      (stream_context hid) (Z.of_nat (length texts))) h')) false 0
    (texts_bytes texts ++ encode t)
  = chain_view interval (texts ++ [t]) h'.
Proof.
  unfold chain_view, advance_chain. simpl. rewrite texts_bytes_snoc, length_app. simpl.
  do 3 f_equal. lia.
Qed.

Lemma chain_chunk_honest interval texts t k cv w :
  chain_rel interval texts k cv -> Z.of_nat (length texts) < 2 ^ 32 ->
  exists row w' k',
    hash_chain_add_chunk (encode t) (Z.of_nat (length texts)) ((w, s), k)
    = (Ok (Some row), ((w', s), k'))
    /\ jsonable (VDict (_encode_for_wire row)) = true
    /\ forall wc c, view c = cv -> exists wc' c',
         dispatch "hash_chain" key spk hid (_encode_for_wire row) (wc, c) = (Ok tt, (wc', c'))
         /\ chain_rel interval (texts ++ [t]) k' (view c').
Proof.
  intros (h & since & -> & Hsch & ->) Hlen.
  destruct (index_bytes_ok _ Hlen) as [ib Hib].
  destruct (aead_encrypt_run key (encode t) w Hkey) as (r & Hr & _ & _ & Hd).
  set (h' := sha256 (h ++ ib ++ nonce r ++ ciphertext r)).
  assert (Hl : chain_link h (Z.of_nat (length texts)) (nonce r ++ ciphertext r) = Ok h')
    by (unfold chain_link; by rewrite Hib).
  destruct (sched_step interval (Z.of_nat (length texts)) since ltac:(lia) Hsch)
    as (due & Hdue & Hexp & Hsch').
  replace (Z.of_nat (length texts) + 1) with (Z.of_nat (length (texts ++ [t]))) in *
    by (rewrite length_app; simpl; lia).
  destruct due.
  - set (msg := encode "CKP" ++ stream_context hid ++ ib ++ h').
    assert (Hm : checkpoint_message (stream_context hid) (Z.of_nat (length texts)) h' = Ok msg)
      by (unfold checkpoint_message; by rewrite Hib).
    destruct (sign_run msg (advance w)) as (sg & meta & ms & cpu & w' & Hs & _ & Hne & Hms & Hcpu & Ha).
    eexists _, w', (mkHashChain hid key (stream_context hid) (interval_val interval) h' 0).
    split; [|split].
    + unfold hash_chain_add_chunk, bind, self, on_fst, of_result, set_self.
      cbn [hc_session_key hc_running_hash hc_since_checkpoint hc_checkpoint_interval hc_ctx
           hc_handshake_id set_chain].
      rewrite Hr, Hl, Hdue, Hm, Hs, Hms, Hcpu. reflexivity.
    + apply wire_jsonable; reflexivity.
    + intros wc c Hv.
      destruct (on_chain_chunk_checkpoint (Z.of_nat (length texts)) (nonce r) (ciphertext r) h' sg
        msg (encode t) (mkChainState hid interval h (stream_context hid) (Z.of_nat (length texts)))
        wc c ms cpu (Z.of_nat (length sg))) as (wc' & c' & Hrun & Hv');
        [by apply (f_equal v_chain) in Hv|exact Hne|exact Hl|exact Hm|exact Ha|exact Hd|].
      exists wc', c'. split; [exact Hrun|]. exists h', 0. split_and!; [done|done|].
      rewrite Hv', Hv. apply chain_view_step.
  - eexists _, (advance w), (mkHashChain hid key (stream_context hid) (interval_val interval) h' (since + 1)).
    split; [|split].
    + unfold hash_chain_add_chunk, bind, self, on_fst, of_result, set_self.
      cbn [hc_session_key hc_running_hash hc_since_checkpoint hc_checkpoint_interval hc_ctx
           hc_handshake_id set_chain].
      rewrite Hr, Hl, Hdue. reflexivity.
    + apply wire_jsonable; reflexivity.
    + intros wc c Hv.
      destruct (on_chain_chunk_plain (Z.of_nat (length texts)) (nonce r) (ciphertext r) h'
        (encode t) (mkChainState hid interval h (stream_context hid) (Z.of_nat (length texts)))
        wc c 0 0 0) as (wc' & c' & Hrun & Hv');
        [by apply (f_equal v_chain) in Hv|exact Hl| |exact Hd|].
      { simpl. replace (Z.of_nat (length texts) + 1) with (Z.of_nat (length (texts ++ [t])))
          by (rewrite length_app; simpl; lia). by apply Hexp. }
      exists wc', c'. split; [exact Hrun|]. exists h', (since + 1). split_and!; [done|done|].
      rewrite Hv', Hv. apply chain_view_step.
Qed.

#[export] Instance honest_hash_chain (interval : option Z) :
  HonestStrategy "hash_chain" HashChainStrategy HashChain.
Proof.
  refine {| hs_rel := chain_rel interval |}.
  - intros texts t k cv w Hrel Hlen.
    destruct (chain_chunk_honest interval texts t k cv w Hrel Hlen) as (row & w' & k' & H1 & H2 & H3).
    exists (Some row), w', k'. split_and!; [exact H1|exact H2|exact H3].
  - intros texts k cv w (h & since & -> & _ & ->) Hlen.
    destruct (index_bytes_ok _ Hlen) as [ib Hib].
    set (msg := encode "FIN" ++ stream_context hid ++ ib ++ h).
    assert (Hm : final_chain_message (stream_context hid) (Z.of_nat (length texts)) h = Ok msg)
      by (unfold final_chain_message; by rewrite Hib).
    destruct (sign_run msg w) as (sg & meta & ms & cpu & w' & Hs & He & _ & _ & _ & Ha).
    eexists _, w', _. split; [|split].
    + unfold finalize, HashChain, hash_chain_finalize, bind, self, on_fst, of_result.
      cbn [hc_ctx hc_handshake_id hc_running_hash]. rewrite Hm, Hs, He. reflexivity.
    + apply wire_jsonable; reflexivity.
    + intros wc c Hv.
      destruct (on_final_chain_honest sg msg
        (mkChainState hid interval h (stream_context hid) (Z.of_nat (length texts))) wc c ms cpu)
        as (wc' & c' & Hrun & Hv');
        [by apply (f_equal v_chain) in Hv|exact Hm|exact Ha|].
      exists wc', c'. split; [exact Hrun|]. rewrite Hv', Hv. split_and!; auto.
Defined.
End Honest.

Arguments hs_rel {E P T Cli s hid spk key strategy K Strat HonestStrategy} texts k cv : rename.
Arguments hs_chunk {E P T Cli s hid spk key strategy K Strat HonestStrategy} texts t k cv w Hrel Hlen : rename.
Arguments hs_final {E P T Cli s hid spk key strategy K Strat HonestStrategy} texts k cv w Hrel Hlen : rename.
