(* ===== verification/HndlProps.v ===== *)
(** * What an adversary stores of a stream

    The ciphertext bytes of the three strategies over the same text: one
    envelope for the whole text against one per chunk. *)
From stdpp Require Import gmap.
From S2P Require Import Prelude PyBytes Sha256 PyVal World Instrumentation PyList Aead Base Configs.
From S2P Require Import ConfigsLaws Streaming Http SecureApp StreamingClient StreamingHonest Replay.
From S2P Require Import Hndl.

Section Records.
Context {J : Json}.

(** A record that counts [dc] ciphertext bytes and [dn] chunks. *)
Definition adds (data : dict) (dc dn : Z) : Prop :=
  forall h, exists h', harvest_record data h = (Ok tt, h')
    /\ hv_ciphertext h' = hv_ciphertext h + dc /\ hv_chunks h' = hv_chunks h + dn
    /\ hv_error h' = hv_error h.

Lemma integrity_b64 k data :
  match dget k data with Some (VStr s) => exists b, s = _b64e b | Some VNone | None => True | _ => False end ->
  exists n, integrity_len k data = Ok n.
Proof.
  unfold integrity_len, get_truthy, b64_len, getitem. destruct (dget k data) as [[]|]; try done; eauto.
  intros [b ->]. destruct (truthy _); [|eauto]. cbv [rbind]. cbn. rewrite b64d_b64e. eauto.
Qed.

Lemma record_adds data kind dc dn :
  dget "kind" data = Some (VStr kind) -> ciphertext_len data = Ok dc ->
  (forall k, k ∈ ["signature"; "chain_hash"; "final_chain_hash"] ->
     match dget k data with Some (VStr s) => exists b, s = _b64e b | Some VNone | None => True | _ => False end) ->
  dn = (if String.eqb kind "chunk" then 1 else 0) -> adds data dc dn.
Proof.
  intros Hk Hc Hi -> h.
  destruct (integrity_b64 "signature" data (Hi _ ltac:(apply elem_of_cons; by left))) as [s Hs].
  destruct (integrity_b64 "chain_hash" data (Hi _ ltac:(do 1 apply elem_of_cons, or_intror; apply elem_of_cons; by left))) as [x Hx].
  destruct (integrity_b64 "final_chain_hash" data (Hi _ ltac:(do 2 apply elem_of_cons, or_intror; apply elem_of_cons; by left))) as [f Hf].
  unfold harvest_record, is_none, kind_is. rewrite Hk, Hc, Hs, Hx, Hf.
  eexists. split; [reflexivity|].  cbn. split_and!; [lia|by destruct (String.eqb kind "chunk")|done].
Qed.

(** The signatures of a list of records, and the bytes the records give for
    them. *)
Definition row_signatures (rows : list dict) : list bytes :=
  omap (fun r => match dget "signature" r with Some (VBytes s) => Some s | _ => None end) rows.
Definition recorded_bytes (rows : list dict) : Z := Zsum (int_values "signature_bytes" rows).
Definition total_length (sgs : list bytes) : Z := Zsum (map (fun s => Z.of_nat (length s)) sgs).
Definition shows (rows : list dict) (sgs : list bytes) : Prop :=
  row_signatures rows = sgs /\ recorded_bytes rows = total_length sgs.

Lemma shows_nil : shows [] [].
Proof. done. Qed.
Lemma shows_app rows1 sgs1 rows2 sgs2 :
  shows rows1 sgs1 -> shows rows2 sgs2 -> shows (rows1 ++ rows2) (sgs1 ++ sgs2).
Proof.
  unfold shows, row_signatures, recorded_bytes, int_values, total_length. intros [<- H1] [<- H2].
  rewrite !omap_app, map_app, !Zsum_app. split; [done|]. lia.
Qed.

Lemma ciphertext_len_of data n c :
  dget "nonce" data = Some (VStr (_b64e n)) -> dget "ciphertext" data = Some (VStr (_b64e c)) ->
  ciphertext_len data = Ok (Z.of_nat (length n) + Z.of_nat (length c)).
Proof.
  intros Hn Hc. unfold ciphertext_len, dmem, b64_len, getitem. rewrite Hn, Hc. cbn [andb rbind].
  rewrite !b64d_b64e. done.
Qed.
End Records.

(** ** Sending a text through a strategy *)
Section Send.
Context {E : Env} {P : Prims} {EL : EnvLaws E} {PL : PrimLaws P} {J : Json}.
Context {T : Type} {Srv : ServerCryptoConfig T} {Cli : ClientCryptoConfig}
        {L : ConfigLaws Srv Cli}.

Fixpoint send_chunks {K} {Strat : StreamSigningStrategy (S := T) K} (texts : list string) (i : Z)
    : M ((world * T) * K) (list dict) :=
  match texts with
  | [] => ret []
  | t :: ts =>
      let* o := add_chunk (encode t) i in
      let* rows := send_chunks ts (i + 1) in
      ret (match o with Some row => row :: rows | None => rows end)
  end.

(** The records of a whole stream, and as they go on the wire. *)
Definition stream_rows {K} (Strat : StreamSigningStrategy (S := T) K) (texts : list string)
    : M ((world * T) * K) (list dict) :=
  let* rows := send_chunks texts 0 in
  let* final := finalize (py_len texts) in
  ret (rows ++ match final with Some row => [row] | None => [] end).
Definition protect {K} (Strat : StreamSigningStrategy (S := T) K) (texts : list string)
    : M ((world * T) * K) (list dict) :=
  let* rows := stream_rows Strat texts in ret (map _encode_for_wire rows).

(** What the adversary counts of it. *)
Definition harvest_of (rows : list dict) : harvest := snd (for_each rows harvest_record harvest0).

Variables (s : T) (hid : string) (kpk spk key : bytes).
Hypothesis Hlive : live s hid kpk spk.
Hypothesis Hkey : length key = 32%nat.

Lemma harvest_app rows1 rows2 h h1 :
  for_each rows1 harvest_record h = (Ok tt, h1) ->
  for_each (rows1 ++ rows2) harvest_record h = for_each rows2 harvest_record h1.
Proof.
  revert h; induction rows1 as [|d rows1 IH]; intros h H; simpl in *; [by injection H as ->|].
  apply bind_inv_Ok in H as ([] & h2 & H1 & H2). rewrite (bind_Ok _ _ _ _ _ H1). by apply IH.
Qed.

(** Counts over a list of records. *)
Definition adds_all (rows : list dict) (dc dn : Z) : Prop :=
  forall h, exists h', for_each rows harvest_record h = (Ok tt, h')
    /\ hv_ciphertext h' = hv_ciphertext h + dc /\ hv_chunks h' = hv_chunks h + dn
    /\ hv_error h' = hv_error h.

Lemma adds_cons d rows dc dn dc' dn' :
  adds d dc dn -> adds_all rows dc' dn' -> adds_all (d :: rows) (dc + dc') (dn + dn').
Proof.
  intros H1 H2 h. destruct (H1 h) as (h1 & E1 & ? & ? & ?). destruct (H2 h1) as (h2 & E2 & ? & ? & ?).
  exists h2. cbn [for_each]. rewrite (bind_Ok _ _ _ _ _ E1). split; [exact E2|]. split_and!; [lia|lia|congruence].
Qed.
Lemma adds_nil : adds_all [] 0 0.
Proof. intros h. exists h. split; [done|]. split_and!; [lia|lia|done]. Qed.
Lemma adds_app rows1 rows2 dc dn dc' dn' :
  adds_all rows1 dc dn -> adds_all rows2 dc' dn' -> adds_all (rows1 ++ rows2) (dc + dc') (dn + dn').
Proof.
  intros H1 H2 h. destruct (H1 h) as (h1 & E1 & ? & ? & ?). destruct (H2 h1) as (h2 & E2 & ? & ? & ?).
  exists h2. rewrite (harvest_app _ _ _ _ E1). split; [exact E2|]. split_and!; [lia|lia|congruence].
Qed.

Definition text_bytes (texts : list string) : Z :=
  fold_right (fun t acc => Z.of_nat (length (encode t)) + acc) 0 texts.

(** A strategy that puts 28 bytes around every chunk on the wire; [Inv i sgs]
    holds of its object after [i] chunks and the signatures [sgs]. *)
Definition per_chunk_rows {K} (Strat : StreamSigningStrategy (S := T) K)
    (Inv : nat -> list bytes -> K -> Prop) : Prop :=
  forall t (i : nat) sgs k w, Inv i sgs k -> Z.of_nat i < 2 ^ 32 ->
  exists row w' k' new, add_chunk (encode t) (Z.of_nat i) ((w, s), k) = (Ok (Some row), ((w', s), k'))
    /\ Inv (S i) (sgs ++ new) k' /\ shows [row] new
    /\ adds (_encode_for_wire row) (Z.of_nat (length (encode t)) + 28) 1.

Lemma send_per_chunk {K} (Strat : StreamSigningStrategy (S := T) K) Inv
    (Hadd : per_chunk_rows Strat Inv) :
  forall texts (i : nat) sgs k w, Inv i sgs k -> Z.of_nat (i + length texts) <= 2 ^ 32 ->
  exists rows w' k' new, send_chunks texts (Z.of_nat i) ((w, s), k) = (Ok rows, ((w', s), k'))
    /\ Inv (i + length texts)%nat (sgs ++ new) k' /\ shows rows new
    /\ adds_all (map _encode_for_wire rows) (text_bytes texts + 28 * py_len texts) (py_len texts).
Proof.
  induction texts as [|t texts IH]; intros i sgs k w Hk Hlen.
  - exists [], w, k, []. rewrite app_nil_r, Nat.add_0_r.
    split_and!; [done|done|apply shows_nil|apply adds_nil].
  - simpl in Hlen. destruct (Hadd t i sgs k w Hk ltac:(lia)) as (row & w1 & k1 & n1 & H1 & Hk1 & Hs1 & Ha).
    destruct (IH (S i) _ k1 w1 Hk1 ltac:(lia)) as (rows & w2 & k2 & n2 & H2 & Hk2 & Hs2 & Has).
    exists (row :: rows), w2, k2, (n1 ++ n2). split_and!.
    + cbn [send_chunks]. rewrite (bind_Ok _ _ _ _ _ H1).
      replace (Z.of_nat i + 1) with (Z.of_nat (S i)) by lia. by rewrite (bind_Ok _ _ _ _ _ H2).
    + rewrite app_assoc. by replace (i + length (t :: texts))%nat with (S i + length texts)%nat
        by (simpl; lia).
    + by apply (shows_app [row] n1).
    + cbn [map]. replace (text_bytes (t :: texts) + 28 * py_len (t :: texts))
        with (Z.of_nat (length (encode t)) + 28 + (text_bytes texts + 28 * py_len texts))
        by (unfold py_len; simpl; lia).
      replace (py_len (t :: texts)) with (1 + py_len texts) by (unfold py_len; simpl; lia).
      by apply adds_cons.
Qed.

Ltac wire_row kind :=
  eapply (record_adds _ kind); [reflexivity
    |first [reflexivity | erewrite ciphertext_len_of by reflexivity; f_equal; lia]
    |intros k Hin; rewrite !elem_of_cons, elem_of_nil in Hin;
     destruct Hin as [->|[->|[->|[]]]]; simpl; eauto
    |reflexivity].

Lemma per_chunk_step t (i : nat) sgs k w :
  k = new_per_chunk hid key /\ length sgs = i -> Z.of_nat i < 2 ^ 32 ->
  exists row w' k' new, per_chunk_add_chunk (encode t) (Z.of_nat i) ((w, s), k)
                    = (Ok (Some row), ((w', s), k'))
    /\ (k' = new_per_chunk hid key /\ length (sgs ++ new) = S i) /\ shows [row] new
    /\ adds (_encode_for_wire row) (Z.of_nat (length (encode t)) + 28) 1.
Proof.
  intros [-> Hlen] Hi. destruct (index_bytes_ok _ Hi) as [ib Hib].
  destruct (aead_encrypt_run key (encode t) w Hkey) as (r & Hr & Hn & Hc & Hd).
  assert (Hm : chunk_message (stream_context hid) (Z.of_nat i) (nonce r) (ciphertext r)
               = Ok (encode "CHK" ++ stream_context hid ++ ib ++ nonce r ++ ciphertext r))
    by (unfold chunk_message; by rewrite Hib).
  destruct (sign_run s hid kpk spk Hlive
      (encode "CHK" ++ stream_context hid ++ ib ++ nonce r ++ ciphertext r) (advance w)) as (sg & meta & ms & cpu & w' & Hs & He & _).
  eexists _, w', _, [sg]. split.
  - unfold per_chunk_add_chunk, bind, self, on_fst, of_result.
    cbn [pc_session_key pc_ctx pc_handshake_id new_per_chunk]. rewrite Hr, Hm, Hs, He. reflexivity.
  - rewrite length_app. simpl. split_and!; [done|lia|by split|wire_row "chunk"].
Qed.

Lemma hash_chain_step interval t (i : nat) h since due w :
  checkpoint_due (interval_val interval) (since + 1) = Ok due -> Z.of_nat i < 2 ^ 32 ->
  exists row w' h', hash_chain_add_chunk (encode t) (Z.of_nat i)
      ((w, s), mkHashChain hid key (stream_context hid) (interval_val interval) h since)
      = (Ok (Some row), ((w', s), mkHashChain hid key (stream_context hid) (interval_val interval) h'
                                    (if due then 0 else since + 1)))
    /\ adds (_encode_for_wire row) (Z.of_nat (length (encode t)) + 28) 1
    /\ exists sgs, shows [row] sgs /\ length sgs = if due then 1%nat else 0%nat.
Proof.
  intros Hdue Hi. destruct (index_bytes_ok _ Hi) as [ib Hib].
  destruct (aead_encrypt_run key (encode t) w Hkey) as (r & Hr & Hn & Hc & Hd).
  set (h' := sha256 (h ++ ib ++ nonce r ++ ciphertext r)).
  assert (Hl : chain_link h (Z.of_nat i) (nonce r ++ ciphertext r) = Ok h')
    by (unfold chain_link; by rewrite Hib).
  assert (Hm : checkpoint_message (stream_context hid) (Z.of_nat i) h'
               = Ok (encode "CKP" ++ stream_context hid ++ ib ++ h'))
    by (unfold checkpoint_message; by rewrite Hib).
  destruct due.
  - destruct (sign_run s hid kpk spk Hlive (encode "CKP" ++ stream_context hid ++ ib ++ h') (advance w))
      as (sg & meta & ms & cpu & w' & Hs & _ & _ & Hms & Hcpu & _).
    eexists _, w', h'. split; [|split].
    + unfold hash_chain_add_chunk, bind, self, on_fst, of_result, set_self.
      cbn [hc_session_key hc_running_hash hc_since_checkpoint hc_checkpoint_interval hc_ctx
           hc_handshake_id set_chain]. rewrite Hr, Hl, Hdue, Hm, Hs, Hms, Hcpu. reflexivity.
    + wire_row "chunk".
    + exists [sg]. split; [by split|done].
  - eexists _, (advance w), h'. split; [|split].
    + unfold hash_chain_add_chunk, bind, self, on_fst, of_result, set_self.
      cbn [hc_session_key hc_running_hash hc_since_checkpoint hc_checkpoint_interval hc_ctx
           hc_handshake_id set_chain]. rewrite Hr, Hl, Hdue. reflexivity.
    + wire_row "chunk".
    + exists []. split; [by split|done].
Qed.

(** Checkpoints after [n] chunks: none without an interval, one per [k]
    chunks, and one per chunk for a negative one. *)
Definition due_count (interval : option Z) (n : Z) : Z :=
  match interval with
  | None => 0
  | Some k => if k =? 0 then 0 else if k <? 0 then n else n / k
  end.

Lemma due_count_step interval n since :
  0 <= n -> sched interval n since ->
  exists due, checkpoint_due (interval_val interval) (since + 1) = Ok due
    /\ due_count interval (n + 1) = due_count interval n + (if due then 1 else 0)
    /\ sched interval (n + 1) (if due then 0 else since + 1).
Proof.
  intros Hn Hsch. destruct (sched_step interval n since Hn Hsch) as (due & Hdue & _ & Hnext).
  exists due. split_and!; [done| |done]. destruct Hsch as [Hs Hz].
  destruct interval as [k|]; simpl in *; [|by injection Hdue as <-].
  unfold checkpoint_due in Hdue. simpl in Hdue.
  destruct (Z.eqb_spec k 0) as [->|Hk0]; simpl in Hdue; [by injection Hdue as <-|].
  injection Hdue as <-. destruct (Z.ltb_spec k 0) as [Hneg|Hpos].
  - rewrite (proj2 (Z.leb_le _ _)) by lia. lia.
  - specialize (Hz ltac:(lia)). pose proof (Z.mod_pos_bound n k ltac:(lia)).
    pose proof (Z.div_mod n k ltac:(lia)). destruct (Z.leb_spec k (since + 1)).
    + symmetry. apply Z.div_unique with 0; lia.
    + symmetry. apply Z.div_unique with (since + 1); lia.
Qed.

Definition chain_inv (interval : option Z) (i : nat) (sgs : list bytes) (k : HashChainStrategy) : Prop :=
  exists h since, k = mkHashChain hid key (stream_context hid) (interval_val interval) h since
    /\ sched interval (Z.of_nat i) since
    /\ Z.of_nat (length sgs) = due_count interval (Z.of_nat i).

Lemma chain_step interval t (i : nat) sgs k w :
  chain_inv interval i sgs k -> Z.of_nat i < 2 ^ 32 ->
  exists row w' k' new, hash_chain_add_chunk (encode t) (Z.of_nat i) ((w, s), k)
                    = (Ok (Some row), ((w', s), k'))
    /\ chain_inv interval (S i) (sgs ++ new) k' /\ shows [row] new
    /\ adds (_encode_for_wire row) (Z.of_nat (length (encode t)) + 28) 1.
Proof.
  intros (h & since & -> & Hsch & Hlen) Hi.
  destruct (due_count_step interval (Z.of_nat i) since ltac:(lia) Hsch) as (due & Hdue & Hc & Hnext).
  destruct (hash_chain_step interval t i h since due w Hdue Hi)
    as (row & w' & h' & Hr & Ha & new & Hs & Hl).
  eexists row, w', _, new. split_and!; [exact Hr| |exact Hs|exact Ha].
  exists h', (if due then 0 else since + 1). split; [done|].
  replace (Z.of_nat (S i)) with (Z.of_nat i + 1) by lia. split; [done|].
  rewrite length_app, Hl, Hc. destruct due; lia.
Qed.

Lemma per_chunk_final_adds (n : nat) w :
  Z.of_nat n < 2 ^ 32 ->
  exists row w', per_chunk_finalize (Z.of_nat n) ((w, s), new_per_chunk hid key)
                 = (Ok (Some row), ((w', s), new_per_chunk hid key))
    /\ adds (_encode_for_wire row) 0 0 /\ exists sg, shows [row] [sg].
Proof.
  intros Hn. destruct (index_bytes_ok _ Hn) as [ib Hib].
  assert (Hm : end_message (stream_context hid) (Z.of_nat n)
               = Ok (encode "END" ++ stream_context hid ++ ib))
    by (unfold end_message; by rewrite Hib).
  destruct (sign_run s hid kpk spk Hlive (encode "END" ++ stream_context hid ++ ib) w)
    as (sg & meta & ms & cpu & w' & Hs & He & _).
  eexists _, w'. split.
  - unfold per_chunk_finalize, bind, self, on_fst, of_result.
    cbn [pc_ctx pc_handshake_id new_per_chunk]. rewrite Hm, Hs, He. reflexivity.
  - split; [wire_row "final_per_chunk"|exists sg; by split].
Qed.

Lemma hash_chain_final_adds (n : nat) k w :
  (exists i h since, k = mkHashChain hid key (stream_context hid) i h since) ->
  Z.of_nat n < 2 ^ 32 ->
  exists row w', hash_chain_finalize (Z.of_nat n) ((w, s), k) = (Ok (Some row), ((w', s), k))
    /\ adds (_encode_for_wire row) 0 0 /\ exists sg, shows [row] [sg].
Proof.
  intros (i & h & since & ->) Hn. destruct (index_bytes_ok _ Hn) as [ib Hib].
  assert (Hm : final_chain_message (stream_context hid) (Z.of_nat n) h
               = Ok (encode "FIN" ++ stream_context hid ++ ib ++ h))
    by (unfold final_chain_message; by rewrite Hib).
  destruct (sign_run s hid kpk spk Hlive (encode "FIN" ++ stream_context hid ++ ib ++ h) w)
    as (sg & meta & ms & cpu & w' & Hs & He & _).
  eexists _, w'. split.
  - unfold hash_chain_finalize, bind, self, on_fst, of_result.
    cbn [hc_ctx hc_handshake_id hc_running_hash]. rewrite Hm, Hs, He. reflexivity.
  - split; [wire_row "final_chain"|exists sg; by split].
Qed.

Lemma buffer_final_adds n b w :
  exists row w', buffer_finalize n ((w, s), mkBuffer hid key (stream_context hid) b)
                 = (Ok (Some row), ((w', s), mkBuffer hid key (stream_context hid) b))
    /\ adds (_encode_for_wire row) (Z.of_nat (length b) + 28) 0 /\ exists sg, shows [row] [sg].
Proof.
  destruct (aead_encrypt_run key b w Hkey) as (r & Hr & Hn & Hc & _).
  destruct (sign_run s hid kpk spk Hlive
              (buffered_message (stream_context hid) (nonce r) (ciphertext r)) (advance w))
    as (sg & meta & ms & cpu & w' & Hs & He & _).
  eexists _, w'. split.
  - unfold buffer_finalize, bind, self, on_fst, of_result.
    cbn [bs_session_key bs_buffer bs_ctx bs_handshake_id]. rewrite Hr, Hs, He. reflexivity.
  - split; [wire_row "final_buffered"|exists sg; by split].
Qed.

Lemma send_buffered : forall texts i b w,
  send_chunks (Strat := BufferAndSign) texts i ((w, s), mkBuffer hid key (stream_context hid) b)
  = (Ok [], ((w, s), mkBuffer hid key (stream_context hid) (b ++ texts_bytes texts))).
Proof.
  induction texts as [|t texts IH]; intros i b w; [by rewrite app_nil_r|].
  cbn [send_chunks].
  rewrite (bind_Ok _ _ _ None ((w, s), mkBuffer hid key (stream_context hid) (b ++ encode t))) by reflexivity.
  rewrite (bind_Ok _ _ _ _ _ (IH _ _ _)).
  by rewrite <- app_assoc.
Qed.

Lemma text_bytes_length texts : text_bytes texts = Z.of_nat (length (texts_bytes texts)).
Proof.
  induction texts as [|t texts IH]; [done|]. change (text_bytes (t :: texts))
    with (Z.of_nat (length (encode t)) + text_bytes texts). rewrite IH.
  change (texts_bytes (t :: texts)) with (encode t ++ texts_bytes texts). rewrite length_app. lia.
Qed.

(** The totals of a run that counts [dc] bytes and [dn] chunks. *)
Definition counted (rows : list dict) (dc dn : Z) : Prop :=
  hv_ciphertext (harvest_of rows) = dc /\ hv_chunks (harvest_of rows) = dn
  /\ hv_error (harvest_of rows) = None.

Lemma adds_counted rows dc dn : adds_all rows dc dn -> counted rows dc dn.
Proof.
  intros H. destruct (H harvest0) as (h & Hrun & Hc & Hn & He).
  unfold counted, harvest_of. rewrite Hrun. split_and!; [exact Hc|exact Hn|exact He].
Qed.

Lemma stream_rows_run {K} (Strat : StreamSigningStrategy (S := T) K) texts σ rows σ1 row σ2 :
  send_chunks texts 0 σ = (Ok rows, σ1) -> finalize (py_len texts) σ1 = (Ok (Some row), σ2) ->
  stream_rows Strat texts σ = (Ok (rows ++ [row]), σ2).
Proof.
  intros H1 H2. unfold stream_rows. by rewrite (bind_Ok _ _ _ _ _ H1), (bind_Ok _ _ _ _ _ H2).
Qed.

Lemma protect_runs {K} (Strat : StreamSigningStrategy (S := T) K) texts k w rows w1 k1 row w2 k2
    dc dn dc' :
  send_chunks texts 0 ((w, s), k) = (Ok rows, ((w1, s), k1)) ->
  adds_all (map _encode_for_wire rows) dc dn ->
  finalize (py_len texts) ((w1, s), k1) = (Ok (Some row), ((w2, s), k2)) ->
  adds (_encode_for_wire row) dc' 0 ->
  exists out, fst (protect Strat texts ((w, s), k)) = Ok out /\ counted out (dc + dc') dn.
Proof.
  intros H1 Ha H2 Hf. exists (map _encode_for_wire (rows ++ [row])). split.
  - unfold protect. by rewrite (bind_Ok _ _ _ _ _ (stream_rows_run _ _ _ _ _ _ _ H1 H2)).
  - apply adds_counted. rewrite map_app. replace dn with (dn + (0 + 0)) by lia.
    apply adds_app; [exact Ha|]. replace dc' with (dc' + 0) by lia.
    apply adds_cons; [exact Hf|apply adds_nil].
Qed.

Lemma buffered_counts texts w :
  exists rows out sgs σ, stream_rows BufferAndSign texts ((w, s), new_buffer_and_sign hid key) = (Ok rows, σ)
    /\ fst (protect BufferAndSign texts ((w, s), new_buffer_and_sign hid key)) = Ok out
    /\ counted out (text_bytes texts + 28) 0 /\ shows rows sgs /\ length sgs = 1%nat.
Proof.
  destruct (buffer_final_adds (py_len texts) ([] ++ texts_bytes texts) w)
    as (row & w' & Hf & Ha & sg & Hsg).
  destruct (protect_runs BufferAndSign _ _ _ _ _ _ _ _ _ _ _ _
              (send_buffered texts 0 [] w) adds_nil Hf Ha) as (out & Hout & Hc).
  eexists _, out, [sg], _. split_and!.
  - exact (stream_rows_run _ _ _ _ _ _ _ (send_buffered texts 0 [] w) Hf).
  - exact Hout.
  - rewrite text_bytes_length. exact Hc.
  - exact Hsg.
  - done.
Qed.

(** A strategy with a record per chunk, then a signed terminal record. *)
Lemma chunked_counts {K} (Strat : StreamSigningStrategy (S := T) K) Inv
    (Hadd : per_chunk_rows Strat Inv) k0 texts w
    (Hinv : Inv 0%nat [] k0) (Hn : Z.of_nat (length texts) < 2 ^ 32)
    (Hfinal : forall sgs k w, Inv (length texts) sgs k -> exists row w',
       finalize (py_len texts) ((w, s), k) = (Ok (Some row), ((w', s), k))
       /\ adds (_encode_for_wire row) 0 0 /\ exists sg, shows [row] [sg]) :
  exists rows out sgs sg k σ, stream_rows Strat texts ((w, s), k0) = (Ok rows, σ)
    /\ fst (protect Strat texts ((w, s), k0)) = Ok out
    /\ counted out (text_bytes texts + 28 * py_len texts) (py_len texts)
    /\ shows rows (sgs ++ [sg]) /\ Inv (length texts) sgs k.
Proof.
  destruct (send_per_chunk Strat Inv Hadd texts 0 [] k0 w Hinv)
    as (rows & w1 & k1 & new & H1 & Hk & Hs & Ha); [lia|].
  destruct (Hfinal _ _ w1 Hk) as (row & w2 & Hf & Haf & sg & Hsg).
  destruct (protect_runs Strat _ _ _ _ _ _ _ _ _ _ _ _ H1 Ha Hf Haf) as (out & Hout & Hc).
  eexists _, out, new, sg, k1, _. split_and!.
  - exact (stream_rows_run _ _ _ _ _ _ _ H1 Hf).
  - exact Hout.
  - by rewrite Z.add_0_r in Hc.
  - by apply shows_app.
  - exact Hk.
Qed.

Lemma per_chunk_counts texts w :
  Z.of_nat (length texts) < 2 ^ 32 ->
  exists rows out sgs σ, stream_rows PerChunk texts ((w, s), new_per_chunk hid key) = (Ok rows, σ)
    /\ fst (protect PerChunk texts ((w, s), new_per_chunk hid key)) = Ok out
    /\ counted out (text_bytes texts + 28 * py_len texts) (py_len texts)
    /\ shows rows sgs /\ Z.of_nat (length sgs) = py_len texts + 1.
Proof.
  intros Hn.
  destruct (chunked_counts PerChunk (fun i sgs k => k = new_per_chunk hid key /\ length sgs = i)
              per_chunk_step (new_per_chunk hid key) texts w)
    as (rows & out & sgs & sg & k & σ & Hr & Ho & Hc & Hs & _ & Hl); [done|done| |].
  - intros sgs k w1 [-> _]. by apply per_chunk_final_adds.
  - eexists rows, out, _, σ. split_and!; [exact Hr|exact Ho|exact Hc|exact Hs|].
    rewrite length_app. unfold py_len. simpl. lia.
Qed.

Lemma hash_chain_counts texts interval w :
  Z.of_nat (length texts) < 2 ^ 32 ->
  let k0 := new_hash_chain hid key (interval_val interval) in
  exists rows out sgs σ, stream_rows HashChain texts ((w, s), k0) = (Ok rows, σ)
    /\ fst (protect HashChain texts ((w, s), k0)) = Ok out
    /\ counted out (text_bytes texts + 28 * py_len texts) (py_len texts)
    /\ shows rows sgs /\ Z.of_nat (length sgs) = due_count interval (py_len texts) + 1.
Proof.
  intros Hn k0.
  destruct (chunked_counts HashChain (chain_inv interval) (chain_step interval) k0 texts w)
    as (rows & out & sgs & sg & k & σ & Hr & Ho & Hc & Hs & _ & _ & _ & _ & Hl); [|done| |].
  - eexists _, 0. split; [reflexivity|]. unfold sched, due_count.
    destruct interval as [z|]; simpl; [|by split]. split.
    + split; [lia|]. intros. by rewrite Z.mod_0_l by lia.
    + destruct (Z.eqb_spec z 0); [done|]. destruct (z <? 0); [done|]. by rewrite Z.div_0_l.
  - intros sgs k w1 (h & since & -> & _). apply hash_chain_final_adds; [eauto|done].
  - eexists rows, out, _, σ. split_and!; [exact Hr|exact Ho|exact Hc|exact Hs|].
    rewrite length_app. unfold py_len in *. simpl. lia.
Qed.

(** What a passive adversary stores of one text under the three strategies
    differs only by the envelopes: the experiment's predicted delta, 28 bytes
    per envelope beyond the first, is exactly the measured one for [per_chunk]
    and [hash_chain] (any checkpoint interval), for every configuration and
    every text of fewer than 2^32 chunks. *)
Theorem harvest_overhead (texts : list string) (interval : option Z) (w1 w2 w3 : world)
    (Hn : Z.of_nat (length texts) < 2 ^ 32) :
  exists rb rp rh,
    fst (protect BufferAndSign texts ((w1, s), new_buffer_and_sign hid key)) = Ok rb
    /\ fst (protect PerChunk texts ((w2, s), new_per_chunk hid key)) = Ok rp
    /\ fst (protect HashChain texts ((w3, s), new_hash_chain hid key (interval_val interval))) = Ok rh
    /\ let d := (Z.of_nat (length texts) - 1) * 28 in
       expected_deltas [("buffer_and_sign", harvest_of rb); ("per_chunk", harvest_of rp);
                        ("hash_chain", harvest_of rh)]
       = [("per_chunk", d); ("per_chunk_actual_delta", d);
          ("hash_chain", d); ("hash_chain_actual_delta", d)].
Proof.
  destruct (buffered_counts texts w1) as (_ & rb & _ & _ & _ & Hb & (Cb & _ & Eb) & _).
  destruct (per_chunk_counts texts w2 Hn) as (_ & rp & _ & _ & _ & Hp & (Cp & Np & Ep) & _).
  destruct (hash_chain_counts texts interval w3 Hn) as (_ & rh & _ & _ & _ & Hh & (Ch & Nh & Eh) & _).
  exists rb, rp, rh. split_and!; [done..|]. cbv zeta.
  unfold expected_deltas, harvested. cbn [List.filter snd]. rewrite Eb, Ep, Eh.
  cbn [dget String.eqb Ascii.eqb Bool.eqb flat_map app String.append].
  rewrite Cb, Cp, Ch, Np, Nh. unfold py_len, overhead_per_extra_envelope.
  change (Z.of_nat GCM_NONCE_BYTES + 16) with 28. repeat f_equal; lia.
Qed.
End Send.
