(* ===== verification/TradeoffProps.v ===== *)
(** * What the scores mean

    A failing configuration stays in the matrix while its baseline works, the
    confidentiality check compares one constant table with another, and the
    streaming score stays on the scale of the security scores. *)
From Stdlib Require Import Lqa.
From stdpp Require Import sorting.
From S2P Require Import Prelude PyBytes PyVal PyList PyNum Instrumentation Aggregate.
From S2P Require Import Tradeoff Replay Hndl.

(** ** The matrix *)
Section Matrix.
Context {A : Type}.
Variables (config_of : A -> string) (scale_of : A -> Z) (metric_of : A -> option Q) (err_of : A -> bool).
Variables (df : list A) (w_sec w_perf : Q) (baseline : string) (scores : list (string * option Q)).

Definition ok_rows : list A := List.filter (fun r => negb (err_of r)) df.
Definition matrix : list matrix_row :=
  build_matrix_at config_of scale_of metric_of err_of df w_sec w_perf (Some baseline) (Some scores).

(** Attempted, and answered at least once. *)
Definition attempted (config : string) (scale : Z) : Prop := at_cell config_of scale_of config scale df <> [].
Definition succeeded (config : string) (scale : Z) : Prop := at_cell config_of scale_of config scale ok_rows <> [].

Lemma elem_concat_map {B C} (f : B -> list C) l c :
  c ∈ concat (map f l) <-> exists b, b ∈ l /\ c ∈ f b.
Proof.
  rewrite list_elem_of_In, in_concat. split.
  - intros (ys & Hys & Hc). apply in_map_iff in Hys as (b & <- & Hb). exists b.
    by rewrite !list_elem_of_In.
  - intros (b & Hb & Hc). exists (f b). rewrite in_map_iff. split.
    + exists b. by rewrite <- list_elem_of_In.
    + by apply list_elem_of_In.
Qed.

Lemma median_at_Some config scale :
  is_Some (median_at config_of scale_of metric_of ok_rows config scale) <-> succeeded config scale.
Proof.
  unfold median_at, succeeded. destruct (at_cell _ _ _ _ _); split; [by intros []|done|done|by eexists].
Qed.
Lemma error_rate_at_Some config scale :
  is_Some (error_rate_at config_of scale_of err_of df config scale) <-> attempted config scale.
Proof.
  unfold error_rate_at, attempted. destruct (at_cell _ _ _ _ _); split; [by intros []|done|done|by eexists].
Qed.

Lemma at_cell_ok config scale :
  at_cell config_of scale_of config scale ok_rows
  = List.filter (fun r => negb (err_of r)) (at_cell config_of scale_of config scale df).
Proof.
  unfold at_cell, ok_rows. induction df as [|r l IH]; simpl; [done|].
  destruct (err_of r) eqn:He, (String.eqb (config_of r) config && (scale_of r =? scale)) eqn:Hc;
    simpl; rewrite ?He, ?Hc; simpl; by rewrite IH.
Qed.

Lemma error_rate_range config scale rate :
  error_rate_at config_of scale_of err_of df config scale = Some rate ->
  (0 <= rate <= 1)%Q /\ (~ succeeded config scale -> rate == 1)%Q.
Proof.
  unfold error_rate_at, succeeded. rewrite at_cell_ok.
  destruct (at_cell config_of scale_of config scale df) as [|r0 l] eqn:Hg; [done|].
  intros Heq. apply (inj Some) in Heq as <-.
  pose proof (filter_split_length err_of (r0 :: l)) as Hs.
  set (bad := List.filter err_of (r0 :: l)) in *.
  set (good := List.filter (fun r => negb (err_of r)) (r0 :: l)) in *.
  assert (0 < py_len (r0 :: l)) by (unfold py_len; simpl; lia).
  assert (0 <= py_len bad) by (unfold py_len; lia). assert (0 <= py_len good) by (unfold py_len; lia).
  split. { apply share_range. 1: { lia. } lia. } intros Hn.
  assert (py_len good = 0) as Hz.
  { destruct good as [|g gs]; [done|]. exfalso. by apply Hn. }
  replace (py_len bad) with (py_len (r0 :: l)) by lia. by apply share_all.
Qed.

(** What a row of the matrix says. *)
Definition row_faithful (m : matrix_row) : Prop :=
  (mx_config m, Some (mx_security_score m)) ∈ scores
  /\ attempted (mx_config m) (mx_scale m) /\ succeeded baseline (mx_scale m)
  /\ mx_baseline_config m = baseline
  /\ (mx_available m = true <-> succeeded (mx_config m) (mx_scale m))
  /\ (0 <= mx_error_rate m <= 1)%Q
  /\ (mx_available m = false -> (mx_error_rate m == 1)%Q /\ mx_composite m = None /\ mx_median m = None)
  /\ (forall b, mx_config m = baseline -> mx_baseline_median m = XFin b -> (0 < b)%Q ->
      exists q, mx_composite m = Some (XFin q) /\ (q == w_sec * mx_security_score m)%Q).

Lemma scored_configs_elem config s :
  (config, s) ∈ scored_configs config_of scores df
  <-> (config, Some s) ∈ scores /\ exists r, r ∈ df /\ config_of r = config.
Proof.
  unfold scored_configs. rewrite list_elem_of_omap. split.
  - intros ([c [s'|]] & Hin & Hf); simpl in Hf; [|done].
    destruct (existsb _ _) eqn:He; [|done]. injection Hf as -> ->. split; [done|].
    apply existsb_exists in He as (x & Hx & ->%String.eqb_eq).
    apply in_map_iff in Hx as (r & Hr & Hd). exists r. by rewrite list_elem_of_In.
  - intros (Hin & r & Hr & <-). exists (config_of r, Some s). split; [done|]. simpl.
    rewrite (proj2 (existsb_exists _ _)); [done|]. exists (config_of r).
    split; [|apply String.eqb_refl]. apply in_map. by apply list_elem_of_In.
Qed.

Lemma at_cell_elem config scale rows r :
  r ∈ at_cell config_of scale_of config scale rows
  <-> r ∈ rows /\ config_of r = config /\ scale_of r = scale.
Proof.
  unfold at_cell. rewrite list_elem_of_In, filter_In, andb_true_iff, String.eqb_eq, Z.eqb_eq.
  by rewrite <- list_elem_of_In.
Qed.

Lemma nonempty_elem {B} (l : list B) : l <> [] <-> exists x, x ∈ l.
Proof.
  destruct l as [|x l]; split; try done.
  - by intros (x & ?%elem_of_nil).
  - intros _. exists x. left.
Qed.

Lemma matrix_elem m :
  m ∈ matrix <-> exists scale b config s,
    succeeded baseline scale /\ median_at config_of scale_of metric_of ok_rows baseline scale = Some b
    /\ (config, s) ∈ scored_configs config_of scores df
    /\ m ∈ matrix_entry config_of scale_of metric_of err_of df ok_rows w_sec w_perf baseline scale b (config, s).
Proof.
  unfold matrix, build_matrix_at. fold ok_rows. cbn [resolve_baseline_config].
  rewrite elem_concat_map. split.
  - intros (scale & _ & Hm).
    destruct (median_at config_of scale_of metric_of ok_rows baseline scale) as [b|] eqn:Hb;
      [|by apply elem_of_nil in Hm].
    apply elem_concat_map in Hm as ([config s] & Hcs & Hm). exists scale, b, config, s.
    split_and!; try done. apply median_at_Some. by eexists.
  - intros (scale & b & config & s & Hs & Hb & Hcs & Hm). exists scale. split.
    + rewrite merge_sort_Permutation, elem_of_remove_dups.
      apply nonempty_elem in Hs as (r & (Hr & _ & <-)%at_cell_elem).
      apply list_elem_of_In, in_map. by apply list_elem_of_In.
    + rewrite Hb. apply elem_concat_map. by exists (config, s).
Qed.

Lemma matrix_entry_faithful scale b config s m :
  succeeded baseline scale -> median_at config_of scale_of metric_of ok_rows baseline scale = Some b ->
  (config, s) ∈ scored_configs config_of scores df ->
  m ∈ matrix_entry config_of scale_of metric_of err_of df ok_rows w_sec w_perf baseline scale b (config, s) ->
  mx_config m = config /\ mx_scale m = scale /\ row_faithful m.
Proof.
  intros Hs Hb [Hsc _]%scored_configs_elem. unfold matrix_entry.
  destruct (error_rate_at _ _ _ _ config scale) as [rate|] eqn:Hr; [|by intros ?%elem_of_nil].
  assert (attempted config scale) as Ha by (apply error_rate_at_Some; by eexists).
  destruct (error_rate_range _ _ _ Hr) as [[Hlo Hhi] Hone].
  destruct (median_at _ _ _ _ config scale) as [v|] eqn:Hv; intros ->%list_elem_of_singleton.
  - assert (succeeded config scale) as Hok by (apply median_at_Some; by eexists).
    split; [done|]. split; [done|]. unfold row_faithful; simpl. split_and!; try done.
    intros q -> [= ->] Hq. rewrite Hb in Hv. injection Hv as <-. unfold overhead_of. simpl.
    assert (Qltb 0 q = true) as ->.
    { unfold Qltb. destruct (Qle_bool q 0) eqn:Hc; [|done]. apply Qle_bool_iff in Hc.
      by apply (Qlt_not_le _ _ Hq) in Hc. }
    simpl. eexists. split; [reflexivity|]. unfold Qdiv. ring.
  - assert (~ succeeded config scale) as Hno.
    { intros [x Hx]%median_at_Some. congruence. }
    split; [done|]. split; [done|]. unfold row_faithful; simpl. split_and!; try done.
    + by intros _; split_and!; [apply Hone| |].
    + intros q -> [= ->] Hq. congruence.
Qed.

(** A configuration that fails does not vanish from the matrix -- as long as
    the baseline works there.  Every row of the matrix is about a scored
    configuration that was attempted at that scale, marked available exactly
    when a request of it succeeded, and otherwise with error rate 1 and no
    score; the baseline's own row scores its security alone.  Every scored
    configuration attempted at a scale where the baseline succeeded has a row.
    But where the baseline has no successful request, no configuration has
    one, failing or not. *)
Theorem matrix_keeps_failed_configs :
  Forall row_faithful matrix
  /\ (forall config s scale, (config, Some s) ∈ scores -> attempted config scale ->
      succeeded baseline scale ->
      exists m, m ∈ matrix /\ mx_config m = config /\ mx_scale m = scale /\ mx_security_score m = s)
  /\ (forall scale, ~ succeeded baseline scale -> ~ exists m, m ∈ matrix /\ mx_scale m = scale).
Proof.
  split_and!.
  - apply Forall_forall. intros m (scale & b & config & s & Hs & Hb & Hc & Hm)%matrix_elem.
    by apply (matrix_entry_faithful scale b config s).
  - intros config s scale Hsc Ha Hs. pose proof (proj2 (median_at_Some baseline scale) Hs) as [b Hb].
    pose proof (proj2 (error_rate_at_Some config scale) Ha) as [rate Hr].
    assert ((config, s) ∈ scored_configs config_of scores df) as Hcs.
    { apply scored_configs_elem. split; [done|].
      apply nonempty_elem in Ha as (r & (Hr1 & Hr2 & _)%at_cell_elem). by exists r. }
    assert (exists m, m ∈ matrix_entry config_of scale_of metric_of err_of df ok_rows w_sec w_perf
                            baseline scale b (config, s) /\ mx_security_score m = s) as (m & Hm & Hms).
    { unfold matrix_entry. rewrite Hr. destruct (median_at _ _ _ _ config scale);
        (eexists; split; [apply list_elem_of_singleton; reflexivity|done]). }
    destruct (matrix_entry_faithful scale b config s m Hs Hb Hcs Hm) as (H1 & H2 & _).
    exists m. split_and!; try done. apply matrix_elem. by exists scale, b, config, s.
  - intros scale Hno (m & (sc & b & config & s & Hs & Hb & Hc & Hm)%matrix_elem & Hms).
    destruct (matrix_entry_faithful sc b config s m Hs Hb Hc Hm) as (_ & H2 & _). apply Hno. by rewrite <- Hms, H2.
Qed.
End Matrix.

(** ** The confidentiality check *)

(** The configurations no summary is about. *)
Definition unseen (seen : list string) : list string :=
  List.filter (fun c => negb (existsb (String.eqb c) seen)) (keys EXPECTED_KEX_DECRYPTABLE).
Definition missing_warning (seen : list string) : list kex_warning :=
  match unseen seen with [] => [] | l => [MissingConfigs (merge_sort str_le l)] end.

(** The two tables are the same table. *)
Lemma tables_agree config expected :
  dget config EXPECTED_KEX_DECRYPTABLE = Some expected ->
  kex_decryptable config = VBool expected.
Proof.
  intros H%dget_Some_in. unfold EXPECTED_KEX_DECRYPTABLE in H.
  repeat (apply elem_of_cons in H as [[= -> ->]|H]; [reflexivity|]). by apply elem_of_nil in H.
Qed.

Lemma check_capture_summaries captures seen :
  exists seen', check_summaries (map (fun cr => hndl_summary (snd cr) (fst cr)) captures) seen
                = Ok ([], seen')
    /\ forall c, c ∈ keys EXPECTED_KEX_DECRYPTABLE -> c ∈ seen' <-> c ∈ seen \/ c ∈ map fst captures.
Proof.
  revert seen; induction captures as [|[config rows] captures IH]; intros seen.
  { exists seen. split; [done|]. intros c _. simpl. rewrite elem_of_nil. tauto. }
  cbn [map check_summaries fst snd].
  change (dget_or "config" VNone (hndl_summary rows config)) with (VStr config). cbv iota.
  change (dget_or "kex_decryptable_under_future_crqc" VNone (hndl_summary rows config))
    with (kex_decryptable config).
  destruct (dget config EXPECTED_KEX_DECRYPTABLE) as [expected|] eqn:He.
  - rewrite (tables_agree _ _ He). destruct (IH (config :: seen)) as (seen' & -> & Hs). exists seen'.
    split; [by destruct expected|]. intros c Hc. rewrite (Hs c Hc), !elem_of_cons. tauto.
  - destruct (IH seen) as (seen' & -> & Hs). exists seen'. split; [done|]. intros c Hc.
    rewrite (Hs c Hc), elem_of_cons. split; [tauto|]. intros [H|[->|H]]; [tauto| |tauto].
    by apply dget_None_keys in He.
Qed.

Lemma unseen_ext seen seen' :
  (forall c, c ∈ keys EXPECTED_KEX_DECRYPTABLE -> c ∈ seen <-> c ∈ seen') -> unseen seen = unseen seen'.
Proof.
  intros H. unfold unseen. apply List.filter_ext_in. intros c Hc%list_elem_of_In. f_equal.
  apply eq_true_iff_eq. rewrite !existsb_exists. specialize (H c Hc).
  rewrite !list_elem_of_In in H. split; intros (x & Hx & ->%String.eqb_eq); exists x;
    (split; [by apply H|apply String.eqb_refl]).
Qed.

(** The confidentiality check cannot fail: whatever was captured, the
    summaries of the harvest experiment never produce a mismatch warning, only
    the list of the configurations without a summary -- the flag it calls
    measured is a constant of the experiment, equal to the one it is compared
    with. *)
Theorem confidentiality_check_is_constant (captures : list (string * list dict)) :
  validate_confidentiality_axis (map (fun cr => hndl_summary (snd cr) (fst cr)) captures)
  = Ok (missing_warning (map fst captures)).
Proof.
  unfold validate_confidentiality_axis.
  destruct (check_capture_summaries captures []) as (seen & -> & Hs). cbn [rbind fst snd].
  fold (unseen seen). rewrite (unseen_ext seen (map fst captures)); [unfold missing_warning; by destruct (unseen (map fst captures))|].
  intros c Hc. rewrite (Hs c Hc), elem_of_nil. tauto.
Qed.

(** ** The streaming security score *)
Lemma fractions_of_range summaries config strategy qs :
  Forall (fun s => forall q, dget "fraction_delivered_before_detection_mean" s = Some (VFloat q) ->
                             (0 <= q <= 1)%Q) summaries ->
  Forall (fun s => match dget "fraction_delivered_before_detection_mean" s with
                   | None | Some VNone | Some (VFloat _) => True | _ => False end) summaries ->
  fractions_of summaries config strategy = Ok qs -> Forall (fun q => 0 <= q <= 1)%Q qs.
Proof.
  intros H1 H2. revert qs. induction summaries as [|s l IH]; intros qs; simpl.
  { intros [= <-]. constructor. }
  apply Forall_cons_1 in H1 as [Hs1 H1]. apply Forall_cons_1 in H2 as [Hs2 H2].
  specialize (IH H1 H2). destruct (_ && _); [|apply IH]. unfold dget_or.
  destruct (dget "fraction_delivered_before_detection_mean" s) as [[]|]; try done; try apply IH.
  cbn [as_num rbind]. destruct (fractions_of l config strategy) as [qs'|]; [|done].
  intros [= <-]. constructor; [by apply Hs1|by apply IH].
Qed.

Lemma security_scores_range config s :
  dget config SECURITY_SCORES = Some (Some s) -> (0 <= s <= 1)%Q.
Proof.
  intros H%dget_Some_in. unfold SECURITY_SCORES in H.
  repeat (apply elem_of_cons in H as [H|H]; [simplify_eq; by split|]). by apply elem_of_nil in H.
Qed.

Lemma blend_range share a b :
  (0 <= share <= 1)%Q -> (0 <= a <= 1)%Q -> (0 <= b <= 1)%Q ->
  (0 <= (1 - share) * a + share * b <= 1)%Q.
Proof. intros. split; nra. Qed.

(** The blended score stays between 0 and 1 when the measured fractions do,
    and with share 0 it is the configuration's own score. *)
Theorem streaming_score_range (config strategy : string) (summaries : list dict) (share : Q)
    (r : option Q)
    (Hshare : (0 <= share <= 1)%Q)
    (Hfrac : Forall (fun s => forall q, dget "fraction_delivered_before_detection_mean" s
                                        = Some (VFloat q) -> (0 <= q <= 1)%Q) summaries)
    (Hkind : Forall (fun s => match dget "fraction_delivered_before_detection_mean" s with
                              | None | Some VNone | Some (VFloat _) => True | _ => False end) summaries)
    (Hr : streaming_security_score config strategy summaries share = Ok r) :
  match r with
  | Some q => (0 <= q <= 1)%Q /\ exists s, dget config SECURITY_SCORES = Some (Some s)
                                      /\ ((share == 0)%Q -> (q == s)%Q)
  | None => (forall s, dget config SECURITY_SCORES <> Some (Some s))
            \/ fractions_of summaries config strategy = Ok []
  end.
Proof.
  unfold streaming_security_score in Hr.
  destruct (dget config SECURITY_SCORES) as [[s|]|] eqn:Hs;
    [|by injection Hr as <-; left; intros ? [=]..].
  pose proof (security_scores_range _ _ Hs) as Hsr. unfold sequence_integrity_resistance in Hr.
  destruct (String.eqb strategy "buffer_and_sign").
  { simpl in Hr. injection Hr as <-. split; [by apply blend_range|]. exists s. split; [done|].
    intros ->. ring. }
  destruct (fractions_of summaries config strategy) as [fs|e] eqn:Hf; [|done].
  pose proof (fractions_of_range _ _ _ _ Hfrac Hkind Hf) as Hfs.
  destruct fs as [|f fs]; simpl in Hr; injection Hr as <-; [by right|].
  assert (0 <= Qmean (f :: fs) <= 1)%Q as Hm by (by apply Qmean_bounds).
  split; [apply blend_range; [done..|]; lra|]. exists s. split; [done|]. intros ->. ring.
Qed.
