(* ===== verification/SignatureModelProps.v ===== *)
(** * The cost model against the streaming strategies

    The signatures the model predicts are the signatures the strategies make,
    so the row of an honest run is inside the predicted bounds; and the report
    partitions the validated rows. *)
From stdpp Require Import gmap sorting.
From S2P Require Import Prelude PyBytes PyVal World PyList PyNum Base Configs SignatureModel.
From S2P Require Import ConfigsLaws Streaming SecureApp StreamingHonest Hndl HndlProps.

(** ** Signature counts *)
Lemma model_count_hash_chain interval n :
  match interval with Some k => 0 <= k | None => True end ->
  expected_signature_count "hash_chain" n interval (Some "v2") = Ok (due_count interval n + 1).
Proof.
  unfold expected_signature_count, due_count. cbn [String.eqb Ascii.eqb Bool.eqb].
  destruct interval as [k|]; [|done]. intros Hk.
  destruct (Z.eqb_spec k 0) as [|Hk0]; [done|]. simpl.
  rewrite (proj2 (Z.leb_gt _ _)), (proj2 (Z.ltb_ge _ _)) by lia. done.
Qed.

Section Counts.
Context {E : Env} {P : Prims} {EL : EnvLaws E} {PL : PrimLaws P} {J : Json}.
Context {T : Type} {Srv : ServerCryptoConfig T} {Cli : ClientCryptoConfig}
        {L : ConfigLaws Srv Cli}.
Variables (s : T) (hid : string) (kpk spk key : bytes).
Hypothesis Hlive : live s hid kpk spk.
Hypothesis Hkey : length key = 32%nat.

(** The records a strategy sends for a text, by its name, and the chunks a
    client counts of them. *)
Inductive emits (w : world) (texts : list string) : string -> option Z -> Z -> list dict -> Prop :=
  | emits_buffer rows σ interval :
      stream_rows BufferAndSign texts ((w, s), new_buffer_and_sign hid key) = (Ok rows, σ) ->
      emits w texts "buffer_and_sign" interval 0 rows
  | emits_per_chunk rows σ interval :
      stream_rows PerChunk texts ((w, s), new_per_chunk hid key) = (Ok rows, σ) ->
      emits w texts "per_chunk" interval (py_len texts) rows
  | emits_hash_chain rows σ interval :
      stream_rows HashChain texts ((w, s), new_hash_chain hid key (interval_val interval)) = (Ok rows, σ) ->
      emits w texts "hash_chain" interval (py_len texts) rows.

Lemma emits_shows w texts strategy interval n rows :
  Z.of_nat (length texts) < 2 ^ 32 -> emits w texts strategy interval n rows ->
  exists sgs, shows rows sgs
    /\ (match interval with Some k => strategy = "hash_chain" -> 0 <= k | None => True end ->
        expected_signature_count strategy n interval (Some "v2") = Ok (Z.of_nat (length sgs)))
    /\ (forall k, interval = Some k -> k < 0 -> strategy = "hash_chain" ->
        Z.of_nat (length sgs) = n + 1).
Proof.
  intros Hn [rows' σ i Hr|rows' σ i Hr|rows' σ i Hr].
  - destruct (buffered_counts s hid kpk spk key Hlive Hkey texts w)
      as (r & _ & sgs & σ' & Hr' & _ & _ & Hs & Hl).
    rewrite Hr in Hr'. injection Hr' as <- _. exists sgs. rewrite Hl. done.
  - destruct (per_chunk_counts s hid kpk spk key Hlive Hkey texts w Hn)
      as (r & _ & sgs & σ' & Hr' & _ & _ & Hs & Hl).
    rewrite Hr in Hr'. injection Hr' as <- _. exists sgs. rewrite Hl. split_and!; [done| |done].
    intros _. unfold expected_signature_count. cbn. f_equal. unfold py_len. lia.
  - destruct (hash_chain_counts s hid kpk spk key Hlive Hkey texts i w Hn)
      as (r & _ & sgs & σ' & Hr' & _ & _ & Hs & Hl).
    rewrite Hr in Hr'. injection Hr' as <- _. exists sgs. rewrite Hl. split_and!; [done| |].
    + intros Hi. apply model_count_hash_chain. destruct i; [by apply Hi|done].
    + intros k -> Hneg _. unfold due_count. destruct (Z.eqb_spec k 0); [lia|].
      by rewrite (proj2 (Z.ltb_lt _ _)) by lia.
Qed.

End Counts.

(** ** A benchmark row of an honest run *)

(** What an encoding allows for one signature. *)
Definition scheme_length (alg : string) (sg : bytes) : Prop :=
  let n := Z.of_nat (length sg) in
  (alg = "ML-DSA-65" /\ n = ML_DSA_65_SIGNATURE_BYTES)
  \/ (alg = "ECDSA-P256-SHA256" /\ ECDSA_P256_DER_MIN_BYTES <= n <= ECDSA_P256_DER_MAX_BYTES).

Lemma total_length_bounds lo hi sgs :
  Forall (fun s : bytes => lo <= Z.of_nat (length s) <= hi) sgs ->
  Z.of_nat (length sgs) * lo <= total_length sgs <= Z.of_nat (length sgs) * hi.
Proof.
  induction 1 as [|s sgs Hs _ IH]; unfold total_length in *; [by split|].
  cbn [length map]. rewrite Zsum_cons, Nat2Z.inj_succ. lia.
Qed.

Lemma scheme_total alg sgs :
  Forall (scheme_length alg) sgs -> sgs <> [] ->
  exists lo hi, expected_signature_bytes alg (Z.of_nat (length sgs)) = Ok (lo, hi)
    /\ lo <= total_length sgs <= hi.
Proof.
  intros H Hne. assert (exists lo hi, Forall (fun s : bytes => lo <= Z.of_nat (length s) <= hi) sgs
    /\ expected_signature_bytes alg (Z.of_nat (length sgs))
       = Ok (Z.of_nat (length sgs) * lo, Z.of_nat (length sgs) * hi)) as (lo & hi & Hf & He).
  { destruct sgs as [|s sgs]; [done|]. inversion H as [|? ? [[-> _]|[-> _]] _]; subst.
    - exists 3309, 3309. split; [|done]. eapply Forall_impl; [exact H|].
      intros x [[_ Hx]|[? _]]; [unfold ML_DSA_65_SIGNATURE_BYTES in Hx; lia|done].
    - exists 70, 72. split; [|done]. eapply Forall_impl; [exact H|].
      intros x [[? _]|[_ Hx]]; [done|exact Hx]. }
  eexists _, _. split; [exact He|]. by apply total_length_bounds.
Qed.

(** The columns of a row of [bench/streaming_runner.py] the checks read. *)
Definition benchmark_row (config strategy : string) (n : Z) (interval : option Z)
    (signature_bytes : Z) (signing_ms : Q) : csv_row :=
  [("config", Cell (VStr config)); ("strategy", Cell (VStr strategy)); ("n_chunks", Cell (VInt n));
   ("total_signature_bytes", Cell (VInt signature_bytes));
   ("total_signing_ms", Cell (VFloat signing_ms));
   ("checkpoint_interval", match interval with Some k => Cell (VInt k) | None => NaN end);
   ("protocol_version", Cell (VStr PROTOCOL_VERSION)); ("error", NaN)].

Lemma checkpoint_of_benchmark config strategy n interval b ms :
  checkpoint_of (benchmark_row config strategy n interval b ms) = Ok interval.
Proof. by destruct interval. Qed.

Lemma within_total tol r : ~ (tol == 0)%Q -> exists b, within tol r = Ok b.
Proof.
  intros Ht. unfold within, float_div. destruct (Qeq_bool tol 0) eqn:Hz; [|simpl; eauto].
  by apply Qeq_bool_iff in Hz.
Qed.

Lemma timing_check_total ms p tol : ~ (tol == 0)%Q -> exists x, timing_check ms p tol = Ok x.
Proof.
  intros Ht. unfold timing_check. destruct (Qgtb p 0); [|simpl; eauto].
  destruct (within_total tol (xdiv ms p) Ht) as [b ->]. simpl. eauto.
Qed.

(** A cold-start tolerance is at least 1.5. *)
Lemma cold_check_total alg bench c ms n :
  cold_start_ms_and_tolerance alg bench = Ok c -> exists x, cold_check ms n c = Ok x.
Proof.
  unfold cold_check. destruct c as [[m tol]|]; [|eauto].
  unfold cold_start_ms_and_tolerance. intros H.
  assert (~ (tol == 0)%Q) as Ht.
  { destruct (negb (truthy _)); [done|].
    repeat match goal with
           | Hx : rbind ?x _ = Ok _ |- _ => destruct x as [?|] eqn:?; cbn [rbind] in Hx; [|done]
           | Hx : (if negb ?b then Ok None else _) = Ok (Some _) |- _ => destruct b; cbn [negb] in Hx; [|done]
           end.
    injection H as _ <-. unfold Qltb. destruct (Qle_bool _ (3 # 2)) eqn:Hle; simpl; [done|].
    intros Hz. apply not_true_iff_false in Hle. apply Hle, Qle_bool_iff. rewrite Hz.
    by apply Qle_bool_iff. }
  destruct (within_total tol (if Qgtb (inject_Z n * m) 0 then xdiv ms (inject_Z n * m) else XInf) Ht)
    as [b Hb]. cbv zeta. rewrite Hb. simpl. eauto.
Qed.

(** An honest run passes the byte check: the row of a run whose signatures
    have the lengths its scheme's encoding allows -- 3,309 bytes for ML-DSA-65,
    70 to 72 for ECDSA-P256 -- validates, with as many expected signatures as
    the strategy made and its byte total within the predicted bounds, for any
    benchmark file that has the scheme's warm and cold measurements. *)
Theorem honest_row_bytes_ok {E : Env} {P : Prims} {EL : EnvLaws E} {PL : PrimLaws P} {J : Json}
    (name : string) (c : config) (L : ConfigLaws (cfg_server c) (cfg_client c)) (s : cfg_state c)
    (hid : string) (kpk spk key : bytes) (w : world) (texts : list string) (strategy : string)
    (interval : option Z) (n : Z) (rows : list dict) (bench : dict) (signing_ms mean tol : Q)
    (cold : option (Q * Q))
    (Hc : get_server_crypto name = Ok c) (Hlive : live (ConfigLaws := L) s hid kpk spk)
    (Hkey : length key = 32%nat) (Hn : Z.of_nat (length texts) < 2 ^ 32)
    (Hrows : emits (Srv := cfg_server c) s hid key w texts strategy interval n rows)
    (Hinterval : match interval with Some k => 0 <= k | None => True end)
    (Hlen : Forall (scheme_length (sig_algorithm (ServerCryptoConfig := cfg_server c)))
              (row_signatures rows))
    (Hmean : mean_sign_us_and_tolerance (sig_algorithm (ServerCryptoConfig := cfg_server c)) bench
             = Ok (mean, tol)) (Htol : ~ (tol == 0)%Q)
    (Hcold : cold_start_ms_and_tolerance (sig_algorithm (ServerCryptoConfig := cfg_server c)) bench
             = Ok cold) :
  exists v, validate_row (benchmark_row name strategy n interval (recorded_bytes rows) signing_ms)
              bench = Ok v
    /\ va_expected_signatures v = Z.of_nat (length (row_signatures rows))
    /\ va_measured_bytes v = total_length (row_signatures rows)
    /\ va_bytes_ok v = true.
Proof.
  destruct (emits_shows (L := L) s hid kpk spk key Hlive Hkey w texts strategy interval
              n rows Hn Hrows) as (sgs & [Hsg Hb] & Hcount & _).
  rewrite Hsg in *. specialize (Hcount ltac:(by destruct interval)).
  assert (sgs <> []) as Hne.
  { intros ->. revert Hcount. unfold expected_signature_count.
    destruct Hrows; cbn [String.eqb Ascii.eqb Bool.eqb]; [done| |].
    - unfold py_len. intros [= Hz]. revert Hz. simpl. lia.
    - destruct interval as [k|]; [|done]. destruct (_ || _) eqn:Hk; [done|]. intros [= Hz].
      apply orb_false_iff in Hk as [_ Hk%Z.leb_gt].
      pose proof (Z.div_pos (py_len texts) k ltac:(unfold py_len; lia) Hk). lia. }
  destruct (scheme_total _ _ Hlen Hne) as (lo & hi & He & Hlo & Hhi).
  set (alg := sig_algorithm (ServerCryptoConfig := cfg_server c)) in *.
  set (row := benchmark_row name strategy n interval (recorded_bytes rows) signing_ms).
  destruct (timing_check_total (XFin signing_ms)
              (inject_Z (Z.of_nat (length sgs)) * mean / 1000) tol Htol) as [[ratio ok] Ht].
  destruct (cold_check_total alg bench cold (XFin signing_ms) (Z.of_nat (length sgs)) Hcold)
    as [cc Hcc].
  unfold validate_row, sig_algorithm_for_config.
  change (getitem "config" row) with (Ok (Cell (VStr name))).
  change (getitem "strategy" row) with (Ok (Cell (VStr strategy))).
  change (getitem "n_chunks" row) with (Ok (Cell (VInt n))).
  change (getitem "total_signature_bytes" row) with (Ok (Cell (VInt (recorded_bytes rows)))).
  change (getitem "total_signing_ms" row) with (Ok (Cell (VFloat signing_ms))).
  change (protocol_of row) with (Some "v2"). unfold row at 1. rewrite checkpoint_of_benchmark.
  cbn [rbind cell_int py_int cell_name cell_float py_float as_num]. rewrite Hc. cbn [rbind].
  fold alg. rewrite Hcount. cbn [rbind]. rewrite He. cbn [rbind]. rewrite Hmean. cbn [rbind].
  rewrite Ht. cbn [rbind]. rewrite Hcold. cbn [rbind]. rewrite Hcc.
  destruct (strategy =? "buffer_and_sign")%string; cbn [rbind]; eexists; (split; [reflexivity|]);
    cbn [va_expected_signatures va_measured_bytes va_bytes_ok];
    (split; [done|]; split; [exact Hb|]); rewrite Hb; apply andb_true_iff; split; by apply Z.leb_le.
Qed.

(** ** The report *)
Definition group_rows (gs : list (string * list validated)) : list validated := concat (map snd gs).

Lemma add_to_group_perm r gs :
  NoDup (map fst gs) ->
  Permutation (group_rows (add_to_group r gs)) (r :: group_rows gs)
  /\ NoDup (map fst (add_to_group r gs)).
Proof.
  unfold add_to_group, group_rows. intros Hnd. destruct (dget (group_key r) gs) as [g|] eqn:Hg.
  - rewrite keys_dset. unfold dmem. rewrite Hg. split; [|done]. clear Hnd.
    induction gs as [|[k v] gs IH]; simpl in *; [done|].
    destruct (String.eqb (group_key r) k); simpl.
    + injection Hg as ->. rewrite <- app_assoc. simpl.
      symmetry. apply Permutation_middle.
    + rewrite IH by done. symmetry. apply Permutation_middle.
  - rewrite keys_dset. unfold dmem. rewrite Hg. split.
    + clear Hnd. induction gs as [|[k v] gs IH]; simpl in *; [done|].
      destruct (String.eqb (group_key r) k); simpl; [done|].
      rewrite IH by done. symmetry. apply Permutation_middle.
    + apply dget_None_keys in Hg. apply NoDup_app. split_and!; [done| |apply NoDup_singleton].
      intros x Hx ->%list_elem_of_singleton. done.
Qed.

Lemma by_strategy_config_perm rows :
  Permutation (group_rows (by_strategy_config rows)) rows
  /\ NoDup (map fst (by_strategy_config rows)).
Proof.
  unfold by_strategy_config.
  assert (forall rows gs, NoDup (map fst gs) ->
    Permutation (group_rows (fold_left (fun gs r => add_to_group r gs) rows gs))
      (rows ++ group_rows gs)
    /\ NoDup (map fst (fold_left (fun gs r => add_to_group r gs) rows gs))) as H.
  { clear rows. induction rows as [|r rows IH]; intros gs Hnd; [done|]. cbn [fold_left].
    destruct (add_to_group_perm r gs Hnd) as [Hp Hnd']. destruct (IH _ Hnd') as [Hq Hn].
    split; [|exact Hn]. rewrite Hq, Hp. symmetry. apply Permutation_middle. }
  destruct (H rows [] (NoDup_nil_2)) as [Hp Hn]. split; [|exact Hn].
  by rewrite app_nil_r in Hp.
Qed.

Definition Zsum_by {A} (f : A -> Z) (l : list A) : Z := Zsum (map f l).

Lemma count_rows_concat f (gs : list (string * list validated)) :
  Zsum_by (fun kg => count_rows f (snd kg)) gs = count_rows f (group_rows gs).
Proof.
  unfold Zsum_by, count_rows, group_rows, py_len. induction gs as [|[k g] gs IH]; [done|].
  cbn [map snd concat]. rewrite Zsum_cons, IH, List.filter_app, length_app. lia.
Qed.

Lemma count_rows_perm f l k : Permutation l k -> count_rows f l = count_rows f k.
Proof.
  intros H. unfold count_rows, py_len. f_equal. apply Permutation_length.
  induction H as [|x l k _ IH|x y l|l k m _ IH1 _ IH2]; simpl.
  - done.
  - destruct (f x); [by constructor|done].
  - destruct (f x), (f y); try done. constructor.
  - by rewrite IH1.
Qed.

Lemma count_rows_all f l : (count_rows f l =? py_len l) = forallb f l.
Proof.
  unfold count_rows, py_len. induction l as [|x l IH]; [done|]. cbn [List.filter forallb].
  destruct (f x); cbn [andb].
  - rewrite <- IH. cbn [length]. apply eq_true_iff_eq. rewrite !Z.eqb_eq. lia.
  - apply Z.eqb_neq. cbn [length]. pose proof (List.filter_length_le f l). lia.
Qed.

Lemma report_groups gs reports :
  rmap report_group gs = Ok reports ->
  map gr_group reports = map fst gs
  /\ Forall2 (fun g r => gr_n_rows r = py_len (snd g)
       /\ gr_bytes_ok r = count_rows va_bytes_ok (snd g)
       /\ gr_timing_ok_best r = count_rows timing_ok_best (snd g)) gs reports.
Proof.
  intros H%rmap_Ok. split.
  - induction H as [|[k g] r gs rs Hr _ IH]; [done|]. simpl in *. rewrite IH. f_equal.
    destruct g; [done|]. by injection Hr as <-.
  - eapply Forall2_impl; [exact H|]. intros [k g] r Hr. simpl in *.
    destruct g; [done|]. by injection Hr as <-.
Qed.

Lemma count_rows_true l : count_rows (fun _ => true) l = py_len l.
Proof. unfold count_rows, py_len. induction l; simpl in *; [done|lia]. Qed.

(** The groups are the keys that occur. *)
Lemma group_keys_of_rows rows k :
  k ∈ map fst (by_strategy_config rows) <-> k ∈ map group_key rows.
Proof.
  unfold by_strategy_config.
  assert (forall rows gs, k ∈ map fst (fold_left (fun gs r => add_to_group r gs) rows gs)
    <-> k ∈ map fst gs \/ k ∈ map group_key rows) as H.
  { clear rows. induction rows as [|r rows IH]; intros gs; cbn [fold_left map].
    - rewrite elem_of_nil. tauto.
    - rewrite IH, elem_of_cons. unfold add_to_group.
      destruct (dget (group_key r) gs) as [g|] eqn:Hg; rewrite keys_dset; unfold dmem; rewrite Hg.
      + split; [tauto|]. intros [?|[->|?]]; [tauto| |tauto]. left.
        apply dget_Some_in in Hg. by apply (list_elem_of_fmap_2 fst) in Hg.
      + rewrite elem_of_app, list_elem_of_singleton. tauto. }
  rewrite H. simpl. rewrite elem_of_nil. tauto.
Qed.

Lemma Zsum_by_Forall2 {A B} (f : A -> Z) (g : B -> Z) l k :
  Forall2 (fun a b => g b = f a) l k -> Zsum_by g k = Zsum_by f l.
Proof.
  unfold Zsum_by. induction 1 as [|a b l k Hab _ IH]; [done|].
  cbn [map]. by rewrite !Zsum_cons, IH, Hab.
Qed.

Lemma Zsum_by_perm {A} (f : A -> Z) l k : Permutation l k -> Zsum_by f l = Zsum_by f k.
Proof.
  unfold Zsum_by. induction 1 as [|x l k _ IH|x y l|l k m _ IH1 _ IH2]; cbn [map];
    rewrite ?Zsum_cons; [done|lia|lia|lia].
Qed.

Lemma sorted_items_perm {A} (d : list (string * A)) : Permutation (sorted_items d) d.
Proof. apply merge_sort_Permutation. Qed.

(** The report accounts for every row: the excluded and the validated rows
    make up the table, the groups are the distinct configuration/strategy
    pairs and partition the validated rows, so that the group counts add up
    to the summary's, and the two verdicts hold exactly when every validated
    row passes. *)
Theorem report_partitions_rows {E : Env} {P : Prims} (df : list csv_row) (bench : dict)
    (r : validation) (Hrun : run_validation df bench = Ok r) :
  let s := vn_summary r in
  let groups := vn_per_group r in
  su_total_rows s = su_excluded_error_rows s + su_validated_rows s
  /\ su_validated_rows s = py_len (vn_rows r)
  /\ NoDup (map gr_group groups)
  /\ (forall k, k ∈ map gr_group groups <-> k ∈ map group_key (vn_rows r))
  /\ Zsum_by gr_n_rows groups = su_validated_rows s
  /\ Zsum_by gr_bytes_ok groups = su_bytes_ok s
  /\ Zsum_by gr_timing_ok_best groups = su_timing_ok_best s
  /\ su_bytes_all_ok s = forallb va_bytes_ok (vn_rows r)
  /\ su_timing_all_ok_best s = forallb timing_ok_best (vn_rows r).
Proof.
  revert Hrun. unfold run_validation.
  destruct (rfilter error_free df) as [ok|] eqn:Hok; cbn [rbind]; [|done].
  destruct (rmap _ ok) as [rows|] eqn:Hrows; cbn [rbind]; [|done].
  destruct (rmap report_group _) as [groups|] eqn:Hg; cbn [rbind]; [|done].
  intros [= <-]. cbn [vn_summary vn_per_group vn_rows su_total_rows su_excluded_error_rows
    su_validated_rows su_bytes_ok su_timing_ok_best su_bytes_all_ok su_timing_all_ok_best].
  destruct (by_strategy_config_perm rows) as [Hp Hnd].
  pose proof (sorted_items_perm (by_strategy_config rows)) as Hs.
  destruct (report_groups _ _ Hg) as [Hkeys Hrep].
  apply rmap_Ok, Forall2_length in Hrows. unfold py_len in *.
  split_and!; try apply count_rows_all; [lia|done| | | | |].
  - rewrite Hkeys, Hs. exact Hnd.
  - intros k. rewrite Hkeys, Hs. apply group_keys_of_rows.
  - rewrite (Zsum_by_Forall2 (fun kg => count_rows (fun _ => true) (snd kg)) _ (sorted_items (by_strategy_config rows))).
    + rewrite (Zsum_by_perm _ _ _ Hs), count_rows_concat, (count_rows_perm _ _ _ Hp).
      apply count_rows_true.
    + eapply Forall2_impl; [exact Hrep|]. intros g x (-> & _). symmetry. apply count_rows_true.
  - rewrite (Zsum_by_Forall2 (fun kg => count_rows va_bytes_ok (snd kg)) _ (sorted_items (by_strategy_config rows))).
    + by rewrite (Zsum_by_perm _ _ _ Hs), count_rows_concat, (count_rows_perm _ _ _ Hp).
    + eapply Forall2_impl; [exact Hrep|]. by intros g x (_ & -> & _).
  - rewrite (Zsum_by_Forall2 (fun kg => count_rows timing_ok_best (snd kg)) _ (sorted_items (by_strategy_config rows))).
    + by rewrite (Zsum_by_perm _ _ _ Hs), count_rows_concat, (count_rows_perm _ _ _ Hp).
    + eapply Forall2_impl; [exact Hrep|]. by intros g x (_ & _ & ->).
Qed.
