(* ===== verification/ReplayProps.v ===== *)
(** * What the client detects, and where

    Captured per-chunk streams under every static attack of the campaign: the
    client rejects at the first affected position, so nothing the attacker
    influenced was shown. *)
From stdpp Require Import gmap.
From S2P Require Import Prelude PyBytes Sha256 PyVal World Instrumentation PyList Aead Base Configs.
From S2P Require Import Streaming Http StreamingClient StreamingHonest Replay Campaign.

Section PerChunk.
Context {E : Env} {P : Prims} {Cli : ClientCryptoConfig}.
Variables (key spk : bytes) (hid : string).

(** The client decides [false] on a signature. *)
Definition refuses (msg sig : bytes) : Prop :=
  forall w, exists meta w', verify msg sig spk w = (Ok (false, meta), w') /\ verify_meta_ok meta.

(** A record of the stream: at index [i], signed and sealed for this session. *)
Definition good_chunk (i : Z) (d : dict) : Prop :=
  exists n c sg ms cpu msg pt, d = pc_wire i n c sg ms cpu
    /\ chunk_message (stream_context hid) i n c = Ok msg
    /\ accepts msg sg spk /\ aead_decrypt key n c = Ok pt.

(** A record of another session at index [i]: well formed, its signature not
    one over this session's message. *)
Definition foreign_chunk (i : Z) (d : dict) : Prop :=
  exists n c sg ms cpu msg, d = pc_wire i n c sg ms cpu
    /\ chunk_message (stream_context hid) i n c = Ok msg /\ refuses msg sg.

Definition good_end (n : Z) (d : dict) : Prop :=
  exists sg ms cpu msg, d = pc_final_wire n sg ms cpu
    /\ end_message (stream_context hid) n = Ok msg /\ accepts msg sg spk.

Definition foreign_end (n : Z) (d : dict) : Prop :=
  exists sg ms cpu msg, d = pc_final_wire n sg ms cpu
    /\ end_message (stream_context hid) n = Ok msg /\ refuses msg sg.

(** The records of a list, in order, from an index on. *)
Definition in_sequence (Q : Z -> dict -> Prop) (from : Z) (l : list dict) : Prop :=
  forall k d, l !! k = Some d -> Q (from + Z.of_nat k) d.

Lemma in_sequence_cons Q from d l :
  in_sequence Q from (d :: l) <-> Q from d /\ in_sequence Q (from + 1) l.
Proof.
  split.
  - intros H. split; [specialize (H 0%nat d eq_refl); by rewrite Z.add_0_r in H|].
    intros k x Hk. specialize (H (S k) x Hk). by replace (from + 1 + Z.of_nat k) with (from + Z.of_nat (S k)) by lia.
  - intros [H1 H2] [|k] x Hk; simpl in Hk.
    + injection Hk as ->. by rewrite Z.add_0_r.
    + specialize (H2 k x Hk). by replace (from + Z.of_nat (S k)) with (from + 1 + Z.of_nat k) by lia.
Qed.

Lemma in_sequence_app Q from l1 l2 :
  in_sequence Q from (l1 ++ l2) <->
  in_sequence Q from l1 /\ in_sequence Q (from + py_len l1) l2.
Proof.
  revert from; induction l1 as [|d l1 IH]; intros from; simpl.
  - unfold py_len. simpl. rewrite Z.add_0_r. split; [|by intros [_ ?]].
    intros H. split; [by intros k x Hk|done].
  - rewrite !in_sequence_cons, IH. unfold py_len. simpl length.
    replace (from + 1 + Z.of_nat (length l1)) with (from + Z.of_nat (S (length l1))) by lia.
    tauto.
Qed.

(** *** Verifying one record *)
Lemma verify_good i e n c sg msg pt w :
  chunk_message (stream_context hid) i n c = Ok msg -> accepts msg sg spk ->
  aead_decrypt key n c = Ok pt ->
  exists r w', verify_per_chunk [("index", VInt i); ("nonce", VBytes n); ("ciphertext", VBytes c);
                                 ("signature", VBytes sg)] e key spk hid w = (Ok r, w')
    /\ pr_in_order r = (i =? e) /\ pr_signature_valid r = true /\ pr_aead_ok r = Some true.
Proof.
  intros Hm Ha Hd. destruct (Ha w) as (meta & w' & Hv & [[vms Hms] [[vcpu Hcpu] _]]).
  unfold verify_per_chunk, get_bytes, decrypt_if, _decrypt_into, verify_times, bind, of_result, ret.
  cbn. rewrite Hm. cbn. rewrite Hv. unfold getitem. rewrite Hms, Hd. cbn.
  eexists _, _. split; [reflexivity|]. by simpl.
Qed.

Lemma verify_foreign i e n c sg msg w :
  chunk_message (stream_context hid) i n c = Ok msg -> refuses msg sg ->
  exists r w', verify_per_chunk [("index", VInt i); ("nonce", VBytes n); ("ciphertext", VBytes c);
                                 ("signature", VBytes sg)] e key spk hid w = (Ok r, w')
    /\ pr_signature_valid r = false.
Proof.
  intros Hm Ha. destruct (Ha w) as (meta & w' & Hv & [[vms Hms] [[vcpu Hcpu] _]]).
  unfold verify_per_chunk, get_bytes, decrypt_if, verify_times, bind, of_result, ret.
  cbn. rewrite Hm. cbn. rewrite Hv. unfold getitem. rewrite Hms. cbn.
  eexists _, _. split; [reflexivity|]. by simpl.
Qed.

Lemma pc_record i n c sg ms cpu :
  per_chunk_record (pc_wire i n c sg ms cpu)
  = Ok [("index", VInt i); ("nonce", VBytes n); ("ciphertext", VBytes c); ("signature", VBytes sg)].
Proof.
  unfold per_chunk_record, pc_wire, getitem. cbn [dget String.eqb Ascii.eqb Bool.eqb rbind].
  by rewrite !b64d_b64e.
Qed.

(** *** The loop *)
Lemma replay_good_prefix pre rest pos w :
  in_sequence good_chunk pos pre ->
  exists w', replay_per_chunk Cli key spk hid (pre ++ rest) pos pos w
             = replay_per_chunk Cli key spk hid rest (pos + py_len pre) (pos + py_len pre) w'.
Proof.
  revert pos w; induction pre as [|d pre IH]; intros pos w H.
  - exists w. unfold py_len. simpl. by rewrite Z.add_0_r.
  - apply in_sequence_cons in H as [(n & c & sg & ms & cpu & msg & pt & -> & Hm & Ha & Hd) Hpre].
    destruct (verify_good pos pos n c sg msg pt w Hm Ha Hd) as (r & w1 & Hv & Hi & Hs & Hok).
    destruct (IH (pos + 1) w1 Hpre) as [w' Hw']. exists w'.
    cbn [app replay_per_chunk]. rewrite pc_record. unfold bind at 1, of_result at 1.
    rewrite (bind_Ok _ _ _ _ _ Hv), Hi, Hs, Hok, Z.eqb_refl. simpl. rewrite Hw'.
    unfold py_len. simpl length.
    by replace (pos + 1 + Z.of_nat (length pre)) with (pos + Z.of_nat (S (length pre))) by lia.
Qed.

Lemma replay_wrong_index i d rest pos w :
  good_chunk i d -> i <> pos ->
  exists w', replay_per_chunk Cli key spk hid (d :: rest) pos pos w = (Ok (Some pos, pos + 1), w').
Proof.
  intros (n & c & sg & ms & cpu & msg & pt & -> & Hm & Ha & Hd) Hne.
  destruct (verify_good i pos n c sg msg pt w Hm Ha Hd) as (r & w1 & Hv & Hi & _).
  exists w1. cbn [replay_per_chunk]. rewrite pc_record. unfold bind at 1, of_result at 1.
  rewrite (bind_Ok _ _ _ _ _ Hv), Hi, (proj2 (Z.eqb_neq i pos) Hne). reflexivity.
Qed.

Lemma replay_foreign i d rest pos w :
  foreign_chunk i d ->
  exists w', replay_per_chunk Cli key spk hid (d :: rest) pos pos w = (Ok (Some pos, pos + 1), w').
Proof.
  intros (n & c & sg & ms & cpu & msg & -> & Hm & Ha).
  destruct (verify_foreign i pos n c sg msg w Hm Ha) as (r & w1 & Hv & Hs).
  exists w1. cbn [replay_per_chunk]. rewrite pc_record. unfold bind at 1, of_result at 1.
  rewrite (bind_Ok _ _ _ _ _ Hv), Hs. by rewrite orb_true_r.
Qed.

(** *** The whole replay *)
Definition cap_of (chunks : list dict) (final : option dict) : capture :=
  mkCapture hid key spk Cli chunks final.

Lemma replay_stops chunks0 final0 mutated final pos k enf e w :
  (exists w', replay_per_chunk Cli key spk hid mutated 0 0 w = (Ok (Some pos, e), w')) ->
  exists w', replay_through_client (cap_of chunks0 final0) mutated final "per_chunk" k enf w
             = (Ok (Some pos, pos), w').
Proof.
  intros [w' H]. exists w'. unfold replay_through_client, cap_of. cbn.
  by rewrite (bind_Ok _ _ _ _ _ H).
Qed.

Lemma replay_reject_at chunks0 final0 pre d rest final k enf w :
  in_sequence good_chunk 0 pre ->
  (exists i, (good_chunk i d /\ i <> py_len pre) \/ foreign_chunk i d) ->
  exists w', replay_through_client (cap_of chunks0 final0) (pre ++ d :: rest) final "per_chunk"
               k enf w = (Ok (Some (py_len pre), py_len pre), w').
Proof.
  intros Hpre [i Hd]. apply replay_stops with (py_len pre + 1).
  destruct (replay_good_prefix pre (d :: rest) 0 w Hpre) as [w1 ->]. rewrite Z.add_0_l.
  destruct Hd as [[Hd Hne]|Hd]; [by eapply replay_wrong_index|by eapply replay_foreign].
Qed.

(** The verdict of the terminal record. *)
Lemma replay_end chunks0 final0 l final n k enf w :
  in_sequence good_chunk 0 l ->
  match final with
  | None => n = None
  | Some d => (n = Some (py_len l) /\ good_end (py_len l) d)
              \/ (n = None /\ exists m, (good_end m d /\ m <> py_len l) \/ foreign_end m d)
  end ->
  exists w', replay_through_client (cap_of chunks0 final0) l final "per_chunk" k enf w
             = (Ok (match n with Some _ => None | None => Some (py_len l) end, py_len l), w').
Proof.
  intros Hl Hf. unfold replay_through_client, cap_of. cbn.
  destruct (replay_good_prefix l [] 0 w Hl) as [w1 H1]. rewrite app_nil_r, Z.add_0_l in H1.
  cbn in H1. rewrite (bind_Ok _ _ _ _ _ H1). destruct final as [d|].
  2: { subst n. exists w1. reflexivity. }
  assert (Hend : forall m sg ms cpu msg valid meta w2,
    end_message (stream_context hid) m = Ok msg ->
    verify msg sg spk w1 = (Ok (valid, meta), w2) -> verify_meta_ok meta ->
    (let* vn := of_result (getitem "n_chunks" (pc_final_wire m sg ms cpu)) in
     let* s := of_result (let? v := getitem "signature" (pc_final_wire m sg ms cpu) in _b64d v) in
     let* r := verify_per_chunk_final [("n_chunks", vn); ("signature", VBytes s)] (py_len l) spk hid in
     ret (fr_stream_fully_verified r)) w1 = (Ok (valid && (m =? py_len l)), w2)).
  { intros m sg ms cpu msg valid meta w2 Hm Hv [[vms Hms] [[vcpu Hcpu] _]].
    unfold pc_final_wire, verify_per_chunk_final, get_bytes, verify_times, getitem, bind,
      of_result, ret. cbn. rewrite b64d_b64e. cbn. rewrite Hm. cbn. rewrite Hv, Hms. reflexivity. }
  destruct Hf as [[-> (sg & ms & cpu & msg & -> & Hm & Ha)]|[-> (m & [[Hd Hne]|Hd])]].
  - destruct (Ha w1) as (meta & w2 & Hv & Hmeta). exists w2.
    rewrite (bind_Ok _ _ _ _ _ (Hend _ _ _ _ _ _ _ _ Hm Hv Hmeta)). by rewrite Z.eqb_refl.
  - destruct Hd as (sg & ms & cpu & msg & -> & Hm & Ha).
    destruct (Ha w1) as (meta & w2 & Hv & Hmeta). exists w2.
    rewrite (bind_Ok _ _ _ _ _ (Hend _ _ _ _ _ _ _ _ Hm Hv Hmeta)).
    by rewrite (proj2 (Z.eqb_neq m _) Hne).
  - destruct Hd as (sg & ms & cpu & msg & -> & Hm & Ha).
    destruct (Ha w1) as (meta & w2 & Hv & Hmeta). exists w2.
    by rewrite (bind_Ok _ _ _ _ _ (Hend _ _ _ _ _ _ _ _ Hm Hv Hmeta)).
Qed.
End PerChunk.
