(* ===== verification/CampaignProps.v ===== *)
(** * The campaign's cells

    Per-chunk streams under the static attacks: every trial is detected, at
    the first affected position; the baseline rejects nothing; and the counts
    of a cell are consistent whatever is attacked. *)
From stdpp Require Import gmap.
From S2P Require Import Prelude PyBytes PyVal World Instrumentation PyList Aead Base Configs.
From S2P Require Import Streaming Http StreamingClient StreamingHonest Replay Campaign ReplayProps.

Section Attacks.
Context {E : Env} {P : Prims} {Cli : ClientCryptoConfig}.
Context {R : Type} {RND : Random R} {RL : RandomLaws RND}.

(** A captured per-chunk stream with the records its server sent. *)
Definition genuine (cap : capture) : Prop :=
  cap_client_crypto cap = Cli
  /\ in_sequence (good_chunk (cap_session_key cap) (cap_sig_public_key cap)
                    (cap_handshake_id cap)) 0 (cap_chunks cap)
  /\ exists d, cap_final cap = Some d
       /\ good_end (cap_sig_public_key cap) (cap_handshake_id cap) (py_len (cap_chunks cap)) d.

(** Another session's records, none of them signed for this one. *)
Definition foreign_to (cap donor : capture) : Prop :=
  in_sequence (foreign_chunk (cap_sig_public_key cap) (cap_handshake_id cap)) 0 (cap_chunks donor)
  /\ exists d m, cap_final donor = Some d
       /\ foreign_end (cap_sig_public_key cap) (cap_handshake_id cap) m d.

(** The replay rejects at [first], with [first] chunks covered. *)
Definition detected_first (cap : capture) (m : (list dict * option dict) * Z) : Prop :=
  let '((mutated, final), first) := m in
  0 <= first <= py_len mutated
  /\ forall k enf w, exists w', replay_through_client cap mutated final "per_chunk" k enf w
                                = (Ok (Some first, first), w').

Lemma py_len_app {A} (l1 l2 : list A) : py_len (l1 ++ l2) = py_len l1 + py_len l2.
Proof. unfold py_len. rewrite length_app. lia. Qed.
Lemma py_len_cons {A} (a : A) l : py_len (a :: l) = 1 + py_len l.
Proof. unfold py_len. simpl length. lia. Qed.

Section Victim.
Variables (hid : string) (key spk : bytes) (chunks : list dict) (final : dict).
Hypothesis Hchunks : in_sequence (good_chunk key spk hid) 0 chunks.
Hypothesis Hfinal : good_end spk hid (py_len chunks) final.
Abbreviation victim := (mkCapture hid key spk Cli chunks (Some final)).

(** A cut of the genuine chunks at a position within them. *)
Lemma cut (i : Z) :
  0 <= i < py_len chunks ->
  exists pre d post, chunks = pre ++ d :: post /\ py_len pre = i
    /\ Z.to_nat i = length pre
    /\ in_sequence (good_chunk key spk hid) 0 pre /\ good_chunk key spk hid i d
    /\ in_sequence (good_chunk key spk hid) (i + 1) post.
Proof.
  unfold py_len. intros Hi. destruct (split_at chunks (Z.to_nat i) ltac:(lia)) as (d & Hc & Hl).
  set (pre := firstn (Z.to_nat i) chunks) in *. set (post := skipn (S (Z.to_nat i)) chunks) in *.
  exists pre, d, post. split; [exact Hc|]. split; [lia|]. split; [lia|].
  rewrite Hc in Hchunks. apply in_sequence_app in Hchunks as [H1 H2].
  apply in_sequence_cons in H2 as [H2 H3]. unfold py_len in *. rewrite Hl in *.
  replace (0 + Z.of_nat (Z.to_nat i)) with i in * by lia. done.
Qed.

Lemma reject_here pre d rest fin i :
  in_sequence (good_chunk key spk hid) 0 pre ->
  (good_chunk key spk hid i d /\ i <> py_len pre) \/ foreign_chunk spk hid i d ->
  detected_first victim ((pre ++ d :: rest, fin), py_len pre).
Proof.
  intros Hpre Hd. split; [rewrite py_len_app, py_len_cons; unfold py_len; lia|].
  intros k enf w. eapply (replay_reject_at key spk hid chunks (Some final)); eauto.
Qed.

(** Genuine records without the genuine terminal record. *)
Lemma reject_end l fin :
  in_sequence (good_chunk key spk hid) 0 l ->
  match fin with
  | None => True
  | Some d => exists m, (good_end spk hid m d /\ m <> py_len l) \/ foreign_end spk hid m d
  end ->
  detected_first victim ((l, fin), py_len l).
Proof.
  intros Hl Hf. split; [unfold py_len; lia|]. intros k enf w.
  destruct (replay_end key spk hid chunks (Some final) l fin None k enf w Hl) as [w' H].
  { destruct fin; [by right|done]. }
  exists w'. exact H.
Qed.

Lemma drop_detected i :
  0 <= i < py_len chunks -> detected_first victim ((drop_slice chunks i, Some final), i).
Proof.
  intros Hi. destruct (cut i Hi) as (pre & d & post & Hc & Hl & Hn & Hpre & Hd & Hpost).
  unfold drop_slice. rewrite Hn, Hc, take_app_length.
  rewrite drop_app_ge by lia. replace (S (length pre) - length pre)%nat with 1%nat by lia.
  simpl drop. rewrite <- Hl. destruct post as [|d' post].
  - rewrite app_nil_r. apply reject_end; [exact Hpre|]. exists (py_len chunks). left.
    split; [exact Hfinal|]. rewrite Hc, py_len_app, py_len_cons. unfold py_len. simpl. lia.
  - apply in_sequence_cons in Hpost as [Hd' _]. apply reject_here with (i + 1); [exact Hpre|].
    left. split; [exact Hd'|lia].
Qed.

Lemma reorder_detected i :
  0 <= i < py_len chunks - 1 ->
  exists l, swap_at chunks (Z.to_nat i) (S (Z.to_nat i)) = Ok l
    /\ detected_first victim ((l, Some final), i).
Proof.
  intros Hi. destruct (cut i ltac:(lia)) as (pre & d & post & Hc & Hl & Hn & Hpre & Hd & Hpost).
  destruct post as [|d' post].
  { rewrite Hc, py_len_app, py_len_cons in Hi. unfold py_len in *. simpl in Hi. lia. }
  exists (pre ++ d' :: d :: post). split; [rewrite Hn, Hc; apply swap_at_middle|].
  apply in_sequence_cons in Hpost as [Hd' _]. rewrite <- Hl.
  apply reject_here with (i + 1); [exact Hpre|]. left. split; [exact Hd'|lia].
Qed.

Lemma duplicate_detected i :
  0 <= i < py_len chunks ->
  exists c, getitem_at chunks i = Ok c
    /\ detected_first victim ((firstn (S (Z.to_nat i)) chunks ++ [c]
                                 ++ skipn (S (Z.to_nat i)) chunks, Some final), i + 1).
Proof.
  intros Hi. destruct (cut i Hi) as (pre & d & post & Hc & Hl & Hn & Hpre & Hd & Hpost).
  exists d. split.
  - replace i with (Z.of_nat (length pre)) by (unfold py_len in *; lia). apply getitem_at_Some.
    by rewrite Hc, list_lookup_middle.
  - rewrite Hn, Hc. assert (firstn (S (length pre)) (pre ++ d :: post) = pre ++ [d]) as ->.
    { rewrite firstn_app, firstn_all2 by lia.
      by replace (S (length pre) - length pre)%nat with 1%nat by lia. }
    replace (i + 1) with (py_len (pre ++ [d]))
      by (rewrite py_len_app, py_len_cons, Hl; unfold py_len; simpl; lia).
    apply reject_here with i.
    + apply in_sequence_app. split; [exact Hpre|]. rewrite Z.add_0_l, Hl.
      apply in_sequence_cons. split; [exact Hd|]. by intros k x Hk.
    + left. split; [exact Hd|]. rewrite py_len_app, py_len_cons, Hl. unfold py_len. simpl. lia.
Qed.

Lemma replay_detected (donor : list dict) i :
  in_sequence (foreign_chunk spk hid) 0 donor -> 0 <= i < py_len chunks -> i < py_len donor ->
  exists c l, getitem_at donor i = Ok c /\ setitem_at chunks (Z.to_nat i) c = Ok l
    /\ detected_first victim ((l, Some final), i).
Proof.
  intros Hdon Hi Hi'. destruct (cut i Hi) as (pre & d & post & Hc & Hl & Hn & Hpre & Hd & Hpost).
  destruct (lookup_lt_is_Some_2 donor (Z.to_nat i)) as [c Hcd]; [unfold py_len in *; lia|].
  exists c, (pre ++ c :: post). split_and!.
  - replace i with (Z.of_nat (Z.to_nat i)) at 1 by lia. by apply getitem_at_Some.
  - unfold setitem_at. rewrite Hn, Hc, (proj2 (Nat.ltb_lt _ _)) by (rewrite length_app; simpl; lia).
    rewrite insert_app_r_alt by lia. by rewrite Nat.sub_diag.
  - rewrite <- Hl. apply reject_here with i; [exact Hpre|]. right.
    specialize (Hdon _ _ Hcd). by replace (0 + Z.of_nat (Z.to_nat i)) with i in Hdon by lia.
Qed.

Lemma truncate_detected c :
  1 <= c < py_len chunks + 1 ->
  detected_first victim ((firstn (Z.to_nat c) chunks, None), c).
Proof.
  intros Hi. replace c with (py_len (firstn (Z.to_nat c) chunks)) at 2
    by (unfold py_len in *; rewrite length_take; lia).
  apply reject_end; [|done]. intros k d Hk. apply Hchunks.
  apply lookup_take_Some in Hk. tauto.
Qed.

Lemma session_replay_detected (donor : list dict) fin m :
  in_sequence (foreign_chunk spk hid) 0 donor -> foreign_end spk hid m fin ->
  detected_first victim ((donor, Some fin), 0).
Proof.
  intros Hdon Hend. destruct donor as [|d donor].
  - apply (reject_end [] (Some fin)); [by intros k x Hk|]. eauto.
  - apply in_sequence_cons in Hdon as [Hd _].
    apply (reject_here [] d donor (Some fin) 0); [by intros k x Hk|]. by right.
Qed.
End Victim.

(** One mutation: it exists, and it is detected where it starts. *)
Lemma static_mutation cap donor attack r :
  genuine cap -> foreign_to cap donor -> 2 <= py_len (cap_chunks cap) ->
  1 <= py_len (cap_chunks donor) -> attack ∈ STATIC ->
  exists m r', _mutate cap donor attack "per_chunk" r = (Ok (Some m), r') /\ detected_first cap m.
Proof.
  intros (Hcli & Hch & d & Hd & Hend) (Hf & fd & fm & Hfd & Hfend) Hn Hm Hin.
  destruct cap as [hid key spk Cl chunks fin]. simpl in *. subst Cl fin.
  assert (_mutate (mkCapture hid key spk Cli chunks (Some d)) donor attack "per_chunk" r
          = mutate_static (mkCapture hid key spk Cli chunks (Some d)) donor attack r) as ->.
  { unfold _mutate. by rewrite bool_decide_eq_true_2. }
  unfold STATIC in Hin. rewrite !elem_of_cons, elem_of_nil in Hin.
  unfold mutate_static, bind, of_result, ret. cbn [cap_chunks cap_final].
  destruct Hin as [->|[->|[->|[->|[->|[->|[]]]]]]]; cbn [String.eqb Ascii.eqb Bool.eqb].
  - destruct (randrange_range 0 (py_len chunks) r ltac:(lia)) as (i & r' & -> & Hi).
    eexists _, _. split; [reflexivity|]. by apply drop_detected.
  - destruct (randrange_range 0 (py_len chunks - 1) r ltac:(lia)) as (i & r' & -> & Hi).
    destruct (reorder_detected hid key spk chunks d Hch i Hi) as (l & -> & H).
    eexists _, _. split; [reflexivity|exact H].
  - destruct (randrange_range 0 (py_len chunks) r ltac:(lia)) as (i & r' & -> & Hi).
    destruct (duplicate_detected hid key spk chunks d Hch i Hi) as (c & -> & H).
    eexists _, _. split; [reflexivity|exact H].
  - destruct (randrange_range 0 (Z.min (py_len chunks) (py_len (cap_chunks donor))) r ltac:(lia))
      as (i & r' & -> & Hi).
    destruct (replay_detected hid key spk chunks d Hch (cap_chunks donor) i Hf
                ltac:(lia) ltac:(lia)) as (c & l & -> & -> & H).
    eexists _, _. split; [reflexivity|exact H].
  - destruct (randrange_range 1 (py_len chunks + 1) r ltac:(lia)) as (i & r' & -> & Hi).
    eexists _, _. split; [reflexivity|]. by apply truncate_detected.
  - eexists _, _. split; [reflexivity|]. rewrite Hfd. by eapply session_replay_detected.
Qed.

(** *** A cell *)
Definition good_pool (pool : list capture) : Prop :=
  2 <= py_len pool
  /\ (forall c, c ∈ pool -> genuine c /\ 2 <= py_len (cap_chunks c))
  /\ (forall c d, c ∈ pool -> d ∈ pool -> c <> d -> foreign_to c d)
  /\ NoDup pool.

Lemma genuine_accepted cap k w :
  genuine cap ->
  exists w', replay_through_client cap (cap_chunks cap) (cap_final cap) "per_chunk" k true w
             = (Ok (None, py_len (cap_chunks cap)), w').
Proof.
  intros (Hcli & Hch & d & Hd & Hend). destruct cap as [hid key spk Cl chunks fin].
  simpl in *. subst Cl fin.
  destruct (replay_end key spk hid chunks (Some d) chunks (Some d) (Some (py_len chunks)) k true w
              Hch) as [w' H]; [by left|]. exists w'. exact H.
Qed.

Lemma none_rejected pool k w :
  (forall c, c ∈ pool -> genuine c) ->
  exists w', count_rejected pool "per_chunk" k w = (Ok 0, w').
Proof.
  revert w; induction pool as [|c pool IH]; intros w H; [by exists w|].
  destruct (genuine_accepted c k w (H c ltac:(left))) as [w1 H1].
  destruct (IH w1 ltac:(intros x Hx; apply H; by right)) as [w2 H2].
  exists w2. cbn [count_rejected]. by rewrite (bind_Ok _ _ _ _ _ H1), (bind_Ok _ _ _ _ _ H2).
Qed.

Lemma pool_at (pool : list capture) i :
  0 <= i < py_len pool ->
  exists c, getitem_at pool i = Ok c /\ pool !! Z.to_nat i = Some c.
Proof.
  unfold py_len. intros Hi. destruct (lookup_lt_is_Some_2 pool (Z.to_nat i)) as [c Hc]; [lia|].
  exists c. split; [|done]. replace i with (Z.of_nat (Z.to_nat i)) by lia.
  by apply getitem_at_Some.
Qed.

(** Everything so far was detected at its first affected position. *)
Record all_detected (t : tally) : Prop := {
  ad_det : t_det t = t_n t;
  ad_tries : t_tries t = t_n t;
  ad_pos : 0 <= t_n t;
  ad_exp : t_exposures t = replicate (Z.to_nat (t_n t)) 0;
  ad_unv : t_unverified t = replicate (Z.to_nat (t_n t)) 0;
}.

Lemma one_try_detected pool k attack t w r :
  good_pool pool -> attack ∈ STATIC -> all_detected t ->
  exists t' w' r', one_try pool "per_chunk" k attack t (w, r) = (Ok t', (w', r'))
    /\ all_detected t' /\ t_n t' = t_n t + 1.
Proof.
  intros (Hlen & Hgen & Hfor & Hnd) Hin [Hdet Htries Hpos Hexp Hunv].
  destruct (sample2_range (py_len pool) r Hlen) as (a & b & r1 & Hs & Ha & Hb & Hab).
  destruct (pool_at pool a Ha) as (cap & Hcap & Hla).
  destruct (pool_at pool b Hb) as (donor & Hdon & Hlb).
  assert (Hne : cap <> donor).
  { intros ->. apply Hab. assert (Z.to_nat a = Z.to_nat b); [by eapply NoDup_lookup|lia]. }
  apply list_elem_of_lookup_2 in Hla as Hca, Hlb as Hdb.
  destruct (Hgen cap Hca) as [Hg H2]. destruct (Hgen donor Hdb) as [_ H3].
  destruct (static_mutation cap donor attack r1 Hg (Hfor _ _ Hca Hdb Hne) H2 ltac:(lia) Hin)
    as ([[mutated fin] first] & r2 & Hm & Hfirst & Hrep).
  destruct (Hrep k (negb (String.eqb attack "checkpoint_strip_v2client")) w) as [w' Hw'].
  exists (record_trial attack mutated first (Some first, first) (count_try t)), w', r2. split.
  - unfold one_try, bind, on_snd, on_fst, of_result, ret. rewrite Hs. cbn [fst snd].
    by rewrite Hcap, Hdon, Hm, Hw'.
  - unfold record_trial, count_try. simpl. rewrite !Z.sub_diag. split; [|done].
    constructor; simpl; rewrite ?Hexp, ?Hunv; try lia.
    all: replace (Z.to_nat (t_n t + 1)) with (Z.to_nat (t_n t) + 1)%nat by lia.
    all: by rewrite replicate_add.
Qed.

Lemma loop_detected pool k attack trials fuel t w r :
  good_pool pool -> attack ∈ STATIC -> all_detected t -> t_n t <= trials ->
  (Z.to_nat (trials - t_n t) <= fuel)%nat ->
  exists t' w' r',
    attack_loop fuel pool "per_chunk" k attack trials t (w, r) = (Ok t', (w', r'))
    /\ all_detected t' /\ t_n t' = trials.
Proof.
  intros Hpool Hin. revert t w r; induction fuel as [|fuel IH]; intros t w r Ht Hle Hfuel.
  - assert (t_n t = trials) as Heq by lia. exists t, w, r. cbn [attack_loop].
    rewrite Heq, Z.ltb_irrefl. done.
  - cbn [attack_loop]. destruct (Z.ltb_spec (t_n t) trials) as [Hlt|Hge].
    2: { exists t, w, r. simpl. split; [done|]. split; [done|lia]. }
    pose proof (ad_tries t Ht). pose proof (ad_pos t Ht).
    rewrite (proj2 (Z.ltb_lt _ _)) by lia. simpl.
    destruct (one_try_detected pool k attack t w r Hpool Hin Ht) as (t1 & w1 & r1 & H1 & Ht1 & Hn1).
    rewrite (bind_Ok _ _ _ _ _ H1). apply IH; [done|lia|lia].
Qed.

(** What the row of a fully detected attack says. *)
Definition detected_row (trials : Z) (attack : string) (row : dict) : Prop :=
  dget "attack" row = Some (VStr attack) /\ dget "n" row = Some (VInt trials)
  /\ dget "detected" row = Some (VInt trials)
  /\ dget "exposure_chunks_max" row = Some (if trials =? 0 then VNone else VInt 0)
  /\ dget "unverified_at_detection_max" row = Some (if trials =? 0 then VNone else VInt 0).

Lemma Zmax_zeros n : 0 <= n -> opt_int (Zmax_or_none (replicate (Z.to_nat n) 0))
                               = if n =? 0 then VNone else VInt 0.
Proof.
  intros Hn. destruct (Z.eqb_spec n 0) as [->|Hne]; [done|].
  destruct (Z.to_nat n) as [|m] eqn:Hm; [lia|]. simpl. unfold Zmaximum.
  assert (fold_left Z.max (replicate m 0) 0 = 0) as ->; [|done].
  clear. by induction m.
Qed.

Lemma rows_detected beta_ppf pool cfg k trials attacks w r :
  good_pool pool -> (forall a, a ∈ attacks -> a ∈ STATIC) -> 0 <= trials ->
  exists rows w' r',
    attack_rows beta_ppf pool cfg "per_chunk" k trials attacks (w, r) = (Ok rows, (w', r'))
    /\ Forall2 (detected_row trials) attacks rows.
Proof.
  intros Hpool Hin Htr. revert w r; induction attacks as [|a attacks IH]; intros w r.
  - exists [], w, r. split; [done|constructor].
  - assert (Hz : all_detected tally0) by by constructor.
    destruct (loop_detected pool k a trials (Z.to_nat (trials * 5)) tally0 w r Hpool
                (Hin a ltac:(left)) Hz) as (t & w1 & r1 & Ht & Hall & Hn);
      [simpl; lia|simpl; lia|].
    assert (exists q, n_chunks_mean pool = Ok q) as [q Hq].
    { unfold n_chunks_mean, true_div. destruct Hpool as [Hl _].
      rewrite (proj2 (Z.eqb_neq _ _)) by lia. eauto. }
    destruct (IH ltac:(intros x Hx; apply Hin; by right) w1 r1) as (rows & w2 & r2 & Hr & Hf).
    eexists (_ :: rows), w2, r2. split.
    + cbn [attack_rows]. rewrite (bind_Ok _ _ _ _ _ Ht). unfold bind at 1, of_result at 1.
      rewrite Hq. fold (attack_rows beta_ppf pool cfg "per_chunk" k trials).
      rewrite (bind_Ok _ _ _ _ _ Hr). reflexivity.
    + constructor; [|exact Hf]. destruct Hall as [Hdet _ Hp Hexp Hunv].
      unfold detected_row, attack_row. cbn [dget String.eqb Ascii.eqb Bool.eqb].
      rewrite Hdet, Hexp, Hunv, Hn, Zmax_zeros by lia. done.
Qed.

(** *** Any cell's counts *)
Record counts_ok (trials : Z) (t : tally) : Prop := {
  co_det : 0 <= t_mid t <= t_det t;
  co_n : t_det t <= t_n t <= trials;
  co_tries : t_n t <= t_tries t <= trials * 5;
  co_exp : py_len (t_exposures t) = t_det t;
}.

Lemma one_try_counts pool strategy k attack trials t σ t' σ' :
  counts_ok trials t -> t_n t < trials -> t_tries t < trials * 5 ->
  one_try pool strategy k attack t σ = (Ok t', σ') ->
  counts_ok trials t' /\ t_tries t' = t_tries t + 1.
Proof.
  intros [H1 H2 H3 H4] Hn Ht H. unfold one_try in H.
  apply bind_inv_Ok in H as (ab & σ1 & _ & H). apply bind_inv_Ok in H as (cap & σ2 & _ & H).
  apply bind_inv_Ok in H as (donor & σ3 & _ & H). apply bind_inv_Ok in H as (m & σ4 & _ & H).
  destruct m as [[[mutated final] first]|].
  - apply bind_inv_Ok in H as ([[pos|] covered] & σ5 & _ & H); injection H as <- _.
    + split; [|done]. unfold record_trial, count_try. constructor; simpl.
      * destruct (pos <? py_len mutated); lia.
      * lia.
      * lia.
      * rewrite py_len_app, H4. unfold py_len. simpl. lia.
    + split; [|done]. unfold record_trial, count_try. constructor; simpl; lia.
  - injection H as <- _. split; [|done]. constructor; simpl; lia.
Qed.

Lemma loop_counts pool strategy k attack trials fuel t σ t' σ' :
  counts_ok trials t -> trials * 5 - t_tries t <= Z.of_nat fuel ->
  attack_loop fuel pool strategy k attack trials t σ = (Ok t', σ') ->
  counts_ok trials t' /\ (t_n t' = trials \/ t_tries t' = trials * 5).
Proof.
  revert t σ; induction fuel as [|fuel IH]; intros t σ Ht Hf H; cbn [attack_loop] in H.
  all: destruct (Z.ltb_spec (t_n t) trials) as [Hn|Hn];
    [destruct (Z.ltb_spec (t_tries t) (trials * 5)) as [Hs|Hs]|]; simpl in H.
  all: pose proof Ht as [H1 H2 H3 H4].
  all: try (injection H as <- _; split; [exact Ht|lia]).
  apply bind_inv_Ok in H as (t1 & σ1 & Hone & H).
  destruct (one_try_counts _ _ _ _ trials _ _ _ _ Ht Hn Hs Hone) as [Hc Htr].
  eapply IH; [exact Hc|lia|exact H].
Qed.
End Attacks.

(** C16: Per-chunk signing detects every static attack at once: over a pool of
    genuine streams, none a prefix of another session's, the baseline rejects
    nothing, and in each of the six static attacks -- drop, reorder,
    duplicate, replay, truncate, session replay -- every one of the trials is
    detected, with no attacker-influenced chunk shown and no chunk shown
    unverified at the moment of rejection; the loop needs exactly as many
    tries as trials. *)
Theorem per_chunk_cell_detects {E : Env} {P : Prims} {Cli : ClientCryptoConfig}
    {R : Type} {RND : Random R} {RL : RandomLaws RND} (beta_ppf : Q -> Z -> Z -> Q)
    (pool : list capture) (cfg : string) (k : option Z) (trials : Z) (w : world) (r : R)
    (Hpool : good_pool pool) (Htrials : 0 <= trials) :
  exists benign rows w' r',
    run_cell beta_ppf pool cfg "per_chunk" k trials (w, r) = (Ok (benign :: rows), (w', r'))
    /\ dget "attack" benign = Some (VStr "benign")
    /\ dget "n" benign = Some (VInt (py_len pool)) /\ dget "detected" benign = Some (VInt 0)
    /\ Forall2 (detected_row trials) STATIC rows.
Proof.
  destruct (none_rejected pool k w ltac:(intros c Hc; apply Hpool, Hc)) as [w1 Hb].
  destruct (rows_detected beta_ppf pool cfg k trials STATIC w1 r Hpool ltac:(done) Htrials)
    as (rows & w2 & r2 & Hr & Hf).
  assert (exists q, n_chunks_mean pool = Ok q) as [q Hq].
  { unfold n_chunks_mean, true_div. destruct Hpool as [Hl _].
    rewrite (proj2 (Z.eqb_neq _ _)) by lia. eauto. }
  eexists _, rows, w2, r2. split.
  - unfold run_cell, cell_attacks. cbn [String.eqb Ascii.eqb Bool.eqb andb].
    rewrite app_nil_r, (bind_Ok _ _ _ _ _ (on_fst_Ok _ _ r _ _ Hb)).
    unfold bind at 1, of_result at 1. rewrite Hq, (bind_Ok _ _ _ _ _ Hr). reflexivity.
  - by split_and!.
Qed.

(** The loop over trials of any cell ends by its own condition within the
    five tries per trial it allows: when it returns, it has run all the trials
    or used all the tries, no more detections than trials are counted, no more
    mid-stream detections than detections, and one exposure is recorded per
    detection. *)
Theorem attack_loop_counts {E : Env} {P : Prims} {R : Type} {RND : Random R}
    (pool : list capture) (strategy : string) (k : option Z) (attack : string) (trials : Z)
    (σ σ' : world * R) (t : tally) (Htrials : 0 <= trials)
    (Hrun : attack_loop (Z.to_nat (trials * 5)) pool strategy k attack trials tally0 σ
            = (Ok t, σ')) :
  0 <= t_mid t <= t_det t /\ t_det t <= t_n t <= trials /\ t_tries t <= trials * 5
  /\ py_len (t_exposures t) = t_det t /\ (t_n t = trials \/ t_tries t = trials * 5).
Proof.
  destruct (loop_counts pool strategy k attack trials (Z.to_nat (trials * 5)) tally0 σ t σ')
    as [[H1 H2 H3 H4] H5]; [constructor; simpl; unfold py_len; simpl; lia|simpl; lia|exact Hrun|].
  split_and!; done || lia.
Qed.
