(* ===== verification/ChainReplay.v ===== *)
(** * Hash-chain streams under attack

    Removing every checkpoint signature: the client that enforces the schedule
    it asked for rejects at the first checkpoint, the one that does not accepts
    the stream with nothing covered until its end.  Without checkpoints a
    changed number of records is noticed only at the terminal record. *)
From stdpp Require Import gmap.
From S2P Require Import Prelude PyBytes Sha256 PyVal World Instrumentation PyList Aead Base Configs.
From S2P Require Import Streaming Http StreamingClient StreamingHonest Replay Campaign.

Section Chain.
Context {E : Env} {P : Prims} {Cli : ClientCryptoConfig}.
Variables (key spk : bytes) (hid : string).

(** The signature entry of the chunk that leads to [h], on a schedule. *)
Definition checkpoint_entry (k : option Z) (i : Z) (h : bytes) (sgv : val) : Prop :=
  if checkpoint_expected k (i + 1) then
    exists sg msg, sgv = VStr (_b64e sg) /\ sg <> []
      /\ checkpoint_message (stream_context hid) i h = Ok msg /\ accepts msg sg spk
  else sgv = VNone.

(** A sealed record at index [i] that takes the chain from [h] to [h']. *)
Definition chain_link_record (k : option Z) (i : Z) (h h' : bytes) (d : dict) : Prop :=
  exists n c sgv ms cpu sb pt, d = hc_wire i n c h' sgv ms cpu sb
    /\ chain_link h i (n ++ c) = Ok h' /\ aead_decrypt key n c = Ok pt
    /\ checkpoint_entry k i h' sgv.

(** The records of a stream from index [i] and hash [h] to the hash [last]. *)
Fixpoint chain_stream (k : option Z) (i : Z) (h : bytes) (l : list dict) (last : bytes) : Prop :=
  match l with
  | [] => h = last
  | d :: l => exists h', chain_link_record k i h h' d /\ chain_stream k (i + 1) h' l last
  end.

Definition good_final (n : Z) (h : bytes) (d : dict) : Prop :=
  exists sg ms cpu msg, d = chain_final_wire n h sg ms cpu
    /\ final_chain_message (stream_context hid) n h = Ok msg /\ accepts msg sg spk.

Definition at_chain (k : option Z) (n : Z) (h : bytes) : HashChainClientState :=
  mkChainState hid k h (stream_context hid) n.

(** *** Verifying one record *)
Lemma hc_record i n c h sgv ms cpu sb s :
  (match sgv with VNone => s = VNone
   | _ => exists sg, sgv = VStr (_b64e sg) /\ sg <> [] /\ s = VBytes sg end) ->
  chain_record (hc_wire i n c h sgv ms cpu sb)
  = Ok [("index", VInt i); ("nonce", VBytes n); ("ciphertext", VBytes c);
        ("chain_hash", VBytes h); ("signature", s)].
Proof.
  intros Hs. unfold chain_record, hc_wire, getitem. cbn [dget String.eqb Ascii.eqb Bool.eqb rbind].
  rewrite !b64d_b64e. cbn [rbind].
  destruct sgv; try (by destruct Hs as (? & [=] & _)).
  - by subst s.
  - destruct Hs as (sg & [= ->] & Hne & ->). rewrite b64e_nonempty, b64d_b64e by done. done.
Qed.

Lemma chunk_without_signature k st_n h i n c h' hc pt w :
  chain_link h i (n ++ c) = Ok h' -> aead_decrypt key n c = Ok pt ->
  exists r, verify_hash_chain_chunk true
      [("index", VInt i); ("nonce", VBytes n); ("ciphertext", VBytes c);
       ("chain_hash", VBytes hc); ("signature", VNone)] key spk (w, at_chain k st_n h)
    = (Ok r, (w, at_chain k (st_n + 1) h'))
    /\ cr_aead_ok r = Some true /\ cr_checkpoint r = false
    /\ cr_checkpoint_missing r = checkpoint_expected k (st_n + 1).
Proof.
  intros Hl Hd. unfold verify_hash_chain_chunk, absorb, signature_present, get_bytes,
    _decrypt_into, bind, of_result, self, set_self, on_fst, ret. cbn. rewrite Hl. cbn.
  rewrite Hd. cbn. eexists. split; [reflexivity|]. simpl. by rewrite andb_true_r.
Qed.

Lemma chunk_with_signature k st_n h i n c h' hc sg msg pt w :
  chain_link h i (n ++ c) = Ok h' -> aead_decrypt key n c = Ok pt -> sg <> [] ->
  checkpoint_message (stream_context hid) i h' = Ok msg -> accepts msg sg spk ->
  exists r w', verify_hash_chain_chunk true
      [("index", VInt i); ("nonce", VBytes n); ("ciphertext", VBytes c);
       ("chain_hash", VBytes hc); ("signature", VBytes sg)] key spk (w, at_chain k st_n h)
    = (Ok r, (w', at_chain k (st_n + 1) h'))
    /\ cr_aead_ok r = Some true /\ cr_checkpoint r = true
    /\ cr_checkpoint_valid r = Some true /\ cr_checkpoint_missing r = false.
Proof.
  intros Hl Hd Hne Hm Ha. destruct (Ha w) as (meta & w' & Hv & [[vms Hms] [[vcpu Hcpu] _]]).
  unfold verify_hash_chain_chunk, absorb, signature_present, get_bytes, verify_times,
    _decrypt_into, bind, of_result, self, set_self, on_fst, ret. cbn. rewrite Hl. cbn.
  destruct sg as [|x sg]; [done|]. cbn. rewrite Hm. cbn. rewrite Hv. cbn.
  unfold getitem. rewrite Hms. cbn. rewrite Hd. cbn.
  eexists _, w'. split; [reflexivity|]. simpl. by rewrite andb_false_r.
Qed.

(** *** The loop on unsigned records *)
Lemma replay_unsigned_step k st_n h i n c h' hc ms cpu sb pt rest pos covered w :
  chain_link h i (n ++ c) = Ok h' -> aead_decrypt key n c = Ok pt ->
  replay_hash_chain Cli key spk (hc_wire i n c hc VNone ms cpu sb :: rest) pos covered
    (w, at_chain k st_n h)
  = if checkpoint_expected k (st_n + 1) then (Ok (Some pos, covered), (w, at_chain k (st_n + 1) h'))
    else replay_hash_chain Cli key spk rest (pos + 1) covered (w, at_chain k (st_n + 1) h').
Proof.
  intros Hl Hd. cbn [replay_hash_chain]. unfold bind at 1, of_result at 1.
  rewrite (hc_record i n c hc VNone ms cpu sb VNone eq_refl).
  destruct (chunk_without_signature k st_n h i n c h' hc pt w Hl Hd) as (r & Hr & Hok & Hck & Hmi).
  rewrite (bind_Ok _ _ _ _ _ Hr). unfold aead_flag. rewrite Hok, Hck, Hmi. simpl.
  by destruct (checkpoint_expected k (st_n + 1)).
Qed.

(** *** The genuine stream is accepted *)
Lemma replay_genuine k i h l last pos covered w :
  chain_stream k i h l last ->
  exists covered' w', replay_hash_chain Cli key spk l pos covered (w, at_chain k i h)
                      = (Ok (None, covered'), (w', at_chain k (i + py_len l) last)).
Proof.
  revert i h pos covered w; induction l as [|d l IH]; intros i h pos covered w H.
  - simpl in H. subst last. exists covered, w. unfold py_len. simpl. by rewrite Z.add_0_r.
  - destruct H as (h' & (n & c & sgv & ms & cpu & sb & pt & -> & Hl & Hd & Hck) & H).
    assert (Hlen : forall x, py_len (x :: l) = 1 + py_len l) by (intros; unfold py_len; simpl length; lia).
    unfold checkpoint_entry in Hck. destruct (checkpoint_expected k (i + 1)) eqn:Hexp.
    + destruct Hck as (sg & msg & -> & Hne & Hm & Ha).
      destruct (chunk_with_signature k i h i n c h' h' sg msg pt w Hl Hd Hne Hm Ha)
        as (r & w1 & Hr & Hok & Hc & Hv & Hmi).
      destruct (IH (i + 1) h' (pos + 1) (pos + 1) w1 H) as (cov & w2 & Hrun).
      exists cov, w2. cbn [replay_hash_chain]. unfold bind at 1, of_result at 1.
      rewrite (hc_record i n c h' _ ms cpu sb (VBytes sg)) by eauto.
      rewrite (bind_Ok _ _ _ _ _ Hr). unfold aead_flag. rewrite Hok, Hc, Hv, Hmi. simpl.
      rewrite Hrun, Hlen. by replace (i + 1 + py_len l) with (i + (1 + py_len l)) by lia.
    + subst sgv. destruct (IH (i + 1) h' (pos + 1) covered w H) as (cov & w2 & Hrun).
      exists cov, w2. rewrite (replay_unsigned_step k i h i n c h' h' ms cpu sb pt l pos covered w Hl Hd).
      rewrite Hexp, Hrun, Hlen. by replace (i + 1 + py_len l) with (i + (1 + py_len l)) by lia.
Qed.

(** *** Stripped checkpoints *)
Lemma strip_signed i n c h sg ms cpu sb :
  sg <> [] ->
  strip_checkpoint (hc_wire i n c h (VStr (_b64e sg)) ms cpu sb) = hc_wire i n c h VNone ms cpu 0.
Proof.
  intros Hne. unfold strip_checkpoint, signature_present, hc_wire.
  cbn [dget String.eqb Ascii.eqb Bool.eqb]. by rewrite b64e_nonempty.
Qed.

(** A stripped record, and whether it carried a checkpoint. *)
Lemma strip_record k i h h' d :
  chain_link_record k i h h' d ->
  signature_present d = checkpoint_expected k (i + 1)
  /\ exists n c ms cpu sb pt, strip_checkpoint d = hc_wire i n c h' VNone ms cpu sb
       /\ chain_link h i (n ++ c) = Ok h' /\ aead_decrypt key n c = Ok pt.
Proof.
  intros (n & c & sgv & ms & cpu & sb & pt & -> & Hl & Hd & Hck). unfold checkpoint_entry in Hck.
  destruct (checkpoint_expected k (i + 1)).
  - destruct Hck as (sg & msg & -> & Hne & _ & _). split.
    + unfold signature_present, hc_wire. cbn [dget String.eqb Ascii.eqb Bool.eqb].
      by apply b64e_nonempty.
    + rewrite strip_signed by done. eauto 12.
  - subst sgv. split; [done|]. eauto 12.
Qed.

(** Positions of checkpoints from an offset. *)
Fixpoint positions (i : Z) (l : list dict) : list Z :=
  match l with
  | [] => []
  | c :: l => (if signature_present c then [i] else []) ++ positions (i + 1) l
  end.

Lemma ckpt_positions_eq l : _ckpt_positions l = positions 0 l.
Proof.
  unfold _ckpt_positions.
  assert (forall f : nat -> Z, (forall k, f (S k) = f k + 1) -> forall l,
    omap id (imap (fun i c => if signature_present c then Some (f i) else None) l)
    = positions (f 0%nat) l) as Hgen.
  { intros f Hf l0. revert f Hf. induction l0 as [|c l0 IH]; intros f Hf; [done|].
    rewrite imap_cons.
    assert (omap id (imap (fun i c => if signature_present c then Some (f (S i)) else None) l0)
            = positions (f 0%nat + 1) l0) as Hrest.
    { rewrite <- Hf. exact (IH (fun i => f (S i)) (fun k => Hf (S k))). }
    cbn [positions]. destruct (signature_present c); simpl; [f_equal|]; exact Hrest. }
  exact (Hgen Z.of_nat ltac:(intros; lia) l).
Qed.

(** The client that enforces the schedule rejects at the first checkpoint. *)
Lemma strip_rejected k i h l last ck rest covered w :
  chain_stream k i h l last -> positions i l = ck :: rest ->
  exists w' h' m, replay_hash_chain Cli key spk (map strip_checkpoint l) i covered (w, at_chain k i h)
                  = (Ok (Some ck, covered), (w', at_chain k m h')).
Proof.
  revert i h w; induction l as [|d l IH]; intros i h w H Hp; [done|].
  destruct H as (h' & Hrec & H).
  destruct (strip_record k i h h' d Hrec) as (Hsig & n & c & ms & cpu & sb & pt & Hs & Hl & Hd).
  cbn [map positions] in *. rewrite Hs.
  rewrite (replay_unsigned_step k i h i n c h' h' ms cpu sb pt _ i covered w Hl Hd).
  rewrite Hsig in Hp. destruct (checkpoint_expected k (i + 1)).
  - injection Hp as <- _. by exists w, h', (i + 1).
  - by apply IH.
Qed.

(** The client that does not runs to the end with nothing covered. *)
Lemma strip_unnoticed k i h l last pos covered w :
  chain_stream k i h l last ->
  replay_hash_chain Cli key spk (map strip_checkpoint l) pos covered (w, at_chain None i h)
  = (Ok (None, covered), (w, at_chain None (i + py_len l) last)).
Proof.
  revert i h pos w; induction l as [|d l IH]; intros i h pos w H.
  - simpl in H. subst last. unfold py_len. simpl. by rewrite Z.add_0_r.
  - destruct H as (h' & Hrec & H).
    destruct (strip_record k i h h' d Hrec) as (_ & n & c & ms & cpu & sb & pt & Hs & Hl & Hd).
    cbn [map]. rewrite Hs.
    rewrite (replay_unsigned_step None i h i n c h' h' ms cpu sb pt _ pos covered w Hl Hd).
    cbn [checkpoint_expected]. rewrite (IH (i + 1) h' (pos + 1) w H).
    replace (i + 1 + py_len l) with (i + py_len (d :: l)); [done|].
    unfold py_len. simpl length. lia.
Qed.

(** *** The terminal record *)
Definition final_check (final : option dict) (st : HashChainClientState) : M world bool :=
  match final with
  | None => ret false
  | Some final =>
      let* h := of_result (let? v := getitem "final_chain_hash" final in _b64d v) in
      let* vn := of_result (getitem "n_chunks" final) in
      let* s := of_result (let? v := getitem "signature" final in _b64d v) in
      let* r := verify_hash_chain_final
                  [("final_chain_hash", VBytes h); ("n_chunks", vn); ("signature", VBytes s)] st spk in
      ret (cf_stream_fully_verified r)
  end.

Lemma final_accepted k n h d w :
  good_final n h d -> exists w', final_check (Some d) (at_chain k n h) w = (Ok true, w').
Proof.
  intros (sg & ms & cpu & msg & -> & Hm & Ha).
  destruct (Ha w) as (meta & w' & Hv & [[vms Hms] [[vcpu Hcpu] _]]). exists w'.
  unfold final_check, chain_final_wire, verify_hash_chain_final, get_bytes, verify_times, getitem,
    bind, of_result, ret. cbn. rewrite !b64d_b64e. cbn. rewrite Hm. cbn.
  rewrite Hv, Hms. cbn. rewrite Z.eqb_refl. unfold bytes_eqb. by rewrite bool_decide_eq_true_2.
Qed.

Lemma replay_chain_unfold chunks0 final0 mutated final k (enf : bool) w r w1 st :
  replay_hash_chain Cli key spk mutated 0 0
    (w, at_chain (if enf then k else None) 0 (genesis_hash hid)) = (Ok r, (w1, st)) ->
  replay_through_client (mkCapture hid key spk Cli chunks0 final0) mutated final "hash_chain" k enf w
  = match r with
    | (Some pos, covered) => (Ok (Some pos, covered), w1)
    | (None, covered) =>
        (let* ok := final_check final st in
         ret ((if ok then None else Some (py_len mutated)),
              if ok then py_len mutated else covered)) w1
    end.
Proof.
  intros H. unfold replay_through_client.
  cbn [cap_handshake_id cap_session_key cap_sig_public_key cap_client_crypto String.eqb Ascii.eqb
       Bool.eqb]. unfold new_chain_state. unfold at_chain in H. rewrite H.
  destruct r as [[pos|] covered]; reflexivity.
Qed.
End Chain.

(** C17: Enforcing the checkpoint schedule is what stops checkpoint stripping:
    over a genuine hash-chain stream with checkpoints, removing every
    checkpoint signature is rejected at the first of them by the client that
    enforces the schedule it requested, and accepted, with nothing covered
    before the end, by the client that does not; the untouched stream is
    accepted. *)
Theorem checkpoint_strip_needs_schedule {E : Env} {P : Prims} {Cli : ClientCryptoConfig}
    {R : Type} {RND : Random R} (key spk : bytes) (hid : string) (chunks : list dict)
    (final : dict) (donor : capture) (k : option Z) (last : bytes) (ck : Z) (more : list Z)
    (w : world) (r : R)
    (Hstream : chain_stream key spk hid k 0 (genesis_hash hid) chunks last)
    (Hfinal : good_final spk hid (py_len chunks) last final)
    (Hck : _ckpt_positions chunks = ck :: more) :
  let cap := mkCapture hid key spk Cli chunks (Some final) in
  let stripped := map strip_checkpoint chunks in
  _mutate cap donor "checkpoint_strip" "hash_chain" r = (Ok (Some ((stripped, Some final), ck)), r)
  /\ (exists w', replay_through_client cap stripped (Some final) "hash_chain" k true w
                 = (Ok (Some ck, 0), w'))
  /\ (exists w', replay_through_client cap stripped (Some final) "hash_chain" k false w
                 = (Ok (None, py_len chunks), w'))
  /\ (exists w', replay_through_client cap chunks (Some final) "hash_chain" k true w
                 = (Ok (None, py_len chunks), w')).
Proof.
  intros cap stripped.
  assert (Hlen : py_len stripped = py_len chunks) by (unfold py_len, stripped; by rewrite length_map).
  split_and!.
  - unfold _mutate. rewrite bool_decide_eq_false_2 by (unfold STATIC; set_solver).
    unfold mutate_adaptive. cbn [cap_chunks cap]. by rewrite Hck.
  - rewrite ckpt_positions_eq in Hck.
    destruct (strip_rejected key spk hid k 0 _ chunks last ck more 0 w Hstream Hck)
      as (w' & h' & m & H). exists w'. unfold cap, stripped.
    by rewrite (replay_chain_unfold key spk hid _ _ _ _ k true w _ _ _ H).
  - pose proof (strip_unnoticed key spk hid k 0 _ chunks last 0 0 w Hstream) as H.
    destruct (final_accepted spk hid None (0 + py_len chunks) last final w) as [w' Hf].
    { by rewrite Z.add_0_l. }
    exists w'. unfold cap, stripped. rewrite (replay_chain_unfold key spk hid _ _ _ _ k false w _ _ _ H).
    rewrite (bind_Ok _ _ _ _ _ Hf). unfold ret. by rewrite <- Hlen.
  - destruct (replay_genuine key spk hid k 0 _ chunks last 0 0 w Hstream) as (cov & w1 & H).
    destruct (final_accepted spk hid k (0 + py_len chunks) last final w1) as [w' Hf].
    { by rewrite Z.add_0_l. }
    exists w'. unfold cap. rewrite (replay_chain_unfold key spk hid _ _ _ _ k true w _ _ _ H).
    by rewrite (bind_Ok _ _ _ _ _ Hf).
Qed.
