(* ===== verification/StreamingRun.v ===== *)
(** * The streaming round trip: server generator to client verdict

    [event_generator] over the tokens of a backend, through the lines of the
    response, into the client's loop: for every strategy with a
    [HonestStrategy] relation the client ends with a [True] verdict and the
    tokens' text. *)
From stdpp Require Import gmap.
From S2P Require Import Prelude PyBytes Sha256 PyVal World Instrumentation Aead Base Configs.
From S2P Require Import ConfigsLaws Streaming Http SecureApp StreamingClient.
From S2P Require Import StreamingClientSteps StreamingIntegrity StreamingHonest.

(** ** Lines of events *)

(** An event whose text ends its last line. *)
Definition closed_event (e : string) : Prop :=
  forall rest, split_lines (e +:+ rest) = split_lines e ++ split_lines rest.

Lemma aiter_lines_snoc ys e :
  Forall closed_event ys -> aiter_lines (ys ++ [e]) = aiter_lines ys ++ aiter_lines [e].
Proof.
  intros H. unfold aiter_lines. simpl. induction H as [|y ys Hy Hys IH].
  - simpl. done.
  - change ((y :: ys) ++ [e]) with (y :: (ys ++ [e])). rewrite !concat_cons, Hy, IH.
    rewrite (Hy (String.concat "" ys)). by rewrite app_assoc.
Qed.

Lemma sse_event_lines t rest :
  one_line t = true ->
  split_lines (sse_event t +:+ rest) = ["data: " +:+ t; ""] ++ split_lines rest.
Proof.
  intros Ht. unfold sse_event, newlines. rewrite !string_app_assoc.
  change (String (Ascii.ascii_of_nat 10) (String (Ascii.ascii_of_nat 10) "") +:+ rest)
    with (String LF (String LF rest)).
  rewrite <- string_app_assoc, split_lines_app; [reflexivity|].
  by rewrite one_line_app, Ht.
Qed.

Lemma sse_done_lines t rest :
  one_line t = true ->
  split_lines (sse_done t +:+ rest)
  = ["event: done"; "data: " +:+ t; ""] ++ split_lines rest.
Proof.
  intros Ht. unfold sse_done. rewrite !string_app_assoc.
  change (String (Ascii.ascii_of_nat 10) "" +:+ ("data: " +:+ (t +:+ (newlines +:+ rest))))
    with (String LF ("data: " +:+ (t +:+ (newlines +:+ rest)))).
  rewrite split_lines_app by done.
  replace ("data: " +:+ (t +:+ (newlines +:+ rest))) with (sse_event t +:+ rest)
    by (unfold sse_event; by rewrite !string_app_assoc).
  by rewrite sse_event_lines.
Qed.

Lemma closed_sse_event t : one_line t = true -> closed_event (sse_event t).
Proof.
  intros Ht rest. rewrite sse_event_lines by done.
  rewrite <- (string_app_nil_r (sse_event t)) at 1. by rewrite sse_event_lines.
Qed.

Lemma aiter_sse_event t : one_line t = true -> aiter_lines [sse_event t] = ["data: " +:+ t; ""].
Proof.
  intros Ht. unfold aiter_lines. change (String.concat "" [sse_event t]) with (sse_event t).
  rewrite <- (string_app_nil_r (sse_event t)).
  by rewrite sse_event_lines.
Qed.
Lemma aiter_sse_done t :
  one_line t = true -> aiter_lines [sse_done t] = ["event: done"; "data: " +:+ t; ""].
Proof.
  intros Ht. unfold aiter_lines. change (String.concat "" [sse_done t]) with (sse_done t).
  rewrite <- (string_app_nil_r (sse_done t)).
  by rewrite sse_done_lines.
Qed.

(** ** Batching tokens *)

(** The texts [flush_buffer] hands to the strategy. *)
Fixpoint batch_tokens (size : Z) (buf tokens : list string) : list string :=
  match tokens with
  | [] => match buf with [] => [] | _ => [String.concat "" buf] end
  | t :: ts =>
      let buf' := buf ++ [t] in
      if size <=? Z.of_nat (length buf') then String.concat "" buf' :: batch_tokens size [] ts
      else batch_tokens size buf' ts
  end.

Lemma concat_app_string l1 l2 :
  String.concat "" (l1 ++ l2) = String.concat "" l1 +:+ String.concat "" l2.
Proof.
  induction l1 as [|a l1 IH]; [done|]. rewrite <- app_comm_cons, !concat_cons, IH.
  by rewrite string_app_assoc.
Qed.

Lemma batch_tokens_concat size buf tokens :
  String.concat "" (batch_tokens size buf tokens) = String.concat "" (buf ++ tokens).
Proof.
  revert buf; induction tokens as [|t ts IH]; intros buf.
  - rewrite app_nil_r. destruct buf; done.
  - cbn [batch_tokens]. destruct (size <=? _).
    + rewrite concat_cons, IH. simpl. by rewrite <- concat_app_string, <- app_assoc.
    + rewrite IH. by rewrite <- app_assoc.
Qed.

Lemma batch_tokens_length size buf tokens :
  (length (batch_tokens size buf tokens) <= length tokens + match buf with [] => 0 | _ => 1 end)%nat.
Proof.
  revert buf; induction tokens as [|t ts IH]; intros buf; cbn [batch_tokens].
  - destruct buf; simpl; lia.
  - destruct (size <=? _).
    + specialize (IH []). simpl in *. destruct buf; lia.
    + specialize (IH (buf ++ [t])). destruct buf; simpl in *; lia.
Qed.

Lemma encode_app a b : encode (a +:+ b) = encode a ++ encode b.
Proof.
  unfold encode, String.list_byte_of_string. rewrite <- map_app. f_equal.
  induction a as [|c a IH]; [done|]. rewrite string_app_cons. simpl. by rewrite IH.
Qed.

Lemma texts_bytes_concat texts : texts_bytes texts = encode (String.concat "" texts).
Proof.
  induction texts as [|t texts IH]; [done|]. rewrite concat_cons, encode_app, <- IH. done.
Qed.

(** ** The client on the lines of one event *)
Section Client.
Context {E : Env} {P : Prims} {J : Json} {JL : JsonLaws J} {Cli : ClientCryptoConfig}.
Variables (strategy : string) (key spk : bytes) (hid : string).

Abbreviation client_line := (on_line strategy key spk hid).

Lemma for_each_app {Σ A} (body : A -> M Σ unit) l1 l2 σ σ1 :
  for_each l1 body σ = (Ok tt, σ1) -> for_each (l1 ++ l2) body σ = for_each l2 body σ1.
Proof.
  revert σ; induction l1 as [|a l1 IH]; intros σ H; simpl in *.
  - by injection H as <-.
  - apply bind_inv_Ok in H as ([] & σ2 & H1 & H2).
    rewrite (bind_Ok _ _ _ _ _ H1). by apply IH.
Qed.

Lemma on_line_data t0 d w c :
  jsonable (VDict d) = true ->
  exists w1 c1, view c1 = view c /\
    client_line t0 ("data: " +:+ json_text (VDict d)) (w, c)
    = dispatch strategy key spk hid d (w1, c1).
Proof.
  intros Hd. unfold on_line. rewrite sse_data_line by done.
  unfold bind at 1, of_result at 1. unfold on_data, bind, self.
  destruct (m_ttft_ms (c_metrics c)) eqn:Ht.
  - exists w, c. split; [done|]. unfold ret, of_result. simpl.
    by destruct (dispatch _ _ _ _ d (w, c)) as [[[]|] ?].
  - eexists _, (on_metrics (set_ttft (Some ((env_perf_counter (tick w) - t0) * 1000)%Q)) c).
    split; [destruct c as [m p ch te ei re]; destruct m; reflexivity|]. reflexivity.
Qed.

Lemma on_line_skip t0 line w c : sse_payload line = None -> client_line t0 line (w, c) = (Ok tt, (w, c)).
Proof. intros H. unfold on_line, sse_data. rewrite H. reflexivity. Qed.

(** Two lines of an event: the record, and the blank line. *)
Lemma run_event t0 d w c (Q : cview -> Prop) :
  jsonable (VDict d) = true ->
  (forall w1 c1, view c1 = view c -> exists w2 c2,
      dispatch strategy key spk hid d (w1, c1) = (Ok tt, (w2, c2)) /\ Q (view c2)) ->
  exists w2 c2,
    for_each (aiter_lines [sse_event (json_text (VDict d))]) (client_line t0) (w, c)
    = (Ok tt, (w2, c2)) /\ Q (view c2).
Proof.
  intros Hd Hstep. rewrite aiter_sse_event by apply json_one_line. cbn [for_each].
  destruct (on_line_data t0 d w c Hd) as (w1 & c1 & Hv & Hl).
  destruct (Hstep w1 c1 Hv) as (w2 & c2 & Hrun & HQ).
  rewrite Hrun in Hl. rewrite (bind_Ok _ _ _ _ _ Hl).
  rewrite (bind_Ok _ _ _ _ _ (on_line_skip t0 "" w2 c2 eq_refl)).
  exists w2, c2. done.
Qed.

(** The closing event changes nothing the verdict depends on. *)
Lemma run_done_event t0 d w c :
  jsonable (VDict d) = true -> dget "kind" d = None ->
  exists w2 c2,
    for_each (aiter_lines [sse_done (json_text (VDict d))]) (client_line t0) (w, c)
    = (Ok tt, (w2, c2)) /\ view c2 = view c.
Proof.
  intros Hd Hk. rewrite aiter_sse_done by apply json_one_line. cbn [for_each].
  rewrite (bind_Ok _ _ _ _ _ (on_line_skip t0 "event: done" w c eq_refl)).
  destruct (on_line_data t0 d w c Hd) as (w1 & c1 & Hv & Hl).
  assert (Hdisp : dispatch strategy key spk hid d (w1, c1) = (Ok tt, (w1, c1))).
  { unfold dispatch, kind_is. by rewrite Hk. }
  rewrite Hdisp in Hl. rewrite (bind_Ok _ _ _ _ _ Hl).
  rewrite (bind_Ok _ _ _ _ _ (on_line_skip t0 "" w1 c1 eq_refl)).
  exists w1, c1. done.
Qed.
End Client.

(** ** The generator against the client *)
Section Generator.
Context {E : Env} {P : Prims} {EL : EnvLaws E} {PL : PrimLaws P} {J : Json} {JL : JsonLaws J}.
Context {T : Type} {Srv : ServerCryptoConfig T} {Cli : ClientCryptoConfig}
        {L : ConfigLaws Srv Cli}.
Variables (s : T) (hid : string) (kpk spk key : bytes).
Variables (strategy : string) (K : Type) (Strat : StreamSigningStrategy (S := T) K).
Context {HS : HonestStrategy s hid spk key strategy K Strat}.
Variables (t0 : Q) (wc0 : world) (c0 : client_state).

Record gen_inv (texts buf : list string) (k : K) (g : generator) : Prop := {
  gi_index : g_index g = Z.of_nat (length texts);
  gi_buffer : g_token_buffer g = buf;
  gi_closed : Forall closed_event (g_yielded g);
  gi_client : exists wc c,
    for_each (aiter_lines (g_yielded g)) (on_line strategy key spk hid t0) (wc0, c0)
    = (Ok tt, (wc, c)) /\ hs_rel texts k (view c);
}.

Lemma flush_step texts t buf w k g :
  gen_inv texts (t :: buf) k g -> Z.of_nat (length texts) < 2 ^ 32 ->
  exists w' k' g',
    (let* line := flush_buffer in yield_some line) (((w, s), k), g)
    = (Ok tt, (((w', s), k'), g'))
    /\ gen_inv (texts ++ [String.concat "" (t :: buf)]) [] k' g'.
Proof.
  intros [Hi Hb Hc (wc & c & Hcl & Hrel)] Hlen.
  set (text := String.concat "" (t :: buf)).
  destruct (hs_chunk texts text k (view c) w Hrel Hlen) as (o & w' & k' & Hadd & Ho).
  assert (Hlen' : g_index g + 1 = Z.of_nat (length (texts ++ [text])))
    by (rewrite Hi, length_app; simpl; lia).
  destruct o as [row|].
  - destruct Ho as [Hj Hstep].
    set (e := sse_event (json_text (VDict (_encode_for_wire row)))).
    exists w', k', (mkGen (g_index g + 1) [] (g_yielded g ++ [e])). split.
    + unfold flush_buffer, bind, self, set_self, on_fst, of_result, ret. rewrite Hb.
      fold text. cbn [g_index g_yielded g_token_buffer]. rewrite Hi, Hadd.
      rewrite json_dumps_jsonable by done. reflexivity.
    + constructor; simpl; [done|done| |].
      * apply Forall_app. split; [done|]. constructor; [|constructor].
        apply closed_sse_event, json_one_line.
      * rewrite aiter_lines_snoc by done. rewrite (for_each_app _ _ _ _ _ Hcl).
        destruct (run_event strategy key spk hid t0 _ wc c (hs_rel (texts ++ [text]) k') Hj)
          as (w2 & c2 & H2 & HQ).
        { intros w1 c1 Hv1. destruct (Hstep w1 c1 Hv1) as (w2 & c2 & ? & ?). eauto. }
        exists w2, c2. done.
  - exists w', k', (mkGen (g_index g + 1) [] (g_yielded g)). split.
    + unfold flush_buffer, bind, self, set_self, on_fst, of_result, ret. rewrite Hb.
      fold text. cbn [g_index g_yielded g_token_buffer]. rewrite Hi, Hadd. reflexivity.
    + constructor; simpl; eauto.
Qed.

Lemma flush_empty texts w k g :
  gen_inv texts [] k g ->
  (let* line := flush_buffer in yield_some line) (((w, s), k), g) = (Ok tt, (((w, s), k), g)).
Proof. intros [_ Hb _ _]. unfold flush_buffer, bind, self, ret. by rewrite Hb. Qed.

Lemma on_token_step size texts buf t w k g :
  gen_inv texts buf k g -> Z.of_nat (length texts) < 2 ^ 32 ->
  exists w' k' g' texts' buf',
    on_token size t (((w, s), k), g) = (Ok tt, (((w', s), k'), g'))
    /\ gen_inv texts' buf' k' g'
    /\ (forall ts, texts' ++ batch_tokens size buf' ts = texts ++ batch_tokens size buf (t :: ts))
    /\ (length texts' <= S (length texts))%nat.
Proof.
  intros Hg Hlen. pose proof Hg as [Hi Hb Hc Hcl].
  set (g1 := mkGen (g_index g) (buf ++ [t]) (g_yielded g)).
  assert (Hg1 : gen_inv texts (buf ++ [t]) k g1) by (constructor; simpl; auto).
  unfold on_token. cbn [batch_tokens].
  unfold bind at 1, self at 1. unfold bind at 1, set_self at 1. rewrite Hb. fold g1.
  destruct (size <=? Z.of_nat (length (buf ++ [t]))).
  - destruct (buf ++ [t]) as [|t' b'] eqn:Hbt; [by destruct buf|].
    destruct (flush_step texts t' b' w k g1 Hg1 Hlen) as (w' & k' & g' & Hrun & Hg').
    exists w', k', g', (texts ++ [String.concat "" (t' :: b')]), [].
    split_and!; [exact Hrun|exact Hg'| |rewrite length_app; simpl; lia].
    intros ts. by rewrite <- app_assoc.
  - exists w, k, g1, texts, (buf ++ [t]). split_and!; [done|done|done|lia].
Qed.

Lemma tokens_loop size tokens texts buf w k g :
  gen_inv texts buf k g ->
  Z.of_nat (length texts + length tokens) < 2 ^ 32 ->
  exists w' k' g' texts' buf',
    for_each tokens (on_token size) (((w, s), k), g) = (Ok tt, (((w', s), k'), g'))
    /\ gen_inv texts' buf' k' g'
    /\ texts' ++ batch_tokens size buf' [] = texts ++ batch_tokens size buf tokens
    /\ (length texts' <= length texts + length tokens)%nat.
Proof.
  revert texts buf w k g; induction tokens as [|t ts IH]; intros texts buf w k g Hg Hlen.
  - exists w, k, g, texts, buf. split_and!; [done|done|done|lia].
  - simpl length in Hlen.
    destruct (on_token_step size texts buf t w k g Hg ltac:(lia))
      as (w1 & k1 & g1 & texts1 & buf1 & H1 & Hg1 & Heq & Hl1).
    destruct (IH texts1 buf1 w1 k1 g1 Hg1 ltac:(lia))
      as (w2 & k2 & g2 & texts2 & buf2 & H2 & Hg2 & Heq2 & Hl2).
    exists w2, k2, g2, texts2, buf2. cbn [for_each].
    rewrite (bind_Ok _ _ _ _ _ H1). split_and!; [exact H2|exact Hg2| |simpl; lia].
    by rewrite Heq2, Heq.
Qed.

Lemma trailing_flush size texts buf w k g :
  gen_inv texts buf k g -> Z.of_nat (length texts) < 2 ^ 32 ->
  exists w' k' g',
    (let* line := flush_buffer in yield_some line) (((w, s), k), g)
    = (Ok tt, (((w', s), k'), g'))
    /\ gen_inv (texts ++ batch_tokens size buf []) [] k' g'.
Proof.
  intros Hg Hlen. destruct buf as [|t buf].
  - exists w, k, g. simpl. rewrite app_nil_r. split; [by eapply flush_empty|done].
  - by apply flush_step.
Qed.

(** The generator's last events: the terminal record and the closing event. *)
Lemma terminal_step texts w k g :
  gen_inv texts [] k g -> Z.of_nat (length texts) < 2 ^ 32 ->
  exists row w' k' e,
    on_fst (finalize (g_index g)) (((w, s), k), g) = (Ok (Some row), (((w', s), k'), g))
    /\ json_dumps (VDict (_encode_for_wire row)) = Ok e
    /\ Forall closed_event (g_yielded g ++ [sse_event e])
    /\ exists wc c,
         for_each (aiter_lines (g_yielded g ++ [sse_event e]))
           (on_line strategy key spk hid t0) (wc0, c0) = (Ok tt, (wc, c))
         /\ v_terminal (view c) = true /\ v_recon (view c) = texts_bytes texts
         /\ v_sigs (view c) = true /\ v_aead (view c) = true /\ v_order (view c) = true
         /\ (v_verified (view c) = None \/ v_verified (view c) = Some true).
Proof.
  intros [Hi _ Hc (wc & c & Hcl & Hrel)] Hlen.
  destruct (hs_final texts k (view c) w Hrel Hlen) as (row & w' & k' & Hfin & Hj & Hstep).
  exists row, w', k', (json_text (VDict (_encode_for_wire row))).
  split; [by rewrite on_fst_run, Hi, Hfin|].
  split; [by apply json_dumps_jsonable|]. split.
  { apply Forall_app. split; [done|]. constructor; [|constructor].
    apply closed_sse_event, json_one_line. }
  rewrite aiter_lines_snoc by done. rewrite (for_each_app _ _ _ _ _ Hcl).
  apply (run_event strategy key spk hid t0 _ wc c (fun v =>
    v_terminal v = true /\ v_recon v = texts_bytes texts
    /\ v_sigs v = true /\ v_aead v = true /\ v_order v = true
    /\ (v_verified v = None \/ v_verified v = Some true)) Hj).
  intros w1 c1 Hv. by apply Hstep.
Qed.

Lemma closing_jsonable n ms : jsonable (VDict [("n_chunks", VInt n); ("total_ms", VFloat ms)]) = true.
Proof. by apply wire_jsonable. Qed.

(** A stream of the tokens [tokens], received by the client. *)
Definition delivered (tokens : list string) (g : generator) : Prop :=
  exists wc c, consume strategy key spk hid t0 (aiter_lines (g_yielded g)) (wc0, c0)
               = (Ok tt, (wc, c))
    /\ m_stream_fully_verified (c_metrics c) = Some true
    /\ c_reconstructed c = encode (String.concat "" tokens)
    /\ m_reconstructed_bytes (c_metrics c) = Z.of_nat (length (c_reconstructed c))
    /\ m_all_signatures_valid (c_metrics c) = true
    /\ m_all_aead_ok (c_metrics c) = true /\ m_all_in_order (c_metrics c) = true.

Lemma conclude_delivered tokens texts lines wc c :
  for_each lines (on_line strategy key spk hid t0) (wc0, c0) = (Ok tt, (wc, c)) ->
  String.concat "" texts = String.concat "" tokens ->
  v_terminal (view c) = true -> v_recon (view c) = texts_bytes texts ->
  v_sigs (view c) = true -> v_aead (view c) = true -> v_order (view c) = true ->
  (v_verified (view c) = None \/ v_verified (view c) = Some true) ->
  exists wc' c', consume strategy key spk hid t0 lines (wc0, c0) = (Ok tt, (wc', c'))
    /\ m_stream_fully_verified (c_metrics c') = Some true
    /\ c_reconstructed c' = encode (String.concat "" tokens)
    /\ m_reconstructed_bytes (c_metrics c') = Z.of_nat (length (c_reconstructed c'))
    /\ m_all_signatures_valid (c_metrics c') = true
    /\ m_all_aead_ok (c_metrics c') = true /\ m_all_in_order (c_metrics c') = true.
Proof.
  intros Hrun Htok Ht Hr Hs Ha Ho Hv. unfold consume. rewrite (bind_Ok _ _ _ _ _ Hrun).
  rewrite texts_bytes_concat, Htok in Hr.
  destruct c as [m p ch te ei re]; destruct m.
  unfold conclude, bind, now, upd_m, upd, self, on_fst, ret, perf_counter. simpl in *. subst.
  destruct Hv as [->| ->]; simpl; eexists _, _; (split; [reflexivity|]); by simpl.
Qed.

Theorem generator_delivers size tokens w k0 :
  hs_rel (s := s) [] k0 (view c0) ->
  Z.of_nat (length tokens) < 2 ^ 32 ->
  exists w' s' k' g,
    event_generator hid size (tokens, None) (((w, s), k0), mkGen 0 [] [])
    = (Ok tt, (((w', s'), k'), g))
    /\ (known s' hid = false /\ forall h, h <> hid -> known s' h = known s h)
    /\ g_index g = Z.of_nat (length (batch_tokens size [] tokens))
    /\ delivered tokens g.
Proof.
  intros Hrel Hlen.
  assert (Hg0 : gen_inv [] [] k0 (mkGen 0 [] [])).
  { constructor; simpl; [done|done|constructor|]. exists wc0, c0. done. }
  destruct (tokens_loop size tokens [] [] (advance w) k0 _ Hg0) as
    (w1 & k1 & g1 & texts1 & buf1 & H1 & Hg1 & Heq1 & Hl1); [simpl; lia|].
  simpl in Hl1.
  destruct (trailing_flush size texts1 buf1 w1 k1 g1 Hg1) as (w2 & k2 & g2 & H2 & Hg2); [lia|].
  rewrite Heq1 in Hg2. simpl app in Hg2.
  pose proof (batch_tokens_length size [] tokens) as Hbl. rewrite Nat.add_0_r in Hbl.
  destruct (terminal_step _ w2 k2 g2 Hg2) as
    (row & w3 & k3 & e & Hfin & Hj & Hclosed & (wc & c & Hcl & Hterm)); [lia|].
  destruct (forget_ok (advance w3) s hid) as (s' & Hf & Hk & Hoth & _).
  set (n := g_index g2).
  set (ms := ((env_perf_counter (tick w3) - env_perf_counter (tick w)) * 1000)%Q).
  pose proof (json_dumps_jsonable _ (closing_jsonable n ms)) as Hjc.
  set (d := json_text (VDict [("n_chunks", VInt n); ("total_ms", VFloat ms)])) in *.
  exists (advance w3), s', k3, (mkGen n [] ((g_yielded g2 ++ [sse_event e]) ++ [sse_done d])).
  split; [|split; [done|split]].
  - unfold event_generator. unfold bind at 1.
    change (on_fst (on_fst (on_fst perf_counter)) (w, s, k0, mkGen 0 [] []))
      with (Ok (env_perf_counter (tick w)), (advance w, s, k0, mkGen 0 [] [])).
    cbv beta iota. cbn [fst snd]. rewrite aiter_sync_generator_all by lia.
    rewrite (bind_Ok _ _ _ _ _ H1). unfold bind at 1, ret at 1.
    rewrite <- (bind_assoc flush_buffer), (bind_Ok _ _ _ _ _ H2).
    unfold bind at 1, self at 1. rewrite (bind_Ok _ _ _ _ _ Hfin).
    unfold bind at 1. unfold bind at 1, of_result at 1. rewrite Hj. cbn [yield_event].
    rewrite (gi_buffer _ _ _ _ Hg2).
    unfold bind, on_fst, of_result.
    change (perf_counter w3) with (Ok (env_perf_counter (tick w3)), advance w3).
    cbv beta iota. fold ms n. rewrite Hjc.
    cbn [yield_event g_index g_token_buffer g_yielded]. by rewrite Hf.
  - apply gi_index in Hg2. done.
  - unfold delivered. cbn [g_yielded].
    destruct Hterm as (Ht & Hr & Hs & Ha & Ho & Hv).
    destruct (run_done_event strategy key spk hid t0 _ wc c (closing_jsonable n ms) eq_refl)
      as (wc2 & c2 & Hdone & Hvw).
    rewrite <- (for_each_app _ _ _ _ _ Hcl), <- aiter_lines_snoc in Hdone by done.
    eapply conclude_delivered; [exact Hdone|apply (batch_tokens_concat size [])|..];
      by rewrite Hvw.
Qed.
End Generator.
