(* ===== verification/StreamingTransaction.v ===== *)
(** * Whole streaming transactions against the server

    [run_streaming_transaction] through [app_transport]: handshake, key
    establishment, the encrypted request, the server's stream and the client's
    verdict, for every configuration and every strategy. *)
From stdpp Require Import gmap.
From S2P Require Import Prelude PyBytes Sha256 PyVal World Instrumentation Aead Base Configs PyNum.
From S2P Require Import ConfigsLaws Streaming Http HandshakeAuth SecureApp SecureClient.
From S2P Require Import StreamingClient AppServer StreamingClientSteps StreamingHonest StreamingRun.

Lemma string_eqb_app_l a x y : String.eqb (a +:+ x) (a +:+ y) = String.eqb x y.
Proof.
  induction a as [|c a IH]; rewrite ?string_app_nil_l, ?string_app_cons; [done|].
  simpl. by rewrite Ascii.eqb_refl.
Qed.

Lemma decode_or_400_b64e b : decode_or_400 (_b64e b) = Ok b.
Proof. unfold decode_or_400. by rewrite b64d_b64e. Qed.

Lemma perf_counter_run {E : Env} w : perf_counter w = (Ok (env_perf_counter (tick w)), advance w).
Proof. reflexivity. Qed.

Section Server.
Context {E : Env} {P : Prims} {EL : EnvLaws E} {PL : PrimLaws P} {J : Json} {JL : JsonLaws J}.
Context {T : Type} {Srv : ServerCryptoConfig T} {Cli : ClientCryptoConfig}
        {L : ConfigLaws Srv Cli}.

(** The handshake endpoint without an identity key. *)
Lemma handshake_run w (s : T) (ks : gmap string bytes) :
  exists b w1 s1, handshake None ((w, s), ks)
    = (Ok (HandshakeResponse (handshake_id b) (_b64e (kex_public_key b))
             (_b64e (hb_sig_public_key b)) kex_algorithm sig_algorithm (hb_meta b) VNone),
       ((w1, s1), ks))
    /\ live s1 (handshake_id b) (kex_public_key b) (hb_sig_public_key b)
    /\ (forall h, h <> handshake_id b -> known s1 h = known s h).
Proof.
  destruct (new_handshake_ok w s None) as (b & w1 & s1 & Hn & Hl & _ & _).
  exists b, w1, s1. split; [|split; [done|]]; [|intros h; by apply (new_handshake_known _ _ _ _ _ _ _ Hn)]. unfold handshake, crypto. unfold bind at 1, on_fst at 1.
  rewrite Hn. reflexivity.
Qed.

(** Accepting a client's blob through the endpoint. *)
Lemma accept_run hid blob key meta w w' (s : T) (ks : gmap string bytes) :
  accept hid blob (w, s) = (Ok (key, meta), (w', s)) ->
  accept_or_http hid blob ((w, s), ks) = (Ok (key, meta), ((w', s), ks)).
Proof. intros H. unfold accept_or_http, try_catch, crypto, on_fst. by rewrite H. Qed.

Definition kwargs_of (strategy : string) (interval : option Z) : option val :=
  if String.eqb strategy "hash_chain" then Some (interval_val interval) else None.

Definition start_view (strategy hid : string) (interval : option Z) : cview :=
  mkView true true true None
    (if String.eqb strategy "hash_chain" then Some (new_chain_state hid interval) else None)
    false 0 [].

(** Every strategy of the table is an honest one. *)
Lemma strategy_ready (s : T) hid kpk spk key strategy interval :
  live s hid kpk spk -> length key = 32%nat -> strategy ∈ STRATEGY_NAMES ->
  exists a (HS : HonestStrategy s hid spk key strategy (any_state a) (any_impl a)),
    get_server_strategy strategy hid key (kwargs_of strategy interval) = Ok a
    /\ hs_rel (HonestStrategy := HS) [] (any_object a) (start_view strategy hid interval).
Proof.
  intros Hl Hk Hs.
  assert (strategy = "buffer_and_sign" \/ strategy = "per_chunk" \/ strategy = "hash_chain")
    as [->|[->| ->]].
  { unfold STRATEGY_NAMES, keys, SERVER_STRATEGIES in Hs. simpl in Hs. set_solver. }
  - exists (mkAny _ BufferAndSign (new_buffer_and_sign hid key)).
    exists (honest_buffered s hid kpk spk key Hl Hk). done.
  - exists (mkAny _ PerChunk (new_per_chunk hid key)).
    exists (honest_per_chunk s hid kpk spk key Hl Hk). done.
  - exists (mkAny _ HashChain (new_hash_chain hid key (interval_val interval))).
    exists (honest_hash_chain s hid kpk spk key Hl Hk interval). split; [done|].
    exists (genesis_hash hid), 0. split_and!; [done| |done].
    split; [done|]. destruct interval; [intros; by rewrite Z.mod_0_l by lia|done].
Qed.

Lemma do_handshake_run (model_predict : val -> M world dict) (backend_stream : result token_source)
    (base_url : string) w (s : T) (ks : gmap string bytes) :
  let transport := app_transport model_predict backend_stream None base_url in
  exists b q w1 s1,
    do_handshake (TR := transport) base_url (w, (s, ks))
    = (Ok (HandshakeResponse (handshake_id b) (_b64e (kex_public_key b))
             (_b64e (hb_sig_public_key b)) kex_algorithm sig_algorithm (hb_meta b) VNone, q),
       (w1, (s1, ks)))
    /\ live s1 (handshake_id b) (kex_public_key b) (hb_sig_public_key b)
    /\ (forall h, h <> handshake_id b -> known s1 h = known s h).
Proof.
  intros transport.
  destruct (handshake_run (advance w) s ks) as (b & w1 & s1 & Hh & Hl & Hkn).
  eexists b, _, (advance w1), s1. split; [|exact (conj Hl Hkn)].
  unfold do_handshake. rewrite (bind_Ok _ _ _ _ _ (on_fst_Ok _ _ _ _ _ (perf_counter_run w))).
  assert (Hget : http_get (Transport := transport) (base_url +:+ "/secure/handshake")
                   (advance w, (s, ks))
                 = (Ok (json_response (HandshakeResponse (handshake_id b) (_b64e (kex_public_key b))
                          (_b64e (hb_sig_public_key b)) kex_algorithm sig_algorithm (hb_meta b)
                          VNone)), (w1, (s1, ks)))).
  { unfold transport. cbn [http_get app_transport]. unfold app_get. rewrite String.eqb_refl. unfold serve.
    by rewrite Hh. }
  rewrite (bind_Ok _ _ _ _ _ Hget). reflexivity.
Qed.

Variables (model_predict : val -> M world dict)
          (source : token_source).

(** The fields the endpoint reads from the client's request. *)
Lemma body_fields prompt strategy size max interval :
  let body := stream_request_body prompt strategy size max interval in
  dget_or "prompt" (VStr "") body = VStr prompt
  /\ dget_or "strategy" (VStr "buffer_and_sign") body = VStr strategy
  /\ dget_or "chunk_size_tokens" (VInt 5) body = VInt size
  /\ dget_or "max_tokens" (VInt 200) body = VInt max
  /\ dget_or "checkpoint_interval" VNone body = interval_val interval.
Proof. destruct interval; done. Qed.

(** The streaming endpoint's set-up on the client's request. *)
Lemma stream_setup_run hid prompt strategy size max interval key meta blob n ct w w'
    (s : T) (ks : gmap string bytes) a :
  accept hid blob (w, s) = (Ok (key, meta), (w', s)) ->
  aead_decrypt key n ct
  = Ok (encode (json_text (VDict (stream_request_body prompt strategy size max interval)))) ->
  get_server_strategy strategy hid key (kwargs_of strategy interval) = Ok a ->
  stream_setup (Ok source) (mkRequest hid (_b64e blob) (_b64e n) (_b64e ct) false) ((w, s), ks)
  = (Ok (a, (Z.max 1 size, source (VStr prompt) (Z.max 1 max))), ((w', s), ks)).
Proof.
  intros Ha Hd Hs. unfold stream_setup. cbn [req_kex_blob req_nonce req_ciphertext req_handshake_id].
  rewrite !decode_or_400_b64e. unfold bind at 1 2 3, of_result at 1 2 3.
  rewrite (bind_Ok _ _ _ _ _ (accept_run hid blob key meta w w' s ks Ha)). cbn [fst].
  unfold decrypt_or_400. rewrite Hd.
  unfold bind, of_result, ret.
  rewrite json_roundtrip by (destruct interval; reflexivity). cbn [as_dict].
  destruct (body_fields prompt strategy size max interval) as (-> & -> & -> & -> & ->).
  unfold py_int, strategy_key, val_eq_str. cbn [rbind]. fold (kwargs_of strategy interval). by rewrite Hs.
Qed.

(** The client's variables when the stream starts. *)
Definition start_client (strategy hid : string) (interval : option Z) : client_state :=
  mkClient metrics0 [] (if String.eqb strategy "hash_chain"
                        then Some (new_chain_state hid interval) else None) false 0 [].

Variables (base_url prompt strategy : string) (size max : Z) (interval : option Z)
          (tokens : list string).

Abbreviation transport := (app_transport model_predict (Ok source) None base_url).
Abbreviation server_state := (T * gmap string bytes)%type.

(** What the server answers to the client's streaming request. *)
Lemma post_stream_run hid kpk spk est n ct w (s : T) (ks : gmap string bytes)
    (Hl : live s hid kpk spk)
    (Hk : length (session_key est) = 32%nat)
    (Ha : forall ws, exists meta ws', accept hid (kex_blob est) (ws, s)
                                      = (Ok (session_key est, meta), (ws', s)))
    (Hd : aead_decrypt (session_key est) n ct
          = Ok (encode (json_text (VDict (stream_request_body prompt strategy size max interval)))))
    (Hs : strategy ∈ STRATEGY_NAMES)
    (Hb : source (VStr prompt) (Z.max 1 max) = (tokens, None))
    (Hlen : Z.of_nat (length tokens) < 2 ^ 32) :
  exists g w' s',
    http_post (Transport := transport) (base_url +:+ "/secure/predict/stream")
      [("handshake_id", VStr hid); ("kex_blob", VStr (_b64e (kex_blob est)));
       ("nonce", VStr (_b64e n)); ("ciphertext", VStr (_b64e ct))] [] (w, (s, ks))
    = (Ok (mkResponse 200 (Raise JSONDecodeError) "" (aiter_lines (g_yielded g)) None),
       (w', (s', ks)))
    /\ (known s' hid = false /\ forall h, h <> hid -> known s' h = known s h)
    /\ forall t0 wc0 c0, view c0 = start_view strategy hid interval ->
         exists wc c, consume strategy (session_key est) spk hid t0 (aiter_lines (g_yielded g)) (wc0, c0)
                      = (Ok tt, (wc, c))
           /\ m_stream_fully_verified (c_metrics c) = Some true
           /\ c_reconstructed c = encode (String.concat "" tokens)
           /\ m_reconstructed_bytes (c_metrics c) = Z.of_nat (length (c_reconstructed c))
           /\ m_all_signatures_valid (c_metrics c) = true
           /\ m_all_aead_ok (c_metrics c) = true /\ m_all_in_order (c_metrics c) = true.
Proof.
  destruct (Ha w) as (meta & ws' & Hacc).
  destruct (strategy_ready s hid kpk spk (session_key est) strategy interval Hl Hk Hs)
    as (a & HS & Hget & Hrel).
  pose proof (stream_setup_run hid prompt strategy size max interval (session_key est) meta
                (kex_blob est) n ct w ws' s ks a Hacc Hd Hget) as Hsetup.
  rewrite Hb in Hsetup.
  assert (Hgen : forall t0 wc0 c0, view c0 = start_view strategy hid interval ->
    exists w' s' k' g,
      event_generator (Strat := any_impl a) hid (Z.max 1 size) (tokens, None)
        (((ws', s), any_object a), mkGen 0 [] []) = (Ok tt, (((w', s'), k'), g))
      /\ (known s' hid = false /\ forall h, h <> hid -> known s' h = known s h)
      /\ delivered hid spk (session_key est) strategy t0 wc0 c0 tokens g).
  { intros t0 wc0 c0 Hv.
    destruct (generator_delivers s hid spk (session_key est) strategy _ (any_impl a) t0 wc0 c0
                (Z.max 1 size) tokens ws' (any_object a)) as (w' & s' & k' & g & H1 & H2 & _ & H4).
    { rewrite Hv. exact Hrel. }
    { exact Hlen. }
    exists w', s', k', g. exact (conj H1 (conj H2 H4)). }
  destruct (Hgen 0%Q world0 (start_client strategy hid interval) eq_refl)
    as (w' & s' & k' & g & Hrun & Hknown & _).
  exists g, w', s'. split; [|split; [exact Hknown|]].
  - cbn [http_post app_transport]. unfold app_post. rewrite !string_eqb_app_l.
    cbn [String.eqb Ascii.eqb Bool.eqb]. unfold serve, parse_request.
    cbn [dget String.eqb Ascii.eqb Bool.eqb rbind]. unfold bind at 1, of_result at 1.
    unfold secure_predict_stream. rewrite (bind_Ok _ _ _ _ _ Hsetup).
    cbn [req_handshake_id]. rewrite Hrun. reflexivity.
  - intros t0 wc0 c0 Hv. destruct (Hgen t0 wc0 c0 Hv) as (w2 & s2 & k2 & g2 & Hrun2 & _ & Hdel).
    rewrite Hrun in Hrun2. injection Hrun2 as <- <- <- <-.
    exact Hdel.
Qed.

(** What an honest transaction ends with. *)
Definition honest_outcome (m : metrics) : Prop :=
  m_error m = None /\ m_stream_fully_verified m = Some true
  /\ m_all_signatures_valid m = true /\ m_all_aead_ok m = true /\ m_all_in_order m = true
  /\ m_reconstructed_bytes m = Z.of_nat (length (encode (String.concat "" tokens))).

Lemma streaming_transaction_run w (s : T) (ks : gmap string bytes)
    (Hs : strategy ∈ STRATEGY_NAMES)
    (Hb : source (VStr prompt) (Z.max 1 max) = (tokens, None))
    (Hlen : Z.of_nat (length tokens) < 2 ^ 32) :
  exists w' s' c,
    streaming_transaction (TR := transport) Cli base_url prompt strategy size max interval
      ((w, (s, ks)), client_state0) = (Ok tt, ((w', (s', ks)), c))
    /\ honest_outcome (c_metrics c) /\ forall h, known s h = false -> known s' h = false.
Proof.
  destruct (do_handshake_run model_predict (Ok source) base_url w s ks) as (b & q & w1 & s1 & Hh & Hl & Hkn).
  destruct (key_agreement s1 _ _ _ w1 Hl) as (est & w2 & He & Lk & _ & Ha).
  set (body := VDict (stream_request_body prompt strategy size max interval)).
  destruct (aead_encrypt_run (session_key est) (encode (json_text body)) w2 Lk)
    as (r & Hr & _ & _ & Hd).
  destruct (post_stream_run (handshake_id b) (kex_public_key b) (hb_sig_public_key b) est
              (nonce r) (ciphertext r) (advance (advance w2)) s1 ks Hl Lk Ha Hd Hs Hb Hlen)
    as (g & w3 & s3 & Hpost & [Hgone Hothers] & Hclient).
  set (c1 := on_metrics (set_handshake_ms (Some q)) (start_client strategy (handshake_id b) interval)).
  destruct (Hclient (env_perf_counter (tick (advance w2))) w3 c1) as (wc & c & Hrun & Hv & Hrec & Hlenr & Hsig & Hae & Ho).
  { unfold c1. by destruct (String.eqb strategy "hash_chain"). }
  exists wc, s3, c. split.
  - unfold streaming_transaction.
    rewrite (bind_Ok _ _ _ _ _ (on_fst_Ok _ _ client_state0 _ _ Hh)).
    unfold HandshakeResponse, bind at 1, set_metric at 1.
    cbn [getitem dget String.eqb Ascii.eqb Bool.eqb rbind]. rewrite !b64d_b64e.
    unfold bind at 1 2 3, of_result at 1 2 3.
    rewrite (bind_Ok _ _ _ _ _ (on_fst_Ok _ _ _ _ _ (on_fst_Ok _ _ _ _ _ He))).
    rewrite json_dumps_jsonable by (by destruct interval). fold body.
    unfold bind at 1, of_result at 1.
    rewrite (bind_Ok _ _ _ _ _ (on_fst_Ok _ _ _ _ _ (on_fst_Ok _ _ _ _ _ Hr))).
    rewrite (bind_Ok _ _ _ _ _ (on_fst_Ok _ _ _ _ _ (on_fst_Ok _ _ _ _ _ (perf_counter_run _)))).
    unfold bind at 1 2, of_result at 1, set_chain_var at 1. cbn [as_str].
    rewrite (bind_Ok _ _ _ _ _ (on_fst_Ok _ _ _ _ _ Hpost)).
    cbn [status_code negb]. change (negb (200 =? 200)) with false. cbv iota.
    unfold local_step, consume_response. cbn [resp_lines resp_cut].
    fold (consume (Cli := Cli) strategy (session_key est) (hb_sig_public_key b) (handshake_id b)
            (env_perf_counter (tick (advance w2))) (aiter_lines (g_yielded g))).
    change (mkClient _ _ _ _ _ _) with c1. by rewrite Hrun.
  - assert (He0 : m_error (c_metrics c1) = None) by done.
    pose proof (consume_keeps_error strategy (session_key est) (hb_sig_public_key b)
      (handshake_id b) (env_perf_counter (tick (advance w2))) (aiter_lines (g_yielded g)) (w3, c1)) as Hk.
    rewrite Hrun in Hk. cbn [snd] in Hk.
    split.
    2: { intros h Hh'. destruct (decide (h = handshake_id b)) as [->|Hne]; [done|].
         by rewrite Hothers, Hkn. }
    unfold honest_outcome. rewrite Hk, <- Hrec, Hlenr. by repeat split.
Qed.
End Server.

(** C3: An honest streaming transaction ends verified: for every configuration,
    each of the three strategies and any chunk size, token limit and checkpoint
    interval, when the backend yields fewer than 2^32 tokens the client finishes
    without error, with [stream_fully_verified] true and every flag true, having
    reconstructed as many bytes as the tokens' text has; the server's
    session-key cache is unchanged, and a server started without sessions is
    left with none. *)
Theorem honest_stream_transaction {E : Env} {P : Prims} {EL : EnvLaws E} {PL : PrimLaws P}
    {J : Json} {JL : JsonLaws J} (config_name : string) (c : config)
    (base_url prompt strategy : string) (size max : Z) (interval : option Z)
    (tokens : list string)
    (model_predict : val -> M world dict) (source : token_source)
    (w : world) (s : cfg_state c) (ks : gmap string bytes)
    (Hc : get_crypto config_name = Ok c)
    (Hs : strategy ∈ STRATEGY_NAMES (Srv := cfg_server c))
    (Hb : source (VStr prompt) (Z.max 1 max) = (tokens, None))
    (Hlen : Z.of_nat (length tokens) < 2 ^ 32) :
  exists m w' s',
    run_streaming_transaction
      (TR := app_transport (Srv := cfg_server c) model_predict (Ok source) None base_url)
      base_url config_name prompt strategy size max interval (w, (s, ks)) = (Ok m, (w', (s', ks)))
    /\ m_error m = None /\ m_stream_fully_verified m = Some true
    /\ m_all_signatures_valid m = true /\ m_all_aead_ok m = true /\ m_all_in_order m = true
    /\ m_reconstructed_bytes m = Z.of_nat (length (encode (String.concat "" tokens)))
    /\ (s = server_init (ServerCryptoConfig := cfg_server c) -> forall hid w2 blob, exists w3,
           accept (ServerCryptoConfig := cfg_server c) hid blob (w2, s')
           = (Raise (KeyError hid), (w3, s'))).
Proof.
  destruct (get_crypto_laws config_name c Hc) as [L].
  destruct (streaming_transaction_run (Srv := cfg_server c) (Cli := cfg_client c) (L := L)
              model_predict source base_url prompt strategy size max interval tokens
              w s ks Hs Hb Hlen) as (w' & s' & cl & Hrun & Hout & Hknown).
  exists (c_metrics cl), w', s'. split; [|split_and!; try apply Hout].
  - unfold run_streaming_transaction, get_client_crypto. rewrite Hc. cbn [rbind].
    unfold bind, of_result. by rewrite Hrun.
  - intros ->. intros. apply (@accept_unknown _ _ _ L), Hknown, (@init_empty _ _ _ L).
Qed.

(** For every configuration and strategy: once the client has established
    a key, the server's generator over any batching of the backend's tokens,
    read line by line by the client's loop, ends with a true verdict, all flags
    true, and exactly the tokens' text reconstructed; the chunks are the token
    batches, and the handshake is forgotten. *)
Theorem stream_delivers_text {E : Env} {P : Prims} {EL : EnvLaws E} {PL : PrimLaws P}
    {J : Json} {JL : JsonLaws J} (config_name : string) (c : config)
    (strategy : string) (size : Z) (interval : option Z) (tokens : list string) (t0 : Q)
    (w wc : world) (s : cfg_state c)
    (Hc : get_crypto config_name = Ok c)
    (Hs : strategy ∈ STRATEGY_NAMES (Srv := cfg_server c))
    (Hlen : Z.of_nat (length tokens) < 2 ^ 32) :
  let Srv := cfg_server c in let Cli := cfg_client c in
  exists b w1 s1 est wc1 a w2 s2 k2 g wc2 cl,
    new_handshake None (w, s) = (Ok b, (w1, s1))
    /\ establish (kex_public_key b) wc = (Ok est, wc1)
    /\ get_server_strategy strategy (handshake_id b) (session_key est)
         (kwargs_of strategy interval) = Ok a
    /\ event_generator (Strat := any_impl a) (handshake_id b) size (tokens, None)
         (((w1, s1), any_object a), mkGen 0 [] []) = (Ok tt, (((w2, s2), k2), g))
    /\ g_index g = Z.of_nat (length (batch_tokens size [] tokens))
    /\ consume strategy (session_key est) (hb_sig_public_key b) (handshake_id b) t0
         (aiter_lines (g_yielded g)) (wc1, start_client strategy (handshake_id b) interval)
       = (Ok tt, (wc2, cl))
    /\ m_stream_fully_verified (c_metrics cl) = Some true
    /\ m_all_signatures_valid (c_metrics cl) && m_all_aead_ok (c_metrics cl)
       && m_all_in_order (c_metrics cl) = true
    /\ c_reconstructed cl = encode (String.concat "" tokens)
    /\ (forall ws blob, exists ws', accept (handshake_id b) blob (ws, s2)
                                    = (Raise (KeyError (handshake_id b)), (ws', s2))).
Proof.
  intros Srv Cli. destruct (get_crypto_laws config_name c Hc) as [L].
  destruct (new_handshake_ok w s None) as (b & w1 & s1 & Hn & Hl & _).
  destruct (key_agreement s1 _ _ _ wc Hl) as (est & wc1 & He & Lk & _).
  destruct (strategy_ready s1 _ _ _ (session_key est) strategy interval Hl Lk Hs)
    as (a & HS & Hget & Hrel).
  destruct (generator_delivers s1 _ _ (session_key est) strategy _ (any_impl a) t0 wc1
              (start_client strategy (handshake_id b) interval) size tokens w1 (any_object a) Hrel Hlen)
    as (w2 & s2 & k2 & g & Hg & [Hgone _] & Hi & wc2 & cl & Hcons & Hv & Hr & _ & Hsig & Hae & Ho).
  exists b, w1, s1, est, wc1, a, w2, s2, k2, g, wc2, cl.
  repeat split; try done; [by rewrite Hsig, Hae, Ho|].
  intros. by apply (@accept_unknown _ _ _ L).
Qed.

(** ** Streams of the synthetic backend, end to end

    The repository's own token source behind the server of [SecureApp]. *)
From S2P Require Import PyList Backends Profiles.

(** The synthetic backend as a token source. *)
Definition synthetic_source {R} {NR : NumpyRng R} (b : SyntheticStreamingBackend) : token_source :=
  fun prompt max_tokens => delivers (synthetic_backend b prompt max_tokens).

(** A stream of the synthetic backend arrives whole: for every
    configuration, strategy, chunk size and checkpoint interval and any limit
    below [2^32] tokens, a transaction against the server with the synthetic
    backend ends verified and without error, having reconstructed exactly the
    [max(1, max_tokens)] words the backend makes of the prompt -- the same for
    every configuration and strategy, at any token rate, and for a longer
    limit a continuation of them. *)
Theorem synthetic_stream_transaction {E : Env} {P : Prims} {EL : EnvLaws E} {PL : PrimLaws P}
    {J : Json} {JL : JsonLaws J} {R : Type} {NR : NumpyRng R} {NRL : NumpyRngLaws NR}
    (base_url prompt : string) (max : Z) (Hmax : max < 2 ^ 32) :
  exists tokens,
    Z.of_nat (length tokens) = Z.max 1 max /\ Forall bank_token tokens
    /\ (forall b max', max' <= max -> synthetic_backend b (VStr prompt) (Z.max 1 max')
                                   = Ok (take (Z.to_nat (Z.max 1 max')) tokens))
    /\ forall (config_name : string) (c : config) (strategy : string) (size : Z) (interval : option Z)
         (rate : SyntheticStreamingBackend) (model_predict : val -> M world dict)
         (w : world) (s : cfg_state c) (ks : gmap string bytes),
       get_crypto config_name = Ok c -> strategy ∈ STRATEGY_NAMES (Srv := cfg_server c) ->
       exists m w' s',
         run_streaming_transaction
           (TR := app_transport (Srv := cfg_server c) model_predict (Ok (synthetic_source rate)) None base_url)
           base_url config_name prompt strategy size max interval (w, (s, ks)) = (Ok m, (w', (s', ks)))
         /\ honest_outcome tokens m.
Proof.
  destruct (synthetic_backend_spec (mkSynthetic 30) prompt (Z.max 1 max))
    as (tokens & Htok & Hlen & Hbank & Hany & Hpre).
  exists tokens. split; [lia|]. split; [done|]. split.
  { intros b max' Hle. rewrite synthetic_backend_eq, <- (synthetic_backend_eq (mkSynthetic 30)).
    apply Hpre. lia. }
  intros config_name c strategy size interval rate model_predict w s ks Hc Hs.
  destruct (get_crypto_laws config_name c Hc) as [L].
  destruct (streaming_transaction_run (Srv := cfg_server c) (Cli := cfg_client c) (L := L)
              model_predict (synthetic_source rate) base_url prompt strategy size max interval tokens
              w s ks Hs ltac:(unfold synthetic_source; by rewrite Hany)) as (w' & s' & cl & Hrun & Hout & _); [lia|].
  exists (c_metrics cl), w', s'. split; [|exact Hout].
  unfold run_streaming_transaction, get_client_crypto. rewrite Hc. cbn [rbind].
  unfold bind, of_result. by rewrite Hrun.
Qed.
