(* ===== verification/StreamingVerdict.v ===== *)
(** * What the streaming verdict does not say

    Two behaviours of the consumption loop that a reader of
    [stream_fully_verified] would not expect: records after the terminal one
    still add plaintext, and the hash-chain verdict is the terminal record's
    alone. *)
From S2P Require Import Prelude PyBytes Sha256 PyVal World Instrumentation Aead Base Streaming.
From S2P Require Import Http SecureApp StreamingClient StreamingClientSteps StreamingHonest.
From S2P Require Import StreamingRun.

Section Verdict.
Context {E : Env} {P : Prims} {J : Json} {JL : JsonLaws J} {Cli : ClientCryptoConfig}.
Variables (key spk : bytes) (hid : string).

(** A chunk with a valid signature and envelope, at whatever index. *)
Lemma on_per_chunk_any i n c sg ms cpu pt msg wc cl :
  chunk_message (stream_context hid) i n c = Ok msg -> accepts msg sg spk ->
  aead_decrypt key n c = Ok pt ->
  exists wc' cl', on_per_chunk key spk hid (pc_wire i n c sg ms cpu) (wc, cl) = (Ok tt, (wc', cl'))
    /\ view cl' = mkView (v_sigs (view cl)) (v_aead (view cl))
                   (v_order (view cl) && (i =? v_index (view cl)))
                   (v_verified (view cl)) (v_chain (view cl)) (v_terminal (view cl))
                   (v_index (view cl) + 1) (v_recon (view cl) ++ pt).
Proof.
  intros Hm Ha Hd. destruct (Ha wc) as (meta & w' & Hv & [[vms Hms] [[vcpu Hcpu] _]]).
  unfold on_per_chunk, pc_wire, verify_per_chunk, get_bytes, add_num, decrypt_if, _decrypt_into,
    verify_times, bind, of_result, on_fst, self, upd_m, upd, now, ret.
  cbn [getitem dget dget_or String.eqb Ascii.eqb Bool.eqb rbind]. rewrite ?b64d_b64e. cbn.
  rewrite Hm. cbn. rewrite Hv. unfold getitem. rewrite Hms, Hcpu, Hd. cbn.
  destruct cl as [m p ch te ei re]; destruct m; simpl.
  destruct (i =? ei); simpl; eexists _, _; (split; [reflexivity|]); unfold view; simpl;
    destruct p; simpl; by rewrite ?andb_true_r, ?andb_false_r.
Qed.

(** [conclude] on a state whose verdict is set. *)
Lemma conclude_keeps_verdict t0 w c v :
  c_terminal_seen c = true -> m_stream_fully_verified (c_metrics c) = Some v ->
  exists w' c', conclude t0 (w, c) = (Ok tt, (w', c'))
    /\ m_stream_fully_verified (c_metrics c') = Some v /\ c_reconstructed c' = c_reconstructed c
    /\ m_all_signatures_valid (c_metrics c') = m_all_signatures_valid (c_metrics c)
    /\ m_all_aead_ok (c_metrics c') = m_all_aead_ok (c_metrics c)
    /\ m_all_in_order (c_metrics c') = m_all_in_order (c_metrics c).
Proof.
  destruct c as [m p ch te ei re]; destruct m. simpl. intros -> ->.
  unfold conclude, bind, now, upd_m, upd, self, on_fst, ret, perf_counter. simpl.
  eexists _, _. split; [reflexivity|]. by simpl.
Qed.
End Verdict.

(** C13: Records after the terminal one still count: when a per-chunk stream has
    been verified by its terminal record, one more chunk line -- the server's
    own chunk replayed, say -- is decrypted and appended to the reconstructed
    text while [stream_fully_verified] stays true; only the order flag shows
    that the chunk's index was not the next one. *)
Theorem trailing_chunk_keeps_verdict {E : Env} {P : Prims} {J : Json} {JL : JsonLaws J}
    {Cli : ClientCryptoConfig} (key spk : bytes) (hid : string) (lines : list string) (t0 : Q)
    (w w1 : world) (c c1 : client_state) (i : Z) (n ct sg pt msg : bytes) (ms cpu : Q)
    (Hloop : for_each lines (on_line "per_chunk" key spk hid t0) (w, c) = (Ok tt, (w1, c1)))
    (Hterm : c_terminal_seen c1 = true)
    (Hver : m_stream_fully_verified (c_metrics c1) = Some true)
    (Hmsg : chunk_message (stream_context hid) i n ct = Ok msg) (Hsig : accepts msg sg spk)
    (Hopen : aead_decrypt key n ct = Ok pt) :
  let trailing := aiter_lines [sse_event (json_text (VDict (pc_wire i n ct sg ms cpu)))] in
  exists w' c', consume "per_chunk" key spk hid t0 (lines ++ trailing) (w, c) = (Ok tt, (w', c'))
    /\ m_stream_fully_verified (c_metrics c') = Some true
    /\ c_reconstructed c' = c_reconstructed c1 ++ pt
    /\ m_all_in_order (c_metrics c') = m_all_in_order (c_metrics c1) && (i =? c_expected_index c1).
Proof.
  intros trailing. unfold consume, bind.
  rewrite (for_each_app _ _ _ _ _ Hloop).
  destruct (run_event "per_chunk" key spk hid t0 (pc_wire i n ct sg ms cpu) w1 c1 (fun v =>
    v = mkView (v_sigs (view c1)) (v_aead (view c1))
          (v_order (view c1) && (i =? v_index (view c1)))
          (v_verified (view c1)) (v_chain (view c1)) (v_terminal (view c1))
          (v_index (view c1) + 1) (v_recon (view c1) ++ pt))) as (w2 & c2 & Hrun & Hv).
  - by apply wire_jsonable.
  - intros w3 c3 Heq. destruct (on_per_chunk_any key spk hid i n ct sg ms cpu pt msg w3 c3 Hmsg Hsig Hopen)
      as (w4 & c4 & H & Hv). exists w4, c4. split; [exact H|]. by rewrite Hv, Heq.
  - fold trailing in Hrun. rewrite Hrun. pose proof (f_equal v_terminal Hv) as H1.
    pose proof (f_equal v_verified Hv) as H2. pose proof (f_equal v_recon Hv) as H3.
    pose proof (f_equal v_order Hv) as H4. simpl in *.
    destruct (conclude_keeps_verdict t0 w2 c2 true) as (w3 & c3 & Hc & Hv3 & Hr3 & _ & _ & Ho3).
    + by rewrite H1.
    + by rewrite H2.
    + exists w3, c3. split; [exact Hc|]. split; [exact Hv3|]. split; [by rewrite Hr3|by rewrite Ho3].
Qed.

(** The hash-chain verdict is the terminal record's alone: whatever the
    flags are when the signed terminal record arrives -- a due checkpoint was
    missing or invalid, a chunk's envelope did not open and its plaintext was
    dropped -- a terminal record that matches the client's chain and verifies
    makes [stream_fully_verified] true, with the flags left as they were. *)
Theorem hash_chain_verdict_ignores_flags {E : Env} {P : Prims} {J : Json} {JL : JsonLaws J}
    {Cli : ClientCryptoConfig} (key spk : bytes) (hid : string) (lines : list string) (t0 : Q)
    (w w1 : world) (c c1 : client_state) (st : HashChainClientState) (sg msg : bytes) (ms cpu : Q)
    (Hloop : for_each lines (on_line "hash_chain" key spk hid t0) (w, c) = (Ok tt, (w1, c1)))
    (Hst : c_chain c1 = Some st)
    (Hmsg : final_chain_message (cs_ctx st) (cs_n_absorbed st) (cs_running_hash st) = Ok msg)
    (Hsig : accepts msg sg spk) :
  let final := aiter_lines [sse_event (json_text (VDict
                 (chain_final_wire (cs_n_absorbed st) (cs_running_hash st) sg ms cpu)))] in
  exists w' c', consume "hash_chain" key spk hid t0 (lines ++ final) (w, c) = (Ok tt, (w', c'))
    /\ m_stream_fully_verified (c_metrics c') = Some true
    /\ m_all_signatures_valid (c_metrics c') = m_all_signatures_valid (c_metrics c1)
    /\ m_all_aead_ok (c_metrics c') = m_all_aead_ok (c_metrics c1)
    /\ c_reconstructed c' = c_reconstructed c1.
Proof.
  intros final. unfold consume, bind. rewrite (for_each_app _ _ _ _ _ Hloop).
  destruct (run_event "hash_chain" key spk hid t0
    (chain_final_wire (cs_n_absorbed st) (cs_running_hash st) sg ms cpu) w1 c1 (fun v =>
    v = mkView (v_sigs (view c1)) (v_aead (view c1)) (v_order (view c1)) (Some true)
          (v_chain (view c1)) true (v_index (view c1)) (v_recon (view c1))))
    as (w2 & c2 & Hrun & Hv).
  - by apply wire_jsonable.
  - intros w3 c3 Heq.
    destruct (on_final_chain_honest spk sg msg st w3 c3 ms cpu) as (w4 & c4 & H & Hv).
    + apply (f_equal v_chain) in Heq. simpl in Heq. by rewrite Heq.
    + exact Hmsg.
    + exact Hsig.
    + exists w4, c4. split; [exact H|]. by rewrite Hv, Heq.
  - fold final in Hrun. rewrite Hrun. pose proof (f_equal v_terminal Hv) as H1.
    pose proof (f_equal v_verified Hv) as H2. pose proof (f_equal v_recon Hv) as H3.
    pose proof (f_equal v_sigs Hv) as H4. pose proof (f_equal v_aead Hv) as H5. simpl in *.
    destruct (conclude_keeps_verdict t0 w2 c2 true H1 H2) as (w3 & c3 & Hc & Hv3 & Hr3 & Hs3 & Ha3 & _).
    exists w3, c3. split; [exact Hc|]. split; [exact Hv3|]. by rewrite Hs3, Ha3, Hr3.
Qed.
