(* ===== verification/SecureLaws.v ===== *)
(** * Protected predictions, end to end

    The lemmas on [secure_predict] and on the client's exchange with it that
    the properties of [SecureProps] are put together from. *)
From stdpp Require Import gmap.
From S2P Require Import Prelude PyBytes PyVal World Instrumentation Aead Base Configs ConfigsLaws.
From S2P Require Import Http HandshakeAuth SecureApp SecureClient AppServer StreamingHonest.
From S2P Require Import StreamingTransaction.

Section Secure.
Context {E : Env} {P : Prims} {EL : EnvLaws E} {PL : PrimLaws P} {J : Json} {JL : JsonLaws J}.
Context {T : Type} {Srv : ServerCryptoConfig T} {Cli : ClientCryptoConfig}
        {L : ConfigLaws Srv Cli}.
Variables (model_predict : val -> M world dict)
          (backend_stream : result token_source) (base_url : string).
(** A request body the model service answers. *)
Variables (body result : dict).
Hypothesis Hbody : jsonable (VDict body) = true.
Hypothesis Hmodel : forall w, exists w', model_predict (VDict body) w = (Ok result, w').
Hypothesis Hinference : dmem "_inference_ms" result = true.
Hypothesis Hresult : jsonable (VDict (ddel "_inference_ms" result)) = true.

(** The plaintext of the response. *)
Definition response_text : string := json_text (VDict (ddel "_inference_ms" result)).

(** A response that opens under [key] to [text], signed for [spk]. *)
Definition good_response (key spk : bytes) (text : string) (j : dict) : Prop :=
  exists n c sg timing debug,
    j = SecurePredictResponse (_b64e n) (_b64e c) (_b64e sg) timing debug
    /\ aead_decrypt key n c = Ok (encode text) /\ accepts (n ++ c) sg spk.

(** The session table after a request. *)
Definition session_after (hid : string) (keep : bool) (s s' : T) : Prop :=
  if keep then s' = s
  else known s' hid = false /\ forall h, h <> hid -> known s' h = known s h.

Definition keys_after (hid : string) (keep : bool) (ks : gmap string bytes) : gmap string bytes :=
  if keep then ks else delete hid ks.

Lemma inference_ms : exists v, getitem "_inference_ms" result = Ok v.
Proof.
  unfold getitem, dmem in *. destruct (dget "_inference_ms" result); [eauto|done].
Qed.

Lemma predict_run hid kpk spk key blob n c keep debug meta w (s : T) ks w1 ks1 :
  live s hid kpk spk -> length key = 32%nat -> accept_meta_ok meta ->
  request_session_key (mkRequest hid (_b64e blob) (_b64e n) (_b64e c) keep) blob
    ((advance w, s), ks) = (Ok (key, meta), ((w1, s), ks1)) ->
  aead_decrypt key n c = Ok (encode (json_text (VDict body))) ->
  exists j w' s',
    secure_predict model_predict (mkRequest hid (_b64e blob) (_b64e n) (_b64e c) keep) debug
      ((w, s), ks) = (Ok j, ((w', s'), keys_after hid keep ks1))
    /\ good_response key spk response_text j /\ session_after hid keep s s'.
Proof.
  intros Hl Hk [dq Hmeta] Hreq Hdec.
  destruct (Hmodel w1) as [w2 Hm]. destruct inference_ms as [inf Hinf].
  destruct (aead_encrypt_run key (encode response_text) (advance w2) Hk) as (r & Hr & _ & _ & Hopen).
  destruct (sign_run s hid kpk spk Hl (nonce r ++ ciphertext r) (advance (advance (advance w2))))
    as (sg & smeta & ms & cpu & w3 & Hs & _ & _ & Hms & _ & Hacc).
  assert (Hms' : dget_or "sign_ms" (VFloat 0) smeta = VFloat ms).
  { unfold getitem in Hms. unfold dget_or. destruct (dget "sign_ms" smeta); [|done].
    by injection Hms as ->. }
  destruct (forget_ok w3 s hid) as (s4 & Hf & Hgone & Hoth & _).
  unfold secure_predict. cbn [req_kex_blob req_nonce req_ciphertext req_handshake_id req_keep_session].
  rewrite !decode_or_400_b64e.
  unfold io, crypto, bind, of_result, on_fst.
  change (perf_counter w) with (Ok (env_perf_counter (tick w)), advance w). cbv beta iota.
  rewrite Hreq. cbv beta iota. unfold decrypt_or_400. rewrite Hdec. cbv beta iota.
  rewrite json_roundtrip by done. cbv beta iota. rewrite Hm. cbv beta iota. rewrite Hinf.
  cbv beta iota. rewrite json_dumps_jsonable by done. fold response_text. cbv beta iota.
  change (perf_counter w2) with (Ok (env_perf_counter (tick w2)), advance w2). cbv beta iota.
  rewrite Hr. cbv beta iota.
  change (perf_counter (advance (advance w2)))
    with (Ok (env_perf_counter (tick (advance (advance w2)))), advance (advance (advance w2))).
  cbv beta iota. rewrite Hs. cbv beta iota. rewrite Hmeta, Hms'.
  destruct keep; cbn [negb session_after keys_after].
  - eexists _, _, s. split; [reflexivity|]. split; [|done].
    eexists (nonce r), (ciphertext r), sg, _, _. split; [reflexivity|done].
  - unfold pop_key. cbv beta iota. rewrite Hf.
    eexists _, _, s4. split; [reflexivity|]. split; [|done].
    eexists (nonce r), (ciphertext r), sg, _, _. split; [reflexivity|done].
Qed.

(** The two ways to the session key. *)
Lemma request_fresh hid key blob n c keep meta w w' (s : T) ks :
  accept hid blob (w, s) = (Ok (key, meta), (w', s)) -> blob <> [] ->
  request_session_key (mkRequest hid (_b64e blob) n c keep) blob ((w, s), ks)
  = (Ok (key, meta), ((w', s), if keep then <[hid := key]> ks else ks)).
Proof.
  intros Ha Hne. unfold request_session_key. destruct blob as [|x blob]; [done|].
  cbn [req_handshake_id req_keep_session].
  rewrite (bind_Ok _ _ _ _ _ (accept_run hid _ _ _ _ _ _ ks Ha)). by destruct keep.
Qed.

Lemma request_resumed hid key n c keep w (s : T) ks :
  ks !! hid = Some key ->
  request_session_key (mkRequest hid (_b64e []) n c keep) [] ((w, s), ks)
  = (Ok (key, [("decapsulate_ms", VFloat 0); ("kex_blob_bytes", VInt 0)]), ((w, s), ks)).
Proof. intros Hk. unfold request_session_key, bind, keys_of. cbn. by rewrite Hk. Qed.

(** The client on a good response. *)
Abbreviation transport := (app_transport model_predict backend_stream None base_url).
Abbreviation server_state := (T * gmap string bytes)%type.

(** The entries of the row that carry the outcome. *)
Definition row_ok (prediction : val) (row : dict) : Prop :=
  dget "error" row = Some VNone /\ dget "valid_signature" row = Some (VBool true)
  /\ dget "prediction" row = Some prediction.

Ltac row_get := rewrite ?dget_dset_eq; repeat (rewrite dget_dset_ne by done); rewrite ?dget_dset_eq.

Lemma read_response_run key spk (d : dict) j w (n : server_state) sess row :
  good_response key spk (json_text (VDict d)) j -> jsonable (VDict d) = true ->
  dget "error" row = Some VNone ->
  exists w' row',
    read_response Cli key spk j (((w, n), sess), row) = (Ok tt, (((w', n), sess), row'))
    /\ row_ok (dget_or "prediction" VNone d) row'
    /\ dget "kex_blob_bytes" row' = dget "kex_blob_bytes" row
    /\ dget "resumed" row' = dget "resumed" row.
Proof.
  intros (rn & rc & sg & timing & debug & -> & Hd & Ha) Hj He.
  destruct (Ha (advance (advance w))) as (vm & w' & Hv & _).
  unfold read_response, SecurePredictResponse.
  cbn [getitem dget String.eqb Ascii.eqb Bool.eqb rbind]. rewrite !b64d_b64e.
  unfold bind, of_result, set_row, wio, on_fst. rewrite Hd.
  change (perf_counter w) with (Ok (env_perf_counter (tick w)), advance w). cbv beta iota.
  change (perf_counter (advance w))
    with (Ok (env_perf_counter (tick (advance w))), advance (advance w)). cbv beta iota.
  rewrite Hv. cbv beta iota. rewrite json_roundtrip by done. cbn [as_dict].
  eexists w', _. split; [reflexivity|]. unfold row_ok. split_and!. all: row_get. all: done.
Qed.

(** One exchange, whichever way the server gets at the key. *)
Lemma exchange_run hid kpk spk key blob keep debug hms w (s : T) ks ks1 sess row :
  live s hid kpk spk -> length key = 32%nat ->
  (forall w' n c, exists meta w1,
     request_session_key (mkRequest hid (_b64e blob) n c keep) blob ((w', s), ks)
     = (Ok (key, meta), ((w1, s), ks1))
     /\ accept_meta_ok meta) ->
  dget "error" row = Some VNone ->
  exists w' s' row',
    exchange (TR := transport) Cli base_url body debug hms (VStr hid) spk key blob keep
      (((w, (s, ks)), sess), row) = (Ok tt, (((w', (s', keys_after hid keep ks1)), sess), row'))
    /\ row_ok (dget_or "prediction" VNone (ddel "_inference_ms" result)) row'
    /\ dget "kex_blob_bytes" row' = dget "kex_blob_bytes" row
    /\ dget "resumed" row' = dget "resumed" row
    /\ session_after hid keep s s'.
Proof.
  intros Hl Hk Hreq He.
  destruct (aead_encrypt_run key (encode (json_text (VDict body))) w Hk) as (r & Hr & _ & _ & Hd).
  destruct (Hreq (advance (advance (advance w))) (_b64e (nonce r)) (_b64e (ciphertext r)))
    as (meta & w1 & Hkey & Hmeta).
  destruct (predict_run hid kpk spk key blob (nonce r) (ciphertext r) keep debug meta
              (advance (advance w)) s ks w1 _ Hl Hk Hmeta Hkey Hd) as (j & w2 & s2 & Hp & Hgood & Hafter).
  set (payload := [("handshake_id", VStr hid); ("keep_session", VBool keep);
    ("kex_blob", VStr (_b64e blob)); ("nonce", VStr (_b64e (nonce r)));
    ("ciphertext", VStr (_b64e (ciphertext r)))]).
  assert (Hpost : http_post (Transport := transport) (base_url +:+ "/secure/predict") payload
                    (if debug then [("X-Debug-Metrics", "true")] else [])
                    (advance (advance w), (s, ks))
                  = (Ok (json_response j), (w2, (s2, keys_after hid keep ks1)))).
  { cbn [http_post app_transport]. unfold app_post. rewrite String.eqb_refl.
    unfold serve, parse_request, payload. cbn [dget String.eqb Ascii.eqb Bool.eqb rbind].
    unfold bind, of_result. rewrite debug_header_sent. cbn. by rewrite Hp. }
  set (n := (s2, keys_after hid keep ks1)) in *.
  set (t0 := env_perf_counter (tick (advance w))). set (t1 := env_perf_counter (tick w2)).
  set (row1 := dset "total_ms" (VFloat (hms + (t1 - t0) * 1000)) (dset "rtt_ms" (VFloat ((t1 - t0) * 1000))
      (dset "request_plaintext_bytes"
         (VInt (Z.of_nat (length (encode (json_text (VDict body)))))) row))).
  set (row2 := dset "server_timing_ms" (dget_or "server_timing_ms" (VDict []) j) row1).
  set (row3 := if debug then dset "debug" (dget_or "debug" VNone j) row2 else row2).
  assert (Hrow : forall k, k ∈ ["error"; "kex_blob_bytes"; "resumed"] -> dget k row3 = dget k row).
  { intros k Hin. unfold row3, row2, row1.
    destruct debug; repeat (rewrite dget_dset_ne by set_solver); done. }
  destruct (read_response_run key spk (ddel "_inference_ms" result) j (advance w2) n sess row3
              Hgood Hresult) as (w3 & row' & Hread & Hok & Hkb & Hres).
  { rewrite Hrow; [done|set_solver]. }
  exists w3, s2, row'. split; [|split; [exact Hok|split; [|split; [|exact Hafter]]]].
  - unfold exchange. rewrite json_dumps_jsonable by done.
    unfold bind, of_result, set_row, wio, net, on_fst. rewrite Hr. cbv beta iota.
    change (perf_counter (advance w)) with (Ok t0, advance (advance w)). cbv beta iota.
    fold payload. rewrite Hpost. cbv beta iota.
    change (perf_counter w2) with (Ok t1, advance w2). cbv beta iota.
    cbn [status_code json_response resp_json negb Z.eqb Pos.eqb as_dict].
    fold row1 row2. destruct debug; exact Hread.
  - by rewrite Hkb, Hrow by set_solver.
  - by rewrite Hres, Hrow by set_solver.
Qed.

Definition keeps (sess : option ClientSession) : bool :=
  match sess with Some x => 1 <? requests_left x | None => false end.

(** The session object after a request with [key]. *)
Definition spend (hj : dict) (key : bytes) (sess : option ClientSession) : option ClientSession :=
  match sess with
  | Some x => Some (mkSession (requests_left x - 1) (Some hj) (Some key))
  | None => None
  end.

(** A handshake response that names a session. *)
Definition handshake_of (hid : string) (spk : bytes) (hj : dict) : Prop :=
  getitem "handshake_id" hj = Ok (VStr hid)
  /\ getitem "sig_public_key" hj = Ok (VStr (_b64e spk)).

(** A transaction's row: the outcome, and how the key was obtained. *)
Definition tx_ok (resumed : bool) (row : dict) : Prop :=
  row_ok (dget_or "prediction" VNone (ddel "_inference_ms" result)) row
  /\ dget "resumed" row = Some (VBool resumed)
  /\ exists n, dget "kex_blob_bytes" row = Some (VInt n) /\ (n = 0 <-> resumed = true).

(** Establishing a key and counting the request down. *)
Lemma request_key_fresh kpk est hj w w' (n : server_state) sess row (Q : bool -> _) :
  is_resumed sess = false -> getitem "kex_public_key" hj = Ok (VStr (_b64e kpk)) ->
  establish kpk w = (Ok est, w') ->
  (let* kb := request_key Cli sess hj in
   let '(key, blob) := kb in
   set_row "kex_blob_bytes" (VInt (Z.of_nat (length blob))) ;;;
   let* keep := use_session in Q keep key blob) (((w, n), sess), row)
  = (Q (keeps sess) (session_key est) (kex_blob est) : M _ unit)
      (((w', n), spend hj (session_key est) sess),
       dset "kex_blob_bytes" (VInt (Z.of_nat (length (kex_blob est))))
         (dset "client_establish_ms" (dget_or "handshake_encrypt_ms" (VFloat 0) (est_meta est)) row)).
Proof.
  intros Hres Hk He. unfold request_key.
  destruct sess as [[rl shj [k|]]|]; [done| |];
    rewrite Hk; cbn [rbind]; rewrite b64d_b64e;
    unfold bind, of_result, wio, on_fst, set_row, put_session, use_session, get_session, ret;
    rewrite He; reflexivity.
Qed.

(** A transaction that establishes a key, however it got at the handshake. *)
Lemma transaction_established cached debug hid kpk spk hj q w0 s0 w (s : T) ks sess row :
  is_resumed sess = false -> dget "error" row = Some VNone ->
  obtain_handshake (TR := transport) base_url cached sess (((w0, (s0, ks)), sess), row)
  = (Ok (Some hj, q), (((w, (s, ks)), sess), row)) ->
  live s hid kpk spk -> handshake_of hid spk hj ->
  getitem "kex_public_key" hj = Ok (VStr (_b64e kpk)) ->
  exists key w' s' row',
    transaction (TR := transport) Cli base_url body debug cached None (((w0, (s0, ks)), sess), row)
    = (Ok tt, (((w', (s', keys_after hid (keeps sess)
                            (if keeps sess then <[hid := key]> ks else ks))),
                spend hj key sess), row'))
    /\ tx_ok false row' /\ length key = 32%nat /\ session_after hid (keeps sess) s s'.
Proof.
  intros Hres He Hobt Hl [Hhid Hspk] Hkpk.
  destruct (key_agreement s _ _ _ w Hl) as (est & w2 & Hest & Lk & Hblob & Ha).
  set (row1 := dset "handshake_ms" (VFloat q) (dset "resumed" (VBool false) row)).
  set (row2 := dset "kex_blob_bytes" (VInt (Z.of_nat (length (kex_blob est))))
    (dset "client_establish_ms" (dget_or "handshake_encrypt_ms" (VFloat 0) (est_meta est)) row1)).
  destruct (exchange_run hid _ spk (session_key est) (kex_blob est) (keeps sess) debug q w2 s ks
              (if keeps sess then <[hid := session_key est]> ks else ks)
              (spend hj (session_key est) sess) row2 Hl Lk) as (w3 & s3 & row' & Hx & Hok & Hkb & Hre & Haft).
  { intros w' n c. destruct (Ha w') as (meta & w4 & Hacc). exists meta, w4. split.
    - by apply (request_fresh hid _ _ _ _ _ meta).
    - by destruct (accept_result _ _ _ _ _ _ _ Hacc). }
  { unfold row2, row1; row_get; done. }
  exists (session_key est), w3, s3, row'. split; [|split; [|by split_and!]].
  - unfold transaction. unfold bind at 1, get_session at 1. cbn [fst snd]. rewrite Hres.
    rewrite (bind_Ok _ _ _ _ _ Hobt). unfold bind at 1, set_row at 1.
    unfold authenticate, subscriptable, bind at 1, ret at 1. unfold bind at 1, set_row at 1.
    rewrite bind_of_result, Hspk. cbn [rbind]. rewrite b64d_b64e, bind_of_result, Hhid, bind_of_result.
    fold row1. erewrite request_key_fresh; [exact Hx|exact Hres|exact Hkpk|exact Hest].
  - split; [exact Hok|]. split; [rewrite Hre; unfold row2, row1; row_get; done|].
    exists (Z.of_nat (length (kex_blob est))). split; [rewrite Hkb; unfold row2; row_get; done|].
    split; [|done]. destruct (kex_blob est); [done|simpl; lia].
Qed.

(** A first request: it fetches a handshake. *)
Lemma transaction_fresh debug w (s : T) ks sess row :
  is_resumed sess = false -> dget "error" row = Some VNone ->
  exists hid kpk spk key hj w' s1 s' row',
    transaction (TR := transport) Cli base_url body debug None None (((w, (s, ks)), sess), row)
    = (Ok tt, (((w', (s', keys_after hid (keeps sess)
                            (if keeps sess then <[hid := key]> ks else ks))),
                spend hj key sess), row'))
    /\ tx_ok false row' /\ length key = 32%nat
    /\ live s1 hid kpk spk /\ handshake_of hid spk hj
    /\ (forall h, h <> hid -> known s1 h = known s h) /\ session_after hid (keeps sess) s1 s'.
Proof.
  intros Hres He.
  destruct (do_handshake_run model_predict backend_stream base_url w s ks)
    as (b & q & w1 & s1 & Hh & Hl & Hkn).
  destruct (transaction_established None debug (handshake_id b) _ _ _ q w s w1 s1 ks sess row Hres He
              ltac:(unfold obtain_handshake; rewrite Hres; unfold net, bind, on_fst; by rewrite Hh)
              Hl ltac:(done) eq_refl) as (key & w' & s' & row' & Ht & Hok & Lk & Haft).
  cbn [fst] in Ht. do 9 eexists. split; [exact Ht|]. by split_and!.
Qed.

(** The server has forgotten the handshake of a warm client. *)
Lemma transaction_expired debug hid kpk spk hj w (s s0 : T) ks row :
  known s hid = false -> live s0 hid kpk spk -> handshake_of hid spk hj ->
  getitem "kex_public_key" hj = Ok (VStr (_b64e kpk)) -> dget "valid_signature" row = Some VNone ->
  exists w' row',
    transaction (TR := transport) Cli base_url body debug (Some hj) None
      (((w, (s, ks)), None), row) = (Ok tt, (((w', (s, ks)), None), row'))
    /\ dget "error" row' = Some (VStr (http_error 404 (take_string 200
         (json_text (VDict [("detail", VStr "Unknown or expired handshake_id")])))))
    /\ dget "valid_signature" row' = Some VNone /\ dget "prediction" row' = dget "prediction" row.
Proof.
  intros Hun Hl [Hhid Hspk] Hkpk Hv.
  destruct (key_agreement s0 _ _ _ w Hl) as (est & w2 & Hest & Lk & Hblob & _).
  destruct (aead_encrypt_run (session_key est) (encode (json_text (VDict body))) w2 Lk)
    as (r & Hr & _ & _ & _).
  destruct (accept_unknown s hid (kex_blob est) (advance (advance (advance w2))) Hun) as [w3 Hacc].
  set (payload := [("handshake_id", VStr hid); ("keep_session", VBool false);
    ("kex_blob", VStr (_b64e (kex_blob est))); ("nonce", VStr (_b64e (nonce r)));
    ("ciphertext", VStr (_b64e (ciphertext r)))]).
  assert (Hpost : http_post (Transport := transport) (base_url +:+ "/secure/predict") payload
                    (if debug then [("X-Debug-Metrics", "true")] else [])
                    (advance (advance w2), (s, ks))
                  = (Ok (error_response (HTTPException 404 "Unknown or expired handshake_id")),
                     (w3, (s, ks)))).
  { cbn [http_post app_transport]. unfold app_post. rewrite String.eqb_refl.
    unfold serve, parse_request, payload. cbn [dget String.eqb Ascii.eqb Bool.eqb rbind].
    rewrite bind_of_result. unfold secure_predict.
    cbn [req_kex_blob req_nonce req_ciphertext req_handshake_id req_keep_session].
    rewrite !decode_or_400_b64e. unfold io, of_result, bind, on_fst.
    change (perf_counter (advance (advance w2)))
      with (Ok (env_perf_counter (tick (advance (advance w2)))), advance (advance (advance w2))).
    cbv beta iota. unfold request_session_key. destruct (kex_blob est) as [|x l]; [done|].
    unfold accept_or_http, try_catch, crypto, bind, on_fst. cbn [req_handshake_id].
    by rewrite Hacc. }
  eexists _, _. split.
  - unfold transaction, exchange, obtain_handshake, authenticate, request_key, use_session,
      get_session, put_session, set_row, subscriptable, bind, ret, of_result, wio, net, on_fst.
    cbn [fst snd is_resumed]. rewrite Hspk. cbn [rbind]. rewrite b64d_b64e, Hhid, Hkpk. cbn [rbind].
    rewrite b64d_b64e, Hest. cbn [fst snd]. cbv beta iota.
    rewrite json_dumps_jsonable by done. cbv beta iota. rewrite Hr. cbv beta iota.
    change (perf_counter (advance w2))
      with (Ok (env_perf_counter (tick (advance w2))), advance (advance w2)). cbv beta iota.
    fold payload. rewrite Hpost. reflexivity.
  - split_and!; row_get; done.
Qed.

(** A transaction on a kept session: no handshake, no key exchange. *)
Lemma transaction_resumed debug w (s : T) ks hid kpk spk key hj left row :
  live s hid kpk spk -> length key = 32%nat -> handshake_of hid spk hj ->
  ks !! hid = Some key -> dget "error" row = Some VNone ->
  let sess := Some (mkSession left (Some hj) (Some key)) in
  exists w' s' row',
    transaction (TR := transport) Cli base_url body debug None None (((w, (s, ks)), sess), row)
    = (Ok tt, (((w', (s', keys_after hid (keeps sess) ks)), spend hj key sess), row'))
    /\ tx_ok true row' /\ session_after hid (keeps sess) s s'.
Proof.
  intros Hl Lk [Hhid Hspk] Hks He sess.
  set (row1 := dset "handshake_ms" (VFloat 0) (dset "resumed" (VBool true) row)).
  set (row2 := dset "kex_blob_bytes" (VInt 0) (dset "client_establish_ms" (VFloat 0) row1)).
  destruct (exchange_run hid kpk spk key [] (keeps sess) debug 0 w s ks ks (spend hj key sess) row2 Hl Lk)
    as (w3 & s3 & row' & Hx & Hok & Hkb & Hre & Haft).
  { intros w' n c. eexists _, w'. split; [by apply request_resumed|by eexists]. }
  { unfold row2, row1; row_get; done. }
  exists w3, s3, row'. split; [|split; [|exact Haft]].
  - unfold transaction, obtain_handshake, authenticate, request_key, use_session, get_session,
      put_session, set_row, subscriptable.
    unfold bind at 1. cbn [fst snd is_resumed sess_session_key sess].
    unfold bind, ret, of_result. cbn [sess_handshake_json].
    rewrite Hspk. cbn [rbind]. rewrite b64d_b64e, Hhid. exact Hx.
  - split; [exact Hok|]. split; [rewrite Hre; unfold row2, row1; row_get; done|].
    exists 0. split; [rewrite Hkb; unfold row2; row_get; done|done].
Qed.
End Secure.
