(* ===== verification/KeySubProps.v ===== *)
(** * What key substitution achieves

    Against a client that does not authenticate the handshake, everything; a
    client that pinned the server's identity accepts a substituted handshake
    only with a signature by the pinned key over the attacker's keys. *)
From stdpp Require Import gmap.
From S2P Require Import Prelude PyBytes PyVal World Instrumentation PyList Aead Base Configs.
From S2P Require Import ConfigsLaws Http HandshakeAuth SecureApp SecureClient AppServer.
From S2P Require Import StreamingHonest StreamingTransaction SecureLaws Replay Campaign KeySubstitution.

(** Decoded JSON equals itself. *)
Lemma py_eqb_list_refl l :
  Forall (fun v => py_eqb v v = true) l -> py_eqb (VList l) (VList l) = true.
Proof. simpl. induction 1 as [|v l Hv _ IH]; [done|]. by rewrite Hv, IH. Qed.

Lemma dget_unique (d : dict) k v : NoDup (map fst d) -> (k, v) ∈ d -> dget k d = Some v.
Proof.
  induction d as [|[k' v'] d IH]; simpl; [by intros _ ?%elem_of_nil|].
  rewrite NoDup_cons, elem_of_cons. intros [Hn Hd] [[= -> ->]|Hin]; [by rewrite String.eqb_refl|].
  destruct (String.eqb_spec k k') as [->|]; [|by apply IH].
  exfalso. apply Hn. by apply (list_elem_of_fmap_2 fst d (k', v)) in Hin.
Qed.

Lemma py_eqb_refl v : jsonable v = true -> py_eqb v v = true.
Proof.
  induction v using val_nested_ind; intros Hj; simpl; try done.
  - apply Qeq_bool_iff. reflexivity.
  - apply Qeq_bool_iff. reflexivity.
  - apply Qeq_bool_iff. reflexivity.
  - apply String.eqb_refl.
  - apply py_eqb_list_refl. simpl in Hj. rewrite forallb_forall in Hj. rewrite Forall_forall in *.
    intros x Hx. apply H; [done|]. apply Hj. by apply list_elem_of_In.
  - simpl in Hj. apply andb_true_iff in Hj as [Hn Hj]. apply bool_decide_eq_true in Hn.
    rewrite Nat.eqb_refl. simpl. rewrite forallb_forall in Hj. rewrite Forall_forall in H.
    assert (Hsub : forall kv, kv ∈ d -> py_eqb (snd kv) (snd kv) = true
                                       /\ dget (fst kv) d = Some (snd kv)).
    { intros [k x] Hin. split; [|by apply dget_unique]. apply (H _ Hin). apply (Hj (k, x)).
      by apply list_elem_of_In. }
    clear H Hj Hn. revert Hsub.
    enough (forall e : dict, (forall kv, kv ∈ e -> py_eqb (snd kv) (snd kv) = true
                                     /\ dget (fst kv) d = Some (snd kv)) ->
       (fix go e := match e with
                    | [] => true
                    | (k, x) :: e => match dget k d with
                                     | Some y => py_eqb x y && go e
                                     | None => false
                                     end
                    end) e = true) as Hgo by apply Hgo.
    induction e as [|[k x] e IH]; intros He; [done|].
    destruct (He (k, x) ltac:(left)) as [H1 H2]. simpl in H1, H2. rewrite H2, H1. simpl.
    apply IH. intros kv Hin. apply He. by right.
Qed.

Section Leg.
Context {E : Env} {P : Prims} {EL : EnvLaws E} {PL : PrimLaws P} {J : Json} {JL : JsonLaws J}.
Context {T : Type} {Srv : ServerCryptoConfig T} {Cli : ClientCryptoConfig}
        {L : ConfigLaws Srv Cli}.
Variables (model_predict : val -> M world dict)
          (backend_stream : Prelude.result token_source)
          (identity : option IdentityKey) (base_url : string) (request answer : dict).
Hypothesis Hrequest : jsonable (VDict request) = true.
Hypothesis Hmodel : forall w, exists w', model_predict (VDict request) w = (Ok answer, w').
Hypothesis Hinference : dmem "_inference_ms" answer = true.
Hypothesis Hanswer : jsonable (VDict (ddel "_inference_ms" answer)) = true.

Abbreviation c := (mkConfig T Srv Cli).
Abbreviation transport := (app_transport (Srv := Srv) model_predict backend_stream identity base_url).
Abbreviation request_text := (encode (json_text (VDict request))).
Abbreviation genuine := (ddel "_inference_ms" answer).

(** A request with a fresh key is answered with a response that opens. *)
Lemma post_predict_run hid kpk spk est n ct w (s : T) ks :
  live s hid kpk spk ->
  (forall ws, exists meta ws', accept hid (kex_blob est) (ws, s)
                               = (Ok (session_key est, meta), (ws', s))) ->
  length (session_key est) = 32%nat -> kex_blob est <> [] ->
  aead_decrypt (session_key est) n ct = Ok request_text ->
  exists rj w' s', post_predict (TR := transport) base_url
      (predict_payload (VStr hid) (kex_blob est) n ct) (w, (s, ks))
    = (Ok rj, (w', (s', delete hid ks)))
    /\ good_response (Cli := Cli) (session_key est) spk (json_text (VDict genuine)) rj.
Proof.
  intros Hl Ha Lk Hb Hd. destruct (Ha (advance w)) as (meta & w1 & Hacc).
  destruct (accept_result _ _ _ _ _ _ _ Hacc) as [_ Hmeta].
  assert (Hreq : request_session_key (Srv := Srv)
      (mkRequest hid (_b64e (kex_blob est)) (_b64e n) (_b64e ct) false) (kex_blob est)
      ((advance w, s), ks) = (Ok (session_key est, meta), ((w1, s), ks))).
  { by rewrite (request_fresh hid (session_key est) (kex_blob est) _ _ false meta (advance w) w1 s ks
              Hacc Hb). }
  destruct (predict_run model_predict request answer Hrequest Hmodel Hinference Hanswer hid kpk spk
              (session_key est) (kex_blob est) n ct false false meta w s ks w1 ks Hl Lk Hmeta Hreq Hd)
    as (rj & w2 & s2 & Hp & Hgood & _).
  exists rj, w2, s2. split; [|exact Hgood].
  unfold post_predict, predict_payload. cbn [http_post app_transport]. unfold app_post.
  rewrite String.eqb_refl. unfold serve, parse_request.
  cbn [dget String.eqb Ascii.eqb Bool.eqb rbind]. unfold bind, of_result.
  change (debug_header []) with false. rewrite Hp. reflexivity.
Qed.

Lemma with_server_Ok {N T2 A} (s : T2) (m : M (world * T2) A) w (n : N) a w' s' :
  m (w, s) = (Ok a, (w', s')) -> with_server s m (w, n) = (Ok (a, s'), (w', n)).
Proof. unfold with_server. by intros ->. Qed.

Lemma get_b64_of k (j : dict) b : dget k j = Some (VStr (_b64e b)) -> get_b64 k j = Ok b.
Proof. intros H. unfold get_b64, getitem. rewrite H. apply b64d_b64e. Qed.

(** A handshake the client got names a live session of the server. *)
Lemma do_handshake_inv w (s : T) ks hj q w1 s1 ks1 :
  do_handshake (TR := transport) base_url (w, (s, ks)) = (Ok (hj, q), (w1, (s1, ks1))) ->
  dmem "handshake_id" hj = true ->
  ks1 = ks /\ exists hid kpk spk, live s1 hid kpk spk
    /\ dget "handshake_id" hj = Some (VStr hid)
    /\ dget "kex_public_key" hj = Some (VStr (_b64e kpk)).
Proof.
  intros H Hmem. unfold do_handshake in H.
  apply bind_inv_Ok in H as (t0 & [w2 n2] & H0 & H). injection H0 as _ <- <-.
  apply bind_inv_Ok in H as (resp & [w3 [s3 ks3]] & Hget & H).
  cbn [http_get app_transport] in Hget. unfold app_get in Hget. rewrite String.eqb_refl in Hget.
  apply bind_inv_Ok in H as ([] & σ4 & Hst & H). injection Hst as Hst <-.
  apply bind_inv_Ok in H as (t1 & [w5 n5] & H1 & H). injection H1 as _ <- <-.
  apply bind_inv_Ok in H as (v & σ6 & Hv & H). injection Hv as Hv <-.
  apply bind_inv_Ok in H as (j & σ7 & Hj & H). injection Hj as Hj <-.
  injection H as <- _ _ <- <-. unfold serve in Hget.
  destruct (handshake identity ((advance w, s), ks)) as [r [[w8 s8] ks8]] eqn:Hhs.
  injection Hget as Hresp <- <- <-. destruct r as [d|e].
  2: { exfalso. subst resp. destruct e; cbn [error_response] in Hst, Hv; try discriminate.
       simpl in Hv. injection Hv as <-. cbn [as_dict] in Hj. injection Hj as <-. done. }
  subst resp. simpl in Hv. injection Hv as <-. cbn [as_dict] in Hj. injection Hj as <-.
  unfold handshake in Hhs. apply bind_inv_Ok in Hhs as (b & [[w9 s9] ks9] & Hb & Hhs).
  destruct (new_handshake_ok (advance w) s None) as (b' & w' & s' & Hn & Hl & _).
  unfold crypto, on_fst in Hb. rewrite Hn in Hb. injection Hb as <- <- <- <-.
  apply bind_inv_Ok in Hhs as ([ts meta] & [[w10 s10] ks10] & Hsg & Hret).
  assert (s10 = s' /\ ks10 = ks) as [-> ->].
  { destruct identity as [id|]; [|injection Hsg as _ _ _ <- <-; done].
    apply bind_inv_Ok in Hsg as (t & σt & Ht & Hsg). injection Ht as _ <-.
    apply bind_inv_Ok in Hsg as ([sig sm] & σs & Hs & Hsg).
    unfold io in Hs. apply on_fst_inv_Ok in Hs as (σu & Hs & ->).
    apply on_fst_inv_Ok in Hs as (wu & _ & ->).
    apply bind_inv_Ok in Hsg as (ms & σv & Hm & Hsg). injection Hm as _ <-.
    injection Hsg as _ _ _ <- <-. done. }
  injection Hret as <- <- <- <-. split; [done|].
  exists (handshake_id b'), (kex_public_key b'), (hb_sig_public_key b'). by split_and!.
Qed.

(** The attacker's leg: it reads the request and re-signs a forged answer. *)
Lemma attacker_leg_run hid kpk spk akpk aspk est req hj hs w (s atk : T) ks :
  live s hid kpk spk -> live atk hid akpk aspk ->
  dget "handshake_id" hj = Some (VStr hid) -> dget "kex_public_key" hj = Some (VStr (_b64e kpk)) ->
  dget "handshake_id" hs = Some (VStr hid) ->
  (forall ws, exists meta ws', accept hid (kex_blob est) (ws, atk)
                               = (Ok (session_key est, meta), (ws', atk))) ->
  length (session_key est) = 32%nat ->
  aead_decrypt (session_key est) (nonce req) (ciphertext req) = Ok request_text ->
  exists n ct sg w' s', attacker_leg (TR := transport) c base_url hj hs request est req atk
      (w, (s, ks)) = (Ok (true, (n, ct, sg)), (w', (s', delete hid ks)))
    /\ aead_decrypt (session_key est) n ct
       = Ok (encode (json_text (VDict (dset "prediction" (VStr FORGED_PREDICTION) genuine))))
    /\ accepts (C := Cli) (n ++ ct) sg aspk.
Proof.
  intros Hl Hatk Hjh Hjk Hsh Ha Lk Hd.
  destruct (Ha w) as (meta & w1 & Hacc).
  destruct (key_agreement s hid kpk spk w1 Hl) as (up & w2 & Hest & Lu & Hb & Hupa).
  destruct (aead_encrypt_run (session_key up) request_text w2 Lu) as (ur & Hur & _ & _ & Hud).
  destruct (post_predict_run hid kpk spk up (nonce ur) (ciphertext ur) (advance w2) s ks Hl Hupa Lu
              Hb Hud) as (rj & w3 & s3 & Hpost & (rn & rc & sg0 & tm & dbg & -> & Hopen & _)).
  set (forged := dset "prediction" (VStr FORGED_PREDICTION) genuine).
  destruct (aead_encrypt_run (session_key est) (encode (json_text (VDict forged))) w3 Lk)
    as (r & Hr & _ & _ & Hro).
  destruct (sign_verifies atk hid akpk aspk (nonce r ++ ciphertext r) (advance w3) Hatk)
    as (sg & smeta & w4 & Hsign & _ & _ & Hsacc).
  destruct (forget_ok w4 atk hid) as (atk' & Hforget & _).
  exists (nonce r), (ciphertext r), sg, w4, s3. split; [|by split].
  unfold attacker_leg, str_field, getitem. cbn [cfg_state cfg_server cfg_client]. rewrite Hsh. cbn [rbind as_str].
  unfold bind at 1, of_result at 1. rewrite (bind_Ok _ _ _ _ _ (with_server_Ok _ _ _ _ _ _ _ Hacc)).
  rewrite Hd, bind_of_result, json_roundtrip, bind_of_result by done.
  rewrite py_eqb_refl by done. rewrite (get_b64_of _ _ _ Hjk), bind_of_result.
  rewrite (bind_Ok _ _ _ _ _ (on_fst_Ok _ _ (s, ks) _ _ Hest)).
  rewrite (bind_Ok _ _ _ _ _ (on_fst_Ok _ _ (s, ks) _ _ Hur)).
  rewrite Hjh, bind_of_result, (bind_Ok _ _ _ _ _ Hpost).
  unfold SecurePredictResponse. rewrite !(get_b64_of "nonce" _ rn), bind_of_result by reflexivity.
  rewrite !(get_b64_of "ciphertext" _ rc), bind_of_result by reflexivity.
  rewrite Hopen, bind_of_result. unfold forge. rewrite json_roundtrip by done.
  cbn [rbind as_dict]. rewrite bind_of_result. fold forged.
  assert (Hfj : jsonable (VDict forged) = true) by (by apply jsonable_dset).
  rewrite json_dumps_jsonable, bind_of_result by done.
  rewrite (bind_Ok _ _ _ _ _ (on_fst_Ok _ _ (s3, delete hid ks) _ _ Hr)).
  rewrite (bind_Ok _ _ _ _ _ (with_server_Ok _ _ _ _ _ _ _ Hsign)).
  by rewrite (bind_Ok _ _ _ _ _ (with_server_Ok _ _ _ _ _ _ _ Hforget)).
Qed.
End Leg.

(** C14: Against an unauthenticated handshake the key-substitution attack is
    complete for every configuration: the client accepts, the attacker has
    read the request, and the prediction the client accepted is the one the
    attacker chose.  It holds whatever live handshake the server served, with
    an identity key or without.  The prediction service is idealised: it
    answers the request's body with one constant result, which carries
    [_inference_ms]. *)
Theorem substitution_succeeds_unpinned {E : Env} {P : Prims} {EL : EnvLaws E} {PL : PrimLaws P}
    {J : Json} {JL : JsonLaws J} (config_name : string) (c : config)
    (model_predict : val -> M world dict)
    (backend_stream : Prelude.result token_source) (identity : option IdentityKey)
    (base_url : string) (request answer hj : dict) (pinned : string * bytes)
    (attacker_identity : IdentityKey) (q : Q) (w w1 : world) (s : cfg_state c)
    (ks : gmap string bytes) (n1 : cfg_state c * gmap string bytes)
    (Hc : get_crypto config_name = Ok c)
    (Hrequest : jsonable (VDict request) = true)
    (Hmodel : forall w, exists w', model_predict (VDict request) w = (Ok answer, w'))
    (Hinference : dmem "_inference_ms" answer = true)
    (Hanswer : jsonable (VDict (ddel "_inference_ms" answer)) = true)
    (Hid : get_truthy "handshake_id" hj = true) :
  let TR := app_transport (Srv := cfg_server c) model_predict backend_stream identity base_url in
  do_handshake base_url (w, (s, ks)) = (Ok (hj, q), (w1, n1)) ->
  exists out σ', _trial base_url config_name "substitute" "unauthenticated" pinned attacker_identity
                   request (w, (s, ks)) = (Ok out, σ')
    /\ dget "client_accepted" out = Some (VBool true)
    /\ dget "attacker_read_request" out = Some (VBool true)
    /\ dget "forged_response_accepted" out = Some (VBool true)
    /\ dget "rejected_at" out = Some VNone /\ dget "error" out = Some VNone.
Proof.
  intros TR Hh. destruct (get_crypto_laws config_name c Hc) as [L].
  destruct c as [T Srv Cli], n1 as [s1 ks1]. cbn [cfg_state cfg_server cfg_client] in *.
  destruct (do_handshake_inv model_predict backend_stream identity base_url w s ks hj q w1 s1 ks1 Hh)
    as (-> & hid & kpk & spk & Hlive & Hjh & Hjk).
  { unfold get_truthy in Hid. unfold dmem. by destruct (dget "handshake_id" hj). }
  assert (Hne : hid <> "").
  { unfold get_truthy in Hid. rewrite Hjh in Hid. intros ->. done. }
  destruct (new_handshake_ok w1 server_init (Some hid)) as (b & w2 & atk & Hnew & Hatk & Hbid & _).
  rewrite (Hbid hid eq_refl Hne) in Hatk. clear Hbid.
  set (hs := dset "sig_public_key" (VStr (_b64e (hb_sig_public_key b)))
               (dset "kex_public_key" (VStr (_b64e (kex_public_key b))) hj)).
  assert (Hsh : dget "handshake_id" hs = Some (VStr hid))
    by (unfold hs; by rewrite !dget_dset_ne by done).
  destruct (key_agreement atk hid _ _ w2 Hatk) as (est & w3 & Hest & Lk & _ & Ha).
  destruct (aead_encrypt_run (session_key est) (encode (json_text (VDict request))) w3 Lk)
    as (r & Hr & _ & _ & Hd).
  destruct (attacker_leg_run model_predict backend_stream identity base_url request answer Hrequest
              Hmodel Hinference Hanswer hid kpk spk (kex_public_key b) (hb_sig_public_key b) est r hj hs
              (advance w3) s1 atk ks Hlive Hatk Hjh Hjk Hsh Ha Lk Hd)
    as (n & ct & sg & w4 & s4 & Hleg & Hopen & Hacc).
  destruct (Hacc w4) as (vmeta & w5 & Hv & _).
  set (forged := dset "prediction" (VStr FORGED_PREDICTION) (ddel "_inference_ms" answer)) in *.
  assert (Hfj : jsonable (VDict forged) = true) by (by apply jsonable_dset).
  eexists _, (w5, (s4, delete hid ks)). split.
  - unfold _trial. rewrite Hc, bind_of_result, (bind_Ok _ _ _ _ _ Hh). cbn [fst].
    cbn [cfg_state cfg_server cfg_client].
    assert (Hint : intercept (mkConfig T Srv Cli) "substitute" attacker_identity hj (w1, (s1, ks))
                   = (Ok (hs, Some atk), (w2, (s1, ks)))).
    { unfold intercept, str_field, getitem. cbn [String.eqb Ascii.eqb Bool.eqb orb].
      rewrite Hjh. cbn [rbind as_str]. rewrite bind_of_result.
      by rewrite (bind_Ok _ _ _ _ _ (with_server_Ok _ _ _ _ _ _ _ Hnew)). }
    rewrite (bind_Ok _ _ _ _ _ Hint). cbn [String.eqb Ascii.eqb Bool.eqb].
    unfold bind at 1, ret at 1. cbn [negb].
    rewrite (get_b64_of "kex_public_key" hs (kex_public_key b)), bind_of_result
      by (unfold hs; by rewrite dget_dset_ne, dget_dset_eq).
    rewrite (bind_Ok _ _ _ _ _ (on_fst_Ok _ _ (s1, ks) _ _ Hest)).
    rewrite json_dumps_jsonable, bind_of_result by done.
    rewrite (bind_Ok _ _ _ _ _ (on_fst_Ok _ _ (s1, ks) _ _ Hr)).
    unfold getitem. rewrite Hsh, bind_of_result, (bind_Ok _ _ _ _ _ Hleg).
    unfold judge. rewrite Hopen, json_roundtrip, bind_of_result by done.
    rewrite (get_b64_of "sig_public_key" hs (hb_sig_public_key b)), bind_of_result
      by (unfold hs; by rewrite dget_dset_eq).
    rewrite (bind_Ok _ _ _ _ _ (on_fst_Ok _ _ (s4, delete hid ks) _ _ Hv)).
    cbn [fst negb]. unfold as_dict. rewrite bind_of_result. reflexivity.
  - unfold forged. unfold dget_or. rewrite dget_dset_eq. split_and!; reflexivity.
Qed.

(** C15: A client that pinned an identity is not fooled by substitution alone:
    if its transaction gets past the handshake check, the handshake it was
    handed carries a signature that the pinned key verifies over the
    transcript of the attacker's keys; otherwise it stops at the handshake,
    with nothing read and nothing forged, and no request was sent. *)
Theorem pinned_stops_substitution {E : Env} {P : Prims} {J : Json} {N : Type} {TR : Transport N}
    (config_name base_url variant : string) (c : config) (request hj hs : dict)
    (atk : option (cfg_state c)) (pinned : string * bytes) (attacker_identity : IdentityKey) (q : Q)
    (σ0 : world * N) (w1 w2 : world) (n1 n2 : N) (out : dict) (σ' : world * N)
    (Hc : get_crypto config_name = Ok c)
    (Hh : do_handshake base_url σ0 = (Ok (hj, q), (w1, n1)))
    (Hi : intercept c variant attacker_identity hj (w1, n1) = (Ok (hs, atk), (w2, n2)))
    (Hrun : _trial base_url config_name variant "pinned" pinned attacker_identity request σ0
            = (Ok out, σ')) :
  (dget "rejected_at" out = Some (VStr "handshake")
   /\ dget "attacker_read_request" out = Some (VBool false)
   /\ dget "forged_response_accepted" out = Some (VBool false)
   /\ dget "client_accepted" out = Some (VBool false) /\ snd σ' = n2)
  \/ exists msg sig meta w3, handshake_transcript hs = Ok msg
       /\ _b64d (dget_or "transcript_signature" VNone hs) = Ok sig
       /\ verify_identity (fst pinned) (snd pinned) msg sig w2 = (Ok (true, meta), w3).
Proof.
  unfold _trial in Hrun. rewrite Hc, bind_of_result, (bind_Ok _ _ _ _ _ Hh) in Hrun.
  cbn [fst] in Hrun. rewrite (bind_Ok _ _ _ _ _ Hi) in Hrun.
  apply bind_inv_Ok in Hrun as (ok & [w3 n3] & Hv & Hrun).
  cbn [String.eqb Ascii.eqb Bool.eqb] in Hv. apply bind_inv_Ok in Hv as ([b meta] & σ3 & Hv & Hr).
  injection Hr as <- ->. apply on_fst_inv_Ok in Hv as (w4 & Hv & [= -> ->]).
  destruct b; cbn [negb fst] in Hrun.
  - right. unfold verify_handshake in Hv.
    destruct (truthy (dget_or "transcript_signature" VNone hs)); cbn [negb] in Hv; [|done].
    apply bind_inv_Ok in Hv as (msg & w5 & Hm & Hv). injection Hm as Hm ->.
    apply bind_inv_Ok in Hv as (sig & w6 & Hs & Hv). injection Hs as Hs ->.
    by exists msg, sig, meta, w4.
  - left. injection Hrun as <- <-. by split_and!.
Qed.
