(* ===== verification/SecureProps.v ===== *)
(** * What protected predictions guarantee

    The secure endpoint against its client: single transactions, session
    resumption over any number of requests, warm handshakes, and the error
    branches of the endpoint. *)
From stdpp Require Import gmap.
From S2P Require Import Prelude PyBytes PyVal World Instrumentation Aead Base Configs ConfigsLaws.
From S2P Require Import Http HandshakeAuth SecureApp SecureClient AppServer StreamingTransaction.
From S2P Require Import SecureLaws.

Section Requests.
Context {E : Env} {P : Prims} {J : Json} {N : Type} {TR : Transport N}.

(** [n] requests of one client, sharing its session object. *)
Fixpoint requests (n : nat) (base_url config_name : string) (body : dict) (debug : bool)
    : M ((world * N) * option ClientSession) (list dict) :=
  match n with
  | O => ret []
  | S n =>
      let* row := secure_predict_transaction base_url config_name body debug None None in
      let* rows := requests n base_url config_name body debug in
      ret (row :: rows)
  end.
End Requests.

Section Laws.
Context {E : Env} {P : Prims} {EL : EnvLaws E} {PL : PrimLaws P} {J : Json} {JL : JsonLaws J}.
Context {T : Type} {Srv : ServerCryptoConfig T} {Cli : ClientCryptoConfig}
        {L : ConfigLaws Srv Cli}.
Variables (config_name : string).
Hypothesis Hc : get_crypto config_name = Ok (mkConfig T Srv Cli).
Variables (model_predict : val -> M world dict)
          (backend_stream : result token_source) (base_url : string).
Variables (body result : dict).
Hypothesis Hbody : jsonable (VDict body) = true.
Hypothesis Hmodel : forall w, exists w', model_predict (VDict body) w = (Ok result, w').
Hypothesis Hinference : dmem "_inference_ms" result = true.
Hypothesis Hresult : jsonable (VDict (ddel "_inference_ms" result)) = true.

Abbreviation transport := (app_transport model_predict backend_stream None base_url).

(** The wrapper around a transaction that does not raise. *)
Lemma transaction_wrap cached debug σ σ' row' :
  transaction (TR := transport) Cli base_url body debug cached None
    (σ, [("config", VStr config_name); ("error", VNone); ("valid_signature", VNone)])
  = (Ok tt, (σ', row')) ->
  secure_predict_transaction (TR := transport) base_url config_name body debug cached None σ
  = (Ok row', σ').
Proof.
  intros H. unfold secure_predict_transaction, get_client_crypto. rewrite Hc. cbn [rbind cfg_client].
  unfold bind, of_result. by rewrite H.
Qed.

(** The requests left on a kept session. *)
Lemma requests_resumed n debug : forall w s ks hid kpk spk key hj,
  live s hid kpk spk -> length key = 32%nat -> handshake_of hid spk hj ->
  ks !! hid = Some key ->
  exists rows w' s',
    requests (TR := transport) (S n) base_url config_name body debug
      ((w, (s, ks)), Some (mkSession (Z.of_nat (S n)) (Some hj) (Some key)))
    = (Ok rows, ((w', (s', delete hid ks)), Some (mkSession 0 (Some hj) (Some key))))
    /\ length rows = S n /\ Forall (tx_ok result true) rows
    /\ known s' hid = false /\ forall h, h <> hid -> known s' h = known s h.
Proof.
  induction n as [|n IH]; intros w s ks hid kpk spk key hj Hl Lk Hhj Hks.
  - destruct (transaction_resumed model_predict backend_stream base_url body result Hbody Hmodel
                Hinference Hresult debug w s ks hid kpk spk key hj 1
                [("config", VStr config_name); ("error", VNone); ("valid_signature", VNone)]
                Hl Lk Hhj Hks eq_refl) as (w' & s' & row' & Ht & Hok & Hafter).
    exists [row'], w', s'. cbn [requests].
    rewrite (bind_Ok _ _ _ _ _ (transaction_wrap _ _ _ _ _ Ht)).
    split; [reflexivity|]. split; [done|]. split; [by constructor|]. exact Hafter.
  - destruct (transaction_resumed model_predict backend_stream base_url body result Hbody Hmodel
                Hinference Hresult debug w s ks hid kpk spk key hj (Z.of_nat (S (S n)))
                [("config", VStr config_name); ("error", VNone); ("valid_signature", VNone)]
                Hl Lk Hhj Hks eq_refl) as (w' & s' & row' & Ht & Hok & Hafter).
    assert (Hkeep : keeps (Some (mkSession (Z.of_nat (S (S n))) (Some hj) (Some key))) = true)
      by (unfold keeps; cbn [requests_left]; apply Z.ltb_lt; lia).
    rewrite Hkeep in Ht, Hafter. cbn [keys_after session_after] in Ht, Hafter. subst s'.
    replace (spend hj key _) with (Some (mkSession (Z.of_nat (S n)) (Some hj) (Some key))) in Ht
      by (unfold spend; cbn [requests_left]; do 2 f_equal; lia).
    destruct (IH w' s ks hid kpk spk key hj Hl Lk Hhj Hks)
      as (rows & w2 & s2 & Hr & Hlen & Hall & Hgone).
    exists (row' :: rows), w2, s2. cbn [requests].
    rewrite (bind_Ok _ _ _ _ _ (transaction_wrap _ _ _ _ _ Ht)).
    cbn [requests] in Hr. rewrite (bind_Ok _ _ _ _ _ Hr).
    split; [reflexivity|]. split; [simpl; by rewrite Hlen|]. split; [by constructor|exact Hgone].
Qed.

(** All the requests of a fresh client. *)
Lemma requests_fresh n debug w s ks :
  exists row rows w' s' hid left hj key,
    requests (TR := transport) (S n) base_url config_name body debug
      ((w, (s, ks)), Some (mkSession (Z.of_nat (S n)) None None))
    = (Ok (row :: rows), ((w', (s', delete hid ks)), Some (mkSession left hj key)))
    /\ left = 0 /\ length rows = n /\ tx_ok result false row /\ Forall (tx_ok result true) rows
    /\ forall h, known s h = false -> known s' h = false.
Proof.
  destruct (transaction_fresh model_predict backend_stream base_url body result Hbody Hmodel
              Hinference Hresult debug w s ks (Some (mkSession (Z.of_nat (S n)) None None))
              [("config", VStr config_name); ("error", VNone); ("valid_signature", VNone)]
              eq_refl eq_refl)
    as (hid & kpk & spk & key & hj & w1 & s1 & s2 & row & Ht & Hok & Lk & Hl & Hhj & Hkn & Haft).
  cbn [requests]. rewrite (bind_Ok _ _ _ _ _ (transaction_wrap _ _ _ _ _ Ht)).
  unfold keeps in *. cbn [requests_left spend] in *.
  destruct n as [|n].
  - cbn [requests bind ret]. exists row, [], w1, s2, hid, 0, (Some hj), (Some key).
    split; [reflexivity|]. destruct Haft as [Hgone Hoth]. split_and!; try done.
    intros h Hh. destruct (decide (h = hid)) as [->|Hne]; [done|]. by rewrite Hoth, Hkn.
  - replace (1 <? Z.of_nat (S (S n))) with true in * by (symmetry; apply Z.ltb_lt; lia).
    cbn [session_after keys_after] in *. subst s2.
    replace (Z.of_nat (S (S n)) - 1) with (Z.of_nat (S n)) by lia.
    destruct (requests_resumed n debug w1 s1 (<[hid := key]> ks) hid kpk spk key hj Hl Lk Hhj)
      as (rows & w3 & s3 & Hr & Hlen & Hall & Hgone & Hoth); [by rewrite lookup_insert_eq|].
    rewrite (bind_Ok _ _ _ _ _ Hr).
    exists row, rows, w3, s3, hid, 0, (Some hj), (Some key). rewrite delete_insert_eq.
    split; [reflexivity|]. split_and!; try done.
    intros h Hh. destruct (decide (h = hid)) as [->|Hne]; [done|]. by rewrite Hoth, Hkn.
Qed.

(** A handshake fetched once and used for two requests. *)
Lemma warm_handshake_run debug w s ks :
  exists j q w1 s1 row1 w2 s2 row2 w3,
    do_handshake (TR := transport) base_url (w, (s, ks)) = (Ok (j, q), (w1, (s1, ks)))
    /\ (exists hid,
          secure_predict_transaction (TR := transport) base_url config_name body debug (Some j) None
            ((w1, (s1, ks)), None) = (Ok row1, ((w2, (s2, delete hid ks)), None))
          /\ tx_ok result false row1
          /\ secure_predict_transaction (TR := transport) base_url config_name body debug (Some j) None
               ((w2, (s2, delete hid ks)), None) = (Ok row2, ((w3, (s2, delete hid ks)), None)))
    /\ dget "error" row2 = Some (VStr (http_error 404 (take_string 200
         (json_text (VDict [("detail", VStr "Unknown or expired handshake_id")])))))
    /\ dget "valid_signature" row2 = Some VNone /\ dget "prediction" row2 = None.
Proof.
  destruct (do_handshake_run model_predict backend_stream base_url w s ks)
    as (b & q & w1 & s1 & Hh & Hl & _).
  set (hj := HandshakeResponse _ _ _ _ _ _ _) in Hh.
  set (row0 := [("config", VStr config_name); ("error", VNone); ("valid_signature", VNone)] : dict).
  destruct (transaction_established model_predict backend_stream base_url body result Hbody Hmodel
              Hinference Hresult (Some hj) debug (handshake_id b) _ _ hj 0 w1 s1 w1 s1 ks None row0
              eq_refl eq_refl eq_refl Hl ltac:(done) eq_refl)
    as (key & w2 & s2 & row1 & Ht & Hok & _ & [Hgone _]).
  destruct (transaction_expired model_predict backend_stream base_url body Hbody debug
              (handshake_id b) _ _ hj w2 s2 s1 (delete (handshake_id b) ks) row0 Hgone Hl ltac:(done)
              eq_refl eq_refl) as (w3 & row2 & Ht2 & He & Hv & Hp).
  exists hj, q, w1, s1, row1, w2, s2, row2, w3. split; [exact Hh|]. split.
  - exists (handshake_id b). split; [exact (transaction_wrap _ _ _ _ _ Ht)|]. split; [exact Hok|].
    exact (transaction_wrap _ _ _ _ _ Ht2).
  - split_and!; done.
Qed.
End Laws.

(** C7: Session resumption: a client session of [n + 1] requests against a
    server of any configuration succeeds on every request -- no error, the
    signature valid, the model's prediction returned.  Exactly the first
    request exchanges a key; the others are resumed with an empty blob.  The
    last one makes the server forget: its key cache is what it was without the
    session's entry, and a server that started with no session has none.  The
    prediction service is idealised: it answers this body with one constant
    result, which carries [_inference_ms]. *)
Theorem session_resumption {E : Env} {P : Prims} {EL : EnvLaws E} {PL : PrimLaws P}
    {J : Json} {JL : JsonLaws J} (config_name : string) (c : config)
    (model_predict : val -> M world dict) (backend_stream : Prelude.result token_source)
    (base_url : string) (body result : dict) (debug : bool) (n : nat)
    (w : world) (s : cfg_state c) (ks : gmap string bytes)
    (Hc : get_crypto config_name = Ok c)
    (Hbody : jsonable (VDict body) = true)
    (Hmodel : forall w, exists w', model_predict (VDict body) w = (Ok result, w'))
    (Hinference : dmem "_inference_ms" result = true)
    (Hresult : jsonable (VDict (ddel "_inference_ms" result)) = true) :
  exists rows w' s' hid left hj key,
    requests (TR := app_transport (Srv := cfg_server c) model_predict backend_stream None base_url)
      (S n) base_url config_name body debug
      ((w, (s, ks)), Some (mkSession (Z.of_nat (S n)) None None))
    = (Ok rows, ((w', (s', delete hid ks)), Some (mkSession left hj key)))
    /\ left = 0 /\ length rows = S n
    /\ (forall i row, rows !! i = Some row ->
          dget "error" row = Some VNone /\ dget "valid_signature" row = Some (VBool true)
          /\ dget "prediction" row
             = Some (dget_or "prediction" VNone (ddel "_inference_ms" result))
          /\ dget "resumed" row = Some (VBool (negb (Nat.eqb i 0)))
          /\ exists b, dget "kex_blob_bytes" row = Some (VInt b) /\ (b = 0 <-> i <> 0%nat))
    /\ (s = server_init (ServerCryptoConfig := cfg_server c) -> forall h w2 blob, exists w3,
           accept (ServerCryptoConfig := cfg_server c) h blob (w2, s')
           = (Raise (KeyError h), (w3, s'))).
Proof.
  destruct c as [T Srv Cli]. destruct (get_crypto_laws config_name _ Hc) as [L].
  destruct (requests_fresh config_name Hc model_predict backend_stream base_url body result Hbody
              Hmodel Hinference Hresult n debug w s ks)
    as (row & rows & w' & s' & hid & left & hj & key & Hr & Hleft & Hlen & Hok & Hall & Hkn).
  exists (row :: rows), w', s', hid, left, hj, key.
  split; [exact Hr|]. split; [exact Hleft|]. split; [simpl; by rewrite Hlen|]. split.
  - intros [|i] r Hi.
    + injection Hi as <-. destruct Hok as ((?&?&?)&?&(b&?&?)). split_and!; try done.
      exists b. split; [done|]. split; [intros Hb; by apply H4 in Hb|done].
    + simpl in Hi. rewrite Forall_lookup in Hall. destruct (Hall i r Hi) as ((?&?&?)&?&(b&?&?)).
      split_and!; try done. exists b. split; [done|]. split; [done|intros _; by apply H4].
  - intros ->. intros. apply (@accept_unknown _ _ _ L), Hkn, (@init_empty _ _ _ L).
Qed.

(** A handshake does not outlive a request: when a client fetches one
    handshake and uses it for two requests without asking to keep the session,
    the first succeeds and the second ends with the server's HTTP 404 "Unknown
    or expired handshake_id", no signature verified and no prediction. *)
Theorem warm_handshake_expires {E : Env} {P : Prims} {EL : EnvLaws E} {PL : PrimLaws P}
    {J : Json} {JL : JsonLaws J} (config_name : string) (c : config)
    (model_predict : val -> M world dict) (backend_stream : Prelude.result token_source)
    (base_url : string) (body result : dict) (debug : bool)
    (w : world) (s : cfg_state c) (ks : gmap string bytes)
    (Hc : get_crypto config_name = Ok c)
    (Hbody : jsonable (VDict body) = true)
    (Hmodel : forall w, exists w', model_predict (VDict body) w = (Ok result, w'))
    (Hinference : dmem "_inference_ms" result = true)
    (Hresult : jsonable (VDict (ddel "_inference_ms" result)) = true) :
  let TR := app_transport (Srv := cfg_server c) model_predict backend_stream None base_url in
  exists j q σ1 row1 σ2 row2 σ3,
    do_handshake base_url (w, (s, ks)) = (Ok (j, q), σ1)
    /\ secure_predict_transaction base_url config_name body debug (Some j) None (σ1, None)
       = (Ok row1, (σ2, None))
    /\ dget "error" row1 = Some VNone /\ dget "valid_signature" row1 = Some (VBool true)
    /\ secure_predict_transaction base_url config_name body debug (Some j) None (σ2, None)
       = (Ok row2, (σ3, None))
    /\ dget "error" row2 = Some (VStr (http_error 404 (take_string 200
         (json_text (VDict [("detail", VStr "Unknown or expired handshake_id")])))))
    /\ dget "valid_signature" row2 = Some VNone /\ dget "prediction" row2 = None.
Proof.
  intros TR. destruct c as [T Srv Cli]. destruct (get_crypto_laws config_name _ Hc) as [L].
  destruct (warm_handshake_run config_name Hc model_predict backend_stream base_url body result
              Hbody Hmodel Hinference Hresult debug w s ks)
    as (j & q & w1 & s1 & row1 & w2 & s2 & row2 & w3 & H1 & (hid & H2 & Hok & H3) & He & Hv & Hp).
  eexists j, q, _, row1, _, row2, _. destruct Hok as ((He1&Hv1&_)&_).
  split_and!; [exact H1|exact H2|exact He1|exact Hv1|exact H3|exact He|exact Hv|exact Hp].
Qed.
