(* ===== verification/AppProps.v ===== *)
(** * Invariants and error branches of the protected server

    The server's endpoints as a transition system with an invariant on the
    session-key cache, and what a rejected request leaves behind. *)
From stdpp Require Import gmap relations.
From S2P Require Import Prelude PyBytes PyVal World Instrumentation Aead Base Configs ConfigsLaws.
From S2P Require Import Streaming Http HandshakeAuth SecureApp StreamingHonest StreamingTransaction.
From S2P Require Import SecureLaws.

(** Cached session keys are AES-256 keys. *)
Definition keys_ok (ks : gmap string bytes) : Prop := map_Forall (fun _ k => length k = 32%nat) ks.

Section Invariant.
Context {E : Env} {P : Prims} {J : Json} {T : Type} {Srv : ServerCryptoConfig T}.
Variables (model_predict : val -> M world dict)
          (backend_stream : result token_source) (identity : option IdentityKey).

Abbreviation app_state := ((world * T) * gmap string bytes)%type.

(** One request, answered or rejected, at any endpoint. *)
Inductive app_step : app_state -> app_state -> Prop :=
  | step_identity σ r σ' : identity_key identity σ = (r, σ') -> app_step σ σ'
  | step_handshake σ r σ' : handshake identity σ = (r, σ') -> app_step σ σ'
  | step_predict req debug σ r σ' :
      secure_predict model_predict req debug σ = (r, σ') -> app_step σ σ'
  | step_stream req σ r σ' : secure_predict_stream backend_stream req σ = (r, σ') -> app_step σ σ'.

Definition app_reachable (σ : app_state) : Prop :=
  exists w, rtc app_step ((w, server_init), ∅) σ.

(** A piece of a handler that keeps the invariant, whatever its outcome. *)
Definition keeps_keys {A} (m : M app_state A) : Prop :=
  forall σ, keys_ok (snd σ) -> keys_ok (snd (snd (m σ))).

Lemma keeps_keys_bind {A B} (m : M app_state A) (k : A -> M app_state B) :
  keeps_keys m -> (forall a, keeps_keys (k a)) -> keeps_keys (bind m k).
Proof.
  intros Hm Hk σ Hσ. unfold bind. specialize (Hm σ Hσ).
  destruct (m σ) as [[a|e] σ1]; simpl in *; [by apply Hk|done].
Qed.
Lemma keeps_keys_ret {A} (a : A) : keeps_keys (ret a).
Proof. by intros σ. Qed.
Lemma keeps_keys_raise {A} e : keeps_keys (raise (A := A) e).
Proof. by intros σ. Qed.
Lemma keeps_keys_of_result {A} (r : result A) : keeps_keys (of_result r).
Proof. by intros σ. Qed.
Lemma keeps_keys_on_fst {A} (m : M (world * T) A) : keeps_keys (on_fst m).
Proof. intros [σ ks]. unfold on_fst. by destruct (m σ). Qed.
Lemma keeps_keys_keys_of : keeps_keys keys_of.
Proof. by intros σ. Qed.
Lemma keeps_keys_pop hid : keeps_keys (pop_key hid).
Proof. intros [σ ks] H. by apply map_Forall_delete. Qed.
Lemma keeps_keys_try_catch {A} (m : M app_state A) h :
  keeps_keys m -> (forall e, keeps_keys (h e)) -> keeps_keys (try_catch m h).
Proof.
  intros Hm Hh σ Hσ. unfold try_catch. specialize (Hm σ Hσ).
  destruct (m σ) as [[a|e] σ1]; simpl in *; [done|by apply Hh].
Qed.

Lemma keeps_keys_accept hid blob : keeps_keys (accept_or_http hid blob).
Proof.
  apply keeps_keys_try_catch; [apply keeps_keys_on_fst|].
  intros []; apply keeps_keys_raise.
Qed.

Ltac keeps_keys_tac :=
  repeat first
    [ apply keeps_keys_bind; [|intros ?] | apply keeps_keys_ret | apply keeps_keys_raise
    | apply keeps_keys_of_result | apply keeps_keys_on_fst | apply keeps_keys_keys_of
    | apply keeps_keys_pop | apply keeps_keys_accept
    | match goal with |- context [match ?x with _ => _ end] => destruct x end ].

Context {Cli : ClientCryptoConfig} {L : ConfigLaws Srv Cli}.

(** Only a key the configuration accepted is cached. *)
Lemma keeps_keys_request req blob : keeps_keys (request_session_key req blob).
Proof.
  intros [[w s] ks] Hσ. unfold request_session_key. destruct blob as [|x blob].
  - apply keeps_keys_bind; [apply keeps_keys_keys_of|intros ?; keeps_keys_tac|exact Hσ].
  - unfold bind, accept_or_http, try_catch, crypto, on_fst.
    destruct (accept (req_handshake_id req) (x :: blob) (w, s)) as [[[key meta]|e] [w' s']] eqn:Ha.
    + apply accept_result in Ha as [Lk _]. destruct (req_keep_session req); simpl; [|exact Hσ].
      apply map_Forall_insert_2; [exact Lk|exact Hσ].
    + by destruct e.
Qed.

Lemma keeps_keys_predict req debug : keeps_keys (secure_predict model_predict req debug).
Proof.
  unfold secure_predict, io, crypto.
  repeat first [apply keeps_keys_request | progress keeps_keys_tac].
Qed.

Lemma keeps_keys_handshake : keeps_keys (handshake identity).
Proof. unfold handshake, crypto, io. keeps_keys_tac. Qed.

Lemma keeps_keys_setup req : keeps_keys (stream_setup backend_stream req).
Proof. unfold stream_setup. keeps_keys_tac. Qed.

Lemma keeps_keys_stream req : keeps_keys (secure_predict_stream backend_stream req).
Proof.
  apply keeps_keys_bind; [apply keeps_keys_setup|]. intros [a [size toks]] [σ ks] Hσ.
  by destruct (event_generator _ _ _ _) as [r [[σ' k'] g]].
Qed.

Lemma app_step_keys σ σ' : app_step σ σ' -> keys_ok (snd σ) -> keys_ok (snd σ').
Proof.
  intros Hstep Hσ. destruct Hstep as [σ r σ' H|σ r σ' H|req d σ r σ' H|req σ r σ' H].
  - unfold identity_key in H. destruct identity; injection H as _ <-; done.
  - specialize (keeps_keys_handshake σ Hσ). by rewrite H.
  - specialize (keeps_keys_predict req d σ Hσ). by rewrite H.
  - specialize (keeps_keys_stream req σ Hσ). by rewrite H.
Qed.

Lemma reachable_keys σ : app_reachable σ -> keys_ok (snd σ).
Proof.
  intros [w Hrtc]. assert (H0 : keys_ok (snd (((w, server_init) : world * T), ∅ : gmap string bytes)))
    by apply map_Forall_empty.
  revert H0. induction Hrtc as [|σ1 σ2 σ3 Hstep _ IH]; [done|].
  intros H1. apply IH. by eapply app_step_keys.
Qed.
End Invariant.

(** C11: Every session key the server caches is a 256-bit key, after any
    sequence of requests to any of its endpoints, rejected ones included; so a
    resumed request's payload either opens or is answered with HTTP 400, and
    never with an unhandled error of the cipher. *)
Theorem cached_keys_are_keys {E : Env} {P : Prims} {EL : EnvLaws E} {PL : PrimLaws P} {J : Json}
    (config_name : string) (c : config) (identity : option IdentityKey)
    (model_predict : val -> M world dict) (backend_stream : result token_source)
    (σ : (world * cfg_state c) * gmap string bytes) (hid : string) (key n ct : bytes)
    (Hc : get_crypto config_name = Ok c)
    (Hreach : app_reachable (Srv := cfg_server c) model_predict backend_stream identity σ)
    (Hkey : snd σ !! hid = Some key) :
  length key = 32%nat
  /\ ((exists pt, decrypt_or_400 key n ct = Ok pt)
      \/ decrypt_or_400 key n ct
         = Raise (HTTPException 400 "Request payload failed authentication")).
Proof.
  destruct (get_crypto_laws config_name c Hc) as [L].
  apply (@reachable_keys _ _ _ _ _ _ _ _ _ L) in Hreach.
  assert (Lk : length key = 32%nat) by (by apply Hreach in Hkey).
  split; [exact Lk|]. unfold decrypt_or_400.
  destruct (aead_decrypt_good_key key n ct Lk) as [[pt ->]| ->]; [left|right]; eauto.
Qed.

(** C10: What a rejected prediction request does, for each of the handler's
    rejections: malformed base64 is HTTP 400; when key establishment raises
    [KeyError] -- and it does when the server has just started or has forgotten
    the handshake -- it is HTTP 404, when it raises anything else it is HTTP 400 with the error's
    text; an empty key-exchange blob without a cached key is HTTP 404; and in
    all these cases sessions and cached keys are untouched.  A request whose
    key is established, or cached, but whose payload does not open is HTTP 400,
    the handshake stays in the table, and when it asked to keep the session
    its key is cached all the same. *)
Theorem predict_rejections {E : Env} {P : Prims} {EL : EnvLaws E} {PL : PrimLaws P} {J : Json}
    (config_name : string) (c : config)
    (model_predict : val -> M world dict) (hid : string) (b64blob b64n b64c : string)
    (keep debug : bool) (w : world) (s : cfg_state c) (ks : gmap string bytes)
    (Hc : get_crypto config_name = Ok c) :
  let Srv := cfg_server c in
  let req := mkRequest hid b64blob b64n b64c keep in
  let run := secure_predict model_predict req debug ((w, s), ks) in
  let rejected status detail ks' :=
    exists w', run = (Raise (HTTPException status detail), ((w', s), ks')) in
  ((exists e f, f ∈ [b64blob; b64n; b64c] /\ _b64d (VStr f) = Raise e) ->
     rejected 400 "Malformed base64 in request" ks)
  /\ (forall x blob n ct, _b64d (VStr b64blob) = Ok (x :: blob) -> _b64d (VStr b64n) = Ok n ->
      _b64d (VStr b64c) = Ok ct ->
      match fst (accept hid (x :: blob) (advance w, s)) with
      | Raise (KeyError _) => rejected 404 "Unknown or expired handshake_id" ks
      | Raise e => rejected 400 ("Key establishment failed: " +:+ exn_str e) ks
      | Ok (key, _) => aead_decrypt key n ct = Raise AEADError ->
          rejected 400 "Request payload failed authentication"
            (if keep then <[hid := key]> ks else ks)
      end)
  /\ (s = server_init (ServerCryptoConfig := Srv)
       \/ (exists s0 w0 w1, forget (ServerCryptoConfig := Srv) hid (w0, s0) = (Ok tt, (w1, s))) ->
      forall blob w1, fst (accept hid blob (w1, s)) = Raise (KeyError hid))
  /\ (forall n ct, _b64d (VStr b64blob) = Ok [] -> _b64d (VStr b64n) = Ok n ->
      _b64d (VStr b64c) = Ok ct ->
      (ks !! hid = None -> rejected 404 "Unknown or expired session" ks)
      /\ (forall key, ks !! hid = Some key -> aead_decrypt key n ct = Raise AEADError ->
           rejected 400 "Request payload failed authentication" ks)).
Proof.
  destruct (get_crypto_laws config_name c Hc) as [L].
  intros Srv req run rejected. unfold rejected, run, req, secure_predict, io, of_result.
  cbn [req_kex_blob req_nonce req_ciphertext req_handshake_id req_keep_session].
  rewrite (bind_Ok _ _ _ _ _ (on_fst_Ok _ _ ks _ _ (on_fst_Ok _ _ s _ _ (perf_counter_run w)))).
  split_and!.
  - intros (e & f & Hin & Hf). exists (advance w). unfold bind, decode_or_400.
    destruct (_b64d (VStr b64blob)) eqn:H1; [|done].
    destruct (_b64d (VStr b64n)) eqn:H2; [|done].
    destruct (_b64d (VStr b64c)) eqn:H3; [|done].
    exfalso. apply elem_of_cons in Hin as [->|[->|[->|[]%not_elem_of_nil]%elem_of_cons]%elem_of_cons];
      congruence.
  - intros x blob n ct H1 H2 H3. unfold decode_or_400. rewrite H1, H2, H3.
    unfold request_session_key, accept_or_http, try_catch, crypto, bind, on_fst.
    cbn [req_handshake_id req_keep_session].
    destruct (accept hid (x :: blob) (advance w, s)) as [r [w2 s2]] eqn:Hacc.
    assert (s2 = s) as -> by exact (accept_state (ConfigLaws := L) _ _ _ _ _ _ _ Hacc). cbn [fst].
    destruct r as [[key meta]|[]]; [|by exists w2..].
    intros Hd. exists w2. unfold decrypt_or_400. destruct keep; cbn; by rewrite Hd.
  - intros Hs blob w1. assert (known (ConfigLaws := L) s hid = false) as Hk.
    { destruct Hs as [->|(s0 & w0 & w2 & Hf)]; [apply (init_empty (ConfigLaws := L))|].
      destruct (forget_ok (ConfigLaws := L) w0 s0 hid) as (s1 & Hf1 & Hk & _).
      pose proof (eq_trans (eq_sym Hf1) Hf) as Heq. by injection Heq as _ <-. }
    destruct (accept_unknown (ConfigLaws := L) s hid blob w1 Hk) as [w2 Ha].
    exact (f_equal fst Ha).
  - intros n ct H1 H2 H3. unfold decode_or_400. rewrite H1, H2, H3.
    unfold request_session_key, keys_of, bind. cbn [req_handshake_id snd]. split.
    + intros ->. by exists (advance w).
    + intros key -> Hd. exists (advance w). unfold decrypt_or_400. cbn. by rewrite Hd.
Qed.

(** ** A stream on a kept session *)
Section Stale.
Context {E : Env} {P : Prims} {EL : EnvLaws E} {PL : PrimLaws P} {J : Json}.
Context {T : Type} {Srv : ServerCryptoConfig T} {Cli : ClientCryptoConfig}
        {L : ConfigLaws Srv Cli}.

(** A stream that ran to its end has forgotten its handshake. *)
Lemma generator_forgets {K} {Strat : StreamSigningStrategy (S := T) K} hid size toks
    w s k g w' s' k' g' :
  event_generator hid size toks (((w, s), k), g) = (Ok tt, (((w', s'), k'), g')) ->
  known s' hid = false.
Proof.
  unfold event_generator. intros H.
  repeat match type of H with
  | bind _ _ _ = (Ok _, _) => apply bind_inv_Ok in H as (? & ? & _ & H)
  end.
  match type of H with on_fst _ ?x = _ => destruct x as [[[w0 s0] k0] g0] end.
  apply on_fst_inv_Ok in H as (σ1 & H & Heq).
  apply on_fst_inv_Ok in H as (σ2 & H & Heq2).
  destruct (forget_ok w0 s0 hid) as (s1 & Hf & Hk & _). rewrite Hf in H.
  by simplify_eq.
Qed.

(** Signing for a handshake that is gone ends the request. *)
Lemma predict_unsigned model_predict hid key n c keep debug body d inf w (s : T) ks :
  known s hid = false -> ks !! hid = Some key -> length key = 32%nat ->
  aead_decrypt key n c = Ok body -> (exists v, json_loads body = Ok v
    /\ forall w1, exists w2, model_predict v w1 = (Ok d, w2)) ->
  getitem "_inference_ms" d = Ok inf -> (exists t, json_dumps (VDict (ddel "_inference_ms" d)) = Ok t) ->
  exists w', secure_predict model_predict
      (mkRequest hid (_b64e []) (_b64e n) (_b64e c) keep) debug ((w, s), ks)
    = (Raise (KeyError hid), ((w', s), ks)).
Proof.
  intros Hk Hks Lk Hd (v & Hv & Hm) Hi [t Ht].
  destruct (Hm (advance w)) as [w2 Hm2].
  destruct (aead_encrypt_run key (encode t) (advance w2) Lk) as (r & Hr & _).
  destruct (sign_unknown s hid (nonce r ++ ciphertext r) (advance (advance (advance w2))) Hk) as [w3 Hs].
  exists w3. unfold secure_predict.
  cbn [req_kex_blob req_nonce req_ciphertext req_handshake_id req_keep_session].
  rewrite !decode_or_400_b64e. unfold io, crypto, bind, of_result, on_fst.
  change (perf_counter w) with (Ok (env_perf_counter (tick w)), advance w). cbv beta iota.
  rewrite request_resumed with (key := key) by done. cbv beta iota.
  unfold decrypt_or_400. rewrite Hd, Hv. cbv beta iota. rewrite Hm2. cbv beta iota.
  rewrite Hi. cbv beta iota. rewrite Ht. cbv beta iota.
  change (perf_counter w2) with (Ok (env_perf_counter (tick w2)), advance w2). cbv beta iota.
  rewrite Hr. cbv beta iota.
  change (perf_counter (advance (advance w2)))
    with (Ok (env_perf_counter (tick (advance (advance w2)))), advance (advance (advance w2))).
  cbv beta iota. by rewrite Hs.
Qed.
End Stale.

(** C12: Streaming on a kept session leaves a key behind that no longer works:
    a stream endpoint call that runs to its end leaves the session-key cache as
    it was but has forgotten the handshake, so that a later resumed prediction
    with a well-formed, authenticated payload is served with the cached key
    until it comes to signing, and then ends in an unhandled [KeyError] -- HTTP
    500, not the 404 of an expired session -- with the key still cached.  The
    prediction service is idealised: it answers that body with one constant
    result, which carries [_inference_ms]. *)
Theorem stream_strands_kept_session {E : Env} {P : Prims} {EL : EnvLaws E} {PL : PrimLaws P}
    {J : Json} {JL : JsonLaws J} (config_name : string) (c : config)
    (model_predict : val -> M world dict) (backend_stream : result token_source)
    (req : SecurePredictRequest) (events : list string) (hid : string) (key n ct : bytes)
    (body result : dict) (keep debug : bool)
    (w w1 w2 : world) (s s1 : cfg_state c) (ks ks1 : gmap string bytes)
    (Hc : get_crypto config_name = Ok c)
    (Hstream : secure_predict_stream (Srv := cfg_server c) backend_stream req ((w, s), ks)
               = (Ok (events, None), ((w1, s1), ks1)))
    (Hhid : req_handshake_id req = hid) (Hkey : ks !! hid = Some key)
    (Lkey : length key = 32%nat)
    (Hopen : aead_decrypt key n ct = Ok (encode (json_text (VDict body))))
    (Hbody : jsonable (VDict body) = true)
    (Hmodel : forall w, exists w', model_predict (VDict body) w = (Ok result, w'))
    (Hinference : dmem "_inference_ms" result = true)
    (Hresult : jsonable (VDict (ddel "_inference_ms" result)) = true) :
  ks1 = ks
  /\ exists w3, secure_predict (Srv := cfg_server c) model_predict
      (mkRequest hid (_b64e []) (_b64e n) (_b64e ct) keep) debug ((w2, s1), ks1)
    = (Raise (KeyError hid), ((w3, s1), ks1)).
Proof.
  destruct (get_crypto_laws config_name c Hc) as [L].
  unfold secure_predict_stream in Hstream.
  apply bind_inv_Ok in Hstream as ([a [size toks]] & [[w4 s4] ks4] & Hset & Hgen).
  assert (ks4 = ks) as ->.
  { unfold stream_setup, accept_or_http, try_catch, crypto in Hset.
    repeat match type of Hset with
    | bind (of_result _) _ _ = _ => apply bind_inv_Ok in Hset as (? & ? & [= _ <-] & Hset)
    end.
    apply bind_inv_Ok in Hset as (? & [σa ksa] & Ha & Hset).
    assert (ksa = ks) as ->.
    { unfold on_fst in Ha. destruct (accept _ _ _) as [[?|[]] ?]; by simplify_eq. }
    repeat match type of Hset with
    | bind (of_result _) _ _ = _ => apply bind_inv_Ok in Hset as (? & ? & [= _ <-] & Hset)
    end.
    by injection Hset as _ _ _ _ <-. }
  destruct (event_generator _ _ _ _) as [[[]|e] [[[w5 s5] k5] g5]] eqn:Hg; [|done].
  injection Hgen as _ _ <- <-. split; [done|].
  apply (generator_forgets (L := L)) in Hg. rewrite Hhid in Hg.
  assert (Hinf : exists inf, getitem "_inference_ms" result = Ok inf).
  { unfold dmem, getitem in *. destruct (dget "_inference_ms" result); [eauto|done]. }
  destruct Hinf as [inf Hinf].
  apply (predict_unsigned (L := L)) with (body := encode (json_text (VDict body))) (d := result)
    (inf := inf) (key := key); try done.
  - exists (VDict body). by rewrite json_roundtrip.
  - eexists. by apply json_dumps_jsonable.
Qed.
