(* ===== verification/ClientProps.v ===== *)
(** * What the client's checks mean

    The client of [api/secure_client.py] against any network: what it accepts,
    in which order it checks, and the authenticated handshake. *)
From stdpp Require Import gmap.
From S2P Require Import Prelude PyBytes PyVal World Instrumentation Aead OqsAdapter Base Configs.
From S2P Require Import ConfigsLaws Http HandshakeAuth SecureApp SecureClient StreamingTransaction.

(** ** Identity keys *)
Section Identity.
Context {E : Env} {P : Prims} {EL : EnvLaws E} {PL : PrimLaws P}.

(** The secret belongs to the public key. *)
Definition identity_ok (k : IdentityKey) : Prop :=
  match _secret k with
  | MLDSASecret sk => id_algorithm k = MLDSA65_ALGORITHM /\ sig_valid (id_public_key k) sk
  | ECSecret priv => id_algorithm k <> MLDSA65_ALGORITHM /\ id_public_key k = _ec_public_der priv
  end.

Lemma generate_ok algorithm w :
  exists k w', IdentityKey_generate algorithm w = (Ok k, w') /\ identity_ok k
    /\ id_algorithm k = (if String.eqb algorithm MLDSA65_ALGORITHM then MLDSA65_ALGORITHM else ECDSA).
Proof.
  unfold IdentityKey_generate. destruct (String.eqb_spec algorithm MLDSA65_ALGORITHM) as [->|Hne].
  - destruct (MLDSA65_keypair_valid w) as (kp & w' & Hk & Hv).
    rewrite (bind_Ok _ _ _ _ _ Hk). eexists _, _. split; [reflexivity|]. by split.
  - eexists _, _. split; [reflexivity|]. by split.
Qed.

Lemma identity_sign_verifies k msg w :
  identity_ok k ->
  exists sg ms cpu w', IdentityKey_sign k msg w
      = (Ok (sg, [("sign_ms", VFloat ms); ("sign_cpu_ms", VFloat cpu)]), w')
    /\ sg <> []
    /\ forall wv, exists t wv',
         verify_identity (id_algorithm k) (id_public_key k) msg sg wv
         = (Ok (true, verify_meta t), wv').
Proof.
  unfold identity_ok, IdentityKey_sign, verify_identity. destruct (_secret k) as [sk|priv].
  - intros [-> (Hp & Lpk & Lsk)]. rewrite String.eqb_refl.
    destruct (MLDSA65_sign_run _ sk msg (advance (advance w)) Hp Lpk Lsk)
      as (sg & w1 & Hs & _ & Hne & Hv).
    destruct (timed_Ok _ _ _ _ Hs) as [t Ht]. rewrite (bind_Ok _ _ _ _ _ Ht).
    eexists sg, _, _, _. split; [reflexivity|]. split; [exact Hne|]. intros wv. rewrite Hv.
    eexists _, _. reflexivity.
  - intros [Hne ->]. apply String.eqb_neq in Hne. rewrite Hne.
    eexists _, _, _, _. split; [reflexivity|]. split; [apply ecdsa_sign_nonempty|]. intros wv.
    unfold _ec_public_der. rewrite load_der_public_bytes. cbn [rbind].
    unfold pub_verify_ecdsa. rewrite ecdsa_verify_sign. eexists _, _. reflexivity.
Qed.
End Identity.

(** The handshake endpoint of a server with an identity key. *)
Lemma authenticated_run {E : Env} {P : Prims} {EL : EnvLaws E} {PL : PrimLaws P}
    {T : Type} {Srv : ServerCryptoConfig T} {Cli : ClientCryptoConfig} {L : ConfigLaws Srv Cli}
    id b t w w1 (s s1 : T) (ks : gmap string bytes) :
  identity_ok id -> new_handshake None (w, s) = (Ok b, (w1, s1)) ->
  transcript (handshake_id b) kex_algorithm sig_algorithm (kex_public_key b)
    (hb_sig_public_key b) = Ok t ->
  exists j σ', handshake (Some id) ((w, s), ks) = (Ok j, σ')
    /\ forall wv, exists meta wv',
         verify_handshake j (id_algorithm id, id_public_key id) wv = (Ok (true, meta), wv').
Proof.
  intros Hid Hn Ht.
  destruct (identity_sign_verifies id t w1 Hid) as (sg & ms & cpu & w2 & Hs & Hne & Hv).
  eexists _, _. split.
  - unfold handshake, crypto, io. unfold bind at 1, on_fst at 1. rewrite Hn.
    unfold bind, of_result, on_fst. rewrite Ht, Hs. reflexivity.
  - intros wv. destruct (Hv wv) as (tm & wv' & Hver). exists (verify_meta tm), wv'.
    unfold verify_handshake, HandshakeResponse.
    change (dget_or "transcript_signature" VNone _) with (VStr (_b64e sg)).
    rewrite b64e_nonempty by done. cbn [negb].
    unfold handshake_transcript, str_field.
    cbn [getitem dget String.eqb Ascii.eqb Bool.eqb rbind as_str].
    rewrite !b64d_b64e. cbn [rbind]. rewrite Ht. unfold bind at 1 2, of_result at 1 2.
    exact Hver.
Qed.

(** C5: An authenticated handshake is accepted by a client that pinned the
    server's identity: for every configuration and an identity key generated
    for its signature algorithm, when the transcript's fields fit their length
    prefixes, the handshake the server signs passes [verify_handshake] against
    the algorithm and public key [/secure/identity] serves. *)
Theorem authenticated_handshake_accepted {E : Env} {P : Prims} {EL : EnvLaws E} {PL : PrimLaws P}
    (config_name : string) (c : config) (wi w : world) (s : cfg_state c)
    (ks : gmap string bytes)
    (Hc : get_crypto config_name = Ok c)
    (Hfits : forall b σ,
       new_handshake (ServerCryptoConfig := cfg_server c) None (w, s) = (Ok b, σ) ->
       exists t, transcript (handshake_id b) (kex_algorithm (ServerCryptoConfig := cfg_server c))
                   (sig_algorithm (ServerCryptoConfig := cfg_server c))
                   (kex_public_key b) (hb_sig_public_key b) = Ok t) :
  let Srv := cfg_server c in
  exists id wi' info j σ',
    IdentityKey_generate (identity_algorithm_for sig_algorithm) wi = (Ok id, wi')
    /\ identity_key (T := cfg_state c) (Some id) ((w, s), ks) = (Ok info, ((w, s), ks))
    /\ dget "algorithm" info = Some (VStr (id_algorithm id))
    /\ dget "public_key" info = Some (VStr (_b64e (id_public_key id)))
    /\ handshake (Some id) ((w, s), ks) = (Ok j, σ')
    /\ forall wv, exists meta wv',
         verify_handshake j (id_algorithm id, id_public_key id) wv = (Ok (true, meta), wv').
Proof.
  intros Srv. destruct (get_crypto_laws config_name c Hc) as [L].
  destruct (generate_ok (identity_algorithm_for sig_algorithm) wi) as (id & wi' & Hg & Hid & _).
  destruct (@new_handshake_ok _ _ _ L w s None) as (b & w1 & s1 & Hn & _).
  destruct (Hfits b _ Hn) as [t Ht].
  destruct (authenticated_run (L := L) id b t w w1 s s1 ks Hid Hn Ht) as (j & σ' & Hh & Hv).
  eexists id, wi', _, j, σ'. split_and!; [exact Hg|reflexivity|reflexivity|reflexivity|exact Hh|exact Hv].
Qed.

(** The client checks a response in this order, whoever sent it: if the
    envelope does not open under the session key, the signature is never
    verified and the row reports the tampered response, no validity and no
    prediction; if it opens, the signature over exactly [nonce ++ ciphertext]
    is verified under the handshake's key and its outcome is what the row
    reports as [valid_signature].  The prediction reported is the opened
    plaintext's, and it is reported also when the signature is invalid. *)
Theorem response_checks {E : Env} {P : Prims} {J : Json} {N : Type} (Cli : ClientCryptoConfig)
    (key spk n ct sg : bytes) (timing : dict) (debug : val) (w : world) (net : N)
    (sess : option ClientSession) (row : dict) :
  let j := SecurePredictResponse (_b64e n) (_b64e ct) (_b64e sg) timing debug in
  let run := read_response Cli key spk j (((w, net), sess), row) in
  (aead_decrypt key n ct = Raise AEADError ->
     exists row', run = (Ok tt, (((advance (advance w), net), sess), row'))
       /\ dget "error" row' = Some (VStr "response AEAD authentication failed (tampered response)")
       /\ dget "valid_signature" row' = dget "valid_signature" row
       /\ dget "prediction" row' = dget "prediction" row)
  /\ (forall pt valid meta w' d,
        aead_decrypt key n ct = Ok pt ->
        verify (n ++ ct) sg spk (advance (advance w)) = (Ok (valid, meta), w') ->
        json_loads pt = Ok (VDict d) ->
        exists row', run = (Ok tt, (((w', net), sess), row'))
          /\ dget "error" row' = dget "error" row
          /\ dget "valid_signature" row' = Some (VBool valid)
          /\ dget "prediction" row' = Some (dget_or "prediction" VNone d)
          /\ dget "response_plaintext_bytes" row' = Some (VInt (Z.of_nat (length pt)))).
Proof.
  intros j run. unfold run, j, read_response, SecurePredictResponse.
  cbn [getitem dget String.eqb Ascii.eqb Bool.eqb rbind]. rewrite !b64d_b64e.
  unfold bind, of_result, set_row, wio, on_fst. split.
  - intros ->. eexists. split; [reflexivity|].
    split_and!; rewrite ?dget_dset_eq; repeat (rewrite dget_dset_ne by done); done.
  - intros pt valid meta w' d -> Hv Hj.
    change (perf_counter w) with (Ok (env_perf_counter (tick w)), advance w). cbv beta iota.
    change (perf_counter (advance w))
      with (Ok (env_perf_counter (tick (advance w))), advance (advance w)). cbv beta iota.
    rewrite Hv. cbv beta iota. rewrite Hj. cbn [as_dict]. eexists. split; [reflexivity|].
    split_and!; rewrite ?dget_dset_eq; repeat (rewrite dget_dset_ne by done);
      rewrite ?dget_dset_eq; done.
Qed.

(** A client that pinned an identity stops at a handshake that does not
    verify against it: it reports the authentication failure, sends no request
    (the network and the session object are as the handshake left them), and
    reports neither a validity nor a prediction. *)
Theorem unauthenticated_handshake_stops {E : Env} {P : Prims} {J : Json} {N : Type}
    {TR : Transport N} (config_name base_url : string) (c : config) (body hj meta : dict)
    (debug : bool) (pinned : string * bytes) (sess : option ClientSession)
    (w w1 w2 : world) (n n1 : N) (q ms : Q)
    (Hc : get_crypto config_name = Ok c) (Hsess : is_resumed sess = false)
    (Hh : do_handshake base_url (w, n) = (Ok (hj, q), (w1, n1)))
    (Hv : verify_handshake hj pinned w1 = (Ok (false, meta), w2))
    (Hms : dget "verify_ms" meta = Some (VFloat ms)) :
  exists row,
    secure_predict_transaction base_url config_name body debug None (Some pinned) ((w, n), sess)
    = (Ok row, ((w2, n1), sess))
    /\ dget "error" row
       = Some (VStr "handshake authentication failed (transcript signature invalid)")
    /\ dget "valid_signature" row = Some VNone /\ dget "prediction" row = None.
Proof.
  unfold secure_predict_transaction, get_client_crypto. rewrite Hc. cbn [rbind].
  unfold transaction, obtain_handshake, authenticate, wio, SecureClient.net, get_session, set_row,
    bind, ret, of_result, on_fst.
  cbn [fst snd]. rewrite Hsess, Hh. cbv beta iota. cbn [fst snd]. rewrite Hv. unfold getitem. rewrite Hms.
  cbn [as_num]. cbv beta iota. eexists. split; [reflexivity|]. split_and!; reflexivity.
Qed.
