(* ===== verification/StreamingWitness.v ===== *)
(** * Concrete streams

    The streaming theorems at concrete inputs: an honest transaction on the toy
    world, and streams a client received from an unknown peer whose signatures
    and envelopes are checked to be the server's. *)
From stdpp Require Import gmap.
From S2P Require Import Prelude PyBytes Sha256 PyVal World Instrumentation Aead Base Configs.
From S2P Require Import ConfigsLaws Toy Streaming StreamingMessages Http HandshakeAuth.
From S2P Require Import SecureApp SecureClient StreamingClient AppServer StreamingClientSteps.
From S2P Require Import StreamingIntegrity ChainIntegrity StreamingHonest StreamingTransaction.

#[local] Existing Instances toy_env toy_prims toy_json.

Definition ecdhe : config :=
  mkConfig _ ClassicalECDHE.ClassicalECDHEServerCrypto ClassicalECDHE.ClassicalECDHEClientCrypto.

Ltac strategy_name := unfold STRATEGY_NAMES, keys, SERVER_STRATEGIES; simpl; set_solver.

Lemma honest_stream_transaction_witness :
  exists m w' s',
    run_streaming_transaction
      (TR := app_transport (Srv := cfg_server ecdhe) (fun _ => ret []) (Ok (fun _ _ => (["He"; "y"], None)))
               None "http://s")
      "http://s" "classical_ecdhe" "q" "hash_chain" 1 16 (Some 2)
      (world0, app_init (Srv := cfg_server ecdhe)) = (Ok m, (w', s'))
    /\ m_stream_fully_verified m = Some true /\ m_reconstructed_bytes m = 3.
Proof.
  destruct (honest_stream_transaction "classical_ecdhe" ecdhe "http://s" "q" "hash_chain" 1 16
              (Some 2) ["He"; "y"] (fun _ => ret []) (fun _ _ => (["He"; "y"], None)) world0
              (server_init (ServerCryptoConfig := cfg_server ecdhe)) ∅)
    as (m & w' & s' & H & _ & Hv & _ & _ & _ & Hb & _);
    [reflexivity|strategy_name|reflexivity|reflexivity|].
  exists m, w', (s', ∅). split; [exact H|]. split; [exact Hv|]. rewrite Hb. reflexivity.
Defined.

Lemma stream_delivers_text_witness :
  exists b w1 s1, new_handshake (ServerCryptoConfig := cfg_server ecdhe) None
                    (world0, server_init (ServerCryptoConfig := cfg_server ecdhe))
                  = (Ok b, (w1, s1)).
Proof.
  destruct (stream_delivers_text "classical_ecdhe" ecdhe "per_chunk" 2 None ["a"; "b"; "c"] 0
              world0 world0 (server_init (ServerCryptoConfig := cfg_server ecdhe)))
    as (b & w1 & s1 & _ & _ & _ & _ & _ & _ & _ & _ & _ & H & _);
    [reflexivity|strategy_name|reflexivity|].
  exists b, w1, s1. exact H.
Defined.

(** ** Streams of a server with a fixed key *)
Definition hid : string := "hs".
Definition skey : bytes := toy_hash 32 (encode "session").
Definition ec_key : bytes := encode "signing key".
Definition spk : bytes := _ec_public_der ec_key.

(** The server with that signing key in its table. *)
Definition server_table : ClassicalECDHE.sessions :=
  {[hid := ClassicalECDHE.mkState (b32_of []) ec_key]}.

(** The lines of a stream. *)
Definition stream_lines {K} (Strat : StreamSigningStrategy (S := cfg_state ecdhe) K) (k : K)
    (texts : list string) : list string :=
  aiter_lines (g_yielded (snd (snd
    (event_generator (Srv := cfg_server ecdhe) hid 1 (texts, None)
       (((world0, server_table), k), mkGen 0 [] []))))).

(** The envelopes of a stream's chunks, off the lines. *)
Definition chunk_envelopes (lines : list string) : list (bytes * bytes) :=
  map (fun x => let '(_, n, c) := x in (n, c)) (received lines).

Definition pc_lines : list string :=
  Eval vm_compute in stream_lines (PerChunk (Srv := cfg_server ecdhe)) (new_per_chunk hid skey) ["He"; "y"].

Definition pc_emitted : list (bytes * bytes) := Eval vm_compute in chunk_envelopes pc_lines.

(** Every claim of the stream is one of the messages the server signed. *)
Definition pc_messages (emitted : list (bytes * bytes)) : list bytes :=
  omap ok_opt (imap (fun k nc => chunk_message (stream_context hid) (Z.of_nat k) (fst nc) (snd nc))
                 emitted ++ [end_message (stream_context hid) (Z.of_nat (length emitted))]).

Definition claims_among (claims : list (option (bytes * bytes))) (msgs : list bytes) : bool :=
  forallb (fun o => match o with
                    | Some (m, _) => existsb (bytes_eqb m) msgs
                    | None => true
                    end) claims.

Lemma claims_among_sound claims msgs o m s :
  claims_among claims msgs = true -> o ∈ claims -> o = Some (m, s) -> m ∈ msgs.
Proof.
  unfold claims_among. rewrite forallb_forall. intros H Ho ->.
  apply list_elem_of_In in Ho. apply H, existsb_exists in Ho as (m' & Hin & Heq).
  apply bool_decide_eq_true in Heq as ->. by apply list_elem_of_In.
Qed.

Lemma ok_opt_Ok {A} (r : result A) a : ok_opt r = Some a -> r = Ok a.
Proof. destruct r; [by intros [= ->]|done]. Qed.

Lemma pc_messages_signed emitted m : m ∈ pc_messages emitted -> per_chunk_signed hid emitted m.
Proof.
  unfold pc_messages. intros (r & Hr & Hm%ok_opt_Ok)%list_elem_of_omap.
  apply elem_of_app in Hr as [Hr|Hr].
  - apply list_elem_of_lookup_1 in Hr as (k & Hk). rewrite list_lookup_imap in Hk.
    destruct (emitted !! k) as [[n c]|] eqn:He; [|done]. injection Hk as <-.
    left. by exists k, n, c.
  - apply list_elem_of_singleton in Hr as ->. by right.
Qed.

(** Every envelope of the stream that could be opened is one of [emitted]. *)
Definition envelopes_among (lines : list string) (emitted : list (bytes * bytes)) : bool :=
  forallb (fun line => match line_envelope line with
                       | Some nc => bool_decide (nc ∈ emitted)
                       | None => true
                       end) lines.

Lemma envelopes_among_sound lines emitted :
  envelopes_among lines emitted = true -> envelopes_are_servers skey emitted lines.
Proof.
  unfold envelopes_among, envelopes_are_servers. rewrite forallb_forall, Forall_forall.
  intros H line Hl n c pt He _. apply list_elem_of_In, H in Hl. rewrite He in Hl.
  by apply bool_decide_eq_true in Hl.
Qed.

Lemma pc_signatures_are_servers lines emitted :
  claims_among (map (line_claim hid) lines) (pc_messages emitted) = true ->
  signatures_are_servers (Cli := cfg_client ecdhe) spk hid emitted lines.
Proof.
  intros H. apply Forall_forall. intros line Hl m s Hc _.
  eapply pc_messages_signed, claims_among_sound; [exact H| |exact Hc].
  by apply list_elem_of_fmap_2 with (f := line_claim hid).
Qed.

(** The run of the client on some lines, and its outcome. *)
Definition client_end (strategy : string) (chain : option HashChainClientState)
    (lines : list string) : world * client_state :=
  snd (consume (Cli := cfg_client ecdhe) strategy skey spk hid 0 lines
         (world0, start_state metrics0 chain)).

Lemma opened emitted pts :
  map (fun nc => aead_decrypt skey (fst nc) (snd nc)) emitted = map Ok pts ->
  Forall2 (fun nc pt => aead_decrypt skey (fst nc) (snd nc) = Ok pt) emitted pts.
Proof.
  revert pts; induction emitted as [|nc l IH]; intros [|pt pts]; simpl; try done.
  intros [= H1 H2]. constructor; [exact H1|by apply IH].
Qed.

Lemma nonces (emitted : list (bytes * bytes)) :
  forallb (fun nc => Nat.eqb (length (fst nc)) 12) emitted = true ->
  Forall (fun nc => length (fst nc) = 12%nat) emitted.
Proof.
  rewrite forallb_forall, Forall_forall. intros H nc Hin.
  by apply Nat.eqb_eq, H, list_elem_of_In.
Qed.

Definition pc_world : world := Eval vm_compute in fst (client_end "per_chunk" None pc_lines).
Definition pc_client : client_state :=
  Eval vm_compute in snd (client_end "per_chunk" None pc_lines).

Lemma verified_per_chunk_stream_is_servers_witness :
  exists suffix, c_reconstructed pc_client = encode "Hey" ++ suffix.
Proof.
  destruct (verified_per_chunk_stream_is_servers (Cli := cfg_client ecdhe) skey spk hid
              pc_emitted [encode "He"; encode "y"] pc_lines 0 world0
              pc_world
              metrics0 pc_client) as (suffix & H & _).
  - apply opened. vm_compute. reflexivity.
  - apply nonces. vm_compute. reflexivity.
  - apply pc_signatures_are_servers. vm_compute. reflexivity.
  - apply envelopes_among_sound. vm_compute. reflexivity.
  - reflexivity.
  - vm_compute. reflexivity.
  - vm_compute. reflexivity.
  - exists suffix. exact H.
Defined.

(** *** hash_chain *)
Definition hc_lines : list string :=
  Eval vm_compute in stream_lines (HashChain (Srv := cfg_server ecdhe)) (new_hash_chain hid skey (VInt 2)) ["He"; "y"].

Definition hc_start : option HashChainClientState := Some (new_chain_state hid (Some 2)).

Definition hc_emitted : list (bytes * bytes) := Eval vm_compute in chunk_envelopes hc_lines.

Definition final_hash (emitted : list (bytes * bytes)) : bytes :=
  match chain_run (genesis_hash hid) (indexed emitted) with Ok h => h | Raise _ => [] end.

Definition hc_final : bytes := Eval vm_compute in final_hash hc_emitted.

Definition hc_messages (emitted : list (bytes * bytes)) : list bytes :=
  omap ok_opt [final_chain_message (stream_context hid) (Z.of_nat (length emitted))
                 (final_hash emitted)].

Definition chain_claims (lines : list string) : list (option (bytes * bytes)) :=
  imap (fun k line => chain_claim hid (firstn k lines) line) lines.

Lemma hc_signatures_are_servers lines emitted :
  claims_among (chain_claims lines) (hc_messages emitted) = true ->
  chain_signatures_are_servers (Cli := cfg_client ecdhe) spk hid emitted (final_hash emitted) lines.
Proof.
  intros H pre line post m s -> Hc _. right.
  assert (Hm : m ∈ hc_messages emitted).
  { eapply claims_among_sound; [exact H| |exact Hc].
    apply list_elem_of_lookup_2 with (length pre). unfold chain_claims.
    rewrite list_lookup_imap, lookup_app_r, Nat.sub_diag by lia. simpl.
    by rewrite take_app_length. }
  unfold hc_messages in Hm. apply list_elem_of_omap in Hm as (r & Hr & Hm%ok_opt_Ok).
  by apply list_elem_of_singleton in Hr as ->.
Qed.

Definition hc_world : world := Eval vm_compute in fst (client_end "hash_chain" hc_start hc_lines).
Definition hc_client : client_state :=
  Eval vm_compute in snd (client_end "hash_chain" hc_start hc_lines).

Lemma verified_hash_chain_stream_is_servers_witness :
  m_stream_fully_verified (c_metrics hc_client) = Some true
  /\ ((exists l suffix, map envelope_of (received hc_lines) = l ++ suffix
        /\ collision_in (chain_inputs (genesis_hash hid) l)
             (chain_inputs (genesis_hash hid) (indexed hc_emitted)))
     \/ (exists suffix, map envelope_of (received hc_lines)
                        = indexed hc_emitted ++ suffix
          /\ (m_all_aead_ok (c_metrics hc_client) = true ->
              exists rest, c_reconstructed hc_client
                           = encode "Hey" ++ rest /\ (suffix = [] -> rest = [])))).
Proof.
  split; [vm_compute; reflexivity|].
  apply (verified_hash_chain_stream_is_servers (Cli := cfg_client ecdhe) skey spk hid
           hc_emitted [encode "He"; encode "y"]
           hc_final (Some 2) hc_lines 0 world0
           hc_world
           metrics0 hc_client).
  - vm_compute. reflexivity.
  - apply opened. vm_compute. reflexivity.
  - apply nonces. vm_compute. reflexivity.
  - apply (hc_signatures_are_servers hc_lines hc_emitted). vm_compute. reflexivity.
  - apply envelopes_among_sound. vm_compute. reflexivity.
  - reflexivity.
  - vm_compute. reflexivity.
  - vm_compute. reflexivity.
Defined.

(** *** A pinned handshake *)
Definition id_key : ec_private (Prims := toy_prims) := encode "identity key".

Definition handshake_json : dict :=
  [("handshake_id", VStr hid); ("kex_algorithm", VStr "X25519");
   ("sig_algorithm", VStr "ECDSA-P256-SHA256"); ("kex_public_key", VStr (_b64e (encode "kex")));
   ("sig_public_key", VStr (_b64e spk));
   ("transcript_signature", VStr (_b64e (toy_sig (id_key : bytes)
      (match transcript hid "X25519" "ECDSA-P256-SHA256" (encode "kex") spk with
       | Ok t => t | Raise _ => [] end))))].

Definition pinned : string * bytes := ("ECDSA-P256-SHA256", _ec_public_der id_key).
Definition auth_run : result (bool * dict) * world := verify_handshake handshake_json pinned world0.
Definition meta_of (r : result (bool * dict) * world) : dict :=
  match r with (Ok (_, m), _) => m | _ => [] end.
Definition auth_meta : dict := meta_of auth_run.

Lemma verify_handshake_sound_witness :
  exists msg sig, handshake_transcript handshake_json = Ok msg
    /\ _b64d (dget_or "transcript_signature" VNone handshake_json) = Ok sig.
Proof.
  assert (Hrun : verify_handshake handshake_json pinned world0
                 = (Ok (true, auth_meta), snd auth_run)) by (vm_compute; reflexivity).
  destruct (verify_handshake_sound handshake_json pinned world0 (snd auth_run) true auth_meta Hrun)
    as [_ H].
  destruct (H eq_refl) as (msg & sig & H1 & H2 & _). exists msg, sig. exact (conj H1 H2).
Defined.
