(* ===== verification/SecureWitness.v ===== *)
(** * Concrete requests

    The properties of the protected server, its clients and the verdict at
    concrete inputs, on the toy world. *)
From Stdlib Require Import Strings.Byte.
From stdpp Require Import gmap relations.
From S2P Require Import Prelude PyBytes Sha256 PyVal World Instrumentation Aead OqsAdapter Base.
From S2P Require Import Configs ConfigsLaws Toy Streaming Http HandshakeAuth SecureApp.
From S2P Require Import SecureClient StreamingClient AppServer StreamingClientSteps StreamingHonest.
From S2P Require Import StreamingIntegrity StreamingTransaction StreamingVerdict SecureLaws.
From S2P Require Import SecureProps AppProps ClientProps StreamingWitness.

#[local] Existing Instances toy_env toy_prims toy_json.

Definition answer : dict := [("_inference_ms", VFloat 1); ("prediction", VInt 7)].
Definition model_predict : val -> M world dict := fun _ => ret answer.
Definition backend_stream : result token_source := Ok (fun _ _ => (["Hi"], None)).
Definition question : dict := [("x", VInt 1)].
Definition empty_table : cfg_state ecdhe := server_init (ServerCryptoConfig := cfg_server ecdhe).

Lemma answers : forall w, exists w', model_predict (VDict question) w = (Ok answer, w').
Proof. intros w. by exists w. Qed.

Lemma session_resumption_witness :
  exists rows σ', requests
      (TR := app_transport (Srv := cfg_server ecdhe) model_predict backend_stream None "http://s")
      3 "http://s" "classical_ecdhe" question false
      ((world0, (empty_table, ∅)), Some (mkSession 3 None None)) = (Ok rows, σ')
    /\ length rows = 3%nat.
Proof.
  destruct (session_resumption "classical_ecdhe" ecdhe model_predict backend_stream "http://s"
              question answer false 2 world0 empty_table ∅ eq_refl eq_refl answers eq_refl eq_refl)
    as (rows & w' & s' & hid & left & hj & key & H & _ & Hl & _).
  eexists rows, _. split; [exact H|exact Hl].
Defined.

Lemma warm_handshake_expires_witness :
  exists j q σ1, do_handshake
      (TR := app_transport (Srv := cfg_server ecdhe) model_predict backend_stream None "http://s")
      "http://s" (world0, (empty_table, ∅)) = (Ok (j, q), σ1).
Proof.
  destruct (warm_handshake_expires "classical_ecdhe" ecdhe model_predict backend_stream "http://s"
              question answer false world0 empty_table ∅ eq_refl eq_refl answers eq_refl eq_refl)
    as (j & q & σ1 & _ & _ & _ & _ & H & _).
  exists j, q, σ1. exact H.
Defined.

Lemma predict_rejections_witness :
  (exists w', secure_predict (Srv := cfg_server ecdhe) model_predict
      (mkRequest "nobody" "" "" "" true) false ((world0, empty_table), ∅)
    = (Raise (HTTPException 404 "Unknown or expired session"), ((w', empty_table), ∅)))
  /\ exists w', secure_predict (Srv := cfg_server ecdhe) model_predict
      (mkRequest hid "AA==" "" "" true) false ((world0, server_table), ∅)
    = (Raise (HTTPException 400 "Key establishment failed: X25519 kex blob must be 32 bytes, got 1"),
       ((w', server_table), ∅)).
Proof.
  split.
  - destruct (predict_rejections "classical_ecdhe" ecdhe model_predict "nobody" "" "" "" true false
                world0 empty_table ∅ eq_refl) as (_ & _ & _ & H).
    destruct (H [] [] eq_refl eq_refl eq_refl) as [H404 _]. exact (H404 eq_refl).
  - destruct (predict_rejections "classical_ecdhe" ecdhe model_predict hid "AA==" "" "" true false
                world0 server_table ∅ eq_refl) as (_ & H & _).
    exact (H Byte.x00 [] [] [] ltac:(vm_compute; reflexivity) eq_refl eq_refl).
Defined.

(** A handshake, a kept prediction: the key is cached. *)
Definition client_est : EstablishResult :=
  match fst (establish (ClientCryptoConfig := cfg_client ecdhe) (_x25519_raw (b32_of [])) world0) with
  | Ok e => e
  | Raise _ => mkEstablish [] [] []
  end.
Definition est_key : bytes := Eval vm_compute in session_key client_est.
Definition est_blob : bytes := Eval vm_compute in kex_blob client_est.

Definition sealed_body (d : dict) : AEADResult :=
  match fst (aead_encrypt est_key (encode (json_text (VDict d))) world0) with
  | Ok r => r
  | Raise _ => mkAEAD [] []
  end.

Definition question_nonce : bytes := Eval vm_compute in nonce (sealed_body question).
Definition question_ct : bytes := Eval vm_compute in ciphertext (sealed_body question).

Definition stream_question : dict := [("prompt", VStr "q")].
Definition stream_nonce : bytes := Eval vm_compute in nonce (sealed_body stream_question).
Definition stream_ct : bytes := Eval vm_compute in ciphertext (sealed_body stream_question).

Definition stream_req : SecurePredictRequest :=
  mkRequest hid (_b64e est_blob) (_b64e stream_nonce) (_b64e stream_ct) false.
Definition kept : gmap string bytes := {[hid := est_key]}.

Definition stream_run :=
  secure_predict_stream (Srv := cfg_server ecdhe) backend_stream stream_req
    ((world0, server_table), kept).

Definition streamed {X} (r : result (list string * option exn) * X) : bool :=
  match fst r with Ok (_, None) => true | _ => false end.

Definition events_of {X} (r : result (list string * option exn) * X) : list string :=
  match fst r with Ok (l, _) => l | Raise _ => [] end.

Lemma streamed_run {X} (r : result (list string * option exn) * X) :
  streamed r = true -> r = (Ok (events_of r, None), snd r).
Proof. by destruct r as [[[l [e|]]|e] x]. Qed.

Lemma stream_run_ok :
  exists events w1 s1 ks1,
    secure_predict_stream (Srv := cfg_server ecdhe) backend_stream stream_req
      ((world0, server_table), kept) = (Ok (events, None), ((w1, s1), ks1)).
Proof.
  assert (H : streamed stream_run = true) by (vm_compute; reflexivity).
  apply streamed_run in H. unfold stream_run in H at 1.
  destruct (snd stream_run) as [[w1 s1] ks1]. by exists (events_of stream_run), w1, s1, ks1.
Qed.

Lemma stream_strands_kept_session_witness :
  exists w3 s1 ks1, secure_predict (Srv := cfg_server ecdhe) model_predict
      (mkRequest hid (_b64e []) (_b64e question_nonce) (_b64e question_ct) true) false
      ((world0, s1), ks1) = (Raise (KeyError hid), ((w3, s1), ks1)).
Proof.
  destruct stream_run_ok as (events & w1 & s1 & ks1 & Hrun).
  destruct (stream_strands_kept_session "classical_ecdhe" ecdhe model_predict backend_stream
              stream_req events hid est_key question_nonce question_ct question
              answer true false world0 w1 world0 server_table s1 kept ks1
              eq_refl Hrun eq_refl) as [Hks [w3 H]].
  - reflexivity.
  - reflexivity.
  - vm_compute. reflexivity.
  - reflexivity.
  - exact answers.
  - reflexivity.
  - reflexivity.
  - exists w3, s1, ks1. exact H.
Defined.
