(* ===== verification/VerdictWitness.v ===== *)
(** * Verdicts and checks at concrete inputs

    Streams with a replayed chunk after the terminal record and with an
    envelope whose boundary was moved; a response checked by the client; a
    handshake accepted and one refused; the fixed randomness. *)
From Stdlib Require Import Strings.Byte.
From stdpp Require Import gmap relations.
From S2P Require Import Prelude PyBytes Sha256 PyVal World Instrumentation Aead OqsAdapter Base.
From S2P Require Import Configs ConfigsLaws Toy Streaming Http HandshakeAuth SecureApp.
From S2P Require Import SecureClient StreamingClient AppServer StreamingClientSteps StreamingHonest.
From S2P Require Import StreamingIntegrity StreamingTransaction StreamingVerdict AppProps ClientProps StreamingWitness SecureWitness.

#[local] Existing Instances toy_env toy_prims toy_json.

Lemma ec_accepts msg :
  accepts (C := cfg_client ecdhe) msg (toy_sig (ec_key : bytes) msg) spk.
Proof.
  intros w. destruct (ecdsa_sign_timed_run (P := toy_prims) (PL := toy_prim_laws) ec_key msg w)
    as (sg & meta & w' & Hs & _ & _ & Hv).
  injection Hs as <- _ _. apply Hv.
Qed.

(** The head of a list with a default, and the message of a chunk. *)
Definition first_envelope (l : list (bytes * bytes)) : bytes * bytes := hd ([], []) l.
Definition ok_bytes (r : result bytes) : bytes := match r with Ok b => b | Raise _ => [] end.
Definition pc_n0 : bytes := Eval vm_compute in fst (first_envelope pc_emitted).
Definition pc_c0 : bytes := Eval vm_compute in snd (first_envelope pc_emitted).
Definition pc_m0 : bytes :=
  Eval vm_compute in ok_bytes (chunk_message (stream_context hid) 0 pc_n0 pc_c0).

(** The loop without [conclude]. *)
Definition loop_end (strategy : string) (chain : option HashChainClientState)
    (lines : list string) : world * client_state :=
  snd (for_each lines (on_line (Cli := cfg_client ecdhe) strategy skey spk hid 0)
         (world0, start_state metrics0 chain)).
Definition pc_loop_world : world := Eval vm_compute in fst (loop_end "per_chunk" None pc_lines).
Definition pc_loop_client : client_state :=
  Eval vm_compute in snd (loop_end "per_chunk" None pc_lines).

Lemma trailing_chunk_keeps_verdict_witness :
  exists w' c', c_reconstructed pc_loop_client = encode "Hey"
    /\ m_stream_fully_verified (c_metrics c') = Some true
    /\ consume (Cli := cfg_client ecdhe) "per_chunk" skey spk hid 0
         (pc_lines ++ aiter_lines [sse_event (json_text (VDict
            (pc_wire 0 pc_n0 pc_c0 (toy_sig (ec_key : bytes) pc_m0) 1 1)))])
         (world0, start_state metrics0 None) = (Ok tt, (w', c'))
    /\ c_reconstructed c' = c_reconstructed pc_loop_client ++ encode "He".
Proof.
  destruct (trailing_chunk_keeps_verdict (Cli := cfg_client ecdhe) skey spk hid pc_lines 0 world0
              pc_loop_world (start_state metrics0 None) pc_loop_client 0 pc_n0 pc_c0
              (toy_sig (ec_key : bytes) pc_m0) (encode "He") pc_m0 1 1)
    as (w' & c' & H & Hv & Hr & _).
  - vm_compute. reflexivity.
  - reflexivity.
  - reflexivity.
  - vm_compute. reflexivity.
  - apply ec_accepts.
  - vm_compute. reflexivity.
  - exists w', c'. split_and!; [vm_compute; reflexivity|exact Hv|exact H|exact Hr].
Defined.

(** A hash-chain chunk whose first ciphertext bytes were moved into the nonce. *)
Definition hc_n0 : bytes := Eval vm_compute in fst (first_envelope hc_emitted).
Definition hc_c0 : bytes := Eval vm_compute in snd (first_envelope hc_emitted).
Definition moved_n : bytes := Eval vm_compute in hc_n0 ++ firstn 3 hc_c0.
Definition moved_c : bytes := Eval vm_compute in skipn 3 hc_c0.
Definition hc_h0 : bytes :=
  Eval vm_compute in ok_bytes (chain_link (genesis_hash hid) 0 (hc_n0 ++ hc_c0)).
Definition moved_lines : list string :=
  Eval vm_compute in aiter_lines [sse_event (json_text (VDict
    (hc_wire 0 moved_n moved_c hc_h0 VNone 1 1 0)))].
Definition moved_start : option HashChainClientState := Some (new_chain_state hid None).
Definition moved_world : world :=
  Eval vm_compute in fst (loop_end "hash_chain" moved_start moved_lines).
Definition moved_client : client_state :=
  Eval vm_compute in snd (loop_end "hash_chain" moved_start moved_lines).
Definition moved_chain : HashChainClientState :=
  Eval vm_compute in default (new_chain_state hid None) (c_chain moved_client).
Definition moved_msg : bytes :=
  Eval vm_compute in ok_bytes (final_chain_message (cs_ctx moved_chain)
    (cs_n_absorbed moved_chain) (cs_running_hash moved_chain)).

Lemma hash_chain_verdict_ignores_flags_witness :
  exists c', m_stream_fully_verified (c_metrics c') = Some true
    /\ m_all_aead_ok (c_metrics c') = false /\ c_reconstructed c' = [].
Proof.
  destruct (hash_chain_verdict_ignores_flags (Cli := cfg_client ecdhe) skey spk hid moved_lines 0
              world0 moved_world (start_state metrics0 moved_start) moved_client moved_chain
              (toy_sig (ec_key : bytes) moved_msg) moved_msg 1 1)
    as (w' & c' & _ & Hv & _ & Ha & Hr).
  - vm_compute. reflexivity.
  - reflexivity.
  - vm_compute. reflexivity.
  - apply ec_accepts.
  - exists c'. split; [exact Hv|]. split; [exact Ha|exact Hr].
Defined.

(** A handshake, then a prediction that keeps its session. *)
Definition app_start : (world * cfg_state ecdhe) * gmap string bytes :=
  ((world0, server_init (ServerCryptoConfig := cfg_server ecdhe)), ∅).
Definition ok_bundle (r : result HandshakeBundle) : HandshakeBundle :=
  match r with Ok b => b | Raise _ => mkBundle "" [] [] [] end.
Definition kept_bundle : HandshakeBundle :=
  ok_bundle (fst (new_handshake (ServerCryptoConfig := cfg_server ecdhe) None (fst app_start))).
Definition kept_hid : string := Eval vm_compute in handshake_id kept_bundle.
Definition ok_est (r : result EstablishResult) : EstablishResult :=
  match r with Ok e => e | Raise _ => mkEstablish [] [] [] end.
Definition kept_est : EstablishResult :=
  ok_est (fst (establish (ClientCryptoConfig := cfg_client ecdhe)
                 (kex_public_key kept_bundle) world0)).
Definition kept_key : bytes := Eval vm_compute in session_key kept_est.
Definition kept_req : SecurePredictRequest :=
  mkRequest kept_hid (_b64e (kex_blob kept_est)) (_b64e (fit 12 [])) (_b64e (fit 16 [])) true.

Definition after_handshake := snd (handshake (Srv := cfg_server ecdhe) None app_start).
Definition after_predict :=
  snd (secure_predict (Srv := cfg_server ecdhe) model_predict kept_req false after_handshake).

Lemma cached_keys_are_keys_witness :
  snd after_predict !! kept_hid = Some kept_key /\ length kept_key = 32%nat.
Proof.
  assert (Hkey : snd after_predict !! kept_hid = Some kept_key) by (vm_compute; reflexivity).
  split; [exact Hkey|].
  destruct (cached_keys_are_keys "classical_ecdhe" ecdhe None model_predict backend_stream
              after_predict kept_hid kept_key [] [] eq_refl) as [Hl _].
  - exists world0. eapply rtc_l; [eapply step_handshake; apply surjective_pairing|].
    eapply rtc_l; [eapply step_predict; apply surjective_pairing|]. apply rtc_refl.
  - exact Hkey.
  - exact Hl.
Defined.

(** A response that opens and one that does not. *)
Definition answer_bytes : bytes := Eval vm_compute in encode (json_text (VDict answer)).
Definition resp_ct : bytes :=
  Eval vm_compute in answer_bytes ++ toy_tag est_key (fit 12 []) answer_bytes.

Definition rejected_check (r : result (bool * dict) * world) : bool :=
  match fst r with Ok (b, _) => negb b | Raise _ => false end.
Lemma rejected_run r :
  rejected_check r = true -> exists meta w', r = (Ok (false, meta), w').
Proof. destruct r as [[[[] meta]|e] w']; [done|by exists meta, w'|done]. Qed.

Lemma forged_rejected :
  exists meta w', verify (ClientCryptoConfig := cfg_client ecdhe) (fit 12 [] ++ resp_ct)
                    (encode "forged") spk (advance (advance world0)) = (Ok (false, meta), w').
Proof. apply rejected_run. vm_compute. reflexivity. Qed.

Lemma response_checks_witness :
  (exists row', read_response (N := unit) (cfg_client ecdhe) est_key spk
      (SecurePredictResponse (_b64e []) (_b64e []) (_b64e []) [] VNone)
      (((world0, tt), None), []) = (Ok tt, (((advance (advance world0), tt), None), row'))
     /\ dget "prediction" row' = None)
  /\ exists row' w', read_response (N := unit) (cfg_client ecdhe) est_key spk
      (SecurePredictResponse (_b64e (fit 12 [])) (_b64e resp_ct) (_b64e (encode "forged")) [] VNone)
      (((world0, tt), None), []) = (Ok tt, (((w', tt), None), row'))
     /\ dget "valid_signature" row' = Some (VBool false)
     /\ dget "prediction" row' = Some (VInt 7).
Proof.
  split.
  - destruct (response_checks (N := unit) (cfg_client ecdhe) est_key spk [] [] [] [] VNone world0 tt
                None []) as [H _].
    destruct (H ltac:(vm_compute; reflexivity)) as (row' & H1 & _ & _ & Hp).
    exists row'. split; [exact H1|exact Hp].
  - destruct (response_checks (N := unit) (cfg_client ecdhe) est_key spk (fit 12 []) resp_ct
                (encode "forged") [] VNone world0 tt None []) as [_ H].
    destruct forged_rejected as (meta & w' & Hv').
    destruct (H answer_bytes false meta w' answer
                ltac:(vm_compute; reflexivity) Hv' ltac:(vm_compute; reflexivity)) as (row' & H1 & _ & Hv & Hp & _).
    exists row', w'. split; [exact H1|]. split; [exact Hv|exact Hp].
Defined.

(** A pinned client and a server without an identity. *)
Definition pinned_ec : string * bytes := ("ECDSA-P256-SHA256", spk).

Lemma unauthenticated_handshake_stops_witness :
  exists row w' n1, secure_predict_transaction
      (TR := app_transport (Srv := cfg_server ecdhe) model_predict backend_stream None "http://s")
      "http://s" "classical_ecdhe" question false None (Some pinned_ec)
      ((world0, (snd (fst app_start), ∅)), None) = (Ok row, ((w', n1), None))
    /\ dget "prediction" row = None.
Proof.
  destruct (get_crypto_laws "classical_ecdhe" ecdhe eq_refl) as [L].
  destruct (do_handshake_run (L := L) model_predict backend_stream "http://s" world0
              (snd (fst app_start)) ∅) as (b & q & w1 & s1 & Hh & _).
  destruct (unauthenticated_handshake_stops
              (TR := app_transport (Srv := cfg_server ecdhe) model_predict backend_stream None
                       "http://s")
              "classical_ecdhe" "http://s" ecdhe question _ _ false pinned_ec None world0 w1 w1
              (snd (fst app_start), ∅) (s1, ∅) q 0 eq_refl eq_refl Hh eq_refl eq_refl)
    as (row & H & _ & _ & Hp).
  exists row, w1, (s1, ∅). split; [exact H|exact Hp].
Defined.

Lemma fixed_randomness_keygen_witness :
  exists r w', fixed_randomness (fit 32 []) MLDSA65_keypair world0 = (r, w')
    /\ r = MLDSA65_keypair_of (fit 32 []).
Proof.
  destruct (fixed_randomness_keygen (E := toy_env) (P := toy_prims) (fit 32 []) world0)
    as (r & w' & H & _ & Heq & _).
  exists r, w'. split; [exact H|]. apply Heq. reflexivity.
Defined.

(** An identity and a handshake that carries its signature. *)
Lemma kept_transcript :
  exists t, transcript (handshake_id kept_bundle)
      (kex_algorithm (ServerCryptoConfig := cfg_server ecdhe))
      (sig_algorithm (ServerCryptoConfig := cfg_server ecdhe))
      (kex_public_key kept_bundle) (hb_sig_public_key kept_bundle) = Ok t.
Proof.
  exists (ok_bytes (transcript (handshake_id kept_bundle)
      (kex_algorithm (ServerCryptoConfig := cfg_server ecdhe))
      (sig_algorithm (ServerCryptoConfig := cfg_server ecdhe))
      (kex_public_key kept_bundle) (hb_sig_public_key kept_bundle))).
  vm_compute. reflexivity.
Qed.

Lemma authenticated_handshake_accepted_witness :
  exists id wi' j σ',
    IdentityKey_generate (identity_algorithm_for
      (sig_algorithm (ServerCryptoConfig := cfg_server ecdhe))) world0 = (Ok id, wi')
    /\ handshake (Srv := cfg_server ecdhe) (Some id) app_start = (Ok j, σ').
Proof.
  destruct (authenticated_handshake_accepted "classical_ecdhe" ecdhe world0 world0
              (snd (fst app_start)) ∅) as (id & wi' & info & j & σ' & Hi & _ & _ & _ & Hh & _).
  - reflexivity.
  - intros b σ Hb. assert (b = kept_bundle) as ->.
    { apply (f_equal (fun r => ok_bundle (fst r))) in Hb. symmetry. exact Hb. }
    exact kept_transcript.
  - exists id, wi', j, σ'. split; [exact Hi|exact Hh].
Defined.
