(* ===== verification/AttackWitness.v ===== *)
(** * Attacked streams at concrete inputs

    A small random generator, two captured per-chunk streams of different
    sessions, and a hash-chain stream with a checkpoint. *)
From stdpp Require Import gmap.
From S2P Require Import Prelude PyBytes Sha256 PyVal World Instrumentation PyList Aead Base.
From S2P Require Import Configs ConfigsLaws Toy Streaming Http StreamingClient.
From S2P Require Import StreamingHonest Replay Campaign ReplayProps CampaignProps ChainReplay.
From S2P Require Import Hndl HndlProps StreamingWitness SecureWitness VerdictWitness.

#[local] Existing Instances toy_env toy_prims toy_json.

(** A counter as the generator's state. *)
#[export] Instance toy_random : Random nat := {|
  randrange lo hi r :=
    if hi <=? lo then (Raise (ValueError "empty range for randrange()"), r)
    else (Ok (lo + Z.of_nat r mod (hi - lo)), S r);
  sample2 n r :=
    if n <? 2 then (Raise (ValueError "Sample larger than population or is negative"), r)
    else (Ok (0, 1), r);
  random_unit r := (Ok (1 # 2)%Q, r);
|}.
#[export] Instance toy_random_laws : RandomLaws toy_random.
Proof.
  constructor; simpl; intros.
  - rewrite (proj2 (Z.leb_gt _ _)) by lia. eexists _, _. split; [reflexivity|].
    pose proof (Z.mod_pos_bound (Z.of_nat r) (hi - lo)). lia.
  - rewrite (proj2 (Z.leb_le _ _)) by lia. eauto.
  - rewrite (proj2 (Z.ltb_ge _ _)) by lia. exists 0, 1, r. split; [done|]. lia.
  - rewrite (proj2 (Z.ltb_lt _ _)) by lia. eauto.
  - exists (1 # 2)%Q, r. split; [done|]. split; [unfold Qle|unfold Qlt]; simpl; lia.
Qed.

Lemma ec_refuses msg sg :
  bytes_eqb sg (toy_sig (ec_key : bytes) msg) = false ->
  refuses (Cli := cfg_client ecdhe) spk msg sg.
Proof.
  unfold bytes_eqb. intros H w. unfold verify, ecdhe, cfg_client,
    ClassicalECDHE.ClassicalECDHEClientCrypto, ClassicalECDHE.verify, ecdsa_verify_timed, spk,
    _ec_public_der.
  rewrite (load_der_public_bytes (P := toy_prims)), bind_of_result.
  unfold pub_verify_ecdsa. cbn [toy_prims ecdsa_verify ec_public_key]. rewrite H.
  eexists _, _. split; [reflexivity|split_and!; eexists; reflexivity].
Qed.

(** A sealed and signed chunk of session [h]. *)
Definition zero_nonce : bytes := fit 12 [].
Definition seal (t : string) : bytes := encode t ++ toy_tag skey zero_nonce (encode t).
Definition toy_chunk (h : string) (i : Z) (t : string) : dict :=
  pc_wire i zero_nonce (seal t)
    (toy_sig (ec_key : bytes) (ok_bytes (chunk_message (stream_context h) i zero_nonce (seal t)))) 0 0.
Definition toy_end (h : string) (n : Z) : dict :=
  pc_final_wire n (toy_sig (ec_key : bytes) (ok_bytes (end_message (stream_context h) n))) 0 0.
Definition toy_capture (h : string) : capture :=
  mkCapture h skey spk (cfg_client ecdhe) [toy_chunk h 0 "He"; toy_chunk h 1 "y"]
    (Some (toy_end h 2)).

Lemma toy_chunk_good h i t msg pt :
  chunk_message (stream_context h) i zero_nonce (seal t) = Ok msg ->
  aead_decrypt skey zero_nonce (seal t) = Ok pt ->
  good_chunk (Cli := cfg_client ecdhe) skey spk h i (toy_chunk h i t).
Proof.
  intros Hm Hd. unfold toy_chunk. rewrite Hm. do 7 eexists. split; [reflexivity|].
  split; [exact Hm|]. split; [apply ec_accepts|exact Hd].
Qed.

Lemma toy_chunk_foreign h h' i t msg :
  chunk_message (stream_context h) i zero_nonce (seal t) = Ok msg ->
  bytes_eqb (toy_sig (ec_key : bytes)
    (ok_bytes (chunk_message (stream_context h') i zero_nonce (seal t))))
    (toy_sig (ec_key : bytes) msg) = false ->
  foreign_chunk (Cli := cfg_client ecdhe) spk h i (toy_chunk h' i t).
Proof.
  intros Hm Hs. unfold toy_chunk. do 6 eexists. split; [reflexivity|]. split; [exact Hm|].
  by apply ec_refuses.
Qed.

Lemma two_in_sequence Q d0 d1 : Q 0 d0 -> Q 1 d1 -> in_sequence Q 0 [d0; d1].
Proof. intros H0 H1 [|[|k]] d Hk; simpl in Hk; try injection Hk as <-; done. Qed.

Ltac by_vm := vm_compute; reflexivity.

Definition hid2 : string := "h2".
Definition msg0 (h : string) := ok_bytes (chunk_message (stream_context h) 0 zero_nonce (seal "He")).
Definition msg1 (h : string) := ok_bytes (chunk_message (stream_context h) 1 zero_nonce (seal "y")).
Definition msgE (h : string) := ok_bytes (end_message (stream_context h) 2).

Lemma chunk_message_ok ctx i n c :
  (0 <=? i) && (i <? 2 ^ 32) = true ->
  chunk_message ctx i n c = Ok (ok_bytes (chunk_message ctx i n c)).
Proof.
  intros H. unfold chunk_message, _index_bytes.
  destruct (to_bytes 4 i) as [b|e] eqn:Hb; [done|]. exfalso.
  assert (to_bytes 4 i = Ok (be_bytes 4 i)) as Heq; [|congruence].
  apply to_bytes_Ok. split; [|reflexivity]. apply andb_true_iff in H. lia.
Qed.
Lemma end_message_ok ctx n :
  (0 <=? n) && (n <? 2 ^ 32) = true -> end_message ctx n = Ok (ok_bytes (end_message ctx n)).
Proof.
  intros H. unfold end_message, _index_bytes.
  destruct (to_bytes 4 n) as [b|e] eqn:Hb; [done|]. exfalso.
  assert (to_bytes 4 n = Ok (be_bytes 4 n)) as Heq; [|congruence].
  apply to_bytes_Ok. split; [|reflexivity]. apply andb_true_iff in H. lia.
Qed.

Lemma seal_opens_He : aead_decrypt skey zero_nonce (seal "He") = Ok (encode "He").
Proof. by_vm. Qed.
Lemma seal_opens_y : aead_decrypt skey zero_nonce (seal "y") = Ok (encode "y").
Proof. by_vm. Qed.

Lemma toy_genuine h : genuine (Cli := cfg_client ecdhe) (toy_capture h).
Proof.
  split; [reflexivity|]. split.
  - apply two_in_sequence; cbn [cap_chunks cap_session_key cap_sig_public_key cap_handshake_id
      toy_capture].
    + exact (toy_chunk_good h 0 "He" _ _ (chunk_message_ok _ 0 _ _ eq_refl) seal_opens_He).
    + exact (toy_chunk_good h 1 "y" _ _ (chunk_message_ok _ 1 _ _ eq_refl) seal_opens_y).
  - exists (toy_end h 2). split; [reflexivity|]. do 4 eexists. split; [reflexivity|].
    change (py_len (cap_chunks (toy_capture h))) with 2.
    split; [apply end_message_ok; reflexivity|]. apply ec_accepts.
Qed.

(** The signatures of two sessions differ. *)
Definition separate (h h' : string) : bool :=
  negb (bytes_eqb (toy_sig (ec_key : bytes) (msg0 h')) (toy_sig (ec_key : bytes) (msg0 h)))
  && negb (bytes_eqb (toy_sig (ec_key : bytes) (msg1 h')) (toy_sig (ec_key : bytes) (msg1 h)))
  && negb (bytes_eqb (toy_sig (ec_key : bytes) (msgE h')) (toy_sig (ec_key : bytes) (msgE h))).

Lemma toy_foreign h h' :
  separate h h' = true -> foreign_to (Cli := cfg_client ecdhe) (toy_capture h) (toy_capture h').
Proof.
  unfold separate. intros [[H0 H1]%andb_true_iff H2]%andb_true_iff.
  apply negb_true_iff in H0, H1, H2. split.
  - apply two_in_sequence; cbn [cap_chunks cap_session_key cap_sig_public_key cap_handshake_id
      toy_capture].
    + exact (toy_chunk_foreign h h' 0 "He" _ (chunk_message_ok _ 0 _ _ eq_refl) H0).
    + exact (toy_chunk_foreign h h' 1 "y" _ (chunk_message_ok _ 1 _ _ eq_refl) H1).
  - exists (toy_end h' 2), 2. split; [reflexivity|]. do 4 eexists. split; [reflexivity|].
    split; [apply end_message_ok; reflexivity|]. by apply ec_refuses.
Qed.

Definition toy_pool : list capture := [toy_capture hid; toy_capture hid2].

Lemma toy_good_pool : good_pool (Cli := cfg_client ecdhe) toy_pool.
Proof.
  assert (Hne : toy_capture hid <> toy_capture hid2) by (intros [=]; done).
  unfold good_pool, toy_pool. split_and!.
  - reflexivity || (vm_compute; discriminate).
  - intros c Hc. rewrite !elem_of_cons, elem_of_nil in Hc.
    destruct Hc as [->|[->|[]]]; (split; [apply toy_genuine|vm_compute; discriminate]).
  - intros c d Hc Hd Hcd. rewrite !elem_of_cons, elem_of_nil in Hc, Hd.
    destruct Hc as [->|[->|[]]], Hd as [->|[->|[]]].
    + by destruct (Hcd eq_refl).
    + apply toy_foreign; by_vm.
    + apply toy_foreign; by_vm.
    + by destruct (Hcd eq_refl).
  - constructor; [|constructor; [|constructor]].
    + rewrite elem_of_cons, elem_of_nil. by intros [?|[]].
    + by intros ?%elem_of_nil.
Qed.

Lemma per_chunk_cell_detects_witness :
  exists benign rows w' r',
    run_cell (fun _ _ _ => 0%Q) toy_pool "ecdhe" "per_chunk" None 3 (world0, 0%nat)
    = (Ok (benign :: rows), (w', r')) /\ length rows = 6%nat.
Proof.
  destruct (per_chunk_cell_detects (fun _ _ _ => 0%Q) toy_pool "ecdhe" None 3 world0 0%nat
              toy_good_pool ltac:(lia)) as (b & rows & w' & r' & H & _ & _ & _ & Hf).
  exists b, rows, w', r'. split; [exact H|]. by apply Forall2_length in Hf.
Defined.

Lemma attack_loop_counts_witness :
  exists t σ', attack_loop (Z.to_nat (1 * 5)) toy_pool "per_chunk" None "drop" 1 tally0
                 (world0, 0%nat) = (Ok t, σ') /\ t_det t <= 1.
Proof.
  destruct (loop_detected (Cli := cfg_client ecdhe) toy_pool None "drop" 1 (Z.to_nat (1 * 5)) tally0
              world0 0%nat toy_good_pool ltac:(unfold STATIC; set_solver) ltac:(by constructor)
              ltac:(simpl; lia) ltac:(simpl; lia)) as (t & w' & r' & H & _ & _).
  exists t, (w', r'). split; [exact H|].
  destruct (attack_loop_counts toy_pool "per_chunk" None "drop" 1 (world0, 0%nat) (w', r') t
              ltac:(lia) H) as (_ & Hd & _). lia.
Defined.

(** *** A hash chain of two chunks with a checkpoint at each *)
Definition h0 : bytes := genesis_hash hid.
Definition link_to (h : bytes) (i : Z) (t : string) : bytes :=
  ok_bytes (chain_link h i (zero_nonce ++ seal t)).
Definition h1 : bytes := Eval vm_compute in link_to h0 0 "He".
Definition h2 : bytes := Eval vm_compute in link_to h1 1 "y".
Definition toy_checkpoint (i : Z) (h : bytes) : bytes :=
  toy_sig (ec_key : bytes) (ok_bytes (checkpoint_message (stream_context hid) i h)).
Definition toy_link (i : Z) (t : string) (h : bytes) : dict :=
  hc_wire i zero_nonce (seal t) h (VStr (_b64e (toy_checkpoint i h))) 0 0 32.
Definition toy_chain : list dict := [toy_link 0 "He" h1; toy_link 1 "y" h2].
Definition toy_chain_final : dict :=
  chain_final_wire 2 h2 (toy_sig (ec_key : bytes)
    (ok_bytes (final_chain_message (stream_context hid) 2 h2))) 0 0.

Lemma toy_link_record i t h h' pt :
  (0 <=? i) && (i <? 2 ^ 32) = true -> checkpoint_expected (Some 1) (i + 1) = true ->
  chain_link h i (zero_nonce ++ seal t) = Ok h' -> aead_decrypt skey zero_nonce (seal t) = Ok pt ->
  chain_link_record (Cli := cfg_client ecdhe) skey spk hid (Some 1) i h h' (toy_link i t h').
Proof.
  intros Hi Hk Hl Hd. do 7 eexists. split; [reflexivity|]. split; [exact Hl|].
  split; [exact Hd|]. unfold checkpoint_entry. rewrite Hk. do 2 eexists. split; [reflexivity|].
  split; [intros H%(f_equal length); unfold toy_checkpoint, toy_sig in H; by rewrite toy_hash_length in H|].
  split; [|apply ec_accepts]. unfold checkpoint_message, _index_bytes.
  destruct (to_bytes 4 i) as [b|e] eqn:Hb; [reflexivity|]. exfalso.
  assert (to_bytes 4 i = Ok (be_bytes 4 i)) as Heq; [|congruence].
  apply to_bytes_Ok. split; [|reflexivity]. apply andb_true_iff in Hi. lia.
Qed.

Lemma checkpoint_strip_needs_schedule_witness :
  exists w', replay_through_client (mkCapture hid skey spk (cfg_client ecdhe) toy_chain
                                      (Some toy_chain_final))
               (map strip_checkpoint toy_chain) (Some toy_chain_final) "hash_chain" (Some 1) true
               world0 = (Ok (Some 0, 0), w').
Proof.
  destruct (checkpoint_strip_needs_schedule (Cli := cfg_client ecdhe) skey spk hid toy_chain
              toy_chain_final (toy_capture hid) (Some 1) h2 0 [1] world0 0%nat)
    as (_ & H & _ & _).
  - exists h1. split; [apply (toy_link_record 0 "He" h0 h1 (encode "He")); by_vm|].
    exists h2. split; [apply (toy_link_record 1 "y" h1 h2 (encode "y")); by_vm|]. reflexivity.
  - do 4 eexists. split; [reflexivity|]. split; [|apply ec_accepts]. by_vm.
  - by_vm.
  - exact H.
Defined.

(** ** What is stored of one text *)
Lemma harvest_overhead_witness :
  exists b w1 s1 key,
    new_handshake (ServerCryptoConfig := cfg_server ecdhe) None
      (world0, server_init (ServerCryptoConfig := cfg_server ecdhe)) = (Ok b, (w1, s1))
    /\ exists rb rp rh,
      fst (protect (BufferAndSign (Srv := cfg_server ecdhe)) ["He"; "y"; ""]
             ((w1, s1), new_buffer_and_sign (handshake_id b) key)) = Ok rb
      /\ fst (protect (PerChunk (Srv := cfg_server ecdhe)) ["He"; "y"; ""] ((w1, s1), new_per_chunk (handshake_id b) key)) = Ok rp
      /\ fst (protect (HashChain (Srv := cfg_server ecdhe)) ["He"; "y"; ""]
               ((w1, s1), new_hash_chain (handshake_id b) key (interval_val (Some 2)))) = Ok rh
      /\ expected_deltas [("buffer_and_sign", harvest_of rb); ("per_chunk", harvest_of rp);
                          ("hash_chain", harvest_of rh)]
         = [("per_chunk", 56); ("per_chunk_actual_delta", 56);
            ("hash_chain", 56); ("hash_chain_actual_delta", 56)].
Proof.
  destruct (get_crypto_laws "classical_ecdhe" ecdhe eq_refl) as [L].
  destruct (new_handshake_ok (ConfigLaws := L) world0 (server_init (ServerCryptoConfig := cfg_server ecdhe)) None)
    as (b & w1 & s1 & Hnew & Hlive & _).
  exists b, w1, s1, skey. split; [exact Hnew|].
  destruct (harvest_overhead (L := L) s1 (handshake_id b) (kex_public_key b) (hb_sig_public_key b) skey
              Hlive eq_refl ["He"; "y"; ""] (Some 2) w1 w1 w1 eq_refl)
    as (rb & rp & rh & Hb & Hp & Hh & Hd).
  exists rb, rp, rh. split; [exact Hb|]. split; [exact Hp|]. split; [exact Hh|]. exact Hd.
Defined.

(** ** Active attackers at concrete inputs *)
From S2P Require Import HandshakeAuth SecureApp SecureClient AppServer KeySubstitution.
From S2P Require Import KeySubProps Mitm.

#[local] Existing Instances toy_env toy_prims toy_json.

(** The toy server with routes, and its state at the start. *)
Definition toy_routes : Transport (cfg_state ecdhe * gmap string bytes) :=
  app_transport (Srv := cfg_server ecdhe) model_predict backend_stream None "http://s".
Definition toy_server : cfg_state ecdhe * gmap string bytes := (snd (fst app_start), ∅).
Definition toy_identity : IdentityKey := mkIdentity "ECDSA-P256-SHA256" spk (ECSecret id_key).

(** Runs that return, by a check on what they return. *)
Definition returned {A S} (ok : A -> bool) (r : result A * S) : bool :=
  match fst r with Ok a => ok a | Raise _ => false end.
Lemma returned_run {A S} (ok : A -> bool) (r : result A * S) :
  returned ok r = true -> exists a s, r = (Ok a, s) /\ ok a = true.
Proof. destruct r as [[a|e] s]; [|done]. intros H. by exists a, s. Qed.

Lemma substitution_succeeds_unpinned_witness :
  exists out σ', _trial (TR := toy_routes) "http://s" "classical_ecdhe" "substitute"
      "unauthenticated" pinned_ec toy_identity question (world0, toy_server) = (Ok out, σ')
    /\ dget "forged_response_accepted" out = Some (VBool true).
Proof.
  assert (Hr : returned (fun hq => get_truthy "handshake_id" (fst hq))
                 (do_handshake (TR := toy_routes) "http://s" (world0, toy_server)) = true)
    by (vm_compute; reflexivity).
  apply returned_run in Hr as ([hj q] & [w1 n1] & Hh & Hid).
  destruct (substitution_succeeds_unpinned "classical_ecdhe" ecdhe model_predict backend_stream None
              "http://s" question answer hj pinned_ec toy_identity q world0 w1 (snd (fst app_start))
              ∅ n1 eq_refl eq_refl answers eq_refl eq_refl Hid Hh)
    as (out & σ' & H & _ & _ & Hf & _).
  exists out, σ'. split; [exact H|exact Hf].
Defined.

Lemma pinned_stops_substitution_witness :
  exists out σ', _trial (TR := toy_routes) "http://s" "classical_ecdhe" "substitute" "pinned"
      pinned_ec toy_identity question (world0, toy_server) = (Ok out, σ')
    /\ (dget "rejected_at" out = Some (VStr "handshake") \/ exists msg : bytes, True).
Proof.
  assert (Hr : returned (fun hq => get_truthy "handshake_id" (fst hq))
                 (do_handshake (TR := toy_routes) "http://s" (world0, toy_server)) = true)
    by (vm_compute; reflexivity).
  apply returned_run in Hr as ([hj q] & [w1 n1] & Hh & _).
  assert (Hi : returned (fun _ => true) ((let* hm := do_handshake (TR := toy_routes) "http://s" in
                intercept ecdhe "substitute" toy_identity (fst hm)) (world0, toy_server)) = true)
    by (vm_compute; reflexivity).
  rewrite (bind_Ok _ _ _ _ _ Hh) in Hi.
  apply returned_run in Hi as ([hs atk] & [w2 n2] & Hi & _).
  assert (Ht : returned (fun _ => true) (_trial (TR := toy_routes) "http://s" "classical_ecdhe"
                 "substitute" "pinned" pinned_ec toy_identity question (world0, toy_server)) = true)
    by (vm_compute; reflexivity).
  apply returned_run in Ht as (out & σ' & Ht & _). exists out, σ'. split; [exact Ht|].
  destruct (pinned_stops_substitution (TR := toy_routes) "classical_ecdhe" "http://s" "substitute"
              ecdhe question hj hs atk pinned_ec toy_identity q (world0, toy_server) w1 w2 n1 n2 out σ'
              eq_refl Hh Hi Ht) as [[H _]|(msg & _)]; [by left|right; by exists msg].
Defined.

Lemma tampered_response_detected_witness :
  exists j', _tamper_response_body (encode (json_text (VDict
      (SecurePredictResponse (_b64e (fit 12 [])) (_b64e resp_ct) (_b64e (encode "sig")) [] VNone))))
      "ciphertext" = Ok (encode (json_text (VDict j')))
    /\ dget "ciphertext" j' = Some (VStr (_b64e (flip_middle resp_ct))).
Proof.
  destruct (tampered_response_detected (N := unit) (cfg_client ecdhe) est_key spk (fit 12 []) resp_ct
              (encode "sig") answer_bytes [] answer VNone world0 world0 tt None
              [("error", VNone); ("valid_signature", VNone)] [("verify_ms", VFloat 0)] (VFloat 0))
    as ((j' & H1 & H2 & _) & _).
  - discriminate.
  - discriminate.
  - vm_compute. reflexivity.
  - split; reflexivity.
  - vm_compute. reflexivity.
  - vm_compute. reflexivity.
  - reflexivity.
  - exists j'. split; [exact H1|exact H2].
Defined.

Lemma idle_proxy_is_transparent_witness :
  fst (proxy_get (TR := toy_routes) "http://s" "http://p" ("http://p" +:+ "/secure/handshake")
         (world0, (toy_server, 0%nat)))
  = fst (http_get (Transport := toy_routes) ("http://s" +:+ "/secure/handshake") (world0, toy_server)).
Proof.
  destruct (idle_proxy_is_transparent (TR := toy_routes) "http://s" "http://p" "ciphertext"
              "/secure/handshake" [] [] world0 toy_server 0%nat) as [_ [H _]].
  exact H.
Defined.
