(* ===== verification/PaperRuns.v ===== *)
(** * The paper's runs ([bench/paper_runs.py])

    One pass over the experiments of the paper: the steps share a manifest, the
    environment of the process and the sweeps' log of starts and stops; a step
    that fails is recorded and the pass goes on.  The sweeps are those of
    [Orchestrator] and [StreamingRunner].  Subprocesses, the clock, the host
    description and what the sweeps meet are parameters. *)
From stdpp Require Import pretty.
From S2P Require Import Prelude PyBytes PyVal World PyList Streaming Http Base Configs StreamingClient.
From S2P Require Import Replay NetemProxy Orchestrator StreamingRunner.

Abbreviation environ := (list (string * string)).

Definition ALL_CONFIGS : list string :=
  ["control"; "control-2rt"; "classical"; "classical-ecdhe"; "hybrid"; "hybrid-kex"; "full-pqc"].
Definition PROTECTED : list string :=
  ["classical"; "classical-ecdhe"; "hybrid"; "hybrid-kex"; "full-pqc"].
Definition PROTECTED_V2 : list string := PROTECTED ++ ["hybrid-kex-pq"].
Definition CRYPTO : list (string * string) :=
  [("classical", "classical"); ("classical-ecdhe", "classical_ecdhe"); ("hybrid", "hybrid");
   ("hybrid-kex", "hybrid_kex"); ("full-pqc", "full_pqc"); ("hybrid-kex-pq", "hybrid_kex_pq")].
Definition CHECKPOINT_KS : list (option Z) := [None; Some 1; Some 2; Some 5; Some 10; Some 20].
Definition PROFILES : list string := ["tabular_small"; "image_cnn"; "embedding"; "llm_completion"].
Definition NETWORKS : list string := ["localhost"; "metro"; "wan"; "mobile"].
Definition PORT : Z := 8000.

Section Pass.
Context {E : Env} {P : Prims} {J : Json} {N : Type} {TR : Transport N}.

(** What the pass meets, by the number of the interaction. *)
Record host := mkHost {
  ho_repo_root : string; ho_python_bin : string;
  ho_run : nat -> list string -> environ -> result unit;   (* [subprocess.run(..., check=True)] *)
  ho_strftime : nat -> string;                             (* also [new_run_id()] *)
  ho_sweep : nat -> surroundings;
  ho_stream : nat -> stream_surroundings (N := N);
  ho_polls : nat -> Q * (nat -> Q * result Z);             (* [_wait_healthy] of a threat server *)
  ho_group : nat -> (kill_signal -> bool) * (kill_signal -> bool);
  ho_environment : nat -> result dict;                     (* [capture_environment()] *)
  ho_archive : nat -> result string }.                     (* [_archive()] *)

(** The manifest, the file it is saved to, [os.environ], the log of servers and
    proxies, the network, the commands that were run, and the number of
    interactions so far. *)
Record pass := mkPass {
  ps_manifest : dict; ps_file : option dict; ps_environ : environ; ps_log : log;
  ps_net : world * N; ps_runs : list (list string * environ); ps_count : nat }.

Definition set_manifest (m : dict) (s : pass) : pass :=
  let 'mkPass _ f e l n r c := s in mkPass m f e l n r c.
Definition set_environ (e : environ) (s : pass) : pass :=
  let 'mkPass m f _ l n r c := s in mkPass m f e l n r c.

Definition in_log {A} (m : M log A) : M pass A := fun s =>
  let 'mkPass mf f e l n r c := s in
  let '(x, l') := m l in (x, mkPass mf f e l' n r c).
Definition in_net {A} (m : M (log * (world * N)) A) : M pass A := fun s =>
  let 'mkPass mf f e l n r c := s in
  let '(x, (l', n')) := m (l, n) in (x, mkPass mf f e l' n' r c).

Definition manifest : M pass dict := fun s => (Ok (ps_manifest s), s).
Definition get_environ : M pass environ := fun s => (Ok (ps_environ s), s).
Definition next_interaction : M pass nat := fun s =>
  let 'mkPass mf f e l n r c := s in (Ok c, mkPass mf f e l n r (S c)).

(** [m[k] = v], [os.environ[k] = v], and [m[k].append(v)]. *)
Definition set_m (k : string) (v : val) : M pass unit := fun s =>
  (Ok tt, set_manifest (dset k v (ps_manifest s)) s).
Definition set_env (k v : string) : M pass unit := fun s =>
  (Ok tt, set_environ (dset k v (ps_environ s)) s).
Definition append_m (k : string) (v : val) : M pass unit :=
  let* m := manifest in
  let* cur := of_result (getitem k m) in
  match cur with
  | VList l => set_m k (VList (l ++ [v]))
  | _ => raise (AttributeError "object has no attribute 'append'")
  end.

Definition _save_manifest : M pass unit := fun s =>
  let 'mkPass mf _ e l n r c := s in (Ok tt, mkPass mf (Some mf) e l n r c).

(** [os.path.join], of relative parts. *)
Definition join (a b : string) : string := a +:+ "/" +:+ b.

Context (ho : host).
Definition RESULTS : string := join (ho_repo_root ho) "results".

(** [{**os.environ, **(env or {})}]. *)
Definition env_update (e extra : environ) : environ :=
  fold_left (fun e kv => dset (fst kv) (snd kv) e) extra e.

Definition _run (cmd : list string) (env : environ) : M pass unit :=
  let* e := get_environ in
  let full_env := env_update e env in
  let* n := next_interaction in
  fun s =>
    let 'mkPass mf f e l w r c := s in
    (ho_run ho n cmd full_env, mkPass mf f e l w (r ++ [(cmd, full_env)]) c).

(** [[PYTHON_BIN, "-m", module, ...]]. *)
Definition python_m (module : string) (arguments : list string) : list string :=
  ho_python_bin ho :: "-m" :: module :: arguments.

(** *** [_sweep] *)
Record sweep_kw := mkKw {
  kw_configs : list string; kw_levels : list Z; kw_repetitions : Z; kw_per_concurrency : Z;
  kw_min_requests : Z; kw_profile : string; kw_network : string; kw_per_handshake : Z;
  kw_auth : bool }.
(** The defaults of [run_full_sweep]. *)
Definition kw (configs : list string) (levels : list Z) (repetitions per_concurrency min_requests : Z)
    : sweep_kw :=
  mkKw configs levels repetitions per_concurrency min_requests "tabular_small" "localhost" 1 false.
Definition with_profile (p : string) (k : sweep_kw) : sweep_kw :=
  let 'mkKw c l r pc mr _ nw ph au := k in mkKw c l r pc mr p nw ph au.
Definition with_network (nw : string) (k : sweep_kw) : sweep_kw :=
  let 'mkKw c l r pc mr p _ ph au := k in mkKw c l r pc mr p nw ph au.
Definition with_per_handshake (ph : Z) (k : sweep_kw) : sweep_kw :=
  let 'mkKw c l r pc mr p nw _ au := k in mkKw c l r pc mr p nw ph au.
Definition with_auth (au : bool) (k : sweep_kw) : sweep_kw :=
  let 'mkKw c l r pc mr p nw ph _ := k in mkKw c l r pc mr p nw ph au.

Definition sweep_of (k : sweep_kw) (run_id : string) : sweep :=
  mkSweep (kw_configs k) (kw_levels k) (kw_repetitions k) (kw_per_concurrency k)
    (kw_min_requests k) (join RESULTS "raw") (join RESULTS "sweep_summaries") (kw_profile k)
    (kw_network k) (kw_per_handshake k) (kw_auth k) run_id PORT.

(** [run_full_sweep] leaves its payload profile in the environment of the
    process, once it knows the network profile. *)
Definition sweep_environ (sw : sweep) : M pass unit :=
  match netem sw with
  | Ok _ => set_env "PQ_SHIELD_PAYLOAD_PROFILE" (sw_payload_profile sw)
  | Raise _ => ret tt
  end.

Definition _sweep (k : sweep_kw) : M pass val :=
  let* n := next_interaction in
  let sw := sweep_of k (ho_strftime ho n) in
  sweep_environ sw ;;;
  let* cells := in_log (run_full_sweep sw (ho_sweep ho n)) in
  let* first := of_result (getitem_at cells 0) in
  of_result (getitem "run_id" first).

(** ** The steps *)
Definition _llama_env : environ := [("PQ_SHIELD_STREAMING_BACKEND", "llama_cpp")].
(** [os.environ.update(_llama_env())]. *)
Definition use_llama : M pass unit := set_env "PQ_SHIELD_STREAMING_BACKEND" "llama_cpp".

Definition step_primitives : M pass unit :=
  _run (python_m "validation.primitive_bench"
          ["--iterations"; "2000"; "--output"; join (join RESULTS "validation") "primitive_bench.json"]) [] ;;;
  set_m "primitives" (VStr "results/validation/primitive_bench.json").

Definition step_concurrency : M pass unit :=
  let* run_id := _sweep (kw ALL_CONFIGS [10; 100; 1000] 5 10 50) in
  set_m "concurrency" run_id.

(** One sweep per value, its run appended to [m[k]]. *)
Definition sweep_series {A} (k : string) (values : list A) (kw_of : A -> sweep_kw) : M pass unit :=
  set_m k (VList []) ;;;
  for_each values (fun x =>
    let* run_id := _sweep (kw_of x) in
    append_m k run_id ;;; _save_manifest).

Definition step_payload : M pass unit :=
  sweep_series "payload" PROFILES (fun prof => with_profile prof (kw ALL_CONFIGS [10] 5 10 100)).
Definition step_network : M pass unit :=
  sweep_series "network" NETWORKS (fun net => with_network net (kw ALL_CONFIGS [10] 5 10 100)).
Definition step_amortization : M pass unit :=
  sweep_series "amortization" [1; 10; 100]
    (fun n => with_per_handshake n (kw ALL_CONFIGS [10] 5 100 1000)).

(** [configs or PROTECTED]. *)
Definition or_protected (configs : option (list string)) : list string :=
  match configs with Some (c :: r) => c :: r | _ => PROTECTED end.

Definition base : string := "http://127.0.0.1:" +:+ pretty PORT.
Definition proxy_base : string := "http://127.0.0.1:" +:+ pretty (PORT + 1000).

(** [_stop_server] of the process the interaction started. *)
Definition stop_process (n : nat) : M pass unit :=
  of_result (stop_group (ho_group ho n)).

(** One tampering run: a proxy, the experiment, and the proxy stopped. *)
Definition tampering_run (cfg crypto target : string) : M pass unit :=
  let* n := next_interaction in
  in_log (say (ProxyStarted cfg)) ;;;
  try_finally
    (_run (python_m "threats.mitm_experiment"
       ["--configuration"; cfg; "--proxy-url"; proxy_base; "--requests"; "100";
        "--tamper-target"; target;
        "--output"; join (join RESULTS "mitm") (crypto +:+ "-mitm-" +:+ target +:+ ".csv")]) [])
    (in_log (say (StopProxy cfg)) ;;; stop_process n).

Definition threat_body (n : nat) (cfg crypto : string) : M pass unit :=
  of_result (wait_for base (ho_polls ho n)) ;;;
  _run (python_m "threats.hndl_capture"
    ["--configuration"; cfg; "--url"; base; "--requests"; "1000";
     "--output"; join (join RESULTS "hndl") (crypto +:+ "-hndl.csv")]) [] ;;;
  for_each ["ciphertext"; "signature"] (tampering_run cfg crypto).

Definition threat_config (cfg : string) : M pass unit :=
  let* crypto := of_result (getitem cfg CRYPTO) in
  let* _ := of_result (getitem cfg SERVER_MODULES) in
  let* n := next_interaction in
  in_log (say (ServerStarted cfg)) ;;;
  try_finally (threat_body n cfg crypto)
    (in_log (say (StopServer cfg)) ;;; stop_process n).

Definition step_threats (configs : option (list string)) : M pass unit :=
  for_each (or_protected configs) threat_config ;;;
  set_m "threats" (VStr "results/hndl/*-hndl-summary.json, results/mitm/*-summary.json").

(** [bench.streaming_runner.run_sweep] with the pass's port and directories. *)
Definition stream_of (configs strategies : list string) (max_tokens_values chunk_size_values : list Z)
    (repetitions seed : Z) (checkpoint_intervals : option (list (option Z)))
    (run_id backend : string) : stream_sweep :=
  mkStreamSweep configs strategies max_tokens_values chunk_size_values repetitions PORT
    (join RESULTS "streaming") (join RESULTS "sweep_summaries") 1 (Some seed)
    checkpoint_intervals run_id backend.

(** The run id of the first row. *)
Definition streaming_run (ss_of : string -> string -> stream_sweep) : M pass val :=
  use_llama ;;;
  let* n := next_interaction in
  let* e := get_environ in
  let ss := ss_of (ho_strftime ho n) (_current_backend e) in
  let* rows := in_net (run_sweep ss (ho_stream ho n)) in
  let* first := of_result (getitem_at rows 0) in
  of_result (getitem "run_id" first).

Definition STRATEGIES : list string := ["buffer_and_sign"; "per_chunk"; "hash_chain"].

Definition streaming_step (configs : list string) (seed : Z) : M pass unit :=
  let* run_id := streaming_run (stream_of configs STRATEGIES [50; 200] [5] 10 seed None) in
  set_m "streaming" run_id ;;;
  set_m "streaming_backend" (VStr "llama_cpp").
Definition step_streaming : M pass unit := streaming_step PROTECTED 1.
Definition step_streaming_v2 : M pass unit := streaming_step PROTECTED_V2 3.

Definition checkpoint_step (configs : list string) (seed : Z) : M pass unit :=
  let* run_id := streaming_run
    (stream_of configs ["hash_chain"] [200] [5] 5 seed (Some CHECKPOINT_KS)) in
  set_m "checkpoint" run_id.
Definition step_checkpoint : M pass unit := checkpoint_step ["hybrid"; "full-pqc"] 2.
Definition step_checkpoint_v2 : M pass unit := checkpoint_step ["hybrid"; "full-pqc"; "hybrid-kex-pq"] 4.

(** [",".join(l)]. *)
Definition comma (l : list string) : string := String.concat "," l.

Definition step_streaming_hndl (configs : option (list string)) : M pass unit :=
  _run (python_m "threats.streaming_hndl_experiment"
    ["--configs"; comma (or_protected configs); "--port"; pretty PORT;
     "--max-tokens"; "50,200,500,2000"]) _llama_env ;;;
  set_m "streaming_hndl" (VStr "results/hndl/streaming/ (llama_cpp)").

Definition step_streaming_mitm : M pass unit :=
  _run (python_m "threats.streaming_mitm_experiment"
    ["--configs"; comma PROTECTED; "--port"; pretty PORT; "--trials"; "10"]) _llama_env ;;;
  set_m "streaming_mitm" (VStr "results/streaming/mitm/ (llama_cpp)").

(** [",".join(str(k) for k in CHECKPOINT_KS if k)]. *)
Definition interval_list : string :=
  comma (omap (fun k => match k with
                        | Some k => if k =? 0 then None else Some (pretty k)
                        | None => None
                        end) CHECKPOINT_KS).

Definition step_checkpoint_attacks : M pass unit :=
  _run (python_m "threats.streaming_mitm_experiment"
    ["--configs"; "hybrid,full-pqc"; "--strategies"; "hash_chain"; "--attacks"; "drop,reorder,replay";
     "--trials"; "5"; "--max-tokens"; "200"; "--checkpoint-intervals"; interval_list;
     "--port"; pretty PORT]) _llama_env ;;;
  set_m "checkpoint_attacks" (VStr "results/streaming/mitm/checkpoints/ (llama_cpp)").

Definition concurrency_step (k : string) (configs : list string) : M pass unit :=
  let* run_id := _sweep (kw configs [10; 100; 1000] 5 10 50) in set_m k run_id.
Definition step_control_2rt : M pass unit := concurrency_step "concurrency_control_2rt" ["control-2rt"].
Definition step_concurrency_supplement : M pass unit :=
  concurrency_step "concurrency_supplement" ["control"; "hybrid-kex"].
Definition step_concurrency_hkpq : M pass unit :=
  concurrency_step "concurrency_hybrid_kex_pq" ["hybrid-kex-pq"].

Definition step_signing_diagnostic : M pass unit :=
  _run (python_m "validation.contention_check"
    ["--n"; "300"; "--n-spaced"; "100";
     "--out"; join (join RESULTS "validation") "contention_check.csv"]) _llama_env ;;;
  set_m "signing_diagnostic" (VStr "results/validation/contention_check.csv").

Definition step_attack_campaign : M pass unit :=
  _run (python_m "threats.streaming_attack_campaign"
    ["--configs"; comma PROTECTED_V2; "--trials"; "500"; "--pool"; "10"; "--max-tokens"; "100";
     "--port"; pretty PORT;
     "--output"; join (join (join RESULTS "streaming") "mitm") "campaign.json"]) _llama_env ;;;
  set_m "attack_campaign" (VStr "results/streaming/mitm/campaign.json").

Definition step_key_substitution : M pass unit :=
  _run (python_m "threats.key_substitution"
    ["--configs"; comma PROTECTED_V2; "--trials"; "300"; "--port"; pretty PORT;
     "--output"; join (join RESULTS "mitm") "key_substitution.json"]) [] ;;;
  set_m "key_substitution" (VStr "results/mitm/key_substitution.json").

(** The pairs of [step_auth_cost]: the order within a pair alternates. *)
Definition auth_pairs : list (string * bool) :=
  concat (imap (fun i cfg => map (pair cfg) (if Nat.even i then [false; true] else [true; false]))
            PROTECTED_V2).

Definition step_auth_cost : M pass unit :=
  set_m "auth_cost" (VList []) ;;;
  for_each auth_pairs (fun '(cfg, auth) =>
    let* run_id := _sweep (with_auth auth (kw [cfg] [10] 5 10 100)) in
    append_m "auth_cost" (VDict [("config", VStr cfg); ("auth", VBool auth); ("run_id", run_id)]) ;;;
    _save_manifest).

Definition step_hndl_hkpq : M pass unit :=
  step_threats (Some ["hybrid-kex-pq"]) ;;;
  step_streaming_hndl (Some ["hybrid-kex-pq"]).

(** ** The pass *)
Definition STEPS : list (Z * (string * M pass unit)) :=
  [(1, ("primitive micro-benchmark", step_primitives));
   (2, ("concurrency matrix", step_concurrency));
   (3, ("payload-shape sweep", step_payload));
   (4, ("network-emulation sweep", step_network));
   (5, ("single-transaction HNDL + MITM", step_threats None));
   (6, ("streaming strategies (Llama)", step_streaming));
   (7, ("streaming HNDL (Llama)", step_streaming_hndl None));
   (8, ("streaming sequence attacks (Llama)", step_streaming_mitm));
   (9, ("checkpoint frontier (Llama)", step_checkpoint));
   (10, ("checkpoint sequence attacks (Llama)", step_checkpoint_attacks));
   (11, ("handshake amortization", step_amortization));
   (12, ("concurrency supplement: Control re-run + Hybrid-KEX", step_concurrency_supplement));
   (13, ("matched-protocol control (Control-2RT)", step_control_2rt));
   (14, ("signing-cost diagnostic (Llama)", step_signing_diagnostic));
   (15, ("concurrency: Hybrid-KEX-PQ", step_concurrency_hkpq));
   (16, ("streaming strategies with CPU time (Llama)", step_streaming_v2));
   (17, ("checkpoint frontier with CPU time (Llama)", step_checkpoint_v2));
   (18, ("stream attack campaign (Llama)", step_attack_campaign));
   (19, ("key substitution (full MITM)", step_key_substitution));
   (20, ("authenticated-handshake cost", step_auth_cost));
   (21, ("HNDL for Hybrid-KEX-PQ", step_hndl_hkpq))].

Fixpoint lookup_step (n : Z) (steps : list (Z * (string * M pass unit))) : result (M pass unit) :=
  match steps with
  | [] => Raise (KeyError (pretty n))
  | (k, (_, fn)) :: r => if k =? n then Ok fn else lookup_step n r
  end.

(** [m.setdefault(k, v)]. *)
Definition setdefault_m (k : string) (v : val) : M pass unit :=
  let* m := manifest in if dmem k m then ret tt else set_m k v.

(** [if n not in m["completed_steps"]: m["completed_steps"].append(n)]. *)
Definition record_completed (n : Z) : M pass unit :=
  setdefault_m "completed_steps" (VList []) ;;;
  let* m := manifest in
  let* cur := of_result (getitem "completed_steps" m) in
  let* done_ := of_result (viter cur) in
  if existsb (fun v => val_eq_int v n) done_ then ret tt
  else append_m "completed_steps" (VInt n).

(** [except Exception]: every exception but [SystemExit]. *)
Definition is_exception (e : exn) : bool := match e with SystemExit _ => false | _ => true end.

(** Whether the step failed. *)
Definition attempt (n : Z) (fn : M pass unit) : M pass bool := fun s =>
  match (fn ;;; record_completed n) s with
  | (Ok _, s') => (Ok false, s')
  | (Raise e, s') => (if is_exception e then Ok true else Raise e, s')
  end.

(** The loop over the steps; [failed] is the list so far. *)
Fixpoint run_steps (steps : list Z) (failed : list Z) : M pass (list Z) :=
  match steps with
  | [] => ret failed
  | n :: rest =>
      let* fn := of_result (lookup_step n STEPS) in
      let* bad := attempt n fn in
      let failed := if bad : bool then failed ++ [n] else failed in
      set_m "failed_steps" (VList (map VInt failed)) ;;;
      _save_manifest ;;;
      run_steps rest failed
  end.

Definition ARCHIVING : list Z := [1; 5; 7; 8; 10; 18; 19; 21].

(** The exit status.  What [load_dotenv_if_needed] adds is in the environment
    the pass starts from. *)
Definition main (steps : list Z) (no_figures : bool) : M pass Z :=
  (fun s => (Ok tt, set_environ (ddel "ANTHROPIC_API_KEY" (ps_environ s)) s)) ;;;
  (fun s => (Ok tt, set_manifest (match ps_file s with Some m => m | None => [] end) s)) ;;;
  let* n := next_interaction in
  setdefault_m "started" (VStr (ho_strftime ho n)) ;;;
  let* n := next_interaction in
  let* environment := of_result (ho_environment ho n) in
  set_m "environment" (VDict environment) ;;;
  (if existsb (fun k => existsb (Z.eqb k) steps) ARCHIVING then
     let* n := next_interaction in
     let* dest := of_result (ho_archive ho n) in
     set_m "archive" (VStr dest)
   else ret tt) ;;;
  _save_manifest ;;;
  let* failed := run_steps steps [] in
  let* n := next_interaction in
  set_m "finished" (VStr (ho_strftime ho n)) ;;;
  _save_manifest ;;;
  (if no_figures then ret tt else _run (python_m "analysis.paper_figures" []) []) ;;;
  ret (match failed with [] => 0 | _ => 1 end).
End Pass.
