(* ===== verification/PaperRunsProps.v ===== *)
(** * A pass over the paper's experiments

    Whatever fails, a pass calls the stop of every server and proxy it started,
    goes on with the next step and says in the manifest what failed; and what
    the steps share besides. *)
From stdpp Require Import pretty.
From S2P Require Import Prelude PyBytes PyVal World PyList Streaming Http Base Configs StreamingClient.
From S2P Require Import Replay NetemProxy Orchestrator OrchestratorProps StreamingRunner PaperRuns.

(** ** Brackets in any state with a log *)

(** What was added starts and stops nothing for good, from [cur]. *)
Definition stays (cur : running_server) (l l' : log) : Prop :=
  exists d, l' = l ++ d /\ after_log cur d = Some cur.
#[export] Instance stays_preorder cur : PreOrder (stays cur).
Proof.
  split.
  - intros l. exists []. by rewrite app_nil_r.
  - intros x y z (d & -> & Hd) (d' & -> & Hd'). exists (d ++ d').
    split; [by rewrite app_assoc|]. by rewrite (after_log_app _ _ _ _ Hd).
Qed.
Lemma stays_eq cur l : stays cur l l.
Proof. reflexivity. Qed.

Section Brackets.
Context {Σ : Type} (lg : Σ -> log).
Definition logged (R : relation log) : relation Σ := fun s s' => R (lg s) (lg s').
#[export] Instance logged_preorder R `{!PreOrder R} : PreOrder (logged R).
Proof. split; [by intros ?; unfold logged|]. intros x y z H1 H2. unfold logged in *. by etrans. Qed.

(** [m] returns and adds one event. *)
Definition emits (e : event) (m : M Σ unit) : Prop :=
  forall s, exists s', m s = (Ok tt, s') /\ lg s' = lg s ++ [e].

(** A start, a [try] block, and the stop in its [finally]. *)
Lemma bracket_stays {A} e1 e2 cur cur' (start stop : M Σ unit) (body : M Σ A) (r : result unit) :
  emits e1 start -> emits e2 stop ->
  after_event cur e1 = Some cur' -> after_event cur' e2 = Some cur ->
  respects (logged (stays cur')) body ->
  respects (logged (stays cur)) (start ;;; try_finally body (stop ;;; of_result r)).
Proof.
  intros Hs1 Hs2 H1 H2 Hb s. destruct (Hs1 s) as (s1 & Hrun1 & Hl1).
  rewrite (bind_Ok _ _ _ _ _ Hrun1), try_finally_snd. unfold logged in *.
  destruct (Hb s1) as (d & Hd & Had). destruct (Hs2 (snd (body s1))) as (s2 & Hrun2 & Hl2).
  rewrite (bind_Ok _ _ _ _ _ Hrun2). cbn [of_result snd]. exists (e1 :: d ++ [e2]).
  split; [by rewrite Hl2, Hd, Hl1, <- !app_assoc|]. cbn [after_log]. rewrite H1.
  rewrite (after_log_app _ _ _ _ Had). cbn [after_log]. by rewrite H2.
Qed.
End Brackets.

(** ** The streaming sweep *)
Section Stream.
Context {E : Env} {P : Prims} {J : Json} {N : Type} {TR : Transport N}.
Variables (ss : stream_sweep) (sx : stream_surroundings (N := N)).
Abbreviation state := (log * (world * N))%type.

Lemma on_snd_stays {A} cur (m : M (world * N) A) : respects (logged (Σ := state) fst (stays cur)) (on_snd m).
Proof. intros [l n]. unfold on_snd. unfold logged. destruct (m n). apply stays_eq. Qed.
Lemma file_stays cur path : respects (logged (Σ := state) fst (stays cur)) (on_fst (say (FileWritten path))).
Proof. intros [l n]. by exists [FileWritten path]. Qed.
#[local] Hint Resolve on_snd_stays file_stays : respects.

Lemma stream_config_log key : respects (logged fst (stays None)) (stream_config ss sx key).
Proof.
  unfold stream_config. apply respects_bind; [exact _|respects_tac|].
  intros m s. rewrite <- bind_assoc. revert s.
  apply (bracket_stays fst (ServerStarted key) (StopServer key) None (Some (key, false))).
  - intros [l n]. by eexists.
  - intros [l n]. by eexists.
  - done.
  - simpl. by rewrite String.eqb_refl.
  - unfold stream_body, warmup, stream_cell. respects_tac.
Qed.

Lemma run_sweep_log : respects (logged fst (stays None)) (run_sweep ss sx).
Proof.
  unfold run_sweep. apply respects_bind; [exact _| |].
  - apply respects_mmap; [exact _|]. apply stream_config_log.
  - intros cells. respects_tac.
Qed.
End Stream.

(** ** What a pass keeps *)
Section Pass.
Context {E : Env} {P : Prims} {J : Json} {N : Type} {TR : Transport N}.
Variable ho : host (N := N).
Abbreviation st := (pass (N := N)).

(** A relation every step respects: it holds of the operations the steps are
    made of. *)
Class Leaves (R : relation st) := {
  lv_preorder :: PreOrder R;
  lv_interaction : respects R next_interaction;
  lv_set k v : k <> "completed_steps" -> respects R (set_m k v);
  lv_env k v : respects R (set_env k v);
  lv_save : respects R _save_manifest;
  lv_run cmd env : respects R (_run ho cmd env);
  lv_sweep sw n : respects R (in_log (run_full_sweep sw (ho_sweep ho n)));
  lv_stream ss n : respects R (in_net (run_sweep ss (ho_stream ho n)));
  lv_threat cfg : respects R (threat_config ho cfg);
}.

Section Steps.
Context (R : relation st) {L : Leaves R}.

Lemma respects_manifest : respects R manifest.
Proof. by apply respects_still; [exact _|]. Qed.
Lemma respects_get_environ : respects R get_environ.
Proof. by apply respects_still; [exact _|]. Qed.
#[local] Hint Resolve lv_interaction lv_env lv_save lv_run lv_sweep lv_stream lv_threat
  respects_manifest respects_get_environ : respects.
#[local] Hint Extern 1 (respects _ (set_m _ _)) => apply lv_set; discriminate : respects.

Lemma respects_append k v : k <> "completed_steps" -> respects R (append_m k v).
Proof. intros Hk. unfold append_m. respects_tac. by apply lv_set. Qed.
#[local] Hint Extern 1 (respects _ (append_m _ _)) => apply respects_append; (assumption || discriminate) : respects.

Lemma respects_sweep k : respects R (_sweep ho k).
Proof. unfold _sweep, sweep_environ. respects_tac. Qed.
#[local] Hint Resolve respects_sweep : respects.

Lemma respects_series {A} k (values : list A) kw_of :
  k <> "completed_steps" -> respects R (sweep_series ho k values kw_of).
Proof.
  intros Hk. unfold sweep_series. apply respects_bind; [exact _|by apply lv_set|]. intros [].
  respects_tac.
Qed.

(** Every step of the pass. *)
Lemma respects_steps n fn : lookup_step n (STEPS ho) = Ok fn -> respects R fn.
Proof.
  unfold STEPS. cbn [lookup_step].
  repeat (destruct (_ =? n); [intros [= <-]|]); [..|done].
  all: unfold step_primitives, step_concurrency, step_payload, step_network, step_threats,
    step_streaming, step_streaming_v2, streaming_step, step_streaming_hndl, step_streaming_mitm,
    step_checkpoint, step_checkpoint_v2, checkpoint_step, streaming_run, use_llama,
    step_checkpoint_attacks, step_amortization, step_concurrency_supplement, step_control_2rt,
    concurrency_step, step_signing_diagnostic, step_concurrency_hkpq, step_attack_campaign,
    step_key_substitution, step_auth_cost, step_hndl_hkpq.
  all: try (apply respects_series; discriminate).
  all: respects_tac.
Qed.
End Steps.

(** *** The log *)
Abbreviation log_stays cur := (logged (Σ := st) ps_log (stays cur)).

Lemma same_log cur {A} (m : M st A) : (forall s, ps_log (snd (m s)) = ps_log s) -> respects (log_stays cur) m.
Proof. intros H s. unfold logged. rewrite H. apply stays_eq. Qed.

Lemma run_same_log cur cmd env : respects (log_stays cur) (_run ho cmd env).
Proof. apply same_log. by intros []. Qed.
Lemma interaction_same_log cur : respects (log_stays cur) next_interaction.
Proof. apply same_log. by intros []. Qed.
#[local] Hint Resolve run_same_log interaction_same_log : respects.

Lemma say_emits e : emits (Σ := st) ps_log e (in_log (say e)).
Proof. intros []. by eexists. Qed.

Lemma tampering_log cfg crypto target :
  respects (log_stays (Some (cfg, false))) (tampering_run ho cfg crypto target).
Proof.
  unfold tampering_run. apply respects_bind; [exact _|apply interaction_same_log|]. intros n.
  apply (bracket_stays ps_log (ProxyStarted cfg) (StopProxy cfg) _ (Some (cfg, true)));
    [apply say_emits|apply say_emits| | |apply run_same_log]; simpl; by rewrite String.eqb_refl.
Qed.
#[local] Hint Resolve tampering_log : respects.

Lemma threat_log cfg : respects (log_stays None) (threat_config ho cfg).
Proof.
  unfold threat_config. apply respects_bind; [exact _|respects_tac|]. intros crypto.
  apply respects_bind; [exact _|respects_tac|]. intros module.
  apply respects_bind; [exact _|apply interaction_same_log|]. intros n.
  apply (bracket_stays ps_log (ServerStarted cfg) (StopServer cfg) _ (Some (cfg, false)));
    [apply say_emits|apply say_emits|done|simpl; by rewrite String.eqb_refl|].
  unfold threat_body. respects_tac.
Qed.

Section Log.
Hypothesis Hproxy : forall n k, stop_proxy (ho_sweep ho n) k = Ok tt.

#[local] Instance log_leaves : Leaves (log_stays None).
Proof.
  constructor; try exact _; try (intros; apply same_log; by intros []).
  - intros sw n [m f e l w r c]. unfold in_log, logged.
    destruct (run_full_sweep_log sw (ho_sweep ho n) (Hproxy n) l) as (d & Hd & Ha).
    destruct (run_full_sweep sw (ho_sweep ho n) l) as [x l']. exists d. by split.
  - intros ss n [m f e l w r c]. unfold in_net, logged.
    pose proof (run_sweep_log ss (ho_stream ho n) (l, w)) as H. unfold logged in H.
    by destruct (run_sweep ss (ho_stream ho n) (l, w)) as [x [l' w']].
  - apply threat_log.
Qed.

Lemma completed_log n : respects (log_stays None) (record_completed n).
Proof.
  unfold record_completed, setdefault_m, append_m.
  respects_tac; apply same_log; by intros [].
Qed.

Lemma attempt_respects (R : relation st) n fn :
  PreOrder R -> respects R fn -> respects R (record_completed n) -> respects R (attempt n fn).
Proof.
  intros HR Hf Hr s. unfold attempt.
  assert (respects R (fn ;;; record_completed n)) as H by (by apply respects_bind).
  specialize (H s). by destruct ((fn ;;; record_completed n) s) as [[]].
Qed.

Lemma run_steps_log steps failed : respects (log_stays None) (run_steps ho steps failed).
Proof.
  revert failed; induction steps as [|n steps IH]; intros failed; cbn [run_steps]; [apply respects_ret; exact _|].
  intros s. unfold bind at 1. cbn [of_result].
  destruct (lookup_step n (STEPS ho)) as [fn|e] eqn:Hl; [|apply stays_eq]. revert s.
  apply respects_bind; [exact _|apply attempt_respects; [exact _| |apply completed_log]|].
  { by apply (respects_steps (log_stays None) n). }
  intros bad. apply respects_bind; [exact _|by apply lv_set|]. intros [].
  apply respects_bind; [exact _|apply lv_save|]. intros []. apply IH.
Qed.

Lemma main_log steps no_figures : respects (log_stays None) (main ho steps no_figures).
Proof.
  unfold main, setdefault_m.
  repeat first [ apply respects_bind; [exact _| |intros ?] | apply respects_if
               | apply run_steps_log | apply same_log; by intros [] | progress respects_tac ].
Qed.
End Log.

(** *** What is recorded *)

(** Step [n] is among the completed steps of a manifest. *)
Definition recorded (n : Z) (m : dict) : Prop :=
  exists v l, dget "completed_steps" m = Some v /\ viter v = Ok l
    /\ existsb (fun v => val_eq_int v n) l = true.
Definition keeps_recorded (s s' : st) : Prop :=
  forall n, recorded n (ps_manifest s) -> recorded n (ps_manifest s').
#[local] Instance keeps_recorded_preorder : PreOrder keeps_recorded.
Proof. split; [by intros s n|]. intros x y z H1 H2 n H. by apply H2, H1. Qed.

(** No step touches the list of completed steps: only [record_completed] does. *)
Definition same_completed (s s' : st) : Prop :=
  dget "completed_steps" (ps_manifest s') = dget "completed_steps" (ps_manifest s).
#[local] Instance same_completed_preorder : PreOrder same_completed.
Proof. split; [done|]. intros x y z H1 H2. unfold same_completed in *. congruence. Qed.
Lemma same_completed_keeps s s' : same_completed s s' -> keeps_recorded s s'.
Proof. intros H n (v & l & Hd & Hl). exists v, l. by rewrite H. Qed.

Lemma same_manifest {A} (m : M st A) :
  (forall s, ps_manifest (snd (m s)) = ps_manifest s) -> respects same_completed m.
Proof. intros H s. unfold same_completed. by rewrite H. Qed.

#[local] Instance completed_leaves : Leaves same_completed.
Proof.
  assert (forall cmd env, respects same_completed (_run ho cmd env)) as Hrun
    by (intros; apply same_manifest; by intros []).
  assert (forall e, respects same_completed (in_log (say e))) as Hsay
    by (intros; apply same_manifest; by intros []).
  assert (respects same_completed next_interaction) as Hnext
    by (intros; apply same_manifest; by intros []).
  constructor; try exact _; try done; try (intros; apply same_manifest; by intros []).
  - intros k v Hk [m f e l w r c]. unfold same_completed. simpl. by rewrite dget_dset_ne.
  - intros sw n. apply same_manifest. intros [m f e l w r c]. unfold in_log.
    by destruct (run_full_sweep _ _ _).
  - intros ss n. apply same_manifest. intros [m f e l w r c]. unfold in_net.
    by destruct (run_sweep _ _ _) as [? []].
  - intros cfg. unfold threat_config, threat_body, tampering_run, stop_process.
    repeat first [ apply Hrun | apply Hsay | apply Hnext | progress respects_tac ].
Qed.

Lemma step_same_completed n fn (s : st) :
  lookup_step n (STEPS ho) = Ok fn -> same_completed s (snd (fn s)).
Proof. intros Hl. apply (respects_steps same_completed n fn Hl). Qed.

(** Recording a step keeps the others, and records it when it returns. *)
Lemma completed_recorded n (s : st) :
  keeps_recorded s (snd (record_completed n s))
  /\ (fst (record_completed n s) = Ok tt -> recorded n (ps_manifest (snd (record_completed n s)))).
Proof.
  unfold record_completed.
  set (s1 := snd (setdefault_m "completed_steps" (VList []) s)).
  assert (setdefault_m "completed_steps" (VList []) s = (Ok tt, s1) /\ keeps_recorded s s1) as [Hr H1].
  { unfold s1, setdefault_m, bind, manifest, dmem.
    destruct (dget _ (ps_manifest s)) eqn:Hd; [by split|].
    split; [by destruct s|]. intros k (v & l & Hk & _). congruence. }
  rewrite (bind_Ok _ _ _ _ _ Hr). unfold bind, manifest, of_result, getitem, append_m.
  destruct (dget "completed_steps" (ps_manifest s1)) as [v|] eqn:Hd; [|by split].
  destruct (viter v) as [l|e] eqn:Hv; [|by split].
  destruct (existsb _ l) eqn:Hin; [by split; [|exists v, l]|].
  unfold bind, manifest, of_result, getitem. rewrite Hd.
  destruct v as [| | | | | |l0|]; try by split. injection Hv as ->.
  assert (forall k, existsb (fun v => val_eq_int v k) (l ++ [VInt n]) = true ->
    recorded k (ps_manifest (set_manifest (dset "completed_steps" (VList (l ++ [VInt n])) (ps_manifest s1)) s1)))
    as Hnew.
  { intros k Hk. exists (VList (l ++ [VInt n])), (l ++ [VInt n]). split; [|done].
    destruct s1. simpl. by rewrite dget_dset_eq. }
  split.
  - etrans; [exact H1|]. intros k (v & l' & Hk & Hl & He). apply Hnew.
    rewrite Hd in Hk. injection Hk as <-. injection Hl as <-. by rewrite existsb_app, He.
  - intros _. apply Hnew. rewrite existsb_app. simpl. by rewrite Z.eqb_refl, orb_true_r.
Qed.

Lemma attempt_run n fn (s : st) :
  lookup_step n (STEPS ho) = Ok fn ->
  keeps_recorded s (snd (attempt n fn s))
  /\ match fst (attempt n fn s) with
     | Ok failed => failed = false -> recorded n (ps_manifest (snd (attempt n fn s)))
     | Raise e => is_exception e = false
     end.
Proof.
  intros Hl. pose proof (same_completed_keeps _ _ (step_same_completed n fn s Hl)) as Hf.
  unfold attempt, bind. destruct (fn s) as [[[]|e] s1]; cbn [snd] in Hf.
  - destruct (completed_recorded n s1) as [Hk Hr].
    destruct (record_completed n s1) as [[[]|e] s2]; cbn [fst snd] in *.
    + split; [by etrans|]. intros _. by apply Hr.
    + split; [by etrans|]. by destruct (is_exception e) eqn:He.
  - cbn [fst snd]. split; [done|]. by destruct (is_exception e) eqn:He.
Qed.

Lemma lookup_known n : 1 <= n <= 21 -> exists fn, lookup_step n (STEPS ho) = Ok fn.
Proof.
  intros Hn. unfold STEPS. cbn [lookup_step].
  repeat (match goal with |- context [?k =? n] => destruct (Z.eqb_spec k n) end; [by eexists|]).
  lia.
Qed.

(** The end of a turn of the loop: the failed list noted and the manifest saved. *)
Definition saved (failed : list Z) (s1 : st) : st :=
  snd (_save_manifest (snd (set_m "failed_steps" (VList (map VInt failed)) s1))).
Lemma saved_same failed s1 : same_completed s1 (saved failed s1).
Proof.
  pose proof (lv_set (Leaves := completed_leaves) "failed_steps" (VList (map VInt failed)) ltac:(done) s1) as H.
  unfold saved. destruct (set_m _ _ s1) as [? []]. exact H.
Qed.

(** One turn of the loop. *)
Lemma run_steps_turn n rest failed fn s :
  lookup_step n (STEPS ho) = Ok fn ->
  run_steps ho (n :: rest) failed s
  = match attempt n fn s with
    | (Ok bad, s1) => let f1 := if bad then failed ++ [n] else failed in
                      run_steps ho rest f1 (saved f1 s1)
    | (Raise e, s1) => (Raise e, s1)
    end.
Proof.
  intros Hfn. cbn [run_steps]. unfold bind at 1, of_result. rewrite Hfn. unfold bind at 1.
  destruct (attempt n fn s) as [[bad|e] s1]; [|done]. by destruct s1.
Qed.

(** What a pass from [s] that gets to [s'] says of the steps it was given. *)
Record accounted (steps new failed : list Z) (s s' : st) : Prop := {
  ac_sublist : sublist new steps;
  ac_saved : (steps = [] /\ new = [] /\ s' = s) \/ ps_file s' = Some (ps_manifest s')
    /\ dget "failed_steps" (ps_manifest s') = Some (VList (map VInt failed));
  ac_each n : n ∈ steps -> n ∈ new \/ recorded n (ps_manifest s');
  ac_kept : keeps_recorded s s' }.

Lemma run_steps_accounted steps failed s :
  Forall (fun n => 1 <= n <= 21) steps ->
  match run_steps ho steps failed s with
  | (Ok failed', s') => exists new, failed' = failed ++ new /\ accounted steps new failed' s s'
  | (Raise e, _) => is_exception e = false
  end.
Proof.
  revert failed s; induction steps as [|n steps IH]; intros failed s Hs.
  { exists []. rewrite app_nil_r. split; [done|]. split; [constructor|by left|by intros n ?%elem_of_nil|done]. }
  apply Forall_cons in Hs as [Hn Hs]. destruct (lookup_known n Hn) as [fn Hfn].
  rewrite (run_steps_turn _ _ _ _ _ Hfn). destruct (attempt_run n fn s Hfn) as [Hk Ha].
  destruct (attempt n fn s) as [[bad|e] s1]; cbn [fst snd] in Ha, Hk; [|done]. cbv zeta.
  set (f1 := if bad then failed ++ [n] else failed). set (s2 := saved f1 s1).
  assert (keeps_recorded s1 s2) as Hk2 by apply same_completed_keeps, saved_same.
  specialize (IH f1 s2 Hs). destruct (run_steps ho steps f1 s2) as [[failed'|e] s3]; [|done].
  destruct IH as (new & -> & [Hsub Hsave Heach Hkept]).
  exists ((if bad then [n] else []) ++ new). split; [unfold f1; destruct bad; by rewrite <- ?app_assoc|].
  split.
  - destruct bad; simpl; by constructor.
  - right. destruct Hsave as [(-> & -> & ->)|H]; [|exact H].
    rewrite app_nil_r. unfold s2. destruct s1. simpl. by rewrite dget_dset_eq.
  - intros k [->|Hin]%elem_of_cons.
    + destruct bad; [left; by left|right]. by apply Hkept, Hk2, Ha.
    + destruct (Heach k Hin) as [H|H]; [left; apply elem_of_app; by right|by right].
  - etrans; [exact Hk|]. by etrans.
Qed.

(** *** Which steps failed, which completed *)

(** The completed steps of a manifest, and that its entry is a list if there is one. *)
Definition completed_steps (s : st) : list val :=
  match dget "completed_steps" (ps_manifest s) with Some (VList l) => l | _ => [] end.
Definition completed_is_list (s : st) : Prop :=
  match dget "completed_steps" (ps_manifest s) with None | Some (VList _) => True | _ => False end.
Definition add_once (l : list val) (n : Z) : list val :=
  if existsb (fun v => val_eq_int v n) l then l else l ++ [VInt n].

(** Whether step [n], started in [s], raises. *)
Definition raises (n : Z) (s : st) : bool :=
  match lookup_step n (STEPS ho) with
  | Ok fn => match fst (fn s) with Ok _ => false | Raise _ => true end
  | Raise _ => true
  end.
(** The state in which a pass from [s] starts step number [i] of [steps]. *)
Definition started (steps : list Z) (s : st) (i : nat) : st := snd (run_steps ho (firstn i steps) [] s).
(** The steps in order, each with whether it raised where the pass started it. *)
Definition outcomes (steps : list Z) (s : st) : list (Z * bool) :=
  imap (fun i n => (n, raises n (started steps s i))) steps.
Definition raised (o : list (Z * bool)) : list Z := map fst (List.filter snd o).
Definition returned (o : list (Z * bool)) : list Z := map fst (List.filter (fun x => negb (snd x)) o).
(** The pass is left at step [i], which raised [e] where it was started. *)
Definition left_at (steps : list Z) (s : st) (e : exn) : Prop :=
  exists i n fn, steps !! i = Some n /\ lookup_step n (STEPS ho) = Ok fn
    /\ (exists failed, fst (run_steps ho (firstn i steps) [] s) = Ok failed)
    /\ fst (fn (started steps s i)) = Raise e /\ is_exception e = false.

Lemma same_completed_list s s' :
  same_completed s s' -> completed_steps s' = completed_steps s /\ (completed_is_list s -> completed_is_list s').
Proof. unfold completed_steps, completed_is_list. by intros ->. Qed.

Lemma record_completed_run n (s : st) :
  completed_is_list s -> exists s', record_completed n s = (Ok tt, s')
    /\ dget "completed_steps" (ps_manifest s') = Some (VList (add_once (completed_steps s) n)).
Proof.
  intros Hs. set (l := completed_steps s).
  assert (exists s1, setdefault_m "completed_steps" (VList []) s = (Ok tt, s1)
            /\ dget "completed_steps" (ps_manifest s1) = Some (VList l)) as (s1 & Hr & Hd).
  { unfold l, completed_steps, completed_is_list, setdefault_m, bind, manifest, dmem in *.
    destruct (dget "completed_steps" (ps_manifest s)) as [v|] eqn:Hd.
    - exists s. destruct v; by rewrite ?Hd.
    - eexists. split; [reflexivity|]. destruct s. simpl. by rewrite dget_dset_eq. }
  unfold record_completed. rewrite (bind_Ok _ _ _ _ _ Hr).
  unfold bind, manifest, of_result, getitem. rewrite Hd. cbn [viter]. unfold add_once.
  destruct (existsb _ l); [by exists s1|].
  unfold append_m, bind, manifest, of_result, getitem. rewrite Hd.
  eexists. split; [reflexivity|]. destruct s1. simpl. by rewrite dget_dset_eq.
Qed.

Lemma attempt_outcome n fn (s : st) :
  lookup_step n (STEPS ho) = Ok fn -> completed_is_list s ->
  match attempt n fn s with
  | (Ok bad, s1) => bad = raises n s /\ completed_is_list s1
      /\ completed_steps s1 = (if bad then completed_steps s else add_once (completed_steps s) n)
  | (Raise e, _) => fst (fn s) = Raise e /\ is_exception e = false
  end.
Proof.
  intros Hl Hs. pose proof (step_same_completed n fn s Hl) as Hsame.
  unfold attempt, raises, bind. rewrite Hl. destruct (fn s) as [[[]|e] s1]; cbn [fst snd] in *.
  - destruct (same_completed_list _ _ Hsame) as [Hc Hi].
    destruct (record_completed_run n s1 (Hi Hs)) as (s2 & -> & Hd).
    unfold completed_is_list. unfold completed_steps at 1. rewrite Hd, <- Hc. done.
  - destruct (same_completed_list _ _ Hsame) as [Hc Hi].
    destruct (is_exception e) eqn:He; [|done]. split_and!; [done|by apply Hi|done].
Qed.

Lemma run_steps_app l1 l2 failed s :
  run_steps ho (l1 ++ l2) failed s = bind (run_steps ho l1 failed) (run_steps ho l2) s.
Proof.
  revert failed s; induction l1 as [|n l1 IH]; intros failed s; [done|]. cbn [app].
  unfold bind at 1. destruct (lookup_step n (STEPS ho)) as [fn|e] eqn:Hl.
  - rewrite !(run_steps_turn _ _ _ _ _ Hl). destruct (attempt n fn s) as [[bad|e] s1]; [|done].
    cbv zeta. rewrite IH. reflexivity.
  - cbn [run_steps]. unfold bind, of_result. by rewrite Hl.
Qed.

Lemma firstn_before (l : list Z) n i : (i <= length l)%nat -> firstn i (l ++ [n]) = firstn i l.
Proof. intros Hi. by rewrite take_app_le. Qed.

Lemma outcomes_snoc l n s :
  outcomes (l ++ [n]) s = outcomes l s ++ [(n, raises n (snd (run_steps ho l [] s)))].
Proof.
  unfold outcomes. rewrite imap_app. f_equal.
  - apply imap_ext. intros i m Hi%lookup_lt_Some. unfold started. by rewrite firstn_before by lia.
  - cbn. unfold started. by rewrite Nat.add_0_r, take_app_length.
Qed.
Lemma raised_app o1 o2 : raised (o1 ++ o2) = raised o1 ++ raised o2.
Proof. unfold raised. by rewrite List.filter_app, map_app. Qed.
Lemma returned_app o1 o2 : returned (o1 ++ o2) = returned o1 ++ returned o2.
Proof. unfold returned. by rewrite List.filter_app, map_app. Qed.

Lemma left_at_snoc l n s e : left_at l s e -> left_at (l ++ [n]) s e.
Proof.
  intros (i & k & fn & Hi & Hfn & Hrun & He). exists i, k, fn.
  pose proof (lookup_lt_Some _ _ _ Hi). unfold started in *.
  rewrite !firstn_before by lia. split; [by apply lookup_app_l_Some|done].
Qed.

Lemma run_steps_outcomes steps s :
  Forall (fun n => 1 <= n <= 21) steps -> completed_is_list s ->
  match run_steps ho steps [] s with
  | (Ok failed, s') => completed_is_list s' /\ failed = raised (outcomes steps s)
      /\ completed_steps s' = fold_left add_once (returned (outcomes steps s)) (completed_steps s)
  | (Raise e, _) => left_at steps s e
  end.
Proof.
  intros Hs Hc. induction steps as [|n l IH] using rev_ind; [done|].
  apply Forall_app in Hs as [Hl [Hn _]%Forall_cons]. specialize (IH Hl).
  rewrite run_steps_app, outcomes_snoc. unfold bind.
  destruct (run_steps ho l [] s) as [[failed|e] s1] eqn:Hrun; [|by apply left_at_snoc].
  destruct IH as (Hc1 & -> & Hcs), (lookup_known n Hn) as [fn Hfn].
  rewrite (run_steps_turn _ _ _ _ _ Hfn). pose proof (attempt_outcome n fn s1 Hfn Hc1) as Ha.
  destruct (attempt n fn s1) as [[bad|e] s2].
  - destruct Ha as (Hbad & Hc2 & Hcs2). cbn [run_steps ret snd]. cbv zeta.
    set (f1 := if bad then _ else _).
    destruct (same_completed_list _ _ (saved_same f1 s2)) as [Hsv Hsi].
    rewrite raised_app, returned_app, fold_left_app, <- Hcs, <- Hbad, Hsv, Hcs2.
    split; [by apply Hsi|]. unfold f1. destruct bad; by rewrite ?app_nil_r.
  - exists (length l), n, fn. unfold started. rewrite take_app_length, Hrun.
    split; [by rewrite list_lookup_middle|]. split; [done|]. split; [by eexists|done].
Qed.

(** C26: A pass goes on after a step that fails and accounts for every step.
    For steps among the 21 there are, whatever the sweeps and the commands do,
    the loop either returns -- then every step was run, a step that is not
    among the failed ones is recorded as completed, what was recorded before
    still is, and the manifest with both lists is in the file -- or it is left
    by [SystemExit], which no [except Exception] catches.  When the manifest's
    list of completed steps is a list or absent, the failed steps are, in
    order, exactly those whose function raised in the state the pass started
    it in, the list of completed steps grows by exactly the others, each once,
    in order, and a pass that is left is left at the step that raised the
    [SystemExit], the steps before it having been run. *)
Theorem pass_accounts_for_steps (steps : list Z) (s : st)
    (Hsteps : Forall (fun n => 1 <= n <= 21) steps) :
  match run_steps ho steps [] s with
  | (Ok failed, s') => accounted steps failed failed s s'
      /\ (completed_is_list s ->
           failed = raised (outcomes steps s)
           /\ completed_steps s' = fold_left add_once (returned (outcomes steps s)) (completed_steps s))
  | (Raise e, _) => is_exception e = false /\ (completed_is_list s -> left_at steps s e)
  end.
Proof.
  pose proof (run_steps_accounted steps [] s Hsteps) as H.
  pose proof (run_steps_outcomes steps s Hsteps) as Ho.
  destruct (run_steps ho steps [] s) as [[failed|e] s']; [|done].
  destruct H as (new & -> & H). split; [exact H|]. intros Hc. by destruct (Ho Hc) as (_ & Hf & Hcs).
Qed.

(** C25: Whatever fails, a pass calls [_stop_server] for every server and every
    proxy it starts, and between start and call there is at most one of each:
    over all its sweeps, streaming sweeps and threat experiments, also when the
    pass itself is left by an exception, the log of starts and stop calls is
    properly bracketed, provided the proxy of a concurrency sweep that is
    killed does stop. *)
Theorem pass_stops_everything (steps : list Z) (no_figures : bool) (s : st)
    (Hproxy : forall n k, stop_proxy (ho_sweep ho n) k = Ok tt) (Hlog : ps_log s = []) :
  after_log None (ps_log (snd (main ho steps no_figures s))) = Some None.
Proof.
  destruct (main_log Hproxy steps no_figures s) as (d & Hd & Ha). by rewrite Hd, Hlog.
Qed.

(** A number that is no step ends the pass, also for the steps after it:
    unlike a step that fails, it is not caught. *)
Lemma unknown_step_aborts n rest failed (s : st) :
  ~ 1 <= n <= 21 -> run_steps ho (n :: rest) failed s = (Raise (KeyError (pretty n)), s).
Proof.
  intros Hn. cbn [run_steps]. unfold STEPS. cbn [lookup_step].
  repeat (match goal with |- context [?k =? n] => destruct (Z.eqb_spec k n); [lia|] end). done.
Qed.

(** *** What the steps share *)
Abbreviation PROFILE := "PQ_SHIELD_PAYLOAD_PROFILE".

(** A sweep changes no manifest, and leaves its profile in the environment. *)
Lemma sweep_leaves k (s : st) :
  (exists nm, getitem (kw_network k) NETWORK_PROFILES = Ok nm) ->
  ps_manifest (snd (_sweep ho k s)) = ps_manifest s
  /\ dget PROFILE (ps_environ (snd (_sweep ho k s))) = Some (kw_profile k).
Proof.
  intros [nm Hnm]. destruct s as [m f e l w r c].
  unfold _sweep, sweep_environ, netem. cbn [sw_network_profile sweep_of].
  rewrite (bind_Ok _ _ _ c (mkPass m f e l w r (S c))) by reflexivity. rewrite Hnm.
  set (e' := dset PROFILE (kw_profile k) e).
  rewrite (bind_Ok _ _ _ tt (mkPass m f e' l w r (S c))) by reflexivity.
  unfold bind, in_log, of_result. destruct (run_full_sweep _ _ l) as [[cells|x] l'];
    [|by split; [|apply dget_dset_eq]].
  destruct (getitem_at cells 0); (split; [done|apply dget_dset_eq]).
Qed.

(** Every command run from here on gets the profile of the environment. *)
Definition runs_with (v : string) (s s' : st) : Prop :=
  dget PROFILE (ps_environ s) = Some v ->
  dget PROFILE (ps_environ s') = Some v
  /\ exists new, ps_runs s' = ps_runs s ++ new
     /\ Forall (fun c => dget PROFILE (snd c) = Some v) new.
#[local] Instance runs_with_preorder v : PreOrder (runs_with v).
Proof.
  split.
  - intros s H. split; [done|]. exists []. by rewrite app_nil_r.
  - intros x y z H1 H2 H. destruct (H1 H) as (Hy & n1 & E1 & F1). destruct (H2 Hy) as (Hz & n2 & E2 & F2).
    split; [done|]. exists (n1 ++ n2). rewrite E2, E1, app_assoc. split; [done|]. by apply Forall_app.
Qed.

Lemma same_runs v {A} (m : M st A) :
  (forall s, ps_environ (snd (m s)) = ps_environ s /\ ps_runs (snd (m s)) = ps_runs s) ->
  respects (runs_with v) m.
Proof. intros H s Hs. destruct (H s) as [-> ->]. split; [done|]. exists []. by rewrite app_nil_r. Qed.

Lemma run_runs_with v cmd : respects (runs_with v) (_run ho cmd []).
Proof.
  intros [m f e l w r c] H. split; [exact H|]. exists [(cmd, e)]. split; [done|]. by repeat constructor.
Qed.

#[local] Hint Resolve run_runs_with : respects.

Lemma threats_run_with v configs : respects (runs_with v) (step_threats ho configs).
Proof.
  unfold step_threats, threat_config, threat_body, tampering_run, stop_process.
  repeat first [ apply run_runs_with | apply same_runs; by intros [] | progress respects_tac ].
Qed.

Lemma for_each_snoc {A} (l : list A) x (body : A -> M st unit) s s' :
  for_each (l ++ [x]) body s = (Ok tt, s') -> exists s1, body x s1 = (Ok tt, s').
Proof.
  revert s; induction l as [|a l IH]; intros s H; cbn [app for_each] in H.
  - apply bind_inv_Ok in H as ([] & s1 & H1 & [= ->]). by exists s.
  - apply bind_inv_Ok in H as ([] & s1 & _ & H). by eapply IH.
Qed.

Lemma append_environ k v (s : st) : ps_environ (snd (append_m k v s)) = ps_environ s.
Proof.
  unfold append_m, bind, manifest, of_result. destruct (getitem k (ps_manifest s)) as [[]|]; try done.
  by destruct s.
Qed.

(** A series of sweeps leaves the profile of its last one. *)
Lemma series_leaves {A} k (l : list A) x kw_of (s s' : st) :
  (exists nm, getitem (kw_network (kw_of x)) NETWORK_PROFILES = Ok nm) ->
  sweep_series ho k (l ++ [x]) kw_of s = (Ok tt, s') ->
  dget PROFILE (ps_environ s') = Some (kw_profile (kw_of x)).
Proof.
  intros Hnet H. unfold sweep_series in H. apply bind_inv_Ok in H as ([] & s1 & _ & H).
  apply for_each_snoc in H as (s2 & H). apply bind_inv_Ok in H as (id & s3 & Hs & H).
  destruct (sweep_leaves (kw_of x) s2 Hnet) as [_ He]. rewrite Hs in He. simpl in He.
  apply bind_inv_Ok in H as ([] & s4 & Ha & H). pose proof (append_environ k id s3) as Hae.
  rewrite Ha in Hae. destruct s4. injection H as <-. simpl in *. by rewrite Hae.
Qed.

(** The steps are not independent: the payload sweep leaves its last profile
    in the environment, and every command of a threat step run after it -- the
    capture and both tampering experiments of every configuration -- gets it,
    where the same step after the network sweep gets the default profile. *)
Theorem threats_follow_last_sweep (configs : option (list string)) (s s1 : st) :
  let profile := fun s' => exists new, ps_runs s' = ps_runs s1 ++ new
      /\ Forall (fun c => dget PROFILE (snd c) = Some "llm_completion") new in
  let default := fun s' => exists new, ps_runs s' = ps_runs s1 ++ new
      /\ Forall (fun c => dget PROFILE (snd c) = Some "tabular_small") new in
  (step_payload ho s = (Ok tt, s1) -> profile (snd (step_threats ho configs s1)))
  /\ (step_network ho s = (Ok tt, s1) -> default (snd (step_threats ho configs s1))).
Proof.
  split; intros H.
  - apply (series_leaves _ ["tabular_small"; "image_cnn"; "embedding"] "llm_completion") in H;
      [|by eexists].
    exact (proj2 (threats_run_with _ configs s1 H)).
  - apply (series_leaves _ ["localhost"; "metro"; "wan"] "mobile") in H;
      [|by eexists].
    exact (proj2 (threats_run_with _ configs s1 H)).
Qed.

(** A step that is run again and fails at its first sweep stays recorded as
    completed, is listed as failed, and the runs it had in the manifest are
    gone, also from the file. *)
Theorem failed_rerun_loses_runs (s s1 : st) (e : exn)
    (Hdone : recorded 3 (ps_manifest s)) (He : is_exception e = true)
    (Hfail : _sweep ho (with_profile "tabular_small" (kw ALL_CONFIGS [10] 5 10 100))
               (snd (set_m "payload" (VList []) s)) = (Raise e, s1)) :
  exists s', run_steps ho [3] [] s = (Ok [3], s') /\ ps_file s' = Some (ps_manifest s')
    /\ recorded 3 (ps_manifest s')
    /\ dget "payload" (ps_manifest s') = Some (VList [])
    /\ dget "failed_steps" (ps_manifest s') = Some (VList [VInt 3]).
Proof.
  pose proof (run_steps_accounted [3] [] s ltac:(by repeat constructor)) as Hacc.
  assert (step_payload ho s = (Raise e, s1)) as Hstep.
  { unfold step_payload, sweep_series, PROFILES. cbn [for_each].
    rewrite (bind_Ok _ _ _ tt (snd (set_m "payload" (VList []) s))) by (by destruct s).
    apply bind_Raise, bind_Raise. exact Hfail. }
  assert (ps_manifest s1 = dset "payload" (VList []) (ps_manifest s)) as Hm.
  { destruct (sweep_leaves (with_profile "tabular_small" (kw ALL_CONFIGS [10] 5 10 100))
                (snd (set_m "payload" (VList []) s)) ltac:(by eexists)) as [Hm _].
    rewrite Hfail in Hm. simpl in Hm. rewrite Hm. by destruct s. }
  assert (run_steps ho [3] [] s = (Ok [3], snd (_save_manifest (snd (set_m "failed_steps" (VList [VInt 3]) s1)))))
    as Hrun.
  { cbn [run_steps]. unfold bind at 1. cbn [STEPS lookup_step of_result Z.eqb Pos.eqb].
    assert (attempt 3 (step_payload ho) s = (Ok true, s1)) as Ha.
    { unfold attempt. rewrite (bind_Raise _ _ _ _ _ Hstep), He. done. }
    rewrite (bind_Ok _ _ _ _ _ Ha). by destruct s1. }
  rewrite Hrun in Hacc |- *. destruct Hacc as (new & Hnew & [_ [(Hn & _)|[Hf Hfs]] _ Hk]); [done|].
  eexists. split; [reflexivity|]. split; [exact Hf|]. split; [by apply Hk|].
  split; [|exact Hfs]. destruct s1. simpl in *. subst. by rewrite dget_dset_ne, dget_dset_eq by done.
Qed.
End Pass.
