(* ===== verification/ValidationWitness.v ===== *)
(** * The validation suite at concrete inputs *)
From stdpp Require Import gmap.
From S2P Require Import Prelude PyBytes Sha256 PyVal World PyList OqsAdapter KatVectors NistKat.
From S2P Require Import Base Configs ConfigsLaws Toy ConfigsProps Conformance.
From S2P Require Import Aggregate PrimitiveBench PrimitiveBenchProps.

#[local] Existing Instances toy_env toy_prims.

(** One vector of each suite; the signing vectors are one deterministic and
    one hedged. *)
Definition toy_vectors : vectors := {|
  v_keygen := [mkKeyGenVector (VInt 1) (encode "d") (encode "z") (encode "ek") (encode "dk")];
  v_encaps := [mkEncapsVector (VInt 2) (encode "ek") (encode "m") (encode "c") (encode "k")];
  v_decaps := [mkDecapsVector (VInt 3) (encode "dk") (encode "c") (encode "k") (VStr "modified ciphertext")];
  v_sigver := [mkSigVerVector (VInt 4) (encode "pk") (encode "m") [] (encode "s") true (VStr "")];
  v_dsa_keygen := [mkDSAKeyGenVector (VInt 5) (encode "xi") (encode "pk") (encode "sk")];
  v_siggen := [mkSigGenVector (VInt 6) true (encode "sk") (encode "m") [] (replicate 32 Byte.x00) (encode "s");
               mkSigGenVector (VInt 7) false (encode "sk") (encode "m") [] (encode "r") (encode "s")] |}.

Lemma toy_vectors_zero :
  Forall (fun v => sg_deterministic v = true -> sg_rnd v = replicate 32 Byte.x00) (v_siggen toy_vectors).
Proof. by repeat constructor. Qed.

Lemma vector_files_roundtrip_witness :
  loaded (files toy_vectors) toy_vectors.
Proof. exact (vector_files_roundtrip toy_vectors toy_vectors_zero). Defined.

(** These vectors load and the key generation vector is too short. *)
Lemma toy_vectors_load : loaded (files toy_vectors) toy_vectors.
Proof. split_and!; eexists; vm_compute; reflexivity. Qed.

(** A forged signature, refused as the vector expects. *)
Definition refused_vector : vectors := {|
  v_keygen := []; v_encaps := []; v_decaps := [];
  v_sigver := [mkSigVerVector (VInt 1) (replicate 1952 Byte.x01) (encode "m") [] (encode "forged") false
                 (VStr "modified signature")];
  v_dsa_keygen := []; v_siggen := [] |}.
Lemma refused_vector_loads : loaded (files refused_vector) refused_vector.
Proof. split_and!; eexists; vm_compute; reflexivity. Qed.
Lemma refused_vector_reproduced : reproduced (P := toy_prims) refused_vector.
Proof.
  split_and!; try constructor; [|constructor]. split_and!; [done|vm_compute; lia|].
  split; [|done]. vm_compute. discriminate.
Qed.

Lemma kat_report_decides_witness :
  (exists report, fst (NistKat.run_all (E := toy_env) (P := toy_prims) (files refused_vector) world0)
                  = Ok report /\ summary_at "all_passed" report = Ok (VBool true))
  /\ (exists w', snd (NistKat.run_all (E := toy_env) (P := toy_prims) (files toy_vectors) world0) = w'
    /\ oqs_rng w' = SystemRng)
  /\ ~ exists report, fst (NistKat.run_all (E := toy_env) (P := toy_prims) (files toy_vectors) world0)
                      = Ok report /\ summary_at "all_passed" report = Ok (VBool true).
Proof.
  split.
  { destruct (kat_report_decides (E := toy_env) (P := toy_prims) (files refused_vector) refused_vector
                refused_vector_loads ltac:(constructor) world0 eq_refl) as (r & w' & -> & _ & Hiff & _).
    exact (proj1 Hiff refused_vector_reproduced). }
  destruct (kat_report_decides (E := toy_env) (P := toy_prims) (files toy_vectors) toy_vectors
              toy_vectors_load ltac:(by repeat constructor; eexists) world0 eq_refl)
    as (r & w' & -> & Hw & Hiff & _). cbn [fst snd]. split; [by exists w'|].
  intros Hrep. apply Hiff in Hrep as [Hk _]. apply Forall_cons in Hk as [[Hl _] _].
  vm_compute in Hl. discriminate.
Defined.

Lemma conformance_report_witness :
  exists report w', Conformance.run_all (E := toy_env) (P := toy_prims) world0 = (Ok report, w')
    /\ (let? d := getitem "standard_version_drift" report in vitem "matches_superseded_round3" d)
       = Ok (VBool false).
Proof.
  destruct (conformance_report (E := toy_env) (P := toy_prims) world0)
    as (report & w' & sig & sig2 & pk & a & b & c & d & e & f & H & _ & _ & Hs & _).
  exists report, w'. split; [exact H|exact Hs].
Defined.

(** Five readings of the clock. *)
Lemma time_op_statistics_witness :
  exists st w', _time_op (E := toy_env) (fun q => q) (ret tt) 5 10 world0 = (Ok st, w')
    /\ (median_us st <= p95_us st)%Q.
Proof.
  destruct (proj2 (time_op_statistics (E := toy_env) (fun q => q) (ret tt) 5 10 world0
              ltac:(by intros w r w' [= _ <-]) ltac:(by intros w; eexists _, _))) as (st & w' & H & _ & Ho);
    [done|].
  exists st, w'. split; [exact H|]. destruct Ho as (_ & _ & _ & Hp & _). by apply Hp.
Defined.

Lemma contention_rows_witness :
  exists rows w', _measure (E := toy_env) (P := toy_prims) (ret tt) "full_pqc" 3 "idle" false world0
    = (Ok rows, w') /\ map ct_i rows = [0; 1; 2].
Proof.
  destruct (contention_rows (E := toy_env) (P := toy_prims) (ret tt) "full_pqc" "idle" toy_config 3
              false world0 eq_refl ltac:(by intros w; eexists)) as (rows & w' & H & _ & Hi).
  exists rows, w'. split; [exact H|exact Hi].
Defined.

(** ** The cost model at concrete inputs

    Streams of a toy server whose signatures are 71 bytes long, and the rows
    and the benchmark file they are checked against. *)
From S2P Require Import PyNum SignatureModel Streaming SecureApp StreamingHonest Hndl HndlProps.
From S2P Require Import SignatureModelProps StreamingWitness.

#[local] Existing Instances toy_env toy_prims toy_json.

Definition live_state : ClassicalECDHE._HandshakeState (P := toy_prims) :=
  ClassicalECDHE.mkState (P := toy_prims) (b32_of (be_bytes 32 0)) ec_key.
Definition live_table : gmap string (ClassicalECDHE._HandshakeState (P := toy_prims)) :=
  {[hid := live_state]}.
Definition live_kpk : bytes := _x25519_raw (x25519_generate 0).

Lemma live_table_live : live (ConfigLaws := ecdhe_laws) live_table hid live_kpk spk.
Proof.
  exists live_state. split; [apply lookup_singleton_eq|].
  split_and!; [by exists 0%nat|done|done].
Qed.

Lemma run_to {Σ A} (m : M Σ A) σ a : fst (m σ) = Ok a -> m σ = (Ok a, snd (m σ)).
Proof. destruct (m σ). by simpl; intros ->. Qed.

Definition model_texts : list string := ["He"; "y"; "!"].
Definition chain_rows : list dict :=
  Eval vm_compute in
    match fst (stream_rows (HashChain (Srv := ClassicalECDHE.ClassicalECDHEServerCrypto)) model_texts
                 ((world0, live_table), new_hash_chain hid skey (interval_val (Some 2)))) with
    | Ok rows => rows | Raise _ => [] end.

Lemma chain_rows_emitted :
  emits (Srv := ClassicalECDHE.ClassicalECDHEServerCrypto) live_table hid skey world0 model_texts
    "hash_chain" (Some 2) 3 chain_rows.
Proof. eapply emits_hash_chain, run_to. vm_compute. reflexivity. Qed.


Definition stats (mean median p99 : Q) : val :=
  VDict [("mean_us", VFloat mean); ("median_us", VFloat median); ("p99_us", VFloat p99)].
Definition bench_file : dict :=
  [("classical", VDict [("ecdsa_p256_sign", stats 20 18 36)]);
   ("cold_start_signing",
    VDict [("ecdsa_p256_sign", VDict [("mean_ms", VFloat 8); ("max_ms", VFloat 9)])])].

Lemma honest_row_bytes_ok_witness :
  exists v, validate_row (benchmark_row "classical_ecdhe" "hash_chain" 3 (Some 2)
                            (recorded_bytes chain_rows) (1 # 20)) bench_file = Ok v
    /\ va_expected_signatures v = 2 /\ va_measured_bytes v = 142 /\ va_bytes_ok v = true.
Proof.
  exact (honest_row_bytes_ok "classical_ecdhe" ecdhe ecdhe_laws live_table hid live_kpk spk skey
           world0 model_texts "hash_chain" (Some 2) 3 chain_rows bench_file (1 # 20) 20 (36 / 18)
           (Some (8%Q, (3 # 2)%Q)) eq_refl live_table_live eq_refl eq_refl chain_rows_emitted
           ltac:(done)
           ltac:(repeat (constructor; [right; split; [reflexivity|by split]|]); constructor)
           ltac:(reflexivity) ltac:(done) ltac:(reflexivity)).
Defined.

Lemma report_partitions_rows_witness :
  exists r, run_validation [benchmark_row "classical_ecdhe" "hash_chain" 3 (Some 2) 142 (1 # 20);
                            benchmark_row "hybrid" "buffer_and_sign" 0 None 71 (1 # 20)]
              bench_file = Ok r
    /\ su_total_rows (vn_summary r) = su_excluded_error_rows (vn_summary r) + 2
    /\ su_bytes_all_ok (vn_summary r) = forallb va_bytes_ok (vn_rows r).
Proof.
  eexists. split; [vm_compute; reflexivity|].
  edestruct (report_partitions_rows
    [benchmark_row "classical_ecdhe" "hash_chain" 3 (Some 2) 142 (1 # 20);
     benchmark_row "hybrid" "buffer_and_sign" 0 None 71 (1 # 20)] bench_file)
    as (Ht & Hn & _ & _ & _ & _ & _ & Hb & _); [vm_compute; reflexivity|].
  split; [rewrite Ht, Hn; reflexivity|exact Hb].
Defined.
