(* ===== verification/SweepWitness.v ===== *)
(** * A cell of two workers and three requests

    A schedule that interleaves the workers, run on a server that answers
    every request. *)
From stdpp Require Import gmap.
From S2P Require Import Prelude PyBytes PyVal World PyList Base Configs Toy Http.
From S2P Require Import SecureClient SweepCell SweepCellProps NetemProxy Orchestrator OrchestratorProps.
From S2P Require Import StreamingRunner SecureApp AppServer StreamingWitness ValidationWitness.

#[local] Existing Instances toy_env toy_prims toy_json.

Definition answer_response : response :=
  mkResponse 200 (Ok (VDict [("prediction", VInt 7)])) "" [] None.
#[local] Instance answering : Transport unit := {|
  http_get _ := ret answer_response; http_post _ _ _ := ret answer_response |}.

Definition small_cell : cell :=
  mkCell "http://s" "control" 2 3 1 false "run" 1 false "tabular_small" (ret []).

(** The workers in the order they move. *)
Fixpoint run_schedule (p : prepared) (order : list nat) (s : cell_state) : option (cell_state (N := unit)) :=
  match order with
  | [] => Some s
  | i :: rest => match worker_step small_cell p i s with
                 | Some s' => run_schedule p rest s'
                 | None => None
                 end
  end.

Lemma run_schedule_steps p order s s' :
  run_schedule p order s = Some s' -> cell_steps small_cell p (length order) s s'.
Proof.
  revert s; induction order as [|i rest IH]; intros s H; simpl in H.
  - injection H as ->. constructor.
  - destruct (worker_step small_cell p i s) as [s1|] eqn:Hs; [|done].
    eapply steps_more; [by eapply cell_step_worker|]. by apply IH.
Qed.

Lemma steps_reachable p k s0 s s' :
  cell_reachable small_cell p s0 s -> cell_steps small_cell p k s s' ->
  cell_reachable small_cell p s0 s'.
Proof. intros H Hk. induction Hk as [|k s s1 s2 Hst _ IH]; [done|]. by eapply IH, cell_next. Qed.

Definition order : list nat := [0; 1; 1; 0; 1; 0; 0; 1; 0; 0; 0]%nat.
Definition no_prep : prepared := mkPrepared None None.
Definition final_state : cell_state (N := unit) :=
  match run_schedule no_prep order (cell_init small_cell (world0, tt)) with
  | Some s => s | None => cell_init small_cell (world0, tt) end.

Lemma schedule_runs : run_schedule no_prep order (cell_init small_cell (world0, tt)) = Some final_state.
Proof. unfold final_state. destruct (run_schedule _ _ _) eqn:H; [done|]. by vm_compute in H. Qed.

Lemma sweep_cell_rows_witness :
  Permutation (map index_of (cs_results final_state)) [0; 1; 2]
  /\ Forall (row_ok small_cell) (cs_results final_state).
Proof.
  apply (sweep_cell_rows small_cell (world0, tt) (cs_env final_state) (cs_results final_state)
           ltac:(done) ltac:(done)).
  exists no_prep, (world0, tt), final_state. split; [reflexivity|]. split; [|split; [|done]].
  - eapply steps_reachable; [apply cell_start|]. apply run_schedule_steps, schedule_runs.
  - unfold gathered. assert (cs_workers final_state = [Done; Done]) as -> by (vm_compute; reflexivity).
    repeat constructor.
Defined.

Lemma sweep_cell_ends_witness : Z.of_nat (length order) <= 3 * 3 + 2.
Proof.
  exact (proj1 (sweep_cell_ends small_cell no_prep (world0, tt) (length order) final_state
    ltac:(done) (run_schedule_steps _ _ _ _ schedule_runs))).
Defined.

(** ** A sweep of two configurations *)
Definition two_configs (configs : list string) (profile : string) : sweep :=
  mkSweep configs [10] 2 10 0 "raw" "sums" "tabular_small" profile 1 false "run" 8000.
(** The first poll is answered; the server of ["hybrid"] never is. *)
Definition polls_of (up : bool) : Q * (nat -> Q * result Z) :=
  (0%Q, fun k => ((inject_Z (Z.of_nat k) * poll_interval)%Q,
                  if up then Ok 200 else Raise (RuntimeError "refused"))).
Definition lab : surroundings :=
  mkSurroundings (fun k => polls_of (negb (String.eqb k "hybrid"))) (fun _ => polls_of true)
    (fun _ _ _ _ => Ok ([[("error", VNone)]], 1%Q, []))
    (fun _ => (fun _ => true, fun _ => true))
    (fun _ => (fun _ => true, fun s => match s with SIGTERM => false | SIGKILL => true end)) [].

Definition swept : list dict :=
  match fst (run_full_sweep (two_configs ["control"; "classical"] "wan") lab []) with
  | Ok all => all | Raise _ => [] end.
Definition swept_log : log := snd (run_full_sweep (two_configs ["control"; "classical"] "wan") lab []).

Lemma sweep_runs :
  run_full_sweep (two_configs ["control"; "classical"] "wan") lab [] = (Ok swept, swept_log).
Proof. vm_compute. reflexivity. Qed.

Lemma sweep_writes_every_cell_witness :
  length swept = 4%nat /\ length (files swept_log) = 5%nat.
Proof.
  destruct (sweep_writes_every_cell _ lab swept swept_log sweep_runs) as (Hf & Hl & _).
  split; [exact Hl|]. rewrite Hf, length_app, length_map, <- Hl. reflexivity.
Defined.

(** The second server never answers: it is stopped all the same. *)
Lemma sweep_stops_servers_witness :
  (forall k, stop_proxy lab k = Ok tt)
  /\ (exists e, fst (run_full_sweep (two_configs ["control"; "hybrid"] "wan") lab []) = Raise e)
  /\ after_log None (snd (run_full_sweep (two_configs ["control"; "hybrid"] "wan") lab [])) = Some None.
Proof.
  split; [intros k; reflexivity|]. split; [eexists; vm_compute; reflexivity|].
  apply sweep_stops_servers. intros k. reflexivity.
Defined.

Lemma wait_healthy_decides_witness :
  (forall k, (0 + inject_Z (Z.of_nat k) * poll_interval <= fst (snd (polls_of false) k))%Q)
  /\ exists r, _wait_healthy "http://s" (snd (polls_of false)) 0 = Some r.
Proof.
  assert (forall k, (0 + inject_Z (Z.of_nat k) * poll_interval
                     <= fst (snd (polls_of false) k))%Q) as H.
  { intros k. rewrite Qplus_0_l. apply Qle_refl. }
  split; [exact H|].
  destruct (wait_healthy_decides (snd (polls_of false)) "http://s" 0 H) as (r & Hr & _). by exists r.
Defined.

(** ** A streaming sweep against the secure application

    Each server start empties the tables of the application. *)
Definition tiny_sweep : stream_sweep :=
  mkStreamSweep ["classical-ecdhe"] ["per_chunk"; "hash_chain"] [16] [1] 1 8000 "out" "sums" 0
    (Some 7) (Some [Some 1]) "run" "synthetic".
#[local] Instance app : Transport (cfg_state ecdhe * gmap string bytes) :=
  app_transport (Srv := cfg_server ecdhe) (fun _ => ret []) (Ok (fun _ _ => (["Hi"], None)))
    None "http://127.0.0.1:8000".
Definition tiny_lab : stream_surroundings :=
  mkStreamSurroundings (fun _ σ => (fst σ, app_init (Srv := cfg_server ecdhe)))
    (fun _ => polls_of true) (fun _ => (fun _ => true, fun _ => true)) (fun _ _ l => rev l)
    (fun _ _ _ => []).
Definition tiny_start : log * (world * (cfg_state ecdhe * gmap string bytes)) :=
  ([], (world0, app_init (Srv := cfg_server ecdhe))).
Definition tiny_rows : list dict :=
  Eval vm_compute in match fst (run_sweep tiny_sweep tiny_lab tiny_start) with
                     | Ok l => l | Raise _ => [] end.

Lemma tiny_run : fst (run_sweep tiny_sweep tiny_lab tiny_start) = Ok tiny_rows.
Proof. vm_compute. reflexivity. Qed.

Lemma stream_sweep_rows_witness :
  (forall seed key l, Permutation (sx_shuffled tiny_lab seed key l) l)
  /\ length tiny_rows = 2%nat
  /\ Forall2 (row_describes tiny_sweep) (plan_with tiny_sweep (StreamingRunner.order tiny_sweep tiny_lab)) tiny_rows.
Proof.
  assert (forall seed key l, Permutation (sx_shuffled tiny_lab seed key l) l) as Hs.
  { intros seed key l. symmetry. apply Permutation_rev. }
  split; [exact Hs|]. split; [reflexivity|].
  exact (proj1 (stream_sweep_rows tiny_sweep tiny_lab tiny_start tiny_rows _ Hs
                  (run_to _ _ _ tiny_run))).
Defined.

(** ** A pass over the paper's experiments

    The server of the hybrid configuration never answers in this laboratory,
    so every sweep with it fails. *)
From S2P Require Import PaperRuns PaperRunsProps.

Definition toy_host : host := {|
  ho_repo_root := "/repo"; ho_python_bin := "python";
  ho_run _ cmd _ := if existsb (String.eqb "validation.primitive_bench") cmd
                    then Raise (LibraryError "CalledProcessError") else Ok tt;
  ho_strftime n := "t" +:+ pretty.pretty n;
  ho_sweep _ := lab; ho_stream _ := tiny_lab;
  ho_polls _ := polls_of true; ho_group _ := (fun _ => true, fun _ => true);
  ho_environment _ := Ok []; ho_archive _ := Ok "archive" |}.
Definition toy_pass : pass := mkPass [] (Some []) [] [] (world0, app_init (Srv := cfg_server ecdhe)) [] 0.

Lemma pass_accounts_for_steps_witness :
  Forall (fun n => 1 <= n <= 21) [13; 1; 3; 19]
  /\ outcomes toy_host [13; 1; 3; 19] toy_pass = [(13, false); (1, true); (3, true); (19, false)]
  /\ fst (run_steps toy_host [13; 1; 3; 19] [] toy_pass) = Ok [1; 3]
  /\ dget "failed_steps" (ps_manifest (snd (run_steps toy_host [13; 1; 3; 19] [] toy_pass)))
     = Some (VList [VInt 1; VInt 3])
  /\ completed_steps (snd (run_steps toy_host [13; 1; 3; 19] [] toy_pass)) = [VInt 13; VInt 19].
Proof.
  assert (Forall (fun n => 1 <= n <= 21) [13; 1; 3; 19]) as Hs by (repeat constructor; lia).
  assert (outcomes toy_host [13; 1; 3; 19] toy_pass
          = [(13, false); (1, true); (3, true); (19, false)]) as Ho by (vm_compute; reflexivity).
  split; [exact Hs|]. split; [exact Ho|].
  pose proof (pass_accounts_for_steps toy_host [13; 1; 3; 19] toy_pass Hs) as H.
  destruct (run_steps toy_host [13; 1; 3; 19] [] toy_pass) as [[failed|e] s'] eqn:Hr.
  - destruct H as [[_ [(Hn & _)|[_ Hf]] _ _] H]; [done|]. destruct (H I) as [Hfailed Hc].
    rewrite Ho in Hfailed, Hc. subst failed. split; [done|]. split; [exact Hf|exact Hc].
  - apply (f_equal fst) in Hr. vm_compute in Hr. discriminate.
Defined.

Lemma pass_stops_everything_witness :
  (forall n k, stop_proxy (ho_sweep toy_host n) k = Ok tt)
  /\ ps_log toy_pass = []
  /\ after_log None (ps_log (snd (main toy_host [4; 5; 6] true toy_pass))) = Some None.
Proof.
  split; [intros n k; reflexivity|]. split; [reflexivity|].
  apply pass_stops_everything; [intros n k; reflexivity|reflexivity].
Defined.

(** ** The services at concrete inputs *)
From S2P Require Import Sha256 PyNum Backends Profiles ControlServer Streaming StreamingClient.
From S2P Require Import StreamingTransaction.

#[local] Existing Instances toy_env toy_prims toy_json.

(** A linear congruential generator. *)
#[export] Instance toy_rng : NumpyRng Z := {|
  default_rng seed := seed mod 2 ^ 31;
  integers lo hi r := (lo + (r / 2 ^ 16) mod (hi - lo), (r * 1103515245 + 12345) mod 2 ^ 31);
  normal n r := (replicate n 1%Q, r) |}.
#[export] Instance toy_rng_laws : NumpyRngLaws toy_rng.
Proof.
  constructor; simpl.
  - intros lo hi r H. pose proof (Z.mod_pos_bound (r / 2 ^ 16) (hi - lo)). lia.
  - intros n r. apply length_replicate.
Qed.

Definition ask : dict := [("prompt", VStr "q"); ("max_tokens", VInt 3)].

Lemma llm_completion_bounds_witness :
  (exists text words, 15 <= str_len text <= 29 /\ Forall (fun w => w ∈ LLM_WORD_BANK) words
    /\ exists ms w', llm_predict (E := toy_env) (NR := toy_rng) ask world0
       = (Ok [("completion", VStr text); ("tokens_generated", VInt (py_len words));
              ("_inference_ms", VFloat ms)], w'))
  /\ exists w', llm_predict (E := toy_env) (NR := toy_rng) [("max_tokens", VInt 0)] world0
       = (Raise (IndexError "string index out of range"), w').
Proof.
  split.
  - destruct (proj2 (llm_completion_bounds (E := toy_env) (NRL := toy_rng_laws) "q" ask 3
                       eq_refl eq_refl)) as (text & words & Hl & Hw & Hr); [lia|].
    exists text, words. split; [exact Hl|]. split; [exact Hw|]. apply Hr.
  - apply (proj1 (llm_completion_bounds (E := toy_env) (NRL := toy_rng_laws) ""
                    [("max_tokens", VInt 0)] 0 eq_refl eq_refl)). lia.
Defined.

Definition toy_libs : ModelLibs unit unit := {|
  llama_cpp_installed := false; transformers_installed := true; isfile _ := false;
  Llama _ _ _ _ := Ok tt; llama_texts _ _ _ := []; from_pretrained _ _ := Ok tt;
  streamer_texts _ _ _ := [] |}.

(** Asking for the synthetic backend once transformers is there. *)
Lemma backend_registry_caches_witness :
  exists b, fst (get_backend (ML := toy_libs) (Some "transformers") [] None) = Ok b
    /\ get_backend (ML := toy_libs) (Some "synthetic") [] (Some b) = (Ok b, Some b).
Proof.
  eexists. split; [reflexivity|].
  exact (proj1 (proj2 (backend_registry_caches (ML := toy_libs) [] (Some "transformers")
                         (Transformers tt) None (Some (Transformers tt)) eq_refl))
           (Some "synthetic") []).
Defined.

Definition toy_numerics : Numerics (R := Z) := {|
  linalg_norm _ := 1%Q; round6 q := q; np_floats _ := Ok [1%Q];
  forest_predict _ := Ok (7, [(1 # 2)%Q; (1 # 2)%Q]); model_file := true; digits_row _ := [1%Q];
  cnn_forward _ _ := Ok [1%Q]; sample_image r := ([], r) |}.

Definition digits_cell : SweepCell.cell :=
  mkCell "http://s" "control_2rt" 1 1 1 false "run" 1 false "tabular_small"
    (ret [("input", VList [VInt 1])]).
Definition service0 : registry (R := Z) := mkRegistry [] [].

Lemma control_transaction_served_witness :
  exists row w', _control_transaction
      (TR := control_transport (E := toy_env) (NR := toy_rng) (NU := toy_numerics) "http://s")
      digits_cell "http://s" true (world0, service0)
    = (Ok row, (w', mkRegistry [] [("tabular_small", TabularSmallProfile true)]))
    /\ dget "prediction" row = Some (VInt 7).
Proof.
  destruct (control_transaction_served (E := toy_env) (NR := toy_rng) (NU := toy_numerics)
              "http://s" [("input", VList [VInt 1])]
              [("prediction", VInt 7); ("probabilities", VList [VFloat (1 # 2); VFloat (1 # 2)])]
              service0 (mkRegistry [] [("tabular_small", TabularSmallProfile true)])
              ltac:(intros w; eexists _, _; reflexivity) eq_refl digits_cell true world0 world0
              eq_refl eq_refl) as (row & w' & Hr & _ & _ & Hp & _).
  exists row, w'. split; [exact Hr|exact Hp].
Defined.

(** Three words for the prompt, through the classical configuration. *)
Lemma synthetic_stream_transaction_witness :
  exists (tokens : list string) m w' s',
    List.length tokens = 3%nat
    /\ run_streaming_transaction
         (TR := app_transport (Srv := cfg_server ecdhe) (fun _ => ret [])
                  (Ok (synthetic_source (NR := toy_rng) (mkSynthetic 30))) None "http://s")
         "http://s" "classical_ecdhe" "q" "hash_chain" 2 3 (Some 1)
         (world0, (server_init (ServerCryptoConfig := cfg_server ecdhe), ∅)) = (Ok m, (w', (s', ∅)))
    /\ m_stream_fully_verified m = Some true.
Proof.
  destruct (synthetic_stream_transaction (NRL := toy_rng_laws) "http://s" "q" 3 ltac:(lia))
    as (tokens & Hlen & _ & _ & Hrun).
  destruct (Hrun "classical_ecdhe" ecdhe "hash_chain" 2 (Some 1) (mkSynthetic 30) (fun _ => ret [])
              world0 (server_init (ServerCryptoConfig := cfg_server ecdhe)) ∅)
    as (m & w' & s' & Hr & _ & Hv & _); [reflexivity|strategy_name|].
  exists tokens, m, w', s'. split; [lia|]. split; [exact Hr|exact Hv].
Defined.
