(* ===== verification/LiveDemo.v ===== *)
(** * The demonstration transactions ([webapp/demo_transaction.py])

    What the dashboard's pages run: a control request, a protected request
    whose response may be tampered with before it is checked, and a stream
    whose records may be attacked one by one as they arrive.  The live stream
    is a generator; here it is the list of events it yields. *)
From stdpp Require Import pretty.
From S2P Require Import Prelude PyBytes Sha256 PyVal World Instrumentation Aead Base Configs.
From S2P Require Import Streaming Http SecureClient StreamingClient Replay KeySubstitution Mitm.

Section Rows.
Context {E : Env} {P : Prims} {J : Json} {N : Type} {TR : Transport N}.

(** The world, the network and the [row] under construction. *)
Abbreviation demo_state := ((world * N) * dict)%type.
Definition put_row (k : string) (v : val) : M demo_state unit := on_snd (modify (dset k v)).
Definition clock : M demo_state Q := on_fst (on_fst perf_counter).

(** [try: m except Exception as exc: row["error"] = ...] and [return row]. *)
Definition with_row (m : M demo_state unit) (row : dict) : M (world * N) dict := fun σ =>
  let '(r, (σ', row)) := m (σ, row) in
  (Ok (match r with
       | Ok _ => row
       | Raise e => dset "error" (VStr (describe_exn e)) row
       end), σ').

(** ** [run_control_transaction] *)
Definition control_steps (base_url : string) (features : val) : M demo_state unit :=
  let* t0 := clock in
  let* resp := on_fst (http_post (base_url +:+ "/predict") [("input", features)] []) in
  let* t1 := clock in
  put_row "rtt_ms" (VFloat ((t1 - t0) * 1000)) ;;;
  if status_code resp =? 200 then
    let* body := of_result (resp_json resp) in
    let* prediction := of_result (vitem "prediction" body) in
    put_row "prediction" prediction ;;;
    let* probabilities := of_result (vitem "probabilities" body) in
    put_row "probabilities" probabilities
  else put_row "error" (VStr ("HTTP " +:+ pretty (status_code resp))).

Definition run_control_transaction (base_url : string) (features : val) : M (world * N) dict :=
  with_row (control_steps base_url features)
    [("config", VStr "control"); ("error", VNone); ("tampered", VNone)].

(** ** [run_secure_transaction] *)

(** [if tamper_target:]. *)
Definition tampered_body (raw_body : bytes) (tamper_target : option string) : result bytes :=
  match tamper_target with
  | Some (String c s) => _tamper_response_body raw_body (String c s)
  | _ => Ok raw_body
  end.

(** The response: the signature first, then the envelope. *)
Definition check_response (Cli : ClientCryptoConfig) (key spk : bytes) (resp_json : dict)
    : M demo_state unit :=
  put_row "server_timing_ms" (dget_or "server_timing_ms" (VDict []) resp_json) ;;;
  put_row "debug" (dget_or "debug" VNone resp_json) ;;;
  let* resp_nonce := of_result (let? v := getitem "nonce" resp_json in _b64d v) in
  let* resp_ciphertext := of_result (let? v := getitem "ciphertext" resp_json in _b64d v) in
  let* signature := of_result (let? v := getitem "signature" resp_json in _b64d v) in
  let envelope := resp_nonce ++ resp_ciphertext in
  let* vm := on_fst (on_fst (verify envelope signature spk)) in
  let '(valid, verify_meta) := vm in
  put_row "valid_signature" (VBool valid) ;;;
  put_row "verify_ms" (dget_or "verify_ms" (VFloat 0) verify_meta) ;;;
  put_row "signature_bytes" (VInt (Z.of_nat (length signature))) ;;;
  match aead_decrypt key resp_nonce resp_ciphertext with
  | Raise AEADError =>
      put_row "decryption_ok" (VBool false) ;;;
      put_row "error"
        (VStr "AES-GCM authentication failed -- tampered ciphertext detected and rejected")
  | Raise e => raise e
  | Ok plaintext =>
      let* v := of_result (json_loads plaintext) in
      let* result := of_result (as_dict v) in
      put_row "prediction" (dget_or "prediction" VNone result) ;;;
      put_row "probabilities" (dget_or "probabilities" VNone result) ;;;
      put_row "decryption_ok" (VBool true)
  end.

Definition secure_steps (Cli : ClientCryptoConfig) (base_url : string) (features : val)
    (tamper_target : option string) : M demo_state unit :=
  let* hm := on_fst (do_handshake base_url) in
  let '(handshake_json, handshake_ms) := hm in
  put_row "handshake_ms" (VFloat handshake_ms) ;;;
  put_row "handshake_meta" (dget_or "meta" (VDict []) handshake_json) ;;;
  put_row "kex_algorithm" (dget_or "kex_algorithm" VNone handshake_json) ;;;
  put_row "sig_algorithm" (dget_or "sig_algorithm" VNone handshake_json) ;;;
  let* kpk := of_result (let? v := getitem "kex_public_key" handshake_json in _b64d v) in
  let* spk := of_result (let? v := getitem "sig_public_key" handshake_json in _b64d v) in
  let* handshake_id := of_result (getitem "handshake_id" handshake_json) in
  let* est := on_fst (on_fst (establish kpk)) in
  put_row "client_establish_ms" (dget_or "handshake_encrypt_ms" (VFloat 0) (est_meta est)) ;;;
  put_row "kex_blob_bytes" (VInt (Z.of_nat (length (kex_blob est)))) ;;;
  let* text := of_result (json_dumps (VDict [("input", features)])) in
  let* req_aead := on_fst (on_fst (aead_encrypt (session_key est) (encode text))) in
  let payload : dict :=
    [("handshake_id", handshake_id); ("kex_blob", VStr (_b64e (kex_blob est)));
     ("nonce", VStr (_b64e (nonce req_aead)));
     ("ciphertext", VStr (_b64e (ciphertext req_aead)))] in
  let* t0 := clock in
  let* resp := on_fst (http_post (base_url +:+ "/secure/predict") payload
                         [("X-Debug-Metrics", "true")]) in
  let* t1 := clock in
  put_row "rtt_ms" (VFloat ((t1 - t0) * 1000)) ;;;
  if negb (status_code resp =? 200) then
    put_row "error" (VStr (http_error (status_code resp) (take_string 200 (resp_text resp))))
  else
    let* raw_body := of_result (tampered_body (encode (resp_text resp)) tamper_target) in
    let* v := of_result (json_loads raw_body) in
    let* resp_json := of_result (as_dict v) in
    check_response Cli (session_key est) spk resp_json.

Definition run_secure_transaction (base_url config_name : string) (features : val)
    (tamper_target : option string) : M (world * N) dict :=
  let* client_crypto := of_result (get_client_crypto config_name) in
  with_row (secure_steps client_crypto base_url features tamper_target)
    [("config", VStr config_name); ("error", VNone); ("valid_signature", VNone);
     ("tampered", val_of_opt VStr tamper_target); ("decryption_ok", VNone)].
End Rows.

(** ** The live stream *)
Definition _flip_middle_byte (raw : bytes) : bytes :=
  match raw with [] => raw | _ => flip_middle raw end.

Definition STREAM_ATTACKS : list (option string * string) :=
  [(None, "No attack");
   (Some "tamper_ciphertext", "Flip a bit in one chunk's ciphertext");
   (Some "tamper_signature", "Flip a bit in a signature");
   (Some "drop", "Drop one chunk");
   (Some "reorder", "Swap one chunk with the next");
   (Some "duplicate", "Deliver one chunk twice");
   (Some "truncate", "Cut the stream after one chunk");
   (Some "strip_checkpoints", "Strip every checkpoint signature")].

(** What the generator yields. *)
Inductive event :=
  | EvChunk (index : val) (text : option string) (attacked : bool) (status : string)
      (reason : option string) (signature_valid aead_ok : option bool)
  | EvCovered (upto : val)
  | EvFinal (stream_fully_verified : bool) (reason text : option string)
  | EvSummary (metrics : dict)
  | EvError (message : string).

(** The entries of [metrics] that change; sums are kept as rationals. *)
Record live_metrics := mkLive {
  lm_ttft_ms : val; lm_total_ms : val; lm_n_chunks : Z; lm_n_signatures : Z;
  lm_total_signature_bytes : Q; lm_total_signing_ms : Q; lm_total_signing_cpu_ms : Q;
  lm_total_verify_ms : Q; lm_stream_fully_verified : option bool;
  lm_max_unverified_chunks : Z; lm_rejected_at_chunk : val; lm_handshake_ms : option Q }.
Definition live_metrics0 : live_metrics := mkLive VNone VNone 0 0 0 0 0 0 None 0 VNone None.

(** [state], [chain_state], and what was yielded so far. *)
Record live_state := mkLiveState {
  ls_metrics : live_metrics; ls_expected : Z; ls_pending : Z; ls_failed : option string;
  ls_terminal : bool; ls_held : option dict; ls_chain : option HashChainClientState;
  ls_out : list event }.
Definition live_state0 : live_state := mkLiveState live_metrics0 0 0 None false None None [].

Definition on_live (f : live_metrics -> live_metrics) (s : live_state) : live_state :=
  let 'mkLiveState m e p fl t h c o := s in mkLiveState (f m) e p fl t h c o.
Definition bump_expected (s : live_state) : live_state :=
  let 'mkLiveState m e p fl t h c o := s in mkLiveState m (e + 1) p fl t h c o.
Definition set_live_pending (p : Z) (s : live_state) : live_state :=
  let 'mkLiveState m e _ fl t h c o := s in mkLiveState m e p fl t h c o.
Definition set_terminal (s : live_state) : live_state :=
  let 'mkLiveState m e p fl _ h c o := s in mkLiveState m e p fl true h c o.
Definition set_held (h : option dict) (s : live_state) : live_state :=
  let 'mkLiveState m e p fl t _ c o := s in mkLiveState m e p fl t h c o.
Definition set_live_chain (c : option HashChainClientState) (s : live_state) : live_state :=
  let 'mkLiveState m e p fl t h _ o := s in mkLiveState m e p fl t h c o.
Definition emit_events (evs : list event) (s : live_state) : live_state :=
  let 'mkLiveState m e p fl t h c o := s in mkLiveState m e p fl t h c (o ++ evs).

Definition live_ttft (x : Q) (m : live_metrics) : live_metrics :=
  let 'mkLive _ to n ns sb sg sc ve fv mu rj hs := m in
  mkLive (VFloat x) to n ns sb sg sc ve fv mu rj hs.
Definition live_total (x : Q) (m : live_metrics) : live_metrics :=
  let 'mkLive tf _ n ns sb sg sc ve fv mu rj hs := m in
  mkLive tf (VFloat x) n ns sb sg sc ve fv mu rj hs.
Definition live_add_chunk (m : live_metrics) : live_metrics :=
  let 'mkLive tf to n ns sb sg sc ve fv mu rj hs := m in
  mkLive tf to (n + 1) ns sb sg sc ve fv mu rj hs.
Definition live_add_signature (m : live_metrics) : live_metrics :=
  let 'mkLive tf to n ns sb sg sc ve fv mu rj hs := m in
  mkLive tf to n (ns + 1) sb sg sc ve fv mu rj hs.
Definition live_add_bytes (x : Q) (m : live_metrics) : live_metrics :=
  let 'mkLive tf to n ns sb sg sc ve fv mu rj hs := m in
  mkLive tf to n ns (sb + x) sg sc ve fv mu rj hs.
Definition live_add_signing (x : Q) (m : live_metrics) : live_metrics :=
  let 'mkLive tf to n ns sb sg sc ve fv mu rj hs := m in
  mkLive tf to n ns sb (sg + x) sc ve fv mu rj hs.
Definition live_add_signing_cpu (x : Q) (m : live_metrics) : live_metrics :=
  let 'mkLive tf to n ns sb sg sc ve fv mu rj hs := m in
  mkLive tf to n ns sb sg (sc + x) ve fv mu rj hs.
Definition live_add_verify (x : Q) (m : live_metrics) : live_metrics :=
  let 'mkLive tf to n ns sb sg sc ve fv mu rj hs := m in
  mkLive tf to n ns sb sg sc (ve + x) fv mu rj hs.
Definition live_verified (v : bool) (m : live_metrics) : live_metrics :=
  let 'mkLive tf to n ns sb sg sc ve _ mu rj hs := m in
  mkLive tf to n ns sb sg sc ve (Some v) mu rj hs.
Definition live_backlog (p : Z) (m : live_metrics) : live_metrics :=
  let 'mkLive tf to n ns sb sg sc ve fv mu rj hs := m in
  mkLive tf to n ns sb sg sc ve fv (Z.max mu p) rj hs.
Definition live_handshake (x : Q) (m : live_metrics) : live_metrics :=
  let 'mkLive tf to n ns sb sg sc ve fv mu rj _ := m in
  mkLive tf to n ns sb sg sc ve fv mu rj (Some x).

(** [fail(reason, index)]: only the first failure is kept. *)
Definition fail (reason : string) (index : val) (s : live_state) : live_state :=
  match s with
  | mkLiveState (mkLive tf to n ns sb sg sc ve fv mu rj hs) e p None t h c o =>
      mkLiveState (mkLive tf to n ns sb sg sc ve fv mu index hs) e p (Some reason) t h c o
  | _ => s
  end.
Definition fail_if (reason : option string) (index : val) (s : live_state) : live_state :=
  match reason with Some r => fail r index s | None => s end.

(** [r["plaintext"].decode(errors="replace") if r["plaintext"] else None]. *)
Definition text_of (pt : option bytes) : option string :=
  match pt with Some (b :: bs) => Some (decode_replace (b :: bs)) | _ => None end.

Definition is_false (o : option bool) : bool := match o with Some false => true | _ => false end.
(** [state["failed"] is None]. *)
Definition unfailed (s : live_state) : bool := match ls_failed s with None => true | Some _ => false end.

Definition attack_is (attack : option string) (name : string) : bool :=
  match attack with Some a => String.eqb a name | None => false end.

(** [kind.startswith("final")]. *)
Definition starts_final (kind : val) : result bool :=
  match kind with
  | VStr s => Ok (String.prefix "final" s)
  | VBytes _ => Raise (TypeError "startswith first arg must be bytes or a tuple of bytes, not str")
  | _ => Raise (AttributeError "object has no attribute 'startswith'")
  end.

(** [data.get(k)] is there and truthy. *)
Definition has_truthy (k : string) (data : dict) : bool := truthy (dget_or k VNone data).

Section Live.
Context {E : Env} {P : Prims} {J : Json} {Cli : ClientCryptoConfig}.
(** What the nested functions close over. *)
Variables (strategy : string) (key spk : bytes) (hid : string).
Variables (attack : option string) (attack_index : Z).

Definition step_live (f : live_state -> live_state) : M (world * live_state) unit :=
  fun '(w, s) => (Ok tt, (w, f s)).
Definition upd_live (f : live_metrics -> live_metrics) : M (world * live_state) unit :=
  step_live (on_live f).
(** [metrics[...] += v]. *)
Definition add_live (f : Q -> live_metrics -> live_metrics) (v : val) : M (world * live_state) unit :=
  let* q := of_result (as_num v) in upd_live (f q).

Definition account (data : dict) : M (world * live_state) unit :=
  add_live live_add_bytes (py_or (dget_or "signature_bytes" (VInt 0) data) (VInt 0)) ;;;
  add_live live_add_signing (py_or (dget_or "sign_ms" (VFloat 0) data) (VFloat 0)) ;;;
  add_live live_add_signing_cpu (py_or (dget_or "sign_cpu_ms" (VFloat 0) data) (VFloat 0)) ;;;
  if has_truthy "signature" data then upd_live live_add_signature else ret tt.

(** [kind == "chunk"] under [per_chunk]. *)
Definition live_per_chunk (data : dict) (n ct : bytes) (attacked : bool)
    : M (world * live_state) (list event) :=
  let* index := of_result (getitem "index" data) in
  let* sg := of_result (let? v := getitem "signature" data in _b64d v) in
  let chunk : dict := [("index", index); ("nonce", VBytes n); ("ciphertext", VBytes ct);
                       ("signature", VBytes sg)] in
  let* s := self in
  let* r := on_fst (verify_per_chunk chunk (ls_expected s) key spk hid) in
  step_live bump_expected ;;;
  add_live live_add_verify (pr_verify_ms r) ;;;
  let ok := pr_signature_valid r && aead_flag (pr_aead_ok r) && pr_in_order r in
  let reason := if ok then None
                else Some (if negb (pr_signature_valid r) then "signature invalid"
                           else if is_false (pr_aead_ok r) then "AEAD tag failed"
                           else "out of order") in
  step_live (fail_if reason index) ;;;
  let* s := self in
  ret [EvChunk index (text_of (pr_plaintext r)) attacked
         (if ok && unfailed s then "verified" else "rejected") reason
         (Some (pr_signature_valid r)) (pr_aead_ok r)].

(** [verify_hash_chain_chunk] mutates [chain_state], also when it raises. *)
Definition live_run_chain (chunk : dict) (st : HashChainClientState)
    : M (world * live_state) chain_chunk_result := fun '(w, s) =>
  let '(r, (w', st')) := verify_hash_chain_chunk true chunk key spk (w, st) in
  (r, (w', set_live_chain (Some st') s)).

Definition chain_reason (r : chain_chunk_result) : option string :=
  if negb (aead_flag (cr_aead_ok r)) then Some "AEAD tag failed"
  else if cr_checkpoint_missing r then Some "expected checkpoint missing"
  else if cr_checkpoint r && negb (aead_flag (cr_checkpoint_valid r))
  then Some "checkpoint signature does not match the chain"
  else None.

(** [kind == "chunk"] under any other strategy. *)
Definition live_chain_chunk (data : dict) (n ct : bytes) (attacked : bool)
    : M (world * live_state) (list event) :=
  let* sg := of_result (if has_truthy "signature" data
                        then let? v := getitem "signature" data in
                             let? b := _b64d v in Ok (VBytes b)
                        else Ok VNone) in
  let* index := of_result (getitem "index" data) in
  let* h := of_result (let? v := getitem "chain_hash" data in _b64d v) in
  let chunk : dict := [("index", index); ("nonce", VBytes n); ("ciphertext", VBytes ct);
                       ("chain_hash", VBytes h); ("signature", sg)] in
  let* s := self in
  match ls_chain s with
  | None => raise (AttributeError "'NoneType' object has no attribute 'absorb'")
  | Some st =>
      let* r := live_run_chain chunk st in
      add_live live_add_verify (cr_verify_ms r) ;;;
      let reason := chain_reason r in
      step_live (fail_if reason index) ;;;
      step_live (fun s => set_live_pending (ls_pending s + 1) s) ;;;
      step_live (fun s => on_live (live_backlog (ls_pending s)) s) ;;;
      let* s := self in
      let chunk_event := EvChunk index (text_of (cr_plaintext r)) attacked
                           (if unfailed s then "pending" else "rejected") reason
                           (cr_checkpoint_valid r) (cr_aead_ok r) in
      if cr_checkpoint r && aead_flag (cr_checkpoint_valid r) && unfailed s then
        step_live (set_live_pending 0) ;;;
        ret [chunk_event; EvCovered index]
      else ret [chunk_event]
  end.

(** The terminal records: whether it verified, the time, the reason and the
    text. *)
Definition live_verdict (data : dict)
    : M (world * live_state) (val * option string * option string) :=
  if kind_is "final_buffered" data then
    let* n := of_result (let? v := getitem "nonce" data in _b64d v) in
    let* ct := of_result (let? v := getitem "ciphertext" data in _b64d v) in
    let* sg := of_result (let? v := getitem "signature" data in _b64d v) in
    let* r := on_fst (verify_buffer_and_sign_final
                [("nonce", VBytes n); ("ciphertext", VBytes ct); ("signature", VBytes sg)]
                key spk hid) in
    ret (br_verify_ms r,
         if br_signature_valid r && aead_flag (br_aead_ok r) then None
         else Some (if is_false (br_aead_ok r) then "AEAD tag failed" else "signature invalid"),
         text_of (br_plaintext r))
  else if kind_is "final_per_chunk" data then
    let* vn := of_result (getitem "n_chunks" data) in
    let* sg := of_result (let? v := getitem "signature" data in _b64d v) in
    let* s := self in
    let* r := on_fst (verify_per_chunk_final [("n_chunks", vn); ("signature", VBytes sg)]
                        (ls_expected s) spk hid) in
    ret (fr_verify_ms r,
         if fr_stream_fully_verified r then None
         else Some (if negb (fr_signature_valid r) then "end record signature invalid"
                    else "chunk count does not match the signed end record"), None)
  else
    let* h := of_result (let? v := getitem "final_chain_hash" data in _b64d v) in
    let* vn := of_result (getitem "n_chunks" data) in
    let* sg := of_result (let? v := getitem "signature" data in _b64d v) in
    let* s := self in
    match ls_chain s with
    | None => raise (AttributeError "'NoneType' object has no attribute 'running_hash'")
    | Some st =>
        let* r := on_fst (verify_hash_chain_final
                    [("final_chain_hash", VBytes h); ("n_chunks", vn); ("signature", VBytes sg)]
                    st spk) in
        ret (cf_verify_ms r,
             if cf_stream_fully_verified r then None
             else Some (if negb (cf_signature_valid r) then "terminal signature invalid"
                        else "chain or length does not match the signed terminal record"), None)
    end.

(** [process]. *)
Definition process (data : dict) (attacked : bool) : M (world * live_state) (list event) :=
  if kind_is "chunk" data then
    account data ;;;
    upd_live live_add_chunk ;;;
    let* n := of_result (let? v := getitem "nonce" data in _b64d v) in
    let* ct := of_result (let? v := getitem "ciphertext" data in _b64d v) in
    if String.eqb strategy "per_chunk" then live_per_chunk data n ct attacked
    else live_chain_chunk data n ct attacked
  else if kind_is "final_buffered" data || kind_is "final_per_chunk" data
          || kind_is "final_chain" data then
    account data ;;;
    step_live set_terminal ;;;
    let* v := live_verdict data in
    let '(verify_ms, reason, text) := v in
    add_live live_add_verify verify_ms ;;;
    step_live (fail_if reason (VStr "end")) ;;;
    let* s := self in
    let verified := unfailed s in
    upd_live (live_verified verified) ;;;
    ret ((if verified then [EvCovered (VInt (lm_n_chunks (ls_metrics s) - 1))] else [])
         ++ [EvFinal verified (ls_failed s) text])
  else ret [].

(** ** The attacked loop *)

(** [_flip]. *)
Definition _flip (field : string) (data : dict) : result dict :=
  let? raw := (let? v := getitem field data in _b64d v) in
  Ok (dset field (VStr (_b64e (_flip_middle_byte raw))) data).

(** [data.get("kind") == "chunk" and data.get("index") == attack_index]. *)
Definition is_target (data : dict) : bool :=
  kind_is "chunk" data && val_eq_int (dget_or "index" VNone data) attack_index.

(** The records handed to the client for one that arrives, each with whether
    it was attacked. *)
Definition attack_batch (data : dict) (is_final : bool) : M (world * live_state) (list (dict * bool)) :=
  let target := is_target data in
  let* s := self in
  if attack_is attack "tamper_ciphertext"
     && (target || (String.eqb strategy "buffer_and_sign" && is_final)) then
    let* d := of_result (_flip "ciphertext" data) in ret [(d, true)]
  else if attack_is attack "tamper_signature" && has_truthy "signature" data
          && (target || (negb (String.eqb strategy "per_chunk") && is_final)) then
    let* d := of_result (_flip "signature" data) in ret [(d, true)]
  else if attack_is attack "drop" && target then ret []
  else if attack_is attack "duplicate" && target then ret [(data, false); (data, true)]
  else if attack_is attack "reorder" && target then
    step_live (set_held (Some data)) ;;; ret []
  else
    (* [state["held"] is not None and data.get("kind") == "chunk"] *)
    match (if attack_is attack "reorder" && kind_is "chunk" data then ls_held s else None) with
    | Some held => step_live (set_held None) ;;; ret [(data, true); (held, true)]
    | None =>
        if attack_is attack "strip_checkpoints" && String.eqb strategy "hash_chain"
           && kind_is "chunk" data && has_truthy "signature" data then
          ret [(dset "signature_bytes" (VInt 0) (dset "signature" VNone data), true)]
        else ret [(data, false)]
    end.

(** [for ev in process(rec, attacked): yield ev]. *)
Definition process_and_yield (rec : dict * bool) : M (world * live_state) unit :=
  let* evs := process (fst rec) (snd rec) in step_live (emit_events evs).

(** A record with a kind; [true] is [break]. *)
Definition live_record (t_start : Q) (v : val) : M (world * live_state) bool :=
  let* s := self in
  (match lm_ttft_ms (ls_metrics s) with
   | VNone => let* t := on_fst perf_counter in upd_live (live_ttft ((t - t_start) * 1000)%Q)
   | _ => ret tt
   end) ;;;
  let* data := of_result (as_dict v) in
  let* is_final := of_result (starts_final (dget_or "kind" (VStr "") data)) in
  let* batch := attack_batch data is_final in
  if attack_is attack "truncate" && String.eqb strategy "buffer_and_sign" && is_final then ret true
  else
    for_each batch process_and_yield ;;;
    ret (attack_is attack "truncate" && is_target data).

Definition live_line (t_start : Q) (line : string) : M (world * live_state) bool :=
  let* d := of_result (sse_data line) in
  match d with
  | None => ret false
  | Some v =>
      let* has_kind := of_result (str_in "kind" v) in
      if negb has_kind then ret false else live_record t_start v
  end.

(** [async for line in resp.aiter_lines()]: left by [break], or by what cuts
    the response short. *)
Fixpoint live_lines (t_start : Q) (lines : list string) (cut : option exn)
    : M (world * live_state) unit :=
  match lines with
  | [] => match cut with Some e => raise e | None => ret tt end
  | l :: rest =>
      let* stop := live_line t_start l in
      if stop : bool then ret tt else live_lines t_start rest cut
  end.

(** [metrics] as the dictionary the summary carries. *)
Definition summary_dict (config_name : string) (checkpoint_interval : option Z)
    (m : live_metrics) : dict :=
  [("config", VStr config_name); ("strategy", VStr strategy);
   ("checkpoint_interval", val_of_opt VInt checkpoint_interval);
   ("attack", val_of_opt VStr attack); ("error", VNone); ("ttft_ms", lm_ttft_ms m);
   ("total_ms", lm_total_ms m); ("n_chunks", VInt (lm_n_chunks m));
   ("n_signatures", VInt (lm_n_signatures m));
   ("total_signature_bytes", VFloat (lm_total_signature_bytes m));
   ("total_signing_ms", VFloat (lm_total_signing_ms m));
   ("total_signing_cpu_ms", VFloat (lm_total_signing_cpu_ms m));
   ("total_verify_ms", VFloat (lm_total_verify_ms m));
   ("stream_fully_verified", val_of_opt VBool (lm_stream_fully_verified m));
   ("max_unverified_chunks", VInt (lm_max_unverified_chunks m));
   ("rejected_at_chunk", lm_rejected_at_chunk m)]
  ++ match lm_handshake_ms m with Some q => [("handshake_ms", VFloat q)] | None => [] end.

(** What follows the response: a stream without its terminal record. *)
Definition live_end (t_start : Q) (config_name : string) (checkpoint_interval : option Z)
    : M (world * live_state) unit :=
  let* t := on_fst perf_counter in
  upd_live (live_total ((t - t_start) * 1000)%Q) ;;;
  let* s := self in
  (if negb (ls_terminal s) then
     upd_live (live_verified false) ;;;
     step_live (fun s => if unfailed s then
         let 'mkLiveState m e p _ tm h c o := s in
         mkLiveState m e p (Some "stream ended without its signed terminal record (truncated)")
           tm h c o
       else s) ;;;
     step_live (fun s => emit_events [EvFinal false (ls_failed s) None] s)
   else ret tt) ;;;
  step_live (fun s => emit_events
    [EvSummary (summary_dict config_name checkpoint_interval (ls_metrics s))] s).

Definition live_consume (t_start : Q) (config_name : string) (checkpoint_interval : option Z)
    (resp : response) : M (world * live_state) unit :=
  live_lines t_start (resp_lines resp) (resp_cut resp) ;;;
  live_end t_start config_name checkpoint_interval.
End Live.

(** ** [run_streaming_transaction_live] *)
Section LiveTransaction.
Context {E : Env} {P : Prims} {J : Json} {N : Type} {TR : Transport N}.
Abbreviation live_tx_state := ((world * N) * live_state)%type.

Definition live_set (f : live_state -> live_state) : M live_tx_state unit := on_snd (modify f).
Definition live_local {A} (m : M (world * live_state) A) : M live_tx_state A :=
  fun '((w, n), s) => let '(r, (w', s')) := m (w, s) in (r, ((w', n), s')).

(** A zero interval is left out of the request. *)
Definition live_request_body (prompt strategy : string) (chunk_size_tokens max_tokens : Z)
    (checkpoint_interval : option Z) : dict :=
  [("prompt", VStr prompt); ("strategy", VStr strategy);
   ("chunk_size_tokens", VInt chunk_size_tokens); ("max_tokens", VInt max_tokens)]
  ++ match checkpoint_interval with
     | Some k => if k =? 0 then [] else [("checkpoint_interval", VInt k)]
     | None => []
     end.

(** The body of the [try].  A handshake id that is no [str] fails before the
    request, where the code may only fail at the first [.encode()] of it. *)
Definition live_transaction (Cli : ClientCryptoConfig) (base_url config_name prompt strategy : string)
    (chunk_size_tokens max_tokens : Z) (checkpoint_interval : option Z)
    (attack : option string) (attack_index : Z) (enforce_schedule : bool) : M live_tx_state unit :=
  let* hm := on_fst (do_handshake base_url) in
  let '(handshake_json, handshake_ms) := hm in
  live_set (on_live (live_handshake handshake_ms)) ;;;
  let* spk := of_result (let? v := getitem "sig_public_key" handshake_json in _b64d v) in
  let* vhid := of_result (getitem "handshake_id" handshake_json) in
  let* kpk := of_result (let? v := getitem "kex_public_key" handshake_json in _b64d v) in
  let* est := on_fst (on_fst (establish kpk)) in
  let* text := of_result (json_dumps (VDict
    (live_request_body prompt strategy chunk_size_tokens max_tokens checkpoint_interval))) in
  let* req_aead := on_fst (on_fst (aead_encrypt (session_key est) (encode text))) in
  let payload : dict :=
    [("handshake_id", vhid); ("kex_blob", VStr (_b64e (kex_blob est)));
     ("nonce", VStr (_b64e (nonce req_aead)));
     ("ciphertext", VStr (_b64e (ciphertext req_aead)))] in
  let* t_start := on_fst (on_fst perf_counter) in
  let* hid := of_result (as_str vhid) in
  live_set (set_live_chain (if String.eqb strategy "hash_chain"
     then Some (new_chain_state hid (if enforce_schedule then checkpoint_interval else None))
     else None)) ;;;
  let* resp := on_fst (http_post (base_url +:+ "/secure/predict/stream") payload []) in
  if negb (status_code resp =? 200) then
    live_set (emit_events [EvError (http_error (status_code resp)
                             (bytes_repr (take_string 200 (resp_text resp))))])
  else live_local (live_consume strategy (session_key est) spk hid attack attack_index
                     t_start config_name checkpoint_interval resp).

(** The events the generator yields. *)
Definition run_streaming_transaction_live (base_url config_name prompt strategy : string)
    (chunk_size_tokens max_tokens : Z) (checkpoint_interval : option Z)
    (attack : option string) (attack_index : Z) (enforce_schedule : bool)
    : M (world * N) (list event) :=
  let* client_crypto := of_result (get_client_crypto config_name) in
  fun σ =>
    let '(r, (σ', s)) :=
      live_transaction client_crypto base_url config_name prompt strategy chunk_size_tokens
        max_tokens checkpoint_interval attack attack_index enforce_schedule (σ, live_state0) in
    (Ok (ls_out s ++ match r with
                     | Ok _ => []
                     | Raise e => [EvError (describe_exn e)]
                     end), σ').
End LiveTransaction.
