(* ===== verification/LiveDemoProps.v ===== *)
(** * What the live stream reports

    The failure of a live stream is latched, its events are only added to, and
    no rearrangement of a per-chunk stream ends verified, whatever the
    cryptography answers. *)
From stdpp Require Import gmap.
From S2P Require Import Prelude PyBytes PyVal World PyList Instrumentation Aead Base Configs.
From S2P Require Import Streaming Http SecureClient StreamingClient StreamingClientSteps StreamingIntegrity SecureApp Mitm LiveDemo.

Section Relations.

(** Every run of [m], also one that raises, relates the states by [R]. *)
Definition on_state (R : relation live_state) : relation (world * live_state) :=
  fun a b => R (snd a) (snd b).
Definition moves {A} (R : relation live_state) (m : M (world * live_state) A) : Prop :=
  forall w s r w' s', m (w, s) = (r, (w', s')) -> R s s'.

Context (R : relation live_state) `{!PreOrder R}.

#[export] Instance on_state_preorder : PreOrder (on_state R).
Proof.
  split; [by intros []; unfold on_state|].
  intros [? x] [? y] [? z]. unfold on_state. simpl. intros H1 H2. by etrans.
Qed.

Lemma moves_respects {A} (m : M (world * live_state) A) : respects (on_state R) m -> moves R m.
Proof. intros Hm w s r w' s' H. specialize (Hm (w, s)). by rewrite H in Hm. Qed.
Lemma respects_run {A} (m : M (world * live_state) A) : moves R m -> respects (on_state R) m.
Proof. intros Hm [w s]. destruct (m (w, s)) as [r [w' s']] eqn:Hr. by eapply Hm. Qed.
Lemma respects_self : respects (on_state R) self.
Proof. apply respects_still; [exact _|by intros []]. Qed.
Lemma respects_on_fst {A} (m : M world A) : respects (on_state R) (on_fst m).
Proof. intros [w s]. unfold on_fst, on_state. by destruct (m w). Qed.
Lemma respects_step f : (forall s, R s (f s)) -> respects (on_state R) (step_live f).
Proof. intros Hf [w s]. apply Hf. Qed.
Lemma respects_upd f : (forall s, R s (on_live f s)) -> respects (on_state R) (upd_live f).
Proof. apply respects_step. Qed.
Lemma respects_add f v : (forall q s, R s (on_live (f q) s)) -> respects (on_state R) (add_live f v).
Proof.
  intros Hf. apply respects_bind; [exact _|by apply respects_of_result, on_state_preorder|].
  intros q. apply respects_upd, Hf.
Qed.
End Relations.

(** Decompose a program into its steps. *)
Ltac moves_tac :=
  repeat match goal with
  | |- PreOrder _ => exact _
  | |- moves _ _ => apply moves_respects
  | |- forall _, respects _ _ => intros ?
  | |- respects _ _ => first
      [ apply respects_ret | apply respects_raise | apply respects_of_result | apply respects_self
      | apply respects_on_fst | apply respects_bind | apply respects_if | apply respects_upd
      | apply respects_add | apply respects_step ]
  | |- respects _ (match ?x with _ => _ end) => destruct x
  end.

(** Every value [m] returns satisfies [Q]. *)
Definition returns {A} (Q : A -> Prop) (m : M (world * live_state) A) : Prop :=
  forall w s a σ', m (w, s) = (Ok a, σ') -> Q a.

Lemma returns_bind {A B} (Q : B -> Prop) (m : M (world * live_state) A) k :
  (forall a, returns Q (k a)) -> returns Q (bind m k).
Proof.
  intros Hk w s b σ' H. apply bind_inv_Ok in H as (a & [w1 s1] & _ & H). by eapply Hk.
Qed.
Lemma returns_ret {A} (Q : A -> Prop) a : Q a -> returns Q (ret a).
Proof. intros Ha w s a' σ' [= <- _]. done. Qed.
Lemma returns_raise {A} (Q : A -> Prop) e : returns Q (raise (A := A) e).
Proof. done. Qed.
Lemma returns_if {A} (Q : A -> Prop) (b : bool) m1 m2 :
  returns Q m1 -> returns Q m2 -> returns (A := A) Q (if b then m1 else m2).
Proof. by destruct b. Qed.

Ltac returns_tac :=
  repeat match goal with
  | |- forall _, returns _ _ => intros ?
  | |- returns _ _ => first [ apply returns_ret | apply returns_raise | apply returns_bind | apply returns_if ]
  | |- returns _ (match ?x with _ => _ end) => destruct x
  end.

(** ** Processing a record *)

(** What no processing of a record changes: what was yielded, what is held
    back, and a failure once there is one. *)
Definition latched (s s' : live_state) : Prop :=
  ls_out s' = ls_out s /\ ls_held s' = ls_held s
  /\ (ls_failed s <> None -> ls_failed s' = ls_failed s).
#[export] Instance latched_preorder : PreOrder latched.
Proof.
  split; [by intros []|]. intros x y z (H1 & H2 & H3) (K1 & K2 & K3).
  split_and!; [congruence|congruence|]. intros Hx. rewrite K3, H3; [done|done|].
  by rewrite H3.
Qed.

(** As long as no terminal record was seen, none is. *)
Definition same_terminal (s s' : live_state) : Prop := ls_terminal s' = ls_terminal s.
#[export] Instance same_terminal_preorder : PreOrder same_terminal.
Proof. split; [done|]. intros x y z H K. unfold same_terminal in *. congruence. Qed.

Lemma fail_latched reason index s : latched s (fail_if reason index s).
Proof. destruct reason; [|done]. destruct s as [[] ? ? [] ? ? ? ?]; done. Qed.
Lemma fail_same_terminal reason index s : same_terminal s (fail_if reason index s).
Proof. destruct reason; [|done]. destruct s as [[] ? ? [] ? ? ? ?]; done. Qed.

Section Process.
Context {E : Env} {P : Prims} {J : Json} {Cli : ClientCryptoConfig}.
Variables (strategy : string) (key spk : bytes) (hid : string).
Variables (attack : option string) (attack_index : Z).

Ltac by_state := intros []; done.

Lemma run_chain_moves (R : relation live_state) chunk st :
  (forall st' s, R s (set_live_chain (Some st') s)) -> moves R (live_run_chain key spk chunk st).
Proof.
  intros HR w s r w' s'. unfold live_run_chain.
  destruct (verify_hash_chain_chunk _ _ _ _ _) as [r0 [w1 st1]]. intros [= _ _ <-]. apply HR.
Qed.

Lemma process_latched data attacked : moves latched (process strategy key spk hid data attacked).
Proof.
  unfold process, account, live_per_chunk, live_chain_chunk, live_verdict.
  moves_tac; try by_state; try (intros; apply fail_latched).
  all: apply respects_run, run_chain_moves; intros ? []; done.
Qed.

Lemma chunk_same_terminal data attacked :
  kind_is "chunk" data = true -> moves same_terminal (process strategy key spk hid data attacked).
Proof.
  intros Hk. unfold process. rewrite Hk. unfold account, live_per_chunk, live_chain_chunk.
  moves_tac; try by_state; try (intros; apply fail_same_terminal).
  all: apply respects_run, run_chain_moves; intros ? []; done.
Qed.
(** ** What a record that is processed leaves behind *)

(** Nothing but the measurements. *)
Definition quiet (s s' : live_state) : Prop :=
  ls_expected s' = ls_expected s /\ ls_failed s' = ls_failed s /\ ls_terminal s' = ls_terminal s
  /\ lm_stream_fully_verified (ls_metrics s') = lm_stream_fully_verified (ls_metrics s).
#[local] Instance quiet_preorder : PreOrder quiet.
Proof.
  split; [by intros []|]. intros x y z (H1 & H2 & H3 & H4) (K1 & K2 & K3 & K4).
  split_and!; congruence.
Qed.

Lemma account_quiet data : moves quiet (account data).
Proof. unfold account. moves_tac; intros [[]]; done. Qed.

Definition verdict_of (s : live_state) : option bool := lm_stream_fully_verified (ls_metrics s).
Definition unverified (e : event) : Prop :=
  match e with
  | EvFinal v _ _ => v = false
  | EvSummary d => dget "stream_fully_verified" d <> Some (VBool true)
  | _ => True
  end.

(** The verdict only changes with a terminal record, and then says whether
    anything failed so far. *)
Definition same_verdict (s s' : live_state) : Prop := verdict_of s' = verdict_of s.
#[local] Instance same_verdict_preorder : PreOrder same_verdict.
Proof. split; [done|]. intros x y z H K. unfold same_verdict in *. congruence. Qed.
Lemma fail_same_verdict reason index s : same_verdict s (fail_if reason index s).
Proof. destruct reason; [|done]. destruct s as [[] ? ? [] ? ? ? ?]; done. Qed.

Lemma chunk_same_verdict data attacked :
  kind_is "chunk" data = true -> moves same_verdict (process strategy key spk hid data attacked).
Proof.
  intros Hk. unfold process. rewrite Hk. unfold account, live_per_chunk, live_chain_chunk.
  moves_tac; try (intros [[]]; done); try (intros; apply fail_same_verdict).
  all: apply respects_run, run_chain_moves; intros ? [[]]; done.
Qed.

Lemma chunk_events data attacked :
  kind_is "chunk" data = true ->
  returns (Forall unverified) (process strategy key spk hid data attacked).
Proof.
  intros Hk.
  unfold process. rewrite Hk. unfold live_per_chunk, live_chain_chunk.
  returns_tac; repeat constructor.
Qed.

Lemma final_ok data attacked w s evs w' s' :
  kind_is "chunk" data = false ->
  process strategy key spk hid data attacked (w, s) = (Ok evs, (w', s')) ->
  (evs = [] /\ s' = s)
  \/ (verdict_of s' = Some (unfailed s') /\ (unfailed s' = false -> Forall unverified evs)).
Proof.
  intros Hk. unfold process. rewrite Hk.
  destruct (_ || _ || _); [|intros [= <- _ <-]; by left]. intros H. right.
  apply bind_inv_Ok in H as ([] & [w1 s1] & _ & H).
  apply bind_inv_Ok in H as ([] & [w2 s2] & _ & H).
  apply bind_inv_Ok in H as ([[ms reason] text] & [w3 s3] & _ & H). cbv beta iota in H.
  apply bind_inv_Ok in H as ([] & [w4 s4] & _ & H).
  apply bind_inv_Ok in H as ([] & [w5 s5] & _ & H).
  apply bind_inv_Ok in H as (s6 & σ & Hs & H). injection Hs as <- <-.
  apply bind_inv_Ok in H as ([] & σ & Hu & H). injection Hu as <-. injection H as <- <- <-.
  destruct s5 as [[] ? ? fl ? ? ? ?]; simpl. split; [by destruct fl|].
  destruct fl; [|done]. intros _. repeat constructor.
Qed.

(** A failure keeps the verdict and every later event from being positive. *)
Lemma failed_ok data attacked w s evs w' s' :
  process strategy key spk hid data attacked (w, s) = (Ok evs, (w', s')) ->
  ls_failed s' <> None ->
  Forall unverified evs /\ (verdict_of s <> Some true -> verdict_of s' <> Some true).
Proof.
  intros H Hf. destruct (kind_is "chunk" data) eqn:Hk.
  - split; [by eapply chunk_events; eauto|].
    pose proof (chunk_same_verdict data attacked Hk _ _ _ _ _ H) as ->. done.
  - apply final_ok in H as [[-> ->]|[Hv He]]; [done| |done].
    assert (unfailed s' = false) as Hu by (unfold unfailed; by destruct (ls_failed s')).
    split; [by apply He|]. intros _. by rewrite Hv, Hu.
Qed.

(** A chunk of a per-chunk stream advances the count, and fails when its index
    is not the one expected. *)
Lemma per_chunk_ok data attacked w s evs w' s' :
  strategy = "per_chunk" -> kind_is "chunk" data = true ->
  process strategy key spk hid data attacked (w, s) = (Ok evs, (w', s')) ->
  ls_expected s' = ls_expected s + 1
  /\ (ls_failed s' = None -> val_eq_int (dget_or "index" VNone data) (ls_expected s) = true).
Proof.
  intros -> Hk. unfold process. rewrite Hk. intros H.
  apply bind_inv_Ok in H as ([] & [w1 s1] & Ha & H).
  apply account_quiet in Ha as (Ha & _).
  apply bind_inv_Ok in H as ([] & [w2 s2] & Hu & H). injection Hu as <- <-.
  apply bind_inv_Ok in H as (n & [w3 s3] & Hn & H). injection Hn as _ <- <-.
  apply bind_inv_Ok in H as (ct & [w4 s4] & Hn & H). injection Hn as _ <- <-.
  change (String.eqb "per_chunk" "per_chunk") with true in H. cbv iota in H. unfold live_per_chunk in H.
  apply bind_inv_Ok in H as (index & [w5 s5] & Hi & H). injection Hi as Hi <- <-.
  apply bind_inv_Ok in H as (sg & [w6 s6] & Hn & H). injection Hn as _ <- <-.
  apply bind_inv_Ok in H as (s7 & σ & Hs & H). injection Hs as <- <-.
  apply bind_inv_Ok in H as (r & σ & Hr & H). apply on_fst_inv_Ok in Hr as (w7 & Hr & ->).
  apply verify_per_chunk_inv in Hr as (vi & ? & ? & ? & ? & ? & Hvi & _ & _ & _ & _ & _ & _ & Ho & _).
  simpl in Hvi. injection Hvi as <-.
  apply bind_inv_Ok in H as ([] & σ & Hb & H). injection Hb as <-.
  apply bind_inv_Ok in H as ([] & [w8 s8] & Hv & H).
  assert (Hq : quiet (bump_expected (on_live live_add_chunk s1)) s8).
  { revert Hv. apply (moves_respects quiet), respects_add; [exact _|]. intros q [[]]; done. }
  destruct Hq as (Hq & _).
  apply bind_inv_Ok in H as ([] & σ & Hf & H). injection Hf as <-.
  apply bind_inv_Ok in H as (s9 & σ & Hs & H). injection Hs as <- <-. injection H as _ _ <-.
  assert (Hs1 : ls_expected (on_live live_add_chunk s1) = ls_expected s) by (rewrite <- Ha; by destruct s1).
  split.
  - transitivity (ls_expected s8); [destruct s8 as [[] ? ? [] ? ? ? ?]; by repeat case_match|].
    rewrite Hq, <- Hs1. by destruct s1.
  - unfold getitem, dget_or in *. destruct (dget "index" data); [injection Hi as ->|done].
    rewrite <- Hs1, Ho. destruct (val_eq_int index _); [done|]. rewrite andb_false_r. simpl.
    destruct s8 as [[] ? ? [] ? ? ? ?]; done.
Qed.

(** An end record fails when its count is not the number of chunks. *)
Lemma end_record_ok data attacked w s evs w' s' :
  kind_is "final_per_chunk" data = true ->
  process strategy key spk hid data attacked (w, s) = (Ok evs, (w', s')) ->
  ls_failed s' = None -> val_eq_int (dget_or "n_chunks" VNone data) (ls_expected s) = true.
Proof.
  intros Hk. unfold process.
  assert (kind_is "chunk" data = false) as -> by (by apply (kind_is_fun "final_per_chunk")).
  rewrite Hk, orb_true_r. cbn [orb]. intros H Hf.
  apply bind_inv_Ok in H as ([] & [w1 s1] & Ha & H). apply account_quiet in Ha as (Ha & _).
  apply bind_inv_Ok in H as ([] & [w2 s2] & Hu & H). injection Hu as <- <-.
  apply bind_inv_Ok in H as ([[ms reason] text] & [w3 s3] & Hv & H). cbv beta iota in H.
  unfold live_verdict in Hv.
  assert (kind_is "final_buffered" data = false) as Hb by (by apply (kind_is_fun "final_per_chunk")).
  rewrite Hb, Hk in Hv.
  apply bind_inv_Ok in Hv as (vn & σ & Hn & Hv). injection Hn as Hn <-.
  apply bind_inv_Ok in Hv as (sg & σ & Hg & Hv). injection Hg as _ <-.
  apply bind_inv_Ok in Hv as (s4 & σ & Hs & Hv). injection Hs as <- <-.
  apply bind_inv_Ok in Hv as (r & σ & Hr & Hv). injection Hv as _ Hreason _ ->.
  apply on_fst_inv_Ok in Hr as (w4 & Hr & Hw). injection Hw as -> ->.
  assert (reason = None) as ->.
  { destruct reason; [|done]. exfalso.
    apply bind_inv_Ok in H as ([] & [w5 s5] & _ & H).
    apply bind_inv_Ok in H as ([] & σ & Hff & H). injection Hff as <-.
    apply bind_inv_Ok in H as (s7 & σ & Hs & H). injection Hs as <- <-.
    apply bind_inv_Ok in H as ([] & σ & Hu & H). injection Hu as <-. injection H as _ _ <-.
    revert Hf. destruct s5 as [[] ? ? [] ? ? ? ?]; done. }
  assert (fr_stream_fully_verified r = true) as Hr'
    by (by destruct (fr_stream_fully_verified r)).
  clear H Hreason Hf. unfold verify_per_chunk_final in Hr.
  inv_steps. cbn in Hr3, Hr'. injection Hr3 as <-.
  unfold getitem, dget_or in *. destruct (dget "n_chunks" data); [injection Hn as ->|done].
  apply andb_true_iff in Hr' as [_ Hc]. rewrite <- Hc, <- Ha. by destruct s1.
Qed.
End Process.

(** ** The phases of an attacked stream *)

(** From a state in [Pre], [m] never yields a positive verdict, and leaves
    [Post] when it returns. *)
Definition out_ok (s : live_state) : Prop := Forall unverified (ls_out s).
Definition triple {A} (Pre : live_state -> Prop) (m : M (world * live_state) A)
    (Post : A -> live_state -> Prop) : Prop :=
  forall w s r w' s', Pre s -> m (w, s) = (r, (w', s')) ->
    out_ok s' /\ forall a, r = Ok a -> Post a s'.

(** Nothing positive so far; [i] records were processed and none is held. *)
Record course (i : Z) (s : live_state) : Prop := {
  co_out : out_ok s; co_verdict : verdict_of s <> Some true;
  co_terminal : ls_terminal s = false; co_expected : ls_expected s = i }.
(** The stream has failed. *)
Record spoilt (s : live_state) : Prop := {
  sp_out : out_ok s; sp_verdict : verdict_of s <> Some true; sp_failed : ls_failed s <> None }.
(** It has failed or will at record [i] at the latest. *)
Definition doomed (i : Z) (s : live_state) : Prop :=
  spoilt s \/ exists j, j < i /\ course j s.

Section Phases.
Context {E : Env} {P : Prims} {J : Json} {Cli : ClientCryptoConfig}.
Variables (key spk : bytes) (hid : string) (attack : option string) (attack_index : Z).
Abbreviation pay := (process_and_yield "per_chunk" key spk hid).

Lemma triple_bind {A B} Pre (m : M (world * live_state) A) (k : A -> M (world * live_state) B) Mid Post :
  triple Pre m Mid -> (forall a, triple (Mid a) (k a) Post) -> triple Pre (bind m k) Post.
Proof.
  intros Hm Hk w s r w' s' Hs. unfold bind.
  destruct (m (w, s)) as [[a|e] [w1 s1]] eqn:Hr; intros H.
  - destruct (Hm _ _ _ _ _ Hs Hr) as [_ Hmid]. eapply Hk; [by apply Hmid|done].
  - injection H as <- <- <-. by destruct (Hm _ _ _ _ _ Hs Hr).
Qed.

Lemma triple_weaken {A} (Pre Pre' : live_state -> Prop) (m : M (world * live_state) A)
    (Post Post' : A -> live_state -> Prop) :
  triple Pre m Post -> (forall s, Pre' s -> Pre s) -> (forall a s, Post a s -> Post' a s) ->
  triple Pre' m Post'.
Proof. intros Hm H1 H2 w s r w' s' Hs H. destruct (Hm _ _ _ _ _ (H1 _ Hs) H) as [? Hp]. eauto. Qed.

(** A record that was processed: what holds of the state before its events
    are added, for each way the run can end. *)
Lemma pay_triple Pre Post rec :
  (forall s, Pre s -> out_ok s) ->
  (forall w s evs w' s', Pre s -> process "per_chunk" key spk hid (fst rec) (snd rec) (w, s)
     = (Ok evs, (w', s')) -> ls_out s' = ls_out s -> Forall unverified evs
       /\ Post (emit_events evs s')) ->
  triple Pre (pay rec) (fun _ => Post).
Proof.
  intros Hout Hok w s r w' s' Hs. unfold process_and_yield, bind.
  destruct (process _ _ _ _ _ _ _) as [[evs|e] [w1 s1]] eqn:Hp; intros H.
  - destruct (process_latched _ _ _ _ _ _ _ _ _ _ _ Hp) as (Ho & _).
    destruct (Hok _ _ _ _ _ Hs Hp Ho) as [He Hpost]. injection H as <- _ <-.
    split; [|done]. specialize (Hout _ Hs). destruct s1. unfold out_ok in *. cbn in *. subst.
    by apply Forall_app.
  - injection H as <- _ <-. split; [|done].
    destruct (process_latched _ _ _ _ _ _ _ _ _ _ _ Hp) as (Ho & _). unfold out_ok. rewrite Ho.
    by apply Hout.
Qed.

Lemma emit_state evs s :
  ls_failed (emit_events evs s) = ls_failed s /\ verdict_of (emit_events evs s) = verdict_of s
  /\ ls_terminal (emit_events evs s) = ls_terminal s /\ ls_expected (emit_events evs s) = ls_expected s
  /\ ls_held (emit_events evs s) = ls_held s /\ ls_out (emit_events evs s) = ls_out s ++ evs.
Proof. by destruct s. Qed.

(** Once the stream has failed, whatever is processed leaves it so. *)
Lemma pay_spoilt rec : triple spoilt (pay rec) (fun _ => spoilt).
Proof.
  apply pay_triple; [by intros s []|]. intros w s evs w' s' [Ho Hv Hf] Hp Hout.
  destruct (process_latched _ _ _ _ _ _ _ _ _ _ _ Hp) as (_ & _ & Hl).
  assert (ls_failed s' <> None) as Hf' by (rewrite Hl; done).
  destruct (failed_ok _ _ _ _ _ _ _ _ _ _ _ Hp Hf') as [He Hvd].
  destruct (emit_state evs s') as (E1 & E2 & _ & _ & _ & E3). split; [done|]. split.
  - unfold out_ok. rewrite E3, Hout. by apply Forall_app.
  - rewrite E2. by apply Hvd.
  - by rewrite E1.
Qed.

Lemma pay_chunk rec i h :
  kind_is "chunk" (fst rec) = true ->
  triple (fun s => course i s /\ ls_held s = h) (pay rec) (fun _ s => course (i + 1) s /\ ls_held s = h).
Proof.
  intros Hk. apply pay_triple; [by intros s [[] _]|]. intros w s evs w' s' [[Ho Hv Ht He] Hh] Hp Hout.
  destruct (process_latched _ _ _ _ _ _ _ _ _ _ _ Hp) as (_ & Hheld & _).
  destruct (per_chunk_ok _ _ _ _ _ _ _ _ _ _ _ eq_refl Hk Hp) as [He' _].
  pose proof (chunk_events _ _ _ _ _ _ Hk _ _ _ _ Hp) as Hev.
  pose proof (chunk_same_verdict _ _ _ _ _ _ Hk _ _ _ _ _ Hp) as Hvd.
  pose proof (chunk_same_terminal _ _ _ _ _ _ Hk _ _ _ _ _ Hp) as Htm.
  destruct (emit_state evs s') as (_ & E2 & E4 & E5 & E6 & E3). split; [done|].
  split; [|congruence]. split.
  - unfold out_ok. rewrite E3, Hout. by apply Forall_app.
  - rewrite E2. unfold same_verdict in Hvd. by rewrite Hvd.
  - rewrite E4. unfold same_terminal in Htm. congruence.
  - rewrite E5. lia.
Qed.

(** A record out of its place spoils the stream. *)
Lemma pay_fails rec i :
  (forall w s evs w' s', ls_expected s = i ->
     process "per_chunk" key spk hid (fst rec) (snd rec) (w, s) = (Ok evs, (w', s')) ->
     ls_failed s' <> None) ->
  triple (course i) (pay rec) (fun _ => spoilt).
Proof.
  intros Hf. apply pay_triple; [by intros s []|]. intros w s evs w' s' [Ho Hv _ He] Hp Hout.
  pose proof (Hf _ _ _ _ _ He Hp) as Hf'.
  destruct (failed_ok _ _ _ _ _ _ _ _ _ _ _ Hp Hf') as [Hev Hvd].
  destruct (emit_state evs s') as (E1 & E2 & _ & _ & _ & E3). split; [done|]. split.
  - unfold out_ok. rewrite E3, Hout. by apply Forall_app.
  - rewrite E2. by apply Hvd.
  - by rewrite E1.
Qed.

Lemma pay_misplaced rec i j :
  kind_is "chunk" (fst rec) = true -> dget "index" (fst rec) = Some (VInt j) -> j <> i ->
  triple (course i) (pay rec) (fun _ => spoilt).
Proof.
  intros Hk Hj Hne. apply pay_fails. intros w s evs w' s' He Hp Hn.
  destruct (per_chunk_ok _ _ _ _ _ _ _ _ _ _ _ eq_refl Hk Hp) as [_ Hi].
  specialize (Hi Hn). unfold dget_or in Hi. rewrite Hj in Hi. apply val_eq_int_VInt in Hi. lia.
Qed.

Lemma pay_miscounted rec i n :
  kind_is "final_per_chunk" (fst rec) = true -> dget "n_chunks" (fst rec) = Some (VInt n) -> n <> i ->
  triple (course i) (pay rec) (fun _ => spoilt).
Proof.
  intros Hk Hj Hne. apply pay_fails. intros w s evs w' s' He Hp Hn.
  pose proof (end_record_ok _ _ _ _ _ _ _ _ _ _ _ Hk Hp Hn) as Hi.
  unfold dget_or in Hi. rewrite Hj in Hi. apply val_eq_int_VInt in Hi. lia.
Qed.

Lemma pay_all_spoilt batch : triple spoilt (for_each batch pay) (fun _ => spoilt).
Proof.
  induction batch as [|rec batch IH].
  - intros w s r w' s' Hs [= <- _ <-]. split; [apply Hs|done].
  - eapply triple_bind; [apply pay_spoilt|]. done.
Qed.

(** A doomed stream fails at the record that shows it. *)
Lemma pay_doomed rec rest j :
  (kind_is "chunk" (fst rec) = true /\ dget "index" (fst rec) = Some (VInt j)
   \/ kind_is "final_per_chunk" (fst rec) = true /\ dget "n_chunks" (fst rec) = Some (VInt j)) ->
  triple (doomed j) (for_each (rec :: rest) pay) (fun _ => spoilt).
Proof.
  intros Hrec. eapply triple_bind; [|intros; apply pay_all_spoilt].
  intros w s r w' s' [Hs|(i & Hlt & Hs)] Hr; [by eapply pay_spoilt|].
  destruct Hrec as [[Hk Hj]|[Hk Hj]];
    [eapply (pay_misplaced rec i j)|eapply (pay_miscounted rec i j)]; eauto; lia.
Qed.

(** ** Lines *)
Definition rearranging (a : option string) : Prop :=
  a ∈ [Some "drop"; Some "reorder"; Some "duplicate"; Some "truncate"].

(** A property of the state that the timing of the first record keeps. *)
Definition stable (Pre : live_state -> Prop) : Prop :=
  forall q s, Pre s -> Pre (on_live (live_ttft q) s).

Lemma course_stable i : stable (course i).
Proof. intros q s [H1 H2 H3 H4]. destruct s as [[]]. by split. Qed.
Lemma course_held_stable i h : stable (fun s => course i s /\ ls_held s = h).
Proof. intros q s [H Hh]. split; [by apply course_stable|]. by destruct s. Qed.
Lemma spoilt_stable : stable spoilt.
Proof. intros q s [H1 H2 H3]. destruct s as [[]]. by split. Qed.
Lemma doomed_stable i : stable (doomed i).
Proof.
  intros q s [H|(j & Hj & H)]; [left; by apply spoilt_stable|right].
  exists j. split; [done|]. by apply course_stable.
Qed.
Lemma doomed_out i s : doomed i s -> out_ok s.
Proof. by intros [[]|(j & _ & [])]. Qed.

(** What follows the choice of a batch. *)
Abbreviation deliver d fin := (
  let* batch := attack_batch "per_chunk" attack attack_index d fin in
  if attack_is attack "truncate" && String.eqb "per_chunk" "buffer_and_sign" && fin then ret true
  else for_each batch pay ;;; ret (attack_is attack "truncate" && is_target attack_index d)).
Abbreviation line_of := (live_line "per_chunk" key spk hid attack attack_index).

Lemma line_triple Pre Post t0 line d k :
  sse_data line = Ok (Some (VDict d)) -> dget "kind" d = Some (VStr k) ->
  (forall s, Pre s -> out_ok s) -> stable Pre ->
  triple Pre (deliver d (String.prefix "final" k)) Post -> triple Pre (line_of t0 line) Post.
Proof.
  intros Hd Hk Hout Hst Hdel w s r w' s' Hs. unfold live_line. rewrite Hd.
  unfold bind at 1, of_result at 1. cbn [str_in]. unfold dmem. rewrite Hk.
  unfold bind at 1, of_result at 1. cbn [negb]. unfold live_record.
  unfold bind at 1, self at 1. unfold bind at 1.
  assert (exists w1 s1, (match lm_ttft_ms (ls_metrics s) with
     | VNone => let* t := on_fst perf_counter in upd_live (live_ttft ((t - t0) * 1000)%Q)
     | _ => ret tt end) (w, s) = (Ok tt, (w1, s1)) /\ Pre s1) as (w1 & s1 & -> & Hs1).
  { destruct (lm_ttft_ms _); try by exists w, s.
    eexists _, _. split; [reflexivity|]. by apply Hst. }
  unfold bind at 1, of_result at 1. cbn [as_dict].
  unfold bind at 1, of_result at 1. unfold dget_or. rewrite Hk. cbn [starts_final].
  intros H. by eapply Hdel.
Qed.

(** Any line, after a failure. *)
Lemma line_spoilt t0 line : triple spoilt (line_of t0 line) (fun _ => spoilt).
Proof.
  assert (Hstill : forall A (m : M (world * live_state) A), moves eq m ->
            triple spoilt m (fun _ => spoilt)).
  { intros A m Hm w s r w' s' Hs H. apply Hm in H as <-. split; [apply Hs|done]. }
  assert (Hheld : forall h, triple spoilt (step_live (set_held h)) (fun _ => spoilt)).
  { intros h w s r w' s' [H1 H2 H3] [= <- _ <-]. destruct s. by split. }
  unfold live_line. eapply triple_bind; [apply Hstill; moves_tac|]. intros [v|]; [|apply Hstill; moves_tac].
  eapply triple_bind; [apply Hstill; moves_tac|]. intros [|]; cbn [negb]; [|apply Hstill; moves_tac].
  unfold live_record. eapply triple_bind; [apply Hstill; moves_tac|]. intros s0.
  eapply (triple_bind _ _ _ (fun _ => spoilt)).
  { destruct (lm_ttft_ms _); try solve [apply Hstill; moves_tac].
    eapply triple_bind; [apply Hstill; moves_tac|]. intros t w s r w' s' Hs [= <- _ <-].
    pose proof (spoilt_stable ((t - t0) * 1000)%Q s Hs) as Hs'. split; [apply Hs'|done]. }
  intros []. eapply triple_bind; [apply Hstill; moves_tac|]. intros d.
  eapply triple_bind; [apply Hstill; moves_tac|]. intros fin.
  eapply (triple_bind _ _ _ (fun _ => spoilt)).
  { unfold attack_batch. eapply triple_bind; [apply Hstill; moves_tac|]. intros s1.
    repeat case_match; try solve [apply Hstill; moves_tac]; (eapply triple_bind; [apply Hheld|]);
      intros; apply Hstill; moves_tac. }
  intros batch. case_match; [apply Hstill; moves_tac|].
  eapply triple_bind; [apply pay_all_spoilt|]. intros []. apply Hstill. moves_tac.
Qed.

Lemma lines_spoilt t0 lines cut :
  triple spoilt (live_lines "per_chunk" key spk hid attack attack_index t0 lines cut) (fun _ => spoilt).
Proof.
  induction lines as [|l lines IH]; cbn [live_lines].
  - intros w s r w' s' Hs. destruct cut; intros [= <- _ <-]; (split; [apply Hs|done]).
  - eapply triple_bind; [apply line_spoilt|]. intros []; [|done].
    intros w s r w' s' Hs [= <- _ <-]. split; [apply Hs|done].
Qed.

(** The records of a stream: chunks that say their position, and an end record
    that says how many there are. *)
Definition chunk_line (i : Z) (line : string) : Prop := exists d,
  sse_data line = Ok (Some (VDict d)) /\ dget "kind" d = Some (VStr "chunk")
  /\ dget "index" d = Some (VInt i).
Definition end_line (n : Z) (line : string) : Prop := exists d,
  sse_data line = Ok (Some (VDict d)) /\ dget "kind" d = Some (VStr "final_per_chunk")
  /\ dget "n_chunks" d = Some (VInt n).

(** The batch of a record that is not the target: itself first. *)
Lemma other_batch d fin w s :
  rearranging attack -> is_target attack_index d = false ->
  exists b rest h, attack_batch "per_chunk" attack attack_index d fin (w, s)
    = (Ok ((d, b) :: rest), (w, set_held h s))
    /\ (ls_held s = None -> b = false /\ rest = [] /\ h = None)
    /\ (kind_is "chunk" d = false -> rest = []).
Proof.
  intros Ha Ht. unfold attack_batch, bind, self. rewrite Ht.
  assert (attack_is attack "tamper_ciphertext" = false /\ attack_is attack "tamper_signature" = false
          /\ attack_is attack "strip_checkpoints" = false) as (-> & -> & ->)
    by (unfold rearranging in Ha; set_unfold in Ha; naive_solver).
  cbn [andb orb negb]. rewrite !andb_false_r. cbn [String.eqb Ascii.eqb Bool.eqb andb].
  destruct (attack_is attack "reorder" && kind_is "chunk" d) eqn:Hr; [destruct (ls_held s) as [held|] eqn:Hh|].
  - exists true, [(held, true)], None. apply andb_true_iff in Hr as [_ ->]. done.
  - exists false, [], None. split; [|done]. f_equal. f_equal. destruct s; cbn in *; by subst.
  - exists false, [], (ls_held s). split; [|done]. do 2 f_equal. by destruct s.
Qed.

Lemma set_held_course i h s : course i s -> course i (set_held h s).
Proof. intros [H1 H2 H3 H4]. destruct s. by split. Qed.
Lemma set_held_doomed i h s : doomed i s -> doomed i (set_held h s).
Proof.
  intros [[H1 H2 H3]|(j & Hj & H)]; [left; destruct s; by split|right].
  exists j. split; [done|]. by apply set_held_course.
Qed.

(** Returning a value after [m]. *)
Lemma triple_then {A B} Pre (m : M (world * live_state) A) (b : B) Post :
  (forall s, Post s -> out_ok s) -> triple Pre m (fun _ => Post) ->
  triple Pre (m ;;; ret b) (fun b' s => b' = b /\ Post s).
Proof.
  intros Hout Hm. eapply triple_bind; [exact Hm|]. intros a w s r w' s' Hs [= <- _ <-].
  split; [by apply Hout|]. by intros b' [= <-].
Qed.

Lemma line_doomed t0 line j :
  rearranging attack -> (chunk_line j line /\ j <> attack_index) \/ end_line j line ->
  triple (doomed j) (line_of t0 line) (fun _ => spoilt).
Proof.
  intros Ha Hline.
  assert (exists d k, sse_data line = Ok (Some (VDict d)) /\ dget "kind" d = Some (VStr k)
    /\ is_target attack_index d = false
    /\ (kind_is "chunk" d = true /\ dget "index" d = Some (VInt j)
        \/ kind_is "final_per_chunk" d = true /\ dget "n_chunks" d = Some (VInt j)))
    as (d & k & Hd & Hk & Ht & Hrec).
  { destruct Hline as [[(d & Hd & Hk & Hi) Hj]|(d & Hd & Hk & Hn)]; exists d; eexists;
      (split_and!; [done|done| |]); unfold is_target, kind_is, dget_or; rewrite Hk.
    - rewrite Hi. simpl. lia.
    - rewrite Hi. by left.
    - done.
    - rewrite Hn. by right. }
  eapply line_triple; [done|done|by intros; eapply doomed_out|apply doomed_stable|].
  intros w s r w' s' Hs. unfold bind at 1.
  destruct (other_batch d (String.prefix "final" k) w s Ha Ht) as (b & rest & h & -> & _).
  rewrite andb_false_r. cbn [andb]. intros H.
  assert (triple (doomed j) (for_each ((d, b) :: rest) pay ;;; ret (attack_is attack "truncate" && is_target attack_index d)) (fun _ => spoilt)) as Hm.
  { eapply triple_bind; [by apply pay_doomed|]. intros [] w0 s0 r0 w0' s0' Hs0 [= <- _ <-].
    split; [apply Hs0|done]. }
  eapply Hm; [|exact H]. by apply set_held_doomed.
Qed.

Lemma line_course t0 line i :
  rearranging attack -> chunk_line i line -> i <> attack_index ->
  triple (fun s => course i s /\ ls_held s = None) (line_of t0 line)
    (fun b s => b = false /\ course (i + 1) s /\ ls_held s = None).
Proof.
  intros Ha (d & Hd & Hk & Hi) Hne.
  assert (is_target attack_index d = false) as Ht
    by (unfold is_target, kind_is, dget_or; rewrite Hk, Hi; simpl; lia).
  assert (kind_is "chunk" d = true) as Hkc by (unfold kind_is; by rewrite Hk).
  eapply line_triple; [done|done|by intros s [[] _]|apply course_held_stable|].
  intros w s r w' s' [Hs Hh]. unfold bind at 1.
  destruct (other_batch d (String.prefix "final" "chunk") w s Ha Ht) as (b & rest & h & -> & Hb & _).
  destruct (Hb Hh) as (-> & -> & ->). rewrite andb_false_r, Ht, andb_false_r. cbn [andb]. intros H.
  assert (triple (fun s => course i s /\ ls_held s = None)
    (for_each [(d, false)] pay ;;; ret false)
    (fun b s => b = false /\ course (i + 1) s /\ ls_held s = None)) as Hm.
  { eapply (triple_bind _ _ _ (fun _ s => course (i + 1) s /\ ls_held s = None)).
    - eapply triple_bind; [by apply pay_chunk|]. intros [] w0 s0 r0 w0' s0' Hs0 [= <- _ <-].
      split; [apply Hs0|done].
    - intros [] w0 s0 r0 w0' s0' Hs0 [= <- _ <-]. split; [apply Hs0|]. by intros a [= <-]. }
  eapply Hm; [|exact H]. split; [by apply set_held_course|by destruct s].
Qed.

Definition stopped (s : live_state) : Prop := out_ok s /\ verdict_of s <> Some true.

Lemma course_doomed i j s : course i s -> i < j -> doomed j s.
Proof. intros H Hlt. right. by exists i. Qed.

(** The attack itself. *)
Lemma line_target t0 line :
  rearranging attack -> chunk_line attack_index line ->
  triple (fun s => course attack_index s /\ ls_held s = None) (line_of t0 line)
    (fun stop s => if stop : bool then stopped s else doomed (attack_index + 1) s).
Proof.
  intros Ha (d & Hd & Hk & Hi).
  assert (kind_is "chunk" d = true) as Hkc by (unfold kind_is; by rewrite Hk).
  assert (is_target attack_index d = true) as Ht
    by (unfold is_target, dget_or; rewrite Hkc, Hi; simpl; lia).
  eapply line_triple; [done|done|by intros s [[] _]|apply course_held_stable|].
  assert (forall b, triple (fun s => course attack_index s /\ ls_held s = None)
    (for_each [(d, b)] pay) (fun _ s => course (attack_index + 1) s)) as Hone.
  { intros b. eapply triple_bind; [by apply (pay_chunk (d, b) attack_index None)|].
    intros [] w0 s0 r0 w0' s0' [Hs0 _] [= <- _ <-]. split; [apply Hs0|done]. }
  intros w s r w' s' Hs. unfold attack_batch, bind at 1 2, self. rewrite Ht.
  unfold rearranging in Ha. set_unfold in Ha. destruct Ha as [->|[->|[->|[->|[]]]]];
    cbn [attack_is String.eqb Ascii.eqb Bool.eqb andb orb ret bind of_result step_live]; intros H.
  - injection H as <- _ <-. destruct Hs as [Hc _]. split; [apply Hc|]. intros a [= <-].
    apply (course_doomed attack_index); [done|lia].
  - injection H as <- _ <-. destruct Hs as [Hc _]. apply (set_held_course _ (Some d)) in Hc.
    split; [apply Hc|]. intros a [= <-]. apply (course_doomed attack_index); [done|lia].
  - assert (triple (fun s => course attack_index s /\ ls_held s = None)
      (for_each [(d, false); (d, true)] pay ;;; ret false) (fun b s => b = false /\ spoilt s)) as Hm.
    { apply triple_then; [by intros ? []|].
      eapply triple_bind; [by apply (pay_chunk (d, false) attack_index None)|].
      intros []. eapply triple_bind; [eapply triple_weaken;
        [apply (pay_misplaced (d, true) (attack_index + 1) attack_index); [done|done|lia]
        |by intros s0 [Hs0 _]|done]|].
      intros []. apply (pay_all_spoilt []). }
    destruct (Hm _ _ _ _ _ Hs H) as [Ho Hp]. split; [done|]. intros a Hr.
    destruct (Hp a Hr) as [-> Hsp]. by left.
  - assert (triple (fun s => course attack_index s /\ ls_held s = None)
      (for_each [(d, false)] pay ;;; ret true) (fun b s => b = true /\ course (attack_index + 1) s)) as Hm.
    { apply triple_then; [by intros ? []|apply Hone]. }
    destruct (Hm _ _ _ _ _ Hs H) as [Ho Hp]. split; [done|]. intros a Hr.
    destruct (Hp a Hr) as [-> [H1 H2 _ _]]. by split.
Qed.

Abbreviation lines_of := (live_lines "per_chunk" key spk hid attack attack_index).

Lemma lines_doomed t0 chunks j n fin rest cut :
  rearranging attack -> attack_index < j -> Forall2 chunk_line (seqZ j (n - j)) chunks ->
  j <= n -> end_line n fin ->
  triple (doomed j) (lines_of t0 (chunks ++ fin :: rest) cut) (fun _ => stopped).
Proof.
  intros Ha Hj Hc Hn Hf.
  assert (forall l, triple (doomed j) (line_of t0 l) (fun _ => spoilt) ->
            forall ls, triple (doomed j) (lines_of t0 (l :: ls) cut) (fun _ => stopped)) as Hgo.
  { intros l Hl ls. cbn [live_lines].
    apply (triple_weaken (doomed j) _ _ (fun _ => spoilt)); [|done|intros _ s [H1 H2 _]; by split].
    eapply triple_bind; [exact Hl|]. intros []; [|apply lines_spoilt].
    intros w s r w' s' Hs [= <- _ <-]. split; [apply Hs|done]. }
  destruct chunks as [|l chunks].
  - apply Hgo, line_doomed; [done|]. right. apply Forall2_nil_inv_r in Hc.
    assert (n = j) as ->; [|done].
    destruct (decide (n = j)); [done|]. rewrite seqZ_cons in Hc by lia. done.
  - apply Hgo, line_doomed; [done|]. left.
    assert (0 < n - j) as Hpos.
    { destruct (decide (0 < n - j)); [done|]. rewrite seqZ_nil in Hc by lia.
      apply Forall2_nil_inv_l in Hc. done. }
    rewrite seqZ_cons in Hc by lia. apply Forall2_cons in Hc as [Hl _]. split; [done|lia].
Qed.

Lemma lines_course t0 chunks i n fin rest cut :
  rearranging attack -> i <= attack_index < n -> Forall2 chunk_line (seqZ i (n - i)) chunks ->
  end_line n fin ->
  triple (fun s => course i s /\ ls_held s = None) (lines_of t0 (chunks ++ fin :: rest) cut)
    (fun _ => stopped).
Proof.
  intros Ha Hi Hc Hf. remember (seqZ i (n - i)) as is_ eqn:His. revert i Hi His.
  induction Hc as [|k l ks chunks Hl Hc IH]; intros i Hi His.
  { rewrite seqZ_cons in His by lia. done. }
  rewrite seqZ_cons in His by lia. injection His as -> ->. cbn [app live_lines].
  destruct (decide (i = attack_index)) as [->|Hne].
  - eapply triple_bind; [by apply line_target|]. intros [].
    + intros w s r w' s' Hs [= <- _ <-]. split; [apply Hs|done].
    + apply (lines_doomed t0 chunks _ n); [done|lia| |lia|done].
      by replace (n - (attack_index + 1)) with (Z.pred (n - attack_index)) by lia.
  - eapply triple_bind; [by apply line_course|]. intros [].
    + intros w s r w' s' [? _]. done.
    + eapply triple_weaken; [apply (IH (i + 1)); [lia|f_equal; lia]| |done]. by intros s [_ Hs].
Qed.

Lemma summary_unverified config_name k m :
  lm_stream_fully_verified m <> Some true -> unverified (EvSummary (summary_dict "per_chunk" attack config_name k m)).
Proof. intros H. cbn. destruct (lm_stream_fully_verified m) as [[]|]; done. Qed.

(** The end of the loop adds no positive verdict. *)
Lemma end_stopped t0 config_name k :
  triple stopped (live_end "per_chunk" attack t0 config_name k) (fun _ => out_ok).
Proof.
  intros w s r w' s' [Ho Hv]. unfold live_end.
  destruct s as [[] ? ? fl te ? ? o]. unfold out_ok, verdict_of in *. cbn in Ho, Hv.
  destruct te; [|destruct fl]; intros [= <- _ <-]; (split; [|intros _ _]); unfold out_ok; cbn [ls_out emit_events];
    rewrite <- ?app_assoc, ?Forall_app; split_and!; try done; repeat constructor;
    by apply summary_unverified.
Qed.

(** Only the data lines of the response matter. *)
Definition is_data (line : string) : bool :=
  match sse_payload line with Some _ => true | None => false end.

Lemma lines_data t0 lines cut σ :
  lines_of t0 lines cut σ = lines_of t0 (List.filter is_data lines) cut σ.
Proof.
  revert σ. induction lines as [|l lines IH]; intros σ; [done|]. cbn [live_lines List.filter].
  destruct (is_data l) eqn:Hl.
  - cbn [live_lines]. unfold bind. destruct (live_line _ _ _ _ _ _ _ _ σ) as [[[]|e] σ1]; [done| |done].
    apply IH.
  - rewrite <- IH. unfold is_data in Hl. unfold live_line, sse_data.
    destruct (sse_payload l); [done|]. reflexivity.
Qed.

(** C32: A live per-chunk stream whose records are rearranged is never reported as
    verified, whatever the cryptography answers.  When the data lines of the
    response are chunks that say the positions 0, ..., n-1 and an end record
    that says n, then for each of the four rearranging attacks on a position
    below n, for any keys, signatures and ciphertexts and whatever follows, no
    event of the run carries a positive verdict -- neither a final event nor
    the summary -- also when the run is cut short or raises. *)
Theorem rearranged_stream_unverified t0 n chunks fin rest config_name k resp
    (w w' : world) (chain : option HashChainClientState) r s'
    (Hattack : rearranging attack) (Hindex : 0 <= attack_index < n)
    (Hchunks : Forall2 chunk_line (seqZ 0 n) chunks) (Hend : end_line n fin)
    (Hresp : List.filter is_data (resp_lines resp) = chunks ++ fin :: rest)
    (Hrun : live_consume "per_chunk" key spk hid attack attack_index t0 config_name k resp
              (w, set_live_chain chain live_state0) = (r, (w', s'))) :
  Forall unverified (ls_out s').
Proof.
  assert (triple (fun s => course 0 s /\ ls_held s = None)
    (live_consume "per_chunk" key spk hid attack attack_index t0 config_name k resp)
    (fun _ => out_ok)) as Hm.
  { unfold live_consume. eapply triple_bind.
    - intros w0 s0 r0 w0' s0' Hs0. rewrite lines_data, Hresp. revert w0 s0 r0 w0' s0' Hs0.
      apply (lines_course t0 chunks 0 n); [done|done| |done]. by rewrite Z.sub_0_r.
    - intros []. apply end_stopped. }
  destruct (Hm w (set_live_chain chain live_state0) r w' s') as [Ho _]; [|exact Hrun|exact Ho].
  split; [|done]. split; try done. constructor.
Qed.
End Phases.

(** ** A tampered prediction *)

(** What the page shows for a tampered response.  The signature is checked
    before the envelope is opened, so an altered ciphertext is reported by
    both: the signature over the altered envelope, and the AEAD when it
    refuses.  An altered signature is reported by the signature alone: the
    row still carries the prediction, marked as decrypted and without an
    error. *)
Theorem tampered_demo_reported {E : Env} {P : Prims} {J : Json} {JL : JsonLaws J} {N : Type}
    (Cli : ClientCryptoConfig) (key spk n ct sg pt : bytes) (timing d : dict) (debug : val)
    (w w' : world) (net : N) (row meta : dict) (valid : bool)
    (Hct : ct <> []) (Hsg : sg <> [])
    (Hj : jsonable (VDict (SecurePredictResponse (_b64e n) (_b64e ct) (_b64e sg) timing debug)) = true)
    (Hopen : aead_decrypt key n ct = Ok pt) (Hpt : json_loads pt = Ok (VDict d)) :
  let body := encode (json_text (VDict (SecurePredictResponse (_b64e n) (_b64e ct) (_b64e sg) timing debug))) in
  let shown target := (let* raw := of_result (tampered_body body (Some target)) in
    let* v := of_result (json_loads raw) in
    let* j := of_result (as_dict v) in check_response Cli key spk j) ((w, net), row) in
  (verify (n ++ flip_middle ct) sg spk w = (Ok (valid, meta), w') ->
   aead_decrypt key n (flip_middle ct) = Raise AEADError ->
   exists row' σ', shown "ciphertext" = (Ok tt, (σ', row'))
     /\ dget "valid_signature" row' = Some (VBool valid)
     /\ dget "decryption_ok" row' = Some (VBool false)
     /\ has_truthy "error" row' = true)
  /\ (verify (n ++ ct) (flip_middle sg) spk w = (Ok (false, meta), w') ->
      exists row' σ', shown "signature" = (Ok tt, (σ', row'))
        /\ dget "valid_signature" row' = Some (VBool false)
        /\ dget "decryption_ok" row' = Some (VBool true)
        /\ dget "prediction" row' = Some (dget_or "prediction" VNone d)
        /\ dget "error" row' = dget "error" row).
Proof.
  intros body shown. unfold shown, tampered_body, body. split; intros Hver.
  - intros Hrej.
    destruct (tamper_run "ciphertext" "ciphertext" ct _ eq_refl Hj eq_refl Hct) as [-> Hj'].
    unfold bind at 1 2 3, of_result. rewrite json_roundtrip by done. cbn [as_dict].
    unfold check_response, getitem, tampered. row_get.
    cbn [SecurePredictResponse dget String.eqb Ascii.eqb Bool.eqb rbind]. rewrite !b64d_b64e.
    unfold bind, of_result, put_row, on_snd, on_fst, modify. cbn [rbind]. cbv beta iota. row_get.
    cbn [SecurePredictResponse dget String.eqb Ascii.eqb Bool.eqb rbind]. rewrite ?b64d_b64e. cbv beta iota.
    rewrite Hver. cbv beta iota. rewrite Hrej.
    cbv beta iota. eexists _, _. split; [reflexivity|].
    split_and!; [by row_get|by row_get|]. unfold has_truthy, dget_or. by row_get.
  - destruct (tamper_run "signature" "signature" sg _ eq_refl Hj eq_refl Hsg) as [-> Hj'].
    unfold bind at 1 2 3, of_result. rewrite json_roundtrip by done. cbn [as_dict].
    unfold check_response, getitem, tampered. row_get.
    cbn [SecurePredictResponse dget String.eqb Ascii.eqb Bool.eqb rbind]. rewrite !b64d_b64e.
    unfold bind, of_result, put_row, on_snd, on_fst, modify. cbn [rbind]. cbv beta iota. row_get.
    cbn [SecurePredictResponse dget String.eqb Ascii.eqb Bool.eqb rbind]. rewrite ?b64d_b64e. cbv beta iota.
    rewrite Hver. cbv beta iota. rewrite Hopen.
    cbv beta iota. rewrite Hpt. cbn [as_dict]. cbv beta iota.
    eexists _, _. split; [reflexivity|]. split_and!; by row_get.
Qed.

(** ** The live stream at concrete inputs *)
From S2P Require Import Sha256 ConfigsLaws Toy StreamingWitness.

#[local] Existing Instances toy_env toy_prims toy_json.

Definition pc_response : response := mkResponse 200 (Raise JSONDecodeError) "" pc_lines None.

(** The server's two-chunk stream, its chunks swapped on the way. *)
Abbreviation swapped_run :=
  (live_consume (Cli := cfg_client ecdhe) "per_chunk" skey spk hid (Some "reorder") 0 0
    "classical_ecdhe" None pc_response (world0, set_live_chain None live_state0)).

(** Unattacked it ends verified; swapped it was read to its end and was not. *)
Example honest_live_events :
  map (fun e => match e with
                | EvChunk _ t _ st _ _ _ => (st, t)
                | EvFinal v _ _ => (if v then "verified" else "unverified", None)
                | EvCovered _ => ("covered", None)
                | EvSummary _ => ("summary", None)
                | EvError _ => ("error", None)
                end)
    (ls_out (snd (snd (live_consume (Cli := cfg_client ecdhe) "per_chunk" skey spk hid None 0 0
       "classical_ecdhe" None pc_response (world0, set_live_chain None live_state0)))))
  = [("verified", Some "He"); ("verified", Some "y"); ("covered", None); ("verified", None);
     ("summary", None)].
Proof. vm_compute. reflexivity. Qed.

Definition line_record (l : string) : dict :=
  match sse_data l with Ok (Some (VDict d)) => d | _ => [] end.

Lemma rearranged_stream_unverified_witness :
  length (ls_out (snd (snd swapped_run))) = 4%nat /\ Forall unverified (ls_out (snd (snd swapped_run))).
Proof.
  split; [vm_compute; reflexivity|].
  destruct swapped_run as [r [w' s']] eqn:Hrun. simpl.
  apply (rearranged_stream_unverified (Cli := cfg_client ecdhe) skey spk hid (Some "reorder") 0 0 2
           (firstn 2 (List.filter is_data pc_lines)) (nth 2 (List.filter is_data pc_lines) "")
           (skipn 3 (List.filter is_data pc_lines)) "classical_ecdhe" None pc_response
           world0 w' None r s').
  - apply list_elem_of_In. right. left. reflexivity.
  - lia.
  - change (seqZ 0 2) with [0; 1].
    assert (firstn 2 (List.filter is_data pc_lines)
            = [nth 0 (List.filter is_data pc_lines) ""; nth 1 (List.filter is_data pc_lines) ""]) as ->
      by (vm_compute; reflexivity).
    apply Forall2_cons. split; [|apply Forall2_cons; split; [|constructor]].
    + exists (line_record (nth 0 (List.filter is_data pc_lines) "")). split_and!; vm_compute; reflexivity.
    + exists (line_record (nth 1 (List.filter is_data pc_lines) "")). split_and!; vm_compute; reflexivity.
  - exists (line_record (nth 2 (List.filter is_data pc_lines) "")). split_and!; vm_compute; reflexivity.
  - vm_compute. reflexivity.
  - exact Hrun.
Defined.
