(* ===== verification/Dashboard.v ===== *)
(** * The dashboard's data ([webapp/data_loader.py], [webapp/findings.py])

    Loading the recorded frames, the runs a page can be scoped to, the merged
    list of runs, resource samples, and the Key Findings page that passes the
    paper's runs through [PaperStats] and [Dominance].  A frame is its columns
    and its typed rows, a missing value is [None] and a missing column is
    missing in every row; reading a CSV file and the names [glob] finds are
    arguments.  The labels of runs and the cache are left out. *)
From stdpp Require Import sorting.
From Stdlib Require Import Lqa.
From S2P Require Import Prelude PyBytes PyVal PyList PyNum Instrumentation Aggregate PaperStats PaperStatsProps PaperCells Dominance SignatureModel.

(** ** Frames *)
Record frame (A : Type) := mkFrame { fm_columns : list string; fm_rows : list A }.
Arguments mkFrame {A} _ _.
Arguments fm_columns {A} _.
Arguments fm_rows {A} _.
Definition has_col {A} (df : frame A) (c : string) : bool := existsb (String.eqb c) (fm_columns df).
(** [df[p]] of a condition on rows. *)
Definition rows_where {A} (p : A -> bool) (df : frame A) : frame A :=
  mkFrame (fm_columns df) (List.filter p (fm_rows df)).

(** Rows that say which run they are from. *)
Class HasRun (A : Type) := { run_id_of : A -> option string; set_run_id : option string -> A -> A }.
Class HasRunLaws A {H : HasRun A} := {
  run_id_of_set v (a : A) : run_id_of (set_run_id v a) = v;
  set_run_id_same (a : A) : set_run_id (run_id_of a) a = a;
}.

(** [pd.concat(frames, ignore_index=True)]. *)
Definition concat_frames {A} (fs : list (frame A)) : frame A :=
  mkFrame (unique (concat (map fm_columns fs))) (concat (map fm_rows fs)).
Definition sorted_paths (paths : list string) : list string := merge_sort str_le paths.

#[export] Instance request_row_run : HasRun request_row := {
  run_id_of := rq_run_id;
  set_run_id v r := mkRequestRow v (rq_config r) (rq_concurrency r) (rq_repetition r) (rq_index r)
                      (rq_error r) (rq_metrics r);
}.
#[export] Instance request_row_run_laws : HasRunLaws request_row.
Proof. split; [done|]. by intros []. Qed.

(** ** Runs *)
Definition LEGACY_RUN_ID : string := "legacy".
Definition LATEST : string := "__latest__".

Section Runs.
Context {A : Type} `{HasRun A}.

Definition _fill_legacy_run_id (df : frame A) : frame A :=
  if has_col df "run_id"
  then mkFrame (fm_columns df)
         (map (fun r => set_run_id (Some (default LEGACY_RUN_ID (run_id_of r))) r) (fm_rows df))
  else mkFrame (fm_columns df ++ ["run_id"]) (map (set_run_id (Some LEGACY_RUN_ID)) (fm_rows df)).

(** [sorted(..., reverse=True)] of distinct strings. *)
Definition list_runs (df : option (frame A)) : list string :=
  match df with
  | Some df =>
      if has_col df "run_id" then reverse (merge_sort str_le (remove_dups (omap run_id_of (fm_rows df))))
      else []
  | None => []
  end.

Definition latest_run_id (df : frame A) : option string :=
  match List.filter (fun r => negb (String.eqb r LEGACY_RUN_ID)) (list_runs (Some df)) with
  | r :: _ => Some r
  | [] => head (list_runs (Some df))
  end.

Definition is_run (run_id : string) (r : A) : bool := bool_decide (run_id_of r = Some run_id).

(** One run, the latest, or everything; nothing when the run has no rows. *)
Definition scope_run (run_id : option string) (df : frame A) : option (frame A) :=
  let run_id := match run_id with
                | Some s => if String.eqb s LATEST then latest_run_id df else run_id
                | None => None
                end in
  match run_id with
  | None => Some df
  | Some s =>
      match fm_rows (rows_where (is_run s) df) with
      | [] => None
      | _ => Some (rows_where (is_run s) df)
      end
  end.

Definition available_runs (df : option (frame A)) : list string * option string :=
  match df with
  | None => ([], None)
  | Some df => let df := _fill_legacy_run_id df in (list_runs (Some df), latest_run_id df)
  end.
End Runs.

(** ** The concurrency sweep's rows *)
Section Raw.
Context (read_csv : string -> result (frame request_row)).

(** A file that cannot be read is skipped. *)
Definition load_raw_df (paths : list string) : option (frame request_row) :=
  match omap (fun p => match read_csv p with Ok f => Some f | Raise _ => None end) (sorted_paths paths) with
  | [] => None
  | frames => Some (concat_frames frames)
  end.

Record inventory_row := mkInventoryRow {
  iv_file : string; iv_config : option string; iv_concurrency : option Z; iv_repetition : option Z;
  iv_n_requests : option Z; iv_n_errors : option Z; iv_error_rate : option Q }.
Definition unreadable (file : string) : inventory_row := mkInventoryRow file None None None None None None.

(** One row per file, also for one that cannot be read or lacks a column. *)
Definition inventory_entry (basename : string -> string) (p : string) : inventory_row :=
  let file := basename p in
  match read_csv p with
  | Raise _ => unreadable file
  | Ok df =>
      if negb (has_col df "error") then unreadable file
      else
        let n_errors := py_len (List.filter is_err (fm_rows df)) in
        match fm_rows df with
        | [] => mkInventoryRow file None None None (Some 0) (Some n_errors) None
        | r :: _ =>
            if forallb (has_col df) ["config"; "concurrency"; "repetition"]
            then mkInventoryRow file (Some (rq_config r)) (Some (rq_concurrency r)) (Some (rq_repetition r))
                   (Some (py_len (fm_rows df))) (Some n_errors)
                   (Some (inject_Z n_errors / inject_Z (py_len (fm_rows df)))%Q)
            else unreadable file
        end
  end.
Definition raw_file_inventory (basename : string -> string) (paths : list string) : list inventory_row :=
  map (inventory_entry basename) (sorted_paths paths).

Definition get_available_runs (paths : list string) : list string * option string :=
  available_runs (load_raw_df paths).

(** Trimmed rows and their summary; [sqrt] as in [summarize]. *)
Definition get_trimmed_and_summary (sqrt : Q -> Q) (paths : list string) (warmup_fraction : Q)
    (run_id : option string) : result (option (list request_row * list summary_row)) :=
  match load_raw_df paths with
  | None => Ok None
  | Some df =>
      match scope_run run_id (_fill_legacy_run_id df) with
      | None => Ok None
      | Some df =>
          let trimmed := discard_warmup (fm_rows df) warmup_fraction in
          let? s := summarize sqrt trimmed in
          Ok (Some (trimmed, s))
      end
  end.

Definition get_significance (mannwhitneyu : list Q -> list Q -> Q * Q) (metric : string)
    (trimmed : option (list request_row)) : result (option (list significance_row)) :=
  match trimmed with
  | None | Some [] => Ok None
  | Some df =>
      let? s := mann_whitney_vs_control Z.le rq_config rq_concurrency
                  (fun r => match dget metric (rq_metrics r) with Some v => v | None => None end) is_err
                  mannwhitneyu df None in
      Ok (Some s)
  end.
End Raw.

(** ** The streaming sweep's rows *)
Record stream_record := mkStreamRecord {
  sc_run_id : option string; sc_error : option string; sc_row : stream_row }.
#[export] Instance stream_record_run : HasRun stream_record := {
  run_id_of := sc_run_id;
  set_run_id v r := mkStreamRecord v (sc_error r) (sc_row r);
}.
#[export] Instance stream_record_run_laws : HasRunLaws stream_record.
Proof. split; [done|]. by intros []. Qed.

Section Streams.
Context (read_csv : string -> result (frame stream_record)).

Definition load_streaming_df (paths : list string) (run_id : option string)
    : result (option (frame stream_record)) :=
  match sorted_paths paths with
  | [] => Ok None
  | paths =>
      let? frames := rmap read_csv paths in
      Ok (scope_run run_id (_fill_legacy_run_id (concat_frames frames)))
  end.

Definition get_available_streaming_runs (paths : list string) : result (list string * option string) :=
  let? df := load_streaming_df paths None in
  Ok (match df with
      | None => ([], None)
      | Some df => (list_runs (Some df), latest_run_id df)
      end).

(** [load_streaming] of [analysis/paper_figures.py]: the successful rows of a
    run's files. *)
Definition stream_error (r : stream_record) : bool :=
  match sc_error r with Some e => negb (String.eqb e "") | None => false end.
Definition load_streaming (paths : list string) (run_id : string) : result (list stream_record) :=
  match sorted_paths paths with
  | [] => Raise (SystemExit ("No streaming CSVs for run_id " +:+ run_id))
  | paths =>
      let? frames := rmap read_csv paths in
      let df := concat_frames frames in
      if has_col df "error" then Ok (List.filter (fun r => negb (stream_error r)) (fm_rows df))
      else Raise (KeyError "error")
  end.
End Streams.

(** ** The merged list of runs *)
Inductive run_type := Concurrency | Streaming.
#[export] Instance run_type_eq_dec : EqDecision run_type.
Proof. solve_decision. Defined.

(** The key of an entry; [None] stands for all runs combined. *)
Abbreviation run_key := (run_type * option string)%type.

(** A stable sort on the run, last first. *)
Fixpoint insert_last_first (e : run_type * string) (l : list (run_type * string)) : list (run_type * string) :=
  match l with
  | [] => [e]
  | x :: r => if decide (str_le (snd x) (snd e)) then e :: l else x :: insert_last_first e r
  end.
Definition last_first (l : list (run_type * string)) : list (run_type * string) :=
  foldr insert_last_first [] l.

(** [max(l, key=...)]: the first of the largest. *)
Definition max_run (l : list (run_type * string)) : option (run_type * string) :=
  match l with
  | [] => None
  | x :: r => Some (fold_left (fun m e => if decide (str_le (snd e) (snd m)) then m else e) r x)
  end.

Definition timed_runs (conc_runs stream_runs : list string) : list (run_type * string) :=
  last_first (map (pair Concurrency) conc_runs ++ map (pair Streaming) stream_runs).
Definition default_run (timed : list (run_type * string)) : option run_key :=
  match max_run (List.filter (fun e => negb (String.eqb (snd e) LEGACY_RUN_ID)) timed) with
  | Some (t, r) => Some (t, Some r)
  | None => option_map (fun '(t, r) => (t, Some r)) (head timed)
  end.
Definition combined_entry (t : run_type) (runs : list string) : list run_key :=
  match runs with [] => [] | _ => [(t, None)] end.
Definition unified_runs (conc_runs stream_runs : list string) : list run_key * option run_key :=
  let timed := timed_runs conc_runs stream_runs in
  (combined_entry Concurrency conc_runs ++ combined_entry Streaming stream_runs
     ++ map (fun '(t, r) => (t, Some r)) timed,
   default_run timed).

Definition get_unified_runs (read_raw : string -> result (frame request_row)) (raw_paths : list string)
    (read_stream : string -> result (frame stream_record)) (stream_paths : list string)
    : result (list run_key * option run_key) :=
  let conc_runs := fst (get_available_runs read_raw raw_paths) in
  let? stream := get_available_streaming_runs read_stream stream_paths in
  Ok (unified_runs conc_runs (fst stream)).

(** ** Resource samples *)
Record sweep_sample := mkSweepSample {
  ss_run_id : option string; ss_run_type : option string; ss_config : option string }.

Section Samples.
(** [json.load] of a summary file. *)
Context (load_json : string -> result (frame sweep_sample)).

(** Files that cannot be read are skipped; [None]: a frame with nothing. *)
Definition load_sweep_summaries (paths : list string) (run_id : option string) : option (frame sweep_sample) :=
  let df := concat_frames (omap (fun p => match load_json p with Ok f => Some f | Raise _ => None end)
                             (sorted_paths paths)) in
  match fm_rows df with
  | [] => None
  | _ =>
      Some (match run_id with
            | Some s => if has_col df "run_id" then rows_where (fun r => bool_decide (ss_run_id r = Some s)) df
                        else df
            | None => df
            end)
  end.

Definition fill_run_type (r : sweep_sample) : sweep_sample :=
  mkSweepSample (ss_run_id r) (Some (default "concurrency" (ss_run_type r))) (ss_config r).
(** A sample that does not say its type is the concurrency sweep's. *)
Definition load_resource_summaries (run_type : string) (paths : list string) (run_id : option string)
    : list sweep_sample :=
  match load_sweep_summaries paths run_id with
  | None => []
  | Some df => List.filter (fun r => bool_decide (ss_run_type r = Some run_type)) (map fill_run_type (fm_rows df))
  end.

(** The samples of the paper's runs, of the latest of them for each
    configuration. *)
Definition latest_sample (samples : list sweep_sample) (r : sweep_sample) : bool :=
  match ss_config r with
  | Some c =>
      bool_decide (str_max (omap ss_run_id (List.filter (fun x => bool_decide (ss_config x = Some c)) samples))
                   = ss_run_id r)
  | None => false
  end.
Definition paper_resources (paths run_ids : list string) : list sweep_sample :=
  match load_sweep_summaries paths None with
  | None => []
  | Some df =>
      if negb (has_col df "run_id") then fm_rows df
      else
        let res := List.filter (fun r => match ss_run_id r with
                                         | Some s => existsb (String.eqb s) run_ids
                                         | None => false
                                         end) (fm_rows df) in
        let res := if has_col df "run_type"
                   then List.filter (fun r => bool_decide (ss_run_type (fill_run_type r) = Some "concurrency")) res
                   else res in
        List.filter (latest_sample res) res
  end.
End Samples.

(** The JSON documents of an experiment; one that cannot be read is skipped. *)
Definition load_documents {A} (load_json : string -> result A) (paths : list string) : list A :=
  omap (fun p => match load_json p with Ok d => Some d | Raise _ => None end) (sorted_paths paths).

(** ** The Key Findings page *)

(** The runs named in the manifest. *)
Definition concurrency_run_ids (manifest : dict) : list val :=
  List.filter truthy (map (fun k => dget_or k VNone manifest)
    ["concurrency"; "concurrency_supplement"; "concurrency_control_2rt"; "concurrency_hybrid_kex_pq"]).

Definition WARMUP : Q := 5 # 100.

(** [load_concurrency], or nothing where it exits. *)
Definition page_rows (load_raw : result table) (run_ids : list string) : result (option (list request_row)) :=
  match run_ids with
  | [] => Ok None
  | _ =>
      match (let? raw := load_raw in load_concurrency raw run_ids WARMUP) with
      | Ok (df, _, _) => Ok (Some df)
      | Raise (SystemExit _) => Ok None
      | Raise e => Raise e
      end
  end.
Definition paper_concurrency_df := page_rows.

(** Where a failed request failed. *)
Definition fail_stage (r : request_row) : string :=
  if handshake_failed r && negb (String.eqb (rq_config r) "control") then "handshake" else "request".
Abbreviation fail_key := (string * (Z * string))%type.
Definition fail_key_of (r : request_row) : fail_key := (rq_config r, (rq_concurrency r, fail_stage r)).
Definition fail_key_le : relation fail_key := lex_le str_le (lex_le Z.le str_le).
#[export] Instance fail_key_le_dec : RelDecision fail_key_le := _.
Definition fail_counts (df : list request_row) : list (fail_key * Z) :=
  map (fun '(k, g) => (k, py_len g)) (groupby fail_key_le fail_key_of (List.filter is_err df)).

Section Page.
Context {G : Type} {GEN : Generator G} {SC : Scipy}.

Record concurrency_page := mkConcurrencyPage {
  cp_stats : list cell_stats; cp_cmp : list (comparison * Q); cp_fail : list (fail_key * Z) }.

Definition page_pairs (df : list request_row) : list (string * string) :=
  let present c := existsb (String.eqb c) (map rq_config df) in
  map (fun c => (c, "control")) (List.filter (fun c => negb (String.eqb c "control") && present c) CONFIGS)
  ++ (if present "control_2rt" then map (fun c => (c, "control_2rt")) (List.filter present PROTECTED) else [])
  ++ (if present "classical_ecdhe"
      then map (fun c => (c, "classical_ecdhe"))
             (List.filter present ["hybrid"; "hybrid_kex"; "full_pqc"; "hybrid_kex_pq"]) else []).

Definition concurrency (load_raw : result table) (run_ids : list string) : result (option concurrency_page) :=
  let? df := page_rows load_raw run_ids in
  match df with
  | None => Ok None
  | Some df =>
      let? cmp := comparison_stats df (page_pairs df) 7 in
      Ok (Some (mkConcurrencyPage (concurrency_stats df) cmp (fail_counts df)))
  end.

(** [streaming] of the page: nothing without a run or its files. *)
Definition streaming (read_csv : string -> result (frame stream_record)) (paths : list string)
    (run_id : option string) : result (option (list stream_record)) :=
  match run_id with
  | None => Ok None
  | Some s =>
      if String.eqb s "" then Ok None
      else match load_streaming read_csv paths s with
           | Ok df => Ok (Some df)
           | Raise (SystemExit _) => Ok None
           | Raise e => Raise e
           end
  end.

Definition dominance_page (load_raw : result table) (run_ids : list string)
    (read_csv : string -> result (frame stream_record)) (paths : list string) (streaming_run : option string)
    (summaries : list hndl_summary) : result (option dominance) :=
  let? df := page_rows load_raw run_ids in
  match df with
  | None => Ok None
  | Some df =>
      let? sdf := streaming read_csv paths streaming_run in
      let? d := dominance_frame df (map sc_row (default [] sdf)) summaries in
      Ok (Some d)
  end.

(** Configurations with and without an authenticated handshake, run back to
    back: the column [auth_handshake] is a number, one for true. *)
Definition is_auth (r : request_row) : bool :=
  match dget "auth_handshake" (rq_metrics r) with Some (Some q) => Qeq_bool q 1 | _ => false end.
Definition auth_named (r : request_row) : request_row :=
  if is_auth r
  then mkRequestRow (rq_run_id r) (rq_config r +:+ "+auth") (rq_concurrency r) (rq_repetition r) (rq_index r)
         (rq_error r) (rq_metrics r)
  else r.
Record auth_row := mkAuthRow {
  ah_config : string; ah_verify_us : float; ah_extra_bytes : Z; ah_diff_ms : float; ah_lo : float; ah_hi : float }.
Definition auth_entry (df : list request_row) (cmp : list (comparison * Q)) (c : string) : result auth_row :=
  match cmp with
  | [] => Raise (KeyError "config")
  | _ =>
      let r := find (fun r => String.eqb (cm_config r) (c +:+ "+auth")) (map fst cmp) in
      let first (f : comparison -> float) := match r with Some r => f r | None => None end in
      Ok (mkAuthRow c
            (fscale 1000 (np_median (values_of "handshake_auth_verify_ms"
               (List.filter (fun r => String.eqb (rq_config r) (c +:+ "+auth")) (_ok df)))))
            (if existsb (String.eqb c) ["full_pqc"; "hybrid_kex_pq"] then 3309 else 71)
            (first cm_diff_ms) (first cm_ci95_lo) (first cm_ci95_hi))
  end.
Definition auth_cost (load_raw : result table) (run_ids : list string) : result (option (list auth_row)) :=
  match run_ids with
  | [] => Ok None
  | _ =>
      let? raw := load_raw in
      if negb (has_column raw "run_id") then Raise (KeyError "run_id")
      else
        match discard_warmup (map pp_row (List.filter (in_runs run_ids) (tb_rows raw))) WARMUP with
        | [] => Ok None
        | rows =>
            if negb (has_column raw "auth_handshake") then Raise (KeyError "auth_handshake")
            else
              let df := map auth_named rows in
              let has c := existsb (String.eqb c) (map rq_config df) in
              let present := List.filter (fun c => has c && has (c +:+ "+auth")) PROTECTED in
              let? cmp := comparison_stats df (map (fun c => (c +:+ "+auth", c)) present) 19 in
              let? rows := rmap (auth_entry df cmp) present in
              Ok (Some rows)
        end
  end.
End Page.

(** Signatures, bytes and exposure of a checkpointed hash chain. *)
Definition signature_bytes (n_tokens chunk : Z) (k : option Z) (sig_bytes : Z) : Z * Z * Z :=
  let n_chunks := Qround.Qceiling (inject_Z n_tokens / inject_Z chunk) in
  let '(n_sig, exposure) :=
    match k with
    | Some k => if k =? 0 then (1, n_chunks * chunk) else (n_chunks / k + 1, k * chunk)
    | None => (1, n_chunks * chunk)
    end in
  (n_sig, n_sig * sig_bytes, Z.min exposure n_tokens).

(** ** Selecting a run *)

(** A condition that the cell decides. *)
Definition by_cell (p : request_row -> bool) (pk : cell_key -> bool) : Prop := forall r, p r = pk (cell_of r).

Section Scope.
Context (p : request_row -> bool) (pk : cell_key -> bool) (Hp : by_cell p pk).

Lemma filter_filter_cell k rows :
  pk k = true -> List.filter (in_cell k) (List.filter p rows) = List.filter (in_cell k) rows.
Proof.
  intros Hk. induction rows as [|r rows IH]; [done|]. cbn [List.filter]. destruct (in_cell k r) eqn:Hin.
  - assert (p r = true) as ->; [|cbn [List.filter]; by rewrite Hin, IH].
    apply bool_decide_eq_true in Hin. by rewrite Hp, Hin.
  - destruct (p r); [cbn [List.filter]; by rewrite Hin|done].
Qed.

Lemma keep_rows_filter d d' before rows :
  (forall k, pk k = true -> d' k = d k) ->
  keep_rows d' (List.filter p before) (List.filter p rows) = List.filter p (keep_rows d before rows).
Proof.
  intros Hd. revert before; induction rows as [|r rows IH]; intros before; [done|]. cbn [List.filter keep_rows].
  specialize (IH (before ++ [r])). rewrite List.filter_app in IH. cbn [List.filter] in IH. cbv zeta.
  change (fun x => bool_decide (cell_of x = cell_of r)) with (in_cell (cell_of r)).
  destruct (p r) eqn:Hr.
  - rewrite Hp in Hr. cbn [keep_rows]. cbv zeta.
    change (fun x => bool_decide (cell_of x = cell_of r)) with (in_cell (cell_of r)).
    rewrite (filter_filter_cell _ _ Hr), (Hd _ Hr), IH. destruct (_ <=? _); [|done].
    cbn [List.filter]. by rewrite Hp, Hr.
  - rewrite app_nil_r in IH. rewrite IH. destruct (_ <=? _); [|done]. cbn [List.filter]. by rewrite Hr.
Qed.

(** Rows with different keys have one order. *)
Lemma sort_rows_filter rows :
  NoDup (map row_key rows) ->
  sort_by row_key_le row_key (List.filter p rows) = List.filter p (sort_by row_key_le row_key rows).
Proof.
  intros Hnd. apply (StronglySorted_unique_strong (by_key row_key_le row_key)).
  - intros x y Hx Hy H1 H2. rewrite (sort_by_perm row_key_le row_key) in Hx.
    apply list_elem_of_In, filter_In in Hx as [Hx _]. apply list_elem_of_In, filter_In in Hy as [Hy _].
    apply (Permutation_in _ (sort_by_perm row_key_le row_key rows)) in Hy.
    assert (row_key x = row_key y) as He by (by apply (anti_symm (lex_le cell_le Z.le))).
    apply list_elem_of_In, list_elem_of_lookup_1 in Hx as (i & Hi). apply list_elem_of_In, list_elem_of_lookup_1 in Hy as (j & Hj).
    assert (i = j) as ->; [|congruence]. apply (NoDup_lookup _ _ _ (row_key x) Hnd); rewrite list_lookup_fmap.
    + by rewrite Hi.
    + by rewrite Hj, He.
  - apply sort_by_sorted; apply _.
  - apply StronglySorted_List_filter, sort_by_sorted; apply _.
  - rewrite (sort_by_perm row_key_le row_key). apply filter_Permutation. symmetry. apply sort_by_perm.
Qed.

Lemma discard_warmup_filter rows f :
  NoDup (map row_key rows) ->
  discard_warmup (List.filter p rows) f = List.filter p (discard_warmup rows f).
Proof.
  intros Hnd. unfold discard_warmup. rewrite (sort_rows_filter rows Hnd).
  apply (keep_rows_filter _ _ []). intros k Hk. unfold cell_size.
  change (fun x => bool_decide (cell_of x = k)) with (in_cell k). by rewrite (filter_filter_cell _ _ Hk).
Qed.
End Scope.

Lemma reflexive_str_le s : str_le s s.
Proof. destruct (total str_le s s); done. Qed.
Lemma StronglySorted_reverse {A} (R : relation A) l : StronglySorted R l -> StronglySorted (flip R) (reverse l).
Proof.
  induction 1 as [|x l _ IH Hx]; [constructor|]. rewrite reverse_cons. apply StronglySorted_app. split_and!; try done.
  - intros y z Hy ->%list_elem_of_singleton. rewrite elem_of_reverse in Hy. apply list_elem_of_In in Hy.
    exact (proj1 (List.Forall_forall _ _) Hx y Hy).
  - repeat constructor.
Qed.

Section RunLists.
Context {A : Type} `{HasRun A} {HL : HasRunLaws A}.

Lemma fill_has_run (df : frame A) : has_col (_fill_legacy_run_id df) "run_id" = true.
Proof.
  unfold _fill_legacy_run_id. destruct (has_col df "run_id") eqn:Hc; [done|]. unfold has_col. simpl.
  apply existsb_exists. exists "run_id". split; [|done]. apply in_app_iff. right. by left.
Qed.
Lemma fill_run (df : frame A) r : r ∈ fm_rows (_fill_legacy_run_id df) -> exists s, run_id_of r = Some s.
Proof.
  unfold _fill_legacy_run_id. destruct (has_col df "run_id"); cbn [fm_rows];
    intros (x & <- & _)%list_elem_of_In%in_map_iff; eexists; apply run_id_of_set.
Qed.

Lemma elem_of_runs (df : frame A) s :
  has_col df "run_id" = true -> s ∈ list_runs (Some df) <-> exists r, r ∈ fm_rows df /\ run_id_of r = Some s.
Proof.
  intros Hc. unfold list_runs. rewrite Hc, elem_of_reverse, merge_sort_Permutation, elem_of_remove_dups.
  apply list_elem_of_omap.
Qed.
Lemma runs_NoDup (df : option (frame A)) : NoDup (list_runs df).
Proof.
  unfold list_runs. destruct df as [df|]; [|constructor]. destruct (has_col df "run_id"); [|constructor].
  rewrite reverse_Permutation, merge_sort_Permutation. apply NoDup_remove_dups.
Qed.
Lemma runs_newest_first (df : option (frame A)) : StronglySorted (flip str_le) (list_runs df).
Proof.
  unfold list_runs. destruct df as [df|]; [|constructor]. destruct (has_col df "run_id"); [|constructor].
  apply StronglySorted_reverse. apply (StronglySorted_merge_sort str_le).
Qed.

(** Every row is in the rows of exactly one run. *)
Lemma runs_cover (l : list string) (rows : list A) :
  NoDup l -> (forall r, r ∈ rows -> exists s, run_id_of r = Some s /\ s ∈ l) ->
  Permutation (concat (map (fun s => List.filter (is_run s) rows) l)) rows.
Proof.
  intros Hl Hrows. pose proof (filter_keys_perm run_id_of (map Some l) rows) as Hf. rewrite map_map in Hf.
  unfold is_run. rewrite Hf by (by apply NoDup_fmap_2; [apply _|]).
  rewrite forallb_filter_id; [done|]. apply forallb_forall. intros r Hr. apply bool_decide_eq_true.
  apply list_elem_of_In in Hr. destruct (Hrows r Hr) as (s & -> & Hs). apply list_elem_of_In, in_map. by apply list_elem_of_In.
Qed.
End RunLists.

(** The run a choice stands for; [None]: all of them. *)
Definition chosen_run (latest run_id : option string) : option string :=
  match run_id with Some s => if String.eqb s LATEST then latest else Some s | None => None end.
Definition of_run {A} `{HasRun A} (run : option string) (rows : list A) : list A :=
  match run with Some s => List.filter (is_run s) rows | None => rows end.

Lemma scope_run_rows {A} `{HasRun A} run_id (df : frame A) :
  match scope_run run_id df with
  | Some d => fm_rows d = of_run (chosen_run (latest_run_id df) run_id) (fm_rows df)
  | None => exists s, chosen_run (latest_run_id df) run_id = Some s /\ List.filter (is_run s) (fm_rows df) = []
  end.
Proof.
  unfold scope_run, chosen_run, of_run. destruct run_id as [s|]; [|done]. destruct (String.eqb s LATEST).
  - destruct (latest_run_id df) as [s'|]; [|done]. cbn [fm_rows rows_where].
    destruct (List.filter (is_run s') (fm_rows df)) eqn:Hf; [by exists s'|]. by rewrite <- Hf.
  - cbn [fm_rows rows_where]. destruct (List.filter (is_run s) (fm_rows df)) eqn:Hf; [by exists s|]. by rewrite <- Hf.
Qed.

(** The latest run is one of them, and the newest of those that are not the
    legacy bucket. *)
Definition newest (runs : list string) (s : string) : Prop :=
  s ∈ runs /\ forall s', s' ∈ runs -> s' <> LEGACY_RUN_ID -> s <> LEGACY_RUN_ID /\ str_le s' s.
Lemma latest_newest {A} `{HasRun A} (df : frame A) s :
  latest_run_id df = Some s -> newest (list_runs (Some df)) s.
Proof.
  unfold latest_run_id. pose proof (runs_newest_first (Some df)) as Hs.
  apply (StronglySorted_List_filter _ (fun r => negb (String.eqb r LEGACY_RUN_ID))) in Hs. revert Hs.
  set (p := fun r => _). destruct (List.filter p _) as [|r l] eqn:Hf; intros Hs.
  - intros Hh. split; [destruct (list_runs (Some df)); [done|]; injection Hh as ->; left|].
    intros s' Hin Hne%String.eqb_neq. exfalso. apply list_elem_of_In in Hin.
    assert (In s' (List.filter p (list_runs (Some df)))) as Hx by (apply filter_In; split; [done|unfold p; by rewrite Hne]).
    by rewrite Hf in Hx.
  - intros [= <-]. assert (forall x, x ∈ list_runs (Some df) /\ x <> LEGACY_RUN_ID <-> In x (r :: l)) as Hx.
    { intros x. rewrite <- Hf, filter_In, list_elem_of_In. unfold p. destruct (String.eqb_spec x LEGACY_RUN_ID); naive_solver. }
    destruct (proj2 (Hx r) (or_introl eq_refl)) as [Hr Hne]. split; [done|]. intros s' Hin Hne'. split; [done|].
    apply StronglySorted_inv in Hs as [_ Hall]. destruct (proj1 (Hx s') (conj Hin Hne')) as [<-|Hl].
    + apply reflexive_str_le.
    + exact (proj1 (List.Forall_forall _ _) Hall s' Hl).
Qed.

Lemma summarize_cases sqrt df :
  match summarize sqrt df with Ok _ => df <> [] | Raise e => e = KeyError "concurrency" /\ df = [] end.
Proof.
  destruct df as [|r df]; [by vm_compute|].
  by destruct (summary_covers_cells sqrt (r :: df) ltac:(done)) as (rows & -> & _).
Qed.

(** C39: Scoping the dashboard to a run loses and changes nothing.  When no two
    rows have the same cell and request index, the rows a page gets for a run
    are exactly those rows of the trimmed table of everything that are of the
    run; the latest run is the newest one listed that is not the legacy bucket;
    the runs listed are distinct, newest first, and their rows together are the
    whole table; a page gets nothing only for a run that is not listed, and
    fails only where nothing is left to summarise. *)
Theorem run_scope_commutes (read_csv : string -> result (frame request_row)) (sqrt : Q -> Q)
    (paths : list string) (warmup_fraction : Q) (df : frame request_row)
    (Hdf : load_raw_df read_csv paths = Some df)
    (Hrows : NoDup (map row_key (fm_rows (_fill_legacy_run_id df)))) :
  let all := discard_warmup (fm_rows (_fill_legacy_run_id df)) warmup_fraction in
  let runs := fst (get_available_runs read_csv paths) in
  let latest := snd (get_available_runs read_csv paths) in
  NoDup runs /\ StronglySorted (flip str_le) runs /\ (forall s, latest = Some s -> newest runs s)
  /\ Permutation (concat (map (fun s => List.filter (is_run s) all) runs)) all
  /\ forall run_id, match get_trimmed_and_summary read_csv sqrt paths warmup_fraction run_id with
     | Ok (Some (rows, summary)) => rows = of_run (chosen_run latest run_id) all /\ summarize sqrt rows = Ok summary
     | Ok None => exists s, chosen_run latest run_id = Some s /\ s ∉ runs
     | Raise e => e = KeyError "concurrency" /\ of_run (chosen_run latest run_id) all = []
     end.
Proof.
  intros all runs latest. unfold runs, latest, get_available_runs, available_runs. rewrite Hdf. cbn [fst snd].
  set (full := _fill_legacy_run_id df) in *. pose proof (fill_has_run df) as Hc. fold full in Hc.
  assert (forall s, by_cell (is_run s) (fun k => bool_decide (fst k = Some s))) as Hby by done.
  assert (forall r, r ∈ all -> r ∈ fm_rows full) as Hsub.
  { intros r Hr. apply list_elem_of_In. destruct (discard_trims_each_cell (fm_rows full) warmup_fraction (cell_of r))
      as (dropped & Hperm & _). apply list_elem_of_In in Hr.
    assert (In r (List.filter (in_cell (cell_of r)) (fm_rows full))) as Hin; [|by apply filter_In in Hin as [? _]].
    rewrite Hperm. apply in_app_iff. right. apply filter_In. split; [done|]. by apply bool_decide_eq_true. }
  split_and!.
  - apply runs_NoDup.
  - apply runs_newest_first.
  - apply latest_newest.
  - apply runs_cover; [apply runs_NoDup|]. intros r Hr%Hsub. destruct (fill_run df r Hr) as (s & Hs).
    exists s. split; [done|]. apply (elem_of_runs full s Hc). by exists r.
  - intros run_id. unfold get_trimmed_and_summary. rewrite Hdf. fold full.
    pose proof (scope_run_rows run_id full) as Hscope. destruct (scope_run run_id full) as [d|].
    + assert (discard_warmup (fm_rows d) warmup_fraction = of_run (chosen_run (latest_run_id full) run_id) all) as He.
      { rewrite Hscope. unfold of_run. destruct (chosen_run _ run_id) as [s|]; [|done].
        by apply (discard_warmup_filter _ _ (Hby s)). }
      rewrite He. pose proof (summarize_cases sqrt (of_run (chosen_run (latest_run_id full) run_id) all)) as Hs.
      destruct (summarize sqrt _) as [sm|e] eqn:Hsm; cbn [rbind]; [by split|done].
    + destruct Hscope as (s & Hs & Hnone). exists s. split; [done|].
      intros (r & Hr & Hrun)%(elem_of_runs full s Hc). apply list_elem_of_In in Hr.
      assert (In r (List.filter (is_run s) (fm_rows full))) as Hin; [|by rewrite Hnone in Hin].
      apply filter_In. split; [done|]. by apply bool_decide_eq_true.
Qed.

(** ** The page and the paper *)

(** The failures of a cell and a stage are the rows with that key. *)
Lemma fail_counts_spec df k n :
  (k, n) ∈ fail_counts df <->
  n = py_len (List.filter (fun r => bool_decide (fail_key_of r = k)) (List.filter is_err df)) /\ 0 < n.
Proof.
  unfold fail_counts. rewrite list_elem_of_In, in_map_iff. split.
  - intros ([k' g] & [= -> <-] & Hin%list_elem_of_In). apply groupby_elem in Hin as [-> Hne]. split; [done|].
    destruct (List.filter _ _); [done|]. unfold py_len. simpl. lia.
  - intros [-> Hpos]. exists (k, List.filter (fun r => bool_decide (fail_key_of r = k)) (List.filter is_err df)).
    split; [done|]. unfold groupby. apply in_map_iff. exists k. split; [done|]. apply list_elem_of_In.
    rewrite merge_sort_Permutation, elem_of_remove_dups, list_elem_of_In, in_map_iff.
    destruct (List.filter (fun r => bool_decide (fail_key_of r = k)) (List.filter is_err df)) as [|r l] eqn:Hf; [done|].
    assert (In r (r :: l)) as Hr by by left. rewrite <- Hf in Hr. apply filter_In in Hr as [Hr Hk].
    exists r. split; [by apply bool_decide_eq_true in Hk|done].
Qed.
Lemma filter_filter_and {A} (f g : A -> bool) l :
  List.filter f (List.filter g l) = List.filter (fun x => f x && g x) l.
Proof.
  induction l as [|x l IH]; [done|]. cbn [List.filter]. destruct (g x); cbn [List.filter]; [|by rewrite andb_false_r].
  rewrite andb_true_r. destruct (f x); by rewrite IH.
Qed.

(** The failures of a level at the handshake. *)
Definition at_handshake (r : request_row) : bool := handshake_failed r && negb (String.eqb (rq_config r) "control").
Lemma stage_rows df cfg conc (stage : string) (p : request_row -> bool) :
  (forall r, bool_decide (fail_stage r = stage) = p r) ->
  List.filter (fun r => bool_decide (fail_key_of r = (cfg, (conc, stage)))) (List.filter is_err df)
  = List.filter p (List.filter is_err (List.filter (in_level cfg conc) df)).
Proof.
  intros Hp. rewrite !filter_filter_and. apply filter_ext. intros r. rewrite <- Hp. unfold fail_key_of, in_level.
  destruct (is_err r); [|by rewrite !andb_false_r]. rewrite !andb_true_r.
  apply eq_true_iff_eq. rewrite !andb_true_iff, !bool_decide_eq_true, String.eqb_eq, Z.eqb_eq. naive_solver.
Qed.
Lemma stage_handshake r : bool_decide (fail_stage r = "handshake") = at_handshake r.
Proof. unfold fail_stage, at_handshake. by destruct (handshake_failed r && _). Qed.
Lemma stage_request r : bool_decide (fail_stage r = "request") = negb (at_handshake r).
Proof. unfold fail_stage, at_handshake. by destruct (handshake_failed r && _). Qed.

(** What the page and the paper count is the same. *)
Lemma failure_cell_counts df conc cfg :
  match failure_cell df conc cfg with
  | [] => forall stage n, ((cfg, (conc, stage)), n) ∉ fail_counts df
  | row :: _ => forall n,
      (((cfg, (conc, "handshake")), n) ∈ fail_counts df <-> n = fr_at_handshake row /\ 0 < n)
      /\ (((cfg, (conc, "request")), n) ∈ fail_counts df <-> n = fr_at_request row /\ 0 < n)
  end.
Proof.
  unfold failure_cell. cbv zeta.
  change (fun r => String.eqb (rq_config r) cfg && (rq_concurrency r =? conc)) with (in_level cfg conc).
  destruct (List.filter (in_level cfg conc) df) as [|r0 rows] eqn:Hf.
  - intros stage n [-> Hpos]%fail_counts_spec. revert Hpos.
    rewrite (stage_rows df cfg conc stage (fun r => bool_decide (fail_stage r = stage))) by done.
    by rewrite Hf.
  - set (g := r0 :: rows) in *. intros n. cbn [fr_at_handshake fr_at_request]. rewrite !fail_counts_spec.
    rewrite (stage_rows df cfg conc _ _ stage_handshake), (stage_rows df cfg conc _ _ stage_request), Hf.
    assert (py_len (List.filter at_handshake (List.filter is_err g))
            = if String.eqb cfg "control" then 0 else py_len (List.filter handshake_failed (List.filter is_err g))) as <-.
    { assert (forall r, In r g -> rq_config r = cfg) as Hg.
      { intros r Hr. rewrite <- Hf in Hr. apply filter_In in Hr as [_ Hr]. apply andb_true_iff in Hr as [Hr _].
        by apply String.eqb_eq. }
      assert (List.filter at_handshake (List.filter is_err g)
              = List.filter (fun r => handshake_failed r && negb (String.eqb cfg "control")) (List.filter is_err g)) as ->.
      { apply filter_ext_in. intros r [Hr _]%filter_In. unfold at_handshake. by rewrite (Hg r Hr). }
      destruct (String.eqb cfg "control"); cbn [negb].
      - by rewrite (filter_ext _ (fun _ => false)), List.filter_false by (intros; apply andb_false_r).
      - by rewrite (filter_ext _ handshake_failed) by (intros; apply andb_true_r). }
    pose proof (List.filter_length at_handshake (List.filter is_err g)) as Hlen. unfold py_len.
    split; split; intros [-> H]; (split; [lia|lia]).
Qed.

(** C40: The Key Findings page agrees with the paper.  What it shows of its runs
    are the cell statistics and the comparisons the paper's script computes of
    the same rows, from the same pairs and seed, and its failure counts are
    those of the paper's failure rows, cell by cell and stage by stage; it
    shows nothing only without runs or where the script exits, and fails only
    where the script's selection or comparison does. *)
Theorem page_agrees_with_paper {G} {GEN : Generator G} {SC : Scipy} (load_raw : result table) (run_ids : list string) :
  let selected := (let? raw := load_raw in load_concurrency raw run_ids WARMUP) in
  match concurrency load_raw run_ids with
  | Ok (Some page) => exists df provisional label, selected = Ok (df, provisional, label)
      /\ cp_stats page = concurrency_stats df
      /\ comparison_stats df (comparison_pairs (map rq_config df)) 7 = Ok (cp_cmp page)
      /\ forall conc cfg, match failure_cell df conc cfg with
         | [] => forall stage n, ((cfg, (conc, stage)), n) ∉ cp_fail page
         | row :: _ => forall n,
             (((cfg, (conc, "handshake")), n) ∈ cp_fail page <-> n = fr_at_handshake row /\ 0 < n)
             /\ (((cfg, (conc, "request")), n) ∈ cp_fail page <-> n = fr_at_request row /\ 0 < n)
         end
  | Ok None => run_ids = [] \/ exists msg, selected = Raise (SystemExit msg)
  | Raise e => selected = Raise e
      \/ exists df provisional label, selected = Ok (df, provisional, label)
           /\ comparison_stats df (comparison_pairs (map rq_config df)) 7 = Raise e
  end.
Proof.
  intros selected. unfold concurrency, page_rows. fold selected. destruct run_ids as [|id ids]; [by left|].
  destruct selected as [[[df provisional] label]|e] eqn:Hsel; cbn [rbind].
  - change (page_pairs df) with (comparison_pairs (map rq_config df)).
    destruct (comparison_stats df _ 7) as [cmp|e] eqn:Hcmp; cbn [rbind].
    + exists df, provisional, label. split_and!; try done. intros conc cfg. apply failure_cell_counts.
    + right. by exists df, provisional, label.
  - destruct e; cbn [rbind]; try (by left). right. by eexists.
Qed.

(** ** The merged list of runs *)
Definition newer_first (a b : run_type * string) : Prop := str_le (snd b) (snd a).

Lemma insert_perm e l : Permutation (insert_last_first e l) (e :: l).
Proof.
  induction l as [|x l IH]; [done|]. cbn [insert_last_first]. destruct (decide _); [done|]. rewrite IH. constructor.
Qed.
Lemma last_first_perm l : Permutation (last_first l) l.
Proof. induction l as [|e l IH]; [done|]. unfold last_first in *. cbn [foldr]. by rewrite insert_perm, IH. Qed.

Lemma insert_sorted e l : StronglySorted newer_first l -> StronglySorted newer_first (insert_last_first e l).
Proof.
  assert (Transitive newer_first) as Htr by (intros a b c ? ?; unfold newer_first in *; by trans (snd b)).
  induction 1 as [|x l Hl IH Hx]; [repeat constructor|]. cbn [insert_last_first]. destruct (decide _) as [Hle|Hn].
  - constructor; [by constructor|]. constructor; [done|]. eapply Forall_impl; [exact Hx|]. intros y. by apply Htr.
  - constructor; [done|]. rewrite insert_perm. constructor; [|done]. unfold newer_first.
    by destruct (total str_le (snd x) (snd e)).
Qed.
Lemma last_first_sorted l : StronglySorted newer_first (last_first l).
Proof. induction l as [|e l IH]; [constructor|]. by apply insert_sorted. Qed.

Lemma max_run_spec l m : max_run l = Some m -> m ∈ l /\ forall e, e ∈ l -> str_le (snd e) (snd m).
Proof.
  destruct l as [|x l]; [done|]. cbn [max_run]. intros [= <-].
  set (step := fun m e => if decide (str_le (snd e) (snd m)) then m else e).
  assert (forall l x, (fold_left step l x = x \/ fold_left step l x ∈ l)
    /\ str_le (snd x) (snd (fold_left step l x)) /\ forall e, e ∈ l -> str_le (snd e) (snd (fold_left step l x))) as H.
  { clear. induction l as [|y l IH]; intros x; cbn [fold_left].
    { split; [by left|]. split; [apply reflexive_str_le|]. by intros e ?%elem_of_nil. }
    destruct (IH (step x y)) as (H1 & H2 & H3).
    assert (str_le (snd x) (snd (step x y)) /\ str_le (snd y) (snd (step x y)) /\ (step x y = x \/ step x y = y))
      as (Hx & Hy & Hor).
    { unfold step. destruct (decide _) as [Hle|Hn]; (split_and!; [..|by (left + right)]); try done;
        try apply reflexive_str_le. by destruct (total str_le (snd x) (snd y)). }
    split; [|split; [by trans (snd (step x y))|]].
    - destruct H1 as [->|H1]; [|right; by right]. destruct Hor as [->| ->]; [by left|right; by left].
    - intros e [->|He]%elem_of_cons; [by trans (snd (step x y))|by apply H3]. }
  destruct (H l x) as (H1 & H2 & H3). split.
  - destruct H1 as [->|H1]; [left|by right].
  - intros e [->|He]%elem_of_cons; [done|by apply H3].
Qed.

Definition runs_of_type (conc_runs stream_runs : list string) (t : run_type) : list string :=
  match t with Concurrency => conc_runs | Streaming => stream_runs end.
Lemma elem_of_timed conc_runs stream_runs t r :
  (t, r) ∈ timed_runs conc_runs stream_runs <-> r ∈ runs_of_type conc_runs stream_runs t.
Proof.
  unfold timed_runs. rewrite last_first_perm, elem_of_app, !list_elem_of_fmap. destruct t; cbn; naive_solver.
Qed.

(** The run a page opens with: the newest that is not the legacy bucket. *)
Lemma default_run_spec conc_runs stream_runs :
  match default_run (timed_runs conc_runs stream_runs) with
  | None => conc_runs = [] /\ stream_runs = []
  | Some (t, Some r) => r ∈ runs_of_type conc_runs stream_runs t
      /\ forall t' r', r' ∈ runs_of_type conc_runs stream_runs t' -> r' <> LEGACY_RUN_ID ->
           r <> LEGACY_RUN_ID /\ str_le r' r
  | Some (_, None) => False
  end.
Proof.
  unfold default_run. set (p := fun e : run_type * string => _). set (timed := timed_runs _ _).
  assert (forall t r, In (t, r) (List.filter p timed) <-> r ∈ runs_of_type conc_runs stream_runs t /\ r <> LEGACY_RUN_ID)
    as Hreal.
  { intros t r. rewrite filter_In, <- list_elem_of_In. unfold timed, p. rewrite elem_of_timed. cbn [snd].
    destruct (String.eqb_spec r LEGACY_RUN_ID); naive_solver. }
  destruct (max_run (List.filter p timed)) as [[t r]|] eqn:Hm.
  - apply max_run_spec in Hm as [Hin Hmax]. apply list_elem_of_In, Hreal in Hin as [Hin Hne]. split; [done|].
    intros t' r' Hr' Hne'. split; [done|]. apply (Hmax (t', r')). by apply list_elem_of_In, Hreal.
  - assert (forall t r, r ∈ runs_of_type conc_runs stream_runs t -> r = LEGACY_RUN_ID) as Hall.
    { intros t r Hr. destruct (decide (r = LEGACY_RUN_ID)); [done|]. exfalso.
      assert (In (t, r) (List.filter p timed)) as Hx by by apply Hreal. by destruct (List.filter p timed). }
    destruct timed as [|[t r] rest] eqn:Ht.
    + cbn. split.
      * destruct conc_runs as [|x ?]; [done|]. assert ((Concurrency, x) ∈ timed) as Hx by (apply elem_of_timed; left).
        rewrite Ht in Hx. by apply elem_of_nil in Hx.
      * destruct stream_runs as [|x ?]; [done|]. assert ((Streaming, x) ∈ timed) as Hx by (apply elem_of_timed; left).
        rewrite Ht in Hx. by apply elem_of_nil in Hx.
    + cbn. split; [apply elem_of_timed; fold timed; rewrite Ht; left|]. intros t' r' Hr' Hne. by apply Hall in Hr'.
Qed.

(** The merged run selector offers every run once and opens the newest.
    Its entries are distinct: one for all runs of a type that has any, and one
    for every run of the two sweeps, the runs newest first; it opens with the
    newest run of both that is not the legacy bucket, with a legacy bucket
    where there is nothing else, and with nothing only where there are no runs.
    It fails only where a file of the streaming sweep cannot be read. *)
Theorem unified_runs_newest (read_raw : string -> result (frame request_row)) (raw_paths : list string)
    (read_stream : string -> result (frame stream_record)) (stream_paths : list string) :
  match get_unified_runs read_raw raw_paths read_stream stream_paths with
  | Ok (entries, opened) => exists stream_runs latest timed,
      get_available_streaming_runs read_stream stream_paths = Ok (stream_runs, latest)
      /\ let runs := runs_of_type (fst (get_available_runs read_raw raw_paths)) stream_runs in
         NoDup entries
         /\ (forall t run, (t, run) ∈ entries <->
               match run with Some r => r ∈ runs t | None => runs t <> [] end)
         /\ StronglySorted newer_first timed
         /\ (exists combined, entries = map (fun t => (t, None)) combined ++ map (fun e => (fst e, Some (snd e))) timed)
         /\ match opened with
            | Some (t, Some r) => r ∈ runs t
                /\ forall t' r', r' ∈ runs t' -> r' <> LEGACY_RUN_ID -> r <> LEGACY_RUN_ID /\ str_le r' r
            | Some (_, None) => False
            | None => forall t, runs t = []
            end
  | Raise e => exists p, p ∈ stream_paths /\ read_stream p = Raise e
  end.
Proof.
  unfold get_unified_runs.
  set (conc := fst (get_available_runs read_raw raw_paths)).
  assert (NoDup conc) as Hconc.
  { unfold conc, get_available_runs, available_runs. destruct (load_raw_df _ _); [apply runs_NoDup|constructor]. }
  destruct (get_available_streaming_runs read_stream stream_paths) as [[stream latest]|e] eqn:Hs; cbn [rbind fst].
  - assert (NoDup stream) as Hstream.
    { revert Hs. unfold get_available_streaming_runs. destruct (load_streaming_df _ _ _) as [[df|]|]; cbn [rbind];
        intros [= <- _]; [exact (runs_NoDup (Some df))|constructor]. }
    unfold unified_runs. cbv zeta. set (timed := timed_runs conc stream).
    exists stream, latest, timed. split; [done|]. cbv zeta.
    set (combined := (match conc with [] => [] | _ => [Concurrency] end)
                     ++ (match stream with [] => [] | _ => [Streaming] end)).
    assert (combined_entry Concurrency conc ++ combined_entry Streaming stream ++ map (fun '(t, r) => (t, Some r)) timed
            = map (fun t => (t, None)) combined ++ map (fun e => (fst e, Some (snd e))) timed) as ->.
    { rewrite app_assoc. f_equal; [unfold combined; by destruct conc, stream|]. apply map_ext. by intros []. }
    assert (forall t, t ∈ combined <-> runs_of_type conc stream t <> []) as Hcomb.
    { intros t. unfold combined. rewrite elem_of_app. destruct t, conc, stream; cbn; rewrite ?elem_of_nil, ?list_elem_of_singleton; naive_solver. }
    split_and!.
    + apply NoDup_app. split_and!.
      * apply NoDup_fmap_2_strong; [by intros ? ? _ _ [= ->]|]. unfold combined.
        destruct conc, stream; cbn; repeat constructor; rewrite ?elem_of_nil, ?list_elem_of_singleton; naive_solver.
      * intros x (t & -> & _)%list_elem_of_fmap (e & [=] & _)%list_elem_of_fmap.
      * apply NoDup_fmap_2_strong; [by intros [] [] _ _ [= -> ->]|]. unfold timed, timed_runs. rewrite last_first_perm.
        apply NoDup_app. split_and!; [by apply NoDup_fmap_2; [intros ? ? [= ->]|]| |by apply NoDup_fmap_2; [intros ? ? [= ->]|]].
        intros x (r & -> & _)%list_elem_of_fmap (r' & [=] & _)%list_elem_of_fmap.
    + intros t run. rewrite elem_of_app, !list_elem_of_fmap. destruct run as [r|].
      * rewrite <- elem_of_timed. fold timed. split.
        -- intros [(? & [=] & _)|([t' r'] & [= -> ->] & Hin)]. exact Hin.
        -- intros Hin. right. by exists (t, r).
      * rewrite <- Hcomb. split.
        -- intros [(t' & [= ->] & Hin)|(? & [=] & _)]. exact Hin.
        -- intros Hin. left. by exists t.
    + apply last_first_sorted.
    + by exists combined.
    + pose proof (default_run_spec conc stream) as Hd. fold timed in Hd. destruct (default_run timed) as [[t [r|]]|]; [done..|].
      destruct Hd as [-> ->]. by intros [].
  - revert Hs. unfold get_available_streaming_runs, load_streaming_df.
    destruct (sorted_paths stream_paths) as [|p ps] eqn:Hp; [done|]. rewrite <- Hp.
    destruct (rmap read_stream (sorted_paths stream_paths)) as [fs|e'] eqn:Hr; cbn [rbind].
    + by destruct (scope_run None _).
    + intros [= <-]. apply rmap_Raise in Hr as (q & Hq & Hread). exists q. split; [|done].
      unfold sorted_paths in Hq. by rewrite merge_sort_Permutation in Hq.
Qed.

(** ** The frontier's model *)

(** A chunk more covers the rest. *)
Lemma ceiling_div n c : 0 < c -> Qround.Qceiling (inject_Z n / inject_Z c) = (n + c - 1) / c.
Proof.
  intros Hc. unfold Qround.Qceiling, Qround.Qfloor, Qdiv, Qinv, Qmult, Qopp, inject_Z. destruct c as [|c|c]; try lia. cbn.
  rewrite Z.mul_1_r, ?Pos.mul_1_l. pose proof (Z.div_mod (- n) (Zpos c) ltac:(lia)) as Hd.
  pose proof (Z.mod_pos_bound (- n) (Zpos c) ltac:(lia)).
  apply (Z.div_unique_pos _ (Zpos c) _ (Zpos c - 1 - (- n) mod Zpos c)); [lia|]. rewrite Z.mul_opp_r. lia.
Qed.

(** The frontier of the page counts the signatures the validation expects of a
    checkpointed hash chain, and every token is signed at most the stated
    exposure later. *)
Theorem frontier_counts_signatures (n_tokens chunk : Z) (k : option Z) (sig_bytes : Z) (version : option string)
    (Hn : 0 < n_tokens) (Hchunk : 0 < chunk) (Hk : match k with Some k => 0 <= k | None => True end) :
  let n_chunks := (n_tokens + chunk - 1) / chunk in
  exists n_sig exposure, signature_bytes n_tokens chunk k sig_bytes = (n_sig, n_sig * sig_bytes, exposure)
    /\ expected_signature_count "hash_chain" n_chunks k version = Ok n_sig
    /\ 1 <= n_sig <= n_chunks + 1 /\ exposure <= n_tokens
    /\ forall token, 1 <= token <= n_tokens ->
         exists signed, token <= signed < token + exposure
           /\ (signed = n_tokens \/ exists i k', k = Some k' /\ signed = i * (k' * chunk) /\ 1 <= i <= n_chunks / k').
Proof.
  intros n_chunks. unfold signature_bytes. rewrite (ceiling_div n_tokens chunk Hchunk). fold n_chunks.
  assert (n_tokens <= n_chunks * chunk) as Hcover.
  { unfold n_chunks. pose proof (Z.div_mod (n_tokens + chunk - 1) chunk ltac:(lia)).
    pose proof (Z.mod_pos_bound (n_tokens + chunk - 1) chunk ltac:(lia)). lia. }
  assert (0 < n_chunks) as Hpos by nia.
  assert (forall e, n_tokens <= e -> forall token, 1 <= token <= n_tokens ->
    exists signed, token <= signed < token + Z.min e n_tokens
      /\ (signed = n_tokens \/ exists i k', k = Some k' /\ signed = i * (k' * chunk) /\ 1 <= i <= n_chunks / k')) as Hend.
  { intros e He token Ht. exists n_tokens. split; [lia|by left]. }
  destruct k as [k|].
  2:{ exists 1, (Z.min (n_chunks * chunk) n_tokens). split_and!; try done; try lia. by apply Hend. }
  destruct (Z.eqb_spec k 0) as [->|Hne].
  { exists 1, (Z.min (n_chunks * chunk) n_tokens). split_and!; try done; try lia. by apply Hend. }
  assert (0 < k) as Hk0 by lia.
  exists (n_chunks / k + 1), (Z.min (k * chunk) n_tokens). split; [done|].
  assert (expected_signature_count "hash_chain" n_chunks (Some k) version = Ok (n_chunks / k + 1)) as ->.
  { unfold expected_signature_count. cbn. by rewrite (proj2 (Z.eqb_neq _ _) Hne), (proj2 (Z.leb_gt _ _) Hk0). }
  assert (0 <= n_chunks / k) by (apply Z.div_pos; lia).
  assert (n_chunks / k <= n_chunks) by (apply Z.div_le_upper_bound; nia).
  split_and!; [done|lia..|]. intros token Ht. set (w := k * chunk). assert (0 < w) as Hw by (unfold w; nia).
  set (i := (token + w - 1) / w). assert (token <= i * w < token + w) as Hi.
  { unfold i. pose proof (Z.div_mod (token + w - 1) w ltac:(lia)).
    pose proof (Z.mod_pos_bound (token + w - 1) w ltac:(lia)). lia. }
  destruct (Z.le_gt_cases (i * w) n_tokens) as [Hle|Hgt].
  - exists (i * w). split.
    + destruct (Z.le_gt_cases w n_tokens); [rewrite Z.min_l by done; lia|]. assert (i = 1) by nia. subst i. nia.
    + right. exists i, k. split_and!; [done|by unfold w|nia|]. apply Z.div_le_lower_bound; [done|]. unfold w in *. nia.
  - exists n_tokens. split; [|by left]. destruct (Z.le_gt_cases w n_tokens); [rewrite Z.min_l by done|rewrite Z.min_r by lia]; lia.
Qed.

(** ** A dashboard with two runs *)
Definition small_row (run_id : option string) (index : Z) : request_row :=
  mkRequestRow run_id "hybrid" 10 1 index None [("total_ms", Some 5%Q)].
Definition raw_files (p : string) : result (frame request_row) :=
  if String.eqb p "a.csv" then Ok (mkFrame ["config"; "error"] [small_row None 0; small_row None 1])
  else if String.eqb p "b.csv" then Ok (mkFrame ["run_id"; "config"; "error"] [small_row (Some "20260824T220800") 0])
  else Raise (ValueError "no columns to parse").

Lemma run_scope_commutes_witness :
  fst (get_available_runs raw_files ["c.csv"; "b.csv"; "a.csv"]) = ["legacy"; "20260824T220800"]
  /\ exists summary, get_trimmed_and_summary raw_files id ["c.csv"; "b.csv"; "a.csv"] WARMUP (Some LATEST)
       = Ok (Some ([small_row (Some "20260824T220800") 0], summary)).
Proof.
  split; [reflexivity|].
  destruct (run_scope_commutes raw_files id ["c.csv"; "b.csv"; "a.csv"] WARMUP
    (mkFrame ["config"; "error"; "run_id"] [small_row None 0; small_row None 1; small_row (Some "20260824T220800") 0])
    ltac:(reflexivity)) as (_ & _ & _ & _ & H).
  { apply NoDup_ListNoDup. repeat constructor; vm_compute; intuition congruence. }
  specialize (H (Some LATEST)). destruct (get_trimmed_and_summary _ _ _ _ _) as [[[rows summary]|]|e].
  - destruct H as [-> _]. exists summary. reflexivity.
  - destruct H as (s & Hs & Hn). exfalso. apply Hn. injection Hs as <-. right; left.
  - destruct H as [_ H]. discriminate.
Defined.
