(* ===== verification/PaperTables.v ===== *)
(** * More tables of the paper ([analysis/paper_figures.py])

    The numbers behind the streaming, checkpoint, trade-off, resource, payload,
    network, attack-campaign and key-substitution tables, without their LaTeX. *)
From stdpp Require Import sorting.
From Stdlib Require Import Lqa Qround Qabs Ascii.
From S2P Require Import Prelude PyBytes PyVal PyList PyNum Instrumentation Aggregate Tradeoff PaperStats PaperStatsProps PaperCells SignatureModel Dashboard.

(** ** Streaming runs *)
Record stream_run := mkStreamRun {
  sn_config : string; sn_strategy : string; sn_max_tokens : Z; sn_chunk_size : Z; sn_repetition : Z;
  sn_interval : option Z; sn_metrics : list (string * option Q) }.

Definition column (c : string) (rows : list stream_run) : list Q :=
  omap (fun r => match dget c (sn_metrics r) with Some (Some q) => Some q | _ => None end) rows.
(** [v[c].median()]. *)
Definition column_median (c : string) (rows : list stream_run) : float := np_median (column c rows).
(** [int(x)] of a float. *)
Definition int_of_float (x : float) : result Z :=
  match x with
  | Some q => Ok (Z.quot (Qnum q) (Zpos (Qden q)))
  | None => Raise (ValueError "cannot convert float NaN to integer")
  end.

Definition STRATS : list string := ["buffer_and_sign"; "per_chunk"; "hash_chain"].

(** Wall-clock time, and thread-CPU time where it was recorded. *)
Abbreviation timing := (float * option float)%type.
Record streaming_entry := mkStreamingEntry {
  te_tokens : Z; te_config : string; te_strategy : string; te_ttft : float * (float * float); te_total : float;
  te_signatures : Z; te_signature_bytes : float; te_sign : timing; te_verify : timing }.

Definition signature_count (df : frame stream_run) (s : string) (v : list stream_run) : result Z :=
  if has_col df "n_signatures" then int_of_float (column_median "n_signatures" v)
  else let? n := int_of_float (column_median "n_chunks" v) in
       Ok (dget_or s n [("buffer_and_sign", 1); ("hash_chain", 1)]).
Definition cpu_recorded (df : frame stream_run) (v : list stream_run) : bool :=
  has_col df "total_signing_cpu_ms"
  && match column "total_signing_cpu_ms" v with [] => false | _ => true end.

Definition streaming_cell (df : frame stream_run) (n_tok : Z) (cfg s : string) : result (list streaming_entry) :=
  match List.filter (fun r => (sn_max_tokens r =? n_tok) && String.eqb (sn_config r) cfg
                              && String.eqb (sn_strategy r) s) (fm_rows df) with
  | [] => Ok []
  | v =>
      let? n_sigs := signature_count df s v in
      let cpu := cpu_recorded df v in
      let? ver := if cpu then if has_col df "total_verify_cpu_ms" then Ok (Some (column_median "total_verify_cpu_ms" v))
                              else Raise (KeyError "total_verify_cpu_ms")
                  else Ok None in
      let ttft := column "ttft_ms" v in
      Ok [mkStreamingEntry n_tok cfg s (np_median ttft, (series_quantile (1 # 4) ttft, series_quantile (3 # 4) ttft))
            (column_median "total_ms" v) n_sigs (column_median "total_signature_bytes" v)
            (column_median "total_signing_ms" v, if cpu then Some (column_median "total_signing_cpu_ms" v) else None)
            (column_median "total_verify_ms" v, ver)]
  end.

(** The repetitions of the caption and the entries. *)
Definition table_streaming (df : frame stream_run) : result (Z * list streaming_entry) :=
  match map sn_repetition (fm_rows df) with
  | [] => Raise (ValueError "cannot convert float NaN to integer")
  | r :: rest =>
      let lengths := sorted_unique Z.le (map sn_max_tokens (fm_rows df)) in
      let? cells := rmap (fun n_tok => rmap (fun cfg => rmap (streaming_cell df n_tok cfg) STRATS) PROTECTED) lengths in
      Ok (Zmaximum r rest, concat (concat (concat cells)))
  end.

(** ** Checkpointed hash chains *)
Definition interval_k (r : stream_run) : Z := default 0 (sn_interval r).

(** [int(series.mode()[0])]: the most frequent value, the smallest of several. *)
Definition count_of (l : list Z) (x : Z) : Z := py_len (List.filter (Z.eqb x) l).
Definition mode_of (l : list Z) : option Z :=
  match sorted_unique Z.le l with
  | [] => None
  | x :: r => Some (fold_left (fun m y => if count_of l m <? count_of l y then y else m) r x)
  end.

(** The intervals in order, the terminal signature alone last. *)
Definition k_order (ks : list Z) : list Z :=
  let s := sorted_unique Z.le ks in
  List.filter (fun k => negb (k =? 0)) s ++ List.filter (fun k => k =? 0) s.

Record checkpoint_entry := mkCheckpointEntry {
  ck_config : string; ck_k : Z; ck_signatures : float; ck_bytes : float; ck_exposure : float; ck_lag : float;
  ck_sign : timing }.

Definition hash_chains (df : frame stream_run) : list stream_run :=
  List.filter (fun r => String.eqb (sn_strategy r) "hash_chain") (fm_rows df).
Definition with_k (cfg : string) (k : Z) (hc : list stream_run) : list stream_run :=
  List.filter (fun r => interval_k r =? k) (List.filter (fun r => String.eqb (sn_config r) cfg) hc).
Definition ks_of (cfg : string) (hc : list stream_run) : list Z :=
  k_order (map interval_k (List.filter (fun r => String.eqb (sn_config r) cfg) hc)).

Definition checkpoint_row (df : frame stream_run) (hc : list stream_run) (chunk : Z) (cfg : string) (k : Z)
    : checkpoint_entry :=
  let v := with_k cfg k hc in
  mkCheckpointEntry cfg k (column_median "n_signatures" v) (column_median "total_signature_bytes" v)
    (fscale (inject_Z chunk) (column_median "max_unverified_chunks" v)) (column_median "max_verification_lag_ms" v)
    (column_median "total_signing_ms" v,
     if cpu_recorded df v then Some (column_median "total_signing_cpu_ms" v) else None).

Definition table_checkpoint (df : frame stream_run) : result (list checkpoint_entry) :=
  let hc := hash_chains df in
  match mode_of (map sn_chunk_size hc) with
  | None => Ok []
  | Some chunk =>
      if has_col df "checkpoint_interval" then
        let present := List.filter (fun c => existsb (String.eqb c) (map sn_config hc)) PROTECTED in
        Ok (concat (map (fun cfg => map (checkpoint_row df hc chunk cfg) (ks_of cfg hc)) present))
      else Raise (KeyError "checkpoint_interval")
  end.

(** The frontier of a configuration: exposure in tokens against signature
    bytes, as measured and by the model. *)
Record frontier := mkFrontier {
  fo_config : string; fo_measured : list (float * float); fo_model : list (float * float) }.

Definition fmodel_bytes (n sig_size : float) (k : Z) : float :=
  match n, sig_size with
  | Some n, Some s => Some ((inject_Z (Qfloor (n / inject_Z k)) + 1) * s)%Q
  | _, _ => None
  end.
Definition frontier_of (hc : list stream_run) (chunk : Z) (cfg : string) : frontier :=
  let order := ks_of cfg hc in
  let sig k := column_median "total_signature_bytes" (with_k cfg k hc) in
  let has_inf := existsb (Z.eqb 0) order in
  let sig_size := if has_inf then sig 0 else None in
  let n := np_median (omap (fun k => column_median "n_chunks" (with_k cfg k hc)) order) in
  let tokens := fscale (inject_Z chunk) in
  mkFrontier cfg
    (map (fun k => (tokens (column_median "max_unverified_chunks" (with_k cfg k hc)), sig k)) order)
    (map (fun k => (Some (inject_Z (k * chunk)), fmodel_bytes n sig_size k)) (List.filter (fun k => 0 <? k) order)
     ++ (if has_inf then [(tokens n, sig_size)] else [])).

Definition fig_checkpoint_frontier (df : frame stream_run) : list frontier :=
  let hc := hash_chains df in
  if has_col df "checkpoint_interval" then
    match mode_of (map sn_chunk_size hc) with
    | None => []
    | Some chunk =>
        map (frontier_of hc chunk) (List.filter (fun c => existsb (String.eqb c) (map sn_config hc)) PROTECTED)
    end
  else [].

(** ** The trade-off table *)
Inductive tradeoff_cell :=
  | NotMeasured
  | Failed
  | Score (v : xfloat) (best : bool).

(** [np.isclose(v, best)]. *)
Definition isclose (a b : xfloat) : bool :=
  match a, b with
  | XFin x, XFin y => Qle_bool (Qabs (x - y)) ((1 # 100000000) + (1 # 100000) * Qabs y)
  | _, _ => false
  end.
Definition finite_scores (rows : list matrix_row) : list Q :=
  omap (fun r => match mx_composite r with Some (XFin q) => Some q | _ => None end)
    (List.filter mx_available rows).
Definition score_cell (m : list (string * matrix_row)) (n : string) (c : Z) (cfg : string) : tradeoff_cell :=
  let sub := map snd (List.filter (fun e => String.eqb (fst e) n && (mx_scale (snd e) =? c)) m) in
  match find (fun r => String.eqb (mx_config r) cfg) sub with
  | None => NotMeasured
  | Some r =>
      if negb (mx_available r) then Failed
      else
        let v := default XNaN (mx_composite r) in
        Score v (isclose v (match max_or_none (finite_scores sub) with Some q => XFin q | None => XNaN end))
  end.
Definition row_metric (c : string) (r : request_row) : option Q := default None (dget c (rq_metrics r)).
Definition table_tradeoff (df : list request_row) : result (list (string * list tradeoff_cell)) :=
  let? m := build_matrix rq_config rq_concurrency (row_metric "total_ms") is_err df None in
  let levels := sorted_unique Z.le (map (fun e => mx_scale (snd e)) m) in
  Ok (map (fun cfg => (cfg, concat (map (fun nw => map (fun c => score_cell m (fst nw) c cfg) levels) WEIGHTINGS)))
        (List.filter (fun c => existsb (String.eqb c) (map (fun e => mx_config (snd e)) m)) PROTECTED)).

(** ** Server resources *)
Record resource_cell := mkResourceCell {
  rc_run_id : string; rc_run_type : option string; rc_config : string; rc_concurrency : Z;
  rc_metrics : list (string * option Q) }.

(** [s.replace("-", "_")]. *)
Fixpoint underscored (s : string) : string :=
  match s with
  | "" => ""
  | String c r => String (if Ascii.eqb c "-"%char then "_"%char else c) (underscored r)
  end.

(** The samples of a run's file, [None] where there is no file, of the latest
    of the runs for each configuration. *)
Definition _resource_cells (load : string -> option (list resource_cell)) (run_ids : list string)
    : list resource_cell :=
  let cells := concat (map (fun rid =>
    List.filter (fun c => bool_decide (rc_run_type c = Some "concurrency")) (default [] (load rid))) run_ids) in
  let rs := map (fun c => mkResourceCell (rc_run_id c) (rc_run_type c) (underscored (rc_config c))
                            (rc_concurrency c) (rc_metrics c)) cells in
  List.filter (fun r => bool_decide (
    str_max (map rc_run_id (List.filter (fun x => String.eqb (rc_config x) (rc_config r)) rs)) = Some (rc_run_id r))) rs.

Record resource_entry := mkResourceEntry {
  re_concurrency : Z; re_config : string; re_cpu_mean : float; re_cpu_max : float; re_rss_mean : float;
  re_rss_max : float; re_rps : float }.
Definition resource_values (c : string) (g : list resource_cell) : list Q :=
  omap (fun r => match dget c (rc_metrics r) with Some (Some q) => Some q | _ => None end) g.
Definition table_resources (load : string -> option (list resource_cell)) (run_ids : list string)
    : list resource_entry :=
  let rs := _resource_cells load run_ids in
  concat (map (fun conc => concat (map (fun cfg =>
      match List.filter (fun r => (rc_concurrency r =? conc) && String.eqb (rc_config r) cfg) rs with
      | [] => []
      | g =>
          let mean c := mean_or_none (resource_values c g) in
          let max c := max_or_none (resource_values c g) in
          [mkResourceEntry conc cfg (mean "cpu_percent_mean") (max "cpu_percent_max") (mean "rss_mb_mean")
             (max "rss_mb_max") (mean "throughput_rps")]
      end) CONFIGS)) (sorted_unique Z.le (map rc_concurrency rs))).

(** ** Payload profiles and network paths *)
Definition _load_runs (raw : table) (warmup : Q) : list request_row :=
  discard_warmup (map pp_row (tb_rows (_latest_run_per_cell raw))) warmup.

Definition PROFILE_ORDER : list string := ["tabular_small"; "image_cnn"; "embedding"; "llm_completion"].
Definition NET_ORDER : list string := ["localhost"; "metro"; "wan"; "mobile"].

Record payload_entry := mkPayloadEntry {
  pe_profile : string; pe_request : float; pe_response : float; pe_control : float;
  pe_cells : list (option (float * float * bool)) }.

Section Rows.
(** [stats.mannwhitneyu(x, y, alternative="two-sided").pvalue]. *)
Context (mannwhitneyu_p : list Q -> list Q -> float).

Definition rows_of_config (cfg : string) (rows : list paper_row) : list request_row :=
  map pp_row (List.filter (fun r => String.eqb (rq_config (pp_row r)) cfg) rows).
Definition payload_cell (ctrl : list Q) (sub : list paper_row) (cfg : string) : option (float * float * bool) :=
  match total_ms (rows_of_config cfg sub), ctrl with
  | [], _ | _, [] => None
  | v, _ =>
      Some (np_median v, fsub (np_median v) (np_median ctrl),
            match mannwhitneyu_p v ctrl with Some p => Qltb p (5 # 100) | None => false end)
  end.
Definition payload_row (ok : list paper_row) (present : list string) (prof : string) : payload_entry :=
  let sub := List.filter (fun r => bool_decide (pp_payload r = Some prof)) ok in
  let ctrl := total_ms (rows_of_config "control" sub) in
  let protected := map pp_row (List.filter (fun r => negb (String.eqb (rq_config (pp_row r)) "control")) sub) in
  mkPayloadEntry prof (np_median (values_of "request_plaintext_bytes" protected))
    (np_median (values_of "response_plaintext_bytes" protected)) (np_median ctrl)
    (map (payload_cell ctrl sub) present).
Definition ok_rows (rows : list paper_row) : list paper_row := List.filter (fun r => negb (is_err (pp_row r))) rows.
Definition table_payload_profiles (t : table) : result (list payload_entry) :=
  if has_column t "payload_profile" then
    let ok := ok_rows (tb_rows t) in
    let profiles := List.filter (fun p => existsb (fun r => bool_decide (pp_payload r = Some p)) ok) PROFILE_ORDER in
    let present := List.filter (fun c => existsb (fun r => String.eqb (rq_config (pp_row r)) c) ok) PROTECTED in
    Ok (map (payload_row ok present) profiles)
  else Raise (KeyError "payload_profile").
End Rows.

Section Network.
(** [np.sqrt], for the standard deviation and [np.hypot]. *)
Context (sqrt : Q -> Q).

(** Mean, standard deviation and count of the medians of the repetitions. *)
Definition _rep_medians (metric : string) (rows : list request_row) : float * float * Z :=
  let meds := omap (fun r => np_median (values_of metric (snd r))) (repetitions rows) in
  (mean_or_none meds, match meds with [] | [_] => None | _ => Some (sample_std sqrt meds) end, py_len meds).
Definition fhypot (a b : float) : float := flift (fun x y => sqrt (x * x + y * y)%Q) a b.

(** The rows of a configuration on a path; no column stands for localhost. *)
Definition on_path (net cfg : string) (ok : list paper_row) : list request_row :=
  rows_of_config cfg (List.filter (fun r => String.eqb (default "localhost" (pp_network r)) net) ok).
(** What a configuration adds to another on a path, with its spread. *)
Definition path_difference (ok : list paper_row) (metric cfg base net : string) : float * float :=
  let '(m, e, _) := _rep_medians metric (on_path net cfg ok) in
  let '(m0, e0, _) := _rep_medians metric (on_path net base ok) in
  (fsub m m0, fhypot e e0).

Record network_entry := mkNetworkEntry {
  ne_config : string; ne_network : string; ne_handshake : float * float; ne_total : float * float }.
Definition fig_network (t : table) : list network_entry :=
  let ok := ok_rows (tb_rows t) in
  let nets := List.filter (fun n => existsb (fun r => String.eqb (default "localhost" (pp_network r)) n) ok) NET_ORDER in
  let present := List.filter (fun c => existsb (fun r => String.eqb (rq_config (pp_row r)) c) ok) PROTECTED in
  if negb (has_column t "network_profile") || (py_len nets <? 2) || negb (existsb (String.eqb "classical_ecdhe") present)
  then []
  else
    let others := List.filter (fun c => negb (existsb (String.eqb c) ["classical_ecdhe"; "classical"])) present in
    concat (map (fun cfg => map (fun n =>
      mkNetworkEntry cfg n (path_difference ok "handshake_ms" cfg "classical_ecdhe" n)
        (path_difference ok "total_ms" cfg "classical_ecdhe" n)) nets) others).
End Network.

(** ** The attack campaign *)
Record campaign_row := mkCampaignRow {
  cr_config : string; cr_strategy : string; cr_interval : option Z; cr_attack : string; cr_n : Z;
  cr_detected : Z; cr_mid_stream : option Z; cr_exposure_mean : option Q; cr_unverified_mean : option Q }.

Definition CAMPAIGN_CELLS : list (string * option Z) :=
  [("per_chunk", None); ("hash_chain", None); ("hash_chain", Some 10); ("hash_chain", Some 5);
   ("hash_chain", Some 2)].
Definition CAMPAIGN_ATTACKS : list string :=
  ["drop"; "reorder"; "duplicate"; "replay"; "session_replay"; "truncate"; "checkpoint_strip";
   "checkpoint_strip_v2client"; "checkpoint_move"; "drop_before_ckpt"; "drop_after_ckpt"; "reorder_across"].

Definition campaign_cell (rows : list campaign_row) (cell : string * option Z) (attack : string)
    : list campaign_row :=
  List.filter (fun r => String.eqb (cr_strategy r) (fst cell)
                        && (default 0 (cr_interval r) =? default 0 (snd cell))
                        && String.eqb (cr_attack r) attack) rows.

(** [(g[c] * g["n"]).sum() / n if g[c].notna().any() else nan]: a missing mean
    adds nothing to the sum. *)
Definition pooled_mean (mean_of : campaign_row -> option Q) (g : list campaign_row) (n : Z) : float :=
  match omap mean_of g with
  | [] => None
  | _ => Some (Qsum (omap (fun r => option_map (fun m => m * inject_Z (cr_n r))%Q (mean_of r)) g) / inject_Z n)%Q
  end.

Record campaign_entry := mkCampaignEntry {
  ce_n : Z; ce_detected : Z; ce_mid_stream : Z; ce_unverified : float; ce_exposure : float; ce_ci : Q * Q }.

Section Campaign.
Context (beta_ppf : Q -> Z -> Z -> Q).

Definition pooled_entry (g : list campaign_row) : option campaign_entry :=
  let n := Zsum (map cr_n g) in
  if match g with [] => true | _ => n =? 0 end then None
  else
    let d := Zsum (map cr_detected g) in
    Some (mkCampaignEntry n d (Zsum (omap cr_mid_stream g)) (pooled_mean cr_unverified_mean g n)
            (pooled_mean cr_exposure_mean g n) (clopper_pearson_ci beta_ppf d n (5 # 100))).

(** False rejections of genuine streams, with the upper bound for none. *)
Definition benign_entry (pow : Q -> Q -> Q) (g : list campaign_row) : Z * Z * option Q :=
  let n := Zsum (map cr_n g) in
  let d := Zsum (map cr_detected g) in
  (d, n, if (d =? 0) && negb (n =? 0) then Some (1 - pow (5 # 100) (1 / inject_Z n))%Q else None).

Record campaign_table := mkCampaignTable {
  ct_streams : Z; ct_trials : Z; ct_stream_bound : Q; ct_trial_bound : Q;
  ct_benign : list (Z * Z * option Q); ct_attacks : list (string * list (option campaign_entry));
  ct_per_config : list (string * (Z * Z)) }.

Definition table_attack_campaign (pow : Q -> Q -> Q) (pool trials : Z) (rows : list campaign_row) : campaign_table :=
  let configs := List.filter (fun c => existsb (String.eqb c) (map cr_config rows)) PROTECTED in
  let n_streams := pool * py_len configs in
  let n_trials := trials * py_len configs in
  mkCampaignTable n_streams n_trials
    (fst (clopper_pearson_ci beta_ppf n_streams n_streams (5 # 100)))
    (fst (clopper_pearson_ci beta_ppf n_trials n_trials (5 # 100)))
    (map (fun cell => benign_entry pow (campaign_cell rows cell "benign")) CAMPAIGN_CELLS)
    (List.filter (fun e => existsb (fun c => match c with Some _ => true | None => false end) (snd e))
       (map (fun a => (a, map (fun cell => pooled_entry (campaign_cell rows cell a)) CAMPAIGN_CELLS))
          CAMPAIGN_ATTACKS))
    (map (fun '(c, g) => (c, (Zsum (map cr_detected g), Zsum (map cr_n g))))
       (groupby str_le cr_config (List.filter (fun r => negb (String.eqb (cr_attack r) "benign")) rows))).
End Campaign.

(** ** Key substitution *)
Record keysub_row := mkKeysubRow {
  ks_config : string; ks_mode : string; ks_variant : string; ks_n_valid : Z; ks_accepted : Z; ks_read : Z;
  ks_forged : Z; ks_rejected_at : option (list (string * Z)) }.
Record keysub_entry := mkKeysubEntry {
  ke_mode : string; ke_variant : string; ke_n : Z; ke_accepted : Z; ke_read : Z; ke_forged : Z;
  ke_rejected : list (string * Z) }.

(** [rej[k] = rej.get(k, 0) + c] over the rows. *)
Definition add_rejections (rej : list (string * Z)) (r : keysub_row) : list (string * Z) :=
  fold_left (fun rej kc => dset (fst kc) (dget_or (fst kc) 0 rej + snd kc) rej) (default [] (ks_rejected_at r)) rej.
Definition keysub_pool (rows : list keysub_row) (mode variant : string) : list keysub_entry :=
  match List.filter (fun r => String.eqb (ks_mode r) mode && String.eqb (ks_variant r) variant) rows with
  | [] => []
  | g => [mkKeysubEntry mode variant (Zsum (map ks_n_valid g)) (Zsum (map ks_accepted g)) (Zsum (map ks_read g))
            (Zsum (map ks_forged g)) (fold_left add_rejections g [])]
  end.
Definition table_key_substitution (rows : list keysub_row) : list keysub_entry :=
  concat (map (fun mode => concat (map (keysub_pool rows mode)
    ["benign"; "substitute"; "substitute_resign"; "relay_tamper"])) ["unauthenticated"; "pinned"]).

(** ** The samples of the latest runs *)

Definition renamed (c : resource_cell) : resource_cell :=
  mkResourceCell (rc_run_id c) (rc_run_type c) (underscored (rc_config c)) (rc_concurrency c) (rc_metrics c).
(** A sample of a concurrency sweep among the runs' files. *)
Definition sampled (load : string -> option (list resource_cell)) (run_ids : list string) (c : resource_cell) : Prop :=
  exists rid cells, rid ∈ run_ids /\ load rid = Some cells /\ c ∈ cells /\ rc_run_type c = Some "concurrency".

(** The resource table is over the latest run of each configuration: its
    samples are samples of the runs, none of a configuration is from a run
    before another one's, and every configuration that was sampled has some. *)
Theorem resource_cells_latest (load : string -> option (list resource_cell)) (run_ids : list string) :
  (forall r, r ∈ _resource_cells load run_ids -> exists c, sampled load run_ids c /\ r = renamed c
     /\ forall c', sampled load run_ids c' -> rc_config (renamed c') = rc_config r -> str_le (rc_run_id c') (rc_run_id r))
  /\ forall c, sampled load run_ids c -> exists r, r ∈ _resource_cells load run_ids /\ rc_config r = rc_config (renamed c).
Proof.
  unfold _resource_cells. set (cells := concat _). fold renamed. change (map (fun c => _) cells) with (map renamed cells).
  assert (forall c, In c cells <-> sampled load run_ids c) as Hcells.
  { intros c. unfold cells, sampled. rewrite in_concat. split.
    - intros (l & (rid & <- & Hrid)%in_map_iff & [Hc Ht]%filter_In). apply bool_decide_eq_true in Ht.
      destruct (load rid) as [cs|] eqn:Hl; [|done]. exists rid, cs. rewrite !list_elem_of_In. by split_and!.
    - intros (rid & cs & Hrid & Hl & Hc & Ht). eexists. split; [apply in_map; by apply list_elem_of_In|].
      rewrite Hl. apply filter_In. split; [by apply list_elem_of_In|]. by apply bool_decide_eq_true. }
  set (rs := map renamed cells). set (same := fun r => List.filter (fun x => String.eqb (rc_config x) (rc_config r)) rs).
  assert (forall r x, In x (same r) <-> In x rs /\ rc_config x = rc_config r) as Hsame
    by (intros r x; unfold same; by rewrite filter_In, String.eqb_eq).
  split.
  - intros r Hr. apply list_elem_of_In, filter_In in Hr as [Hr Hmax]. apply bool_decide_eq_true in Hmax. fold (same r) in Hmax.
    apply in_map_iff in Hr as (c & <- & Hc). exists c. split; [by apply Hcells|]. split; [done|]. intros c' Hc' Heq.
    apply str_max_spec in Hmax as [_ Hall]. apply (proj1 (List.Forall_forall _ _) Hall).
    change (rc_run_id c') with (rc_run_id (renamed c')). apply in_map, Hsame. split; [|done]. by apply in_map, Hcells.
  - intros c Hc%Hcells. assert (In (renamed c) (same (renamed c))) as Hin by (apply Hsame; split; [by apply in_map|done]).
    destruct (str_max (map rc_run_id (same (renamed c)))) as [m|] eqn:Hm; [|by destruct (same (renamed c))].
    destruct (str_max_spec _ _ Hm) as [Hrun _]. apply list_elem_of_In, in_map_iff in Hrun as (r & Hrun & [Hr Hconf]%Hsame).
    exists r. split; [|done]. apply list_elem_of_In, filter_In. split; [done|]. apply bool_decide_eq_true.
    fold (same r). assert (same r = same (renamed c)) as -> by (unfold same; by rewrite Hconf). by rewrite Hm, Hrun.
Qed.

(** ** The pooled means *)
Section Pooled.
Open Scope Q_scope.

Lemma Qsum_app l l' : Qsum (l ++ l') == Qsum l + Qsum l'.
Proof. induction l as [|x l IH]; cbn [app]; [unfold Qsum at 2; cbn [fold_left]; ring|]. rewrite !Qsum_cons, IH. ring. Qed.

(** Where every trial of a row counts in its mean, the pooled mean is the mean
    over all trials. *)
Theorem pooled_mean_exact (mean_of : campaign_row -> option Q) (g : list campaign_row) (trials : list (list Q))
    (Hg : Forall2 (fun r u => mean_of r = mean_or_none u /\ cr_n r = py_len u) g trials)
    (Hne : concat trials <> []) :
  exists m, pooled_mean mean_of g (Zsum (map cr_n g)) = Some m /\ m == Qmean (concat trials).
Proof.
  assert (Zsum (map cr_n g) = py_len (concat trials)
    /\ Qsum (omap (fun r => option_map (fun m => m * inject_Z (cr_n r)) (mean_of r)) g) == Qsum (concat trials)
    /\ (omap mean_of g = [] -> concat trials = [])) as (Hn & Hsum & Hnil).
  { clear Hne. induction Hg as [|r u g us [Hm Hn] _ (IH1 & IH2 & IH3)]; [by split_and!|].
    set (f := fun r => option_map (fun m => m * inject_Z (cr_n r)) (mean_of r)) in *.
    cbn [map concat]. rewrite Zsum_cons, IH1, Hn. unfold py_len. rewrite length_app, Nat2Z.inj_add. split; [done|].
    rewrite Qsum_app, <- IH2. destruct u as [|x u]; cbn [omap list_omap]; unfold f at 1; rewrite Hm; cbn [mean_or_none option_map].
    - split; [change (Qsum []) with 0; change (list_omap _ _ f g) with (omap f g); ring|exact IH3].
    - split; [|done]. change (list_omap _ _ f g) with (omap f g). rewrite Qsum_cons, Hn. unfold Qmean, py_len.
      assert (~ inject_Z (Z.of_nat (length (x :: u))) == 0) as Hz by (intros Hz; unfold Qeq in Hz; simpl in Hz; lia).
      apply Qplus_comp; [|reflexivity]. by field. }
  unfold pooled_mean. destruct (omap mean_of g) eqn:Ho; [by rewrite Hnil in Hne|].
  eexists. split; [reflexivity|]. unfold Qmean. by rewrite Hsum, Hn.
Qed.

(** Where some trials do not, it is not: one rejection with four unverified
    chunks among two trials, and another configuration without a rejection. *)
Example pooled_mean_biased :
  let row config detected unverified :=
    mkCampaignRow config "hash_chain" (Some 2%Z) "drop" 2 detected (Some 0%Z) None unverified in
  let g := [row "hybrid" 1%Z (Some 4); row "full_pqc" 0%Z None] in
  exists m, pooled_mean cr_unverified_mean g (Zsum (map cr_n g)) = Some m /\ m == 2
    /\ Qmean [4] == 4.
Proof. eexists. split; [reflexivity|]. split; reflexivity. Qed.
End Pooled.

(** ** The frontier's model and its points *)
Section Frontier.
Open Scope Q_scope.
Context (hc : list stream_run) (chunk n : Z) (cfg : string) (size : Q).

(** A run of [n] chunks whose signatures, as many as the validation expects,
    have one size. *)
Definition regular_run (r : stream_run) : Prop :=
  (0 <= interval_k r)%Z /\ dget "n_chunks" (sn_metrics r) = Some (Some (inject_Z n))
  /\ exists q count, dget "total_signature_bytes" (sn_metrics r) = Some (Some q)
       /\ expected_signature_count "hash_chain" n (sn_interval r) None = Ok count /\ q == inject_Z count * size.

Lemma constant_median l x : l <> [] -> Forall (fun y => y == x) l -> exists m, np_median l = Some m /\ m == x.
Proof.
  intros Hl Hx. destruct (np_median_between l x x Hl) as (m & Hm & Hb).
  - eapply Forall_impl; [exact Hx|]. intros y Hy. rewrite Hy. split; apply Qle_refl.
  - exists m. split; [done|lra].
Qed.

Lemma ks_of_spec k : k ∈ ks_of cfg hc <-> exists r, r ∈ hc /\ sn_config r = cfg /\ interval_k r = k.
Proof.
  unfold ks_of, k_order, sorted_unique. rewrite elem_of_app, !list_elem_of_In, !filter_In, <- !list_elem_of_In.
  rewrite !merge_sort_Permutation, !elem_of_remove_dups, !list_elem_of_In, !in_map_iff.
  setoid_rewrite filter_In. setoid_rewrite list_elem_of_In. setoid_rewrite String.eqb_eq.
  destruct (k =? 0)%Z; cbn [negb]; naive_solver.
Qed.

(** The runs of an interval: as many signatures as the model has. *)
Lemma with_k_regular k r :
  Forall (fun r => sn_config r = cfg -> regular_run r) hc -> r ∈ with_k cfg k hc ->
  regular_run r /\ interval_k r = k.
Proof.
  intros Hall Hr. unfold with_k in Hr. apply list_elem_of_In in Hr. apply filter_In in Hr as [Hr Hk].
  apply filter_In in Hr as [Hr Hc]. apply String.eqb_eq in Hc. split; [|by apply Z.eqb_eq].
  exact (proj1 (List.Forall_forall _ _) Hall r Hr Hc).
Qed.

Context (Hregular : Forall (fun r => sn_config r = cfg -> regular_run r) hc).

Lemma with_k_nonempty k : k ∈ ks_of cfg hc -> with_k cfg k hc <> [].
Proof.
  intros (r & Hr & Hc & Hk)%ks_of_spec Hnil.
  assert (In r (with_k cfg k hc)) as Hin; [|by rewrite Hnil in Hin].
  apply filter_In. split; [|by apply Z.eqb_eq]. apply filter_In. split; [by apply list_elem_of_In|by apply String.eqb_eq].
Qed.

(** The median of a column that is one value in all the rows. *)
Lemma column_constant c rows x :
  rows <> [] -> Forall (fun r => exists q, dget c (sn_metrics r) = Some (Some q) /\ q == x) rows ->
  exists m, column_median c rows = Some m /\ m == x.
Proof.
  intros Hne Hall. apply constant_median.
  - destruct Hall as [|r rows (q & Hq & _) _]; [done|]. unfold column. cbn. by rewrite Hq.
  - unfold column. clear Hne. induction Hall as [|r rows (q & Hq & Hx) _ IH]; [constructor|]. cbn. rewrite Hq. by constructor.
Qed.

Definition model_count (k : Z) : Z := if (k =? 0)%Z then 1 else (n / k + 1)%Z.
Lemma measured_bytes k :
  k ∈ ks_of cfg hc ->
  exists m, column_median "total_signature_bytes" (with_k cfg k hc) = Some m /\ m == inject_Z (model_count k) * size.
Proof.
  intros Hk. apply column_constant; [by apply with_k_nonempty|]. apply List.Forall_forall. intros r Hr.
  apply list_elem_of_In, (with_k_regular k r Hregular) in Hr as [(Hpos & _ & q & count & Hq & Hcount & He) Hi].
  exists q. split; [exact Hq|]. rewrite He. replace (model_count k) with count; [reflexivity|].
  unfold expected_signature_count in Hcount. cbn in Hcount. unfold interval_k in *. unfold model_count.
  destruct (sn_interval r) as [k'|]; cbn in Hi, Hpos; [subst k'|subst k; by injection Hcount].
  destruct (Z.eqb_spec k 0); cbn [orb] in Hcount; [by injection Hcount|].
  rewrite (proj2 (Z.leb_gt _ _)) in Hcount by lia. by injection Hcount.
Qed.
Lemma measured_chunks k :
  k ∈ ks_of cfg hc -> exists m, column_median "n_chunks" (with_k cfg k hc) = Some m /\ m == inject_Z n.
Proof.
  intros Hk. apply column_constant; [by apply with_k_nonempty|]. apply List.Forall_forall. intros r Hr.
  apply list_elem_of_In, (with_k_regular k r Hregular) in Hr as [(_ & Hn & _) _]. eexists. split; [exact Hn|reflexivity].
Qed.

(** The frontier's dotted line goes through its points: where the runs of a
    configuration have [n] chunks and signatures of one size in the number the
    validation expects, and some run has only the terminal signature, the
    model's signature bytes are the measured ones at every interval. *)
Theorem frontier_model_fits (Hinf : 0%Z ∈ ks_of cfg hc) :
  Forall2 (fun point model => exists x y, snd point = Some x /\ snd model = Some y /\ x == y)
    (fo_measured (frontier_of hc chunk cfg)) (fo_model (frontier_of hc chunk cfg)).
Proof.
  unfold frontier_of. cbn [fo_measured fo_model].
  assert (existsb (Z.eqb 0) (ks_of cfg hc) = true) as Hex by (apply existsb_exists; exists 0%Z; split; [by apply list_elem_of_In|done]).
  rewrite Hex. set (nm := np_median _).
  assert (exists m, nm = Some m /\ m == inject_Z n) as (nq & Hnm & Hnq).
  { apply constant_median.
    - destruct (measured_chunks 0%Z Hinf) as (m & Hm & _). intros Hnil.
      assert (m ∈ omap (fun k => column_median "n_chunks" (with_k cfg k hc)) (ks_of cfg hc)) as Hin
        by (apply list_elem_of_omap; by exists 0%Z).
      rewrite Hnil in Hin. by apply elem_of_nil in Hin.
    - apply List.Forall_forall. intros m Hm. apply list_elem_of_In, list_elem_of_omap in Hm as (k & Hk & Hm).
      destruct (measured_chunks k Hk) as (m' & Hm' & He). congruence. }
  rewrite Hnm. destruct (measured_bytes 0%Z Hinf) as (s0 & Hs0 & He0). rewrite Hs0.
  assert (exists ks, ks_of cfg hc = ks ++ [0%Z] /\ Forall (fun k => 0 < k)%Z ks) as (ks & Hks & Hpos).
  { assert (forall k, k ∈ ks_of cfg hc -> (0 <= k)%Z) as Hge.
    { intros k (r & Hr & Hc & <-)%ks_of_spec. apply list_elem_of_In in Hr.
      by destruct (proj1 (List.Forall_forall _ _) Hregular r Hr Hc). }
    unfold ks_of, k_order in *. set (s := sorted_unique _ _) in *.
    assert (NoDup s) as Hnd by (unfold s, sorted_unique; rewrite merge_sort_Permutation; apply NoDup_remove_dups).
    exists (List.filter (fun k => negb (k =? 0)%Z) s). split.
    - f_equal. assert (0%Z ∈ s) as H0.
      { apply list_elem_of_In. apply list_elem_of_In, in_app_iff in Hinf as [H|H]; by apply filter_In in H as [H _]. }
      clear -Hnd H0. induction Hnd as [|k s Hk _ IH]; [by apply elem_of_nil in H0|]. cbn [List.filter].
      destruct (Z.eqb_spec k 0) as [->|Hne].
      + f_equal. clear -Hk. induction s as [|k s IH]; [done|]. cbn [List.filter].
        rewrite (proj2 (Z.eqb_neq _ _)) by (intros ->; apply Hk; left). apply IH. intros H. apply Hk. by right.
      + apply IH. by apply elem_of_cons in H0 as [H0|H0]; [congruence|].
    - apply List.Forall_forall. intros k Hk. assert (0 <= k)%Z by (apply Hge, list_elem_of_In, in_app_iff; by left).
      apply filter_In in Hk as [_ Hk]. destruct (Z.eqb_spec k 0); [done|lia]. }
  assert (List.filter (fun k => 0 <? k)%Z (ks_of cfg hc) = ks) as ->.
  { rewrite Hks, List.filter_app. cbn. rewrite app_nil_r. apply forallb_filter_id, forallb_forall. intros k Hk.
    apply Z.ltb_lt. exact (proj1 (List.Forall_forall _ _) Hpos k Hk). }
  assert (forall k, k ∈ ks -> k ∈ ks_of cfg hc) as Hsub by (intros k Hk; rewrite Hks; apply elem_of_app; by left).
  rewrite Hks, map_app. apply Forall2_app.
  - clear Hks. induction Hpos as [|k ks Hk _ IH]; [constructor|]. constructor; [|apply IH; intros; apply Hsub; by right].
    cbn [snd]. destruct (measured_bytes k (Hsub k ltac:(left))) as (m & Hm & He). rewrite Hm.
    eexists _, _. split; [done|]. split; [done|]. rewrite He, He0, Hnq, <- Zdiv_Qdiv. unfold model_count. cbn [Z.eqb].
    rewrite (proj2 (Z.eqb_neq k 0)) by lia. rewrite inject_Z_plus. ring.
  - constructor; [|constructor]. cbn [snd]. rewrite Hs0. exists s0, s0. split; [done|]. split; [done|reflexivity].
Qed.
End Frontier.
